(* ===== verification/_CoqProject ===== *)
-Q . S2P
Prelude.v
PyFloat.v
PyValue.v
PyTime.v
PyDateTime.v
PyNet.v
PyPath.v
PyText.v
PyJson.v
PyJsonFacts.v
PyEffect.v
LifecycleCore.v
LifecycleIO.v
LifecycleSamples.v
LifecycleRecords.v
LifecycleInstall.v
LifecycleNetwork.v
LifecycleTransaction.v
LifecycleCommands.v
LifecycleEvidence.v
LifecycleRecovery.v
LifecycleLogic.v
LifecycleInvariants.v
LifecycleRecoveryFacts.v
LifecycleSafety.v
LifecycleClosure.v
LifecycleTopology.v
LifecycleActivation.v
LifecycleReconcile.v
LifecycleRecoverySample.v
BackupPolicy.v
Vault.v
VaultStore.v
VaultKnownGood.v
VaultRetention.v
VaultFacts.v
VaultInventory.v
VaultStoreFacts.v
VaultAcceptance.v
VaultKnownGoodFacts.v
VaultRetentionPlan.v
VaultPrune.v
VaultGoverned.v
VaultSamples.v
VaultWitnesses.v
Operator.v
OperatorFacts.v
Deadman.v
DeadmanFacts.v
DeadmanLive.v
PyUtf8.v
PerfStatistics.v
Wire.v
WireScenario.v
WireFacts.v
WireRequest.v
WireRuns.v
WireMatch.v
Canary.v
CanaryFlow.v
CanarySample.v
CanaryReport.v
CanaryWatchdog.v
CanaryFlowFacts.v
CanaryTrace.v
CanaryStoreFacts.v
CanaryGaps.v
CanaryReportFacts.v
CanaryWatchdogFacts.v
CanarySampleFacts.v
CanaryMain.v
CanaryWitnesses.v
Window.v
WindowFacts.v
WindowWitnesses.v
WindowComplete.v
WindowManager.v
WindowChain.v
WindowFinal.v
WindowRun.v
