(* ===== verification/Prelude.v ===== *)
(** * BoostGateway operations tooling: a verification library

    ** The program

    The Python code of the repository is the tooling that operates the gateway:
    the scripts under [src/scripts] and the Kubernetes operator.  The parts
    modelled here are these.

    - The release lifecycle manager ([src/scripts/lib/release_deployment_*.py]
      and [release_lifecycle_io.py]) installs a release beside the older ones,
      deploys, upgrades and rolls back by moving two symbolic links and one
      image environment, verifies the running deployment, reconciles
      transactions that a crash interrupted, and closes a failed recovery on
      the evidence of a manual one.  It is a class made of mixins:
      [InstallMixin] owns the release trees, the deployment records and the
      links; [RecoveryMixin] the transaction records and the evidence of manual
      recoveries; [TransactionMixin] the reconciliation of interrupted
      transactions and the deadlines; [ActivationMixin] activation and
      restoration; [CommandsMixin] the commands, which hold the lifecycle lock,
      reconcile first and then act.  Docker, systemd and Redis are reached only
      through the [LifecycleExecutor] protocol.
    - The off-host backup vault ([backup_recovery.py],
      [run_backup_vault_retention.py]) receives backups over a stream, stores
      them create-only, attests known-good ones and deletes old ones under the
      backup and recovery policy ([backup_recovery_policy.py]).
    - The Kubernetes operator ([src/k8s/operator/operator.py]) keeps the
      deployment and the service of a GatewayServer resource and reports its
      health.
    - The external dead-man signal ([external_deadman.py]) pings a provider and
      publishes a receipt that holds no secret.
    - The business protocol client and its scenarios
      ([perf_business_protocol.py], [perf_business_operations.py]) measure the
      gateway over its binary protocol and judge the outcome.
    - The external business canary ([external_business_canary.py]) plays a
      business script against the gateway every minute from another host,
      writes one sample per minute create-only, alerts on failures, watches its
      own samples, and reports availability and gaps over a period.
    - The immutable window ([immutable_window.py], [deadman_evidence.py] and the
      controller [manage_immutable_window.py]) declares 30 days of such samples in
      advance, on the evidence of a drill of the dead-man signal, binds the
      declaration to a public comment and to a timer, audits the first minute,
      has the canary aggregate the days after their end, and closes the window on
      a final review, or supersedes it.

    ** The files

    - [Prelude] (this file): exceptions and the error monad [res], text and
      list functions of Python, the shared lemmas and tactics.
    - [PyFloat], [PyValue], [PyTime], [PyDateTime], [PyNet], [PyPath],
      [PyText], [PyJson], [PyJsonFacts], [PyUtf8]: what the code uses of the
      language and its standard library.  Floats are IEEE 754 binary64; a JSON
      document is a value of [py], a dict an association list in insertion
      order; [json.dumps] and [json.loads], [datetime.fromisoformat],
      [ipaddress], [pathlib], [shlex.split], [urlparse] and the UTF-8 decoders
      follow CPython 3.12.
    - [PyEffect]: computations over a state that return, raise or die, with
      their weakest preconditions; the vault, the operator, the dead-man signal,
      the protocol client, the canary and the window controller are written in it.
    - [LifecycleCore]: [release_deployment_core.py].  The constants, the
      identity patterns, the two environment parsers and the renderer, the host
      guard, the install attestations.
    - [LifecycleIO]: the state of the host ([st]), the monad of the commands
      ([M]), the fault model, [release_lifecycle_io.py], the [Layout] and the
      classes [Runtime] and [LifecycleExecutor].
    - [LifecycleRecords]: records, links, the active image environment,
      deadlines and executor calls, shared by all commands.
    - [LifecycleInstall]: [install] and the release manifest.
    - [LifecycleNetwork]: [release_deployment_runtime.py], the validation of
      the one historical deployment admitted without a fixed address plan.
    - [LifecycleTransaction]: [_reconcile_pending], [_restore],
      [verify_current] and the lock.  [LifecycleCommands]: [_activate],
      [deploy], [upgrade], [rollback] and [status].
    - [LifecycleEvidence] and [LifecycleRecovery]: [_validate_manual_recovery]
      and [reconcile_recovery] with the operations they are made of.
    - [LifecycleLogic]: triples over [M] with a second postcondition for
      exceptions and crashes.  [LifecycleInvariants]: the interface
      ([LifecycleFrame], [LifecycleInvariant]) that an assertion has to satisfy
      to survive every command, and the preservation theorems proved against
      it.  [LifecycleRecoveryFacts]: the same for [reconcile_recovery].
    - [LifecycleSafety], [LifecycleClosure], [LifecycleTopology],
      [LifecycleActivation], [LifecycleReconcile]: the theorems about the
      commands.  [LifecycleSamples], [LifecycleRecoverySample]: a concrete
      host and runtime on which the witnesses evaluate the commands.
    - [BackupPolicy]: [backup_recovery_policy.py], its checks and theorems.
    - [Vault]: the directories of the vault, its streams and its fault model.
      [VaultStore]: the upload frame, [remote_store], the receipts and the
      inventory.  [VaultKnownGood]: the attestations.  [VaultRetention]: the
      plan, [prune_remote] and the governed run.  Their theorems are in
      [VaultFacts], [VaultInventory], [VaultStoreFacts], [VaultAcceptance],
      [VaultKnownGoodFacts], [VaultRetentionPlan], [VaultPrune] and
      [VaultGoverned]; [VaultSamples] and [VaultWitnesses] hold a sample vault.
    - [Operator]: the manifests, the statuses and the five handlers over the
      class [KubeApi].  [OperatorFacts]: their theorems.
    - [Deadman]: the credential, the request, the receipt and its publication.
      [DeadmanFacts], [DeadmanLive]: their theorems.
    - [PerfStatistics]: the percentiles and rates of [perf_statistics.py], used
      by the scenarios and the canary.
    - [Wire]: packets, [recv_exact], [BusinessOperationClient], the worker and
      the matchmaking cohort over the class [WireRuntime].  [WireScenario]: the
      scenarios, the summaries and the aggregation.  [WireFacts] (packets),
      [WireRequest] (requests), [WireRuns] (the leaderboard), [WireMatch]
      (matchmaking, and sample peers): their theorems.
    - [Canary]: the configuration, the evidence store with its create-only
      writes, and the class [CanaryRuntime].  [CanaryFlow]: the business flow
      and its clean-up.  [CanarySample]: alerts and [run_once].
      [CanaryReport]: maintenance, gaps and the aggregation.
      [CanaryWatchdog]: [watchdog].  [CanaryMain]: the dispatch of [main].
      Their theorems are in [CanaryFlowFacts], [CanaryTrace],
      [CanaryStoreFacts], [CanaryGaps], [CanaryReportFacts],
      [CanaryWatchdogFacts], [CanarySampleFacts] and [CanaryMain];
      [CanaryWitnesses] holds a sample host.
    - [Window]: the declaration, its admission and validation, the attestation
      of the drill, the manifest and the final checks.  [WindowFacts]: their
      theorems, the last one over the canary's report; [WindowWitnesses]: sample
      documents.  [WindowComplete]: what the canary reports on complete evidence.
    - [WindowManager]: the commands of the controller over the window
      directories, the records published create-only in them and the systemd
      units, with the class [WindowRuntime]; the canary that [aggregate] starts is
      [canary_main] on the files of that moment.  [WindowChain]: the grounds of
      each record.  [WindowFinal]: every command keeps to them, and what follows.
      [WindowRun]: a host on which a window is declared, bound, audited and
      closed.

    ** State, effects and faults

    A command is a function from a state to an outcome and a state; the outcome
    is a value, an exception or a crash, and the state survives all three, as
    files do.  Every durable write and every external call is an event with a
    number.  At each event the runtime of the component ([Runtime],
    [VaultRuntime], [DeadmanRuntime], [CanaryRuntime], [WindowRuntime]) decides whether the write proceeds, fails
    with an [OSError] before or after it took effect, or the process dies;
    clocks, random identifiers, evidence files outside the state, real paths
    and file identities are functions of the event number too.  A theorem for
    every runtime is therefore a theorem for every schedule of faults and every
    interleaving with the outside.  The class [ExecutorContract] states the one
    thing asked of an executor: it writes nothing of the lifecycle's state but
    the summary files it was told to write.  The operator's API server is a
    class of operations over a world that is not fixed, and [kopf] a function
    that says where it stores a handler's result.  A connection of the protocol
    client is the list of what single [recv] calls will return; the class
    [SocketErrors] states that sockets fail with [OSError]s.

    ** The theorems

    - Safety ([LifecycleSafety]): in every reachable state [current] points
      only to a deployment recorded as verified, whose verification returned.
    - Transactions ([LifecycleClosure], [LifecycleTopology]): at most one
      transaction is open; a failed recovery blocks every command that could
      change the topology; a closed record, and the record of a reconciled
      transaction, agree with where [current] points, in every state a crash
      can leave.
    - Recovery ([LifecycleReconcile]): [reconcile_recovery] closes exactly the
      blocking transaction, on complete evidence, moves nothing, is idempotent
      and refuses everything else.
    - Effects ([LifecycleActivation], [LifecycleInstall]): what a returning
      activation, rollback and installation have done, in which order, and
      that an installation can be repeated.
    - Contracts ([LifecycleCore], [LifecycleNetwork], [PyTime]): the parsers
      and validators accept exactly, or only, what they should; the producer's
      evidence satisfies the consumer's check; what is written reads back.
    - Policy ([BackupPolicy]): what a passing summary guarantees, and that the
      empty policy passes unchecked.
    - The vault ([VaultStoreFacts], [VaultAcceptance], [VaultKnownGoodFacts]):
      an upload never harms a stored backup, stays within the capacity, and a
      frame of the source host is accepted from any fragments with a receipt
      that verifies; an attestation reads back.
    - Retention ([VaultRetentionPlan], [VaultPrune], [VaultGoverned]): a plan
      keeps what the policy asks for; a deletion loses nothing but what it
      announced, at any crash, and puts back what it can; a governed run leaves
      exactly the planned backups and size.
    - The operator ([OperatorFacts]): the handlers converge on the objects of
      their resource and touch no other; the health assessment is a window of
      three checks over its counter, and the handlers lose that counter.
    - The dead-man signal ([DeadmanFacts], [DeadmanLive]): whatever happens no
      file is overwritten and no secret written, and a receipt is published for
      every signal that was sent when the system calls work.
    - The protocol ([WireFacts], [WireRequest], [WireRuns], [WireMatch]):
      packets round-trip from any pieces; a request returns exactly the answer
      with its number; a passed leaderboard scenario has had the whole dialogue
      of every client; every scenario ends with its connections closed.
    - The canary's flow ([CanaryFlowFacts], [CanaryTrace]): the six steps are
      recorded in order and well typed whatever the SDK does; six successes mean
      the whole script was played and answered; every client is disconnected and
      every room left, however the flow ends.
    - The canary's evidence ([CanarySampleFacts], [CanaryReportFacts],
      [CanaryWatchdogFacts], [CanaryMain]): a sample is new, reads back and is
      counted in its minute; the reported gaps are the longest runs of minutes
      without a valid sample; a passing report has the samples it claims; a
      verdict of the watchdog has its grounds on record; and one undecodable
      sample file silences the watchdog.
    - The window ([WindowFacts]): a declaration is accepted as it was made; an
      accepted attestation proves the drill and holds no secret; an accepted
      aggregate is about exactly the declared days and their minutes; and the
      aggregate of complete evidence is accepted ([WindowComplete]).
    - The life of a window ([WindowFinal]): in every state that commands,
      failures and crashes can lead to, a closed window was published before its
      start, audited at it, covered by samples and reviewed; at most one window is
      unfinished; no record changes, and a superseded window stays as it is.

    ** Bounds

    Most loops run over lists of files, lines and records and are structural.
    Fuel appears in the conversions of [PyFloat], where it is the number of
    digits a binary64 value can need; in [json_loads] and the UTF-8 decoders,
    where it is the length of the text; in [read_exact], [recv_exact] and
    [write_all], where every round moves at least one byte; and in the loops of
    [request] and [poll_until_matched], where every round but the last receives
    a packet.  The minutes of a report have as many steps as the period has
    minutes.  Running out of fuel is a crash of the model, and lemmas show that
    it does not happen.  Deadlines are binary64 subtractions, as in the code.
    The age of a sample, an admission report or a snapshot is compared in exact
    microseconds: its bounds are whole seconds, which binary64 holds.  That 0.999
    of 72 hours is 4316 minutes is computed for all 4320 quotients.

    ** What is not modelled

    - The text an [OSError], [struct.error] or a JSON parser adds to a message,
      and, but for the samples of the canary, a file that is not UTF-8.  The
      canary's evidence is a list of documents by path.  Text is ASCII except in the protocol
      client, where it is UTF-8; a JSON text with an escape beyond ASCII is not
      accepted, and the interpreter's limits on recursion and on the digits of
      an integer are left out.
    - Temporary files of the lifecycle's atomic writes: no reader opens them.
    - Trees are flat maps from relative paths; a symbolic link below a hashed
      directory stands for a link to a file.  A link of the layout is stored
      with the real path it resolves to.
    - An evidence path that turns into a symbolic link between its check and
      its use reads as missing.  One validation of an attestation sees each
      external summary once; owners, modes and identities of files are what
      the runtime observes.
    - SHA-256 is a function of the content; no property of it is assumed
      except where a theorem states it.
    - Files outside the windows can change between two steps of the controller,
      but one scan of the samples, one admission of reports and one run of the
      canary see one moment.  Nobody else writes to the window directories.
    - Two commands at once: the lock serialises them, so a history is a
      sequence of commands.  The threads of a pool own their connections, and
      run one after the other with arbitrary clock readings.
    - [SystemLifecycleExecutor], the subprocess-driven tools (backup creation,
      isolated restore, performance drivers), the HTTPS transport of the
      dead-man signal, the provider request of [deadman_evidence.py], the command
      [install] of the window controller, the argument parsers, the startup of the operator, the gates and
      producers, the SDK and the C++ gateway. *)
From Stdlib Require Export ZArith Lia Ascii.
From stdpp Require Export base list strings gmap fin_maps sorting.

(** ** Exceptions and fallible computations *)

(** The exception classes the modelled code raises or catches.  The classes
    that Python's standard library derives from another one of the list are
    related by [exn_isa].  The [ApiException] of the Kubernetes client carries
    the HTTP status and the [StepFailure] of the canary the error type and the
    integer code that their handlers look at. *)
Inductive exn_class :=
  | CLifecycleError
  | CPolicyError
  | COSError
  | CFileNotFoundError
  | CFileExistsError
  | CValueError
  | CJSONDecodeError
  | CKeyError
  | CIndexError
  | CTypeError
  | CAttributeError
  | CAssertionError
  | CSubprocessError
  | CRuntimeError
  | CBackupError
  | CVaultRetentionError
  | CDeadmanError
  | CStructError
  | CTimeoutError
  | CConnectionError
  | CSSLError
  | CUnicodeDecodeError
  | CZlibError
  | COverflowError
  | CCanaryError
  | CStepFailure (error_type : string) (code : option (bool + Z))
  | CApiException (status : Z).

#[export] Instance exn_class_eq_dec : EqDecision exn_class.
Proof. solve_decision. Defined.

Record exn := Exn { exn_cls : exn_class; exn_msg : string }.

#[export] Instance exn_eq_dec : EqDecision exn.
Proof. solve_decision. Defined.

(** [isinstance(exc, cls)] on the classes of [exn_class]. *)
Definition exn_isa (c : exn_class) (e : exn) : bool :=
  bool_decide (exn_cls e = c) ||
  match c, exn_cls e with
  | COSError, (CFileNotFoundError | CFileExistsError | CTimeoutError | CConnectionError | CSSLError)
      => true
  | CValueError, (CJSONDecodeError | CUnicodeDecodeError) => true
  | CBackupError, CVaultRetentionError => true
  | CCanaryError, CStepFailure _ _ => true
  | _, _ => false
  end.

(** Pure fallible code: a value or the exception that left the call. *)
Inductive res (A : Type) :=
  | Ok (a : A)
  | Raise (e : exn).
Arguments Ok {A} a.
Arguments Raise {A} e.

#[export] Instance res_ret : MRet res := λ A a, Ok a.
#[export] Instance res_bind : MBind res := λ A B f m,
  match m with Ok a => f a | Raise e => Raise e end.

Definition raise_lc {A} (msg : string) : res A := Raise (Exn CLifecycleError msg).
Definition raise_policy {A} (msg : string) : res A := Raise (Exn CPolicyError msg).

Definition raise_rt {A} (msg : string) : res A := Raise (Exn CRuntimeError msg).
Definition guard_rt (bad : bool) (msg : string) : res unit :=
  if bad then raise_rt msg else Ok ().

(** [if condition: raise LifecycleError(msg)]. *)
Definition guard_lc (bad : bool) (msg : string) : res unit :=
  if bad then raise_lc msg else Ok ().

(** [if condition: raise cls(msg)]. *)
Definition guard_cls (c : exn_class) (bad : bool) (msg : string) : res unit :=
  if bad then Raise (Exn c msg) else Ok ().

Definition is_ok {A} (m : res A) : bool :=
  match m with Ok _ => true | Raise _ => false end.

(** ** String operations of Python's [str] used by the code

    A [str] is modelled as a Rocq [string]; the code only compares, splits and
    matches ASCII text. *)

Fixpoint str_in (c : ascii) (s : string) : bool :=
  match s with
  | EmptyString => false
  | String a s => Ascii.eqb a c || str_in c s
  end.

(** [s.split(c, 1)] when [c] occurs in [s]: the text before and after the
    first occurrence. *)
Fixpoint split_once (c : ascii) (s : string) : option (string * string) :=
  match s with
  | EmptyString => None
  | String a s =>
      if Ascii.eqb a c then Some ("", s)
      else match split_once c s with
           | Some (l, r) => Some (String a l, r)
           | None => None
           end
  end.

Definition starts_with (p s : string) : bool := String.prefix p s.

(** [p in s]. *)
Fixpoint contains (p s : string) : bool :=
  starts_with p s || match s with String _ r => contains p r | EmptyString => false end.

Fixpoint str_all (p : ascii → bool) (s : string) : bool :=
  match s with
  | EmptyString => true
  | String a s => p a && str_all p s
  end.

(** The characters at which [str.splitlines] breaks (line feed, vertical tab,
    form feed, carriage return, file/group/record separators, NEL). *)
Definition is_line_break (a : ascii) : bool :=
  let n := N_of_ascii a in
  ((10 <=? n) && (n <=? 13) || (28 <=? n) && (n <=? 30) || (n =? 133))%N.

(** [str.splitlines()]: [cur] is the reversed pending line; a carriage return
    directly followed by a line feed is one break; no final empty line. *)
Fixpoint splitlines_go (cur : string) (s : string) : list string :=
  match s with
  | EmptyString => match cur with EmptyString => [] | _ => [String.rev cur] end
  | String a r =>
      if is_line_break a then
        match r with
        | String b r' =>
            if Ascii.eqb a "013"%char && Ascii.eqb b "010"%char
            then String.rev cur :: splitlines_go "" r'
            else String.rev cur :: splitlines_go "" r
        | EmptyString => [String.rev cur]
        end
      else splitlines_go (String a cur) r
  end.
Definition splitlines (s : string) : list string := splitlines_go "" s.

(** The whitespace of [str.strip()] and [str.split()]. *)
Definition is_space (a : ascii) : bool :=
  let n := N_of_ascii a in
  ((9 <=? n) && (n <=? 13) || (28 <=? n) && (n <=? 32) || (n =? 133) || (n =? 160))%N.

Fixpoint lstrip (p : ascii → bool) (s : string) : string :=
  match s with
  | EmptyString => EmptyString
  | String a r => if p a then lstrip p r else s
  end.
Definition strip_by (p : ascii → bool) (s : string) : string :=
  String.rev (lstrip p (String.rev (lstrip p s))).
Definition strip (s : string) : string := strip_by is_space s.

(** [s.split()]: maximal runs of non-whitespace. *)
Fixpoint split_ws_go (cur : string) (s : string) : list string :=
  match s with
  | EmptyString => match cur with EmptyString => [] | _ => [String.rev cur] end
  | String a r =>
      if is_space a
      then match cur with
           | EmptyString => split_ws_go "" r
           | _ => String.rev cur :: split_ws_go "" r
           end
      else split_ws_go (String a cur) r
  end.
Definition split_ws (s : string) : list string := split_ws_go "" s.

Definition lower_char (a : ascii) : ascii :=
  let n := N_of_ascii a in
  if ((65 <=? n) && (n <=? 90))%N then ascii_of_N (n + 32)%N else a.
Fixpoint lower (s : string) : string :=
  match s with
  | EmptyString => EmptyString
  | String a s => String (lower_char a) (lower s)
  end.

Definition ends_with (suffix s : string) : bool :=
  String.prefix (String.rev suffix) (String.rev s).

Fixpoint str_concat (sep : string) (l : list string) : string :=
  match l with
  | [] => ""
  | [s] => s
  | s :: r => s +:+ sep +:+ str_concat sep r
  end.

Fixpoint str_take (n : nat) (s : string) : string :=
  match n, s with
  | S n, String a s => String a (str_take n s)
  | _, _ => EmptyString
  end.

(** [s[n:]]. *)
Fixpoint str_skip (n : nat) (s : string) : string :=
  match n, s with
  | S n, String _ s => str_skip n s
  | _, _ => s
  end.

(** [s.split(c)]: [cur] is the reversed pending part. *)
Fixpoint split_char (c : ascii) (cur s : string) : list string :=
  match s with
  | EmptyString => [String.rev cur]
  | String a r =>
      if Ascii.eqb a c then String.rev cur :: split_char c "" r
      else split_char c (String a cur) r
  end.
Definition path_parts (p : string) : list string := split_char "/" "" p.

(** [len(s)], of bytes. *)
Definition str_len (s : string) : Z := Z.of_nat (String.length s).

(** ** Big-endian numbers, as [int.to_bytes] and [struct] write them *)

Fixpoint be_bytes (k : nat) (n : N) : string :=
  match k with
  | O => ""
  | S k => be_bytes k (n / 256)%N +:+ String (ascii_of_N (n mod 256)%N) ""
  end.
Fixpoint be_value (acc : N) (s : string) : N :=
  match s with
  | EmptyString => acc
  | String a r => be_value (256 * acc + N_of_ascii a)%N r
  end.

(** ** Recognisers for the code's regular expressions *)

Definition is_digit (a : ascii) : bool :=
  let n := N_of_ascii a in ((48 <=? n) && (n <=? 57))%N.
Definition is_upper (a : ascii) : bool :=
  let n := N_of_ascii a in ((65 <=? n) && (n <=? 90))%N.
Definition is_lower (a : ascii) : bool :=
  let n := N_of_ascii a in ((97 <=? n) && (n <=? 122))%N.
Definition is_alnum (a : ascii) : bool := is_digit a || is_upper a || is_lower a.

(** [[0-9a-f]]. *)
Definition is_hex (a : ascii) : bool :=
  let n := N_of_ascii a in is_digit a || ((97 <=? n) && (n <=? 102))%N.

(** [[0-9a-f]{n}\Z] with [fullmatch]. *)
Definition re_hex (n : nat) (s : string) : bool :=
  Nat.eqb (String.length s) n && str_all is_hex s.

Fixpoint str_span (p : ascii → bool) (s : string) : string * string :=
  match s with
  | EmptyString => ("", "")
  | String a r =>
      if p a then let '(l, t) := str_span p r in (String a l, t) else ("", s)
  end.

(** ** Sets of strings *)

Definition mem_str (s : string) (l : list string) : bool :=
  existsb (String.eqb s) l.

(** Equality of two string sets given by duplicate-tolerant lists. *)
Definition same_set (l m : list string) : bool :=
  forallb (λ s, mem_str s m) l && forallb (λ s, mem_str s l) m.

Definition sort_str (l : list string) : list string := merge_sort String.le l.

(** ** Shared lemmas *)

Lemma mem_str_spec s l : mem_str s l = true ↔ s ∈ l.
Proof.
  unfold mem_str. rewrite existsb_exists. setoid_rewrite String.eqb_eq.
  rewrite list_elem_of_In. naive_solver.
Qed.

Lemma mem_str_false s l : s ∉ l → mem_str s l = false.
Proof. intros Hs. apply not_true_iff_false. by rewrite mem_str_spec. Qed.

Lemma same_set_spec l m : same_set l m = true ↔ (∀ s, s ∈ l ↔ s ∈ m).
Proof.
  unfold same_set. rewrite andb_true_iff, !forallb_forall.
  setoid_rewrite mem_str_spec. setoid_rewrite <- list_elem_of_In. naive_solver.
Qed.

Lemma Ok_inj {A} (a b : A) : Ok a = Ok b → a = b.
Proof. by intros [= ->]. Qed.

Lemma res_bind_ok {A B} (m : res A) (f : A → res B) b :
  (m ≫= f) = Ok b ↔ ∃ a, m = Ok a ∧ f a = Ok b.
Proof. destruct m; simpl; naive_solver. Qed.

Lemma res_bind_raise {A B} (m : res A) (f : A → res B) e :
  (m ≫= f) = Raise e → m = Raise e ∨ ∃ a, m = Ok a ∧ f a = Raise e.
Proof. destruct m; simpl; naive_solver. Qed.

Lemma guard_lc_ok bad msg u : guard_lc bad msg = Ok u ↔ bad = false.
Proof. destruct bad, u; simpl; naive_solver. Qed.

Lemma guard_rt_ok bad msg u : guard_rt bad msg = Ok u ↔ bad = false.
Proof. destruct bad, u; simpl; naive_solver. Qed.

Lemma guard_cls_ok c bad msg u : guard_cls c bad msg = Ok u ↔ bad = false.
Proof. destruct bad, u; simpl; naive_solver. Qed.

Lemma app_str_assoc (a b c : string) : (a +:+ b) +:+ c = a +:+ (b +:+ c).
Proof. induction a as [|x a IH]; [done|]. unfold String.append in *; fold String.append in *. by rewrite IH. Qed.

Lemma app_str_nil_r (a : string) : a +:+ "" = a.
Proof. induction a as [|x a IH]; [done|]. unfold String.append in *; fold String.append in *. by rewrite IH. Qed.

Lemma length_app_str (a b : string) :
  String.length (a +:+ b) = (String.length a + String.length b)%nat.
Proof.
  induction a as [|x a IH]; [done|]. change (String x a +:+ b) with (String x (a +:+ b)).
  simpl. by rewrite IH.
Qed.

Lemma str_all_app p (a b : string) : str_all p (a +:+ b) = str_all p a && str_all p b.
Proof.
  induction a as [|x a IH]; [done|]. change (String x a +:+ b) with (String x (a +:+ b)).
  simpl. by rewrite IH, andb_assoc.
Qed.

Lemma cons_app a x y : String a x +:+ y = String a (x +:+ y).
Proof. done. Qed.

Lemma str_all_mono (p q : ascii → bool) s :
  (∀ a, p a = true → q a = true) → str_all p s = true → str_all q s = true.
Proof.
  intros Hpq. induction s as [|a s IH]; [done|]. simpl. intros [Ha Hs]%andb_true_iff.
  by rewrite Hpq, IH.
Qed.

Lemma str_in_app c a b : str_in c (a +:+ b) = str_in c a || str_in c b.
Proof. induction a as [|x a IH]; [done|]. rewrite cons_app. simpl. by rewrite IH, orb_assoc. Qed.

Lemma str_all_not_in p c s : str_all p s = true → p c = false → str_in c s = false.
Proof.
  intros Hs Hc. induction s as [|a s IH]; [done|]. simpl in *. apply andb_true_iff in Hs as [Ha Hs].
  rewrite (IH Hs), orb_false_r. destruct (Ascii.eqb_spec a c) as [->|]; [congruence|done].
Qed.

Lemma str_take_skip n s : str_take n s +:+ str_skip n s = s.
Proof.
  revert s. induction n as [|n IH]; intros s; [done|]. destruct s as [|a s]; [done|].
  simpl. rewrite cons_app. by rewrite IH.
Qed.

Lemma str_take_full n s : (String.length s ≤ n)%nat → str_take n s = s.
Proof.
  revert s. induction n as [|n IH]; intros [|a s] Hn; simpl in *; try done; [lia|].
  by rewrite IH by lia.
Qed.

Lemma str_skip_all n s : (String.length s ≤ n)%nat → str_skip n s = "".
Proof. revert s. induction n as [|n IH]; intros [|a s]; simpl; try done; [lia|]. intros. by rewrite IH by lia. Qed.

Lemma str_take_length n s : String.length (str_take n s) = Nat.min n (String.length s).
Proof.
  revert s. induction n as [|n IH]; intros [|a s]; simpl; try done. by rewrite IH.
Qed.

Lemma str_take_add a b s : str_take (a + b) s = str_take a s +:+ str_take b (str_skip a s).
Proof.
  revert s. induction a as [|a IH]; intros s; [done|]. destruct s as [|c s]; simpl.
  - by destruct b.
  - by rewrite cons_app, IH.
Qed.

Lemma take_app_str n a b :
  str_take n (a +:+ b) = str_take n a +:+ str_take (n - String.length a) b.
Proof.
  revert a. induction n as [|n IH]; intros [|c a]; simpl; [done..|].
  by rewrite !cons_app, IH.
Qed.

Lemma skip_app n a b :
  str_skip n (a +:+ b) = str_skip n a +:+ str_skip (n - String.length a) b.
Proof.
  revert a. induction n as [|n IH]; intros [|c a]; simpl; [done..|]. apply IH.
Qed.

Lemma str_skip_app a b : str_skip (String.length a) (a +:+ b) = b.
Proof. induction a as [|x a IH]; [by destruct b|done]. Qed.

Lemma str_skip_length n s : String.length (str_skip n s) = (String.length s - n)%nat.
Proof. revert s. induction n as [|n IH]; intros [|a s]; simpl; [done|done|done|apply IH]. Qed.

Lemma str_len_app a b : str_len (a +:+ b) = (str_len a + str_len b)%Z.
Proof. unfold str_len. rewrite length_app_str. lia. Qed.

Lemma str_len_0 s : str_len s = 0%Z ↔ s = "".
Proof. unfold str_len. destruct s; simpl; [done|]. split; [lia|done]. Qed.

Lemma str_len_ge s : (0 <= str_len s)%Z.
Proof. unfold str_len. lia. Qed.

Lemma str_len_pos s : s ≠ "" → (0 < str_len s)%Z.
Proof. intros Hs. pose proof (str_len_ge s). assert (str_len s ≠ 0%Z) by (by rewrite str_len_0). lia. Qed.

Lemma be_bytes_length k n : String.length (be_bytes k n) = k.
Proof. revert n. induction k as [|k IH]; intros n; simpl; [done|]. rewrite length_app_str, IH. simpl. lia. Qed.

Lemma be_value_app acc a b : be_value acc (a +:+ b) = be_value (be_value acc a) b.
Proof.
  revert acc. induction a as [|x a IH]; intros acc; [done|].
  change (String x a +:+ b) with (String x (a +:+ b)). simpl. by rewrite IH.
Qed.

Lemma be_value_bytes k acc n :
  (n < 256 ^ N.of_nat k)%N → be_value acc (be_bytes k n) = (acc * 256 ^ N.of_nat k + n)%N.
Proof.
  revert acc n. induction k as [|k IH]; intros acc n Hn.
  - simpl in *. lia.
  - cbn [be_bytes]. rewrite Nat2N.inj_succ, N.pow_succ_r' in *. rewrite be_value_app, IH.
    + cbn [be_value]. rewrite N_ascii_embedding by (apply N.mod_lt; lia).
      pose proof (N.div_mod n 256 ltac:(lia)). lia.
    + apply N.Div0.div_lt_upper_bound; lia.
Qed.

Lemma be_bytes_S k n :
  be_bytes (S k) n = be_bytes k (n / 256) +:+ String (ascii_of_N (n mod 256)%N) "".
Proof. done. Qed.

Lemma be_bytes_cons k c m :
  (m < 256 ^ N.of_nat k)%N →
  be_bytes (S k) (c * 256 ^ N.of_nat k + m) = String (ascii_of_N (c mod 256)) (be_bytes k m).
Proof.
  revert m. induction k as [|k IH]; intros m Hm.
  - change (N.of_nat 0) with 0%N in *. rewrite N.pow_0_r in *.
    by replace (c * 1 + m)%N with c by lia.
  - rewrite Nat2N.inj_succ, N.pow_succ_r' in *. set (p := (256 ^ N.of_nat k)%N) in *.
    rewrite (be_bytes_S (S k)), (be_bytes_S k m), <- cons_app. f_equal.
    + rewrite <- IH by (apply N.Div0.div_lt_upper_bound; lia). do 2 f_equal.
      replace (c * (256 * p) + m)%N with (m + c * p * 256)%N by lia.
      rewrite N.div_add by lia. lia.
    + do 2 f_equal. replace (c * (256 * p) + m)%N with (m + c * p * 256)%N by lia.
      by rewrite N.Div0.mod_add.
Qed.

Lemma be_value_acc acc s :
  be_value acc s = (acc * 256 ^ N.of_nat (String.length s) + be_value 0 s)%N.
Proof.
  revert acc. induction s as [|a s IH]; intros acc; cbn [be_value String.length]; [simpl; lia|].
  rewrite (IH (256 * acc + _)%N), (IH (256 * 0 + _)%N), Nat2N.inj_succ, N.pow_succ_r'. lia.
Qed.

Lemma be_value_bound s : (be_value 0 s < 256 ^ N.of_nat (String.length s))%N.
Proof.
  induction s as [|a s IH]; cbn [be_value String.length]; [simpl; lia|].
  rewrite be_value_acc, Nat2N.inj_succ, N.pow_succ_r'. pose proof (N_ascii_bounded a). nia.
Qed.

Lemma be_bytes_value s : be_bytes (String.length s) (be_value 0 s) = s.
Proof.
  induction s as [|a s IH]; [done|]. cbn [be_value String.length].
  rewrite be_value_acc, be_bytes_cons by apply be_value_bound.
  rewrite IH. f_equal. pose proof (N_ascii_bounded a).
  rewrite N.mod_small by lia. replace (256 * 0 + N_of_ascii a)%N with (N_of_ascii a) by lia.
  apply ascii_N_embedding.
Qed.

Lemma rev_app_spec (a b : string) : String.rev_app a b = String.rev a +:+ b.
Proof.
  unfold String.rev. revert b. induction a as [|x a IH]; intros b; [done|].
  simpl. rewrite IH. rewrite (IH (String x "")). by rewrite app_str_assoc.
Qed.

Lemma split_once_spec c s l r :
  split_once c s = Some (l, r) → s = l +:+ String c r ∧ str_in c l = false.
Proof.
  revert l r. induction s as [|a s IH]; intros l r; simpl; [done|].
  destruct (Ascii.eqb_spec a c) as [->|Hne].
  - intros [= <- <-]. done.
  - destruct (split_once c s) as [[l' r']|] eqn:E; [|done].
    intros [= <- <-]. destruct (IH _ _ eq_refl) as [-> Hl]. split; [done|].
    simpl. rewrite Hl. apply Ascii.eqb_neq in Hne. by rewrite Hne.
Qed.

Lemma split_once_app c l r :
  str_in c l = false → split_once c (l +:+ String c r) = Some (l, r).
Proof.
  induction l as [|a l IH]; simpl.
  - intros _. by rewrite Ascii.eqb_refl.
  - intros [Ha Hl]%orb_false_iff. rewrite Ha, IH by done. done.
Qed.

Lemma filter_all {A} (P : A → Prop) `{∀ x, Decision (P x)} (l : list A) :
  Forall P l → filter P l = l.
Proof. induction 1 as [|x l Hx _ IH]; [done|]. by rewrite filter_cons_True, IH. Qed.

(** ** Automation *)


(** Split a successful run of a [res] computation into the success of each of
    its steps. *)
Ltac res_inv :=
  repeat match goal with
  | H : (_ ≫= _) = Ok _ |- _ => apply res_bind_ok in H as (? & ? & ?)
  | H : guard_lc _ _ = Ok _ |- _ => apply guard_lc_ok in H
  | H : guard_rt _ _ = Ok _ |- _ => apply guard_rt_ok in H
  | H : guard_cls _ _ _ = Ok _ |- _ => apply guard_cls_ok in H
  | H : raise_rt _ = Ok _ |- _ => discriminate H
  | H : Ok _ = Ok _ |- _ => injection H as H
  | H : Raise _ = Ok _ |- _ => discriminate H
  | H : raise_lc _ = Ok _ |- _ => discriminate H
  end; subst.

(** Turn a false disjunction of guards into the list of its false members, and
    a true conjunction into its true members. *)
Ltac bool_split :=
  repeat match goal with
  | H : _ || _ = false |- _ => apply orb_false_iff in H as [? ?]
  | H : _ && _ = true |- _ => apply andb_true_iff in H as [? ?]
  | H : negb _ = false |- _ => apply negb_false_iff in H
  | H : negb _ = true |- _ => apply negb_true_iff in H
  end.
