(* ===== verification/PyFloat.v ===== *)
(** * Python floats

    Python's [float] is IEEE 754 binary64.  The values are the Standard
    Library's [spec_float], the operations its [SF...] functions at precision
    53 and exponent bound 1024 (round to nearest, ties to even).  On top of
    them: exact comparison with integers, correctly rounded decimal
    conversion, [round(x, n)] and [repr(x)]. *)
From Stdlib Require Import SpecFloat DecimalString.
From S2P Require Import Prelude.

Definition pfloat := spec_float.

#[export] Instance pfloat_eq_dec : EqDecision pfloat.
Proof. solve_decision. Defined.

Local Open Scope Z_scope.

Definition fadd (x y : pfloat) : pfloat := SFadd 53 1024 x y.
Definition fsub (x y : pfloat) : pfloat := SFsub 53 1024 x y.
Definition fmul (x y : pfloat) : pfloat := SFmul 53 1024 x y.
Definition fdiv (x y : pfloat) : pfloat := SFdiv 53 1024 x y.
Definition fleb (x y : pfloat) : bool := SFleb x y.
Definition fltb (x y : pfloat) : bool := SFltb x y.
Definition feqb (x y : pfloat) : bool := SFeqb x y.

(** [float(z)] for an integer in range. *)
Definition f_of_Z (z : Z) : pfloat := binary_normalize 53 1024 z 0 false.

Definition f_zero : pfloat := S754_zero false.

(** [m * 10^e] correctly rounded, with the given sign ([m >= 0]). *)
Definition f_of_dec (neg : bool) (m : Z) (e : Z) : pfloat :=
  match m with
  | Z0 | Zneg _ => S754_zero neg
  | Zpos p =>
      if 0 <=? e then binary_round 53 1024 neg (p * Z.to_pos (10 ^ e)) 0
      else SFdiv 53 1024 (S754_finite neg p 0)
                         (S754_finite false (Z.to_pos (10 ^ (- e))) 0)
  end.

Definition f_is_finite (x : pfloat) : bool :=
  match x with S754_zero _ | S754_finite _ _ _ => true | _ => false end.

(** Exact comparison of a float with an integer, as Python compares [float]
    and [int]: [None] for NaN. *)
Definition f_cmp_Z (x : pfloat) (z : Z) : option comparison :=
  match x with
  | S754_nan => None
  | S754_infinity s => Some (if s then Lt else Gt)
  | S754_zero _ => Some (0 ?= z)
  | S754_finite s m e =>
      let v := if s then Zneg m else Zpos m in
      Some (if 0 <=? e then (v * 2 ^ e ?= z) else (v ?= z * 2 ^ (- e)))
  end.

(** [n / d] rounded to the nearest integer, ties to even ([d > 0]). *)
Definition div_half_even (n d : Z) : Z :=
  let q := n / d in
  let r := 2 * (n mod d) in
  match r ?= d with
  | Lt => q
  | Gt => q + 1
  | Eq => if Z.even q then q else q + 1
  end.

(** The magnitude of a finite float as an exact fraction. *)
Definition f_frac (m : positive) (e : Z) : Z * Z :=
  if 0 <=? e then (Zpos m * 2 ^ e, 1) else (Zpos m, 2 ^ (- e)).

(** [round(x, nd)] for [nd >= 0]: the exact value rounded half-even to [nd]
    decimals, then converted back. *)
Definition f_round (x : pfloat) (nd : Z) : pfloat :=
  match x with
  | S754_finite s m e =>
      let '(n, d) := f_frac m e in
      f_of_dec s (div_half_even (n * 10 ^ nd) d) (- nd)
  | _ => x
  end.

(** *** [repr] *)

Definition Z_str (z : Z) : string := NilZero.string_of_int (Z.to_int z).

(** The decimal exponent [k] with [10^(k-1) <= n/d < 10^k], found from a
    starting guess by at most [fuel] corrections. *)
Fixpoint dec_exp (fuel : nat) (n d k : Z) : Z :=
  match fuel with
  | O => k
  | S fuel =>
      let lo := if 1 <=? k then n <? d * 10 ^ (k - 1) else n * 10 ^ (1 - k) <? d in
      let hi := if 0 <=? k then d * 10 ^ k <=? n else d <=? n * 10 ^ (- k) in
      if lo then dec_exp fuel n d (k - 1)
      else if hi then dec_exp fuel n d (k + 1)
      else k
  end.

(** The shortest decimal [(digits, exponent)] that reads back as [x]: for each
    length [i] the two neighbouring [i]-digit decimals are tried, the nearer
    one first.  Seventeen digits always suffice for binary64, so the fuel of
    [17 - i] is enough. *)
Fixpoint shortest (fuel : nat) (x : pfloat) (n d k i : Z) : Z * Z :=
  let sc := i - k in
  let '(n', d') := if 0 <=? sc then (n * 10 ^ sc, d) else (n, d * 10 ^ (- sc)) in
  let near := div_half_even n' d' in
  let far := if near =? n' / d' then near + 1 else n' / d' in
  match fuel with
  | O => (near, - sc)
  | S fuel =>
      if feqb (f_of_dec false near (- sc)) x then (near, - sc)
      else if feqb (f_of_dec false far (- sc)) x then (far, - sc)
      else shortest fuel x n d k (i + 1)
  end.

Fixpoint str_repeat (c : ascii) (n : nat) : string :=
  match n with O => "" | S n => String c (str_repeat c n) end.

Fixpoint rstrip_zeros_rev (s : string) : string :=
  match s with
  | String "0"%char r => rstrip_zeros_rev r
  | _ => s
  end.

(** Format digits [0.ds * 10^decpt] as [repr] does: exponent form when
    [decpt <= -4] or [decpt > 16]. *)
Definition fmt_repr (ds : string) (decpt : Z) : string :=
  let nd := Z.of_nat (String.length ds) in
  if (decpt <=? -4) || (16 <? decpt) then
    let ex := decpt - 1 in
    let tail := str_skip 1 ds in
    let es := Z_str (Z.abs ex) in
    str_take 1 ds +:+ (if String.eqb tail "" then "" else "." +:+ tail) +:+ "e"
      +:+ (if ex <? 0 then "-" else "+")
      +:+ (if (String.length es <? 2)%nat then "0" +:+ es else es)
  else if decpt <=? 0 then "0." +:+ str_repeat "0" (Z.to_nat (- decpt)) +:+ ds
  else if nd <=? decpt
  then ds +:+ str_repeat "0" (Z.to_nat (decpt - nd)) +:+ ".0"
  else str_take (Z.to_nat decpt) ds +:+ "." +:+ str_skip (Z.to_nat decpt) ds.

Definition f_repr (x : pfloat) : string :=
  match x with
  | S754_nan => "nan"
  | S754_infinity s => if s then "-inf" else "inf"
  | S754_zero s => if s then "-0.0" else "0.0"
  | S754_finite s m e =>
      let '(n, d) := f_frac m e in
      let guess := (Z.log2 n - Z.log2 d) * 30103 / 100000 in
      let k := dec_exp 8 n d guess in
      let '(ds, ex) := shortest 17 (S754_finite false m e) n d k 1 in
      let digits := Z_str ds in
      let decpt := ex + Z.of_nat (String.length digits) in
      let body := fmt_repr (String.rev (rstrip_zeros_rev (String.rev digits))) decpt in
      if s then "-" +:+ body else body
  end.

(** [f"{x:.0f}"]. *)
Definition f_fmt0 (x : pfloat) : string :=
  match x with
  | S754_nan => "nan"
  | S754_infinity s => if s then "-inf" else "inf"
  | S754_zero s => if s then "-0" else "0"
  | S754_finite s m e =>
      let '(n, d) := f_frac m e in
      let body := Z_str (div_half_even n d) in
      if s then "-" +:+ body else body
  end.

(** ** Checks against the interpreter's behaviour *)

Example repr_600 : f_repr (f_of_Z 600) = "600.0".
Proof. vm_compute. reflexivity. Qed.

Example repr_tenth : f_repr (f_of_dec false 1 (-1)) = "0.1".
Proof. vm_compute. reflexivity. Qed.

Example repr_third : f_repr (fdiv (f_of_Z 1) (f_of_Z 3)) = "0.3333333333333333".
Proof. vm_compute. reflexivity. Qed.

Example repr_sum : f_repr (fadd (f_of_dec false 1 (-1)) (f_of_dec false 2 (-1)))
  = "0.30000000000000004".
Proof. vm_compute. reflexivity. Qed.

Example repr_small : f_repr (f_of_dec false 15 (-6)) = "1.5e-05".
Proof. vm_compute. reflexivity. Qed.

Example repr_big : f_repr (f_of_dec true 1 16) = "-1e+16".
Proof. vm_compute. reflexivity. Qed.

Example round_ties : f_round (f_of_dec false 2675 (-3)) 2 = f_of_dec false 267 (-2).
Proof. vm_compute. reflexivity. Qed.

Example fmt0_600 : f_fmt0 (f_of_Z 600) = "600".
Proof. vm_compute. reflexivity. Qed.
