(* ===== verification/PyValue.v ===== *)
(** * Python values of JSON documents

    The data that the tooling exchanges are JSON documents held as Python
    values: [None], [bool], [int], [float], [str], [list] and [dict] with
    string keys.  A dict is an association list in insertion order with
    distinct keys.  The file defines the operations that the code uses on such
    values ([get], item assignment, [update], [setdefault], [==], [is True],
    [isinstance], [str], [repr]) and [json.dumps(v, indent=2,
    sort_keys=True)]. *)
From Stdlib Require Import SpecFloat.
From S2P Require Import Prelude PyFloat.

Inductive py :=
  | PNone
  | PBool (b : bool)
  | PInt (z : Z)
  | PFloat (f : pfloat)
  | PStr (s : string)
  | PList (l : list py)
  | PDict (d : list (string * py)).

Abbreviation pydict := (list (string * py)).

(** Induction with hypotheses for the members of lists and dicts. *)
Section py_rect.
Variable P : py → Prop.
Hypothesis HNone : P PNone.
Hypothesis HBool : ∀ b, P (PBool b).
Hypothesis HInt : ∀ z, P (PInt z).
Hypothesis HFloat : ∀ f, P (PFloat f).
Hypothesis HStr : ∀ s, P (PStr s).
Hypothesis HList : ∀ l, Forall P l → P (PList l).
Hypothesis HDict : ∀ d, Forall (λ kv, P kv.2) d → P (PDict d).

Fixpoint py_nested_ind (v : py) : P v :=
  match v with
  | PNone => HNone
  | PBool b => HBool b
  | PInt z => HInt z
  | PFloat f => HFloat f
  | PStr s => HStr s
  | PList l => HList l
      ((fix go (l : list py) : Forall P l :=
          match l with
          | [] => Forall_nil_2 P
          | v :: r => Forall_cons_2 P v r (py_nested_ind v) (go r)
          end) l)
  | PDict d => HDict d
      ((fix go (d : pydict) : Forall (λ kv, P kv.2) d :=
          match d with
          | [] => Forall_nil_2 _
          | kv :: r => Forall_cons_2 _ kv r (py_nested_ind kv.2) (go r)
          end) d)
  end.
End py_rect.

(** ** Dict operations *)

Fixpoint dlookup (k : string) (d : pydict) : option py :=
  match d with
  | [] => None
  | (k', v) :: r => if String.eqb k k' then Some v else dlookup k r
  end.

(** [d.get(k, default)] and [d.get(k)]. *)
Definition get_or (d : pydict) (k : string) (default : py) : py :=
  match dlookup k d with Some v => v | None => default end.
Definition get (d : pydict) (k : string) : py := get_or d k PNone.

(** [k in d]. *)
Definition has (d : pydict) (k : string) : bool :=
  match dlookup k d with Some _ => true | None => false end.

(** [d[k] = v]: replace in place or append. *)
Fixpoint dset (d : pydict) (k : string) (v : py) : pydict :=
  match d with
  | [] => [(k, v)]
  | (k', v') :: r => if String.eqb k k' then (k', v) :: r else (k', v') :: dset r k v
  end.

(** [d.update(kvs)]. *)
Definition dupdate (d : pydict) (kvs : pydict) : pydict :=
  fold_left (λ d kv, dset d kv.1 kv.2) kvs d.

(** [d.setdefault(k, v)] used as a statement. *)
Definition dsetdefault (d : pydict) (k : string) (v : py) : pydict :=
  if has d k then d else dset d k v.

Definition dkeys (d : pydict) : list string := map fst d.

(** [d[k]] with its [KeyError]. *)
Definition item (d : pydict) (k : string) : res py :=
  match dlookup k d with
  | Some v => Ok v
  | None => Raise (Exn CKeyError ("'" +:+ k +:+ "'"))
  end.

(** [v.get(k)] on a value that must be a dict. *)
Definition vget (v : py) (k : string) : res py :=
  match v with
  | PDict d => Ok (get d k)
  | _ => Raise (Exn CAttributeError "object has no attribute 'get'")
  end.

(** ** Type tests and identity with the singletons *)

Definition is_true (v : py) : bool := match v with PBool true => true | _ => false end.
Definition is_false (v : py) : bool := match v with PBool false => true | _ => false end.
Definition is_none (v : py) : bool := match v with PNone => true | _ => false end.
Definition is_bool_of (v : py) (b : bool) : bool :=
  match v with PBool b' => Bool.eqb b b' | _ => false end.
Definition is_dict (v : py) : bool := match v with PDict _ => true | _ => false end.
Definition is_list (v : py) : bool := match v with PList _ => true | _ => false end.
Definition is_str (v : py) : bool := match v with PStr _ => true | _ => false end.

(** [isinstance(v, int) and not isinstance(v, bool)]. *)
Definition is_int (v : py) : bool := match v with PInt _ => true | _ => false end.

Definition as_dict (v : py) : pydict := match v with PDict d => d | _ => [] end.
Definition as_list (v : py) : list py := match v with PList l => l | _ => [] end.

(** Truth value testing ([if v], [a or b]). *)
Definition truthy (v : py) : bool :=
  match v with
  | PNone => false
  | PBool b => b
  | PInt z => negb (Z.eqb z 0)
  | PFloat f => match f with S754_zero _ => false | _ => true end
  | PStr s => negb (String.eqb s "")
  | PList l => match l with [] => false | _ => true end
  | PDict d => match d with [] => false | _ => true end
  end.
Definition py_or (a b : py) : py := if truthy a then a else b.

(** ** Equality *)

(** [==] between the numeric types: [True == 1 == 1.0]. *)
Inductive num := NInt (z : Z) | NFloat (f : pfloat).
Definition num_of (v : py) : option num :=
  match v with
  | PBool b => Some (NInt (if b then 1 else 0)%Z)
  | PInt z => Some (NInt z)
  | PFloat f => Some (NFloat f)
  | _ => None
  end.
Definition num_eqb (a b : num) : bool :=
  match a, b with
  | NInt x, NInt y => Z.eqb x y
  | NFloat x, NFloat y => feqb x y
  | NFloat x, NInt y | NInt y, NFloat x =>
      match f_cmp_Z x y with Some Eq => true | _ => false end
  end.

(** [a < b] and [a <= b], false when a NaN is compared. *)
Definition num_cmp (a b : num) : option comparison :=
  match a, b with
  | NInt x, NInt y => Some (Z.compare x y)
  | NFloat x, NFloat y => SFcompare x y
  | NFloat x, NInt y => f_cmp_Z x y
  | NInt x, NFloat y => option_map CompOpp (f_cmp_Z y x)
  end.
Definition num_ltb (a b : num) : bool := match num_cmp a b with Some Lt => true | _ => false end.
Definition num_leb (a b : num) : bool :=
  match num_cmp a b with Some (Lt | Eq) => true | _ => false end.

Fixpoint py_eqb (a b : py) {struct a} : bool :=
  match a, b with
  | PNone, PNone => true
  | PStr s, PStr t => String.eqb s t
  | PList l, PList m =>
      (fix go (l m : list py) : bool :=
         match l, m with
         | [], [] => true
         | x :: l, y :: m => py_eqb x y && go l m
         | _, _ => false
         end) l m
  | PDict d, PDict e =>
      Nat.eqb (length d) (length e) &&
      (fix go (d : pydict) : bool :=
         match d with
         | [] => true
         | kv :: r =>
             match dlookup kv.1 e with Some w => py_eqb kv.2 w | None => false end && go r
         end) d
  | _, _ =>
      match num_of a, num_of b with
      | Some x, Some y => num_eqb x y
      | _, _ => false
      end
  end.

(** [a in (b1, ..., bn)] and membership in a set of hashable values. *)
Definition py_in (v : py) (l : list py) : bool := existsb (py_eqb v) l.
Definition str_among (v : py) (l : list string) : bool :=
  match v with PStr s => mem_str s l | _ => false end.

(** [any(d.get(k) != v for k, v in required.items())]. *)
Definition differs (d : pydict) (required : pydict) : bool :=
  existsb (λ kv, negb (py_eqb (get d kv.1) kv.2)) required.

(** [v in {...}] for a set of strings: a list or dict is unhashable. *)
Definition in_str_set (v : py) (l : list string) : res bool :=
  match v with
  | PStr s => Ok (mem_str s l)
  | PList _ | PDict _ => Raise (Exn CTypeError "unhashable type")
  | _ => Ok false
  end.

(** A positive [int] that is not a [bool]. *)
Definition positive_count (v : py) : bool :=
  match v with PInt z => (0 <? z)%Z | _ => false end.

(** [d.get(k) != v], [d.get(k) is not True], [d.get(k) is not False]. *)
Definition ne (d : pydict) (k : string) (v : py) : bool := negb (py_eqb (get d k) v).
Definition not_true (d : pydict) (k : string) : bool := negb (is_true (get d k)).
Definition not_false (d : pydict) (k : string) : bool := negb (is_false (get d k)).

(** An [int] or [float] that is not a [bool] and at least zero. *)
Definition positive_number (v : py) : bool :=
  match v with
  | PInt _ | PFloat _ =>
      match num_of v with Some x => num_leb (NInt 0) x | None => false end
  | _ => false
  end.

(** ** [str] and [repr] *)

Definition hex_digit (n : N) : ascii :=
  ascii_of_N (if (n <? 10)%N then 48 + n else 87 + n)%N.

Definition repr_char (quote : ascii) (a : ascii) : string :=
  let n := N_of_ascii a in
  if Ascii.eqb a quote || Ascii.eqb a "\"%char then String "\" (String a "")
  else if (n =? 10)%N then "\n"
  else if (n =? 13)%N then "\r"
  else if (n =? 9)%N then "\t"
  else if ((n <? 32) || (127 <=? n) && (n <=? 160) || (n =? 173))%N
  then String "\" (String "x" (String (hex_digit (n / 16)) (String (hex_digit (n mod 16)) "")))
  else String a "".

Fixpoint map_str (f : ascii → string) (s : string) : string :=
  match s with
  | EmptyString => ""
  | String a r => f a +:+ map_str f r
  end.

Definition double_quote : ascii := "034"%char.
Definition str_repr (s : string) : string :=
  let q := if str_in "'" s && negb (str_in double_quote s) then double_quote else "'"%char in
  String q (map_str (repr_char q) s +:+ String q "").

Fixpoint py_repr (v : py) : string :=
  match v with
  | PNone => "None"
  | PBool true => "True"
  | PBool false => "False"
  | PInt z => Z_str z
  | PFloat f => f_repr f
  | PStr s => str_repr s
  | PList l => "[" +:+ str_concat ", " (map py_repr l) +:+ "]"
  | PDict d =>
      "{" +:+ str_concat ", " (map (λ kv, str_repr kv.1 +:+ ": " +:+ py_repr kv.2) d) +:+ "}"
  end.

Definition py_str (v : py) : string :=
  match v with PStr s => s | _ => py_repr v end.

(** ** [json.dumps(v, indent=2, sort_keys=True)] *)

Definition json_char (a : ascii) : string :=
  let n := N_of_ascii a in
  if (n =? 34)%N then String "\" (String double_quote "")
  else if (n =? 92)%N then "\\"
  else if (n =? 8)%N then "\b"
  else if (n =? 9)%N then "\t"
  else if (n =? 10)%N then "\n"
  else if (n =? 12)%N then "\f"
  else if (n =? 13)%N then "\r"
  else if ((n <? 32) || (126 <? n))%N
  then "\u00" +:+ String (hex_digit (n / 16)) (String (hex_digit (n mod 16)) "")
  else String a "".

Definition json_str (s : string) : string :=
  String double_quote (map_str json_char s +:+ String double_quote "").

Definition json_float (f : pfloat) : string :=
  match f with
  | S754_nan => "NaN"
  | S754_infinity s => if s then "-Infinity" else "Infinity"
  | _ => f_repr f
  end.

Definition newline : string := String "010" "".
Definition indent_at (lvl : nat) : string := newline +:+ str_repeat " " (2 * lvl).

Definition key_le (a b : string * string) : Prop := String.le a.1 b.1.
#[export] Instance key_le_dec : RelDecision key_le.
Proof. intros a b. unfold key_le. apply _. Defined.

Fixpoint json_dumps_at (lvl : nat) (v : py) : string :=
  match v with
  | PNone => "null"
  | PBool true => "true"
  | PBool false => "false"
  | PInt z => Z_str z
  | PFloat f => json_float f
  | PStr s => json_str s
  | PList [] => "[]"
  | PList l =>
      "[" +:+ indent_at (S lvl)
        +:+ str_concat ("," +:+ indent_at (S lvl)) (map (json_dumps_at (S lvl)) l)
        +:+ indent_at lvl +:+ "]"
  | PDict [] => "{}"
  | PDict d =>
      let items := map (λ kv, (kv.1, json_dumps_at (S lvl) kv.2)) d in
      "{" +:+ indent_at (S lvl)
        +:+ str_concat ("," +:+ indent_at (S lvl))
              (map (λ kv, json_str kv.1 +:+ ": " +:+ kv.2) (merge_sort key_le items))
        +:+ indent_at lvl +:+ "}"
  end.
Definition json_dumps (v : py) : string := json_dumps_at 0 v.

(** [json.dumps(v, sort_keys=True, separators=(item, key))] on one line. *)
Fixpoint json_flat (isep ksep : string) (v : py) : string :=
  match v with
  | PList l => "[" +:+ str_concat isep (map (json_flat isep ksep) l) +:+ "]"
  | PDict d =>
      "{" +:+ str_concat isep
        (map (λ kv, json_str kv.1 +:+ ksep +:+ kv.2)
           (merge_sort key_le (map (λ kv, (kv.1, json_flat isep ksep kv.2)) d))) +:+ "}"
  | _ => json_dumps v
  end.
Definition json_line (v : py) : string := json_flat ", " ": " v.
Definition json_compact (v : py) : string := json_flat "," ":" v.

(** ** Lemmas *)

Lemma dlookup_dset_eq d k v : dlookup k (dset d k v) = Some v.
Proof.
  induction d as [|[k' v'] d IH]; simpl; [by rewrite String.eqb_refl|].
  destruct (String.eqb_spec k k') as [->|Hne]; simpl.
  - by rewrite String.eqb_refl.
  - apply String.eqb_neq in Hne. by rewrite Hne.
Qed.

Lemma dlookup_dset_ne d k k' v : k ≠ k' → dlookup k (dset d k' v) = dlookup k d.
Proof.
  intros Hne. induction d as [|[j w] d IH]; simpl.
  - apply String.eqb_neq in Hne. by rewrite Hne.
  - destruct (String.eqb_spec k' j) as [->|]; simpl; [|by rewrite IH].
    apply String.eqb_neq in Hne. by rewrite Hne.
Qed.

Lemma get_dset_eq d k v : get (dset d k v) k = v.
Proof. unfold get, get_or. by rewrite dlookup_dset_eq. Qed.

Lemma get_dset_ne d k k' v : k ≠ k' → get (dset d k' v) k = get d k.
Proof. intros. unfold get, get_or. by rewrite dlookup_dset_ne. Qed.

Lemma get_dsetdefault_ne d k k' v : k ≠ k' → get (dsetdefault d k' v) k = get d k.
Proof. intros Hk. unfold dsetdefault. destruct (has d k'); [done|]. by apply get_dset_ne. Qed.

Lemma has_dset_eq d k v : has (dset d k v) k = true.
Proof. unfold has. by rewrite dlookup_dset_eq. Qed.

Lemma has_dset_ne d k k' v : k ≠ k' → has (dset d k' v) k = has d k.
Proof. intros. unfold has. by rewrite dlookup_dset_ne. Qed.

Lemma dlookup_dupdate_notin d kvs k :
  k ∉ dkeys kvs → dlookup k (dupdate d kvs) = dlookup k d.
Proof.
  revert d. induction kvs as [|[j w] kvs IH]; intros d; simpl; [done|].
  intros [Hne Hnin]%not_elem_of_cons. unfold dupdate in *. simpl.
  rewrite IH by done. by apply dlookup_dset_ne.
Qed.

Lemma get_dupdate_notin d kvs k :
  k ∉ dkeys kvs → get (dupdate d kvs) k = get d k.
Proof. intros. unfold get, get_or. by rewrite dlookup_dupdate_notin. Qed.

(** The last binding of a key in an update wins. *)
Lemma get_dupdate_mid d pre k v post :
  k ∉ map fst post → get (dupdate d (pre ++ (k, v) :: post)) k = v.
Proof.
  intros Hk. transitivity (get (dupdate (dset (dupdate d pre) k v) post) k).
  { unfold dupdate. by rewrite fold_left_app. }
  rewrite get_dupdate_notin by done. apply get_dset_eq.
Qed.

Lemma get_dupdate_head d k v kvs : k ∉ map fst kvs → get (dupdate d ((k, v) :: kvs)) k = v.
Proof. apply (get_dupdate_mid d []). Qed.

Lemma py_eqb_str v s : py_eqb v (PStr s) = true ↔ v = PStr s.
Proof.
  destruct v as [|[]|z|f|t|l|d]; simpl; try (split; [done|intros [=]]).
  rewrite String.eqb_eq. naive_solver.
Qed.

Lemma py_eqb_nil v : py_eqb v (PList []) = true ↔ v = PList [].
Proof. destruct v as [|[]|z|f|t|[|x l]|d]; simpl; naive_solver. Qed.

Lemma is_true_spec v : is_true v = true ↔ v = PBool true.
Proof. destruct v as [|[]|z|f|t|l|d]; simpl; naive_solver. Qed.

Lemma is_false_spec v : is_false v = true ↔ v = PBool false.
Proof. destruct v as [|[]|z|f|t|l|d]; simpl; naive_solver. Qed.

Lemma is_dict_spec v : is_dict v = true ↔ v = PDict (as_dict v).
Proof. destruct v as [|[]|z|f|t|l|d]; simpl; naive_solver. Qed.

Lemma differs_spec d required :
  differs d required = false ↔ ∀ k v, (k, v) ∈ required → py_eqb (get d k) v = true.
Proof.
  unfold differs. induction required as [|[k v] r IH]; simpl.
  - split; [|done]. intros _ k v Hin. by apply not_elem_of_nil in Hin.
  - rewrite orb_false_iff, negb_false_iff, IH. setoid_rewrite elem_of_cons.
    split; [|naive_solver]. intros [H1 H2] k' v' [[= -> ->]|Hin]; eauto.
Qed.

(** ** Checks against the interpreter's behaviour *)

Example dumps_sorted :
  json_dumps (PDict [("b", PList [PInt 1; PNone]); ("a", PBool true)])
  = "{" +:+ newline +:+ "  " +:+ json_str "a" +:+ ": true," +:+ newline
    +:+ "  " +:+ json_str "b" +:+ ": [" +:+ newline +:+ "    1," +:+ newline
    +:+ "    null" +:+ newline +:+ "  ]" +:+ newline +:+ "}".
Proof. vm_compute. reflexivity. Qed.

Example eq_true_one : py_eqb (PBool true) (PInt 1) && py_eqb (PFloat (f_of_Z 1)) (PInt 1) = true.
Proof. vm_compute. reflexivity. Qed.

Example repr_quotes : py_str (PList [PStr "it's"; PInt (-3); PNone]) =
  "[" +:+ String double_quote ("it's" +:+ String double_quote ", -3, None]").
Proof. vm_compute. reflexivity. Qed.

Example repr_rounds : map f_repr [f_of_dec false 1 (-5); f_of_dec false 9007199254740993 0]
  = ["1e-05"; "9007199254740992.0"].
Proof. vm_compute. reflexivity. Qed.
