(* ===== verification/PyTime.v ===== *)
(** * Timestamps

    [datetime.fromisoformat] of the interpreter the tooling runs on (CPython
    3.12): the calendar, ordinal and ISO-week date forms, the basic and the
    extended time forms, fractions and offsets, and the comparison of aware
    timestamps.  A timestamp is the count of microseconds of its local reading
    since year 1, with its offset from UTC when it has one. *)
From S2P Require Import Prelude.
#[local] Open Scope Z_scope.

(** ** The calendar *)

Definition is_leap (y : Z) : bool :=
  (y mod 4 =? 0) && (negb (y mod 100 =? 0) || (y mod 400 =? 0)).

Definition days_in_month (y m : Z) : Z :=
  match m with
  | 4 | 6 | 9 | 11 => 30
  | 2 => if is_leap y then 29 else 28
  | _ => 31
  end.

Definition days_before_year (y : Z) : Z :=
  let p := y - 1 in p * 365 + p / 4 - p / 100 + p / 400.

Fixpoint days_before_month (y : Z) (m : nat) : Z :=
  match m with
  | O | 1%nat => 0
  | S k => days_before_month y k + days_in_month y (Z.of_nat k)
  end.

(** The proleptic Gregorian ordinal of a date: January 1 of year 1 is day 1. *)
Definition ymd2ord (y m d : Z) : Z :=
  days_before_year y + days_before_month y (Z.to_nat m) + d.

Definition valid_date (y m d : Z) : bool :=
  (1 <=? y) && (y <=? 9999) && (1 <=? m) && (m <=? 12) && (1 <=? d) && (d <=? days_in_month y m).

(** Monday is 0. *)
Definition weekday (ord : Z) : Z := (ord + 6) mod 7.

Definition iso_week1_monday (y : Z) : Z :=
  let first := ymd2ord y 1 1 in
  let monday := first - weekday first in
  if weekday first >? 3 then monday + 7 else monday.

Definition iso_to_ord (y w d : Z) : option Z :=
  if negb ((1 <=? y) && (y <=? 9999)) then None
  else
    let long_year :=
      let first := weekday (ymd2ord y 1 1) in
      (first =? 3) || (first =? 2) && is_leap y in
    if negb ((1 <=? w) && ((w <=? 52) || (w =? 53) && long_year)) then None
    else if negb ((1 <=? d) && (d <=? 7)) then None
    else
      let ord := iso_week1_monday y + (w - 1) * 7 + (d - 1) in
      if (1 <=? ord) && (ord <=? 3652059) then Some ord else None.

(** ** Parsing *)

Definition digit_val (a : ascii) : Z := Z.of_N (N_of_ascii a) - 48.

Fixpoint digits_go (n : nat) (acc : Z) (s : string) : option (Z * string) :=
  match n, s with
  | O, _ => Some (acc, s)
  | S n, String a r => if is_digit a then digits_go n (acc * 10 + digit_val a) r else None
  | S _, EmptyString => None
  end.
Definition parse_digits (n : nat) (s : string) : option (Z * string) := digits_go n 0 s.

(** The next character; the end of the text reads as NUL. *)
Definition peek (s : string) : ascii := match s with String a _ => a | _ => "000"%char end.
Definition advance (s : string) : string := match s with String _ r => r | _ => "" end.
Definition char_at (n : nat) (s : string) : ascii := peek (str_skip n s).

(** The date part, [len] characters long. *)
Definition parse_isoformat_date (s : string) (len : nat) : option Z :=
  '(year, p) ← parse_digits 4 s;
  let sep := Ascii.eqb (peek p) "-" in
  let p := if sep then advance p else p in
  if Ascii.eqb (peek p) "W" then
    '(week, p) ← parse_digits 2 (advance p);
    if (String.length s - String.length p <? len)%nat then
      if sep && negb (Ascii.eqb (peek p) "-") then None
      else
        '(day, _) ← parse_digits 1 (if sep then advance p else p);
        iso_to_ord year week day
    else iso_to_ord year week 1
  else
    '(month, p) ← parse_digits 2 p;
    if sep && negb (Ascii.eqb (peek p) "-") then None
    else
      '(day, _) ← parse_digits 2 (if sep then advance p else p);
      if valid_date year month day then Some (ymd2ord year month day) else None.

(** Microseconds of the fraction digits; more than six are dropped. *)
Fixpoint scale (n : nat) (v : Z) : Z := match n with O => v | S n => scale n (v * 10) end.
Definition parse_fraction (stop : nat) (p : string) : option (Z * bool) :=
  let len := Nat.min (String.length p - stop) 6 in
  '(v, q) ← parse_digits len p;
  let '(_, rest) := str_span is_digit q in
  Some (scale (6 - len) v, negb (Ascii.eqb (peek rest) "000")).

(** [[HH[:?MM[:?SS]]][.,]f*], ending where [stop] characters are left.  The
    result is the time in microseconds of the day, the validity of its fields,
    and whether text is left.  [fields] are the fields read so far. *)
Definition time_of (fields : list Z) (us : Z) : Z * bool :=
  let h := nth 0 fields 0 in let m := nth 1 fields 0 in let s := nth 2 fields 0 in
  (((h * 60 + m) * 60 + s) * 1000000 + us, (h <=? 23) && (m <=? 59) && (s <=? 59)).

Fixpoint parse_fields (k : nat) (sep : option bool) (fields : list Z) (stop : nat) (p : string)
    : option (Z * bool * bool) :=
  match k with
  | O => '(us, more) ← parse_fraction stop p; Some (time_of fields us, more)
  | S k =>
      '(v, p) ← parse_digits 2 p;
      let fields := fields ++ [v] in
      let c := peek p in
      let has_separator := match sep with Some b => b | None => Ascii.eqb c ":" end in
      if (String.length (advance p) <=? stop)%nat
      then Some (time_of fields 0, negb (Ascii.eqb c "000"))
      else if has_separator && Ascii.eqb c ":"
      then parse_fields k (Some has_separator) fields stop (advance p)
      else if Ascii.eqb c "." || Ascii.eqb c ","
      then '(us, more) ← parse_fraction stop (advance p); Some (time_of fields us, more)
      else if negb has_separator
      then parse_fields k (Some has_separator) fields stop p
      else None
  end.
Definition parse_hh_mm_ss_ff (stop : nat) (p : string) : option (Z * bool * bool) :=
  parse_fields 3 None [] stop p.

Definition is_offset_mark (a : ascii) : bool :=
  Ascii.eqb a "+" || Ascii.eqb a "-" || Ascii.eqb a "Z".

Definition day_us : Z := 86400 * 1000000.

(** The time part with its offset, both in microseconds. *)
Definition parse_isoformat_time (s : string) : option (Z * option Z) :=
  let '(_, rest) := str_span (λ a, negb (is_offset_mark a)) s in
  '(us, valid, more) ← parse_hh_mm_ss_ff (String.length rest) s;
  match rest with
  | EmptyString => if valid && negb more then Some (us, None) else None
  | String mark tz =>
      if Ascii.eqb mark "Z" then
        match tz with EmptyString => if valid then Some (us, Some 0) else None | _ => None end
      else
        '(off, _, more) ← parse_hh_mm_ss_ff 0 tz;
        if (more : bool) || negb valid then None
        else if off / 1000000 =? 0 then Some (us, Some 0)
        else if off <? day_us then Some (us, Some (if Ascii.eqb mark "-" then - off else off))
        else None
  end.

(** Where the date ends. *)
Definition separator_location (s : string) : option nat :=
  let len := String.length s in
  if (len =? 7)%nat then Some 7%nat
  else if Ascii.eqb (char_at 4 s) "-" then
    if Ascii.eqb (char_at 5 s) "W" then
      if (8 <? len)%nat && Ascii.eqb (char_at 8 s) "-" then
        if (len =? 9)%nat then None
        else if (10 <? len)%nat && is_digit (char_at 10 s) then Some 8%nat else Some 10%nat
      else Some 8%nat
    else Some 10%nat
  else if Ascii.eqb (char_at 4 s) "W" then
    let idx := (7 + String.length (fst (str_span is_digit (str_skip 7 s))))%nat in
    if (idx <? 9)%nat then Some idx
    else if Nat.even idx then Some 7%nat else Some 8%nat
  else Some 8%nat.

Record timestamp := Timestamp { ts_local : Z; ts_offset : option Z }.

(** [datetime.fromisoformat]; [None] is its [ValueError]. *)
Definition fromisoformat (s : string) : option timestamp :=
  if (String.length s <? 7)%nat then None
  else
    loc ← separator_location s;
    ord ← parse_isoformat_date s loc;
    if (loc <? String.length s)%nat then
      '(us, off) ← parse_isoformat_time (str_skip (loc + 1) s);
      Some (Timestamp (ord * day_us + us) off)
    else Some (Timestamp (ord * day_us) None).

(** [t.tzinfo is None]. *)
Definition is_naive (t : timestamp) : bool :=
  match ts_offset t with None => true | Some _ => false end.

(** The instant of an aware timestamp, by which aware timestamps compare. *)
Definition instant (t : timestamp) : Z := ts_local t - default 0 (ts_offset t).
Definition timestamp_leb (a b : timestamp) : bool := instant a <=? instant b.

(** [s.replace("Z", "+00:00")]. *)
Fixpoint replace_zulu (s : string) : string :=
  match s with
  | EmptyString => ""
  | String a r =>
      if Ascii.eqb a "Z" then "+00:00" +:+ replace_zulu r else String a (replace_zulu r)
  end.

(** ** The timestamps the tooling writes *)

Definition digit_char (v : Z) : ascii := ascii_of_N (Z.to_N (48 + v)).
Definition pad2 (v : Z) (r : string) : string :=
  String (digit_char (v / 10)) (String (digit_char (v mod 10)) r).
Definition pad4 (v : Z) (r : string) : string :=
  pad2 (v / 100) (pad2 (v mod 100) r).

(** [now()] at the given UTC reading:
    [isoformat(timespec="seconds").replace("+00:00", "Z")]. *)
Definition utc_text (y mo d h mi s : Z) : string :=
  pad4 y (String "-" (pad2 mo (String "-" (pad2 d (String "T"
    (pad2 h (String ":" (pad2 mi (String ":" (pad2 s "Z")))))))))).

Definition valid_time (h mi s : Z) : bool :=
  (0 <=? h) && (h <=? 23) && (0 <=? mi) && (mi <=? 59) && (0 <=? s) && (s <=? 59).

#[local] Ltac Zify.zify_post_hook ::= Z.to_euclidean_division_equations.

Lemma digit_char_spec v :
  0 <= v <= 9 → is_digit (digit_char v) = true ∧ digit_val (digit_char v) = v.
Proof.
  intros Hv. assert (∃ n, (n < 10)%nat ∧ v = Z.of_nat n) as (n & Hn & ->).
  { exists (Z.to_nat v). lia. }
  do 10 (destruct n as [|n]; [done|]). lia.
Qed.

(** A digit is none of the marks the parser looks for. *)
Definition plain_digit (a : ascii) : Prop :=
  is_digit a = true ∧ Ascii.eqb a "Z" = false ∧ Ascii.eqb a "W" = false
  ∧ Ascii.eqb a "-" = false ∧ is_offset_mark a = false.

Lemma digit_char_plain v : 0 <= v <= 9 → plain_digit (digit_char v).
Proof.
  intros Hv. assert (∃ n, (n < 10)%nat ∧ v = Z.of_nat n) as (n & Hn & ->).
  { exists (Z.to_nat v). lia. }
  do 10 (destruct n as [|n]; [done|]). lia.
Qed.

Lemma parse_pad2 v r : 0 <= v <= 99 → parse_digits 2 (pad2 v r) = Some (v, r).
Proof.
  intros Hv. unfold parse_digits, pad2. cbn [digits_go].
  destruct (digit_char_spec (v / 10)) as [-> ->]; [split; [apply Z.div_pos|]; lia|].
  destruct (digit_char_spec (v mod 10)) as [-> ->]; [lia|].
  do 2 f_equal. lia.
Qed.

Lemma parse_pad4 v r : 0 <= v <= 9999 → parse_digits 4 (pad4 v r) = Some (v, r).
Proof.
  intros Hv. unfold parse_digits, pad4, pad2. cbn [digits_go].
  destruct (digit_char_spec (v / 100 / 10)) as [-> ->]; [lia|].
  destruct (digit_char_spec ((v / 100) mod 10)) as [-> ->]; [lia|].
  destruct (digit_char_spec (v mod 100 / 10)) as [-> ->]; [lia|].
  destruct (digit_char_spec ((v mod 100) mod 10)) as [-> ->]; [lia|].
  do 2 f_equal. lia.
Qed.

Lemma replace_zulu_pad2 v r : 0 <= v <= 99 → replace_zulu (pad2 v r) = pad2 v (replace_zulu r).
Proof.
  intros Hv. unfold pad2. cbn [replace_zulu].
  destruct (digit_char_plain (v / 10)) as (_ & -> & _); [lia|].
  by destruct (digit_char_plain (v mod 10)) as (_ & -> & _); [lia|].
Qed.

Lemma replace_zulu_other a r :
  Ascii.eqb a "Z" = false → replace_zulu (String a r) = String a (replace_zulu r).
Proof. intros Ha. cbn [replace_zulu]. by rewrite Ha. Qed.

Lemma span_pad2 v r :
  0 <= v <= 99 →
  (str_span (λ a, negb (is_offset_mark a)) (pad2 v r)).2
  = (str_span (λ a, negb (is_offset_mark a)) r).2.
Proof.
  intros Hv. unfold pad2. cbn [str_span].
  destruct (digit_char_plain (v / 10)) as (_ & _ & _ & _ & ->); [lia|].
  destruct (digit_char_plain (v mod 10)) as (_ & _ & _ & _ & ->); [lia|].
  by destruct (str_span _ r).
Qed.

Lemma span_other a r :
  is_offset_mark a = false →
  (str_span (λ a, negb (is_offset_mark a)) (String a r)).2
  = (str_span (λ a, negb (is_offset_mark a)) r).2.
Proof. intros Ha. cbn [str_span]. rewrite Ha. cbn. by destruct (str_span _ r). Qed.

(** One field followed by a colon. *)
Lemma parse_field_colon k sep fields stop v r :
  0 <= v <= 99 → (stop < String.length r)%nat → sep ≠ Some false →
  parse_fields (S k) sep fields stop (pad2 v (String ":" r))
  = parse_fields k (Some true) (fields ++ [v]) stop r.
Proof.
  intros Hv Hr Hs. cbn [parse_fields]. rewrite parse_pad2 by done.
  cbn [mbind option_bind peek advance].
  replace (_ <=? _)%nat with false by (symmetry; apply Nat.leb_gt; lia).
  by destruct sep as [[]|].
Qed.

(** The clock fields up to the offset. *)
Lemma parse_clock h mi s tail :
  valid_time h mi s = true → tail ≠ "" →
  parse_hh_mm_ss_ff (String.length tail)
    (pad2 h (String ":" (pad2 mi (String ":" (pad2 s tail)))))
  = Some (((h * 60 + mi) * 60 + s) * 1000000, true, negb (Ascii.eqb (peek tail) "000")).
Proof.
  unfold valid_time. intros Hv Ht. bool_split. unfold parse_hh_mm_ss_ff.
  rewrite !parse_field_colon by (unfold pad2; cbn [String.length]; try done; lia).
  cbn [parse_fields]. rewrite parse_pad2 by lia. cbn [mbind option_bind].
  replace (_ <=? _)%nat with true
    by (symmetry; apply Nat.leb_le; destruct tail; [done|cbn; lia]).
  unfold time_of. cbn [nth app]. do 3 f_equal; lia.
Qed.

Lemma days_in_month_le y m : days_in_month y m <= 31.
Proof. unfold days_in_month. repeat case_match; lia. Qed.

(** The date text and the place of the separator. *)
Lemma parse_date y mo d r :
  valid_date y mo d = true →
  let s := pad4 y (String "-" (pad2 mo (String "-" (pad2 d r)))) in
  separator_location s = Some 10%nat ∧ parse_isoformat_date s 10 = Some (ymd2ord y mo d).
Proof.
  intros Hd. pose proof Hd as Hv. unfold valid_date in Hv. bool_split.
  pose proof (days_in_month_le y mo). split.
  - unfold separator_location, pad4, pad2. cbn [String.length Nat.eqb char_at str_skip peek].
    destruct (digit_char_plain (mo / 10)) as (_ & _ & -> & _); [lia|]. done.
  - unfold parse_isoformat_date. rewrite parse_pad4 by lia. cbn [mbind option_bind peek advance].
    replace (Ascii.eqb "-" "-") with true by done.
    assert (Ascii.eqb (peek (pad2 mo (String "-" (pad2 d r)))) "W" = false) as ->.
    { cbn. by destruct (digit_char_plain (mo / 10)) as (_ & _ & -> & _); [lia|]. }
    rewrite parse_pad2 by lia. cbn [mbind option_bind peek advance].
    replace (Ascii.eqb "-" "-") with true by done. cbn [andb negb].
    rewrite parse_pad2 by lia. cbn [mbind option_bind]. by rewrite Hd.
Qed.

(** every timestamp [now()] writes is read back by the recovery code, with
    ["Z"] replaced, as the instant it was taken at, in UTC. *)
Theorem now_roundtrip y mo d h mi s :
  valid_date y mo d = true → valid_time h mi s = true →
  fromisoformat (replace_zulu (utc_text y mo d h mi s))
  = Some (Timestamp (ymd2ord y mo d * day_us + ((h * 60 + mi) * 60 + s) * 1000000) (Some 0)).
Proof.
  intros Hd Ht. pose proof Hd as Hd'. pose proof Ht as Ht'.
  unfold valid_date, valid_time in Hd', Ht'. bool_split.
  pose proof (days_in_month_le y mo).
  set (clock := pad2 h (String ":" (pad2 mi (String ":" (pad2 s "+00:00"))))).
  assert (replace_zulu (utc_text y mo d h mi s)
          = pad4 y (String "-" (pad2 mo (String "-" (pad2 d (String "T" clock)))))) as ->.
  { unfold utc_text, pad4.
    by repeat first [rewrite replace_zulu_pad2 by lia | rewrite replace_zulu_other by done]. }
  destruct (parse_date y mo d (String "T" clock) Hd) as [Hloc Hdate].
  unfold fromisoformat.
  replace (String.length _ <? 7)%nat with false by done. rewrite Hloc.
  cbn [mbind option_bind]. rewrite Hdate. cbn [mbind option_bind].
  replace (10 <? String.length _)%nat with true by done.
  assert (parse_isoformat_time clock = Some (((h * 60 + mi) * 60 + s) * 1000000, Some 0)) as Hclock.
  { unfold parse_isoformat_time.
    assert ((str_span (λ a, negb (is_offset_mark a)) clock).2 = "+00:00") as Hspan.
    { unfold clock. by repeat first [rewrite span_pad2 by lia | rewrite span_other by done]. }
    destruct (str_span _ clock) as [? rest]. cbn in Hspan. subst rest.
    unfold clock. rewrite (parse_clock h mi s "+00:00") by done. done. }
  cbn [Nat.add str_skip pad4 pad2]. by rewrite Hclock.
Qed.

Lemma now_roundtrip_witness :
  utc_text 2026 2 28 23 59 7 = "2026-02-28T23:59:07Z"
  ∧ fromisoformat (replace_zulu (utc_text 2026 2 28 23 59 7))
    = Some (Timestamp (ymd2ord 2026 2 28 * day_us + ((23 * 60 + 59) * 60 + 7) * 1000000) (Some 0)).
Proof.
  split; [vm_compute; reflexivity|].
  apply (now_roundtrip 2026 2 28 23 59 7); vm_compute; reflexivity.
Defined.

(** ** Checks against the interpreter's behaviour *)

Example iso_forms :
  map fromisoformat ["2024-W09-4T12:34:56.123456-07:30"; "20240229T123456Z"; "2024-01-01T12.5";
                     "2024-01-01T12:00:00+00:00:00.5"; "2020-W53-7"]
  = [Some (Timestamp 63844893296123456 (Some (-27000000000)));
     Some (Timestamp 63844893296000000 (Some 0));
     Some (Timestamp 63839793600500000 None);
     Some (Timestamp 63839793600000000 (Some 0));
     Some (Timestamp 63745315200000000 None)].
Proof. vm_compute. reflexivity. Qed.

Example iso_errors :
  map fromisoformat ["2023-02-29"; "2024-W53-7"; "2024-02-29T"; "2024-02-29T24:00"; "None"; "";
                     "2024-01-01T12:00:00-24:00"; "2024-01-01T12:30+"; "0000-01-01"; "9999-W52-7"]
  = [None; None; None; None; None; None; None; None; None; None].
Proof. vm_compute. reflexivity. Qed.

(** ** The order of their texts

    The tooling sorts backups by the text of their timestamps.  For the
    timestamps it writes itself the order of the texts is the order of the
    instants. *)


(** The first difference decides. *)
Definition cthen (c d : comparison) : comparison := match c with Eq => d | _ => c end.

Lemma cthen_assoc a b c : cthen (cthen a b) c = cthen a (cthen b c).
Proof. by destruct a. Qed.

(** Mixed-radix numbers compare digit by digit. *)
Lemma compare_radix k a b x y :
  0 <= x < k → 0 <= y < k → (a * k + x ?= b * k + y) = cthen (a ?= b) (x ?= y).
Proof.
  intros Hx Hy. destruct (Z.compare_spec a b) as [->|Hab|Hab]; simpl.
  - destruct (Z.compare_spec x y); [apply Z.compare_eq_iff|apply Z.compare_lt_iff|apply Z.compare_gt_iff]; lia.
  - apply Z.compare_lt_iff. nia.
  - apply Z.compare_gt_iff. nia.
Qed.

(** ** The texts *)

Lemma compare_digit a b :
  0 <= a <= 9 → 0 <= b <= 9 → Ascii.compare (digit_char a) (digit_char b) = (a ?= b).
Proof.
  intros Ha Hb. unfold Ascii.compare, digit_char. rewrite !N_ascii_embedding by lia.
  rewrite Z2N.inj_compare by lia.
  destruct (Z.compare_spec a b); [apply Z.compare_eq_iff|apply Z.compare_lt_iff|apply Z.compare_gt_iff]; lia.
Qed.

Lemma compare_pad2 a b r s :
  0 <= a <= 99 → 0 <= b <= 99 →
  String.compare (pad2 a r) (pad2 b s) = cthen (a ?= b) (String.compare r s).
Proof.
  intros Ha Hb. unfold pad2. cbn [String.compare]. rewrite !compare_digit by lia.
  replace (a ?= b) with ((a / 10) * 10 + a mod 10 ?= (b / 10) * 10 + b mod 10) by (f_equal; lia).
  rewrite compare_radix by lia. destruct (a / 10 ?= b / 10); [|done..]. by destruct (a mod 10 ?= b mod 10).
Qed.

Lemma compare_pad4 a b r s :
  0 <= a <= 9999 → 0 <= b <= 9999 →
  String.compare (pad4 a r) (pad4 b s) = cthen (a ?= b) (String.compare r s).
Proof.
  intros Ha Hb. unfold pad4. rewrite !compare_pad2 by lia.
  replace (a ?= b) with ((a / 100) * 100 + a mod 100 ?= (b / 100) * 100 + b mod 100) by (f_equal; lia).
  rewrite compare_radix by lia. by rewrite cthen_assoc.
Qed.

Lemma compare_same a r s : String.compare (String a r) (String a s) = String.compare r s.
Proof. cbn [String.compare]. unfold Ascii.compare. by rewrite N.compare_refl. Qed.

(** ** The calendar *)

(** The day of the year, from 1. *)
Definition year_day (y m d : Z) : Z := days_before_month y (Z.to_nat m) + d.

Lemma days_in_month_ge y m : 28 <= days_in_month y m.
Proof. unfold days_in_month. destruct (is_leap y); repeat case_match; lia. Qed.

Lemma days_before_month_lt y m m' :
  (1 ≤ m)%nat → (m < m')%nat →
  days_before_month y m + days_in_month y (Z.of_nat m) <= days_before_month y m'.
Proof.
  intros H1 Hlt. induction Hlt as [|m' Hlt IH].
  - by destruct m as [|m]; [lia|].
  - destruct m' as [|m']; [lia|]. cbn [days_before_month] in *.
    pose proof (days_in_month_ge y (Z.of_nat (S m'))). lia.
Qed.

Lemma year_day_lt y m d m' d' :
  1 <= m → m < m' → d <= days_in_month y m → 1 <= d' → year_day y m d < year_day y m' d'.
Proof.
  intros Hm Hlt Hd Hd'. unfold year_day.
  pose proof (days_before_month_lt y (Z.to_nat m) (Z.to_nat m') ltac:(lia) ltac:(lia)) as Hb.
  rewrite Z2Nat.id in Hb by lia. lia.
Qed.

Lemma compare_months y m d m' d' :
  1 <= m → 1 <= m' → 1 <= d <= days_in_month y m → 1 <= d' <= days_in_month y m' →
  (year_day y m d ?= year_day y m' d') = cthen (m ?= m') (d ?= d').
Proof.
  intros Hm Hm' Hd Hd'. destruct (Z.compare_spec m m') as [->|Hl|Hl]; simpl.
  - unfold year_day. destruct (Z.compare_spec d d');
      [apply Z.compare_eq_iff|apply Z.compare_lt_iff|apply Z.compare_gt_iff]; lia.
  - apply Z.compare_lt_iff, year_day_lt; lia.
  - apply Z.compare_gt_iff, year_day_lt; lia.
Qed.

(** A year has at most as many days as the next one starts later. *)
Lemma year_day_le y m d :
  1 <= m <= 12 → 1 <= d <= days_in_month y m →
  1 <= year_day y m d <= days_before_year (y + 1) - days_before_year y.
Proof.
  intros Hm Hd.
  assert (days_before_month y 13 = 365 + if is_leap y then 1 else 0) as H13
    by (cbv -[is_leap Z.add]; destruct (is_leap y); reflexivity).
  assert (days_before_year (y + 1) - days_before_year y = 365 + if is_leap y then 1 else 0) as Hy.
  { unfold days_before_year, is_leap. destruct (Z.eqb_spec (y mod 4) 0), (Z.eqb_spec (y mod 100) 0),
      (Z.eqb_spec (y mod 400) 0); simpl; lia. }
  pose proof (days_before_month_lt y (Z.to_nat m) 13 ltac:(lia) ltac:(lia)) as Hb.
  rewrite Z2Nat.id in Hb by lia. unfold year_day. rewrite Hy, <- H13. split; [|lia].
  assert (0 <= days_before_month y (Z.to_nat m)); [|lia]. clear. induction (Z.to_nat m) as [|k IH]; [done|].
  destruct k; [done|]. cbn [days_before_month] in *. pose proof (days_in_month_ge y (Z.of_nat (S k))). lia.
Qed.

Lemma days_before_year_le y y' : y <= y' → days_before_year y <= days_before_year y'.
Proof. unfold days_before_year. lia. Qed.

Lemma compare_dates y m d y' m' d' :
  valid_date y m d = true → valid_date y' m' d' = true →
  (ymd2ord y m d ?= ymd2ord y' m' d') = cthen (y ?= y') (cthen (m ?= m') (d ?= d')).
Proof.
  unfold valid_date. intros H1 H2. bool_split.
  pose proof (year_day_le y m d ltac:(lia) ltac:(lia)).
  pose proof (year_day_le y' m' d' ltac:(lia) ltac:(lia)).
  assert (∀ a b c, ymd2ord a b c = days_before_year a + year_day a b c) as Hord
    by (intros; unfold ymd2ord, year_day; lia).
  rewrite !Hord. destruct (Z.compare_spec y y') as [->|Hl|Hl]; simpl.
  - rewrite <- (compare_months y') by lia. destruct (Z.compare_spec (year_day y' m d) (year_day y' m' d'));
      [apply Z.compare_eq_iff|apply Z.compare_lt_iff|apply Z.compare_gt_iff]; lia.
  - apply Z.compare_lt_iff. pose proof (days_before_year_le (y + 1) y'). lia.
  - apply Z.compare_gt_iff. pose proof (days_before_year_le (y' + 1) y). lia.
Qed.

(** ** The order of instants *)

Definition utc_instant (y mo d h mi s : Z) : Z :=
  ymd2ord y mo d * day_us + ((h * 60 + mi) * 60 + s) * 1000000.

Lemma compare_instants y mo d h mi s y' mo' d' h' mi' s' :
  valid_date y mo d = true → valid_date y' mo' d' = true →
  valid_time h mi s = true → valid_time h' mi' s' = true →
  (utc_instant y mo d h mi s ?= utc_instant y' mo' d' h' mi' s')
  = String.compare (utc_text y mo d h mi s) (utc_text y' mo' d' h' mi' s').
Proof.
  intros Hd Hd' Ht Ht'. unfold utc_instant.
  unfold valid_time in Ht, Ht'. bool_split.
  replace (ymd2ord y mo d * day_us + ((h * 60 + mi) * 60 + s) * 1000000)
    with ((((ymd2ord y mo d * 24 + h) * 60 + mi) * 60 + s) * 1000000 + 0) by (unfold day_us; lia).
  replace (ymd2ord y' mo' d' * day_us + ((h' * 60 + mi') * 60 + s') * 1000000)
    with ((((ymd2ord y' mo' d' * 24 + h') * 60 + mi') * 60 + s') * 1000000 + 0) by (unfold day_us; lia).
  rewrite !compare_radix by lia. rewrite compare_dates by done.
  unfold valid_date in Hd, Hd'. bool_split.
  pose proof (days_in_month_le y mo). pose proof (days_in_month_le y' mo').
  unfold utc_text. rewrite compare_pad4 by lia.
  repeat first [rewrite compare_same | rewrite compare_pad2 by lia].
  rewrite !cthen_assoc. cbn [Z.compare String.compare Ascii.compare]. done.
Qed.
