(* ===== verification/PyDateTime.v ===== *)
(** * Instants as dates and clocks

    An aware [datetime] in UTC is the count of microseconds that [PyTime] gives
    its instant.  Here are its calendar fields, with CPython's conversion of an
    ordinal to a date, and the texts that [isoformat] and [strftime] make of
    them; what they write is read back by [fromisoformat]. *)
From S2P Require Import Prelude PyTime.
#[local] Open Scope Z_scope.

(** [_ord2ymd]. *)
Definition ord2ymd (ord : Z) : Z * Z * Z :=
  let n := ord - 1 in
  let n400 := n / 146097 in let n := n mod 146097 in
  let n100 := n / 36524 in let n := n mod 36524 in
  let n4 := n / 1461 in let n := n mod 1461 in
  let n1 := n / 365 in let n := n mod 365 in
  let year := n400 * 400 + 1 + n100 * 100 + n4 * 4 + n1 in
  if (n1 =? 4) || (n100 =? 4) then (year - 1, 12, 31)
  else
    let leap := (n1 =? 3) && (negb (n4 =? 24) || (n100 =? 3)) in
    let y := if leap then 4 else 1 in
    let month := (n + 50) / 32 in
    let preceding := days_before_month y (Z.to_nat month) in
    if n <? preceding then
      let month := month - 1 in (year, month, n - days_before_month y (Z.to_nat month) + 1)
    else (year, month, n - preceding + 1).

Definition second_us : Z := 1000000.
Definition minute_us : Z := 60 * second_us.

Definition dt_date (t : Z) : Z * Z * Z := ord2ymd (t / day_us).
Definition dt_hour (t : Z) : Z := t mod day_us / (60 * minute_us).
Definition dt_minute (t : Z) : Z := t / minute_us mod 60.
Definition dt_second (t : Z) : Z := t / second_us mod 60.
Definition dt_micro (t : Z) : Z := t mod second_us.

(** [t.replace(second=0, microsecond=0)]. *)
Definition floor_minute (t : Z) : Z := t - t mod minute_us.

(** The instants from year 1 to year 9999. *)
Definition valid_instant (t : Z) : Prop := day_us <= t < 3652060 * day_us.

(** [isoformat(timespec="seconds").replace("+00:00", "Z")]. *)
Definition iso_seconds (t : Z) : string :=
  let '(y, mo, d) := dt_date t in utc_text y mo d (dt_hour t) (dt_minute t) (dt_second t).

Definition pad3 (v : Z) (r : string) : string :=
  String (digit_char (v / 100)) (pad2 (v mod 100) r).
(** [isoformat(timespec="milliseconds").replace("+00:00", "Z")]. *)
Definition iso_millis (t : Z) : string :=
  let '(y, mo, d) := dt_date t in
  pad4 y (String "-" (pad2 mo (String "-" (pad2 d (String "T"
    (pad2 (dt_hour t) (String ":" (pad2 (dt_minute t) (String ":" (pad2 (dt_second t)
      (String "." (pad3 (dt_micro t / 1000) "Z")))))))))))).

(** [strftime("%Y%m%dT%H%M")] and with the seconds, from year 1000 on. *)
Definition compact_minute (t : Z) (r : string) : string :=
  let '(y, mo, d) := dt_date t in
  pad4 y (pad2 mo (pad2 d (String "T" (pad2 (dt_hour t) (pad2 (dt_minute t) r))))).
Definition compact_second (t : Z) : string := compact_minute t (pad2 (dt_second t) "").

Example iso_text : iso_millis (ymd2ord 2024 2 29 * day_us + 3723004005) = "2024-02-29T01:02:03.004Z".
Proof. reflexivity. Qed.
Example compact_text : compact_second (ymd2ord 2026 12 31 * day_us + 3723004005) = "20261231T010203".
Proof. reflexivity. Qed.

(** ** Ordinals and dates *)

(** Within a year every day has its month and day. *)
Definition month_table (y : Z) : bool :=
  forallb (λ k,
    let n := Z.of_nat k in
    let month := (n + 50) / 32 in
    let preceding := days_before_month y (Z.to_nat month) in
    let '(m, d) :=
      if n <? preceding
      then (month - 1, n - days_before_month y (Z.to_nat (month - 1)) + 1)
      else (month, n - preceding + 1) in
    (1 <=? m) && (m <=? 12) && (1 <=? d) && (d <=? days_in_month y m)
    && (days_before_month y (Z.to_nat m) + d =? n + 1))
  (seq 0 (if is_leap y then 366 else 365)).

Lemma month_tables : month_table 1 = true ∧ month_table 4 = true.
Proof. split; vm_compute; reflexivity. Qed.

Lemma days_in_month_leap y y' m : is_leap y = is_leap y' → days_in_month y m = days_in_month y' m.
Proof. intros Hl. unfold days_in_month. by rewrite Hl. Qed.
Lemma days_before_month_leap y y' m :
  is_leap y = is_leap y' → days_before_month y m = days_before_month y' m.
Proof.
  intros Hl. induction m as [|[|m] IH]; [done|done|]. cbn [days_before_month] in *.
  by rewrite IH, (days_in_month_leap y y').
Qed.

Lemma month_day y y' n :
  is_leap y = is_leap y' → y' = 1 ∨ y' = 4 → 0 <= n < (if is_leap y then 366 else 365) →
  let month := (n + 50) / 32 in
  let preceding := days_before_month y' (Z.to_nat month) in
  let '(m, d) :=
    if n <? preceding
    then (month - 1, n - days_before_month y' (Z.to_nat (month - 1)) + 1)
    else (month, n - preceding + 1) in
  1 <= m <= 12 ∧ 1 <= d <= days_in_month y m ∧ days_before_month y (Z.to_nat m) + d = n + 1.
Proof.
  intros Hl Hy Hn. assert (month_table y' = true) as Ht.
  { destruct month_tables. by destruct Hy as [-> | ->]. }
  unfold month_table in Ht. rewrite forallb_forall in Ht.
  specialize (Ht (Z.to_nat n)). rewrite Z2Nat.id in Ht by lia.
  rewrite Hl in Hn.
  assert (In (Z.to_nat n) (seq 0 (if is_leap y' then 366 else 365))) as Hin
    by (apply in_seq; destruct (is_leap y'); lia).
  specialize (Ht Hin). cbv zeta in *. destruct (if n <? _ then _ else _) as [m d].
  bool_split. rewrite (days_before_month_leap y y'), (days_in_month_leap y y') by done. lia.
Qed.

(** A year by its place in the cycles of 400, 100 and 4 years. *)
Lemma cycle_year a b c k :
  0 <= a → 0 <= b <= 3 → 0 <= c <= 24 → 0 <= k <= 3 →
  let y := a * 400 + 1 + b * 100 + c * 4 + k in
  days_before_year y = 146097 * a + 36524 * b + 1461 * c + 365 * k ∧
  is_leap y = (k =? 3) && (negb (c =? 24) || (b =? 3)).
Proof.
  intros Ha Hb Hc Hk y. split.
  - unfold days_before_year, y. cbv zeta.
    replace (_ - 1) with (a * 400 + b * 100 + c * 4 + k) by lia.
    rewrite <- (Z.div_unique _ 4 (100 * a + 25 * b + c) k) by lia.
    rewrite <- (Z.div_unique _ 100 (4 * a + b) (c * 4 + k)) by lia.
    rewrite <- (Z.div_unique _ 400 a (b * 100 + c * 4 + k)) by lia. lia.
  - unfold is_leap, y.
    assert (y mod 4 = (k + 1) mod 4) as H4.
    { unfold y. replace (a * 400 + 1 + b * 100 + c * 4 + k) with (k + 1 + (a * 100 + b * 25 + c) * 4) by lia.
      apply Z.mod_add. lia. }
    assert (y mod 100 = (c * 4 + k + 1) mod 100) as H100.
    { unfold y. replace (a * 400 + 1 + b * 100 + c * 4 + k) with (c * 4 + k + 1 + (a * 4 + b) * 100) by lia.
      apply Z.mod_add. lia. }
    assert (y mod 400 = (b * 100 + c * 4 + k + 1) mod 400) as H400.
    { unfold y. replace (a * 400 + 1 + b * 100 + c * 4 + k) with (b * 100 + c * 4 + k + 1 + a * 400) by lia.
      apply Z.mod_add. lia. }
    unfold y in *. rewrite H4, H100, H400. clear H4 H100 H400 y.
    assert (k = 3 ∨ k < 3) as [->|Hk3] by lia.
    + replace ((3 + 1) mod 4) with 0 by done. cbn [Z.eqb Pos.eqb andb].
      assert (c = 24 ∨ c < 24) as [->|Hc24] by lia.
      * assert (b = 0 ∨ b = 1 ∨ b = 2 ∨ b = 3) as [-> | [-> | [-> | ->]]] by lia; done.
      * rewrite (Z.mod_small (c * 4 + 3 + 1)) by lia.
        rewrite (proj2 (Z.eqb_neq (c * 4 + 3 + 1) 0)), (proj2 (Z.eqb_neq c 24)) by lia. done.
    + rewrite Z.mod_small, (proj2 (Z.eqb_neq (k + 1) 0)), (proj2 (Z.eqb_neq k 3)) by lia. done.
Qed.

Lemma ord2ymd_spec ord :
  1 <= ord <= 3652059 →
  let '(y, m, d) := ord2ymd ord in valid_date y m d = true ∧ ymd2ord y m d = ord.
Proof.
  intros Hord. unfold ord2ymd. set (n := ord - 1).
  pose proof (Z.div_mod n 146097 ltac:(lia)). pose proof (Z.mod_pos_bound n 146097 ltac:(lia)).
  set (a := n / 146097) in *. set (n' := n mod 146097) in *.
  pose proof (Z.div_mod n' 36524 ltac:(lia)). pose proof (Z.mod_pos_bound n' 36524 ltac:(lia)).
  set (b := n' / 36524) in *. set (n'' := n' mod 36524) in *.
  pose proof (Z.div_mod n'' 1461 ltac:(lia)). pose proof (Z.mod_pos_bound n'' 1461 ltac:(lia)).
  set (c := n'' / 1461) in *. set (n3 := n'' mod 1461) in *.
  pose proof (Z.div_mod n3 365 ltac:(lia)). pose proof (Z.mod_pos_bound n3 365 ltac:(lia)).
  set (k := n3 / 365) in *. set (r := n3 mod 365) in *.
  clearbody a b c k r n' n'' n3. subst n.
  assert (0 <= a <= 24) by lia. assert (0 <= b <= 4) by lia. assert (0 <= c <= 24) by lia.
  assert (0 <= k <= 4) by lia.
  destruct ((k =? 4) || (b =? 4)) eqn:Hlast.
  - assert (∃ b' c', 0 <= b' <= 3 ∧ 0 <= c' <= 24 ∧ (c' < 24 ∨ b' = 3) ∧
      a * 400 + 1 + b * 100 + c * 4 + k - 1 = a * 400 + 1 + b' * 100 + c' * 4 + 3 ∧
      ord = 146097 * a + 36524 * b' + 1461 * c' + 365 * 3 + 366) as (b' & c' & Hb' & Hc' & Hbc & -> & ->).
    { apply orb_true_iff in Hlast as [Hk%Z.eqb_eq|Hb%Z.eqb_eq].
      - exists b, c. lia.
      - exists 3, 24. lia. }
    destruct (cycle_year a b' c' 3) as [Hd Hl]; [lia..|]. cbv zeta in *.
    set (y := a * 400 + 1 + b' * 100 + c' * 4 + 3) in *.
    assert (is_leap y = true) as Hleap.
    { rewrite Hl. destruct Hbc as [? | ->]; [|by rewrite orb_true_r].
      by rewrite (proj2 (Z.eqb_neq c' 24)) by lia. }
    unfold valid_date, ymd2ord. rewrite Hd, (days_before_month_leap y 4) by done.
    change (days_before_month 4 (Z.to_nat 12)) with 335. split; [|lia].
    change (days_in_month y 12) with 31.
    rewrite !andb_true_iff, !Z.leb_le. unfold y. lia.
  - apply orb_false_iff in Hlast as [Hk%Z.eqb_neq Hb%Z.eqb_neq].
    destruct (cycle_year a b c k) as [Hd Hl]; [lia..|]. cbv zeta in *.
    set (y := a * 400 + 1 + b * 100 + c * 4 + k) in *. rewrite <- Hl.
    pose proof (month_day y (if is_leap y then 4 else 1) r) as Hm.
    assert (0 <= r < (if is_leap y then 366 else 365)) as Hr by (destruct (is_leap y); lia).
    specialize (Hm ltac:(by destruct (is_leap y)) ltac:(destruct (is_leap y); auto) Hr).
    cbv zeta in Hm.
    assert (y <= 9999) as Hy by (unfold y; lia).
    destruct (r <? _).
    all: destruct Hm as (Hmo & Hda & Hsum); unfold valid_date, ymd2ord; rewrite Hd;
      (split; [rewrite !andb_true_iff, !Z.leb_le; unfold y in *; lia|lia]).
Qed.

(** ** What is written is read back *)

Lemma dt_fields t :
  valid_instant t →
  let '(y, mo, d) := dt_date t in
  valid_date y mo d = true ∧ valid_time (dt_hour t) (dt_minute t) (dt_second t) = true ∧
  ymd2ord y mo d * day_us
    + ((dt_hour t * 60 + dt_minute t) * 60 + dt_second t) * second_us + dt_micro t = t.
Proof.
  unfold valid_instant. intros Ht.
  assert (1 <= t / day_us <= 3652059) as Hord.
  { unfold day_us in *. split; [apply Z.div_le_lower_bound; lia|].
    apply Z.lt_succ_r, Z.div_lt_upper_bound; lia. }
  pose proof (ord2ymd_spec _ Hord) as Hd. unfold dt_date.
  destruct (ord2ymd (t / day_us)) as [[y mo] d]. destruct Hd as [Hv Ho]. split; [done|].
  rewrite Ho. clear Ho Hv Ht. unfold valid_time, dt_hour, dt_minute, dt_second, dt_micro, minute_us, second_us, day_us.
  rewrite !andb_true_iff, !Z.leb_le.
  Z.to_euclidean_division_equations; lia.
Qed.

#[local] Ltac Zify.zify_post_hook ::= Z.to_euclidean_division_equations.

Lemma parse_pad3 v r : 0 <= v <= 999 → parse_digits 3 (pad3 v r) = Some (v, r).
Proof.
  intros Hv. unfold pad3, parse_digits, pad2. cbn [digits_go].
  assert (∃ a b c, v = 100 * a + 10 * b + c ∧ 0 <= a <= 9 ∧ 0 <= b <= 9 ∧ 0 <= c <= 9 ∧
          v / 100 = a ∧ v mod 100 / 10 = b ∧ (v mod 100) mod 10 = c) as (a & b & c & Hv' & ? & ? & ? & -> & -> & ->).
  { exists (v / 100), (v mod 100 / 10), ((v mod 100) mod 10).
    pose proof (Z.div_mod v 100 ltac:(done)). pose proof (Z.mod_pos_bound v 100 ltac:(done)).
    set (w := v mod 100) in *. clearbody w. repeat split; lia. }
  destruct (digit_char_spec a) as [-> ->]; [lia|].
  destruct (digit_char_spec b) as [-> ->]; [lia|].
  destruct (digit_char_spec c) as [-> ->]; [lia|].
  do 2 f_equal. lia.
Qed.

Lemma replace_zulu_pad3 v r : 0 <= v <= 999 → replace_zulu (pad3 v r) = pad3 v (replace_zulu r).
Proof.
  intros Hv. unfold pad3. rewrite replace_zulu_other; [by rewrite replace_zulu_pad2 by lia|].
  by destruct (digit_char_plain (v / 100)) as (_ & -> & _); [lia|].
Qed.

Lemma span_pad3 v r :
  0 <= v <= 999 →
  (str_span (λ a, negb (is_offset_mark a)) (pad3 v r)).2
  = (str_span (λ a, negb (is_offset_mark a)) r).2.
Proof.
  intros Hv. unfold pad3. rewrite span_other; [by rewrite span_pad2 by lia|].
  by destruct (digit_char_plain (v / 100)) as (_ & _ & _ & _ & ->); [lia|].
Qed.

(** A date, the separator and a time text. *)
Lemma fromisoformat_parts y mo d clock us off :
  valid_date y mo d = true → parse_isoformat_time clock = Some (us, off) →
  fromisoformat (pad4 y (String "-" (pad2 mo (String "-" (pad2 d (String "T" clock))))))
  = Some (Timestamp (ymd2ord y mo d * day_us + us) off).
Proof.
  intros Hd Hc. destruct (parse_date y mo d (String "T" clock) Hd) as [Hloc Hdate].
  unfold fromisoformat. replace (String.length _ <? 7)%nat with false by done. rewrite Hloc.
  cbn [mbind option_bind]. rewrite Hdate. cbn [mbind option_bind].
  replace (10 <? String.length _)%nat with true by done.
  cbn [Nat.add str_skip pad4 pad2]. by rewrite Hc.
Qed.

Lemma millis_time h mi s ms :
  valid_time h mi s = true → 0 <= ms <= 999 →
  parse_isoformat_time
    (pad2 h (String ":" (pad2 mi (String ":" (pad2 s (String "." (pad3 ms "+00:00")))))))
  = Some (((h * 60 + mi) * 60 + s) * 1000000 + ms * 1000, Some 0).
Proof.
  intros Hv Hms. pose proof Hv as Hv'. unfold valid_time in Hv'. bool_split.
  set (clock := pad2 h _). unfold parse_isoformat_time.
  assert ((str_span (λ a, negb (is_offset_mark a)) clock).2 = "+00:00") as Hspan.
  { unfold clock. by repeat first [rewrite span_pad2 by lia | rewrite span_pad3 by lia
                                  | rewrite span_other by done]. }
  destruct (str_span _ clock) as [? rest]. cbn in Hspan. subst rest.
  assert (parse_hh_mm_ss_ff (String.length "+00:00") clock
          = Some (((h * 60 + mi) * 60 + s) * 1000000 + ms * 1000, true, true)) as ->; [|done].
  unfold parse_hh_mm_ss_ff, clock.
  rewrite (parse_field_colon 2 None) by (cbn; first [done|lia]).
  rewrite (parse_field_colon 1 (Some true)) by (cbn; first [done|lia]).
  cbn [parse_fields]. rewrite parse_pad2 by lia. cbn [mbind option_bind peek advance].
  replace (_ <=? _)%nat with false by done. cbn [app].
  replace (true && Ascii.eqb "." ":") with false by done.
  replace (Ascii.eqb "." "." || Ascii.eqb "." ",") with true by done. cbv iota.
  unfold parse_fraction.
  replace (Nat.min (String.length (pad3 ms "+00:00") - String.length "+00:00") 6) with 3%nat by done.
  rewrite parse_pad3 by lia. cbn [mbind option_bind str_span].
  unfold time_of. cbn [nth scale Nat.sub mbind option_bind].
  replace ((h <=? 23) && (mi <=? 59) && (s <=? 59)) with true
    by (symmetry; rewrite !andb_true_iff, !Z.leb_le; lia).
  by replace (ms * 10 * 10 * 10) with (ms * 1000) by lia.
Qed.

(** The instant of an offset text, as the readers compute it. *)
Definition read_instant (s : string) : option Z := instant <$> fromisoformat (replace_zulu s).

Lemma iso_seconds_reads t :
  valid_instant t →
  fromisoformat (replace_zulu (iso_seconds t)) = Some (Timestamp (t - dt_micro t) (Some 0)).
Proof.
  intros Ht. pose proof (dt_fields t Ht) as Hf. unfold iso_seconds.
  destruct (dt_date t) as [[y mo] d]. destruct Hf as (Hd & Hv & Heq).
  rewrite now_roundtrip by done. do 2 f_equal. unfold second_us in Heq. lia.
Qed.

Lemma iso_millis_reads t :
  valid_instant t →
  fromisoformat (replace_zulu (iso_millis t)) = Some (Timestamp (t - t mod 1000) (Some 0)).
Proof.
  intros Ht. pose proof (dt_fields t Ht) as Hf. unfold iso_millis.
  destruct (dt_date t) as [[y mo] d]. destruct Hf as (Hd & Hv & Heq).
  assert (0 <= dt_micro t / 1000 <= 999) as Hms by (unfold dt_micro, second_us; lia).
  pose proof Hd as Hd'. pose proof Hv as Hv'. unfold valid_date, valid_time in Hd', Hv'. bool_split.
  pose proof (days_in_month_le y mo). unfold pad4.
  repeat first [rewrite replace_zulu_pad2 by lia | rewrite replace_zulu_pad3 by lia
               | rewrite replace_zulu_other by done].
  pose proof (fromisoformat_parts y mo d _ _ _ Hd (millis_time _ _ _ _ Hv Hms)) as Hp.
  unfold pad4 in Hp. change (replace_zulu "Z") with "+00:00". rewrite Hp.
  do 2 f_equal. transitivity (t - dt_micro t mod 1000); [unfold second_us in Heq; lia|].
  f_equal. unfold dt_micro, second_us. lia.
Qed.
