(* ===== verification/PyNet.v ===== *)
(** * Addresses of the [ipaddress] module

    IPv4 addresses and interfaces with their printing, IPv6 addresses, and the
    proof that a printed IPv4 interface reads back. *)
From S2P Require Import Prelude PyFloat PyValue.
#[local] Open Scope Z_scope.

(** ** IPv4 interfaces of the [ipaddress] module *)

Fixpoint dec_value (acc : Z) (s : string) : Z :=
  match s with
  | EmptyString => acc
  | String a r => dec_value (10 * acc + (Z.of_N (N_of_ascii a) - 48)) r
  end.

Definition all_digits (s : string) : bool := negb (String.eqb s "") && str_all is_digit s.

Definition parse_octet (s : string) : option Z :=
  let v := dec_value 0 s in
  if all_digits s && (String.length s <=? 3)%nat
     && negb (starts_with "0" s && negb (String.eqb s "0")) && (v <=? 255)
  then Some v else None.

Definition parse_ip4 (s : string) : option Z :=
  match split_char "." "" s with
  | [a; b; c; d] =>
      a ← parse_octet a; b ← parse_octet b; c ← parse_octet c; d ← parse_octet d;
      Some (((a * 256 + b) * 256 + c) * 256 + d)
  | _ => None
  end.

Definition ALL_ONES : Z := 2 ^ 32 - 1.

(** [_prefix_from_ip_int]: the length of a contiguous mask. *)
Definition prefix_from_ip_int (m : Z) : option Z :=
  match filter (λ p, m = ALL_ONES - (2 ^ (32 - p) - 1)) (seqZ 0 33) with
  | p :: _ => Some p
  | [] => None
  end.

Definition parse_prefix (s : string) : option Z :=
  if all_digits s && (dec_value 0 s <=? 32) then Some (dec_value 0 s)
  else m ← parse_ip4 s;
       match prefix_from_ip_int m with
       | Some p => Some p
       | None => prefix_from_ip_int (Z.lxor m ALL_ONES)
       end.

(** An interface: the address and the prefix length. *)
Definition ip_interface (s : string) : option (Z * Z) :=
  match path_parts s with
  | [a] => ip ← parse_ip4 a; Some (ip, 32)
  | [a; p] => ip ← parse_ip4 a; len ← parse_prefix p; Some (ip, len)
  | _ => None
  end.

(** [str(address)] of an interface. *)
Definition ip4_str (ip : Z) : string :=
  str_concat "." (map Z_str [ip / 16777216; ip / 65536 mod 256; ip / 256 mod 256; ip mod 256]).
Definition ip_interface_str (i : Z * Z) : string := ip4_str i.1 +:+ "/" +:+ Z_str i.2.

(** [address.network], as network address and prefix length. *)
Definition ip_network (i : Z * Z) : Z * Z :=
  (i.1 - i.1 mod 2 ^ (32 - i.2), i.2).

(** ** [ipaddress.ip_address] *)

Definition is_hexdigit (a : ascii) : bool := is_hex (lower_char a).
Definition hex_value (a : ascii) : Z :=
  let n := Z.of_N (N_of_ascii (lower_char a)) in if n <? 58 then n - 48 else n - 87.
Fixpoint hextet_go (acc : Z) (s : string) : Z :=
  match s with
  | EmptyString => acc
  | String a r => hextet_go (16 * acc + hex_value a) r
  end.
Definition hextet (s : string) : option Z :=
  if str_all is_hexdigit s && (1 <=? String.length s)%nat && (String.length s <=? 4)%nat
  then Some (hextet_go 0 s) else None.

Fixpoint hextets (acc : Z) (parts : list string) : option Z :=
  match parts with
  | [] => Some acc
  | p :: rest => v ← hextet p; hextets (Z.lor (Z.shiftl acc 16) v) rest
  end.

(** The positions of the empty parts strictly inside. *)
Definition inner_empty (parts : list string) : list nat :=
  filter (λ i, parts !! i = Some "") (seq 1 (length parts - 2)).

Definition part_empty (p : option string) : bool :=
  match p with Some "" => true | _ => false end.

(** The parts with an IPv4 tail rewritten to two hextets. *)
Definition ip6_parts (s : string) : option (list Z * list string) :=
  let parts := split_char ":" "" s in
  match rev parts with
  | lst :: front =>
      if str_in "." lst then
        v ← parse_ip4 lst; Some ([Z.shiftr v 16; Z.land v 65535], rev front)
      else Some ([], parts)
  | [] => None
  end.

Definition hex16 (v : Z) : string :=
  let d k := hex_digit (Z.to_N (Z.land (Z.shiftr v k) 15)) in
  String (d 12) (String (d 8) (String (d 4) (String (d 0) ""))).

(** [_ip_int_from_string]. *)
Definition parse_ip6_int (s : string) : option Z :=
  if String.eqb s "" then None
  else if (length (split_char ":" "" s) <? 3)%nat then None
  else
    '(tail, front) ← ip6_parts s;
    let parts := front ++ map hex16 tail in
    let n := length parts in
    if (9 <? n)%nat then None
    else match inner_empty parts with
    | [] =>
        if negb (Nat.eqb n 8) || part_empty (head parts) || part_empty (last parts) then None
        else hextets 0 parts
    | [skip] =>
        let lead := part_empty (head parts) in
        let trail := part_empty (last parts) in
        let hi := if lead then (skip - 1)%nat else skip in
        let lo := if trail then (n - skip - 2)%nat else (n - skip - 1)%nat in
        if lead && negb (Nat.eqb hi 0) || trail && negb (Nat.eqb lo 0) then None
        else if (8 <? hi + lo + 1)%nat then None
        else
          acc ← hextets 0 (take hi parts);
          hextets (Z.shiftl acc (16 * Z.of_nat (8 - (hi + lo)))) (drop (n - lo) parts)
    | _ => None
    end.

(** [IPv6Address]: an optional scope follows a percent sign. *)
Definition parse_ip6 (s : string) : option Z :=
  if str_in "/" s then None
  else match split_once "%" s with
  | None => parse_ip6_int s
  | Some (addr, scope) =>
      if String.eqb scope "" || str_in "%" scope then None else parse_ip6_int addr
  end.

Example ip6_loopback : parse_ip6 "::1" = Some 1.
Proof. reflexivity. Qed.
Example ip6_mapped : parse_ip6 "::ffff:127.0.0.1" = Some 281472812449793.
Proof. reflexivity. Qed.
Example ip6_full : parse_ip6 "2001:db8:0:0:0:0:0:A" = Some 42540766411282592856903984951653826570.
Proof. reflexivity. Qed.
Example ip6_double : parse_ip6 "1::2::3" = None.
Proof. reflexivity. Qed.
Example ip6_any : parse_ip6 "::" = Some 0.
Proof. reflexivity. Qed.

(** Is the text an [IPv6Interface]? *)
Definition is_ip6_interface (s : string) : bool :=
  match path_parts s with
  | [a] => match parse_ip6 a with Some _ => true | None => false end
  | [a; p] =>
      match parse_ip6 a with
      | Some _ => all_digits p && (dec_value 0 p <=? 128)
      | None => false
      end
  | _ => false
  end.

(** [ipaddress.ip_address(s).is_loopback], [None] where it raises. *)
Definition ip_is_loopback (s : string) : option bool :=
  match parse_ip4 s with
  | Some v => Some (Z.shiftr v 24 =? 127)
  | None => match parse_ip6 s with Some v => Some (v =? 1) | None => None end
  end.

(** ** Lemmas: addresses read back as they were printed *)

Lemma split_char_app c cur l r :
  str_in c l = false →
  split_char c cur (l +:+ String c r) = (String.rev cur +:+ l) :: split_char c "" r.
Proof.
  revert cur. induction l as [|a l IH]; intros cur Hl.
  - change ("" +:+ String c r) with (String c r). simpl.
    by rewrite Ascii.eqb_refl, app_str_nil_r.
  - simpl in Hl. apply orb_false_iff in Hl as [Ha Hl].
    change (String a l +:+ String c r) with (String a (l +:+ String c r)). simpl.
    rewrite Ha, IH by done. f_equal. unfold String.rev at 1. simpl.
    by rewrite rev_app_spec, app_str_assoc.
Qed.

Lemma split_char_end c cur l :
  str_in c l = false → split_char c cur l = [String.rev cur +:+ l].
Proof.
  revert cur. induction l as [|a l IH]; intros cur Hl.
  - simpl. by rewrite app_str_nil_r.
  - simpl in *. apply orb_false_iff in Hl as [Ha Hl]. rewrite Ha, IH by done.
    f_equal. unfold String.rev at 1. simpl. by rewrite rev_app_spec, app_str_assoc.
Qed.

Lemma char_app c x : String c "" +:+ x = String c x.
Proof. done. Qed.

Lemma rev_nil_app x : String.rev "" +:+ x = x.
Proof. done. Qed.

(** Every octet prints to a text without separators that reads back. *)
Lemma octet_roundtrip z :
  0 <= z < 256 →
  parse_octet (Z_str z) = Some z ∧ str_in "." (Z_str z) = false ∧ str_in "/" (Z_str z) = false.
Proof.
  intros Hz.
  assert (Forall (λ z, parse_octet (Z_str z) = Some z ∧ str_in "." (Z_str z) = false
    ∧ str_in "/" (Z_str z) = false) (seqZ 0 256)) as Hall.
  { apply (proj1 (bool_decide_eq_true _)). vm_compute. reflexivity. }
  rewrite Forall_forall in Hall. apply Hall. apply elem_of_seqZ. lia.
Qed.

Lemma ip4_roundtrip ip :
  0 <= ip < 2 ^ 32 → parse_ip4 (ip4_str ip) = Some ip ∧ str_in "/" (ip4_str ip) = false.
Proof.
  intros Hip. unfold ip4_str. cbn [map str_concat].
  assert (0 <= ip / 16777216 < 256) as H1.
  { split; [apply Z.div_pos; lia|apply Z.div_lt_upper_bound; lia]. }
  pose proof (Z.mod_pos_bound (ip / 65536) 256 ltac:(lia)) as H2.
  pose proof (Z.mod_pos_bound (ip / 256) 256 ltac:(lia)) as H3.
  pose proof (Z.mod_pos_bound ip 256 ltac:(lia)) as H4.
  destruct (octet_roundtrip _ H1) as (P1 & D1 & S1), (octet_roundtrip _ H2) as (P2 & D2 & S2),
    (octet_roundtrip _ H3) as (P3 & D3 & S3), (octet_roundtrip _ H4) as (P4 & D4 & S4).
  split.
  - unfold parse_ip4.
    rewrite !char_app, !split_char_app by done. rewrite split_char_end by done.
    rewrite !rev_nil_app, P1. simpl. rewrite P2. simpl.
    rewrite P3. simpl. rewrite P4. simpl. f_equal.
    pose proof (Z.div_mod ip 256 ltac:(lia)).
    pose proof (Z.div_mod (ip / 256) 256 ltac:(lia)).
    pose proof (Z.div_mod (ip / 65536) 256 ltac:(lia)).
    assert (ip / 256 / 256 = ip / 65536) by (by rewrite Z.div_div by lia).
    assert (ip / 65536 / 256 = ip / 16777216) by (by rewrite Z.div_div by lia).
    lia.
  - rewrite !str_in_app, S1, S2, S3, S4. reflexivity.
Qed.

Lemma ip_interface_roundtrip ip :
  0 <= ip < 2 ^ 32 → ip_interface (ip_interface_str (ip, 16)) = Some (ip, 16).
Proof.
  intros Hip. destruct (ip4_roundtrip ip Hip) as [Hp Hs].
  unfold ip_interface, ip_interface_str, path_parts. cbn [fst snd].
  change ("/" +:+ Z_str 16) with (String "/" "16").
  rewrite split_char_app by done. rewrite split_char_end by done.
  rewrite !rev_nil_app, Hp. reflexivity.
Qed.
