(* ===== verification/PyPath.v ===== *)
(** * Paths of [pathlib] *)
From S2P Require Import Prelude.

(** A [pathlib] path: its anchor and its components. *)
Record path := Path { p_root : string; p_parts : list string }.

(** [Path(s)]: empty and ["."] components are dropped. *)
Definition py_path (s : string) : path :=
  Path (if starts_with "//" s && negb (starts_with "///" s) then "//"
        else if starts_with "/" s then "/" else "")
       (filter (λ c, negb (String.eqb c "") && negb (String.eqb c ".") = true) (path_parts s)).

Definition path_str (p : path) : string :=
  match p_root p +:+ str_concat "/" (p_parts p) with EmptyString => "." | s => s end.
Definition p_parent (p : path) : path := Path (p_root p) (removelast (p_parts p)).
Definition p_name (p : path) : string := default "" (last (p_parts p)).
Definition p_join (p : path) (name : string) : path := Path (p_root p) (p_parts p ++ [name]).

(** [p.parts], [p.is_absolute()] and [p.as_posix()]. *)
Definition path_elements (p : path) : list string :=
  if String.eqb (p_root p) "" then p_parts p else p_root p :: p_parts p.
Definition is_absolute (p : path) : bool := negb (String.eqb (p_root p) "").
