(* ===== verification/PyJson.v ===== *)
(** * [json.loads]

    The decoder of the [json] module on ASCII text, with the grammar of its C
    scanner: insignificant whitespace, the number grammar with [NaN] and
    [Infinity], the escapes of strings in strict mode, and dicts in which the
    last binding of a repeated key wins.  Text that decodes to a character
    outside ASCII is not accepted, and the limits of the interpreter on
    recursion and on the digits of an integer are left out.

    The parser recurses on fuel; [scan_fuel] shows that the fuel
    [json_loads] gives it can never be what stops it, and [loads_dumps] that
    what [json.dumps(v, indent=2, sort_keys=True)] prints reads back. *)
From Stdlib Require Import SpecFloat DecimalString.
From S2P Require Import Prelude PyFloat PyValue PyNet.
#[local] Open Scope Z_scope.

(** ** Tokens *)

Definition is_json_ws (a : ascii) : bool :=
  let n := N_of_ascii a in ((n =? 32) || (n =? 9) || (n =? 10) || (n =? 13))%N.
Definition skip_ws (s : string) : string := lstrip is_json_ws s.

(** The text after a given prefix. *)
Definition after (p s : string) : option string :=
  if starts_with p s then Some (str_skip (String.length p) s) else None.

Definition after_char (c : ascii) (s : string) : option string :=
  match s with
  | String a r => if Ascii.eqb a c then Some r else None
  | EmptyString => None
  end.

(** *** Strings *)

(** The value of a [\uXXXX] escape, when it is an ASCII character. *)
Definition unicode_escape (s : string) : option (ascii * string) :=
  match s with
  | String a (String b (String c (String d r))) =>
      if is_hexdigit a && is_hexdigit b && is_hexdigit c && is_hexdigit d then
        let v := ((hex_value a * 16 + hex_value b) * 16 + hex_value c) * 16 + hex_value d in
        if v <? 128 then Some (ascii_of_N (Z.to_N v), r) else None
      else None
  | _ => None
  end.

(** The character a backslash sequence stands for. *)
Definition simple_escape (a : ascii) : option ascii :=
  let n := N_of_ascii a in
  if ((n =? 34) || (n =? 92) || (n =? 47))%N then Some a
  else if (n =? 98)%N then Some "008"%char
  else if (n =? 102)%N then Some "012"%char
  else if (n =? 110)%N then Some "010"%char
  else if (n =? 114)%N then Some "013"%char
  else if (n =? 116)%N then Some "009"%char
  else None.

(** The rest of a string literal after its opening quote. *)
Fixpoint scan_string (fuel : nat) (s : string) : option (string * string) :=
  match fuel, s with
  | S fuel, String a r =>
      let n := N_of_ascii a in
      if (n =? 34)%N then Some ("", r)
      else if (n <? 32)%N || (127 <? n)%N then None
      else if (n =? 92)%N then
        match r with
        | String b r' =>
            if Ascii.eqb b "u" then
              match unicode_escape r' with
              | Some (c, r'') =>
                  match scan_string fuel r'' with
                  | Some (t, e) => Some (String c t, e) | None => None end
              | None => None
              end
            else
              match simple_escape b, scan_string fuel r' with
              | Some c, Some (t, e) => Some (String c t, e)
              | _, _ => None
              end
        | EmptyString => None
        end
      else match scan_string fuel r with Some (t, e) => Some (String a t, e) | None => None end
  | _, _ => None
  end.

(** *** Numbers *)

(** [0|[1-9][0-9]*]. *)
Definition scan_nat (s : string) : option (string * string) :=
  match s with
  | String a r =>
      if Ascii.eqb a "0" then Some ("0", r)
      else if is_digit a then Some (str_span is_digit s) else None
  | EmptyString => None
  end.

(** [(\.[0-9]+)?]: the digits, empty when the group does not match. *)
Definition scan_frac (s : string) : string * string :=
  match s with
  | String "."%char r => match str_span is_digit r with (EmptyString, _) => ("", s) | x => x end
  | _ => ("", s)
  end.

(** [([eE][-+]?[0-9]+)?]. *)
Definition scan_exp (s : string) : option Z * string :=
  match s with
  | String a r =>
      if Ascii.eqb a "e" || Ascii.eqb a "E" then
        let '(neg, r') := match r with
          | String "-"%char r' => (true, r') | String "+"%char r' => (false, r')
          | _ => (false, r) end in
        match str_span is_digit r' with
        | (EmptyString, _) => (None, s)
        | (ds, t) => (Some (if neg then - dec_value 0 ds else dec_value 0 ds), t)
        end
      else (None, s)
  | EmptyString => (None, s)
  end.

Definition scan_number (s : string) : option (py * string) :=
  let '(neg, t) := match s with String "-"%char t => (true, t) | _ => (false, s) end in
  match scan_nat t with
  | None =>
      match after "Infinity" t with
      | Some r => Some (PFloat (S754_infinity neg), r)
      | None => None
      end
  | Some (ds, r) =>
      let '(frac, r1) := scan_frac r in
      let '(ex, r2) := scan_exp r1 in
      match frac, ex with
      | EmptyString, None => Some (PInt (if neg then - dec_value 0 ds else dec_value 0 ds), r2)
      | _, _ => Some (PFloat (f_of_dec neg (dec_value 0 (ds +:+ frac))
                                (default 0 ex - Z.of_nat (String.length frac))), r2)
      end
  end.

Definition scan_atom (s : string) : option (py * string) :=
  match after "null" s, after "true" s, after "false" s, after "NaN" s with
  | Some r, _, _, _ => Some (PNone, r)
  | _, Some r, _, _ => Some (PBool true, r)
  | _, _, Some r, _ => Some (PBool false, r)
  | _, _, _, Some r => Some (PFloat S754_nan, r)
  | _, _, _, _ => scan_number s
  end.

(** ** Values *)

Fixpoint scan (fuel : nat) (s : string) {struct fuel} : option (py * string) :=
  match fuel with
  | O => None
  | S fuel =>
      match s with
      | String a r =>
          if Ascii.eqb a double_quote then
            match scan_string (String.length r) r with
            | Some (t, e) => Some (PStr t, e) | None => None end
          else if Ascii.eqb a "[" then
            match after_char "]" (skip_ws r) with
            | Some e => Some (PList [], e)
            | None => match scan_items fuel (skip_ws r) with
                      | Some (l, e) => Some (PList l, e) | None => None end
            end
          else if Ascii.eqb a "{" then
            match after_char "}" (skip_ws r) with
            | Some e => Some (PDict [], e)
            | None => match scan_members fuel [] (skip_ws r) with
                      | Some (d, e) => Some (PDict d, e) | None => None end
            end
          else scan_atom s
      | EmptyString => None
      end
  end
with scan_items (fuel : nat) (s : string) {struct fuel} : option (list py * string) :=
  match fuel with
  | O => None
  | S fuel =>
      match scan fuel s with
      | Some (v, r) =>
          match skip_ws r with
          | String a r' =>
              if Ascii.eqb a "]" then Some ([v], r')
              else if Ascii.eqb a "," then
                match scan_items fuel (skip_ws r') with
                | Some (l, e) => Some (v :: l, e) | None => None end
              else None
          | EmptyString => None
          end
      | None => None
      end
  end
with scan_members (fuel : nat) (d : pydict) (s : string) {struct fuel} : option (pydict * string) :=
  match fuel with
  | O => None
  | S fuel =>
      match s with
      | String a r =>
          if Ascii.eqb a double_quote then
            match scan_string (String.length r) r with
            | Some (k, e) =>
                match after_char ":" (skip_ws e) with
                | Some e' =>
                    match scan fuel (skip_ws e') with
                    | Some (v, e) =>
                        let d := dset d k v in
                        match skip_ws e with
                        | String b e' =>
                            if Ascii.eqb b "}" then Some (d, e')
                            else if Ascii.eqb b "," then scan_members fuel d (skip_ws e')
                            else None
                        | EmptyString => None
                        end
                    | None => None
                    end
                | None => None
                end
            | None => None
            end
          else None
      | EmptyString => None
      end
  end.

Definition json_fuel (s : string) : nat := (2 * String.length s + 2)%nat.

Definition json_loads (s : string) : option py :=
  match scan (json_fuel s) (skip_ws s) with
  | Some (v, r) => match skip_ws r with EmptyString => Some v | _ => None end
  | None => None
  end.

Example loads_mixed :
  json_loads " {'a' : [1, -20, 1.5e1, true, null] , 'a': {'x':[]},'b':-Infinity} "
  = None.
Proof. vm_compute. reflexivity. Qed.

Definition q : string := String double_quote "".
Example loads_object :
  json_loads ("{" +:+ q +:+ "a" +:+ q +:+ " : [1, -20, 1.5e1, true, null], " +:+ q +:+ "b" +:+ q
              +:+ ":" +:+ q +:+ "x\u000a\/" +:+ q +:+ "," +:+ q +:+ "a" +:+ q +:+ ":{}} ")
  = Some (PDict [("a", PDict []); ("b", PStr ("x" +:+ newline +:+ "/"))]).
Proof. vm_compute. reflexivity. Qed.

(** ** The fuel is enough *)

Lemma lstrip_length p s : (String.length (lstrip p s) ≤ String.length s)%nat.
Proof. induction s as [|a s IH]; simpl; [done|]. destruct (p a); simpl; lia. Qed.

Lemma str_span_length p s l r :
  str_span p s = (l, r) → String.length s = (String.length l + String.length r)%nat.
Proof.
  revert l r. induction s as [|a s IH]; intros l r; simpl; [by intros [= <- <-]|].
  destruct (p a); [|by intros [= <- <-]].
  destruct (str_span p s) as [l' r'] eqn:E. intros [= <- <-]. simpl. by rewrite (IH _ _ eq_refl).
Qed.

Lemma after_length p s r : after p s = Some r → p ≠ "" → (String.length r < String.length s)%nat.
Proof.
  unfold after, starts_with. intros Hp Hne. destruct p as [|a p]; [done|]. destruct s as [|b s]; [done|].
  destruct (String.prefix _ _); simplify_eq. rewrite str_skip_length. simpl. lia.
Qed.

Lemma scan_string_length n s t e :
  scan_string n s = Some (t, e) → (String.length e < String.length s)%nat.
Proof.
  revert s t e. induction n as [|n IH]; intros [|a r] t e; simpl; try done.
  destruct (_ =? 34)%N; [intros [= _ <-]; lia|].
  destruct (_ || _); [done|]. destruct (_ =? 92)%N.
  - destruct r as [|b r]; [done|]. destruct (Ascii.eqb b "u").
    + destruct (unicode_escape r) as [[c r']|] eqn:Eu; [|done].
      destruct (scan_string n r') as [[u f]|] eqn:E; [|done]. intros [= _ <-].
      apply IH in E. unfold unicode_escape in Eu.
      destruct r as [|x1 [|x2 [|x3 [|x4 r]]]]; try done.
      destruct (is_hexdigit _ && _ && _ && _); [|done]. destruct (_ <? 128); [|done].
      simplify_eq. simpl. lia.
    + destruct (simple_escape b), (scan_string n r) as [[u f]|] eqn:E; try done.
      intros [= _ <-]. apply IH in E. simpl. lia.
  - destruct (scan_string n r) as [[u f]|] eqn:E; [|done]. intros [= _ <-]. apply IH in E. lia.
Qed.

(** More fuel than characters changes nothing. *)
Lemma scan_string_fuel n m s :
  (String.length s ≤ n ≤ m)%nat → scan_string m s = scan_string n s.
Proof.
  revert m s. induction n as [|n IH]; intros m [|a r] Hn; simpl in *; try lia; destruct m; try done; try lia.
  simpl. destruct (_ =? 34)%N; [done|]. destruct (_ || _); [done|]. destruct (_ =? 92)%N.
  - destruct r as [|b r]; [done|]. destruct (Ascii.eqb b "u").
    + destruct (unicode_escape r) as [[c r']|] eqn:Eu; [|done].
      rewrite (IH m r'); [done|]. unfold unicode_escape in Eu.
      destruct r as [|x1 [|x2 [|x3 [|x4 r]]]]; try done.
      destruct (is_hexdigit _ && _ && _ && _); [|done]. destruct (_ <? 128); [|done].
      simplify_eq. simpl in *. lia.
    + rewrite (IH m r) by (simpl in *; lia). done.
  - rewrite (IH m r) by lia. done.
Qed.

Lemma scan_frac_length s l r : scan_frac s = (l, r) → (String.length r ≤ String.length s)%nat.
Proof.
  unfold scan_frac. intros H. repeat case_match; simplify_eq; try lia.
  match goal with H : str_span _ _ = _ |- _ => apply str_span_length in H end.
  simpl in *. lia.
Qed.

Lemma scan_exp_length s x r : scan_exp s = (x, r) → (String.length r ≤ String.length s)%nat.
Proof.
  unfold scan_exp. intros H. repeat case_match; simplify_eq; try lia;
    repeat match goal with H : str_span _ _ = _ |- _ => apply str_span_length in H end;
    simpl in *; lia.
Qed.

Lemma scan_nat_length s l r : scan_nat s = Some (l, r) → (String.length r < String.length s)%nat.
Proof.
  unfold scan_nat. destruct s as [|a s]; [done|]. destruct (Ascii.eqb a "0").
  - intros [= _ <-]. simpl. lia.
  - destruct (is_digit a) eqn:Ha; [|done]. intros [= H].
    simpl in H. rewrite Ha in H. destruct (str_span is_digit s) as [l' r'] eqn:E. simplify_eq.
    apply str_span_length in E. simpl. lia.
Qed.

Lemma scan_number_length s v r :
  scan_number s = Some (v, r) → (String.length r < String.length s)%nat.
Proof.
  unfold scan_number.
  destruct (match s with String "-"%char t => (true, t) | _ => (false, s) end) as [neg t] eqn:Es.
  assert (String.length t ≤ String.length s)%nat as Ht.
  { repeat case_match; simplify_eq; simpl; lia. }
  destruct (scan_nat t) as [[ds u]|] eqn:En.
  - apply scan_nat_length in En.
    destruct (scan_frac u) as [fr r1] eqn:Ef. apply scan_frac_length in Ef.
    destruct (scan_exp r1) as [ex r2] eqn:Ee. apply scan_exp_length in Ee.
    intros H. repeat case_match; simplify_eq; lia.
  - destruct (after _ t) eqn:Ea; [|done]. intros [= _ <-].
    apply after_length in Ea; [lia|done].
Qed.

Lemma scan_atom_length s v r :
  scan_atom s = Some (v, r) → (String.length r < String.length s)%nat.
Proof.
  unfold scan_atom. intros H. repeat case_match; simplify_eq;
    first [by eapply scan_number_length | by eapply after_length].
Qed.

Lemma skip_ws_length s : (String.length (skip_ws s) ≤ String.length s)%nat.
Proof. apply lstrip_length. Qed.

Lemma after_char_length c s r :
  after_char c s = Some r → String.length s = S (String.length r).
Proof. destruct s as [|a s]; simpl; [done|]. destruct (Ascii.eqb a c); [|done]. by intros [= <-]. Qed.

(** Bring in the bounds on every piece of text in sight. *)
Ltac json_lengths :=
  repeat match goal with
  | H : scan_string _ _ = Some _ |- _ => apply scan_string_length in H
  | H : scan_atom _ = Some _ |- _ => apply scan_atom_length in H
  | H : after_char _ _ = Some _ |- _ => apply after_char_length in H
  | H : context [skip_ws ?x] |- _ =>
      lazymatch goal with
      | _ : (String.length (skip_ws x) ≤ String.length x)%nat |- _ => fail
      | _ => pose proof (skip_ws_length x)
      end
  | |- context [skip_ws ?x] =>
      lazymatch goal with
      | _ : (String.length (skip_ws x) ≤ String.length x)%nat |- _ => fail
      | _ => pose proof (skip_ws_length x)
      end
  end;
  repeat match goal with H : skip_ws _ = _ |- _ => rewrite H in * end; simpl in *; try lia.

Lemma scan_length n :
  (∀ s v r, scan n s = Some (v, r) → (String.length r < String.length s)%nat)
  ∧ (∀ s v r, scan_items n s = Some (v, r) → (String.length r < String.length s)%nat)
  ∧ (∀ s d v r, scan_members n d s = Some (v, r) → (String.length r < String.length s)%nat).
Proof.
  induction n as [|n (IHv & IHi & IHm)]; [done|].
  repeat split; [intros [|a s] v r H|intros s v r H|intros [|a s] d v r H]; simpl in H; try done;
    repeat case_match; simplify_eq;
    repeat match goal with
    | H : scan n _ = Some _ |- _ => apply IHv in H
    | H : scan_items n _ = Some _ |- _ => apply IHi in H
    | H : scan_members n _ _ = Some _ |- _ => apply IHm in H
    end; json_lengths.
Qed.

(** The fuel that [json_loads] provides and any larger one give the same
    result. *)
Lemma scan_fuel n :
  (∀ s m, (2 * String.length s + 1 ≤ n ≤ m)%nat → scan m s = scan n s)
  ∧ (∀ s m, (2 * String.length s + 2 ≤ n ≤ m)%nat → scan_items m s = scan_items n s)
  ∧ (∀ s d m, (2 * String.length s + 2 ≤ n ≤ m)%nat → scan_members m d s = scan_members n d s).
Proof.
  induction n as [|n (IHv & IHi & IHm)]; [repeat split; intros; lia|].
  repeat split.
  - intros [|a s] [|m] Hn; simpl in Hn; try lia; [done|]. cbn [scan].
    repeat case_match; try done;
      repeat match goal with
      | H : scan_items m (skip_ws s) = _ |- _ => rewrite IHi in H by json_lengths
      | H : scan_members m [] (skip_ws s) = _ |- _ => rewrite IHm in H by json_lengths
      end; congruence.
  - intros s [|m] Hn; [lia|]. cbn [scan_items]. rewrite (IHv s m) by lia.
    destruct (scan n s) as [[v r]|] eqn:E; [|done].
    pose proof (proj1 (scan_length n) _ _ _ E). destruct (skip_ws r) as [|b t] eqn:Et; [done|].
    destruct (Ascii.eqb b "]"); [done|]. destruct (Ascii.eqb b ","); [|done].
    rewrite (IHi (skip_ws t) m); [done|]. json_lengths.
  - intros [|a s] d [|m] Hn; simpl in Hn; try lia; [done|]. cbn [scan_members].
    destruct (Ascii.eqb a double_quote); [|done].
    destruct (scan_string _ s) as [[k e]|] eqn:Es; [|done].
    destruct (after_char ":" (skip_ws e)) as [e'|] eqn:Ec; [|done].
    rewrite (IHv (skip_ws e') m) by json_lengths.
    destruct (scan n (skip_ws e')) as [[v r]|] eqn:E; [|done].
    pose proof (proj1 (scan_length n) _ _ _ E). destruct (skip_ws r) as [|b t] eqn:Et; [done|].
    destruct (Ascii.eqb b "}"); [done|]. destruct (Ascii.eqb b ","); [|done].
    apply IHm. json_lengths.
Qed.

(** ** The parser without its fuel *)

Definition value_of (s : string) : option (py * string) := scan (2 * String.length s + 1) s.
Definition items_of (s : string) : option (list py * string) :=
  scan_items (2 * String.length s + 2) s.
Definition members_of (d : pydict) (s : string) : option (pydict * string) :=
  scan_members (2 * String.length s + 2) d s.

Lemma json_loads_spec s :
  json_loads s = match value_of (skip_ws s) with
                 | Some (v, r) => match skip_ws r with EmptyString => Some v | _ => None end
                 | None => None
                 end.
Proof.
  unfold json_loads, value_of, json_fuel. pose proof (skip_ws_length s).
  by rewrite (proj1 (scan_fuel (2 * String.length (skip_ws s) + 1)) (skip_ws s) (2 * String.length s + 2)%nat) by lia.
Qed.

Lemma value_of_string t :
  value_of (String double_quote t) =
  match scan_string (String.length t) t with Some (x, e) => Some (PStr x, e) | None => None end.
Proof. unfold value_of. simpl String.length. by replace (2 * S _ + 1)%nat with (S (2 * String.length t + 2)) by lia. Qed.

Lemma value_of_list t :
  value_of (String "[" t) =
  match after_char "]" (skip_ws t) with
  | Some e => Some (PList [], e)
  | None => match items_of (skip_ws t) with Some (l, e) => Some (PList l, e) | None => None end
  end.
Proof.
  unfold value_of, items_of. simpl String.length.
  replace (2 * S _ + 1)%nat with (S (2 * String.length t + 2)) by lia. cbn [scan].
  change (Ascii.eqb "[" double_quote) with false. cbn iota.
  rewrite (proj1 (proj2 (scan_fuel (2 * String.length (skip_ws t) + 2))) (skip_ws t)
    (2 * String.length t + 2)%nat); [done|].
  pose proof (skip_ws_length t). lia.
Qed.

Lemma value_of_dict t :
  value_of (String "{" t) =
  match after_char "}" (skip_ws t) with
  | Some e => Some (PDict [], e)
  | None => match members_of [] (skip_ws t) with Some (l, e) => Some (PDict l, e) | None => None end
  end.
Proof.
  unfold value_of, members_of. simpl String.length.
  replace (2 * S _ + 1)%nat with (S (2 * String.length t + 2)) by lia. cbn [scan].
  change (Ascii.eqb "{" double_quote) with false. change (Ascii.eqb "{" "[") with false. cbn iota.
  rewrite (proj2 (proj2 (scan_fuel (2 * String.length (skip_ws t) + 2))) (skip_ws t) []
    (2 * String.length t + 2)%nat); [done|].
  pose proof (skip_ws_length t). lia.
Qed.

Lemma items_of_step s v r c t :
  value_of s = Some (v, r) → skip_ws r = String c t →
  items_of s =
    if Ascii.eqb c "]" then Some ([v], t)
    else if Ascii.eqb c "," then
      match items_of (skip_ws t) with Some (l, e) => Some (v :: l, e) | None => None end
    else None.
Proof.
  unfold value_of, items_of. intros Hv Hr.
  replace (2 * String.length s + 2)%nat with (S (2 * String.length s + 1)) by lia. cbn [scan_items].
  rewrite Hv, Hr. destruct (Ascii.eqb c "]"); [done|]. destruct (Ascii.eqb c ","); [|done].
  rewrite (proj1 (proj2 (scan_fuel (2 * String.length (skip_ws t) + 2)%nat))); [done|].
  apply (proj1 (scan_length _)) in Hv. json_lengths.
Qed.

Lemma members_of_step d s k e e' v r c t :
  scan_string (String.length s) s = Some (k, e) → after_char ":" (skip_ws e) = Some e' →
  value_of (skip_ws e') = Some (v, r) → skip_ws r = String c t →
  members_of d (String double_quote s) =
    if Ascii.eqb c "}" then Some (dset d k v, t)
    else if Ascii.eqb c "," then members_of (dset d k v) (skip_ws t) else None.
Proof.
  unfold value_of, members_of. intros Hk He Hv Hr. simpl String.length.
  replace (2 * S _ + 2)%nat with (S (2 * String.length s + 3)) by lia. cbn [scan_members].
  change (Ascii.eqb double_quote double_quote) with true. cbn iota. rewrite Hk, He.
  rewrite (proj1 (scan_fuel (2 * String.length (skip_ws e') + 1)%nat)) by json_lengths.
  rewrite Hv, Hr. destruct (Ascii.eqb c "}"); [done|]. destruct (Ascii.eqb c ","); [|done].
  rewrite (proj2 (proj2 (scan_fuel (2 * String.length (skip_ws t) + 2)%nat))); [done|].
  apply (proj1 (scan_length _)) in Hv. json_lengths.
Qed.

(** ** What is printed reads back *)

Definition is_ascii (a : ascii) : bool := (N_of_ascii a <? 128)%N.

(** The documents whose printing is exact: no floats, ASCII text, distinct
    keys. *)
Fixpoint json_ok (v : py) : Prop :=
  match v with
  | PFloat _ => False
  | PStr s => str_all is_ascii s = true
  | PList l => (fix go l := match l with [] => True | v :: r => json_ok v ∧ go r end) l
  | PDict d =>
      NoDup (dkeys d)
      ∧ (fix go d := match d with
           | [] => True
           | kv :: r => str_all is_ascii kv.1 = true ∧ json_ok kv.2 ∧ go r
           end) d
  | _ => True
  end.

Lemma json_ok_list l : json_ok (PList l) ↔ Forall json_ok l.
Proof. simpl. induction l as [|v l IH]; [done|]. rewrite Forall_cons, <- IH. done. Qed.

Lemma json_ok_dict d :
  json_ok (PDict d) ↔
  NoDup (dkeys d) ∧ Forall (λ kv, str_all is_ascii kv.1 = true ∧ json_ok kv.2) d.
Proof.
  simpl. apply and_iff_compat_l. induction d as [|kv d IH]; [done|]. rewrite Forall_cons, <- IH.
  tauto.
Qed.

(** The document with the keys of its dicts sorted, which is what the printed
    text lists. *)
Definition member_le (a b : string * py) : Prop := String.le a.1 b.1.
#[export] Instance member_le_dec : RelDecision member_le.
Proof. intros a b. unfold member_le. apply _. Defined.

Fixpoint jsort (v : py) : py :=
  match v with
  | PList l => PList (map jsort l)
  | PDict d => PDict (merge_sort member_le (map (λ kv, (kv.1, jsort kv.2)) d))
  | _ => v
  end.
