(* ===== verification/PyJsonFacts.v ===== *)
(** * What [json.dumps] prints reads back

    The round trip of [json.dumps(v, indent=2, sort_keys=True)] through
    [json.loads] on the documents without floats, and the lemmas on sorted
    dicts that users of the round trip need. *)
From Stdlib Require Import DecimalString DecimalFacts DecimalPos DecimalN.
From S2P Require Import Prelude PyFloat PyValue PyNet PyJson.
#[local] Open Scope Z_scope.

(** ** Sorting commutes with mapping *)

Section merge_sort_map.
Context {A B : Type} (R : relation A) (Q : relation B)
  `{∀ x y, Decision (R x y)} `{∀ x y, Decision (Q x y)} (f : A → B).
Hypothesis HR : ∀ x y, R x y ↔ Q (f x) (f y).

Lemma list_merge_map l m : list_merge Q (map f l) (map f m) = map f (list_merge R l m).
Proof.
  revert m. induction l as [|x l IHl]; intros m; [by destruct m|].
  induction m as [|y m IHm]; [done|]. cbn [map list_merge].
  destruct (decide (R x y)) as [HRxy|HRxy], (decide (Q (f x) (f y))) as [HQ|HQ];
    try (exfalso; rewrite HR in HRxy; done); cbn [map].
  - f_equal. apply (IHl (y :: m)).
  - f_equal. apply IHm.
Qed.

Definition map_stack (st : list (option (list A))) : list (option (list B)) :=
  map (option_map (map f)) st.

Lemma merge_list_to_stack_map st l :
  merge_list_to_stack Q (map_stack st) (map f l) = map_stack (merge_list_to_stack R st l).
Proof.
  revert l. induction st as [|[l'|] st IH]; intros l; simpl; [done| |done].
  f_equal. rewrite list_merge_map. apply IH.
Qed.

Lemma merge_stack_map st : merge_stack Q (map_stack st) = map f (merge_stack R st).
Proof.
  induction st as [|[l|] st IH]; simpl; [done| |done]. by rewrite IH, list_merge_map.
Qed.

Lemma merge_sort_map l : merge_sort Q (map f l) = map f (merge_sort R l).
Proof.
  unfold merge_sort. change (@nil (option (list B))) with (map_stack []).
  generalize (@nil (option (list A))) as st. induction l as [|x l IH]; intros st; simpl.
  - apply merge_stack_map.
  - change [f x] with (map f [x]). by rewrite merge_list_to_stack_map.
Qed.
End merge_sort_map.

(** ** Numbers *)

(** Text that cannot continue a number. *)
Definition stops (s : string) : bool :=
  match s with
  | EmptyString => true
  | String a _ =>
      negb (is_digit a) && negb (Ascii.eqb a ".") && negb (Ascii.eqb a "e") && negb (Ascii.eqb a "E")
  end.

Lemma str_span_all p a b :
  str_all p a = true → (match b with EmptyString => true | String c _ => negb (p c) end) = true →
  str_span p (a +:+ b) = (a, b).
Proof.
  intros Ha Hb. induction a as [|x a IH].
  - change ("" +:+ b) with b. destruct b as [|c b]; [done|]. simpl. apply negb_true_iff in Hb. by rewrite Hb.
  - simpl in Ha. apply andb_true_iff in Ha as [Hx Ha].
    change (String x a +:+ b) with (String x (a +:+ b)). simpl. by rewrite Hx, IH.
Qed.

Lemma uint_digits u : str_all is_digit (NilEmpty.string_of_uint u) = true.
Proof. induction u; simpl; done. Qed.

Ltac eval_ascii :=
  repeat match goal with
  | |- context [N_of_ascii ?c] =>
      let v := eval vm_compute in (N_of_ascii c) in change (N_of_ascii c) with v
  end.

Lemma uint_value_acc u acc :
  dec_value (Zpos acc) (NilEmpty.string_of_uint u) = Zpos (Pos.of_uint_acc u acc).
Proof.
  revert acc. induction u; intros acc; [done|..]; cbn [NilEmpty.string_of_uint dec_value Pos.of_uint_acc];
    rewrite <- IHu; f_equal; eval_ascii; lia.
Qed.

Lemma uint_value u : dec_value 0 (NilEmpty.string_of_uint u) = Z.of_N (Pos.of_uint u).
Proof.
  induction u; [done|..]; cbn [NilEmpty.string_of_uint dec_value Pos.of_uint Z.of_N];
    first [exact IHu | rewrite <- uint_value_acc; done].
Qed.

(** A positive number prints without a leading zero. *)
Lemma pos_head p :
  ∃ a s, NilEmpty.string_of_uint (Pos.to_uint p) = String a s ∧ is_digit a = true ∧ a ≠ "0"%char.
Proof.
  pose proof (DecimalN.Unsigned.to_of (Pos.to_uint p)) as H.
  change (N.of_uint (Pos.to_uint p)) with (Pos.of_uint (Pos.to_uint p)) in H.
  rewrite DecimalPos.Unsigned.of_to in H. change (N.to_uint (N.pos p)) with (Pos.to_uint p) in H.
  pose proof (DecimalPos.Unsigned.to_uint_nonzero p) as Hz.
  unfold Decimal.unorm in H. pose proof (nzhead_nonzero (Pos.to_uint p)) as Hn.
  destruct (Decimal.nzhead (Pos.to_uint p)) as [|u|u|u|u|u|u|u|u|u|u] eqn:E;
    try (by destruct (Hn u)); [by rewrite H in Hz|..];
    rewrite H; simpl; eauto 10.
Qed.

Lemma pos_value p : dec_value 0 (NilEmpty.string_of_uint (Pos.to_uint p)) = Zpos p.
Proof. rewrite uint_value, DecimalPos.Unsigned.of_to. done. Qed.

Lemma pos_str p : NilZero.string_of_uint (Pos.to_uint p) = NilEmpty.string_of_uint (Pos.to_uint p).
Proof. pose proof (pos_head p) as (a & s & H & _). destruct (Pos.to_uint p); done. Qed.

Lemma scan_exp_stops t : stops t = true → scan_exp t = (None, t).
Proof.
  intros H. destruct t as [|b t]; [done|]. simpl in *. bool_split.
  by destruct (Ascii.eqb b "e"), (Ascii.eqb b "E").
Qed.

Lemma scan_frac_stops t : stops t = true → scan_frac t = ("", t).
Proof.
  intros H. destruct t as [|b t]; [done|]. simpl in *. bool_split.
  by destruct b as [[] [] [] [] [] [] [] []].
Qed.

Lemma scan_nat_pos p t :
  stops t = true →
  scan_nat (NilEmpty.string_of_uint (Pos.to_uint p) +:+ t)
  = Some (NilEmpty.string_of_uint (Pos.to_uint p), t).
Proof.
  intros Ht. destruct (pos_head p) as (a & s & H & Hd & H0). rewrite H.
  change (String a s +:+ t) with (String a (s +:+ t)). unfold scan_nat.
  apply Ascii.eqb_neq in H0. rewrite H0, Hd. f_equal.
  change (String a (s +:+ t)) with (String a s +:+ t). rewrite <- H.
  apply str_span_all; [apply uint_digits|]. destruct t; [done|]. simpl in Ht. bool_split. by apply negb_true_iff.
Qed.

Lemma scan_number_int z t : stops t = true → scan_number (Z_str z +:+ t) = Some (PInt z, t).
Proof.
  intros Ht. unfold Z_str. destruct z as [|p|p].
  - change (NilZero.string_of_int (Z.to_int 0) +:+ t) with (String "0" t). unfold scan_number.
    cbn [scan_nat]. change (Ascii.eqb "0" "0") with true. cbn iota.
    by rewrite scan_frac_stops, scan_exp_stops.
  - change (NilZero.string_of_int (Z.to_int (Z.pos p)))
      with (NilZero.string_of_uint (Pos.to_uint p)). rewrite pos_str.
    unfold scan_number. pose proof (scan_nat_pos p t Ht) as Hn.
    destruct (pos_head p) as (a & s & H & Hd & H0).
    assert (match NilEmpty.string_of_uint (Pos.to_uint p) +:+ t with
            | String "-"%char u => (true, u)
            | _ => (false, NilEmpty.string_of_uint (Pos.to_uint p) +:+ t) end
      = (false, NilEmpty.string_of_uint (Pos.to_uint p) +:+ t)) as ->.
    { rewrite H. change (String a s +:+ t) with (String a (s +:+ t)).
      by destruct a as [[] [] [] [] [] [] [] []]. }
    rewrite Hn, scan_frac_stops, scan_exp_stops by done. by rewrite pos_value.
  - change (NilZero.string_of_int (Z.to_int (Z.neg p)) +:+ t)
      with (String "-" (NilZero.string_of_uint (Pos.to_uint p) +:+ t)). rewrite pos_str.
    unfold scan_number. rewrite scan_nat_pos by done.
    rewrite scan_frac_stops, scan_exp_stops by done. by rewrite pos_value.
Qed.

(** ** Strings *)

Lemma scan_json_char a n x :
  is_ascii a = true →
  scan_string (S n) (json_char a +:+ x)
  = match scan_string n x with Some (t, e) => Some (String a t, e) | None => None end.
Proof.
  intros Ha. destruct a as [[] [] [] [] [] [] [] []]; try discriminate Ha; reflexivity.
Qed.

Lemma json_char_length a : (1 ≤ String.length (json_char a))%nat.
Proof. destruct a as [[] [] [] [] [] [] [] []]; vm_compute; lia. Qed.

Lemma map_str_length s : (String.length s ≤ String.length (map_str json_char s))%nat.
Proof.
  induction s as [|a s IH]; simpl; [done|]. rewrite length_app_str.
  pose proof (json_char_length a). lia.
Qed.

Lemma scan_json_str s rest :
  str_all is_ascii s = true →
  scan_string (String.length (map_str json_char s +:+ String double_quote rest))
    (map_str json_char s +:+ String double_quote rest) = Some (s, rest).
Proof.
  intros Hs. assert (∀ n, (S (String.length s) ≤ n)%nat →
    scan_string n (map_str json_char s +:+ String double_quote rest) = Some (s, rest)) as Hn.
  { induction s as [|a s IH]; intros [|n] Hn; [simpl in *; lia|done|simpl in *; lia|].
    cbn [map_str str_all String.length] in *.
    apply andb_true_iff in Hs as [Ha Hs]. rewrite app_str_assoc, scan_json_char by done.
    by rewrite IH by (done || lia). }
  apply Hn. rewrite length_app_str. simpl. pose proof (map_str_length s). lia.
Qed.

(** ** Values *)

Lemma skip_ws_head a s : is_json_ws a = false → skip_ws (String a s) = String a s.
Proof. intros Ha. unfold skip_ws. simpl. by rewrite Ha. Qed.

Lemma skip_ws_indent lvl a s :
  is_json_ws a = false → skip_ws (indent_at lvl +:+ String a s) = String a s.
Proof.
  intros Ha. unfold indent_at. rewrite app_str_assoc.
  change (newline +:+ ?x) with (String "010" x). unfold skip_ws. cbn [lstrip].
  change (is_json_ws "010") with true. cbn iota. generalize (2 * lvl)%nat as k.
  induction k as [|k IH]; [by apply skip_ws_head|]. exact IH.
Qed.

(** The first character of a printed value. *)
Definition value_head (a : ascii) : bool :=
  negb (is_json_ws a) && negb (Ascii.eqb a "]") && negb (Ascii.eqb a "}").

Lemma digit_head a : is_digit a = true → value_head a = true.
Proof. by destruct a as [[] [] [] [] [] [] [] []]. Qed.

Lemma Z_str_head z : ∃ a s, Z_str z = String a s ∧ (is_digit a = true ∨ a = "-"%char).
Proof.
  unfold Z_str. destruct z as [|p|p].
  - eexists _, _. split; [reflexivity|]. by left.
  - change (NilZero.string_of_int (Z.to_int (Z.pos p))) with (NilZero.string_of_uint (Pos.to_uint p)).
    rewrite pos_str. destruct (pos_head p) as (a & s & H & Hd & _). eauto 10.
  - eexists _, _. split; [reflexivity|]. by right.
Qed.

Lemma dumps_head lvl v :
  json_ok v → ∃ a s, json_dumps_at lvl v = String a s ∧ value_head a = true.
Proof.
  destruct v as [|[]|z|f|s|[|x l]|[|kv d]]; intros Hv; try (by eexists _, _; split; [reflexivity|]).
  - destruct (Z_str_head z) as (a & s & H & Hd). exists a, s. split; [done|].
    destruct Hd as [Hd| ->]; [by apply digit_head|done].
  - done.
Qed.

Lemma value_head_ws a : value_head a = true → is_json_ws a = false.
Proof. unfold value_head. intros H. by bool_split. Qed.

Lemma value_of_int z t : stops t = true → value_of (Z_str z +:+ t) = Some (PInt z, t).
Proof.
  intros Ht. pose proof (scan_number_int z t Ht) as Hn.
  destruct (Z_str_head z) as (a & s & H & Hd). rewrite H in *.
  change (String a s +:+ t) with (String a (s +:+ t)) in *.
  assert (value_of (String a (s +:+ t)) = scan_number (String a (s +:+ t))) as ->; [|done].
  unfold value_of. replace (2 * String.length (String a (s +:+ t)) + 1)%nat
    with (S (2 * String.length (s +:+ t) + 2)) by (simpl; lia). cbn [scan].
  destruct Hd as [Hd| ->]; [|reflexivity].
  by destruct a as [[] [] [] [] [] [] [] []].
Qed.

(** One printed value reads back, whatever follows it. *)
Definition reads_back (v : py) : Prop :=
  ∀ lvl t, stops t = true → value_of (json_dumps_at lvl v +:+ t) = Some (jsort v, t).

Definition sep_at (lvl : nat) : string := "," +:+ indent_at lvl.

Lemma indent_stops lvl t : stops (indent_at lvl +:+ t) = true.
Proof. reflexivity. Qed.

Lemma comma_stops t : stops (String "," t) = true.
Proof. reflexivity. Qed.

Lemma items_read_back lvl l t :
  l ≠ [] → Forall json_ok l → Forall reads_back l →
  items_of (str_concat (sep_at (S lvl)) (map (json_dumps_at (S lvl)) l)
            +:+ indent_at lvl +:+ String "]" t) = Some (map jsort l, t).
Proof.
  intros Hne Hok Hl. induction l as [|v l IH]; [done|]. clear Hne.
  apply Forall_cons in Hok as [Hv Hok], Hl as [Hrv Hl]. destruct l as [|w l].
  - cbn [map str_concat].
    rewrite (items_of_step _ _ _ "]" t (Hrv _ _ (indent_stops _ _))); [done|].
    by apply skip_ws_indent.
  - change (str_concat ?s (map ?f (v :: w :: l)))
      with (f v +:+ s +:+ str_concat s (map f (w :: l))).
    unfold sep_at at 1. rewrite !app_str_assoc. rewrite char_app.
    rewrite (items_of_step _ (jsort v) _ "," (indent_at (S lvl) +:+ str_concat (sep_at (S lvl))
      (map (json_dumps_at (S lvl)) (w :: l)) +:+ indent_at lvl +:+ String "]" t)
      (Hrv _ _ (comma_stops _)) eq_refl).
    change (Ascii.eqb "," "]") with false. change (Ascii.eqb "," ",") with true. cbn iota.
    specialize (IH ltac:(done) Hok Hl).
    assert (∃ a s, str_concat (sep_at (S lvl)) (map (json_dumps_at (S lvl)) (w :: l))
      = String a s ∧ value_head a = true) as (a & s & Hs & Ha).
    { apply Forall_cons in Hok as [Hw _]. destruct (dumps_head (S lvl) w Hw) as (a & s & Hs & Ha).
      exists a. cbn [map str_concat]. rewrite Hs. destruct (map _ l); eauto. }
    rewrite Hs in *. change (String a s +:+ ?x) with (String a (s +:+ x)) in *.
    rewrite skip_ws_indent by (by apply value_head_ws). by rewrite IH.
Qed.

Lemma dset_fresh d k v : k ∉ dkeys d → dset d k v = d ++ [(k, v)].
Proof.
  induction d as [|[k' v'] d IH]; simpl; [done|]. intros [Hne Hnin]%not_elem_of_cons.
  apply String.eqb_neq in Hne. by rewrite Hne, IH.
Qed.

Definition print_member (lvl : nat) (kv : string * py) : string :=
  json_str kv.1 +:+ ": " +:+ json_dumps_at lvl kv.2.

Lemma nil_app y : "" +:+ y = y.
Proof. done. Qed.

Lemma print_member_app lvl k v u :
  print_member lvl (k, v) +:+ u
  = String double_quote (map_str json_char k +:+ String double_quote
      (String ":" (String " " (json_dumps_at lvl v +:+ u)))).
Proof.
  unfold print_member, json_str. cbn [fst snd].
  by rewrite ?app_str_assoc, ?cons_app, ?app_str_assoc, ?cons_app, ?nil_app.
Qed.

Lemma members_read_back lvl l d t :
  l ≠ [] → Forall (λ kv, str_all is_ascii kv.1 = true ∧ json_ok kv.2) l →
  Forall (λ kv, reads_back kv.2) l → NoDup (dkeys (d ++ l)) →
  members_of d (str_concat (sep_at (S lvl)) (map (print_member (S lvl)) l)
                +:+ indent_at lvl +:+ String "}" t)
  = Some (d ++ map (λ kv, (kv.1, jsort kv.2)) l, t).
Proof.
  intros Hne Hok Hl. revert d. induction l as [|[k v] l IH]; [done|]; intros d Hnd. clear Hne.
  apply Forall_cons in Hok as [[Hk Hv] Hok], Hl as [Hrv Hl]. cbn [fst snd] in *.
  assert (∀ u b w, stops u = true → skip_ws u = String b w →
    members_of d (print_member (S lvl) (k, v) +:+ u) =
      if Ascii.eqb b "}" then Some (dset d k (jsort v), w)
      else if Ascii.eqb b "," then members_of (dset d k (jsort v)) (skip_ws w) else None) as Hstep.
  { intros u b w Hu Hx. rewrite print_member_app.
    eapply members_of_step; [by apply scan_json_str|reflexivity|..|exact Hx].
    destruct (dumps_head (S lvl) v Hv) as (a & s & Hs & Ha).
    change (skip_ws (String " " ?y)) with (skip_ws y).
    rewrite <- (Hrv (S lvl) u Hu). rewrite Hs, cons_app. by rewrite skip_ws_head by (by apply value_head_ws). }
  assert (k ∉ dkeys d) as Hkd.
  { unfold dkeys in Hnd. rewrite map_app in Hnd. apply NoDup_app in Hnd as (_ & Hnd & _).
    intros Hin. by apply (Hnd k Hin); left. }
  destruct l as [|w l].
  - cbn [map str_concat].
    rewrite (Hstep _ "}"%char t (indent_stops _ _) (skip_ws_indent _ "}" t eq_refl)).
    cbn [fst snd]. by rewrite dset_fresh.
  - change (str_concat ?s (map ?f ((k, v) :: w :: l)))
      with (f (k, v) +:+ s +:+ str_concat s (map f (w :: l))).
    unfold sep_at at 1. rewrite !app_str_assoc, char_app.
    rewrite (Hstep _ ","%char _ (comma_stops _) eq_refl).
    change (Ascii.eqb "," "}") with false. change (Ascii.eqb "," ",") with true. cbn iota.
    rewrite dset_fresh by done.
    specialize (IH ltac:(done) Hok Hl (d ++ [(k, jsort v)])).
    assert (∃ s, str_concat (sep_at (S lvl)) (map (print_member (S lvl)) (w :: l))
      = String double_quote s) as [s Hs].
    { cbn [map str_concat]. unfold print_member at 1, json_str. destruct (map _ l); eexists; reflexivity. }
    rewrite Hs in *. change (String double_quote s +:+ ?x) with (String double_quote (s +:+ x)) in *.
    rewrite skip_ws_indent by done. rewrite IH.
    + rewrite <- app_assoc. done.
    + unfold dkeys in *. rewrite !map_app in *. rewrite <- app_assoc. exact Hnd.
Qed.

Lemma json_dumps_dict lvl kv d :
  json_dumps_at lvl (PDict (kv :: d))
  = "{" +:+ indent_at (S lvl)
      +:+ str_concat (sep_at (S lvl)) (map (print_member (S lvl)) (merge_sort member_le (kv :: d)))
      +:+ indent_at lvl +:+ "}".
Proof.
  change (json_dumps_at lvl (PDict (kv :: d))) with
    ("{" +:+ indent_at (S lvl)
      +:+ str_concat (sep_at (S lvl))
            (map (λ kv, json_str kv.1 +:+ ": " +:+ kv.2)
               (merge_sort key_le (map (λ kv, (kv.1, json_dumps_at (S lvl) kv.2)) (kv :: d))))
      +:+ indent_at lvl +:+ "}").
  rewrite (merge_sort_map member_le key_le) by done. by rewrite map_map.
Qed.

Lemma jsort_dict d :
  jsort (PDict d) = PDict (map (λ kv, (kv.1, jsort kv.2)) (merge_sort member_le d)).
Proof. simpl. by rewrite (merge_sort_map member_le member_le) by done. Qed.

Lemma json_ok_reads_back v : json_ok v → reads_back v.
Proof.
  induction v as [|b|z|f|s|l IH|d IH] using py_nested_ind; intros Hok lvl t Ht.
  - by destruct t.
  - by destruct b, t.
  - by apply value_of_int.
  - done.
  - change (json_dumps_at lvl (PStr s)) with (json_str s). unfold json_str.
    rewrite cons_app, app_str_assoc, cons_app, nil_app, value_of_string.
    by rewrite scan_json_str.
  - apply json_ok_list in Hok. destruct l as [|v l]; [reflexivity|].
    change (json_dumps_at lvl (PList (v :: l))) with
      ("[" +:+ indent_at (S lvl) +:+ str_concat (sep_at (S lvl)) (map (json_dumps_at (S lvl)) (v :: l))
         +:+ indent_at lvl +:+ "]").
    rewrite ?app_str_assoc, ?cons_app, ?nil_app, value_of_list.
    assert (Forall reads_back (v :: l)) as Hl.
    { rewrite Forall_forall in *. auto. }
    pose proof (items_read_back lvl (v :: l) t ltac:(done) Hok Hl) as Hi.
    apply Forall_cons in Hok as [Hv _]. destruct (dumps_head (S lvl) v Hv) as (a & s & Hs & Ha).
    assert (∃ u, str_concat (sep_at (S lvl)) (map (json_dumps_at (S lvl)) (v :: l))
      +:+ indent_at lvl +:+ String "]" t = String a u) as [u Hu].
    { cbn [map str_concat]. rewrite Hs. destruct (map _ l); eexists; reflexivity. }
    rewrite Hu in *. rewrite skip_ws_indent by (by apply value_head_ws). rewrite Hi.
    assert (after_char "]" (String a u) = None) as ->; [|done].
    unfold value_head in Ha. bool_split. simpl. by destruct (Ascii.eqb a "]").
  - apply json_ok_dict in Hok as [Hnd Hok]. destruct d as [|kv d]; [reflexivity|].
    rewrite json_dumps_dict, jsort_dict, ?app_str_assoc, ?cons_app, ?nil_app, value_of_dict.
    pose proof (merge_sort_Permutation member_le (kv :: d)) as Hp.
    assert (merge_sort member_le (kv :: d) ≠ []) as Hne.
    { intros E. rewrite E in Hp. by apply Permutation_nil in Hp. }
    pose proof (members_read_back lvl (merge_sort member_le (kv :: d)) [] t Hne) as Hm.
    specialize (Hm ltac:(by rewrite Hp)).
    assert (Forall (λ kv, reads_back kv.2) (kv :: d)) as Hl.
    { rewrite Forall_forall in *. intros x Hx. apply IH; [done|]. by apply Hok. }
    specialize (Hm ltac:(by rewrite Hp)). specialize (Hm ltac:(unfold dkeys in *; by rewrite Hp)).
    destruct (merge_sort member_le (kv :: d)) as [|[k w] l] eqn:E; [done|].
    assert (∃ u, str_concat (sep_at (S lvl)) (map (print_member (S lvl)) ((k, w) :: l))
      +:+ indent_at lvl +:+ String "}" t = String double_quote u) as [u Hu].
    { cbn [map str_concat]. unfold print_member at 1, json_str. destruct (map _ l); eexists; reflexivity. }
    rewrite Hu in *. rewrite skip_ws_indent by done. by rewrite Hm.
Qed.

Theorem loads_dumps v : json_ok v → json_loads (json_dumps v +:+ newline) = Some (jsort v).
Proof.
  intros Hv. rewrite json_loads_spec. destruct (dumps_head 0 v Hv) as (a & s & Hs & Ha).
  pose proof (json_ok_reads_back v Hv 0%nat newline eq_refl) as H. unfold json_dumps.
  rewrite Hs in *. rewrite cons_app in *. rewrite skip_ws_head by (by apply value_head_ws).
  by rewrite H.
Qed.

(** ** Reading a printed dict *)

Lemma dlookup_elem d k v : NoDup (dkeys d) → dlookup k d = Some v ↔ (k, v) ∈ d.
Proof.
  induction d as [|[k' v'] d IH]; simpl; [by intros _; rewrite elem_of_nil|].
  intros [Hnin Hnd]%NoDup_cons. rewrite elem_of_cons.
  destruct (String.eqb_spec k k') as [->|Hne].
  - split; [intros [= ->]; by left|]. intros [[= ->]|Hin]; [done|].
    destruct Hnin. apply list_elem_of_fmap. by exists (k', v).
  - rewrite IH by done. split; [by right|]. by intros [[= -> ->]|].
Qed.

Lemma dlookup_perm d e k :
  NoDup (dkeys d) → d ≡ₚ e → dlookup k d = dlookup k e.
Proof.
  intros Hd Hp. assert (NoDup (dkeys e)) as He by (unfold dkeys in *; by rewrite <- Hp).
  apply option_eq. intros v. by rewrite !dlookup_elem, Hp by done.
Qed.

Lemma dlookup_map f d k :
  dlookup k (map (λ kv, (kv.1, f kv.2)) d) = f <$> dlookup k d.
Proof. induction d as [|[k' v] d IH]; simpl; [done|]. by destruct (String.eqb k k'). Qed.

Lemma dkeys_map (f : py → py) d : dkeys (map (λ kv, (kv.1, f kv.2)) d) = dkeys d.
Proof. unfold dkeys. by rewrite map_map. Qed.

Lemma dlookup_jsort d k :
  NoDup (dkeys d) → dlookup k (as_dict (jsort (PDict d))) = jsort <$> dlookup k d.
Proof.
  intros Hd. rewrite <- dlookup_map. symmetry. apply dlookup_perm.
  - by rewrite dkeys_map.
  - simpl. by rewrite merge_sort_Permutation.
Qed.

Lemma get_jsort d k :
  NoDup (dkeys d) → get (as_dict (jsort (PDict d))) k = jsort (get d k).
Proof. intros Hd. unfold get, get_or. rewrite dlookup_jsort by done. by destruct (dlookup k d). Qed.

Lemma dkeys_jsort d : dkeys (as_dict (jsort (PDict d))) ≡ₚ dkeys d.
Proof.
  simpl. unfold dkeys. rewrite merge_sort_Permutation. by rewrite map_map.
Qed.

(** Dict equality, member by member. *)
Lemma py_eqb_dict d e :
  py_eqb (PDict d) (PDict e) = true ↔
  length d = length e ∧
  Forall (λ kv, match dlookup kv.1 e with Some w => py_eqb kv.2 w | None => false end = true) d.
Proof.
  simpl. rewrite andb_true_iff, Nat.eqb_eq. apply and_iff_compat_l.
  induction d as [|kv d IH]; [done|]. by rewrite andb_true_iff, Forall_cons, IH.
Qed.

Lemma py_eqb_list l m :
  py_eqb (PList l) (PList m) = true ↔ Forall2 (λ x y, py_eqb x y = true) l m.
Proof.
  simpl. revert m. induction l as [|x l IH]; intros [|y m]; simpl;
    try (split; [done|by inversion 1]).
  rewrite andb_true_iff, Forall2_cons, IH. done.
Qed.

(** A document equals its sorted form. *)
Lemma py_eqb_jsort v : json_ok v → py_eqb (jsort v) v = true.
Proof.
  induction v as [|b|z|f|s|l IH|d IH] using py_nested_ind; intros Hv.
  - done.
  - by destruct b.
  - simpl. apply Z.eqb_refl.
  - done.
  - simpl. apply String.eqb_refl.
  - apply json_ok_list in Hv. change (jsort (PList l)) with (PList (map jsort l)). apply py_eqb_list.
    induction l as [|x l IHl]; [constructor|]. apply Forall_cons in Hv as [Hx Hv], IH as [IHx IH].
    constructor; [by apply IHx|by apply IHl].
  - apply json_ok_dict in Hv as [Hnd Hv]. rewrite jsort_dict. apply py_eqb_dict.
    rewrite length_map, merge_sort_Permutation. split; [done|].
    rewrite Forall_forall in *. intros x Hx.
    apply list_elem_of_fmap in Hx as ([k w] & -> & Hin). simpl. pose proof Hin as Hl. apply dlookup_elem in Hl; [|done].
    rewrite Hl. apply (IH _ Hin). by apply (Hv _ Hin).
Qed.

Lemma py_eqb_refl v : json_ok v → py_eqb v v = true.
Proof.
  induction v as [|b|z|f|s|l IH|d IH] using py_nested_ind; intros Hv.
  - done.
  - by destruct b.
  - simpl. apply Z.eqb_refl.
  - done.
  - simpl. apply String.eqb_refl.
  - apply json_ok_list in Hv. apply py_eqb_list. induction l as [|x l IHl]; [constructor|].
    apply Forall_cons in Hv as [Hx Hv], IH as [IHx IH]. constructor; auto.
  - apply json_ok_dict in Hv as [Hnd Hv]. apply py_eqb_dict. split; [done|].
    rewrite Forall_forall in *. intros [k w] Hin. simpl.
    rewrite (proj2 (dlookup_elem d k w Hnd) Hin). apply (IH _ Hin). by apply (Hv _ Hin).
Qed.

(** A part of a printable dict is printable. *)
Lemma json_ok_part a b c : json_ok (PDict (a ++ b ++ c)) → json_ok (PDict b).
Proof.
  rewrite !json_ok_dict. unfold dkeys. rewrite !map_app, !Forall_app.
  intros [Hnd (_ & Hb & _)]. split; [|done].
  apply NoDup_app in Hnd as (_ & _ & Hnd). by apply NoDup_app in Hnd as (? & _).
Qed.

(** Printability, decided. *)
Fixpoint json_okb (v : py) : bool :=
  match v with
  | PFloat _ => false
  | PStr s => str_all is_ascii s
  | PList l => forallb json_okb l
  | PDict d => bool_decide (NoDup (dkeys d)) && forallb (λ kv, str_all is_ascii kv.1 && json_okb kv.2) d
  | _ => true
  end.

Lemma json_okb_sound v : json_okb v = true → json_ok v.
Proof.
  induction v as [|b|z|f|s|l IH|d IH] using py_nested_ind; try done.
  - cbn [json_okb]. intros Hl. apply json_ok_list.
    induction l as [|x l IHl]; [constructor|]. apply Forall_cons in IH as [IHx IH].
    cbn [forallb] in Hl. apply andb_true_iff in Hl as [Hx Hl]. constructor; [by apply IHx|by apply IHl].
  - cbn [json_okb]. intros [Hnd Hd]%andb_true_iff. apply json_ok_dict.
    apply bool_decide_eq_true in Hnd. split; [done|]. clear Hnd.
    induction d as [|kv d IHd]; [constructor|]. apply Forall_cons in IH as [IHx IH].
    cbn [forallb] in Hd. apply andb_true_iff in Hd as [Hk Hd]. apply andb_true_iff in Hk as [Hk Hx].
    constructor; [split; [done|by apply IHx]|by apply IHd].
Qed.
