(* ===== verification/PyEffect.v ===== *)
(** * Effectful code

    A computation over a state: it returns, raises, or the process dies in it,
    and the state survives all three.  The combinators are those of Python's
    control flow; the lemmas give the weakest-precondition view of them that
    the components use. *)
From S2P Require Import Prelude.

Inductive outcome (A : Type) :=
  | ORet (a : A)
  | ORaise (e : exn)
  | OCrash.
Arguments ORet {A} a.
Arguments ORaise {A} e.
Arguments OCrash {A}.

Definition eff (S A : Type) : Type := S → outcome A * S.

Section eff.
Context {S : Type}.

#[export] Instance eff_ret : MRet (eff S) := λ A a s, (ORet a, s).
#[export] Instance eff_bind : MBind (eff S) := λ A B f m s,
  match m s with
  | (ORet a, s') => f a s'
  | (ORaise e, s') => (ORaise e, s')
  | (OCrash, s') => (OCrash, s')
  end.

Definition e_lift {A} (r : res A) : eff S A := λ s,
  match r with Ok a => (ORet a, s) | Raise e => (ORaise e, s) end.
Definition e_raise {A} (c : exn_class) (msg : string) : eff S A := λ s, (ORaise (Exn c msg), s).
Definition e_gets {A} (f : S → A) : eff S A := λ s, (ORet (f s), s).
(** A fallible read of the state. *)
Definition e_read {A} (f : S → res A) : eff S A := λ s, e_lift (f s) s.
Definition e_modify (f : S → S) : eff S unit := λ s, (ORet (), f s).

(** [try: m except Exception as exc: h exc]. *)
Definition e_try {A} (m : eff S A) (h : exn → eff S A) : eff S A := λ s,
  match m s with
  | (ORaise e, s') => h e s'
  | r => r
  end.

(** [try: m finally: f]. *)
Definition e_finally {A} (m : eff S A) (f : eff S unit) : eff S A := λ s,
  match m s with
  | (ORet a, s') => (f;; mret a) s'
  | (ORaise e, s') => (f;; e_lift (Raise e)) s'
  | (OCrash, s') => (OCrash, s')
  end.

(** [for x in l: f x]. *)
Fixpoint e_iter {A} (f : A → eff S unit) (l : list A) : eff S unit :=
  match l with [] => mret () | x :: r => f x;; e_iter f r end.

(** ** Triples: [Q] after a return, [E] after an exception, [C] after a crash. *)

Definition wp {A} (m : eff S A) (Q : A → S → Prop) (E : exn → S → Prop) (C : S → Prop) (s : S)
    : Prop :=
  match m s with
  | (ORet a, s') => Q a s'
  | (ORaise e, s') => E e s'
  | (OCrash, s') => C s'
  end.

Lemma wp_ret {A} (a : A) (Q : A → S → Prop) E C s : Q a s → wp (mret a) Q E C s.
Proof. done. Qed.

Lemma wp_bind {A B} (m : eff S A) (f : A → eff S B) Q E C s :
  wp m (λ a s', wp (f a) Q E C s') E C s → wp (m ≫= f) Q E C s.
Proof. unfold wp. unfold mbind, eff_bind. by destruct (m s) as [[a|e|] s']. Qed.

Lemma wp_mono {A} (m : eff S A) (Q Q' : A → S → Prop) (E E' : exn → S → Prop) (C C' : S → Prop) s :
  wp m Q E C s → (∀ a s', Q a s' → Q' a s') → (∀ e s', E e s' → E' e s') →
  (∀ s', C s' → C' s') → wp m Q' E' C' s.
Proof. unfold wp. destruct (m s) as [[a|e|] s']; naive_solver. Qed.

Lemma wp_lift {A} (r : res A) (Q : A → S → Prop) (E : exn → S → Prop) C s :
  (∀ a, r = Ok a → Q a s) → (∀ e, r = Raise e → E e s) → wp (e_lift r) Q E C s.
Proof. unfold wp, e_lift. destruct r; naive_solver. Qed.

Lemma wp_read {A} (f : S → res A) (Q : A → S → Prop) (E : exn → S → Prop) C s :
  (∀ a, f s = Ok a → Q a s) → (∀ e, f s = Raise e → E e s) → wp (e_read f) Q E C s.
Proof. apply wp_lift. Qed.

Lemma wp_raise {A} c msg (Q : A → S → Prop) (E : exn → S → Prop) C s :
  E (Exn c msg) s → wp (e_raise c msg) Q E C s.
Proof. done. Qed.

Lemma wp_gets {A} (f : S → A) (Q : A → S → Prop) E C s : Q (f s) s → wp (e_gets f) Q E C s.
Proof. done. Qed.

Lemma wp_modify f (Q : unit → S → Prop) E C s : Q () (f s) → wp (e_modify f) Q E C s.
Proof. done. Qed.

Lemma wp_try {A} (m : eff S A) h (Q : A → S → Prop) E C s :
  wp m Q (λ e s', wp (h e) Q E C s') C s → wp (e_try m h) Q E C s.
Proof. unfold wp, e_try. destruct (m s) as [[a|e|] s'] eqn:Em; [done|done|done]. Qed.

Lemma wp_finally {A} (m : eff S A) (f : eff S unit) (Q : A → S → Prop) (E : exn → S → Prop)
    (C : S → Prop) s :
  wp m (λ a s', wp f (λ _, Q a) E C s') (λ e s', wp f (λ _, E e) E C s') C s →
  wp (e_finally m f) Q E C s.
Proof.
  unfold wp, e_finally, mbind, eff_bind. destruct (m s) as [[a|e|] s']; [| |done];
    by destruct (f s') as [[[]|e'|] s''].
Qed.

(** A computation nothing is known of. *)
Lemma wp_any {A} (m : eff S A) (Q : A → S → Prop) (E : exn → S → Prop) (C : S → Prop) s :
  (∀ a s', Q a s') → (∀ e s', E e s') → (∀ s', C s') → wp m Q E C s.
Proof. unfold wp. destruct (m s) as [[a|e|] s']; auto. Qed.

Lemma wp_ext {A} (m m' : eff S A) (Q : A → S → Prop) (E : exn → S → Prop) (C : S → Prop) s :
  m s = m' s → wp m' Q E C s → wp m Q E C s.
Proof. unfold wp. by intros ->. Qed.

(** Two views of the same run. *)
Lemma wp_and {A} (m : eff S A) (Q Q' : A → S → Prop) (E E' : exn → S → Prop) (C C' : S → Prop) s :
  wp m Q E C s → wp m Q' E' C' s →
  wp m (λ a s', Q a s' ∧ Q' a s') (λ e s', E e s' ∧ E' e s') (λ s', C s' ∧ C' s') s.
Proof. unfold wp. by destruct (m s) as [[a|e|] s']. Qed.

(** A loop keeps an invariant over what it has done and what is left. *)
Lemma wp_iter {A} (f : A → eff S unit) (I : list A → list A → S → Prop) (E : exn → S → Prop)
    (C : S → Prop) l done_ s :
  I done_ l s →
  (∀ d x r s, I d (x :: r) s → wp (f x) (λ _ s', I (d ++ [x]) r s') E C s) →
  wp (e_iter f l) (λ _ s', I (done_ ++ l) [] s') E C s.
Proof.
  intros HI Hf. revert done_ s HI. induction l as [|x l IH]; intros d s HI; simpl.
  - apply wp_ret. by rewrite app_nil_r.
  - apply wp_bind. eapply wp_mono; [by apply Hf|..]; [|done|done].
    intros [] s' HI'. pose proof (IH _ _ HI') as H. by rewrite <- app_assoc in H.
Qed.

Lemma e_iter_app {A} (f : A → eff S unit) l l' s :
  e_iter f (l ++ l') s = (e_iter f l;; e_iter f l') s.
Proof.
  revert s. induction l as [|x l IH]; intros s; [done|]. cbn [e_iter app].
  unfold mbind, eff_bind in *. destruct (f x s) as [[[]|e|] s']; [apply IH|done|done].
Qed.

(** A loop in a loop is one loop. *)
Lemma e_iter_nested {A B} (f : B → eff S unit) (h : A → eff S unit) (g : A → list B) l s :
  (∀ x s, h x s = e_iter f (g x) s) → e_iter h l s = e_iter f (concat (map g l)) s.
Proof.
  intros Hh. revert s. induction l as [|x l IH]; intros s; [done|]. cbn [map concat e_iter].
  rewrite e_iter_app. unfold mbind, eff_bind. rewrite Hh.
  destruct (e_iter f (g x) s) as [[[]|e|] s']; [apply IH|done|done].
Qed.
End eff.
