(* ===== verification/LifecycleCore.v ===== *)
(** * Release lifecycle: constants, identities and attestations

    Models [src/scripts/lib/release_deployment_core.py]: the state-name
    constants, the identity recognisers, the two environment-file parsers, the
    host admission guard and the validation of the install attestations.  The
    functions are pure: a file is passed as its text or as the outcome of
    loading it. *)
From S2P Require Import Prelude PyFloat PyValue.

(** ** Constants *)

Definition IMAGE_VARIABLES : list string :=
  ["GATEWAY_IMAGE_ID"; "LOGIN_IMAGE_ID"; "ROOM_IMAGE_ID"; "BATTLE_IMAGE_ID";
   "MATCHMAKING_IMAGE_ID"; "LEADERBOARD_IMAGE_ID"].

Definition IMAGE_VARIABLE_BY_SERVICE : list (string * string) :=
  [("gateway", "GATEWAY_IMAGE_ID"); ("login", "LOGIN_IMAGE_ID");
   ("room", "ROOM_IMAGE_ID"); ("battle", "BATTLE_IMAGE_ID");
   ("matchmaking", "MATCHMAKING_IMAGE_ID"); ("leaderboard", "LEADERBOARD_IMAGE_ID")].

Definition PROVENANCE_LABELS : list (string * string) :=
  [("org.opencontainers.image.version", "tag");
   ("org.opencontainers.image.revision", "commit");
   ("io.boost-gateway.release.asset.sha256", "asset");
   ("io.boost-gateway.release.config.sha256", "config")].

Definition ROLLBACK_DEADLINE_SECONDS : pfloat := f_of_Z 600.

Definition INCOMPLETE_TRANSACTION_STATES : list string :=
  ["pending"; "candidate_activated"; "candidate_verified"; "activation_failed";
   "rollback_failed"].
Definition BLOCKING_TRANSACTION_STATES : list string := ["recovery_failed"].
Definition PASSING_TRANSACTION_STATES : list string := ["passed"; "passed_reconciled"].

Definition TRANSACTION_SUMMARIES : list (string * string) :=
  [("deployment", "deployment-verification-summary.json");
   ("recovery", "recovery-verification-summary.json");
   ("reconcile", "reconcile-verification-summary.json");
   ("candidate_persistence_transition", "candidate-persistence-transition-summary.json");
   ("recovery_persistence_transition", "recovery-persistence-transition-summary.json");
   ("manual_recovery", "manual-recovery-summary.json");
   ("manual_recovery_reconcile", "manual-recovery-reconcile-summary.json")].

(** ** Recognisers *)

(** [sha256:[0-9a-f]{64}\Z]. *)
Definition IMAGE_ID_RE (s : string) : bool :=
  starts_with "sha256:" s && re_hex 64 (str_skip 7 s).
Definition SHA256_RE (s : string) : bool := re_hex 64 s.
Definition COMMIT_RE (s : string) : bool := re_hex 40 s.

(** [[0-9]+] followed by [rest]. *)
Definition digits_then (rest : string → bool) (s : string) : bool :=
  let '(ds, t) := str_span is_digit s in negb (String.eqb ds "") && rest t.
Definition char_then (c : ascii) (rest : string → bool) (s : string) : bool :=
  match s with String a r => Ascii.eqb a c && rest r | _ => false end.

(** [v[0-9]+\.[0-9]+\.[0-9]+\Z]. *)
Definition TAG_RE (s : string) : bool :=
  char_then "v" (digits_then (char_then "." (digits_then
    (char_then "." (digits_then (String.eqb "")))))) s.

(** [[A-Za-z0-9][A-Za-z0-9._-]{0,159}\Z]. *)
Definition DEPLOYMENT_ID_RE (s : string) : bool :=
  match s with
  | EmptyString => false
  | String a r =>
      is_alnum a && (String.length r <=? 159)
      && str_all (λ c, is_alnum c || Ascii.eqb c "." || Ascii.eqb c "_" || Ascii.eqb c "-") r
  end.

(** [[A-Z][A-Z0-9_]*]. *)
Definition ENV_KEY_RE (s : string) : bool :=
  match s with
  | EmptyString => false
  | String a r =>
      is_upper a && str_all (λ c, is_upper c || is_digit c || Ascii.eqb c "_") r
  end.

(** ** Environment files *)

Abbreviation env := (list (string * string)).

Definition env_lookup (k : string) (e : env) : option string :=
  match list_find (λ kv, k = kv.1) e with Some (_, kv) => Some kv.2 | None => None end.
Definition env_has (k : string) (e : env) : bool := mem_str k (map fst e).

Definition image_line (n : nat) (line : string) (values : env) : res env :=
  if String.eqb line "" || starts_with "#" line then Ok values
  else match split_once "=" line with
  | None => raise_lc ("invalid image environment line " +:+ Z_str (Z.of_nat n))
  | Some (key, value) =>
      if negb (mem_str key IMAGE_VARIABLES) || env_has key values
      then raise_lc ("unexpected or duplicate image variable: " +:+ str_repr key)
      else if negb (IMAGE_ID_RE value)
      then raise_lc ("image variable is not an immutable image ID: " +:+ key)
      else Ok (values ++ [(key, value)])
  end.

Fixpoint image_lines (n : nat) (lines : list string) (values : env) : res env :=
  match lines with
  | [] => Ok values
  | line :: rest => values ← image_line n line values; image_lines (S n) rest values
  end.

(** [parse_image_environment] on the text of the file. *)
Definition parse_image_environment (text : string) : res env :=
  values ← image_lines 1 (splitlines text) [];
  if same_set (map fst values) IMAGE_VARIABLES then Ok values
  else raise_lc ("image environment is incomplete: missing " +:+
    py_repr (PList (map PStr (sort_str
      (filter (λ k, env_has k values = false) IMAGE_VARIABLES))))).

(** [render_image_environment]: one [key=value] line per sorted key. *)
Definition render_line (values : env) (key : string) : string :=
  key +:+ "=" +:+ default "" (env_lookup key values) +:+ newline.
Definition render_image_environment (values : env) : string :=
  str_concat "" (map (render_line values) (sort_str (map fst values))).

Definition secret_line (n : nat) (raw_line : string) (values : env) : res env :=
  let line := strip raw_line in
  if String.eqb line "" || starts_with "#" line then Ok values
  else match split_once "=" line with
  | None => raise_lc ("invalid secret environment line " +:+ Z_str (Z.of_nat n))
  | Some (key, value) =>
      if negb (ENV_KEY_RE key) || env_has key values
      then raise_lc ("invalid or duplicate secret variable at line " +:+ Z_str (Z.of_nat n))
      else if str_in "000" value || str_in "010" value
      then raise_lc ("invalid secret value at line " +:+ Z_str (Z.of_nat n))
      else Ok (values ++ [(key, value)])
  end.

Fixpoint secret_lines (n : nat) (lines : list string) (values : env) : res env :=
  match lines with
  | [] => Ok values
  | line :: rest => values ← secret_line n line values; secret_lines (S n) rest values
  end.

(** [parse_simple_environment]: [None] is a file that does not exist. *)
Definition parse_simple_environment (path : string) (text : option string) : res env :=
  match text with
  | None => raise_lc ("required Compose secret environment is missing: " +:+ path)
  | Some t => secret_lines 1 (splitlines t) []
  end.

(** ** Host admission *)

Record host_facts := HostFacts {
  hf_platform : string;
  hf_machine : string;
  hf_os_release : option string;
  hf_systemd : bool;
  hf_euid : Z }.

Definition is_dquote (a : ascii) : bool := Ascii.eqb a double_quote.

Definition guard_target_host (h : host_facts) : res unit :=
  guard_lc (negb (String.eqb (hf_platform h) "linux") || negb (String.eqb (hf_machine h) "x86_64"))
    "lifecycle commands require Linux x86_64";;
  os_release ←
    match parse_simple_environment "/etc/os-release" (hf_os_release h) with
    | Ok e => Ok e
    | Raise e => raise_lc ("cannot verify target OS: " +:+ exn_msg e)
    end;
  let field k := strip_by is_dquote (default "" (env_lookup k os_release)) in
  guard_lc (negb (String.eqb (field "ID") "ubuntu") || negb (String.eqb (field "VERSION_ID") "24.04"))
    "lifecycle commands require Ubuntu 24.04";;
  guard_lc (negb (hf_systemd h)) "systemd is not the active init system";;
  guard_lc (negb (Z.eqb (hf_euid h) 0)) "lifecycle commands require root; run with sudo".

(** ** Install attestations *)

(** [v[k]] on a value that must be a dict. *)
Definition vitem (v : py) (k : string) : res py :=
  match v with
  | PDict d => item d k
  | _ => Raise (Exn CTypeError "indices must be integers or slices, not str")
  end.

Definition runtime_asset_name (tag : string) : string :=
  "boost-gateway-" +:+ tag +:+ "-linux-x64.tar.gz".

Definition bad_release_summary (manifest summary : pydict) (manifest_sha256 : string) : bool :=
  let release := get summary "release" in
  negb (py_eqb (get summary "summary_version") (PInt 2))
  || negb (is_true (get summary "overall_pass"))
  || negb (is_dict release)
  || negb (py_eqb (get (as_dict release) "tag") (get manifest "tag"))
  || negb (py_eqb (get (as_dict release) "commit") (get manifest "commit"))
  || negb (py_eqb (get (as_dict release) "manifest_sha256") (PStr manifest_sha256)).

Definition bad_image_summary (summary : pydict) : bool :=
  let inventory := get summary "images" in
  negb (py_eqb (get summary "summary_version") (PInt 2))
  || negb (is_true (get summary "overall_pass"))
  || negb (is_false (get summary "source_build_performed"))
  || negb (is_false (get summary "network_enabled_during_build"))
  || negb (py_eqb (get summary "target_platform") (PStr "linux/amd64"))
  || negb (is_list inventory)
  || negb (Nat.eqb (length (as_list inventory)) (length IMAGE_VARIABLE_BY_SERVICE)).

(** The label dict that every attested image must carry. *)
Definition expected_labels (manifest : pydict) : res pydict :=
  tag ← item manifest "tag";
  commit ← item manifest "commit";
  assets ← item manifest "assets";
  asset ← vitem assets (runtime_asset_name (py_str tag));
  configuration ← item manifest "configuration";
  config ← vitem configuration "sha256";
  let fields := [("tag", py_str tag); ("commit", py_str commit);
                 ("asset", py_str asset); ("config", py_str config)] in
  Ok (map (λ lf, (lf.1, PStr (default "" (env_lookup lf.2 fields)))) PROVENANCE_LABELS).

Definition check_image (labels : pydict) (images : env) (entry : py) (seen : list string)
    : res (list string) :=
  match entry with
  | PDict d =>
      let service := py_str (get_or d "service" (PStr "")) in
      match env_lookup service IMAGE_VARIABLE_BY_SERVICE with
      | None => raise_lc ("image build summary has unexpected service: " +:+ service)
      | Some variable =>
          if mem_str service seen
          then raise_lc ("image build summary has unexpected service: " +:+ service)
          else match env_lookup variable images with
          | None => Raise (Exn CKeyError ("'" +:+ variable +:+ "'"))
          | Some image =>
              if negb (py_eqb (get d "image_id") (PStr image))
                 || negb (py_eqb (get d "os") (PStr "linux"))
                 || negb (py_eqb (get d "architecture") (PStr "amd64"))
                 || negb (py_eqb (get d "labels") (PDict labels))
              then raise_lc ("image build attestation mismatch: " +:+ service)
              else Ok (seen ++ [service])
          end
      end
  | _ => raise_lc "image build summary contains a non-object image"
  end.

Fixpoint check_images (labels : pydict) (images : env) (inventory : list py)
    (seen : list string) : res (list string) :=
  match inventory with
  | [] => Ok seen
  | entry :: rest =>
      seen ← check_image labels images entry seen;
      check_images labels images rest seen
  end.

(** [validate_install_attestations]: the two summaries are the outcomes of
    loading their files, in the order the code loads them. *)
Definition validate_install_attestations (manifest : pydict) (manifest_sha256 : string)
    (images : env) (load_release load_image : res pydict) : res (pydict * pydict) :=
  release_summary ← load_release;
  guard_lc (bad_release_summary manifest release_summary manifest_sha256)
    "release staging summary does not attest the installed manifest";;
  image_summary ← load_image;
  guard_lc (bad_image_summary image_summary)
    "image build summary is not a passing offline linux/amd64 build";;
  labels ← expected_labels manifest;
  seen ← check_images labels images (as_list (get image_summary "images")) [];
  guard_lc (negb (same_set seen (map fst IMAGE_VARIABLE_BY_SERVICE)))
    "image build summary does not contain all project services";;
  Ok (release_summary, image_summary).

(** ** Environment files: lemmas *)

Lemma splitlines_go_line cur l rest :
  str_all (λ a, negb (is_line_break a)) l = true →
  splitlines_go cur (l +:+ newline +:+ rest) = (String.rev cur +:+ l) :: splitlines rest.
Proof.
  revert cur. induction l as [|a l IH]; intros cur Hl.
  - change ("" +:+ newline +:+ rest) with (String "010" rest). simpl.
    rewrite app_str_nil_r. destruct rest; [done|].
    by destruct (Ascii.eqb_spec "010" "013").
  - simpl in Hl. apply andb_true_iff in Hl as [Ha Hl].
    change (String a l +:+ newline +:+ rest) with (String a (l +:+ newline +:+ rest)).
    simpl. apply negb_true_iff in Ha. rewrite Ha, IH by done.
    f_equal. unfold String.rev at 1. simpl. rewrite rev_app_spec.
    by rewrite app_str_assoc.
Qed.

Lemma splitlines_lines ls :
  Forall (λ l, str_all (λ a, negb (is_line_break a)) l = true) ls →
  splitlines (str_concat "" (map (λ l, l +:+ newline) ls)) = ls.
Proof.
  induction 1 as [|l ls Hl _ IH]; [done|].
  assert (str_concat "" (map (λ l, l +:+ newline) (l :: ls))
    = l +:+ newline +:+ str_concat "" (map (λ l, l +:+ newline) ls)) as ->.
  { destruct ls as [|l' ls]; simpl; [by rewrite app_str_nil_r|].
    by rewrite app_str_assoc. }
  unfold splitlines at 1. rewrite splitlines_go_line by done. by rewrite IH.
Qed.

(** The shape of the values that [parse_image_environment] can return. *)
Definition image_env_ok (values : env) : Prop :=
  NoDup (map fst values) ∧ (∀ k, k ∈ map fst values ↔ k ∈ IMAGE_VARIABLES)
  ∧ Forall (λ kv, IMAGE_ID_RE kv.2 = true) values.

Definition entry_ok (kv : string * string) : Prop :=
  kv.1 ∈ IMAGE_VARIABLES ∧ IMAGE_ID_RE kv.2 = true.

Lemma env_has_spec k e : env_has k e = true ↔ k ∈ map fst e.
Proof. apply mem_str_spec. Qed.

Lemma env_has_false k e : env_has k e = false ↔ k ∉ map fst e.
Proof. rewrite <- env_has_spec. destruct (env_has k e); naive_solver. Qed.

Lemma image_line_ok n line values values' :
  image_line n line values = Ok values' →
  NoDup (map fst values) → Forall entry_ok values →
  NoDup (map fst values') ∧ Forall entry_ok values'.
Proof.
  unfold image_line. intros H Hnd Hok.
  destruct (String.eqb line "" || starts_with "#" line); [by res_inv|].
  destruct (split_once "=" line) as [[k v]|]; [|by res_inv].
  destruct (negb (mem_str k IMAGE_VARIABLES) || env_has k values) eqn:E; [by res_inv|].
  destruct (negb (IMAGE_ID_RE v)) eqn:Ev; [by res_inv|]. res_inv. bool_split.
  rewrite map_app. split.
  - apply NoDup_app; split_and!; [done| |apply NoDup_singleton].
    intros x Hx ->%list_elem_of_singleton. by apply env_has_false in Hx.
  - apply Forall_app; split; [done|]. constructor; [|done]. split; [|done].
    by apply mem_str_spec.
Qed.

Lemma image_lines_ok n lines values values' :
  image_lines n lines values = Ok values' →
  NoDup (map fst values) → Forall entry_ok values →
  NoDup (map fst values') ∧ Forall entry_ok values'.
Proof.
  revert n values. induction lines as [|l lines IH]; intros n values H Hnd Hok.
  - simpl in H. by res_inv.
  - simpl in H. apply res_bind_ok in H as (v1 & Hl & Hr).
    destruct (image_line_ok _ _ _ _ Hl Hnd Hok) as [Hnd1 Hok1]. eauto.
Qed.

Lemma parse_image_environment_ok text values :
  parse_image_environment text = Ok values → image_env_ok values.
Proof.
  unfold parse_image_environment. intros H. res_inv.
  destruct (same_set (map fst x) IMAGE_VARIABLES) eqn:E; res_inv.
  edestruct image_lines_ok as [Hnd Hok]; [done|constructor|done|].
  split_and!; [done|by apply same_set_spec|].
  eapply Forall_impl; [done|]. by intros ? [].
Qed.

(** Reading the lines that a list of valid entries renders to. *)
Definition entry_line (kv : string * string) : string := kv.1 +:+ "=" +:+ kv.2.

Lemma image_variable_shape k :
  k ∈ IMAGE_VARIABLES →
  k ≠ "" ∧ starts_with "#" (k +:+ "=") = false ∧ str_in "=" k = false
  ∧ str_all (λ a, negb (is_line_break a)) k = true
  ∧ ∃ c r, k = String c r ∧ Ascii.eqb "#" c = false.
Proof.
  unfold IMAGE_VARIABLES. rewrite !elem_of_cons, elem_of_nil.
  intros Hk. destruct_or?; subst; try done; repeat split; try done; by do 2 eexists.
Qed.

Lemma is_hex_no_break a : is_hex a = true → negb (is_line_break a) = true.
Proof. destruct a as [[] [] [] [] [] [] [] []]; vm_compute; congruence. Qed.

Lemma image_id_no_break v :
  IMAGE_ID_RE v = true → str_all (λ a, negb (is_line_break a)) v = true.
Proof.
  unfold IMAGE_ID_RE. intros [Hp Hh]%andb_true_iff.
  unfold re_hex in Hh. apply andb_true_iff in Hh as [_ Hh].
  apply (str_all_mono _ (λ a, negb (is_line_break a)) _ is_hex_no_break) in Hh.
  assert (∃ r, v = "sha256:" +:+ r ∧ str_skip 7 v = r) as (r & -> & Hr).
  { unfold starts_with in Hp. clear Hh.
    do 7 (destruct v as [|?c v]; [discriminate Hp|]; cbn [String.prefix] in Hp;
          match type of Hp with
          | (if ?c then _ else _) = _ => destruct c as [<-|]; [|discriminate Hp]
          end).
    by exists v. }
  rewrite str_all_app. rewrite Hr in Hh. by rewrite Hh.
Qed.

Lemma image_line_entry n kv values :
  entry_ok kv → kv.1 ∉ map fst values →
  image_line n (entry_line kv) values = Ok (values ++ [kv]).
Proof.
  destruct kv as [k v]. intros [Hk Hv] Hnin. simpl in *.
  destruct (image_variable_shape k Hk) as (Hne & _ & Heq & _ & c & r & Hcr & Hc).
  unfold image_line, entry_line. cbn [fst snd].
  assert (String.eqb (k +:+ "=" +:+ v) "" = false) as -> by (by subst k).
  assert (starts_with "#" (k +:+ "=" +:+ v) = false) as ->.
  { subst k. unfold starts_with. change (String c r +:+ "=" +:+ v) with (String c (r +:+ "=" +:+ v)).
    cbn [String.prefix]. apply Ascii.eqb_neq in Hc. by destruct (ascii_dec "#" c). }
  change ("=" +:+ v) with (String "=" v). rewrite split_once_app by done. cbn [orb].
  rewrite (proj2 (mem_str_spec k IMAGE_VARIABLES) Hk).
  rewrite (proj2 (env_has_false k values) Hnin), Hv. done.
Qed.

Lemma image_lines_entries n kvs values :
  Forall entry_ok kvs → NoDup (map fst values ++ map fst kvs) →
  image_lines n (map entry_line kvs) values = Ok (values ++ kvs).
Proof.
  intros Hok. revert n values. induction Hok as [|kv kvs Hkv _ IH]; intros n values Hnd.
  - simpl. by rewrite app_nil_r.
  - change (map fst (kv :: kvs)) with (kv.1 :: map fst kvs) in Hnd.
    assert (kv.1 ∉ map fst values) as Hnin.
    { apply NoDup_app in Hnd as (_ & Hd & _). intros Hin. apply (Hd _ Hin). by left. }
    cbn [map image_lines]. rewrite image_line_entry by done. simpl.
    rewrite IH; [by rewrite <- app_assoc|].
    rewrite map_app. simpl. by rewrite <- app_assoc.
Qed.

Lemma env_lookup_in k v e : NoDup (map fst e) → (k, v) ∈ e → env_lookup k e = Some v.
Proof.
  unfold env_lookup. induction e as [|[k' v'] e IH]; intros Hnd Hin.
  - by apply not_elem_of_nil in Hin.
  - simpl in *. apply NoDup_cons in Hnd as [Hnin Hnd]. case_decide; simplify_eq/=.
    + apply elem_of_cons in Hin as [[= ->]|Hin]; [done|].
      destruct Hnin. apply list_elem_of_fmap. by exists (k', v).
    + apply elem_of_cons in Hin as [[= -> ->]|Hin]; [done|].
      specialize (IH Hnd Hin). destruct (list_find _ e) as [[i kv]|] eqn:E; simpl in *; [done|done].
Qed.

(** The sorted rearrangement of an environment. *)
Definition env_sorted (values : env) : env :=
  map (λ k, (k, default "" (env_lookup k values))) (sort_str (map fst values)).

Lemma env_sorted_perm values : NoDup (map fst values) → env_sorted values ≡ₚ values.
Proof.
  intros Hnd. unfold env_sorted.
  assert (∀ sub, (∀ kv, kv ∈ sub → kv ∈ values) →
    map (λ k, (k, default "" (env_lookup k values))) (map fst sub) = sub) as Hmap.
  { induction sub as [|[k v] sub IH]; intros Hin; [done|]. simpl.
    rewrite (env_lookup_in k v) by (done || apply Hin; by left). simpl. f_equal.
    apply IH. intros kv ?. apply Hin. by right. }
  transitivity (map (λ k, (k, default "" (env_lookup k values))) (map fst values)).
  - apply Permutation_map, merge_sort_Permutation.
  - by rewrite Hmap.
Qed.

Lemma render_image_environment_lines values :
  render_image_environment values
  = str_concat "" (map (λ l, l +:+ newline) (map entry_line (env_sorted values))).
Proof.
  unfold render_image_environment, env_sorted. rewrite !map_map. f_equal.
  apply map_ext. intros k. unfold render_line, entry_line. simpl.
  by rewrite !app_str_assoc.
Qed.

Lemma entry_line_no_break kv :
  entry_ok kv → str_all (λ a, negb (is_line_break a)) (entry_line kv) = true.
Proof.
  intros [Hk Hv]. unfold entry_line. rewrite !str_all_app.
  destruct (image_variable_shape _ Hk) as (_ & _ & _ & Hb & _).
  rewrite Hb, (image_id_no_break _ Hv). reflexivity.
Qed.

(** Rendering an accepted environment and parsing it again gives its sorted
    rearrangement. *)
Lemma parse_render values :
  image_env_ok values →
  parse_image_environment (render_image_environment values) = Ok (env_sorted values).
Proof.
  intros (Hnd & Hkeys & Hids).
  assert (Forall entry_ok values) as Hok.
  { apply Forall_forall. intros kv Hin. split.
    - apply Hkeys. apply list_elem_of_fmap. by exists kv.
    - rewrite Forall_forall in Hids. by apply Hids. }
  pose proof (env_sorted_perm values Hnd) as Hp.
  assert (Forall entry_ok (env_sorted values)) as Hok' by (by rewrite Hp).
  unfold parse_image_environment. rewrite render_image_environment_lines, splitlines_lines.
  2:{ apply Forall_fmap. eapply Forall_impl; [done|]. intros. by apply entry_line_no_break. }
  rewrite image_lines_entries; [|done|].
  2:{ simpl. by rewrite (Permutation_map fst Hp). }
  simpl. assert (same_set (map fst (env_sorted values)) IMAGE_VARIABLES = true) as ->; [|done].
  apply same_set_spec. intros k. by rewrite (Permutation_map fst Hp).
Qed.

Lemma sort_str_perm l m : l ≡ₚ m → sort_str l = sort_str m.
Proof.
  intros Hp. unfold sort_str. apply (Sorted_unique String.le).
  - apply Sorted_merge_sort; apply _.
  - apply Sorted_merge_sort; apply _.
  - by rewrite !merge_sort_Permutation.
Qed.

Lemma env_lookup_some k v e : env_lookup k e = Some v → (k, v) ∈ e.
Proof.
  unfold env_lookup. destruct (list_find _ e) as [[i [k' v']]|] eqn:F; [|done].
  intros [= <-]. apply list_find_Some in F as (F & Hk & _). simpl in *. subst.
  by eapply list_elem_of_lookup_2.
Qed.

Lemma env_lookup_perm k e e' :
  NoDup (map fst e) → e ≡ₚ e' → env_lookup k e = env_lookup k e'.
Proof.
  intros Hnd Hp.
  assert (NoDup (map fst e')) as Hnd' by (by rewrite <- (Permutation_map fst Hp)).
  destruct (env_lookup k e) as [v|] eqn:E.
  - apply env_lookup_some in E. symmetry. apply env_lookup_in; [done|]. by rewrite <- Hp.
  - destruct (env_lookup k e') as [v|] eqn:E'; [|done].
    apply env_lookup_some in E'. rewrite <- Hp in E'.
    by rewrite (env_lookup_in _ _ _ Hnd E') in E.
Qed.

Lemma render_perm e e' :
  NoDup (map fst e) → e ≡ₚ e' → render_image_environment e = render_image_environment e'.
Proof.
  intros Hnd Hp. unfold render_image_environment.
  rewrite (sort_str_perm _ _ (Permutation_map fst Hp)). f_equal.
  apply map_ext. intros k. unfold render_line. by rewrite (env_lookup_perm k e e').
Qed.

(** ** Attestations: lemmas *)

(** What an accepted inventory entry attests. *)
Definition attests (labels : pydict) (images : env) (service : string) (entry : py) : Prop :=
  ∃ d variable image,
    entry = PDict d ∧ (py_str (get_or d "service" (PStr "")) = service)
    ∧ env_lookup service IMAGE_VARIABLE_BY_SERVICE = Some variable
    ∧ env_lookup variable images = Some image
    ∧ get d "image_id" = PStr image ∧ get d "os" = PStr "linux"
    ∧ get d "architecture" = PStr "amd64"
    ∧ py_eqb (get d "labels") (PDict labels) = true.

Lemma check_image_ok labels images entry seen seen' :
  check_image labels images entry seen = Ok seen' →
  ∃ service, seen' = seen ++ [service] ∧ service ∉ seen ∧ attests labels images service entry.
Proof.
  unfold check_image. intros H. destruct entry as [|b|z|f|s|l|d]; try (by res_inv).
  set (service := py_str _) in H.
  destruct (env_lookup service IMAGE_VARIABLE_BY_SERVICE) as [variable|] eqn:E1; [|by res_inv].
  destruct (mem_str service seen) eqn:E2; [by res_inv|].
  destruct (env_lookup variable images) as [image|] eqn:E3; [|by res_inv].
  match type of H with (if ?b then _ else _) = _ => destruct b eqn:E4 end; res_inv. bool_split.
  exists service. split_and!; [done| |].
  - intros Hin%mem_str_spec. congruence.
  - exists d, variable, image. repeat match goal with
      H : py_eqb _ (PStr _) = true |- _ => apply py_eqb_str in H end. done.
Qed.

Lemma check_images_ok labels images inventory seen seen' :
  check_images labels images inventory seen = Ok seen' → NoDup seen →
  ∃ services, seen' = seen ++ services ∧ NoDup seen'
    ∧ Forall2 (attests labels images) services inventory.
Proof.
  revert seen. induction inventory as [|e inv IH]; intros seen H Hnd; simpl in H.
  - res_inv. exists []. rewrite app_nil_r. by repeat split.
  - apply res_bind_ok in H as (seen1 & He & Hr).
    destruct (check_image_ok _ _ _ _ _ He) as (service & -> & Hnin & Hat).
    destruct (IH _ Hr) as (services & -> & Hnd' & Hall).
    { apply NoDup_app. split_and!; [done| |apply NoDup_singleton].
      intros x Hx ->%list_elem_of_singleton. done. }
    exists (service :: services). rewrite <- app_assoc in *. split_and!; [done|done|].
    by constructor.
Qed.

(** ** Properties *)

(** [parse_image_environment] and [render_image_environment] are inverse up
    to the order of the lines: whatever text was accepted, rendering the result
    and parsing it again succeeds with the same bindings (a permutation, hence
    the same dict), and rendering is canonical: it does not depend on the order
    in which the variables were read. *)
Theorem image_environment_roundtrip text values :
  parse_image_environment text = Ok values →
  ∃ values', parse_image_environment (render_image_environment values) = Ok values'
    ∧ values' ≡ₚ values
    ∧ render_image_environment values' = render_image_environment values.
Proof.
  intros H. pose proof (parse_image_environment_ok _ _ H) as Hok. destruct Hok as (Hnd & Hrest).
  exists (env_sorted values). pose proof (env_sorted_perm _ Hnd) as Hp. split_and!.
  - apply parse_render. by split.
  - done.
  - symmetry. apply render_perm; [done|by symmetry].
Qed.

Definition sample_image_id (c : ascii) : string := "sha256:" +:+ str_repeat c 64.
Definition sample_images : env :=
  [("ROOM_IMAGE_ID", sample_image_id "a"); ("GATEWAY_IMAGE_ID", sample_image_id "b");
   ("LOGIN_IMAGE_ID", sample_image_id "c"); ("BATTLE_IMAGE_ID", sample_image_id "d");
   ("MATCHMAKING_IMAGE_ID", sample_image_id "e"); ("LEADERBOARD_IMAGE_ID", sample_image_id "0")].
Definition sample_image_text : string :=
  "# pinned images" +:+ newline +:+ newline
  +:+ str_concat "" (map (λ kv, kv.1 +:+ "=" +:+ kv.2 +:+ newline) sample_images).

Lemma image_environment_roundtrip_witness :
  parse_image_environment sample_image_text = Ok sample_images ∧
  ∃ values', parse_image_environment (render_image_environment sample_images) = Ok values'
    ∧ values' ≡ₚ sample_images
    ∧ render_image_environment values' = render_image_environment sample_images.
Proof.
  split; [vm_compute; reflexivity|].
  apply (image_environment_roundtrip sample_image_text). vm_compute; reflexivity.
Defined.

(** whatever [parse_image_environment] accepts binds each of the six image
    variables exactly once, each to an immutable [sha256:] image identity. *)
Theorem parse_image_environment_sound text values :
  parse_image_environment text = Ok values →
  length values = 6 ∧ NoDup (map fst values)
  ∧ ∀ k, k ∈ IMAGE_VARIABLES → ∃ v, env_lookup k values = Some v ∧ IMAGE_ID_RE v = true.
Proof.
  intros H. destruct (parse_image_environment_ok _ _ H) as (Hnd & Hkeys & Hids).
  assert (NoDup IMAGE_VARIABLES) as Hnd'.
  { apply (proj1 (bool_decide_eq_true _)). vm_compute. reflexivity. }
  split_and!; [|done|].
  - assert (map fst values ≡ₚ IMAGE_VARIABLES) as Hp by (by apply NoDup_Permutation).
    apply Permutation_length in Hp. by rewrite length_map in Hp.
  - intros k Hk. apply Hkeys in Hk. apply list_elem_of_fmap in Hk as ([k' v] & -> & Hin).
    exists v. split; [by apply env_lookup_in|]. rewrite Forall_forall in Hids. by apply (Hids (k', v)).
Qed.

Lemma parse_image_environment_sound_witness :
  parse_image_environment sample_image_text = Ok sample_images ∧ length sample_images = 6.
Proof.
  split; [vm_compute; reflexivity|].
  apply (parse_image_environment_sound sample_image_text). vm_compute; reflexivity.
Defined.

(** Accepted install attestations cover the release completely: the staging
    summary passed and names the manifest's tag, commit and digest, the image
    summary is a passing offline linux/amd64 build, and the inventory is a
    bijection with the six project services in which every entry carries the
    image identity of the environment file and the manifest's provenance
    labels. *)
Theorem install_attestations_sound manifest sha images lr li rs im :
  validate_install_attestations manifest sha images lr li = Ok (rs, im) →
  ∃ labels services,
    expected_labels manifest = Ok labels
    ∧ is_true (get rs "overall_pass") = true
    ∧ py_eqb (get (as_dict (get rs "release")) "manifest_sha256") (PStr sha) = true
    ∧ is_true (get im "overall_pass") = true
    ∧ is_false (get im "network_enabled_during_build") = true
    ∧ NoDup services
    ∧ (∀ s, s ∈ services ↔ s ∈ map fst IMAGE_VARIABLE_BY_SERVICE)
    ∧ Forall2 (attests labels images) services (as_list (get im "images")).
Proof.
  unfold validate_install_attestations. intros H. res_inv.
  unfold bad_release_summary, bad_image_summary in *. cbv zeta in *. bool_split.
  match goal with H : check_images _ _ _ _ = Ok ?seen |- _ =>
    destruct (check_images_ok _ _ _ _ _ H (NoDup_nil_2)) as (services & -> & Hnd & Hall) end.
  simplify_eq. simpl in *. exists x3, services. split_and!; try done. by apply same_set_spec.
Qed.

Definition sample_digest (c : ascii) : string := str_repeat c 64.
Definition sample_manifest : pydict :=
  [("schema_version", PInt 1); ("tag", PStr "v3.6.7"); ("commit", PStr (str_repeat "d" 40));
   ("assets", PDict [("boost-gateway-v3.6.7-linux-x64.tar.gz", PStr (sample_digest "5"))]);
   ("configuration", PDict [("sha256", PStr (sample_digest "6"))])].
Definition sample_labels : pydict :=
  [("org.opencontainers.image.version", PStr "v3.6.7");
   ("org.opencontainers.image.revision", PStr (str_repeat "d" 40));
   ("io.boost-gateway.release.asset.sha256", PStr (sample_digest "5"));
   ("io.boost-gateway.release.config.sha256", PStr (sample_digest "6"))].
Definition sample_release_summary (sha : string) : pydict :=
  [("summary_version", PInt 2); ("overall_pass", PBool true);
   ("release", PDict [("tag", PStr "v3.6.7"); ("commit", PStr (str_repeat "d" 40));
                      ("manifest_sha256", PStr sha)])].
Definition sample_image_summary : pydict :=
  [("summary_version", PInt 2); ("overall_pass", PBool true);
   ("source_build_performed", PBool false); ("network_enabled_during_build", PBool false);
   ("target_platform", PStr "linux/amd64");
   ("images", PList (map (λ sv, PDict
      [("service", PStr sv.1); ("image_id", PStr (default "" (env_lookup sv.2 sample_images)));
       ("os", PStr "linux"); ("architecture", PStr "amd64"); ("labels", PDict (rev sample_labels))])
      IMAGE_VARIABLE_BY_SERVICE))].

Lemma install_attestations_sound_witness :
  validate_install_attestations sample_manifest (sample_digest "7") sample_images
    (Ok (sample_release_summary (sample_digest "7"))) (Ok sample_image_summary)
  = Ok (sample_release_summary (sample_digest "7"), sample_image_summary)
  ∧ ∃ labels services, expected_labels sample_manifest = Ok labels ∧ NoDup services
      ∧ Forall2 (attests labels sample_images) services
          (as_list (get sample_image_summary "images")).
Proof.
  assert (validate_install_attestations sample_manifest (sample_digest "7") sample_images
    (Ok (sample_release_summary (sample_digest "7"))) (Ok sample_image_summary)
    = Ok (sample_release_summary (sample_digest "7"), sample_image_summary)) as H
    by (vm_compute; reflexivity).
  split; [exact H|].
  destruct (install_attestations_sound _ _ _ _ _ _ _ H)
    as (labels & services & H1 & _ & _ & _ & _ & H2 & _ & H3).
  exists labels, services. exact (conj H1 (conj H2 H3)).
Defined.

(** the lifecycle commands run only on the admitted host: the guard passes
    exactly on Linux x86_64 with a well-formed os-release naming Ubuntu 24.04,
    systemd as init and effective root; every other host is refused with a
    [LifecycleError]. *)
Theorem guard_target_host_exact h :
  (guard_target_host h = Ok () ↔
     hf_platform h = "linux" ∧ hf_machine h = "x86_64"
     ∧ (∃ e, parse_simple_environment "/etc/os-release" (hf_os_release h) = Ok e
           ∧ strip_by is_dquote (default "" (env_lookup "ID" e)) = "ubuntu"
           ∧ strip_by is_dquote (default "" (env_lookup "VERSION_ID" e)) = "24.04")
     ∧ hf_systemd h = true ∧ hf_euid h = 0%Z)
  ∧ (guard_target_host h = Ok () ∨ ∃ msg, guard_target_host h = raise_lc msg).
Proof.
  unfold guard_target_host, guard_lc, raise_lc.
  destruct (String.eqb_spec (hf_platform h) "linux"), (String.eqb_spec (hf_machine h) "x86_64");
    simpl; try naive_solver.
  destruct (parse_simple_environment _ _) as [e'|ex]; simpl; [|naive_solver].
  destruct (String.eqb_spec (strip_by is_dquote (default "" (env_lookup "ID" e'))) "ubuntu"),
    (String.eqb_spec (strip_by is_dquote (default "" (env_lookup "VERSION_ID" e'))) "24.04");
    simpl; try naive_solver.
  destruct (hf_systemd h); simpl; [|naive_solver].
  destruct (Z.eqb_spec (hf_euid h) 0); simpl; naive_solver.
Qed.
