(* ===== verification/LifecycleIO.v ===== *)
(** * Release lifecycle: persistent state and durable I/O

    Models [src/scripts/lib/release_lifecycle_io.py], the [Layout] of
    [release_deployment_core.py] and the [LifecycleExecutor] protocol of
    [release_deployment_executor.py].

    State.  The files that the lifecycle commands read and write are the
    fields of [st]: the release trees, the deployment directories, the
    [current] and [previous] links, the active image environment, the Compose
    unit, the secret environment and the transaction directories.  A link is
    stored with the real path it resolves to.

    Effects.  A computation is a function from a state to an outcome and a
    state; the state survives an exception, as it does in Python.  Every
    durable write and every external call is an event with a number; the
    [Runtime] decides at each event number whether it proceeds, fails with an
    [OSError], or kills the process ([OCrash], which no handler sees).  The
    clocks, random identifiers and the operations identity are functions of
    the event number too, so a statement about all runtimes is a statement
    about all schedules of faults and all clock readings.

    Temporary files of the atomic writes are not part of the state: they have
    names that no reader of the state opens. *)
From S2P Require Import Prelude PyFloat PyValue LifecycleCore.
From S2P Require Export PyEffect.

(** ** Files *)

(** The content of a file: a JSON document in the form the tooling writes it,
    or any other text. *)
Inductive content :=
  | CJson (v : py)
  | CText (s : string).

Definition content_bytes (c : content) : string :=
  match c with
  | CJson v => json_dumps v +:+ newline
  | CText s => s
  end.

(** What a directory entry is; a symbolic link below a hashed directory stands
    for a link to a file. *)
Inductive node :=
  | NFile (c : content)
  | NDir
  | NSymlink (target : string).

Definition is_file (n : option node) : bool :=
  match n with Some (NFile _) => true | _ => false end.
Definition exists_or_link (n : option node) : bool :=
  match n with Some _ => true | None => false end.

(** The files below a directory, by relative POSIX path. *)
Abbreviation tree := (gmap string node).

Inductive dirent :=
  | DTree (t : tree)
  | DSymlink
  | DOther.

(** A symbolic link of the layout, with its real path. *)
Inductive link :=
  | LMissing
  | LNotLink
  | LTo (real : string).

(** One directory below [deployments]. *)
Record deployment := Deployment {
  dp_record : option node;
  dp_links : gmap string string;
  dp_image_env : option node;
  dp_snapshot : option dirent;
  dp_attestations : gmap string node }.

Record Layout := MkLayout {
  root : string;
  transaction_root : string;
  active_image_env : string;
  secret_env : string;
  unit_path : string }.

Definition default_layout : Layout := MkLayout
  "/opt/boost-gateway" "/var/lib/boost-gateway/deployment-transactions"
  "/etc/boost-gateway/compose-images.env" "/etc/boost-gateway/compose.env"
  "/etc/systemd/system/boost-gateway-compose.service".

Definition path_join (a b : string) : string := a +:+ "/" +:+ b.
Definition releases_path (l : Layout) : string := path_join (root l) "releases".
Definition deployments_path (l : Layout) : string := path_join (root l) "deployments".
Definition current_path (l : Layout) : string := path_join (root l) "current".
Definition previous_path (l : Layout) : string := path_join (root l) "previous".

(** The active image environment: the link text is kept as written. *)
Inductive active_env :=
  | AMissing
  | ASymlink (raw : string)
  | AFile (c : content)
  | AOther.

(** Observable calls of the lifecycle, latest first. *)
Inductive event :=
  | EPrecheck (d : string)
  | EActivate (d : string)
  | EVerify (d : string)
  | ECommit (d : string)
  | EUncommit
  | EDeactivate (d : string)
  | ETransition (source target : string).

Record st := St {
  st_ev : nat;
  st_releases : gmap string dirent;
  st_deployments : gmap string deployment;
  st_current : link;
  st_previous : link;
  st_active : active_env;
  st_unit : option node;
  st_secret : option content;
  st_tx : gmap string (gmap string node);
  st_rec : pydict;
  st_log : list event }.

Definition set_ev (f : nat → nat) (s : st) : st :=
  St (f (st_ev s)) (st_releases s) (st_deployments s) (st_current s) (st_previous s)
     (st_active s) (st_unit s) (st_secret s) (st_tx s) (st_rec s) (st_log s).
Definition set_releases f (s : st) : st :=
  St (st_ev s) (f (st_releases s)) (st_deployments s) (st_current s) (st_previous s)
     (st_active s) (st_unit s) (st_secret s) (st_tx s) (st_rec s) (st_log s).
Definition set_deployments f (s : st) : st :=
  St (st_ev s) (st_releases s) (f (st_deployments s)) (st_current s) (st_previous s)
     (st_active s) (st_unit s) (st_secret s) (st_tx s) (st_rec s) (st_log s).
Definition set_current v (s : st) : st :=
  St (st_ev s) (st_releases s) (st_deployments s) v (st_previous s)
     (st_active s) (st_unit s) (st_secret s) (st_tx s) (st_rec s) (st_log s).
Definition set_previous v (s : st) : st :=
  St (st_ev s) (st_releases s) (st_deployments s) (st_current s) v
     (st_active s) (st_unit s) (st_secret s) (st_tx s) (st_rec s) (st_log s).
Definition set_active v (s : st) : st :=
  St (st_ev s) (st_releases s) (st_deployments s) (st_current s) (st_previous s)
     v (st_unit s) (st_secret s) (st_tx s) (st_rec s) (st_log s).
Definition set_unit v (s : st) : st :=
  St (st_ev s) (st_releases s) (st_deployments s) (st_current s) (st_previous s)
     (st_active s) v (st_secret s) (st_tx s) (st_rec s) (st_log s).
Definition set_tx f (s : st) : st :=
  St (st_ev s) (st_releases s) (st_deployments s) (st_current s) (st_previous s)
     (st_active s) (st_unit s) (st_secret s) (f (st_tx s)) (st_rec s) (st_log s).
Definition set_rec v (s : st) : st :=
  St (st_ev s) (st_releases s) (st_deployments s) (st_current s) (st_previous s)
     (st_active s) (st_unit s) (st_secret s) (st_tx s) v (st_log s).
Definition set_log f (s : st) : st :=
  St (st_ev s) (st_releases s) (st_deployments s) (st_current s) (st_previous s)
     (st_active s) (st_unit s) (st_secret s) (st_tx s) (st_rec s) (f (st_log s)).

(** ** The runtime *)

Inductive fault := NoFault | IOFault (msg : string) | CrashFault.

Class Runtime := {
  layout : Layout;
  sha256 : string → string;
  now_at : nat → string;
  stamp_at : nat → string;
  uuid_at : nat → string;
  monotonic_at : nat → pfloat;
  identity_at : nat → res py;
  fault_at : nat → fault;
  (** Files outside the directories of the state, by real path; the identity of
      the regular file a path leads to; and [Path.resolve]. *)
  evidence_at : nat → string → option node;
  file_id_at : nat → string → option Z;
  real_path_at : nat → string → string }.

(** ** Computations *)

Definition M (A : Type) : Type := st → outcome A * st.

#[export] Instance M_ret : MRet M := λ A a s, (ORet a, s).
#[export] Instance M_bind : MBind M := λ A B f m s,
  match m s with
  | (ORet a, s') => f a s'
  | (ORaise e, s') => (ORaise e, s')
  | (OCrash, s') => (OCrash, s')
  end.

Definition lift {A} (r : res A) : M A := λ s,
  match r with Ok a => (ORet a, s) | Raise e => (ORaise e, s) end.
Definition raise {A} (c : exn_class) (msg : string) : M A := λ s, (ORaise (Exn c msg), s).
Definition fail_lc {A} (msg : string) : M A := raise CLifecycleError msg.
Definition require_not (bad : bool) (msg : string) : M unit := lift (guard_lc bad msg).
Definition gets {A} (f : st → A) : M A := λ s, (ORet (f s), s).
Definition modify (f : st → st) : M unit := λ s, (ORet (), f s).
Definition py_assert (b : bool) : M unit :=
  if b then mret () else raise CAssertionError "".

(** [try: m except Exception as exc: h exc]. *)
Definition try_catch {A} (m : M A) (h : exn → M A) : M A := λ s,
  match m s with
  | (ORaise e, s') => h e s'
  | r => r
  end.

(** [for x in l: f x]. *)
Fixpoint m_iter {A} (f : A → M unit) (l : list A) : M unit :=
  match l with [] => mret () | x :: r => f x;; m_iter f r end.

Section io.
Context `{Runtime}.

(** One durable write or external interaction: it may fail before it has an
    effect, or the process may die there. *)
Definition tick : M unit := λ s,
  let s' := set_ev S s in
  match fault_at (st_ev s) with
  | NoFault => (ORet (), s')
  | IOFault msg => (ORaise (Exn COSError msg), s')
  | CrashFault => (OCrash, s')
  end.

(** Reading a clock or an identifier source consumes an event number. *)
Definition read_at {A} (f : nat → A) : M A := λ s, (ORet (f (st_ev s)), set_ev S s).
Definition now : M string := read_at now_at.
Definition monotonic : M pfloat := read_at monotonic_at.
Definition uuid_hex : M string := read_at uuid_at.
Definition strftime_now : M string := read_at stamp_at.

(** [atomic_write] and the link replacements: the effect happens at the
    rename; the directory sync after it can still fail or be interrupted. *)
Definition durably (f : st → st) : M unit := tick;; modify f;; tick.

Definition sha256_content (c : content) : string := sha256 (content_bytes c).

(** [sha256_file] on a path with the given entry. *)
Definition sha256_file (n : option node) : res string :=
  match n with
  | Some (NFile c) => Ok (sha256_content c)
  | _ => Raise (Exn CFileNotFoundError "No such file or directory")
  end.

(** [load_json_object]. *)
Definition load_json_object (n : option node) (path label : string) : res pydict :=
  match n with
  | Some (NFile (CJson (PDict d))) => Ok d
  | Some (NFile (CJson _)) => raise_lc (label +:+ " must be a JSON object: " +:+ path)
  | _ => raise_lc ("cannot read " +:+ label +:+ " " +:+ path)
  end.

(** *** [sha256_tree] *)

(** Path objects are ordered by their parts. *)
Fixpoint parts_leb (a b : list string) : bool :=
  match a, b with
  | [], _ => true
  | _ :: _, [] => false
  | x :: a, y :: b =>
      match String.compare x y with
      | Lt => true
      | Gt => false
      | Eq => parts_leb a b
      end
  end.
Definition path_le (a b : string * node) : Prop :=
  parts_leb (path_parts a.1) (path_parts b.1) = true.

#[export] Instance path_le_dec : RelDecision path_le.
Proof. intros a b. unfold path_le. apply _. Defined.

(** A compiled-bytecode artefact, skipped by the digest. *)
Definition is_bytecode (p : string) : bool :=
  let parts := path_parts p in
  mem_str "__pycache__" parts
  || match last parts with
     | Some name =>
         (ends_with ".pyc" name || ends_with ".pyo" name) && (4 <? String.length name)
     | None => false
     end.

Definition tree_files (t : tree) : list (string * node) :=
  merge_sort path_le
    (filter (λ pn, match pn.2 with NDir => false | _ => negb (is_bytecode pn.1) end = true)
       (map_to_list t)).

Definition unhex_digit (a : ascii) : N :=
  let n := N_of_ascii a in
  (if (n <? 58)%N then n - 48 else n - 87)%N.
(** [bytes.fromhex]. *)
Fixpoint unhex (s : string) : string :=
  match s with
  | String a (String b r) => String (ascii_of_N (16 * unhex_digit a + unhex_digit b)%N) (unhex r)
  | _ => ""
  end.

Definition encode_entry (p : string) (c : content) : string :=
  be_bytes 8 (N.of_nat (String.length p)) +:+ p +:+ unhex (sha256_content c).

Fixpoint encode_files (path : string) (fs : list (string * node)) : res string :=
  match fs with
  | [] => Ok ""
  | (p, NFile c) :: r => rest ← encode_files path r; Ok (encode_entry p c +:+ rest)
  | (p, _) :: _ =>
      raise_lc ("symbolic links are forbidden in immutable input: " +:+ path_join path p)
  end.

Definition sha256_tree (path : string) (d : option dirent) : res string :=
  match d with
  | Some (DTree t) =>
      match tree_files t with
      | [] => raise_lc ("directory has no files: " +:+ path)
      | fs => bytes ← encode_files path fs; Ok (sha256 bytes)
      end
  | _ => raise_lc ("directory is missing: " +:+ path)
  end.

(** *** Reading and writing the slots of the state *)

Definition dep_dir (i : string) : string := path_join (deployments_path layout) i.
Definition rel_dir (i : string) : string := path_join (releases_path layout) i.
Definition tx_dir (t : string) : string := path_join (transaction_root layout) t.

Definition tx_lookup (s : st) (t name : string) : option node :=
  d ← st_tx s !! t; d !! name.

Definition put_tx (t name : string) (n : node) : st → st :=
  set_tx (λ m, <[t := <[name := n]> (default ∅ (m !! t))]> m).

(** [atomic_write_json] on a file of a transaction directory. *)
Definition write_tx_json (t name : string) (v : pydict) : M unit :=
  durably (put_tx t name (NFile (CJson (PDict v)))).

(** [atomic_write_new_json]: create-only. *)
Definition write_new_tx_json (t name : string) (v : pydict) : M unit :=
  old ← gets (λ s, tx_lookup s t name);
  require_not (exists_or_link old)
    ("create-only JSON already exists: " +:+ path_join (tx_dir t) name);;
  durably (put_tx t name (NFile (CJson (PDict v)))).

Definition with_record (v : pydict) (d : deployment) : deployment :=
  Deployment (Some (NFile (CJson (PDict v)))) (dp_links d) (dp_image_env d)
    (dp_snapshot d) (dp_attestations d).

(** [atomic_write_json] on a deployment's [record.json]. *)
Definition write_deployment_record (i : string) (v : pydict) : M unit :=
  durably (set_deployments (alter (with_record v) i)).
End io.

(** ** The executor interface

    [LifecycleExecutor]: the operations that touch the running system.  A
    deployment is passed by its identity, a summary path by its transaction
    and name. *)
Class LifecycleExecutor := {
  ex_precheck : string → pfloat → M unit;
  ex_activate : string → pfloat → M unit;
  ex_commit : string → pfloat → M unit;
  ex_uncommit : pfloat → M unit;
  ex_deactivate : string → pfloat → M unit;
  ex_prepare_transition : string → string → string → string → pfloat → M py;
  ex_verify : string → string → string → pfloat → M pydict;
  ex_verify_bridge : string → string → string → pfloat → M pydict;
  ex_verify_read_only : string → string → string → pfloat → bool → M pydict;
  ex_runtime_status : string → M (list string);
  ex_inactive_status : M (list string) }.

(** ** Inverting normal returns *)

Lemma bind_ret {A B} (m : M A) (f : A → M B) s b s' :
  (m ≫= f) s = (ORet b, s') ↔ ∃ a s1, m s = (ORet a, s1) ∧ f a s1 = (ORet b, s').
Proof.
  unfold mbind, M_bind. destruct (m s) as [[a|e|] s1]; naive_solver.
Qed.

Lemma mret_ret {A} (a b : A) s s' : mret (M:=M) a s = (ORet b, s') ↔ b = a ∧ s' = s.
Proof. unfold mret, M_ret. naive_solver. Qed.

Lemma lift_ret {A} (r : res A) s a s' : lift r s = (ORet a, s') ↔ r = Ok a ∧ s' = s.
Proof. unfold lift. destruct r; naive_solver. Qed.

Lemma require_ret bad msg s u s' :
  require_not bad msg s = (ORet u, s') ↔ bad = false ∧ s' = s.
Proof. unfold require_not. rewrite lift_ret, guard_lc_ok. done. Qed.

Lemma gets_ret {A} (f : st → A) s a s' : gets f s = (ORet a, s') ↔ a = f s ∧ s' = s.
Proof. unfold gets. naive_solver. Qed.

Lemma modify_ret f s u s' : modify f s = (ORet u, s') ↔ s' = f s.
Proof. unfold modify. destruct u. naive_solver. Qed.

Section ret.
Context `{Runtime}.

Lemma read_at_ret {A} (f : nat → A) s a s' :
  read_at f s = (ORet a, s') ↔ a = f (st_ev s) ∧ s' = set_ev S s.
Proof. unfold read_at. naive_solver. Qed.

Lemma tick_ret s u s' : tick s = (ORet u, s') → s' = set_ev S s.
Proof. unfold tick. destruct (fault_at _); naive_solver. Qed.

Lemma durably_ret f s u s' :
  durably f s = (ORet u, s') → s' = set_ev S (f (set_ev S s)).
Proof.
  unfold durably. rewrite bind_ret. intros ([] & s1 & ->%tick_ret & Hm).
  apply bind_ret in Hm as ([] & s2 & ->%modify_ret & Ht). by apply tick_ret in Ht.
Qed.
End ret.

(** Split a normal return into the returns of its steps. *)
Ltac m_inv :=
  repeat match goal with
  | H : (_ ≫= _) _ = (ORet _, _) |- _ => apply bind_ret in H as (? & ? & ? & H)
  | H : mret _ _ = (ORet _, _) |- _ => apply mret_ret in H as [? ?]
  | H : lift _ _ = (ORet _, _) |- _ => apply lift_ret in H as [? ?]
  | H : require_not _ _ _ = (ORet _, _) |- _ => apply require_ret in H as [? ?]
  | H : gets _ _ = (ORet _, _) |- _ => apply gets_ret in H as [? ?]
  | H : modify _ _ = (ORet _, _) |- _ => apply modify_ret in H
  | H : read_at _ _ = (ORet _, _) |- _ => apply read_at_ret in H as [? ?]
  | H : now _ = (ORet _, _) |- _ => apply read_at_ret in H as [? ?]
  | H : monotonic _ = (ORet _, _) |- _ => apply read_at_ret in H as [? ?]
  | H : uuid_hex _ = (ORet _, _) |- _ => apply read_at_ret in H as [? ?]
  | H : tick _ = (ORet _, _) |- _ => apply tick_ret in H
  | H : durably _ _ = (ORet _, _) |- _ => apply durably_ret in H
  end.
