(* ===== verification/LifecycleSamples.v ===== *)
(** * Release lifecycle: a concrete runtime

    A runtime without faults and an executor whose calls succeed, on which the
    witnesses evaluate the commands.  The digest is a checksum of the start of
    a text and its length, printed as 64 hexadecimal digits. *)
From S2P Require Import Prelude PyFloat PyValue LifecycleCore LifecycleIO.

Fixpoint poly_hash (h : N) (s : string) : N :=
  match s with
  | EmptyString => h
  | String a r => poly_hash (N.land (h * 5 + N_of_ascii a + 1) 65535)%N r
  end.

Definition hex4 (n : N) : string :=
  String (hex_digit (n / 4096 mod 16)%N) (String (hex_digit (n / 256 mod 16)%N)
    (String (hex_digit (n / 16 mod 16)%N) (String (hex_digit (n mod 16)%N) ""))).

Definition sample_sha256 (s : string) : string :=
  hex4 (poly_hash 7 (str_take 48 s)) +:+ hex4 (N.of_nat (String.length s)) +:+ str_repeat "0" 56.

Definition sample_identity : py :=
  PDict [("host", PDict [("hostname", PStr "gateway-1")]);
         ("operator", PDict [("user", PStr "ops")])].

(** A runtime whose events proceed except for the given fault. *)
Definition runtime_with (faults : nat → fault) : Runtime := {|
  layout := default_layout;
  sha256 := sample_sha256;
  now_at _ := "2026-01-01T00:00:00Z";
  stamp_at n := "20260101T" +:+ Z_str (Z.of_nat (1000 + n));
  uuid_at n := "0123456789abcdef" +:+ Z_str (Z.of_nat n);
  monotonic_at _ := f_zero;
  identity_at _ := Ok sample_identity;
  fault_at := faults;
  evidence_at _ _ := None;
  file_id_at _ _ := None;
  real_path_at _ p := p |}.

Definition sample_runtime : Runtime := runtime_with (λ _, NoFault).

(** An executor that finds everything in order. *)
Definition sample_executor : LifecycleExecutor := {|
  ex_precheck _ _ := mret ();
  ex_activate _ _ := mret ();
  ex_commit _ _ := mret ();
  ex_uncommit _ := mret ();
  ex_deactivate _ _ := mret ();
  ex_prepare_transition _ _ _ _ _ := mret PNone;
  ex_verify _ _ _ _ := mret [("overall_pass", PBool true)];
  ex_verify_bridge _ _ _ _ := mret [("overall_pass", PBool true)];
  ex_verify_read_only _ _ _ _ _ := mret [("overall_pass", PBool true)];
  ex_runtime_status _ := mret [];
  ex_inactive_status := mret [] |}.

(** An executor whose verification and whose stop both fail. *)
Definition failing_executor : LifecycleExecutor := {|
  ex_precheck _ _ := mret ();
  ex_activate _ _ := mret ();
  ex_commit _ _ := mret ();
  ex_uncommit _ := fail_lc "systemctl failed";
  ex_deactivate _ _ := mret ();
  ex_prepare_transition _ _ _ _ _ := mret PNone;
  ex_verify _ _ _ _ := fail_lc "verification failed";
  ex_verify_bridge _ _ _ _ := fail_lc "verification failed";
  ex_verify_read_only _ _ _ _ _ := fail_lc "verification failed";
  ex_runtime_status _ := mret [];
  ex_inactive_status := mret [] |}.

(** A host before the first installation. *)
Definition sample_host : st :=
  St 0 ∅ ∅ LMissing LMissing AMissing None None ∅ [] [].

(** Did a computation return, and what. *)
Definition is_ret {A} (r : outcome A * st) : bool :=
  match r.1 with ORet _ => true | _ => false end.
Definition returned {A} (d : A) (r : outcome A * st) : A :=
  match r.1 with ORet a => a | _ => d end.

Lemma returned_eta {A} (d : A) (r : outcome A * st) :
  is_ret r = true → r = (ORet (returned d r), r.2).
Proof. by destruct r as [[] ?]. Qed.
