(* ===== verification/LifecycleRecords.v ===== *)
(** * Release lifecycle: deployment and transaction records

    The operations on records, links and the active image environment shared by
    the lifecycle commands: the record half of [RecoveryMixin]
    ([release_deployment_recovery.py]), the link half of [InstallMixin]
    ([release_deployment_install.py]) and the helpers of [TransactionMixin]
    ([release_deployment_transaction.py]).

    The transaction record is one mutable dict in Python, updated in place and
    still visible to the exception handlers; it is the field [st_rec]. *)
From S2P Require Import Prelude PyFloat PyValue LifecycleCore LifecycleIO.

Inductive which_link := Current | Previous.

Section records.
Context `{Runtime, LifecycleExecutor}.

(** ** Identity and transaction records *)

(** [_identity]: the two sub-objects of the operations identity. *)
Definition identity_fields (r : res py) : res (pydict * pydict) :=
  identity ← r;
  host ← vitem identity "host";
  operator ← vitem identity "operator";
  match host, operator with
  | PDict h, PDict o => Ok (h, o)
  | _, _ => Raise (Exn CValueError "identity fields must be objects")
  end.

Definition identity : M (pydict * pydict) :=
  r ← read_at identity_at;
  lift (match identity_fields r with
        | Ok i => Ok i
        | Raise e =>
            if exn_isa CKeyError e || exn_isa COSError e || exn_isa CTypeError e
               || exn_isa CValueError e
            then raise_lc ("cannot collect operations identity: " +:+ exn_msg e)
            else Raise e
        end).

Definition install_result (installed_at : string) : pydict :=
  [("operation", PStr "install"); ("status", PStr "installed");
   ("completed", PBool true); ("overall_pass", PBool true);
   ("recorded_at", PStr installed_at)].

(** [_summary_references]: the digests of the summaries that exist. *)
Fixpoint summary_references_of (t : string) (files : gmap string node)
    (kinds : list (string * string)) : res (list py) :=
  match kinds with
  | [] => Ok []
  | (kind, name) :: rest =>
      let path := path_join (tx_dir t) name in
      match files !! name with
      | None => summary_references_of t files rest
      | Some (NFile c) =>
          refs ← summary_references_of t files rest;
          Ok (PDict [("kind", PStr kind); ("path", PStr path);
                     ("sha256", PStr (sha256_content c));
                     ("size_bytes", PInt (Z.of_nat (String.length (content_bytes c))))]
              :: refs)
      | Some _ => raise_lc ("transaction summary is not a regular file: " +:+ path)
      end
  end.

Definition summary_references (t : string) : M (list py) := λ s,
  lift (summary_references_of t (default ∅ (st_tx s !! t)) TRANSACTION_SUMMARIES) s.

Definition upd_rec (kvs : pydict) : M unit := modify (λ s, set_rec (dupdate (st_rec s) kvs) s).

Definition set_status (v : string) : M unit := upd_rec [("status", PStr v)].

Definition is_completed (status : string) : bool :=
  negb (String.eqb status "pending") && negb (mem_str status INCOMPLETE_TRANSACTION_STATES).

(** The ["result"] entry derived from a record. *)
Definition result_entry (record : pydict) (summaries : option (list py)) : pydict :=
  let status := py_str (get_or record "status" (PStr "")) in
  let completed := is_completed status in
  [("operation", PStr (py_str (get_or record "operation" (PStr ""))));
   ("status", PStr status);
   ("completed", PBool completed);
   ("overall_pass",
      if completed then PBool (mem_str status PASSING_TRANSACTION_STATES) else PNone);
   ("recorded_at",
      py_or (py_or (get record "completed_at") (get record "failed_at"))
            (get record "started_at"))]
  ++ match summaries with Some l => [("summaries", PList l)] | None => [] end.

(** A record that lacks the host or the operator gets both. *)
Definition stamp_identity : M unit :=
  record ← gets st_rec;
  if negb (has record "host") || negb (has record "operator") then
    '(host, operator) ← identity;
    modify (λ s, set_rec (dsetdefault (dsetdefault (st_rec s) "host" (PDict host))
                            "operator" (PDict operator)) s)
  else mret ().

(** The summaries of a completed transaction. *)
Definition completed_summaries (t : string) (record : pydict) : M (option (list py)) :=
  if is_completed (py_str (get_or record "status" (PStr "")))
  then l ← summary_references t; mret (Some l)
  else mret None.

(** [_write_transaction_record]. *)
Definition write_transaction_record (t : string) : M unit :=
  stamp_identity;;
  record ← gets st_rec;
  summaries ← completed_summaries t record;
  upd_rec [("result", PDict (result_entry record summaries))];;
  record ← gets st_rec;
  write_tx_json t "record.json" record.

(** The record a transaction starts with. *)
Definition new_record (operation t started : string) (fields : pydict) : pydict :=
  dupdate
    [("schema_version", PInt 1); ("transaction_id", PStr t);
     ("operation", PStr operation); ("started_at", PStr started);
     ("status", PStr "pending"); ("secret_material_recorded", PBool false)] fields.

(** [_transaction]: a fresh transaction directory with a pending record. *)
Definition transaction (operation : string) (fields : pydict) : M string :=
  stamp ← strftime_now;
  u ← uuid_hex;
  let t := stamp +:+ "-" +:+ operation +:+ "-" +:+ str_take 12 u in
  old ← gets (λ s, st_tx s !! t);
  match old with
  | Some _ => raise CFileExistsError ("File exists: " +:+ tx_dir t)
  | None =>
      durably (set_tx (<[t := ∅]>));;
      started ← now;
      modify (set_rec (new_record operation t started fields));;
      write_transaction_record t;;
      mret t
  end.

(** ** Deployment records *)

Definition check_deployment_id (i : string) : res unit :=
  guard_lc (negb (DEPLOYMENT_ID_RE i)) ("invalid deployment identity: " +:+ str_repr i).

(** [_deployment_dir]: the identity stands for the directory. *)
Definition deployment_dir (i : string) : M string := lift (check_deployment_id i);; mret i.

Definition surface_names : list string :=
  ["bin"; "config"; "deploy"; "env"; "scripts"; "manifest.json"].

Definition opt_str_eqb (o : option string) (s : string) : bool :=
  match o with Some t => String.eqb t s | None => false end.

(** [parse_image_environment] on a directory entry. *)
Definition read_image_environment (path : string) (n : option node) : res env :=
  match n with
  | Some (NFile c) => parse_image_environment (content_bytes c)
  | _ => raise_lc ("cannot read image environment " +:+ path)
  end.

Definition tree_lookup (d : option dirent) (p : string) : option node :=
  match d with Some (DTree t) => t !! p | _ => None end.

Fixpoint check_surfaces (i : string) (links : gmap string string) (names : list string)
    : res unit :=
  match names with
  | [] => Ok ()
  | name :: rest =>
      guard_lc (negb (opt_str_eqb (links !! name) (path_join (rel_dir i) name)))
        ("deployment runtime link drift: " +:+ i +:+ "/" +:+ name);;
      check_surfaces i links rest
  end.

Fixpoint check_attestations (i : string) (files : gmap string node) (record : pydict)
    (names : list (string * string)) : res unit :=
  match names with
  | [] => Ok ()
  | (name, field) :: rest =>
      digest ← sha256_file (files !! name);
      guard_lc (negb (py_eqb (PStr digest) (get record field)))
        ("deployment attestation drift: " +:+ i +:+ "/" +:+ name);;
      check_attestations i files record rest
  end.

(** [_record]: load a deployment record and verify everything it binds. *)
Definition record_of (s : st) (i : string) : res pydict :=
  check_deployment_id i;;
  let d := default (Deployment None ∅ None None ∅) (st_deployments s !! i) in
  let deployment_path := dep_dir i in
  record ← load_json_object (dp_record d) (path_join deployment_path "record.json")
             "deployment record";
  guard_lc (negb (py_eqb (get record "deployment_id") (PStr i)))
    ("deployment record identity mismatch: " +:+ i);;
  guard_lc (negb (py_eqb (get record "deployment_path") (PStr deployment_path)))
    ("deployment path mismatch: " +:+ i);;
  let release_path := rel_dir i in
  guard_lc (negb (py_eqb (get record "release_path") (PStr release_path)))
    ("deployment release path mismatch: " +:+ i);;
  let release := st_releases s !! i in
  guard_lc (match release with Some (DTree _) => false | _ => true end)
    ("installed release is missing or unsafe: " +:+ release_path);;
  guard_lc (negb (opt_str_eqb (dp_links d !! "release") release_path))
    ("deployment release link drift: " +:+ i);;
  check_surfaces i (dp_links d) surface_names;;
  manifest_sha ← sha256_file (tree_lookup release "manifest.json");
  guard_lc (negb (py_eqb (PStr manifest_sha) (get record "manifest_sha256")))
    ("installed release manifest drift: " +:+ i);;
  tree_sha ← sha256_tree release_path release;
  guard_lc (negb (py_eqb (PStr tree_sha) (get record "release_tree_sha256")))
    ("installed release tree drift: " +:+ i);;
  read_image_environment (path_join deployment_path "compose-images.env") (dp_image_env d);;
  env_sha ← sha256_file (dp_image_env d);
  guard_lc (negb (py_eqb (PStr env_sha) (get record "image_environment_sha256")))
    ("deployment image environment drift: " +:+ i);;
  snapshot_sha ← sha256_tree (path_join deployment_path "configuration-snapshot")
                   (dp_snapshot d);
  guard_lc (negb (py_eqb (PStr snapshot_sha) (get record "configuration_sha256")))
    ("deployment configuration drift: " +:+ i);;
  check_attestations i (dp_attestations d) record
    [("release-runtime-staging-summary.json", "release_summary_sha256");
     ("image-build-summary.json", "image_summary_sha256")];;
  Ok record.

Definition record_get (i : string) : M pydict := λ s, lift (record_of s i) s.

(** [_update_deployment]. *)
Definition update_deployment (i : string) (fields : pydict) : M unit :=
  deployment_dir i;;
  record ← record_get i;
  write_deployment_record i (dupdate record fields).

(** ** Links *)

Definition link_of (w : which_link) (s : st) : link :=
  match w with Current => st_current s | Previous => st_previous s end.
Definition link_path (w : which_link) : string :=
  match w with Current => current_path layout | Previous => previous_path layout end.
Definition set_link (w : which_link) (v : link) : st → st :=
  match w with Current => set_current v | Previous => set_previous v end.

(** The path below [base], when there is one. *)
Definition relative_to (base path : string) : option string :=
  if String.eqb path base then Some ""
  else if starts_with (base +:+ "/") path
  then Some (str_skip (String.length base + 1) path) else None.

Definition resolve_link (w : which_link) (required : bool) : M (option string) :=
  l ← gets (link_of w);
  match l with
  | LMissing =>
      if required
      then fail_lc ("required lifecycle link is missing: " +:+ link_path w)
      else mret None
  | LNotLink => fail_lc ("lifecycle path is not a symbolic link: " +:+ link_path w)
  | LTo target =>
      match relative_to (deployments_path layout) target with
      | None => fail_lc ("lifecycle link escapes deployments root: " +:+ link_path w
                         +:+ " -> " +:+ target)
      | Some name =>
          require_not (negb (DEPLOYMENT_ID_RE name))
            ("lifecycle link target is not a deployment: " +:+ target);;
          record_get name;;
          mret (Some name)
      end
  end.

Definition same_env (a b : env) : bool :=
  same_set (map fst a) (map fst b)
  && forallb (λ kv, opt_str_eqb (env_lookup kv.1 b) kv.2) a.

(** [_legacy_current_matches]. *)
Definition legacy_current_matches (i : string) : M bool :=
  l ← gets st_current;
  match l with
  | LTo target =>
      record ← record_get i;
      active ← gets st_active;
      match active with
      | AFile c =>
          a ← lift (parse_image_environment (content_bytes c));
          deployment_dir i;;
          d ← gets (λ s, st_deployments s !! i);
          b ← lift (read_image_environment (path_join (dep_dir i) "compose-images.env")
                      (d ≫= dp_image_env));
          if negb (same_env a b) then mret false
          else if String.eqb target (rel_dir i)
          then release_path ← lift (item record "release_path");
               mret (py_eqb release_path (PStr (rel_dir i)))
          else match relative_to (releases_path layout) target with
          | None => mret false
          | Some name =>
              release ← gets (λ s, st_releases s !! name);
              match release with
              | Some (DTree t) =>
                  m ← lift (sha256_file (t !! "manifest.json"));
                  m' ← lift (item record "manifest_sha256");
                  if negb (py_eqb (PStr m) m') then mret false
                  else
                    h ← lift (sha256_tree target release);
                    h' ← lift (item record "release_tree_sha256");
                    mret (py_eqb (PStr h) h')
              | _ => mret false
              end
          end
      | _ => mret false
      end
  | _ => mret false
  end.

(** [_atomic_link]. *)
Definition atomic_link (i : string) (w : which_link) : M unit :=
  deployment_dir i;;
  record_get i;;
  uuid_hex;;
  durably (set_link w (LTo (dep_dir i))).

(** [_clear_link]. *)
Definition clear_link (w : which_link) : M unit :=
  l ← gets (link_of w);
  require_not (match l with LNotLink => true | _ => false end)
    ("refusing to remove non-symlink lifecycle path: " +:+ link_path w);;
  durably (set_link w LMissing).

(** [_clear_active_image_link]. *)
Definition clear_active_image_link : M unit :=
  a ← gets st_active;
  match a with
  | ASymlink _ => durably (set_active AMissing)
  | _ => mret ()
  end.

Definition expected_active_target : string := path_join (current_path layout) "compose-images.env".

(** The directory part of a path. *)
Definition dirname (p : string) : string :=
  str_concat "/" (removelast (path_parts p)).
Definition resolve_raw (raw : string) : string :=
  if starts_with "/" raw then raw else path_join (dirname (active_image_env layout)) raw.

(** [_ensure_active_image_link]. *)
Definition ensure_active_image_link : M unit :=
  a ← gets st_active;
  let replace_it := uuid_hex;; durably (set_active (ASymlink expected_active_target)) in
  match a with
  | ASymlink raw =>
      if String.eqb (resolve_raw raw) expected_active_target then mret () else replace_it
  | AOther => fail_lc ("active image environment is not a file or symlink: "
                       +:+ active_image_env layout)
  | _ => replace_it
  end.

(** [_activate_files]. *)
Definition activate_files (i : string) : M unit :=
  deployment_dir i;;
  d ← gets (λ s, st_deployments s !! i);
  lift (read_image_environment (path_join (dep_dir i) "compose-images.env")
          (d ≫= dp_image_env));;
  a ← gets st_active;
  match a with
  | AFile _ | AOther =>
      atomic_link i Current;; ensure_active_image_link
  | _ =>
      ensure_active_image_link;; atomic_link i Current
  end.

(** The bytes of [deployment/deploy/systemd/boost-gateway-compose.service],
    read through the deployment's [deploy] link. *)
Definition unit_of (s : st) (i : string) : res string :=
  let missing := Raise (Exn CFileNotFoundError "No such file or directory") in
  match st_deployments s !! i ≫= (λ d, dp_links d !! "deploy") with
  | None => missing
  | Some real =>
      match relative_to (releases_path layout) real ≫= split_once "/" with
      | Some (rid, name) =>
          match tree_lookup (st_releases s !! rid)
                  (path_join name "systemd/boost-gateway-compose.service") with
          | Some (NFile c) => Ok (content_bytes c)
          | _ => missing
          end
      | None => missing
      end
  end.

(** [_validate_unit_compatibility]. *)
Definition validate_unit_compatibility (candidate current : string) : M unit :=
  deployment_dir candidate;;
  deployment_dir current;;
  a ← (λ s, lift (unit_of s candidate) s);
  b ← (λ s, lift (unit_of s current) s);
  require_not (negb (String.eqb a b))
    "release changes the host Compose unit; migrate the host controller separately";;
  u ← gets st_unit;
  require_not (match u with
               | Some (NFile c) => negb (String.eqb (content_bytes c) b)
               | _ => true
               end)
    "installed Compose unit drifted from current deployment".

(** ** Deadlines and executor calls *)

(** [_remaining]. *)
Definition remaining (started budget : pfloat) : M pfloat :=
  m ← monotonic;
  let r := fsub budget (fsub m started) in
  require_not (fleb r f_zero)
    ("lifecycle deadline exceeded (" +:+ f_fmt0 budget +:+ "s)");;
  mret r.

Definition logged {A} (e : event) (m : M A) : M A :=
  a ← m; modify (set_log (cons e));; mret a.

Definition exec_precheck (i : string) (started budget : pfloat) : M unit :=
  d ← deployment_dir i;
  t ← remaining started budget;
  logged (EPrecheck d) (ex_precheck d t).

Definition exec_activate (i : string) (started budget : pfloat) : M unit :=
  d ← deployment_dir i;
  t ← remaining started budget;
  logged (EActivate d) (ex_activate d t).

Definition exec_commit (i : string) (started budget : pfloat) : M unit :=
  d ← deployment_dir i;
  t ← remaining started budget;
  logged (ECommit d) (ex_commit d t).

Definition exec_deactivate (i : string) (started budget : pfloat) : M unit :=
  d ← deployment_dir i;
  t ← remaining started budget;
  logged (EDeactivate d) (ex_deactivate d t).

Definition exec_uncommit (started budget : pfloat) : M unit :=
  t ← remaining started budget;
  logged EUncommit (ex_uncommit t).

(** [_verify_target]. *)
Definition verify_target (i t : string) (timeout : pfloat) (summary_name : string) : M pydict :=
  d ← deployment_dir i;
  logged (EVerify d) (ex_verify d t summary_name timeout).

(** [_prepare_transition]. *)
Definition prepare_transition (source : option string) (target t : string)
    (started budget : pfloat) (summary_name : string) : M py :=
  match source with
  | None => mret PNone
  | Some source =>
      if String.eqb source target then mret PNone
      else
        a ← deployment_dir source;
        b ← deployment_dir target;
        timeout ← remaining started budget;
        logged (ETransition a b) (ex_prepare_transition a b t summary_name timeout)
  end.

(** [_ensure_failure_summary]. *)
Definition ensure_failure_summary (t : string) (failure : exn) : M unit :=
  old ← gets (λ s, tx_lookup s t "deployment-verification-summary.json");
  if exists_or_link old then mret ()
  else
    generated ← now;
    write_tx_json t "deployment-verification-summary.json"
      [("summary_version", PInt 2); ("generated_at", PStr generated);
       ("overall_pass", PBool false); ("passed", PBool false);
       ("failed_step", PStr "release-lifecycle-activation");
       ("failure", PStr (exn_msg failure));
       ("source_build_performed", PBool false);
       ("public_conan_access_performed", PBool false)].
End records.
