(* ===== verification/LifecycleInstall.v ===== *)
(** * Release lifecycle: installation

    Models [_release_manifest], [_deployment_id] and [install] of
    [release_deployment_install.py].  The inputs of the command are the trees
    and files its path arguments resolve to.  Copying a tree preserves its
    files; what the copy leaves out is modelled, the temporary directories are
    not.  Partial state left by an interrupted installation is the release tree
    without its deployment. *)
From S2P Require Import Prelude PyFloat PyValue LifecycleCore LifecycleIO LifecycleRecords.
From S2P Require Import LifecycleSamples.

(** The directory below [prefix] in a tree. *)
Definition subdir (t : tree) (prefix : string) : option dirent :=
  match t !! prefix with
  | Some NDir =>
      Some (DTree (list_to_map
        (flat_map (λ pn, match relative_to prefix pn.1 with
                         | Some rel => if String.eqb rel "" then [] else [(rel, pn.2)]
                         | None => []
                         end) (map_to_list t))))
  | _ => None
  end.

(** [shutil.ignore_patterns("__pycache__", "*.pyc", "*.pyo")] on a name. *)
Definition ignored_name (name : string) : bool :=
  String.eqb name "__pycache__" || ends_with ".pyc" name || ends_with ".pyo" name.

(** The files [copytree] copies under these patterns. *)
Definition copied (t : tree) : tree :=
  filter (λ pn, existsb ignored_name (path_parts pn.1) = false) t.

(** [Path(name).name == name]. *)
Definition is_path_name (name : string) : bool :=
  negb (str_in "/" name) && negb (String.eqb name ".").

Record install_inputs := InstallInputs {
  in_release_path : string;
  in_release : option dirent;
  in_image_env_path : string;
  in_image_env : option node;
  in_release_summary_path : string;
  in_release_summary : option node;
  in_image_summary_path : string;
  in_image_summary : option node;
  in_config : option (string * option dirent) }.

Section install.
Context `{Runtime}.

(** The digests of the deployment controller's files in the release. *)
Definition observed_controller (path : string) (t : tree) : res (list (string * string)) :=
  let tree_at p := sha256_tree (path_join path p) (subdir t p) in
  dockerfiles ← tree_at "deploy/runtime";
  systemd ← tree_at "deploy/systemd";
  compose ← sha256_file (t !! "deploy/operations/docker-compose.production.yml");
  monitoring ← tree_at "env/monitoring";
  redis ← tree_at "env/redis";
  tools ← tree_at "scripts/tools";
  runtime ← tree_at "scripts";
  Ok [("dockerfiles_sha256", dockerfiles); ("systemd_sha256", systemd);
      ("compose_sha256", compose); ("monitoring_sha256", monitoring);
      ("redis_sha256", redis); ("verification_tools_sha256", tools);
      ("verification_runtime_sha256", runtime)].

Fixpoint check_binaries (t : tree) (binaries : list py) : res unit :=
  match binaries with
  | [] => Ok ()
  | PDict item :: rest =>
      let name := py_str (get_or item "name" (PStr "")) in
      let digest := py_str (get_or item "sha256" (PStr "")) in
      guard_lc (negb (is_path_name name) || negb (SHA256_RE digest))
        "release manifest contains an invalid binary identity";;
      observed ← sha256_file (t !! path_join "bin" name);
      guard_lc (negb (String.eqb observed digest)) ("release binary digest drift: " +:+ name);;
      check_binaries t rest
  | _ :: _ => raise_lc "release manifest contains a non-object binary"
  end.

(** [_release_manifest]. *)
Definition release_manifest (path : string) (t : tree) : res pydict :=
  manifest ← load_json_object (t !! "manifest.json") (path_join path "manifest.json")
               "release manifest";
  guard_lc (negb (py_eqb (get manifest "schema_version") (PInt 1)))
    "release manifest schema_version must be 1";;
  let tag := py_str (get_or manifest "tag" (PStr "")) in
  let commit := py_str (get_or manifest "commit" (PStr "")) in
  guard_lc (negb (TAG_RE tag) || negb (COMMIT_RE commit))
    "release manifest lacks an exact tag or full commit";;
  guard_lc (negb (py_eqb (get manifest "platform") (PStr "linux-x64")))
    "release manifest platform must be linux-x64";;
  guard_lc (negb (is_false (get manifest "source_build_performed")))
    "release is not source-build-free";;
  let assets := get manifest "assets" in
  let configuration := get manifest "configuration" in
  guard_lc (negb (is_dict assets)
      || negb (SHA256_RE (py_str (get_or (as_dict assets) (runtime_asset_name tag) (PStr "")))))
    "release manifest has no immutable runtime digest";;
  guard_lc (negb (is_dict configuration)
      || negb (SHA256_RE (py_str (get_or (as_dict configuration) "sha256" (PStr "")))))
    "release manifest has no configuration digest";;
  let controller := get manifest "deployment_controller" in
  guard_lc (negb (is_dict controller))
    "release manifest has no deployment controller identity";;
  observed ← observed_controller path t;
  let drifted := sort_str (map fst (filter (λ kv,
      py_eqb (get (as_dict controller) kv.1) (PStr kv.2) = false) observed)) in
  guard_lc (match drifted with [] => false | _ => true end)
    ("release deployment controller digest drift: " +:+ py_repr (PList (map PStr drifted)));;
  let binaries := get manifest "binaries" in
  guard_lc (match binaries with PList (_ :: _) => false | _ => true end)
    "release manifest has no binary inventory";;
  check_binaries t (as_list binaries);;
  Ok manifest.

(** [_deployment_id]. *)
Definition deployment_id (manifest : pydict) : res string :=
  tag_value ← item manifest "tag";
  let tag := py_str tag_value in
  assets ← item manifest "assets";
  runtime_value ← vitem assets (runtime_asset_name tag);
  let runtime := py_str runtime_value in
  let controller := get_or manifest "deployment_controller" (PDict []) in
  guard_lc (negb (is_dict controller))
    "release manifest has no deployment controller identity";;
  let controller_digest :=
    py_str (get_or (as_dict controller) "verification_runtime_sha256" (PStr "")) in
  guard_lc (negb (SHA256_RE controller_digest))
    "release manifest has invalid controller identity";;
  Ok (tag +:+ "-" +:+ str_take 12 runtime +:+ "-" +:+ str_take 12 controller_digest).

(** Everything [install] establishes about its inputs before it looks at the
    installed state. *)
Record checked_inputs := CheckedInputs {
  ci_id : string;
  ci_manifest : pydict;
  ci_release : tree;
  ci_values : env;
  ci_config : option dirent;
  ci_config_sha : string;
  ci_manifest_sha : string;
  ci_release_summary : pydict;
  ci_image_summary : pydict;
  ci_tree_sha : string;
  ci_env_sha : string }.

Definition check_inputs (inp : install_inputs) : res checked_inputs :=
  match in_release inp with
  | Some (DTree t) =>
      manifest ← release_manifest (in_release_path inp) t;
      id ← deployment_id manifest;
      check_deployment_id id;;
      values ← read_image_environment (in_image_env_path inp) (in_image_env inp);
      let '(config_path, config) :=
        match in_config inp with
        | Some pc => pc
        | None => (path_join (in_release_path inp) "config", subdir t "config")
        end in
      config_sha ← sha256_tree config_path config;
      configuration ← item manifest "configuration";
      expected ← vitem configuration "sha256";
      guard_lc (negb (String.eqb config_sha (py_str expected)))
        ("configuration snapshot differs from release manifest: " +:+ config_sha);;
      manifest_sha ← sha256_file (t !! "manifest.json");
      '(release_summary, image_summary) ←
        validate_install_attestations manifest manifest_sha values
          (load_json_object (in_release_summary inp) (in_release_summary_path inp)
             "release staging summary")
          (load_json_object (in_image_summary inp) (in_image_summary_path inp)
             "image build summary");
      tree_sha ← sha256_tree (in_release_path inp) (in_release inp);
      Ok (CheckedInputs id manifest t values config config_sha manifest_sha release_summary
            image_summary tree_sha (sha256 (render_image_environment values)))
  | _ => raise_lc ("release source is missing or unsafe: " +:+ in_release_path inp)
  end.

Definition lacks_identity (r : pydict) : bool := negb (has r "host") || negb (has r "operator").

(** The identity fields an existing record lacks. *)
Definition complete_identity (existing : pydict) : M pydict :=
  if lacks_identity existing then
    '(host, operator) ← identity;
    mret (dsetdefault (dsetdefault existing "host" (PDict host)) "operator" (PDict operator))
  else mret existing.

Definition complete_result (existing : pydict) : pydict :=
  if has existing "result" then existing
  else dset existing "result"
         (PDict (install_result (py_str (get_or existing "installed_at" (PStr ""))))).

(** [accept_existing]. *)
Definition accept_existing (ci : checked_inputs) : M pydict :=
  existing ← record_get (ci_id ci);
  require_not
    (negb (py_eqb (get existing "manifest_sha256") (PStr (ci_manifest_sha ci)))
     || negb (py_eqb (get existing "release_tree_sha256") (PStr (ci_tree_sha ci)))
     || negb (py_eqb (get existing "image_environment_sha256") (PStr (ci_env_sha ci)))
     || negb (py_eqb (get existing "configuration_sha256") (PStr (ci_config_sha ci))))
    ("existing deployment identity has different inputs: " +:+ ci_id ci);;
  identified ← complete_identity existing;
  let final := complete_result identified in
  (if lacks_identity existing || negb (has identified "result")
   then write_deployment_record (ci_id ci) final else mret ());;
  mret final.

Definition release_exists (s : st) (i : string) : bool :=
  match st_releases s !! i with Some _ => true | None => false end.
Definition deployment_exists (s : st) (i : string) : bool :=
  match st_deployments s !! i with Some _ => true | None => false end.

(** The release tree: verified when it is there, copied otherwise. *)
Definition install_release (ci : checked_inputs) : M unit :=
  release ← gets (λ s, st_releases s !! ci_id ci);
  match release with
  | Some d =>
      ok ← lift (match d with
                 | DTree _ =>
                     h ← sha256_tree (rel_dir (ci_id ci)) (Some d);
                     Ok (String.eqb h (ci_tree_sha ci))
                 | _ => Ok false
                 end);
      require_not (negb ok)
        ("partial release install has different content: " +:+ ci_id ci)
  | None =>
      let copy := DTree (copied (ci_release ci)) in
      tick;;
      h ← lift (sha256_tree (rel_dir (ci_id ci)) (Some copy));
      require_not (negb (String.eqb h (ci_tree_sha ci))) "release changed while installing";;
      durably (set_releases (<[ci_id ci := copy]>))
  end.

Definition summary_content (v : pydict) : content := CJson (PDict v).

(** The record of a new deployment. *)
Definition installed_record (ci : checked_inputs) (installed_at : string)
    (host operator : pydict) : res pydict :=
  let id := ci_id ci in
  tag ← item (ci_manifest ci) "tag";
  commit ← item (ci_manifest ci) "commit";
  assets ← item (ci_manifest ci) "assets";
  runtime_asset ← vitem assets (runtime_asset_name (py_str tag));
  Ok [("schema_version", PInt 1); ("deployment_id", PStr id);
      ("deployment_path", PStr (dep_dir id)); ("installed_at", PStr installed_at);
      ("status", PStr "installed"); ("release_path", PStr (rel_dir id));
      ("tag", tag); ("commit", commit); ("runtime_asset_sha256", runtime_asset);
      ("manifest_sha256", PStr (ci_manifest_sha ci));
      ("release_summary_sha256",
         PStr (sha256_content (summary_content (ci_release_summary ci))));
      ("image_summary_sha256",
         PStr (sha256_content (summary_content (ci_image_summary ci))));
      ("release_tree_sha256", PStr (ci_tree_sha ci));
      ("image_environment_sha256",
         PStr (sha256_content (CText (render_image_environment (ci_values ci)))));
      ("image_ids", PDict (map (λ kv, (kv.1, PStr kv.2)) (ci_values ci)));
      ("configuration_sha256", PStr (ci_config_sha ci));
      ("host", PDict host); ("operator", PDict operator);
      ("result", PDict (install_result installed_at));
      ("secret_material_recorded", PBool false);
      ("protected_state_policy",
         PDict [("volumes_deleted", PBool false); ("data_deleted", PBool false);
                ("evidence_deleted", PBool false); ("backups_deleted", PBool false)])].

(** The directory that the final rename puts in place. *)
Definition new_deployment (ci : checked_inputs) (record : pydict) : deployment :=
  Deployment (Some (NFile (CJson (PDict record))))
    (list_to_map (("release", rel_dir (ci_id ci))
       :: map (λ name, (name, path_join (rel_dir (ci_id ci)) name)) surface_names))
    (Some (NFile (CText (render_image_environment (ci_values ci)))))
    (ci_config ci)
    (list_to_map
       [("release-runtime-staging-summary.json", NFile (summary_content (ci_release_summary ci)));
        ("image-build-summary.json", NFile (summary_content (ci_image_summary ci)))]).

Definition install_deployment (ci : checked_inputs) : M pydict :=
  tick;;
  installed_at ← now;
  '(host, operator) ← identity;
  record ← lift (installed_record ci installed_at host operator);
  durably (set_deployments (<[ci_id ci := new_deployment ci record]>));;
  mret record.

(** [install], under the lifecycle lock. *)
Definition install_locked (inp : install_inputs) : M pydict :=
  tick;;
  ci ← lift (check_inputs inp);
  both ← gets (λ s, release_exists s (ci_id ci) && deployment_exists s (ci_id ci));
  if (both : bool) then accept_existing ci
  else
    tick;;
    install_release ci;;
    there ← gets (λ s, deployment_exists s (ci_id ci));
    if (there : bool) then accept_existing ci else install_deployment ci.

Definition install (inp : install_inputs) : M pydict := tick;; install_locked inp.
End install.

(** ** Lemmas *)

Section install_lemmas.
Context `{Runtime}.

(** The fields of a deployment record that [_record] checks. *)
Definition bound_fields : list string :=
  ["deployment_id"; "deployment_path"; "release_path"; "manifest_sha256";
   "release_tree_sha256"; "image_environment_sha256"; "configuration_sha256";
   "release_summary_sha256"; "image_summary_sha256"].

(** Rewriting a record keeps it acceptable as long as these stay. *)
Lemma record_of_update s i r v :
  record_of s i = Ok r → (∀ k, k ∈ bound_fields → get v k = get r k) →
  record_of (set_deployments (alter (with_record v) i) s) i = Ok v.
Proof.
  unfold record_of. intros Hr Hv. apply res_bind_ok in Hr as ([] & Hid & Hr).
  rewrite Hid. apply res_bind_ok in Hr as (r' & Hload & Hr).
  simpl. rewrite lookup_alter_eq.
  destruct (st_deployments s !! i) as [d|] eqn:Hd; [|done]. simpl in *.
  assert (r' = r) as -> by (clear Hload; res_inv; done).
  clear Hload. cbn [check_attestations] in *.
  rewrite !Hv by (unfold bound_fields; set_solver). res_inv.
  repeat match goal with H : ?x = _ |- context [?x] => rewrite H; simpl end.
  done.
Qed.

Lemma identity_ret s hd s' : identity s = (ORet hd, s') → s' = set_ev S s.
Proof. unfold identity. intros Hi. m_inv. by subst. Qed.

Definition completed_keys : list string := ["host"; "operator"; "result"].

Lemma complete_identity_ret r0 s r1 s1 :
  complete_identity r0 s = (ORet r1, s1) →
  ∃ n, s1 = set_ev (λ _, n) s
       ∧ (∀ k, k ∉ completed_keys → get r1 k = get r0 k)
       ∧ (lacks_identity r0 = false → r1 = r0 ∧ s1 = s).
Proof.
  unfold complete_identity. destruct (lacks_identity r0).
  - rewrite bind_ret. intros ([h o] & s2 & ->%identity_ret & [-> ->]%mret_ret).
    exists (S (st_ev s)). split; [done|]. split; [|done].
    intros k Hk. rewrite !get_dsetdefault_ne by set_solver. done.
  - intros [-> ->]%mret_ret. exists (st_ev s). by destruct s.
Qed.

Lemma complete_result_get r k : k ∉ completed_keys → get (complete_result r) k = get r k.
Proof.
  intros Hk. unfold complete_result. destruct (has r "result"); [done|].
  apply get_dset_ne. set_solver.
Qed.

(** Accepting an installed deployment: its record is the result, completed
    in place when it lacks the identity or the result. *)
Lemma accept_existing_ret ci s r s' :
  accept_existing ci s = (ORet r, s') →
  record_of s' (ci_id ci) = Ok r
  ∧ ∃ n r0, record_of s (ci_id ci) = Ok r0
       ∧ (lacks_identity r0 = false → has r0 "result" = true → r = r0 ∧ s' = s)
       ∧ (∀ k, k ∉ completed_keys → get r k = get r0 k)
       ∧ (s' = set_ev (λ _, n) s
          ∨ s' = set_deployments (alter (with_record r) (ci_id ci)) (set_ev (λ _, n) s)).
Proof.
  unfold accept_existing. rewrite bind_ret. intros (r0 & s0 & [Hr0 ->]%lift_ret & Ha).
  apply bind_ret in Ha as ([] & s0 & [_ ->]%require_ret & Ha).
  apply bind_ret in Ha as (r1 & s1 & (n & Hs1 & Hk & Hsame)%complete_identity_ret & Ha).
  apply bind_ret in Ha as ([] & s2 & Hw & [-> ->]%mret_ret).
  assert (∀ k, k ∉ completed_keys → get (complete_result r1) k = get r0 k) as Hk'.
  { intros k Hk0. rewrite complete_result_get by done. by apply Hk. }
  destruct (lacks_identity r0 || negb (has r1 "result")) eqn:Hl.
  - apply durably_ret in Hw. subst s1 s2. split.
    + apply (record_of_update (set_ev (λ _, S (S n)) s) _ r0); [done|].
      intros k Hb. apply Hk'. unfold bound_fields in Hb. set_solver.
    + exists (S (S n)), r0. split; [done|]. split; [|split; [done|by right]].
      intros Hli Hres. destruct (Hsame Hli) as [-> _]. by rewrite Hli, Hres in Hl.
  - apply mret_ret in Hw as [_ ->]. apply orb_false_iff in Hl as [Hli Hres%negb_false_iff].
    destruct (Hsame Hli) as [-> ->]. unfold complete_result in *. rewrite Hres in *.
    split; [done|]. exists n, r0. by repeat split; try left.
Qed.

(** The path of a tree only shows in error messages. *)
Lemma sha256_tree_path p q d h : sha256_tree p d = Ok h → sha256_tree q d = Ok h.
Proof.
  unfold sha256_tree. destruct d as [[t| |]|]; try done.
  destruct (tree_files t) as [|f fs]; [done|].
  assert (∀ l b, encode_files p l = Ok b → encode_files q l = Ok b) as He.
  { induction l as [|[x [c| |]] l IH]; intros b; simpl; try done.
    rewrite !res_bind_ok. intros (rest & Hr & Hb). exists rest. by rewrite (IH _ Hr). }
  rewrite !res_bind_ok. intros (b & Hb & Hh). exists b. by rewrite (He _ _ Hb).
Qed.

(** What the checks on the inputs establish. *)
Record inputs_ok (ci : checked_inputs) : Prop := {
  io_id : check_deployment_id (ci_id ci) = Ok ();
  io_values : image_env_ok (ci_values ci);
  io_config p : sha256_tree p (ci_config ci) = Ok (ci_config_sha ci);
  io_manifest : sha256_file (ci_release ci !! "manifest.json") = Ok (ci_manifest_sha ci);
  io_env : ci_env_sha ci = sha256 (render_image_environment (ci_values ci)) }.

Lemma read_image_environment_ok p n values :
  read_image_environment p n = Ok values → image_env_ok values.
Proof. destruct n as [[c| |]|]; try done. apply parse_image_environment_ok. Qed.

Lemma check_inputs_ok inp ci : check_inputs inp = Ok ci → inputs_ok ci.
Proof.
  unfold check_inputs. destruct (in_release inp) as [[t| |]|]; try done. intros Hc.
  do 2 apply res_bind_ok in Hc as (? & ? & Hc).
  apply res_bind_ok in Hc as ([] & Hid & Hc).
  apply res_bind_ok in Hc as (values & Henv & Hc).
  destruct (match in_config inp with Some pc => pc | None => _ end) as [cpath config].
  apply res_bind_ok in Hc as (csha & Hcfg & Hc).
  do 3 apply res_bind_ok in Hc as (? & ? & Hc).
  apply res_bind_ok in Hc as (msha & Hm & Hc).
  apply res_bind_ok in Hc as ([rs im] & Hatt & Hc).
  apply res_bind_ok in Hc as (tsha & Ht & Hc). injection Hc as <-.
  split; simpl; [done|by eapply read_image_environment_ok| |done|done].
  intros p. by eapply sha256_tree_path.
Qed.

Lemma copied_manifest t : copied t !! "manifest.json" = t !! "manifest.json".
Proof.
  unfold copied. destruct (t !! "manifest.json") as [n|] eqn:E.
  - by apply map_lookup_filter_Some.
  - apply map_lookup_filter_None. by left.
Qed.

Lemma installed_record_shape ci a h o r :
  installed_record ci a h o = Ok r → ∃ tag commit asset,
    r = [("schema_version", PInt 1); ("deployment_id", PStr (ci_id ci));
      ("deployment_path", PStr (dep_dir (ci_id ci))); ("installed_at", PStr a);
      ("status", PStr "installed"); ("release_path", PStr (rel_dir (ci_id ci)));
      ("tag", tag); ("commit", commit); ("runtime_asset_sha256", asset);
      ("manifest_sha256", PStr (ci_manifest_sha ci));
      ("release_summary_sha256",
         PStr (sha256_content (summary_content (ci_release_summary ci))));
      ("image_summary_sha256",
         PStr (sha256_content (summary_content (ci_image_summary ci))));
      ("release_tree_sha256", PStr (ci_tree_sha ci));
      ("image_environment_sha256",
         PStr (sha256_content (CText (render_image_environment (ci_values ci)))));
      ("image_ids", PDict (map (λ kv, (kv.1, PStr kv.2)) (ci_values ci)));
      ("configuration_sha256", PStr (ci_config_sha ci));
      ("host", PDict h); ("operator", PDict o);
      ("result", PDict (install_result a));
      ("secret_material_recorded", PBool false);
      ("protected_state_policy",
         PDict [("volumes_deleted", PBool false); ("data_deleted", PBool false);
                ("evidence_deleted", PBool false); ("backups_deleted", PBool false)])].
Proof.
  unfold installed_record. cbv zeta. intros Hr.
  do 4 apply res_bind_ok in Hr as (? & ? & Hr). injection Hr as <-. by eexists _, _, _.
Qed.

Lemma py_eqb_str_refl x : py_eqb (PStr x) (PStr x) = true.
Proof. by apply py_eqb_str. Qed.

Lemma check_surfaces_new i links names :
  (∀ name, name ∈ names → links !! name = Some (path_join (rel_dir i) name)) →
  check_surfaces i links names = Ok ().
Proof.
  induction names as [|name names IH]; [done|]. intros Hl. cbn [check_surfaces].
  rewrite Hl by set_solver. simpl. rewrite String.eqb_refl. apply IH. set_solver.
Qed.

(** [_record] accepts what [install] wrote. *)
Lemma new_deployment_accepted ci s a h o r :
  inputs_ok ci → installed_record ci a h o = Ok r →
  st_deployments s !! ci_id ci = Some (new_deployment ci r) →
  st_releases s !! ci_id ci = Some (DTree (copied (ci_release ci))) →
  (∀ p, sha256_tree p (Some (DTree (copied (ci_release ci)))) = Ok (ci_tree_sha ci)) →
  record_of s (ci_id ci) = Ok r.
Proof.
  intros [Hid Hval Hcfg Hman Henv] Hr Hdep Hrel Htree.
  unfold record_of. rewrite Hid, Hdep, Hrel. cbn [mbind res_bind].
  apply installed_record_shape in Hr as (tag & commit & asset & ->).
  unfold new_deployment, load_json_object. cbn [default dp_record dp_links dp_image_env
    dp_snapshot dp_attestations mbind res_bind].
  rewrite check_surfaces_new.
  2:{ intros name Hn. unfold surface_names in *. set_unfold in Hn. naive_solver. }
  cbn [tree_lookup]. rewrite copied_manifest, Hman, Htree, Hcfg.
  assert (∀ p, read_image_environment p (Some (NFile (CText (render_image_environment
    (ci_values ci))))) = Ok (env_sorted (ci_values ci))) as -> by (intros; by apply parse_render).
  cbn [check_attestations sha256_file].
  unfold get, get_or. simpl. rewrite !lookup_insert_eq, lookup_insert_ne, lookup_insert_eq by done.
  simpl. by rewrite ?py_eqb_str_refl, !String.eqb_refl.
Qed.

(** A record that is complete and names the digests of the inputs. *)
Definition settled_record (ci : checked_inputs) (r : pydict) : Prop :=
  lacks_identity r = false ∧ has r "result" = true
  ∧ get r "manifest_sha256" = PStr (ci_manifest_sha ci)
  ∧ get r "release_tree_sha256" = PStr (ci_tree_sha ci)
  ∧ get r "image_environment_sha256" = PStr (ci_env_sha ci)
  ∧ get r "configuration_sha256" = PStr (ci_config_sha ci).

Lemma has_dsetdefault_eq d k v : has (dsetdefault d k v) k = true.
Proof. unfold dsetdefault. destruct (has d k) eqn:E; [done|]. apply has_dset_eq. Qed.

Lemma has_dsetdefault d k k' v : has d k = true → has (dsetdefault d k' v) k = true.
Proof.
  intros Hd. unfold dsetdefault. destruct (has d k'); [done|].
  destruct (decide (k = k')) as [->|]; [apply has_dset_eq|by rewrite has_dset_ne].
Qed.

Lemma complete_identity_has r0 s r1 s1 :
  complete_identity r0 s = (ORet r1, s1) → lacks_identity r1 = false.
Proof.
  unfold complete_identity. destruct (lacks_identity r0) eqn:Hl.
  - rewrite bind_ret. intros ([h o] & s2 & _ & [-> _]%mret_ret). unfold lacks_identity.
    rewrite has_dsetdefault_eq, has_dsetdefault by apply has_dsetdefault_eq. done.
  - by intros [-> _]%mret_ret.
Qed.

Lemma complete_result_settled r :
  has (complete_result r) "result" = true
  ∧ lacks_identity (complete_result r) = lacks_identity r.
Proof.
  unfold complete_result, lacks_identity. destruct (has r "result") eqn:E; [done|].
  by rewrite has_dset_eq, !has_dset_ne.
Qed.

Lemma accept_existing_settled ci s r s' :
  accept_existing ci s = (ORet r, s') → settled_record ci r.
Proof.
  unfold accept_existing. rewrite bind_ret. intros (r0 & s0 & _ & Ha).
  apply bind_ret in Ha as ([] & s1 & [Hd ->]%require_ret & Ha).
  apply bind_ret in Ha as (r1 & s1 & Hc & Ha).
  apply bind_ret in Ha as ([] & s2 & _ & [-> _]%mret_ret).
  pose proof (complete_identity_has _ _ _ _ Hc) as Hl.
  apply complete_identity_ret in Hc as (n & _ & Hk & _).
  destruct (complete_result_settled r1) as [Hres Hli]. bool_split.
  repeat match goal with H : py_eqb _ _ = true |- _ => apply py_eqb_str in H end.
  unfold settled_record. rewrite Hli, !complete_result_get, !Hk by (unfold completed_keys; set_solver).
  done.
Qed.

Lemma installed_record_settled ci a h o r :
  inputs_ok ci → installed_record ci a h o = Ok r → settled_record ci r.
Proof.
  intros Hok (tag & commit & asset & ->)%installed_record_shape.
  unfold settled_record. rewrite (io_env _ Hok). done.
Qed.

Lemma install_release_ret ci s s' :
  install_release ci s = (ORet (), s') →
  st_deployments s' = st_deployments s
  ∧ (st_releases s !! ci_id ci = None →
     st_releases s' !! ci_id ci = Some (DTree (copied (ci_release ci)))
     ∧ ∀ p, sha256_tree p (Some (DTree (copied (ci_release ci)))) = Ok (ci_tree_sha ci)).
Proof.
  unfold install_release. rewrite bind_ret. intros (rel & ? & [-> ->]%gets_ret & Hi).
  destruct (st_releases s !! ci_id ci) as [d|].
  { apply bind_ret in Hi as (ok & ? & [_ ->]%lift_ret & [_ ->]%require_ret). done. }
  apply bind_ret in Hi as ([] & ? & ->%tick_ret & Hi).
  apply bind_ret in Hi as (h & ? & [Hh ->]%lift_ret & Hi).
  apply bind_ret in Hi as ([] & ? & [He%negb_false_iff ->]%require_ret & ->%durably_ret).
  apply String.eqb_eq in He as ->. split; [done|]. intros _.
  split; [apply lookup_insert_eq|]. intros p. by eapply sha256_tree_path.
Qed.

Lemma install_deployment_ret ci s r s' :
  install_deployment ci s = (ORet r, s') →
  ∃ n a h o, installed_record ci a h o = Ok r
    ∧ s' = set_deployments (<[ci_id ci := new_deployment ci r]>) (set_ev (λ _, n) s).
Proof.
  unfold install_deployment. rewrite bind_ret. intros ([] & ? & ->%tick_ret & Hi).
  apply bind_ret in Hi as (a & ? & [-> ->]%read_at_ret & Hi).
  apply bind_ret in Hi as ([h o] & ? & ->%identity_ret & Hi).
  apply bind_ret in Hi as (r' & ? & [Hr ->]%lift_ret & Hi).
  apply bind_ret in Hi as ([] & ? & ->%durably_ret & [-> ->]%mret_ret).
  eexists (S (S (S (S (S (st_ev s)))))), _, h, o. by split.
Qed.

(** What a returning [install] leaves behind. *)
Lemma install_ret inp ci s r s' :
  install inp s = (ORet r, s') → check_inputs inp = Ok ci →
  st_releases s !! ci_id ci = None ∨ is_Some (st_deployments s !! ci_id ci) →
  record_of s' (ci_id ci) = Ok r ∧ settled_record ci r.
Proof.
  unfold install, install_locked. intros Hi Hci Hfresh.
  apply bind_ret in Hi as ([] & ? & ->%tick_ret & Hi).
  apply bind_ret in Hi as ([] & ? & ->%tick_ret & Hi).
  rewrite Hci in Hi. apply bind_ret in Hi as (? & ? & [[= <-] ->]%lift_ret & Hi).
  apply bind_ret in Hi as (both & ? & [-> ->]%gets_ret & Hi).
  destruct (release_exists _ _ && deployment_exists _ _) eqn:Hboth.
  { split; [|by eapply accept_existing_settled].
    by apply accept_existing_ret in Hi as [Hr _]. }
  apply bind_ret in Hi as ([] & ? & ->%tick_ret & Hi).
  apply bind_ret in Hi as ([] & s1 & Hrel & Hi).
  apply bind_ret in Hi as (there & ? & [-> ->]%gets_ret & Hi).
  destruct (deployment_exists s1 _) eqn:Hthere.
  { split; [|by eapply accept_existing_settled].
    by apply accept_existing_ret in Hi as [Hr _]. }
  pose proof (check_inputs_ok _ _ Hci) as Hok.
  apply install_release_ret in Hrel as [Hdep Hrel]. unfold deployment_exists in Hthere.
  rewrite Hdep in Hthere. simpl in *.
  apply install_deployment_ret in Hi as (n & a & h & o & Hr & ->).
  split; [|by eapply installed_record_settled].
  destruct Hrel as [Hrel Htree].
  { destruct Hfresh as [Hf|[d Hd]]; [done|]. by rewrite Hd in Hthere. }
  by eapply new_deployment_accepted; [..|apply lookup_insert_eq| |].
Qed.

(** An accepted deployment has both of its directories. *)
Lemma record_of_exists s i r :
  record_of s i = Ok r → release_exists s i = true ∧ deployment_exists s i = true.
Proof.
  unfold record_of, release_exists, deployment_exists. intros Hr.
  apply res_bind_ok in Hr as ([] & _ & Hr). apply res_bind_ok in Hr as (r' & Hl & Hr).
  destruct (st_deployments s !! i) as [d|]; [|done].
  do 3 apply res_bind_ok in Hr as (? & ? & Hr). apply res_bind_ok in Hr as (? & Hg%guard_lc_ok & Hr).
  by destruct (st_releases s !! i).
Qed.

Lemma tick_ok s : fault_at (st_ev s) = NoFault → tick s = (ORet (), set_ev S s).
Proof. unfold tick. by intros ->. Qed.

(** A settled deployment is accepted as it is. *)
Lemma accept_settled ci s r :
  record_of s (ci_id ci) = Ok r → settled_record ci r → accept_existing ci s = (ORet r, s).
Proof.
  intros Hr (Hl & Hres & H1 & H2 & H3 & H4).
  unfold accept_existing, record_get, complete_identity, complete_result, mbind, M_bind, lift.
  rewrite Hr. unfold require_not, guard_lc, lift. rewrite H1, H2, H3, H4, !py_eqb_str_refl, Hl.
  unfold mret, M_ret. by rewrite Hres.
Qed.

Lemma install_settled inp ci s r :
  (∀ n, fault_at n = NoFault) →
  check_inputs inp = Ok ci → record_of s (ci_id ci) = Ok r → settled_record ci r →
  install inp s = (ORet r, set_ev S (set_ev S s)).
Proof.
  intros Hnf Hci Hr Hset. unfold install, install_locked, mbind, M_bind.
  rewrite tick_ok by done. rewrite tick_ok by done. rewrite Hci. unfold lift, gets. simpl.
  destruct (record_of_exists s (ci_id ci) r Hr) as [Hrel Hdep].
  unfold release_exists, deployment_exists in *. simpl. rewrite Hrel, Hdep. simpl.
  by apply accept_settled.
Qed.
End install_lemmas.

(** ** Properties *)


(** ** A release *)

Section sample_release.
#[local] Existing Instance sample_runtime.

Definition text_file (s : string) : node := NFile (CText s).

(** The files of a release, without its manifest. *)
Definition sample_release_files (content : string) : tree := list_to_map
  [("bin", NDir); ("bin/v2_gateway_demo", text_file content);
   ("config", NDir); ("config/gateway.json", text_file "{}");
   ("deploy", NDir); ("deploy/runtime", NDir);
   ("deploy/runtime/Dockerfile", text_file "FROM scratch");
   ("deploy/systemd", NDir);
   ("deploy/systemd/boost-gateway-compose.service", text_file "[Unit]");
   ("deploy/operations", NDir);
   ("deploy/operations/docker-compose.production.yml", text_file "services: {}");
   ("env", NDir); ("env/monitoring", NDir); ("env/monitoring/prometheus.yml", text_file "x");
   ("env/redis", NDir); ("env/redis/redis.conf", text_file "appendonly yes");
   ("scripts", NDir); ("scripts/__init__.py", text_file "");
   ("scripts/__init__.pyc", text_file "bytecode");
   ("scripts/tools", NDir); ("scripts/tools/run.py", text_file content)].

Definition default_inputs : checked_inputs :=
  CheckedInputs "" [] ∅ [] None "" "" [] [] "" "".
Definition ok_or {A} (d : A) (r : res A) : A := match r with Ok a => a | Raise _ => d end.

Definition sample_release_manifest (tag content : string) : pydict :=
  let t := sample_release_files content in
  [("schema_version", PInt 1); ("tag", PStr tag); ("commit", PStr (str_repeat "d" 40));
   ("platform", PStr "linux-x64"); ("source_build_performed", PBool false);
   ("assets", PDict [(runtime_asset_name tag, PStr (sample_digest "5"))]);
   ("configuration", PDict [("sha256", PStr (ok_or "" (sha256_tree "" (subdir t "config"))))]);
   ("deployment_controller",
      PDict (map (λ kv, (kv.1, PStr kv.2)) (ok_or [] (observed_controller "" t))));
   ("binaries", PList [PDict [("name", PStr "v2_gateway_demo");
                              ("sha256", PStr (sample_sha256 content))]])].

Definition sample_inputs (tag content : string) : install_inputs :=
  let manifest := sample_release_manifest tag content in
  let file := NFile (CJson (PDict manifest)) in
  let labels := ok_or [] (expected_labels manifest) in
  InstallInputs "/srv/staging" (Some (DTree (<["manifest.json" := file]>
      (sample_release_files content))))
    "/srv/images.env" (Some (text_file sample_image_text))
    "/srv/release-summary.json" (Some (NFile (CJson (PDict
      [("summary_version", PInt 2); ("overall_pass", PBool true);
       ("release", PDict [("tag", PStr tag); ("commit", PStr (str_repeat "d" 40));
          ("manifest_sha256", PStr (ok_or "" (sha256_file (Some file))))])]))))
    "/srv/image-summary.json" (Some (NFile (CJson (PDict
      [("summary_version", PInt 2); ("overall_pass", PBool true);
       ("source_build_performed", PBool false); ("network_enabled_during_build", PBool false);
       ("target_platform", PStr "linux/amd64");
       ("images", PList (map (λ sv, PDict
          [("service", PStr sv.1); ("image_id", PStr (default "" (env_lookup sv.2 sample_images)));
           ("os", PStr "linux"); ("architecture", PStr "amd64"); ("labels", PDict labels)])
          IMAGE_VARIABLE_BY_SERVICE))]))))
    None.

End sample_release.
