(* ===== verification/LifecycleNetwork.v ===== *)
(** * Release lifecycle: the immutable production network bridge

    Models [src/scripts/lib/release_deployment_runtime.py]: the validation that
    admits the single historical deployment whose Compose network predates the
    fixed address plan, and the completeness check that every consumer applies
    to the evidence it produces.  The outputs of [docker] are parameters: an
    exit code, both texts, and the JSON value the output decodes to.  The files
    are the entries at their paths; the text that [open] and [json] append to
    "cannot read" is left out. *)
From S2P Require Import Prelude PyFloat PyValue PyNet LifecycleCore LifecycleIO LifecycleRecords.
Local Open Scope Z_scope.

(** ** Constants *)

Definition LEGACY_DEPLOYMENT_ID := "v3.6.7-fb5f6bfb2626-fa8b69b36dec".
Definition LEGACY_TAG := "v3.6.7".
Definition LEGACY_COMMIT := "db0f905d0421b2052b9de7f49d9bf71787915e23".
Definition LEGACY_CONFIGURATION_SHA256 :=
  "0692efc4119bac78469672b6fee061fe0dfc7ad68265765da8b36b6e10399777".
Definition LEGACY_RUNTIME_ASSET_SHA256 :=
  "fb5f6bfb2626c15a5cd31c7bdd8d06a963192b09132d55e0a387250bdf92fbd0".
Definition LEGACY_IMAGE_ENVIRONMENT_SHA256 :=
  "928e29430e0e51d6933d12537c849a8893f7e4823668f111fe1a7fafc941af3f".
Definition LEGACY_MANIFEST_SHA256 :=
  "a5df1fc90d0347a9e4deabcbbdaf84b72e5fc08a038b72a1309b7cec4ad75374".
Definition LEGACY_COMPOSE_SHA256 :=
  "8d6f3d0e81a083c0a7107596d8a7d5ac5135c8a0a0b9818a8404263cdac13d2e".
Definition LEGACY_NETWORK_CONFIG_HASH :=
  "8de43c2c9c4d7828e98d26eda44ca2f11d8e41f5af2c326bfdb3c54a351663ae".
Definition LEGACY_COMPOSE_VERSION := "2.40.3".
Definition LEGACY_DEPLOYMENT_PATH := "/opt/boost-gateway/deployments/" +:+ LEGACY_DEPLOYMENT_ID.
Definition LEGACY_RELEASE_PATH := "/opt/boost-gateway/releases/" +:+ LEGACY_DEPLOYMENT_ID.
Definition NETWORK_NAME := "boost-gateway-production_boost-net".
Definition NETWORK_SUBNET := "172.18.0.0/16".
Definition NETWORK_GATEWAY := "172.18.0.1".
Definition NETWORK_CONTRACT_FAILURE := "boost-net: exactly one fixed IPAM config is required".

Definition REQUIRED_CONTAINER_SERVICES : list (string * string) :=
  [("boost-gateway", "gateway"); ("boost-login-backend", "login-backend");
   ("boost-room-backend", "room-backend"); ("boost-battle-backend", "battle-backend");
   ("boost-matchmaking-backend", "matchmaking-backend");
   ("boost-leaderboard-backend", "leaderboard-backend"); ("boost-redis", "redis");
   ("boost-redis-exporter", "redis-exporter"); ("boost-node-exporter", "node-exporter");
   ("boost-cadvisor", "cadvisor"); ("boost-prometheus", "prometheus");
   ("boost-alertmanager", "alertmanager"); ("boost-grafana", "grafana")].
Definition REQUIRED_CONTAINER_NAMES : list string := map fst REQUIRED_CONTAINER_SERVICES.

Definition LEGACY_RECORD_IDENTITY : pydict :=
  [("deployment_id", PStr LEGACY_DEPLOYMENT_ID);
   ("deployment_path", PStr LEGACY_DEPLOYMENT_PATH);
   ("release_path", PStr LEGACY_RELEASE_PATH);
   ("tag", PStr LEGACY_TAG); ("commit", PStr LEGACY_COMMIT);
   ("configuration_sha256", PStr LEGACY_CONFIGURATION_SHA256);
   ("runtime_asset_sha256", PStr LEGACY_RUNTIME_ASSET_SHA256);
   ("image_environment_sha256", PStr LEGACY_IMAGE_ENVIRONMENT_SHA256);
   ("manifest_sha256", PStr LEGACY_MANIFEST_SHA256)].
Definition LEGACY_RESOLVED_NETWORK : pydict :=
  [("name", PStr NETWORK_NAME); ("driver", PStr "bridge"); ("ipam", PDict [])].
Definition LEGACY_RUNTIME_NETWORK_IDENTITY : pydict :=
  [("network_name", PStr NETWORK_NAME); ("driver", PStr "bridge");
   ("subnet", PStr NETWORK_SUBNET); ("gateway", PStr NETWORK_GATEWAY);
   ("container_count", PInt 13);
   ("compose_config_hash", PStr LEGACY_NETWORK_CONFIG_HASH);
   ("compose_version", PStr LEGACY_COMPOSE_VERSION)].
Definition expected_identity : pydict :=
  LEGACY_RECORD_IDENTITY ++ [("compose_sha256", PStr LEGACY_COMPOSE_SHA256)].

Definition SUBNET : Z * Z := Eval vm_compute in
  match ip_interface NETWORK_SUBNET with Some i => ip_network i | None => (0, 0) end.
Definition GATEWAY_IP : Z := Eval vm_compute in
  match parse_ip4 NETWORK_GATEWAY with Some i => i | None => 0 end.

(** The network, broadcast and gateway addresses. *)
Definition reserved (ip : Z) : bool :=
  (ip =? SUBNET.1) || (ip =? SUBNET.1 + 2 ^ (32 - SUBNET.2) - 1) || (ip =? GATEWAY_IP).
Definition network_ok (i : Z * Z) : bool :=
  bool_decide (ip_network i = SUBNET) && negb (reserved i.1).

(** ** The deployment's identity *)

(** What is found at a path; a link comes with its real path and what it leads
    to. *)
Inductive bridge_entry :=
  | BMissing
  | BFile (c : content)
  | BSymlink (real : string) (c : option content).

(** The content an [open] of the path reads. *)
Definition opened (e : bridge_entry) : option content :=
  match e with BFile c | BSymlink _ (Some c) => Some c | _ => None end.

Record bridge_files := BridgeFiles {
  bf_release : bridge_entry;
  bf_record : bridge_entry;
  bf_manifest : bridge_entry;
  bf_compose : bridge_entry;
  bf_image_env : bridge_entry }.

(** [_load_json]. *)
Definition load_bridge_json (e : bridge_entry) (description : string) (expected : option string)
    : res pydict :=
  match e with
  | BSymlink real _ =>
      guard_rt (negb (opt_str_eqb expected real))
        ("legacy network bridge " +:+ description +:+ " symlink target drift")
  | BFile _ =>
      guard_rt (match expected with Some _ => true | None => false end)
        ("legacy network bridge " +:+ description +:+ " is not a regular file")
  | BMissing => raise_rt ("legacy network bridge " +:+ description +:+ " is not a regular file")
  end;;
  match opened e with
  | Some (CJson (PDict d)) => Ok d
  | Some (CJson _) => raise_rt ("legacy network bridge " +:+ description +:+ " is not an object")
  | _ => raise_rt ("legacy network bridge cannot read " +:+ description)
  end.

(** The fields of [d] that differ from the expected ones. *)
Definition drift_of (d expected : pydict) : pydict :=
  omap (λ kv, if py_eqb (get d kv.1) kv.2 then None
              else Some (kv.1, PDict [("expected", kv.2); ("observed", get d kv.1)])) expected.

Definition bad_bridge_manifest (manifest : pydict) : bool :=
  let controller := get manifest "deployment_controller" in
  let configuration := get manifest "configuration" in
  negb (py_eqb (get manifest "repository") (PStr "HoneyBury/boost_gateway"))
  || negb (py_eqb (get manifest "platform") (PStr "linux-x64"))
  || negb (py_eqb (get manifest "tag") (PStr LEGACY_TAG))
  || negb (py_eqb (get manifest "commit") (PStr LEGACY_COMMIT))
  || negb (is_false (get manifest "source_build_performed"))
  || negb (is_false (get manifest "dependency_resolution_performed"))
  || negb (is_dict controller)
  || negb (py_eqb (get (as_dict controller) "compose_sha256") (PStr LEGACY_COMPOSE_SHA256))
  || negb (is_dict configuration)
  || negb (py_eqb (get (as_dict configuration) "sha256") (PStr LEGACY_CONFIGURATION_SHA256)).

Section identity.
Context (digest : string → string).

(** [_sha256]. *)
Definition bridge_sha256 (e : bridge_entry) : res string :=
  match opened e with
  | Some c => Ok (digest (content_bytes c))
  | None => Raise (Exn CFileNotFoundError "No such file or directory")
  end.

Definition validate_identity (staging compose : string) (f : bridge_files) : res pydict :=
  guard_rt (negb (String.eqb staging LEGACY_DEPLOYMENT_PATH))
    "legacy network bridge deployment path is not allowlisted";;
  guard_rt (match bf_release f with
            | BSymlink r _ => negb (String.eqb r LEGACY_RELEASE_PATH) | _ => true end)
    "legacy network bridge release path is not allowlisted";;
  guard_rt (negb (String.eqb compose
      (path_join LEGACY_RELEASE_PATH "deploy/operations/docker-compose.production.yml")))
    "legacy network bridge compose path is not deployment-bound";;
  guard_rt (negb (opt_str_eqb (last (path_parts staging)) LEGACY_DEPLOYMENT_ID))
    "legacy network bridge deployment ID is not allowlisted";;
  record ← load_bridge_json (bf_record f) "deployment record" None;
  manifest ← load_bridge_json (bf_manifest f) "manifest"
               (Some (path_join LEGACY_RELEASE_PATH "manifest.json"));
  let drift := drift_of record (LEGACY_RECORD_IDENTITY ++ [("status", PStr "verified")]) in
  guard_rt (truthy (PDict drift))
    ("legacy network bridge deployment identity drift: " +:+ json_compact (PDict drift));;
  manifest_sha ← bridge_sha256 (bf_manifest f);
  guard_rt (negb (String.eqb manifest_sha LEGACY_MANIFEST_SHA256))
    "legacy network bridge manifest digest drift";;
  compose_sha ← bridge_sha256 (bf_compose f);
  guard_rt (negb (String.eqb compose_sha LEGACY_COMPOSE_SHA256))
    "legacy network bridge Compose digest drift";;
  guard_rt (match bf_image_env f with
            | BFile c => negb (String.eqb (digest (content_bytes c))
                                 LEGACY_IMAGE_ENVIRONMENT_SHA256)
            | _ => true
            end)
    "legacy network bridge image environment digest drift";;
  guard_rt (bad_bridge_manifest manifest) "legacy network bridge manifest identity drift";;
  Ok expected_identity.
End identity.

Definition validate_resolved_network (document : py) : res pydict :=
  let networks := get (as_dict document) "networks" in
  match get (as_dict networks) "boost-net" with
  | PDict network =>
      guard_rt (negb (same_set (dkeys network) ["name"; "driver"; "ipam"]))
        "legacy network bridge resolved boost-net shape drift";;
      guard_rt (negb (py_eqb (get network "name") (PStr NETWORK_NAME))
                || negb (py_eqb (get network "driver") (PStr "bridge"))
                || negb (py_eqb (get network "ipam") (PDict [])))
        "legacy network bridge resolved boost-net drift";;
      Ok LEGACY_RESOLVED_NETWORK
  | _ => raise_rt "legacy network bridge resolved boost-net is missing"
  end.

(** ** The running containers *)

(** A completed subprocess: exit code, output, errors, and what the output
    decodes to. *)
Record proc := Proc { p_rc : Z; p_out : string; p_err : string; p_json : option py }.

(** [(p.stderr or p.stdout).strip()[-1000:]]. *)
Definition proc_detail (p : proc) : string :=
  let text := strip (if String.eqb (p_err p) "" then p_out p else p_err p) in
  str_skip (String.length text - 1000) text.

(** What the loop over the inspected containers accumulates. *)
Record attach_state := Attach {
  at_ids : list string;
  at_names : list string;
  at_addresses : list Z;
  at_networks : list string;
  at_expected : list (string * (string * (Z * Z))) }.

Definition removeprefix (p s : string) : string :=
  if starts_with p s then str_skip (String.length p) s else s.

Definition load_container (c : py) (a : attach_state) : res attach_state :=
  match c with
  | PDict container =>
      let container_id := py_str (get_or container "Id" (PStr "")) in
      let container_name := removeprefix "/" (py_str (get_or container "Name" (PStr ""))) in
      let labels := get (as_dict (get container "Config")) "Labels" in
      guard_rt (negb (is_dict labels)
         || match env_lookup container_name REQUIRED_CONTAINER_SERVICES with
            | None => true
            | Some service =>
                negb (py_eqb (get (as_dict labels) "com.docker.compose.project")
                        (PStr "boost-gateway-production"))
                || negb (py_eqb (get (as_dict labels) "com.docker.compose.service") (PStr service))
                || negb (py_eqb (get (as_dict labels) "com.docker.compose.version")
                          (PStr LEGACY_COMPOSE_VERSION))
            end)
        "legacy network bridge container labels drift";;
      let networks := get (as_dict (get container "NetworkSettings")) "Networks" in
      guard_rt (negb (is_dict networks) || negb (same_set (dkeys (as_dict networks)) [NETWORK_NAME]))
        "legacy network bridge container attachment drift";;
      match get (as_dict networks) NETWORK_NAME with
      | PDict attachment =>
          let raw := py_str (get_or attachment "IPAddress" (PStr "")) +:+ "/"
                     +:+ py_str (get_or attachment "IPPrefixLen" (PStr "")) in
          match ip_interface raw with
          | None =>
              raise_rt (if is_ip6_interface raw
                        then "legacy network bridge container address drift"
                        else "legacy network bridge container address is invalid")
          | Some address =>
              guard_rt (negb (network_ok address)
                 || bool_decide (address.1 ∈ at_addresses a)
                 || negb (py_eqb (get attachment "Gateway") (PStr NETWORK_GATEWAY)))
                "legacy network bridge container address drift";;
              Ok (Attach (at_ids a ++ [container_id]) (at_names a ++ [container_name])
                    (at_addresses a ++ [address.1])
                    (at_networks a ++ [py_str (get_or attachment "NetworkID" (PStr ""))])
                    (filter (λ e, e.1 ≠ container_id) (at_expected a)
                       ++ [(container_id, (container_name, address))]))
          end
      | _ => raise_rt "legacy network bridge container attachment is invalid"
      end
  | _ => raise_rt "legacy network bridge container entry is invalid"
  end.

Fixpoint load_containers (l : list py) (a : attach_state) : res attach_state :=
  match l with
  | [] => Ok a
  | c :: r => a ← load_container c a; load_containers r a
  end.

Definition dedup (l : list string) : list string := remove_dups l.

(** [_load_runtime_containers]: the network ID, the container IDs and the
    attachment expected for each of them. *)
Definition load_runtime_containers (listed inspected : proc)
    : res (string * list string * list (string * (string * (Z * Z)))) :=
  guard_rt (negb (p_rc listed =? 0)) ("legacy network bridge Compose inventory failed: " +:+ proc_detail listed);;
  let container_ids := splitlines (p_out listed) in
  guard_rt (negb (Nat.eqb (length container_ids) (length REQUIRED_CONTAINER_NAMES))
     || negb (Nat.eqb (length (dedup container_ids)) (length container_ids))
     || negb (forallb (re_hex 64) container_ids))
    "legacy network bridge Compose container inventory drift";;
  guard_rt (negb (p_rc inspected =? 0)) ("legacy network bridge container inspect failed: " +:+ proc_detail inspected);;
  match p_json inspected with
  | None => raise_rt "legacy network bridge container inspect returned invalid JSON"
  | Some containers =>
      guard_rt (negb (is_list containers)
         || negb (Nat.eqb (length (as_list containers)) (length container_ids)))
        "legacy network bridge container inspect inventory drift";;
      a ← load_containers (as_list containers) (Attach [] [] [] [] []);
      guard_rt (negb (same_set (at_ids a) container_ids)
         || negb (same_set (at_names a) REQUIRED_CONTAINER_NAMES))
        "legacy network bridge governed container identity drift";;
      match dedup (at_networks a) with
      | [network_id] =>
          guard_rt (negb (re_hex 64 network_id))
            "legacy network bridge container network ID drift";;
          Ok (network_id, container_ids, at_expected a)
      | _ => raise_rt "legacy network bridge container network ID drift"
      end
  end.

Definition load_runtime_network (completed : proc) : res pydict :=
  guard_rt (negb (p_rc completed =? 0)) ("legacy network bridge inspect failed: " +:+ proc_detail completed);;
  match p_json completed with
  | None => raise_rt "legacy network bridge inspect returned invalid JSON"
  | Some (PList [PDict d]) => Ok d
  | Some _ => raise_rt "legacy network bridge inspect returned an invalid inventory"
  end.

(** ** The running network *)

Definition network_scalars : pydict :=
  [("Name", PStr NETWORK_NAME); ("Driver", PStr "bridge"); ("Scope", PStr "local");
   ("EnableIPv6", PBool false); ("Internal", PBool false); ("Attachable", PBool false);
   ("Ingress", PBool false); ("ConfigOnly", PBool false); ("Options", PDict []);
   ("Labels", PDict [("com.docker.compose.config-hash", PStr LEGACY_NETWORK_CONFIG_HASH);
                     ("com.docker.compose.network", PStr "boost-net");
                     ("com.docker.compose.project", PStr "boost-gateway-production");
                     ("com.docker.compose.version", PStr LEGACY_COMPOSE_VERSION)])].
Definition expected_ipam : py :=
  PDict [("Driver", PStr "default"); ("Options", PNone);
         ("Config", PList [PDict [("Subnet", PStr NETWORK_SUBNET); ("IPRange", PStr "");
                                  ("Gateway", PStr NETWORK_GATEWAY)]])].

Definition attachment_dict (e : string * (Z * Z)) : pydict :=
  [("Name", PStr e.1); ("IPv4Address", PStr (ip_interface_str e.2)); ("IPv6Address", PStr "")].

Definition attachment_lookup (k : string) (l : list (string * (string * (Z * Z))))
    : option (string * (Z * Z)) :=
  snd <$> (snd <$> list_find (λ e, k = e.1) l).

(** Why the loop over the attachments stopped, and the names seen by then. *)
Inductive attachment_drift := NoDrift | DriftObject | DriftAttachment.
Fixpoint scan_attachments (expected : list (string * (string * (Z * Z))))
    (containers : pydict) (names : list string) : attachment_drift * list string :=
  match containers with
  | [] => (NoDrift, names)
  | (container_id, v) :: rest =>
      match v with
      | PDict d =>
          if negb (re_hex 64 container_id) then (DriftObject, names)
          else
            let names := names ++ [py_str (get_or d "Name" (PStr ""))] in
            match attachment_lookup container_id expected with
            | None => (DriftAttachment, names)
            | Some e =>
                if differs d (attachment_dict e) then (DriftAttachment, names)
                else scan_attachments expected rest names
            end
      | _ => (DriftObject, names)
      end
  end.

Definition container_le (a b : string * (string * (Z * Z))) : Prop := String.le a.1 b.1.
#[export] Instance container_le_dec : RelDecision container_le.
Proof. intros a b. unfold container_le. apply _. Defined.

Definition container_evidence (e : string * (string * (Z * Z))) : py :=
  PDict [("container_id", PStr e.1); ("name", PStr e.2.1);
         ("ipv4_address", PStr (ip_interface_str e.2.2))].

(** [{key: {"expected": e, "observed": o}}] when the two differ. *)
Definition drift_entry (bad : bool) (key : string) (expected : py) (observed : option py) : pydict :=
  if bad then [(key, PDict (("expected", expected)
                 :: match observed with Some o => [("observed", o)] | None => [] end))]
  else [].
Definition str_list (l : list string) : py := PList (map PStr l).

Definition network_drift (network : pydict) (network_id : string) (container_ids : list string)
    (expected : list (string * (string * (Z * Z)))) : pydict :=
  let containers := get network "Containers" in
  let keys := dkeys (as_dict containers) in
  let '(scan, names) := scan_attachments expected (as_dict containers) [] in
  drift_of network network_scalars
  ++ drift_entry (negb (py_eqb (get network "IPAM") expected_ipam)) "IPAM" expected_ipam
       (Some (get network "IPAM"))
  ++ drift_entry (negb (py_eqb (get network "Id") (PStr network_id))) "Id" (PStr network_id)
       (Some (get network "Id"))
  ++ match containers, scan with
     | PDict _, NoDrift => []
     | PDict _, DriftObject =>
         drift_entry true "Containers" (PStr "governed container objects") None
     | PDict _, DriftAttachment =>
         drift_entry true "container_attachments"
           (PDict (map (λ e, (e.1, PDict (attachment_dict e.2))) expected)) (Some containers)
     | _, _ => drift_entry true "Containers" (PStr "container inventory object") None
     end
  ++ drift_entry (negb (is_dict containers) || negb (same_set keys container_ids)) "container_ids"
       (str_list (sort_str (dedup container_ids)))
       (Some (if is_dict containers then str_list (sort_str keys) else PNone))
  ++ drift_entry (negb (same_set names REQUIRED_CONTAINER_NAMES)) "container_names"
       (str_list (sort_str REQUIRED_CONTAINER_NAMES)) (Some (str_list (sort_str (dedup names)))).

Definition validate_runtime_network (network : pydict) (network_id : string)
    (container_ids : list string) (expected : list (string * (string * (Z * Z)))) : res pydict :=
  let drift := network_drift network network_id container_ids expected in
  guard_rt (truthy (PDict drift))
    ("legacy network bridge runtime drift: " +:+ json_compact (PDict drift));;
  Ok (LEGACY_RUNTIME_NETWORK_IDENTITY
      ++ [("network_id", PStr network_id);
          ("containers", PList (map container_evidence (merge_sort container_le expected)))]).

(** [validate_legacy_production_network_bridge]: [current_real] is what the
    fixed [current] link resolves to. *)
Definition validate_legacy_production_network_bridge (digest : string → string)
    (current_real : option string) (staging compose : string) (document : py)
    (contract_failures : list string) (f : bridge_files) (listed inspected netinspect : proc) : res pydict :=
  guard_rt (match current_real with Some r => negb (String.eqb r staging) | None => true end)
    "legacy network bridge staging is not the current deployment";;
  guard_rt (negb (bool_decide (contract_failures = [NETWORK_CONTRACT_FAILURE])))
    "legacy network bridge contract failures are not allowlisted";;
  identity ← validate_identity digest staging compose f;
  resolved ← validate_resolved_network document;
  '(network_id, container_ids, expected) ← load_runtime_containers listed inspected;
  network ← load_runtime_network netinspect;
  runtime ← validate_runtime_network network network_id container_ids expected;
  Ok [("accepted_contract_failures", PList [PStr NETWORK_CONTRACT_FAILURE]);
      ("identity", PDict identity); ("resolved_network", PDict resolved);
      ("runtime_network", PDict runtime)].

(** ** The consumers' check *)

Definition container_shape_ok (c : py) : bool :=
  is_dict c && same_set (dkeys (as_dict c)) ["container_id"; "name"; "ipv4_address"].

Definition container_field (k : string) (c : py) : string :=
  py_str (get_or (as_dict c) k (PStr "")).

Definition evidence_is_complete (value : py) : bool :=
  is_dict value
  && same_set (dkeys (as_dict value))
       ["accepted_contract_failures"; "identity"; "resolved_network"; "runtime_network"]
  && let v := as_dict value in
     let runtime := get v "runtime_network" in
     let containers := get (as_dict runtime) "containers" in
     is_dict runtime && is_list containers
     && Nat.eqb (length (as_list containers)) (length REQUIRED_CONTAINER_NAMES)
     && forallb container_shape_ok (as_list containers)
     && let ids := map (container_field "container_id") (as_list containers) in
        let names := map (container_field "name") (as_list containers) in
        match mapM (λ c, ip_interface (container_field "ipv4_address" c)) (as_list containers) with
        | None => false
        | Some addresses =>
            py_eqb (get v "accepted_contract_failures") (PList [PStr NETWORK_CONTRACT_FAILURE])
            && py_eqb (get v "identity") (PDict expected_identity)
            && py_eqb (get v "resolved_network") (PDict LEGACY_RESOLVED_NETWORK)
            && same_set (dkeys (as_dict runtime))
                 (dkeys LEGACY_RUNTIME_NETWORK_IDENTITY ++ ["network_id"; "containers"])
            && negb (differs (as_dict runtime) LEGACY_RUNTIME_NETWORK_IDENTITY)
            && re_hex 64 (py_str (get_or (as_dict runtime) "network_id" (PStr "")))
            && Nat.eqb (length (dedup ids)) (length (as_list containers))
            && forallb (re_hex 64) ids
            && same_set names REQUIRED_CONTAINER_NAMES
            && Nat.eqb (length (remove_dups (map fst addresses))) (length (as_list containers))
            && forallb network_ok addresses
        end.

Lemma network_ok_spec i :
  network_ok i = true → i = (i.1, 16) ∧ 0 <= i.1 < 2 ^ 32 ∧ reserved i.1 = false.
Proof.
  destruct i as [ip len]. unfold network_ok, ip_network, SUBNET. cbn [fst snd].
  intros [Hn Hr]%andb_true_iff. apply bool_decide_eq_true in Hn. injection Hn as Hip ->.
  split_and!; [done| | |by apply negb_true_iff].
  all: pose proof (Z.mod_pos_bound ip (2 ^ (32 - 16)) ltac:(lia)); lia.
Qed.

(** ** Lemmas: the attachment loop *)

Definition attach_inv (a : attach_state) : Prop :=
  length (at_names a) = length (at_ids a) ∧ length (at_addresses a) = length (at_ids a)
  ∧ NoDup (at_addresses a)
  ∧ Forall (λ ip, network_ok (ip, 16) = true) (at_addresses a)
  ∧ (∀ k e, (k, e) ∈ at_expected a → k ∈ at_ids a)
  ∧ (NoDup (at_ids a) → at_expected a
       = zip (at_ids a) (zip (at_names a) (map (λ ip, (ip, 16)) (at_addresses a)))).

Lemma zip_snoc {A B} (l : list A) (m : list B) x y :
  length l = length m → zip (l ++ [x]) (m ++ [y]) = zip l m ++ [(x, y)].
Proof. intros Hl. by rewrite zip_with_app by done. Qed.

Lemma load_container_inv c a a' :
  load_container c a = Ok a' → attach_inv a → attach_inv a'.
Proof.
  intros H (Hn & Had & Hnd & Hok & Hin & Hex).
  destruct c as [|b|z|f|s|l|container]; try (by simpl in H; res_inv).
  unfold load_container in H. cbv zeta in H. res_inv.
  destruct (get _ NETWORK_NAME) as [|b|z|f|s|l|attachment]; try (by res_inv).
  destruct (ip_interface _) as [[ip len]|]; [|by res_inv]. res_inv. bool_split.
  match goal with H : network_ok _ = true |- _ =>
    destruct (network_ok_spec _ H) as ([= ->] & Hip & _); rename H into Hnet end.
  match goal with H : bool_decide _ = false |- _ => apply bool_decide_eq_false in H; simpl in H end.
  split_and!; simpl.
  - rewrite !length_app. simpl. lia.
  - rewrite !length_app. simpl. lia.
  - apply NoDup_app. split_and!; [done| |apply NoDup_singleton].
    intros y Hy ->%list_elem_of_singleton. done.
  - apply Forall_app. split; [done|]. by constructor.
  - intros k e [Hk|Hk]%elem_of_app; apply elem_of_app.
    + apply list_elem_of_filter in Hk as [_ Hk]. left. by eapply Hin.
    + apply list_elem_of_singleton in Hk as [= -> ->]. right. by apply list_elem_of_singleton.
  - intros (Hnd1 & Hd & _)%NoDup_app. rewrite map_app. simpl.
    rewrite !zip_snoc; rewrite ?length_zip_with, ?length_map; [|lia|lia].
    f_equal. rewrite <- (Hex Hnd1). apply filter_all.
    apply Forall_forall. intros [k e] Hk Heq. simpl in Heq. subst k.
    apply (Hd _ (Hin _ _ Hk)). by apply list_elem_of_singleton.
Qed.

Lemma load_container_length c a a' :
  load_container c a = Ok a' → length (at_ids a') = S (length (at_ids a)).
Proof.
  intros H. destruct c as [|b|z|f|s|l|container]; try (by simpl in H; res_inv).
  unfold load_container in H. cbv zeta in H. res_inv.
  destruct (get _ NETWORK_NAME) as [|b|z|f|s|l|attachment]; try (by res_inv).
  destruct (ip_interface _) as [address|]; [|by res_inv]. res_inv. simpl.
  rewrite length_app. simpl. lia.
Qed.

Lemma load_containers_inv l a a' :
  load_containers l a = Ok a' → attach_inv a →
  attach_inv a' ∧ length (at_ids a') = (length (at_ids a) + length l)%nat.
Proof.
  revert a. induction l as [|c l IH]; intros a H Ha; simpl in H.
  - res_inv. simpl. split; [done|lia].
  - apply res_bind_ok in H as (a1 & Hc & Hl).
    destruct (IH _ Hl (load_container_inv _ _ _ Hc Ha)) as [? Hlen]. split; [done|].
    rewrite (load_container_length _ _ _ Hc) in Hlen. simpl. lia.
Qed.

Lemma dedup_length_nodup {A} `{EqDecision A} (l : list A) :
  length (remove_dups l) = length l → NoDup l.
Proof.
  intros Hl. apply NoDup_ListNoDup. apply (List.NoDup_incl_NoDup (l := remove_dups l)).
  - apply NoDup_ListNoDup. apply NoDup_remove_dups.
  - lia.
  - intros x Hx. apply list_elem_of_In. apply list_elem_of_In in Hx. by apply elem_of_remove_dups.
Qed.

Lemma nodup_dedup_length {A} `{EqDecision A} (l : list A) :
  NoDup l → length (remove_dups l) = length l.
Proof.
  intros Hnd. apply Permutation_length, NoDup_Permutation; [apply NoDup_remove_dups|done|].
  intros x. apply elem_of_remove_dups.
Qed.

(** What the container inventory establishes about the expected attachments. *)
Definition attachments_ok (ids : list string) (expected : list (string * (string * (Z * Z))))
    : Prop :=
  length expected = length REQUIRED_CONTAINER_NAMES
  ∧ NoDup (map fst expected)
  ∧ (∀ k, k ∈ map fst expected ↔ k ∈ ids)
  ∧ (∀ n, n ∈ map (λ e, e.2.1) expected ↔ n ∈ REQUIRED_CONTAINER_NAMES)
  ∧ NoDup (map (λ e, e.2.2.1) expected)
  ∧ Forall (λ e, network_ok e.2.2 = true) expected.

Lemma attach_inv_init : attach_inv (Attach [] [] [] [] []).
Proof.
  split_and!; simpl; try done; try constructor.
  intros k e Hin. by apply not_elem_of_nil in Hin.
Qed.

Lemma attach_zip_ok a :
  attach_inv a → NoDup (at_ids a) → length (at_ids a) = length REQUIRED_CONTAINER_NAMES →
  (∀ n, n ∈ at_names a ↔ n ∈ REQUIRED_CONTAINER_NAMES) →
  attachments_ok (at_ids a) (at_expected a).
Proof.
  intros (Hn & Had & Hnd & Hok & _ & Hex) Hids Hlen Hnames. rewrite (Hex Hids).
  set (tail := zip (at_names a) (map (λ ip, (ip, 16)) (at_addresses a))).
  assert (length tail = length (at_ids a)) as Htail.
  { unfold tail. rewrite length_zip_with, length_map. lia. }
  assert (map fst (zip (at_ids a) tail) = at_ids a) as Hk by (apply fst_zip; lia).
  assert (map snd (zip (at_ids a) tail) = tail) as Ht by (apply snd_zip; lia).
  assert (map fst tail = at_names a) as Hnm by (apply fst_zip; rewrite length_map; lia).
  assert (map snd tail = map (λ ip, (ip, 16)) (at_addresses a)) as Hadd.
  { apply snd_zip. rewrite length_map. lia. }
  split_and!.
  - rewrite length_zip_with. lia.
  - by rewrite Hk.
  - by rewrite Hk.
  - intros n. rewrite <- Hnames, <- Hnm.
    by rewrite <- (map_map snd fst (zip (at_ids a) tail)), Ht.
  - rewrite <- (map_map snd (λ e, e.2.1) (zip (at_ids a) tail)), Ht.
    rewrite <- (map_map snd fst tail), Hadd, map_map. by rewrite map_id.
  - apply Forall_forall. intros e He.
    assert (e.2.2 ∈ map snd tail) as Hin.
    { apply list_elem_of_fmap. exists e.2. split; [done|]. rewrite <- Ht.
      apply list_elem_of_fmap. by exists e. }
    rewrite Hadd in Hin. apply list_elem_of_fmap in Hin as (ip & -> & Hip).
    rewrite Forall_forall in Hok. by apply Hok.
Qed.

Lemma load_runtime_containers_ok listed inspected nid ids expected :
  load_runtime_containers listed inspected = Ok (nid, ids, expected) →
  re_hex 64 nid = true ∧ Forall (λ i, re_hex 64 i = true) ids ∧ attachments_ok ids expected.
Proof.
  unfold load_runtime_containers. cbv zeta. intros H. res_inv.
  destruct (p_json inspected) as [containers|]; [|by res_inv]. res_inv. bool_split.
  match goal with H : load_containers _ _ = Ok ?acc |- _ =>
    destruct (load_containers_inv _ _ _ H attach_inv_init) as [Hinv Hlen]; rename acc into a end.
  simpl in Hlen. destruct (dedup (at_networks a)) as [|n [|]]; try (by res_inv).
  res_inv. bool_split. simplify_eq.
  repeat match goal with H : Nat.eqb _ _ = true |- _ => apply Nat.eqb_eq in H end.
  match goal with
  | H1 : same_set (at_ids _) _ = true, H2 : same_set (at_names _) _ = true |- _ =>
      pose proof (proj1 (same_set_spec _ _) H1) as Hsame;
      pose proof (proj1 (same_set_spec _ _) H2) as Hnames
  end.
  assert (NoDup (splitlines (p_out listed))) as Hnd by (by apply dedup_length_nodup).
  assert (NoDup (at_ids a)) as Hids.
  { apply NoDup_ListNoDup, (List.NoDup_incl_NoDup (l := splitlines (p_out listed))).
    - by apply NoDup_ListNoDup.
    - lia.
    - intros y Hy. apply list_elem_of_In. apply list_elem_of_In in Hy. by apply Hsame. }
  split_and!; [done| |].
  - apply Forall_forall. intros i Hi.
    match goal with H : forallb _ _ = true |- _ => rewrite forallb_forall in H; apply H end.
    by apply list_elem_of_In.
  - destruct (attach_zip_ok a) as (? & ? & Hk & ? & ? & ?); try done; [lia|].
    split_and!; try done. intros k. by rewrite Hk.
Qed.

(** The part of [evidence_is_complete] about the container list. *)
Definition containers_complete (cs : list py) : bool :=
  Nat.eqb (length cs) (length REQUIRED_CONTAINER_NAMES)
  && forallb container_shape_ok cs
  && match mapM (λ c, ip_interface (container_field "ipv4_address" c)) cs with
     | None => false
     | Some addresses =>
         Nat.eqb (length (dedup (map (container_field "container_id") cs))) (length cs)
         && forallb (re_hex 64) (map (container_field "container_id") cs)
         && same_set (map (container_field "name") cs) REQUIRED_CONTAINER_NAMES
         && Nat.eqb (length (remove_dups (map fst addresses))) (length cs)
         && forallb network_ok addresses
     end.

Lemma mapM_evidence l :
  Forall (λ e : string * (string * (Z * Z)), network_ok e.2.2 = true) l →
  mapM (λ c, ip_interface (container_field "ipv4_address" c)) (map container_evidence l)
  = Some (map (λ e, e.2.2) l).
Proof.
  induction 1 as [|e l He _ IH]; [done|]. cbn [map mapM].
  assert (ip_interface (container_field "ipv4_address" (container_evidence e)) = Some e.2.2) as ->.
  { destruct (network_ok_spec _ He) as (Heq & Hip & _). rewrite Heq.
    change (container_field "ipv4_address" (container_evidence e)) with (ip_interface_str e.2.2).
    rewrite Heq. by apply ip_interface_roundtrip. }
  simpl. by rewrite IH.
Qed.

Lemma containers_complete_ok ids expected :
  Forall (λ i, re_hex 64 i = true) ids → attachments_ok ids expected →
  containers_complete (map container_evidence (merge_sort container_le expected)) = true.
Proof.
  intros Hhex (Hlen & Hnd & Hkeys & Hnames & Hips & Hok).
  pose proof (merge_sort_Permutation container_le expected) as Hp.
  set (l := merge_sort container_le expected) in *.
  assert (Forall (λ e, network_ok e.2.2 = true) l) as Hok' by (by rewrite Hp).
  unfold containers_complete. rewrite mapM_evidence by done. rewrite !map_map, !length_map.
  assert (length l = length REQUIRED_CONTAINER_NAMES) as Hl by (by rewrite Hp).
  assert (map (λ e, container_field "container_id" (container_evidence e)) l = map fst l) as Hid
    by (apply map_ext; done).
  assert (map (λ e, container_field "name" (container_evidence e)) l = map (λ e, e.2.1) l) as Hnm
    by (apply map_ext; done).
  rewrite Hid, Hnm, !andb_true_iff, !Nat.eqb_eq, !forallb_forall. split_and!.
  - done.
  - intros c Hc. apply list_elem_of_In, list_elem_of_fmap in Hc as (e & -> & _). done.
  - unfold dedup. rewrite nodup_dedup_length, length_map; [done|]. by rewrite (Permutation_map fst Hp).
  - intros i Hi. apply list_elem_of_In in Hi. rewrite (Permutation_map fst Hp) in Hi.
    rewrite Forall_forall in Hhex. apply Hhex. by apply Hkeys.
  - apply same_set_spec. intros n. by rewrite (Permutation_map (λ e, e.2.1) Hp).
  - rewrite nodup_dedup_length, length_map; [done|].
    by rewrite (Permutation_map (λ e, e.2.2.1) Hp).
  - intros i Hi. apply list_elem_of_In, list_elem_of_fmap in Hi as (e & -> & He).
    rewrite Forall_forall in Hok'. by apply Hok'.
Qed.

Lemma evidence_is_complete_shape nid cs :
  re_hex 64 nid = true → containers_complete cs = true →
  evidence_is_complete (PDict
    [("accepted_contract_failures", PList [PStr NETWORK_CONTRACT_FAILURE]);
     ("identity", PDict expected_identity); ("resolved_network", PDict LEGACY_RESOLVED_NETWORK);
     ("runtime_network", PDict (LEGACY_RUNTIME_NETWORK_IDENTITY
        ++ [("network_id", PStr nid); ("containers", PList cs)]))]) = true.
Proof.
  intros Hn Hc. unfold containers_complete in Hc. unfold evidence_is_complete.
  cbn [as_dict is_dict]. set (rt := LEGACY_RUNTIME_NETWORK_IDENTITY ++ _).
  match goal with |- context [get ?d "runtime_network"] =>
    change (get d "runtime_network") with (PDict rt) end.
  cbn [as_dict is_dict]. change (get rt "containers") with (PList cs). cbn [as_list is_list].
  destruct (mapM _ cs) as [addresses|]; [|by rewrite andb_false_r in Hc].
  bool_split. repeat match goal with H : ?b = true |- context [?b] => rewrite H end.
  change (get_or rt "network_id" (PStr "")) with (PStr nid).
  change (py_str (PStr nid)) with nid. rewrite Hn. vm_compute. reflexivity.
Qed.

Lemma validate_identity_ok digest staging compose f i :
  validate_identity digest staging compose f = Ok i → i = expected_identity.
Proof. unfold validate_identity. cbv zeta. intros H. by res_inv. Qed.

Lemma validate_resolved_network_ok document d :
  validate_resolved_network document = Ok d → d = LEGACY_RESOLVED_NETWORK.
Proof.
  unfold validate_resolved_network. cbv zeta. intros H.
  destruct (get _ "boost-net"); by res_inv.
Qed.

(** ** Properties *)

(** the bridge evidence that [validate_legacy_production_network_bridge]
    produces always satisfies the completeness check that the executor, the
    verify command and the scheduler apply to it: thirteen governed containers
    with distinct 64-hex identities and distinct, printable and re-readable
    addresses inside the fixed subnet, none of them reserved. *)
Theorem bridge_evidence_complete digest cur staging compose document failures f listed inspected
    net ev :
  validate_legacy_production_network_bridge digest cur staging compose document failures f
    listed inspected net = Ok ev →
  evidence_is_complete (PDict ev) = true.
Proof.
  unfold validate_legacy_production_network_bridge. intros H.
  apply res_bind_ok in H as (_ & _ & H). apply res_bind_ok in H as (_ & _ & H).
  apply res_bind_ok in H as (identity & ->%validate_identity_ok & H).
  apply res_bind_ok in H as (resolved & ->%validate_resolved_network_ok & H).
  apply res_bind_ok in H as ([[nid ids] expected] & Hc & H).
  apply load_runtime_containers_ok in Hc as (Hn & Hhex & Hatt).
  apply res_bind_ok in H as (network & _ & H).
  apply res_bind_ok in H as (runtime & Hr & H). injection H as <-.
  apply res_bind_ok in Hr as (_ & _ & Hr). injection Hr as <-.
  apply evidence_is_complete_shape; [done|]. by eapply containers_complete_ok.
Qed.

Definition sample_cid (k : nat) : string := str_repeat (hex_digit (N.of_nat k)) 64.
Definition sample_nid : string := str_repeat "f" 64.
Definition sample_address (k : nat) : string := ip_interface_str (SUBNET.1 + 2 + Z.of_nat k, 16).
Definition sample_container (k : nat) (ns : string * string) : py :=
  PDict [("Id", PStr (sample_cid k)); ("Name", PStr ("/" +:+ ns.1));
    ("Config", PDict [("Labels", PDict
       [("com.docker.compose.project", PStr "boost-gateway-production");
        ("com.docker.compose.service", PStr ns.2);
        ("com.docker.compose.version", PStr LEGACY_COMPOSE_VERSION)])]);
    ("NetworkSettings", PDict [("Networks", PDict [(NETWORK_NAME, PDict
       [("NetworkID", PStr sample_nid); ("IPAddress", PStr (ip4_str (SUBNET.1 + 2 + Z.of_nat k)));
        ("IPPrefixLen", PInt 16); ("Gateway", PStr NETWORK_GATEWAY)])])])].
Definition sample_listed : proc :=
  Proc 0 (str_concat newline (map sample_cid (seq 0 13))) "" None.
Definition sample_inspected : proc :=
  Proc 0 "" "" (Some (PList (imap sample_container REQUIRED_CONTAINER_SERVICES))).
Definition sample_network : proc :=
  Proc 0 "" "" (Some (PList [PDict (network_scalars ++
    [("IPAM", expected_ipam); ("Id", PStr sample_nid);
     ("Containers", PDict (imap (λ k ns, (sample_cid k,
        PDict [("Name", PStr ns.1); ("IPv4Address", PStr (sample_address k));
               ("IPv6Address", PStr "")])) REQUIRED_CONTAINER_SERVICES))])])).
Definition sample_bridge_manifest : pydict :=
  [("repository", PStr "HoneyBury/boost_gateway"); ("platform", PStr "linux-x64");
   ("tag", PStr LEGACY_TAG); ("commit", PStr LEGACY_COMMIT);
   ("source_build_performed", PBool false); ("dependency_resolution_performed", PBool false);
   ("deployment_controller", PDict [("compose_sha256", PStr LEGACY_COMPOSE_SHA256)]);
   ("configuration", PDict [("sha256", PStr LEGACY_CONFIGURATION_SHA256)])].
Definition sample_manifest_content : content := CJson (PDict sample_bridge_manifest).
Definition sample_bridge_files : bridge_files :=
  BridgeFiles (BSymlink LEGACY_RELEASE_PATH None)
    (BFile (CJson (PDict (LEGACY_RECORD_IDENTITY ++ [("status", PStr "verified")]))))
    (BSymlink (path_join LEGACY_RELEASE_PATH "manifest.json") (Some sample_manifest_content))
    (BFile (CText "services: {}")) (BFile (CText "GATEWAY_IMAGE_ID=")).
Definition sample_bridge_digest (s : string) : string :=
  if String.eqb s (content_bytes sample_manifest_content) then LEGACY_MANIFEST_SHA256
  else if String.eqb s "services: {}" then LEGACY_COMPOSE_SHA256
  else LEGACY_IMAGE_ENVIRONMENT_SHA256.
Definition sample_bridge : res pydict :=
  validate_legacy_production_network_bridge sample_bridge_digest (Some LEGACY_DEPLOYMENT_PATH)
    LEGACY_DEPLOYMENT_PATH
    (path_join LEGACY_RELEASE_PATH "deploy/operations/docker-compose.production.yml")
    (PDict [("networks", PDict [("boost-net", PDict LEGACY_RESOLVED_NETWORK)])])
    [NETWORK_CONTRACT_FAILURE] sample_bridge_files sample_listed sample_inspected sample_network.

Lemma bridge_evidence_complete_witness :
  ∃ ev, sample_bridge = Ok ev ∧ evidence_is_complete (PDict ev) = true.
Proof.
  assert (∃ ev, sample_bridge = Ok ev) as [ev Hev].
  { destruct sample_bridge as [ev|e] eqn:E; [by exists ev|].
    exfalso. vm_compute in E. discriminate E. }
  exists ev. split; [exact Hev|]. unfold sample_bridge in Hev.
  exact (bridge_evidence_complete _ _ _ _ _ _ _ _ _ _ _ Hev).
Defined.
