(* ===== verification/LifecycleTransaction.v ===== *)
(** * Release lifecycle: reconciliation, restoration and verification

    Models [_reconcile_pending] ([release_deployment_transaction.py]),
    [_restore] ([release_deployment_activation.py]), [verify_current]
    ([release_deployment_commands.py]) and the lifecycle lock.  Each definition
    is the whole method, or one branch of it, with every state change, guard
    and handler in the order of the source. *)
From S2P Require Import Prelude PyFloat PyValue LifecycleCore LifecycleIO LifecycleRecords.
From S2P Require Import LifecycleNetwork.

Definition opt_str (o : option string) : py :=
  match o with Some s => PStr s | None => PNone end.

(** Run [m] and hand over the exception it raised, if any. *)
Definition attempt (m : M unit) : M (option exn) :=
  try_catch (m;; mret None) (λ e, mret (Some e)).

Section transaction.
Context `{Runtime, LifecycleExecutor}.

(** [with lifecycle_lock(...)]: opening and locking the lock file may fail;
    while it is held no other command runs. *)
Definition with_lifecycle_lock {A} (m : M A) : M A := tick;; m.
Definition ensure_layout : M unit := tick.

(** The transactions that have a record, newest name first. *)
Definition record_transactions (s : st) : list string :=
  rev (sort_str (filter (λ t, exists_or_link (tx_lookup s t "record.json") = true)
                   (map fst (map_to_list (st_tx s))))).

Fixpoint scan_pending (s : st) (ts : list string) : res (option (string * pydict)) :=
  match ts with
  | [] => Ok None
  | t :: rest =>
      record ← load_json_object (tx_lookup s t "record.json")
                 (path_join (tx_dir t) "record.json") "lifecycle transaction";
      blocking ← in_str_set (get record "status") BLOCKING_TRANSACTION_STATES;
      if (blocking : bool)
      then raise_lc ("unresolved recovery failure blocks lifecycle: " +:+ t)
      else
        incomplete ← in_str_set (get record "status") INCOMPLETE_TRANSACTION_STATES;
        if (incomplete : bool) then Ok (Some (t, record)) else scan_pending s rest
  end.

Definition recovery_summary := "recovery-verification-summary.json".
Definition reconcile_summary_name := "reconcile-verification-summary.json".
Definition deployment_summary := "deployment-verification-summary.json".
Definition candidate_transition_summary := "candidate-persistence-transition-summary.json".
Definition recovery_transition_summary := "recovery-persistence-transition-summary.json".

(** [_verify_target(i, t, self._remaining(started, budget, ...), name)]. *)
Definition verify_within (i t : string) (started budget : pfloat) (name : string) : M pydict :=
  timeout ← remaining started budget;
  verify_target i t timeout name.

(** Stop the deployment and leave no current deployment behind. *)
Definition fail_closed (candidate : option string) (started budget : pfloat) : M unit :=
  match candidate with
  | Some c => exec_deactivate c started budget
  | None => mret ()
  end;;
  clear_link Current;;
  clear_active_image_link;;
  exec_uncommit started budget.

(** [_restore]. *)
Definition restore (old_current : option string) (t : string) (started budget : pfloat)
    (from_deployment : option string) : M unit :=
  match old_current with
  | None =>
      candidate ← resolve_link Current false;
      fail_closed candidate started budget
  | Some old =>
      prepare_transition from_deployment old t started budget recovery_transition_summary;;
      exec_precheck old started budget;;
      exec_activate old started budget;;
      verify_within old t started budget recovery_summary;;
      exec_commit old started budget;;
      activate_files old
  end.

(** The reconciliation of a transaction whose candidate is already current
    and verified. *)
Definition reconcile_promoted (t candidate : string) (started : pfloat) : M unit :=
  record ← gets st_rec;
  let previous := get record "from_current" in
  failed ← attempt (
    exec_commit candidate started ROLLBACK_DEADLINE_SECONDS;;
    activate_files candidate;;
    verify_within candidate t started ROLLBACK_DEADLINE_SECONDS reconcile_summary_name;;
    match previous with
    | PStr p => if negb (String.eqb p "") && negb (String.eqb p candidate)
                then atomic_link p Previous else mret ()
    | _ => mret ()
    end);
  match failed with
  | Some exc =>
      recovery_started ← monotonic;
      recovery ← attempt (
        match previous with
        | PStr p =>
            if negb (String.eqb p "")
            then restore (Some p) t recovery_started ROLLBACK_DEADLINE_SECONDS (Some candidate)
            else fail_closed (Some candidate) recovery_started ROLLBACK_DEADLINE_SECONDS
        | _ => fail_closed (Some candidate) recovery_started ROLLBACK_DEADLINE_SECONDS
        end);
      match recovery with
      | Some recovery_exc =>
          completed ← now;
          upd_rec [("status", PStr "recovery_failed"); ("completed_at", PStr completed);
                   ("failure", PStr (exn_msg exc));
                   ("recovery_failure", PStr (exn_msg recovery_exc))];;
          write_transaction_record t;;
          fail_lc ("transaction reconciliation recovery failed: " +:+ exn_msg recovery_exc)
      | None =>
          completed ← now;
          upd_rec [("status", PStr "interrupted_rolled_back"); ("completed_at", PStr completed);
                   ("reconciled", PBool true); ("failure", PStr (exn_msg exc));
                   ("restored_current", previous)];;
          write_transaction_record t
      end
  | None =>
      completed ← now;
      upd_rec [("status", PStr "passed_reconciled"); ("completed_at", PStr completed);
               ("reconciled", PBool true); ("current", PStr candidate);
               ("previous", previous)];;
      write_transaction_record t
  end.

(** An interrupted verification is recorded and refused. *)
Definition reconcile_verify (t : string) : M unit :=
  current ← resolve_link Current false;
  completed ← now;
  upd_rec [("status", PStr "interrupted_verification_failed"); ("completed_at", PStr completed);
           ("reconciled", PBool true);
           ("failure", PStr ("verification was interrupted; reconciliation preserved the "
              +:+ "deployment topology, while the verification may have partially run"));
           ("preserved_current", opt_str current)];;
  write_transaction_record t;;
  fail_lc "interrupted verification was recorded; rerun the lifecycle command".

(** An interrupted legacy adoption: bring the legacy pointer's release up. *)
Definition reconcile_legacy (t candidate : string) (started : pfloat) : M unit :=
  exec_precheck candidate started ROLLBACK_DEADLINE_SECONDS;;
  exec_activate candidate started ROLLBACK_DEADLINE_SECONDS;;
  verify_within candidate t started ROLLBACK_DEADLINE_SECONDS reconcile_summary_name;;
  completed ← now;
  upd_rec [("status", PStr "interrupted_legacy_preserved"); ("completed_at", PStr completed);
           ("reconciled", PBool true)];;
  write_transaction_record t.

(** A transaction that died before its candidate became current. *)
Definition reconcile_unpromoted (t candidate : string) (current : option string)
    (started : pfloat) : M unit :=
  match current with
  | Some cur =>
      record ← record_get cur;
      require_not (negb (py_eqb (get record "status") (PStr "verified")))
        "pending transaction left current on an unverified deployment";;
      restore (Some cur) t started ROLLBACK_DEADLINE_SECONDS (Some candidate);;
      completed ← now;
      upd_rec [("status", PStr "interrupted_rolled_back"); ("completed_at", PStr completed);
               ("reconciled", PBool true); ("restored_current", PStr cur)];;
      write_transaction_record t
  | None =>
      fail_closed (Some candidate) started ROLLBACK_DEADLINE_SECONDS;;
      completed ← now;
      upd_rec [("status", PStr "interrupted_failed_closed"); ("completed_at", PStr completed);
               ("reconciled", PBool true)];;
      write_transaction_record t
  end.

(** [_reconcile_pending] on the pending transaction it found. *)
Definition reconcile_record (t : string) (record : pydict) : M unit :=
  let candidate := py_str (get_or record "candidate" (PStr "")) in
  require_not (negb (DEPLOYMENT_ID_RE candidate))
    "pending transaction has an invalid candidate";;
  if py_eqb (get record "operation") (PStr "verify") then reconcile_verify t
  else
    started ← monotonic;
    legacy ← (if is_true (get record "legacy_adoption")
              then legacy_current_matches candidate else mret false);
    if (legacy : bool) then reconcile_legacy t candidate started
    else
      current ← resolve_link Current false;
      promoted ←
        (if opt_str_eqb current candidate
         then r ← record_get candidate;
              mret (py_eqb (get r "status") (PStr "verified"))
         else mret false);
      if (promoted : bool) then reconcile_promoted t candidate started
      else reconcile_unpromoted t candidate current started.

(** [_reconcile_pending]. *)
Definition reconcile_pending : M unit :=
  pending ← (λ s, lift (scan_pending s (record_transactions s)) s);
  match pending with
  | None => mret ()
  | Some (t, record) => modify (set_rec record);; reconcile_record t record
  end.

(** ** [verify_current] *)

Definition elapsed_since (started : pfloat) : M py :=
  m ← monotonic; mret (PFloat (f_round (fsub m started) 3)).

Definition check_bridge_summary (summary : pydict) (allow : bool) : res unit :=
  guard_lc (negb (is_bool_of (get_or summary "legacy_production_network_bridge" (PBool false)) allow))
    "legacy production network bridge result differs from request";;
  guard_lc (negb (is_bool_of
      (get_or summary "legacy_production_network_bridge_requested" (PBool false)) allow))
    "legacy production network bridge request evidence differs";;
  let evidence := get summary "legacy_production_network_evidence" in
  if allow
  then guard_lc (negb (evidence_is_complete evidence))
         "legacy production network bridge evidence is incomplete"
  else guard_lc (negb (is_none evidence))
         "legacy production network bridge evidence was not requested".

(** The verification of deployment [cur] within transaction [t]. *)
Definition verify_run (t cur : string) (timeout : pfloat) (allow : bool) : M pydict :=
  started ← monotonic;
  summary ← try_catch (
    (summary ← (if allow
       then d ← deployment_dir cur;
            logged (EVerify d) (ex_verify_bridge d t deployment_summary timeout)
       else verify_target cur t timeout deployment_summary);
     lift (check_bridge_summary summary allow);;
     mret summary))
    (λ exc,
      completed ← now;
      elapsed ← elapsed_since started;
      upd_rec [("status", PStr "failed"); ("completed_at", PStr completed);
               ("failure", PStr (exn_msg exc)); ("elapsed_seconds", elapsed)];;
      write_transaction_record t;;
      lift (Raise exc));
  completed ← now;
  elapsed ← elapsed_since started;
  upd_rec [("status", PStr "passed"); ("completed_at", PStr completed);
           ("elapsed_seconds", elapsed);
           ("legacy_production_network_bridge",
              get_or summary "legacy_production_network_bridge" (PBool false))];;
  write_transaction_record t;;
  mret summary.

Definition verify_execute (timeout : pfloat) (allow : bool) : M pydict :=
  current ← resolve_link Current true;
  match current with
  | None => raise CAssertionError ""
  | Some cur =>
      t ← transaction "verify"
            [("candidate", PStr cur); ("deadline_seconds", PFloat timeout);
             ("legacy_production_network_bridge_requested", PBool allow)];
      verify_run t cur timeout allow
  end.

Definition verify_current (timeout : pfloat) (already_locked allow : bool) : M pydict :=
  require_not (allow && already_locked)
    "legacy production network bridge requires its own lifecycle lock";;
  if already_locked then verify_execute timeout allow
  else with_lifecycle_lock (ensure_layout;; reconcile_pending;; verify_execute timeout allow).
End transaction.
