(* ===== verification/LifecycleCommands.v ===== *)
(** * Release lifecycle: activation and commands

    Models [_activate] ([release_deployment_activation.py]) and the commands
    [deploy], [upgrade], [rollback] and [status]
    ([release_deployment_commands.py]). *)
From S2P Require Import Prelude PyFloat PyValue LifecycleCore LifecycleIO LifecycleRecords.
From S2P Require Import LifecycleNetwork LifecycleTransaction.

Section commands.
Context `{Runtime, LifecycleExecutor}.

(** ** [_activate] *)

(** The steps of the [try] block. *)
Definition activate_body (candidate : string) (old_current : option string) (t : string)
    (started budget : pfloat) : M unit :=
  exec_precheck candidate started budget;;
  prepare_transition old_current candidate t started budget candidate_transition_summary;;
  exec_activate candidate started budget;;
  set_status "candidate_activated";;
  write_transaction_record t;;
  verify_within candidate t started budget deployment_summary;;
  verified_at ← now;
  record ← gets st_rec;
  transaction_id ← lift (item record "transaction_id");
  update_deployment candidate
    [("status", PStr "verified"); ("verified_at", PStr verified_at);
     ("last_transaction", transaction_id)];;
  set_status "candidate_verified";;
  write_transaction_record t;;
  exec_commit candidate started budget;;
  activate_files candidate;;
  match old_current with
  | Some old => atomic_link old Previous
  | None => mret ()
  end;;
  completed ← now;
  elapsed ← elapsed_since started;
  upd_rec [("status", PStr "passed"); ("completed_at", PStr completed);
           ("current", PStr candidate); ("previous", opt_str old_current);
           ("elapsed_seconds", elapsed)];;
  write_transaction_record t.

(** The handler's recovery of a failed legacy adoption. *)
Definition recover_legacy (candidate t : string) (started : pfloat) (exc : exn) : M unit :=
  recovery_started ← monotonic;
  failed ← attempt (
    exec_precheck candidate recovery_started ROLLBACK_DEADLINE_SECONDS;;
    exec_activate candidate recovery_started ROLLBACK_DEADLINE_SECONDS;;
    verify_within candidate t recovery_started ROLLBACK_DEADLINE_SECONDS recovery_summary;;
    mret ());
  match failed with
  | Some recovery_exc =>
      completed ← now;
      upd_rec [("status", PStr "recovery_failed"); ("completed_at", PStr completed);
               ("recovery_failure", PStr (exn_msg recovery_exc))];;
      write_transaction_record t;;
      fail_lc ("legacy adoption and topology recovery both failed: " +:+ exn_msg exc
               +:+ "; " +:+ exn_msg recovery_exc)
  | None =>
      completed ← now;
      elapsed ← elapsed_since started;
      recovery_elapsed ← elapsed_since recovery_started;
      upd_rec [("status", PStr "legacy_preserved"); ("completed_at", PStr completed);
               ("elapsed_seconds", elapsed); ("recovery_elapsed_seconds", recovery_elapsed)];;
      write_transaction_record t;;
      fail_lc ("legacy adoption failed; TODO-0009 pointer was preserved: " +:+ exn_msg exc)
  end.

(** The handler's recovery shared by activation and rollback: restore
    [old_current] and close the transaction. *)
Definition recover_previous (old_current : option string) (t from : string)
    (started : pfloat) (exc : exn) (failure success : string) (fields : pydict)
    (failed_msg restored_msg : string) : M unit :=
  recovery_started ← monotonic;
  failed ← attempt (restore old_current t recovery_started ROLLBACK_DEADLINE_SECONDS (Some from));
  match failed with
  | Some recovery_exc =>
      completed ← now;
      elapsed ← elapsed_since started;
      recovery_elapsed ← elapsed_since recovery_started;
      upd_rec [("status", PStr failure); ("completed_at", PStr completed);
               ("recovery_failure", PStr (exn_msg recovery_exc));
               ("elapsed_seconds", elapsed); ("recovery_elapsed_seconds", recovery_elapsed)];;
      write_transaction_record t;;
      fail_lc (failed_msg +:+ exn_msg exc +:+ "; " +:+ exn_msg recovery_exc)
  | None =>
      completed ← now;
      elapsed ← elapsed_since started;
      recovery_elapsed ← elapsed_since recovery_started;
      upd_rec ([("status", PStr success); ("completed_at", PStr completed);
                ("restored_current", opt_str old_current)] ++ fields
               ++ [("elapsed_seconds", elapsed); ("recovery_elapsed_seconds", recovery_elapsed)]);;
      write_transaction_record t;;
      fail_lc (restored_msg +:+ exn_msg exc)
  end.

(** The handler of [_activate]. *)
Definition activate_handler (operation candidate : string) (old_current old_previous : option string)
    (legacy : bool) (t : string) (started : pfloat) (exc : exn) : M unit :=
  ensure_failure_summary t exc;;
  failed_at ← now;
  upd_rec [("status", PStr "activation_failed"); ("failed_at", PStr failed_at);
           ("failure", PStr (exn_msg exc))];;
  write_transaction_record t;;
  if legacy then recover_legacy candidate t started exc
  else recover_previous old_current t candidate started exc "recovery_failed"
         (match old_current with Some _ => "rolled_back" | None => "failed_closed" end)
         [("previous", opt_str old_previous)]
         (operation +:+ " failed and previous recovery failed: ")
         (operation +:+ " verification failed; previous deployment restored: ").

(** The transaction of an activation: the [try] block and its handler. *)
Definition activate_transaction (operation candidate : string)
    (old_current old_previous : option string) (legacy : bool) (budget : pfloat) : M pydict :=
  t ← transaction operation
        [("candidate", PStr candidate); ("from_current", opt_str old_current);
         ("from_previous", opt_str old_previous); ("deadline_seconds", PFloat budget);
         ("legacy_adoption", PBool legacy)];
  started ← monotonic;
  try_catch (activate_body candidate old_current t started budget)
    (activate_handler operation candidate old_current old_previous legacy t started);;
  gets st_rec.

Definition activate_locked (operation candidate : string) (budget : pfloat) : M pydict :=
  ensure_layout;;
  reconcile_pending;;
  record_get candidate;;
  legacy ← (if String.eqb operation "deploy"
            then legacy_current_matches candidate else mret false);
  old_current ← (if (legacy : bool) then mret None else resolve_link Current false);
  old_previous ← resolve_link Previous false;
  require_not (String.eqb operation "deploy"
      && match old_current with Some c => negb (String.eqb c candidate) | None => false end)
    "deploy refuses to replace current; use upgrade";;
  require_not (String.eqb operation "upgrade"
      && match old_current with Some _ => false | None => true end)
    "upgrade requires a current verified deployment";;
  match old_current with
  | Some cur =>
      record ← record_get cur;
      require_not (negb (py_eqb (get record "status") (PStr "verified")))
        "current deployment is not verified";;
      validate_unit_compatibility candidate cur
  | None => mret ()
  end;;
  if opt_str_eqb old_current candidate then
    verification ← verify_current budget true false;
    mret [("operation", PStr operation); ("idempotent", PBool true);
          ("current", PStr candidate); ("verification", PDict verification)]
  else activate_transaction operation candidate old_current old_previous legacy budget.

Definition activate (operation candidate : string) (budget : pfloat) : M pydict :=
  with_lifecycle_lock (activate_locked operation candidate budget).

Definition deploy (i : string) : M pydict := activate "deploy" i ROLLBACK_DEADLINE_SECONDS.
Definition upgrade (i : string) : M pydict := activate "upgrade" i ROLLBACK_DEADLINE_SECONDS.

(** ** [rollback] *)

Definition rollback_body (target old_current t : string) (started : pfloat) : M unit :=
  exec_precheck target started ROLLBACK_DEADLINE_SECONDS;;
  prepare_transition (Some old_current) target t started ROLLBACK_DEADLINE_SECONDS
    candidate_transition_summary;;
  exec_activate target started ROLLBACK_DEADLINE_SECONDS;;
  set_status "candidate_activated";;
  write_transaction_record t;;
  verify_within target t started ROLLBACK_DEADLINE_SECONDS deployment_summary;;
  set_status "candidate_verified";;
  write_transaction_record t;;
  exec_commit target started ROLLBACK_DEADLINE_SECONDS;;
  activate_files target;;
  atomic_link old_current Previous;;
  completed ← now;
  r1 ← record_get target;
  asset ← lift (item r1 "runtime_asset_sha256");
  r2 ← record_get target;
  images ← lift (item r2 "image_environment_sha256");
  r3 ← record_get target;
  config ← lift (item r3 "configuration_sha256");
  elapsed ← elapsed_since started;
  upd_rec [("status", PStr "passed"); ("completed_at", PStr completed);
           ("current", PStr target); ("previous", PStr old_current);
           ("restored_runtime_asset_sha256", asset);
           ("restored_image_environment_sha256", images);
           ("restored_configuration_sha256", config); ("elapsed_seconds", elapsed)];;
  write_transaction_record t.

Definition rollback_handler (target old_current t : string) (started : pfloat) (exc : exn)
    : M unit :=
  ensure_failure_summary t exc;;
  failed_at ← now;
  upd_rec [("status", PStr "rollback_failed"); ("failed_at", PStr failed_at);
           ("failure", PStr (exn_msg exc))];;
  write_transaction_record t;;
  recover_previous (Some old_current) t target started exc "recovery_failed" "rolled_forward"
    [("previous", PStr target)] "rollback failed and current recovery failed: "
    "rollback failed; original current deployment restored: ".

(** The transaction of a rollback: the [try] block and its handler. *)
Definition rollback_transaction (target old_current : string) : M pydict :=
  t ← transaction "rollback"
        [("candidate", PStr target); ("from_current", PStr old_current);
         ("from_previous", PStr target);
         ("deadline_seconds", PFloat ROLLBACK_DEADLINE_SECONDS)];
  started ← monotonic;
  try_catch (rollback_body target old_current t started)
    (rollback_handler target old_current t started);;
  gets st_rec.

Definition rollback_locked : M pydict :=
  ensure_layout;;
  reconcile_pending;;
  cur ← resolve_link Current true;
  prev ← resolve_link Previous true;
  match cur, prev with
  | Some old_current, Some target =>
      require_not (String.eqb old_current target)
        "current and previous cannot reference the same deployment";;
      record ← record_get target;
      require_not (negb (py_eqb (get record "status") (PStr "verified")))
        "previous deployment is not verified";;
      validate_unit_compatibility target old_current;;
      rollback_transaction target old_current
  | _, _ => raise CAssertionError ""
  end.

Definition rollback : M pydict := with_lifecycle_lock rollback_locked.

(** ** [verify] and [status] *)

Definition verify_command (allow : bool) : M pydict :=
  verify_current ROLLBACK_DEADLINE_SECONDS false allow.

(** The findings about the active image environment of deployment [cur]. *)
Definition active_failures (s : st) (cur : string) : res (list string) :=
  let f1 := match st_active s with
    | ASymlink raw =>
        if String.eqb (resolve_raw raw) expected_active_target then []
        else ["active image environment symlink target differs"]
    | _ => ["active image environment is not the fixed current symlink"]
    end in
  let own := st_deployments s !! cur ≫= dp_image_env in
  (** What the active path reads as: the file itself, or the image
      environment of the current deployment behind the fixed link. *)
  let seen := match st_active s with
    | AFile c => Some (NFile c)
    | ASymlink raw =>
        if String.eqb (resolve_raw raw) expected_active_target then own else None
    | _ => None
    end in
  if is_file seen then
    a ← sha256_file seen;
    b ← sha256_file own;
    Ok (f1 ++ if String.eqb a b then []
              else ["active image environment differs from current deployment"])
  else Ok f1.

Definition status_locked : M pydict :=
  ensure_layout;;
  reconcile_pending;;
  current ← resolve_link Current false;
  previous ← resolve_link Previous false;
  failures ←
    match current with
    | Some cur =>
        record ← record_get cur;
        let f0 := if py_eqb (get record "status") (PStr "verified") then []
                  else ["current deployment is not verified"] in
        deployment_dir cur;;
        f1 ← (λ s, lift (active_failures s cur) s);
        f2 ← ex_runtime_status cur;
        mret (f0 ++ f1 ++ f2)
    | None =>
        a ← gets st_active;
        let f1 := match a with
          | ASymlink _ => ["active image environment exists without current"]
          | _ => []
          end in
        f2 ← ex_inactive_status;
        mret (f1 ++ f2)
    end;
  generated ← now;
  mret [("schema_version", PInt 1); ("generated_at", PStr generated);
        ("overall_pass", PBool (match failures with [] => true | _ => false end));
        ("current", opt_str current); ("previous", opt_str previous);
        ("failures", PList (map PStr failures)); ("protected_state_mutated", PBool false)].

Definition status : M pydict := with_lifecycle_lock status_locked.
End commands.
