(* ===== verification/LifecycleEvidence.v ===== *)
(** * Release lifecycle: the evidence of a manual recovery

    Models the evidence half of [RecoveryMixin]
    ([release_deployment_recovery.py]): [_regular_evidence],
    [_evidence_reference], [_blocking_recovery_transactions] and
    [_validate_manual_recovery], one definition per document it checks.

    Evidence lies in the transaction directory, which is part of the state, and
    in a directory the operator names, which is not: such a file is read through
    the [Runtime] at the event number of the read, so it may change between two
    reads.  A path that became a symbolic link after it was checked reads as
    missing. *)
From S2P Require Import Prelude PyFloat PyValue PyTime PyPath LifecycleCore LifecycleIO.
From S2P Require Import LifecycleRecords LifecycleNetwork LifecycleTransaction.

(** ** Evidence files *)

Inductive evidence_file :=
  | TxFile (t name : string)
  | PathFile (p : path).

(** The evidence documents, by the name the summary uses for them. *)
Definition MANUAL_RECOVERY_STATUS := "manual-recovery-runtime-status.json".
Definition MANUAL_RECOVERY_VERIFICATION := "manual-recovery-verification-summary.json".
Definition MANUAL_RECOVERY_EQUIVALENCE := "rdb-aof-equivalence-summary.json".
Definition MANUAL_RECOVERY_TRANSITION := "recovery-persistence-transition-summary.json".
Definition MANUAL_RECOVERY_SUMMARY := "manual-recovery-summary.json".
Definition MANUAL_RECOVERY_RECONCILE_SUMMARY := "manual-recovery-reconcile-summary.json".

(** [SHA256_RE.fullmatch(str(d.get(k, ""))) is None]. *)
Definition not_sha256 (d : pydict) (k : string) : bool :=
  negb (SHA256_RE (py_str (get_or d k (PStr "")))).

Section evidence.
Context `{Runtime, LifecycleExecutor}.

Definition file_str (f : evidence_file) : string :=
  match f with
  | TxFile t name => path_join (tx_dir t) name
  | PathFile p => path_str p
  end.

(** The directory entry at a path: the directory part is resolved, the entry
    itself is not followed.  Entries below the transaction root are those of
    the state. *)
Definition locate (n : nat) (s : st) (p : path) : option node :=
  let q := path_join (real_path_at n (path_str (p_parent p))) (p_name p) in
  match relative_to (real_path_at n (transaction_root layout)) q with
  | Some rest =>
      match split_once "/" rest with
      | Some (t, name) => tx_lookup s t name
      | None => None
      end
  | None => evidence_at n q
  end.

Definition file_node (f : evidence_file) : M (option node) :=
  match f with
  | TxFile t name => gets (λ s, tx_lookup s t name)
  | PathFile p => λ s, (ORet (locate (st_ev s) s p), set_ev S s)
  end.

(** [_regular_evidence]. *)
Definition regular_evidence (f : evidence_file) (label : string) : M unit :=
  n ← file_node f;
  require_not (negb (is_file n)) (label +:+ " is not a regular file: " +:+ file_str f).

(** [_evidence_reference]. *)
Definition reference (f : evidence_file) (c : content) : pydict :=
  [("path", PStr (file_str f)); ("sha256", PStr (sha256_content c));
   ("size_bytes", PInt (Z.of_nat (String.length (content_bytes c))))].
Definition evidence_reference (f : evidence_file) : M pydict :=
  n ← file_node f;
  match n with
  | Some (NFile c) => mret (reference f c)
  | _ => raise CFileNotFoundError "No such file or directory"
  end.

Definition evidence_sha256 (f : evidence_file) : M string :=
  n ← file_node f; lift (sha256_file n).
Definition load_evidence (f : evidence_file) (label : string) : M pydict :=
  n ← file_node f; lift (load_json_object n (file_str f) label).

(** [_blocking_recovery_transactions]. *)
Fixpoint blocking_among (s : st) (ts : list string) : res (list (string * pydict)) :=
  match ts with
  | [] => Ok []
  | t :: rest =>
      let node := tx_lookup s t "record.json" in
      let path := path_join (tx_dir t) "record.json" in
      guard_lc (negb (is_file node)) ("transaction record is not a regular file: " +:+ path);;
      record ← load_json_object node path "lifecycle transaction";
      blocking ← in_str_set (get record "status") BLOCKING_TRANSACTION_STATES;
      others ← blocking_among s rest;
      Ok (if (blocking : bool) then (t, record) :: others else others)
  end.
Definition blocking_recovery_transactions : M (list (string * pydict)) := λ s,
  lift (blocking_among s (rev (record_transactions s))) s.

(** ** [_validate_manual_recovery] *)

(** The evidence files with their labels, in the order they are read. *)
Definition manual_paths (t : string) (resolution : path) : list (string * (evidence_file * string)) :=
  let parent := p_parent resolution in
  [("manual", (TxFile t MANUAL_RECOVERY_SUMMARY, "manual recovery summary"));
   ("status", (TxFile t MANUAL_RECOVERY_STATUS, "manual runtime status summary"));
   ("verification", (TxFile t MANUAL_RECOVERY_VERIFICATION,
                     "manual deployment verification summary"));
   ("equivalence", (TxFile t MANUAL_RECOVERY_EQUIVALENCE, "RDB/AOF equivalence summary"));
   ("transition", (TxFile t MANUAL_RECOVERY_TRANSITION,
                   "recovery persistence transition summary"));
   ("resolution", (PathFile resolution, "protected-state recovery summary"));
   ("merge_plan", (PathFile (p_join parent "todo0012-pre-aof-merge-plan.json"),
                   "protected-state merge plan"));
   ("merge_application", (PathFile (p_join parent "todo0012-pre-aof-merge-application.json"),
                          "protected-state merge application"));
   ("merge_verification",
      (PathFile (p_join parent "todo0012-pre-aof-merge-deployment-verification.json"),
       "protected-state merge deployment verification"))].

Definition manual_file (t : string) (resolution : path) (name : string) : evidence_file :=
  match list_find (λ x, x.1 = name) (manual_paths t resolution) with
  | Some (_, (_, (f, _))) => f
  | None => PathFile resolution
  end.

(** [_regular_evidence] on each path; the resolution is checked first. *)
Definition check_manual_paths (t : string) (resolution : path) : M unit :=
  regular_evidence (PathFile resolution) "protected-state recovery summary";;
  m_iter (λ '(name, (f, label)),
      if String.eqb name "resolution" then mret () else regular_evidence f label)
    (manual_paths t resolution).

(** [load_json_object] on each path. *)
Fixpoint load_documents (files : list (string * (evidence_file * string)))
    : M (list (string * pydict)) :=
  match files with
  | [] => mret []
  | (name, (f, label)) :: rest =>
      d ← load_evidence f label;
      ds ← load_documents rest;
      mret ((name, d) :: ds)
  end.
Definition document (ds : list (string * pydict)) (name : string) : pydict :=
  match list_find (λ x, x.1 = name) ds with Some (_, (_, d)) => d | None => [] end.

Definition required_manual (t current : string) : pydict :=
  [("schema_version", PInt 1); ("overall_pass", PBool true);
   ("operation", PStr "manual-recovery-after-aof-activation-recovery-failure");
   ("transaction_id", PStr t); ("current", PStr current);
   ("active_volume_preserved", PBool true);
   ("rdb_aof_canonical_equivalence_verified", PBool true);
   ("aof_files_deleted", PBool false); ("rdb_files_deleted", PBool false);
   ("production_volume_deleted", PBool false); ("lifecycle_blocker_preserved", PBool true);
   ("transaction_record_mutated", PBool false); ("secret_material_recorded", PBool false);
   ("formal_todo0012_claim", PBool false)].

Definition check_manual_summary (t current : string) (manual : pydict) : res unit :=
  guard_lc (differs manual (required_manual t current))
    "manual recovery summary does not satisfy closure policy";;
  guard_lc
    (negb (match get manual "active_volume" with PStr v => DEPLOYMENT_ID_RE v | _ => false end)
     || negb (IMAGE_ID_RE (py_str (get_or manual "redis_image" (PStr ""))))
     || not_sha256 manual "rdb_sha256"
     || not_sha256 manual "aof_manifest_sha256"
     || ne manual "appendonly" (PStr "no")
     || ne manual "aof_quarantine" (PStr ("appendonlydir.recovery-failed-" +:+ t)))
    "manual recovery runtime binding is invalid".

(** The digests of one document that name other files. *)
Definition check_digests (d : pydict) (msg : string) (fields : list (string * evidence_file))
    : M unit :=
  m_iter (λ '(field, f),
      h ← evidence_sha256 f;
      require_not (ne d field (PStr h)) msg) fields.

(** The transition summary is the one the blocking record refers to. *)
Definition transition_references (record : pydict) : res (list pydict) :=
  summaries ← vget (get_or record "result" (PDict [])) "summaries";
  Ok (omap (λ v, match v with
                 | PDict d =>
                     if py_eqb (get d "kind") (PStr "recovery_persistence_transition")
                     then Some d else None
                 | _ => None
                 end) (as_list summaries)).

Definition check_transition_bound (record : pydict) (f : evidence_file) : M unit :=
  refs ← lift (transition_references record);
  evidence ← evidence_reference f;
  require_not (match refs with [r] => differs r evidence | _ => true end)
    "recovery persistence transition is not bound to the blocking record".

Definition check_manual_status (current : string) (status : pydict) : res unit :=
  guard_lc
    (ne status "schema_version" (PInt 1) || not_true status "overall_pass"
     || ne status "current" (PStr current) || ne status "failures" (PList [])
     || not_true status "lifecycle_blocker_preserved"
     || not_false status "secret_material_recorded")
    "manual runtime status summary did not pass".

(** [same_governed_file]. *)
Definition same_governed_file (ids : string → option Z) (recorded : py) (expected : string)
    : bool :=
  match recorded with
  | PStr r =>
      negb (String.eqb r "")
      && match ids (path_str (py_path r)), ids expected with
         | Some a, Some b => Z.eqb a b
         | _, _ => false
         end
  | _ => false
  end.

(** A list of checks that all passed, among them the required ones. *)
Definition checks_incomplete (v : py) (required : list string) : bool :=
  match v with
  | PList ((_ :: _) as l) =>
      existsb (λ c, match c with PDict d => not_true d "passed" | _ => true end) l
      || negb (forallb (λ r, mem_str r
           (omap (λ c, match c with
                       | PDict d => Some (py_str (get_or d "name" (PStr "")))
                       | _ => None
                       end) l)) required)
  | _ => true
  end.

Definition expected_manifest (current : string) : string :=
  path_join (dep_dir current) "manifest.json".
Definition expected_compose (current : string) : string :=
  path_join (dep_dir current) "deploy/operations/docker-compose.production.yml".

Definition verification_report (current : string) (v : pydict) : py :=
  PDict [("overall_pass", get v "overall_pass");
         ("source_build_performed", get v "source_build_performed");
         ("public_conan_access_performed", get v "public_conan_access_performed");
         ("staging_manifest", get v "staging_manifest");
         ("expected_manifest", PStr (expected_manifest current));
         ("compose_file", get v "compose_file");
         ("expected_compose", PStr (expected_compose current));
         ("failed", get v "failed")].

Definition check_manual_verification (ids : string → option Z) (current : string)
    (v : pydict) : res unit :=
  check_deployment_id current;;
  guard_lc
    (not_true v "overall_pass" || not_false v "source_build_performed"
     || not_false v "public_conan_access_performed"
     || negb (same_governed_file ids (get v "staging_manifest") (expected_manifest current))
     || negb (same_governed_file ids (get v "compose_file") (expected_compose current))
     || checks_incomplete (get v "checks")
          ["compose-service-state"; "container-image-identities"; "redis-ping";
           "release-sdk-full-flow"]
     || ne v "failed" (PList []))
    ("manual deployment verification summary did not pass: "
     +:+ json_line (verification_report current v)).

Definition check_equivalence (t : string) (manual e : pydict) : res unit :=
  guard_lc
    (ne e "schema_version" (PInt 1) || not_true e "overall_pass"
     || ne e "transaction_id" (PStr t) || ne e "source_volume" (get manual "active_volume")
     || not_true e "source_volume_mounted_readonly"
     || not_false e "production_volume_mutated" || not_false e "production_switched"
     || not_true e "key_sets_equal" || not_true e "required_keys_present"
     || ne e "redis_image" (get manual "redis_image")
     || not_false e "secret_material_recorded" || not_false e "formal_todo0012_claim"
     || negb (SHA256_RE (py_str (get e "rdb_canonical_sha256")))
     || ne e "rdb_canonical_sha256" (get e "aof_canonical_sha256")
     || negb (positive_count (get e "rdb_key_count"))
     || ne e "rdb_key_count" (get e "aof_key_count"))
    "RDB/AOF equivalence summary did not pass".

Definition check_transition (manual tr : pydict) : res unit :=
  guard_lc
    (not_true tr "overall_pass" || ne tr "source_mode" (PStr "aof_everysec_rdb")
     || ne tr "target_mode" (PStr "rdb_only") || not_true tr "checkpoint_required"
     || not_true tr "checkpoint_verified" || not_true tr "writes_frozen"
     || not_false tr "secret_material_recorded"
     || match get tr "checkpoint" with
        | PDict c =>
            ne c "rdb_changes_since_last_save" (PInt 0)
            || ne c "rdb_last_bgsave_status" (PStr "ok") || not_true c "redis_check_rdb"
            || not_sha256 c "rdb_sha256"
        | _ => true
        end
     || match get tr "active_volume" with
        | PDict v =>
            ne v "name" (get manual "active_volume") || ne v "destination" (PStr "/data")
            || not_true v "read_write"
        | _ => true
        end)
    "recovery persistence transition did not pass".

(** The two timestamps of the resolution check. *)
Definition read_timestamp (v : py) : res timestamp :=
  match fromisoformat (replace_zulu (py_str v)) with
  | Some ts => Ok ts
  | None => raise_lc "protected-state recovery timestamps are invalid"
  end.

Definition preservation_fails (v : py) : bool :=
  match v with
  | PDict p =>
      not_true p "passed" || ne p "missing_names" (PList []) || ne p "missing_scores" (PList [])
      || ne p "changed_names" (PList []) || ne p "changed_scores" (PList [])
      || ne p "missing_events" (PDict [("events_by_type", PInt 0); ("events_global", PInt 0)])
      || negb (positive_count (get p "next_seq"))
  | _ => true
  end.

Definition check_resolution (current : string) (record manual r : pydict) : res unit :=
  resolved ← read_timestamp (get_or r "recorded_at" (PStr ""));
  failed ← read_timestamp (py_or (get record "recovery_failed_completed_at")
                             (get_or record "completed_at" (PStr "")));
  guard_lc
    (ne r "schema_version" (PInt 1) || not_true r "overall_pass"
     || ne r "operation" (PStr "recover-pre-aof-state-with-post-activation-writes")
     || ne r "current" (PStr current) || not_true r "lifecycle_blocker_preserved"
     || not_false r "production_volume_deleted" || not_false r "aof_quarantine_deleted"
     || not_false r "secret_material_recorded" || not_false r "formal_todo0012_claim"
     || ne r "active_volume" (get manual "active_volume")
     || is_naive resolved || is_naive failed || timestamp_leb resolved failed
     || not_sha256 r "merged_canonical_sha256" || not_sha256 r "payload_sha256"
     || not_sha256 r "plan_sha256" || not_sha256 r "verification_sha256"
     || preservation_fails (get r "preservation"))
    "protected-state recovery summary did not pass".

(** The plan and the application bind the same digests as the resolution. *)
Definition check_merge_plan (r plan : pydict) : res unit :=
  let payload_digest := match get plan "payload" with
    | PDict p => sha256_content (CJson (PDict p))
    | _ => ""
    end in
  guard_lc
    (ne plan "schema_version" (PInt 1) || not_true plan "overall_pass"
     || ne plan "operation" (PStr "prepare-pre-aof-state-merge")
     || not_false plan "production_mutated" || not_false plan "production_volume_deleted"
     || not_false plan "secret_material_recorded" || not_false plan "formal_todo0012_claim"
     || ne plan "payload_sha256" (PStr payload_digest)
     || ne plan "payload_sha256" (get r "payload_sha256")
     || ne plan "current_canonical_sha256" (get r "pre_merge_canonical_sha256")
     || ne plan "merged_canonical_sha256" (get r "merged_canonical_sha256"))
    "protected-state merge plan binding differs".

Definition check_merge_application (r a : pydict) : res unit :=
  guard_lc
    (ne a "schema_version" (PInt 1) || not_true a "overall_pass"
     || ne a "operation" (PStr "apply-pre-aof-state-merge")
     || ne a "plan_sha256" (get r "plan_sha256")
     || ne a "payload_sha256" (get r "payload_sha256")
     || ne a "pre_merge_canonical_sha256" (get r "pre_merge_canonical_sha256")
     || ne a "merged_canonical_sha256" (get r "merged_canonical_sha256")
     || ne a "pre_merge_backup" (get r "pre_merge_backup")
     || not_false a "production_volume_deleted" || not_false a "secret_material_recorded"
     || not_false a "formal_todo0012_claim"
     || match get a "checkpoint" with
        | PDict c =>
            ne c "rdb_changes_since_last_save" (PInt 0) || not_true c "redis_check_rdb"
            || not_sha256 c "rdb_sha256"
        | _ => true
        end)
    "protected-state merge application did not pass".

Definition check_merge_verification (current : string) (v : pydict) : res unit :=
  guard_lc
    (not_true v "overall_pass" || not_false v "source_build_performed"
     || not_false v "public_conan_access_performed"
     || ne v "staging_manifest" (PStr (expected_manifest current))
     || checks_incomplete (get v "checks") ["release-sdk-full-flow"]
     || ne v "failed" (PList []))
    "protected-state merge deployment verification did not pass".

(** One of the two backups the resolution refers to. *)
Definition backup_differs (backup summary : pydict) (digest : string) : bool :=
  ne backup "summary_sha256" (PStr digest)
  || match get summary "manifest" with
     | PDict m =>
         ne m "backup_id" (get backup "backup_id") || not_true m "consistent_redis_snapshot"
         || not_true m "encrypted_before_transfer" || not_false m "secret_material_recorded"
     | _ => true
     end
  || match get summary "remote_receipt" with
     | PDict m =>
         ne m "backup_id" (get backup "backup_id") || not_true m "create_only"
         || not_true m "remote_readback_sha256" || not_false m "secret_material_recorded"
         || negb (is_str (get m "stored_at"))
     | _ => true
     end.

Definition check_backup (resolution : path) (r : pydict) (field : string) : M pydict :=
  match get r field with
  | PDict backup =>
      let p := py_path (py_str (get_or backup "summary_path" (PStr ""))) in
      let label := field +:+ " summary" in
      regular_evidence (PathFile p) label;;
      summary ← load_evidence (PathFile p) label;
      real ← read_at real_path_at;
      require_not
        (negb (match get backup "backup_id" with PStr i => DEPLOYMENT_ID_RE i | _ => false end)
         || negb (String.eqb (real (path_str (p_parent p)))
                    (real (path_str (p_parent resolution)))))
        "protected-state backup digest binding differs";;
      digest ← evidence_sha256 (PathFile p);
      require_not (backup_differs backup summary digest)
        "protected-state backup digest binding differs";;
      evidence_reference (PathFile p)
  | _ => fail_lc "protected-state backup binding is invalid"
  end.

(** [{name: self._evidence_reference(path)}]. *)
Fixpoint collect_evidence (files : list (string * (evidence_file * string))) : M pydict :=
  match files with
  | [] => mret []
  | (name, (f, _)) :: rest =>
      r ← evidence_reference f;
      rs ← collect_evidence rest;
      mret ((name, PDict r) :: rs)
  end.

Definition plan_digests : list (string * string) :=
  [("plan_sha256", "merge_plan"); ("application_sha256", "merge_application");
   ("verification_sha256", "merge_verification")].
Definition manual_digests : list (string * string) :=
  [("status_sha256", "status"); ("verification_sha256", "verification");
   ("rdb_aof_equivalence_sha256", "equivalence")].

(** [_validate_manual_recovery]. *)
Definition validate_manual_recovery (t : string) (record : pydict) (current : string)
    (resolution : path) : M pydict :=
  let file := manual_file t resolution in
  check_manual_paths t resolution;;
  docs ← load_documents (manual_paths t resolution);
  let doc := document docs in
  lift (check_manual_summary t current (doc "manual"));;
  check_digests (doc "manual") "manual recovery evidence digest binding differs"
    (map (λ fn, (fn.1, file fn.2)) manual_digests);;
  check_transition_bound record (file "transition");;
  lift (check_manual_status current (doc "status"));;
  ids ← read_at file_id_at;
  lift (check_manual_verification ids current (doc "verification"));;
  lift (check_equivalence t (doc "manual") (doc "equivalence"));;
  lift (check_transition (doc "manual") (doc "transition"));;
  lift (check_resolution current record (doc "manual") (doc "resolution"));;
  check_digests (doc "resolution") "protected-state merge plan binding differs"
    (map (λ fn, (fn.1, file fn.2)) plan_digests);;
  lift (check_merge_plan (doc "resolution") (doc "merge_plan"));;
  lift (check_merge_application (doc "resolution") (doc "merge_application"));;
  lift (check_merge_verification current (doc "merge_verification"));;
  pre ← check_backup resolution (doc "resolution") "pre_merge_backup";
  post ← check_backup resolution (doc "resolution") "post_merge_backup";
  require_not (ne record "from_current" (PStr current))
    "blocking transaction source differs from current";;
  evidence ← collect_evidence (manual_paths t resolution);
  mret (dupdate evidence [("pre_merge_backup", PDict pre); ("post_merge_backup", PDict post)]).
End evidence.
