(* ===== verification/LifecycleRecovery.v ===== *)
(** * Release lifecycle: closing a failed recovery

    Models [reconcile_recovery] ([release_deployment_commands.py]) and the
    operations it is made of in [RecoveryMixin]
    ([release_deployment_recovery.py]): the command that closes the transaction
    of a failed recovery, on the evidence of a manual one.  The files of an
    attempt are entries of the transaction directory with the relative path as
    their name. *)
From S2P Require Import Prelude PyFloat PyValue PyPath LifecycleCore LifecycleIO LifecycleRecords.
From S2P Require Import LifecycleNetwork LifecycleTransaction LifecycleEvidence.

Definition attempts_name : string := "reconcile-attempts".
Definition attempt_name (attempt_id : string) : string := path_join attempts_name attempt_id.
Definition runtime_name (attempt_id : string) : string :=
  path_join (attempt_name attempt_id) "runtime-status-summary.json".
Definition verification_name (attempt_id : string) : string :=
  path_join (attempt_name attempt_id) "deployment-verification-summary.json".

(** [dict(v)] on a value that must be a dict. *)
Definition dict_of (v : py) : res pydict :=
  match v with PDict d => Ok d | _ => Raise (Exn CTypeError "object is not iterable") end.

Section recovery.
Context `{Runtime, LifecycleExecutor}.

(** [_validate_reconcile_reference]. *)
Definition validate_reconcile_reference (t : string) (value : py) (expected_name label : string)
    : M pydict :=
  match value with
  | PDict v =>
      let p := py_path (py_str (get_or v "path" (PStr ""))) in
      real ← read_at real_path_at;
      require_not
        (match relative_to (real (tx_dir t)) (real (path_str p)) with
         | Some _ => false | None => true end)
        (label +:+ " reference escapes transaction");;
      require_not (negb (String.eqb (p_name p) expected_name)) (label +:+ " filename is invalid");;
      regular_evidence (PathFile p) label;;
      observed ← evidence_reference (PathFile p);
      require_not (negb (py_eqb (PDict observed) value))
        (label +:+ " digest or size binding differs");;
      mret observed
  | _ => fail_lc (label +:+ " reference is invalid")
  end.

(** The fields an earlier summary must have. *)
Definition required_summary (t current record_sha256 : string) (manual_evidence : pydict)
    (allow : bool) : pydict :=
  [("schema_version", PInt 1); ("overall_pass", PBool true);
   ("operation", PStr "reconcile-manual-recovery"); ("transaction_id", PStr t);
   ("current", PStr current); ("blocking_state_before", PStr "recovery_failed");
   ("terminal_state", PStr "recovery_reconciled"); ("manual_recovery", PDict manual_evidence);
   ("transaction_record_sha256_before", PStr record_sha256);
   ("record_update_authorized", PBool true); ("protected_state_mutated", PBool false);
   ("legacy_redis_hardening_bridge", PBool allow); ("secret_material_recorded", PBool false)].

Definition path_of (reference : pydict) : path := py_path (py_str (get reference "path")).

Definition check_attempt (t attempt_id : string) (reference : pydict) : M unit :=
  real ← read_at real_path_at;
  require_not
    (negb (String.eqb (real (path_str (p_parent (path_of reference))))
             (real (path_join (tx_dir t) (attempt_name attempt_id)))))
    "reconcile evidence is not bound to the declared attempt".

(** What the read-only verification has to report. *)
Definition read_only_fails (verification : pydict) (allow : bool) : bool :=
  not_true verification "overall_pass" || not_true verification "read_only_verification"
  || not_false verification "protected_state_mutated"
  || negb (is_bool_of (get verification "legacy_redis_hardening_bridge") allow).

(** [_validate_existing_reconcile_summary]. *)
Definition validate_existing_reconcile_summary (t current record_sha256 : string)
    (manual_evidence : pydict) (allow : bool) : M pydict :=
  let final := TxFile t MANUAL_RECOVERY_RECONCILE_SUMMARY in
  regular_evidence final "manual recovery reconcile summary";;
  summary ← load_evidence final "manual recovery reconcile summary";
  require_not (differs summary (required_summary t current record_sha256 manual_evidence allow))
    "manual recovery reconcile summary is invalid";;
  attempt_id ← lift (match get summary "attempt_id" with
    | PStr a => if DEPLOYMENT_ID_RE a then Ok a
                else raise_lc "manual recovery reconcile attempt ID is invalid"
    | _ => raise_lc "manual recovery reconcile attempt ID is invalid"
    end);
  runtime_reference ← validate_reconcile_reference t (get summary "runtime_status")
    "runtime-status-summary.json" "reconcile runtime status summary";
  verification_reference ← validate_reconcile_reference t (get summary "deployment_verification")
    "deployment-verification-summary.json" "reconcile deployment verification summary";
  m_iter (check_attempt t attempt_id) [runtime_reference; verification_reference];;
  runtime ← load_evidence (PathFile (path_of runtime_reference))
              "reconcile runtime status summary";
  verification ← load_evidence (PathFile (path_of verification_reference))
                   "reconcile deployment verification summary";
  require_not
    (ne runtime "schema_version" (PInt 1) || not_true runtime "overall_pass"
     || ne runtime "transaction_id" (PStr t) || ne runtime "current" (PStr current)
     || ne runtime "failures" (PList []) || not_false runtime "secret_material_recorded"
     || read_only_fails verification allow)
    "reconcile attempt evidence did not pass";;
  mret summary.

(** [_complete_recovery_reconcile]. *)
Definition complete_recovery_reconcile (t : string) (record : pydict) (current : string)
    (manual_evidence reconcile_summary : pydict) : M pydict :=
  runtime_reference ← lift (item reconcile_summary "runtime_status" ≫= dict_of);
  verification_reference ← lift (item reconcile_summary "deployment_verification" ≫= dict_of);
  reconcile_reference ← evidence_reference (TxFile t MANUAL_RECOVERY_RECONCILE_SUMMARY);
  modify (set_rec (dsetdefault record "recovery_failed_completed_at" (get record "completed_at")));;
  completed ← now;
  manual_sha256 ← lift (m ← item manual_evidence "manual"; d ← dict_of m; item d "sha256");
  upd_rec [("status", PStr "recovery_reconciled"); ("completed_at", PStr completed);
           ("reconciled", PBool true); ("reconciled_from_status", PStr "recovery_failed");
           ("restored_current", PStr current); ("current", PStr current);
           ("manual_recovery_transaction_record_mutated", PBool false);
           ("manual_recovery_summary_sha256", manual_sha256);
           ("manual_recovery_reconcile",
              PDict [("summary", PDict reconcile_reference);
                     ("runtime_status", PDict runtime_reference);
                     ("deployment_verification", PDict verification_reference)])];;
  write_transaction_record t;;
  record_sha256 ← evidence_sha256 (TxFile t "record.json");
  mret (dupdate reconcile_summary
          [("reconcile_summary", PDict reconcile_reference);
           ("record_sha256", PStr record_sha256)]).

Definition required_current : M string :=
  current ← resolve_link Current true;
  match current with Some cur => mret cur | None => raise CAssertionError "" end.

(** [_resume_completed_recovery_reconcile]. *)
Definition resume_completed_recovery_reconcile (t : string) (record : pydict) (resolution : path)
    (allow : bool) : M pydict :=
  current ← required_current;
  result_pass ← lift (
    if ne record "status" (PStr "recovery_reconciled")
       || ne record "reconciled_from_status" (PStr "recovery_failed")
       || ne record "current" (PStr current) || ne record "from_current" (PStr current)
    then Ok PNone
    else vget (get_or record "result" (PDict [])) "overall_pass");
  require_not (negb (is_false result_pass))
    "completed recovery reconciliation record is invalid";;
  manual_evidence ← validate_manual_recovery t record current resolution;
  let final := TxFile t MANUAL_RECOVERY_RECONCILE_SUMMARY in
  regular_evidence final "manual recovery reconcile summary";;
  summary ← load_evidence final "manual recovery reconcile summary";
  let bad :=
    ne summary "schema_version" (PInt 1) || not_true summary "overall_pass"
    || ne summary "operation" (PStr "reconcile-manual-recovery")
    || ne summary "transaction_id" (PStr t) || ne summary "current" (PStr current)
    || ne summary "terminal_state" (PStr "recovery_reconciled")
    || ne summary "manual_recovery" (PDict manual_evidence)
    || not_false summary "protected_state_mutated"
    || negb (is_bool_of (get summary "legacy_redis_hardening_bridge") allow)
    || not_false summary "secret_material_recorded" in
  require_not bad "completed recovery reconciliation evidence is invalid";;
  bound ← lift (vget (get_or record "manual_recovery_reconcile" (PDict [])) "summary");
  observed ← evidence_reference final;
  require_not (negb (py_eqb bound (PDict observed)))
    "completed recovery reconciliation evidence is invalid";;
  reference ← evidence_reference final;
  record_sha256 ← evidence_sha256 (TxFile t "record.json");
  mret (dupdate summary
          [("reconcile_summary", PDict reference); ("record_sha256", PStr record_sha256);
           ("idempotent", PBool true)]).

(** ** [reconcile_recovery] *)

(** The checks on the blocking transaction and on the recovered topology. *)
Definition check_recovered (t : string) (record : pydict) : M string :=
  require_not
    (ne record "schema_version" (PInt 1) || ne record "transaction_id" (PStr t)
     || ne record "status" (PStr "recovery_failed")
     || not_false record "secret_material_recorded")
    "blocking recovery transaction is invalid";;
  current ← required_current;
  require_not (ne record "from_current" (PStr current))
    "blocking recovery transaction and current deployment differ";;
  deployed ← record_get current;
  require_not (ne deployed "status" (PStr "verified"))
    "recovered current deployment is not verified";;
  active ← gets st_active;
  require_not
    (match active with
     | ASymlink raw => negb (String.eqb (path_str (py_path raw)) expected_active_target)
     | _ => true
     end)
    "active image environment is not bound to recovered current";;
  mret current.

(** A directory for a new attempt. *)
Definition new_attempt (t : string) : M string :=
  attempts ← gets (λ s, tx_lookup s t attempts_name);
  match attempts with
  | Some NDir => mret ()
  | None => durably (put_tx t attempts_name NDir)
  | Some _ => fail_lc "reconcile attempts path is unsafe"
  end;;
  stamp ← strftime_now;
  u ← uuid_hex;
  let attempt_id := stamp +:+ "-" +:+ str_take 12 u in
  old ← gets (λ s, tx_lookup s t (attempt_name attempt_id));
  match old with
  | Some _ => raise CFileExistsError
                ("File exists: " +:+ path_join (tx_dir t) (attempt_name attempt_id))
  | None => durably (put_tx t (attempt_name attempt_id) NDir)
  end;;
  mret attempt_id.

(** The runtime status and the read-only verification of the attempt. *)
Definition run_attempt (t current attempt_id : string) (allow : bool) : M unit :=
  deployment_dir current;;
  failures ← ex_runtime_status current;
  generated ← now;
  write_new_tx_json t (runtime_name attempt_id)
    [("schema_version", PInt 1); ("generated_at", PStr generated);
     ("overall_pass", PBool (match failures with [] => true | _ => false end));
     ("transaction_id", PStr t); ("current", PStr current);
     ("failures", PList (map PStr failures)); ("secret_material_recorded", PBool false)];;
  require_not (match failures with [] => false | _ => true end)
    ("recovered current runtime status did not pass: " +:+ str_concat "; " failures);;
  deployment_dir current;;
  verification ← ex_verify_read_only current t (verification_name attempt_id)
                   ROLLBACK_DEADLINE_SECONDS allow;
  require_not (read_only_fails verification allow)
    "recovered current read-only verification did not pass".

(** Nothing the closure relies on changed since it was read. *)
Definition check_evidence_item (v : py) : M unit :=
  d ← lift (dict_of v);
  p ← lift (item d "path");
  h ← evidence_sha256 (PathFile (py_path (py_str p)));
  expected ← lift (item d "sha256");
  require_not (negb (py_eqb (PStr h) expected))
    "manual recovery evidence changed during reconciliation".
Definition check_unchanged (t record_sha256 : string) (manual_evidence : pydict) : M unit :=
  h ← evidence_sha256 (TxFile t "record.json");
  require_not (negb (String.eqb h record_sha256))
    "blocking transaction record changed during reconciliation";;
  m_iter check_evidence_item (map snd manual_evidence).

Definition reconcile_summary (generated t current record_sha256 attempt_id : string)
    (manual_evidence runtime verification : pydict) (allow : bool) : pydict :=
  [("schema_version", PInt 1); ("generated_at", PStr generated); ("overall_pass", PBool true);
   ("operation", PStr "reconcile-manual-recovery"); ("transaction_id", PStr t);
   ("current", PStr current); ("blocking_state_before", PStr "recovery_failed");
   ("terminal_state", PStr "recovery_reconciled"); ("manual_recovery", PDict manual_evidence);
   ("transaction_record_sha256_before", PStr record_sha256); ("attempt_id", PStr attempt_id);
   ("runtime_status", PDict runtime); ("deployment_verification", PDict verification);
   ("record_update_authorized", PBool true); ("protected_state_mutated", PBool false);
   ("legacy_redis_hardening_bridge", PBool allow); ("secret_material_recorded", PBool false)].

(** The closure of the blocking transaction: resume from an earlier summary,
    or make a new attempt. *)
Definition close_recovered (t : string) (record : pydict) (current : string)
    (resolution : path) (allow : bool) : M pydict :=
  record_sha256 ← evidence_sha256 (TxFile t "record.json");
  manual_evidence ← validate_manual_recovery t record current resolution;
  final ← gets (λ s, tx_lookup s t MANUAL_RECOVERY_RECONCILE_SUMMARY);
  if exists_or_link final then
    summary ← validate_existing_reconcile_summary t current record_sha256 manual_evidence allow;
    complete_recovery_reconcile t record current manual_evidence summary
  else
    attempt_id ← new_attempt t;
    run_attempt t current attempt_id allow;;
    check_unchanged t record_sha256 manual_evidence;;
    generated ← now;
    runtime ← evidence_reference (TxFile t (runtime_name attempt_id));
    verification ← evidence_reference (TxFile t (verification_name attempt_id));
    let summary := reconcile_summary generated t current record_sha256 attempt_id
                     manual_evidence runtime verification allow in
    write_new_tx_json t MANUAL_RECOVERY_RECONCILE_SUMMARY summary;;
    complete_recovery_reconcile t record current manual_evidence summary.

Definition close_blocking (t : string) (record : pydict) (resolution : path) (allow : bool)
    : M pydict :=
  regular_evidence (TxFile t "record.json") "blocking transaction record";;
  current ← check_recovered t record;
  close_recovered t record current resolution allow.

(** The transaction to close is the only blocking one. *)
Definition reconcile_blocking (t : string) (resolution : path) (allow : bool) : M pydict :=
  blocking ← blocking_recovery_transactions;
  match blocking with
  | [(transaction, record)] =>
      require_not (negb (String.eqb transaction t))
        "specified transaction is not the unique blocking recovery failure";;
      close_blocking transaction record resolution allow
  | _ => fail_lc ("manual recovery reconciliation requires exactly one blocking "
                  +:+ "recovery_failed transaction; found "
                  +:+ Z_str (Z.of_nat (length blocking)))
  end.

(** The record of the named transaction, when it is a regular file. *)
Definition requested_record (t : string) : M (option pydict) :=
  n ← gets (λ s, tx_lookup s t "record.json");
  if is_file n then
    r ← lift (load_json_object n (path_join (tx_dir t) "record.json") "lifecycle transaction");
    mret (Some r)
  else mret None.

Definition reconcile_recovery (t : string) (resolution : path) (allow : bool) : M pydict :=
  require_not (negb (DEPLOYMENT_ID_RE t)) "recovery transaction ID is invalid";;
  with_lifecycle_lock (
    ensure_layout;;
    requested ← requested_record t;
    match requested with
    | Some r =>
        if py_eqb (get r "status") (PStr "recovery_reconciled")
        then resume_completed_recovery_reconcile t r resolution allow
        else reconcile_blocking t resolution allow
    | None => reconcile_blocking t resolution allow
    end).
End recovery.
