(* ===== verification/LifecycleLogic.v ===== *)
(** * A program logic for lifecycle computations

    Triples over the monad of [LifecycleIO] with one postcondition for normal
    return and one for exceptions and crashes, the preservation special case
    with its hint database, and the frame contract of the executor interface.
    Because a crash can happen at every event and leaves the state as it is,
    the exceptional postcondition holds in every intermediate durable state. *)
From S2P Require Import Prelude PyFloat PyValue LifecycleCore LifecycleIO LifecycleSamples.
From S2P Require Import LifecycleRecords LifecycleNetwork LifecycleTransaction LifecycleCommands.

Section logic.
Definition triple {A} (P : st → Prop) (m : M A) (Q : A → st → Prop) (E : st → Prop) : Prop :=
  ∀ s, P s → match m s with
             | (ORet a, s') => Q a s'
             | (ORaise _, s') | (OCrash, s') => E s'
             end.

(** [I] holds after [m], however [m] ends. *)
Definition pres {A} (I : st → Prop) (m : M A) : Prop := ∀ s, I s → I (m s).2.

Lemma pres_triple {A} I (m : M A) : pres I m ↔ triple I m (λ _, I) I.
Proof.
  unfold pres, triple. split; intros Hm s HI; specialize (Hm s HI);
    by destruct (m s) as [[] ?].
Qed.

Lemma triple_ret {A} (P : st → Prop) (a : A) (Q : A → st → Prop) E :
  (∀ s, P s → Q a s) → triple P (mret a) Q E.
Proof. intros HQ s HP. by apply HQ. Qed.

Lemma triple_bind {A B} P (m : M A) (f : A → M B) R Q E :
  triple P m R E → (∀ a, triple (R a) (f a) Q E) → triple P (m ≫= f) Q E.
Proof.
  intros Hm Hf s HP. unfold mbind, M_bind. specialize (Hm s HP).
  destruct (m s) as [[a|e|] s']; try done. by apply (Hf a).
Qed.

Lemma triple_assoc {A B C} P (m : M A) (n : A → M B) (f : B → M C) Q E :
  triple P ((m ≫= n) ≫= f) Q E → triple P (m ≫= λ a, n a ≫= f) Q E.
Proof.
  intros Hm s HP. specialize (Hm s HP). unfold mbind, M_bind in *.
  by destruct (m s) as [[a|e|] s'].
Qed.

Lemma triple_conseq {A} (P P' : st → Prop) (m : M A) Q Q' (E E' : st → Prop) :
  triple P' m Q' E' → (∀ s, P s → P' s) → (∀ a s, Q' a s → Q a s) → (∀ s, E' s → E s) →
  triple P m Q E.
Proof.
  intros Hm HP HQ HE s Hs. specialize (Hm s (HP s Hs)). destruct (m s) as [[] ?]; eauto.
Qed.

Lemma triple_try {A} P (m : M A) h Q E E' :
  triple P m Q E → (∀ e, triple E (h e) Q E') → (∀ s, E s → E' s) →
  triple P (try_catch m h) Q E'.
Proof.
  intros Hm Hh HE s HP. unfold try_catch. specialize (Hm s HP).
  destruct (m s) as [[a|e|] s']; [done|by apply (Hh e)|by apply HE].
Qed.

(** Facts about the read-only steps. *)
Lemma triple_gets {A} P (f : st → A) E :
  triple P (gets f) (λ a s, P s ∧ a = f s) E.
Proof. intros s HP. done. Qed.

Lemma triple_read {A} P (f : st → res A) :
  triple P (λ s, lift (f s) s) (λ a s, P s ∧ f s = Ok a) P.
Proof. intros s HP. unfold lift. destruct (f s) eqn:Hf; [done|exact HP]. Qed.

Lemma triple_lift {A} P (r : res A) : triple P (lift r) (λ a s, P s ∧ r = Ok a) P.
Proof. intros s HP. unfold lift. destruct r; [done|exact HP]. Qed.

Lemma triple_require P bad msg : triple P (require_not bad msg) (λ _ s, P s ∧ bad = false) P.
Proof. intros s HP. destruct bad; [exact HP|done]. Qed.

Lemma triple_raise {A} (P : st → Prop) c msg (Q : A → st → Prop) : triple P (raise c msg) Q P.
Proof. intros s HP. done. Qed.

(** A pure fact about the precondition can be moved into the context. *)
Lemma triple_pure {A} (φ : Prop) P (m : M A) Q E :
  (φ → triple P m Q E) → triple (λ s, P s ∧ φ) m Q E.
Proof. intros Hm s [HP Hφ]. by apply Hm. Qed.

Lemma triple_exists {A X} (P : X → st → Prop) (m : M A) Q E :
  (∀ x, triple (P x) m Q E) → triple (λ s, ∃ x, P x s) m Q E.
Proof. intros Hm s [x Hx]. by apply (Hm x). Qed.

(** ** Preservation *)

Lemma pres_ret {A} I (a : A) : pres I (mret a).
Proof. intros s HI. exact HI. Qed.

Lemma pres_bind {A B} I (m : M A) (f : A → M B) :
  pres I m → (∀ a, pres I (f a)) → pres I (m ≫= f).
Proof.
  intros Hm Hf s HI. unfold mbind, M_bind. specialize (Hm s HI).
  destruct (m s) as [[a|e|] s']; try done. by apply Hf.
Qed.

Lemma pres_try {A} I (m : M A) h : pres I m → (∀ e, pres I (h e)) → pres I (try_catch m h).
Proof.
  intros Hm Hh s HI. unfold try_catch. specialize (Hm s HI).
  destruct (m s) as [[a|e|] s']; try done. by apply Hh.
Qed.

Lemma pres_attempt I m : pres I m → pres I (attempt m).
Proof. intros Hm. apply pres_try; [apply pres_bind; [done|]|]; intros; apply pres_ret. Qed.

Lemma pres_lift {A} I (r : res A) : pres I (lift r).
Proof. intros s HI. by destruct r. Qed.

Lemma pres_read {A} I (f : st → res A) : pres I (λ s, lift (f s) s).
Proof. intros s HI. by destruct (f s). Qed.

Lemma pres_raise {A} I c msg : pres I (raise (A:=A) c msg).
Proof. intros s HI. exact HI. Qed.

Lemma pres_require I bad msg : pres I (require_not bad msg).
Proof. apply pres_lift. Qed.

Lemma pres_gets {A} I (f : st → A) : pres I (gets f).
Proof. intros s HI. exact HI. Qed.

Lemma pres_modify (I : st → Prop) f : (∀ s, I s → I (f s)) → pres I (modify f).
Proof. intros Hf s HI. by apply Hf. Qed.

Lemma pres_if {A} I (b : bool) (m n : M A) : pres I m → pres I n → pres I (if b then m else n).
Proof. by destruct b. Qed.

Lemma triple_pres_bind {A B} (I : st → Prop) (m : M A) (f : A → M B) Q E :
  pres I m → (∀ a, triple I (f a) Q E) → (∀ s, I s → E s) → triple I (m ≫= f) Q E.
Proof.
  intros Hm Hf HE. apply (triple_bind I m f (λ _, I)); [|done].
  by eapply triple_conseq; [apply pres_triple, Hm|..].
Qed.

Lemma pres_bind_triple {A B} I (m : M A) (f : A → M B) (R : A → st → Prop) :
  triple I m R I → (∀ a, triple (R a) (f a) (λ _, I) I) → pres I (m ≫= f).
Proof. intros Hm Hf. apply pres_triple. by eapply triple_bind. Qed.
End logic.

(** Invariants that do not look at the event counter. *)
Definition ev_stable (I : st → Prop) : Prop := ∀ s, I s → I (set_ev S s).

Section io_pres.
Context `{Runtime}.

Lemma pres_tick I : ev_stable I → pres I tick.
Proof. intros Hev s HI. unfold tick. destruct (fault_at _); by apply Hev. Qed.

Lemma pres_read_at {A} I (f : nat → A) : ev_stable I → pres I (read_at f).
Proof. intros Hev s HI. by apply Hev. Qed.

Lemma pres_durably (I : st → Prop) f :
  ev_stable I → (∀ s, I s → I (f s)) → pres I (durably f).
Proof.
  intros Hev Hf. apply pres_bind; [by apply pres_tick|]. intros [].
  apply pres_bind; [by apply pres_modify|]. intros []. by apply pres_tick.
Qed.

(** A durable update establishes its effect on return. *)
Lemma triple_durably (P Q E : st → Prop) f :
  (∀ s, P s → P (set_ev S s)) → (∀ s, P s → E s) →
  (∀ s, P s → Q (f s)) → (∀ s, Q s → Q (set_ev S s)) → (∀ s, Q s → E s) →
  triple P (durably f) (λ _, Q) E.
Proof.
  intros HP HPE Hf HQ HQE s Hs. unfold durably, mbind, M_bind, tick, modify.
  destruct (fault_at (st_ev s)); try (by apply HPE, HP).
  simpl. destruct (fault_at _); [apply HQ, Hf, HP|apply HQE, HQ, Hf, HP..]; done.
Qed.
End io_pres.

(** ** The executor contract *)

(** What an executor operation leaves alone: everything but the event counter,
    the unit file and the summaries of transactions. *)
Definition ex_frame (s s' : st) : Prop :=
  st_releases s' = st_releases s ∧ st_deployments s' = st_deployments s
  ∧ st_current s' = st_current s ∧ st_previous s' = st_previous s
  ∧ st_active s' = st_active s ∧ st_secret s' = st_secret s
  ∧ st_rec s' = st_rec s ∧ st_log s' = st_log s
  ∧ (∀ t, tx_lookup s' t "record.json" = tx_lookup s t "record.json").

Definition framed {A} (m : M A) : Prop := ∀ s, ex_frame s (m s).2.

Class ExecutorContract {E : LifecycleExecutor} : Prop := {
  frame_precheck d t : framed (ex_precheck d t);
  frame_activate d t : framed (ex_activate d t);
  frame_commit d t : framed (ex_commit d t);
  frame_uncommit t : framed (ex_uncommit t);
  frame_deactivate d t : framed (ex_deactivate d t);
  frame_transition a b x n t : framed (ex_prepare_transition a b x n t);
  frame_verify d x n t : framed (ex_verify d x n t);
  frame_bridge d x n t : framed (ex_verify_bridge d x n t);
  frame_read_only d x n t b : framed (ex_verify_read_only d x n t b);
  frame_runtime_status d : framed (ex_runtime_status d);
  frame_inactive_status : framed ex_inactive_status }.
Arguments ExecutorContract E : clear implicits.

(** Invariants stable under such operations. *)
Definition frame_stable (I : st → Prop) : Prop := ∀ s s', ex_frame s s' → I s → I s'.

Lemma pres_framed {A} I (m : M A) : frame_stable I → framed m → pres I m.
Proof. intros HI Hm s Hs. by apply (HI s _ (Hm s)). Qed.

Lemma ex_frame_refl s : ex_frame s s.
Proof. by repeat split. Qed.

Lemma sample_contract : ExecutorContract sample_executor.
Proof. split; intros; intros s; apply ex_frame_refl. Qed.

Lemma failing_contract : ExecutorContract failing_executor.
Proof. split; intros; intros s; apply ex_frame_refl. Qed.

Lemma ex_frame_trans s1 s2 s3 : ex_frame s1 s2 → ex_frame s2 s3 → ex_frame s1 s3.
Proof.
  intros (?&?&?&?&?&?&?&?&Ht) (?&?&?&?&?&?&?&?&Ht').
  unfold ex_frame; split_and!; try congruence; intros t; rewrite Ht'; auto.
Qed.

Lemma ex_frame_ev s : ex_frame s (set_ev S s).
Proof. by repeat split. Qed.

Lemma frame_stable_ev I : frame_stable I → ev_stable I.
Proof. intros HI s. apply HI, ex_frame_ev. Qed.

(** Computations that leave everything but the event counter alone. *)
Definition only_events (s s' : st) : Prop := ∃ n, s' = set_ev (λ _, n) s.
Definition readonly {A} (m : M A) : Prop := ∀ s, only_events s (m s).2.

Lemma only_events_refl s : only_events s s.
Proof. exists (st_ev s). by destruct s. Qed.

Lemma only_events_trans s1 s2 s3 : only_events s1 s2 → only_events s2 s3 → only_events s1 s3.
Proof. intros [n ->] [m ->]. by exists m. Qed.

Lemma only_events_frame s s' : only_events s s' → ex_frame s s'.
Proof. intros [n ->]. by repeat split. Qed.

Lemma readonly_framed {A} (m : M A) : readonly m → framed m.
Proof. intros Hm s. apply only_events_frame, Hm. Qed.

Lemma readonly_bind {A B} (m : M A) (f : A → M B) :
  readonly m → (∀ a, readonly (f a)) → readonly (m ≫= f).
Proof.
  intros Hm Hf s. unfold mbind, M_bind. specialize (Hm s).
  destruct (m s) as [[a|e|] s']; try done. eapply only_events_trans; [done|apply Hf].
Qed.

Lemma readonly_ret {A} (a : A) : readonly (mret a).
Proof. intros s. apply only_events_refl. Qed.
Lemma readonly_lift {A} (r : res A) : readonly (lift r).
Proof. intros s. destruct r; apply only_events_refl. Qed.
Lemma readonly_read {A} (f : st → res A) : readonly (λ s, lift (f s) s).
Proof. intros s. apply (readonly_lift (f s)). Qed.
Lemma readonly_raise {A} c msg : readonly (raise (A:=A) c msg).
Proof. intros s. apply only_events_refl. Qed.
Lemma readonly_require bad msg : readonly (require_not bad msg).
Proof. apply readonly_lift. Qed.
Lemma readonly_gets {A} (f : st → A) : readonly (gets f).
Proof. intros s. apply only_events_refl. Qed.
Lemma readonly_read_at `{Runtime} {A} (f : nat → A) : readonly (read_at f).
Proof. intros s. by exists (S (st_ev s)). Qed.
Lemma readonly_tick `{Runtime} : readonly tick.
Proof. intros s. exists (S (st_ev s)). unfold tick. by destruct (fault_at _). Qed.
Lemma readonly_iter {A} (f : A → M unit) l : (∀ x, readonly (f x)) → readonly (m_iter f l).
Proof.
  intros Hf. induction l as [|x l IH]; [apply readonly_ret|]. by apply readonly_bind.
Qed.

(** A run of framed computations is framed. *)
Lemma framed_bind {A B} (m : M A) (f : A → M B) :
  framed m → (∀ a, framed (f a)) → framed (m ≫= f).
Proof.
  intros Hm Hf s. unfold mbind, M_bind. specialize (Hm s).
  destruct (m s) as [[a|e|] s']; try done. eapply ex_frame_trans; [done|apply Hf].
Qed.

Lemma framed_lift {A} (r : res A) : framed (lift r).
Proof. intros s. destruct r; apply ex_frame_refl. Qed.

Lemma framed_tick `{Runtime} : framed tick.
Proof. intros s. unfold tick. destruct (fault_at _); apply ex_frame_ev. Qed.

Lemma tx_lookup_put_eq s t name n : tx_lookup (put_tx t name n s) t name = Some n.
Proof. unfold tx_lookup, put_tx, set_tx; simpl. by rewrite lookup_insert_eq; simpl; rewrite lookup_insert_eq. Qed.

Lemma tx_lookup_put_ne s t name t' name' n :
  (t', name') ≠ (t, name) → tx_lookup (put_tx t name n s) t' name' = tx_lookup s t' name'.
Proof.
  intros Hne. unfold tx_lookup, put_tx, set_tx; simpl.
  destruct (decide (t' = t)) as [->|Ht]; [|by rewrite lookup_insert_ne].
  rewrite lookup_insert_eq; simpl. rewrite lookup_insert_ne by congruence.
  by destruct (st_tx s !! t).
Qed.

(** Writing a summary is framed. *)
Lemma ex_frame_put_summary t name n s :
  name ≠ "record.json" → ex_frame s (put_tx t name n s).
Proof. intros Hn. repeat split. intros t'. apply tx_lookup_put_ne. congruence. Qed.

(** ** The write of a transaction record *)

(** The fields of a record that [_write_transaction_record] derives. *)
Definition derived_keys : list string := ["host"; "operator"; "result"].

Lemma get_dsets_derived d k v k' :
  k' ∈ derived_keys → k ∉ derived_keys → get (dset d k' v) k = get d k.
Proof. intros Hk' Hk. apply get_dset_ne. set_solver. Qed.

Lemma pres_write_record `{Runtime} (J : st → Prop) t :
  ev_stable J →
  (∀ v s, (∀ k, k ∉ derived_keys → get v k = get (st_rec s) k) → J s → J (set_rec v s)) →
  (∀ s, J s → J (put_tx t "record.json" (NFile (CJson (PDict (st_rec s)))) s)) →
  pres J (write_transaction_record t).
Proof.
  intros Hev Hrec Hput.
  unfold write_transaction_record, stamp_identity, completed_summaries, summary_references, identity.
  apply pres_bind.
  { apply pres_bind; [apply pres_gets|intros r]. apply pres_if; [|apply pres_ret].
    apply pres_bind; [apply pres_bind; [by apply pres_read_at|intros x; apply pres_lift]|].
    intros [h o]. apply pres_modify. intros s. apply Hrec. intros k Hk.
    by rewrite !get_dsetdefault_ne by set_solver. }
  intros _. apply pres_bind; [apply pres_gets|intros r]. apply pres_bind.
  { apply pres_if; [|apply pres_ret]. apply pres_bind; [apply pres_read|intros l; apply pres_ret]. }
  intros x. apply pres_bind.
  { apply pres_modify. intros s. apply Hrec. intros k Hk. by apply get_dsets_derived; [set_solver|]. }
  intros _. eapply pres_bind_triple; [apply triple_gets|]. intros v.
  apply triple_durably.
  - intros s [Hs Hv]. split; [by apply Hev|done].
  - by intros s [Hs _].
  - intros s [Hs ->]. by apply Hput.
  - done.
  - done.
Qed.
