(* ===== verification/LifecycleInvariants.v ===== *)
(** * Release lifecycle: what a command preserves

    The interface [LifecycleFrame] lists what an assertion about the persistent
    state has to tolerate to survive every step of a lifecycle transaction
    other than the write of its record, however the step ends, and
    [LifecycleInvariant] adds that write.  The assertion is indexed by the facts
    learned so far: which deployments are recorded as verified and which ones
    the verification returned for.  The preservation theorems of the
    transaction bodies, handlers and reconciliations are proved once, against
    the interface; the safety theorems instantiate them. *)
From S2P Require Import Prelude PyFloat PyValue LifecycleCore LifecycleIO LifecycleRecords.
From S2P Require Import LifecycleNetwork LifecycleTransaction LifecycleCommands LifecycleLogic.

Inductive known :=
  | KVerified (i : string)
  | KLogged (i : string).

Definition learned_from_event (e : event) : list known :=
  match e with EVerify i => [KLogged i] | _ => [] end.
Definition learned_verified (o : option string) : list known :=
  match o with Some i => [KVerified i] | None => [] end.
Definition str_of (v : py) : option string :=
  match v with PStr p => Some p | _ => None end.

Class LifecycleFrame `{Runtime} (I : list known → st → Prop) : Prop := {
  li_weaken L L' s : L ⊆ L' → I L' s → I L s;
  li_frame L : frame_stable (I L);
  li_log L e s : I L s → I (learned_from_event e ++ L) (set_log (cons e) s);
  li_active L a s : I L s → I L (set_active a s);
  li_rec L v s :
    get v "from_current" = get (st_rec s) "from_current" → I L s → I L (set_rec v s);
  li_adopt L v s :
    learned_verified (str_of (get v "from_current")) ⊆ L → I L s → I L (set_rec v s);
  li_link L w i s :
    (w = Current → KVerified i ∈ L) → I L s → I L (set_link w (LTo (dep_dir i)) s);
  li_clear L s : I L s → I L (set_current LMissing s);
  li_current L i s : st_current s = LTo (dep_dir i) → I L s → I (KVerified i :: L) s;
  li_from L p s :
    get (st_rec s) "from_current" = PStr p → I L s → I (KVerified p :: L) s;
  li_status L i r s :
    record_of s i = Ok r → get r "status" = PStr "verified" → I L s → I (KVerified i :: L) s;
  li_verify L i r fields s :
    KLogged i ∈ L → record_of s i = Ok r → get (dupdate r fields) "status" = PStr "verified" →
    I L s → I (KVerified i :: L) (set_deployments (alter (with_record (dupdate r fields)) i) s) }.

(** An assertion that also tolerates the write of the record of [t]. *)
Class LifecycleInvariant `{Runtime} (t : string) (I : list known → st → Prop) : Prop := {
  li_base :: LifecycleFrame I;
  li_write L s :
    I L s → I L (put_tx t "record.json" (NFile (CJson (PDict (st_rec s)))) s) }.

Create HintDb lifecycle discriminated.

(** Walk through a computation, leaving the steps no hint knows. *)
Ltac pres_auto :=
  repeat first
    [ progress intros
    | solve [eauto with lifecycle nocore]
    | match goal with
      | |- pres _ (mbind (λ '(_, _), _) _) => apply pres_bind; [|intros [? ?]]
      | |- pres _ (mbind _ _) => apply pres_bind
      | |- pres _ (attempt _) => apply pres_attempt
      | |- pres _ (match ?x with _ => _ end) => destruct x eqn:?
      end ].

#[export] Hint Resolve pres_ret pres_lift pres_read pres_raise pres_require pres_gets
  pres_attempt : lifecycle.

(** Paths below a directory. *)
Lemma starts_with_app p s : starts_with p s = true → ∃ r, s = p +:+ r.
Proof.
  unfold starts_with. revert s. induction p as [|a p IH]; intros s; [by exists s|].
  destruct s as [|b s]; simpl; [done|].
  destruct (ascii_dec a b) as [->|]; [|done]. intros [r ->]%IH. by exists r.
Qed.

Lemma relative_to_spec base path name :
  relative_to base path = Some name → name ≠ "" → path = path_join base name.
Proof.
  unfold relative_to. destruct (String.eqb path base); [by intros [= <-]|].
  destruct (starts_with _ _) eqn:E; [|done]. intros [= <-] _.
  apply starts_with_app in E as [r ->]. unfold path_join.
  replace (String.length base + 1) with (String.length (base +:+ "/"))
    by (induction base as [|? ? IH]; [done|simpl in *; by rewrite IH]).
  by rewrite str_skip_app, app_str_assoc.
Qed.

Lemma sub_app_r (K L : list known) : L ⊆ K ++ L.
Proof. by apply list_subseteq_app_r. Qed.

#[export] Hint Extern 0 (LifecycleFrame _) => apply _ : lifecycle.
#[export] Hint Extern 0 (LifecycleInvariant _ _) => apply _ : lifecycle.
#[export] Hint Extern 0 (ExecutorContract _) => apply _ : lifecycle.

Section frame.
Context `{Runtime, LifecycleExecutor, !ExecutorContract _}.
Context (I : list known → st → Prop) `{!LifecycleFrame I}.

Lemma li_ev L : ev_stable (I L).
Proof. apply frame_stable_ev, li_frame. Qed.
#[local] Hint Resolve li_ev : lifecycle.

Lemma pres_now L : pres (I L) now.
Proof. apply pres_read_at, li_ev. Qed.
Lemma pres_monotonic L : pres (I L) monotonic.
Proof. apply pres_read_at, li_ev. Qed.
Lemma pres_uuid L : pres (I L) uuid_hex.
Proof. apply pres_read_at, li_ev. Qed.
Lemma pres_identity_read L : pres (I L) (read_at identity_at).
Proof. apply pres_read_at, li_ev. Qed.
#[local] Hint Resolve pres_now pres_monotonic pres_uuid pres_identity_read : lifecycle.

Lemma pres_deployment_dir L i : pres (I L) (deployment_dir i).
Proof. unfold deployment_dir. pres_auto. Qed.
Lemma pres_record_get L i : pres (I L) (record_get i).
Proof. apply pres_read. Qed.
Lemma pres_remaining L a b : pres (I L) (remaining a b).
Proof. unfold remaining. pres_auto. Qed.
Lemma pres_elapsed L a : pres (I L) (elapsed_since a).
Proof. unfold elapsed_since. pres_auto. Qed.
#[local] Hint Resolve pres_deployment_dir pres_record_get pres_remaining pres_elapsed
  : lifecycle.

Lemma pres_resolve_link L w b : pres (I L) (resolve_link w b).
Proof. unfold resolve_link, fail_lc. pres_auto. Qed.
Lemma pres_legacy_matches L i : pres (I L) (legacy_current_matches i).
Proof. unfold legacy_current_matches. pres_auto. Qed.
Lemma pres_unit_compatibility L a b : pres (I L) (validate_unit_compatibility a b).
Proof. unfold validate_unit_compatibility. pres_auto. Qed.
#[local] Hint Resolve pres_resolve_link pres_legacy_matches pres_unit_compatibility
  : lifecycle.

(** Learning: a step whose success adds facts. *)
Lemma pres_bind_learn {A B} L K (m : M A) (f : A → M B) :
  triple (I L) m (λ a, I (K a ++ L)) (I L) →
  (∀ a, pres (I (K a ++ L)) (f a)) → pres (I L) (m ≫= f).
Proof.
  intros Hm Hf. eapply pres_bind_triple; [done|]. intros a s Hs.
  pose proof (li_weaken L (K a ++ L) _ (sub_app_r _ _) (Hf a s Hs)).
  by destruct (f a s) as [[] ?].
Qed.

Lemma pres_weaken_pre {A} L L' (m : M A) :
  (∀ s, I L s → I L' s) → L ⊆ L' → pres (I L') m → pres (I L) m.
Proof. intros HL Hsub Hm s Hs. eapply li_weaken, Hm, HL; done. Qed.

Lemma pres_framed_ex {A} L (m : M A) : framed m → pres (I L) m.
Proof. apply pres_framed, li_frame. Qed.

(** Executor calls. *)
Lemma triple_logged {A} L e (m : M A) :
  framed m → triple (I L) (logged e m) (λ _, I (learned_from_event e ++ L)) (I L).
Proof.
  intros Hm. unfold logged. eapply triple_bind.
  { eapply (proj1 (pres_triple _ _)), pres_framed_ex, Hm. }
  intros a s Hs. by apply li_log.
Qed.

Lemma triple_learn_pres {A} L K (m : M A) :
  triple (I L) m (λ a, I (K a ++ L)) (I L) → pres (I L) m.
Proof.
  intros Hm. apply pres_triple. eapply triple_conseq; [done|done| |done].
  intros a s. exact (li_weaken L (K a ++ L) s (sub_app_r _ _)).
Qed.

Lemma pres_logged {A} L e (m : M A) : framed m → pres (I L) (logged e m).
Proof. intros Hm. eapply (triple_learn_pres L (λ _, learned_from_event e)). by apply triple_logged. Qed.
#[local] Hint Resolve pres_logged frame_precheck frame_activate frame_commit frame_uncommit
  frame_deactivate frame_transition frame_verify frame_bridge frame_read_only : lifecycle.

Lemma pres_exec_precheck L i a b : pres (I L) (exec_precheck i a b).
Proof. unfold exec_precheck. pres_auto. Qed.
Lemma pres_exec_activate L i a b : pres (I L) (exec_activate i a b).
Proof. unfold exec_activate. pres_auto. Qed.
Lemma pres_exec_commit L i a b : pres (I L) (exec_commit i a b).
Proof. unfold exec_commit. pres_auto. Qed.
Lemma pres_exec_deactivate L i a b : pres (I L) (exec_deactivate i a b).
Proof. unfold exec_deactivate. pres_auto. Qed.
Lemma pres_exec_uncommit L a b : pres (I L) (exec_uncommit a b).
Proof. unfold exec_uncommit. pres_auto. Qed.
Lemma pres_prepare_transition L o i u a b n : pres (I L) (prepare_transition o i u a b n).
Proof. unfold prepare_transition. pres_auto. Qed.
Lemma pres_verify_target L i u x n : pres (I L) (verify_target i u x n).
Proof. unfold verify_target. pres_auto. Qed.
#[local] Hint Resolve pres_exec_precheck pres_exec_activate pres_exec_commit
  pres_exec_deactivate pres_exec_uncommit pres_prepare_transition pres_verify_target : lifecycle.

Lemma pres_verify_within L i u a b n : pres (I L) (verify_within i u a b n).
Proof. unfold verify_within. pres_auto. Qed.
#[local] Hint Resolve pres_verify_within : lifecycle.

(** A verification that returned is on the log. *)
Lemma learn_verify_within L i u a b n :
  triple (I L) (verify_within i u a b n) (λ _, I ([KLogged i] ++ L)) (I L).
Proof.
  unfold verify_within. eapply triple_bind; [apply pres_triple, pres_remaining|].
  intros x s Hs. unfold verify_target, deployment_dir, mbind, M_bind, lift.
  destruct (check_deployment_id i); [|done]. exact (triple_logged L (EVerify i) _ (frame_verify i u n x) s Hs).
Qed.

(** Records and files. *)
Lemma pres_upd_rec L kvs : "from_current" ∉ map fst kvs → pres (I L) (upd_rec kvs).
Proof. intros Hn. apply pres_modify. intros s. apply li_rec. by apply get_dupdate_notin. Qed.

Lemma pres_identity L : pres (I L) identity.
Proof. unfold identity. pres_auto. Qed.
#[local] Hint Resolve pres_identity : lifecycle.

Lemma pres_set_status L v : pres (I L) (set_status v).
Proof. apply pres_upd_rec. compute_done. Qed.
#[local] Hint Resolve pres_set_status : lifecycle.

Lemma pres_active L f : (∀ s, f s = set_active (st_active (f s)) s) → pres (I L) (durably f).
Proof. intros Hf. apply pres_durably; [apply li_ev|]. intros s Hs. rewrite Hf. by apply li_active. Qed.

Lemma pres_clear_active L : pres (I L) clear_active_image_link.
Proof. unfold clear_active_image_link. pres_auto. by apply pres_active. Qed.
Lemma pres_ensure_active L : pres (I L) ensure_active_image_link.
Proof. unfold ensure_active_image_link, fail_lc. pres_auto; by apply pres_active. Qed.
#[local] Hint Resolve pres_clear_active pres_ensure_active : lifecycle.

Lemma pres_atomic_link L w i :
  (w = Current → KVerified i ∈ L) → pres (I L) (atomic_link i w).
Proof.
  intros Hv. unfold atomic_link. pres_auto.
  apply pres_durably; [apply li_ev|]. intros s. by apply li_link.
Qed.

Lemma pres_clear_current L : pres (I L) (clear_link Current).
Proof.
  unfold clear_link. pres_auto. apply pres_durably; [apply li_ev|]. intros s. by apply li_clear.
Qed.

Lemma pres_activate_files L i : KVerified i ∈ L → pres (I L) (activate_files i).
Proof. intros Hv. unfold activate_files. pres_auto; by apply pres_atomic_link. Qed.

Lemma pres_ensure_failure_summary L t e : pres (I L) (ensure_failure_summary t e).
Proof.
  unfold ensure_failure_summary. pres_auto. apply pres_durably; [apply li_ev|].
  intros s. apply li_frame. by apply ex_frame_put_summary.
Qed.
#[local] Hint Resolve pres_clear_current pres_activate_files pres_ensure_failure_summary
  : lifecycle.

(** The current link names a deployment that is recorded as verified. *)
Lemma learn_resolve_current L b :
  triple (I L) (resolve_link Current b) (λ o, I (learned_verified o ++ L)) (I L).
Proof.
  intros s Hs. unfold resolve_link, gets, fail_lc, raise, mbind, M_bind; simpl.
  destruct (st_current s) as [| |target] eqn:Hc; [by destruct b|done|].
  destruct (relative_to _ _) as [name|] eqn:Hr; [|done].
  unfold require_not, guard_lc, lift. destruct (DEPLOYMENT_ID_RE name) eqn:Hd; [|done].
  simpl. unfold record_get, lift. destruct (record_of s name); [|done]. simpl.
  apply li_current; [|done]. rewrite Hc. f_equal. apply relative_to_spec; [done|].
  by intros ->.
Qed.

Lemma pres_check_verified {A} L i msg (k : M A) :
  pres (I (KVerified i :: L)) k →
  pres (I L) (record ← record_get i;
              require_not (negb (py_eqb (get record "status") (PStr "verified"))) msg;; k).
Proof.
  intros Hk s Hs. unfold record_get, mbind, M_bind, lift, require_not, guard_lc; simpl.
  destruct (record_of s i) as [r|] eqn:Hr; [|done]. simpl.
  destruct (py_eqb _ _) eqn:Hp; [|done]. apply py_eqb_str in Hp. simpl.
  apply (li_weaken L (KVerified i :: L)), Hk; [by apply list_subseteq_cons|].
  by apply (li_status _ _ r).
Qed.

Lemma pres_from_current {A} L (k : pydict → M A) :
  (∀ r, pres (I (learned_verified (str_of (get r "from_current")) ++ L)) (k r)) →
  pres (I L) (gets st_rec ≫= k).
Proof.
  intros Hk. apply (pres_bind_learn L (λ r, learned_verified (str_of (get r "from_current"))));
    [|done].
  intros s Hs. simpl. destruct (get (st_rec s) "from_current") eqn:Hf; try done.
  by apply li_from.
Qed.

Lemma pres_fail_closed L o a b : pres (I L) (fail_closed o a b).
Proof. unfold fail_closed. pres_auto. Qed.

Lemma pres_restore L o t a b f :
  learned_verified o ⊆ L → pres (I L) (restore o t a b f).
Proof.
  intros HL. destruct o as [old|]; simpl in *.
  - pres_auto. apply pres_activate_files. set_solver.
  - apply pres_bind; [pres_auto|]. intros ?. apply pres_fail_closed.
Qed.
#[local] Hint Resolve pres_fail_closed pres_restore : lifecycle.

Lemma learn_update_verified L i x y :
  KLogged i ∈ L →
  triple (I L) (update_deployment i [("status", PStr "verified"); ("verified_at", x);
                                     ("last_transaction", y)])
    (λ _, I ([KVerified i] ++ L)) (I L).
Proof.
  intros Hl s Hs. unfold update_deployment, deployment_dir, record_get, mbind, M_bind, lift.
  destruct (check_deployment_id i); [|done]. unfold mret, M_ret.
  destruct (record_of s i) as [r|] eqn:Hr; [|done].
  apply (triple_durably (λ s, I L s ∧ record_of s i = Ok r) (I ([KVerified i] ++ L)) (I L)).
  - intros s' [Hs' Hr']. split; [by apply li_ev|]. done.
  - by intros s' [Hs' _].
  - intros s' [Hs' Hr']. apply li_verify; try done.
    unfold dupdate; simpl. rewrite !get_dset_ne by done. apply get_dset_eq.
  - intros s'. apply li_ev.
  - intros s'. apply li_weaken, sub_app_r.
  - done.
Qed.
End frame.

#[export] Hint Resolve li_ev pres_now pres_monotonic pres_uuid pres_identity_read
  pres_deployment_dir pres_record_get pres_remaining pres_elapsed pres_resolve_link
  pres_legacy_matches pres_unit_compatibility pres_exec_precheck pres_exec_activate
  pres_exec_commit pres_exec_deactivate pres_exec_uncommit pres_prepare_transition
  pres_verify_target pres_verify_within pres_identity pres_set_status pres_clear_active
  pres_ensure_active pres_clear_current pres_activate_files pres_ensure_failure_summary
  pres_fail_closed pres_restore : lifecycle.

(** Every update of the transaction record other than its creation keeps the
    field that names the deployment to return to. *)
Ltac upd_auto :=
  pres_auto; repeat first
    [ progress pres_auto
    | match goal with
      | |- pres _ (mbind _ (upd_rec _)) => apply pres_bind; [apply pres_upd_rec; [apply _|compute_done]|]
      | |- pres _ (upd_rec _) => apply pres_upd_rec; [apply _|compute_done]
      end ].

Section invariant.
Context `{Runtime, LifecycleExecutor, !ExecutorContract _}.
Context (t : string) (I : list known → st → Prop) `{!LifecycleInvariant t I}.

Lemma pres_write_transaction_record L : pres (I L) (write_transaction_record t).
Proof.
  apply pres_write_record; [apply (li_ev I)| |apply li_write].
  intros v s Hv. apply li_rec, Hv. compute_done.
Qed.
#[local] Hint Resolve pres_write_transaction_record : lifecycle.

Lemma pres_reconcile_verify L : pres (I L) (reconcile_verify t).
Proof. unfold reconcile_verify, fail_lc. upd_auto. Qed.

Lemma pres_reconcile_legacy L i a : pres (I L) (reconcile_legacy t i a).
Proof. unfold reconcile_legacy. upd_auto. Qed.

Lemma pres_reconcile_unpromoted L i o a :
  pres (I L) (reconcile_unpromoted t i o a).
Proof.
  unfold reconcile_unpromoted. destruct o as [cur|]; [|upd_auto].
  apply (pres_check_verified I). apply pres_bind; [apply pres_restore; [apply _..|set_solver]|]. upd_auto.
Qed.

Lemma pres_reconcile_promoted L i a :
  KVerified i ∈ L → pres (I L) (reconcile_promoted t i a).
Proof.
  intros Hi. unfold reconcile_promoted, fail_lc. apply (pres_from_current I). intros r.
  set (K := learned_verified (str_of (get r "from_current"))).
  apply pres_bind.
  { apply pres_attempt. upd_auto; [apply pres_activate_files; [apply _|set_solver]|].
    by apply (pres_atomic_link I). }
  intros [exc|]; [|upd_auto]. apply pres_bind; [pres_auto|]. intros a'.
  apply pres_bind.
  { apply pres_attempt. unfold K. destruct (get r "from_current") eqn:Hf; try upd_auto.
    apply pres_restore; [apply _..|set_solver]. }
  upd_auto.
Qed.

Lemma pres_verify_run L i x allow : pres (I L) (verify_run t i x allow).
Proof.
  unfold verify_run. apply pres_bind; [pres_auto|intros a]. apply pres_bind; [apply pres_try|].
  - upd_auto. apply (pres_logged I), frame_bridge.
  - intros e. upd_auto.
  - intros summary. upd_auto.
Qed.

Lemma pres_activate_body L i o a b : pres (I L) (activate_body i o t a b).
Proof.
  unfold activate_body. do 3 (apply pres_bind; [pres_auto|intros _]).
  do 2 (apply pres_bind; [pres_auto|intros _]).
  eapply (pres_bind_learn I); [apply (learn_verify_within I)|]. intros summary.
  do 3 (apply pres_bind; [pres_auto|intros ?]).
  eapply (pres_bind_learn I); [apply (learn_update_verified I); set_solver|]. intros [].
  upd_auto; [apply pres_activate_files; [apply _|set_solver]|by apply (pres_atomic_link I)].
Qed.

Lemma pres_recover_legacy L i a e : pres (I L) (recover_legacy i t a e).
Proof. unfold recover_legacy, fail_lc. upd_auto. Qed.

Lemma pres_recover_previous L o f a e x y fields m1 m2 :
  learned_verified o ⊆ L → "from_current" ∉ map fst fields →
  pres (I L) (recover_previous o t f a e x y fields m1 m2).
Proof.
  intros HL Hf. unfold recover_previous, fail_lc. upd_auto.
  apply (pres_upd_rec I). rewrite !map_app, !not_elem_of_app. split_and!; [compute_done|done|compute_done].
Qed.

Lemma pres_activate_handler L op i o o' l a e :
  learned_verified o ⊆ L → pres (I L) (activate_handler op i o o' l t a e).
Proof.
  intros HL. unfold activate_handler. upd_auto.
  - apply pres_recover_legacy.
  - apply pres_recover_previous; [done|compute_done].
Qed.

Lemma pres_rollback_body L i o a : KVerified i ∈ L → pres (I L) (rollback_body i o t a).
Proof. intros Hi. unfold rollback_body. upd_auto. by apply (pres_atomic_link I). Qed.

Lemma pres_rollback_handler L i o a e :
  KVerified o ∈ L → pres (I L) (rollback_handler i o t a e).
Proof.
  intros Ho. unfold rollback_handler. upd_auto.
  apply pres_recover_previous; [set_solver|compute_done].
Qed.
Lemma pres_reconcile_record L r : pres (I L) (reconcile_record t r).
Proof.
  unfold reconcile_record. apply pres_bind; [pres_auto|intros _]. apply pres_if.
  { apply pres_reconcile_verify. }
  do 2 (apply pres_bind; [pres_auto|intros ?]). apply pres_if.
  { apply pres_reconcile_legacy. }
  eapply (pres_bind_learn I); [apply (learn_resolve_current I)|]. intros o.
  destruct (opt_str_eqb o _) eqn:Ho; [|apply pres_reconcile_unpromoted].
  apply pres_bind; [pres_auto|intros b]. apply pres_if; [|apply pres_reconcile_unpromoted].
  apply pres_reconcile_promoted. destruct o as [c|]; [|done].
  apply String.eqb_eq in Ho. subst. by left.
Qed.
End invariant.

#[export] Hint Resolve pres_write_transaction_record pres_activate_body pres_activate_handler pres_verify_run
  pres_rollback_body pres_rollback_handler pres_reconcile_record : lifecycle.
