(* ===== verification/LifecycleRecoveryFacts.v ===== *)
(** * Release lifecycle: what closing a recovery touches

    The validations of [reconcile_recovery] are read-only, its attempt only adds
    files to the transaction directory, and its closure keeps every assertion of
    the [LifecycleInvariant] interface. *)
From S2P Require Import Prelude PyFloat PyValue PyPath PyTime LifecycleCore LifecycleIO.
From S2P Require Import LifecycleRecords LifecycleNetwork LifecycleTransaction LifecycleCommands.
From S2P Require Import LifecycleEvidence LifecycleRecovery LifecycleLogic LifecycleInvariants.

Create HintDb readonly discriminated.
#[export] Hint Resolve readonly_ret readonly_lift readonly_read readonly_raise readonly_require
  readonly_gets readonly_read_at readonly_tick : readonly.

(** Walk through a read-only computation. *)
Ltac readonly_auto :=
  repeat first
    [ progress intros
    | solve [eauto with readonly nocore]
    | match goal with
      | |- readonly (mbind _ _) => apply readonly_bind
      | |- readonly (m_iter _ _) => apply readonly_iter
      | |- readonly (match ?x with _ => _ end) => destruct x eqn:?
      end ].

Section readonly.
Context `{Runtime, LifecycleExecutor}.

Lemma readonly_file_node f : readonly (file_node f).
Proof.
  destruct f as [t name|p]; [apply readonly_gets|]. intros s. by exists (S (st_ev s)).
Qed.
#[local] Hint Resolve readonly_file_node : readonly.
Lemma readonly_regular f label : readonly (regular_evidence f label).
Proof. unfold regular_evidence. readonly_auto. Qed.
Lemma readonly_reference f : readonly (evidence_reference f).
Proof. unfold evidence_reference. readonly_auto. Qed.
Lemma readonly_sha256 f : readonly (evidence_sha256 f).
Proof. unfold evidence_sha256. readonly_auto. Qed.
Lemma readonly_load f label : readonly (load_evidence f label).
Proof. unfold load_evidence. readonly_auto. Qed.
#[local] Hint Resolve readonly_regular readonly_reference readonly_sha256 readonly_load
  : readonly.

Lemma readonly_documents files : readonly (load_documents files).
Proof. induction files as [|[name [f label]] files IH]; cbn [load_documents]; readonly_auto. Qed.
Lemma readonly_collect files : readonly (collect_evidence files).
Proof. induction files as [|[name [f label]] files IH]; cbn [collect_evidence]; readonly_auto. Qed.
Lemma readonly_digests d msg fields : readonly (check_digests d msg fields).
Proof. unfold check_digests. readonly_auto. Qed.
Lemma readonly_backup p r field : readonly (check_backup p r field).
Proof. unfold check_backup, fail_lc. readonly_auto. Qed.
Lemma readonly_bound r f : readonly (check_transition_bound r f).
Proof. unfold check_transition_bound. readonly_auto. Qed.
Lemma readonly_paths t p : readonly (check_manual_paths t p).
Proof. unfold check_manual_paths. readonly_auto. Qed.
#[local] Hint Resolve readonly_documents readonly_collect readonly_digests readonly_backup
  readonly_bound readonly_paths : readonly.

Lemma readonly_validate_manual t r c p : readonly (validate_manual_recovery t r c p).
Proof. unfold validate_manual_recovery. cbv zeta. readonly_auto. Qed.
Lemma readonly_reconcile_reference t v n l : readonly (validate_reconcile_reference t v n l).
Proof. unfold validate_reconcile_reference, fail_lc. readonly_auto. Qed.
Lemma readonly_attempt t a r : readonly (check_attempt t a r).
Proof. unfold check_attempt. readonly_auto. Qed.
#[local] Hint Resolve readonly_validate_manual readonly_reconcile_reference readonly_attempt
  : readonly.

Lemma readonly_validate_existing t c h e b :
  readonly (validate_existing_reconcile_summary t c h e b).
Proof. unfold validate_existing_reconcile_summary. cbv zeta. readonly_auto. Qed.
Lemma readonly_resolve_link w b : readonly (resolve_link w b).
Proof. unfold resolve_link, fail_lc, record_get. readonly_auto. Qed.
#[local] Hint Resolve readonly_resolve_link : readonly.
Lemma readonly_required_current : readonly required_current.
Proof. unfold required_current. readonly_auto. Qed.
#[local] Hint Resolve readonly_required_current : readonly.
Lemma readonly_resume t r p b : readonly (resume_completed_recovery_reconcile t r p b).
Proof. unfold resume_completed_recovery_reconcile. cbv zeta. readonly_auto. Qed.
Lemma readonly_unchanged t h e : readonly (check_unchanged t h e).
Proof. unfold check_unchanged, check_evidence_item. readonly_auto. Qed.
Lemma readonly_check_recovered t r : readonly (check_recovered t r).
Proof. unfold check_recovered, record_get. readonly_auto. Qed.
Lemma readonly_requested t : readonly (requested_record t).
Proof. unfold requested_record. readonly_auto. Qed.
End readonly.

#[export] Hint Resolve readonly_file_node readonly_regular readonly_reference readonly_sha256
  readonly_load readonly_documents readonly_collect readonly_digests readonly_backup
  readonly_bound readonly_paths readonly_validate_manual readonly_reconcile_reference
  readonly_attempt readonly_validate_existing readonly_resolve_link readonly_required_current
  readonly_resume readonly_unchanged readonly_check_recovered readonly_requested : readonly.

(** ** The attempt *)

Create HintDb framed discriminated.

Ltac framed_auto :=
  repeat first
    [ progress intros
    | solve [apply readonly_framed; readonly_auto]
    | solve [eauto with framed nocore]
    | match goal with
      | |- framed (mbind _ _) => apply framed_bind
      | |- framed (match ?x with _ => _ end) => destruct x eqn:?
      end ].

Section attempt.
Context `{Runtime, LifecycleExecutor, !ExecutorContract _}.

Lemma framed_put t name n : name ≠ "record.json" → framed (durably (put_tx t name n)).
Proof.
  intros Hn. unfold durably. apply framed_bind; [apply framed_tick|intros _].
  apply framed_bind; [|intros _; apply framed_tick].
  intros s. by apply ex_frame_put_summary.
Qed.

Lemma framed_write_new t name v : name ≠ "record.json" → framed (write_new_tx_json t name v).
Proof.
  intros Hn. unfold write_new_tx_json.
  do 2 (apply framed_bind; [apply readonly_framed; readonly_auto|intros ?]). by apply framed_put.
Qed.

Lemma framed_new_attempt t : framed (new_attempt t).
Proof.
  unfold new_attempt, strftime_now, uuid_hex, fail_lc. framed_auto; by apply framed_put.
Qed.

Lemma framed_run_attempt t c a b : framed (run_attempt t c a b).
Proof.
  unfold run_attempt, deployment_dir, now. framed_auto.
  - apply frame_runtime_status.
  - by apply framed_write_new.
  - apply frame_read_only.
Qed.
End attempt.

(** ** The closure keeps the lifecycle assertions *)

Section closure.
Context `{Runtime, LifecycleExecutor, !ExecutorContract _}.

Section closed.
Context (t : string) (I : list known → st → Prop) `{!LifecycleInvariant t I}.

Lemma pres_readonly {A} L (m : M A) : readonly m → pres (I L) m.
Proof. intros Hm. apply (pres_framed_ex I), readonly_framed, Hm. Qed.

Lemma pres_complete L r c e summary :
  learned_verified (str_of (get r "from_current")) ⊆ L →
  pres (I L) (complete_recovery_reconcile t r c e summary).
Proof.
  intros Hr. unfold complete_recovery_reconcile.
  do 3 (apply pres_bind; [apply pres_readonly; readonly_auto|intros ?]).
  apply pres_bind.
  { apply pres_modify. intros s. apply li_adopt. by rewrite get_dsetdefault_ne. }
  intros _. do 2 (apply pres_bind; [apply pres_readonly; unfold now; readonly_auto|intros ?]).
  apply pres_bind; [apply (pres_upd_rec I); compute_done|intros _].
  apply pres_bind; [by apply (pres_write_transaction_record t I)|intros _].
  apply pres_readonly. readonly_auto.
Qed.

(** The recovered deployment is current, hence verified, and the blocking
    record returns to it. *)
Lemma learn_check_recovered L r :
  triple (I L) (check_recovered t r)
    (λ cur s, I (KVerified cur :: L) s ∧ get r "from_current" = PStr cur) (I L).
Proof.
  assert (∀ cur s, I (KVerified cur :: L) s → I L s) as Hw.
  { intros cur s. apply li_weaken, list_subseteq_cons, reflexivity. }
  unfold check_recovered. apply triple_pres_bind; [apply pres_readonly; readonly_auto| |done].
  intros _. apply (triple_bind _ _ _ (λ cur, I (KVerified cur :: L))).
  { unfold required_current. eapply triple_bind; [apply (learn_resolve_current I)|].
    intros [cur|]; [by apply triple_ret|apply triple_raise]. }
  intros cur.
  apply (triple_bind _ _ _ (λ _ s, I (KVerified cur :: L) s ∧ ne r "from_current" (PStr cur) = false)).
  { eapply triple_conseq; [apply triple_require|done|done|apply Hw]. }
  intros _. apply triple_pure. intros Hne.
  apply negb_false_iff, py_eqb_str in Hne.
  do 4 (apply (triple_pres_bind (I (KVerified cur :: L)));
    [apply pres_readonly; unfold record_get; readonly_auto|intros ?|apply Hw]).
  by apply triple_ret.
Qed.

Lemma pres_close_recovered L r cur p b :
  KVerified cur ∈ L → get r "from_current" = PStr cur →
  pres (I L) (close_recovered t r cur p b).
Proof.
  intros HK Hf. unfold close_recovered.
  do 3 (apply pres_bind; [apply pres_readonly; readonly_auto|intros ?]).
  assert (∀ summary, pres (I L) (complete_recovery_reconcile t r cur a0 summary)) as Hc.
  { intros summary. apply pres_complete. rewrite Hf. simpl. set_solver. }
  apply pres_if; [apply pres_bind; [apply pres_readonly; readonly_auto|done]|].
  apply pres_bind; [apply (pres_framed_ex I), framed_new_attempt|intros attempt].
  apply pres_bind; [apply (pres_framed_ex I), framed_run_attempt|intros _].
  do 4 (apply pres_bind; [apply pres_readonly; unfold now; readonly_auto|intros ?]).
  apply pres_bind; [|done]. by apply (pres_framed_ex I), framed_write_new.
Qed.

Lemma pres_close_blocking L r p b : pres (I L) (close_blocking t r p b).
Proof.
  unfold close_blocking. apply pres_bind; [apply pres_readonly; readonly_auto|intros _].
  eapply pres_bind_triple; [apply learn_check_recovered|]. intros cur. apply triple_pure.
  intros Hf. set (K := KVerified cur :: L).
  assert (∀ s, I K s → I L s) as Hw by (intros s; apply li_weaken, list_subseteq_cons, reflexivity).
  eapply (triple_conseq (I K) (I K) _ _ (λ _, I K) _ (I K)); [|done|by intros _|done].
  apply (proj1 (pres_triple (I K) _)), pres_close_recovered; [by left|done].
Qed.
End closed.

(** The blocking transactions that are found have their records on disk. *)
Lemma blocking_among_disk s ts t r l :
  blocking_among s ts = Ok l → (t, r) ∈ l →
  tx_lookup s t "record.json" = Some (NFile (CJson (PDict r)))
  ∧ in_str_set (get r "status") BLOCKING_TRANSACTION_STATES = Ok true ∧ t ∈ ts.
Proof.
  revert l. induction ts as [|t' ts IH]; intros l; cbn [blocking_among].
  { intros [= <-] Hin. by apply not_elem_of_nil in Hin. }
  intros Hb. apply res_bind_ok in Hb as ([] & _ & Hb).
  apply res_bind_ok in Hb as (r' & Hl & Hb). apply res_bind_ok in Hb as (b & Hst & Hb).
  apply res_bind_ok in Hb as (others & Ho & [= <-]). intros Hin.
  assert ((t, r) ∈ others ∨ (t, r) = (t', r') ∧ b = true) as [Hin'|[[= -> ->] ->]].
  { destruct b; [|by left]. apply elem_of_cons in Hin. naive_solver. }
  - destruct (IH others Ho Hin') as (? & ? & ?). split_and!; try done. by right.
  - split_and!; [|done|by left]. unfold load_json_object in Hl.
    destruct (tx_lookup s t' "record.json") as [[[[]|]| |]|]; try done. by injection Hl as ->.
Qed.

Lemma pres_reconcile_blocking I L t p b :
  LifecycleFrame I →
  (∀ s t' r, tx_lookup s t' "record.json" = Some (NFile (CJson (PDict r))) →
     in_str_set (get r "status") BLOCKING_TRANSACTION_STATES = Ok true →
     I L s → I L (close_blocking t' r p b s).2) →
  pres (I L) (reconcile_blocking t p b).
Proof.
  intros HF Hclose s HI. unfold reconcile_blocking, blocking_recovery_transactions.
  unfold mbind at 1, M_bind at 1, lift.
  destruct (blocking_among s _) as [l|e] eqn:Hb; [|done].
  destruct l as [|[t' r] [|]]; [done| |done].
  unfold mbind, M_bind, require_not, lift. destruct (guard_lc _ _); [|done].
  destruct (blocking_among_disk s _ t' r _ Hb) as (Hd & Hst & _); [by left|].
  by apply (Hclose s t' r).
Qed.

Lemma pres_reconcile_recovery I L t p b :
  LifecycleFrame I →
  (∀ s t' r, tx_lookup s t' "record.json" = Some (NFile (CJson (PDict r))) →
     in_str_set (get r "status") BLOCKING_TRANSACTION_STATES = Ok true →
     I L s → I L (close_blocking t' r p b s).2) →
  pres (I L) (reconcile_recovery t p b).
Proof.
  intros HF Hclose. pose proof (pres_reconcile_blocking I L t p b HF Hclose) as Hrb.
  assert (∀ A (m : M A), readonly m → pres (I L) m) as Hro.
  { intros A m Hm. apply (pres_framed_ex I), readonly_framed, Hm. }
  unfold reconcile_recovery, with_lifecycle_lock, ensure_layout.
  do 4 (apply pres_bind; [apply Hro; readonly_auto|intros ?]).
  destruct a2 as [r|]; [|done]. apply pres_if; [apply Hro; readonly_auto|done].
Qed.
End closure.
