(* ===== verification/LifecycleSafety.v ===== *)
(** * Release lifecycle: safety of the commands

    The commands as steps of a transition system, and the invariants that hold
    in every state a sequence of commands can reach, whatever the executor
    returns, whichever writes fail and wherever a process dies:
    - the current deployment is recorded as verified and its verification
      returned;
    - at most one transaction is open, a normal return leaves none open, and a
      failed recovery blocks every command. *)
From S2P Require Import Prelude PyFloat PyValue PyPath LifecycleCore LifecycleIO LifecycleSamples.
From S2P Require Import LifecycleRecords LifecycleInstall LifecycleNetwork LifecycleTransaction.
From S2P Require Import LifecycleCommands LifecycleEvidence LifecycleRecovery LifecycleLogic.
From S2P Require Import LifecycleInvariants LifecycleRecoveryFacts.

(** ** Deployments and the current link *)

Definition record_on_disk (n : option node) (r : pydict) : Prop :=
  n = Some (NFile (CJson (PDict r))).

(** Deployment [i] has a record with status ["verified"]. *)
Definition verified (s : st) (i : string) : Prop :=
  ∃ d r, st_deployments s !! i = Some d ∧ record_on_disk (dp_record d) r
         ∧ get r "status" = PStr "verified".

Definition known_holds (s : st) (k : known) : Prop :=
  match k with
  | KVerified i => verified s i
  | KLogged i => EVerify i ∈ st_log s
  end.

Definition returns_to_verified (s : st) (r : pydict) : Prop :=
  ∀ p, get r "from_current" = PStr p → verified s p.

Section safe.
Context `{Runtime}.

Record Safe (L : list known) (s : st) : Prop := {
  safe_current i : st_current s = LTo (dep_dir i) → verified s i;
  safe_rec : returns_to_verified s (st_rec s);
  safe_tx t r : record_on_disk (tx_lookup s t "record.json") r → returns_to_verified s r;
  safe_log i : verified s i → EVerify i ∈ st_log s;
  safe_known : Forall (known_holds s) L }.

Lemma load_json_ok n path label r :
  load_json_object n path label = Ok r ↔ record_on_disk n r.
Proof.
  unfold load_json_object, record_on_disk. split.
  - destruct n as [[[[]|]| |]|]; try done. by intros [= ->].
  - by intros ->.
Qed.

Lemma record_of_disk s i r :
  record_of s i = Ok r →
  ∃ d, st_deployments s !! i = Some d ∧ record_on_disk (dp_record d) r.
Proof.
  unfold record_of. intros Hr. apply res_bind_ok in Hr as ([] & _ & Hr).
  apply res_bind_ok in Hr as (r' & Hload & Hr). apply load_json_ok in Hload.
  assert (r' = r) as -> by (clear Hload; res_inv; done).
  destruct (st_deployments s !! i) as [d|]; [by exists d|done].
Qed.

Lemma app_str_inj (a b c : string) : a +:+ b = a +:+ c → b = c.
Proof. induction a as [|x a IH]; [done|]. simpl. intros [= Hb]. by apply IH. Qed.

Lemma dep_dir_inj i j : dep_dir i = dep_dir j → i = j.
Proof. unfold dep_dir, path_join. intros Hd%app_str_inj. by injection Hd. Qed.

(** What [Safe] looks at. *)
Definition same_facts (s s' : st) : Prop :=
  st_deployments s' = st_deployments s ∧ st_log s' = st_log s.

Lemma verified_same s s' i : same_facts s s' → verified s' i ↔ verified s i.
Proof. intros [Hd _]. unfold verified. by rewrite Hd. Qed.

Lemma safe_same L s s' :
  same_facts s s' →
  (∀ i, st_current s' = LTo (dep_dir i) → st_current s = LTo (dep_dir i) ∨ verified s i) →
  (∀ p, get (st_rec s') "from_current" = PStr p →
        get (st_rec s) "from_current" = PStr p ∨ verified s p) →
  (∀ t r, record_on_disk (tx_lookup s' t "record.json") r →
          record_on_disk (tx_lookup s t "record.json") r ∨ returns_to_verified s r) →
  Safe L s → Safe L s'.
Proof.
  intros Hs Hc Hr Ht [Sc Sr St Sl Sk].
  pose proof (λ i, verified_same s s' i Hs) as Hv. destruct Hs as [_ Hlog]. split.
  - intros i Hi. apply Hv. destruct (Hc i Hi); eauto.
  - intros p Hp. apply Hv. destruct (Hr p Hp); eauto.
  - intros t r Hd p Hp. apply Hv. destruct (Ht t r Hd) as [Hd'|Hd']; [|by apply Hd'].
    by apply (St t r Hd').
  - intros i Hi. rewrite Hlog. by apply Sl, Hv.
  - eapply Forall_impl; [done|]. intros [i|i]; simpl; [apply Hv|by rewrite Hlog].
Qed.

(** Adding a fact, and the growth of the facts. *)
Lemma safe_learn L k s : known_holds s k → Safe L s → Safe (k :: L) s.
Proof. intros Hk [? ? ? ? ?]. split; try done. by constructor. Qed.

Lemma verified_alter s i r v j :
  record_of s i = Ok r → get v "status" = PStr "verified" →
  verified (set_deployments (alter (with_record v) i) s) j ↔ j = i ∨ verified s j.
Proof.
  intros (d & Hd & _)%record_of_disk Hv. unfold verified; simpl.
  destruct (decide (j = i)) as [->|Hne].
  - rewrite lookup_alter_eq, Hd. simpl. split; [by left|]. intros _.
    by exists (with_record v d), v.
  - rewrite lookup_alter_ne by done. naive_solver.
Qed.

#[export] Instance Safe_frame : LifecycleFrame Safe.
Proof.
  split.
  - intros L L' s HL [? ? ? ? Hk]. split; try done.
    rewrite Forall_forall in *. set_solver.
  - intros L s s' (?&Hd&Hc&?&?&?&Hr&Hl&Ht). apply safe_same; [done| | |].
    + intros i. rewrite Hc. by left.
    + intros p. rewrite Hr. by left.
    + intros t r. rewrite Ht. by left.
  - intros L e s [Sc Sr St Sl Sk]. split; try done.
    + intros i Hi. apply list_elem_of_further. by apply Sl.
    + apply Forall_app. split.
      * destruct e; simpl; try apply Forall_nil_2. apply Forall_singleton. simpl. by left.
      * eapply Forall_impl; [done|]. intros [i|i]; simpl; [done|]. by right.
  - intros L a s. apply safe_same; [done|by left..].
  - intros L v s Hv. apply safe_same; [done|by left| |by left].
    intros p. simpl. rewrite Hv. by left.
  - intros L v s Hv HS. apply (safe_same L s); [done|by left| |by left|done].
    intros p Hp. simpl in Hp. rewrite Hp in Hv. right. destruct HS as [_ _ _ _ Hk].
    rewrite Forall_forall in Hk. apply (Hk (KVerified p)), Hv. by left.
  - intros L w i s Hw HS. destruct w.
    + apply (safe_same L s); [done| |by left..|done].
      intros j [= Hj%dep_dir_inj]. subst. right.
      destruct HS as [_ _ _ _ Hk]. rewrite Forall_forall in Hk.
      by apply (Hk (KVerified j)), Hw.
    + revert HS. apply safe_same; [done|by left..].
  - intros L s. by apply safe_same; [done| |left..].
  - intros L i s Hc HS. apply safe_learn; [|done]. by apply (safe_current L s HS).
  - intros L p s Hp HS. apply safe_learn; [|done]. by apply (safe_rec L s HS).
  - intros L i r s Hr Hst HS. apply safe_learn; [|done].
    apply record_of_disk in Hr as (d & Hd & Hr). by exists d, r.
  - intros L i r fields s HL Hr Hst [Sc Sr St Sl Sk].
    pose proof (λ j, verified_alter s i r _ j Hr Hst) as Hv. split.
    + intros j Hj. apply Hv. right. by apply Sc.
    + intros p Hp. apply Hv. right. by apply Sr.
    + intros t r' Hd p Hp. apply Hv. right. by apply (St t r' Hd).
    + intros j [->|Hj]%Hv; [|by apply Sl].
      rewrite Forall_forall in Sk. by apply (Sk (KLogged i)).
    + apply Forall_cons. split; [apply Hv; by left|].
      eapply Forall_impl; [done|]. intros [j|j]; simpl; [intros; apply Hv; by right|done].
Qed.

#[export] Instance Safe_invariant t : LifecycleInvariant t Safe.
Proof.
  split; [apply _|]. intros L s HS. revert HS.
  intros HS. apply (safe_same L s); [done|by left|by left| |done].
  intros t' r. destruct (decide (t' = t)) as [->|Hne].
  - rewrite tx_lookup_put_eq. intros [= <-]. right. apply (safe_rec L s HS).
  - rewrite tx_lookup_put_ne by congruence. by left.
Qed.
End safe.

(** ** The commands as a transition system *)

Inductive command :=
  | CmdInstall (inp : install_inputs)
  | CmdDeploy (i : string)
  | CmdUpgrade (i : string)
  | CmdRollback
  | CmdVerify (allow : bool)
  | CmdStatus
  | CmdReconcile (t : string) (resolution : path) (allow : bool).

Section system.
Context `{Runtime, LifecycleExecutor, !ExecutorContract _}.

Definition run_command (c : command) : M pydict :=
  match c with
  | CmdInstall inp => install inp
  | CmdDeploy i => deploy i
  | CmdUpgrade i => upgrade i
  | CmdRollback => rollback
  | CmdVerify allow => verify_command allow
  | CmdStatus => status
  | CmdReconcile t resolution allow => reconcile_recovery t resolution allow
  end.

Lemma pres_tick_safe L : pres (Safe L) tick.
Proof. apply pres_tick, (li_ev Safe). Qed.
#[local] Hint Resolve pres_tick_safe : lifecycle.

Lemma scan_pending_some s ts t r :
  scan_pending s ts = Ok (Some (t, r)) →
  record_on_disk (tx_lookup s t "record.json") r
  ∧ in_str_set (get r "status") INCOMPLETE_TRANSACTION_STATES = Ok true.
Proof.
  induction ts as [|t' ts IH]; [done|]. cbn [scan_pending]. intros Hs.
  apply res_bind_ok in Hs as (r' & Hload%load_json_ok & Hs).
  apply res_bind_ok in Hs as (b & Hb & Hs). destruct b; [done|].
  apply res_bind_ok in Hs as (b & Hb' & Hs). destruct b; [|by apply IH].
  by injection Hs as -> ->.
Qed.

(** The pending record that reconciliation loads becomes the record at hand. *)
Lemma pres_safe_reconcile L : pres (Safe L) reconcile_pending.
Proof.
  intros s HS. unfold reconcile_pending, modify, mbind, M_bind, lift.
  destruct (scan_pending _ _) as [[[t r]|]|] eqn:Hscan; [|done..].
  apply (pres_reconcile_record t Safe). apply scan_pending_some in Hscan as [Hd _].
  apply (safe_same L s); [done|by left| |by left|done].
  intros p Hp. right. by apply (safe_tx L s HS t r Hd).
Qed.

Lemma record_on_disk_fresh t s t' r :
  record_on_disk (tx_lookup (set_tx (<[t := ∅]>) s) t' "record.json") r →
  record_on_disk (tx_lookup s t' "record.json") r.
Proof.
  unfold tx_lookup; simpl. destruct (decide (t' = t)) as [->|Hne].
  - by rewrite lookup_insert_eq.
  - by rewrite lookup_insert_ne.
Qed.

Lemma pres_safe_transaction L op fields :
  (∀ t started, learned_verified (str_of (get (new_record op t started fields) "from_current")) ⊆ L) →
  pres (Safe L) (transaction op fields).
Proof.
  intros Hf. unfold transaction, strftime_now.
  apply pres_bind; [apply pres_read_at, (li_ev Safe)|intros stamp].
  apply pres_bind; [pres_auto|intros u]. apply pres_bind; [pres_auto|intros old].
  set (t := (stamp +:+ _)). destruct old; [pres_auto|]. apply pres_bind.
  { apply pres_durably; [apply (li_ev Safe)|]. intros s.
    apply safe_same; [done|by left|by left|]. intros t' r. left.
    by eapply record_on_disk_fresh. }
  intros _. apply pres_bind; [pres_auto|intros started]. apply pres_bind; [|pres_auto].
  apply pres_modify. intros s HS. apply (safe_same L s); [done|by left| |by left|done].
  intros p Hp. right. simpl in Hp. specialize (Hf t started). rewrite Hp in Hf.
  pose proof (safe_known L s HS) as Hk. rewrite Forall_forall in Hk.
  apply (Hk (KVerified p)), Hf. by left.
Qed.

Lemma pres_safe_verify_execute L x allow : pres (Safe L) (verify_execute x allow).
Proof.
  unfold verify_execute. apply pres_bind; [pres_auto|]. intros [cur|]; [|pres_auto].
  apply pres_bind.
  { apply pres_safe_transaction. intros t started. apply list_subseteq_nil. }
  intros t. pres_auto.
Qed.

Lemma pres_safe_activate L op i b : pres (Safe L) (activate op i b).
Proof.
  unfold activate, with_lifecycle_lock, activate_locked, ensure_layout.
  do 2 (apply pres_bind; [pres_auto|intros _]).
  apply pres_bind; [apply pres_safe_reconcile|intros _].
  do 2 (apply pres_bind; [pres_auto|intros ?]).
  eapply (pres_bind_learn Safe _ learned_verified).
  { destruct a0; [by intros s HS|apply (learn_resolve_current Safe)]. }
  intros o. do 3 (apply pres_bind; [pres_auto|intros ?]).
  apply pres_bind; [pres_auto|intros _]. destruct (opt_str_eqb o i).
  { apply pres_bind; [|pres_auto]. unfold verify_current. apply pres_bind; [pres_auto|].
    intros _. apply pres_safe_verify_execute. }
  unfold activate_transaction. apply pres_bind.
  { apply pres_safe_transaction. intros t started. destruct o; set_solver. }
  intros t. apply pres_bind; [pres_auto|intros started].
  apply pres_bind; [apply pres_try|pres_auto].
  - pres_auto.
  - intros e. apply (pres_activate_handler t Safe). set_solver.
Qed.

Lemma pres_safe_rollback L : pres (Safe L) rollback.
Proof.
  unfold rollback, with_lifecycle_lock, rollback_locked, ensure_layout.
  do 2 (apply pres_bind; [pres_auto|intros _]).
  apply pres_bind; [apply pres_safe_reconcile|intros _].
  eapply (pres_bind_learn Safe); [apply (learn_resolve_current Safe)|]. intros o.
  apply pres_bind; [pres_auto|intros o']. destruct o as [cur|]; [|pres_auto].
  destruct o' as [target|]; [|pres_auto]. apply pres_bind; [pres_auto|intros _].
  apply (pres_check_verified Safe). apply pres_bind; [pres_auto|intros _].
  unfold rollback_transaction. apply pres_bind.
  { apply pres_safe_transaction. intros t started. set_solver. }
  intros t. apply pres_bind; [pres_auto|intros started].
  apply pres_bind; [apply pres_try|pres_auto].
  - apply (pres_rollback_body t Safe). set_solver.
  - intros e. apply (pres_rollback_handler t Safe). set_solver.
Qed.

Lemma pres_safe_status L : pres (Safe L) status.
Proof.
  unfold status, with_lifecycle_lock, status_locked, ensure_layout.
  do 2 (apply pres_bind; [pres_auto|intros _]).
  apply pres_bind; [apply pres_safe_reconcile|intros _]. pres_auto.
  - apply (pres_framed_ex Safe), frame_runtime_status.
  - apply (pres_framed_ex Safe), frame_inactive_status.
Qed.

(** ** Installation *)

Lemma safe_deployments L s f :
  (∀ j, verified (set_deployments f s) j ↔ verified s j) →
  Safe L s → Safe L (set_deployments f s).
Proof.
  intros Hv [Sc Sr St Sl Sk]. split.
  - intros i Hi. by apply Hv, Sc.
  - intros p Hp. by apply Hv, Sr.
  - intros t r Hd p Hp. by apply Hv, (St t r Hd).
  - intros i Hi. by apply Sl, Hv.
  - eapply Forall_impl; [done|]. intros [j|j]; simpl; [apply Hv|done].
Qed.

Lemma verified_same_status s i r v j :
  record_of s i = Ok r → get v "status" = get r "status" →
  verified (set_deployments (alter (with_record v) i) s) j ↔ verified s j.
Proof.
  intros (d & Hd & Hr)%record_of_disk Hv. unfold verified; simpl.
  destruct (decide (j = i)) as [->|Hne]; [|by rewrite lookup_alter_ne].
  rewrite lookup_alter_eq, Hd. simpl. unfold record_on_disk in *. split.
  - intros (d' & r' & [= <-] & [= <-] & Hst). exists d, r. by rewrite <-Hv.
  - intros (d' & r' & [= <-] & Hr' & Hst). simplify_eq. exists (with_record v d), v.
    by rewrite Hv.
Qed.

Lemma complete_identity_triple (J : st → Prop) r :
  ev_stable J →
  triple J (complete_identity r) (λ r1 s, J s ∧ get r1 "status" = get r "status") J.
Proof.
  intros Hev s Hs. assert (pres J (complete_identity r)) as Hp.
  { unfold complete_identity, identity. destruct (lacks_identity r); [|by intros ?].
    apply pres_bind; [|intros [h o]; by intros ?].
    apply pres_bind; [by apply pres_read_at|intros x; apply pres_lift]. }
  specialize (Hp s Hs).
  destruct (complete_identity r s) as [[r1| |] s2] eqn:Hc; [|done..].
  apply complete_identity_ret in Hc as (n & _ & Hk & _). split; [done|]. apply Hk. compute_done.
Qed.

Lemma pres_safe_rewrite L i r v :
  get v "status" = get r "status" →
  triple (λ s, Safe L s ∧ record_of s i = Ok r) (write_deployment_record i v)
    (λ _, Safe L) (Safe L).
Proof.
  intros Hv. apply triple_durably.
  - intros s [HS Hr]. split; [by apply (li_ev Safe)|done].
  - by intros s [HS _].
  - intros s [HS Hr]. apply safe_deployments; [|done]. intros j. by apply (verified_same_status s i r).
  - intros s. apply (li_ev Safe).
  - done.
Qed.

Lemma pres_safe_accept L ci : pres (Safe L) (accept_existing ci).
Proof.
  unfold accept_existing. eapply pres_bind_triple; [apply triple_read|]. intros r.
  set (J := λ s, Safe L s ∧ record_of s (ci_id ci) = Ok r).
  assert (ev_stable J) as Hev by (intros s [HS Hr]; split; [by apply (li_ev Safe)|done]).
  assert (∀ s, J s → Safe L s) as HJ by by intros s [HS _].
  apply (triple_bind J _ _ (λ _, J)).
  { by eapply (triple_conseq J J _ (λ _, J) (λ _, J) (Safe L) J);
      [apply pres_triple, pres_require|..]. }
  intros _. apply (triple_bind J _ _ (λ r1 s, J s ∧ get r1 "status" = get r "status")).
  { by eapply (triple_conseq J J _ _ _ (Safe L) J); [apply complete_identity_triple|..]. }
  intros r1. apply triple_pure. intros Hst.
  apply (triple_bind _ _ _ (λ _, Safe L)); [|intros []; by apply triple_ret].
  destruct (_ || _); [|by apply triple_ret]. apply pres_safe_rewrite.
  by rewrite complete_result_get by compute_done.
Qed.

Lemma pres_safe_install_deployment L ci :
  pres (λ s, Safe L s ∧ st_deployments s !! ci_id ci = None) tick →
  triple (λ s, Safe L s ∧ st_deployments s !! ci_id ci = None) (install_deployment ci)
    (λ _, Safe L) (Safe L).
Proof.
  set (J := λ s, Safe L s ∧ st_deployments s !! ci_id ci = None). intros Htick.
  assert (ev_stable J) as Hev by (intros s [HS Hr]; split; [by apply (li_ev Safe)|done]).
  assert (∀ s, J s → Safe L s) as HJ by by intros s [HS _].
  unfold install_deployment, identity.
  apply triple_pres_bind; [done| |done]. intros _.
  apply triple_pres_bind; [by apply pres_read_at| |done]. intros a.
  apply triple_pres_bind; [|intros [h o]|done].
  { apply pres_bind; [by apply pres_read_at|intros x; apply pres_lift]. }
  apply (triple_bind J _ _ (λ r s, J s ∧ installed_record ci a h o = Ok r)).
  { by eapply (triple_conseq J J _ _ _ (Safe L) J); [apply triple_lift|..]. }
  intros r. apply triple_pure. intros Hr.
  apply (triple_bind _ _ _ (λ _, Safe L)); [|intros []; by apply triple_ret].
  apply triple_durably; [done|done| |apply (li_ev Safe)|done].
  intros s [HS Hn]. apply safe_deployments; [|done]. intros j. unfold verified; simpl.
  destruct (decide (j = ci_id ci)) as [->|Hne]; [|by rewrite lookup_insert_ne].
  rewrite lookup_insert_eq, Hn. split; [|by intros (? & ? & ? & _)].
  intros (d & r' & [= <-] & [= <-] & Hst).
  apply installed_record_shape in Hr as (? & ? & ? & ->). done.
Qed.

Lemma pres_safe_install L inp : pres (Safe L) (install inp).
Proof.
  unfold install, install_locked. do 4 (apply pres_bind; [pres_auto|intros ?]).
  apply pres_if; [apply pres_safe_accept|]. apply pres_bind; [pres_auto|intros _].
  apply pres_bind.
  { unfold install_release. pres_auto. apply pres_durably; [apply (li_ev Safe)|].
    intros s. apply safe_same; [done|by left..]. }
  intros _. eapply pres_bind_triple; [apply triple_gets|]. intros there s [HS ->].
  unfold deployment_exists. destruct (st_deployments s !! ci_id a1) eqn:Hd.
  - pose proof (pres_safe_accept L a1 s HS). by destruct (accept_existing a1 s) as [[] ?].
  - apply pres_safe_install_deployment; [|done].
    intros s' [HS' Hn]. split; [by apply pres_tick_safe|]. unfold tick.
    by destruct (fault_at _).
Qed.

Lemma pres_safe_command L c : pres (Safe L) (run_command c).
Proof.
  destruct c; [apply pres_safe_install|apply pres_safe_activate..|apply pres_safe_rollback| |
    apply pres_safe_status|].
  2:{ apply pres_reconcile_recovery; [apply _|]. intros s t' r _ _.
      apply (pres_close_blocking t' Safe). }
  simpl. unfold verify_command, verify_current, with_lifecycle_lock, ensure_layout.
  do 3 (apply pres_bind; [pres_auto|intros _]).
  apply pres_bind; [apply pres_safe_reconcile|intros _]. apply pres_safe_verify_execute.
Qed.

(** ** Reachable states *)

(** What may happen on the host between two commands: everything but the
    deployments, the [current] link, the transaction records and the log. *)
Definition host_step (s s' : st) : Prop :=
  st_deployments s' = st_deployments s ∧ st_current s' = st_current s
  ∧ st_rec s' = st_rec s ∧ st_log s' = st_log s
  ∧ ∀ t, tx_lookup s' t "record.json" = tx_lookup s t "record.json".

(** A host on which no lifecycle command has run: it may run a legacy release,
    and hold installed deployments that were never verified. *)
Definition fresh_host (s : st) : Prop :=
  (∀ i, ¬ verified s i) ∧ (∀ i, st_current s ≠ LTo (dep_dir i))
  ∧ st_tx s = ∅ ∧ st_rec s = [].

(** The states that commands reach; a command may return, fail or be killed
    at any event. *)
Inductive reachable : st → Prop :=
  | reach_start s : fresh_host s → reachable s
  | reach_command s c : reachable s → reachable (run_command c s).2
  | reach_host s s' : reachable s → host_step s s' → reachable s'.

Lemma reachable_safe s : reachable s → Safe [] s.
Proof.
  induction 1 as [s (Hv & Hc & Ht & Hr)|s c _ IH|s s' _ IH (Hd & Hc & Hr & Hl & Ht)].
  - split.
    + intros i Hi. by destruct (Hc i).
    + intros p. by rewrite Hr.
    + intros t r. unfold tx_lookup. rewrite Ht, lookup_empty. done.
    + intros i Hi. by destruct (Hv i).
    + apply Forall_nil_2.
  - by apply pres_safe_command.
  - revert IH. apply safe_same; [done|..].
    + intros i. rewrite Hc. by left.
    + intros p. rewrite Hr. by left.
    + intros t r. rewrite Ht. by left.
Qed.
End system.

(** ** Properties *)

(** C1: whatever sequence of commands ran, with any executor results, any
    failing writes and any crashes, the [current] link of the host only ever
    points to a deployment whose record says ["verified"] and whose
    verification returned. *)
Theorem current_is_verified `{Runtime, LifecycleExecutor, !ExecutorContract _} s i :
  reachable s → st_current s = LTo (dep_dir i) → verified s i ∧ EVerify i ∈ st_log s.
Proof.
  intros HS%reachable_safe Hc. split; [by apply (safe_current [] s HS)|].
  by apply (safe_log [] s HS), (safe_current [] s HS).
Qed.

Section samples.
#[local] Existing Instance sample_runtime.
#[local] Existing Instance sample_executor.
#[local] Existing Instance sample_contract.

Definition sample_id (tag content : string) : string :=
  ci_id (ok_or default_inputs (check_inputs (sample_inputs tag content))).

Lemma sample_host_fresh : fresh_host sample_host.
Proof.
  split; [|split; [|done]].
  - intros i (d & r & Hd & _). simpl in Hd. by rewrite lookup_empty in Hd.
  - done.
Qed.

Definition sample_installed : st :=
  (run_command (CmdInstall (sample_inputs "v3.6.7" "A")) sample_host).2.
Definition sample_deployed : st :=
  (run_command (CmdDeploy (sample_id "v3.6.7" "A")) sample_installed).2.

Lemma sample_deployed_reachable : reachable sample_deployed.
Proof. do 2 apply reach_command. apply reach_start, sample_host_fresh. Qed.

Lemma current_is_verified_witness :
  verified sample_deployed (sample_id "v3.6.7" "A")
  ∧ EVerify (sample_id "v3.6.7" "A") ∈ st_log sample_deployed.
Proof.
  apply (current_is_verified sample_deployed (sample_id "v3.6.7" "A")).
  - exact sample_deployed_reachable.
  - vm_compute. reflexivity.
Defined.
End samples.
