(* ===== verification/LifecycleClosure.v ===== *)
(** * Release lifecycle: open and closed transactions

    A transaction is open while its record has an incomplete or a blocking
    status.  The theorems show that a command works on at most one open
    transaction, closes it before it returns, never proceeds past a failed
    recovery, and that the status a transaction is closed with states where
    the [current] link points. *)
From S2P Require Import Prelude PyFloat PyValue PyPath LifecycleCore LifecycleIO LifecycleRecords.
From S2P Require Import LifecycleSamples LifecycleInstall LifecycleNetwork LifecycleTransaction.
From S2P Require Import LifecycleCommands LifecycleEvidence LifecycleRecovery LifecycleLogic.
From S2P Require Import LifecycleInvariants LifecycleRecoveryFacts LifecycleSafety.

Definition has_status (r : pydict) (states : list string) : Prop :=
  in_str_set (get r "status") states = Ok true.

Definition open_record (r : pydict) : Prop :=
  has_status r INCOMPLETE_TRANSACTION_STATES ∨ has_status r BLOCKING_TRANSACTION_STATES.

Section closure.
Context `{Runtime, LifecycleExecutor, !ExecutorContract _}.

Definition disk_record (s : st) (t : string) (r : pydict) : Prop :=
  record_on_disk (tx_lookup s t "record.json") r.

Definition open_tx (s : st) (t : string) : Prop := ∃ r, disk_record s t r ∧ open_record r.
Definition none_open (_ : list known) (s : st) : Prop := ∀ t, ¬ open_tx s t.
Definition only_open (t : string) (_ : list known) (s : st) : Prop := ∀ t', open_tx s t' → t' = t.
Definition at_most_one_open (s : st) : Prop :=
  ∀ t t', open_tx s t → open_tx s t' → t = t'.

Lemma open_status r v :
  get r "status" = PStr v →
  open_record r ↔ v ∈ INCOMPLETE_TRANSACTION_STATES ++ BLOCKING_TRANSACTION_STATES.
Proof.
  intros Hv. unfold open_record, has_status, in_str_set. rewrite Hv.
  rewrite elem_of_app, <-!mem_str_spec.
  split; (intros [Hs|Hs]; [left|right]); [by injection Hs..| |]; by rewrite Hs.
Qed.

(** Assertions about the transaction records alone. *)
Definition records_only (P : st → Prop) : Prop :=
  ∀ s s', (∀ t, tx_lookup s' t "record.json" = tx_lookup s t "record.json") → P s → P s'.

Lemma records_only_frame P : records_only P → LifecycleFrame (λ _, P).
Proof.
  intros HP. split; try done; try (intros; eapply HP; [|eassumption]; done).
  - intros L s s' (?&?&?&?&?&?&?&?&Ht). by apply HP.
  - intros L [] i s _; by apply HP.
Qed.

Lemma only_open_records t : records_only (only_open t []).
Proof.
  intros s s' Ht Ho t' (r & Hr & Hop). apply Ho. exists r. split; [|done].
  unfold disk_record in *. by rewrite <-Ht.
Qed.

#[export] Instance only_open_invariant t : LifecycleInvariant t (only_open t).
Proof.
  split; [apply (records_only_frame (only_open t [])), only_open_records|].
  intros L s Ho t' (r & Hr & Hop). destruct (decide (t' = t)) as [|Hne]; [done|].
  apply Ho. exists r. split; [|done]. unfold disk_record in *.
  by rewrite tx_lookup_put_ne in Hr by congruence.
Qed.

(** ** What [_write_transaction_record] does when it returns *)

Lemma stamp_identity_ret s s' :
  stamp_identity s = (ORet (), s') →
  ∃ n r, s' = set_rec r (set_ev (λ _, n) s)
         ∧ ∀ k, k ∉ derived_keys → get r k = get (st_rec s) k.
Proof.
  unfold stamp_identity, identity, read_at, modify, gets, lift, mbind, M_bind.
  destruct (_ || _).
  - destruct (identity_fields _) as [[h o]|e]; [|by destruct (_ || _)].
    simpl. intros [= <-]. eexists (S (st_ev s)), _. split; [done|].
    intros k Hk. by rewrite !get_dsetdefault_ne by set_solver.
  - intros [= <-]. exists (st_ev s), (st_rec s). by destruct s.
Qed.

Lemma completed_summaries_ret t r s x s' :
  completed_summaries t r s = (ORet x, s') → s' = s.
Proof.
  unfold completed_summaries, summary_references, lift, mbind, M_bind.
  destruct (is_completed _); [|by intros [=]].
  by destruct (summary_references_of t _ TRANSACTION_SUMMARIES); intros [=].
Qed.

(** The record that is written keeps every field of the record at hand but
    the derived ones. *)
Lemma write_transaction_record_ret t s s' :
  write_transaction_record t s = (ORet (), s') →
  ∃ n r, s' = put_tx t "record.json" (NFile (CJson (PDict r))) (set_rec r (set_ev (λ _, n) s))
         ∧ ∀ k, k ∉ derived_keys → get r k = get (st_rec s) k.
Proof.
  unfold write_transaction_record, mbind, M_bind, gets, upd_rec, modify.
  destruct (stamp_identity s) as [[[]| |] s1] eqn:H1; try done.
  apply stamp_identity_ret in H1 as (n & r & -> & Hr).
  destruct (completed_summaries _ _ _) as [[x| |] s2] eqn:H2; try done.
  apply completed_summaries_ret in H2 as ->.
  intros Hw%durably_ret. subst s'. eexists (S (S n)), (dset r "result" _). split; [reflexivity|].
  intros k Hk. rewrite get_dsets_derived by set_solver. by apply Hr.
Qed.

(** ** Closing a transaction *)

Definition closed_status (v : string) : Prop :=
  v ∉ INCOMPLETE_TRANSACTION_STATES ++ BLOCKING_TRANSACTION_STATES.

Lemma none_open_only t s : none_open [] s → only_open t [] s.
Proof. intros Hn t' Ho. by destruct (Hn t'). Qed.

Lemma only_at_most_one t s : only_open t [] s → at_most_one_open s.
Proof. intros Ho t1 t2 H1%Ho H2%Ho. congruence. Qed.

Lemma triple_close t v kvs :
  "status" ∉ map fst kvs → "from_current" ∉ map fst kvs → closed_status v →
  triple (only_open t []) (upd_rec (("status", PStr v) :: kvs);; write_transaction_record t)
    (λ _, none_open []) (only_open t []).
Proof.
  intros Hk Hf Hv s Ho. unfold upd_rec, modify, mbind, M_bind.
  set (s1 := set_rec _ s). assert (only_open t [] s1) as Ho1 by done.
  pose proof (pres_write_transaction_record t (only_open t) [] s1 Ho1) as Hp.
  destruct (write_transaction_record t s1) as [[[]| |] s2] eqn:Hw; [|done..].
  apply write_transaction_record_ret in Hw as (n & r & -> & Hr).
  intros t' Hop. assert (t' = t) as -> by by apply Hp.
  destruct Hop as (r' & Hr' & Hop). unfold disk_record in Hr'.
  rewrite tx_lookup_put_eq in Hr'. injection Hr' as <-.
  apply (open_status r v) in Hop; [done|].
  rewrite Hr by compute_done. by apply get_dupdate_head.
Qed.
End closure.

(** Step over the computations that keep the assertion. *)
Ltac triple_steps I :=
  repeat first
    [ progress intros
    | apply (triple_pres_bind I); [solve [pres_auto]| |done] ].

Section closure2.
Context `{Runtime, LifecycleExecutor, !ExecutorContract _}.

Lemma triple_fail {A} (P : st → Prop) msg (Q : A → st → Prop) : triple P (fail_lc msg) Q P.
Proof. apply triple_raise. Qed.

Ltac close_auto t :=
  triple_steps (only_open t []); apply triple_close; compute_done.

(** A computation that ends by raising has any postcondition. *)
Lemma triple_no_return {A B} (P : st → Prop) (m : M A) msg (Q : B → st → Prop) :
  pres P m → triple P (m ≫= λ _, fail_lc msg) Q P.
Proof. intros Hm. apply triple_pres_bind; [done| |done]. intros _. apply triple_fail. Qed.

Lemma reconcile_legacy_closes t i a :
  triple (only_open t []) (reconcile_legacy t i a) (λ _, none_open []) (only_open t []).
Proof. unfold reconcile_legacy. close_auto t. Qed.

Lemma reconcile_verify_raises t Q :
  triple (only_open t []) (reconcile_verify t) Q (only_open t []).
Proof.
  unfold reconcile_verify. do 2 (apply triple_pres_bind; [pres_auto| |done]; intros ?).
  apply triple_pres_bind; [upd_auto| |done]. intros _. apply triple_no_return. upd_auto.
Qed.

Lemma reconcile_unpromoted_closes t i o a :
  triple (only_open t []) (reconcile_unpromoted t i o a) (λ _, none_open []) (only_open t []).
Proof.
  unfold reconcile_unpromoted. destruct o; [|close_auto t].
  do 2 (apply triple_pres_bind; [pres_auto| |done]; intros ?).
  apply triple_pres_bind; [| |done].
  { apply (pres_weaken_pre (only_open t) [] [KVerified s]); [done|set_solver|].
    apply pres_restore; [apply _..|set_solver]. }
  close_auto t.
Qed.

Lemma reconcile_promoted_closes t i a :
  triple (only_open t []) (reconcile_promoted t i a) (λ _, none_open []) (only_open t []).
Proof.
  unfold reconcile_promoted. apply triple_pres_bind; [pres_auto| |done]. intros r.
  set (K := KVerified i :: learned_verified (str_of (get r "from_current"))).
  assert (∀ A (m : M A), pres (only_open t K) m → pres (only_open t []) m) as HK by done.
  apply triple_pres_bind; [| |done].
  { apply HK, pres_attempt. upd_auto; [apply pres_activate_files; [apply _|set_solver]|].
    by apply (pres_atomic_link (only_open t)). }
  intros [exc|]; [|close_auto t]. apply triple_pres_bind; [pres_auto| |done]. intros a'.
  apply triple_pres_bind; [| |done].
  { apply HK, pres_attempt. unfold K. destruct (get r "from_current") eqn:Hf; try upd_auto.
    apply pres_restore; [apply _..|set_solver]. }
  intros [rexc|]; [|close_auto t]. apply triple_pres_bind; [pres_auto| |done]. intros c.
  apply triple_pres_bind; [upd_auto| |done]. intros _. apply triple_no_return. upd_auto.
Qed.

Lemma reconcile_record_closes t r :
  triple (only_open t []) (reconcile_record t r) (λ _, none_open []) (only_open t []).
Proof.
  unfold reconcile_record. apply triple_pres_bind; [pres_auto| |done]. intros _.
  destruct (py_eqb _ _); [apply reconcile_verify_raises|].
  do 2 (apply triple_pres_bind; [pres_auto| |done]; intros ?).
  destruct a0; [apply reconcile_legacy_closes|].
  do 2 (apply triple_pres_bind; [pres_auto| |done]; intros ?).
  destruct a1; [apply reconcile_promoted_closes|apply reconcile_unpromoted_closes].
Qed.

Lemma open_in_transactions s t : open_tx s t → t ∈ record_transactions s.
Proof.
  intros (r & Hr & _). unfold record_transactions, sort_str, disk_record, record_on_disk in *.
  rewrite list_elem_of_In, <-in_rev, <-list_elem_of_In, merge_sort_Permutation, list_elem_of_filter. rewrite Hr. split; [done|].
  apply list_elem_of_fmap. unfold tx_lookup in Hr.
  destruct (st_tx s !! t) as [d|] eqn:Hd; [|done].
  exists (t, d). split; [done|]. by apply elem_of_map_to_list.
Qed.

Lemma scan_pending_none s ts t :
  scan_pending s ts = Ok None → t ∈ ts → ¬ open_tx s t.
Proof.
  intros Hs Ht (r & Hr & Hop). induction ts as [|t' ts IH]; [by apply not_elem_of_nil in Ht|].
  cbn [scan_pending] in Hs. apply res_bind_ok in Hs as (r' & Hload%load_json_ok & Hs).
  apply res_bind_ok in Hs as (b & Hb & Hs). destruct b; [done|].
  apply res_bind_ok in Hs as (b & Hb' & Hs). destruct b; [done|].
  apply elem_of_cons in Ht as [->|Ht]; [|by apply IH].
  unfold disk_record, record_on_disk in *. simplify_eq.
  destruct Hop as [Hop|Hop]; unfold has_status in Hop; congruence.
Qed.

(** Reconciliation leaves no open transaction behind when it returns. *)
Lemma reconcile_pending_closes :
  triple at_most_one_open reconcile_pending (λ _, none_open []) at_most_one_open.
Proof.
  intros s Ho. unfold reconcile_pending, mbind, M_bind, modify, lift.
  destruct (scan_pending _ _) as [[[t r]|]|] eqn:Hscan; [| |done].
  - apply scan_pending_some in Hscan as [Hd Hst].
    assert (only_open t [] (set_rec r s)) as Hoo.
    { intros t' Ht'. apply (Ho t' t Ht'). exists r. split; [done|]. by left. }
    pose proof (reconcile_record_closes t r _ Hoo) as Hc.
    destruct (reconcile_record t r _) as [[]]; [done|by eapply only_at_most_one..].
  - intros t Hop. by eapply scan_pending_none; [|apply open_in_transactions|].
Qed.

Lemma none_open_records : records_only (none_open []).
Proof.
  intros s s' Ht Hn t (r & Hr & Hop). apply (Hn t). exists r. split; [|done].
  unfold disk_record in *. by rewrite <-Ht.
Qed.

(** A new transaction is the only open one. *)
Lemma transaction_opens op fields :
  triple (none_open []) (transaction op fields) (λ t, only_open t []) at_most_one_open.
Proof.
  assert (∀ s, none_open [] s → at_most_one_open s) as Hone.
  { intros s Hn. apply (only_at_most_one ""). by apply none_open_only. }
  unfold transaction, strftime_now, uuid_hex.
  do 2 (apply triple_pres_bind; [apply pres_read_at; by intros s Hs| |done]; intros ?).
  apply triple_pres_bind; [pres_auto| |done]. intros old.
  set (t := (a +:+ _)). clearbody t. destruct old.
  { apply (triple_conseq _ (none_open []) _ _ (λ _, none_open []) _ (none_open []));
      [apply triple_raise|done|intros; by apply none_open_only|done]. }
  apply (triple_conseq _ (only_open t []) _ _ (λ t, only_open t []) _ (only_open t []));
    [|intros; by apply none_open_only|done|intros; by eapply only_at_most_one].
  apply triple_pres_bind; [| |done].
  { apply pres_durably; [apply (li_ev (only_open t))|]. intros s' Hs' t' (r & Hr & Hop).
    apply Hs'. exists r. split; [|done]. by eapply record_on_disk_fresh. }
  intros _. apply triple_pres_bind; [pres_auto| |done]. intros started.
  apply triple_pres_bind; [apply pres_modify; by intros s Hs| |done]. intros _.
  apply triple_pres_bind; [pres_auto| |done]. intros _. by apply triple_ret.
Qed.

(** The assertion ignores the facts it is indexed by. *)
Lemma pres_only_open t K {A} (m : M A) : pres (only_open t K) m → pres (only_open t []) m.
Proof. done. Qed.

Lemma pres_only_open_files t i : pres (only_open t []) (activate_files i).
Proof. apply (pres_only_open t [KVerified i]), pres_activate_files; [apply _|set_solver]. Qed.

Lemma pres_only_open_link t i w : pres (only_open t []) (atomic_link i w).
Proof. apply (pres_only_open t [KVerified i]), pres_atomic_link; [apply _|set_solver]. Qed.

Lemma pres_only_open_update t i x y :
  pres (only_open t []) (update_deployment i
    [("status", PStr "verified"); ("verified_at", x); ("last_transaction", y)]).
Proof.
  apply (pres_only_open t [KLogged i]).
  eapply (triple_learn_pres (only_open t)), learn_update_verified; [apply _|set_solver].
Qed.
#[local] Hint Resolve pres_only_open_files pres_only_open_link pres_only_open_update : lifecycle.

Lemma activate_body_closes t i o a b :
  triple (only_open t []) (activate_body i o t a b) (λ _, none_open []) (only_open t []).
Proof. unfold activate_body. close_auto t. Qed.

Lemma rollback_body_closes t i o a :
  triple (only_open t []) (rollback_body i o t a) (λ _, none_open []) (only_open t []).
Proof. unfold rollback_body. close_auto t. Qed.

Lemma recover_previous_raises t o f a e x y fields m1 m2 Q :
  "from_current" ∉ map fst fields →
  triple (only_open t []) (recover_previous o t f a e x y fields m1 m2) Q (only_open t []).
Proof.
  intros Hf. unfold recover_previous. apply triple_pres_bind; [pres_auto| |done]. intros rs.
  apply triple_pres_bind; [| |done].
  { apply (pres_only_open t (learned_verified o)), pres_attempt, pres_restore; [apply _..|done]. }
  intros [rexc|]; (do 3 (apply triple_pres_bind; [pres_auto| |done]; intros ?));
    (apply triple_pres_bind; [|intros _; apply triple_no_return; pres_auto|done]);
    [upd_auto|].
  apply (pres_upd_rec (only_open t)).
  rewrite !map_app, !not_elem_of_app. split_and!; [compute_done|done|compute_done].
Qed.

Lemma activate_handler_raises t op i o o' l a e Q :
  triple (only_open t []) (activate_handler op i o o' l t a e) Q (only_open t []).
Proof.
  unfold activate_handler. do 4 (apply triple_pres_bind; [upd_auto| |done]; intros ?).
  destruct l; [|apply recover_previous_raises; compute_done].
  unfold recover_legacy. do 2 (apply triple_pres_bind; [upd_auto| |done]; intros ?).
  destruct a5; triple_steps (only_open t []);
    (apply triple_pres_bind; [upd_auto| |done]); intros _; apply triple_no_return; pres_auto.
Qed.

Lemma rollback_handler_raises t i o a e Q :
  triple (only_open t []) (rollback_handler i o t a e) Q (only_open t []).
Proof.
  unfold rollback_handler. do 4 (apply triple_pres_bind; [upd_auto| |done]; intros ?).
  apply recover_previous_raises; compute_done.
Qed.

Lemma with_transaction {A} op fields (k : string → M A) (Q : A → st → Prop) :
  (∀ t, triple (only_open t []) (k t) Q (only_open t [])) →
  triple (none_open []) (t ← transaction op fields; k t) Q at_most_one_open.
Proof.
  intros Hk. eapply triple_bind; [apply transaction_opens|]. intros t.
  eapply triple_conseq; [apply Hk|done|done|]. intros s. apply only_at_most_one.
Qed.

#[export] Instance none_open_frame : LifecycleFrame none_open.
Proof. apply (records_only_frame (none_open [])), none_open_records. Qed.

Lemma then_none_open t {A B} (m : M A) (k : A → M B) :
  triple (only_open t []) m (λ _, none_open []) (only_open t []) →
  (∀ a, pres (none_open []) (k a)) →
  triple (only_open t []) (m ≫= k) (λ _, none_open []) (only_open t []).
Proof.
  intros Hm Hk. apply (triple_bind _ _ _ (λ _, none_open [])); [done|]. intros a.
  eapply triple_conseq; [apply pres_triple, Hk|done|done|]. intros s. apply none_open_only.
Qed.

Lemma try_closes t (m : M unit) h {A} (k : M A) :
  triple (only_open t []) m (λ _, none_open []) (only_open t []) →
  (∀ e, triple (only_open t []) (h e) (λ _, none_open []) (only_open t [])) →
  pres (none_open []) k →
  triple (only_open t []) (try_catch m h;; k) (λ _, none_open []) (only_open t []).
Proof.
  intros Hm Hh Hk. apply then_none_open; [|done]. by eapply triple_try.
Qed.

Lemma activate_transaction_closes op i o o' l b :
  triple (none_open []) (activate_transaction op i o o' l b) (λ _, none_open []) at_most_one_open.
Proof.
  unfold activate_transaction. apply with_transaction. intros t.
  apply triple_pres_bind; [pres_auto| |done]. intros a. apply try_closes; [| |pres_auto].
  - apply activate_body_closes.
  - intros e. apply activate_handler_raises.
Qed.

Lemma none_open_at_most_one s : none_open [] s → at_most_one_open s.
Proof. intros Hn. by apply (only_at_most_one ""), none_open_only. Qed.

Lemma verify_execute_closes x allow :
  triple (none_open []) (verify_execute x allow) (λ _, none_open []) at_most_one_open.
Proof.
  unfold verify_execute. apply triple_pres_bind; [| |apply none_open_at_most_one].
  { pres_auto. }
  intros [cur|]; [|eapply (triple_conseq _ (none_open []));
      [apply (triple_raise _ _ _ (λ _, none_open []))|done..|apply none_open_at_most_one]].
  apply with_transaction. intros t. unfold verify_run.
  apply triple_pres_bind; [pres_auto| |done]. intros a. apply triple_pres_bind; [| |done].
  - apply pres_try; [|intros e; upd_auto]. upd_auto.
    apply (pres_logged (only_open t)), frame_bridge.
  - intros summary. do 2 (apply triple_pres_bind; [pres_auto| |done]; intros ?).
    apply triple_assoc, then_none_open; [apply triple_close; compute_done|pres_auto].
Qed.

Lemma none_open_step {A B} (m : M A) (k : A → M B) Q :
  pres (none_open []) m → (∀ a, triple (none_open []) (k a) Q at_most_one_open) →
  triple (none_open []) (m ≫= k) Q at_most_one_open.
Proof. intros Hm Hk. apply triple_pres_bind; [done..|apply none_open_at_most_one]. Qed.

Lemma none_open_end {A} (m : M A) :
  pres (none_open []) m → triple (none_open []) m (λ _, none_open []) at_most_one_open.
Proof.
  intros Hm. eapply triple_conseq; [apply pres_triple, Hm|done..|apply none_open_at_most_one].
Qed.

(** Taking the lock and reconciling, before every command. *)
Lemma after_reconcile {A} (k : M A) :
  triple (none_open []) k (λ _, none_open []) at_most_one_open →
  triple at_most_one_open (with_lifecycle_lock (ensure_layout;; reconcile_pending;; k))
    (λ _, none_open []) at_most_one_open.
Proof.
  intros Hk. unfold with_lifecycle_lock, ensure_layout.
  do 2 (apply triple_pres_bind; [apply pres_tick; by intros s Hs| |done]; intros _).
  by apply (triple_bind _ _ _ (λ _, none_open [])); [apply reconcile_pending_closes|intros _].
Qed.

Lemma activate_closes op i b :
  triple at_most_one_open (activate op i b) (λ _, none_open []) at_most_one_open.
Proof.
  unfold activate, activate_locked. apply after_reconcile.
  do 7 (apply none_open_step; [solve [pres_auto]|intros ?]).
  destruct (opt_str_eqb _ i); [|apply activate_transaction_closes].
  apply (triple_bind _ _ _ (λ _, none_open [])); [|intros v; apply none_open_end, pres_ret].
  unfold verify_current. apply none_open_step; [pres_auto|intros _].
  apply verify_execute_closes.
Qed.

Lemma rollback_closes : triple at_most_one_open rollback (λ _, none_open []) at_most_one_open.
Proof.
  unfold rollback, rollback_locked. apply after_reconcile.
  do 2 (apply none_open_step; [solve [pres_auto]|intros ?]).
  destruct a as [cur|]; [|apply none_open_end; pres_auto].
  destruct a0 as [target|]; [|apply none_open_end; pres_auto].
  do 4 (apply none_open_step; [solve [pres_auto]|intros ?]).
  unfold rollback_transaction.
  apply with_transaction. intros t. apply triple_pres_bind; [pres_auto| |done]. intros a'.
  apply try_closes; [| |pres_auto].
  - apply rollback_body_closes.
  - intros e. apply rollback_handler_raises.
Qed.

Lemma status_closes : triple at_most_one_open status (λ _, none_open []) at_most_one_open.
Proof.
  unfold status, status_locked. apply after_reconcile, none_open_end. pres_auto.
  - apply (pres_framed_ex none_open), frame_runtime_status.
  - apply (pres_framed_ex none_open), frame_inactive_status.
Qed.

(** Installation does not touch the transactions. *)
Lemma pres_install_records (J : st → Prop) inp : records_only J → pres J (install inp).
Proof.
  intros HJ.
  assert (ev_stable J) as Hev by (intros s; by apply HJ).
  assert (∀ f, pres J (durably (set_deployments f))) as Hd.
  { intros f. apply pres_durably; [done|]. intros s. by apply HJ. }
  assert (pres J identity) as Hi.
  { unfold identity. apply pres_bind; [by apply pres_read_at|intros x; apply pres_lift]. }
  assert (∀ ci, pres J (accept_existing ci)) as Ha.
  { intros ci. unfold accept_existing, complete_identity, write_deployment_record, record_get.
    pose proof (pres_ret (A:=unit) J). pres_auto. }
  unfold install, install_locked, install_release, install_deployment.
  pose proof (pres_tick J Hev). pose proof (pres_read_at J now_at Hev).
  assert (∀ f, pres J (durably (set_releases f))) as Hr.
  { intros f. apply pres_durably; [done|]. intros s. by apply HJ. }
  pres_auto.
Qed.

Lemma at_most_one_records : records_only at_most_one_open.
Proof.
  intros s s' Ht Ho t1 t2 (r1 & Hr1 & Ho1) (r2 & Hr2 & Ho2). unfold disk_record in *.
  rewrite Ht in Hr1, Hr2. apply Ho; by eexists.
Qed.

(** Every command but the installation and the closure of a failed recovery
    reconciles first. *)
Definition reconciles (c : command) : bool :=
  match c with CmdInstall _ | CmdReconcile _ _ _ => false | _ => true end.

(** One command at a time: starting with at most one open transaction, a
    command that returns leaves none, and one that fails or dies leaves at
    most one. *)
Lemma command_closes c :
  reconciles c = true →
  triple at_most_one_open (run_command c) (λ _, none_open []) at_most_one_open.
Proof.
  destruct c; intros Hc;
    [done|apply activate_closes..|apply rollback_closes| |apply status_closes|done].
  simpl. unfold verify_command, verify_current. apply triple_pres_bind; [apply pres_require| |done].
  intros _. apply after_reconcile, verify_execute_closes.
Qed.

Lemma command_at_most_one c : pres at_most_one_open (run_command c).
Proof.
  destruct (reconciles c) eqn:Hc.
  - apply pres_triple. eapply triple_conseq; [by apply command_closes|done| |done].
    intros a s. apply none_open_at_most_one.
  - destruct c; try done; [apply pres_install_records, at_most_one_records|].
    apply (pres_reconcile_recovery (λ _, at_most_one_open) []).
    { apply records_only_frame, at_most_one_records. }
    intros s t' r Hd Hb Ho. apply (only_at_most_one t').
    apply (pres_close_blocking t' (only_open t')). intros t'' Hop.
    apply (Ho t'' t' Hop). exists r. split; [done|by right].
Qed.

Lemma reachable_at_most_one s : reachable s → at_most_one_open s.
Proof.
  induction 1 as [s (_ & _ & Ht & _)|s c _ IH|s s' _ IH (_ & _ & _ & _ & Ht)].
  - intros t t' (r & Hr & _). unfold disk_record, record_on_disk, tx_lookup in Hr.
    by rewrite Ht, lookup_empty in Hr.
  - by apply command_at_most_one.
  - by apply (at_most_one_records s).
Qed.

(** ** A failed recovery blocks *)

Lemma scan_pending_blocked s ts t r :
  at_most_one_open s → disk_record s t r → has_status r BLOCKING_TRANSACTION_STATES →
  t ∈ ts → ∃ e, scan_pending s ts = Raise e.
Proof.
  intros Hone Hd Hb. induction ts as [|t' ts IH]; intros Hin; [by apply not_elem_of_nil in Hin|].
  cbn [scan_pending].
  destruct (load_json_object _ _ _) as [r'|e] eqn:Hl; [|by eexists].
  apply load_json_ok in Hl. cbn [mbind res_bind].
  destruct (in_str_set (get r' "status") BLOCKING_TRANSACTION_STATES) as [[]|e] eqn:Hbl;
    [by eexists| |by eexists]. cbn [mbind res_bind].
  apply elem_of_cons in Hin as [->|Hin].
  { unfold disk_record, record_on_disk, has_status in *. simplify_eq. congruence. }
  destruct (in_str_set (get r' "status") INCOMPLETE_TRANSACTION_STATES) as [[]|e] eqn:Hin';
    [|by apply IH|by eexists].
  assert (t' = t) as ->.
  { apply Hone; [exists r'|exists r]; (split; [done|]); [by left|by right]. }
  unfold disk_record, record_on_disk, has_status in *. simplify_eq. congruence.
Qed.

Lemma locked_blocked {A} (k : M A) s t r :
  at_most_one_open s → disk_record s t r → has_status r BLOCKING_TRANSACTION_STATES →
  is_ret (with_lifecycle_lock (ensure_layout;; reconcile_pending;; k) s) = false
  ∧ only_events s (with_lifecycle_lock (ensure_layout;; reconcile_pending;; k) s).2.
Proof.
  intros Hone Hd Hb. unfold with_lifecycle_lock, ensure_layout, reconcile_pending, mbind, M_bind.
  unfold tick. destruct (fault_at (st_ev s)); [|split; [done|exists (S (st_ev s)); reflexivity]..].
  cbv beta iota. destruct (fault_at (st_ev (set_ev S s))); [|split; [done|exists (S (S (st_ev s))); reflexivity]..].
  destruct (scan_pending_blocked (set_ev S (set_ev S s))
    (record_transactions (set_ev S (set_ev S s))) t r) as [e He]; [done..| |].
  { apply open_in_transactions. exists r. split; [done|]. by right. }
  unfold lift. rewrite He. split; [done|]. exists (S (S (st_ev s))). reflexivity.
Qed.

Lemma command_blocked c s t r :
  reconciles c = true →
  at_most_one_open s → disk_record s t r → has_status r BLOCKING_TRANSACTION_STATES →
  is_ret (run_command c s) = false ∧ only_events s (run_command c s).2.
Proof.
  intros Hc Hone Hd Hb. destruct c; try (by eapply locked_blocked); [done| |done].
  simpl. unfold verify_command, verify_current, require_not, guard_lc, mbind at 1, M_bind at 1.
  rewrite andb_false_r. by eapply locked_blocked.
Qed.
End closure2.

(** ** Properties *)

(** C3: in every reachable state at most one transaction is open, and a
    command that reconciles first (every one but the installation and the
    closure of a failed recovery) and returns normally leaves none. *)
Theorem one_open_transaction `{Runtime, LifecycleExecutor, !ExecutorContract _} s :
  reachable s →
  at_most_one_open s
  ∧ ∀ c r s', reconciles c = true → run_command c s = (ORet r, s') → none_open [] s'.
Proof.
  intros Hs%reachable_at_most_one. split; [done|]. intros c r s' Hc Hrun.
  pose proof (command_closes c Hc s Hs) as Hcl. by rewrite Hrun in Hcl.
Qed.

(** C4: once a recovery has failed, every command but the installation and the
    closure of the failed recovery refuses to run: it does not return, and it changes nothing on the host (only the
    number of events has advanced). *)
Theorem recovery_failure_blocks `{Runtime, LifecycleExecutor, !ExecutorContract _} s t r c :
  reachable s → disk_record s t r → get r "status" = PStr "recovery_failed" →
  reconciles c = true →
  is_ret (run_command c s) = false ∧ only_events s (run_command c s).2.
Proof.
  intros Hs%reachable_at_most_one Hd Hr Hc. eapply command_blocked; [done..|].
  unfold has_status, in_str_set. by rewrite Hr.
Qed.

Section samples.
#[local] Existing Instance sample_runtime.

Lemma one_open_transaction_witness :
  at_most_one_open sample_deployed
  ∧ none_open [] (@run_command sample_runtime sample_executor CmdStatus sample_deployed).2.
Proof.
  destruct (@one_open_transaction sample_runtime sample_executor sample_contract sample_deployed)
    as [Ho Hc].
  - exact sample_deployed_reachable.
  - split; [exact Ho|].
    apply (Hc CmdStatus (returned [] (@run_command sample_runtime sample_executor CmdStatus sample_deployed))).
    + reflexivity.
    + apply returned_eta. vm_compute. reflexivity.
Defined.

#[local] Existing Instance failing_executor.
#[local] Existing Instance failing_contract.

Definition record_at (s : st) (t : string) : pydict :=
  match tx_lookup s t "record.json" with Some (NFile (CJson (PDict r))) => r | _ => [] end.

(** A first deployment whose verification fails and whose stop fails too. *)
Definition sample_blocked : st :=
  (run_command (CmdDeploy (sample_id "v3.6.7" "A"))
     (run_command (CmdInstall (sample_inputs "v3.6.7" "A")) sample_host).2).2.
Definition sample_blocked_tx : string := default "" (head (record_transactions sample_blocked)).

Lemma recovery_failure_blocks_witness :
  is_ret (run_command CmdRollback sample_blocked) = false
  ∧ only_events sample_blocked (run_command CmdRollback sample_blocked).2.
Proof.
  apply (recovery_failure_blocks sample_blocked sample_blocked_tx
           (record_at sample_blocked sample_blocked_tx) CmdRollback).
  - do 2 apply reach_command. apply reach_start, sample_host_fresh.
  - vm_compute. reflexivity.
  - vm_compute. reflexivity.
  - reflexivity.
Defined.
End samples.
