(* ===== verification/LifecycleTopology.v ===== *)
(** * Release lifecycle: a closed transaction tells where [current] points

    A transaction that ends by promoting, restoring or failing closed records
    which deployment is current.  The theorems show that the recorded claim and
    the [current] link agree in every state the transaction leaves on disk,
    including the states after a failed write and after a crash at any event,
    and that a returning activation has performed its steps in order. *)
From S2P Require Import Prelude PyFloat PyValue PyPath LifecycleCore LifecycleIO LifecycleRecords.
From S2P Require Import LifecycleSamples LifecycleInstall LifecycleNetwork LifecycleTransaction.
From S2P Require Import LifecycleCommands LifecycleRecoveryFacts LifecycleLogic.
From S2P Require Import LifecycleInvariants LifecycleSafety LifecycleClosure.

Section claims.
Context `{Runtime}.

Definition promoted_states : list string := ["passed"; "passed_reconciled"].
Definition restored_states : list string :=
  ["rolled_back"; "rolled_forward"; "interrupted_rolled_back"].
Definition closed_states : list string := ["failed_closed"; "interrupted_failed_closed"].

(** What a closed record says about the [current] link. *)
Definition claims (r : pydict) : option link :=
  match get r "status" with
  | PStr v =>
      if mem_str v promoted_states then
        match get r "current" with PStr c => Some (LTo (dep_dir c)) | _ => None end
      else if mem_str v restored_states then
        match get r "restored_current" with
        | PStr c => if String.eqb c "" then Some LMissing else Some (LTo (dep_dir c))
        | _ => Some LMissing
        end
      else if mem_str v closed_states then Some LMissing
      else None
  | _ => None
  end.

Definition agrees (t : string) (s : st) : Prop :=
  ∀ r l, disk_record s t r → claims r = Some l → st_current s = l.

Definition unclaimed (t : string) (_ : list known) (s : st) : Prop :=
  ∀ r, disk_record s t r → claims r = None.

Definition at_link (t : string) (l : link) (s : st) : Prop :=
  unclaimed t [] s ∧ st_current s = l.

Lemma unclaimed_agrees t s : unclaimed t [] s → agrees t s.
Proof. intros Hu r l Hr Hc. by rewrite (Hu r Hr) in Hc. Qed.

Lemma unclaimed_records t : records_only (unclaimed t []).
Proof. intros s s' Ht Hu r. unfold disk_record. rewrite Ht. apply Hu. Qed.

#[export] Instance unclaimed_frame t : LifecycleFrame (unclaimed t).
Proof. apply (records_only_frame (unclaimed t [])), unclaimed_records. Qed.

Lemma claims_derived r v :
  (∀ k, k ∉ derived_keys → get v k = get r k) → claims v = claims r.
Proof. intros Hv. unfold claims. by rewrite !Hv by compute_done. Qed.

(** Assertions about the records and the [current] link. *)
Definition topo_only (J : st → Prop) : Prop :=
  ∀ s s', (∀ t, tx_lookup s' t "record.json" = tx_lookup s t "record.json") →
          st_current s' = st_current s → J s → J s'.

Lemma agrees_topo t : topo_only (agrees t).
Proof. intros s s' Ht Hc Ha r l. unfold disk_record. rewrite Ht, Hc. apply Ha. Qed.

Lemma at_link_topo t l : topo_only (at_link t l).
Proof. intros s s' Ht Hc [Hu Hl]. split; [by apply (unclaimed_records t s)|by rewrite Hc]. Qed.
End claims.

Section topo.
Context `{Runtime, LifecycleExecutor, !ExecutorContract _}.
Context (J : st → Prop) (HJ : topo_only J).

Lemma topo_ev : ev_stable J.
Proof. intros s. by apply HJ. Qed.
Lemma topo_framed {A} (m : M A) : framed m → pres J m.
Proof. intros Hm s. destruct (Hm s) as (?&?&Hc&?&?&?&?&?&Ht). by apply HJ. Qed.
Lemma topo_logged {A} e (m : M A) : framed m → pres J (logged e m).
Proof.
  intros Hm. unfold logged. apply pres_bind; [by apply topo_framed|intros a].
  apply pres_bind; [|intros ?; apply pres_ret]. apply pres_modify. intros s. by apply HJ.
Qed.
Lemma topo_read_at {A} (f : nat → A) : pres J (read_at f).
Proof. apply pres_read_at, topo_ev. Qed.
Lemma topo_upd_rec kvs : pres J (upd_rec kvs).
Proof. apply pres_modify. intros s. by apply HJ. Qed.
#[local] Hint Resolve topo_read_at topo_logged topo_upd_rec frame_precheck frame_activate
  frame_commit frame_uncommit frame_deactivate frame_verify : lifecycle.

Lemma topo_remaining a b : pres J (remaining a b).
Proof. unfold remaining, monotonic. pres_auto. Qed.
Lemma topo_elapsed a : pres J (elapsed_since a).
Proof. unfold elapsed_since, monotonic. pres_auto. Qed.
Lemma topo_dir i : pres J (deployment_dir i).
Proof. unfold deployment_dir. pres_auto. Qed.
#[local] Hint Resolve topo_remaining topo_elapsed topo_dir : lifecycle.

Lemma topo_uncommit a b : pres J (exec_uncommit a b).
Proof. unfold exec_uncommit. pres_auto. Qed.
Lemma topo_verify i u a b n : pres J (verify_within i u a b n).
Proof. unfold verify_within, verify_target. pres_auto. Qed.
Lemma topo_active f : (∀ s, f s = set_active (st_active (f s)) s) → pres J (durably f).
Proof. intros Hf. apply pres_durably; [apply topo_ev|]. intros s. rewrite Hf. by apply HJ. Qed.
Lemma topo_clear_active : pres J clear_active_image_link.
Proof. unfold clear_active_image_link. pres_auto. by apply topo_active. Qed.
Lemma topo_ensure_active : pres J ensure_active_image_link.
Proof. unfold ensure_active_image_link, fail_lc, uuid_hex. pres_auto; by apply topo_active. Qed.
Lemma topo_previous i : pres J (atomic_link i Previous).
Proof.
  unfold atomic_link, record_get, uuid_hex. pres_auto.
  apply pres_durably; [apply topo_ev|]. intros s. by apply HJ.
Qed.
Lemma topo_failure_summary t e : pres J (ensure_failure_summary t e).
Proof.
  unfold ensure_failure_summary, now. pres_auto. apply pres_durably; [apply topo_ev|].
  intros s. apply HJ; [|done]. intros t'. apply tx_lookup_put_ne. congruence.
Qed.
End topo.

#[export] Hint Resolve topo_read_at topo_upd_rec topo_elapsed topo_verify topo_uncommit
  topo_clear_active topo_ensure_active topo_previous topo_failure_summary
  agrees_topo at_link_topo : lifecycle.

Section writes.
Context `{Runtime, LifecycleExecutor, !ExecutorContract _}.

(** Writing a record that claims what is the case, or nothing. *)
Lemma agrees_write t :
  triple (λ s, agrees t s ∧ ∀ l, claims (st_rec s) = Some l → st_current s = l)
    (write_transaction_record t) (λ _, agrees t) (agrees t).
Proof.
  set (K := λ s, agrees t s ∧ ∀ l, claims (st_rec s) = Some l → st_current s = l).
  assert (pres K (write_transaction_record t)) as Hp.
  { apply pres_write_record.
    - intros s [Ha Hc]. by split.
    - intros v s Hv [Ha Hc]. split; [done|]. intros l. simpl. rewrite (claims_derived _ _ Hv). apply Hc.
    - intros s [Ha Hc]. split; [|done]. intros r l Hr Hl. unfold disk_record in Hr.
      rewrite tx_lookup_put_eq in Hr. injection Hr as <-. by apply Hc. }
  apply pres_triple in Hp. eapply triple_conseq; [exact Hp|done|by intros ? ? []|by intros ? []].
Qed.

(** After a record that claims nothing, nothing is claimed. *)
Lemma unclaimed_write t :
  triple (λ s, agrees t s ∧ claims (st_rec s) = None) (write_transaction_record t)
    (λ _, unclaimed t []) (agrees t).
Proof.
  intros s [Ha Hn]. pose proof (agrees_write t s) as Hw.
  destruct (write_transaction_record t s) as [[[]| |] s'] eqn:Hrun;
    [|apply Hw; split; [done|by rewrite Hn]..].
  apply write_transaction_record_ret in Hrun as (n & r & -> & Hr).
  intros r' Hr'. unfold disk_record in Hr'. rewrite tx_lookup_put_eq in Hr'.
  injection Hr' as <-. by rewrite (claims_derived _ _ Hr).
Qed.

(** [record.update(...); self._write_transaction_record(...)]. *)
Lemma write_unclaimed t v kvs :
  "status" ∉ map fst kvs →
  v ∉ promoted_states ++ restored_states ++ closed_states →
  triple (agrees t) (upd_rec (("status", PStr v) :: kvs);; write_transaction_record t)
    (λ _, unclaimed t []) (agrees t).
Proof.
  intros Hk Hv s Ha. apply unclaimed_write. split; [done|]. unfold claims. cbn [st_rec set_rec].
  rewrite get_dupdate_head by done. rewrite !not_elem_of_app in Hv.
  destruct Hv as (H1 & H2 & H3).
  by rewrite !mem_str_false.
Qed.

Lemma write_claimed t l v kvs :
  (∀ r, claims (dupdate r (("status", PStr v) :: kvs)) = Some l) →
  triple (at_link t l) (upd_rec (("status", PStr v) :: kvs);; write_transaction_record t)
    (λ _, agrees t) (agrees t).
Proof.
  intros Hc s [Hu Hl]. apply agrees_write. split; [by apply unclaimed_agrees|].
  intros l'. cbn [st_rec set_rec st_current]. rewrite Hc. by intros [= <-].
Qed.
End writes.

(** ** Moving the link *)

Section moves.
Context `{Runtime, LifecycleExecutor, !ExecutorContract _}.

Lemma id_nonempty i : check_deployment_id i = Ok () → String.eqb i "" = false.
Proof. destruct i; [done|done]. Qed.

(** Assertions for a link that names a deployment. *)
Definition points_to (t i : string) (s : st) : Prop :=
  at_link t (LTo (dep_dir i)) s ∧ String.eqb i "" = false.

Lemma atomic_link_points t i :
  triple (unclaimed t []) (atomic_link i Current) (λ _, points_to t i) (unclaimed t []).
Proof.
  intros s Hu. unfold atomic_link, deployment_dir, mbind at 1 2, M_bind at 1 2, lift.
  destruct (check_deployment_id i) as [[]|] eqn:Hid; [|done]. unfold mret, M_ret.
  apply (triple_pres_bind (unclaimed t [])); [pres_auto| |done|done]. intros r.
  apply (triple_pres_bind (unclaimed t [])); [pres_auto| |done]. intros u.
  apply triple_durably; [by intros s' Hs'|done| |by intros s' [[? ?] ?]|by intros s' [[? ?] ?]].
  intros s' Hs'. split; [by split|by apply id_nonempty].
Qed.

Lemma points_to_topo t i : topo_only (points_to t i).
Proof. intros s s' Ht Hc [Ha Hi]. split; [by apply (at_link_topo t _ s)|done]. Qed.

Lemma points_unclaimed t i s : points_to t i s → unclaimed t [] s.
Proof. by intros [[? ?] ?]. Qed.

Lemma activate_files_points t i :
  triple (unclaimed t []) (activate_files i) (λ _, points_to t i) (unclaimed t []).
Proof.
  unfold activate_files.
  do 4 (apply (triple_pres_bind (unclaimed t [])); [solve [pres_auto]| |done]; intros ?).
  assert (triple (unclaimed t []) (atomic_link i Current;; ensure_active_image_link)
            (λ _, points_to t i) (unclaimed t [])) as H1.
  { apply (triple_bind _ _ _ (λ _, points_to t i)); [apply atomic_link_points|]. intros [].
    eapply triple_conseq; [apply pres_triple, topo_ensure_active, points_to_topo|done|done|].
    apply points_unclaimed. }
  assert (triple (unclaimed t []) (ensure_active_image_link;; atomic_link i Current)
            (λ _, points_to t i) (unclaimed t [])) as H2.
  { apply (triple_pres_bind (unclaimed t [])); [pres_auto| |done]. intros [].
    apply atomic_link_points. }
  by destruct a2.
Qed.

Lemma fail_closed_missing t o a b :
  triple (unclaimed t []) (fail_closed o a b) (λ _, at_link t LMissing) (unclaimed t []).
Proof.
  unfold fail_closed. apply (triple_pres_bind (unclaimed t [])); [pres_auto| |done]. intros [].
  apply (triple_bind _ _ _ (λ _, at_link t LMissing)).
  { unfold clear_link.
    do 2 (apply (triple_pres_bind (unclaimed t [])); [solve [pres_auto]| |done]; intros ?).
    by apply triple_durably; [intros s' Hs'|..|intros s' [? ?]|intros s' [? ?]]. }
  intros []. eapply triple_conseq.
  - apply (pres_triple (at_link t LMissing)). apply pres_bind; [apply topo_clear_active, at_link_topo|].
    intros []. apply topo_uncommit, at_link_topo.
  - done.
  - done.
  - by intros s [? ?].
Qed.

(** The link after a restoration. *)
Definition restored (t : string) (o : option string) (s : st) : Prop :=
  match o with Some old => points_to t old s | None => at_link t LMissing s end.

Lemma restore_restores t o u a b f :
  triple (unclaimed t []) (restore o u a b f) (λ _, restored t o) (unclaimed t []).
Proof.
  destruct o as [old|]; simpl.
  - do 5 (apply (triple_pres_bind (unclaimed t [])); [solve [pres_auto]| |done]; intros ?).
    apply activate_files_points.
  - apply (triple_pres_bind (unclaimed t [])); [pres_auto| |done]. intros c.
    apply fail_closed_missing.
Qed.

Lemma attempt_triple P (m : M unit) (Q : st → Prop) :
  triple P m (λ _, Q) P →
  triple P (attempt m) (λ o, match o with None => Q | Some _ => P end) P.
Proof.
  intros Hm. unfold attempt. eapply (triple_try _ _ _ _ P); [|intros e; by apply triple_ret|done].
  apply (triple_bind _ _ _ (λ _, Q)); [done|]. intros []. by apply triple_ret.
Qed.
End moves.

(** ** Agreement of the transaction bodies *)

Section agreement.
Context `{Runtime, LifecycleExecutor, !ExecutorContract _}.

Lemma triple_agrees {A} t (m : M A) Q :
  triple (unclaimed t []) m Q (unclaimed t []) → triple (unclaimed t []) m Q (agrees t).
Proof. intros Hm. eapply triple_conseq; [done..|]. apply unclaimed_agrees. Qed.

(** Step over what claims nothing and keeps the records. *)
Lemma unclaimed_step {A B} t (m : M A) (k : A → M B) Q :
  pres (unclaimed t []) m → (∀ a, triple (unclaimed t []) (k a) Q (agrees t)) →
  triple (unclaimed t []) (m ≫= k) Q (agrees t).
Proof. intros Hm Hk. apply triple_pres_bind; [done..|apply unclaimed_agrees]. Qed.

Lemma agrees_step {A B} t (m : M A) (k : A → M B) Q :
  pres (agrees t) m → (∀ a, triple (agrees t) (k a) Q (agrees t)) →
  triple (agrees t) (m ≫= k) Q (agrees t).
Proof. intros Hm Hk. by apply triple_pres_bind. Qed.

Lemma points_step {A B} t i (m : M A) (k : A → M B) Q :
  pres (points_to t i) m → (∀ a, triple (points_to t i) (k a) Q (agrees t)) →
  triple (points_to t i) (m ≫= k) Q (agrees t).
Proof.
  intros Hm Hk. apply triple_pres_bind; [done..|]. intros s Hs.
  by eapply unclaimed_agrees, points_unclaimed.
Qed.

Lemma linked_step {A B} t l (m : M A) (k : A → M B) Q :
  pres (at_link t l) m → (∀ a, triple (at_link t l) (k a) Q (agrees t)) →
  triple (at_link t l) (m ≫= k) Q (agrees t).
Proof. intros Hm Hk. apply triple_pres_bind; [done..|]. by intros s [? ?]; apply unclaimed_agrees. Qed.

(** An intermediate status. *)
Lemma status_step {B} t v (k : M B) Q :
  v ∉ promoted_states ++ restored_states ++ closed_states →
  triple (unclaimed t []) k Q (agrees t) →
  triple (unclaimed t []) (set_status v;; write_transaction_record t;; k) Q (agrees t).
Proof.
  intros Hv Hk. apply triple_assoc.
  apply (triple_bind _ _ _ (λ _, unclaimed t [])); [|by intros []].
  eapply triple_conseq; [apply (write_unclaimed t v []); [apply not_elem_of_nil|done]|..];
    [apply unclaimed_agrees|done|done].
Qed.

Lemma files_step {B} t i (k : M B) Q :
  triple (points_to t i) k Q (agrees t) →
  triple (unclaimed t []) (activate_files i;; k) Q (agrees t).
Proof.
  intros Hk. apply (triple_bind _ _ _ (λ _, points_to t i)); [|by intros []].
  apply triple_agrees, activate_files_points.
Qed.

Lemma write_promoted t i v kvs :
  (∀ r, claims (dupdate r (("status", PStr v) :: kvs)) = Some (LTo (dep_dir i))) →
  triple (points_to t i) (upd_rec (("status", PStr v) :: kvs);; write_transaction_record t)
    (λ _, agrees t) (agrees t).
Proof.
  intros Hc. eapply triple_conseq; [by apply (write_claimed t (LTo (dep_dir i)))|by intros s [? ?]|done..].
Qed.

Ltac field_get := unfold dupdate; simpl; rewrite ?get_dset_ne by done; rewrite ?get_dset_eq.

Lemma claims_promoted r v kvs c :
  v ∈ promoted_states → get (dupdate r (("status", PStr v) :: kvs)) "status" = PStr v →
  get (dupdate r (("status", PStr v) :: kvs)) "current" = PStr c →
  claims (dupdate r (("status", PStr v) :: kvs)) = Some (LTo (dep_dir c)).
Proof. intros Hv Hs Hc. unfold claims. rewrite Hs, Hc. apply mem_str_spec in Hv. by rewrite Hv. Qed.

Lemma pres_unclaimed_update t i x y :
  pres (unclaimed t []) (update_deployment i
    [("status", PStr "verified"); ("verified_at", x); ("last_transaction", y)]).
Proof.
  change (pres (unclaimed t [KLogged i]) (update_deployment i
    [("status", PStr "verified"); ("verified_at", x); ("last_transaction", y)])).
  eapply (triple_learn_pres (unclaimed t)), learn_update_verified; [apply _|set_solver].
Qed.
#[local] Hint Resolve pres_unclaimed_update points_to_topo : lifecycle.

Lemma activate_body_agrees t i o a b :
  triple (unclaimed t []) (activate_body i o t a b) (λ _, agrees t) (agrees t).
Proof.
  unfold activate_body. do 3 (apply unclaimed_step; [solve [pres_auto]|intros ?]).
  apply status_step; [compute_done|].
  do 5 (apply unclaimed_step; [solve [pres_auto]|intros ?]).
  apply status_step; [compute_done|]. apply unclaimed_step; [solve [pres_auto]|intros ?].
  apply files_step. do 3 (apply points_step; [solve [unfold now; pres_auto]|intros ?]).
  apply write_promoted. intros r. apply claims_promoted; [set_solver|by field_get..].
Qed.

Lemma rollback_body_agrees t i o a :
  triple (unclaimed t []) (rollback_body i o t a) (λ _, agrees t) (agrees t).
Proof.
  unfold rollback_body. do 3 (apply unclaimed_step; [solve [pres_auto]|intros ?]).
  apply status_step; [compute_done|]. apply unclaimed_step; [solve [pres_auto]|intros ?].
  apply status_step; [compute_done|]. apply unclaimed_step; [solve [pres_auto]|intros ?].
  apply files_step.
  do 9 (apply points_step; [solve [unfold now, record_get; pres_auto]|intros ?]).
  apply write_promoted. intros r. apply claims_promoted; [set_solver|by field_get..].
Qed.

(** Recording an outcome that claims nothing. *)
Lemma note_unclaimed t v kvs :
  "status" ∉ map fst kvs → v ∉ promoted_states ++ restored_states ++ closed_states →
  triple (unclaimed t []) (upd_rec (("status", PStr v) :: kvs);; write_transaction_record t)
    (λ _, agrees t) (agrees t).
Proof.
  intros Hk Hv. eapply triple_conseq; [by apply (write_unclaimed t v kvs)|..|done].
  - apply unclaimed_agrees.
  - intros u. apply unclaimed_agrees.
Qed.

Definition link_of_option (o : option string) : link :=
  match o with Some c => LTo (dep_dir c) | None => LMissing end.

Lemma restored_linked t o s : restored t o s → at_link t (link_of_option o) s.
Proof. destruct o; [by intros [? _]|done]. Qed.

Lemma claims_restored r v kvs o :
  (∀ c, o = Some c → v ∈ restored_states ∧ String.eqb c "" = false) →
  (o = None → v ∈ restored_states ++ closed_states) →
  get (dupdate r (("status", PStr v) :: kvs)) "status" = PStr v →
  get (dupdate r (("status", PStr v) :: kvs)) "restored_current" = opt_str o →
  claims (dupdate r (("status", PStr v) :: kvs)) = Some (link_of_option o).
Proof.
  intros Ho Hn Hs Hc. unfold claims. rewrite Hs, Hc. destruct o as [c|].
  - destruct (Ho c eq_refl) as [Hv Hne].
    assert (mem_str v promoted_states = false) as ->.
    { apply mem_str_false. unfold restored_states, promoted_states in *. set_solver. }
    apply mem_str_spec in Hv. rewrite Hv. simpl. by rewrite Hne.
  - specialize (Hn eq_refl).
    assert (mem_str v promoted_states = false) as ->.
    { apply mem_str_false. unfold restored_states, closed_states, promoted_states in *. set_solver. }
    apply elem_of_app in Hn as [Hv|Hv]; apply mem_str_spec in Hv; rewrite Hv; [done|].
    by destruct (mem_str v restored_states).
Qed.

(** A result that is written and then reported as an exception. *)
Lemma raise_after {A B} (P E : st → Prop) (m : M A) (n : M unit) msg (Q : B → st → Prop) :
  triple P (m;; n) (λ _, E) E → triple P (m;; n;; fail_lc msg) Q E.
Proof.
  intros Hm. apply triple_assoc. apply (triple_bind _ _ _ (λ _, E)); [done|].
  intros []. apply triple_fail.
Qed.

Lemma restored_step {A B} t o (m : M A) (k : A → M B) Q :
  topo_only (restored t o) → pres (restored t o) m →
  (∀ a, triple (restored t o) (k a) Q (agrees t)) →
  triple (restored t o) (m ≫= k) Q (agrees t).
Proof.
  intros Ht Hm Hk. apply triple_pres_bind; [done..|]. intros s [? _]%restored_linked.
  by apply unclaimed_agrees.
Qed.

Lemma restored_topo t o : topo_only (restored t o).
Proof. destruct o; [apply points_to_topo|apply at_link_topo]. Qed.
#[local] Hint Resolve restored_topo : lifecycle.

Lemma recover_previous_agrees t o f a e x y fields m1 m2 Q :
  x ∉ promoted_states ++ restored_states ++ closed_states →
  (∀ c, o = Some c → y ∈ restored_states) → (o = None → y ∈ restored_states ++ closed_states) →
  "status" ∉ map fst fields → "restored_current" ∉ map fst fields →
  triple (unclaimed t []) (recover_previous o t f a e x y fields m1 m2) Q (agrees t).
Proof.
  intros Hx Hy Hn Hf1 Hf2. unfold recover_previous.
  apply unclaimed_step; [solve [pres_auto]|intros rs].
  eapply triple_bind; [apply triple_agrees, attempt_triple, restore_restores|].
  intros [rexc|].
  - do 3 (apply unclaimed_step; [solve [pres_auto]|intros ?]). apply raise_after.
    apply note_unclaimed; [compute_done|done].
  - do 3 (apply (restored_step t o); [apply restored_topo|solve [unfold now; pres_auto]|intros ?]).
    apply raise_after. intros s Hs.
    assert (∀ c, o = Some c → String.eqb c "" = false) as Hne.
    { intros c ->. by destruct Hs as [_ Hs]. }
    revert s Hs. eapply triple_conseq; [apply (write_claimed t (link_of_option o))|..];
      [|intros s Hs; by apply restored_linked|done..].
    intros r. apply claims_restored.
    + intros c Hc. split; [by eapply Hy|by apply Hne].
    + done.
    + apply get_dupdate_head. simpl. rewrite map_app. simpl. set_solver.
    + apply (get_dupdate_mid r [_; _]). rewrite map_app. simpl. set_solver.
Qed.

Lemma activate_handler_agrees t op i o o' l a e Q :
  triple (agrees t) (activate_handler op i o o' l t a e) Q (agrees t).
Proof.
  unfold activate_handler. do 2 (apply agrees_step; [solve [unfold now; pres_auto]|intros ?]).
  apply triple_assoc. apply (triple_bind _ _ _ (λ _, unclaimed t [])).
  { apply write_unclaimed; compute_done. }
  intros []. destruct l.
  - unfold recover_legacy. apply unclaimed_step; [solve [pres_auto]|intros ?].
    apply unclaimed_step; [solve [pres_auto]|intros failed].
    destruct failed; (repeat (apply unclaimed_step; [solve [pres_auto]|intros ?]));
      apply raise_after, note_unclaimed; compute_done.
  - destruct o; apply recover_previous_agrees; try compute_done; set_solver.
Qed.

Lemma rollback_handler_agrees t i o a e Q :
  triple (agrees t) (rollback_handler i o t a e) Q (agrees t).
Proof.
  unfold rollback_handler. do 2 (apply agrees_step; [solve [unfold now; pres_auto]|intros ?]).
  apply triple_assoc. apply (triple_bind _ _ _ (λ _, unclaimed t [])).
  { apply write_unclaimed; compute_done. }
  intros []. apply recover_previous_agrees; try compute_done; set_solver.
Qed.

(** ** Agreement of the reconciliation *)

(** The deployment that the record says to return to. *)
Definition return_target (v : py) : option string :=
  match v with PStr p => if String.eqb p "" then None else Some p | _ => None end.

Lemma claims_reconciled r kvs v :
  get (dupdate r (("status", PStr "interrupted_rolled_back") :: kvs)) "status"
    = PStr "interrupted_rolled_back" →
  get (dupdate r (("status", PStr "interrupted_rolled_back") :: kvs)) "restored_current" = v →
  claims (dupdate r (("status", PStr "interrupted_rolled_back") :: kvs))
    = Some (link_of_option (return_target v)).
Proof.
  intros Hs Hv. unfold claims. rewrite Hs, Hv. simpl.
  destruct v; try done. simpl. by destruct (String.eqb _ "").
Qed.

Lemma write_restored t o kvs v :
  (∀ r, claims (dupdate r (("status", PStr v) :: kvs)) = Some (link_of_option o)) →
  triple (restored t o) (upd_rec (("status", PStr v) :: kvs);; write_transaction_record t)
    (λ _, agrees t) (agrees t).
Proof.
  intros Hc. eapply triple_conseq; [by apply (write_claimed t (link_of_option o))|..|done|done].
  apply restored_linked.
Qed.

Lemma reconcile_promoted_agrees t i a :
  triple (unclaimed t []) (reconcile_promoted t i a) (λ _, agrees t) (agrees t).
Proof.
  unfold reconcile_promoted. apply unclaimed_step; [solve [pres_auto]|intros r].
  set (v := get r "from_current").
  apply (triple_bind _ _ _ (λ o, match o with None => points_to t i | Some _ => unclaimed t [] end)).
  { apply triple_agrees, attempt_triple.
    apply (triple_pres_bind (unclaimed t [])); [solve [pres_auto]| |done]. intros [].
    apply (triple_bind _ _ _ (λ _, points_to t i)); [apply activate_files_points|]. intros [].
    eapply triple_conseq; [apply (pres_triple (points_to t i))|done|done|apply points_unclaimed].
    apply pres_bind; [pres_auto|]. intros x. destruct v; try apply pres_ret.
    destruct (_ && _); [|apply pres_ret]. pres_auto. }
  intros [exc|].
  - apply unclaimed_step; [solve [pres_auto]|intros rs].
    apply (triple_bind _ _ _ (λ o, match o with None => restored t (return_target v)
                                   | Some _ => unclaimed t [] end)).
    { apply triple_agrees, attempt_triple. destruct v; try apply fail_closed_missing.
      cbn [return_target]. destruct (String.eqb s ""); [apply fail_closed_missing|].
      apply (restore_restores t (Some s)). }
    intros [rexc|].
    + apply unclaimed_step; [solve [pres_auto]|intros c]. apply raise_after, note_unclaimed; compute_done.
    + apply restored_step; [apply restored_topo|solve [unfold now; pres_auto]|intros c].
      apply write_restored. intros r'. apply claims_reconciled; by field_get.
  - apply points_step; [solve [unfold now; pres_auto]|intros c].
    apply write_promoted. intros r'. apply claims_promoted; [set_solver|by field_get..].
Qed.

Lemma reconcile_unpromoted_agrees t i o a :
  triple (unclaimed t []) (reconcile_unpromoted t i o a) (λ _, agrees t) (agrees t).
Proof.
  unfold reconcile_unpromoted. destruct o as [cur|].
  - do 2 (apply unclaimed_step; [solve [pres_auto]|intros ?]).
    apply (triple_bind _ _ _ (λ _, restored t (Some cur))); [apply triple_agrees, restore_restores|].
    intros []. intros s Hs. assert (String.eqb cur "" = false) as Hne by by destruct Hs.
    revert s Hs. apply (restored_step t (Some cur)); [apply restored_topo|solve [unfold now; pres_auto]|].
    intros c. apply (write_restored t (Some cur)). intros r'. apply claims_restored; [|done|by field_get..].
    intros c' [= <-]. split; [set_solver|done].
  - apply (triple_bind _ _ _ (λ _, at_link t LMissing)); [apply triple_agrees, fail_closed_missing|].
    intros []. apply linked_step; [solve [unfold now; pres_auto]|intros c].
    apply write_claimed. intros r'. unfold claims. rewrite get_dupdate_head by compute_done. done.
Qed.

Lemma reconcile_record_agrees t r :
  triple (unclaimed t []) (reconcile_record t r) (λ _, agrees t) (agrees t).
Proof.
  unfold reconcile_record. apply unclaimed_step; [solve [pres_auto]|intros ?].
  destruct (py_eqb _ _).
  { unfold reconcile_verify. do 2 (apply unclaimed_step; [solve [pres_auto]|intros ?]).
    apply raise_after, note_unclaimed; compute_done. }
  do 2 (apply unclaimed_step; [solve [pres_auto]|intros ?]). destruct a1.
  { unfold reconcile_legacy. do 4 (apply unclaimed_step; [solve [pres_auto]|intros ?]).
    apply note_unclaimed; compute_done. }
  do 2 (apply unclaimed_step; [solve [pres_auto]|intros ?]).
  destruct a2; [apply reconcile_promoted_agrees|apply reconcile_unpromoted_agrees].
Qed.

Lemma open_unclaimed r : has_status r INCOMPLETE_TRANSACTION_STATES → claims r = None.
Proof.
  unfold has_status, in_str_set, claims. destruct (get r "status") as [| | | |v| |]; try done.
  intros Hv. assert (mem_str v INCOMPLETE_TRANSACTION_STATES = true) as Hm by congruence.
  apply mem_str_spec in Hm. unfold INCOMPLETE_TRANSACTION_STATES in Hm. set_unfold in Hm.
  naive_solver.
Qed.

Lemma reconcile_pending_agrees s t r :
  scan_pending s (record_transactions s) = Ok (Some (t, r)) →
  agrees t (reconcile_pending s).2.
Proof.
  intros Hscan. unfold reconcile_pending, modify, mbind, M_bind, lift. rewrite Hscan.
  apply scan_pending_some in Hscan as [Hd Hst].
  pose proof (reconcile_record_agrees t r (set_rec r s)) as Hr.
  destruct (reconcile_record t r (set_rec r s)) as [[] ?]; apply Hr;
    intros r' Hr'; unfold disk_record, record_on_disk in Hr'; simpl in Hr'; simplify_eq;
    unfold tx_lookup, record_on_disk in *; simpl in *; simplify_eq; by apply open_unclaimed.
Qed.
End agreement.

(** ** Agreement of the commands *)

Section fresh.
Context `{Runtime, LifecycleExecutor, !ExecutorContract _}.
Context (N : string → Prop).

Definition none_new (_ : list known) (s : st) : Prop :=
  ∀ t, N t → tx_lookup s t "record.json" = None.
Definition newest (t : string) (_ : list known) (s : st) : Prop :=
  ∀ t', N t' → t' ≠ t → tx_lookup s t' "record.json" = None.
Definition fresh_agree (s : st) : Prop := ∀ t, N t → agrees t s.

Lemma none_new_newest t s : none_new [] s → newest t [] s.
Proof. intros Hn t' HN _. by apply Hn. Qed.

Lemma newest_fresh t s : newest t [] s → agrees t s → fresh_agree s.
Proof.
  intros Hn Ha t' HN. destruct (decide (t' = t)) as [->|Hne]; [done|].
  intros r l Hr. unfold disk_record, record_on_disk in Hr. by rewrite (Hn t' HN Hne) in Hr.
Qed.

Lemma none_new_fresh s : none_new [] s → fresh_agree s.
Proof.
  intros Hn t HN r l Hr. unfold disk_record, record_on_disk in Hr. by rewrite (Hn t HN) in Hr.
Qed.

#[export] Instance none_new_frame : LifecycleFrame none_new.
Proof.
  apply (records_only_frame (none_new [])). intros s s' Ht Hn t HN. rewrite Ht. by apply Hn.
Qed.

#[export] Instance newest_invariant t : LifecycleInvariant t (newest t).
Proof.
  split.
  - apply (records_only_frame (newest t [])). intros s s' Ht Hn t' HN Hne. rewrite Ht. by apply Hn.
  - intros L s Hn t' HN Hne. rewrite tx_lookup_put_ne by congruence. by apply Hn.
Qed.

Lemma triple_and {A} (P1 P2 : st → Prop) (m : M A) Q1 Q2 (E1 E2 : st → Prop) :
  triple P1 m Q1 E1 → triple P2 m Q2 E2 →
  triple (λ s, P1 s ∧ P2 s) m (λ a s, Q1 a s ∧ Q2 a s) (λ s, E1 s ∧ E2 s).
Proof.
  intros H1 H2 s [HP1 HP2]. specialize (H1 s HP1). specialize (H2 s HP2).
  by destruct (m s) as [[] ?].
Qed.

(** A computation on transaction [t] that keeps the others and agrees. *)
Lemma fresh_triple {A} t (m : M A) :
  pres (newest t []) m → triple (unclaimed t []) m (λ _, agrees t) (agrees t) →
  triple (λ s, newest t [] s ∧ unclaimed t [] s) m (λ _, fresh_agree) fresh_agree.
Proof.
  intros Hn Ha. apply pres_triple in Hn.
  eapply triple_conseq; [apply (triple_and _ _ _ _ _ _ _ Hn Ha)|done|..].
  - intros a s [? ?]. by eapply newest_fresh.
  - intros s [? ?]. by eapply newest_fresh.
Qed.

(** The record at hand does not name a current deployment. *)
Definition plain (s : st) : Prop := get (st_rec s) "current" = PNone.

Lemma plain_write t : pres plain (write_transaction_record t).
Proof.
  apply pres_write_record; [by intros s Hs| |by intros s Hs].
  intros v s Hv Hp. unfold plain. simpl. by rewrite Hv by compute_done.
Qed.

Lemma transaction_fresh op fields :
  "status" ∉ map fst fields → "current" ∉ map fst fields →
  triple (none_new []) (transaction op fields)
    (λ t s, (newest t [] s ∧ unclaimed t [] s) ∧ plain s) fresh_agree.
Proof.
  intros Hst Hcur. unfold transaction, strftime_now, uuid_hex.
  assert (∀ s, none_new [] s → fresh_agree s) as Hf by apply none_new_fresh.
  do 2 (apply triple_pres_bind; [by apply pres_read_at, (li_ev none_new)| |done]; intros ?).
  apply triple_pres_bind; [pres_auto| |done]. intros old.
  set (t := (a +:+ _)). clearbody t. destruct old.
  { by eapply (triple_conseq _ (none_new [])); [apply (triple_raise _ _ _ (λ _ _, False))|..]. }
  set (P := λ s, none_new [] s ∧ tx_lookup s t "record.json" = None).
  apply (triple_bind _ _ _ (λ _, P)).
  { apply triple_durably.
    - done.
    - done.
    - intros s Hs. split.
      + intros t' HN. destruct (tx_lookup _ t' _) as [n|] eqn:Hl; [|done].
        specialize (Hs t' HN). revert Hl. unfold tx_lookup in *. simpl.
        destruct (decide (t' = t)) as [->|Hne]; [by rewrite lookup_insert_eq|].
        rewrite lookup_insert_ne by done. congruence.
      + unfold tx_lookup. simpl. by rewrite lookup_insert_eq.
    - by intros s [? ?].
    - intros s [Hs _]. by apply Hf. }
  intros []. apply triple_pres_bind; [apply pres_read_at; by intros s [? ?]| |].
  2:{ intros s [Hs _]. by apply Hf. }
  intros started.
  apply (triple_bind _ _ _ (λ _ s, (P s ∧ claims (st_rec s) = None) ∧ plain s)).
  { intros s Hs. unfold claims, plain. simpl. unfold new_record.
    by rewrite !get_dupdate_notin by done. }
  intros []. apply (triple_bind _ _ _ (λ _ s, (newest t [] s ∧ unclaimed t [] s) ∧ plain s));
    [|intros []; by apply triple_ret].
  assert (triple (λ s, P s ∧ claims (st_rec s) = None) (write_transaction_record t)
            (λ _ s, newest t [] s ∧ unclaimed t [] s) fresh_agree) as Hw.
  { eapply triple_conseq.
    - apply (triple_and (newest t []) (λ s, agrees t s ∧ claims (st_rec s) = None) _
        (λ _, newest t []) (λ _, unclaimed t []) (newest t []) (agrees t));
        [apply pres_triple; pres_auto|apply unclaimed_write].
    - intros s [[Hs Ht] Hc]. split; [by apply none_new_newest|]. split; [|done].
      intros r l Hr. unfold disk_record, record_on_disk in Hr. by rewrite Ht in Hr.
    - done.
    - intros s [? ?]. by eapply newest_fresh. }
  pose proof (proj1 (pres_triple _ _) (plain_write t)) as Hpw.
  eapply triple_conseq; [exact (triple_and _ _ _ _ _ _ _ Hw Hpw)|done|done|].
  by intros s [? _].
Qed.

Lemma fresh_step {A B} (m : M A) (k : A → M B) Q :
  pres (none_new []) m → (∀ a, triple (none_new []) (k a) Q fresh_agree) →
  triple (none_new []) (m ≫= k) Q fresh_agree.
Proof. intros Hm Hk. apply triple_pres_bind; [done..|apply none_new_fresh]. Qed.

Lemma fresh_end {A} (m : M A) :
  pres (none_new []) m → triple (none_new []) m (λ _, fresh_agree) fresh_agree.
Proof.
  intros Hm. eapply triple_conseq; [apply pres_triple, Hm|done|..].
  - intros a. apply none_new_fresh.
  - apply none_new_fresh.
Qed.

Lemma fresh_agree_gets {A} (f : st → A) :
  triple fresh_agree (gets f) (λ _, fresh_agree) fresh_agree.
Proof. by apply (proj1 (pres_triple _ _)), pres_gets. Qed.

(** A transaction with its handler. *)
Lemma fresh_transaction {A} op fields (body : string → pfloat → M unit)
    (handler : string → pfloat → exn → M unit) (f : st → A) :
  "status" ∉ map fst fields → "current" ∉ map fst fields →
  (∀ t a, pres (newest t []) (body t a)) →
  (∀ t a e, pres (newest t []) (handler t a e)) →
  (∀ t a, triple (unclaimed t []) (body t a) (λ _, agrees t) (agrees t)) →
  (∀ t a e, triple (agrees t) (handler t a e) (λ _, agrees t) (agrees t)) →
  triple (none_new [])
    (t ← transaction op fields; started ← monotonic;
     try_catch (body t started) (handler t started);; gets f)
    (λ _, fresh_agree) fresh_agree.
Proof.
  intros Hst Hcur Hb Hh Hba Hha. eapply triple_bind; [by apply transaction_fresh|]. intros t.
  apply (triple_conseq _ (λ s, newest t [] s ∧ unclaimed t [] s) _ (λ _, fresh_agree)
    (λ _, fresh_agree) fresh_agree fresh_agree); [|by intros s [? _]|done..].
  set (P := λ s, newest t [] s ∧ unclaimed t [] s).
  assert (∀ s, P s → fresh_agree s) as HP.
  { intros s [? ?]. by eapply newest_fresh, unclaimed_agrees. }
  apply (triple_pres_bind P); [apply pres_read_at; by intros s [? ?]| |done]. intros a.
  apply (triple_bind _ _ _ (λ _, fresh_agree)); [|intros []; apply fresh_agree_gets].
  apply fresh_triple; [by apply pres_try|]. by eapply triple_try.
Qed.

Lemma pres_newest_restate t K {A} (m : M A) : pres (newest t K) m → pres (newest t []) m.
Proof. done. Qed.

Lemma activate_transaction_fresh op i o o' l b :
  triple (none_new []) (activate_transaction op i o o' l b) (λ _, fresh_agree) fresh_agree.
Proof.
  unfold activate_transaction.
  apply (fresh_transaction _ _ (λ t a, activate_body i o t a b)
           (λ t a e, activate_handler op i o o' l t a e)).
  - compute_done.
  - compute_done.
  - intros t a. pres_auto.
  - intros t a e. apply (pres_newest_restate t (learned_verified o)).
    by apply (pres_activate_handler t (newest t)).
  - intros t a. apply activate_body_agrees.
  - intros t a e. apply activate_handler_agrees.
Qed.

(** *** Verification *)

Definition verifying (t : string) (s : st) : Prop := unclaimed t [] s ∧ plain s.

Lemma verifying_frame t s s' :
  (∀ t, tx_lookup s' t "record.json" = tx_lookup s t "record.json") → st_rec s' = st_rec s →
  verifying t s → verifying t s'.
Proof.
  intros Ht Hr [Hu Hp]. split; [by apply (unclaimed_records t s)|]. unfold plain. by rewrite Hr.
Qed.

Lemma verifying_read_at {A} t (f : nat → A) : pres (verifying t) (read_at f).
Proof. intros s. by apply verifying_frame. Qed.

Lemma verifying_logged {A} t e (m : M A) : framed m → pres (verifying t) (logged e m).
Proof.
  intros Hm. unfold logged. apply pres_bind.
  { intros s. destruct (Hm s) as (?&?&?&?&?&?&Hr&?&Ht). by apply verifying_frame. }
  intros a. apply pres_bind; [|intros ?; apply pres_ret]. apply pres_modify.
  intros s. by apply verifying_frame.
Qed.

(** A passed verification claims nothing. *)
Lemma verified_unclaimed t kvs :
  "status" ∉ map fst kvs → "current" ∉ map fst kvs →
  triple (verifying t) (upd_rec (("status", PStr "passed") :: kvs);; write_transaction_record t)
    (λ _, agrees t) (agrees t).
Proof.
  intros Hs Hc s [Hu Hp]. apply agrees_write. split; [by apply unclaimed_agrees|].
  intros l. unfold claims. cbn [st_rec set_rec]. rewrite get_dupdate_head by done.
  rewrite (get_dupdate_notin _ _ "current") by (simpl; set_solver). unfold plain in Hp. by rewrite Hp.
Qed.

Lemma verifying_agrees t s : verifying t s → agrees t s.
Proof. intros [? _]. by apply unclaimed_agrees. Qed.

Lemma verify_run_agrees t cur x allow :
  triple (verifying t) (verify_run t cur x allow)
    (λ _, agrees t) (agrees t).
Proof.
  assert (∀ s, verifying t s → agrees t s) as Hv by apply verifying_agrees.
  unfold verify_run. apply triple_pres_bind; [apply verifying_read_at| |done]. intros a.
  apply (triple_bind _ _ _ (λ _, verifying t)).
  { eapply (triple_try _ _ _ _ (verifying t)); [|intros e|done].
    - apply (proj1 (pres_triple (verifying t) _)). unfold verify_target, deployment_dir.
      destruct allow; pres_auto; apply verifying_logged; [apply frame_bridge|apply frame_verify].
    - apply (triple_conseq _ (unclaimed t []) _ _ (λ _ _, False) _ (agrees t));
        [|by intros s [? _]|done|done].
      do 2 (apply unclaimed_step; [solve [pres_auto]|intros ?]).
      apply triple_assoc. apply (triple_bind _ _ _ (λ _, agrees t)).
      + apply note_unclaimed; compute_done.
      + intros []. by intros s Hs. }
  intros summary. apply triple_pres_bind; [apply verifying_read_at| |done]. intros c.
  apply triple_pres_bind; [unfold elapsed_since; apply pres_bind; [apply verifying_read_at|]; intros ?; apply pres_ret| |done].
  intros el. apply triple_assoc. apply (triple_bind _ _ _ (λ _, agrees t));
    [|intros []; by apply triple_ret]. apply verified_unclaimed; compute_done.
Qed.

Lemma verify_execute_fresh x allow :
  triple (none_new []) (verify_execute x allow) (λ _, fresh_agree) fresh_agree.
Proof.
  unfold verify_execute. apply fresh_step; [pres_auto|].
  intros [cur|]; [|apply fresh_end; pres_auto].
  eapply triple_bind; [apply transaction_fresh; compute_done|]. intros t.
  eapply triple_conseq.
  - apply (triple_and (newest t []) (verifying t) _ (λ _, newest t []) (λ _, agrees t)
      (newest t []) (agrees t)); [|apply verify_run_agrees].
    apply (proj1 (pres_triple (newest t []) _)). pres_auto.
  - intros s [[? ?] ?]. by repeat split.
  - intros a s [? ?]. by eapply newest_fresh.
  - intros s [? ?]. by eapply newest_fresh.
Qed.

(** *** The commands *)

(** [N] are exactly the transactions without a record. *)
Definition new_exactly (s : st) : Prop :=
  none_new [] s ∧ ∀ t, tx_lookup s t "record.json" = None → N t.

Lemma none_new_write t : ¬ N t → LifecycleInvariant t none_new.
Proof.
  intros HN. split; [apply _|]. intros L s Hn t' HN'.
  rewrite tx_lookup_put_ne; [by apply Hn|]. intros [= ->]. done.
Qed.

Lemma reconcile_none_new :
  triple new_exactly reconcile_pending (λ _, none_new []) (none_new []).
Proof.
  intros s [Hn Hx]. unfold reconcile_pending, modify, mbind, M_bind, lift.
  destruct (scan_pending _ _) as [[[t r]|]|] eqn:Hscan; [|done..].
  apply scan_pending_some in Hscan as [Hd _].
  assert (LifecycleInvariant t none_new) as Hinv.
  { apply none_new_write. intros HN. unfold record_on_disk in Hd. by rewrite (Hn t HN) in Hd. }
  pose proof (pres_reconcile_record t none_new [] r (set_rec r s) Hn) as Hr.
  by destruct (reconcile_record t r _) as [[] ?].
Qed.

Lemma after_lock {A} (k : M A) :
  triple (none_new []) k (λ _, fresh_agree) fresh_agree →
  triple new_exactly (with_lifecycle_lock (ensure_layout;; reconcile_pending;; k))
    (λ _, fresh_agree) fresh_agree.
Proof.
  intros Hk. unfold with_lifecycle_lock, ensure_layout.
  do 2 (apply triple_pres_bind; [apply pres_tick; by intros s Hs|intros _|
    intros s [Hs _]; by apply none_new_fresh]).
  apply (triple_bind _ _ _ (λ _, none_new [])); [|by intros []].
  eapply triple_conseq; [apply reconcile_none_new|done|done|apply none_new_fresh].
Qed.

Lemma activate_fresh op i b :
  triple new_exactly (activate op i b) (λ _, fresh_agree) fresh_agree.
Proof.
  unfold activate, activate_locked. apply after_lock.
  do 7 (apply fresh_step; [solve [pres_auto]|intros ?]).
  destruct (opt_str_eqb _ i); [|apply activate_transaction_fresh].
  apply (triple_bind _ _ _ (λ _, fresh_agree)); [|intros v; by apply triple_ret].
  unfold verify_current. apply fresh_step; [pres_auto|intros _]. apply verify_execute_fresh.
Qed.

Lemma rollback_fresh : triple new_exactly rollback (λ _, fresh_agree) fresh_agree.
Proof.
  unfold rollback, rollback_locked. apply after_lock.
  do 2 (apply fresh_step; [solve [pres_auto]|intros ?]).
  destruct a as [cur|]; [|apply fresh_end; pres_auto].
  destruct a0 as [target|]; [|apply fresh_end; pres_auto].
  do 4 (apply fresh_step; [solve [pres_auto]|intros ?]).
  unfold rollback_transaction. apply (fresh_transaction _ _ (λ t a, rollback_body target cur t a)
           (λ t a e, rollback_handler target cur t a e)).
  - compute_done.
  - compute_done.
  - intros t a'. apply (pres_newest_restate t [KVerified target]).
    apply (pres_rollback_body t (newest t)). set_solver.
  - intros t a' e. apply (pres_newest_restate t [KVerified cur]).
    apply (pres_rollback_handler t (newest t)). set_solver.
  - intros t a'. apply rollback_body_agrees.
  - intros t a' e. apply rollback_handler_agrees.
Qed.

Lemma command_fresh c : triple new_exactly (run_command c) (λ _, fresh_agree) fresh_agree.
Proof.
  destruct c as [inp|i|i| |allow| |t p allow]; simpl.
  - eapply (triple_conseq _ (none_new [])); [apply fresh_end|by intros s [? _]|done..].
    apply pres_install_records. intros s s' Ht Hn t HN. rewrite Ht. by apply Hn.
  - apply activate_fresh.
  - apply activate_fresh.
  - apply rollback_fresh.
  - unfold verify_command, verify_current. apply triple_pres_bind; [apply pres_require|intros _|
      intros s [Hs _]; by apply none_new_fresh].
    apply after_lock, verify_execute_fresh.
  - unfold status, status_locked. apply after_lock, fresh_end. pres_auto.
    + apply (pres_framed_ex none_new), frame_runtime_status.
    + apply (pres_framed_ex none_new), frame_inactive_status.
  - eapply (triple_conseq _ (none_new [])); [apply fresh_end|by intros s [? _]|done..].
    apply pres_reconcile_recovery; [apply _|]. intros s t' r Hd _ Hn.
    assert (LifecycleInvariant t' none_new) as Hinv.
    { apply none_new_write. intros HN. by rewrite (Hn t' HN) in Hd. }
    by apply (pres_close_blocking t' none_new).
Qed.
End fresh.

(** ** Properties *)

(** C2: after any command, from any state, however it ended (returned, raised,
    or killed at any event), a transaction record that the command created and
    that claims an outcome agrees with the [current] link: ["passed"] with its
    ["current"], ["rolled_back"] and ["rolled_forward"] with their
    ["restored_current"], ["failed_closed"] with no current deployment. *)
Theorem closed_record_agrees `{Runtime, LifecycleExecutor, !ExecutorContract _} c s t :
  tx_lookup s t "record.json" = None → agrees t (run_command c s).2.
Proof.
  intros Ht.
  pose proof (command_fresh (λ t, tx_lookup s t "record.json" = None) c s) as Hf.
  assert (fresh_agree (λ t, tx_lookup s t "record.json" = None) (run_command c s).2) as Ha.
  { destruct (run_command c s) as [[] ?]; apply Hf; by split; intros t' ?. }
  by apply Ha.
Qed.

(** the reconciliation of an interrupted transaction leaves its record and
    the [current] link in agreement, however the reconciliation itself ends. *)
Theorem reconciled_record_agrees `{Runtime, LifecycleExecutor, !ExecutorContract _} s t r :
  scan_pending s (record_transactions s) = Ok (Some (t, r)) →
  agrees t (reconcile_pending s).2.
Proof. apply reconcile_pending_agrees. Qed.

Section samples.
Lemma closed_record_agrees_witness :
  let s := sample_installed in
  let s' := (@run_command sample_runtime sample_executor (CmdDeploy (sample_id "v3.6.7" "A")) s).2 in
  let t := default "" (head (record_transactions s')) in
  tx_lookup s t "record.json" = None ∧ get (record_at s' t) "status" = PStr "passed"
  ∧ @agrees sample_runtime t s'.
Proof.
  intros s s' t. split; [vm_compute; reflexivity|]. split; [vm_compute; reflexivity|].
  apply (@closed_record_agrees sample_runtime sample_executor sample_contract). vm_compute. reflexivity.
Defined.

(** A runtime that kills the process at event [n]. *)
Definition crash_at (n : nat) : Runtime :=
  runtime_with (λ k, if Nat.eqb k n then CrashFault else NoFault).

#[local] Existing Instance sample_executor.

(** The deployment dies between the move of the link and its last record. *)
Definition sample_crashed : st :=
  (@run_command (crash_at 41) sample_executor (CmdDeploy (sample_id "v3.6.7" "A"))
     sample_installed).2.

Lemma reconciled_record_agrees_witness :
  let pending := @scan_pending (crash_at 41) sample_crashed (record_transactions sample_crashed) in
  let t := (default ("", []) (ok_or None pending)).1 in
  let s' := (@reconcile_pending (crash_at 41) sample_executor sample_crashed).2 in
  get (record_at sample_crashed t) "status" = PStr "candidate_verified"
  ∧ get (record_at s' t) "status" = PStr "passed_reconciled"
  ∧ @agrees (crash_at 41) t s'.
Proof.
  intros pending t s'. split; [vm_compute; reflexivity|]. split; [vm_compute; reflexivity|].
  apply (@reconciled_record_agrees (crash_at 41) sample_executor sample_contract sample_crashed t
           (record_at sample_crashed t)).
  vm_compute. reflexivity.
Defined.
End samples.
