(* ===== verification/LifecycleActivation.v ===== *)
(** * Release lifecycle: what a successful command has done

    The effect of a returning activation and of a returning rollback on the
    links and on the sequence of executor calls: the calls happen in the order
    precheck, persistence transition, activate, verify, commit, and only then
    the links move. *)
From S2P Require Import Prelude PyFloat PyValue LifecycleCore LifecycleIO LifecycleRecords.
From S2P Require Import LifecycleSamples LifecycleInstall LifecycleNetwork LifecycleTransaction.
From S2P Require Import LifecycleCommands LifecycleLogic LifecycleInvariants LifecycleSafety.
From S2P Require Import LifecycleClosure LifecycleTopology.

(** The part of the state a completed command is judged by. *)
Record view := View {
  v_current : link;
  v_previous : link;
  v_active : active_env;
  v_log : list event }.

Definition view_of (s : st) : view := View (st_current s) (st_previous s) (st_active s) (st_log s).
Definition seen (v : view) (s : st) : Prop := view_of s = v.

(** If it returns. *)
Definition returns {A} (P : st → Prop) (m : M A) (Q : A → st → Prop) : Prop :=
  triple P m Q (λ _, True).

Section activation.
Context `{Runtime, LifecycleExecutor, !ExecutorContract _}.

(** The active image environment is the fixed link to the current one. *)
Definition active_fixed (a : active_env) : Prop :=
  ∃ raw, a = ASymlink raw ∧ (raw = expected_active_target ∨ resolve_raw raw = expected_active_target).

Lemma returns_pres {A} v (m : M A) : pres (seen v) m → returns (seen v) m (λ _, seen v).
Proof. intros Hm. by eapply triple_conseq; [apply pres_triple, Hm|..]. Qed.

Lemma returns_bind {A B} P (m : M A) (f : A → M B) R Q :
  returns P m R → (∀ a, returns (R a) (f a) Q) → returns P (m ≫= f) Q.
Proof. apply triple_bind. Qed.

Lemma returns_step {A B} v (m : M A) (f : A → M B) Q :
  pres (seen v) m → (∀ a, returns (seen v) (f a) Q) → returns (seen v) (m ≫= f) Q.
Proof. intros Hm Hf. eapply returns_bind; [by apply returns_pres|done]. Qed.

Lemma seen_ev v : ev_stable (seen v).
Proof. by intros s Hs. Qed.
Lemma seen_read_at {A} v (f : nat → A) : pres (seen v) (read_at f).
Proof. apply pres_read_at, seen_ev. Qed.
Lemma seen_upd_rec v kvs : pres (seen v) (upd_rec kvs).
Proof. by apply pres_modify. Qed.
Lemma seen_write v t : pres (seen v) (write_transaction_record t).
Proof. by apply pres_write_record; [apply seen_ev|..]. Qed.
Lemma seen_dir v i : pres (seen v) (deployment_dir i).
Proof. unfold deployment_dir. pres_auto. Qed.
#[local] Hint Resolve seen_read_at seen_upd_rec seen_write seen_dir : lifecycle.
Lemma seen_remaining v a b : pres (seen v) (remaining a b).
Proof. unfold remaining, monotonic. pres_auto. Qed.
Lemma seen_elapsed v a : pres (seen v) (elapsed_since a).
Proof. unfold elapsed_since, monotonic. pres_auto. Qed.
Lemma seen_update v i fields : pres (seen v) (update_deployment i fields).
Proof.
  unfold update_deployment, record_get. pres_auto.
  by apply pres_durably; [apply seen_ev|].
Qed.
Lemma seen_status v x : pres (seen v) (set_status x).
Proof. apply seen_upd_rec. Qed.
#[local] Hint Resolve seen_remaining seen_elapsed seen_update seen_status : lifecycle.

Definition with_event (e : event) (v : view) : view :=
  View (v_current v) (v_previous v) (v_active v) (e :: v_log v).

Lemma seen_logged {A} v e (m : M A) :
  framed m → returns (seen v) (logged e m) (λ _, seen (with_event e v)).
Proof.
  intros Hm. unfold logged. eapply returns_bind.
  { apply returns_pres. intros s Hs. destruct (Hm s) as (?&?&Hc&Hp&Ha&?&?&Hl&_).
    unfold seen, view_of in *. by rewrite Hc, Hp, Ha, Hl. }
  intros a s Hs. unfold seen in *. by subst.
Qed.

Lemma seen_call {B} v e (m : pfloat → M unit) i a b (k : M B) Q :
  (∀ x, framed (m x)) → returns (seen (with_event e v)) k Q →
  returns (seen v) ((_ ← deployment_dir i; t ← remaining a b; logged e (m t));; k) Q.
Proof.
  intros Hm Hk. apply (returns_bind _ _ _ (λ _, seen (with_event e v))); [|intros []; exact Hk].
  apply returns_step; [apply seen_dir|intros d]. apply returns_step; [apply seen_remaining|intros x].
  by apply seen_logged.
Qed.

Lemma dir_ret i s d s' : deployment_dir i s = (ORet d, s') → d = i.
Proof. unfold deployment_dir. intros Hd. m_inv. by subst. Qed.

Lemma deployment_dir_bind {A} i (f : string → M A) :
  (d ← deployment_dir i; f d) = (_ ← deployment_dir i; f i).
Proof.
  unfold deployment_dir, mbind, M_bind, lift, mret, M_ret. by destruct (check_deployment_id i).
Qed.

Lemma seen_precheck {B} v i a b (k : M B) Q :
  returns (seen (with_event (EPrecheck i) v)) k Q →
  returns (seen v) (exec_precheck i a b;; k) Q.
Proof.
  unfold exec_precheck. rewrite deployment_dir_bind. apply seen_call. intros x. apply frame_precheck.
Qed.
Lemma seen_activate {B} v i a b (k : M B) Q :
  returns (seen (with_event (EActivate i) v)) k Q →
  returns (seen v) (exec_activate i a b;; k) Q.
Proof.
  unfold exec_activate. rewrite deployment_dir_bind. apply seen_call. intros x. apply frame_activate.
Qed.
Lemma seen_commit {B} v i a b (k : M B) Q :
  returns (seen (with_event (ECommit i) v)) k Q →
  returns (seen v) (exec_commit i a b;; k) Q.
Proof.
  unfold exec_commit. rewrite deployment_dir_bind. apply seen_call. intros x. apply frame_commit.
Qed.

Lemma seen_verify {B} v i t a b n (k : pydict → M B) Q :
  (∀ x, returns (seen (with_event (EVerify i) v)) (k x) Q) →
  returns (seen v) (verify_within i t a b n ≫= k) Q.
Proof.
  intros Hk. apply (returns_bind _ _ _ (λ _, seen (with_event (EVerify i) v))); [|done].
  unfold verify_within, verify_target. apply returns_step; [apply seen_remaining|intros x].
  rewrite deployment_dir_bind. apply returns_step; [apply seen_dir|intros _].
  apply seen_logged, frame_verify.
Qed.

(** The transition is prepared exactly when the deployment changes. *)
Definition transition_events (o : option string) (i : string) : list event :=
  match o with
  | Some old => if String.eqb old i then [] else [ETransition old i]
  | None => []
  end.

Lemma seen_transition {B} v o i t a b n (k : M B) Q :
  returns (seen (View (v_current v) (v_previous v) (v_active v)
                   (transition_events o i ++ v_log v))) k Q →
  returns (seen v) (prepare_transition o i t a b n;; k) Q.
Proof.
  intros Hk. apply (returns_bind _ _ _ (λ _, seen (View (v_current v) (v_previous v) (v_active v)
    (transition_events o i ++ v_log v)))); [|done].
  unfold prepare_transition, transition_events. destruct v as [vc vp va vl]. simpl.
  destruct o as [old|]; [|apply returns_pres, pres_ret].
  destruct (String.eqb old i); [apply returns_pres, pres_ret|].
  rewrite deployment_dir_bind. apply returns_step; [apply seen_dir|intros _].
  rewrite deployment_dir_bind. apply returns_step; [apply seen_dir|intros _].
  apply returns_step; [apply seen_remaining|intros x].
  apply (seen_logged (View vc vp va vl)), frame_transition.
Qed.

Definition moved (w : which_link) (i : string) (v : view) : view :=
  match w with
  | Current => View (LTo (dep_dir i)) (v_previous v) (v_active v) (v_log v)
  | Previous => View (v_current v) (LTo (dep_dir i)) (v_active v) (v_log v)
  end.

Lemma seen_link_ret v w i : returns (seen v) (atomic_link i w) (λ _, seen (moved w i v)).
Proof.
  unfold atomic_link, record_get, uuid_hex.
  do 3 (apply returns_step; [solve [pres_auto]|intros ?]).
  intros s Hs. unfold seen in *. subst v.
  destruct (durably _ s) as [[[]| |] s'] eqn:Hd; [|done..]. apply durably_ret in Hd. subst.
  by destruct w.
Qed.

Lemma seen_link {B} v w i (k : M B) Q :
  returns (seen (moved w i v)) k Q → returns (seen v) (atomic_link i w;; k) Q.
Proof.
  intros Hk. by apply (returns_bind _ _ _ (λ _, seen (moved w i v))); [apply seen_link_ret|intros []].
Qed.

Lemma seen_ensure v :
  returns (seen v) ensure_active_image_link
    (λ _ s, ∃ a, active_fixed a ∧ seen (View (v_current v) (v_previous v) a (v_log v)) s).
Proof.
  unfold ensure_active_image_link.
  assert (returns (seen v) (uuid_hex;; durably (set_active (ASymlink expected_active_target)))
    (λ _ s, ∃ a, active_fixed a ∧ seen (View (v_current v) (v_previous v) a (v_log v)) s)) as Hr.
  { apply returns_step; [apply seen_read_at|intros _]. intros s Hs.
    destruct (durably _ s) as [[[]| |] s'] eqn:Hd; [|done..]. apply durably_ret in Hd. subst s'.
    exists (ASymlink expected_active_target). split; [by eexists; split; [|left]|].
    unfold seen in *. by subst v. }
  intros s Hs. unfold gets, mbind, M_bind. specialize (Hr s Hs).
  destruct (st_active s) as [|raw| |] eqn:Ha; [exact Hr| |exact Hr|done].
  destruct (String.eqb_spec (resolve_raw raw) expected_active_target) as [He|]; [|exact Hr].
  exists (ASymlink raw). split; [by eexists; split; [|right]|]. unfold seen in *. subst v.
  unfold view_of. by rewrite Ha.
Qed.

Lemma seen_files {B} v i (k : M B) Q :
  (∀ a, active_fixed a →
     returns (seen (View (LTo (dep_dir i)) (v_previous v) a (v_log v))) k Q) →
  returns (seen v) (activate_files i;; k) Q.
Proof.
  intros Hk.
  apply (returns_bind _ _ _ (λ _ s, ∃ a, active_fixed a ∧
    seen (View (LTo (dep_dir i)) (v_previous v) a (v_log v)) s)).
  - unfold activate_files. do 4 (apply returns_step; [solve [pres_auto]|intros ?]).
    assert (returns (seen v) (atomic_link i Current;; ensure_active_image_link)
      (λ _ s, ∃ a, active_fixed a ∧ seen (View (LTo (dep_dir i)) (v_previous v) a (v_log v)) s)) as H1.
    { apply (seen_link v Current). apply (seen_ensure (View _ _ _ _)). }
    assert (returns (seen v) (ensure_active_image_link;; atomic_link i Current)
      (λ _ s, ∃ a, active_fixed a ∧ seen (View (LTo (dep_dir i)) (v_previous v) a (v_log v)) s)) as H2.
    { eapply returns_bind; [apply seen_ensure|]. intros [] s (act & Ha & Hs).
      pose proof (seen_link_ret _ Current i s Hs) as Hl.
      destruct (atomic_link i Current s) as [[[]| |] s']; [|done..]. by exists act. }
    by destruct a2.
  - intros [] s (a & Ha & Hs). by apply (Hk a Ha).
Qed.

(** ** Activation and rollback *)

Definition previous_after (o : option string) (l : link) : link :=
  match o with Some old => LTo (dep_dir old) | None => l end.

Definition completed_view (v : view) (i : string) (o : option string) (a : active_env) : view :=
  View (LTo (dep_dir i)) (previous_after o (v_previous v)) a
    ([ECommit i; EVerify i; EActivate i] ++ transition_events o i ++ [EPrecheck i] ++ v_log v).

Lemma activate_body_seen t i o x b v :
  returns (seen v) (activate_body i o t x b)
    (λ _ s, ∃ a, active_fixed a ∧ seen (completed_view v i o a) s).
Proof.
  unfold activate_body. apply seen_precheck, seen_transition, seen_activate.
  do 2 (apply returns_step; [solve [pres_auto]|intros ?]). apply seen_verify. intros summary.
  do 6 (apply returns_step; [solve [unfold now; pres_auto]|intros ?]).
  apply seen_commit, seen_files. intros act Ha.
  apply (returns_bind _ _ _ (λ _, seen (completed_view v i o act))).
  - destruct o as [old|]; [|apply returns_pres, pres_ret].
    apply (seen_link_ret (View _ _ _ _) Previous).
  - intros []. do 3 (apply returns_step; [solve [unfold now; pres_auto]|intros ?]).
    eapply triple_conseq; [apply returns_pres, seen_write|done|by exists act|done].
Qed.

Lemma rollback_body_seen t i old x v :
  returns (seen v) (rollback_body i old t x)
    (λ _ s, ∃ a, active_fixed a ∧ seen (completed_view v i (Some old) a) s).
Proof.
  unfold rollback_body. apply seen_precheck, seen_transition, seen_activate.
  do 2 (apply returns_step; [solve [pres_auto]|intros ?]). apply seen_verify. intros summary.
  do 2 (apply returns_step; [solve [pres_auto]|intros ?]).
  apply seen_commit, seen_files. intros act Ha. apply seen_link.
  do 9 (apply returns_step; [solve [unfold now, record_get; pres_auto]|intros ?]).
  eapply triple_conseq; [apply returns_pres, seen_write|done|by exists act|done].
Qed.

(** ** Handlers never return *)

Definition never {A} (m : M A) : Prop := returns (λ _, True) m (λ _ _, False).

Lemma never_bind {A B} (m : M A) (f : A → M B) : (∀ a, never (f a)) → never (m ≫= f).
Proof.
  intros Hf. apply (returns_bind _ _ _ (λ _ _, True)); [|done].
  intros s _. by destruct (m s) as [[] ?].
Qed.

Lemma never_fail {A} msg : never (fail_lc (A:=A) msg).
Proof. by intros s _. Qed.

Lemma recover_previous_never o t f a e x y fields m1 m2 :
  never (recover_previous o t f a e x y fields m1 m2).
Proof.
  unfold recover_previous. do 2 (apply never_bind; intros ?).
  destruct a1; repeat (apply never_bind; intros ?); apply never_fail.
Qed.

Lemma activate_handler_never op i o o' l t a e : never (activate_handler op i o o' l t a e).
Proof.
  unfold activate_handler. do 4 (apply never_bind; intros ?).
  destruct l; [|apply recover_previous_never].
  unfold recover_legacy. do 2 (apply never_bind; intros ?).
  destruct a5; repeat (apply never_bind; intros ?); apply never_fail.
Qed.

Lemma rollback_handler_never i o t a e : never (rollback_handler i o t a e).
Proof.
  unfold rollback_handler. do 4 (apply never_bind; intros ?). apply recover_previous_never.
Qed.

Lemma try_never {A} P (m : M A) h Q :
  returns P m Q → (∀ e, never (h e)) → returns P (try_catch m h) Q.
Proof.
  intros Hm Hh s HP. specialize (Hm s HP). unfold try_catch.
  destruct (m s) as [[a|e|] s1]; [done| |done]. specialize (Hh e s1 I).
  by destruct (h e s1) as [[] ?].
Qed.

Lemma seen_transaction {B} v op fields (k : string → M B) Q :
  (∀ t, returns (seen v) (k t) Q) → returns (seen v) (transaction op fields ≫= k) Q.
Proof.
  intros Hk. apply returns_step; [|done]. unfold transaction, strftime_now, uuid_hex, now.
  apply pres_bind; [pres_auto|intros ?]. apply pres_bind; [pres_auto|intros ?].
  apply pres_bind; [pres_auto|intros old]. destruct old; [pres_auto|].
  apply pres_bind; [by apply pres_durably; [apply seen_ev|]|intros ?]. pres_auto.
  by apply pres_modify.
Qed.

Lemma transaction_seen v op fields (body : string → pfloat → M unit)
    (handler : string → pfloat → exn → M unit) (W : st → Prop) :
  (∀ t x, returns (seen v) (body t x) (λ _, W)) →
  (∀ t x e, never (handler t x e)) →
  returns (seen v) (t ← transaction op fields; started ← monotonic;
     try_catch (body t started) (handler t started);; gets st_rec) (λ r s, W s ∧ r = st_rec s).
Proof.
  intros Hb Hh. apply seen_transaction. intros t.
  apply returns_step; [apply seen_read_at|intros x].
  apply (returns_bind _ _ _ (λ _, W)); [by apply try_never|]. intros [] s Hs. done.
Qed.

Lemma activate_transaction_seen v op i o o' l b :
  returns (seen v) (activate_transaction op i o o' l b)
    (λ r s, (∃ a, active_fixed a ∧ seen (completed_view v i o a) s) ∧ r = st_rec s).
Proof.
  unfold activate_transaction.
  apply (transaction_seen v _ _ (λ t x, activate_body i o t x b)
    (λ t x e, activate_handler op i o o' l t x e)).
  - intros t x. apply activate_body_seen.
  - intros t x e. apply activate_handler_never.
Qed.

Lemma rollback_transaction_seen v i old :
  returns (seen v) (rollback_transaction i old)
    (λ r s, (∃ a, active_fixed a ∧ seen (completed_view v i (Some old) a) s) ∧ r = st_rec s).
Proof.
  unfold rollback_transaction.
  apply (transaction_seen v _ _ (λ t x, rollback_body i old t x)
    (λ t x e, rollback_handler i old t x e)).
  - intros t x. apply rollback_body_seen.
  - intros t x e. apply rollback_handler_never.
Qed.
End activation.

(** ** Properties *)


(** a rollback that returns has called the executor in the same order on
    the previous deployment, moved [current] back to it, the active image
    environment to the fixed link, and left the deployment it replaced as
    [previous]. *)
Theorem rollback_effect `{Runtime, LifecycleExecutor, !ExecutorContract _} target old s r s' :
  rollback_transaction target old s = (ORet r, s') →
  r = st_rec s' ∧ st_current s' = LTo (dep_dir target)
  ∧ st_previous s' = LTo (dep_dir old)
  ∧ active_fixed (st_active s')
  ∧ st_log s' = [ECommit target; EVerify target; EActivate target]
                ++ transition_events (Some old) target ++ [EPrecheck target] ++ st_log s.
Proof.
  intros Hrun.
  pose proof (rollback_transaction_seen (view_of s) target old s eq_refl) as Hseen.
  rewrite Hrun in Hseen.
  destruct Hseen as [(a & Ha & Hv) ->]. unfold seen, view_of, completed_view in Hv.
  injection Hv as -> -> -> ->. done.
Qed.

Section samples.
#[local] Existing Instance sample_runtime.
#[local] Existing Instance sample_executor.
#[local] Existing Instance sample_contract.


(** Two releases, installed side by side. *)
Definition sample_two : st :=
  (run_command (CmdInstall (sample_inputs "v3.6.8" "B")) sample_installed).2.

Lemma rollback_effect_witness :
  let a := sample_id "v3.6.7" "A" in
  let b := sample_id "v3.6.8" "B" in
  let run := rollback_transaction a b sample_two in
  st_current run.2 = LTo (dep_dir a) ∧ st_previous run.2 = LTo (dep_dir b)
  ∧ st_log run.2 = [ECommit a; EVerify a; EActivate a; ETransition b a; EPrecheck a].
Proof.
  intros a b run.
  destruct (rollback_effect a b sample_two (returned [] run) run.2) as (_ & Hc & Hp & _ & Hl).
  - apply returned_eta. vm_compute. reflexivity.
  - split; [exact Hc|]. split; [exact Hp|]. rewrite Hl. vm_compute. reflexivity.
Defined.
End samples.
