(* ===== verification/LifecycleReconcile.v ===== *)
(** * Release lifecycle: closing a failed recovery, properties

    [reconcile_recovery] never moves the topology, refuses everything but the
    unique blocking transaction, changes nothing when it is repeated, and when
    it returns it has closed the blocking transaction on complete evidence. *)
From S2P Require Import Prelude PyFloat PyValue PyPath PyTime LifecycleCore LifecycleIO.
From S2P Require Import LifecycleSamples LifecycleRecords LifecycleInstall LifecycleNetwork.
From S2P Require Import LifecycleTransaction LifecycleCommands LifecycleEvidence.
From S2P Require Import LifecycleRecovery LifecycleLogic LifecycleInvariants.
From S2P Require Import LifecycleRecoveryFacts LifecycleSafety LifecycleClosure.

(** What the closure of transaction [t] leaves alone: the releases, the
    deployments, both links, the image environment, the secrets, the log and
    the records of the other transactions. *)
Definition recovery_frame (t : string) (s s' : st) : Prop :=
  st_releases s' = st_releases s ∧ st_deployments s' = st_deployments s
  ∧ st_current s' = st_current s ∧ st_previous s' = st_previous s
  ∧ st_active s' = st_active s ∧ st_secret s' = st_secret s ∧ st_log s' = st_log s
  ∧ (∀ t', t' ≠ t → tx_lookup s' t' "record.json" = tx_lookup s t' "record.json").

Section frame.
Context `{Runtime, LifecycleExecutor, !ExecutorContract _}.

Lemma recovery_frame_refl t s : recovery_frame t s s.
Proof. by repeat split. Qed.

Lemma recovery_frame_stable t s0 : frame_stable (recovery_frame t s0).
Proof.
  intros s s' (?&?&?&?&?&?&?&?&Ht) (?&?&?&?&?&?&?&Ht'). unfold recovery_frame.
  split_and!; try congruence. intros t' Hne. rewrite Ht. by apply Ht'.
Qed.

Lemma recovery_frame_readonly t s0 {A} (m : M A) :
  readonly m → pres (recovery_frame t s0) m.
Proof. intros Hm. apply pres_framed; [apply recovery_frame_stable|by apply readonly_framed]. Qed.

Lemma recovery_frame_framed t s0 {A} (m : M A) : framed m → pres (recovery_frame t s0) m.
Proof. apply pres_framed, recovery_frame_stable. Qed.

Lemma recovery_frame_rec t s0 v s : recovery_frame t s0 s → recovery_frame t s0 (set_rec v s).
Proof. done. Qed.

Lemma recovery_frame_write t s0 : pres (recovery_frame t s0) (write_transaction_record t).
Proof.
  apply pres_write_record; [by intros s Hs|by intros v s _|].
  intros s (?&?&?&?&?&?&?&Ht). repeat split; try done. intros t' Hne.
  rewrite tx_lookup_put_ne by congruence. by apply Ht.
Qed.

Lemma recovery_frame_complete t s0 r c e summary :
  pres (recovery_frame t s0) (complete_recovery_reconcile t r c e summary).
Proof.
  unfold complete_recovery_reconcile.
  do 3 (apply pres_bind; [apply recovery_frame_readonly; readonly_auto|intros ?]).
  apply pres_bind; [by apply pres_modify|intros _].
  do 2 (apply pres_bind; [apply recovery_frame_readonly; unfold now; readonly_auto|intros ?]).
  apply pres_bind; [by apply pres_modify|intros _].
  apply pres_bind; [apply recovery_frame_write|intros _].
  apply recovery_frame_readonly. readonly_auto.
Qed.

Lemma recovery_frame_recovered t s0 r c p b :
  pres (recovery_frame t s0) (close_recovered t r c p b).
Proof.
  unfold close_recovered.
  do 3 (apply pres_bind; [apply recovery_frame_readonly; readonly_auto|intros ?]).
  apply pres_if.
  { apply pres_bind; [apply recovery_frame_readonly; readonly_auto|intros ?].
    apply recovery_frame_complete. }
  apply pres_bind; [apply recovery_frame_framed, framed_new_attempt|intros ?].
  apply pres_bind; [apply recovery_frame_framed, framed_run_attempt|intros ?].
  do 4 (apply pres_bind; [apply recovery_frame_readonly; unfold now; readonly_auto|intros ?]).
  apply pres_bind; [|intros ?; apply recovery_frame_complete].
  by apply recovery_frame_framed, framed_write_new.
Qed.

Lemma recovery_frame_close t s0 r p b : pres (recovery_frame t s0) (close_blocking t r p b).
Proof.
  unfold close_blocking.
  do 2 (apply pres_bind; [apply recovery_frame_readonly; readonly_auto|intros ?]).
  apply recovery_frame_recovered.
Qed.

Lemma recovery_frame_blocking t s0 p b :
  pres (recovery_frame t s0) (reconcile_blocking t p b).
Proof.
  unfold reconcile_blocking.
  apply pres_bind.
  { apply recovery_frame_readonly. unfold blocking_recovery_transactions. readonly_auto. }
  intros [|[t' r] [|]]; try solve [apply recovery_frame_readonly; unfold fail_lc; readonly_auto].
  intros s Hs. unfold mbind, M_bind, require_not, lift, guard_lc.
  destruct (String.eqb_spec t' t) as [->|]; [|done]. simpl.
  by apply recovery_frame_close.
Qed.

(** *** What is refused *)

Definition refuses {A} (m : M A) (s : st) : Prop :=
  is_ret (m s) = false ∧ only_events s (m s).2.

Lemma refuses_bind {A B} (m : M A) (f : A → M B) s :
  readonly m → (∀ a s1, m s = (ORet a, s1) → only_events s s1 → refuses (f a) s1) →
  refuses (m ≫= f) s.
Proof.
  intros Hm Hf. unfold refuses, mbind, M_bind. specialize (Hm s).
  destruct (m s) as [[a|e|] s1]; [|done..]. destruct (Hf a s1) as [Hr He]; [done..|].
  split; [done|]. by eapply only_events_trans.
Qed.

Lemma disk_record_events s s' t r : only_events s s' → disk_record s' t r → disk_record s t r.
Proof. by intros [n ->]. Qed.

Definition closable (s : st) (t : string) : Prop :=
  ∃ r, disk_record s t r ∧
    (get r "status" = PStr "recovery_failed" ∨ get r "status" = PStr "recovery_reconciled").

Lemma closable_events s s' t : only_events s s' → closable s' t → closable s t.
Proof. by intros [n ->]. Qed.

Lemma blocking_status r :
  in_str_set (get r "status") BLOCKING_TRANSACTION_STATES = Ok true →
  get r "status" = PStr "recovery_failed".
Proof.
  unfold in_str_set. destruct (get r "status") as [| | | |v| |]; try done.
  intros [= Hm]. rewrite orb_false_r in Hm. by apply String.eqb_eq in Hm as ->.
Qed.

Lemma refuses_blocking t p b s : ¬ closable s t → refuses (reconcile_blocking t p b) s.
Proof.
  intros Hno. apply refuses_bind.
  { unfold blocking_recovery_transactions. readonly_auto. }
  intros l s1 Hl He. unfold blocking_recovery_transactions in Hl.
  apply lift_ret in Hl as [Hl ->].
  destruct l as [|[t' r] [|]]; try (split; [done|apply only_events_refl]).
  unfold refuses, mbind, M_bind, require_not, lift, guard_lc.
  destruct (String.eqb_spec t' t) as [->|]; [|split; [done|apply only_events_refl]].
  destruct (blocking_among_disk _ _ t r _ Hl) as (Hd & Hst & _); [by left|].
  destruct Hno. exists r. split; [done|]. left. by apply blocking_status.
Qed.

Lemma requested_some t s r s' :
  requested_record t s = (ORet (Some r), s') → disk_record s t r ∧ s' = s.
Proof.
  unfold requested_record. rewrite bind_ret. intros (n & s1 & [-> ->]%gets_ret & Hr).
  destruct (is_file _); [|by apply mret_ret in Hr as [? _]].
  apply bind_ret in Hr as (r' & s2 & [Hl ->]%lift_ret & [[= ->] ->]%mret_ret).
  by apply load_json_ok in Hl.
Qed.

Lemma refuses_reconcile t p b s : ¬ closable s t → refuses (reconcile_recovery t p b) s.
Proof.
  intros Hno. unfold reconcile_recovery, with_lifecycle_lock, ensure_layout.
  apply refuses_bind; [readonly_auto|intros _ s1 _ He1].
  apply refuses_bind; [readonly_auto|intros _ s2 _ He2].
  apply refuses_bind; [readonly_auto|intros _ s3 _ He3].
  assert (only_events s s3) as He by (do 2 (eapply only_events_trans; [done|]); done).
  apply refuses_bind; [readonly_auto|]. intros o s4 Ho He'.
  assert (¬ closable s4 t) as Hno'.
  { intros Hc. apply Hno. by do 2 (eapply closable_events; [done|]). }
  destruct o as [r|]; [|by apply refuses_blocking].
  destruct (py_eqb _ _) eqn:Hst; [|by apply refuses_blocking].
  apply py_eqb_str in Hst. destruct Hno'. exists r. split; [|by right].
  apply requested_some in Ho as [? ->]. done.
Qed.
End frame.

(** ** What a return means *)

Section returned.
Context `{Runtime, LifecycleExecutor, !ExecutorContract _}.

Lemma readonly_ret_events {A} (m : M A) s a s' :
  readonly m → m s = (ORet a, s') → only_events s s'.
Proof. intros Hm Hr. specialize (Hm s). by rewrite Hr in Hm. Qed.

Lemma required_current_ret s cur s' :
  required_current s = (ORet cur, s') →
  st_current s = LTo (dep_dir cur) ∧ DEPLOYMENT_ID_RE cur = true
  ∧ is_ok (record_of s cur) = true ∧ s' = s.
Proof.
  unfold required_current. rewrite bind_ret. intros ([c|] & s1 & Hl & Hr); [|done].
  apply mret_ret in Hr as [-> ->]. unfold resolve_link in Hl.
  apply bind_ret in Hl as (l & s2 & [-> ->]%gets_ret & Hl). simpl in Hl.
  destruct (st_current s) as [| |target] eqn:Hc; [done..|].
  destruct (relative_to _ _) as [name|] eqn:Hrel; [|done].
  apply bind_ret in Hl as ([] & s3 & [Hid ->]%require_ret & Hl).
  apply bind_ret in Hl as (r & s4 & [Hrec ->]%lift_ret & [[= ->] ->]%mret_ret).
  apply negb_false_iff in Hid. split_and!; [|done|by rewrite Hrec|done].
  f_equal. apply relative_to_spec; [done|]. by intros ->.
Qed.

Lemma check_recovered_ret t r s cur s' :
  check_recovered t r s = (ORet cur, s') →
  s' = s ∧ st_current s = LTo (dep_dir cur) ∧ get r "from_current" = PStr cur
  ∧ get r "transaction_id" = PStr t
  ∧ ∃ d, record_of s cur = Ok d ∧ get d "status" = PStr "verified".
Proof.
  unfold check_recovered. intros Hr.
  apply bind_ret in Hr as ([] & s1 & [Hbad ->]%require_ret & Hr).
  apply bind_ret in Hr as (c & s2 & (Hc & _ & _ & ->)%required_current_ret & Hr).
  apply bind_ret in Hr as ([] & s3 & [Hf ->]%require_ret & Hr).
  apply bind_ret in Hr as (d & s4 & [Hd ->]%lift_ret & Hr).
  apply bind_ret in Hr as ([] & s5 & [Hv ->]%require_ret & Hr).
  apply bind_ret in Hr as (a & s6 & [-> ->]%gets_ret & Hr).
  apply bind_ret in Hr as ([] & s7 & [_ ->]%require_ret & [-> ->]%mret_ret).
  unfold ne in *. bool_split. split_and!; [done|done|by apply py_eqb_str..|].
  exists d. split; [done|by apply py_eqb_str].
Qed.

(** The record the closure writes. *)
Lemma complete_ret t r c e summary s x s' :
  complete_recovery_reconcile t r c e summary s = (ORet x, s') →
  ∃ r', disk_record s' t r' ∧ get r' "status" = PStr "recovery_reconciled"
        ∧ get r' "current" = PStr c ∧ get r' "reconciled_from_status" = PStr "recovery_failed"
        ∧ ∀ k v, get summary k = v → k ∉ ["reconcile_summary"; "record_sha256"] → get x k = v.
Proof.
  unfold complete_recovery_reconcile. intros Hr.
  apply bind_ret in Hr as (rt & s1 & [_ ->]%lift_ret & Hr).
  apply bind_ret in Hr as (vf & s2 & [_ ->]%lift_ret & Hr).
  apply bind_ret in Hr as (rr & s3 & Href & Hr).
  apply bind_ret in Hr as ([] & s4 & Hm%modify_ret & Hr).
  apply bind_ret in Hr as (at_ & s5 & _ & Hr). apply bind_ret in Hr as (sha & s6 & [_ ->]%lift_ret & Hr).
  apply bind_ret in Hr as ([] & s7 & Hu%modify_ret & Hr).
  apply bind_ret in Hr as ([] & s8 & Hw & Hr).
  apply write_transaction_record_ret in Hw as (n & r' & -> & Hr').
  apply bind_ret in Hr as (h & s9 & Hh & [-> ->]%mret_ret).
  apply readonly_ret_events in Hh as [m ->]; [|apply readonly_sha256].
  exists r'. rewrite !Hr' by compute_done. subst s7. cbn [st_rec set_rec].
  split_and!.
  - unfold disk_record, record_on_disk. apply tx_lookup_put_eq.
  - apply get_dupdate_head. compute_done.
  - match goal with |- get (dupdate ?d ?l) "current" = _ =>
      apply (get_dupdate_mid d (take 5 l) "current" _ (drop 6 l)); compute_done end.
  - match goal with |- get (dupdate ?d ?l) _ = _ =>
      apply (get_dupdate_mid d (take 3 l) _ _ (drop 4 l)); compute_done end.
  - intros k v Hk Hn. by rewrite get_dupdate_notin.
Qed.

Lemma close_recovered_ret t r c p b s x s' :
  close_recovered t r c p b s = (ORet x, s') →
  ∃ r', disk_record s' t r' ∧ get r' "status" = PStr "recovery_reconciled"
        ∧ get r' "current" = PStr c ∧ get r' "reconciled_from_status" = PStr "recovery_failed".
Proof.
  unfold close_recovered. intros Hr.
  apply bind_ret in Hr as (h & s1 & _ & Hr). apply bind_ret in Hr as (e & s2 & _ & Hr).
  apply bind_ret in Hr as (f & s3 & _ & Hr). destruct (exists_or_link f).
  - apply bind_ret in Hr as (sm & s4 & _ & Hr).
    apply complete_ret in Hr as (r' & ? & ? & ? & ? & _). by exists r'.
  - apply bind_ret in Hr as (a & s4 & _ & Hr). apply bind_ret in Hr as ([] & s5 & _ & Hr).
    apply bind_ret in Hr as ([] & s6 & _ & Hr). apply bind_ret in Hr as (g & s7 & _ & Hr).
    apply bind_ret in Hr as (rt & s8 & _ & Hr). apply bind_ret in Hr as (vf & s9 & _ & Hr).
    cbv zeta in Hr. apply bind_ret in Hr as ([] & s10 & _ & Hr).
    apply complete_ret in Hr as (r' & ? & ? & ? & ? & _). by exists r'.
Qed.

(** The prefix of the command: the lock, the layout and the requested record. *)
Lemma reconcile_recovery_ret t p b s x s' :
  reconcile_recovery t p b s = (ORet x, s') →
  ∃ s1, only_events s s1 ∧
    ((∃ r, disk_record s1 t r ∧ get r "status" = PStr "recovery_reconciled"
           ∧ resume_completed_recovery_reconcile t r p b s1 = (ORet x, s'))
     ∨ reconcile_blocking t p b s1 = (ORet x, s')).
Proof.
  unfold reconcile_recovery, with_lifecycle_lock, ensure_layout. intros Hr.
  apply bind_ret in Hr as ([] & s1 & [_ ->]%require_ret & Hr).
  apply bind_ret in Hr as ([] & s2 & ->%tick_ret & Hr).
  apply bind_ret in Hr as ([] & s3 & ->%tick_ret & Hr).
  apply bind_ret in Hr as (o & s4 & Hreq & Hr). exists s4. split.
  { apply readonly_ret_events in Hreq as [n ->]; [|apply readonly_requested]. by exists n. }
  destruct o as [r|]; [|by right]. apply requested_some in Hreq as [Hd ->].
  destruct (py_eqb _ _) eqn:Hst; [|by right]. left. exists r.
  split_and!; [done|by apply py_eqb_str|done].
Qed.

Lemma reconcile_blocking_ret t p b s x s' :
  reconcile_blocking t p b s = (ORet x, s') →
  ∃ r, disk_record s t r ∧ get r "status" = PStr "recovery_failed"
       ∧ close_blocking t r p b s = (ORet x, s').
Proof.
  unfold reconcile_blocking, blocking_recovery_transactions. intros Hr.
  apply bind_ret in Hr as (l & s1 & [Hl ->]%lift_ret & Hr).
  destruct l as [|[t' r] [|]]; [done| |done].
  apply bind_ret in Hr as ([] & s2 & [Ht ->]%require_ret & Hr).
  apply negb_false_iff, String.eqb_eq in Ht as ->.
  destruct (blocking_among_disk _ _ t r _ Hl) as (Hd & Hst & _); [by left|].
  exists r. split_and!; [done|by apply blocking_status|done].
Qed.
End returned.

(** ** The evidence that was accepted *)

Section evidence.
Context `{Runtime, LifecycleExecutor}.

Lemma load_tx_ret t name label s d s' :
  load_evidence (TxFile t name) label s = (ORet d, s') →
  record_on_disk (tx_lookup s t name) d ∧ s' = s.
Proof.
  unfold load_evidence. rewrite bind_ret. intros (n & s1 & [-> ->]%gets_ret & Hl).
  apply lift_ret in Hl as [Hl ->]. by apply load_json_ok in Hl.
Qed.

Lemma load_path_ret p label s d s' :
  load_evidence (PathFile p) label s = (ORet d, s') →
  record_on_disk (locate (st_ev s) s p) d ∧ s' = set_ev S s.
Proof.
  unfold load_evidence. rewrite bind_ret. intros (n & s1 & [= <- <-] & Hl).
  apply lift_ret in Hl as [Hl ->]. by apply load_json_ok in Hl.
Qed.

(** The documents the checks see are the files of the transaction and the
    operator's summary. *)
Lemma documents_ret t p s docs s' :
  load_documents (manual_paths t p) s = (ORet docs, s') →
  record_on_disk (tx_lookup s t MANUAL_RECOVERY_SUMMARY) (document docs "manual")
  ∧ record_on_disk (tx_lookup s t MANUAL_RECOVERY_EQUIVALENCE) (document docs "equivalence")
  ∧ record_on_disk (tx_lookup s t MANUAL_RECOVERY_TRANSITION) (document docs "transition")
  ∧ ∃ n, record_on_disk (locate n s p) (document docs "resolution").
Proof.
  unfold manual_paths. cbv zeta. cbn [load_documents]. intros Hr.
  apply bind_ret in Hr as (d1 & s1 & [H1 ->]%load_tx_ret & Hr).
  apply bind_ret in Hr as (l1 & s2 & Hr & [-> _]%mret_ret).
  apply bind_ret in Hr as (d2 & s3 & [H2 ->]%load_tx_ret & Hr).
  apply bind_ret in Hr as (l2 & s4 & Hr & [-> _]%mret_ret).
  apply bind_ret in Hr as (d3 & s5 & [H3 ->]%load_tx_ret & Hr).
  apply bind_ret in Hr as (l3 & s6 & Hr & [-> _]%mret_ret).
  apply bind_ret in Hr as (d4 & s7 & [H4 ->]%load_tx_ret & Hr).
  apply bind_ret in Hr as (l4 & s8 & Hr & [-> _]%mret_ret).
  apply bind_ret in Hr as (d5 & s9 & [H5 ->]%load_tx_ret & Hr).
  apply bind_ret in Hr as (l5 & s10 & Hr & [-> _]%mret_ret).
  apply bind_ret in Hr as (d6 & s11 & [H6 ->]%load_path_ret & Hr).
  apply bind_ret in Hr as (l6 & s12 & Hr & [-> _]%mret_ret).
  split_and!; [exact H1|exact H4|exact H5|by exists (st_ev s)].
Qed.

Lemma tx_digest_ret t name s h s' :
  evidence_sha256 (TxFile t name) s = (ORet h, s') →
  (∀ d, record_on_disk (tx_lookup s t name) d → h = sha256_content (CJson (PDict d))) ∧ s' = s.
Proof.
  unfold evidence_sha256. rewrite bind_ret. intros (n & s1 & [-> ->]%gets_ret & Hl).
  apply lift_ret in Hl as [Hl ->]. split; [|done]. intros d Hd. unfold record_on_disk in Hd.
  rewrite Hd in Hl. by injection Hl as <-.
Qed.

Lemma m_iter_in {A} (f : A → M unit) l x s s' :
  (∀ y, readonly (f y)) → x ∈ l → m_iter f l s = (ORet (), s') →
  ∃ s1 s2, only_events s s1 ∧ f x s1 = (ORet (), s2).
Proof.
  intros Hf. revert s. induction l as [|y l IH]; intros s Hx; [by apply not_elem_of_nil in Hx|].
  cbn [m_iter]. intros Hr. apply bind_ret in Hr as ([] & s1 & Hy & Hr).
  apply elem_of_cons in Hx as [->|Hx].
  { exists s, s1. split; [apply only_events_refl|done]. }
  apply IH in Hr as (s2 & s3 & He & Hx'); [|done]. exists s2, s3. split; [|done].
  eapply only_events_trans; [by eapply readonly_ret_events|done].
Qed.

(** A digest field that was checked is the digest of the file. *)
Lemma check_digests_tx d msg fields field t name s s' e :
  check_digests d msg fields s = (ORet (), s') →
  (field, TxFile t name) ∈ fields → record_on_disk (tx_lookup s t name) e →
  get d field = PStr (sha256_content (CJson (PDict e))).
Proof.
  unfold check_digests. intros Hr Hin He.
  eapply m_iter_in in Hr as (s1 & s2 & [n ->] & Hf); [|intros [? ?]; readonly_auto|exact Hin].
  cbn beta iota in Hf. apply bind_ret in Hf as (h & s3 & [Hh ->]%tx_digest_ret & Hf).
  apply require_ret in Hf as [Hne _]. apply negb_false_iff, py_eqb_str in Hne.
  rewrite Hne. by rewrite (Hh e).
Qed.

Lemma collect_ret files name f label s ev s' :
  collect_evidence files s = (ORet ev, s') → (name, (f, label)) ∈ files →
  ∃ n s1 c, only_events s s1 ∧ file_node f s1 = (ORet (Some (NFile c)), n)
            ∧ (name, PDict (reference f c)) ∈ ev.
Proof.
  revert s ev s'. induction files as [|[name' [f' label']] files IH]; intros s ev s';
    [intros _ Hin; by apply not_elem_of_nil in Hin|].
  cbn [collect_evidence]. intros Hr Hin. apply bind_ret in Hr as (r & s1 & Href & Hr).
  apply bind_ret in Hr as (rs & s2 & Hrs & [-> ->]%mret_ret).
  apply elem_of_cons in Hin as [[= -> -> ->]|Hin].
  - unfold evidence_reference in Href. apply bind_ret in Href as (n & s3 & Hn & Href).
    destruct n as [[c| |]|]; try done. apply mret_ret in Href as [-> ->].
    exists s3, s, c. split_and!; [apply only_events_refl|done|by left].
  - apply IH in Hrs as (n & s3 & c & He & Hn & Hx); [|done].
    exists n, s3, c. split_and!; [|done|by right].
    eapply only_events_trans; [by eapply readonly_ret_events; [apply readonly_reference|]|done].
Qed.
End evidence.

(** ** Acceptance *)

Lemma get_nodup (d : pydict) k v : NoDup (map fst d) → (k, v) ∈ d → get d k = v.
Proof.
  unfold get, get_or. induction d as [|[k' v'] d IH]; intros Hnd Hin;
    [by apply not_elem_of_nil in Hin|].
  apply NoDup_cons in Hnd as [Hk Hnd]. cbn [dlookup].
  apply elem_of_cons in Hin as [[= -> ->]|Hin]; [by rewrite String.eqb_refl|].
  destruct (String.eqb_spec k k') as [->|]; [|by apply IH].
  destruct Hk. apply list_elem_of_fmap. by exists (k', v).
Qed.

Section accepted.
Context `{Runtime, LifecycleExecutor}.

(** The redis snapshot and the append-only file hold the same keys: equal
    canonical digests, equal positive key counts. *)
Definition equivalent_stores (e : pydict) : Prop :=
  SHA256_RE (py_str (get e "rdb_canonical_sha256")) = true
  ∧ py_eqb (get e "rdb_canonical_sha256") (get e "aof_canonical_sha256") = true
  ∧ get e "key_sets_equal" = PBool true
  ∧ ∃ k, (0 < k)%Z ∧ get e "rdb_key_count" = PInt k
         ∧ py_eqb (PInt k) (get e "aof_key_count") = true.

(** The protected state was recovered after the failure was recorded. *)
Definition recovered_later (record resolution : pydict) : Prop :=
  ∃ a b, read_timestamp (get_or resolution "recorded_at" (PStr "")) = Ok a
    ∧ read_timestamp (py_or (get record "recovery_failed_completed_at")
                        (get_or record "completed_at" (PStr ""))) = Ok b
    ∧ is_naive a = false ∧ is_naive b = false ∧ (instant b < instant a)%Z.

Lemma check_manual_ok t c m :
  check_manual_summary t c m = Ok () →
  get m "transaction_id" = PStr t ∧ get m "current" = PStr c.
Proof.
  unfold check_manual_summary. intros Hm. res_inv.
  split; apply py_eqb_str; (eapply differs_spec; [done|]); unfold required_manual.
  - do 3 right. by left.
  - do 4 right. by left.
Qed.

Lemma check_equivalence_ok t m e : check_equivalence t m e = Ok () → equivalent_stores e.
Proof.
  unfold check_equivalence, ne, not_true, not_false. intros He%guard_lc_ok. bool_split.
  unfold equivalent_stores. split_and!; [done|done|by apply is_true_spec|].
  destruct (get e "rdb_key_count") as [| |k| | | |] eqn:Hk; try done.
  exists k. split_and!; [|done|done]. by apply Z.ltb_lt.
Qed.

Lemma check_resolution_ok c record m r :
  check_resolution c record m r = Ok () → recovered_later record r.
Proof.
  unfold check_resolution. intros Hr.
  apply res_bind_ok in Hr as (a & Ha & Hr). apply res_bind_ok in Hr as (b & Hb & Hr).
  apply guard_lc_ok in Hr. bool_split. exists a, b. split_and!; [done..|].
  unfold timestamp_leb in *. lia.
Qed.

Lemma collect_keys files s ev s' :
  collect_evidence files s = (ORet ev, s') → map fst ev = map fst files.
Proof.
  revert s ev s'. induction files as [|[name [f label]] files IH]; intros s ev s'.
  { by intros [-> _]%mret_ret. }
  cbn [collect_evidence]. intros Hr. apply bind_ret in Hr as (r & s1 & _ & Hr).
  apply bind_ret in Hr as (rs & s2 & Hrs & [-> _]%mret_ret). cbn. f_equal. by eapply IH.
Qed.

(** Each file of the transaction is bound by its digest and its size. *)
Lemma collect_tx t p name file label c s ev s' :
  collect_evidence (manual_paths t p) s = (ORet ev, s') →
  (name, (TxFile t file, label)) ∈ manual_paths t p → tx_lookup s t file = Some (NFile c) →
  get ev name = PDict (reference (TxFile t file) c).
Proof.
  intros Hr Hin Hf. pose proof (collect_keys _ _ _ _ Hr) as Hk.
  apply collect_ret with (1 := Hr) in Hin as (n & s1 & c' & [m ->] & Hn & Hin).
  apply get_nodup.
  { rewrite Hk. unfold manual_paths. compute_done. }
  cbn [file_node] in Hn. apply gets_ret in Hn as [Hn _].
  assert (c' = c) as -> by (unfold tx_lookup in *; simpl in *; congruence). done.
Qed.
End accepted.


(** ** Properties of the command *)

(** however [reconcile_recovery] ends, the releases, the deployments, the
    [current] and [previous] links, the active image environment, the secrets
    and the records of all other transactions are as they were. *)
Theorem reconcile_keeps_topology `{Runtime, LifecycleExecutor, !ExecutorContract _} t p b s :
  recovery_frame t s (reconcile_recovery t p b s).2.
Proof.
  revert s. enough (∀ s0, pres (recovery_frame t s0) (reconcile_recovery t p b)) as Hp.
  { intros s. apply Hp, recovery_frame_refl. }
  intros s0. unfold reconcile_recovery, with_lifecycle_lock, ensure_layout.
  do 4 (apply pres_bind; [apply recovery_frame_readonly; readonly_auto|intros ?]).
  destruct a2 as [r|]; [|apply recovery_frame_blocking].
  apply pres_if; [|apply recovery_frame_blocking]. apply recovery_frame_readonly. readonly_auto.
Qed.

(** C6: when [reconcile_recovery] returns on a blocking transaction, no
    transaction is open any more, so the other commands run again, and the
    record is closed as ["recovery_reconciled"] on a [current] deployment that
    is recorded as verified. *)
Theorem reconcile_closes_recovery `{Runtime, LifecycleExecutor, !ExecutorContract _}
    t p b s r x s' :
  reachable s → disk_record s t r → get r "status" = PStr "recovery_failed" →
  reconcile_recovery t p b s = (ORet x, s') →
  none_open [] s'
  ∧ ∃ r' cur, disk_record s' t r' ∧ get r' "status" = PStr "recovery_reconciled"
      ∧ get r' "current" = PStr cur ∧ st_current s' = LTo (dep_dir cur) ∧ verified s' cur.
Proof.
  intros Hs%reachable_at_most_one Hd Hst Hret.
  pose proof (reconcile_keeps_topology t p b s) as Hframe. rewrite Hret in Hframe.
  destruct Hframe as (_ & Hdep & Hcur & _ & _ & _ & _ & Hothers). cbn [snd] in *.
  apply reconcile_recovery_ret in Hret as (s1 & [n ->] & [(r1 & Hd1 & Hst1 & _)|Hret]).
  { unfold disk_record, record_on_disk, tx_lookup in *. simpl in *. congruence. }
  apply reconcile_blocking_ret in Hret as (r1 & _ & _ & Hret). unfold close_blocking in Hret.
  apply bind_ret in Hret as ([] & s2 & Hreg & Hret).
  apply readonly_ret_events in Hreg as [m ->]; [|apply readonly_regular].
  apply bind_ret in Hret as (cur & s3 & Hrec & Hret).
  apply check_recovered_ret in Hrec as (-> & Hc & _ & _ & d & Hok & Hv).
  apply close_recovered_ret in Hret as (r' & Hd' & Hst' & Hcur' & _). split.
  - intros t' (r2 & Hr2 & Hop). destruct (decide (t' = t)) as [->|Hne].
    + unfold disk_record, record_on_disk in *. rewrite Hd' in Hr2. injection Hr2 as <-.
      apply (open_status r' "recovery_reconciled") in Hop; [|done].
      revert Hop. apply (bool_decide_unpack _). vm_compute. exact I.
    + destruct (Hne). apply Hs; [|exists r; split; [done|]].
      * exists r2. split; [|done]. unfold disk_record. by rewrite <-Hothers.
      * apply (open_status r "recovery_failed"); [done|]. apply (bool_decide_unpack _).
        vm_compute. exact I.
  - exists r', cur. split_and!; try done; [by rewrite Hcur|].
    apply record_of_disk in Hok as (dp & Hdp & Hrd). exists dp, d. by rewrite Hdep.
Qed.

Section repeated.
Context `{Runtime, LifecycleExecutor, !ExecutorContract _}.

Lemma events_bind {A B} (m : M A) (f : A → M B) s :
  readonly m → (∀ a s1, m s = (ORet a, s1) → only_events s s1 → only_events s1 (f a s1).2) →
  only_events s ((m ≫= f) s).2.
Proof.
  intros Hm Hf. unfold mbind, M_bind. specialize (Hm s).
  destruct (m s) as [[a|e|] s1]; [|done..]. by eapply only_events_trans, Hf.
Qed.

Lemma requested_of_disk t s r : disk_record s t r → requested_record t s = (ORet (Some r), s).
Proof.
  intros Hd. unfold disk_record, record_on_disk in Hd.
  unfold requested_record, mbind, M_bind, gets. by rewrite Hd.
Qed.

Lemma disk_record_fun s t r r' : disk_record s t r → disk_record s t r' → r' = r.
Proof. unfold disk_record, record_on_disk. congruence. Qed.

Lemma resume_ret t r p b s x s' :
  resume_completed_recovery_reconcile t r p b s = (ORet x, s') →
  get x "idempotent" = PBool true ∧ get x "transaction_id" = PStr t
  ∧ get x "terminal_state" = PStr "recovery_reconciled".
Proof.
  unfold resume_completed_recovery_reconcile. cbv zeta. intros Hr.
  apply bind_ret in Hr as (c & s1 & _ & Hr). apply bind_ret in Hr as (v & s2 & _ & Hr).
  apply bind_ret in Hr as ([] & s3 & _ & Hr). apply bind_ret in Hr as (e & s4 & _ & Hr).
  apply bind_ret in Hr as ([] & s5 & _ & Hr). apply bind_ret in Hr as (sm & s6 & _ & Hr).
  apply bind_ret in Hr as ([] & s7 & [Hbad _]%require_ret & Hr).
  apply bind_ret in Hr as (bd & s8 & _ & Hr). apply bind_ret in Hr as (ob & s9 & _ & Hr).
  apply bind_ret in Hr as ([] & s10 & _ & Hr). apply bind_ret in Hr as (rf & s11 & _ & Hr).
  apply bind_ret in Hr as (h & s12 & _ & [-> ->]%mret_ret).
  unfold ne in Hbad. bool_split. split_and!.
  - match goal with |- get (dupdate ?d ?l) _ = _ =>
      apply (get_dupdate_mid d (take 2 l) _ _ (drop 3 l)); compute_done end.
  - rewrite get_dupdate_notin by compute_done. by apply py_eqb_str.
  - rewrite get_dupdate_notin by compute_done. by apply py_eqb_str.
Qed.
End repeated.

(** Repeating [reconcile_recovery] on a transaction it has closed changes
    nothing on the host; what it returns is marked ["idempotent"] and names the
    transaction and its terminal state. *)
Theorem reconcile_repeats `{Runtime, LifecycleExecutor, !ExecutorContract _} t p b s r :
  disk_record s t r → get r "status" = PStr "recovery_reconciled" →
  only_events s (reconcile_recovery t p b s).2
  ∧ ∀ x s', reconcile_recovery t p b s = (ORet x, s') →
      get x "idempotent" = PBool true ∧ get x "transaction_id" = PStr t
      ∧ get x "terminal_state" = PStr "recovery_reconciled".
Proof.
  intros Hd Hst. split.
  - unfold reconcile_recovery, with_lifecycle_lock, ensure_layout.
    apply events_bind; [readonly_auto|intros _ s1 _ [n1 ->]].
    apply events_bind; [readonly_auto|intros _ s2 _ [n2 ->]].
    apply events_bind; [readonly_auto|intros _ s3 _ [n3 ->]].
    apply events_bind; [readonly_auto|intros o s4 Ho _].
    rewrite (requested_of_disk t _ r) in Ho by exact Hd. injection Ho as <- <-.
    rewrite Hst. cbn [py_eqb]. rewrite String.eqb_refl. apply readonly_resume.
  - intros x s' Hret.
    apply reconcile_recovery_ret in Hret as (s1 & [n ->] & [(r1 & Hd1 & Hst1 & Hret)|Hret]).
    + by apply resume_ret in Hret.
    + apply reconcile_blocking_ret in Hret as (r1 & Hd1 & Hst1 & _).
      assert (r1 = r) as -> by exact (disk_record_fun s t r r1 Hd Hd1). congruence.
Qed.

(** [reconcile_recovery] closes nothing else: on a transaction whose record
    is neither a failed recovery nor already reconciled, or that has none, it
    does not return and changes nothing on the host. *)
Theorem reconcile_refuses_others `{Runtime, LifecycleExecutor, !ExecutorContract _} t p b s :
  ¬ closable s t →
  is_ret (reconcile_recovery t p b s) = false ∧ only_events s (reconcile_recovery t p b s).2.
Proof. apply refuses_reconcile. Qed.
