(* ===== verification/LifecycleRecoverySample.v ===== *)
(** * Release lifecycle: a failed recovery and its closure, evaluated

    A host on which an upgrade and the recovery after it both failed, the
    evidence an operator puts beside the blocking transaction, and the
    applications of the theorems of [LifecycleReconcile] to it. *)
From S2P Require Import Prelude PyFloat PyValue PyPath PyTime LifecycleCore LifecycleIO.
From S2P Require Import LifecycleSamples LifecycleRecords LifecycleInstall LifecycleNetwork.
From S2P Require Import LifecycleTransaction LifecycleCommands LifecycleEvidence.
From S2P Require Import LifecycleRecovery LifecycleLogic LifecycleInvariants.
From S2P Require Import LifecycleRecoveryFacts LifecycleSafety LifecycleClosure.
From S2P Require Import LifecycleReconcile.

(** ** The operator's evidence *)

Definition volume : string := "boost-gateway-redis".
Definition hex64 : string := str_repeat "e" 64.
Definition old_id : string := sample_id "v3.6.7" "A".
Definition new_id : string := sample_id "v3.6.8" "B".
Definition digest_of (d : pydict) : py := PStr (sample_sha256 (content_bytes (CJson (PDict d)))).
Definition ok_checks (names : list string) : py :=
  PList (map (λ n, PDict [("name", PStr n); ("passed", PBool true)]) names).

Definition transition_doc : pydict :=
  [("overall_pass", PBool true); ("source_mode", PStr "aof_everysec_rdb");
   ("target_mode", PStr "rdb_only"); ("checkpoint_required", PBool true);
   ("checkpoint_verified", PBool true); ("writes_frozen", PBool true);
   ("secret_material_recorded", PBool false);
   ("checkpoint", PDict [("rdb_changes_since_last_save", PInt 0);
      ("rdb_last_bgsave_status", PStr "ok"); ("redis_check_rdb", PBool true);
      ("rdb_sha256", PStr hex64)]);
   ("active_volume", PDict [("name", PStr volume); ("destination", PStr "/data");
      ("read_write", PBool true)])].

Definition status_doc : pydict :=
  [("schema_version", PInt 1); ("overall_pass", PBool true); ("current", PStr old_id);
   ("failures", PList []); ("lifecycle_blocker_preserved", PBool true);
   ("secret_material_recorded", PBool false)].

Definition deployed_manifest : string :=
  "/opt/boost-gateway/deployments/" +:+ old_id +:+ "/manifest.json".
Definition deployed_compose : string :=
  "/opt/boost-gateway/deployments/" +:+ old_id
  +:+ "/deploy/operations/docker-compose.production.yml".

Definition verification_doc : pydict :=
  [("overall_pass", PBool true); ("source_build_performed", PBool false);
   ("public_conan_access_performed", PBool false); ("staging_manifest", PStr deployed_manifest);
   ("compose_file", PStr deployed_compose);
   ("checks", ok_checks ["compose-service-state"; "container-image-identities"; "redis-ping";
                         "release-sdk-full-flow"]);
   ("failed", PList [])].

Definition redis_image : string := "sha256:" +:+ hex64.

Definition equivalence_doc (t : string) : pydict :=
  [("schema_version", PInt 1); ("overall_pass", PBool true); ("transaction_id", PStr t);
   ("source_volume", PStr volume); ("source_volume_mounted_readonly", PBool true);
   ("production_volume_mutated", PBool false); ("production_switched", PBool false);
   ("key_sets_equal", PBool true); ("required_keys_present", PBool true);
   ("redis_image", PStr redis_image); ("secret_material_recorded", PBool false);
   ("formal_todo0012_claim", PBool false); ("rdb_canonical_sha256", PStr hex64);
   ("aof_canonical_sha256", PStr hex64); ("rdb_key_count", PInt 12); ("aof_key_count", PInt 12)].

Definition manual_doc (t : string) : pydict :=
  required_manual t old_id
  ++ [("active_volume", PStr volume); ("redis_image", PStr redis_image);
      ("rdb_sha256", PStr hex64); ("aof_manifest_sha256", PStr hex64);
      ("appendonly", PStr "no");
      ("aof_quarantine", PStr ("appendonlydir.recovery-failed-" +:+ t));
      ("status_sha256", digest_of status_doc);
      ("verification_sha256", digest_of verification_doc);
      ("rdb_aof_equivalence_sha256", digest_of (equivalence_doc t))].

(** The documents beside the operator's summary. *)
Definition payload_doc : pydict := [("players", PInt 3)].
Definition plan_doc : pydict :=
  [("schema_version", PInt 1); ("overall_pass", PBool true);
   ("operation", PStr "prepare-pre-aof-state-merge"); ("production_mutated", PBool false);
   ("production_volume_deleted", PBool false); ("secret_material_recorded", PBool false);
   ("formal_todo0012_claim", PBool false); ("payload", PDict payload_doc);
   ("payload_sha256", digest_of payload_doc); ("current_canonical_sha256", PStr hex64);
   ("merged_canonical_sha256", PStr hex64)].

Definition evidence_dir : string := "/srv/recovery/".
Definition backup_doc (i : string) : pydict :=
  [("manifest", PDict [("backup_id", PStr i); ("consistent_redis_snapshot", PBool true);
      ("encrypted_before_transfer", PBool true); ("secret_material_recorded", PBool false)]);
   ("remote_receipt", PDict [("backup_id", PStr i); ("create_only", PBool true);
      ("remote_readback_sha256", PBool true); ("secret_material_recorded", PBool false);
      ("stored_at", PStr "2026-01-02T00:00:00Z")])].
Definition backup_ref (i : string) : py :=
  PDict [("backup_id", PStr i); ("summary_path", PStr (evidence_dir +:+ i +:+ ".json"));
         ("summary_sha256", digest_of (backup_doc i))].

Definition application_doc : pydict :=
  [("schema_version", PInt 1); ("overall_pass", PBool true);
   ("operation", PStr "apply-pre-aof-state-merge"); ("plan_sha256", digest_of plan_doc);
   ("payload_sha256", digest_of payload_doc); ("pre_merge_canonical_sha256", PStr hex64);
   ("merged_canonical_sha256", PStr hex64); ("pre_merge_backup", backup_ref "backup-1");
   ("production_volume_deleted", PBool false); ("secret_material_recorded", PBool false);
   ("formal_todo0012_claim", PBool false);
   ("checkpoint", PDict [("rdb_changes_since_last_save", PInt 0);
      ("redis_check_rdb", PBool true); ("rdb_sha256", PStr hex64)])].

Definition merge_verification_doc : pydict :=
  [("overall_pass", PBool true); ("source_build_performed", PBool false);
   ("public_conan_access_performed", PBool false); ("staging_manifest", PStr deployed_manifest);
   ("checks", ok_checks ["release-sdk-full-flow"]); ("failed", PList [])].

Definition resolution_doc : pydict :=
  [("schema_version", PInt 1); ("overall_pass", PBool true);
   ("operation", PStr "recover-pre-aof-state-with-post-activation-writes");
   ("current", PStr old_id); ("lifecycle_blocker_preserved", PBool true);
   ("production_volume_deleted", PBool false); ("aof_quarantine_deleted", PBool false);
   ("secret_material_recorded", PBool false); ("formal_todo0012_claim", PBool false);
   ("active_volume", PStr volume); ("recorded_at", PStr "2026-01-01T09:00:00+08:30");
   ("merged_canonical_sha256", PStr hex64); ("pre_merge_canonical_sha256", PStr hex64);
   ("payload_sha256", digest_of payload_doc); ("plan_sha256", digest_of plan_doc);
   ("application_sha256", digest_of application_doc);
   ("verification_sha256", digest_of merge_verification_doc);
   ("preservation", PDict [("passed", PBool true); ("missing_names", PList []);
      ("missing_scores", PList []); ("changed_names", PList []); ("changed_scores", PList []);
      ("missing_events", PDict [("events_global", PInt 0); ("events_by_type", PInt 0)]);
      ("next_seq", PInt 7)]);
   ("pre_merge_backup", backup_ref "backup-1"); ("post_merge_backup", backup_ref "backup-2")].

Definition resolution_path : path := py_path "/srv/recovery/./recovery-summary.json".

Definition operator_files : gmap string node :=
  list_to_map (map (λ nd, (evidence_dir +:+ nd.1, NFile (CJson (PDict nd.2))))
    [("recovery-summary.json", resolution_doc);
     ("todo0012-pre-aof-merge-plan.json", plan_doc);
     ("todo0012-pre-aof-merge-application.json", application_doc);
     ("todo0012-pre-aof-merge-deployment-verification.json", merge_verification_doc);
     ("backup-1.json", backup_doc "backup-1"); ("backup-2.json", backup_doc "backup-2")]).

Definition transaction_files (t : string) : list (string * pydict) :=
  [(MANUAL_RECOVERY_SUMMARY, manual_doc t); (MANUAL_RECOVERY_STATUS, status_doc);
   (MANUAL_RECOVERY_VERIFICATION, verification_doc);
   (MANUAL_RECOVERY_EQUIVALENCE, equivalence_doc t)].

(** ** The host *)

Definition recovery_runtime : Runtime := {|
  layout := default_layout;
  sha256 := sample_sha256;
  now_at _ := "2026-01-01T00:00:00Z";
  stamp_at n := "20260101T" +:+ Z_str (Z.of_nat (1000 + n));
  uuid_at n := "0123456789abcdef" +:+ Z_str (Z.of_nat n);
  monotonic_at _ := f_zero;
  identity_at _ := Ok sample_identity;
  fault_at _ := NoFault;
  evidence_at _ p := operator_files !! p;
  file_id_at _ p := Some (Z.of_N (poly_hash 7 p));
  real_path_at _ p := p |}.

(** Write a summary of a transaction, which is never its record. *)
Definition put_summary (t name : string) (d : pydict) : M unit :=
  if String.eqb name "record.json" then mret ()
  else modify (put_tx t name (NFile (CJson (PDict d)))).

(** The new deployment does not verify, and neither does the recovery. *)
Definition recovery_executor : LifecycleExecutor := {|
  ex_precheck _ _ := mret ();
  ex_activate _ _ := mret ();
  ex_commit _ _ := modify (set_unit (Some (NFile (CText "[Unit]"))));
  ex_uncommit _ := mret ();
  ex_deactivate _ _ := mret ();
  ex_prepare_transition _ _ t name _ := put_summary t name transition_doc;; mret PNone;
  ex_verify d _ name _ :=
    if String.eqb d new_id || String.eqb name "recovery-verification-summary.json"
    then fail_lc "verification failed" else mret [("overall_pass", PBool true)];
  ex_verify_bridge _ _ _ _ := fail_lc "verification failed";
  ex_verify_read_only _ t name _ allow :=
    let v := [("overall_pass", PBool true); ("read_only_verification", PBool true);
              ("protected_state_mutated", PBool false);
              ("legacy_redis_hardening_bridge", PBool allow)] in
    put_summary t name v;; mret v;
  ex_runtime_status _ := mret [];
  ex_inactive_status := mret [] |}.

Lemma framed_put_summary t name d : framed (put_summary t name d).
Proof.
  intros s. unfold put_summary. destruct (String.eqb_spec name "record.json").
  - apply ex_frame_refl.
  - by apply ex_frame_put_summary.
Qed.

Lemma recovery_contract : ExecutorContract recovery_executor.
Proof.
  split; intros; try (intros s; apply ex_frame_refl); simpl.
  - intros s. by repeat split.
  - apply framed_bind; [apply framed_put_summary|intros _ s; apply ex_frame_refl].
  - intros s. destruct (_ || _); apply ex_frame_refl.
  - apply framed_bind; [apply framed_put_summary|intros _ s; apply ex_frame_refl].
Qed.

#[local] Existing Instance recovery_runtime.
#[local] Existing Instance recovery_executor.
#[local] Existing Instance recovery_contract.

(** A verified deployment, then an upgrade that fails twice. *)
Definition upgraded_host : st :=
  (run_command (CmdUpgrade new_id)
    (run_command (CmdInstall (sample_inputs "v3.6.8" "B"))
      (run_command (CmdDeploy old_id)
        (run_command (CmdInstall (sample_inputs "v3.6.7" "A")) sample_host).2).2).2).2.
Definition blocked_tx : string := default "" (head (record_transactions upgraded_host)).

(** The operator adds the evidence. *)
Definition put_files (t : string) (files : list (string * pydict)) (s : st) : st :=
  fold_left (λ s nd, put_tx t nd.1 (NFile (CJson (PDict nd.2))) s) files s.
Definition blocked_host : st := put_files blocked_tx (transaction_files blocked_tx) upgraded_host.
Definition closed_run := reconcile_recovery blocked_tx resolution_path false blocked_host.

Example closed_run_returns : is_ret closed_run = true.
Proof. vm_compute. reflexivity. Qed.

Lemma put_files_frame t files s :
  Forall (λ nd, nd.1 ≠ "record.json") files → ex_frame s (put_files t files s).
Proof.
  intros Hn. revert s. unfold put_files. induction Hn as [|nd files Hnd _ IH]; intros s.
  - apply ex_frame_refl.
  - simpl. eapply ex_frame_trans; [by apply (ex_frame_put_summary t nd.1)|apply IH].
Qed.

Lemma ex_frame_host_step s s' : ex_frame s s' → host_step s s'.
Proof. intros (?&?&?&?&?&?&?&?&?). by repeat split. Qed.

Lemma blocked_host_reachable : reachable blocked_host.
Proof.
  apply (reach_host upgraded_host).
  - do 4 apply reach_command. apply reach_start, sample_host_fresh.
  - apply ex_frame_host_step, put_files_frame. unfold transaction_files. repeat constructor; done.
Qed.

(** ** The theorems on this host *)

Definition closed_host : st := closed_run.2.
Definition evidence_run :=
  validate_manual_recovery blocked_tx (record_at blocked_host blocked_tx) old_id resolution_path
    blocked_host.


Lemma reconcile_keeps_topology_witness :
  recovery_frame blocked_tx blocked_host
    (reconcile_recovery blocked_tx resolution_path false blocked_host).2
  ∧ st_current blocked_host = LTo (dep_dir old_id).
Proof.
  split; [|vm_compute; reflexivity].
  exact (reconcile_keeps_topology blocked_tx resolution_path false blocked_host).
Defined.

Lemma reconcile_closes_recovery_witness :
  get (record_at blocked_host blocked_tx) "status" = PStr "recovery_failed"
  ∧ get (record_at closed_host blocked_tx) "status" = PStr "recovery_reconciled"
  ∧ none_open [] closed_host.
Proof.
  split; [vm_compute; reflexivity|]. split; [vm_compute; reflexivity|].
  destruct (reconcile_closes_recovery blocked_tx resolution_path false blocked_host
           (record_at blocked_host blocked_tx) (returned [] closed_run) closed_host) as [Hn _].
  - exact blocked_host_reachable.
  - vm_compute. reflexivity.
  - vm_compute. reflexivity.
  - exact (returned_eta [] closed_run closed_run_returns).
  - exact Hn.
Defined.

(** The second run returns and changes nothing. *)
Definition repeated_run := reconcile_recovery blocked_tx resolution_path false closed_host.

Example repeated_run_returns : is_ret repeated_run = true.
Proof. vm_compute. reflexivity. Qed.

Lemma reconcile_repeats_witness :
  only_events closed_host repeated_run.2
  ∧ get (returned [] repeated_run) "idempotent" = PBool true.
Proof.
  destruct (reconcile_repeats blocked_tx resolution_path false closed_host
              (record_at closed_host blocked_tx)) as [He Hx].
  - vm_compute. reflexivity.
  - vm_compute. reflexivity.
  - split; [exact He|].
    destruct (Hx (returned [] repeated_run) repeated_run.2) as [Hi _]; [|exact Hi].
    exact (returned_eta [] repeated_run repeated_run_returns).
Defined.

Lemma reconcile_refuses_others_witness :
  is_ret (reconcile_recovery "no-such-transaction" resolution_path false blocked_host) = false.
Proof.
  destruct (reconcile_refuses_others "no-such-transaction" resolution_path false blocked_host)
    as [Hr _]; [|exact Hr].
  intros (r & Hd & _). vm_compute in Hd. discriminate Hd.
Defined.
