(* ===== verification/BackupPolicy.v ===== *)
(** * Backup and recovery policy

    Models [src/scripts/lib/backup_recovery_policy.py]: the validation of the
    backup/recovery policy and of the Redis candidate profile.  A validator
    appends named checks; the summary passes when none of them failed.  The
    content of a file is a parsed JSON document or text; a digest function and
    the clock are parameters. *)
From S2P Require Import Prelude PyFloat PyValue PyNet PyText LifecycleCore LifecycleIO.
#[local] Open Scope Z_scope.

(** ** Constants *)

Definition REQUIRED_SOURCE_CONTRACTS : list (string * (string * string)) :=
  [("redis_snapshot", ("generated_redis_snapshot", "/var/backups/boost-gateway/staging/redis"));
   ("host_configuration", ("directory", "/etc/boost-gateway"));
   ("deployment_state", ("directory", "/opt/boost-gateway/deployments"));
   ("release_state", ("directory", "/opt/boost-gateway/releases"));
   ("deployment_transactions",
      ("directory", "/var/lib/boost-gateway/deployment-transactions"));
   ("operations_evidence", ("directory", "/var/lib/boost-gateway-evidence"))].
Definition REQUIRED_PERFORMANCE_METRICS : list string :=
  ["leaderboard_operation_throughput"; "leaderboard_operation_p50_latency";
   "leaderboard_operation_p99_latency"; "redis_cpu"; "redis_rss"; "redis_disk_write_bytes";
   "redis_aof_delayed_fsync"].
Definition REQUIRED_BUSINESS_CHECKS : list string :=
  ["redis_ping"; "leaderboard_seed_exact"; "leaderboard_submit"; "leaderboard_top";
   "leaderboard_rank"; "sdk_full_flow"].
Definition REQUIRED_ACTIVATION_GATES : list string :=
  ["measured_aof_performance_evidence"; "verified_encryption_recipient";
   "verified_distinct_remote_storage_identity"; "governed_change_record"; "rollback_plan"].
Definition REQUIRED_MANIFEST_LINK_FIELDS : list string :=
  ["archive_path"; "original_link_text"; "target_source_id"; "target_relative_path";
   "target_type"].

(** ** Helpers *)

Record check := Check { ck_name : string; ck_passed : bool; ck_detail : string }.
Abbreviation checks := (list check).

(** What is found at a path. *)
Inductive file :=
  | FRegular (c : content)
  | FUnreadable (msg : string)
  | FSymlink
  | FMissing.

Section policy.
Context (digest : string → string).

Definition file_digest (f : file) : res string :=
  match f with
  | FRegular c => Ok (digest (content_bytes c))
  | FUnreadable msg => Raise (Exn COSError msg)
  | _ => Raise (Exn CFileNotFoundError "No such file or directory")
  end.

Definition load_policy_object (f : file) (path label : string) : res pydict :=
  match f with
  | FSymlink | FMissing =>
      raise_policy (label +:+ " must be a regular non-symlink file: " +:+ path)
  | FUnreadable msg => raise_policy ("cannot load " +:+ label +:+ ": " +:+ msg)
  | FRegular (CJson (PDict d)) => Ok d
  | FRegular (CJson _) => raise_policy (label +:+ " must be a JSON object")
  | FRegular (CText _) => raise_policy ("cannot load " +:+ label +:+ ": not a JSON document")
  end.

Abbreviation directives := (list (string * list (list string))).

Fixpoint directive_add (d : directives) (name : string) (v : list string) : directives :=
  match d with
  | [] => [(name, [v])]
  | (k, vs) :: rest =>
      if String.eqb k name then (k, vs ++ [v]) :: rest else (k, vs) :: directive_add rest name v
  end.
Definition directive_get (d : directives) (name : string) : list (list string) :=
  match list_find (λ kv, kv.1 = name) d with Some (_, kv) => kv.2 | None => [] end.

Fixpoint redis_lines (n : nat) (lines : list string) (d : directives) : res directives :=
  match lines with
  | [] => Ok d
  | line :: rest =>
      match shlex_split line with
      | Raise e =>
          raise_policy ("invalid Redis syntax at line " +:+ Z_str (Z.of_nat n) +:+ ": "
                        +:+ exn_msg e)
      | Ok [] => redis_lines (S n) rest d
      | Ok [name] =>
          raise_policy ("Redis directive has no value at line " +:+ Z_str (Z.of_nat n) +:+ ": "
                        +:+ lower name)
      | Ok (name :: values) =>
          redis_lines (S n) rest (directive_add d (lower name) values)
      end
  end.

(** [load_redis_directives]. *)
Definition load_redis_directives (f : file) (path : string) : res directives :=
  match f with
  | FSymlink | FMissing =>
      raise_policy ("Redis profile must be a regular non-symlink file: " +:+ path)
  | FUnreadable msg => raise_policy ("cannot load Redis profile: " +:+ msg)
  | FRegular c => redis_lines 1 (splitlines (content_bytes c)) []
  end.

(** [nested]. *)
Fixpoint nested (value : py) (keys : list string) : py :=
  match keys with
  | [] => value
  | k :: rest => match value with PDict d => nested (get d k) rest | _ => PNone end
  end.

(** [string_set]. *)
Definition string_set (value : py) : list string :=
  match value with
  | PList l => if forallb is_str l then map py_str l else []
  | _ => []
  end.

(** [positive_int]. *)
Definition positive_int (value : py) : bool :=
  match value with PInt n => 0 <? n | _ => false end.
Definition at_least (value : py) (bound : Z) : bool :=
  match value with PInt n => bound <=? n | _ => false end.
Definition at_most (value : py) (bound : Z) : bool :=
  match value with PInt n => n <=? bound | _ => false end.

Definition add (name : string) (passed : bool) (detail : string) : checks :=
  [Check name passed detail].

Definition eq_str (v : py) (s : string) : bool := py_eqb v (PStr s).

(** ** [validate_redis_profile] *)

Definition expected_single : list (string * string) :=
  [("appendonly", "yes"); ("appendfsync", "everysec"); ("no-appendfsync-on-rewrite", "no");
   ("aof-use-rdb-preamble", "yes"); ("aof-load-truncated", "no");
   ("aof-timestamp-enabled", "yes"); ("auto-aof-rewrite-percentage", "100");
   ("auto-aof-rewrite-min-size", "64mb"); ("appendfilename", "appendonly.aof");
   ("appenddirname", "appendonlydir"); ("maxmemory-policy", "noeviction");
   ("stop-writes-on-bgsave-error", "yes"); ("rdbcompression", "yes");
   ("rdbchecksum", "yes"); ("dbfilename", "dump.rdb"); ("dir", "/data")].

Definition lists_eqb (a b : list (list string)) : bool := bool_decide (a = b).

Definition save_rule_ok (rule : py) : bool :=
  match rule with PStr s => Nat.eqb (length (split_ws s)) 2 | _ => false end.

(** The set of save rules the policy asks for. *)
Definition expected_saves (policy : pydict) : list (list string) :=
  match nested (PDict policy) ["redis"; "expected_rdb_save_rules"] with
  | PList ((_ :: _) as rules) =>
      if forallb save_rule_ok rules
      then remove_dups (map (λ r, split_ws (py_str r)) rules) else []
  | _ => []
  end.

Definition saves_match (expected actual : list (list string)) : bool :=
  match expected with [] => false | _ => true end
  && Nat.eqb (length actual) (length expected)
  && forallb (λ r, bool_decide (r ∈ expected)) actual
  && forallb (λ r, bool_decide (r ∈ actual)) expected.

Definition profile_checks (policy : pydict) (d : directives) (observed : string) : checks :=
  let expected_digest := nested (PDict policy) ["redis"; "profile_sha256"] in
  add "redis:profile-load" true "Redis candidate profile is readable"
  ++ add "redis:profile-sha256"
       (match expected_digest with
        | PStr s => SHA256_RE s && String.eqb s observed
        | _ => false
        end) "Redis candidate profile matches its policy digest"
  ++ flat_map (λ kv, add ("redis:directive:" +:+ kv.1)
       (lists_eqb (directive_get d kv.1) [[kv.2]])
       ("Redis " +:+ kv.1 +:+ " is explicitly and uniquely set to " +:+ kv.2)) expected_single
  ++ add "redis:rdb-save-rules" (saves_match (expected_saves policy) (directive_get d "save"))
       "Redis RDB save rules exactly match the policy"
  ++ add "redis:no-dynamic-includes"
       (negb (mem_str "include" (map fst d)) && negb (mem_str "loadmodule" (map fst d)))
       "Redis candidate has no dynamic include or module escape"
  ++ add "redis:policy-data-directory"
       (eq_str (nested (PDict policy) ["redis"; "expected_data_directory"]) "/data")
       "Policy binds the Redis data directory to /data"
  ++ add "redis:policy-eviction"
       (eq_str (nested (PDict policy) ["redis"; "expected_maxmemory_policy"]) "noeviction")
       "Policy rejects silent eviction of recoverable leaderboard state".

Definition validate_redis_profile (policy : pydict) (f : file) (path : string)
    : checks * string :=
  match d ← load_redis_directives f path; h ← file_digest f; Ok (d, h) with
  | Raise e => (add "redis:profile-load" false (exn_msg e), "")
  | Ok (d, h) => (profile_checks policy d h, h)
  end.

(** ** [validate_performance_contract] *)

Definition validate_performance_contract (policy : pydict) : checks :=
  let performance := nested (PDict policy) ["redis"; "performance_impact"] in
  let state := nested (PDict policy) ["activation"; "state"] in
  let p := as_dict performance in
  add "performance:governed-state"
    (is_dict performance
     && (eq_str state "candidate_only" && eq_str (get p "status") "pending_measurement"
         && is_true (get p "required_before_activation")
         || eq_str state "approved_candidate_pending_host_activation"
            && eq_str (get p "status") "measured_and_accepted"
            && is_false (get p "required_before_activation")))
    "Performance state matches the candidate or approved-candidate activation phase"
  ++ add "performance:modes"
       (is_dict performance && eq_str (get p "baseline_mode") "rdb_only"
        && eq_str (get p "candidate_mode") "aof_everysec_plus_rdb")
       "Performance evidence compares RDB-only with AOF everysec plus RDB"
  ++ (let repetitions :=
        if is_dict performance then get p "minimum_repetitions_per_mode" else PNone in
      add "performance:repetitions" (positive_int repetitions && at_least repetitions 3)
        "Each persistence mode requires at least three repetitions")
  ++ add "performance:metrics"
       (same_set (if is_dict performance then string_set (get p "required_metrics") else [])
          REQUIRED_PERFORMANCE_METRICS)
       "AOF comparison requires business, resource, disk and delayed-fsync metrics".

(** ** [validate_backup_contract] *)

(** The first source with each identity. *)
Fixpoint source_by_id (sources : list py) (seen : list (string * pydict))
    : list (string * pydict) :=
  match sources with
  | [] => seen
  | PDict source :: rest =>
      match get source "id" with
      | PStr i =>
          if mem_str i (map fst seen) then source_by_id rest seen
          else source_by_id rest (seen ++ [(i, source)])
      | _ => source_by_id rest seen
      end
  | _ :: rest => source_by_id rest seen
  end.

Definition source_get (m : list (string * pydict)) (i : string) : pydict :=
  match list_find (λ kv, kv.1 = i) m with Some (_, kv) => kv.2 | None => [] end.

Definition is_bool (v : py) : bool := match v with PBool _ => true | _ => false end.

Definition source_checks (backup : pydict) : checks :=
  let sources := get backup "source_contracts" in
  let by_id := source_by_id (as_list sources) [] in
  let required := map fst REQUIRED_SOURCE_CONTRACTS in
  add "backup:sources-unique-complete"
    (is_list sources && Nat.eqb (length by_id) (length (as_list sources))
     && Nat.eqb (length (as_list sources)) (length required)
     && same_set (map fst by_id) required)
    "Backup source inventory is complete and has unique IDs"
  ++ flat_map (λ '(i, (kind, path)),
       let source := source_get by_id i in
       add ("backup:source:" +:+ i)
         (eq_str (get source "kind") kind && eq_str (get source "path") path
          && is_true (get source "required") && is_bool (get source "contains_secrets"))
         (i +:+ " has the governed type, absolute path and required flag"))
       REQUIRED_SOURCE_CONTRACTS.

Definition archive_checks (backup : pydict) : checks :=
  let archive := get backup "archive_contract" in
  let a := as_dict archive in
  add "backup:link-free-archive"
    (is_dict archive && eq_str (get a "format") "tar"
     && is_false (get a "symbolic_link_entries_allowed")
     && is_false (get a "hard_link_entries_allowed")
     && is_false (get a "follow_symbolic_links")
     && is_true (get a "reject_broken_symbolic_links")
     && is_true (get a "reject_symbolic_link_target_escape"))
    "Backup tar contains no symbolic/hard links and rejects broken or escaping links"
  ++ add "backup:validated-link-metadata"
       (is_dict archive
        && same_set (string_set (get a "manifest_link_fields")) REQUIRED_MANIFEST_LINK_FIELDS)
       "Manifest records original link evidence plus a validated source-relative target".

Definition forbidden_secret_fields : list string :=
  ["recipient"; "private_key"; "passphrase"; "password"; "token"; "credential"].

Definition encryption_checks (backup : pydict) : checks :=
  let encryption := get backup "encryption" in
  let e := as_dict encryption in
  add "backup:encryption"
    (is_dict encryption && eq_str (get e "tool") "age"
     && eq_str (get e "recipient_file") "/etc/boost-gateway/backup.age-recipient"
     && is_false (get e "private_key_present_on_source_host")
     && is_true (get e "encrypt_before_transfer")
     && is_false (get e "manifest_contains_secret_values"))
    "Backups use recipient-only age encryption before transfer"
  ++ add "backup:no-inline-secret-fields"
       (is_dict encryption && negb (existsb (λ k, mem_str k (dkeys e)) forbidden_secret_fields))
       "Encryption policy contains paths and booleans, not inline credentials".

(** The parsed destination: the URL, its host, and whether it is unusable. *)
Definition parse_destination (destination : py) : url * string * bool :=
  match destination with
  | PStr d =>
      match urlparse d with
      | Some u => (u, default "" (url_hostname u), url_has_password u)
      | None => (Url "" "" "", "", true)
      end
  | _ => (Url "" "" "", "", false)
  end.

Definition is_loopback_host (host : string) : bool :=
  mem_str (lower host) ["localhost"; "localhost.localdomain"]
  || match ip_is_loopback host with Some b => b | None => false end.

Definition off_host_checks (backup : pydict) : checks :=
  let off_host := get backup "off_host" in
  let o := as_dict off_host in
  let destination :=
    if is_dict off_host then get_or o "destination" (PStr "") else PStr "" in
  let '(parsed, host, has_password) := parse_destination destination in
  add "backup:off-host-destination"
    (is_dict off_host && eq_str (get o "transport") "ssh" && String.eqb (u_scheme parsed) "ssh"
     && negb (String.eqb host "") && negb (is_loopback_host host) && negb has_password
     && (negb (String.eqb (u_path parsed) "") && negb (String.eqb (u_path parsed) "/"))
     && is_false (get o "allow_local_filesystem_destination"))
    "Off-host destination is a non-loopback credential-free SSH URI"
  ++ add "backup:off-host-proof"
       (is_dict off_host
        && eq_str (get o "remote_identity_attestation")
             "/etc/boost-gateway/backup-remote-host-id.sha256"
        && is_true (get o "require_distinct_host_identity")
        && is_true (get o "require_remote_readback_sha256")
        && is_true (get o "receipt_required"))
       "Remote host identity, readback checksum and receipt are mandatory".

Definition retention_checks (backup : pydict) : checks :=
  let retention := get backup "retention" in
  let r := as_dict retention in
  add "backup:retention-counts"
    (is_dict retention && positive_int (get r "daily_copies")
     && at_least (get r "daily_copies") 2 && positive_int (get r "weekly_copies")
     && positive_int (get r "minimum_known_good_copies")
     && at_least (get r "minimum_known_good_copies") 2)
    "Retention keeps daily, weekly and at least two known-good copies"
  ++ add "backup:retention-deletion-guards"
       (is_dict retention && is_true (get r "delete_only_after_verified_remote_copy")
        && is_true (get r "deletion_record_required"))
       "Retention cannot delete before remote verification and records every deletion".

Definition validate_backup_contract (policy : pydict) : checks :=
  let backup := get policy "backup" in
  add "backup:object" (is_dict backup) "backup is an object"
  ++ match backup with
     | PDict b =>
         add "backup:daily-consistent-create-only"
           (eq_str (get b "schedule") "daily"
            && is_true (get b "consistent_redis_snapshot_required")
            && is_true (get b "create_only_artifacts"))
           "Daily backups require a consistent Redis snapshot and create-only artifacts"
         ++ add "backup:checksum" (eq_str (get b "checksum_algorithm") "sha256")
              "Backup manifests use SHA-256"
         ++ add "backup:plaintext-lifecycle"
              (eq_str (get b "plaintext_staging_root") "/var/backups/boost-gateway/staging"
               && is_true (get b "plaintext_removed_after_encryption"))
              "Plaintext staging is bounded and removed after encryption"
         ++ source_checks b ++ archive_checks b ++ encryption_checks b ++ off_host_checks b
         ++ retention_checks b
     | _ => []
     end.

(** ** [validate_restore_contract] *)

Definition validate_restore_contract (policy : pydict) : checks :=
  let restore := get policy "restore" in
  add "restore:object" (is_dict restore) "restore is an object"
  ++ match restore with
     | PDict r =>
         add "restore:fresh-volume"
           (is_true (get r "stage_into_new_volume") && is_true (get r "preserve_original_volume")
            && is_true (get r "reject_active_volume_destination")
            && is_true (get r "rollback_to_original_volume_on_failure"))
           "Restore stages into a fresh volume and preserves the original rollback path"
         ++ add "restore:offline-validation"
              (same_set (string_set (get r "offline_validation"))
                 ["redis-check-rdb"; "redis-check-aof"])
              "Restore validates RDB and AOF before activation"
         ++ add "restore:business-verification"
              (same_set (string_set (get r "required_business_checks")) REQUIRED_BUSINESS_CHECKS)
              "Restore verifies exact seed state, submit/top/rank and SDK full-flow"
         ++ add "restore:independent-drills"
              (if positive_int (get r "minimum_independent_drills")
               then at_least (get r "minimum_independent_drills") 2 else false)
              "At least two independent restore drills are required"
         ++ add "restore:distinct-drill-inputs"
              (is_true (get r "distinct_backup_id_required")
               && is_true (get r "distinct_restore_target_required"))
              "Independent drills use distinct backups and restore targets"
         ++ (let links := get r "link_reconstruction" in
             let l := as_dict links in
             add "restore:validated-link-reconstruction"
               (is_dict links && is_true (get l "source_mapping_required")
                && is_false (get l "trust_original_link_text")
                && is_true (get l "target_source_id_required")
                && is_true (get l "target_relative_path_required"))
               "Restore rebuilds links from validated source mappings, never raw link text")
     | _ => []
     end.

(** ** [validate_objectives_and_activation] *)

Definition activation_ok (activation : py) : bool :=
  let a := as_dict activation in
  let state := if is_dict activation then get a "state" else PNone in
  let candidate_only :=
    eq_str state "candidate_only" && is_false (get a "production_compose_mount_enabled")
    && is_false (get a "host_units_install_enabled") && is_false (get a "live_policy_changed") in
  let approved_candidate :=
    eq_str state "approved_candidate_pending_host_activation"
    && is_true (get a "production_compose_mount_enabled")
    && is_true (get a "host_units_install_enabled") && is_false (get a "live_policy_changed")
    && eq_str (get a "decision") "docs/decisions/todo0012-redis-aof-activation.json"
    && re_hex 64 (py_str (get_or a "benchmark_sha256" (PStr ""))) in
  candidate_only || approved_candidate.

Definition expected_maximums : list (string * Z) :=
  [("gateway", 300); ("backend", 300); ("redis_restore", 600); ("host_reboot", 600);
   ("release_rollback", 600)].

Definition validate_objectives_and_activation (policy : pydict) : checks :=
  let activation := get policy "activation" in
  let objectives := get policy "objectives" in
  let redis_rpo :=
    if is_dict objectives then get (as_dict objectives) "redis_rpo_seconds" else PNone in
  let rto := if is_dict objectives then get (as_dict objectives) "rto_seconds" else PNone in
  add "policy:schema" (py_eqb (get policy "schema_version") (PInt 1)) "schema_version is 1"
  ++ add "policy:todo" (eq_str (get policy "todo") "TODO-0012") "policy is bound to TODO-0012"
  ++ add "activation:governed-state" (activation_ok activation)
       "Activation is either isolated or an approved immutable candidate pending host activation"
  ++ add "activation:gates"
       (same_set (if is_dict activation
                  then string_set (get (as_dict activation) "required_before_activation") else [])
          REQUIRED_ACTIVATION_GATES)
       "Activation remains gated on measurements, identities, change record and rollback"
  ++ add "objectives:redis-rpo" (positive_int redis_rpo && at_most redis_rpo 60)
       "Redis RPO target is at most 60 seconds"
  ++ add "objectives:rto"
       (is_dict rto && same_set (dkeys (as_dict rto)) (map fst expected_maximums)
        && forallb (λ '(name, maximum), positive_int (get (as_dict rto) name)
                                        && at_most (get (as_dict rto) name) maximum)
             expected_maximums)
       "Gateway/backend RTO is at most 5 minutes and Redis/reboot/rollback at most 10 minutes".

(** ** [validate_evidence_contract] *)

Definition evidence_required_true : list string :=
  ["bind_source_host_identity"; "bind_deployment_identity"; "bind_redis_profile_sha256";
   "bind_backup_policy_sha256"; "bind_backup_manifest_sha256"; "bind_remote_receipt_sha256"].

Definition validate_evidence_contract (policy : pydict) : checks :=
  let evidence := get policy "evidence" in
  add "evidence:bindings"
    (is_dict evidence
     && forallb (λ name, is_true (get (as_dict evidence) name)) evidence_required_true
     && is_false (get (as_dict evidence) "secret_material_recorded"))
    "Evidence binds host, deployment, profile, manifest and receipt without secrets".

(** ** [validate_policy] *)

(** The profile to read: the argument, or the one the policy names. *)
Definition resolved_profile (policy : pydict) (argument : option string) (root : string)
    : option string :=
  match argument with
  | Some p => Some p
  | None =>
      match nested (PDict policy) ["redis"; "profile"] with
      | PStr v => Some (if starts_with "/" v then v else path_join root v)
      | _ => None
      end
  end.

(** The checks on a policy, and the digest of the Redis profile. *)
Definition policy_checks (read : string → file) (policy : pydict) (argument : option string)
    (root : string) : checks * string :=
  let '(redis, redis_digest) :=
    match resolved_profile policy argument root with
    | None => (add "redis:profile-load" false "Redis profile path is unavailable", "")
    | Some path => validate_redis_profile policy (read path) path
    end in
  (add "redis:profile-path"
     (eq_str (nested (PDict policy) ["redis"; "profile"])
        "env/redis/redis.production-validation.conf")
     "Policy references the dedicated production-validation Redis candidate"
   ++ validate_objectives_and_activation policy
   ++ redis
   ++ validate_performance_contract policy
   ++ validate_backup_contract policy
   ++ validate_restore_contract policy
   ++ validate_evidence_contract policy, redis_digest).

Definition failed_checks (cs : checks) : checks := filter (λ c, ck_passed c = false) cs.

Definition check_value (c : check) : py :=
  PDict [("name", PStr (ck_name c)); ("passed", PBool (ck_passed c));
         ("detail", PStr (ck_detail c))].

Definition validate_policy (read : string → file) (resolve : string → string)
    (generated_at policy_path : string) (argument : option string) (root : string) : pydict :=
  let '(policy, policy_digest, load) :=
    match p ← load_policy_object (read policy_path) policy_path "backup/recovery policy";
          h ← file_digest (read policy_path); Ok (p, h) with
    | Ok (p, h) => (p, h, add "policy:load" true "Backup/recovery policy is readable")
    | Raise e => ([], "", add "policy:load" false (exn_msg e))
    end in
  let '(rest, redis_digest, profile) :=
    match policy with
    | [] => ([], "", argument)
    | _ => let '(cs, h) := policy_checks read policy argument root in
           (cs, h, resolved_profile policy argument root)
    end in
  let all := load ++ rest in
  let failed := failed_checks all in
  let ok := match failed with [] => true | _ => false end in
  let state :=
    match policy with [] => PNone | _ => nested (PDict policy) ["activation"; "state"] end in
  [("summary_version", PInt 1); ("generated_at", PStr generated_at);
   ("overall_pass", PBool ok); ("passed", PBool ok);
   ("failed_category", PStr (if ok then "" else "backup_recovery_policy"));
   ("failed_step", PStr (match failed with c :: _ => ck_name c | [] => "" end));
   ("candidate_contract_valid", PBool ok);
   ("governed_candidate_ready",
      PBool (ok && eq_str state "approved_candidate_pending_host_activation"));
   ("activation_ready", PBool false); ("formal_todo0012_claim", PBool false);
   ("live_policy_changed", PBool false); ("secret_material_recorded", PBool false);
   ("policy", PDict [("path", PStr (resolve policy_path)); ("sha256", PStr policy_digest)]);
   ("redis_profile",
      PDict [("path", PStr (match profile with Some p => resolve p | None => "" end));
             ("sha256", PStr redis_digest)]);
   ("total_checks", PInt (Z.of_nat (length all)));
   ("failed_checks", PInt (Z.of_nat (length failed)));
   ("checks", PList (map check_value all))].
End policy.

(** ** Lemmas *)

Definition all_pass (cs : checks) : bool := forallb ck_passed cs.

Lemma all_pass_app a b : all_pass (a ++ b) = all_pass a && all_pass b.
Proof. apply forallb_app. Qed.

Lemma all_pass_add n b d : all_pass (add n b d) = b.
Proof. simpl. apply andb_true_r. Qed.

Lemma all_pass_failed cs :
  filter (λ c, ck_passed c = false) cs = [] ↔ all_pass cs = true.
Proof.
  unfold all_pass. rewrite forallb_forall. split.
  - intros Hf c Hc. apply list_elem_of_In in Hc. destruct (ck_passed c) eqn:E; [done|].
    assert (c ∈ filter (λ c, ck_passed c = false) cs) as Hin by by apply list_elem_of_filter.
    rewrite Hf in Hin. by apply not_elem_of_nil in Hin.
  - intros Ha. apply elem_of_nil_inv. intros c [Hp Hin]%list_elem_of_filter.
    rewrite Ha in Hp; [done|]. by apply list_elem_of_In.
Qed.

Lemma all_pass_flat_map {A} (f : A → checks) l x :
  all_pass (flat_map f l) = true → x ∈ l → all_pass (f x) = true.
Proof.
  induction l as [|y l IH]; intros Hp Hx; [by apply not_elem_of_nil in Hx|].
  simpl in Hp. rewrite all_pass_app in Hp. apply andb_true_iff in Hp as [Hy Hl].
  apply elem_of_cons in Hx as [->|Hx]; [done|by apply IH].
Qed.

(** Split a passing list of checks into its conditions. *)
Ltac pass_split :=
  repeat match goal with
  | H : all_pass (_ ++ _) = true |- _ => rewrite all_pass_app in H
  | H : all_pass (add _ _ _) = true |- _ => rewrite all_pass_add in H
  | H : _ && _ = true |- _ => apply andb_true_iff in H as [? ?]
  | H : negb _ = true |- _ => apply negb_true_iff in H
  end.

(** The policy that a passing summary is about. *)
Lemma validate_policy_passes digest read resolve at_ path argument root :
  get (validate_policy digest read resolve at_ path argument root) "overall_pass" = PBool true →
  ∃ policy, read path = FRegular (CJson (PDict policy))
    ∧ (policy ≠ [] → all_pass (policy_checks digest read policy argument root).1 = true).
Proof.
  unfold validate_policy.
  destruct (read path) as [[[]|]| | |] eqn:Hr; intros Hp; try discriminate.
  exists d. split; [done|]. intros Hne. destruct d as [|kv d]; [done|]. revert Hp.
  cbn [mbind res_bind load_policy_object file_digest].
  destruct (policy_checks _ _ _ _ _) as [cs h]. cbn [fst].
  intros Hp. injection Hp as Hp. apply all_pass_failed. unfold failed_checks in Hp.
  cbn [app add] in Hp. rewrite filter_cons_False in Hp by done. by destruct (filter _ cs).
Qed.

(** *** Consequences of the single checks *)

Lemma eq_str_spec v s : eq_str v s = true ↔ v = PStr s.
Proof. apply py_eqb_str. Qed.

Lemma positive_int_spec v : positive_int v = true ↔ ∃ n, v = PInt n ∧ 0 < n.
Proof.
  destruct v; simpl; split; try done; try naive_solver.
  - intros Hn. eexists. split; [done|lia].
  - intros (n & [= ->] & Hn). lia.
Qed.

Lemma at_least_spec v b : at_least v b = true ↔ ∃ n, v = PInt n ∧ b ≤ n.
Proof.
  destruct v; simpl; split; try done; try naive_solver.
  - intros Hn. eexists. split; [done|lia].
  - intros (n & [= ->] & Hn). lia.
Qed.

Lemma at_most_spec v b : at_most v b = true ↔ ∃ n, v = PInt n ∧ n ≤ b.
Proof.
  destruct v; simpl; split; try done; try naive_solver.
  - intros Hn. eexists. split; [done|lia].
  - intros (n & [= ->] & Hn). lia.
Qed.

(** An off-host destination that another machine can be reached at. *)
Definition remote_destination (v : py) : Prop :=
  ∃ d u h, v = PStr d ∧ urlparse d = Some u ∧ u_scheme u = "ssh" ∧ url_hostname u = Some h
    ∧ lower h ≠ "localhost" ∧ ip_is_loopback h ≠ Some true ∧ url_has_password u = false
    ∧ u_path u ≠ "" ∧ u_path u ≠ "/".

Lemma off_host_remote b :
  all_pass (off_host_checks b) = true →
  ∃ o, get b "off_host" = PDict o ∧ remote_destination (get o "destination")
    ∧ get o "allow_local_filesystem_destination" = PBool false
    ∧ get o "require_remote_readback_sha256" = PBool true.
Proof.
  unfold off_host_checks.
  destruct (get b "off_host") as [| | | | | |o] eqn:Ho; try (intros ?; pass_split; discriminate).
  cbn [is_dict as_dict]. destruct (parse_destination (get_or o "destination" (PStr ""))) as [[u h] pw] eqn:Hd.
  intros Hp. pass_split.
  repeat match goal with
  | H : eq_str _ _ = true |- _ => apply eq_str_spec in H
  | H : is_true _ = true |- _ => apply is_true_spec in H
  | H : is_false _ = true |- _ => apply is_false_spec in H
  | H : (_ =? _)%string = true |- _ => apply String.eqb_eq in H
  | H : (_ =? _)%string = false |- _ => apply String.eqb_neq in H
  end.
  exists o. split_and!; try done. subst.
  unfold get, get_or in *. unfold parse_destination in Hd.
  destruct (dlookup "destination" o) as [v|]; [|by simplify_eq/=].
  destruct v as [| | | |d| |]; try (by simplify_eq/=).
  destruct (urlparse d) as [u'|] eqn:Hu; [|by simplify_eq/=].
  simplify_eq. destruct (url_hostname u) as [host|] eqn:Hh; [|done].
  simpl in *. exists d, u, host.
  match goal with H : is_loopback_host _ = false |- _ =>
    unfold is_loopback_host in H; apply orb_false_iff in H as [Hl Hi] end.
  split_and!; try done.
  - intros Hl'. by rewrite Hl' in Hl.
  - intros Hi'. by rewrite Hi' in Hi.
Qed.

(** A directive of the Redis profile that is set once. *)
Lemma directive_unique policy d h name value :
  all_pass (profile_checks policy d h) = true → (name, value) ∈ expected_single →
  directive_get d name = [[value]].
Proof.
  unfold profile_checks. intros Hp Hin. pass_split.
  match goal with H : all_pass (flat_map _ _) = true |- _ =>
    pose proof (all_pass_flat_map _ _ (name, value) H Hin) as Hd end.
  simpl in Hd. rewrite andb_true_r in Hd. by apply bool_decide_eq_true in Hd.
Qed.

Lemma profile_digest policy d h :
  all_pass (profile_checks policy d h) = true →
  nested (PDict policy) ["redis"; "profile_sha256"] = PStr h.
Proof.
  unfold profile_checks. intros Hp. pass_split.
  destruct (nested (PDict policy) ["redis"; "profile_sha256"]); try discriminate.
  match goal with H : SHA256_RE _ && _ = true |- _ => apply andb_true_iff in H as [_ Heq] end.
  by apply String.eqb_eq in Heq as ->.
Qed.

(** ** Properties *)

(** C10: what a passing summary says about a non-empty policy: the Redis
    profile that was read has the digest the policy names and sets each
    governed directive exactly once, the backup goes over SSH to a host that
    is not the loopback and without a password in the URI, encryption is
    recipient-only, at least two daily and two known-good copies are kept, and
    the Redis recovery point objective is between 1 and 60 seconds. *)
Theorem policy_pass_sound digest read resolve at_ path argument root policy :
  get (validate_policy digest read resolve at_ path argument root) "overall_pass" = PBool true →
  read path = FRegular (CJson (PDict policy)) → policy ≠ [] →
  (∃ profile d, resolved_profile policy argument root = Some profile
     ∧ load_redis_directives (read profile) profile = Ok d
     ∧ file_digest digest (read profile)
       = Ok (py_str (nested (PDict policy) ["redis"; "profile_sha256"]))
     ∧ ∀ name value, (name, value) ∈ expected_single → directive_get d name = [[value]])
  ∧ (∃ b o, get policy "backup" = PDict b ∧ get b "off_host" = PDict o
       ∧ remote_destination (get o "destination")
       ∧ get (as_dict (get b "encryption")) "tool" = PStr "age"
       ∧ get (as_dict (get b "encryption")) "private_key_present_on_source_host" = PBool false
       ∧ (∃ n, get (as_dict (get b "retention")) "daily_copies" = PInt n ∧ 2 ≤ n)
       ∧ (∃ n, get (as_dict (get b "retention")) "minimum_known_good_copies" = PInt n ∧ 2 ≤ n))
  ∧ (∃ n, get (as_dict (get policy "objectives")) "redis_rpo_seconds" = PInt n ∧ 1 ≤ n ≤ 60).
Proof.
  intros (policy' & Hr' & Hp)%validate_policy_passes Hr Hne. rewrite Hr in Hr'.
  injection Hr' as <-. specialize (Hp Hne). unfold policy_checks in Hp.
  destruct (resolved_profile policy argument root) as [profile|];
    [|cbn [fst] in Hp; pass_split; discriminate].
  destruct (validate_redis_profile digest policy (read profile) profile) as [redis h] eqn:Hred.
  cbn [fst] in Hp. pass_split. split; [|split].
  - exists profile. unfold validate_redis_profile in Hred.
    destruct (load_redis_directives (read profile) profile) as [d|e] eqn:Hl;
      [|injection Hred as <- <-; discriminate].
    destruct (file_digest digest (read profile)) as [fh|e] eqn:Hfd;
      [|injection Hred as <- <-; discriminate].
    injection Hred as <- <-. exists d. split_and!; try done.
    + by erewrite profile_digest.
    + intros name value. by eapply directive_unique.
  - unfold validate_backup_contract in *.
    destruct (get policy "backup") as [| | | | | |b]; try (pass_split; discriminate). pass_split.
    match goal with H : all_pass (off_host_checks b) = true |- _ =>
      destruct (off_host_remote b H) as (o & Ho & Hdest & _) end.
    exists b, o. unfold encryption_checks, retention_checks in *. cbv zeta in *. pass_split.
    repeat match goal with
    | H : eq_str _ _ = true |- _ => apply eq_str_spec in H
    | H : is_false _ = true |- _ => apply is_false_spec in H
    | H : at_least _ _ = true |- _ => apply at_least_spec in H
    end.
    by split_and!.
  - unfold validate_objectives_and_activation in *. cbv zeta in *. pass_split.
    destruct (is_dict (get policy "objectives")); [|discriminate].
    match goal with H : positive_int _ = true |- _ => apply positive_int_spec in H as (n & Hn & Hpos) end.
    match goal with H : at_most _ 60 = true |- _ => apply at_most_spec in H as (m & Hm & Hle) end.
    rewrite Hn in Hm. injection Hm as <-. exists n. split; [done|lia].
Qed.

(** The policy of [deploy/operations/backup-recovery-policy.example.json]. *)
Definition sample_policy : pydict :=
  [("schema_version", PInt 1);
   ("todo", PStr "TODO-0012");
   ("activation", PDict [("state", PStr "approved_candidate_pending_host_activation");
     ("production_compose_mount_enabled", PBool true); ("host_units_install_enabled", PBool
     true); ("live_policy_changed", PBool false); ("decision", PStr
     "docs/decisions/todo0012-redis-aof-activation.json"); ("benchmark_sha256", PStr
     "ece4b3ef0d91cb9fd15199a4c6d6d94fb34acb77975fecfa3fd1201bbc7eaebd");
     ("required_before_activation", PList [PStr "measured_aof_performance_evidence"; PStr
     "verified_encryption_recipient"; PStr "verified_distinct_remote_storage_identity"; PStr
     "governed_change_record"; PStr "rollback_plan"])]);
   ("objectives", PDict [("redis_rpo_seconds", PInt 60); ("rto_seconds", PDict [("gateway", PInt
     300); ("backend", PInt 300); ("redis_restore", PInt 600); ("host_reboot", PInt 600);
     ("release_rollback", PInt 600)])]);
   ("redis", PDict [("profile", PStr "env/redis/redis.production-validation.conf");
     ("profile_sha256", PStr
     "f71445c805814a862a257dc072c409b67f1c21930dba992d2173e70c3b047945");
     ("expected_data_directory", PStr "/data"); ("expected_maxmemory_policy", PStr
     "noeviction"); ("expected_rdb_save_rules", PList [PStr "300 100"; PStr "60 10000"]);
     ("performance_impact", PDict [("status", PStr "measured_and_accepted");
     ("required_before_activation", PBool false); ("baseline_mode", PStr "rdb_only");
     ("candidate_mode", PStr "aof_everysec_plus_rdb"); ("minimum_repetitions_per_mode", PInt 3);
     ("required_metrics", PList [PStr "leaderboard_operation_throughput"; PStr
     "leaderboard_operation_p50_latency"; PStr "leaderboard_operation_p99_latency"; PStr
     "redis_cpu"; PStr "redis_rss"; PStr "redis_disk_write_bytes"; PStr
     "redis_aof_delayed_fsync"])])]);
   ("backup", PDict [("schedule", PStr "daily"); ("consistent_redis_snapshot_required", PBool
     true); ("create_only_artifacts", PBool true); ("checksum_algorithm", PStr "sha256");
     ("plaintext_staging_root", PStr "/var/backups/boost-gateway/staging");
     ("plaintext_removed_after_encryption", PBool true); ("source_contracts", PList [PDict
     [("id", PStr "redis_snapshot"); ("kind", PStr "generated_redis_snapshot"); ("path", PStr
     "/var/backups/boost-gateway/staging/redis"); ("required", PBool true); ("contains_secrets",
     PBool false)]; PDict [("id", PStr "host_configuration"); ("kind", PStr "directory");
     ("path", PStr "/etc/boost-gateway"); ("required", PBool true); ("contains_secrets", PBool
     true)]; PDict [("id", PStr "deployment_state"); ("kind", PStr "directory"); ("path", PStr
     "/opt/boost-gateway/deployments"); ("required", PBool true); ("contains_secrets", PBool
     false)]; PDict [("id", PStr "release_state"); ("kind", PStr "directory"); ("path", PStr
     "/opt/boost-gateway/releases"); ("required", PBool true); ("contains_secrets", PBool
     false)]; PDict [("id", PStr "deployment_transactions"); ("kind", PStr "directory");
     ("path", PStr "/var/lib/boost-gateway/deployment-transactions"); ("required", PBool true);
     ("contains_secrets", PBool false)]; PDict [("id", PStr "operations_evidence"); ("kind",
     PStr "directory"); ("path", PStr "/var/lib/boost-gateway-evidence"); ("required", PBool
     true); ("contains_secrets", PBool false)]]); ("archive_contract", PDict [("format", PStr
     "tar"); ("symbolic_link_entries_allowed", PBool false); ("hard_link_entries_allowed", PBool
     false); ("follow_symbolic_links", PBool false); ("reject_broken_symbolic_links", PBool
     true); ("reject_symbolic_link_target_escape", PBool true); ("manifest_link_fields", PList
     [PStr "archive_path"; PStr "original_link_text"; PStr "target_source_id"; PStr
     "target_relative_path"; PStr "target_type"])]); ("encryption", PDict [("tool", PStr "age");
     ("recipient_file", PStr "/etc/boost-gateway/backup.age-recipient");
     ("private_key_present_on_source_host", PBool false); ("encrypt_before_transfer", PBool
     true); ("manifest_contains_secret_values", PBool false)]); ("off_host", PDict
     [("transport", PStr "ssh"); ("destination", PStr
     "ssh://backup-operator@backup-vault/srv/boost-gateway"); ("remote_identity_attestation",
     PStr "/etc/boost-gateway/backup-remote-host-id.sha256"); ("require_distinct_host_identity",
     PBool true); ("allow_local_filesystem_destination", PBool false);
     ("require_remote_readback_sha256", PBool true); ("receipt_required", PBool true)]);
     ("retention", PDict [("daily_copies", PInt 14); ("weekly_copies", PInt 8);
     ("minimum_known_good_copies", PInt 2); ("delete_only_after_verified_remote_copy", PBool
     true); ("deletion_record_required", PBool true)])]);
   ("restore", PDict [("stage_into_new_volume", PBool true); ("preserve_original_volume", PBool
     true); ("reject_active_volume_destination", PBool true); ("offline_validation", PList [PStr
     "redis-check-rdb"; PStr "redis-check-aof"]); ("required_business_checks", PList [PStr
     "redis_ping"; PStr "leaderboard_seed_exact"; PStr "leaderboard_submit"; PStr
     "leaderboard_top"; PStr "leaderboard_rank"; PStr "sdk_full_flow"]);
     ("minimum_independent_drills", PInt 2); ("distinct_backup_id_required", PBool true);
     ("distinct_restore_target_required", PBool true); ("link_reconstruction", PDict
     [("source_mapping_required", PBool true); ("trust_original_link_text", PBool false);
     ("target_source_id_required", PBool true); ("target_relative_path_required", PBool true)]);
     ("rollback_to_original_volume_on_failure", PBool true)]);
   ("evidence", PDict [("bind_source_host_identity", PBool true); ("bind_deployment_identity",
     PBool true); ("bind_redis_profile_sha256", PBool true); ("bind_backup_policy_sha256", PBool
     true); ("bind_backup_manifest_sha256", PBool true); ("bind_remote_receipt_sha256", PBool
     true); ("secret_material_recorded", PBool false)])].

(** The directives of [env/redis/redis.production-validation.conf], with single
    quotes for its double quotes. *)
Definition sample_profile : string :=
  str_concat newline
    ["maxmemory 256mb";
     "maxmemory-policy noeviction";
     "maxmemory-samples 10";
     "save 300 100";
     "save 60 10000";
     "dbfilename dump.rdb";
     "dir /data";
     "stop-writes-on-bgsave-error yes";
     "rdbcompression yes";
     "rdbchecksum yes";
     "appendonly yes";
     "appendfilename 'appendonly.aof'";
     "appenddirname 'appendonlydir'";
     "appendfsync everysec";
     "no-appendfsync-on-rewrite no";
     "aof-use-rdb-preamble yes";
     "aof-load-truncated no";
     "aof-timestamp-enabled yes";
     "auto-aof-rewrite-percentage 100";
     "auto-aof-rewrite-min-size 64mb";
     "bind 0.0.0.0";
     "protected-mode no";
     "port 6379";
     "tcp-backlog 1024";
     "timeout 0";
     "tcp-keepalive 300";
     "daemonize no";
     "loglevel notice";
     "logfile ''";
     "databases 1";
     "slowlog-log-slower-than 10000";
     "slowlog-max-len 128";
     "client-output-buffer-limit normal 0 0 0";
     "client-output-buffer-limit pubsub 32mb 8mb 60"].

Definition sample_profile_path : string :=
  "/repo/env/redis/redis.production-validation.conf".
Definition sample_read (path : string) : file :=
  if String.eqb path "policy.json" then FRegular (CJson (PDict sample_policy))
  else if String.eqb path sample_profile_path then FRegular (CText sample_profile)
  else FMissing.

(** A digest function with the value the policy names. *)
Definition sample_digest_of (_ : string) : string :=
  py_str (nested (PDict sample_policy) ["redis"; "profile_sha256"]).

Lemma policy_pass_sound_witness :
  (∃ profile d, resolved_profile sample_policy None "/repo" = Some profile
     ∧ load_redis_directives (sample_read profile) profile = Ok d
     ∧ file_digest sample_digest_of (sample_read profile)
       = Ok (py_str (nested (PDict sample_policy) ["redis"; "profile_sha256"]))
     ∧ ∀ name value, (name, value) ∈ expected_single → directive_get d name = [[value]])
  ∧ (∃ b o, get sample_policy "backup" = PDict b ∧ get b "off_host" = PDict o
       ∧ remote_destination (get o "destination")).
Proof.
  destruct (policy_pass_sound sample_digest_of sample_read (λ p, p) "now" "policy.json" None "/repo"
              sample_policy) as (H1 & (b & o & Hb & Ho & Hd & _) & _).
  - vm_compute. reflexivity.
  - vm_compute. reflexivity.
  - discriminate.
  - split; [exact H1|]. exists b, o. split; [exact Hb|]. split; [exact Ho|exact Hd].
Defined.

(** C11: the code accepts the empty policy.  A policy file that is the JSON
    object without members is not checked at all: the summary passes, declares
    the candidate contract valid, and lists one check, that the file could be
    read. *)
Theorem empty_policy_passes digest read resolve at_ path argument root :
  read path = FRegular (CJson (PDict [])) →
  let summary := validate_policy digest read resolve at_ path argument root in
  get summary "overall_pass" = PBool true
  ∧ get summary "candidate_contract_valid" = PBool true
  ∧ get summary "total_checks" = PInt 1.
Proof. intros Hr. unfold validate_policy. rewrite Hr. done. Qed.

Lemma empty_policy_passes_witness :
  let summary := validate_policy (λ _, "") (λ _, FRegular (CJson (PDict []))) (λ p, p)
                   "now" "policy.json" None "/repo" in
  get summary "overall_pass" = PBool true
  ∧ get summary "candidate_contract_valid" = PBool true
  ∧ get summary "total_checks" = PInt 1.
Proof.
  apply (empty_policy_passes (λ _, "") (λ _, FRegular (CJson (PDict []))) (λ p, p)
           "now" "policy.json" None "/repo"). reflexivity.
Defined.
