(* ===== verification/Vault.v ===== *)
(** * The off-host backup vault: state, I/O and documents

    Models the primitives of [src/scripts/lib/backup_recovery.py]: the vault
    directory and what is read from and written to it, the fragments an upload
    arrives in, and the validation of backup manifests.

    State.  The vault root holds an identity file, an optional lock file, the
    data directories [backups], [.incoming], [known-good], [deletions] and
    [.trash], and possibly other files.  The content of a file is its bytes; the
    files below an entry of a data directory are listed by relative path.

    Effects.  Every write, rename and removal is an event with a number at which
    the [VaultRuntime] lets it succeed, fail, or kills the process: a write that
    is interrupted leaves a prefix of its bytes, a removal any part of the tree.
    The clock, the random identifiers and the free space are read at event
    numbers.  Reads of existing files succeed; a link in the place of a data
    directory dangles. *)
From S2P Require Import Prelude PyFloat PyValue PyTime PyPath PyJson PyEffect LifecycleCore.
#[local] Open Scope Z_scope.

(** ** Constants *)

(** [[A-Za-z0-9][A-Za-z0-9._-]{0,127}\Z]. *)
Definition id_char (c : ascii) : bool :=
  is_alnum c || Ascii.eqb c "." || Ascii.eqb c "_" || Ascii.eqb c "-".
Definition BACKUP_ID_RE (s : string) : bool :=
  match s with
  | EmptyString => false
  | String a r => is_alnum a && (String.length r <=? 127)%nat && str_all id_char r
  end.
Definition MAX_HEADER_BYTES : Z := 64 * 1024.
Definition CHUNK_BYTES : Z := 1024 * 1024.
Definition DEFAULT_MAX_VAULT_BYTES : Z := 20000000000.
Definition DEFAULT_MINIMUM_FREE_BYTES : Z := 5000000000.
Definition REMOTE_RECEIPT_RESERVATION_BYTES : Z := 4096.
Definition KNOWN_GOOD_INCOMPLETE_MARKER : string :=
  "known-good attestation in progress" +:+ newline.

(** ** The vault *)

Inductive vnode :=
  | VFile (bytes : string)
  | VLink
  | VSpecial.
Abbreviation vfiles := (gmap string vnode).

Inductive ventry :=
  | VDir (fs : vfiles)
  | VNode (n : vnode).
Abbreviation ventries := (gmap string ventry).

(** What is found where a data directory belongs. *)
Inductive slot (A : Type) :=
  | SMissing
  | SDir (a : A)
  | SLink
  | SFile (bytes : string).
Arguments SMissing {A}.
Arguments SDir {A} a.
Arguments SLink {A}.
Arguments SFile {A} bytes.

Record vault := Vault {
  v_ev : nat;
  v_in : list string;
  v_identity : option vnode;
  v_lock : option vnode;
  v_other : vfiles;
  v_backups : slot ventries;
  v_incoming : slot ventries;
  v_known_good : slot ventries;
  v_deletions : slot ventries;
  v_trash : slot (gmap string ventries) }.

Definition bump (v : vault) : vault :=
  Vault (S (v_ev v)) (v_in v) (v_identity v) (v_lock v) (v_other v) (v_backups v)
    (v_incoming v) (v_known_good v) (v_deletions v) (v_trash v).
Definition set_in x (v : vault) : vault :=
  Vault (v_ev v) x (v_identity v) (v_lock v) (v_other v) (v_backups v)
    (v_incoming v) (v_known_good v) (v_deletions v) (v_trash v).
Definition set_backups x (v : vault) : vault :=
  Vault (v_ev v) (v_in v) (v_identity v) (v_lock v) (v_other v) x
    (v_incoming v) (v_known_good v) (v_deletions v) (v_trash v).
Definition set_incoming x (v : vault) : vault :=
  Vault (v_ev v) (v_in v) (v_identity v) (v_lock v) (v_other v) (v_backups v)
    x (v_known_good v) (v_deletions v) (v_trash v).
Definition set_known_good x (v : vault) : vault :=
  Vault (v_ev v) (v_in v) (v_identity v) (v_lock v) (v_other v) (v_backups v)
    (v_incoming v) x (v_deletions v) (v_trash v).
Definition set_deletions x (v : vault) : vault :=
  Vault (v_ev v) (v_in v) (v_identity v) (v_lock v) (v_other v) (v_backups v)
    (v_incoming v) (v_known_good v) x (v_trash v).
Definition set_trash x (v : vault) : vault :=
  Vault (v_ev v) (v_in v) (v_identity v) (v_lock v) (v_other v) (v_backups v)
    (v_incoming v) (v_known_good v) (v_deletions v) x.

(** The entries of a data directory, none when it is not a directory. *)
Definition entries {K} `{Countable K} {A} (s : slot (gmap K A)) : gmap K A :=
  match s with SDir m => m | _ => ∅ end.

(** ** The runtime *)

Inductive vfault :=
  | VOk
  | VErr (msg : string)
  | VDie (n : nat).

Record vmeta := VMeta { m_uid : Z; m_gid : Z; m_mode : Z; m_nlink : Z }.

Class VaultRuntime := {
  vsha256 : string → string;
  vnow_at : nat → string;
  vuuid_at : nat → string;
  vstamp_at : nat → string;
  vfree_at : nat → Z;
  vfault_at : nat → vfault;
  (** What an unfinished removal leaves of a directory. *)
  vkeeps_at : nat → string → bool;
  (** Ownership and modes below the vault root. *)
  vmeta_of : string → vmeta;
  v_euid : Z;
  v_egid : Z;
  (** The summaries outside the vault that an attestation is made from. *)
  vsummary_at : nat → string → option vnode;
  (** Whether such a summary was replaced between its examination and its use. *)
  vswapped_at : nat → bool }.

Abbreviation VM := (eff vault).

Definition raise_bk {A} (msg : string) : res A := Raise (Exn CBackupError msg).
Definition guard_bk (bad : bool) (msg : string) : res unit := guard_cls CBackupError bad msg.
Definition fail_bk {A} (msg : string) : VM A := e_raise CBackupError msg.
Definition require_bk (bad : bool) (msg : string) : VM unit := e_lift (guard_bk bad msg).

Section effects.
Context `{VaultRuntime}.

(** An atomic step: a crash happens before or after it. *)
Definition v_step (f : vault → vault) : VM unit := λ v,
  match vfault_at (v_ev v) with
  | VOk => (ORet (), f (bump v))
  | VErr msg => (ORaise (Exn COSError msg), bump v)
  | VDie O => (OCrash, bump v)
  | VDie (S _) => (OCrash, f (bump v))
  end.

(** Writing a new file; on an exception the code unlinks it again. *)
Definition v_write (put : string → vault → vault) (data : string) : VM unit := λ v,
  match vfault_at (v_ev v) with
  | VOk => (ORet (), put data (bump v))
  | VErr msg => (ORaise (Exn COSError msg), bump v)
  | VDie n => (OCrash, put (str_take n data) (bump v))
  end.

(** [shutil.rmtree]: [some keeps v] is what a failing removal leaves. *)
Definition v_rmtree (all : vault → vault) (some : (string → bool) → vault → vault) : VM unit := λ v,
  match vfault_at (v_ev v) with
  | VOk => (ORet (), all (bump v))
  | VErr msg => (ORaise (Exn COSError msg), some (vkeeps_at (v_ev v)) (bump v))
  | VDie _ => (OCrash, some (vkeeps_at (v_ev v)) (bump v))
  end.
Definition v_rmtree_quiet (all : vault → vault) (some : (string → bool) → vault → vault)
    : VM unit := e_try (v_rmtree all some) (λ _, mret ()).

Definition v_read_at {A} (f : nat → A) : VM A := λ v, (ORet (f (v_ev v)), bump v).

(** [given or read()]. *)
Definition given_or (o : option string) (read : VM string) : VM string :=
  match o with
  | Some t => if String.eqb t "" then read else mret t
  | None => read
  end.

End effects.

Definition keep_files (keeps : string → bool) (fs : vfiles) : vfiles :=
  filter (λ kv, keeps kv.1 = true) fs.

(** ** Logical size *)

Definition oadd (a b : option Z) : option Z := x ← a; y ← b; Some (x + y).
Definition total {A} (size : A → option Z) (m : gmap string A) : option Z :=
  map_fold (λ _ x acc, oadd (size x) acc) (Some 0) m.

Definition node_bytes (n : vnode) : option Z :=
  match n with VFile b => Some (str_len b) | _ => None end.
Definition files_bytes (fs : vfiles) : option Z := total node_bytes fs.
Definition entry_bytes (e : ventry) : option Z :=
  match e with VDir fs => files_bytes fs | VNode n => node_bytes n end.
Definition entries_bytes (m : ventries) : option Z := total entry_bytes m.
Definition slot_bytes {A} (size : A → option Z) (s : slot A) : option Z :=
  match s with
  | SMissing => Some 0
  | SDir a => size a
  | SLink => None
  | SFile b => Some (str_len b)
  end.
Definition option_bytes (o : option vnode) : option Z :=
  match o with Some n => node_bytes n | None => Some 0 end.

(** The size of all files of the vault, [None] when a link or a special file is
    among them. *)
Definition vault_bytes (v : vault) : option Z :=
  foldr oadd (Some 0)
    [option_bytes (v_identity v); option_bytes (v_lock v); files_bytes (v_other v);
     slot_bytes entries_bytes (v_backups v); slot_bytes entries_bytes (v_incoming v);
     slot_bytes entries_bytes (v_known_good v); slot_bytes entries_bytes (v_deletions v);
     slot_bytes (total entries_bytes) (v_trash v)].

(** [logical_regular_file_bytes] on the vault root and on one directory. *)
Definition unsafe_entry {A} (o : option A) : res A :=
  match o with Some z => Ok z | None => raise_bk "vault contains an unsafe file entry" end.
Definition logical_regular_file_bytes (v : vault) : res Z := unsafe_entry (vault_bytes v).

(** ** Paths and documents *)

Definition not_found {A} : res A :=
  Raise (Exn CFileNotFoundError "No such file or directory").

(** [require_regular] on a directory entry; the result is the file's bytes. *)
Definition require_regular (n : option vnode) (label : string) : res string :=
  match n with
  | Some (VFile b) => Ok b
  | Some _ => raise_bk (label +:+ " must be a regular non-symlink file")
  | None => not_found
  end.

(** [require_directory] on a data directory and on an entry of one. *)
Definition require_directory {A} (s : slot A) (label : string) : res A :=
  match s with
  | SDir a => Ok a
  | SMissing => not_found
  | _ => raise_bk (label +:+ " must be a directory, not a symlink")
  end.
Definition require_entry (m : ventries) (i label : string) : res vfiles :=
  match m !! i with
  | Some (VDir fs) => Ok fs
  | Some _ => raise_bk (label +:+ " must be a directory, not a symlink")
  | None => not_found
  end.

(** [load_json_object]: the text after "cannot read" is left out. *)
Definition load_object (n : option vnode) (label : string) : res pydict :=
  match n with
  | Some (VFile b) =>
      match json_loads b with
      | Some (PDict d) => Ok d
      | Some _ => raise_bk (label +:+ " must be a JSON object")
      | None => raise_bk ("cannot read " +:+ label)
      end
  | _ => raise_bk (label +:+ " must be a regular non-symlink file")
  end.

Definition canonical_json (v : py) : string := json_dumps v +:+ newline.

Definition validate_backup_id (s : string) : res string :=
  guard_bk (negb (BACKUP_ID_RE s) || starts_with "." s) "backup ID is invalid";;
  Ok s.

Definition validate_sha256 (v : py) (label : string) : res string :=
  match v with
  | PStr s => if SHA256_RE s then Ok s else raise_bk (label +:+ " is not a SHA-256 digest")
  | _ => raise_bk (label +:+ " is not a SHA-256 digest")
  end.

Definition valid_utc_timestamp (v : py) : bool :=
  match v with
  | PStr s =>
      ends_with "Z" s
      && match fromisoformat (replace_zulu s) with
         | Some t => match ts_offset t with Some off => off =? 0 | None => false end
         | None => false
         end
  | _ => false
  end.

(** [vault_host_id]. *)
Definition vault_host_id `{VaultRuntime} (identity : option vnode) : res string :=
  b ← require_regular identity "vault identity file";
  guard_bk ((str_len b <? 16) || (4096 <? str_len b)) "vault identity file size is invalid";;
  Ok (vsha256 b).

(** ** The upload stream *)

(** The stream hands out its fragments: a read returns at most one of them, and
    nothing only at the end. *)
Fixpoint read_block (n : Z) (bs : list string) : string * list string :=
  match bs with
  | [] => ("", [])
  | EmptyString :: r => read_block n r
  | b :: r =>
      if str_len b <=? n then (b, r)
      else (str_take (Z.to_nat n) b, str_skip (Z.to_nat n) b :: r)
  end.

(** [read_exact] and the loop of [copy_exact]: [None] when the stream ends
    early.  Every round takes at least one byte off the stream, so its length
    is fuel enough. *)
Fixpoint read_go (fuel : nat) (remaining : Z) (acc : string) (bs : list string)
    : option string * list string :=
  if remaining =? 0 then (Some acc, bs)
  else match fuel with
       | O => (None, bs)
       | S fuel =>
           let '(block, bs) := read_block (Z.min remaining CHUNK_BYTES) bs in
           if String.eqb block "" then (None, bs)
           else read_go fuel (remaining - str_len block) (acc +:+ block) bs
       end.

Definition stream_text (bs : list string) : string := foldr String.append "" bs.

Definition read_exact (size : Z) (label : string) : VM string := λ v,
  match read_go (S (String.length (stream_text (v_in v)))) size "" (v_in v) with
  | (Some s, bs) => (ORet s, set_in bs v)
  | (None, bs) => (ORaise (Exn CBackupError ("truncated " +:+ label)), set_in bs v)
  end.
