(* ===== verification/VaultStore.v ===== *)
(** * The off-host backup vault: uploads and receipts

    Models the transfer half of [src/scripts/lib/backup_recovery.py]: the frame
    the source host sends ([write_upload_frame]), its reception
    ([parse_upload_header], [remote_store]), the validation of the backup
    manifest, the receipt and its check on the source host
    ([verify_remote_receipt]), and the inventory of verified backups
    ([verified_vault_records]). *)
From S2P Require Import Prelude PyFloat PyValue PyTime PyPath PyJson PyEffect LifecycleCore Vault.
#[local] Open Scope Z_scope.

(** ** Manifests *)

Definition backslash : ascii := "\"%char.

Definition safe_manifest_path (v : py) (prefix : option string) : bool :=
  match v with
  | PStr s =>
      negb (String.eqb s "") && negb (str_in backslash s)
      && negb (is_absolute (py_path s)) && String.eqb s (path_str (py_path s))
      && negb (existsb (λ c, mem_str c [""; "."; ".."]) (path_elements (py_path s)))
      && match prefix with None => true | Some p => starts_with (p +:+ "/") s end
  | _ => false
  end.

(** The sources by their identifiers, with their paths in the archive. *)
Fixpoint source_inventory (seen : list (string * string)) (l : list py)
    : res (list (string * string)) :=
  match l with
  | [] => Ok seen
  | PDict source :: r =>
      match get source "id", get source "archive_path" with
      | PStr i, PStr p =>
          guard_bk (mem_str i (map fst seen) || negb (safe_manifest_path (PStr p) None))
            "backup manifest source inventory is invalid";;
          source_inventory (seen ++ [(i, p)]) r
      | _, _ => raise_bk "backup manifest source inventory is invalid"
      end
  | _ => raise_bk "backup manifest source inventory is invalid"
  end.

Definition expected_archive_path (i : string) : string :=
  if String.eqb i "redis_snapshot" then "redis/dump.rdb" else "sources/" +:+ i.

Definition link_keys : list string :=
  ["archive_path"; "original_link_text"; "target_source_id"; "target_relative_path"; "target_type"].

(** One recorded symbolic link; the result is its path in the archive. *)
Definition check_link (ids seen : list string) (v : py) : res string :=
  match v with
  | PDict link =>
      guard_bk (negb (same_set (dkeys link) link_keys))
        "backup manifest symbolic link metadata is invalid";;
      let archive_path := get link "archive_path" in
      let text := get link "original_link_text" in
      let target := get link "target_relative_path" in
      let parts := match archive_path with PStr s => path_elements (py_path s) | _ => [] end in
      guard_bk
        (negb (safe_manifest_path archive_path (Some "sources"))
         || (length parts <? 3)%nat
         || match parts with
            | _ :: source :: _ => negb (mem_str source ids) || String.eqb source "redis_snapshot"
            | _ => true
            end
         || str_among archive_path seen
         || match text with
            | PStr t => String.eqb t "" || negb (str_all (λ a, (32 <=? N_of_ascii a)%N) t)
            | _ => true
            end)
        "backup manifest symbolic link metadata is invalid";;
      known ← in_str_set (get link "target_source_id") ids;
      guard_bk
        (negb known
         || (negb (py_eqb target (PStr ".")) && negb (safe_manifest_path target None)))
        "backup manifest symbolic link metadata is invalid";;
      typed ← in_str_set (get link "target_type") ["file"; "directory"];
      guard_bk (negb typed) "backup manifest symbolic link metadata is invalid";;
      Ok (py_str archive_path)
  | _ => raise_bk "backup manifest symbolic link metadata is invalid"
  end.

Fixpoint check_links (ids seen : list string) (l : list py) : res unit :=
  match l with
  | [] => Ok ()
  | v :: r => p ← check_link ids seen v; check_links ids (seen ++ [p]) r
  end.

Definition validate_manifest_link_contract (manifest : pydict) : res unit :=
  guard_bk (negb (is_list (get manifest "sources"))) "backup manifest source inventory is invalid";;
  sources ← source_inventory [] (as_list (get manifest "sources"));
  guard_bk (negb (forallb (λ ip, String.eqb ip.2 (expected_archive_path ip.1)) sources))
    "backup manifest source inventory is invalid";;
  let contract := get manifest "archive_contract" in
  let links := get manifest "source_links" in
  let c := as_dict contract in
  guard_bk
    (negb (is_dict contract) || ne c "format" (PStr "link_free_tar_v1")
     || ne c "symbolic_link_entries" (PInt 0) || ne c "hard_link_entries" (PInt 0)
     || negb (is_list links)
     || ne c "symbolic_links_recorded" (PInt (Z.of_nat (length (as_list links)))))
    "backup manifest link-free archive contract is invalid";;
  check_links (map fst sources) [] (as_list links).

(** [set(classes) <= {"daily", "weekly"}], with its [TypeError]. *)
Fixpoint class_names (l : list py) : res (list string * bool) :=
  match l with
  | [] => Ok ([], true)
  | v :: r =>
      known ← in_str_set v ["daily"; "weekly"];
      '(names, ok) ← class_names r;
      Ok (py_str v :: names, known && ok)
  end.

Definition check_classes (manifest : pydict) : res (list string) :=
  match get manifest "retention_classes" with
  | PList ((_ :: _) as l) =>
      '(names, ok) ← class_names l;
      guard_bk (negb ok) "backup manifest retention classes are invalid";;
      Ok names
  | _ => raise_bk "backup manifest retention classes are invalid"
  end.

Definition check_created_at (v : py) : res unit :=
  match fromisoformat (replace_zulu (py_str v)) with
  | None => raise_bk "backup manifest created_at is invalid"
  | Some _ =>
      guard_bk (negb (valid_utc_timestamp v))
        "backup manifest created_at must be an RFC3339 UTC timestamp"
  end.

Definition validate_manifest_binding (n : option vnode) (header : pydict) : res pydict :=
  manifest ← load_object n "backup manifest";
  let archive := get manifest "archive" in
  guard_bk
    (ne manifest "schema_version" (PInt 2) || ne manifest "backup_id" (get header "backup_id")
     || negb (is_dict archive)
     || ne (as_dict archive) "sha256" (get header "archive_sha256")
     || ne (as_dict archive) "size_bytes" (get header "archive_size")
     || not_false manifest "secret_material_recorded")
    "backup manifest does not bind the uploaded archive";;
  validate_sha256 (get manifest "backup_policy_sha256") "backup policy digest";;
  validate_manifest_link_contract manifest;;
  check_classes manifest;;
  check_created_at (get manifest "created_at");;
  Ok manifest.

(** ** Receipts *)

Section store.
Context `{VaultRuntime}.

(** The digests and sizes that bind an archive and its manifest. *)
Definition binding_fields (backup_id : py) (archive manifest : string) : pydict :=
  [("backup_id", backup_id); ("archive_sha256", PStr (vsha256 archive));
   ("archive_size", PInt (str_len archive)); ("manifest_sha256", PStr (vsha256 manifest));
   ("manifest_size", PInt (str_len manifest))].

(** The fields every stored receipt has. *)
Definition receipt_fields (backup_id : py) (archive manifest : string) (identity : string) : pydict :=
  ("schema_version", PInt 1) :: binding_fields backup_id archive manifest
  ++ [("vault_host_id_sha256", PStr identity); ("remote_readback_sha256", PBool true);
      ("create_only", PBool true); ("secret_material_recorded", PBool false)].

(** ** The frame of an upload *)

Definition write_upload_frame (backup_id archive manifest : string) : res string :=
  i ← validate_backup_id backup_id;
  let header := canonical_json (PDict
    [("schema_version", PInt 1); ("backup_id", PStr i);
     ("archive_size", PInt (str_len archive)); ("archive_sha256", PStr (vsha256 archive));
     ("manifest_size", PInt (str_len manifest)); ("manifest_sha256", PStr (vsha256 manifest))]) in
  Ok (be_bytes 8 (N.of_nat (String.length header)) +:+ header +:+ archive +:+ manifest).

Definition check_header (text : string) : res pydict :=
  match json_loads text with
  | None => raise_bk "upload header is invalid"
  | Some (PDict d) =>
      guard_bk (ne d "schema_version" (PInt 1)) "upload header schema is invalid";;
      validate_backup_id (py_str (get_or d "backup_id" (PStr "")));;
      validate_sha256 (get d "archive_sha256") "archive digest";;
      validate_sha256 (get d "manifest_sha256") "manifest digest";;
      guard_bk (negb (positive_count (get d "archive_size"))) "archive_size is invalid";;
      guard_bk (negb (positive_count (get d "manifest_size"))) "manifest_size is invalid";;
      Ok d
  | Some _ => raise_bk "upload header schema is invalid"
  end.

Definition parse_upload_header : VM pydict :=
  prefix ← read_exact 8 "upload header length";
  let length := Z.of_N (be_value 0 prefix) in
  require_bk ((length <=? 0) || (MAX_HEADER_BYTES <? length)) "upload header length is invalid";;
  text ← read_exact length "upload header";
  e_lift (check_header text).

(** ** [remote_store] *)

Definition as_size (v : py) : Z := match v with PInt z => z | _ => 0 end.

(** [directory / value]. *)
Definition path_component (v : py) : res string :=
  match v with
  | PStr s => Ok s
  | _ => Raise (Exn CTypeError "unsupported operand type(s) for /")
  end.

(** [ensure_directory] on a data directory. *)
Definition ensure_slot {A} (read : vault → slot (gmap string A))
    (write : slot (gmap string A) → vault → vault) (label : string) : VM unit :=
  s ← e_gets read;
  match s with
  | SDir _ => mret ()
  | SMissing => v_step (write (SDir ∅))
  | SLink => fail_bk (label +:+ " must be a non-symlink directory")
  | SFile _ => e_raise CFileExistsError "File exists"
  end.

(** A file in an entry of a data directory. *)
Definition entry_file (s : slot ventries) (i name : string) : option vnode :=
  match entries s !! i with Some (VDir fs) => fs !! name | _ => None end.
Definition put_file (i name data : string) (s : slot ventries) : slot ventries :=
  match s with
  | SDir m =>
      match m !! i with
      | Some (VDir fs) => SDir (<[i := VDir (<[name := VFile data]> fs)]> m)
      | _ => s
      end
  | _ => s
  end.
Definition put_incoming (i name data : string) (v : vault) : vault :=
  set_incoming (put_file i name data (v_incoming v)) v.

(** What [shutil.rmtree] leaves of the entry [i]. *)
Definition drop_entry (i : string) (s : slot ventries) : slot ventries :=
  match s with SDir m => SDir (delete i m) | _ => s end.
Definition thin_entry (i : string) (keeps : string → bool) (s : slot ventries) : slot ventries :=
  match s with
  | SDir m =>
      match m !! i with
      | Some (VDir fs) => SDir (<[i := VDir (keep_files keeps fs)]> m)
      | _ => s
      end
  | _ => s
  end.
Definition rmtree_incoming (i : string) : VM unit :=
  v_rmtree_quiet (λ v, set_incoming (drop_entry i (v_incoming v)) v)
    (λ keeps v, set_incoming (thin_entry i keeps (v_incoming v)) v).

(** The reservation before, and the observation after, a bounded upload. *)
Definition reserve_capacity (candidate : Z) : VM unit :=
  current ← e_read logical_regular_file_bytes;
  free ← v_read_at vfree_at;
  require_bk ((current <? 0) || (free <? 0)) "vault capacity observation is invalid";;
  require_bk (DEFAULT_MAX_VAULT_BYTES <? current + candidate)
    "vault capacity reservation exceeds the configured limit";;
  require_bk (free - candidate <? DEFAULT_MINIMUM_FREE_BYTES)
    "vault capacity reservation would breach free-space floor".
Definition check_capacity : VM unit :=
  completed ← e_read logical_regular_file_bytes;
  free ← v_read_at vfree_at;
  require_bk (DEFAULT_MAX_VAULT_BYTES <? completed)
    "stored candidate exceeds the configured vault limit";;
  require_bk (free <? DEFAULT_MINIMUM_FREE_BYTES)
    "stored candidate breaches the free-space floor".

(** [copy_exact] into the incoming directory [tmp]. *)
Definition copy_incoming (tmp name : string) (size : Z) (label : string) : VM unit :=
  data ← read_exact size label;
  v_write (put_incoming tmp name) data.

Definition incoming_sha256 (tmp name : string) : VM string :=
  e_read (λ v, match entry_file (v_incoming v) tmp name with
               | Some (VFile b) => Ok (vsha256 b)
               | _ => not_found
               end).

Definition move_to_backups (tmp i : string) (v : vault) : vault :=
  match entries (v_incoming v) !! tmp with
  | Some e =>
      set_backups (SDir (<[i := e]> (entries (v_backups v))))
        (set_incoming (drop_entry tmp (v_incoming v)) v)
  | None => v
  end.

(** The receipt, and the move of the checked directory into the backups. *)
Definition publish (header : pydict) (i tmp : string) (recorded_at : option string)
    (bounded : bool) : VM pydict :=
  stored_at ← given_or recorded_at (v_read_at vnow_at);
  identity ← e_read (λ v, vault_host_id (v_identity v));
  let receipt := [("schema_version", PInt 1); ("backup_id", PStr i); ("stored_at", PStr stored_at);
     ("archive_sha256", get header "archive_sha256"); ("archive_size", get header "archive_size");
     ("manifest_sha256", get header "manifest_sha256");
     ("manifest_size", get header "manifest_size");
     ("vault_host_id_sha256", PStr identity); ("remote_readback_sha256", PBool true);
     ("create_only", PBool true); ("secret_material_recorded", PBool false)] in
  let receipt_bytes := canonical_json (PDict receipt) in
  require_bk (REMOTE_RECEIPT_RESERVATION_BYTES <? str_len receipt_bytes)
    "remote receipt exceeds its fixed capacity reservation";;
  v_write (put_incoming tmp "receipt.json") receipt_bytes;;
  (if bounded then check_capacity else mret ());;
  v_step (move_to_backups tmp i);;
  mret receipt.

(** The body of the [try]: fill the incoming directory, check it, move it. *)
Definition receive (header : pydict) (i tmp : string) (recorded_at : option string)
    (bounded : bool) : VM pydict :=
  copy_incoming tmp "payload.tar.age" (as_size (get header "archive_size")) "encrypted archive";;
  copy_incoming tmp "manifest.json" (as_size (get header "manifest_size")) "backup manifest";;
  rest ← e_gets (λ v, (read_block 1 (v_in v)).1);
  require_bk (negb (String.eqb rest "")) "upload contains trailing bytes";;
  archive_sha ← incoming_sha256 tmp "payload.tar.age";
  require_bk (negb (py_eqb (PStr archive_sha) (get header "archive_sha256")))
    "remote archive readback digest differs";;
  manifest_sha ← incoming_sha256 tmp "manifest.json";
  require_bk (negb (py_eqb (PStr manifest_sha) (get header "manifest_sha256")))
    "remote manifest readback digest differs";;
  e_read (λ v, validate_manifest_binding (entry_file (v_incoming v) tmp "manifest.json") header);;
  publish header i tmp recorded_at bounded.

Definition remote_store_locked (recorded_at : option string) (bounded : bool) : VM pydict :=
  header ← parse_upload_header;
  let candidate := as_size (get header "archive_size") + as_size (get header "manifest_size")
                   + REMOTE_RECEIPT_RESERVATION_BYTES in
  (if bounded then reserve_capacity candidate else mret ());;
  ensure_slot v_backups set_backups "vault backups root";;
  i ← e_lift (path_component (get header "backup_id"));
  ensure_slot v_incoming set_incoming "vault incoming root";;
  present ← e_gets (λ v, match entries (v_backups v) !! i with Some _ => true | None => false end);
  require_bk present ("create-only remote backup already exists: " +:+ i);;
  u ← v_read_at vuuid_at;
  let tmp := i +:+ "." +:+ u in
  taken ← e_gets (λ v, match entries (v_incoming v) !! tmp with Some _ => true | None => false end);
  (if taken : bool then e_raise CFileExistsError "File exists" else mret ());;
  v_step (λ v, set_incoming (SDir (<[tmp := VDir ∅]> (entries (v_incoming v)))) v);;
  e_try (receive header i tmp recorded_at bounded)
    (λ exc, rmtree_incoming tmp;; e_lift (Raise exc)).

(** *** The secure layout and the lock *)

Definition bad_meta (name : string) (uid mode : Z) : bool :=
  let m := vmeta_of name in
  negb (m_uid m =? uid) || negb (m_gid m =? v_egid) || negb (m_mode m =? mode).

Definition check_data_directory {A} (name : string) (s : slot A) : res unit :=
  require_directory s ("vault " +:+ name +:+ " directory");;
  guard_bk (bad_meta name v_euid 448) "vault data directories must be service-owned mode 0700".

(** [require_secure_vault_layout]. *)
Definition require_secure_vault_layout (trusted : Z) (v : vault) : res unit :=
  identity ← require_regular (v_identity v) "vault identity";
  require_regular (v_lock v) "vault lock";;
  guard_bk (bad_meta "" trusted 488)
    "vault root must be trusted-owner/group-owned with mode 0750";;
  guard_bk (bad_meta ".vault-identity" trusted 416 || negb (str_len identity =? 32))
    "vault identity must be a 32-byte trusted-owner/group-owned mode 0640 file";;
  guard_bk (bad_meta ".vault.lock" trusted 432 || negb (m_nlink (vmeta_of ".vault.lock") =? 1))
    "vault lock must be trusted-owner/group-owned mode 0660";;
  check_data_directory "backups" (v_backups v);;
  check_data_directory ".incoming" (v_incoming v);;
  check_data_directory "known-good" (v_known_good v);;
  check_data_directory "deletions" (v_deletions v);;
  check_data_directory ".trash" (v_trash v).

(** [vault_local_lock]: while it is held no other command runs. *)
Definition vault_local_lock {A} (trusted : Z) (m : VM A) : VM A :=
  e_read (λ v, require_regular (v_lock v) "vault lock");;
  require_bk (bad_meta ".vault.lock" trusted 432 || negb (m_nlink (vmeta_of ".vault.lock") =? 1))
    "vault lock must be trusted-owner/group-owned mode 0660";;
  v_step (λ v, v);;
  m.

Definition remote_store (trusted : Z) (recorded_at : option string) : VM pydict :=
  lock ← e_gets v_lock;
  match lock with
  | None => remote_store_locked recorded_at false
  | Some _ =>
      e_read (require_secure_vault_layout trusted);;
      vault_local_lock trusted (remote_store_locked recorded_at true)
  end.

(** *** Receipts on the source host *)

Fixpoint first_difference (d : pydict) (expected : pydict) : option string :=
  match expected with
  | [] => None
  | (k, v) :: r => if ne d k v then Some k else first_difference d r
  end.

Definition verify_remote_receipt (receipt : pydict) (backup_id archive manifest : string)
    (source_host_id expected_remote_host_id : py) : res unit :=
  i ← validate_backup_id backup_id;
  remote ← validate_sha256 expected_remote_host_id "expected remote host ID";
  source ← validate_sha256 source_host_id "source host ID";
  guard_bk (String.eqb source remote) "remote vault identity is not distinct from source host";;
  match first_difference receipt (receipt_fields (PStr i) archive manifest remote) with
  | Some field => raise_bk ("remote receipt field differs: " +:+ field)
  | None => Ok ()
  end.

(** [_remote_receipt_unlocked] and [remote_receipt]. *)
Definition remote_receipt_unlocked (backup_id : string) (v : vault) : res pydict :=
  backups ← require_directory (v_backups v) "vault backups root";
  i ← validate_backup_id backup_id;
  load_object (entry_file (SDir backups) i "receipt.json") "remote receipt".
Definition remote_receipt (trusted : Z) (backup_id : string) : VM pydict :=
  lock ← e_gets v_lock;
  match lock with
  | None => e_read (remote_receipt_unlocked backup_id)
  | Some _ =>
      e_read (require_secure_vault_layout trusted);;
      vault_local_lock trusted (e_read (remote_receipt_unlocked backup_id))
  end.

(** ** The inventory of verified backups *)

Record vrecord := VRecord {
  r_id : string;
  r_created : py;
  r_classes : list string;
  r_receipt : string;
  r_bytes : Z }.

(** One backup directory; [Ok None] where the loop continues. *)
Definition inspect_backup (expected_identity name : string) (fs : vfiles) : res (option vrecord) :=
  manifest ← load_object (fs !! "manifest.json") "backup manifest";
  receipt ← load_object (fs !! "receipt.json") "remote receipt";
  archive ← require_regular (fs !! "payload.tar.age") "encrypted archive";
  manifest_text ← require_regular (fs !! "manifest.json") "backup manifest";
  validate_manifest_binding (fs !! "manifest.json")
    (binding_fields (PStr name) archive manifest_text);;
  if differs receipt (receipt_fields (PStr name) archive manifest_text expected_identity)
  then Ok None
  else if negb (valid_utc_timestamp (get receipt "stored_at")) then Ok None
  else
    classes ← check_classes manifest;
    receipt_text ← require_regular (fs !! "receipt.json") "remote receipt";
    size ← unsafe_entry (files_bytes fs);
    Ok (Some (VRecord name (get manifest "created_at") classes (vsha256 receipt_text) size)).

(** [except (BackupError, OSError, KeyError, TypeError): continue]. *)
Definition skippable (e : exn) : bool :=
  exn_isa CBackupError e || exn_isa COSError e || exn_isa CKeyError e || exn_isa CTypeError e.

Fixpoint inspect_all (expected_identity : string) (m : ventries) (names : list string)
    : res (list vrecord) :=
  match names with
  | [] => Ok []
  | name :: r =>
      found ← match m !! name with
              | Some (VDir fs) =>
                  if BACKUP_ID_RE name then
                    match inspect_backup expected_identity name fs with
                    | Raise e => if skippable e then Ok None else Raise e
                    | x => x
                    end
                  else Ok None
              | _ => Ok None
              end;
      rest ← inspect_all expected_identity m r;
      Ok (match found with Some x => x :: rest | None => rest end)
  end.

(** The identity is the given one, or that of the vault. *)
Definition expected_identity_of (expected : option string) (v : vault) : res string :=
  i ← match expected with Some i => Ok i | None => vault_host_id (v_identity v) end;
  validate_sha256 (PStr i) "expected vault identity".

Definition verified_vault_records (expected : option string) (v : vault) : res (list vrecord) :=
  identity ← expected_identity_of expected v;
  backups ← require_directory (v_backups v) "vault backups root";
  inspect_all identity backups (sort_str (map fst (map_to_list backups))).

End store.
