(* ===== verification/VaultKnownGood.v ===== *)
(** * The off-host backup vault: known-good attestations

    Models the attestation half of [src/scripts/lib/backup_recovery.py]: the
    checks that tie a stored backup to the summaries of its validation, its
    isolated restore and the business checks ([validate_known_good_sources]),
    the creation of an attestation from such summaries
    ([create_known_good_attestation]) and its verification
    ([load_known_good_attestation]).

    The summaries lie outside the vault and are read at event numbers; one run
    of [validate_known_good_sources] sees each of them once. *)
From S2P Require Import Prelude PyFloat PyValue PyTime PyPath PyJson PyEffect LifecycleCore.
From S2P Require Import Vault VaultStore.
#[local] Open Scope Z_scope.

Section known_good.
Context `{VaultRuntime}.

(** The three summaries of an attestation. *)
Record summaries := Summaries {
  s_validation : option vnode;
  s_restore : option vnode;
  s_business : option vnode }.

(** ** The checks *)

Definition num_gtb (v : py) (x : num) : bool :=
  match num_of v with Some y => num_ltb x y | None => false end.
Definition exceeds (v w : py) : bool :=
  match num_of w with Some x => num_gtb v x | None => false end.

Definition require_passed_rto (summary : pydict) (label : string) (maximum : pfloat) : res unit :=
  let elapsed := get summary "elapsed_seconds" in
  let budget := get summary "rto_budget_seconds" in
  guard_bk
    (not_true summary "overall_pass" || ne summary "status" (PStr "passed")
     || not_true summary "rto_pass" || negb (positive_number elapsed)
     || negb (positive_number budget)
     || match num_of budget with Some b => num_leb b (NInt 0) | None => false end
     || num_gtb budget (NFloat maximum) || exceeds elapsed budget)
    (label +:+ " is not an eligible RTO pass").

Definition evidence_record (bytes relative_path : string) : py :=
  PDict [("path", PStr relative_path); ("sha256", PStr (vsha256 bytes));
         ("size_bytes", PInt (str_len bytes))].

(** The manifest: it is eligible, and its host identities agree. *)
Definition eligible_manifest (manifest : pydict) (vault_host : string) : res string :=
  let source_host := get manifest "source_host" in
  let deployment := get manifest "deployment" in
  let deployment_host := get (as_dict deployment) "host" in
  guard_bk
    (not_false manifest "formal_todo0012_claim" || not_false manifest "secret_material_recorded"
     || not_true manifest "consistent_redis_snapshot"
     || not_true manifest "encrypted_before_transfer"
     || negb (is_dict source_host) || negb (is_dict deployment)
     || negb (is_dict deployment_host) || negb (is_dict (get manifest "archive")))
    "backup manifest is not eligible for known-good attestation";;
  source ← validate_sha256 (get (as_dict source_host) "host_id_sha256") "source host ID";
  guard_bk (ne (as_dict deployment_host) "host_id_sha256" (PStr source))
    "deployment and source host identities differ";;
  guard_bk (String.eqb source vault_host) "vault and source host identities are not distinct";;
  Ok source.

Definition required_validation_checks : list string :=
  ["metadata_binding"; "distinct_host_identity"; "age_decryption"; "safe_archive_members";
   "redis_manifest_binding"; "redis_check_rdb"].

(** The vault validation; the result is the digest of the Redis snapshot. *)
Definition eligible_validation (manifest validation : pydict) (identifier : string)
    (archive manifest_text receipt_text vault_host : string) : res string :=
  let checks := get validation "checks" in
  let artifacts := get validation "artifacts" in
  let a := as_dict artifacts in
  guard_bk
    (ne validation "schema_version" (PInt 1) || ne validation "backup_id" (PStr identifier)
     || not_true validation "overall_pass" || not_false validation "restore_known_good"
     || not_false validation "formal_todo0012_claim"
     || not_false validation "secret_material_recorded"
     || negb (is_dict checks)
     || existsb (not_true (as_dict checks)) required_validation_checks
     || negb (is_dict artifacts))
    "vault validation is not eligible for known-good attestation";;
  match filter (λ s, is_dict s && py_eqb (get (as_dict s) "id") (PStr "redis_snapshot") = true)
          (as_list (get_or manifest "sources" (PList []))) with
  | [redis_source] =>
      plaintext ← validate_sha256 (get (as_dict (get manifest "archive")) "plaintext_sha256")
                    "plaintext archive digest";
      redis ← validate_sha256 (get (as_dict redis_source) "sha256") "Redis snapshot digest";
      let redis_size := get (as_dict redis_source) "size_bytes" in
      guard_bk
        (match redis_size with PInt z => z <? 9 | _ => true end
         || negb (positive_count (get a "plaintext_size_bytes"))
         || negb (positive_count (get a "member_count")))
        "vault validation size binding is invalid";;
      guard_bk
        (differs a
           [("archive_sha256", PStr (vsha256 archive));
            ("manifest_sha256", PStr (vsha256 manifest_text));
            ("receipt_sha256", PStr (vsha256 receipt_text));
            ("vault_host_id_sha256", PStr vault_host); ("plaintext_sha256", PStr plaintext);
            ("redis_sha256", PStr redis); ("redis_size_bytes", redis_size)])
        "vault validation artifact binding differs";;
      Ok redis
  | _ => raise_bk "backup manifest Redis source binding is invalid"
  end.

(** The deployment an attestation is about. *)
Definition expected_deployment (manifest : pydict) : pydict :=
  let d := as_dict (get manifest "deployment") in
  map (λ f, (f, get d f)) ["deployment_id"; "tag"; "commit"; "runtime_asset_sha256"].
Definition named_text (v : py) : bool :=
  match v with
  | PStr s => negb (String.eqb s "") && str_all (λ a, (32 <=? N_of_ascii a)%N) s
  | _ => false
  end.
Definition check_deployment (deployment : pydict) : res unit :=
  guard_bk (negb (named_text (get deployment "deployment_id")))
    "deployment identity is invalid: deployment_id";;
  guard_bk (negb (named_text (get deployment "tag"))) "deployment identity is invalid: tag";;
  guard_bk (negb match get deployment "commit" with PStr s => re_hex 40 s | _ => false end)
    "deployment identity is invalid: commit";;
  validate_sha256 (get deployment "runtime_asset_sha256") "runtime asset digest";;
  Ok ().

(** What the restore summary identifies. *)
Record restored_volume := Restored {
  x_restore_id : string;
  x_volume : string;
  x_volume_identity : string;
  x_seed : string }.

Definition eligible_restore (manifest restore : pydict) (identifier : string)
    (manifest_text receipt_text validation_text source vault_host redis : string) : res restored_volume :=
  require_passed_rto restore "restore summary" (f_of_Z 600);;
  check_deployment (expected_deployment manifest);;
  validate_sha256 (get restore "transport_receipt_sha256") "restore transport receipt digest";;
  guard_bk
    (differs restore
       [("schema_version", PInt 1); ("backup_id", PStr identifier);
        ("deployment", PDict (expected_deployment manifest));
        ("backup_manifest_sha256", PStr (vsha256 manifest_text));
        ("remote_receipt_sha256", PStr (vsha256 receipt_text));
        ("vault_validation_sha256", PStr (vsha256 validation_text));
        ("backup_policy_sha256", get manifest "backup_policy_sha256");
        ("redis_profile_sha256", get manifest "redis_profile_sha256");
        ("source_host_id_sha256", PStr source); ("vault_host_id_sha256", PStr vault_host);
        ("redis_snapshot_sha256", PStr redis); ("cleanup_failures", PList [])]
     || existsb (not_true restore)
          ["leaderboard_seed_exact"; "redis_ping"; "transport_remote_readback_bound";
           "offline_redis_check_rdb"; "restore_payload_copy_verified";
           "vault_link_free_validation_bound"; "active_volume_preserved"; "target_volume_retained"]
     || existsb (not_false restore)
          ["production_switched"; "active_volume_mounted_by_drill"; "restore_known_good";
           "formal_todo0012_claim"; "secret_material_recorded"])
    "restore summary is not eligible for known-good attestation";;
  restore_id ← validate_backup_id (py_str (get_or restore "restore_id" (PStr "")));
  volume ← validate_backup_id (py_str (get_or restore "target_volume" (PStr "")));
  volume_identity ← validate_sha256 (get restore "target_volume_identity_sha256")
                      "restore target volume identity";
  seed ← validate_sha256 (get restore "canonical_seed_restored_sha256") "restored seed digest";
  Ok (Restored restore_id volume volume_identity seed).

(** The business checks; the result is their identifier. *)
Definition eligible_business (manifest restore business : pydict) (identifier : string)
    (restore_text : string) (x : restored_volume) : res string :=
  require_passed_rto business "business summary" (f_of_Z 300);;
  business_id ← validate_backup_id (py_str (get_or business "business_validation_id" (PStr "")));
  validate_sha256 (get business "deployment_record_sha256") "business deployment_record_sha256";;
  validate_sha256 (get business "release_manifest_sha256") "business release_manifest_sha256";;
  validate_sha256 (get business "release_sdk_full_flow_sha256")
    "business release_sdk_full_flow_sha256";;
  validate_sha256 (get business "work_volume_snapshot_sha256")
    "business work_volume_snapshot_sha256";;
  guard_bk
    (differs business
       [("schema_version", PInt 1); ("backup_id", PStr identifier);
        ("restore_id", PStr (x_restore_id x));
        ("deployment", PDict (expected_deployment manifest));
        ("restore_summary_sha256", PStr (vsha256 restore_text));
        ("retained_volume", PStr (x_volume x));
        ("retained_volume_identity_sha256", PStr (x_volume_identity x));
        ("retained_volume_identity_after_sha256", PStr (x_volume_identity x));
        ("active_volume", get restore "active_volume");
        ("active_volume_identity_after_sha256", get restore "active_volume_identity_sha256");
        ("redis_image", get restore "redis_image");
        ("retained_seed_before_sha256", PStr (x_seed x));
        ("retained_seed_after_sha256", PStr (x_seed x)); ("cleanup_failures", PList []);
        ("active_volume_identity_sha256", get restore "active_volume_identity_sha256")]
     || existsb (not_true business)
          ["active_volume_unchanged"; "restore_volume_identity_binding_verified";
           "restore_snapshot_binding_verified"; "restore_redis_image_binding_verified";
           "gateway_runtime_binding_verified"; "retained_seed_unchanged"; "leaderboard_submit";
           "leaderboard_top"; "leaderboard_rank"; "sdk_full_flow_checked";
           "retained_volume_mounted_readonly"; "work_seed_mutated_by_business_checks";
           "work_volume_created"; "work_volume_removed"; "isolated_network_created";
           "isolated_network_internal"; "isolated_network_removed"]
     || existsb (not_false business)
          ["source_build_performed"; "public_conan_access_performed"; "production_switched";
           "restore_known_good"; "formal_todo0012_claim"; "secret_material_recorded"])
    "business summary is not eligible for known-good attestation";;
  Ok business_id.

Definition validate_known_good_sources (v : vault) (backup_id : string) (s : summaries)
    : res pydict :=
  identifier ← validate_backup_id backup_id;
  identity ← require_regular (v_identity v) "vault identity";
  fs ← require_entry (entries (v_backups v)) identifier "known-good backup";
  archive ← require_regular (fs !! "payload.tar.age") "encrypted archive";
  manifest_text ← require_regular (fs !! "manifest.json") "backup manifest";
  receipt_text ← require_regular (fs !! "receipt.json") "remote receipt";
  validation_text ← require_regular (s_validation s) "vault validation summary";
  restore_text ← require_regular (s_restore s) "restore summary";
  business_text ← require_regular (s_business s) "business summary";
  manifest ← load_object (fs !! "manifest.json") "backup manifest";
  receipt ← load_object (fs !! "receipt.json") "remote receipt";
  validation ← load_object (s_validation s) "vault validation summary";
  restore ← load_object (s_restore s) "restore summary";
  business ← load_object (s_business s) "business summary";
  validate_manifest_binding (fs !! "manifest.json")
    (binding_fields (PStr identifier) archive manifest_text);;
  let vault_host := vsha256 identity in
  source ← eligible_manifest manifest vault_host;
  guard_bk
    (differs receipt (receipt_fields (PStr identifier) archive manifest_text vault_host)
     || negb (valid_utc_timestamp (get receipt "stored_at")))
    "remote receipt is not eligible for known-good attestation";;
  redis ← eligible_validation manifest validation identifier archive manifest_text receipt_text
            vault_host;
  x ← eligible_restore manifest restore identifier manifest_text receipt_text validation_text
        source vault_host redis;
  business_id ← eligible_business manifest restore business identifier restore_text x;
  Ok [("backup_id", PStr identifier); ("restore_id", PStr (x_restore_id x));
      ("business_validation_id", PStr business_id);
      ("identities", PDict
         [("source_host_id_sha256", PStr source); ("vault_host_id_sha256", PStr vault_host);
          ("deployment", PDict (expected_deployment manifest));
          ("target_volume", PStr (x_volume x));
          ("target_volume_identity_sha256", PStr (x_volume_identity x))]);
      ("evidence", PDict
         [("backup_manifest",
             evidence_record manifest_text ("backups/" +:+ identifier +:+ "/manifest.json"));
          ("remote_receipt",
             evidence_record receipt_text ("backups/" +:+ identifier +:+ "/receipt.json"));
          ("vault_validation", evidence_record validation_text "vault-validation.json");
          ("restore_summary", evidence_record restore_text "restore-summary.json");
          ("recovery_aggregate", evidence_record business_text "business-summary.json")]);
      ("formal_flags", PDict
         [("backup_manifest", PBool false); ("vault_validation", PBool false);
          ("restore_summary", PBool false); ("recovery_aggregate", PBool false);
          ("attestation", PBool false)])].

(** ** Creation *)

Definition read_summaries : VM summaries :=
  v_read_at (λ n, Summaries (vsummary_at n "vault-validation.json")
                    (vsummary_at n "restore-summary.json") (vsummary_at n "business-summary.json")).

(** The attestation around the validated sources. *)
Definition attestation_document (attested_at : py) (binding : pydict) : pydict :=
  [("schema_version", PInt 1); ("attested_at", attested_at)] ++ binding
  ++ [("overall_pass", PBool true); ("restore_known_good", PBool true);
      ("formal_todo0012_claim", PBool false); ("secret_material_recorded", PBool false)].

Definition known_good_capacity_snapshot (phase : string) (reservation : Z) : VM unit :=
  require_bk (reservation <? 0) "known-good capacity reservation is invalid";;
  current ← e_read logical_regular_file_bytes;
  free ← v_read_at vfree_at;
  require_bk ((current <? 0) || (free <? 0)) "known-good vault capacity observation is invalid";;
  require_bk (DEFAULT_MAX_VAULT_BYTES <? current + reservation)
    ("known-good attestation would exceed the configured vault limit during " +:+ phase);;
  require_bk (free - reservation <? DEFAULT_MINIMUM_FREE_BYTES)
    ("known-good attestation would breach the free-space floor during " +:+ phase).

Definition put_known_good (i name data : string) (v : vault) : vault :=
  set_known_good (put_file i name data (v_known_good v)) v.
Definition unlink_file (i name : string) (s : slot ventries) : slot ventries :=
  match s with
  | SDir m =>
      match m !! i with
      | Some (VDir fs) => SDir (<[i := VDir (delete name fs)]> m)
      | _ => s
      end
  | _ => s
  end.
Definition rmtree_known_good (i : string) : VM unit :=
  v_rmtree_quiet (λ v, set_known_good (drop_entry i (v_known_good v)) v)
    (λ keeps v, set_known_good (thin_entry i keeps (v_known_good v)) v).

(** [copy_regular_new]: the summary is examined when it is opened and may have
    grown or shrunk when it is read. *)
Definition copy_regular_new (i name label : string) (expected_size : Z) : VM unit :=
  n ← v_read_at (λ n, vsummary_at n name);
  opened ← e_lift (require_regular n label);
  swapped ← v_read_at vswapped_at;
  require_bk swapped (label +:+ " changed before it could be copied");;
  require_bk ((expected_size <? 0) || negb (str_len opened =? expected_size))
    (label +:+ " changed after capacity reservation");;
  n' ← v_read_at (λ n, vsummary_at n name);
  let data := match n' with Some (VFile b) => b | _ => opened end in
  require_bk (str_len data <? expected_size) ("truncated " +:+ label);;
  v_write (put_known_good i name) (str_take (Z.to_nat expected_size) data);;
  if expected_size <? str_len data
  then v_step (λ v, set_known_good (unlink_file i name (v_known_good v)) v);;
       fail_bk (label +:+ " changed after capacity reservation")
  else mret ().

Definition known_good_file (v : vault) (i name : string) : option vnode :=
  entry_file (v_known_good v) i name.
Definition known_good_summaries (v : vault) (i : string) : summaries :=
  Summaries (known_good_file v i "vault-validation.json")
    (known_good_file v i "restore-summary.json") (known_good_file v i "business-summary.json").

(** The body of the [try], in the new directory. *)
Definition fill_known_good (backup_id timestamp attestation_bytes : string) (initial : pydict)
    (size1 size2 size3 : Z) (bounded : bool) : VM pydict :=
  v_write (put_known_good backup_id ".incomplete") KNOWN_GOOD_INCOMPLETE_MARKER;;
  copy_regular_new backup_id "vault-validation.json" "vault validation summary" size1;;
  copy_regular_new backup_id "restore-summary.json" "restore summary" size2;;
  copy_regular_new backup_id "business-summary.json" "business summary" size3;;
  copied ← e_read (λ v, validate_known_good_sources v backup_id (known_good_summaries v backup_id));
  require_bk (negb (py_eqb (PDict copied) (PDict initial)))
    "known-good evidence changed while being copied";;
  let copied_attestation := attestation_document (PStr timestamp) copied in
  require_bk (negb (String.eqb (canonical_json (PDict copied_attestation)) attestation_bytes))
    "known-good attestation changed after capacity reservation";;
  v_write (put_known_good backup_id "attestation.json") attestation_bytes;;
  (if bounded then known_good_capacity_snapshot "peak" 0 else mret ());;
  v_step (λ v, set_known_good (unlink_file backup_id ".incomplete" (v_known_good v)) v);;
  (if bounded then known_good_capacity_snapshot "completion" 0 else mret ());;
  mret copied_attestation.

Definition create_known_good_unlocked (backup_id : string) (attested_at : option string)
    (bounded : bool) : VM pydict :=
  given ← read_summaries;
  initial ← e_read (λ v, validate_known_good_sources v backup_id given);
  timestamp ← given_or attested_at (v_read_at vnow_at);
  require_bk (negb (valid_utc_timestamp (PStr timestamp)))
    "known-good attestation timestamp is invalid";;
  let attestation_bytes :=
    canonical_json (PDict (attestation_document (PStr timestamp) initial)) in
  sources ← read_summaries;
  text1 ← e_lift (require_regular (s_validation sources) "vault validation summary");
  text2 ← e_lift (require_regular (s_restore sources) "restore summary");
  text3 ← e_lift (require_regular (s_business sources) "business summary");
  let reservation := str_len text1 + str_len text2 + str_len text3
                     + str_len KNOWN_GOOD_INCOMPLETE_MARKER + str_len attestation_bytes in
  (if bounded
   then known_good_capacity_snapshot "preflight" reservation;;
        e_read (λ v, require_directory (v_known_good v) "known-good root");; mret ()
   else ensure_slot v_known_good set_known_good "known-good root");;
  i ← e_lift (validate_backup_id backup_id);
  present ← e_gets (λ v, match entries (v_known_good v) !! i with Some _ => true | None => false end);
  require_bk present ("create-only known-good attestation already exists: " +:+ backup_id);;
  v_step (λ v, set_known_good (SDir (<[i := VDir ∅]> (entries (v_known_good v)))) v);;
  e_try (fill_known_good i timestamp attestation_bytes initial (str_len text1) (str_len text2)
           (str_len text3) bounded)
    (λ exc, rmtree_known_good i;; e_lift (Raise exc)).

Definition create_known_good_attestation (trusted : Z) (backup_id : string)
    (attested_at : option string) : VM pydict :=
  lock ← e_gets v_lock;
  match lock with
  | None => create_known_good_unlocked backup_id attested_at false
  | Some _ =>
      e_read (require_secure_vault_layout trusted);;
      vault_local_lock trusted (create_known_good_unlocked backup_id attested_at true)
  end.

(** ** Verification *)

(** The names in a directory whose files are listed by relative path. *)
Definition top_names (fs : vfiles) : list string :=
  map (λ kv, default "" (head (path_parts kv.1))) (map_to_list fs).

Definition load_known_good_attestation (v : vault) (backup_id : string) : res pydict :=
  identifier ← validate_backup_id backup_id;
  fs ← require_entry (entries (v_known_good v)) identifier "known-good attestation";
  guard_bk
    (negb (same_set (top_names fs)
             ["attestation.json"; "vault-validation.json"; "restore-summary.json";
              "business-summary.json"]))
    "known-good attestation inventory is invalid";;
  text ← require_regular (fs !! "attestation.json") "known-good attestation";
  attestation ← load_object (fs !! "attestation.json") "known-good attestation";
  binding ← validate_known_good_sources v identifier (known_good_summaries v identifier);
  guard_bk
    (negb (valid_utc_timestamp (get attestation "attested_at"))
     || negb (py_eqb (PDict attestation)
                (PDict (attestation_document (get attestation "attested_at") binding))))
    "known-good attestation binding is invalid";;
  Ok (dset attestation "attestation_sha256" (PStr (vsha256 text))).

End known_good.
