(* ===== verification/VaultRetention.v ===== *)
(** * The off-host backup vault: retention

    Models the retention half of [src/scripts/lib/backup_recovery.py] (the plan,
    its evidence documents and [prune_remote]) and the governed retention run of
    [src/scripts/tools/run_backup_vault_retention.py].

    A deletion first renames the backups it removes into a trash directory of
    its own, records its intent, removes the trash and records its completion;
    an exception before the intent is on disk renames them back. *)
From S2P Require Import Prelude PyFloat PyValue PyTime PyPath PyJson PyEffect LifecycleCore.
From S2P Require Import Vault VaultStore VaultKnownGood.
#[local] Open Scope Z_scope.

(** ** The order of the records *)

(** [(str(created_at), backup_id)] of [s] is at most that of [r]. *)
Definition newer_eq (r s : vrecord) : Prop :=
  if String.eqb (py_str (r_created r)) (py_str (r_created s))
  then String.le (r_id s) (r_id r)
  else String.le (py_str (r_created s)) (py_str (r_created r)).
#[export] Instance newer_eq_dec : RelDecision newer_eq.
Proof. intros r s. unfold newer_eq. destruct (String.eqb _ _); apply _. Defined.

(** [sorted(records, key=..., reverse=True)]. *)
Definition sort_newest (records : list vrecord) : list vrecord := merge_sort newer_eq records.

(** [max(records, key=...)]: the first of the greatest. *)
Fixpoint newest_of (best : vrecord) (l : list vrecord) : vrecord :=
  match l with
  | [] => best
  | r :: l => newest_of (if decide (newer_eq best r) then best else r) l
  end.

Section retention.
Context `{VaultRuntime}.

(** ** The plan *)

Record retention_plan := RetentionPlan {
  p_identity : string;
  p_anchor_id : string;
  p_anchor_receipt : string;
  p_records : list vrecord;
  p_retained : list string;
  p_known_good : list string;
  p_attestations : pydict;
  p_deleting : list vrecord;
  p_deleted : list string;
  p_deleted_bytes : Z }.

(** A value used in a set. *)
Definition hashable (v : py) : res py :=
  match v with
  | PList _ | PDict _ => Raise (Exn CTypeError "unhashable type")
  | _ => Ok v
  end.
Definition sub_item (v : py) (k : string) : res py :=
  match v with
  | PDict d => item d k
  | _ => Raise (Exn CTypeError "object is not subscriptable by a name")
  end.

(** The attested records, newest first, with the digests of their attestations;
    no two of them share a restore or a target volume. *)
Fixpoint known_good_scan (v : vault) (restores targets : list py) (l : list vrecord)
    : res (list (vrecord * py)) :=
  match l with
  | [] => Ok []
  | r :: l =>
      match load_known_good_attestation v (r_id r) with
      | Raise e => if skippable e then known_good_scan v restores targets l else Raise e
      | Ok attestation =>
          restore ← item attestation "restore_id";
          identities ← item attestation "identities";
          target ← sub_item identities "target_volume_identity_sha256";
          restore ← hashable restore;
          if py_in restore restores then known_good_scan v restores targets l
          else
            target ← hashable target;
            if py_in target targets then known_good_scan v restores targets l
            else
              digest ← item attestation "attestation_sha256";
              rest ← known_good_scan v (restores ++ [restore]) (targets ++ [target]) l;
              Ok ((r, digest) :: rest)
      end
  end.

Definition of_class (c : string) (l : list vrecord) : list vrecord :=
  filter (λ r, mem_str c (r_classes r) = true) l.

(** The names a plan keeps, with repetitions. *)
Definition keep_ids (daily weekly : Z) (retained : list (vrecord * py)) (newest : list vrecord)
    : list string :=
  map (λ x, r_id x.1) retained
  ++ map r_id (take (Z.to_nat daily) (of_class "daily" newest))
  ++ map r_id (take (Z.to_nat weekly) (of_class "weekly" newest)).

Definition make_plan (identity anchor_backup_id anchor_receipt : string) (daily weekly : Z)
    (newest : list vrecord) (retained : list (vrecord * py)) : retention_plan :=
  let attestations := dupdate [] (map (λ x, (r_id x.1, x.2)) retained) in
  let keep := keep_ids daily weekly retained newest in
  let deleting := filter (λ r, mem_str (r_id r) keep = false) newest in
  RetentionPlan identity anchor_backup_id anchor_receipt newest
    (sort_str (remove_dups keep)) (sort_str (dkeys attestations)) attestations deleting
    (sort_str (map r_id deleting)) (foldr (λ r acc, r_bytes r + acc) 0 deleting).

Definition plan_remote_retention (anchor_backup_id anchor_receipt : string)
    (daily weekly minimum : Z) (expected : option string) (records : option (list vrecord))
    (v : vault) : res retention_plan :=
  validate_backup_id anchor_backup_id;;
  validate_sha256 (PStr anchor_receipt) "anchor receipt digest";;
  guard_bk ((daily <? 1) || (weekly <? 1) || (minimum <? 2)) "retention counts are invalid";;
  identity ← expected_identity_of expected v;
  eligible ← match records with
             | Some l => Ok l
             | None => verified_vault_records (Some identity) v
             end;
  guard_bk
    (match last (filter (λ r, r_id r = anchor_backup_id) eligible) with
     | Some anchor => negb (String.eqb (r_receipt anchor) anchor_receipt)
     | None => true
     end)
    "retention anchor is not a verified remote copy";;
  let newest := sort_newest eligible in
  known_good ← known_good_scan v [] [] newest;
  guard_bk (Z.of_nat (length known_good) <? minimum)
    ("retention requires at least " +:+ Z_str minimum +:+ " valid known-good attestations");;
  let plan := make_plan identity anchor_backup_id anchor_receipt daily weekly newest
                (take (Z.to_nat minimum) known_good) in
  guard_bk (existsb (λ r, r_bytes r <? 0) (p_deleting plan))
    "verified backup logical byte count is invalid";;
  Ok plan.

(** ** The evidence of a deletion *)

Record retention_evidence := RetentionEvidence {
  e_intent : pydict;
  e_intent_bytes : string;
  e_completion : pydict;
  e_completion_bytes : string;
  e_logical_bytes : Z }.

Definition str_list (l : list string) : py := PList (map PStr l).

Definition retention_evidence_documents (plan : retention_plan) (deletion_id recorded_at : string)
    (daily weekly minimum : Z) : res retention_evidence :=
  identifier ← validate_backup_id deletion_id;
  guard_bk (negb (valid_utc_timestamp (PStr recorded_at)))
    "retention evidence timestamp is invalid";;
  let intent :=
    [("schema_version", PInt 1); ("deletion_id", PStr identifier);
     ("recorded_at", PStr recorded_at); ("state", PStr "quarantined_before_delete");
     ("anchor_backup_id", PStr (p_anchor_id plan));
     ("anchor_receipt_sha256", PStr (p_anchor_receipt plan));
     ("quarantined_backup_ids", str_list (p_deleted plan));
     ("retained_backup_ids", str_list (p_retained plan));
     ("daily_copies", PInt daily); ("weekly_copies", PInt weekly);
     ("minimum_known_good_copies", PInt minimum);
     ("retained_known_good_backup_ids", str_list (p_known_good plan));
     ("known_good_attestation_sha256s", PDict (p_attestations plan));
     ("delete_only_after_verified_remote_copy", PBool true);
     ("secret_material_recorded", PBool false)] in
  let intent_bytes := canonical_json (PDict intent) in
  let completion :=
    [("schema_version", PInt 1); ("deletion_id", PStr identifier);
     ("recorded_at", PStr recorded_at); ("state", PStr "deleted");
     ("deletion_intent_sha256", PStr (vsha256 intent_bytes));
     ("deleted_backup_ids", str_list (p_deleted plan));
     ("retained_backup_ids", str_list (p_retained plan));
     ("anchor_backup_id", PStr (p_anchor_id plan));
     ("anchor_receipt_sha256", PStr (p_anchor_receipt plan));
     ("retained_known_good_backup_ids", str_list (p_known_good plan));
     ("known_good_attestation_sha256s", PDict (p_attestations plan));
     ("deleted_logical_bytes", PInt (p_deleted_bytes plan));
     ("delete_only_after_verified_remote_copy", PBool true);
     ("secret_material_recorded", PBool false)] in
  let completion_bytes := canonical_json (PDict completion) in
  Ok (RetentionEvidence intent intent_bytes completion completion_bytes
        (str_len intent_bytes + str_len completion_bytes)).

(** ** [prune_remote] *)

Definition default_prune_id : VM string :=
  stamp ← v_read_at vstamp_at;
  u ← v_read_at vuuid_at;
  e_lift (validate_backup_id ("prune-" +:+ stamp +:+ "-" +:+ str_take 8 u)).

(** A trash directory, and what is in it. *)
Definition trash_of (t : string) (v : vault) : ventries := default ∅ (entries (v_trash v) !! t).
Definition put_trash (t : string) (m : ventries) (v : vault) : vault :=
  set_trash (SDir (<[t := m]> (entries (v_trash v)))) v.
Definition drop_trash (t : string) (v : vault) : vault :=
  set_trash (SDir (delete t (entries (v_trash v)))) v.

(** The two renames. *)
Definition to_trash (t i : string) (v : vault) : vault :=
  match entries (v_backups v) !! i with
  | Some e =>
      put_trash t (<[i := e]> (trash_of t v))
        (set_backups (SDir (delete i (entries (v_backups v)))) v)
  | None => v
  end.
Definition from_trash (t i : string) (v : vault) : vault :=
  match trash_of t v !! i with
  | Some e =>
      set_backups (SDir (<[i := e]> (entries (v_backups v))))
        (put_trash t (delete i (trash_of t v)) v)
  | None => v
  end.

Definition quarantine_one (t : string) (r : vrecord) : VM unit :=
  present ← e_gets (λ v, bool_decide (is_Some (entries (v_backups v) !! r_id r)));
  if present : bool then v_step (to_trash t (r_id r)) else e_lift not_found.

(** The renames up to the first that fails. *)
Fixpoint quarantine (t : string) (moved : list string) (l : list vrecord)
    : VM (list string * option exn) :=
  match l with
  | [] => mret (moved, None)
  | r :: l =>
      failed ← e_try (quarantine_one t r;; mret None) (λ e, mret (Some e));
      match failed with
      | Some e => mret (moved, Some e)
      | None => quarantine t (moved ++ [r_id r]) l
      end
  end.

(** The handler: rename the moved backups back and remove the empty trash. *)
Definition restore_one (t i : string) : VM unit :=
  back ← e_gets (λ v, bool_decide (is_Some (trash_of t v !! i))
                      && bool_decide (entries (v_backups v) !! i = None));
  if back : bool then v_step (from_trash t i) else mret ().
Definition unwind {A} (t : string) (moved : list string) (exc : exn) : VM A :=
  e_iter (restore_one t) (rev moved);;
  empty ← e_gets (λ v, bool_decide (trash_of t v = ∅));
  (if empty : bool then e_try (v_step (drop_trash t)) (λ _, mret ()) else mret ());;
  e_lift (Raise exc).

(** [write_new] in the deletion records. *)
Definition put_deletion (name data : string) (v : vault) : vault :=
  set_deletions (SDir (<[name := VNode (VFile data)]> (entries (v_deletions v)))) v.
Definition write_deletion (name data : string) : VM unit :=
  present ← e_gets (λ v, bool_decide (is_Some (entries (v_deletions v) !! name)));
  if present : bool then e_raise CFileExistsError "File exists"
  else v_write (put_deletion name) data.

Definition sha_deletion (name : string) (v : vault) : res string :=
  match entries (v_deletions v) !! name with
  | Some (VNode (VFile b)) => Ok (vsha256 b)
  | _ => not_found
  end.

(** Removal of the trash; an unfinished one leaves some of the backups, and of
    those some of the files. *)
Definition thin_backup (keeps : string → bool) (i : string) (e : ventry) : option ventry :=
  if keeps i then
    Some match e with
         | VDir fs => VDir (keep_files (λ name, keeps (i +:+ "/" +:+ name)) fs)
         | VNode n => VNode n
         end
  else None.
Definition thin_trash (t : string) (keeps : string → bool) (v : vault) : vault :=
  put_trash t (map_imap (thin_backup keeps) (trash_of t v)) v.
Definition empty_trash (t : string) : VM unit :=
  e_try (v_rmtree (drop_trash t) (thin_trash t))
    (λ _, fail_bk ("retention quarantine remains for manual recovery: " +:+ t)).

(** From the renames to the completion record. *)
Definition carry_out (plan : retention_plan) (evidence : retention_evidence) (identifier : string)
    : VM pydict :=
  '(moved, failed) ← quarantine identifier [] (p_deleting plan);
  match failed with
  | Some exc => unwind identifier moved exc
  | None =>
      e_try
        (require_bk (negb (bool_decide (sort_str moved = p_deleted plan)))
           "retention deletion differs from its plan";;
         write_deletion (identifier +:+ ".intent.json") (e_intent_bytes evidence))
        (unwind identifier moved)
  end;;
  empty_trash identifier;;
  digest ← e_read (sha_deletion (identifier +:+ ".intent.json"));
  require_bk (ne (e_completion evidence) "deletion_intent_sha256" (PStr digest))
    "retention intent digest differs from its exact plan";;
  write_deletion (identifier +:+ ".json") (e_completion_bytes evidence);;
  mret (e_completion evidence).

Definition prune_remote (anchor_backup_id anchor_receipt : string) (daily weekly minimum : Z)
    (deletion_id recorded_at expected : option string) : VM pydict :=
  plan ← e_read (plan_remote_retention anchor_backup_id anchor_receipt daily weekly minimum
                   expected None);
  identifier ← given_or deletion_id default_prune_id;
  at_ ← given_or recorded_at (v_read_at vnow_at);
  evidence ← e_lift (retention_evidence_documents plan identifier at_ daily weekly minimum);
  ensure_slot v_deletions set_deletions "vault deletion records";;
  ensure_slot v_trash set_trash "vault trash root";;
  taken ← e_gets (λ v, bool_decide (is_Some (entries (v_trash v) !! identifier)));
  (if taken : bool then e_raise CFileExistsError "File exists"
   else v_step (put_trash identifier ∅));;
  carry_out plan evidence identifier.

(** ** The governed run *)

Definition EXPECTED_POLICY_ID : string := "aliyun-offhost-vault-bounded-retention-v1".
Definition DEFAULT_VAULT_ROOT : string := "/srv/boost-gateway-vault".
Definition EXPECTED_DAILY_COPIES : Z := 7.
Definition EXPECTED_WEEKLY_COPIES : Z := 4.
Definition EXPECTED_MINIMUM_KNOWN_GOOD : Z := 2.
Definition EXPECTED_MAX_VAULT_BYTES : Z := 20000000000.
Definition EXPECTED_MINIMUM_FREE_BYTES : Z := 5000000000.

Definition raise_vr {A} (msg : string) : res A := Raise (Exn CVaultRetentionError msg).
Definition guard_vr (bad : bool) (msg : string) : res unit := guard_cls CVaultRetentionError bad msg.
Definition require_vr (bad : bool) (msg : string) : VM unit := e_lift (guard_vr bad msg).

Definition expected_retention : pydict :=
  [("daily_copies", PInt EXPECTED_DAILY_COPIES); ("weekly_copies", PInt EXPECTED_WEEKLY_COPIES);
   ("minimum_known_good_copies", PInt EXPECTED_MINIMUM_KNOWN_GOOD);
   ("max_vault_bytes", PInt EXPECTED_MAX_VAULT_BYTES);
   ("minimum_free_bytes", PInt EXPECTED_MINIMUM_FREE_BYTES);
   ("size_accounting", PStr "logical_regular_file_bytes");
   ("current_vault_identity_only", PBool true); ("pre_upload_reservation_required", PBool true);
   ("delete_only_after_verified_remote_copy", PBool true);
   ("deletion_plan_required", PBool true); ("deletion_record_required", PBool true)].

(** The policy file with its ownership; the result is the digest of the policy
    whose counts and limits are the constants above. *)
Definition load_retention_policy (trusted : Z) (file : option vnode) (meta : vmeta) : res string :=
  text ← require_regular file "Aliyun vault retention policy";
  guard_vr (negb (m_uid meta =? trusted) || negb (Z.land (m_mode meta) 18 =? 0))
    "Aliyun vault retention policy must be trusted-owner-owned and not writable by group/world";;
  document ← load_object file "Aliyun vault retention policy";
  let scope := get document "scope" in
  let bootstrap := get document "bootstrap" in
  guard_vr
    (ne document "schema_version" (PInt 1) || ne document "policy_id" (PStr EXPECTED_POLICY_ID)
     || negb (is_dict scope)
     || ne (as_dict scope) "host_role" (PStr "off_host_backup_vault")
     || ne (as_dict scope) "host_alias" (PStr "aliyunserver")
     || ne (as_dict scope) "vault_root" (PStr DEFAULT_VAULT_ROOT)
     || ne (as_dict scope) "source_backup_policy"
          (PStr "deploy/operations/backup-recovery-policy.example.json")
     || not_true (as_dict scope) "source_retention_override"
     || ne document "retention" (PDict expected_retention)
     || negb (is_dict bootstrap)
     || not_true (as_dict bootstrap) "new_vault_identity_required"
     || not_true (as_dict bootstrap) "mixed_identity_records_rejected"
     || not_true (as_dict bootstrap) "retention_disabled_until_two_known_good_copies"
     || not_false document "secret_material_recorded")
    "Aliyun vault retention policy content differs";;
  Ok (vsha256 text).

(** The size and the free space, with the limits when they are enforced. *)
Definition vault_size_bytes (v : vault) : res Z :=
  match logical_regular_file_bytes v with
  | Raise (Exn CBackupError msg) => raise_vr msg
  | r => r
  end.
Definition capacity_snapshot (phase : string) (maximum minimum : Z) (enforce : bool)
    : VM (Z * Z) :=
  require_vr ((maximum <=? 0) || (minimum <? 0)) "capacity limits are invalid";;
  bytes ← e_read vault_size_bytes;
  free ← v_read_at vfree_at;
  require_vr ((bytes <? 0) || (free <? 0)) "capacity observation is invalid";;
  require_vr (enforce && (maximum <? bytes))
    ("vault exceeds the configured limit during " +:+ phase +:+ ": observed=" +:+ Z_str bytes
     +:+ "; maximum=" +:+ Z_str maximum);;
  require_vr (enforce && (free <? minimum))
    ("filesystem free space is below the configured floor during " +:+ phase +:+ ": observed="
     +:+ Z_str free +:+ "; minimum=" +:+ Z_str minimum);;
  mret (bytes, free).

(** [require_secure_anchor_directory] and [latest_verified_anchor]. *)
Definition require_secure_anchor_directory (i : string) (v : vault) : res vfiles :=
  match entries (v_backups v) !! i with
  | Some (VDir fs) => Ok fs
  | Some _ => raise_vr "retention anchor is outside the backup root"
  | None => not_found
  end.
Record anchor := Anchor { a_id : string; a_created : string; a_receipt : string }.
Definition latest_verified_anchor (records : list vrecord) (v : vault) : res anchor :=
  match records with
  | [] => raise_vr "no complete readback-verified backup is available"
  | r :: l =>
      let newest := newest_of r l in
      i ← validate_backup_id (r_id newest);
      fs ← require_secure_anchor_directory i v;
      text ← require_regular (fs !! "receipt.json") "retention anchor receipt";
      receipt ← load_object (fs !! "receipt.json") "retention anchor receipt";
      identity ← require_regular (v_identity v) "vault identity";
      guard_vr
        (differs receipt
           [("schema_version", PInt 1); ("backup_id", PStr i);
            ("vault_host_id_sha256", PStr (vsha256 identity));
            ("remote_readback_sha256", PBool true); ("create_only", PBool true);
            ("secret_material_recorded", PBool false)]
         || negb (String.eqb (vsha256 text) (r_receipt newest))
         || negb (valid_utc_timestamp (get receipt "stored_at")))
        "latest complete backup does not have a valid readback receipt";;
      Ok (Anchor i (py_str (r_created newest)) (vsha256 text))
  end.

Definition snapshot_document (s : Z * Z) : py :=
  PDict [("vault_bytes", PInt s.1); ("filesystem_free_bytes", PInt s.2)].

(** Under the lock. *)
Definition retention_body (trusted : Z) (root : string) (policy_file : option vnode)
    (policy_meta : vmeta) (timestamp deletion_id : string) : VM pydict :=
  policy_sha ← e_lift (load_retention_policy trusted policy_file policy_meta);
  require_vr (negb (String.eqb root DEFAULT_VAULT_ROOT))
    "vault root differs from the governed policy";;
  identity_text ← e_read (λ v, require_regular (v_identity v) "vault identity");
  let identity := vsha256 identity_text in
  before ← capacity_snapshot "preflight" EXPECTED_MAX_VAULT_BYTES EXPECTED_MINIMUM_FREE_BYTES false;
  records ← e_read (verified_vault_records (Some identity));
  anchor ← e_read (latest_verified_anchor records);
  plan ← e_read (plan_remote_retention (a_id anchor) (a_receipt anchor) EXPECTED_DAILY_COPIES
                   EXPECTED_WEEKLY_COPIES EXPECTED_MINIMUM_KNOWN_GOOD (Some identity)
                   (Some records));
  require_vr ((p_deleted_bytes plan <? 0) || (before.1 <? p_deleted_bytes plan))
    "retention deletion plan byte count is invalid";;
  evidence ← e_lift (retention_evidence_documents plan deletion_id timestamp EXPECTED_DAILY_COPIES
                       EXPECTED_WEEKLY_COPIES EXPECTED_MINIMUM_KNOWN_GOOD);
  let planned := before.1 - p_deleted_bytes plan + e_logical_bytes evidence in
  require_vr (EXPECTED_MAX_VAULT_BYTES <? planned)
    "mandatory retained vault set exceeds the configured limit; zero deletion performed";;
  retained ← prune_remote (a_id anchor) (a_receipt anchor) EXPECTED_DAILY_COPIES
               EXPECTED_WEEKLY_COPIES EXPECTED_MINIMUM_KNOWN_GOOD (Some deletion_id)
               (Some timestamp) (Some identity);
  require_vr
    (differs retained
       [("state", PStr "deleted"); ("anchor_backup_id", PStr (a_id anchor));
        ("anchor_receipt_sha256", PStr (a_receipt anchor));
        ("deleted_backup_ids", str_list (p_deleted plan));
        ("deleted_logical_bytes", PInt (p_deleted_bytes plan));
        ("deletion_id", PStr deletion_id); ("recorded_at", PStr timestamp)]
     || not_true retained "delete_only_after_verified_remote_copy"
     || not_false retained "secret_material_recorded")
    "retention result does not satisfy the planned deletion contract";;
  after ← capacity_snapshot "completion" EXPECTED_MAX_VAULT_BYTES EXPECTED_MINIMUM_FREE_BYTES true;
  mret [("schema_version", PInt 1); ("generated_at", PStr timestamp); ("overall_pass", PBool true);
        ("anchor", PDict [("backup_id", PStr (a_id anchor)); ("created_at", PStr (a_created anchor));
                          ("receipt_sha256", PStr (a_receipt anchor))]);
        ("policy", PDict
           [("policy_id", PStr EXPECTED_POLICY_ID); ("policy_sha256", PStr policy_sha);
            ("daily_copies", PInt EXPECTED_DAILY_COPIES);
            ("weekly_copies", PInt EXPECTED_WEEKLY_COPIES);
            ("minimum_known_good_copies", PInt EXPECTED_MINIMUM_KNOWN_GOOD);
            ("max_vault_bytes", PInt EXPECTED_MAX_VAULT_BYTES);
            ("minimum_free_bytes", PInt EXPECTED_MINIMUM_FREE_BYTES);
            ("size_accounting", PStr "logical_regular_file_bytes")]);
        ("capacity", PDict
           [("before", snapshot_document before);
            ("planned_deletion_evidence_bytes", PInt (e_logical_bytes evidence));
            ("planned_after_vault_bytes", PInt planned); ("after", snapshot_document after)]);
        ("retention", PDict retained); ("secret_material_recorded", PBool false)].

(** The unlocking of [vault_local_lock] changes nothing that is modelled. *)
Definition run_retention (trusted : Z) (root : string) (policy_file : option vnode)
    (policy_meta : vmeta) (generated_at : option string) : VM pydict :=
  e_read (require_secure_vault_layout trusted);;
  timestamp ← given_or generated_at (v_read_at vnow_at);
  deletion_id ← default_prune_id;
  vault_local_lock trusted
    (retention_body trusted root policy_file policy_meta timestamp deletion_id).

End retention.
