(* ===== verification/VaultFacts.v ===== *)
(** * The off-host backup vault: streams, sizes and records

    The facts the vault theorems share: what reading from a fragmented stream
    returns, how the size of a directory changes when an entry does, and what a
    verified record says of its directory. *)
From S2P Require Import Prelude PyFloat PyValue PyTime PyPath PyJson PyJsonFacts PyEffect LifecycleCore.
From S2P Require Import Vault VaultStore.
#[local] Open Scope Z_scope.

(** The steps of a successful check. *)
Ltac bk_inv := unfold guard_bk, raise_bk in *; res_inv.

(** ** Strings *)

(** ** Streams *)

Lemma stream_cons b bs : stream_text (b :: bs) = b +:+ stream_text bs.
Proof. done. Qed.

(** A read returns a non-empty prefix unless the stream is at its end. *)
Lemma read_block_spec n bs b bs' :
  0 < n → read_block n bs = (b, bs') →
  stream_text bs = b +:+ stream_text bs' ∧ str_len b <= n ∧ (b = "" → stream_text bs = "").
Proof.
  intros Hn. induction bs as [|c bs IH]; simpl.
  { intros [= <- <-]. unfold str_len. simpl. split; [done|]. split; [lia|done]. }
  destruct c as [|a c]; [done|].
  destruct (Z.leb_spec (str_len (String a c)) n) as [Hle|Hgt]; intros [= <- <-].
  { split; [done|]. split; [done|]. done. }
  split; [|split].
  - rewrite stream_cons, <- app_str_assoc. by rewrite str_take_skip.
  - unfold str_len. rewrite str_take_length. lia.
  - intros E. apply (f_equal String.length) in E. rewrite str_take_length in E. simpl in E. lia.
Qed.

Lemma read_go_spec fuel remaining acc bs :
  0 <= remaining → (String.length (stream_text bs) < fuel)%nat →
  ∃ bs', read_go fuel remaining acc bs
    = (if remaining <=? str_len (stream_text bs)
       then Some (acc +:+ str_take (Z.to_nat remaining) (stream_text bs)) else None, bs')
    ∧ stream_text bs' = str_skip (Z.to_nat remaining) (stream_text bs).
Proof.
  revert remaining acc bs. induction fuel as [|fuel IH]; intros remaining acc bs Hr Hf; [lia|].
  simpl. destruct (Z.eqb_spec remaining 0) as [->|Hne].
  { exists bs. pose proof (str_len_ge (stream_text bs)). rewrite (proj2 (Z.leb_le _ _)) by done.
    simpl. by rewrite app_str_nil_r. }
  destruct (read_block _ bs) as [b bs1] eqn:Eb.
  apply read_block_spec in Eb as (Ht & Hb & He); [|unfold CHUNK_BYTES; lia].
  destruct (String.eqb_spec b "") as [->|Hb0].
  { specialize (He eq_refl). rewrite nil_app in Ht. exists bs1. rewrite <- Ht, He.
    rewrite (proj2 (Z.leb_gt _ _)) by (unfold str_len; simpl; lia).
    by rewrite str_skip_all by (simpl; lia). }
  assert (0 < str_len b) as Hpos.
  { pose proof (str_len_ge b). assert (str_len b ≠ 0) by (by rewrite str_len_0). lia. }
  assert (String.length (stream_text bs1) < fuel)%nat as Hf1.
  { rewrite Ht, length_app_str in Hf. unfold str_len in Hpos. lia. }
  destruct (IH (remaining - str_len b) (acc +:+ b) bs1) as (bs' & -> & Hs); [lia|done|].
  exists bs'. rewrite Ht, str_len_app, app_str_assoc, take_app_str, skip_app.
  rewrite (str_take_full _ b), (str_skip_all _ b) by (unfold str_len in *; lia). rewrite nil_app.
  replace (Z.to_nat (remaining - str_len b)) with (Z.to_nat remaining - String.length b)%nat in *
    by (unfold str_len; lia).
  split; [|done]. f_equal.
  destruct (Z.leb_spec (remaining - str_len b) (str_len (stream_text bs1)));
    destruct (Z.leb_spec remaining (str_len b + str_len (stream_text bs1))); done || lia.
Qed.

(** What [read_exact] does depends on the text of the stream only. *)
Lemma read_exact_spec size label v :
  0 <= size →
  ∃ bs, stream_text bs = str_skip (Z.to_nat size) (stream_text (v_in v))
    ∧ read_exact size label v
      = (if size <=? str_len (stream_text (v_in v))
         then ORet (str_take (Z.to_nat size) (stream_text (v_in v)))
         else ORaise (Exn CBackupError ("truncated " +:+ label)), set_in bs v).
Proof.
  intros Hs. unfold read_exact.
  destruct (read_go_spec (S (String.length (stream_text (v_in v)))) size "" (v_in v))
    as (bs & -> & Ht); [done|lia|].
  exists bs. split; [done|]. rewrite nil_app. by destruct (size <=? _).
Qed.

(** the loop that reads an upload is independent of the transport: on two
    streams with the same bytes, however they are cut into fragments (empty ones
    included), [read_exact] returns the same bytes and leaves the same rest, or
    fails the same way; it succeeds exactly when the bytes are there. *)
Theorem read_exact_fragments size label v w :
  0 <= size → stream_text (v_in v) = stream_text (v_in w) →
  let '(r, v') := read_exact size label v in
  let '(s, w') := read_exact size label w in
  r = s ∧ stream_text (v_in v') = stream_text (v_in w')
  ∧ (size <= str_len (stream_text (v_in v)) ↔
     ∃ data, r = ORet data ∧ str_len data = size
       ∧ stream_text (v_in v) = data +:+ stream_text (v_in v')).
Proof.
  intros Hs Hvw. destruct (read_exact_spec size label v Hs) as (bs & Hbs & ->).
  destruct (read_exact_spec size label w Hs) as (bs' & Hbs' & ->). rewrite <- Hvw in *.
  split; [done|]. split; [by rewrite <- Hbs in Hbs'|].
  destruct (Z.leb_spec size (str_len (stream_text (v_in v)))) as [Hle|Hgt].
  - split; [intros _|done]. eexists. split; [done|]. split.
    + unfold str_len in *. rewrite str_take_length. lia.
    + cbn [v_in set_in]. by rewrite Hbs, str_take_skip.
  - split; [lia|]. by intros (data & [=] & _).
Qed.

Definition stream_of (bs : list string) : vault :=
  Vault 0 bs None None ∅ SMissing SMissing SMissing SMissing SMissing.

Lemma read_exact_fragments_witness :
  let '(r, v') := read_exact 4 "x" (stream_of ["ab"; ""; "cdef"]) in
  let '(s, w') := read_exact 4 "x" (stream_of ["a"; "bcde"; "f"]) in
  r = s ∧ stream_text (v_in v') = stream_text (v_in w')
  ∧ (4 <= str_len "abcdef" ↔
     ∃ data, r = ORet data ∧ str_len data = 4 ∧ "abcdef" = data +:+ stream_text (v_in v')).
Proof. apply (read_exact_fragments 4 "x"); [lia|reflexivity]. Defined.

(** ** Sizes *)

Lemma oadd_comm a b : oadd a b = oadd b a.
Proof. destruct a, b; simpl; try done. f_equal. lia. Qed.
Lemma oadd_assoc a b c : oadd a (oadd b c) = oadd (oadd a b) c.
Proof. destruct a, b, c; simpl; try done. f_equal. lia. Qed.
Lemma oadd_swap a b c : oadd a (oadd b c) = oadd b (oadd a c).
Proof. by rewrite !oadd_assoc, (oadd_comm a b). Qed.
Lemma oadd_0 a : oadd (Some 0) a = a.
Proof. by destruct a. Qed.

Section total.
Context {A : Type} (size : A → option Z).

Lemma total_empty : total size ∅ = Some 0.
Proof. apply map_fold_empty. Qed.

Lemma total_insert (m : gmap string A) k x :
  m !! k = None → total size (<[k := x]> m) = oadd (size x) (total size m).
Proof.
  intros Hk. unfold total. apply (map_fold_insert_L (λ _ x acc, oadd (size x) acc)); [|done].
  intros. apply oadd_swap.
Qed.

Lemma total_delete (m : gmap string A) k x :
  m !! k = Some x → total size m = oadd (size x) (total size (delete k m)).
Proof.
  intros Hk. rewrite <- (insert_delete_id m k x Hk) at 1.
  apply total_insert, lookup_delete_eq.
Qed.

(** The size of a part is at most that of the whole. *)
Lemma total_subseteq (m m' : gmap string A) n :
  (∀ x z, size x = Some z → 0 <= z) → m' ⊆ m → total size m = Some n →
  ∃ n', total size m' = Some n' ∧ 0 <= n' <= n.
Proof.
  intros Hpos. revert m n. induction m' as [|k x m' Hk IH] using map_ind; intros m n Hsub Ht.
  - rewrite total_empty. exists 0. split; [done|]. split; [lia|]. clear Hsub.
    revert n Ht. induction m as [|k x m Hk IH] using map_ind; intros n.
    { rewrite total_empty. naive_solver lia. }
    rewrite total_insert by done.
    destruct (size x) as [z|] eqn:Ez, (total size m) as [y|]; try done. simpl. intros [= <-].
    specialize (IH _ eq_refl). specialize (Hpos _ _ Ez). lia.
  - assert (m !! k = Some x) as Hm by (eapply lookup_weaken; [apply lookup_insert_eq|done]).
    rewrite (total_delete m k x Hm) in Ht.
    destruct (size x) as [z|] eqn:Ez, (total size (delete k m)) as [y|] eqn:Ey; try done.
    injection Ht as <-.
    destruct (IH (delete k m) y) as (n' & Hn' & Hle); [|done|].
    { rewrite <- (delete_insert_id m' k x Hk). by apply delete_mono. }
    exists (z + n'). rewrite total_insert, Ez, Hn' by done. split; [done|].
    specialize (Hpos _ _ Ez). lia.
Qed.

Lemma total_nonneg (m : gmap string A) n :
  (∀ x z, size x = Some z → 0 <= z) → total size m = Some n → 0 <= n.
Proof. intros Hpos Ht. destruct (total_subseteq m m n Hpos) as (n' & ? & ?); [done|done|]. simplify_eq. lia. Qed.
End total.

Lemma node_bytes_ge n z : node_bytes n = Some z → 0 <= z.
Proof. destruct n; simpl; [|done..]. intros [= <-]. apply str_len_ge. Qed.
Lemma entry_bytes_ge e z : entry_bytes e = Some z → 0 <= z.
Proof.
  destruct e as [fs|n]; simpl; [|apply node_bytes_ge].
  apply total_nonneg, node_bytes_ge.
Qed.
Lemma entries_bytes_ge m z : entries_bytes m = Some z → 0 <= z.
Proof. apply total_nonneg, entry_bytes_ge. Qed.

Lemma files_bytes_insert (fs : vfiles) name data :
  fs !! name = None → files_bytes (<[name := VFile data]> fs) = oadd (Some (str_len data)) (files_bytes fs).
Proof. intros. unfold files_bytes. by rewrite total_insert. Qed.

Lemma keep_files_bytes keeps fs n :
  files_bytes fs = Some n → ∃ n', files_bytes (keep_files keeps fs) = Some n' ∧ 0 <= n' <= n.
Proof. apply total_subseteq; [apply node_bytes_ge|]. apply map_filter_subseteq. Qed.

(** ** The effects *)

Section wp_effects.
Context `{VaultRuntime}.
Implicit Types (Q : unit → vault → Prop) (E : exn → vault → Prop) (C : vault → Prop).

Lemma wp_step f Q E C v :
  Q () (f (bump v)) → (∀ msg, E (Exn COSError msg) (bump v)) → C (bump v) → C (f (bump v)) →
  wp (v_step f) Q E C v.
Proof. unfold wp, v_step. destruct (vfault_at _) as [|msg|[|n]]; auto. Qed.

Lemma wp_write put data Q E C v :
  Q () (put data (bump v)) → (∀ msg, E (Exn COSError msg) (bump v)) →
  (∀ n, C (put (str_take n data) (bump v))) → wp (v_write put data) Q E C v.
Proof. unfold wp, v_write. destruct (vfault_at _) as [|msg|n]; auto. Qed.

Lemma wp_rmtree all some Q E C v :
  Q () (all (bump v)) → (∀ keeps e, E e (some keeps (bump v))) →
  (∀ keeps, C (some keeps (bump v))) → wp (v_rmtree all some) Q E C v.
Proof. intros HQ HE HC. unfold wp, v_rmtree. destruct (vfault_at _) as [|msg|n]; auto. Qed.

Lemma wp_rmtree_quiet all some Q E C v :
  Q () (all (bump v)) → (∀ keeps, Q () (some keeps (bump v))) →
  (∀ keeps, C (some keeps (bump v))) → wp (v_rmtree_quiet all some) Q E C v.
Proof.
  intros HQ Hs HC. apply wp_try, wp_rmtree; [done| |done]. intros keeps e. apply wp_ret, Hs.
Qed.

Lemma wp_read_at {A} (f : nat → A) (P : A → vault → Prop) E C v :
  P (f (v_ev v)) (bump v) → wp (v_read_at f) P E C v.
Proof. done. Qed.

Lemma wp_given_or o read (P : string → vault → Prop) E C v :
  (∀ t, o = Some t → t ≠ "" → P t v) → ((∀ t, o = Some t → t = "") → wp read P E C v) →
  wp (given_or o read) P E C v.
Proof.
  intros Hg Hr. destruct o as [t|]; simpl; [|by apply Hr].
  destruct (String.eqb_spec t "") as [->|Hne]; [apply Hr; naive_solver|by apply wp_ret, Hg].
Qed.

Lemma wp_require bad msg Q E C v :
  (bad = false → Q () v) → (bad = true → E (Exn CBackupError msg) v) →
  wp (require_bk bad msg) Q E C v.
Proof. unfold require_bk, guard_bk, guard_cls. destruct bad; intros; by apply wp_lift; naive_solver. Qed.

Lemma wp_read_exact size label (P : string → vault → Prop) E C v :
  0 <= size →
  (∀ s bs, stream_text (v_in v) = s +:+ stream_text bs → str_len s = size → P s (set_in bs v)) →
  (∀ bs, E (Exn CBackupError ("truncated " +:+ label)) (set_in bs v)) →
  wp (read_exact size label) P E C v.
Proof.
  intros Hs HP HE. unfold wp. destruct (read_exact_spec size label v Hs) as (bs & Ht & ->).
  destruct (Z.leb_spec size (str_len (stream_text (v_in v)))) as [Hle|]; [|by apply HE].
  apply HP; [by rewrite Ht, str_take_skip|]. unfold str_len in *. rewrite str_take_length. lia.
Qed.

(** What [ensure_directory] leaves of a slot. *)
Definition grown {A} (s s' : slot (gmap string A)) : Prop :=
  s' = s ∨ (s = SMissing ∧ s' = SDir ∅).

Lemma grown_entries {A} (s s' : slot (gmap string A)) : grown s s' → entries s' = entries s.
Proof. intros [->|[-> ->]]; done. Qed.

Lemma grown_dir {A} (s : slot (gmap string A)) m : grown s (SDir m) → entries s = m.
Proof. intros [<-|[-> [= ->]]]; done. Qed.

Lemma grown_bytes {A} (size : A → option Z) (s s' : slot (gmap string A)) :
  grown s s' → slot_bytes (total size) s' = slot_bytes (total size) s.
Proof. intros [->|[-> ->]]; [done|]. simpl. apply total_empty. Qed.

Lemma wp_ensure_slot {A} (read : vault → slot (gmap string A)) write label Q E C v :
  (∀ m, read v = SDir m → Q () v) →
  (read v = SMissing → Q () (write (SDir ∅) (bump v))) →
  (∀ e, E e v) → (∀ msg, E (Exn COSError msg) (bump v)) → C (bump v) →
  (read v = SMissing → C (write (SDir ∅) (bump v))) →
  wp (ensure_slot read write label) Q E C v.
Proof.
  intros Hd Hm HE HE' HC HC'. unfold ensure_slot. apply wp_bind, wp_gets.
  destruct (read v) eqn:Er; [|by eapply wp_ret, Hd|by apply wp_raise|by apply wp_raise].
  apply wp_step; auto.
Qed.
End wp_effects.
