(* ===== verification/VaultInventory.v ===== *)
(** * The off-host backup vault: the inventory is total

    The inventory of verified backups skips a directory whose inspection fails,
    for every exception that an inspection can raise: what lies in the backups
    root never makes [verified_vault_records] itself fail. *)
From S2P Require Import Prelude PyFloat PyValue PyTime PyPath PyJson PyJsonFacts PyEffect LifecycleCore.
From S2P Require Import Vault VaultStore VaultFacts.
#[local] Open Scope Z_scope.

(** An inspection raises nothing but what the loop catches. *)
Definition tame {A} (r : res A) : Prop := ∀ e, r = Raise e → skippable e = true.

Create HintDb tame.

Lemma tame_ok {A} (a : A) : tame (Ok a).
Proof. done. Qed.
Lemma tame_bk {A} msg : tame (@raise_bk A msg).
Proof. by intros e [= <-]. Qed.
Lemma tame_bind {A B} (m : res A) (f : A → res B) :
  tame m → (∀ a, m = Ok a → tame (f a)) → tame (m ≫= f).
Proof. intros Hm Hf. destruct m as [a|e]; simpl; [by apply Hf|]. intros e' [= <-]. by apply Hm. Qed.
Lemma tame_guard bad msg : tame (guard_bk bad msg).
Proof. unfold guard_bk, guard_cls. destruct bad; [apply tame_bk|apply tame_ok]. Qed.
Lemma tame_not_found {A} : tame (@not_found A).
Proof. by intros e [= <-]. Qed.
Lemma tame_in_str_set v l : tame (in_str_set v l).
Proof. destruct v; simpl; (apply tame_ok || by intros e [= <-]). Qed.
Lemma tame_validate_sha256 v label : tame (validate_sha256 v label).
Proof. destruct v; try apply tame_bk. simpl. destruct (SHA256_RE s); [apply tame_ok|apply tame_bk]. Qed.
Lemma tame_load_object n label : tame (load_object n label).
Proof. unfold load_object. destruct n as [[]|]; try apply tame_bk. destruct (json_loads _) as [[]|]; (apply tame_ok || apply tame_bk). Qed.
Lemma tame_require_regular n label : tame (require_regular n label).
Proof. destruct n as [[]|]; (apply tame_ok || apply tame_bk || apply tame_not_found). Qed.
Lemma tame_unsafe_entry {A} (o : option A) : tame (unsafe_entry o).
Proof. destruct o; [apply tame_ok|apply tame_bk]. Qed.

#[export] Hint Resolve tame_ok tame_bk tame_bind tame_guard tame_not_found tame_in_str_set
  tame_validate_sha256 tame_load_object tame_require_regular tame_unsafe_entry : tame.

Ltac tame := repeat first [progress intros | apply tame_bind | by eauto with tame].

Lemma tame_source_inventory seen l : tame (source_inventory seen l).
Proof.
  revert seen. induction l as [|v l IH]; intros seen; simpl; [apply tame_ok|].
  destruct v; try apply tame_bk. destruct (get d "id"), (get d "archive_path"); tame.
Qed.

Lemma tame_check_link ids seen v : tame (check_link ids seen v).
Proof. destruct v; try apply tame_bk. unfold check_link. tame. Qed.

Lemma tame_check_links ids seen l : tame (check_links ids seen l).
Proof.
  revert seen. induction l as [|v l IH]; intros seen; simpl; [apply tame_ok|].
  apply tame_bind; [apply tame_check_link|]. intros p _. apply IH.
Qed.

Lemma tame_class_names l : tame (class_names l).
Proof.
  induction l as [|v l IH]; simpl; [apply tame_ok|]. apply tame_bind; [tame|].
  intros known _. apply tame_bind; [done|]. intros [] _. tame.
Qed.

Lemma tame_check_classes m : tame (check_classes m).
Proof.
  unfold check_classes. destruct (get m "retention_classes") as [| | | | |[|v l]|]; try apply tame_bk.
  apply tame_bind; [apply tame_class_names|]. intros [] _. tame.
Qed.

Lemma tame_check_created_at v : tame (check_created_at v).
Proof. unfold check_created_at. destruct (fromisoformat _); tame. Qed.

#[export] Hint Resolve tame_source_inventory tame_check_links tame_check_classes
  tame_check_created_at : tame.

Lemma tame_validate_manifest_binding n h : tame (validate_manifest_binding n h).
Proof. unfold validate_manifest_binding, validate_manifest_link_contract. tame. Qed.

#[export] Hint Resolve tame_validate_manifest_binding : tame.

Section inventory.
Context `{VaultRuntime}.

Lemma tame_inspect_backup identity name fs : tame (inspect_backup identity name fs).
Proof.
  unfold inspect_backup. tame.
  destruct (differs _ _); [tame|]. destruct (negb _); tame.
Qed.

(** What the loop does with one directory entry. *)
Definition inspect_entry (identity : string) (m : ventries) (name : string) : option vrecord :=
  match m !! name with
  | Some (VDir fs) =>
      if BACKUP_ID_RE name
      then match inspect_backup identity name fs with Ok x => x | Raise _ => None end
      else None
  | _ => None
  end.

Lemma inspect_all_spec identity m names :
  inspect_all identity m names = Ok (omap (inspect_entry identity m) names).
Proof.
  induction names as [|name names IH]; [done|]. cbn [inspect_all omap list_omap]. rewrite IH.
  unfold inspect_entry at 2. destruct (m !! name) as [[fs|]|]; [|done..].
  destruct (BACKUP_ID_RE name); [|done].
  pose proof (tame_inspect_backup identity name fs) as Ht.
  destruct (inspect_backup identity name fs) as [[]|e]; [done..|].
  by rewrite (Ht e eq_refl).
Qed.

Lemma inspect_backup_id identity name fs r :
  inspect_backup identity name fs = Ok (Some r) →
  r_id r = name ∧ files_bytes fs = Some (r_bytes r)
  ∧ ∃ receipt, fs !! "receipt.json" = Some (VFile receipt) ∧ r_receipt r = vsha256 receipt.
Proof.
  unfold inspect_backup. intros Hi. bk_inv.
  destruct (differs _ _); [done|]. destruct (negb _); [done|]. bk_inv. simplify_eq. simpl.
  split; [done|]. split.
  - match goal with H : unsafe_entry _ = Ok _ |- _ => unfold unsafe_entry in H end.
    by destruct (files_bytes fs); simplify_eq.
  - destruct (fs !! "receipt.json") as [[]|]; try done.
    match goal with H : require_regular (Some (VFile _)) "remote receipt" = Ok _ |- _ =>
      simpl in H; injection H as -> end. by eauto.
Qed.

(** The records of a vault are those of its entries, in the order of their
    names and without repetitions. *)
Lemma verified_records_spec identity m v :
  expected_identity_of (Some identity) v = Ok identity → v_backups v = SDir m →
  verified_vault_records (Some identity) v
  = Ok (omap (inspect_entry identity m) (sort_str (map fst (map_to_list m)))).
Proof.
  intros Hi Hm. unfold verified_vault_records. rewrite Hi, Hm. simpl. apply inspect_all_spec.
Qed.

Lemma inspect_entry_id identity m name r :
  inspect_entry identity m name = Some r →
  r_id r = name ∧ BACKUP_ID_RE name = true ∧ ∃ fs, m !! name = Some (VDir fs)
  ∧ inspect_backup identity name fs = Ok (Some r).
Proof.
  unfold inspect_entry. destruct (m !! name) as [[fs|]|]; try done.
  destruct (BACKUP_ID_RE name); [|done].
  destruct (inspect_backup identity name fs) as [o|] eqn:Ei; [|done]. intros ->.
  destruct (inspect_backup_id _ _ _ _ Ei) as [? _]. by eauto.
Qed.

Lemma expected_identity_given i v x : expected_identity_of (Some i) v = Ok x → x = i.
Proof. unfold expected_identity_of. simpl. destruct (SHA256_RE i); [by intros [= ->]|done]. Qed.

Lemma record_elem identity m v records r :
  verified_vault_records (Some identity) v = Ok records → v_backups v = SDir m →
  r ∈ records ↔ inspect_entry identity m (r_id r) = Some r.
Proof.
  intros Hv Hm. unfold verified_vault_records in Hv.
  apply res_bind_ok in Hv as (x & Hx & Hv). apply expected_identity_given in Hx as ->.
  apply res_bind_ok in Hv as (m' & Hm' & Hv). rewrite Hm in Hm'. simpl in Hm'. simplify_eq.
  rewrite inspect_all_spec in *. simplify_eq. rewrite list_elem_of_omap. split.
  - intros (name & _ & Hn). by destruct (inspect_entry_id _ _ _ _ Hn) as [-> _].
  - intros Hr. exists (r_id r). split; [|done]. unfold sort_str. rewrite merge_sort_Permutation.
    destruct (inspect_entry_id _ _ _ _ Hr) as (_ & _ & fs & Hfs & _).
    apply list_elem_of_fmap. exists (r_id r, VDir fs). split; [done|]. by apply elem_of_map_to_list.
Qed.

(** The records of a vault, for whichever identity. *)
Lemma verified_records_inv expected v records :
  verified_vault_records expected v = Ok records →
  ∃ identity m, expected_identity_of expected v = Ok identity ∧ v_backups v = SDir m
    ∧ records = omap (inspect_entry identity m) (sort_str (map fst (map_to_list m))).
Proof.
  unfold verified_vault_records. intros Hv. apply res_bind_ok in Hv as (x & Hx & Hv).
  apply res_bind_ok in Hv as (m & Hm & Hv). destruct (v_backups v) eqn:Hb; try done.
  apply Ok_inj in Hm. subst. rewrite inspect_all_spec in Hv. apply Ok_inj in Hv. by eauto.
Qed.

Lemma records_nodup expected v records :
  verified_vault_records expected v = Ok records → NoDup (map r_id records).
Proof.
  intros Hv. destruct (verified_records_inv _ _ _ Hv) as (identity & m & _ & _ & ->). clear Hv.
  assert (NoDup (sort_str (map fst (map_to_list m)))) as Hnd.
  { unfold sort_str. rewrite merge_sort_Permutation. apply NoDup_fst_map_to_list. }
  induction Hnd as [|name names Hn Hnd IH]; [constructor|]. simpl.
  destruct (inspect_entry identity m name) as [r|] eqn:Hr; [|done]. simpl.
  destruct (inspect_entry_id _ _ _ _ Hr) as [Hid _]. constructor; [|done].
  rewrite Hid. intros (r' & Hr' & (name' & Hin & Hname)%list_elem_of_omap)%list_elem_of_fmap.
  destruct (inspect_entry_id _ _ _ _ Hname) as [Hid' _]. congruence.
Qed.
End inventory.
