(* ===== verification/VaultStoreFacts.v ===== *)
(** * The off-host backup vault: theorems on uploads

    Every outcome of [remote_store] (a receipt, an exception, the death of the
    process) leaves the vault in one of three shapes: as it was, with one
    staging directory more, or with one complete backup more.  The safety and
    capacity theorems are read off these shapes; the acceptance theorem follows
    an upload from the frame the source host sends to the receipt it checks. *)
From S2P Require Import Prelude PyFloat PyValue PyTime PyPath PyJson PyJsonFacts PyEffect LifecycleCore.
From S2P Require Import Vault VaultStore VaultFacts.
#[local] Open Scope Z_scope.

Section store_facts.
Context `{VaultRuntime}.

(** ** The shapes of the vault during an upload *)

(** Everything an upload does not touch. *)
Definition same_rest (v v' : vault) : Prop :=
  v_identity v' = v_identity v ∧ v_lock v' = v_lock v ∧ v_other v' = v_other v
  ∧ v_known_good v' = v_known_good v ∧ v_deletions v' = v_deletions v ∧ v_trash v' = v_trash v.

(** The receipt the vault writes. *)
Definition stored_receipt (i archive manifest stored_at identity : string) : pydict :=
  [("schema_version", PInt 1); ("backup_id", PStr i); ("stored_at", PStr stored_at);
   ("archive_sha256", PStr (vsha256 archive)); ("archive_size", PInt (str_len archive));
   ("manifest_sha256", PStr (vsha256 manifest)); ("manifest_size", PInt (str_len manifest));
   ("vault_host_id_sha256", PStr identity); ("remote_readback_sha256", PBool true);
   ("create_only", PBool true); ("secret_material_recorded", PBool false)].

(** The files of a complete backup. *)
Definition backup_files (archive manifest receipt : string) : vfiles :=
  <["receipt.json" := VFile receipt]>
    (<["manifest.json" := VFile manifest]> (<["payload.tar.age" := VFile archive]> ∅)).

(** A backup is complete: its manifest binds its archive and its receipt was
    written for both. *)
Definition complete_backup (v : vault) (i stored_at : string) (fs : vfiles) : Prop :=
  ∃ archive manifest identity,
    fs = backup_files archive manifest
           (canonical_json (PDict (stored_receipt i archive manifest stored_at identity)))
    ∧ validate_backup_id i = Ok i ∧ vault_host_id (v_identity v) = Ok identity
    ∧ is_ok (validate_manifest_binding (Some (VFile manifest))
               (binding_fields (PStr i) archive manifest)) = true.

(** The space reserved for a bounded upload. *)
Definition room_reserved (bounded : bool) (v : vault) (candidate : Z) : Prop :=
  bounded = true → ∃ b, vault_bytes v = Some b ∧ 0 <= b ∧ b + candidate <= DEFAULT_MAX_VAULT_BYTES.

Definition idle (v v' : vault) : Prop :=
  same_rest v v' ∧ grown (v_backups v) (v_backups v') ∧ grown (v_incoming v) (v_incoming v').

Definition staged (bounded : bool) (candidate : Z) (v : vault) (tmp : string) (fs : vfiles)
    (v' : vault) : Prop :=
  same_rest v v' ∧ grown (v_backups v) (v_backups v') ∧ (∃ m, v_backups v' = SDir m)
  ∧ grown (v_incoming v) (SDir (entries (v_incoming v))) ∧ entries (v_incoming v) !! tmp = None
  ∧ v_incoming v' = SDir (<[tmp := VDir fs]> (entries (v_incoming v)))
  ∧ (∃ n, files_bytes fs = Some n ∧ 0 <= n <= candidate) ∧ room_reserved bounded v candidate.

Definition stored (bounded : bool) (candidate : Z) (v : vault) (i stored_at : string)
    (v' : vault) : Prop :=
  ∃ fs, same_rest v v' ∧ grown (v_backups v) (SDir (entries (v_backups v)))
  ∧ entries (v_backups v) !! i = None
  ∧ v_backups v' = SDir (<[i := VDir fs]> (entries (v_backups v)))
  ∧ grown (v_incoming v) (v_incoming v') ∧ complete_backup v i stored_at fs
  ∧ (∃ n, files_bytes fs = Some n ∧ 0 <= n <= candidate) ∧ room_reserved bounded v candidate.

Lemma grown_dir_intro (s : slot ventries) m : grown s (SDir m) → grown s (SDir (entries s)).
Proof. intros Hg. by rewrite (grown_dir _ _ Hg). Qed.

(** ** The steps on a staging directory *)

Lemma put_file_staged i name data fs (m : ventries) :
  put_file i name data (SDir (<[i := VDir fs]> m))
  = SDir (<[i := VDir (<[name := VFile data]> fs)]> m).
Proof. simpl. by rewrite lookup_insert_eq, insert_insert_eq. Qed.

Lemma entry_file_staged i name fs (m : ventries) :
  entry_file (SDir (<[i := VDir fs]> m)) i name = fs !! name.
Proof. unfold entry_file. simpl. by rewrite lookup_insert_eq. Qed.

Lemma drop_staged i fs (m : ventries) :
  m !! i = None → drop_entry i (SDir (<[i := VDir fs]> m)) = SDir m.
Proof. intros Hi. simpl. by rewrite delete_insert_id. Qed.

Lemma thin_staged i keeps fs (m : ventries) :
  thin_entry i keeps (SDir (<[i := VDir fs]> m)) = SDir (<[i := VDir (keep_files keeps fs)]> m).
Proof. simpl. by rewrite lookup_insert_eq, insert_insert_eq. Qed.

Section staging.
Context (bounded : bool) (candidate : Z) (v : vault) (tmp : string).
Abbreviation staged_in := (staged bounded candidate v tmp).

(** Cleaning up after an exception. *)
Lemma wp_cleanup fs exc (Q : pydict → vault → Prop) v' :
  staged_in fs v' →
  wp (rmtree_incoming tmp;; e_lift (Raise exc)) Q
    (λ _ v'', idle v v'' ∨ ∃ fs, staged_in fs v'') (λ v'', ∃ fs, staged_in fs v'') v'.
Proof.
  intros (Hr & Hb & Hbd & Hg & Hf & Hi & (n & Hn & Hc) & Hres).
  assert (∀ keeps v0, v0 = set_incoming (thin_entry tmp keeps (v_incoming (bump v'))) (bump v') →
    ∃ fs, staged_in fs v0) as Hthin.
  { intros keeps v0 ->. exists (keep_files keeps fs).
    destruct (keep_files_bytes keeps fs n Hn) as (n' & Hn' & Hle).
    repeat (split; [done|]). simpl. rewrite Hi, thin_staged. split; [done|]. split; [|done].
    exists n'. split; [done|lia]. }
  apply wp_bind. unfold rmtree_incoming. apply wp_rmtree_quiet.
  - apply wp_lift; [done|]. intros _ _. left. split; [done|]. split; [done|].
    simpl. by rewrite Hi, drop_staged.
  - intros keeps. apply wp_lift; [done|]. intros _ _. right. by eapply Hthin.
  - intros keeps. by eapply Hthin.
Qed.

(** A file is added within the reservation. *)
Lemma staged_write fs name data n v' :
  staged_in fs v' → fs !! name = None → files_bytes fs = Some n → n + str_len data <= candidate →
  staged_in (<[name := VFile data]> fs) (put_incoming tmp name data v').
Proof.
  intros (Hr & Hb & Hbd & Hg & Hf & Hi & (n' & Hn' & Hc) & Hres) Hname Hn Hle.
  repeat (split; [done|]). simpl. rewrite Hi, put_file_staged. split; [done|]. split; [|done].
  rewrite files_bytes_insert, Hn by done. simplify_eq. eexists. split; [done|].
  pose proof (str_len_ge data). lia.
Qed.

Lemma wp_copy_incoming fs name size label n (Q : unit → vault → Prop) (E : exn → vault → Prop)
    (C : vault → Prop) v' :
  staged_in fs v' → fs !! name = None → files_bytes fs = Some n → 0 <= size → n + size <= candidate →
  (∀ data v'', str_len data = size → stream_text (v_in v') = data +:+ stream_text (v_in v'') →
     staged_in (<[name := VFile data]> fs) v'' → Q () v'') →
  (∀ e v'', staged_in fs v'' → E e v'') → (∀ fs v'', staged_in fs v'' → C v'') →
  wp (copy_incoming tmp name size label) Q E C v'.
Proof.
  intros Hst Hname Hn Hs Hle HQ HE HC. apply wp_bind. apply wp_read_exact; [done| |].
  2:{ intros bs. by apply HE. }
  intros data bs Ht Hl. apply wp_write.
  - eapply HQ; [done|exact Ht|]. eapply staged_write; [done..|lia].
  - intros msg. by apply HE.
  - intros k. eapply HC, staged_write; [done..|]. unfold str_len in *. rewrite str_take_length. lia.
Qed.
End staging.

(** ** The body of an upload *)

(** The sizes a header announces. *)
Definition announced (header : pydict) (i : string) (a b : Z) : Prop :=
  get header "backup_id" = PStr i ∧ validate_backup_id i = Ok i
  ∧ get header "archive_size" = PInt a ∧ 0 < a ∧ get header "manifest_size" = PInt b ∧ 0 < b.

Definition stamped (recorded_at : option string) (stored_at : string) : Prop :=
  recorded_at = Some stored_at ∨ ∃ n, stored_at = vnow_at n.

Lemma files_bytes_two archive manifest :
  files_bytes (<["manifest.json" := VFile manifest]> (<["payload.tar.age" := VFile archive]> ∅))
  = Some (str_len manifest + (str_len archive + 0)).
Proof.
  rewrite !files_bytes_insert by done. unfold files_bytes. by rewrite total_empty.
Qed.

(** A complete staging directory moves into the backups. *)
Lemma move_stored bounded candidate v tmp i stored_at fs v' :
  staged bounded candidate v tmp fs v' → complete_backup v i stored_at fs →
  entries (v_backups v) !! i = None →
  stored bounded candidate v i stored_at (move_to_backups tmp i v').
Proof.
  intros (Hr & Hb & [m Hm] & Hg & Hf & Hi & Hn & Hres) Hc Hfresh.
  unfold move_to_backups. rewrite Hi. simpl. rewrite lookup_insert_eq. exists fs.
  rewrite Hm in Hb. split; [done|]. split; [by eapply grown_dir_intro|]. split; [done|].
  simpl. rewrite Hm. simpl. rewrite delete_insert_id by done.
  by rewrite <- (grown_dir _ _ Hb).
Qed.

Lemma py_eqb_str_l s v : py_eqb (PStr s) v = true ↔ v = PStr s.
Proof. destruct v; simpl; try (split; [done|intros [=]]). rewrite String.eqb_eq. naive_solver. Qed.

(** The binding looks at three fields of a header. *)
Lemma binding_header n h h' :
  get h "backup_id" = get h' "backup_id" → get h "archive_sha256" = get h' "archive_sha256" →
  get h "archive_size" = get h' "archive_size" →
  validate_manifest_binding n h = validate_manifest_binding n h'.
Proof. intros H1 H2 H3. unfold validate_manifest_binding. by rewrite H1, H2, H3. Qed.

Lemma wp_incoming_sha256 bounded candidate v tmp fs name b (Q : string → vault → Prop) E C v' :
  staged bounded candidate v tmp fs v' → fs !! name = Some (VFile b) →
  Q (vsha256 b) v' → wp (incoming_sha256 tmp name) Q E C v'.
Proof.
  intros (_ & _ & _ & _ & _ & Hi & _) Hfs HQ. unfold incoming_sha256.
  apply wp_read; rewrite Hi, entry_file_staged, Hfs; [by intros ? [= <-]|done].
Qed.

(** The check after the files are in place reads the vault only. *)
Lemma wp_check_capacity (Q : unit → vault → Prop) (E : exn → vault → Prop) C v :
  (Q () (bump v)) → (∀ e, E e v) → (∀ e, E e (bump v)) → wp check_capacity Q E C v.
Proof.
  intros HQ HE HE'. apply wp_bind, wp_read; [|auto]. intros n _.
  apply wp_bind, wp_read_at, wp_bind, wp_require; [|auto]. intros _.
  apply wp_require; auto.
Qed.

Lemma stored_receipt_eq header i archive manifest t identity :
  get header "archive_sha256" = PStr (vsha256 archive) →
  get header "archive_size" = PInt (str_len archive) →
  get header "manifest_sha256" = PStr (vsha256 manifest) →
  get header "manifest_size" = PInt (str_len manifest) →
  [("schema_version", PInt 1); ("backup_id", PStr i); ("stored_at", PStr t);
   ("archive_sha256", get header "archive_sha256"); ("archive_size", get header "archive_size");
   ("manifest_sha256", get header "manifest_sha256");
   ("manifest_size", get header "manifest_size"); ("vault_host_id_sha256", PStr identity);
   ("remote_readback_sha256", PBool true); ("create_only", PBool true);
   ("secret_material_recorded", PBool false)]
  = stored_receipt i archive manifest t identity.
Proof. by intros -> -> -> ->. Qed.

Section body.
Context (bounded : bool) (v : vault) (header : pydict) (i tmp : string).
Context (recorded_at : option string) (a b : Z).
Hypothesis Hann : announced header i a b.
Hypothesis Hfresh : entries (v_backups v) !! i = None.
Let candidate := a + b + REMOTE_RECEIPT_RESERVATION_BYTES.
Let staged_now v'' := ∃ fs, staged bounded candidate v tmp fs v''.
Let stored_now v'' := ∃ t, stamped recorded_at t ∧ stored bounded candidate v i t v''.

Lemma wp_publish archive manifest v' :
  str_len archive = a → str_len manifest = b →
  get header "archive_sha256" = PStr (vsha256 archive) →
  get header "manifest_sha256" = PStr (vsha256 manifest) →
  is_ok (validate_manifest_binding (Some (VFile manifest)) header) = true →
  staged bounded candidate v tmp
    (<["manifest.json" := VFile manifest]> (<["payload.tar.age" := VFile archive]> ∅)) v' →
  wp (publish header i tmp recorded_at bounded) (λ _, stored_now) (λ _, staged_now)
    (λ v'', staged_now v'' ∨ stored_now v'') v'.
Proof.
  intros Hla Hlb Hsa Hsm Hmf Hst. destruct Hann as (Hid & Hvid & Ha & Ha0 & Hb & Hb0).
  rewrite <- Hla in Ha. rewrite <- Hlb in Hb.
  unfold publish. apply wp_bind.
  eapply (wp_mono _ (λ t v1, stamped recorded_at t ∧ staged bounded candidate v tmp
    (<["manifest.json" := VFile manifest]> (<["payload.tar.age" := VFile archive]> ∅)) v1)
    _ (λ _ _, False) _ (λ _, False)); [|clear Hst|done|done].
  { apply wp_given_or; [intros t Ht _; split; [by left|done]|intros _]. apply wp_read_at. split; [right; eauto|done]. }
  intros t v1 [Ht Hst].
  apply wp_bind, wp_read; [|intros; eexists; eauto]. intros identity Hident.
  rewrite (stored_receipt_eq header i archive manifest t identity) by done.
  set (text := canonical_json _).
  apply wp_bind, wp_require; [intros Hsize|intros; eexists; eauto].
  apply Z.ltb_ge in Hsize.
  assert (∀ data, str_len data <= str_len text →
    staged bounded candidate v tmp (backup_files archive manifest data)
      (put_incoming tmp "receipt.json" data (bump v1))) as Hput.
  { intros data Hd. eapply staged_write; [done|done|apply files_bytes_two|].
    unfold candidate. lia. }
  assert (complete_backup v i t (backup_files archive manifest text)) as Hc.
  { exists archive, manifest, identity. split; [done|]. split; [done|].
    destruct Hst as ((Heq & _) & _). rewrite Heq in Hident. split; [done|].
    erewrite binding_header; [exact Hmf|..]; cbn; by rewrite ?Hid, ?Ha, ?Hsa. }
  apply wp_bind, wp_write; [|intros; eexists; eauto|].
  2:{ intros n. left. eexists. apply Hput. unfold str_len. rewrite str_take_length. lia. }
  assert (∀ v2, staged bounded candidate v tmp (backup_files archive manifest text) v2 →
    wp (v_step (move_to_backups tmp i);; mret (stored_receipt i archive manifest t identity))
      (λ _, stored_now) (λ _, staged_now) (λ v'', staged_now v'' ∨ stored_now v'') v2) as Hmove.
  { intros v2 Hst2. apply wp_bind, wp_step.
    - apply wp_ret. exists t. split; [done|]. by eapply move_stored.
    - intros. eexists. exact Hst2.
    - left. eexists. exact Hst2.
    - right. exists t. split; [done|]. by eapply move_stored. }
  specialize (Hput text (Z.le_refl _)).
  apply wp_bind. destruct bounded; [apply wp_check_capacity; [|intros; eexists; eauto..]|apply wp_ret];
    by apply Hmove.
Qed.

Lemma wp_receive v' :
  staged bounded candidate v tmp ∅ v' →
  wp (receive header i tmp recorded_at bounded) (λ _, stored_now) (λ _, staged_now)
    (λ v'', staged_now v'' ∨ stored_now v'') v'.
Proof.
  intros Hst. destruct (Hann) as (Hid & Hvid & Ha & Ha0 & Hb & Hb0). unfold receive.
  rewrite Ha, Hb. cbn [as_size].
  assert (0 < REMOTE_RECEIPT_RESERVATION_BYTES) as Hres by done.
  apply wp_bind. eapply wp_copy_incoming;
    [exact Hst|done|apply total_empty|lia|unfold candidate; lia|..|by eexists|left; by eexists].
  intros archive v1 Hla _ Hst1.
  apply wp_bind. eapply wp_copy_incoming;
    [exact Hst1|done|by rewrite files_bytes_insert by done|lia| |..|by eexists|left; by eexists].
  { unfold candidate. lia. }
  intros manifest v2 Hlb _ Hst2.
  apply wp_bind, wp_gets, wp_bind, wp_require; [intros _|by eexists].
  apply wp_bind. eapply wp_incoming_sha256; [done|done|].
  apply wp_bind, wp_require; [intros Hsa|by eexists].
  apply negb_false_iff, py_eqb_str_l in Hsa.
  apply wp_bind. eapply wp_incoming_sha256; [done|done|].
  apply wp_bind, wp_require; [intros Hsm|by eexists].
  apply negb_false_iff, py_eqb_str_l in Hsm.
  apply wp_bind, wp_read; [|by eexists]. intros mf Hmf.
  pose proof Hst2 as (_ & _ & _ & _ & _ & Hi2 & _).
  rewrite Hi2, entry_file_staged, lookup_insert_eq in Hmf.
  apply (wp_publish archive manifest); try done. by rewrite Hmf.
Qed.
End body.

(** ** The whole upload *)

(** What an upload leaves, whatever becomes of it. *)
Definition store_shape (bounded : bool) (recorded_at : option string) (v v' : vault) : Prop :=
  idle v v'
  ∨ (∃ c tmp fs, staged bounded c v tmp fs v')
  ∨ (∃ c i t, stamped recorded_at t ∧ stored bounded c v i t v').

Lemma positive_count_spec v : positive_count v = true ↔ ∃ z, v = PInt z ∧ 0 < z.
Proof. destruct v; simpl; try naive_solver. rewrite Z.ltb_lt. naive_solver. Qed.

Lemma check_header_announced text d i :
  check_header text = Ok d → path_component (get d "backup_id") = Ok i →
  ∃ a b, announced d i a b.
Proof.
  unfold check_header. intros Hh Hp. destruct (json_loads text) as [[]|]; try done.
  bk_inv. bool_split. destruct (get d "backup_id") eqn:Hid; try done. simpl in Hp. injection Hp as ->.
  repeat match goal with H : positive_count _ = true |- _ =>
    apply positive_count_spec in H as (? & ? & ?) end.
  eexists _, _. split; [done|]. repeat split; eauto.
  unfold get, get_or in *. destruct (dlookup "backup_id" d) as [w|]; [|done]. subst w.
  match goal with H : validate_backup_id _ = Ok _ |- _ => pose proof H as E; simpl in H end.
  unfold validate_backup_id in E. bk_inv. done.
Qed.

Lemma idle_refl v : idle v v.
Proof. repeat split; by left. Qed.

Lemma wp_parse_upload_header v (Q : pydict → vault → Prop) (E : exn → vault → Prop) C :
  (∀ text d bs, check_header text = Ok d → Q d (set_in bs v)) →
  (∀ e bs, E e (set_in bs v)) → wp parse_upload_header Q E C v.
Proof.
  intros HQ HE. apply wp_bind, wp_read_exact; [done| |by intros; apply HE].
  intros prefix bs _ _. set (n := Z.of_N _). apply wp_bind, wp_require; [|by intros; apply HE].
  intros Hn. apply wp_bind, wp_read_exact; [bool_split; lia| |].
  - intros text bs' _ _. apply wp_lift; [|by intros; apply (HE _ bs')]. intros d Hd.
    by apply (HQ text d bs').
  - intros bs'. apply (HE _ bs').
Qed.

Lemma wp_reserve_capacity candidate v (Q : unit → vault → Prop) (E : exn → vault → Prop) C :
  (room_reserved true v candidate → Q () (bump v)) → (∀ e, E e v) → (∀ e, E e (bump v)) →
  wp (reserve_capacity candidate) Q E C v.
Proof.
  intros HQ HE HE'. apply wp_bind, wp_read; [|auto]. intros n Hn.
  apply wp_bind, wp_read_at, wp_bind, wp_require; [|auto]. intros Hneg. bool_split.
  apply wp_bind, wp_require; [|auto]. intros Hmax.
  apply wp_require; [|auto]. intros _. apply HQ. intros _.
  unfold logical_regular_file_bytes, unsafe_entry in Hn. destruct (vault_bytes v) as [b|]; [|done].
  injection Hn as ->. exists n. split; [done|lia].
Qed.

(** Reading from the stream and passing events change nothing that is stored. *)
Lemma reserved_same bounded v v' candidate :
  idle v v' → v_backups v' = v_backups v → v_incoming v' = v_incoming v →
  room_reserved bounded v' candidate → room_reserved bounded v candidate.
Proof.
  intros ((Hi & Hl & Ho & Hk & Hd & Ht) & _) Hb Hin Hr ->. destruct (Hr eq_refl) as (b & Hv & ?).
  exists b. split; [|done]. rewrite <- Hv. unfold vault_bytes.
  by rewrite Hi, Hl, Ho, Hk, Hd, Ht, Hb, Hin.
Qed.

Lemma wp_ensure_backups v v2 :
  idle v v2 → v_backups v2 = v_backups v →
  wp (ensure_slot v_backups set_backups "vault backups root")
    (λ _ v', idle v v' ∧ v_incoming v' = v_incoming v2 ∧ ∃ m, v_backups v' = SDir m)
    (λ _, idle v) (idle v) v2.
Proof.
  intros Hidle Hb. pose proof Hidle as (Hr & _ & Hi).
  apply wp_ensure_slot; try done.
  - intros m Hm. by eauto.
  - intros Hm. rewrite Hb in Hm. split; [|by eauto]. split; [done|]. by split; [right|].
  - intros Hm. rewrite Hb in Hm. split; [done|]. by split; [right|].
Qed.

Lemma wp_ensure_incoming v v2 :
  idle v v2 → v_incoming v2 = v_incoming v →
  wp (ensure_slot v_incoming set_incoming "vault incoming root")
    (λ _ v', idle v v' ∧ v_backups v' = v_backups v2 ∧ ∃ m, v_incoming v' = SDir m)
    (λ _, idle v) (idle v) v2.
Proof.
  intros Hidle Hb. pose proof Hidle as (Hr & Hi & _).
  apply wp_ensure_slot; try done.
  - intros m Hm. by eauto.
  - intros Hm. rewrite Hb in Hm. split; [|by eauto]. split; [done|]. by split; [|right].
  - intros Hm. rewrite Hb in Hm. split; [done|]. by split; [|right].
Qed.

(** The staging directory is created empty. *)
Lemma mkdir_staged bounded candidate v tmp v' :
  idle v v' → (∃ m, v_backups v' = SDir m) → (∃ m, v_incoming v' = SDir m) →
  entries (v_incoming v') !! tmp = None → 0 <= candidate → room_reserved bounded v candidate →
  staged bounded candidate v tmp ∅
    (set_incoming (SDir (<[tmp := VDir ∅]> (entries (v_incoming v')))) v').
Proof.
  intros (Hr & Hb & Hi) Hbd [m Hm] Hf Hc Hres. rewrite (grown_entries _ _ Hi) in *.
  rewrite Hm in Hi. split; [done|]. split; [done|]. split; [done|].
  split; [by eapply grown_dir_intro|]. split; [done|]. split; [done|]. split; [|done].
  exists 0. split; [apply total_empty|lia].
Qed.

Lemma announced_candidate header i a b :
  announced header i a b →
  as_size (get header "archive_size") + as_size (get header "manifest_size")
    + REMOTE_RECEIPT_RESERVATION_BYTES = a + b + REMOTE_RECEIPT_RESERVATION_BYTES
  ∧ 0 <= a + b + REMOTE_RECEIPT_RESERVATION_BYTES.
Proof. intros (_ & _ & -> & ? & -> & ?). simpl. split; [done|]. unfold REMOTE_RECEIPT_RESERVATION_BYTES. lia. Qed.

Lemma wp_remote_store_locked recorded_at bounded v v1 :
  idle v v1 → v_backups v1 = v_backups v → v_incoming v1 = v_incoming v →
  wp (remote_store_locked recorded_at bounded)
    (λ _ v', ∃ c i t, stamped recorded_at t ∧ stored bounded c v i t v')
    (λ _, store_shape bounded recorded_at v) (store_shape bounded recorded_at v) v1.
Proof.
  intros Hidle Hb1 Hi1. unfold remote_store_locked.
  apply wp_bind, wp_parse_upload_header; [|by left]. intros text header bs Hheader.
  set (candidate := _ + _ + _).
  apply wp_bind. eapply (wp_mono _ (λ _ v', idle v v' ∧ v_backups v' = v_backups v
      ∧ v_incoming v' = v_incoming v ∧ room_reserved bounded v candidate)
    _ (λ _, idle v) _ (λ _, False)); [| |by left|done].
  { destruct bounded; [apply wp_reserve_capacity; [|done|done]|by apply wp_ret].
    intros Hr. split; [done|]. split; [done|]. split; [done|].
    eapply (reserved_same true v (set_in bs v1)); [done..|]. exact Hr. }
  intros _ v2 (Hidle2 & Hb2 & Hi2 & Hres).
  apply wp_bind. eapply wp_mono; [by apply wp_ensure_backups| |by left|by left].
  intros _ v3 (Hidle3 & Hi3 & Hbd3). rewrite Hi2 in Hi3.
  apply wp_bind, wp_lift; [|by left]. intros i Hpath.
  destruct (check_header_announced _ _ _ Hheader Hpath) as (a & b & Hann).
  destruct (announced_candidate _ _ _ _ Hann) as [Hcand Hpos]. subst candidate. rewrite Hcand in Hres.
  apply wp_bind. eapply wp_mono; [by apply wp_ensure_incoming| |by left|by left].
  intros _ v4 (Hidle4 & Hb4 & Hid4). rewrite <- Hb4 in Hbd3.
  apply wp_bind, wp_gets, wp_bind, wp_require; [|by left]. intros Hfresh.
  destruct (entries (v_backups v4) !! i) eqn:Hfresh'; [done|].
  rewrite (grown_entries _ _ (proj1 (proj2 Hidle4))) in Hfresh'.
  apply wp_bind, wp_read_at, wp_bind, wp_gets.
  set (tmp := i +:+ _). apply wp_bind.
  destruct (entries (v_incoming (bump v4)) !! tmp) eqn:Htmp; [apply wp_raise; by left|].
  apply wp_ret.
  assert (staged bounded (a + b + REMOTE_RECEIPT_RESERVATION_BYTES) v tmp ∅
    (set_incoming (SDir (<[tmp := VDir ∅]> (entries (v_incoming (bump (bump v4))))))
       (bump (bump v4)))) as Hst.
  { by apply mkdir_staged. }
  apply wp_bind, wp_step; [|by left|by left|right; left; by eexists _, _, _].
  apply wp_try. eapply wp_mono; [by apply wp_receive| | |].
  - intros _ v5 (t & Ht & Hst5). by eexists _, _, _.
  - intros e v5 [fs Hfs]. eapply (wp_mono _ (λ _ _, False)); [by eapply wp_cleanup|done| |].
    + intros _ v6 [|[fs' Hfs']]; [by left|]. right; left. by eexists _, _, _.
    + intros v6 [fs' Hfs']. right; left. by eexists _, _, _.
  - intros v5 [[fs Hfs]|(t & Ht & Hst5)]; right; [left|right]; by eexists _, _, _.
Qed.

Definition bounded_by (v : vault) : bool := bool_decide (is_Some (v_lock v)).

Lemma wp_vault_local_lock {A} trusted (m : VM A) (Q : A → vault → Prop) (E : exn → vault → Prop) C v :
  wp m Q E C (bump v) → (∀ e, E e v) → (∀ e, E e (bump v)) → C (bump v) →
  wp (vault_local_lock trusted m) Q E C v.
Proof.
  intros Hm HE HE' HC. apply wp_bind, wp_read; [|auto]. intros _ _.
  apply wp_bind, wp_require; [|auto]. intros _. by apply wp_bind, wp_step.
Qed.

Lemma wp_remote_store trusted recorded_at v :
  let b := bounded_by v in
  wp (remote_store trusted recorded_at)
    (λ _ v', ∃ c i t, stamped recorded_at t ∧ stored b c v i t v')
    (λ _, store_shape b recorded_at v) (store_shape b recorded_at v) v.
Proof.
  intros b. subst b. unfold remote_store, bounded_by. apply wp_bind, wp_gets.
  pose proof (idle_refl v) as Hidle.
  destruct (v_lock v); [rewrite bool_decide_true by done|
    rewrite bool_decide_false by (by intros [? ?]); by apply wp_remote_store_locked].
  apply wp_bind, wp_read; [|by left]. intros _ _.
  apply wp_vault_local_lock; [|by left..]. by apply wp_remote_store_locked.
Qed.

(** Whatever the outcome, the shape is one of the three. *)
Lemma remote_store_shape trusted recorded_at v :
  store_shape (bounded_by v) recorded_at v (remote_store trusted recorded_at v).2.
Proof.
  pose proof (wp_remote_store trusted recorded_at v) as Hw. unfold wp in Hw.
  destruct (remote_store trusted recorded_at v) as [[r|e|] v']; [|done|done].
  simpl. by right; right.
Qed.

(** ** The size of the vault during an upload *)

Lemma vault_bytes_idle v v' : idle v v' → vault_bytes v' = vault_bytes v.
Proof.
  intros ((Hi & Hl & Ho & Hk & Hd & Ht) & Hb & Hin). unfold vault_bytes.
  rewrite Hi, Hl, Ho, Hk, Hd, Ht.
  unfold entries_bytes. by rewrite (grown_bytes _ _ _ Hb), (grown_bytes _ _ _ Hin).
Qed.

Lemma dir_insert_bytes (s : slot ventries) i fs :
  grown s (SDir (entries s)) → entries s !! i = None →
  slot_bytes entries_bytes (SDir (<[i := VDir fs]> (entries s)))
  = oadd (files_bytes fs) (slot_bytes entries_bytes s).
Proof.
  intros Hg Hi. simpl. unfold entries_bytes. rewrite total_insert by done. f_equal.
  exact (grown_bytes entry_bytes _ _ Hg).
Qed.

Lemma vault_bytes_staged b c v tmp fs v' :
  staged b c v tmp fs v' → vault_bytes v' = oadd (files_bytes fs) (vault_bytes v).
Proof.
  intros ((Hi & Hl & Ho & Hk & Hd & Ht) & Hb & _ & Hg & Hf & Hin & _). unfold vault_bytes.
  rewrite Hi, Hl, Ho, Hk, Hd, Ht, Hin, dir_insert_bytes by done. unfold entries_bytes.
  rewrite (grown_bytes _ _ _ Hb). cbn [foldr]. rewrite <- oadd_assoc.
  by rewrite !(oadd_swap _ (files_bytes fs)).
Qed.

Lemma vault_bytes_stored b c v i t v' :
  stored b c v i t v' →
  ∃ n, 0 <= n <= c ∧ room_reserved b v c ∧ vault_bytes v' = oadd (Some n) (vault_bytes v).
Proof.
  intros (fs & (Hi & Hl & Ho & Hk & Hd & Ht) & Hg & Hf & Hb & Hin & _ & (n & Hn & Hc) & Hr).
  exists n. split; [done|]. split; [done|]. rewrite <- Hn. unfold vault_bytes.
  rewrite Hi, Hl, Ho, Hk, Hd, Ht, Hb, dir_insert_bytes by done. unfold entries_bytes.
  rewrite (grown_bytes _ _ _ Hin). cbn [foldr]. rewrite <- oadd_assoc.
  by rewrite !(oadd_swap _ (files_bytes fs)).
Qed.

Lemma reserved_bound v b c n :
  room_reserved true v c → vault_bytes v = Some b → 0 <= n <= c →
  b + n <= DEFAULT_MAX_VAULT_BYTES.
Proof. intros Hr Hb Hn. destruct (Hr eq_refl) as (b' & ? & ?). simplify_eq. lia. Qed.

(** ** Theorems *)


(** C13: a locked vault never outgrows its limit through uploads: at the end of
    an upload, and in the state any crash during it leaves, the logical size is
    at most the larger of the size before it and [DEFAULT_MAX_VAULT_BYTES]. *)
Theorem store_within_capacity trusted recorded_at v b :
  is_Some (v_lock v) → vault_bytes v = Some b →
  ∃ b', vault_bytes (remote_store trusted recorded_at v).2 = Some b'
    ∧ b <= b' <= Z.max b DEFAULT_MAX_VAULT_BYTES.
Proof.
  intros Hlock Hb. pose proof (remote_store_shape trusted recorded_at v) as Hs.
  unfold bounded_by in Hs. rewrite bool_decide_true in Hs by done.
  destruct Hs as [Hi|[(c & tmp & fs & Hst)|(c & i & t & _ & Hst)]].
  - rewrite (vault_bytes_idle _ _ Hi). exists b. split; [done|lia].
  - rewrite (vault_bytes_staged _ _ _ _ _ _ Hst).
    destruct Hst as (_ & _ & _ & _ & _ & _ & (n & -> & Hn) & Hr). rewrite Hb.
    exists (n + b). split; [done|]. pose proof (reserved_bound _ _ _ _ Hr Hb Hn). lia.
  - destruct (vault_bytes_stored _ _ _ _ _ _ Hst) as (n & Hn & Hr & ->). rewrite Hb.
    exists (n + b). split; [done|]. pose proof (reserved_bound _ _ _ _ Hr Hb Hn). lia.
Qed.
End store_facts.
