(* ===== verification/VaultAcceptance.v ===== *)
(** * The off-host backup vault: an upload from end to end

    Without faults, a frame written by [write_upload_frame] is stored by
    [remote_store] however the transport fragments it; the receipt passes
    [verify_remote_receipt] on the source host, and the inventory of the vault
    lists the backup. *)
From S2P Require Import Prelude PyFloat PyValue PyTime PyPath PyJson PyJsonFacts PyEffect LifecycleCore.
From S2P Require Import Vault VaultStore VaultFacts VaultInventory VaultStoreFacts.
#[local] Open Scope Z_scope.

(** ** ASCII text *)

Lemma is_hex_ascii a : is_hex a = true → is_ascii a = true.
Proof. destruct a as [[] [] [] [] [] [] [] []]; vm_compute; done. Qed.
Lemma id_char_ascii a : id_char a = true → is_ascii a = true.
Proof. destruct a as [[] [] [] [] [] [] [] []]; vm_compute; done. Qed.

Lemma sha256_ascii s : SHA256_RE s = true → str_all is_ascii s = true.
Proof. intros [_ Hs]%andb_true_iff. by apply (str_all_mono is_hex); [apply is_hex_ascii|]. Qed.

Lemma backup_id_ascii s : BACKUP_ID_RE s = true → str_all is_ascii s = true.
Proof.
  destruct s as [|a s]; simpl; [done|]. intros Hb. bool_split. apply andb_true_iff. split.
  - apply id_char_ascii. unfold id_char. by rewrite H.
  - by apply (str_all_mono id_char); [apply id_char_ascii|].
Qed.

Lemma validate_backup_id_ok s t : validate_backup_id s = Ok t → t = s ∧ BACKUP_ID_RE s = true.
Proof. unfold validate_backup_id. intros Hv. bk_inv. bool_split. done. Qed.

(** [load_json_object] of a document that [canonical_json] printed. *)
Lemma load_canonical d label :
  json_ok (PDict d) → load_object (Some (VFile (canonical_json (PDict d)))) label
                      = Ok (as_dict (jsort (PDict d))).
Proof. intros Hd. unfold load_object, canonical_json. by rewrite loads_dumps. Qed.

(** Fields of a printed dict read back as they were. *)
Lemma differs_jsort d required :
  json_ok (PDict d) → Forall (λ kv, get d kv.1 = kv.2) required →
  (Forall (λ kv, json_ok kv.2) required) →
  differs (as_dict (jsort (PDict d))) required = false.
Proof.
  intros Hd Hr Hok. apply differs_spec. intros k v Hin. apply json_ok_dict in Hd as [Hnd _].
  rewrite get_jsort by done. rewrite Forall_forall in Hr, Hok.
  pose proof (Hr _ Hin) as Hg. simpl in Hg. rewrite Hg. by apply py_eqb_jsort, (Hok _ Hin).
Qed.

(** One goal per member of a concrete list. *)
Ltac each_field := repeat apply Forall_cons_2; try apply Forall_nil_2; simpl; try done.

Section acceptance.
Context `{VaultRuntime}.
Hypothesis no_fault : ∀ n, vfault_at n = VOk.
Hypothesis sha_hex : ∀ s, SHA256_RE (vsha256 s) = true.

(** ** Steps that succeed *)

Lemma wp_step_ok f (Q : unit → vault → Prop) E C v : Q () (f (bump v)) → wp (v_step f) Q E C v.
Proof. unfold wp, v_step. by rewrite no_fault. Qed.

Lemma wp_write_ok put data (Q : unit → vault → Prop) E C v :
  Q () (put data (bump v)) → wp (v_write put data) Q E C v.
Proof. unfold wp, v_write. by rewrite no_fault. Qed.

Lemma wp_read_ok {A} (f : vault → res A) a (Q : A → vault → Prop) E C v :
  f v = Ok a → Q a v → wp (e_read f) Q E C v.
Proof. intros Hf HQ. apply wp_read; rewrite Hf; [by intros ? [= <-]|done]. Qed.

Lemma wp_lift_ok {A} (r : res A) a (Q : A → vault → Prop) E C v :
  r = Ok a → Q a v → wp (e_lift r) Q E C v.
Proof. by intros ->. Qed.

Lemma wp_require_ok bad msg (Q : unit → vault → Prop) E C v :
  bad = false → Q () v → wp (require_bk bad msg) Q E C v.
Proof. intros -> HQ. by apply wp_lift_ok with (a := ()). Qed.

Lemma wp_read_exact_ok size label s rest (Q : string → vault → Prop) E C v :
  stream_text (v_in v) = s +:+ rest → str_len s = size →
  (∀ bs, stream_text bs = rest → Q s (set_in bs v)) → wp (read_exact size label) Q E C v.
Proof.
  intros Ht Hs HQ. unfold wp. pose proof (str_len_ge s).
  destruct (read_exact_spec size label v) as (bs & Hbs & ->); [lia|].
  rewrite Ht, str_len_app in *. pose proof (str_len_ge rest). rewrite (proj2 (Z.leb_le _ _)) by lia.
  unfold str_len in Hs. replace (Z.to_nat size) with (String.length s) in * by lia.
  rewrite take_app_str, str_take_full, Nat.sub_diag by lia. cbn [str_take]. rewrite app_str_nil_r.
  apply HQ. by rewrite Hbs, skip_app, str_skip_all, Nat.sub_diag by lia.
Qed.

Lemma wp_ensure_slot_ok {A} (read : vault → slot (gmap string A)) write label
    (Q : unit → vault → Prop) E C v :
  grown (read v) (SDir (entries (read v))) →
  (read v = SDir (entries (read v)) → Q () v) →
  (read v = SMissing → Q () (write (SDir ∅) (bump v))) →
  wp (ensure_slot read write label) Q E C v.
Proof.
  intros Hg Hd Hm. apply wp_bind, wp_gets. destruct (read v).
  - by apply wp_step_ok, Hm.
  - by apply wp_ret, Hd.
  - by destruct Hg as [|[? ?]].
  - by destruct Hg as [|[? ?]].
Qed.

Lemma wp_copy_incoming_ok b c v tmp fs name size label n data rest (Q : unit → vault → Prop) E C v' :
  staged b c v tmp fs v' → fs !! name = None → files_bytes fs = Some n → n + size <= c →
  stream_text (v_in v') = data +:+ rest → str_len data = size →
  (∀ v'', stream_text (v_in v'') = rest → staged b c v tmp (<[name := VFile data]> fs) v'' →
     Q () v'') →
  wp (copy_incoming tmp name size label) Q E C v'.
Proof.
  intros Hst Hname Hn Hle Ht Hl HQ. apply wp_bind. eapply wp_read_exact_ok; [done|done|].
  intros bs Hbs. apply wp_write_ok, HQ; [done|]. eapply staged_write; [done..|lia].
Qed.

(** ** The frame *)

Definition upload_header (i archive manifest : string) : pydict :=
  [("schema_version", PInt 1); ("backup_id", PStr i);
   ("archive_size", PInt (str_len archive)); ("archive_sha256", PStr (vsha256 archive));
   ("manifest_size", PInt (str_len manifest)); ("manifest_sha256", PStr (vsha256 manifest))].

Lemma upload_header_ok i archive manifest :
  BACKUP_ID_RE i = true → json_ok (PDict (upload_header i archive manifest)).
Proof.
  intros Hi. apply json_ok_dict. split; [apply (bool_decide_unpack _); vm_compute; done|].
  each_field; (split; [done|]); by auto using backup_id_ascii, sha256_ascii.
Qed.

Lemma check_upload_header i archive manifest :
  validate_backup_id i = Ok i → archive ≠ "" → manifest ≠ "" →
  check_header (canonical_json (PDict (upload_header i archive manifest)))
  = Ok (as_dict (jsort (PDict (upload_header i archive manifest)))).
Proof.
  intros Hi Ha Hm. destruct (validate_backup_id_ok _ _ Hi) as [_ Hre].
  pose proof (upload_header_ok i archive manifest Hre) as Hok.
  unfold check_header, canonical_json. rewrite loads_dumps by done.
  set (d := upload_header i archive manifest) in *.
  change (jsort (PDict d)) with (PDict (as_dict (jsort (PDict d)))).
  apply json_ok_dict in Hok as [Hnd _]. unfold ne.
  assert (get_or (as_dict (jsort (PDict d))) "backup_id" (PStr "") = PStr i) as ->.
  { unfold get_or. by rewrite dlookup_jsort by done. }
  rewrite !get_jsort by done. cbn [py_str]. rewrite Hi.
  unfold validate_sha256. cbn [get get_or dlookup d upload_header String.eqb Ascii.eqb Bool.eqb jsort].
  rewrite !sha_hex. cbn [positive_count].
  rewrite !(proj2 (Z.ltb_lt _ _)) by (apply str_len_pos; done). done.
Qed.

Lemma frame_prefix text :
  str_len text <= MAX_HEADER_BYTES →
  Z.of_N (be_value 0 (be_bytes 8 (N.of_nat (String.length text)))) = str_len text.
Proof.
  intros Hmax. rewrite be_value_bytes.
  - rewrite N.mul_0_l, N.add_0_l. unfold str_len. lia.
  - assert (N.of_nat (String.length text) <= 65536)%N
      by (unfold str_len, MAX_HEADER_BYTES in Hmax; lia).
    eapply N.le_lt_trans; [done|]. by vm_compute.
Qed.

(** Reading the frame back. *)
Lemma wp_parse_frame i archive manifest frame rest (Q : pydict → vault → Prop) E C v :
  write_upload_frame i archive manifest = Ok frame → archive ≠ "" → manifest ≠ "" →
  str_len frame - str_len archive - str_len manifest - 8 <= MAX_HEADER_BYTES →
  stream_text (v_in v) = frame +:+ rest →
  (∀ bs, stream_text bs = archive +:+ manifest +:+ rest →
     Q (as_dict (jsort (PDict (upload_header i archive manifest)))) (set_in bs v)) →
  wp parse_upload_header Q E C v.
Proof.
  unfold write_upload_frame. intros Hf Ha Hm Hlen Ht HQ.
  apply res_bind_ok in Hf as (i' & Hi & Hf). pose proof (validate_backup_id_ok _ _ Hi) as [-> _].
  apply Ok_inj in Hf. subst frame. fold (upload_header i archive manifest) in *.
  set (text := canonical_json _) in *.
  assert (str_len text <= MAX_HEADER_BYTES) as Hmax.
  { rewrite !str_len_app in Hlen. unfold str_len at 1 in Hlen. rewrite be_bytes_length in Hlen. lia. }
  assert (text ≠ "") as Hne by (unfold text, canonical_json; by destruct (json_dumps _)).
  rewrite !app_str_assoc in Ht.
  apply wp_bind. eapply wp_read_exact_ok; [exact Ht|unfold str_len; by rewrite be_bytes_length|].
  intros bs Hbs.
  rewrite frame_prefix by done.
  pose proof (str_len_pos text Hne).
  apply wp_bind, wp_require_ok; [apply orb_false_iff; split; [apply Z.leb_gt|apply Z.ltb_ge]; lia|].
  apply wp_bind. eapply wp_read_exact_ok; [exact Hbs|done|]. intros bs' Hbs'.
  eapply wp_lift_ok; [by apply check_upload_header|]. by apply (HQ bs').
Qed.

(** ** The reception *)

Section reception.
Context (i archive manifest t identity : string) (bounded : bool) (v : vault).
Let header := as_dict (jsort (PDict (upload_header i archive manifest))).
Let candidate := str_len archive + str_len manifest + REMOTE_RECEIPT_RESERVATION_BYTES.
Let receipt := stored_receipt i archive manifest t identity.
Hypothesis valid_id : validate_backup_id i = Ok i.
Hypothesis archive_ne : archive ≠ "".
Hypothesis manifest_ne : manifest ≠ "".
Hypothesis recorded_ne : t ≠ "".
Hypothesis vault_identity : vault_host_id (v_identity v) = Ok identity.
Hypothesis bound : is_ok (validate_manifest_binding (Some (VFile manifest))
                            (binding_fields (PStr i) archive manifest)) = true.
Hypothesis receipt_fits :
  str_len (canonical_json (PDict receipt)) <= REMOTE_RECEIPT_RESERVATION_BYTES.
Hypothesis absent : entries (v_backups v) !! i = None.
Hypothesis room : room_reserved bounded v candidate.
Hypothesis floor : bounded = true → ∀ n, DEFAULT_MINIMUM_FREE_BYTES + candidate <= vfree_at n.

Lemma header_get k : get header k = get (upload_header i archive manifest) k.
Proof.
  unfold header. rewrite get_jsort.
  - unfold get, get_or, upload_header, dlookup.
    repeat (destruct (String.eqb k _); [done|]). done.
  - apply (bool_decide_unpack _); vm_compute; done.
Qed.

Lemma wp_check_capacity_ok tmp fs (Q : unit → vault → Prop) E C v' :
  bounded = true → staged bounded candidate v tmp fs v' → Q () (bump v') →
  wp check_capacity Q E C v'.
Proof.
  intros Hb Hst HQ. destruct (room Hb) as (b & Hv & Hb0 & Hle).
  assert (∃ n, 0 <= n <= candidate ∧ vault_bytes v' = Some (n + b)) as (n & Hn & Hv').
  { rewrite (vault_bytes_staged _ _ _ _ _ _ Hst), Hv.
    destruct Hst as (_ & _ & _ & _ & _ & _ & (n & -> & Hn) & _). by exists n. }
  apply wp_bind. eapply wp_read_ok; [unfold logical_regular_file_bytes; by rewrite Hv'|].
  apply wp_bind, wp_read_at. pose proof (floor Hb (v_ev v')).
  apply wp_bind, wp_require_ok; [apply Z.ltb_ge; lia|].
  apply wp_require_ok; [apply Z.ltb_ge; lia|done].
Qed.

(** What a finished upload leaves. *)
Definition accepted (r : pydict) (v' : vault) : Prop :=
  r = receipt ∧ same_rest v v'
  ∧ v_backups v' = SDir (<[i := VDir (backup_files archive manifest (canonical_json (PDict receipt)))]>
                           (entries (v_backups v))).

Lemma wp_publish_ok tmp E C v' :
  staged bounded candidate v tmp
    (<["manifest.json" := VFile manifest]> (<["payload.tar.age" := VFile archive]> ∅)) v' →
  wp (publish header i tmp (Some t) bounded) accepted E C v'.
Proof.
  intros Hst. unfold publish. apply wp_bind. simpl. apply String.eqb_neq in recorded_ne as ->.
  apply wp_ret, wp_bind. eapply wp_read_ok; [destruct Hst as ((-> & _) & _); done|].
  rewrite (stored_receipt_eq header i archive manifest t identity) by (by rewrite header_get).
  fold receipt. apply wp_bind, wp_require_ok; [by apply Z.ltb_ge|].
  apply wp_bind, wp_write_ok.
  assert (staged bounded candidate v tmp
    (backup_files archive manifest (canonical_json (PDict receipt)))
    (put_incoming tmp "receipt.json" (canonical_json (PDict receipt)) (bump v'))) as Hst'.
  { eapply staged_write; [done|done|apply files_bytes_two|]. unfold candidate. lia. }
  assert (∀ v2, staged bounded candidate v tmp
      (backup_files archive manifest (canonical_json (PDict receipt))) v2 →
    wp (v_step (move_to_backups tmp i);; mret receipt) accepted E C v2) as Hmove.
  { intros v2 (Hr & Hb & [m Hm] & _ & _ & Hi & _).
    apply wp_bind, wp_step_ok, wp_ret. split; [done|].
    unfold move_to_backups. simpl. rewrite Hi. simpl. rewrite lookup_insert_eq.
    split; [done|]. simpl. by rewrite (grown_entries _ _ Hb). }
  apply wp_bind. destruct (bool_dec bounded true) as [Hb|Hb%not_true_is_false].
  - replace (if bounded then check_capacity else mret ()) with check_capacity by (by rewrite Hb).
    eapply wp_check_capacity_ok; [done|done|]. by apply Hmove.
  - replace (if bounded then check_capacity else mret ()) with (mret () : VM unit) by (by rewrite Hb).
    by apply wp_ret, Hmove.
Qed.

Lemma wp_receive_ok tmp E C v' :
  staged bounded candidate v tmp ∅ v' → stream_text (v_in v') = archive +:+ manifest →
  wp (receive header i tmp (Some t) bounded) accepted E C v'.
Proof.
  intros Hst Ht. unfold receive. rewrite !header_get. cbn [as_size get get_or dlookup upload_header
    String.eqb Ascii.eqb Bool.eqb].
  assert (0 < REMOTE_RECEIPT_RESERVATION_BYTES) as Hres by done.
  pose proof (str_len_ge archive). pose proof (str_len_ge manifest).
  apply wp_bind. eapply wp_copy_incoming_ok;
    [exact Hst|done|apply total_empty|unfold candidate; lia|exact Ht|done|].
  intros v1 Ht1 Hst1. apply wp_bind. eapply (wp_copy_incoming_ok _ _ _ _ _ _ _ _ _ manifest "");
    [exact Hst1|done|by rewrite files_bytes_insert by done|unfold candidate; lia
    |by rewrite app_str_nil_r|done|].
  intros v2 Ht2 Hst2. apply wp_bind, wp_gets.
  apply wp_bind, wp_require_ok.
  { apply negb_false_iff, String.eqb_eq.
    destruct (read_block 1 (v_in v2)) as [x bs] eqn:Ex. apply read_block_spec in Ex as (Hx & _); [|done].
    rewrite Ht2 in Hx. by destruct x. }
  apply wp_bind. eapply wp_incoming_sha256; [done|done|].
  apply wp_bind, wp_require_ok; [simpl; by rewrite String.eqb_refl|].
  apply wp_bind. eapply wp_incoming_sha256; [done|done|].
  apply wp_bind, wp_require_ok; [simpl; by rewrite String.eqb_refl|].
  assert (∃ mf, validate_manifest_binding (Some (VFile manifest)) header = Ok mf) as [mf Hmf].
  { rewrite (binding_header _ _ (binding_fields (PStr i) archive manifest)) by (by rewrite header_get).
    destruct (validate_manifest_binding _ _); [by eexists|done]. }
  apply wp_bind. eapply wp_read_ok.
  { pose proof Hst2 as (_ & _ & _ & _ & _ & -> & _). by rewrite entry_file_staged, lookup_insert_eq. }
  by apply wp_publish_ok.
Qed.

Lemma wp_reserve_ok (Q : unit → vault → Prop) E C v' :
  bounded = true → vault_bytes v' = vault_bytes v → Q () (bump v') →
  wp (reserve_capacity candidate) Q E C v'.
Proof.
  intros Hb Hv HQ. destruct (room Hb) as (b & Hb' & Hb0 & Hle). rewrite Hb' in Hv.
  pose proof (str_len_ge archive). pose proof (str_len_ge manifest).
  assert (0 < REMOTE_RECEIPT_RESERVATION_BYTES) by done. pose proof (floor Hb (v_ev v')).
  assert (0 < DEFAULT_MINIMUM_FREE_BYTES) by done.
  apply wp_bind. eapply wp_read_ok; [unfold logical_regular_file_bytes; by rewrite Hv|].
  apply wp_bind, wp_read_at. unfold candidate in *.
  apply wp_bind, wp_require_ok; [apply orb_false_iff; split; apply Z.ltb_ge; lia|].
  apply wp_bind, wp_require_ok; [apply Z.ltb_ge; lia|].
  apply wp_require_ok; [apply Z.ltb_ge; lia|done].
Qed.

Lemma wp_remote_store_locked_ok frame E C v' :
  write_upload_frame i archive manifest = Ok frame →
  str_len frame - str_len archive - str_len manifest - 8 <= MAX_HEADER_BYTES →
  stream_text (v_in v') = frame →
  same_rest v v' → v_backups v' = v_backups v → v_incoming v' = v_incoming v →
  grown (v_backups v) (SDir (entries (v_backups v))) →
  grown (v_incoming v) (SDir (entries (v_incoming v))) →
  (∀ n, entries (v_incoming v) !! (i +:+ "." +:+ vuuid_at n) = None) →
  wp (remote_store_locked (Some t) bounded) accepted E C v'.
Proof.
  intros Hframe Hlen Ht Hr Hb Hin Hgb Hgi Hfresh. unfold remote_store_locked.
  apply wp_bind. eapply (wp_parse_frame i archive manifest frame "");
    [done..|by rewrite app_str_nil_r|]. intros bs Hbs. fold header. rewrite app_str_nil_r in Hbs.
  assert (idle v (set_in bs v')) as Hidle by (split; [done|]; rewrite <- Hb, <- Hin; split; by left).
  rewrite !header_get. cbn [as_size get get_or dlookup upload_header String.eqb Ascii.eqb Bool.eqb].
  fold candidate. apply wp_bind.
  eapply (wp_mono _ (λ _ v2, idle v v2 ∧ v_backups v2 = v_backups v ∧ v_incoming v2 = v_incoming v
    ∧ v_in v2 = bs) _ (λ _ _, False) _ (λ _, False)); [| |done|done].
  { destruct (bool_dec bounded true) as [Hbd|Hbd%not_true_is_false].
    - replace (if bounded then reserve_capacity candidate else mret ())
        with (reserve_capacity candidate) by (by rewrite Hbd).
      apply wp_reserve_ok; [done|by apply vault_bytes_idle|done].
    - replace (if bounded then reserve_capacity candidate else mret ())
        with (mret () : VM unit) by (by rewrite Hbd). by apply wp_ret. }
  intros _ v2 (Hidle2 & Hb2 & Hi2 & Hin2). rewrite <- Hb2 in Hgb. rewrite <- Hi2 in Hgi.
  apply wp_bind.
  eapply (wp_mono _ (λ _ v3, idle v v3 ∧ v_incoming v3 = v_incoming v ∧ v_in v3 = bs
    ∧ (∃ m, v_backups v3 = SDir m)) _ (λ _ _, False) _ (λ _, False)); [| |done|done].
  { apply wp_ensure_slot_ok; [done|by eauto|]. intros Hm. split; [|by eauto].
    destruct Hidle2 as (? & ? & ?). split; [done|]. split; [|done]. right. by rewrite <- Hb2. }
  intros _ v3 (Hidle3 & Hi3 & Hin3 & Hbd3). apply wp_bind. eapply wp_lift_ok; [done|].
  rewrite Hi2, <- Hi3 in Hgi. apply wp_bind.
  eapply (wp_mono _ (λ _ v4, idle v v4 ∧ v_in v4 = bs ∧ (∃ m, v_backups v4 = SDir m)
    ∧ (∃ m, v_incoming v4 = SDir m)) _ (λ _ _, False) _ (λ _, False)); [| |done|done].
  { apply wp_ensure_slot_ok; [done|by eauto|]. intros Hm. split; [|by eauto].
    destruct Hidle3 as (? & ? & ?). split; [done|]. split; [done|]. right. by rewrite <- Hi3. }
  intros _ v4 (Hidle4 & Hin4 & Hbd4 & Hid4).
  pose proof Hidle4 as (_ & Hg4 & Hg4'). apply wp_bind, wp_gets.
  rewrite (grown_entries _ _ Hg4), absent. apply wp_bind, wp_require_ok; [done|].
  apply wp_bind, wp_read_at, wp_bind, wp_gets. simpl.
  rewrite (grown_entries _ _ Hg4'), Hfresh. apply wp_bind, wp_ret, wp_bind, wp_step_ok, wp_try.
  eapply (wp_mono _ accepted _ (λ _ _, False) _ (λ _, False)); [apply wp_receive_ok|done..];
    [|by simpl; rewrite Hin4].
  apply (mkdir_staged _ _ v _ (bump (bump v4))); try done.
  - simpl. by rewrite (grown_entries _ _ Hg4').
  - unfold candidate, REMOTE_RECEIPT_RESERVATION_BYTES.
    pose proof (str_len_ge archive). pose proof (str_len_ge manifest). lia.
Qed.
End reception.

(** ** The receipt on the source host and the inventory *)

Lemma first_difference_none d expected :
  first_difference d expected = None ↔ differs d expected = false.
Proof.
  unfold differs. induction expected as [|[k x] l IH]; simpl; [done|].
  unfold ne. destruct (py_eqb (get d k) x); simpl; [done|]. by split.
Qed.

Lemma stored_receipt_ok i archive manifest t identity :
  BACKUP_ID_RE i = true → str_all is_ascii t = true → SHA256_RE identity = true →
  json_ok (PDict (stored_receipt i archive manifest t identity)).
Proof.
  intros Hi Ht Hid. apply json_ok_dict. split; [apply (bool_decide_unpack _); vm_compute; done|].
  each_field; (split; [done|]); by auto using backup_id_ascii, sha256_ascii.
Qed.

(** The printed receipt has every field that is checked. *)
Lemma receipt_agrees i archive manifest t identity :
  BACKUP_ID_RE i = true → str_all is_ascii t = true → SHA256_RE identity = true →
  differs (as_dict (jsort (PDict (stored_receipt i archive manifest t identity))))
    (receipt_fields (PStr i) archive manifest identity) = false.
Proof.
  intros Hi Ht Hid. apply differs_jsort; [by apply stored_receipt_ok| |].
  - each_field.
  - each_field; by auto using backup_id_ascii, sha256_ascii.
Qed.

Lemma receipt_accepted i archive manifest t identity source :
  validate_backup_id i = Ok i → str_all is_ascii t = true → SHA256_RE identity = true →
  SHA256_RE source = true → source ≠ identity →
  verify_remote_receipt (as_dict (jsort (PDict (stored_receipt i archive manifest t identity))))
    i archive manifest (PStr source) (PStr identity) = Ok ().
Proof.
  intros Hi Ht Hid Hs Hne. destruct (validate_backup_id_ok _ _ Hi) as [_ Hre].
  apply String.eqb_neq in Hne. unfold verify_remote_receipt, validate_sha256, guard_bk, guard_cls.
  rewrite Hi, Hid, Hs. cbn [mbind res_bind]. rewrite Hne. cbn [mbind res_bind].
  rewrite (proj2 (first_difference_none _ _)); [done|]. by apply receipt_agrees.
Qed.

Lemma manifest_classes n h mf :
  validate_manifest_binding n h = Ok mf → is_ok (check_classes mf) = true
  ∧ load_object n "backup manifest" = Ok mf.
Proof.
  unfold validate_manifest_binding. intros Hv. bk_inv.
  match goal with H : check_classes _ = Ok _ |- _ => by rewrite H end.
Qed.

(** A complete backup with a valid timestamp passes inspection. *)
Lemma inspect_complete i archive manifest t identity :
  validate_backup_id i = Ok i → str_all is_ascii t = true → SHA256_RE identity = true →
  valid_utc_timestamp (PStr t) = true →
  is_ok (validate_manifest_binding (Some (VFile manifest))
           (binding_fields (PStr i) archive manifest)) = true →
  ∃ r, inspect_backup identity i (backup_files archive manifest
         (canonical_json (PDict (stored_receipt i archive manifest t identity)))) = Ok (Some r).
Proof.
  intros Hi Ht Hid Hts Hb. destruct (validate_backup_id_ok _ _ Hi) as [_ Hre].
  destruct (validate_manifest_binding _ _) as [mf|] eqn:Hmf; [|done].
  destruct (manifest_classes _ _ _ Hmf) as [Hcl Hload].
  pose proof (stored_receipt_ok i archive manifest t identity Hre Ht Hid) as Hok.
  unfold inspect_backup, backup_files.
  rewrite (lookup_insert_ne _ "receipt.json" "manifest.json") by done.
  rewrite (lookup_insert_ne _ "receipt.json" "payload.tar.age") by done.
  rewrite (lookup_insert_ne _ "manifest.json" "payload.tar.age") by done.
  rewrite !lookup_insert_eq, Hload, load_canonical by done.
  cbn [require_regular mbind res_bind]. rewrite Hmf. cbn [mbind res_bind].
  rewrite receipt_agrees, get_jsort by (done || by apply json_ok_dict in Hok as [? _]).
  cbn [get get_or dlookup stored_receipt String.eqb Ascii.eqb Bool.eqb jsort]. rewrite Hts.
  cbn [negb]. destruct (check_classes mf); [|done]. cbn [mbind res_bind].
  rewrite !files_bytes_insert by done. unfold files_bytes. rewrite total_empty. by eexists.
Qed.

(** ** The theorem *)

(** The vault can take the upload: it is a legacy vault without a lock file, or
    its layout is secure and it has room. *)
Definition admits (trusted : Z) (candidate : Z) (v : vault) : Prop :=
  match v_lock v with
  | None => True
  | Some _ =>
      require_secure_vault_layout trusted v = Ok () ∧ room_reserved true v candidate
      ∧ ∀ n, DEFAULT_MINIMUM_FREE_BYTES + candidate <= vfree_at n
  end.

Record uploadable (trusted : Z) (v : vault) (i archive manifest t identity : string) : Prop := {
  up_archive : archive ≠ "";
  up_manifest : manifest ≠ "";
  up_time : str_all is_ascii t = true ∧ valid_utc_timestamp (PStr t) = true;
  up_identity : vault_host_id (v_identity v) = Ok identity;
  up_bound : is_ok (validate_manifest_binding (Some (VFile manifest))
                      (binding_fields (PStr i) archive manifest)) = true;
  up_receipt : str_len (canonical_json (PDict (stored_receipt i archive manifest t identity)))
               <= REMOTE_RECEIPT_RESERVATION_BYTES;
  up_absent : entries (v_backups v) !! i = None;
  up_backups : grown (v_backups v) (SDir (entries (v_backups v)));
  up_incoming : grown (v_incoming v) (SDir (entries (v_incoming v)));
  up_fresh : ∀ n, entries (v_incoming v) !! (i +:+ "." +:+ vuuid_at n) = None;
  up_room : admits trusted (str_len archive + str_len manifest + REMOTE_RECEIPT_RESERVATION_BYTES) v }.

Lemma secure_layout_lock trusted v :
  require_secure_vault_layout trusted v = Ok () →
  is_ok (require_regular (v_lock v) "vault lock") = true
  ∧ bad_meta ".vault.lock" trusted 432 || negb (m_nlink (vmeta_of ".vault.lock") =? 1) = false.
Proof.
  unfold require_secure_vault_layout. intros Hl. bk_inv.
  match goal with H : require_regular (v_lock v) _ = Ok _ |- _ => by rewrite H end.
Qed.

Lemma wp_remote_store_ok trusted v i archive manifest frame t identity :
  uploadable trusted v i archive manifest t identity →
  write_upload_frame i archive manifest = Ok frame →
  str_len frame - str_len archive - str_len manifest - 8 <= MAX_HEADER_BYTES →
  stream_text (v_in v) = frame →
  wp (remote_store trusted (Some t)) (accepted i archive manifest t identity v)
    (λ _ _, False) (λ _, False) v.
Proof.
  intros [] Hf Hlen Ht. pose proof Hf as Hi. unfold write_upload_frame in Hi.
  apply res_bind_ok in Hi as (i' & Hi & _). pose proof (validate_backup_id_ok _ _ Hi) as [-> _].
  assert (t ≠ "") as Hne by (intros ->; by destruct up_time0 as [_ [=]]).
  unfold remote_store. apply wp_bind, wp_gets. unfold admits in up_room0.
  destruct (v_lock v) as [lock|] eqn:Hlock.
  - destruct up_room0 as (Hlay & Hres & Hfloor).
    apply wp_bind. eapply wp_read_ok; [done|].
    destruct (secure_layout_lock _ _ Hlay) as [Hreg Hmeta].
    destruct (require_regular (v_lock v) "vault lock") as [text|] eqn:Ereg; [|done].
    apply wp_bind. eapply wp_read_ok; [done|]. apply wp_bind, wp_require_ok; [done|].
    apply wp_bind, wp_step_ok. by eapply wp_remote_store_locked_ok.
  - by eapply wp_remote_store_locked_ok.
Qed.

(** C14: an upload round-trips: without faults, a frame that the source host
    wrote, delivered in any fragments, is stored by a vault that has room for
    it; the vault then holds exactly the archive and the manifest that were
    sent, the receipt it returns passes the source host's verification when it
    is read back from its JSON text, and the backup is in the inventory of
    verified backups. *)
Theorem upload_accepted trusted v i archive manifest frame t identity source :
  uploadable trusted v i archive manifest t identity →
  write_upload_frame i archive manifest = Ok frame →
  str_len frame - str_len archive - str_len manifest - 8 <= MAX_HEADER_BYTES →
  stream_text (v_in v) = frame → SHA256_RE source = true → source ≠ identity →
  ∃ r v' sent records record,
    remote_store trusted (Some t) v = (ORet r, v')
    ∧ entry_file (v_backups v') i "payload.tar.age" = Some (VFile archive)
    ∧ entry_file (v_backups v') i "manifest.json" = Some (VFile manifest)
    ∧ json_loads (canonical_json (PDict r)) = Some (PDict sent)
    ∧ remote_receipt_unlocked i v' = Ok sent
    ∧ verify_remote_receipt sent i archive manifest (PStr source) (PStr identity) = Ok ()
    ∧ verified_vault_records None v' = Ok records ∧ record ∈ records ∧ r_id record = i.
Proof.
  intros Hup Hf Hlen Ht Hs Hne.
  pose proof (wp_remote_store_ok _ _ _ _ _ _ _ _ Hup Hf Hlen Ht) as Hw. unfold wp in Hw.
  destruct (remote_store trusted (Some t) v) as [[r| |] v']; [|done|done].
  destruct Hw as (-> & Hrest & Hb). destruct Hup. destruct up_time0 as [Htext Htime].
  pose proof Hf as Hi. unfold write_upload_frame in Hi.
  apply res_bind_ok in Hi as (i' & Hi & _). pose proof (validate_backup_id_ok _ _ Hi) as [-> Hre].
  assert (SHA256_RE identity = true) as Hid.
  { unfold vault_host_id in up_identity0. bk_inv. apply sha_hex. }
  pose proof (stored_receipt_ok i archive manifest t identity Hre Htext Hid) as Hok.
  destruct (inspect_complete i archive manifest t identity) as [record Hrec]; try done.
  destruct (inspect_backup_id _ _ _ _ Hrec) as [Hrid _].
  destruct Hrest as (Hid' & _). set (fs := backup_files _ _ _) in *.
  assert (expected_identity_of (Some identity) v' = Ok identity) as He.
  { unfold expected_identity_of. simpl. by rewrite Hid. }
  pose proof (verified_records_spec identity _ v' He Hb) as Hrecords.
  eexists _, v', _, _, record. split; [done|].
  rewrite Hb. unfold entry_file. simpl. rewrite lookup_insert_eq.
  split; [done|]. split; [done|]. split; [unfold canonical_json; by rewrite loads_dumps|].
  split; [|split; [by apply receipt_accepted|split; [|split; [|exact Hrid]]]].
  - unfold remote_receipt_unlocked. rewrite Hb, Hi. simpl. unfold entry_file. simpl.
    rewrite lookup_insert_eq. subst fs. unfold backup_files. rewrite lookup_insert_eq.
    by apply load_canonical.
  - rewrite <- Hrecords. unfold verified_vault_records, expected_identity_of. by rewrite Hid', up_identity0.
  - apply (record_elem identity _ v' _ _ Hrecords Hb). rewrite Hrid. unfold inspect_entry.
    by rewrite lookup_insert_eq, Hre, Hrec.
Qed.
End acceptance.
