(* ===== verification/VaultKnownGoodFacts.v ===== *)
(** * The off-host backup vault: theorems on known-good attestations

    An attestation that [create_known_good_attestation] writes is accepted by
    [load_known_good_attestation], and whatever becomes of the creation the
    backups are as they were. *)
From S2P Require Import Prelude PyFloat PyValue PyTime PyPath PyJson PyJsonFacts PyEffect LifecycleCore.
From S2P Require Import Vault VaultStore VaultKnownGood VaultFacts VaultInventory VaultStoreFacts.
From S2P Require Import VaultAcceptance.
#[local] Open Scope Z_scope.

(** What the validation of the sources reads of the vault. *)
Lemma validate_sources_reads `{VaultRuntime} v v' i s :
  v_identity v' = v_identity v → v_backups v' = v_backups v →
  validate_known_good_sources v' i s = validate_known_good_sources v i s.
Proof. intros Hi Hb. unfold validate_known_good_sources. by rewrite Hi, Hb. Qed.

Section known_good_facts.
Context `{VaultRuntime}.
Hypothesis no_fault : ∀ n, vfault_at n = VOk.
Hypothesis not_swapped : ∀ n, vswapped_at n = false.

(** ** The directory of an attestation while it is filled *)

Definition only_known_good (v v' : vault) : Prop :=
  v_identity v' = v_identity v ∧ v_lock v' = v_lock v ∧ v_other v' = v_other v
  ∧ v_backups v' = v_backups v ∧ v_incoming v' = v_incoming v
  ∧ v_deletions v' = v_deletions v ∧ v_trash v' = v_trash v.

Definition filling (v : vault) (i : string) (fs : vfiles) (v' : vault) : Prop :=
  only_known_good v v' ∧ v_known_good v' = SDir (<[i := VDir fs]> (entries (v_known_good v))).

Lemma vault_bytes_filling v i fs v' :
  filling v i fs v' → grown (v_known_good v) (SDir (entries (v_known_good v))) →
  entries (v_known_good v) !! i = None →
  vault_bytes v' = oadd (files_bytes fs) (vault_bytes v).
Proof.
  intros [(Hi & Hl & Ho & Hb & Hin & Hd & Ht) Hk] Hg Hf. unfold vault_bytes.
  rewrite Hi, Hl, Ho, Hb, Hin, Hd, Ht, Hk, dir_insert_bytes by done. cbn [foldr].
  rewrite <- oadd_assoc. by rewrite !(oadd_swap _ (files_bytes fs)).
Qed.

Lemma filling_put v i fs name data v' :
  filling v i fs v' → filling v i (<[name := VFile data]> fs) (put_known_good i name data v').
Proof. intros [Ho Hk]. split; [done|]. simpl. by rewrite Hk, put_file_staged. Qed.

Lemma filling_unlink v i fs name v' :
  filling v i fs v' →
  filling v i (delete name fs) (set_known_good (unlink_file i name (v_known_good v')) v').
Proof. intros [Ho Hk]. split; [done|]. simpl. by rewrite Hk; simpl; rewrite lookup_insert_eq, insert_insert_eq. Qed.

Lemma filling_file v i fs name v' : filling v i fs v' → known_good_file v' i name = fs !! name.
Proof. intros [_ Hk]. unfold known_good_file. by rewrite Hk, entry_file_staged. Qed.

Lemma wp_copy_regular_ok v i fs name label data (Q : unit → vault → Prop) E C v' :
  (∀ n, vsummary_at n name = Some (VFile data)) → filling v i fs v' →
  (∀ v'', filling v i (<[name := VFile data]> fs) v'' → Q () v'') →
  wp (copy_regular_new i name label (str_len data)) Q E C v'.
Proof.
  intros Hs Hf HQ. pose proof (str_len_ge data). apply wp_bind, wp_read_at. rewrite Hs.
  apply wp_bind. eapply wp_lift_ok; [done|]. apply wp_bind, wp_read_at. rewrite not_swapped.
  apply wp_bind, wp_require_ok; [done|]. apply wp_bind, wp_require_ok.
  { rewrite Z.eqb_refl, orb_false_r. by apply Z.ltb_ge. }
  apply wp_bind, wp_read_at. rewrite Hs. apply wp_bind, wp_require_ok; [apply Z.ltb_irrefl|].
  rewrite str_take_full by (unfold str_len; lia). rewrite Z.ltb_irrefl.
  apply wp_bind, wp_write_ok; [done|]. apply wp_ret, HQ. by apply filling_put.
Qed.

(** ** The whole creation *)

Section creation.
Context (v : vault) (i t d1 d2 d3 : string) (binding : pydict) (bounded : bool).
Let document := attestation_document (PStr t) binding.
Let text := canonical_json (PDict document).
Let sources := Summaries (Some (VFile d1)) (Some (VFile d2)) (Some (VFile d3)).
Let reservation := str_len d1 + str_len d2 + str_len d3
                   + str_len KNOWN_GOOD_INCOMPLETE_MARKER + str_len text.
Hypothesis stable : ∀ n,
  vsummary_at n "vault-validation.json" = Some (VFile d1)
  ∧ vsummary_at n "restore-summary.json" = Some (VFile d2)
  ∧ vsummary_at n "business-summary.json" = Some (VFile d3).
Hypothesis eligible : validate_known_good_sources v i sources = Ok binding.
Hypothesis timed : valid_utc_timestamp (PStr t) = true.
Hypothesis printable : json_ok (PDict document).
Hypothesis absent : entries (v_known_good v) !! i = None.
Hypothesis present : grown (v_known_good v) (SDir (entries (v_known_good v))).
Hypothesis is_directory : bounded = true → v_known_good v = SDir (entries (v_known_good v)).
Hypothesis room : room_reserved bounded v reservation.
Hypothesis floor : bounded = true → ∀ n, DEFAULT_MINIMUM_FREE_BYTES + reservation <= vfree_at n.

(** The files of a finished attestation. *)
Definition attested_files : vfiles :=
  <["attestation.json" := VFile text]> (<["business-summary.json" := VFile d3]>
    (<["restore-summary.json" := VFile d2]> (<["vault-validation.json" := VFile d1]> ∅))).

Lemma wp_snapshot_ok phase r (Q : unit → vault → Prop) E C v' n :
  bounded = true → vault_bytes v' = oadd (Some n) (vault_bytes v) → 0 <= n → 0 <= r →
  n + r <= reservation → Q () (bump v') →
  wp (known_good_capacity_snapshot phase r) Q E C v'.
Proof.
  intros Hb Hv Hn Hr Hle HQ. destruct (room Hb) as (b & Hv0 & Hb0 & Hmax). rewrite Hv0 in Hv.
  simpl in Hv. pose proof (floor Hb (v_ev v')). assert (0 < DEFAULT_MINIMUM_FREE_BYTES) by done.
  apply wp_bind, wp_require_ok; [by apply Z.ltb_ge|].
  apply wp_bind. eapply wp_read_ok; [unfold logical_regular_file_bytes; by rewrite Hv|].
  apply wp_bind, wp_read_at.
  apply wp_bind, wp_require_ok; [apply orb_false_iff; split; apply Z.ltb_ge; lia|].
  apply wp_bind, wp_require_ok; [apply Z.ltb_ge; lia|].
  apply wp_require_ok; [apply Z.ltb_ge; lia|done].
Qed.

(** A snapshot that is taken in bounded mode only. *)
Lemma wp_maybe_snapshot phase r (Q : unit → vault → Prop) E C v' n :
  vault_bytes v' = oadd (Some n) (vault_bytes v) → 0 <= n → 0 <= r → n + r <= reservation →
  Q () v' → Q () (bump v') →
  wp (if bounded then known_good_capacity_snapshot phase r else mret ()) Q E C v'.
Proof.
  intros Hv Hn Hr Hle HQ HQ'. destruct (bool_dec bounded true) as [Hb|Hb%not_true_is_false].
  - pose proof (wp_snapshot_ok phase r Q E C v' n Hb Hv Hn Hr Hle HQ') as Hw. by rewrite Hb.
  - by rewrite Hb.
Qed.

(** The directory at its largest, and when the marker is gone. *)
Definition peak_files : vfiles :=
  <["attestation.json" := VFile text]> (<["business-summary.json" := VFile d3]>
    (<["restore-summary.json" := VFile d2]> (<["vault-validation.json" := VFile d1]>
      (<[".incomplete" := VFile KNOWN_GOOD_INCOMPLETE_MARKER]> ∅)))).

Lemma peak_bytes : files_bytes peak_files = Some reservation.
Proof.
  unfold peak_files. rewrite !files_bytes_insert by done. unfold files_bytes. rewrite total_empty.
  cbn [oadd mbind option_bind]. f_equal. unfold reservation. lia.
Qed.

Lemma final_files : delete ".incomplete" peak_files = attested_files.
Proof.
  unfold peak_files, attested_files. rewrite !delete_insert_ne by done.
  by rewrite delete_insert_eq, delete_empty.
Qed.

Lemma final_bytes : ∃ n, files_bytes attested_files = Some n ∧ 0 <= n <= reservation.
Proof.
  rewrite <- final_files. apply (total_subseteq node_bytes peak_files);
    [apply node_bytes_ge|apply delete_subseteq|apply peak_bytes].
Qed.

(** What a finished creation leaves. *)
Definition attested (r : pydict) (v' : vault) : Prop :=
  r = document ∧ filling v i attested_files v'.

Lemma wp_fill_ok E C v' :
  filling v i ∅ v' →
  wp (fill_known_good i t text binding (str_len d1) (str_len d2) (str_len d3) bounded)
    attested E C v'.
Proof.
  intros Hf. unfold fill_known_good. pose proof (str_len_ge text).
  apply wp_bind, wp_write_ok; [done|].
  apply wp_bind. eapply wp_copy_regular_ok; [by apply stable|by apply filling_put|]. intros v1 Hf1.
  apply wp_bind. eapply wp_copy_regular_ok; [by apply stable|done|]. intros v2 Hf2.
  apply wp_bind. eapply wp_copy_regular_ok; [by apply stable|done|]. intros v3 Hf3.
  apply wp_bind. eapply wp_read_ok.
  { unfold known_good_summaries. rewrite !(filling_file _ _ _ _ _ Hf3).
    destruct Hf3 as [(Hi & _ & _ & Hb & _) _]. rewrite (validate_sources_reads v) by done.
    exact eligible. }
  apply wp_bind, wp_require_ok.
  { apply negb_false_iff, py_eqb_refl. by eapply json_ok_part. }
  fold document text. rewrite String.eqb_refl. apply wp_bind, wp_require_ok; [done|].
  apply wp_bind, wp_write_ok; [done|].
  assert (∀ x, filling v i peak_files x → wp
    (v_step (λ v, set_known_good (unlink_file i ".incomplete" (v_known_good v)) v);;
     (if bounded then known_good_capacity_snapshot "completion" 0 else mret ());; mret document)
    attested E C x) as Hlast.
  { intros x Hx. apply wp_bind, wp_step_ok; [done|].
    apply (filling_unlink _ _ _ ".incomplete" (bump x)) in Hx. rewrite final_files in Hx.
    destruct final_bytes as (n & Hn & Hle).
    assert (∀ x', filling v i attested_files x' → wp (mret document) attested E C x') as Hret.
    { intros x' Hx'. apply wp_ret. split; [reflexivity|exact Hx']. }
    apply wp_bind. apply (wp_maybe_snapshot _ _ _ _ _ _ n); [|lia|lia|lia|by apply Hret..].
    rewrite <- Hn. by apply (vault_bytes_filling v i). }
  apply (filling_put _ _ _ "attestation.json" text) in Hf3.
  apply wp_bind, (wp_maybe_snapshot _ _ _ _ _ _ reservation); try (by apply Hlast).
  - rewrite <- peak_bytes. by apply (vault_bytes_filling v i).
  - unfold reservation. pose proof (str_len_ge d1). pose proof (str_len_ge d2).
    pose proof (str_len_ge d3). pose proof (str_len_ge KNOWN_GOOD_INCOMPLETE_MARKER). lia.
  - done.
  - lia.
Qed.

Lemma eligible_id : validate_backup_id i = Ok i.
Proof.
  pose proof eligible as He. unfold validate_known_good_sources in He.
  apply res_bind_ok in He as (j & Hj & _). by destruct (validate_backup_id_ok _ _ Hj) as [-> _].
Qed.

Lemma wp_root_ok E C x :
  only_known_good v x → v_known_good x = v_known_good v →
  wp (if bounded
      then known_good_capacity_snapshot "preflight" reservation;;
           e_read (λ v, require_directory (v_known_good v) "known-good root");; mret ()
      else ensure_slot v_known_good set_known_good "known-good root")
    (λ _ x', only_known_good v x' ∧ entries (v_known_good x') = entries (v_known_good v)) E C x.
Proof.
  intros Ho Hk. pose proof Ho as (Hi & Hl & Hot & Hb & Hin & Hd & Ht).
  destruct (bool_dec bounded true) as [Hbd|Hbd%not_true_is_false]; rewrite Hbd.
  - apply wp_bind, (wp_snapshot_ok _ _ _ _ _ _ 0); try done.
    + rewrite oadd_0. unfold vault_bytes. by rewrite Hi, Hl, Hot, Hb, Hin, Hd, Ht, Hk.
    + unfold reservation. pose proof (str_len_ge d1). pose proof (str_len_ge d2).
      pose proof (str_len_ge d3). pose proof (str_len_ge text).
      pose proof (str_len_ge KNOWN_GOOD_INCOMPLETE_MARKER). lia.
    + apply wp_bind. eapply wp_read_ok; [simpl; by rewrite Hk, is_directory|].
      apply wp_ret. simpl. by rewrite Hk.
  - apply wp_ensure_slot_ok; [done|by rewrite Hk|by rewrite Hk|]. rewrite Hk. intros ->. done.
Qed.

Lemma wp_create_unlocked_ok E C v' :
  only_known_good v v' → v_known_good v' = v_known_good v → t ≠ "" →
  wp (create_known_good_unlocked i (Some t) bounded) attested E C v'.
Proof.
  intros Ho Hk Ht. unfold create_known_good_unlocked, read_summaries.
  apply wp_bind, wp_read_at. destruct (stable (v_ev v')) as (-> & -> & ->). fold sources.
  apply wp_bind. eapply wp_read_ok.
  { pose proof Ho as (Hi & _ & _ & Hb & _). rewrite (validate_sources_reads v) by done.
    exact eligible. }
  apply wp_bind. simpl. rewrite (proj2 (String.eqb_neq _ _) Ht). apply wp_ret.
  apply wp_bind, wp_require_ok; [apply negb_false_iff, timed|].
  apply wp_bind, wp_read_at. destruct (stable (v_ev (bump v'))) as (-> & -> & ->).
  do 3 (apply wp_bind; eapply wp_lift_ok; [done|]). fold document text reservation.
  apply wp_bind. eapply (wp_mono _ _ _ (λ _ _, False) _ (λ _, False));
    [by apply wp_root_ok| |done|done].
  intros _ x [Hox Hex]. apply wp_bind. eapply wp_lift_ok; [apply eligible_id|].
  apply wp_bind, wp_gets. rewrite Hex, absent. apply wp_bind, wp_require_ok; [done|].
  apply wp_bind, wp_step_ok; [done|]. apply wp_try.
  eapply (wp_mono _ attested _ (λ _ _, False) _ (λ _, False)); [|done..].
  apply wp_fill_ok. split; [done|]. simpl. by rewrite Hex.
Qed.
End creation.

(** ** The theorem *)

(** The vault can take the attestation. *)
Definition attestable (trusted : Z) (v : vault) (i t d1 d2 d3 : string) (binding : pydict) : Prop :=
  let document := attestation_document (PStr t) binding in
  let reservation := str_len d1 + str_len d2 + str_len d3 + str_len KNOWN_GOOD_INCOMPLETE_MARKER
                     + str_len (canonical_json (PDict document)) in
  (∀ n, vsummary_at n "vault-validation.json" = Some (VFile d1)
        ∧ vsummary_at n "restore-summary.json" = Some (VFile d2)
        ∧ vsummary_at n "business-summary.json" = Some (VFile d3))
  ∧ validate_known_good_sources v i (Summaries (Some (VFile d1)) (Some (VFile d2)) (Some (VFile d3)))
    = Ok binding
  ∧ valid_utc_timestamp (PStr t) = true ∧ json_ok (PDict document)
  ∧ entries (v_known_good v) !! i = None ∧ grown (v_known_good v) (SDir (entries (v_known_good v)))
  ∧ admits trusted reservation v.

Lemma secure_layout_known_good trusted v :
  require_secure_vault_layout trusted v = Ok () → v_known_good v = SDir (entries (v_known_good v)).
Proof.
  unfold require_secure_vault_layout, check_data_directory. intros Hl. bk_inv.
  by destruct (v_known_good v).
Qed.

Lemma wp_create_ok trusted v i t d1 d2 d3 binding :
  attestable trusted v i t d1 d2 d3 binding →
  wp (create_known_good_attestation trusted i (Some t))
    (attested v i t d1 d2 d3 binding) (λ _ _, False) (λ _, False) v.
Proof.
  intros (Hs & He & Ht & Hok & Ha & Hg & Hadm).
  assert (t ≠ "") as Hne by (intros ->; done).
  unfold create_known_good_attestation. apply wp_bind, wp_gets. unfold admits in Hadm.
  destruct (v_lock v) as [lock|] eqn:Hlock.
  - destruct Hadm as (Hlay & Hres & Hfloor). apply wp_bind. eapply wp_read_ok; [done|].
    destruct (secure_layout_lock _ _ Hlay) as [Hreg Hmeta].
    destruct (require_regular (v_lock v) "vault lock") as [text|] eqn:Ereg; [|done].
    apply wp_bind. eapply wp_read_ok; [done|]. apply wp_bind, wp_require_ok; [done|].
    apply wp_bind, wp_step_ok; [done|].
    apply wp_create_unlocked_ok; try done. intros _. by eapply secure_layout_known_good.
  - by apply wp_create_unlocked_ok.
Qed.

Lemma attested_names d1 d2 d3 d4 :
  same_set (top_names (<["attestation.json" := VFile d4]> (<["business-summary.json" := VFile d3]>
    (<["restore-summary.json" := VFile d2]> (<["vault-validation.json" := VFile d1]> ∅)))))
    ["attestation.json"; "vault-validation.json"; "restore-summary.json"; "business-summary.json"]
  = true.
Proof. vm_compute. reflexivity. Qed.

Lemma load_attested v i t d1 d2 d3 binding v' :
  validate_known_good_sources v i (Summaries (Some (VFile d1)) (Some (VFile d2)) (Some (VFile d3)))
    = Ok binding →
  valid_utc_timestamp (PStr t) = true → json_ok (PDict (attestation_document (PStr t) binding)) →
  filling v i (attested_files t d1 d2 d3 binding) v' →
  load_known_good_attestation v' i
  = Ok (dset (as_dict (jsort (PDict (attestation_document (PStr t) binding)))) "attestation_sha256"
          (PStr (vsha256 (canonical_json (PDict (attestation_document (PStr t) binding)))))).
Proof.
  intros He Ht Hok Hf. unfold load_known_good_attestation.
  rewrite (eligible_id _ _ _ _ _ _ He). cbn [mbind res_bind].
  assert (require_entry (entries (v_known_good v')) i "known-good attestation"
    = Ok (attested_files t d1 d2 d3 binding)) as ->.
  { destruct Hf as [_ ->]. unfold require_entry. simpl. by rewrite lookup_insert_eq. }
  cbn [mbind res_bind]. unfold attested_files. rewrite attested_names.
  unfold guard_bk, guard_cls. cbn [negb mbind res_bind].
  rewrite !lookup_insert_eq, load_canonical by done. cbn [require_regular mbind res_bind].
  assert (known_good_summaries v' i
    = Summaries (Some (VFile d1)) (Some (VFile d2)) (Some (VFile d3))) as ->.
  { unfold known_good_summaries. by rewrite !(filling_file _ _ _ _ _ Hf). }
  pose proof Hf as [(Hi & _ & _ & Hb & _) _]. rewrite (validate_sources_reads v) by done.
  rewrite He. cbn [mbind res_bind].
  assert (get (as_dict (jsort (PDict (attestation_document (PStr t) binding)))) "attested_at"
    = PStr t) as ->.
  { apply json_ok_dict in Hok as [Hnd _]. by rewrite get_jsort. }
  rewrite Ht. cbn [negb orb].
  change (PDict (as_dict (jsort ?d))) with (jsort d).
  rewrite (py_eqb_jsort _ Hok). done.
Qed.

(** C15: an attestation round-trips: without faults, when the summaries of a
    backup's validation, restore and business checks are eligible and the vault
    has room, [create_known_good_attestation] returns an attestation that
    [load_known_good_attestation] then accepts, with every field as it was
    written and the digest of the written file; the stored backups do not
    change. *)
Theorem known_good_roundtrip trusted v i t d1 d2 d3 binding :
  attestable trusted v i t d1 d2 d3 binding →
  ∃ r v' loaded,
    create_known_good_attestation trusted i (Some t) v = (ORet r, v')
    ∧ load_known_good_attestation v' i = Ok loaded
    ∧ (∀ k, k ≠ "attestation_sha256" → get loaded k = jsort (get r k))
    ∧ get loaded "attestation_sha256" = PStr (vsha256 (canonical_json (PDict r)))
    ∧ r = attestation_document (PStr t) binding
    ∧ v_backups v' = v_backups v.
Proof.
  intros Hatt. pose proof (wp_create_ok _ _ _ _ _ _ _ _ Hatt) as Hw. unfold wp in Hw.
  destruct (create_known_good_attestation trusted i (Some t) v) as [[r| |] v']; [|done|done].
  destruct Hw as [-> Hf]. destruct Hatt as (_ & He & Ht & Hok & _).
  eexists _, v', _. split; [reflexivity|].
  split; [by apply (load_attested v i t d1 d2 d3 binding)|]. split; [|split; [|split; [reflexivity|by apply Hf]]].
  - intros k Hk. rewrite get_dset_ne by done. apply get_jsort. by apply json_ok_dict in Hok as [? _].
  - apply get_dset_eq.
Qed.
End known_good_facts.
