(* ===== verification/VaultRetentionPlan.v ===== *)
(** * The off-host backup vault: what a retention plan keeps

    A plan splits the verified backups into those it retains and those it
    deletes.  It retains the newest backups of each class, the newest distinct
    known-good attestations, and in any case the newest backup of all. *)
From S2P Require Import Prelude PyFloat PyValue PyTime PyPath PyJson PyJsonFacts PyEffect.
From S2P Require Import LifecycleCore.
From S2P Require Import Vault VaultStore VaultKnownGood VaultRetention VaultFacts VaultInventory.
#[local] Open Scope Z_scope.

(** ** The order of the records *)

#[export] Instance newer_eq_trans : Transitive newer_eq.
Proof.
  intros r s u. unfold newer_eq.
  generalize (py_str (r_created r)) (py_str (r_created s)) (py_str (r_created u)). intros a b c.
  destruct (String.eqb_spec a b) as [->|Hab], (String.eqb_spec b c) as [->|Hbc];
    rewrite ?String.eqb_refl.
  - intros ??. by etrans.
  - done.
  - rewrite (proj2 (String.eqb_neq _ _) Hab). done.
  - intros H1 H2. destruct (String.eqb_spec a c) as [->|]; [|by etrans].
    destruct Hab. by apply (anti_symm String.le).
Qed.

#[export] Instance newer_eq_total : Total newer_eq.
Proof.
  intros r s. unfold newer_eq.
  rewrite (String.eqb_sym (py_str (r_created s)) (py_str (r_created r))).
  destruct (String.eqb _ _).
  - apply (base.total String.le).
  - apply (base.total String.le).
Qed.

Lemma sort_newest_perm l : sort_newest l ≡ₚ l.
Proof. apply merge_sort_Permutation. Qed.

Lemma sort_newest_sorted l : StronglySorted newer_eq (sort_newest l).
Proof. apply (StronglySorted_merge_sort newer_eq). Qed.

(** *** The order of texts and the order of time *)

(** A UTC reading to the second, as the tooling writes it. *)
Record clock := Clock { c_y : Z; c_mo : Z; c_d : Z; c_h : Z; c_mi : Z; c_s : Z }.
Definition clock_ok (c : clock) : bool :=
  valid_date (c_y c) (c_mo c) (c_d c) && valid_time (c_h c) (c_mi c) (c_s c).
Definition clock_text (c : clock) : string :=
  utc_text (c_y c) (c_mo c) (c_d c) (c_h c) (c_mi c) (c_s c).
Definition clock_instant (c : clock) : Z :=
  utc_instant (c_y c) (c_mo c) (c_d c) (c_h c) (c_mi c) (c_s c).

Lemma clock_order a b :
  clock_ok a = true → clock_ok b = true → String.le (clock_text a) (clock_text b) →
  clock_instant a <= clock_instant b.
Proof.
  intros [Ha Ha']%andb_true_iff [Hb Hb']%andb_true_iff. unfold String.le, String.leb, clock_text.
  rewrite <- compare_instants by done. unfold clock_instant.
  destruct (Z.compare_spec (utc_instant (c_y a) (c_mo a) (c_d a) (c_h a) (c_mi a) (c_s a))
    (utc_instant (c_y b) (c_mo b) (c_d b) (c_h b) (c_mi b) (c_s b))); [lia|lia|done].
Qed.

(** the retention order is chronological: when every record was created at
    a time as the tooling writes it, sorting the records by the text of that
    time puts them in the order of the instants, latest first. *)
Theorem sort_newest_chronological (at_ : vrecord → clock) l :
  Forall (λ r, clock_ok (at_ r) = true ∧ r_created r = PStr (clock_text (at_ r))) l →
  StronglySorted (λ r s, clock_instant (at_ s) <= clock_instant (at_ r)) (sort_newest l).
Proof.
  intros Hl. rewrite <- (sort_newest_perm l) in Hl. pose proof (sort_newest_sorted l) as Hs.
  induction Hs as [|r m Hs IH Hr]; [constructor|]. apply Forall_cons in Hl as [[Hok Hc] Hl].
  constructor; [by apply IH|]. rewrite Forall_forall in *. intros s Hin.
  destruct (Hl s Hin) as [Hok' Hc']. specialize (Hr s Hin). unfold newer_eq in Hr.
  rewrite Hc, Hc' in Hr. cbn [py_str] in Hr. apply clock_order; [done..|].
  destruct (String.eqb_spec (clock_text (at_ r)) (clock_text (at_ s))) as [->|]; [reflexivity|done].
Qed.

Lemma sort_newest_chronological_witness :
  let record name d := VRecord name (PStr (clock_text (Clock 2026 8 d 1 2 3))) ["daily"] "" 0 in
  let at_ r := Clock 2026 8 (if String.eqb (r_id r) "a" then 9 else 10) 1 2 3 in
  StronglySorted (λ r s, clock_instant (at_ s) <= clock_instant (at_ r))
    (sort_newest [record "a" 9; record "b" 10]).
Proof. apply sort_newest_chronological. repeat apply Forall_cons_2; try apply Forall_nil_2; by split. Defined.

(** With other valid texts the two orders differ: half a second later sorts as
    older. *)
Lemma fraction_sorts_older :
  let r := VRecord "a" (PStr "2026-08-01T00:00:00Z") ["daily"] "" 0 in
  let s := VRecord "b" (PStr "2026-08-01T00:00:00.500000Z") ["daily"] "" 0 in
  is_ok (check_created_at (r_created r)) = true ∧ is_ok (check_created_at (r_created s)) = true
  ∧ newer_eq r s ∧ ¬ newer_eq s r
  ∧ fromisoformat (replace_zulu (py_str (r_created r))) = Some (Timestamp 63921225600000000 (Some 0))
  ∧ fromisoformat (replace_zulu (py_str (r_created s))) = Some (Timestamp 63921225600500000 (Some 0)).
Proof.
  cbv zeta. split; [by vm_compute|]. split; [by vm_compute|].
  split; [apply (bool_decide_unpack _); by vm_compute|].
  split; [apply (bool_decide_unpack _); by vm_compute|]. split; by vm_compute.
Qed.

(** ** Lists of names *)

Lemma elem_of_sort_str s l : s ∈ sort_str l ↔ s ∈ l.
Proof. unfold sort_str. by rewrite merge_sort_Permutation. Qed.

Lemma length_sort_str l : length (sort_str l) = length l.
Proof. unfold sort_str. by rewrite merge_sort_Permutation. Qed.

Lemma dkeys_dupdate (kvs : pydict) d :
  NoDup (dkeys d ++ dkeys kvs) → dkeys (dupdate d kvs) = dkeys d ++ dkeys kvs.
Proof.
  revert d. induction kvs as [|[k x] kvs IH]; intros d Hnd; simpl; [by rewrite app_nil_r|].
  unfold dupdate in *. simpl. assert (k ∉ dkeys d) as Hk.
  { apply NoDup_app in Hnd as (_ & Hd & _). intros Hin. apply (Hd k Hin). simpl. by left. }
  rewrite (dset_fresh d k x Hk).
  replace (dkeys d ++ k :: dkeys kvs) with (dkeys (d ++ [(k, x)]) ++ dkeys kvs)
    by (unfold dkeys; rewrite map_app, <- app_assoc; done).
  apply IH. unfold dkeys in *. rewrite map_app, <- app_assoc. exact Hnd.
Qed.

Section plan.
Context `{VaultRuntime}.

(** ** The classes of a verified record *)

Lemma class_names_known l names :
  class_names l = Ok (names, true) → Forall (λ c, c = "daily" ∨ c = "weekly") names ∧ length names = length l.
Proof.
  revert names. induction l as [|v l IH]; intros names; simpl.
  { intros [= <-]. by split; [constructor|]. }
  intros Hc. apply res_bind_ok in Hc as (known & Hk & Hc).
  apply res_bind_ok in Hc as ([ns ok] & Hns & Hc). apply Ok_inj in Hc. simplify_eq.
  match goal with H : _ && _ = true |- _ => apply andb_true_iff in H as [-> ->] end.
  destruct (IH ns) as [Hf Hl]; [done|]. split; [|simpl; by rewrite Hl].
  constructor; [|done]. destruct v; simpl in *; try done. injection Hk as Hm.
  destruct (String.eqb_spec s "daily"); [by left|]. destruct (String.eqb_spec s "weekly"); [by right|done].
Qed.

Lemma record_classes identity name fs r :
  inspect_backup identity name fs = Ok (Some r) → "daily" ∈ r_classes r ∨ "weekly" ∈ r_classes r.
Proof.
  unfold inspect_backup. intros Hi. bk_inv.
  destruct (differs _ _); [done|]. destruct (negb _); [done|]. bk_inv. simplify_eq. simpl.
  match goal with H : check_classes _ = Ok _ |- _ => rename H into Hc end.
  unfold check_classes in Hc. destruct (get x "retention_classes") as [| | | | |[|v l]|]; try done.
  apply res_bind_ok in Hc as ([ns ok] & Hcl & Hc). apply res_bind_ok in Hc as (u & Hg & Hc).
  apply guard_cls_ok, negb_false_iff in Hg. subst ok. apply Ok_inj in Hc. rewrite <- Hc.
  destruct (class_names_known _ _ Hcl) as [Hf Hl]. destruct ns as [|c ns]; [done|].
  apply Forall_cons in Hf as [[->| ->] _]; [left|right]; by left.
Qed.

(** ** Attestations *)

(** The restore an attestation is about. *)
Definition restore_of (v : vault) (r : vrecord) : py :=
  match load_known_good_attestation v (r_id r) with
  | Ok attestation => get attestation "restore_id"
  | Raise _ => PNone
  end.

Lemma dlookup_in k d x : dlookup k d = Some x → (k, x) ∈ d.
Proof.
  induction d as [|[j w] d IH]; simpl; [done|].
  destruct (String.eqb_spec k j) as [->|]; [intros [= ->]; by left|]. right. by apply IH.
Qed.

Lemma sources_restore v i s b :
  validate_known_good_sources v i s = Ok b → ∃ x, dlookup "restore_id" b = Some (PStr x).
Proof. unfold validate_known_good_sources. intros Hs. bk_inv. simpl. by eexists. Qed.

(** An accepted attestation names its restore. *)
Lemma attested_restore v i a w :
  load_known_good_attestation v i = Ok a → dlookup "restore_id" a = Some w → ∃ x, w = PStr x.
Proof.
  unfold load_known_good_attestation. intros Hl Hw.
  apply res_bind_ok in Hl as (i' & _ & Hl). apply res_bind_ok in Hl as (fs & _ & Hl).
  apply res_bind_ok in Hl as (u & _ & Hl). apply res_bind_ok in Hl as (text & _ & Hl).
  apply res_bind_ok in Hl as (att & _ & Hl). apply res_bind_ok in Hl as (b & Hb & Hl).
  apply res_bind_ok in Hl as (u' & Hg & Hl). apply Ok_inj in Hl. subst a.
  apply guard_cls_ok in Hg. bool_split. rewrite dlookup_dset_ne in Hw by done.
  match goal with H : py_eqb _ _ = true |- _ => apply py_eqb_dict in H as [_ Hall] end.
  rewrite Forall_forall in Hall. specialize (Hall _ (dlookup_in _ _ _ Hw)). simpl in Hall.
  destruct (sources_restore _ _ _ _ Hb) as [x Hx]. exists x.
  unfold attestation_document in Hall. simpl in Hall.
  assert (dlookup "restore_id" (b ++ [("overall_pass", PBool true); ("restore_known_good", PBool true);
    ("formal_todo0012_claim", PBool false); ("secret_material_recorded", PBool false)]) = Some (PStr x))
    as Hd.
  { clear -Hx. induction b as [|[j y] b IH]; simpl in *; [done|].
    destruct (match j with String _ _ => _ | _ => _ end); [done|by apply IH]. }
  rewrite Hd in Hall. by apply py_eqb_str.
Qed.

Lemma scan_spec v restores targets l known :
  known_good_scan v restores targets l = Ok known →
  map fst known `sublist_of` l
  ∧ Forall (λ x, ∃ a, load_known_good_attestation v (r_id x.1) = Ok a
                      ∧ dlookup "attestation_sha256" a = Some x.2
                      ∧ py_in (restore_of v x.1) restores = false) known.
Proof.
  revert restores targets known. induction l as [|r l IH]; intros restores targets known; simpl.
  { intros [= <-]. by split. }
  assert (∀ k, known_good_scan v restores targets l = Ok k → map fst k `sublist_of` r :: l
    ∧ Forall (λ x, ∃ a, load_known_good_attestation v (r_id x.1) = Ok a
                      ∧ dlookup "attestation_sha256" a = Some x.2
                      ∧ py_in (restore_of v x.1) restores = false) k) as Hskip.
  { intros k Hk. destruct (IH _ _ _ Hk). split; [by constructor|done]. }
  destruct (load_known_good_attestation v (r_id r)) as [a|e] eqn:Hload.
  2:{ by destruct (skippable e); [apply Hskip|]. }
  intros Hs. apply res_bind_ok in Hs as (restore & Hr & Hs).
  apply res_bind_ok in Hs as (identities & _ & Hs). apply res_bind_ok in Hs as (target & _ & Hs).
  apply res_bind_ok in Hs as (restore' & Hr' & Hs).
  assert (restore' = restore) as -> by (by destruct restore; simpl in Hr'; simplify_eq).
  destruct (py_in restore restores) eqn:Hin; [by apply Hskip|].
  apply res_bind_ok in Hs as (target' & _ & Hs).
  destruct (py_in target' targets); [by apply Hskip|].
  apply res_bind_ok in Hs as (digest & Hd & Hs). apply res_bind_ok in Hs as (rest & Hrest & Hs).
  apply Ok_inj in Hs. subst known. destruct (IH _ _ _ Hrest) as [Hsub Hall].
  split; [by constructor|]. constructor.
  - exists a. unfold item in Hd. destruct (dlookup "attestation_sha256" a); [|done].
    split; [done|]. split; [by simplify_eq|]. unfold restore_of. simpl. rewrite Hload.
    unfold item in Hr. unfold get, get_or. destruct (dlookup "restore_id" a); [|done]. by simplify_eq.
  - eapply Forall_impl; [exact Hall|]. intros x (b & Hb & Hd' & Hn). exists b.
    split; [done|]. split; [done|]. unfold py_in in *. rewrite existsb_app in Hn.
    by apply orb_false_iff in Hn as [? _].
Qed.

(** No two attestations that count are about the same restore. *)
Lemma scan_distinct v restores targets l known :
  known_good_scan v restores targets l = Ok known → NoDup (map (λ x, restore_of v x.1) known).
Proof.
  revert restores targets known. induction l as [|r l IH]; intros restores targets known; simpl.
  { intros [= <-]. constructor. }
  destruct (load_known_good_attestation v (r_id r)) as [a|e] eqn:Hload.
  2:{ destruct (skippable e); [by apply IH|done]. }
  intros Hs. apply res_bind_ok in Hs as (restore & Hr & Hs).
  apply res_bind_ok in Hs as (identities & _ & Hs). apply res_bind_ok in Hs as (target & _ & Hs).
  apply res_bind_ok in Hs as (restore' & Hr' & Hs).
  assert (restore' = restore) as -> by (by destruct restore; simpl in Hr'; simplify_eq).
  destruct (py_in restore restores) eqn:Hin; [by eapply IH|].
  apply res_bind_ok in Hs as (target' & _ & Hs).
  destruct (py_in target' targets); [by eapply IH|].
  apply res_bind_ok in Hs as (digest & Hd & Hs). apply res_bind_ok in Hs as (rest & Hrest & Hs).
  apply Ok_inj in Hs. subst known. simpl. constructor; [|by eapply IH].
  assert (restore_of v r = restore ∧ ∃ x, restore = PStr x) as [Hres [x ->]].
  { unfold item in Hr. destruct (dlookup "restore_id" a) as [w|] eqn:Hw; [|done].
    apply Ok_inj in Hr. subst w. split; [|by eapply attested_restore].
    unfold restore_of, get, get_or. by rewrite Hload, Hw. }
  rewrite Hres. intros (y & Hy & Hin')%list_elem_of_fmap.
  destruct (scan_spec _ _ _ _ _ Hrest) as [_ Hall]. rewrite Forall_forall in Hall.
  destruct (Hall _ Hin') as (_ & _ & _ & Hn). unfold py_in in Hn.
  rewrite existsb_app in Hn. apply orb_false_iff in Hn as [_ Hn]. simpl in Hn.
  rewrite <- Hy in Hn. simpl in Hn. by rewrite String.eqb_refl in Hn.
Qed.

(** ** The plan *)

Lemma plan_inv anchor receipt daily weekly minimum expected given v plan :
  plan_remote_retention anchor receipt daily weekly minimum expected given v = Ok plan →
  ∃ identity eligible known,
    1 <= daily ∧ 1 <= weekly ∧ 2 <= minimum
    ∧ expected_identity_of expected v = Ok identity
    ∧ (match given with Some l => Ok l | None => verified_vault_records (Some identity) v end)
      = Ok eligible
    ∧ (∃ r, r ∈ eligible ∧ r_id r = anchor ∧ r_receipt r = receipt)
    ∧ known_good_scan v [] [] (sort_newest eligible) = Ok known ∧ minimum <= Z.of_nat (length known)
    ∧ plan = make_plan identity anchor receipt daily weekly (sort_newest eligible)
               (take (Z.to_nat minimum) known)
    ∧ Forall (λ r, 0 <= r_bytes r) (p_deleting plan).
Proof.
  unfold plan_remote_retention. intros Hp. apply res_bind_ok in Hp as (? & _ & Hp).
  apply res_bind_ok in Hp as (? & _ & Hp). apply res_bind_ok in Hp as (? & Hc & Hp).
  apply res_bind_ok in Hp as (identity & Hi & Hp). apply res_bind_ok in Hp as (eligible & He & Hp).
  apply res_bind_ok in Hp as (? & Ha & Hp). apply res_bind_ok in Hp as (known & Hk & Hp).
  apply res_bind_ok in Hp as (? & Hm & Hp). apply res_bind_ok in Hp as (? & Hb & Hp).
  apply guard_cls_ok in Hc, Ha, Hm, Hb. bool_split. apply Ok_inj in Hp. subst plan.
  exists identity, eligible, known. split; [lia|]. split; [lia|]. split; [lia|].
  split; [done|]. split; [done|]. split.
  { destruct (last _) as [r|] eqn:Hl; [|done]. apply negb_false_iff, String.eqb_eq in Ha.
    apply last_Some_elem_of, list_elem_of_filter in Hl as [Hid Hin]. by exists r. }
  split; [done|]. split; [lia|]. split; [done|]. apply Forall_forall. intros r Hr.
  destruct (Z.ltb_spec (r_bytes r) 0) as [Hneg|]; [|done].
  assert (existsb (λ r, r_bytes r <? 0) (p_deleting (make_plan identity anchor receipt daily weekly
    (sort_newest eligible) (take (Z.to_nat minimum) known))) = true) as Hx; [|congruence].
  apply existsb_exists. exists r. split; [by apply list_elem_of_In|by apply Z.ltb_lt].
Qed.

Section made.
Context (identity anchor receipt : string) (daily weekly : Z).
Context (newest : list vrecord) (retained : list (vrecord * py)).
Let plan := make_plan identity anchor receipt daily weekly newest retained.

Lemma retained_keep i :
  i ∈ p_retained plan ↔ i ∈ keep_ids daily weekly retained newest.
Proof. simpl. by rewrite elem_of_sort_str, elem_of_remove_dups. Qed.

Lemma deleting_keep r :
  r ∈ p_deleting plan ↔ r ∈ newest ∧ r_id r ∉ keep_ids daily weekly retained newest.
Proof.
  simpl. rewrite list_elem_of_filter.
  destruct (mem_str (r_id r) (keep_ids daily weekly retained newest)) eqn:Hm.
  - apply mem_str_spec in Hm. naive_solver.
  - split; [intros [_ Hr]; split; [done|]|naive_solver].
    intros Hin. apply mem_str_spec in Hin. congruence.
Qed.

Lemma keep_ids_elem i :
  i ∈ keep_ids daily weekly retained newest ↔
  i ∈ map (λ x, r_id x.1) retained
  ∨ i ∈ map r_id (take (Z.to_nat daily) (of_class "daily" newest))
  ∨ i ∈ map r_id (take (Z.to_nat weekly) (of_class "weekly" newest)).
Proof. unfold keep_ids. by rewrite !elem_of_app. Qed.

Lemma known_good_ids :
  NoDup (map (λ x, r_id x.1) retained) →
  p_known_good plan = sort_str (map (λ x, r_id x.1) retained).
Proof.
  intros Hnd. simpl. f_equal. rewrite dkeys_dupdate; simpl; unfold dkeys; by rewrite map_map.
Qed.

(** The head of the list is the newest of its class. *)
Lemma newest_kept r rest :
  newest = r :: rest → 1 <= daily → 1 <= weekly →
  "daily" ∈ r_classes r ∨ "weekly" ∈ r_classes r → r_id r ∈ p_retained plan.
Proof.
  intros Hn Hd Hw Hc. apply retained_keep, keep_ids_elem. right. rewrite Hn. unfold of_class.
  destruct Hc as [Hc|Hc]; [left|right]; apply mem_str_spec in Hc;
    rewrite filter_cons_True by done.
  - replace (Z.to_nat daily) with (S (Z.to_nat (daily - 1))) by lia. by left.
  - replace (Z.to_nat weekly) with (S (Z.to_nat (weekly - 1))) by lia. by left.
Qed.
End made.

Lemma sublist_map {A B} (f : A → B) l m : l `sublist_of` m → map f l `sublist_of` map f m.
Proof. apply fmap_sublist. Qed.

(** The class windows of a plan. *)
Definition in_window (daily weekly : Z) (records : list vrecord) (i : string) : Prop :=
  i ∈ map r_id (take (Z.to_nat daily) (of_class "daily" records))
  ∨ i ∈ map r_id (take (Z.to_nat weekly) (of_class "weekly" records)).

Lemma scan_known_good v l known n :
  NoDup (map r_id l) → known_good_scan v [] [] l = Ok known →
  NoDup (map (λ x, r_id x.1) (take n known)).
Proof.
  intros Hnd Hk. destruct (scan_spec _ _ _ _ _ Hk) as [Hsub _].
  rewrite <- (map_map fst r_id). eapply sublist_NoDup; [exact Hnd|].
  apply sublist_map. etrans; [|exact Hsub]. apply sublist_map, sublist_take.
Qed.

(** C16: what a retention plan keeps.  The records of a plan are the verified
    backups, newest first.  Each of them is either retained or deleted; the
    retained ones are the newest of each class, up to its count, and the newest
    attested ones, exactly as many as the policy's minimum, about pairwise
    different restores; the newest backup of all is always retained.  The bytes
    to be deleted are those of the deleted records. *)
Theorem plan_keeps anchor receipt daily weekly minimum expected v plan :
  plan_remote_retention anchor receipt daily weekly minimum expected None v = Ok plan →
  ∃ records, verified_vault_records (Some (p_identity plan)) v = Ok records
  ∧ p_records plan ≡ₚ records ∧ StronglySorted newer_eq (p_records plan)
  ∧ (∀ r, r ∈ records → r ∈ p_deleting plan ↔ r_id r ∉ p_retained plan)
  ∧ (∀ r, r ∈ p_deleting plan → r ∈ records)
  ∧ (∀ i, i ∈ p_retained plan ↔
       i ∈ p_known_good plan ∨ in_window daily weekly (p_records plan) i)
  ∧ Z.of_nat (length (p_known_good plan)) = minimum
  ∧ (∃ good, p_known_good plan ≡ₚ map r_id good ∧ NoDup (map (restore_of v) good)
       ∧ Forall (λ r, r ∈ records ∧ is_ok (load_known_good_attestation v (r_id r)) = true) good)
  ∧ (∃ r rest, p_records plan = r :: rest ∧ r_id r ∈ p_retained plan)
  ∧ p_deleted plan ≡ₚ map r_id (p_deleting plan)
  ∧ p_deleted_bytes plan = foldr (λ r acc, r_bytes r + acc) 0 (p_deleting plan).
Proof.
  intros Hp. destruct (plan_inv _ _ _ _ _ _ _ _ _ Hp)
    as (identity & records & known & Hd & Hw & Hm & Hi & He & (r0 & Hr0 & _) & Hk & Hlen & -> & _).
  pose proof (sort_newest_perm records) as Hperm.
  assert (NoDup (map r_id (sort_newest records))) as Hnd
    by (rewrite Hperm; by eapply records_nodup).
  pose proof (scan_known_good _ _ _ (Z.to_nat minimum) Hnd Hk) as Hkn.
  destruct (scan_spec _ _ _ _ _ Hk) as [Hsub Hall].
  exists records. split; [done|]. split; [done|]. split; [apply sort_newest_sorted|].
  split; [|split; [|split; [|split; [|split; [|split; [|split; [|done]]]]]]].
  - intros r Hr. rewrite deleting_keep, retained_keep.
    apply (elem_of_Permutation_proper r _ _ Hperm) in Hr. naive_solver.
  - intros r Hr. rewrite deleting_keep in Hr. rewrite <- Hperm. by destruct Hr.
  - intros i. rewrite retained_keep, keep_ids_elem, known_good_ids by done.
    by rewrite elem_of_sort_str.
  - rewrite known_good_ids, length_sort_str, length_map, length_take by done. lia.
  - exists (map fst (take (Z.to_nat minimum) known)). rewrite known_good_ids by done.
    unfold sort_str. rewrite merge_sort_Permutation, !map_map. split; [done|]. split.
    + eapply sublist_NoDup; [by eapply scan_distinct|]. apply sublist_map, sublist_take.
    + apply Forall_fmap, Forall_take. rewrite Forall_forall in *. intros x Hx. simpl.
      destruct (Hall x Hx) as (a & -> & _). split; [|done]. rewrite <- Hperm.
      eapply elem_of_sublist; [|exact Hsub]. by apply list_elem_of_fmap_2.
  - destruct (sort_newest records) as [|r rest] eqn:Hs.
    { apply Permutation_nil_l in Hperm. subst. by apply not_elem_of_nil in Hr0. }
    exists r, rest. split; [done|]. apply newest_kept with (rest := rest); try done.
    assert (r ∈ records) as Hr by (rewrite <- Hperm; by left).
    destruct (verified_records_inv _ _ _ He) as (id' & m & Hid & Hm' & ->).
    apply list_elem_of_omap in Hr as (name & _ & Hr).
    destruct (inspect_entry_id _ _ _ _ Hr) as (_ & _ & fs & _ & Hf). by eapply record_classes.
  - unfold make_plan. simpl. unfold sort_str. by rewrite merge_sort_Permutation.
Qed.
End plan.
