(* ===== verification/VaultPrune.v ===== *)
(** * The off-host backup vault: deletion loses nothing unrecorded

    [prune_remote] moves the backups it deletes into a trash directory of its
    own, records its intent and removes the trash.  Whatever happens on the way,
    each backup is where it was, in the trash, or covered by a recorded intent;
    a backup the plan does not delete is never touched. *)
From S2P Require Import Prelude PyFloat PyValue PyTime PyPath PyJson PyJsonFacts PyEffect LifecycleCore.
From S2P Require Import Vault VaultStore VaultKnownGood VaultRetention VaultFacts VaultInventory.
From S2P Require Import VaultRetentionPlan.
#[local] Open Scope Z_scope.

(** Membership in two sets that agree on an element. *)
Ltac same_part j X :=
  by destruct (decide (j ∈ X)); [rewrite decide_True|rewrite decide_False]; try done; set_solver.

Section prune.
Context `{VaultRuntime}.

(** ** Where the backups are *)

(** The slots a deletion does not touch. *)
Definition beside (v v' : vault) : Prop :=
  v_identity v' = v_identity v ∧ v_lock v' = v_lock v ∧ v_other v' = v_other v
  ∧ v_incoming v' = v_incoming v ∧ v_known_good v' = v_known_good v.

(** The backups [m] with those of [X] in the trash directory [t]. *)
Definition parted (m : ventries) (t : string) (X : gset string) (v : vault) : Prop :=
  (∃ b, v_backups v = SDir b ∧ ∀ i, b !! i = if decide (i ∈ X) then None else m !! i)
  ∧ (∃ T, v_trash v = SDir T)
  ∧ ∀ i, trash_of t v !! i = if decide (i ∈ X) then m !! i else None.

Lemma parted_bump m t X v : parted m t X v → parted m t X (bump v).
Proof. done. Qed.

Lemma trash_of_put t m v : trash_of t (put_trash t m v) = m.
Proof. unfold trash_of, put_trash. simpl. by rewrite lookup_insert_eq. Qed.

Lemma to_trash_parted m t X i v :
  parted m t X v → i ∉ X → is_Some (m !! i) → parted m t ({[i]} ∪ X) (to_trash t i v).
Proof.
  intros ((b & Hb & Hbi) & (T & HT) & Htr) Hi [e He]. unfold to_trash. rewrite Hb. simpl.
  assert (b !! i = Some e) as Hbe by (rewrite Hbi, decide_False by done; done).
  rewrite Hbe. split; [|split].
  - eexists. split; [done|]. intros j. destruct (decide (j = i)) as [->|Hne].
    + rewrite lookup_delete_eq, decide_True by set_solver. done.
    + rewrite lookup_delete_ne, Hbi by done. same_part j X.
  - by eexists.
  - intros j. rewrite trash_of_put. destruct (decide (j = i)) as [->|Hne].
    + rewrite lookup_insert_eq, decide_True by set_solver. done.
    + rewrite lookup_insert_ne by done. change (trash_of t v !! j = if decide (j ∈ {[i]} ∪ X) then m !! j else None).
      rewrite Htr. same_part j X.
Qed.

Lemma from_trash_parted m t X i v :
  parted m t X v → i ∈ X → is_Some (m !! i) → parted m t (X ∖ {[i]}) (from_trash t i v).
Proof.
  intros ((b & Hb & Hbi) & (T & HT) & Htr) Hi [e He]. unfold from_trash.
  assert (trash_of t v !! i = Some e) as Hte by (rewrite Htr, decide_True by done; done).
  rewrite Hte. split; [|split].
  - eexists. simpl. rewrite Hb. split; [done|]. intros j. simpl. destruct (decide (j = i)) as [->|Hne].
    + rewrite lookup_insert_eq, decide_False by set_solver. done.
    + rewrite lookup_insert_ne, Hbi by done. same_part j X.
  - by eexists.
  - intros j. change (trash_of t (put_trash t (delete i (trash_of t v)) v) !! j
      = if decide (j ∈ X ∖ {[i]}) then m !! j else None).
    rewrite trash_of_put. destruct (decide (j = i)) as [->|Hne].
    + rewrite lookup_delete_eq, decide_False by set_solver. done.
    + rewrite lookup_delete_ne, Htr by done.
      same_part j X.
Qed.

(** ** The two halves of a deletion *)

Section deletion.
Context (v0 : vault) (m : ventries) (t : string).

(** Before the intent: the deletion records are as they were, and so is every
    other trash directory. *)
Definition quarantined (X : gset string) (v : vault) : Prop :=
  beside v0 v ∧ v_deletions v = v_deletions v0 ∧ parted m t X v
  ∧ ∀ t', t' ≠ t → entries (v_trash v) !! t' = entries (v_trash v0) !! t'.

(** No fault from here on; a fault before here. *)
Definition settled (v : vault) : Prop := ∀ n, (v_ev v ≤ n)%nat → vfault_at n = VOk.
Definition faulted (v : vault) : Prop := ∃ n msg, (n < v_ev v)%nat ∧ vfault_at n = VErr msg.

Lemma settled_bump v : settled v → settled (bump v).
Proof. intros Hs n Hn. apply Hs. simpl in Hn. lia. Qed.

Lemma quarantined_bump X v : quarantined X v → quarantined X (bump v).
Proof. done. Qed.

Lemma to_trash_quarantined X i v :
  quarantined X v → i ∉ X → is_Some (m !! i) → quarantined ({[i]} ∪ X) (to_trash t i v).
Proof.
  intros (Hb & Hd & Hp & Ht) Hi Hm. pose proof (to_trash_parted _ _ _ _ _ Hp Hi Hm) as Hp'.
  unfold to_trash in *. destruct (entries (v_backups v) !! i); [|done].
  split; [done|]. split; [done|]. split; [done|].
  intros t' Hne. simpl. rewrite lookup_insert_ne by done. by apply Ht.
Qed.

Lemma from_trash_quarantined X i v :
  quarantined X v → i ∈ X → is_Some (m !! i) → quarantined (X ∖ {[i]}) (from_trash t i v).
Proof.
  intros (Hb & Hd & Hp & Ht) Hi Hm. pose proof (from_trash_parted _ _ _ _ _ Hp Hi Hm) as Hp'.
  unfold from_trash in *. destruct (trash_of t v !! i); [|done].
  split; [done|]. split; [done|]. split; [done|].
  intros t' Hne. simpl. rewrite lookup_insert_ne by done. by apply Ht.
Qed.

Lemma wp_quarantine_one X r v :
  quarantined X v → r_id r ∉ X → is_Some (m !! r_id r) →
  wp (quarantine_one t r) (λ _, quarantined ({[r_id r]} ∪ X))
    (λ _ v', quarantined X v' ∧ faulted v')
    (λ v', quarantined X v' ∨ quarantined ({[r_id r]} ∪ X) v') v.
Proof.
  intros Hq Hi Hm. apply wp_bind, wp_gets.
  pose proof Hq as (_ & _ & ((b & Hb & Hbi) & _) & _).
  assert (is_Some (entries (v_backups v) !! r_id r)) as Hp
    by (rewrite Hb; simpl; by rewrite Hbi, decide_False).
  rewrite bool_decide_true by done. unfold wp, v_step.
  destruct (vfault_at (v_ev v)) as [|msg|[|n]] eqn:Hf.
  - by apply (to_trash_quarantined X _ (bump v)).
  - split; [done|]. exists (v_ev v), msg. simpl. split; [lia|done].
  - by left.
  - right. by apply (to_trash_quarantined X _ (bump v)).
Qed.

Lemma wp_quarantine l moved v :
  quarantined (list_to_set moved) v → NoDup (moved ++ map r_id l) →
  Forall (λ r, is_Some (m !! r_id r)) l →
  wp (quarantine t moved l)
    (λ res v', quarantined (list_to_set res.1) v' ∧ NoDup res.1 ∧ res.1 ⊆ moved ++ map r_id l
       ∧ (res.2 = None → res.1 = moved ++ map r_id l) ∧ (res.2 ≠ None → faulted v'))
    (λ _ _, False)
    (λ v', ∃ X, quarantined X v' ∧ X ⊆ list_to_set (moved ++ map r_id l)) v.
Proof.
  revert moved v. induction l as [|r l IH]; intros moved v Hq Hnd Hm; simpl.
  { apply wp_ret. simpl in *. rewrite app_nil_r in *. done. }
  apply Forall_cons in Hm as [Hr Hm]. cbn [map] in Hnd.
  assert (r_id r ∉ (list_to_set moved : gset string)) as Hni.
  { rewrite elem_of_list_to_set. apply NoDup_app in Hnd as (_ & Hd & _).
    intros Hin. apply (Hd _ Hin). by left. }
  apply wp_bind, wp_try, wp_bind. eapply wp_mono; [by apply wp_quarantine_one| | |].
  - intros [] v' Hq'. apply wp_ret.
    replace (moved ++ r_id r :: map r_id l) with ((moved ++ [r_id r]) ++ map r_id l) in *
      by (by rewrite <- app_assoc).
    apply IH; [|done|done]. by replace (list_to_set (moved ++ [r_id r])) with ({[r_id r]} ∪ list_to_set moved : gset string)
      by set_solver.
  - intros e v' [Hq' Hf]. apply wp_ret, wp_ret. simpl. split; [done|].
    split; [by apply NoDup_app in Hnd as [? _]|]. split; [set_solver|]. done.
  - intros v' [Hq'|Hq']; eexists; (split; [exact Hq'|]); set_solver.
Qed.

(** The handler renames everything back unless a rename of its own fails. *)
Lemma wp_restore_one X i v :
  quarantined X v → i ∈ X → is_Some (m !! i) →
  wp (restore_one t i) (λ _ v', quarantined (X ∖ {[i]}) v' ∧ v_ev v' = S (v_ev v))
    (λ _ v', quarantined X v' ∧ ¬ settled v)
    (λ v', ∃ Y, quarantined Y v' ∧ Y ⊆ X ∧ ¬ settled v) v.
Proof.
  intros Hq Hi Hm. apply wp_bind, wp_gets.
  pose proof Hq as (_ & _ & ((b & Hb & Hbi) & _ & Htr) & _).
  rewrite bool_decide_true by (by rewrite Htr, decide_True). simpl.
  rewrite bool_decide_true by (rewrite Hb; simpl; by rewrite Hbi, decide_True).
  assert (vfault_at (v_ev v) ≠ VOk → ¬ settled v) as Hs.
  { intros Hne Hs. apply Hne, Hs. lia. }
  unfold wp, v_step. destruct (vfault_at (v_ev v)) as [|msg|[|n]] eqn:Hf.
  - split; [by apply (from_trash_quarantined X _ (bump v))|].
    unfold from_trash. by destruct (trash_of t (bump v) !! i).
  - split; [done|by apply Hs].
  - exists X. split; [done|]. split; [done|by apply Hs].
  - exists (X ∖ {[i]}). split; [by apply (from_trash_quarantined X _ (bump v))|].
    split; [set_solver|by apply Hs].
Qed.

Lemma wp_restore_all l v :
  quarantined (list_to_set l) v → NoDup l → Forall (λ i, is_Some (m !! i)) l →
  wp (e_iter (restore_one t) l) (λ _ v', quarantined ∅ v' ∧ (settled v → settled v'))
    (λ _ v', ∃ X, quarantined X v' ∧ X ⊆ list_to_set l ∧ ¬ settled v)
    (λ v', ∃ X, quarantined X v' ∧ X ⊆ list_to_set l ∧ ¬ settled v) v.
Proof.
  revert v. induction l as [|i l IH]; intros v Hq Hnd Hm; simpl; [by apply wp_ret|].
  apply NoDup_cons in Hnd as [Hi Hnd]. apply Forall_cons in Hm as [Hmi Hm].
  cbn [list_to_set list_to_set] in Hq.
  apply wp_bind. eapply wp_mono; [apply wp_restore_one; [exact Hq|set_solver|done]| | |].
  - intros [] v' [Hq' Hev]. assert (settled v → settled v') as Hst.
    { intros Hs n Hn. apply Hs. lia. }
    replace (({[i]} ∪ list_to_set l) ∖ {[i]}) with (list_to_set l : gset string) in Hq' by set_solver.
    eapply wp_mono; [by apply IH| | |].
    + intros [] v'' [Hq'' Hs]. split; [done|]. naive_solver.
    + intros e v'' (X & HX & Hsub & Hs). exists X. split; [done|]. split; [set_solver|]. naive_solver.
    + intros v'' (X & HX & Hsub & Hs). exists X. split; [done|]. split; [set_solver|]. naive_solver.
  - intros e v' [Hq' Hs]. eexists. split; [exact Hq'|]. done.
  - intros v' (X & HX & Hsub & Hs). exists X. done.
Qed.

(** Removing the empty trash directory leaves the parts as they are. *)
Lemma drop_trash_quarantined v : quarantined ∅ v → quarantined ∅ (drop_trash t v).
Proof.
  intros (Hb & Hd & (Hbk & (T & HT) & Htr) & Ht). split; [done|]. split; [done|]. split.
  - split; [done|]. split; [by eexists|]. intros i. unfold trash_of, drop_trash. simpl.
    by rewrite lookup_delete_eq.
  - intros t' Hne. simpl. rewrite lookup_delete_ne by done. by apply Ht.
Qed.

Lemma wp_unwind {A} moved exc v (Q : A → vault → Prop) :
  quarantined (list_to_set moved) v → NoDup moved → Forall (λ i, is_Some (m !! i)) moved →
  wp (unwind t moved exc) Q
    (λ e v', ∃ X, quarantined X v' ∧ X ⊆ list_to_set moved ∧ (settled v → X = ∅ ∧ e = exc))
    (λ v', ∃ X, quarantined X v' ∧ X ⊆ list_to_set moved) v.
Proof.
  intros Hq Hnd Hm. assert (list_to_set (rev moved) = (list_to_set moved : gset string)) as Hrev
    by (apply list_to_set_perm_L; symmetry; apply Permutation_rev).
  unfold unwind. apply wp_bind.
  eapply wp_mono; [apply wp_restore_all| | |].
  - by rewrite Hrev.
  - rewrite <- Permutation_rev. done.
  - rewrite <- Permutation_rev. done.
  - intros [] v' [Hq' Hs]. apply wp_bind, wp_gets.
    assert (trash_of t v' = ∅) as He.
    { destruct Hq' as (_ & _ & (_ & _ & Htr) & _). apply map_eq. intros i. rewrite Htr.
      by rewrite decide_False by set_solver. }
    rewrite bool_decide_true by done. apply wp_bind, wp_try.
    assert (∀ x, quarantined ∅ x → wp (e_lift (Raise exc)) Q
      (λ e v', ∃ X, quarantined X v' ∧ X ⊆ list_to_set moved ∧ (settled v → X = ∅ ∧ e = exc))
      (λ v', ∃ X, quarantined X v' ∧ X ⊆ list_to_set moved) x) as Hend.
    { intros x Hx. apply wp_lift; [done|]. intros e [= <-]. exists ∅. split; [done|].
      split; [apply empty_subseteq|done]. }
    assert (quarantined ∅ (drop_trash t (bump v'))) as Hdrop by (by apply drop_trash_quarantined).
    apply wp_step; [by apply Hend|intros msg; apply wp_ret; by apply Hend| |];
      exists ∅; (split; [done|apply empty_subseteq]).
  - intros e v' (X & HX & Hsub & Hs). rewrite Hrev in Hsub. exists X. naive_solver.
  - intros v' (X & HX & Hsub & Hs). rewrite Hrev in Hsub. exists X. done.
Qed.

(** ** From the renames to the completion record *)

Definition intent_name : string := t +:+ ".intent.json".
Definition completion_name : string := t +:+ ".json".

Definition records_kept (v : vault) : Prop :=
  ∀ name e, entries (v_deletions v0) !! name = Some e → entries (v_deletions v) !! name = Some e.
Definition trash_kept (v : vault) : Prop :=
  ∀ t', t' ≠ t → entries (v_trash v) !! t' = entries (v_trash v0) !! t'.

(** Every backup is in its place or in the trash. *)
Definition held (X : gset string) (v : vault) : Prop :=
  beside v0 v ∧ parted m t X v ∧ records_kept v ∧ trash_kept v.

(** The intent is on disk and the backups of [D] are out of their place. *)
Definition recorded (D : gset string) (intent : string) (v : vault) : Prop :=
  beside v0 v ∧ (∃ b, v_backups v = SDir b ∧ ∀ i, b !! i = if decide (i ∈ D) then None else m !! i)
  ∧ entries (v_deletions v) !! intent_name = Some (VNode (VFile intent))
  ∧ records_kept v ∧ trash_kept v.

(** The deletion is complete. *)
Definition completed (D : gset string) (intent completion : string) (v : vault) : Prop :=
  recorded D intent v
  ∧ entries (v_deletions v0) !! intent_name = None
  ∧ entries (v_deletions v0) !! completion_name = None
  ∧ v_deletions v = SDir (<[completion_name := VNode (VFile completion)]>
      (<[intent_name := VNode (VFile intent)]> (entries (v_deletions v0))))
  ∧ v_trash v = SDir (delete t (entries (v_trash v0))).

Lemma quarantined_held X v : quarantined X v → held X v.
Proof. intros (Hb & Hd & Hp & Ht). split; [done|]. split; [done|]. split; [|done]. intros name e. by rewrite Hd. Qed.

Definition one_fault : Prop :=
  ∀ n msg, vfault_at n = VErr msg → ∀ n', (n < n')%nat → vfault_at n' = VOk.
Definition fresh_record : Prop := entries (v_deletions v0) !! intent_name = None.

Lemma faulted_settled v : one_fault → faulted v → settled v.
Proof. intros Ho (n & msg & Hn & Hf) n' Hn'. eapply Ho; [exact Hf|lia]. Qed.

Lemma completion_ne : completion_name ≠ intent_name.
Proof.
  unfold completion_name, intent_name. intros Hn. apply (f_equal String.length) in Hn.
  rewrite !length_app_str in Hn. simpl in Hn. lia.
Qed.

(** The intent is written once, next to the records that are there. *)
Lemma wp_write_intent D intent v :
  quarantined D v →
  wp (write_deletion intent_name intent)
    (λ _ v', recorded D intent v' ∧ trash_of t v' = trash_of t v ∧ fresh_record
       ∧ v_deletions v' = SDir (<[intent_name := VNode (VFile intent)]> (entries (v_deletions v0))))
    (λ _ v', quarantined D v' ∧ (one_fault → fresh_record → settled v'))
    (held D) v.
Proof.
  intros Hq. apply wp_bind, wp_gets. pose proof Hq as (Hb & Hd & Hp & Ht). rewrite Hd.
  destruct (entries (v_deletions v0) !! intent_name) as [e|] eqn:He.
  { rewrite bool_decide_true by done. apply wp_raise. split; [done|].
    unfold fresh_record. intros _ Hf. congruence. }
  rewrite bool_decide_false by (by intros [? ?]).
  assert (∀ data x, x = put_deletion intent_name data (bump v) → records_kept x) as Hk.
  { intros data x -> name e Hn. simpl. rewrite lookup_insert_ne; [by rewrite Hd|].
    intros Heq. rewrite <- Heq in Hn. congruence. }
  unfold wp, v_write. destruct (vfault_at (v_ev v)) as [|msg|n] eqn:Hf.
  - split; [|split; [done|split; [done|simpl; by rewrite Hd]]].
    split; [done|]. split; [by destruct Hp|]. split; [simpl; by rewrite lookup_insert_eq|].
    split; [by eapply Hk|done].
  - split; [done|]. intros Ho _ n' Hn'. eapply Ho; [exact Hf|]. simpl in Hn'. lia.
  - split; [done|]. split; [done|]. split; [by eapply Hk|done].
Qed.

(** After the intent, every step keeps it. *)
Lemma wp_finish D evidence v :
  recorded D (e_intent_bytes evidence) v → fresh_record →
  v_deletions v = SDir (<[intent_name := VNode (VFile (e_intent_bytes evidence))]>
                          (entries (v_deletions v0))) →
  wp (empty_trash t;;
      digest ← e_read (sha_deletion intent_name);
      require_bk (ne (e_completion evidence) "deletion_intent_sha256" (PStr digest))
        "retention intent digest differs from its exact plan";;
      write_deletion completion_name (e_completion_bytes evidence);;
      mret (e_completion evidence))
    (λ r v', r = e_completion evidence
       ∧ completed D (e_intent_bytes evidence) (e_completion_bytes evidence) v')
    (λ _, recorded D (e_intent_bytes evidence)) (recorded D (e_intent_bytes evidence)) v.
Proof.
  intros Hr Hfresh Hd. pose proof Hr as (Hb & Hbk & Hi & Hk & Ht).
  assert (∀ keeps, recorded D (e_intent_bytes evidence) (thin_trash t keeps (bump v))) as Hthin.
  { intros keeps. split; [done|]. split; [done|]. split; [done|]. split; [done|].
    intros t' Hne. simpl. rewrite lookup_insert_ne by done. by apply Ht. }
  apply wp_bind, wp_try, wp_rmtree; [|intros; apply wp_raise, Hthin|intros; apply Hthin].
  set (v1 := drop_trash t (bump v)).
  assert (recorded D (e_intent_bytes evidence) v1) as Hr1.
  { split; [done|]. split; [done|]. split; [done|]. split; [done|].
    intros t' Hne. simpl. rewrite lookup_delete_ne by done. by apply Ht. }
  apply wp_bind, wp_read; [|done]. intros digest _. apply wp_bind, wp_require; [intros _|done].
  apply wp_bind, wp_bind, wp_gets.
  destruct (entries (v_deletions v1) !! completion_name) as [e|] eqn:He.
  { rewrite bool_decide_true by done. by apply wp_raise. }
  rewrite bool_decide_false by (by intros [? ?]).
  assert (∀ data, recorded D (e_intent_bytes evidence) (put_deletion completion_name data (bump v1))) as Hput.
  { intros data. pose proof Hr1 as (_ & _ & _ & _ & Ht1).
    split; [done|]. split; [done|]. split; [|split; [|exact Ht1]].
    - simpl. rewrite lookup_insert_ne by apply completion_ne. done.
    - intros name e Hn. simpl. rewrite lookup_insert_ne; [by apply Hk|].
      intros Heq. rewrite <- Heq in Hn. apply Hk in Hn. simpl in He. congruence. }
  apply wp_write; [|done|done]. apply wp_ret. split; [done|]. split; [done|].
  simpl in He. rewrite Hd in He. simpl in He.
  rewrite lookup_insert_ne in He by (intros Heq; by apply completion_ne).
  split; [done|]. split; [done|]. simpl. rewrite Hd. split; [done|]. f_equal.
  apply map_eq. intros t'. destruct (decide (t' = t)) as [->|Hne].
  - by rewrite !lookup_delete_eq.
  - rewrite !lookup_delete_ne by done. by apply Ht.
Qed.

(** Where an unfinished deletion may stop. *)
Definition stopped (D : gset string) (intent : string) (v : vault) : Prop :=
  (∃ X, held X v ∧ X ⊆ D) ∨ recorded D intent v.
Definition raised (D : gset string) (intent : string) (v : vault) : Prop :=
  (∃ X, held X v ∧ X ⊆ D ∧ (one_fault → fresh_record → X = ∅)) ∨ recorded D intent v.

Lemma wp_carry_out plan evidence v :
  quarantined ∅ v → NoDup (map r_id (p_deleting plan)) →
  Forall (λ r, is_Some (m !! r_id r)) (p_deleting plan) →
  p_deleted plan = sort_str (map r_id (p_deleting plan)) →
  let D := list_to_set (map r_id (p_deleting plan)) in
  wp (carry_out plan evidence t)
    (λ r v', r = e_completion evidence
       ∧ completed D (e_intent_bytes evidence) (e_completion_bytes evidence) v')
    (λ _, raised D (e_intent_bytes evidence)) (stopped D (e_intent_bytes evidence)) v.
Proof.
  intros Hq Hnd Hm Hdel D. unfold carry_out. apply wp_bind.
  eapply wp_mono; [by apply (wp_quarantine _ [])| |done|].
  2:{ intros v' (X & HX & Hsub). left. exists X. split; [by apply quarantined_held|done]. }
  intros [moved failed] v1 (Hq1 & Hnd1 & Hsub & Hnone & Hsome). cbn [fst snd] in *.
  assert (Forall (λ i, is_Some (m !! i)) moved) as Hmm.
  { apply Forall_forall. intros i Hi. apply Hsub, list_elem_of_fmap in Hi as (r & -> & Hr).
    rewrite Forall_forall in Hm. by apply Hm. }
  assert (list_to_set moved ⊆ D) as HD by (unfold D; set_solver).
  apply wp_bind.
  eapply (wp_mono _ (λ _ v', recorded D (e_intent_bytes evidence) v' ∧ fresh_record
      ∧ v_deletions v' = SDir (<[intent_name := VNode (VFile (e_intent_bytes evidence))]>
          (entries (v_deletions v0)))) _ (λ _, raised D (e_intent_bytes evidence)) _
      (stopped D (e_intent_bytes evidence))); [| |done|done].
  2:{ intros [] v2 (Hr & Hf & Hd). eapply wp_mono; [by apply wp_finish|done| |];
        intros; by right. }
  assert (∀ exc v2, quarantined (list_to_set moved) v2 → (one_fault → fresh_record → settled v2) →
    wp (unwind t moved exc) (λ (_ : unit) v', recorded D (e_intent_bytes evidence) v' ∧ fresh_record
      ∧ v_deletions v' = SDir (<[intent_name := VNode (VFile (e_intent_bytes evidence))]>
          (entries (v_deletions v0)))) (λ _, raised D (e_intent_bytes evidence))
      (stopped D (e_intent_bytes evidence)) v2) as Hunwind.
  { intros exc v2 Hq2 Hs2. eapply (wp_mono _ (λ _ _, False)); [by apply wp_unwind|done| |].
    - intros e v3 (X & HX & HXs & Hset). left. exists X. split; [by apply quarantined_held|].
      split; [set_solver|]. intros Ho Hf. by destruct (Hset (Hs2 Ho Hf)).
    - intros v3 (X & HX & HXs). left. exists X. split; [by apply quarantined_held|set_solver]. }
  destruct failed as [exc|].
  { apply Hunwind; [done|]. intros Ho _. apply faulted_settled; [done|by apply Hsome]. }
  rewrite Hnone in * by done. simpl in *. apply wp_try, wp_bind, wp_require.
  2:{ rewrite Hdel, bool_decide_true by done. done. }
  intros _. eapply wp_mono; [by apply wp_write_intent| | |].
  - intros [] v2 (Hr & _ & Hf & Hd). done.
  - intros e v2 [Hq2 Hs2]. by apply Hunwind.
  - intros v2 Hh. left. by exists D.
Qed.
End deletion.

(** ** The whole deletion *)

(** What a plan deletes is in the vault. *)
Lemma plan_deleting anchor receipt daily weekly minimum expected v plan :
  plan_remote_retention anchor receipt daily weekly minimum expected None v = Ok plan →
  ∃ m, v_backups v = SDir m ∧ NoDup (map r_id (p_deleting plan))
    ∧ Forall (λ r, ∃ fs, m !! r_id r = Some (VDir fs) ∧ files_bytes fs = Some (r_bytes r))
        (p_deleting plan)
    ∧ p_deleted plan = sort_str (map r_id (p_deleting plan)).
Proof.
  intros Hp. destruct (plan_inv _ _ _ _ _ _ _ _ _ Hp)
    as (identity & records & known & _ & _ & _ & _ & He & _ & _ & _ & -> & _).
  pose proof (records_nodup _ _ _ He) as Hnd.
  destruct (verified_records_inv _ _ _ He) as (id' & m & _ & Hm & Hrec).
  exists m. split; [done|]. split; [|split; [|done]].
  - unfold make_plan. simpl. eapply sublist_NoDup.
    + rewrite <- (sort_newest_perm records) in Hnd. exact Hnd.
    + apply sublist_map, sublist_filter.
  - apply Forall_forall. intros r Hr. apply deleting_keep in Hr as [Hr _].
    rewrite sort_newest_perm, Hrec in Hr. apply list_elem_of_omap in Hr as (name & _ & Hr).
    destruct (inspect_entry_id _ _ _ _ Hr) as (Hid & _ & fs & Hfs & Hi). exists fs.
    rewrite Hid. split; [done|]. by destruct (inspect_backup_id _ _ _ _ Hi) as (_ & ? & _).
Qed.

(** The state in which the renames start: the trash directory is new. *)
Definition started (v : vault) (t : string) (v1 : vault) : Prop :=
  beside v v1 ∧ v_backups v1 = v_backups v ∧ grown (v_deletions v) (v_deletions v1)
  ∧ (∃ d, v_deletions v1 = SDir d)
  ∧ (∃ T, v_trash v1 = SDir (<[t := ∅]> T) ∧ grown (v_trash v) (SDir T) ∧ T !! t = None).

(** Nothing happened but, perhaps, empty directories. *)
Definition untouched (v v' : vault) : Prop :=
  beside v v' ∧ v_backups v' = v_backups v ∧ grown (v_deletions v) (v_deletions v')
  ∧ grown (v_trash v) (v_trash v').

Lemma untouched_deletions v v' :
  untouched v v' → v_deletions v = SMissing → untouched v (set_deletions (SDir ∅) (bump v')).
Proof. intros (Hb & Hbk & Hd & Ht) Hm. do 2 (split; [done|]). split; [by right|done]. Qed.

Lemma untouched_trash v v' :
  untouched v v' → v_trash v = SMissing → untouched v (set_trash (SDir ∅) (bump v')).
Proof. intros (Hb & Hbk & Hd & Ht) Hm. do 3 (split; [done|]). by right. Qed.

Lemma started_quarantined v t v1 m :
  started v t v1 → v_backups v = SDir m → quarantined v1 m t ∅ v1.
Proof.
  intros (Hb & Hbk & Hd & _ & T & HT & Hg & Hf) Hm. split; [by repeat split|]. split; [done|].
  split; [|done]. split; [|split].
  - exists m. by rewrite Hbk, Hm.
  - by eexists.
  - intros i. unfold trash_of. rewrite HT. simpl. by rewrite lookup_insert_eq.
Qed.

(** Where a deletion ends, in all three outcomes. *)
Definition ends (anchor receipt : string) (daily weekly minimum : Z) (expected : option string)
    (v v' : vault) (P : vault → ventries → string → retention_plan → retention_evidence → Prop) : Prop :=
  ∃ plan t at_ evidence v1 m,
    plan_remote_retention anchor receipt daily weekly minimum expected None v = Ok plan
    ∧ retention_evidence_documents plan t at_ daily weekly minimum = Ok evidence
    ∧ v_backups v = SDir m ∧ started v t v1 ∧ P v1 m t plan evidence.

Definition D_of (plan : retention_plan) : gset string := list_to_set (map r_id (p_deleting plan)).

Lemma wp_prune_remote anchor receipt daily weekly minimum deletion_id recorded_at expected v :
  let ends := ends anchor receipt daily weekly minimum expected v in
  wp (prune_remote anchor receipt daily weekly minimum deletion_id recorded_at expected)
    (λ r v', ends v' (λ v1 m t plan evidence, r = e_completion evidence
       ∧ (∀ t', deletion_id = Some t' → t' ≠ "" → t = t')
       ∧ (∀ at_', recorded_at = Some at_' → at_' ≠ "" →
            retention_evidence_documents plan t at_' daily weekly minimum = Ok evidence)
       ∧ completed v1 m t (D_of plan) (e_intent_bytes evidence) (e_completion_bytes evidence) v'))
    (λ _ v', untouched v v' ∨ ends v' (λ v1 m t plan evidence,
       (∀ t', deletion_id = Some t' → t' ≠ "" → t = t')
       ∧ raised v1 m t (D_of plan) (e_intent_bytes evidence) v'))
    (λ v', untouched v v' ∨ ends v' (λ v1 m t plan evidence,
       stopped v1 m t (D_of plan) (e_intent_bytes evidence) v')) v.
Proof.
  intros ends'. unfold prune_remote. assert (untouched v v) as Hu0 by (repeat split; by left).
  apply wp_bind, wp_read; [|by left]. intros plan Hplan.
  apply wp_bind.
  eapply (wp_mono _ (λ t v', untouched v v' ∧ v_deletions v' = v_deletions v ∧ v_trash v' = v_trash v
    ∧ ∀ t', deletion_id = Some t' → t' ≠ "" → t = t') _ (λ _, untouched v) _ (untouched v));
    [| |by left|by left].
  { apply wp_given_or; [naive_solver|]. intros Hempty.
    apply wp_bind, wp_read_at, wp_bind, wp_read_at, wp_lift; [|done]. intros t _. naive_solver. }
  intros t v2 (Hu2 & Hd2 & Ht2 & Hid). apply wp_bind.
  eapply (wp_mono _ (λ a v', untouched v v' ∧ v_deletions v' = v_deletions v ∧ v_trash v' = v_trash v
    ∧ ∀ a', recorded_at = Some a' → a' ≠ "" → a = a') _ (λ _ _, False) _ (λ _, False));
    [| |done|done].
  { apply wp_given_or; [naive_solver|]. intros Hempty. apply wp_read_at. naive_solver. }
  intros at_ v3 (Hu3 & Hd3 & Ht3 & Hat).
  apply wp_bind, wp_lift; [|by left]. intros evidence Hev.
  pose proof Hu3 as (Hb3 & Hbk3 & _).
  apply wp_bind.
  eapply (wp_mono _ (λ _ v', untouched v v' ∧ v_trash v' = v_trash v ∧ ∃ d, v_deletions v' = SDir d)
    _ (λ _, untouched v) _ (untouched v)); [| |by left|by left].
  { apply wp_ensure_slot; try done.
    - intros d Hd. by eauto.
    - rewrite Hd3. intros Hm. split; [by apply untouched_deletions|]. split; [done|by eexists].
    - rewrite Hd3. intros Hm. by apply untouched_deletions. }
  intros [] v4 (Hu4 & Ht4 & Hdd4). pose proof Hu4 as (Hb4 & Hbk4 & Hg4 & _).
  apply wp_bind.
  eapply (wp_mono _ (λ _ v', untouched v v' ∧ (∃ d, v_deletions v' = SDir d) ∧ ∃ T, v_trash v' = SDir T)
    _ (λ _, untouched v) _ (untouched v)); [| |by left|by left].
  { apply wp_ensure_slot; try done; rewrite Ht4.
    - intros T HT. split; [done|]. split; [done|]. exists T. congruence.
    - intros Hm. split; [by apply untouched_trash|]. split; [done|by eexists].
    - intros Hm. by apply untouched_trash. }
  intros [] v5 (Hu5 & Hdd5 & T & HT). pose proof Hu5 as (Hb5 & Hbk5 & Hg5 & Hgt5). rewrite HT in Hgt5.
  apply wp_bind, wp_gets. rewrite HT. simpl.
  destruct (T !! t) as [x|] eqn:Hfresh.
  { rewrite bool_decide_true by done. apply wp_bind, wp_raise. by left. }
  rewrite bool_decide_false by (by intros [? ?]).
  assert (started v t (put_trash t ∅ (bump v5))) as Hst.
  { split; [done|]. split; [done|]. split; [done|]. split; [done|]. exists T. simpl. by rewrite HT. }
  destruct (plan_deleting _ _ _ _ _ _ _ _ Hplan) as (m & Hm & Hnd & Hall & Hdel).
  pose proof (started_quarantined _ _ _ _ Hst Hm) as Hq.
  assert (untouched v (bump v5)) as Hu5' by done.
  apply wp_bind, wp_step; [|by left|by left|].
  2:{ right. exists plan, t, at_, evidence, (put_trash t ∅ (bump v5)), m. do 4 (split; [done|]).
      left. exists ∅. split; [by apply quarantined_held|apply empty_subseteq]. }
  eapply wp_mono; [apply wp_carry_out; [exact Hq|done| |done]| | |].
  - eapply Forall_impl; [exact Hall|]. intros r (fs & Hfs & _). by eexists.
  - intros r v6 [-> Hc]. exists plan, t, at_, evidence, (put_trash t ∅ (bump v5)), m.
    do 4 (split; [done|]). split; [done|]. split; [done|]. split; [|done].
    intros a' Ha' Hne. by rewrite <- (Hat a' Ha' Hne).
  - intros e v6 Hr. right. exists plan, t, at_, evidence, (put_trash t ∅ (bump v5)), m.
    do 4 (split; [done|]). by split.
  - intros v6 Hr. right. exists plan, t, at_, evidence, (put_trash t ∅ (bump v5)), m.
    by do 4 (split; [done|]).
Qed.

(** ** Theorems *)

Lemma D_of_elem anchor receipt daily weekly minimum expected v plan i :
  plan_remote_retention anchor receipt daily weekly minimum expected None v = Ok plan →
  i ∈ D_of plan ↔ i ∈ p_deleted plan.
Proof.
  intros Hp. destruct (plan_deleting _ _ _ _ _ _ _ _ Hp) as (m & _ & _ & _ & ->).
  unfold D_of. by rewrite elem_of_list_to_set, elem_of_sort_str.
Qed.

Lemma beside_trans v v1 v2 : beside v v1 → beside v1 v2 → beside v v2.
Proof. intros (?&?&?&?&?) (?&?&?&?&?). repeat split; congruence. Qed.

(** A backup, after a deletion in the trash directory [t] with the intent
    [intent], that held [e] before it. *)
Definition accounted (v' : vault) (t intent i : string) (e : ventry) : Prop :=
  entries (v_backups v') !! i = Some e ∨ trash_of t v' !! i = Some e
  ∨ entries (v_deletions v') !! (t +:+ ".intent.json") = Some (VNode (VFile intent)).

(** What [held] and [recorded] say of the backups of the vault. *)
Lemma stopped_accounts v v1 v' t m D intent :
  started v t v1 → v_backups v = SDir m → stopped v1 m t D intent v' →
  beside v v' ∧ records_kept v v'
  ∧ (∀ i, i ∉ D → entries (v_backups v') !! i = m !! i)
  ∧ (∀ i e, m !! i = Some e → accounted v' t intent i e).
Proof.
  intros (Hb & Hbk & Hd & _ & _) Hm Hs. unfold records_kept. rewrite <- (grown_entries _ _ Hd).
  destruct Hs as [(X & (Hb' & ((b & Hbb & Hbi) & _ & Htr) & Hk & _) & HX)|(Hb' & (b & Hbb & Hbi) & Hi & Hk & _)].
  - split; [by eapply beside_trans|]. split; [done|]. rewrite Hbb. simpl. split.
    + intros i Hi. by rewrite Hbi, decide_False by set_solver.
    + intros i e He. unfold accounted. rewrite Hbb, Htr. simpl. rewrite Hbi.
      destruct (decide (i ∈ X)); naive_solver.
  - split; [by eapply beside_trans|]. split; [done|]. rewrite Hbb. simpl. split.
    + intros i Hn. by rewrite Hbi, decide_False.
    + intros i e He. by right; right.
Qed.

Lemma raised_stopped v1 m t D intent v : raised v1 m t D intent v → stopped v1 m t D intent v.
Proof. intros [(X & HX & Hsub & _)|Hr]; [left; by exists X|by right]. Qed.

Lemma completed_stopped v1 m t D intent completion v :
  completed v1 m t D intent completion v → stopped v1 m t D intent v.
Proof. intros [Hr _]. by right. Qed.

(** What a deletion that came to a plan leaves. *)
Definition accountable (anchor receipt : string) (daily weekly minimum : Z)
    (expected : option string) (v v' : vault)
    (P : string → retention_plan → retention_evidence → Prop) : Prop :=
  ∃ plan t at_ evidence,
    plan_remote_retention anchor receipt daily weekly minimum expected None v = Ok plan
    ∧ retention_evidence_documents plan t at_ daily weekly minimum = Ok evidence
    ∧ (∀ i, i ∉ p_deleted plan → entries (v_backups v') !! i = entries (v_backups v) !! i)
    ∧ (∀ i e, entries (v_backups v) !! i = Some e → accounted v' t (e_intent_bytes evidence) i e)
    ∧ P t plan evidence.

Lemma ends_accountable anchor receipt daily weekly minimum expected v v' P R :
  ends anchor receipt daily weekly minimum expected v v'
    (λ v1 m t plan evidence, stopped v1 m t (D_of plan) (e_intent_bytes evidence) v'
       ∧ R v1 m t plan evidence) →
  (∀ v1 m t plan evidence, started v t v1 → v_backups v = SDir m →
     (∀ i, i ∈ D_of plan ↔ i ∈ p_deleted plan) → R v1 m t plan evidence → P t plan evidence) →
  beside v v' ∧ records_kept v v'
  ∧ accountable anchor receipt daily weekly minimum expected v v' P.
Proof.
  intros (plan & t & at_ & ev & v1 & m & Hp & Hev & Hm & Hst & Hs & HR) HP.
  destruct (stopped_accounts _ _ _ _ _ _ _ Hst Hm Hs) as (Hb & Hk & Hkeep & Hacc).
  split; [done|]. split; [done|]. exists plan, t, at_, ev. do 2 (split; [done|]). rewrite Hm.
  pose proof (λ i, D_of_elem _ _ _ _ _ _ _ _ i Hp) as HD.
  split; [intros i Hi; apply Hkeep; by rewrite HD|]. split; [done|]. by eapply HP.
Qed.

(** Reduces to the case of a deletion that came to a plan. *)
Ltac planned_end :=
  match goal with |- ?A ∧ ?B ∧ (_ ∨ ?G) =>
    assert (A ∧ B ∧ G) as (? & ? & ?); [|split; [done|split; [done|by right]]] end.

Lemma untouched_kept v x :
  untouched v x → beside v x ∧ records_kept v x ∧ v_backups x = v_backups v.
Proof.
  intros (Hb & Hbk & Hd & _). split; [done|]. split; [|done]. intros name e.
  by rewrite (grown_entries _ _ Hd).
Qed.


(** C18: a single failing step leaves no orphaned quarantine: when a deletion
    whose record is new raises an exception and nothing fails after the first
    fault, all backups are back in their place, unless the intent to delete
    them was already on disk. *)
Theorem prune_restores anchor receipt daily weekly minimum t recorded_at expected v e v' :
  t ≠ "" → one_fault → entries (v_deletions v) !! (t +:+ ".intent.json") = None →
  prune_remote anchor receipt daily weekly minimum (Some t) recorded_at expected v = (ORaise e, v') →
  entries (v_backups v') = entries (v_backups v)
  ∨ ∃ intent, entries (v_deletions v') !! (t +:+ ".intent.json") = Some (VNode (VFile intent)).
Proof.
  intros Hne Hone Hfresh Hrun.
  pose proof (wp_prune_remote anchor receipt daily weekly minimum (Some t) recorded_at expected v) as Hw.
  cbv zeta in Hw. unfold wp in Hw. rewrite Hrun in Hw.
  destruct Hw as [Hu|(plan & t' & at_ & ev & v1 & m & Hp & Hev & Hm & Hst & Ht & Hr)].
  { left. by destruct (untouched_kept _ _ Hu) as (_ & _ & ->). }
  rewrite (Ht t) in * by done.
  destruct Hr as [(X & (_ & ((b & Hbb & Hbi) & _) & _) & _ & HX)|(_ & _ & Hi & _)]; [left|right; by eexists].
  assert (fresh_record v1 t) as Hf.
  { unfold fresh_record. destruct Hst as (_ & _ & Hd & _). by rewrite (grown_entries _ _ Hd). }
  rewrite (HX Hone Hf) in Hbi. rewrite Hbb, Hm. simpl. apply map_eq. intros i.
  by rewrite Hbi, decide_False by set_solver.
Qed.
End prune.
