(* ===== verification/VaultGoverned.v ===== *)
(** * The off-host backup vault: the governed retention run

    [run_retention] plans and prunes under the vault's lock.  When it returns,
    the size of the vault is exactly the one it announced, within the policy's
    limit, and the newest verified backup is still in its place. *)
From S2P Require Import Prelude PyFloat PyValue PyTime PyPath PyJson PyJsonFacts PyEffect LifecycleCore.
From S2P Require Import Vault VaultStore VaultKnownGood VaultRetention VaultFacts VaultInventory.
From S2P Require Import VaultStoreFacts VaultRetentionPlan VaultPrune.
#[local] Open Scope Z_scope.

Section governed.
Context `{VaultRuntime}.

(** ** The size of the vault after a deletion *)

Definition record_bytes (l : list vrecord) : Z := foldr (λ r acc, r_bytes r + acc) 0 l.

(** The backups without those of some names. *)
Definition omit (names : list string) (m : ventries) : ventries := foldr delete m names.

Lemma omit_lookup names (m : ventries) i :
  omit names m !! i = if decide (i ∈ (list_to_set names : gset string)) then None else m !! i.
Proof.
  induction names as [|n names IH]; simpl.
  - by rewrite decide_False by set_solver.
  - destruct (decide (i = n)) as [->|Hne].
    + rewrite lookup_delete_eq, decide_True by set_solver. done.
    + rewrite lookup_delete_ne, IH by done. same_part i (list_to_set names : gset string).
Qed.

Lemma omit_bytes (l : list vrecord) (m : ventries) :
  NoDup (map r_id l) →
  Forall (λ r, ∃ fs, m !! r_id r = Some (VDir fs) ∧ files_bytes fs = Some (r_bytes r)) l →
  entries_bytes m = oadd (Some (record_bytes l)) (entries_bytes (omit (map r_id l) m)).
Proof.
  induction l as [|r l IH]; intros Hnd Hall; [symmetry; apply oadd_0|].
  apply NoDup_cons in Hnd as [Hr Hnd]. apply Forall_cons in Hall as [(fs & Hfs & Hb) Hall].
  rewrite (IH Hnd Hall).
  assert (omit (map r_id l) m !! r_id r = Some (VDir fs)) as Hl.
  { rewrite omit_lookup, decide_False; [done|]. by rewrite elem_of_list_to_set. }
  change (omit (map r_id (r :: l)) m) with (delete (r_id r) (omit (map r_id l) m)).
  change (record_bytes (r :: l)) with (r_bytes r + record_bytes l).
  unfold entries_bytes. rewrite (total_delete entry_bytes _ _ _ Hl). cbn [entry_bytes]. rewrite Hb.
  destruct (total entry_bytes (delete _ _)); [|done]. simpl. f_equal. lia.
Qed.

Lemma node_entry_bytes data : entry_bytes (VNode (VFile data)) = Some (str_len data).
Proof. done. Qed.

(** Taking from one slot and adding to another. *)
Lemma bytes_shift o1 o2 o3 o4 o5 o6 o7 o8 s c b :
  foldr oadd (Some 0) [o1; o2; o3; oadd (Some s) o4; o5; o6; o7; o8] = Some b →
  foldr oadd (Some 0) [o1; o2; o3; o4; o5; o6; oadd (Some c) o7; o8] = Some (b - s + c).
Proof.
  cbn [foldr]. destruct o1; [|done]. destruct o2; [|done]. destruct o3; [|done].
  destruct o4; [|done]. destruct o5; [|done]. destruct o6; [|done]. destruct o7; [|done].
  destruct o8; [|done]. simpl. intros [= <-]. f_equal. lia.
Qed.

Lemma vault_bytes_completed v v1 v' t m plan intent completion b :
  started v t v1 → v_backups v = SDir m → NoDup (map r_id (p_deleting plan)) →
  Forall (λ r, ∃ fs, m !! r_id r = Some (VDir fs) ∧ files_bytes fs = Some (r_bytes r))
    (p_deleting plan) →
  completed v1 m t (D_of plan) intent completion v' → vault_bytes v = Some b →
  vault_bytes v' = Some (b - record_bytes (p_deleting plan) + (str_len intent + str_len completion)).
Proof.
  intros (Hb1 & Hbk1 & Hd1 & [dd Hdd] & T & HT & HgT & HfT) Hm Hnd Hall
    ((Hb' & (b' & Hbb & Hbi) & _) & Hfi & Hfc & Hd & Ht) Hv.
  pose proof (beside_trans _ _ _ Hb1 Hb') as (Hi & Hl & Ho & Hin & Hk).
  assert (b' = omit (map r_id (p_deleting plan)) m) as ->.
  { apply map_eq. intros i. rewrite Hbi, omit_lookup. done. }
  assert (v_trash v' = SDir T) as Ht'.
  { rewrite Ht, HT. simpl. by rewrite delete_insert_id. }
  assert (slot_bytes entries_bytes (v_deletions v')
    = oadd (Some (str_len completion + str_len intent)) (slot_bytes entries_bytes (v_deletions v))) as Hdb.
  { rewrite Hd. cbn [slot_bytes]. unfold entries_bytes.
    rewrite total_insert by (rewrite lookup_insert_ne; [done|]; intros Heq; by eapply completion_ne).
    rewrite total_insert by done. rewrite !node_entry_bytes, oadd_assoc. f_equal.
    rewrite Hdd in *. exact (grown_bytes entry_bytes _ _ Hd1). }
  assert (slot_bytes (total entries_bytes) (v_trash v')
    = slot_bytes (total entries_bytes) (v_trash v)) as Htb.
  { rewrite Ht'. apply grown_bytes, HgT. }
  unfold vault_bytes in *. rewrite Hi, Hl, Ho, Hin, Hk, Hdb, Htb, Hbb.
  rewrite Hm in Hv. cbn [slot_bytes] in *. rewrite (omit_bytes _ _ Hnd Hall) in Hv.
  rewrite (bytes_shift _ _ _ _ _ _ _ _ _ _ _ Hv). f_equal. lia.
Qed.

(** ** The run *)

(** The same vault at another event. *)
Definition same_store (v w : vault) : Prop :=
  w = Vault (v_ev w) (v_in w) (v_identity v) (v_lock v) (v_other v) (v_backups v) (v_incoming v)
        (v_known_good v) (v_deletions v) (v_trash v).

Lemma same_store_refl v : same_store v v.
Proof. by destruct v. Qed.
Lemma same_store_bump v w : same_store v w → same_store v (bump w).
Proof. unfold same_store. by intros ->. Qed.

Lemma same_store_bytes v w : same_store v w → vault_bytes w = vault_bytes v.
Proof. by intros ->. Qed.

(** The plan reads the identity, the backups and the attestations. *)
Lemma load_same v w i :
  same_store v w → load_known_good_attestation w i = load_known_good_attestation v i.
Proof. intros ->. reflexivity. Qed.

Lemma scan_same v w restores targets l :
  same_store v w → known_good_scan w restores targets l = known_good_scan v restores targets l.
Proof.
  intros Hw. revert restores targets. induction l as [|r l IH]; intros restores targets; [done|].
  cbn [known_good_scan]. rewrite (load_same v w) by done.
  destruct (load_known_good_attestation v (r_id r)) as [a|e]; [|by rewrite IH].
  destruct (item a "restore_id") as [x|]; [|done]. cbn [mbind res_bind].
  destruct (item a "identities") as [y|]; [|done]. cbn [mbind res_bind].
  destruct (sub_item y _) as [z|]; [|done]. cbn [mbind res_bind].
  destruct (hashable x) as [x'|]; [|done]. cbn [mbind res_bind].
  destruct (py_in x' restores); [by rewrite IH|]. destruct (hashable z) as [z'|]; [|done].
  cbn [mbind res_bind]. destruct (py_in z' targets); [by rewrite IH|].
  destruct (item a "attestation_sha256"); [|done]. cbn [mbind res_bind]. by rewrite IH.
Qed.

Lemma plan_same anchor receipt daily weekly minimum expected given v w :
  same_store v w →
  plan_remote_retention anchor receipt daily weekly minimum expected given w
  = plan_remote_retention anchor receipt daily weekly minimum expected given v.
Proof.
  intros Hw. unfold plan_remote_retention.
  destruct (validate_backup_id anchor); [|done]. cbn [mbind res_bind].
  destruct (validate_sha256 _ _); [|done]. cbn [mbind res_bind].
  destruct (guard_bk _ "retention counts are invalid"); [|done]. cbn [mbind res_bind].
  replace (expected_identity_of expected w) with (expected_identity_of expected v) by (by rewrite Hw).
  destruct (expected_identity_of expected v) as [identity|]; [|done].
  cbn [mbind res_bind].
  replace (verified_vault_records (Some identity) w) with (verified_vault_records (Some identity) v)
    by (by rewrite Hw).
  destruct given; cbn [mbind res_bind].
  - by rewrite (scan_same v w).
  - destruct (verified_vault_records _ v); cbn [mbind res_bind]; [|done]. by rewrite (scan_same v w).
Qed.

(** The plan does not depend on who collected the records. *)
Lemma plan_given_records anchor receipt daily weekly minimum identity records v :
  expected_identity_of (Some identity) v = Ok identity →
  verified_vault_records (Some identity) v = Ok records →
  plan_remote_retention anchor receipt daily weekly minimum (Some identity) (Some records) v
  = plan_remote_retention anchor receipt daily weekly minimum (Some identity) None v.
Proof. intros Hi Hr. unfold plan_remote_retention. rewrite Hi. simpl. by rewrite Hr. Qed.

Lemma wp_require_vr bad msg (P : unit → vault → Prop) (E : exn → vault → Prop) C x :
  (bad = false → P () x) → (∀ e v, E e v) → wp (require_vr bad msg) P E C x.
Proof. intros HP HE. unfold require_vr, guard_vr, guard_cls. destruct bad; apply wp_lift; naive_solver. Qed.

Lemma wp_capacity_snapshot phase maximum minimum enforce v
    (Q : Z * Z → vault → Prop) (E : exn → vault → Prop) (C : vault → Prop) :
  (∀ b free, vault_bytes v = Some b → (enforce = true → b <= maximum) → Q (b, free) (bump v)) →
  (∀ e v, E e v) → wp (capacity_snapshot phase maximum minimum enforce) Q E C v.
Proof.
  intros HQ HE.
  apply wp_bind, wp_require_vr; [intros _|done]. apply wp_bind, wp_read; [|auto]. intros b Hb.
  apply wp_bind, wp_read_at, wp_bind, wp_require_vr; [intros _|done].
  apply wp_bind, wp_require_vr; [intros Hmax|done].
  apply wp_bind, wp_require_vr; [intros _|done]. apply wp_ret, HQ.
  - unfold vault_size_bytes, logical_regular_file_bytes, unsafe_entry in Hb.
    destruct (vault_bytes v); [|done]. simpl in Hb. by injection Hb as ->.
  - intros ->. simpl in Hmax. lia.
Qed.


(** What a governed run that returned has done. *)
Definition governed (v : vault) (d : pydict) (v' : vault) : Prop :=
  ∃ identity anchor plan evidence b r rest,
    plan_remote_retention (a_id anchor) (a_receipt anchor) EXPECTED_DAILY_COPIES
      EXPECTED_WEEKLY_COPIES EXPECTED_MINIMUM_KNOWN_GOOD (Some identity) None v = Ok plan
    ∧ vault_bytes v = Some b
    ∧ (let after := b - p_deleted_bytes plan + e_logical_bytes evidence in
       vault_bytes v' = Some after ∧ after <= EXPECTED_MAX_VAULT_BYTES
       ∧ get (as_dict (get d "capacity")) "planned_after_vault_bytes" = PInt after
       ∧ get (as_dict (get (as_dict (get d "capacity")) "after")) "vault_bytes" = PInt after)
    ∧ (∀ i, entries (v_backups v') !! i
            = if decide (i ∈ p_deleted plan) then None else entries (v_backups v) !! i)
    ∧ p_records plan = r :: rest ∧ r_id r ∉ p_deleted plan
    ∧ is_Some (entries (v_backups v') !! r_id r)
    ∧ get d "retention" = PDict (e_completion evidence).

Lemma evidence_time plan t at_ daily weekly minimum evidence :
  retention_evidence_documents plan t at_ daily weekly minimum = Ok evidence →
  at_ ≠ "" ∧ t ≠ ""
  ∧ e_logical_bytes evidence = str_len (e_intent_bytes evidence) + str_len (e_completion_bytes evidence).
Proof.
  unfold retention_evidence_documents. intros He. apply res_bind_ok in He as (t' & Ht & He).
  apply res_bind_ok in He as (u & Hg & He). apply guard_cls_ok, negb_false_iff in Hg.
  apply Ok_inj in He. subst evidence. split; [by intros ->|]. split; [|done]. by intros ->.
Qed.

(** The newest record is among the backups and not deleted. *)
Lemma newest_survives anchor receipt daily weekly minimum identity v plan :
  plan_remote_retention anchor receipt daily weekly minimum (Some identity) None v = Ok plan →
  ∃ r rest, p_records plan = r :: rest ∧ r_id r ∉ p_deleted plan
    ∧ is_Some (entries (v_backups v) !! r_id r).
Proof.
  intros Hp. destruct (plan_inv _ _ _ _ _ _ _ _ _ Hp)
    as (id' & records & known & Hd & Hw & _ & _ & He & (r0 & Hr0 & _) & _ & _ & -> & _).
  pose proof (sort_newest_perm records) as Hperm. pose proof (records_nodup _ _ _ He) as Hnd.
  destruct (verified_records_inv _ _ _ He) as (id'' & m & _ & Hm & Hrec).
  cbn [p_records make_plan]. destruct (sort_newest records) as [|r rest] eqn:Hs.
  { apply Permutation_nil_l in Hperm. rewrite <- Hperm in Hr0. by apply not_elem_of_nil in Hr0. }
  exists r, rest. split; [done|].
  assert (r ∈ records) as Hr by (rewrite <- Hperm; by left).
  rewrite Hrec in Hr. apply list_elem_of_omap in Hr as (name & _ & Hr).
  destruct (inspect_entry_id _ _ _ _ Hr) as (Hid & _ & fs & Hfs & Hi).
  split; [|rewrite Hm, Hid; simpl; rewrite Hfs; by eexists].
  unfold make_plan. cbn [p_deleted]. rewrite elem_of_sort_str.
  intros (x & Hx & Hin)%list_elem_of_fmap. apply list_elem_of_filter in Hin as [Hf _].
  rewrite <- Hx in Hf.
  assert (r_id r ∈ keep_ids daily weekly (take (Z.to_nat minimum) known) (r :: rest)) as Hkeep.
  { rewrite <- (retained_keep id' anchor receipt).
    apply newest_kept with (rest := rest); try done. by eapply record_classes. }
  apply mem_str_spec in Hkeep. congruence.
Qed.

Lemma wp_retention_body trusted root file meta timestamp deletion_id v w :
  same_store v w →
  wp (retention_body trusted root file meta timestamp deletion_id) (governed v) (λ _ _, True)
    (λ _, True) w.
Proof.
  intros Hw. unfold retention_body. apply wp_bind, wp_lift; [|done]. intros policy_sha _.
  apply wp_bind, wp_require_vr; [intros _|done].
  apply wp_bind, wp_read; [|done]. intros text Htext.
  apply wp_bind, wp_capacity_snapshot; [|done]. intros b free Hb _. cbn [fst].
  rewrite (same_store_bytes _ _ Hw) in Hb. apply same_store_bump in Hw.
  set (w1 := bump w) in *. clearbody w1.
  apply wp_bind, wp_read; [|done]. intros records Hrec.
  apply wp_bind, wp_read; [|done]. intros anchor _.
  apply wp_bind, wp_read; [|done]. intros plan Hplan.
  assert (plan_remote_retention (a_id anchor) (a_receipt anchor) EXPECTED_DAILY_COPIES
    EXPECTED_WEEKLY_COPIES EXPECTED_MINIMUM_KNOWN_GOOD (Some (vsha256 text)) None v = Ok plan) as Hp.
  { assert (expected_identity_of (Some (vsha256 text)) w1 = Ok (vsha256 text)) as Hid.
    { destruct (verified_records_inv _ _ _ Hrec) as (x & _ & Hx & _).
      by rewrite (expected_identity_given _ _ _ Hx) in Hx. }
    rewrite (plan_given_records _ _ _ _ _ _ _ _ Hid Hrec) in Hplan.
    by rewrite (plan_same _ _ _ _ _ _ _ v) in Hplan. }
  apply wp_bind, wp_require_vr; [intros _|done].
  apply wp_bind, wp_lift; [|done]. intros evidence Hev.
  apply wp_bind, wp_require_vr; [intros Hmax|done].
  destruct (evidence_time _ _ _ _ _ _ _ Hev) as (Hts & Hid & Hlog).
  apply wp_bind.
  eapply wp_mono; [apply wp_prune_remote| |done|done]. cbv beta zeta.
  intros r v2 (plan' & t & at_ & ev' & v1 & m & Hp' & _ & Hm & Hst & -> & Ht & Hat & Hc).
  rewrite (Ht deletion_id) in * by done.
  assert (plan' = plan) as -> by (rewrite (plan_same _ _ _ _ _ _ _ v) in Hp' by done; congruence).
  assert (ev' = evidence) as -> by (pose proof (Hat timestamp eq_refl Hts); congruence).
  apply wp_bind, wp_require_vr; [intros _|done].
  destruct (plan_deleting _ _ _ _ _ _ _ _ Hp') as (m' & Hm' & Hnd & Hall & _).
  assert (m' = m) as -> by congruence.
  rewrite <- (same_store_bytes _ _ Hw) in Hb.
  pose proof (vault_bytes_completed _ _ _ _ _ _ _ _ _ Hst Hm Hnd Hall Hc Hb) as Hbytes.
  assert (record_bytes (p_deleting plan) = p_deleted_bytes plan) as Hdb.
  { destruct (plan_inv _ _ _ _ _ _ _ _ _ Hp') as (? & ? & ? & _ & _ & _ & _ & _ & _ & _ & _ & -> & _). done. }
  rewrite Hdb, <- Hlog in Hbytes.
  apply wp_bind, wp_capacity_snapshot; [|done]. intros b' free' Hb' Hle. apply wp_ret.
  assert (b' = b - p_deleted_bytes plan + e_logical_bytes evidence) as -> by congruence.
  destruct (newest_survives _ _ _ _ _ _ _ _ Hp) as (r & rest & Hr & Hnr & Hin).
  exists (vsha256 text), anchor, plan, evidence, b, r, rest. split; [done|].
  rewrite (same_store_bytes _ _ Hw) in Hb. split; [done|]. split.
  { cbv zeta. split; [exact Hbytes|]. split; [by apply Hle|]. split; reflexivity. }
  destruct Hc as ((_ & (bk & Hbk & Hbi) & _) & _).
  assert (∀ i, entries (v_backups (bump v2)) !! i
    = if decide (i ∈ p_deleted plan) then None else entries (v_backups v) !! i) as Hback.
  { intros i. simpl. rewrite Hbk. simpl. rewrite Hbi.
    assert (v_backups v = SDir m) as -> by (rewrite Hw in Hm; exact Hm). simpl.
    pose proof (D_of_elem _ _ _ _ _ _ _ _ i Hp) as HD.
    destruct (decide (i ∈ D_of plan)); [rewrite decide_True|rewrite decide_False]; tauto. }
  split; [exact Hback|]. split; [done|]. split; [done|]. split; [|reflexivity].
  by rewrite Hback, decide_False.
Qed.

(** C19: a governed retention run that returns has done exactly what it
    announced.  Exactly the planned backups are gone; the logical size of the
    vault is, to the byte, the planned one (the size before, less the deleted
    records, plus the two evidence documents), it is the size the run reports
    after the deletion, and it is within the policy's limit; the newest verified
    backup is still there. *)
Theorem retention_run_exact trusted root file meta generated_at v d v' :
  run_retention trusted root file meta generated_at v = (ORet d, v') → governed v d v'.
Proof.
  intros Hrun.
  assert (wp (run_retention trusted root file meta generated_at) (governed v) (λ _ _, True)
    (λ _, True) v) as Hw; [|unfold wp in Hw; by rewrite Hrun in Hw].
  unfold run_retention. apply wp_bind, wp_read; [|done]. intros _ _. apply wp_bind.
  assert (∀ t w, same_store v w → wp (deletion_id ← default_prune_id;
    vault_local_lock trusted (retention_body trusted root file meta t deletion_id))
    (governed v) (λ _ _, True) (λ _, True) w) as Hgo.
  { intros t w Hs. apply wp_bind. unfold default_prune_id.
    apply wp_bind, wp_read_at, wp_bind, wp_read_at, wp_lift; [|done]. intros i _.
    apply wp_vault_local_lock; [|done..]. apply wp_retention_body. by do 3 apply same_store_bump. }
  apply wp_given_or; [intros t _ _|intros _; apply wp_read_at]; apply Hgo;
    [apply same_store_refl|apply same_store_bump, same_store_refl].
Qed.
End governed.
