(* ===== verification/VaultSamples.v ===== *)
(** * The off-host backup vault: a sample

    A runtime, a vault with backups and attestations, and the documents they
    consist of, on which the theorems are evaluated.  The digest of a text
    is its length and a polynomial hash of its start, printed as 64 hexadecimal
    digits. *)
From S2P Require Import Prelude PyFloat PyValue PyTime PyPath PyJson PyEffect LifecycleCore.
From S2P Require Import Vault VaultStore VaultKnownGood VaultRetention.
#[local] Open Scope Z_scope.

(** ** The runtime *)

Fixpoint poly_hash (h : N) (s : string) : N :=
  match s with
  | EmptyString => h
  | String a r => poly_hash (N.land (h * 33 + N_of_ascii a) 65535)%N r
  end.
Fixpoint hex_of (k : nat) (n : N) : string :=
  match k with O => "" | S k => hex_of k (n / 16)%N +:+ String (hex_digit (n mod 16)%N) "" end.
Definition sample_sha (s : string) : string :=
  str_repeat "0" 56 +:+ hex_of 4 (N.of_nat (String.length s))
  +:+ hex_of 4 (poly_hash 7 (str_take 40 s)).

Definition sample_meta (name : string) : vmeta :=
  if String.eqb name "" then VMeta 0 1000 488 2
  else if String.eqb name ".vault-identity" then VMeta 0 1000 416 1
  else if String.eqb name ".vault.lock" then VMeta 0 1000 432 1
  else VMeta 1000 1000 448 2.

(** A runtime with the given faults and summaries. *)
Definition sample_runtime (faults : nat → vfault) (summary : string → option vnode) : VaultRuntime := {|
  vsha256 := sample_sha;
  vnow_at _ := "2026-08-01T12:00:00Z";
  vuuid_at _ := "0123456789abcdef0123456789abcdef";
  vstamp_at _ := "20260801T120000Z";
  vfree_at _ := 1000000000000;
  vfault_at := faults;
  vkeeps_at _ _ := true;
  vmeta_of := sample_meta;
  v_euid := 1000;
  v_egid := 1000;
  vsummary_at _ := summary;
  vswapped_at _ := false |}.

Definition calm : VaultRuntime := sample_runtime (λ _, VOk) (λ _, None).

(** ** Documents *)

Definition sample_host : string := sample_sha "source host".
Definition sample_identity : string := str_repeat "i" 32.
Definition sample_vault_host : string := sample_sha sample_identity.

Definition sample_deployment : pydict :=
  [("deployment_id", PStr "v1.2.3-a"); ("tag", PStr "v1.2.3"); ("commit", PStr (str_repeat "a" 40));
   ("runtime_asset_sha256", PStr (sample_sha "asset"))].

Definition sample_manifest (i created archive : string) (classes : list string) : string :=
  canonical_json (PDict
    [("schema_version", PInt 2); ("backup_id", PStr i); ("created_at", PStr created);
     ("archive", PDict [("sha256", PStr (sample_sha archive)); ("size_bytes", PInt (str_len archive));
                        ("plaintext_sha256", PStr (sample_sha "plaintext"))]);
     ("backup_policy_sha256", PStr (sample_sha "policy"));
     ("redis_profile_sha256", PStr (sample_sha "profile"));
     ("sources", PList [PDict [("id", PStr "redis_snapshot"); ("archive_path", PStr "redis/dump.rdb");
                               ("sha256", PStr (sample_sha "rdb")); ("size_bytes", PInt 100)]]);
     ("archive_contract", PDict [("format", PStr "link_free_tar_v1"); ("symbolic_link_entries", PInt 0);
                                 ("hard_link_entries", PInt 0); ("symbolic_links_recorded", PInt 0)]);
     ("source_links", PList []); ("retention_classes", PList (map PStr classes));
     ("formal_todo0012_claim", PBool false); ("consistent_redis_snapshot", PBool true);
     ("encrypted_before_transfer", PBool true);
     ("source_host", PDict [("host_id_sha256", PStr sample_host)]);
     ("deployment", PDict (("host", PDict [("host_id_sha256", PStr sample_host)]) :: sample_deployment));
     ("secret_material_recorded", PBool false)]).

Definition sample_receipt (i archive manifest : string) : string :=
  canonical_json (PDict
    [("schema_version", PInt 1); ("backup_id", PStr i); ("stored_at", PStr "2026-08-01T12:00:00Z");
     ("archive_sha256", PStr (sample_sha archive)); ("archive_size", PInt (str_len archive));
     ("manifest_sha256", PStr (sample_sha manifest)); ("manifest_size", PInt (str_len manifest));
     ("vault_host_id_sha256", PStr sample_vault_host); ("remote_readback_sha256", PBool true);
     ("create_only", PBool true); ("secret_material_recorded", PBool false)]).

(** A backup of an index, by the day it was made. *)
Record sample := Sample { sm_id : string; sm_created : string; sm_classes : list string }.
Definition sm_archive (s : sample) : string := "age-encrypted " +:+ sm_id s.
Definition sm_manifest (s : sample) : string :=
  sample_manifest (sm_id s) (sm_created s) (sm_archive s) (sm_classes s).
Definition sm_receipt (s : sample) : string := sample_receipt (sm_id s) (sm_archive s) (sm_manifest s).
Definition sm_files (s : sample) : vfiles :=
  <["receipt.json" := VFile (sm_receipt s)]> (<["manifest.json" := VFile (sm_manifest s)]>
    (<["payload.tar.age" := VFile (sm_archive s)]> ∅)).

(** The summaries of a validation, a restore and its business checks. *)
Definition sm_validation (s : sample) : string :=
  canonical_json (PDict
    [("schema_version", PInt 1); ("backup_id", PStr (sm_id s)); ("overall_pass", PBool true);
     ("restore_known_good", PBool false); ("formal_todo0012_claim", PBool false);
     ("secret_material_recorded", PBool false);
     ("checks", PDict (map (λ c, (c, PBool true)) required_validation_checks));
     ("artifacts", PDict
        [("archive_sha256", PStr (sample_sha (sm_archive s)));
         ("manifest_sha256", PStr (sample_sha (sm_manifest s)));
         ("receipt_sha256", PStr (sample_sha (sm_receipt s)));
         ("vault_host_id_sha256", PStr sample_vault_host);
         ("plaintext_sha256", PStr (sample_sha "plaintext"));
         ("redis_sha256", PStr (sample_sha "rdb")); ("redis_size_bytes", PInt 100);
         ("plaintext_size_bytes", PInt 1000); ("member_count", PInt 3)])]).

Definition all_true (l : list string) : pydict := map (λ k, (k, PBool true)) l.
Definition all_false (l : list string) : pydict := map (λ k, (k, PBool false)) l.

Definition sm_restore (s : sample) : string :=
  canonical_json (PDict
    ([("schema_version", PInt 1); ("backup_id", PStr (sm_id s)); ("overall_pass", PBool true);
      ("status", PStr "passed"); ("rto_pass", PBool true); ("elapsed_seconds", PInt 40);
      ("rto_budget_seconds", PInt 600); ("deployment", PDict sample_deployment);
      ("backup_manifest_sha256", PStr (sample_sha (sm_manifest s)));
      ("remote_receipt_sha256", PStr (sample_sha (sm_receipt s)));
      ("vault_validation_sha256", PStr (sample_sha (sm_validation s)));
      ("backup_policy_sha256", PStr (sample_sha "policy"));
      ("redis_profile_sha256", PStr (sample_sha "profile"));
      ("source_host_id_sha256", PStr sample_host); ("vault_host_id_sha256", PStr sample_vault_host);
      ("redis_snapshot_sha256", PStr (sample_sha "rdb"));
      ("transport_receipt_sha256", PStr (sample_sha "transport"));
      ("restore_id", PStr ("restore-" +:+ sm_id s)); ("target_volume", PStr ("volume-" +:+ sm_id s));
      ("target_volume_identity_sha256", PStr (sample_sha ("volume " +:+ sm_id s)));
      ("canonical_seed_restored_sha256", PStr (sample_sha "seed")); ("cleanup_failures", PList [])]
     ++ all_true ["leaderboard_seed_exact"; "redis_ping"; "transport_remote_readback_bound";
           "offline_redis_check_rdb"; "restore_payload_copy_verified";
           "vault_link_free_validation_bound"; "active_volume_preserved"; "target_volume_retained"]
     ++ all_false ["production_switched"; "active_volume_mounted_by_drill"; "restore_known_good";
           "formal_todo0012_claim"; "secret_material_recorded"])).

Definition sm_business (s : sample) : string :=
  canonical_json (PDict
    ([("schema_version", PInt 1); ("backup_id", PStr (sm_id s)); ("overall_pass", PBool true);
      ("status", PStr "passed"); ("rto_pass", PBool true); ("elapsed_seconds", PInt 20);
      ("rto_budget_seconds", PInt 300); ("deployment", PDict sample_deployment);
      ("business_validation_id", PStr ("business-" +:+ sm_id s));
      ("restore_id", PStr ("restore-" +:+ sm_id s));
      ("restore_summary_sha256", PStr (sample_sha (sm_restore s)));
      ("retained_volume", PStr ("volume-" +:+ sm_id s));
      ("retained_volume_identity_sha256", PStr (sample_sha ("volume " +:+ sm_id s)));
      ("retained_volume_identity_after_sha256", PStr (sample_sha ("volume " +:+ sm_id s)));
      ("retained_seed_before_sha256", PStr (sample_sha "seed"));
      ("retained_seed_after_sha256", PStr (sample_sha "seed"));
      ("deployment_record_sha256", PStr (sample_sha "record"));
      ("release_manifest_sha256", PStr (sample_sha "release"));
      ("release_sdk_full_flow_sha256", PStr (sample_sha "flow"));
      ("work_volume_snapshot_sha256", PStr (sample_sha "snapshot")); ("cleanup_failures", PList [])]
     ++ all_true ["active_volume_unchanged"; "restore_volume_identity_binding_verified";
           "restore_snapshot_binding_verified"; "restore_redis_image_binding_verified";
           "gateway_runtime_binding_verified"; "retained_seed_unchanged"; "leaderboard_submit";
           "leaderboard_top"; "leaderboard_rank"; "sdk_full_flow_checked";
           "retained_volume_mounted_readonly"; "work_seed_mutated_by_business_checks";
           "work_volume_created"; "work_volume_removed"; "isolated_network_created";
           "isolated_network_internal"; "isolated_network_removed"]
     ++ all_false ["source_build_performed"; "public_conan_access_performed"; "production_switched";
           "restore_known_good"; "formal_todo0012_claim"; "secret_material_recorded"])).

Definition sm_summaries (s : sample) (name : string) : option vnode :=
  if String.eqb name "vault-validation.json" then Some (VFile (sm_validation s))
  else if String.eqb name "restore-summary.json" then Some (VFile (sm_restore s))
  else if String.eqb name "business-summary.json" then Some (VFile (sm_business s))
  else None.

(** ** Vaults *)

Definition ok_or {A} (default : A) (r : res A) : A := match r with Ok a => a | Raise _ => default end.

(** A vault with some backups, the attested ones of them, and an upload on its
    way. *)
Definition sample_vault (incoming : list string) (backups attested : list sample) : vault :=
  let bare := Vault 0 incoming (Some (VFile sample_identity)) (Some (VFile "")) ∅
    (SDir (list_to_map (map (λ s, (sm_id s, VDir (sm_files s))) backups)))
    (SDir ∅) (SDir ∅) (SDir ∅) (SDir ∅) in
  let attestation (s : sample) : ventry :=
    let binding := ok_or [] (validate_known_good_sources (H := calm) bare (sm_id s)
      (Summaries (sm_summaries s "vault-validation.json") (sm_summaries s "restore-summary.json")
         (sm_summaries s "business-summary.json"))) in
    VDir (<["attestation.json" := VFile (canonical_json (PDict
             (attestation_document (PStr "2026-08-01T12:00:00Z") binding)))]>
      (<["business-summary.json" := VFile (sm_business s)]>
        (<["restore-summary.json" := VFile (sm_restore s)]>
          (<["vault-validation.json" := VFile (sm_validation s)]> ∅)))) in
  set_known_good (SDir (list_to_map (map (λ s, (sm_id s, attestation s)) attested))) bare.

Definition sample_a : sample := Sample "backup-a" "2026-07-01T00:00:00Z" ["daily"].
Definition sample_b : sample := Sample "backup-b" "2026-07-02T00:00:00Z" ["daily"; "weekly"].
Definition sample_c : sample := Sample "backup-c" "2026-07-03T00:00:00Z" ["daily"].
