(* ===== verification/VaultWitnesses.v ===== *)
(** * The off-host backup vault: the theorems at the sample

    Each theorem with hypotheses is applied at a concrete vault, upload or
    deletion of [VaultSamples]. *)
From S2P Require Import Prelude PyFloat PyValue PyTime PyPath PyJson PyJsonFacts PyEffect LifecycleCore.
From S2P Require Import Vault VaultStore VaultKnownGood VaultRetention VaultFacts VaultInventory.
From S2P Require Import VaultStoreFacts VaultAcceptance VaultKnownGoodFacts VaultRetentionPlan.
From S2P Require Import VaultPrune VaultGoverned VaultSamples.
#[local] Open Scope Z_scope.

(** ** Uploads *)

Lemma hex_digit_hex n : (n < 16)%N → is_hex (hex_digit n) = true.
Proof.
  intros Hn. unfold hex_digit, is_hex, is_digit. destruct (N.ltb_spec n 10);
    rewrite N_ascii_embedding by lia.
  - apply orb_true_iff. left. apply andb_true_iff. split; apply N.leb_le; lia.
  - apply orb_true_iff. right. apply andb_true_iff. split; apply N.leb_le; lia.
Qed.

Lemma ok_or_Ok {A} (d : A) r : is_ok r = true → r = Ok (ok_or d r).
Proof. by destruct r. Qed.

Lemma hex_of_hex k n : String.length (hex_of k n) = k ∧ str_all is_hex (hex_of k n) = true.
Proof.
  revert n. induction k as [|k IH]; intros n; [done|]. simpl.
  rewrite length_app_str, str_all_app, !(proj1 (IH _)), !(proj2 (IH _)). simpl.
  rewrite hex_digit_hex by by apply N.mod_lt. split; [lia|done].
Qed.

Lemma sample_sha_hex s : SHA256_RE (sample_sha s) = true.
Proof.
  unfold SHA256_RE, re_hex, sample_sha. rewrite !length_app_str, !str_all_app.
  by rewrite !(proj1 (hex_of_hex _ _)), !(proj2 (hex_of_hex _ _)).
Qed.

(** The third backup, sent in four fragments to a vault that has the others. *)
Definition sample_frame : string :=
  ok_or "" (write_upload_frame (H := calm) (sm_id sample_c) (sm_archive sample_c)
              (sm_manifest sample_c)).
Definition sample_fragments : list string :=
  [str_take 3 sample_frame; ""; str_take 500 (str_skip 3 sample_frame); str_skip 503 sample_frame].
Definition sample_target : vault := sample_vault sample_fragments [sample_a; sample_b] [].
Definition sample_time : string := "2026-08-01T12:00:00Z".

Lemma sample_uploadable :
  uploadable (H := calm) 0 sample_target (sm_id sample_c) (sm_archive sample_c) (sm_manifest sample_c)
    sample_time sample_vault_host.
Proof.
  split.
  - done.
  - by vm_compute.
  - split; by vm_compute.
  - by vm_compute.
  - by vm_compute.
  - by vm_compute.
  - by vm_compute.
  - left. by vm_compute.
  - left. by vm_compute.
  - intros n. by vm_compute.
  - unfold admits. change (v_lock sample_target) with (Some (VFile "")). split; [by vm_compute|].
    split; [|intros n; by vm_compute]. intros _. eexists. split; [by vm_compute|]. by vm_compute.
Qed.

(** The upload with no faults. *)
Lemma upload_accepted_witness :
  ∃ r v' sent records record,
    remote_store (H := calm) 0 (Some sample_time) sample_target = (ORet r, v')
    ∧ entry_file (v_backups v') "backup-c" "payload.tar.age" = Some (VFile (sm_archive sample_c))
    ∧ entry_file (v_backups v') "backup-c" "manifest.json" = Some (VFile (sm_manifest sample_c))
    ∧ json_loads (canonical_json (PDict r)) = Some (PDict sent)
    ∧ remote_receipt_unlocked "backup-c" v' = Ok sent
    ∧ verify_remote_receipt (H := calm) sent "backup-c" (sm_archive sample_c) (sm_manifest sample_c)
        (PStr sample_host) (PStr sample_vault_host) = Ok ()
    ∧ verified_vault_records (H := calm) None v' = Ok records ∧ record ∈ records
    ∧ r_id record = "backup-c".
Proof.
  refine (upload_accepted (H := calm) _ _ 0 sample_target "backup-c" (sm_archive sample_c)
    (sm_manifest sample_c) sample_frame sample_time sample_vault_host sample_host sample_uploadable
    _ _ _ _ _); [done|apply sample_sha_hex|vm_compute; reflexivity|vm_compute; discriminate
    |vm_compute; reflexivity|vm_compute; reflexivity|vm_compute; discriminate].
Defined.

(** The process dies in the middle of writing the manifest. *)
Definition dying (k n : nat) : VaultRuntime :=
  sample_runtime (λ e, if Nat.eqb e k then VDie n else VOk) (λ _, None).

Lemma store_within_capacity_witness :
  let v' := (remote_store (H := dying 5 10) 0 (Some sample_time) sample_target).2 in
  ∃ b b', vault_bytes sample_target = Some b ∧ vault_bytes v' = Some b'
    ∧ b <= b' <= Z.max b DEFAULT_MAX_VAULT_BYTES.
Proof.
  assert (∃ b, vault_bytes sample_target = Some b) as [b Hb] by (eexists; vm_compute; reflexivity).
  destruct (store_within_capacity (H := dying 5 10) 0 (Some sample_time) sample_target b)
    as (b' & Hb' & Hle); [exists (VFile ""); reflexivity|exact Hb|].
  exact (ex_intro _ b (ex_intro _ b' (conj Hb (conj Hb' Hle)))).
Defined.

(** ** Attestations *)

Definition attesting : VaultRuntime := sample_runtime (λ _, VOk) (sm_summaries sample_a).
Definition sample_bare : vault := sample_vault [] [sample_a; sample_b] [].
Definition sample_binding : pydict :=
  ok_or [] (validate_known_good_sources (H := attesting) sample_bare "backup-a"
    (Summaries (Some (VFile (sm_validation sample_a))) (Some (VFile (sm_restore sample_a)))
       (Some (VFile (sm_business sample_a))))).

Lemma sample_attestable :
  attestable (H := attesting) 0 sample_bare "backup-a" sample_time (sm_validation sample_a)
    (sm_restore sample_a) (sm_business sample_a) sample_binding.
Proof.
  unfold attestable. split; [done|]. split; [apply ok_or_Ok; by vm_compute|]. split; [by vm_compute|].
  split; [apply json_okb_sound; by vm_compute|]. split; [by vm_compute|].
  split; [left; by vm_compute|].
  unfold admits. change (v_lock sample_bare) with (Some (VFile "")). split; [by vm_compute|].
  split; [|intros n; by vm_compute]. intros _. eexists. split; [by vm_compute|]. by vm_compute.
Qed.

Lemma known_good_roundtrip_witness :
  ∃ r v' loaded,
    create_known_good_attestation (H := attesting) 0 "backup-a" (Some sample_time) sample_bare
      = (ORet r, v')
    ∧ load_known_good_attestation (H := attesting) v' "backup-a" = Ok loaded
    ∧ (∀ k, k ≠ "attestation_sha256" → get loaded k = jsort (get r k))
    ∧ get loaded "attestation_sha256" = PStr (sample_sha (canonical_json (PDict r)))
    ∧ r = attestation_document (PStr sample_time) sample_binding
    ∧ v_backups v' = v_backups sample_bare.
Proof.
  exact (known_good_roundtrip (H := attesting) (λ _, eq_refl) (λ _, eq_refl) 0 sample_bare "backup-a"
    sample_time _ _ _ sample_binding sample_attestable).
Defined.

(** ** Retention *)

(** Four daily backups, the last two of them attested; the two oldest have to
    go. *)
Definition day (n : Z) : sample :=
  Sample ("day-" +:+ Z_str n) ("2026-07-0" +:+ Z_str n +:+ "T00:00:00Z") ["daily"].
Definition sample_days : vault := sample_vault [] (map day [1; 2; 3; 4]) [day 3; day 4].
Definition sample_anchor : string := sample_sha (sm_receipt (day 4)).

Definition planned (v : vault) : res retention_plan :=
  plan_remote_retention (H := calm) "day-4" sample_anchor 1 1 2 None None v.
Definition empty_plan : retention_plan := RetentionPlan "" "" "" [] [] [] [] [] [] 0.
Definition sample_plan : retention_plan := ok_or empty_plan (planned sample_days).

Lemma sample_planned :
  plan_remote_retention (H := calm) "day-4" sample_anchor 1 1 2 None None sample_days = Ok sample_plan.
Proof. apply ok_or_Ok. vm_compute. reflexivity. Qed.

(** The plan at the sample: the conclusions about the newest backup, the
    attested ones and the split. *)
Lemma plan_keeps_witness :
  ∃ records, verified_vault_records (H := calm) (Some (p_identity sample_plan)) sample_days = Ok records
  ∧ (∀ r, r ∈ records → r ∈ p_deleting sample_plan ↔ r_id r ∉ p_retained sample_plan)
  ∧ Z.of_nat (length (p_known_good sample_plan)) = 2
  ∧ ∃ r rest, p_records sample_plan = r :: rest ∧ r_id r ∈ p_retained sample_plan.
Proof.
  destruct (plan_keeps (H := calm) "day-4" sample_anchor 1 1 2 None sample_days sample_plan sample_planned)
    as (records & H1 & _ & _ & H4 & _ & _ & H7 & _ & H9 & _).
  exact (ex_intro _ records (conj H1 (conj H4 (conj H7 H9)))).
Defined.

(** The second rename of a deletion fails. *)
Definition failing : VaultRuntime :=
  sample_runtime (λ e, if Nat.eqb e 2 then VErr "Input/output error" else VOk) (λ _, None).
Abbreviation failing_run :=
  (prune_remote (H := failing) "day-4" sample_anchor 1 1 2 (Some "prune-1") (Some sample_time) None
    sample_days).
Definition raised_exn (r : outcome pydict) : exn :=
  match r with ORaise e => e | _ => Exn CRuntimeError "" end.

Definition raises (r : outcome pydict) : bool := match r with ORaise _ => true | _ => false end.

Lemma raise_split (p : outcome pydict * vault) :
  raises p.1 = true → p = (ORaise (raised_exn p.1), p.2).
Proof. destruct p as [[] v]; simpl; congruence. Qed.

(** What is seen of its end: the exception, the events of the two renames, of
    the one that is undone and of the removed trash, and the backups. *)
Definition seen (p : outcome pydict * vault) : bool * nat * nat * nat :=
  (raises p.1, v_ev p.2, length (map_to_list (entries (v_trash p.2))),
   length (map_to_list (entries (v_backups p.2)))).

Lemma failing_run_undone : seen failing_run = (true, 5%nat, 0%nat, 4%nat).
Proof. vm_compute. reflexivity. Qed.

Lemma failing_run_raises : failing_run = (ORaise (raised_exn failing_run.1), failing_run.2).
Proof. apply raise_split. exact (f_equal (λ x, x.1.1.1) failing_run_undone). Qed.

Lemma sample_fresh_record : entries (v_deletions sample_days) !! ("prune-1" +:+ ".intent.json") = None.
Proof. vm_compute. reflexivity. Qed.

Lemma failing_one_fault : one_fault (H := failing).
Proof.
  intros n msg Hn n' Hlt. cbn in *. destruct (Nat.eqb_spec n 2); [|done].
  by rewrite (proj2 (Nat.eqb_neq n' 2)) by lia.
Qed.

Lemma prune_restores_witness :
  entries (v_backups failing_run.2) = entries (v_backups sample_days)
  ∨ ∃ intent, entries (v_deletions failing_run.2) !! ("prune-1" +:+ ".intent.json")
      = Some (VNode (VFile intent)).
Proof.
  exact (prune_restores (H := failing) "day-4" sample_anchor 1 1 2 "prune-1" (Some sample_time) None
    sample_days (raised_exn failing_run.1) failing_run.2 ltac:(discriminate) failing_one_fault
    sample_fresh_record failing_run_raises).
Defined.

(** A governed run on five weekly backups: the oldest has to go. *)
Definition week (n : Z) : sample :=
  Sample ("week-" +:+ Z_str n) ("2026-07-0" +:+ Z_str n +:+ "T00:00:00Z") ["weekly"].
Definition sample_weeks : vault := sample_vault [] (map week [1; 2; 3; 4; 5]) [week 4; week 5].
Definition sample_policy : string :=
  canonical_json (PDict
    [("schema_version", PInt 1); ("policy_id", PStr EXPECTED_POLICY_ID);
     ("scope", PDict
        [("host_role", PStr "off_host_backup_vault"); ("host_alias", PStr "aliyunserver");
         ("vault_root", PStr DEFAULT_VAULT_ROOT);
         ("source_backup_policy", PStr "deploy/operations/backup-recovery-policy.example.json");
         ("source_retention_override", PBool true)]);
     ("retention", PDict expected_retention);
     ("bootstrap", PDict (all_true ["new_vault_identity_required"; "mixed_identity_records_rejected";
                                    "retention_disabled_until_two_known_good_copies"]));
     ("secret_material_recorded", PBool false)]).
Abbreviation governed_run :=
  (run_retention (H := calm) 0 DEFAULT_VAULT_ROOT (Some (VFile sample_policy)) (VMeta 0 0 420 1) None
    sample_weeks).
Definition returned (r : outcome pydict) : pydict := match r with ORet d => d | _ => [] end.

Definition deleted_of (r : outcome pydict) : py :=
  get (as_dict (get (returned r) "retention")) "deleted_backup_ids".

Lemma return_split (p : outcome pydict * vault) l :
  deleted_of p.1 = PList l → p = (ORet (returned p.1), p.2).
Proof. destruct p as [[] v]; simpl; [done|discriminate..]. Qed.

Lemma governed_run_deletes : deleted_of governed_run.1 = PList [PStr "week-1"].
Proof. vm_compute. reflexivity. Qed.

Lemma governed_run_returns : governed_run = (ORet (returned governed_run.1), governed_run.2).
Proof. exact (return_split _ _ governed_run_deletes). Qed.

Lemma retention_run_exact_witness : governed (H := calm) sample_weeks (returned governed_run.1) governed_run.2.
Proof.
  exact (retention_run_exact (H := calm) 0 DEFAULT_VAULT_ROOT (Some (VFile sample_policy))
    (VMeta 0 0 420 1) None sample_weeks (returned governed_run.1) governed_run.2 governed_run_returns).
Defined.
