(* ===== verification/Operator.v ===== *)
(** * The Kubernetes operator

    Models [src/k8s/operator/operator.py]: the manifests it builds for a
    GatewayServer resource, the component statuses, the health conditions with
    their failure counter, the TLS secret, and the five handlers.

    The API server, the [cryptography] package and the clock are the operations
    of [KubeApi], over a world that the class does not fix; log lines are left
    out.  [kopf], which calls the handlers and keeps what they return, is the
    parameter [Kopf] of [timer_tick]. *)
From S2P Require Import Prelude PyFloat PyValue PyEffect.
#[local] Open Scope Z_scope.

(** ** Constants *)

Definition OPERATOR_NAME : string := "gateway-server-operator".
Definition DEFAULT_NAMESPACE : string := "boost-gateway".
Definition COMPONENTS : list string :=
  ["gateway-server"; "login-backend"; "room-backend"; "battle-backend"; "matchmaking-backend";
   "leaderboard-backend"].

(** ** The interface to the cluster *)

Inductive kind := KDeployment | KService | KSecret.

#[export] Instance kind_eq_dec : EqDecision kind.
Proof. solve_decision. Defined.

(** What the code reads of a Deployment; a count the server left out is [None]. *)
Record deployment_view := DeploymentView {
  d_replicas : option Z;
  d_available : option Z;
  d_ready : option Z }.

(** [kube_create KDeployment] is [create_namespaced_deployment], and so on; names
    and namespaces are given the way the code gives them. *)
Class KubeApi (W : Type) := {
  kube_read_deployment : py → py → eff W deployment_view;
  kube_read_secret : py → py → eff W unit;
  kube_create : kind → py → pydict → eff W unit;
  kube_patch : kind → py → py → pydict → eff W unit;
  kube_delete : kind → py → py → eff W unit;
  (** A self-signed certificate and its key, in PEM, for a common name and the
      alternative names. *)
  self_signed : string → list string → eff W (string * string);
  has_cryptography : bool;
  utc_now : eff W string;
  pod_namespace : option string }.

(** ** Helpers *)

(** [v.get(k, default)] on a value that must be a dict. *)
Definition vget_or (v : py) (k : string) (default : py) : res py :=
  match v with
  | PDict d => Ok (get_or d k default)
  | _ => Raise (Exn CAttributeError "object has no attribute 'get'")
  end.

(** [v + 1]. *)
Definition py_add1 (v : py) : res py :=
  match v with
  | PInt z => Ok (PInt (z + 1))
  | PBool b => Ok (PInt (if b then 2 else 1))
  | PFloat f => Ok (PFloat (fadd f (f_of_Z 1)))
  | _ => Raise (Exn CTypeError "unsupported operand type(s) for +")
  end.
(** [z <= v] on a number. *)
Definition op_at_least (z : Z) (v : py) : bool :=
  match num_of v with Some n => num_leb (NInt z) n | None => false end.

(** [base64.b64encode(s.encode("utf-8")).decode("ascii")] on ASCII text. *)
Definition b64_digit (n : N) : ascii :=
  if (n <? 26)%N then ascii_of_N (65 + n)
  else if (n <? 52)%N then ascii_of_N (71 + n)
  else if (n <? 62)%N then ascii_of_N (n - 4)
  else if (n =? 62)%N then "+" else "/".
Definition b64_group (a b c : N) : string :=
  String (b64_digit (N.shiftr a 2))
    (String (b64_digit (N.lor (N.shiftl (N.land a 3) 4) (N.shiftr b 4)))
      (String (b64_digit (N.lor (N.shiftl (N.land b 15) 2) (N.shiftr c 6)))
        (String (b64_digit (N.land c 63)) ""))).
Fixpoint b64encode (s : string) : string :=
  match s with
  | String a (String b (String c r)) =>
      b64_group (N_of_ascii a) (N_of_ascii b) (N_of_ascii c) +:+ b64encode r
  | String a (String b "") => str_take 3 (b64_group (N_of_ascii a) (N_of_ascii b) 0) +:+ "="
  | String a "" => str_take 2 (b64_group (N_of_ascii a) 0 0) +:+ "=="
  | EmptyString => ""
  end.

Section operator.
Context {W : Type} `{KubeApi W}.

Definition op_namespace (spec : pydict) : py :=
  get_or spec "namespace" (PStr (default DEFAULT_NAMESPACE pod_namespace)).

Definition build_labels (meta : pydict) : pydict :=
  [("app.kubernetes.io/name", PStr "gateway-server");
   ("app.kubernetes.io/instance", get_or meta "name" (PStr "gateway-server"));
   ("app.kubernetes.io/component", PStr "game-server");
   ("app.kubernetes.io/part-of", PStr "boost-gateway");
   ("app.kubernetes.io/managed-by", PStr OPERATOR_NAME)].

Definition metadata (name namespace : py) (labels : pydict) : py :=
  PDict [("name", name); ("namespace", namespace); ("labels", PDict labels)].
Definition probe (port : py) (delay period : Z) : py :=
  PDict [("httpGet", PDict [("path", PStr "/healthz"); ("port", port)]);
         ("initialDelaySeconds", PInt delay); ("periodSeconds", PInt period)].
Definition field_env (name path : string) : py :=
  PDict [("name", PStr name);
         ("valueFrom", PDict [("fieldRef", PDict [("fieldPath", PStr path)])])].

Definition build_deployment (name namespace : py) (spec labels : pydict) : res pydict :=
  let replicas := get_or spec "replicaCount" (PInt 1) in
  let image := get_or spec "image" (PStr "gateway-server:latest") in
  port ← vget_or (get_or spec "service" (PDict [])) "port" (PInt 8080);
  log_level ← vget_or (get_or spec "config" (PDict [])) "logLevel" (PStr "info");
  backend_endpoint ← vget_or (get_or spec "config" (PDict [])) "backendEndpoint"
                       (PStr "backend-service:9090");
  Ok [("apiVersion", PStr "apps/v1"); ("kind", PStr "Deployment");
      ("metadata", metadata name namespace labels);
      ("spec", PDict
        [("replicas", replicas);
         ("selector", PDict [("matchLabels", PDict [("app.kubernetes.io/instance", name)])]);
         ("template", PDict
           [("metadata", PDict [("labels", PDict labels)]);
            ("spec", PDict
              [("containers", PList
                 [PDict
                   [("name", PStr "gateway-server"); ("image", image);
                    ("imagePullPolicy", PStr "IfNotPresent");
                    ("ports", PList
                      [PDict [("containerPort", port); ("name", PStr "game-port");
                              ("protocol", PStr "TCP")];
                       PDict [("containerPort", PInt 50051); ("name", PStr "grpc-port");
                              ("protocol", PStr "TCP")]]);
                    ("env", PList
                      [PDict [("name", PStr "BOOST_LOG_LEVEL"); ("value", log_level)];
                       PDict [("name", PStr "BACKEND_ENDPOINT"); ("value", backend_endpoint)];
                       field_env "POD_NAME" "metadata.name";
                       field_env "POD_NAMESPACE" "metadata.namespace"]);
                    ("livenessProbe", probe port 10 15); ("readinessProbe", probe port 5 10);
                    ("resources", PDict
                      [("requests", PDict [("cpu", PStr "250m"); ("memory", PStr "128Mi")]);
                       ("limits", PDict [("cpu", PStr "1"); ("memory", PStr "512Mi")])])]]);
               ("terminationGracePeriodSeconds", PInt 30)])]);
         ("strategy", PDict
           [("type", PStr "RollingUpdate");
            ("rollingUpdate", PDict [("maxUnavailable", PInt 1); ("maxSurge", PInt 1)])])])].

Definition service_port (name : string) (port : py) : py :=
  PDict [("name", PStr name); ("port", port); ("targetPort", PStr name); ("protocol", PStr "TCP")].

Definition build_service (name namespace : py) (spec labels : pydict) : res pydict :=
  port ← vget_or (get_or spec "service" (PDict [])) "port" (PInt 8080);
  service_type ← vget_or (get_or spec "service" (PDict [])) "type" (PStr "ClusterIP");
  Ok [("apiVersion", PStr "v1"); ("kind", PStr "Service");
      ("metadata", metadata name namespace labels);
      ("spec", PDict
        [("type", service_type); ("selector", PDict [("app.kubernetes.io/instance", name)]);
         ("ports", PList [service_port "game-port" port; service_port "grpc-port" (PInt 50051)])])].

(** ** Health *)

(** The status of a component; its [kind] is always ["Deployment"]. *)
Record component := Component {
  c_name : string;
  c_ready : bool;
  c_replicas : Z;
  c_available : Z;
  c_message : option string }.
Definition component_dict (c : component) : py :=
  PDict [("name", PStr (c_name c)); ("kind", PStr "Deployment"); ("ready", PBool (c_ready c));
         ("replicas", PInt (c_replicas c)); ("available", PInt (c_available c));
         ("message", match c_message c with Some m => PStr m | None => PNone end)].

(** [except ApiException as e: h e.status e.reason]. *)
Definition on_api_error {A} (h : Z → string → eff W A) (e : exn) : eff W A :=
  match exn_cls e with
  | CApiException status => h status (exn_msg e)
  | _ => e_lift (Raise e)
  end.

Definition get_component_status (name : string) (namespace : py) : eff W component :=
  e_try
    (dep ← kube_read_deployment (PStr name) namespace;
     let desired := default 0 (d_replicas dep) in
     let available := default 0 (d_available dep) in
     let ready_replicas := default 0 (d_ready dep) in
     mret (Component name ((0 <? ready_replicas) && (desired <=? available)) desired available
       (if available <? desired
        then Some ("Waiting for rollout: " +:+ Z_str available +:+ "/" +:+ Z_str desired
                   +:+ " replicas available")
        else None)))
    (on_api_error (λ status reason,
       mret (Component name false 0 0
         (Some (if status =? 404 then "Not found" else "API error: " +:+ reason))))).

Fixpoint component_statuses (namespace : py) (names : list string) : eff W (list component) :=
  match names with
  | [] => mret []
  | n :: r =>
      c ← get_component_status n namespace;
      l ← component_statuses namespace r;
      mret (c :: l)
  end.

Record condition := Condition {
  cond_type : string;
  cond_status : string;
  cond_time : string;
  cond_reason : string;
  cond_message : string }.
Definition condition_dict (c : condition) : py :=
  PDict [("type", PStr (cond_type c)); ("status", PStr (cond_status c));
         ("lastTransitionTime", PStr (cond_time c)); ("reason", PStr (cond_reason c));
         ("message", PStr (cond_message c))].

Definition failed_components (l : list component) : list component :=
  filter (λ c, c_ready c = false) l.
Definition progressing (c : component) : bool :=
  (0 <? c_replicas c) && (c_available c <? c_replicas c).

(** [consecutive_failures]: the counter of the stored status and this check. *)
Definition next_failures (components : list component) (old_status : py) : res py :=
  prev ← vget_or (py_or old_status (PDict [])) "failedHealthChecks" (PInt 0);
  match failed_components components with
  | [] => Ok (PInt 0)
  | _ => py_add1 prev
  end.

Definition health_conditions (components : list component) (failures : py) (now : string)
    : list condition :=
  [match failed_components components with
   | [] => Condition "Ready" "True" now "AllComponentsReady"
             "All 6 backend components are healthy and fully available"
   | failed => Condition "Ready" "False" now "ComponentsNotReady"
                 ("Components not ready: " +:+ str_concat ", " (map c_name failed))
   end;
   if existsb progressing components
   then Condition "Progressing" "True" now "RollingUpdateInProgress"
          ("Rolling update in progress for: "
           +:+ str_concat ", " (map c_name (filter (λ c, progressing c = true) components)))
   else Condition "Progressing" "False" now "NoRolloutInProgress" "All components are stable";
   if op_at_least 3 failures
   then Condition "Degraded" "True" now "ConsecutiveHealthCheckFailures"
          (py_str failures +:+ " consecutive health check failures detected")
   else Condition "Degraded" "False" now "NormalOperation" "No degradation detected"].

Definition assess_health (components : list component) (old_status : py)
    : eff W (list condition * py) :=
  failures ← e_lift (next_failures components old_status);
  now ← utc_now;
  mret (health_conditions components failures now, failures).

Definition tls_condition (status reason message : string) : eff W condition :=
  now ← utc_now;
  mret (Condition "TLSReady" status now reason message).

Definition check_tls_ready (namespace : py) (spec : pydict) : eff W condition :=
  secret_name ← e_lift (vget (get_or spec "tls" (PDict [])) "secretName");
  if negb (truthy secret_name)
  then tls_condition "True" "TLSNotConfigured" "TLS is not configured; skipping"
  else
    e_try
      (kube_read_secret secret_name namespace;;
       tls_condition "True" "SecretFound"
         ("TLS secret '" +:+ py_str secret_name +:+ "' exists and is valid"))
      (on_api_error (λ status reason,
         if status =? 404
         then tls_condition "False" "SecretNotFound"
                ("TLS secret '" +:+ py_str secret_name +:+ "' not found")
         else tls_condition "Unknown" "CheckError" ("Error checking TLS secret: " +:+ reason))).

(** ** The TLS secret *)

Definition secret_body (namespace secret_name cr_name : py) (cert_pem key_pem : string) : pydict :=
  [("apiVersion", PStr "v1"); ("kind", PStr "Secret");
   ("metadata", PDict
     [("name", secret_name); ("namespace", namespace);
      ("labels", PDict [("app.kubernetes.io/managed-by", PStr OPERATOR_NAME);
                        ("app.kubernetes.io/part-of", PStr "boost-gateway")]);
      ("annotations", PDict [("gateway.boost.io/certificate-type", PStr "self-signed");
                             ("gateway.boost.io/owner-cr", cr_name)])]);
   ("type", PStr "kubernetes.io/tls");
   ("data", PDict [("tls.crt", PStr (b64encode cert_pem)); ("tls.key", PStr (b64encode key_pem))])].

Definition ensure_tls_secret (namespace secret_name cr_name : py) : eff W bool :=
  present ← e_try (kube_read_secret secret_name namespace;; mret true)
              (on_api_error (λ status _, mret (negb (status =? 404))));
  if (present : bool) then mret false
  else if negb has_cryptography then mret false
  else
    let short := py_str secret_name +:+ "." +:+ py_str namespace in
    e_try
      (pems ← self_signed (short +:+ ".svc.cluster.local")
                [py_str secret_name; short; short +:+ ".svc.cluster.local"];
       kube_create KSecret namespace (secret_body namespace secret_name cr_name pems.1 pems.2);;
       mret true)
      (λ _, mret false).

(** ** The handlers *)

Definition create_or_patch (k : kind) (name namespace : py) (body : pydict) : eff W unit :=
  e_try (kube_create k namespace body)
    (λ e, on_api_error (λ status _,
       if status =? 409 then kube_patch k name namespace body else e_lift (Raise e)) e).

Definition sum_available (l : list component) : Z := foldr (λ c n, c_available c + n) 0 l.

(** The health conditions with the TLS condition, and the failure counter. *)
Definition assess (namespace : py) (spec : pydict) (old_status : py) (components : list component)
    : eff W (list condition * py) :=
  assessed ← assess_health components old_status;
  tls ← check_tls_ready namespace spec;
  mret (assessed.1 ++ [tls], assessed.2).

(** The documents the handlers return; the periodic check reports no phase. *)
Definition status_document (spec : pydict) (components : list component)
    (assessed : list condition * py) : pydict :=
  [("phase", PStr "Running"); ("readyReplicas", PInt (sum_available components));
   ("desiredReplicas", get_or spec "replicaCount" (PInt 1));
   ("components", PList (map component_dict components));
   ("conditions", PList (map condition_dict assessed.1)); ("failedHealthChecks", assessed.2)].
Definition health_document (spec : pydict) (components : list component)
    (assessed : list condition * py) : pydict :=
  [("desiredReplicas", get_or spec "replicaCount" (PInt 1));
   ("components", PList (map component_dict components));
   ("conditions", PList (map condition_dict assessed.1)); ("failedHealthChecks", assessed.2);
   ("readyReplicas", PInt (sum_available components))].

(** Query the components, assess them and report. *)
Definition report (namespace : py) (spec : pydict) (old_status : py) : eff W pydict :=
  components ← component_statuses namespace COMPONENTS;
  assessed ← assess namespace spec old_status components;
  mret (status_document spec components assessed).

Definition cr_name (meta : pydict) : py := get_or meta "name" (PStr "gateway-server").

Definition gatewayserver_create (spec meta : pydict) : eff W pydict :=
  let name := cr_name meta in
  let namespace := op_namespace spec in
  let labels := build_labels meta in
  deployment ← e_lift (build_deployment name namespace spec labels);
  create_or_patch KDeployment name namespace deployment;;
  service ← e_lift (build_service name namespace spec labels);
  create_or_patch KService name namespace service;;
  report namespace spec PNone.

Definition changed_fields (spec old_spec : pydict) : list string :=
  filter (λ k, py_eqb (get spec k) (get old_spec k) = false)
    ["replicaCount"; "image"; "config"; "service"].

Definition gatewayserver_update (spec old meta : pydict) : eff W (option pydict) :=
  let name := cr_name meta in
  let namespace := op_namespace spec in
  old_spec ← e_lift (match get_or old "spec" (PDict []) with
                     | PDict d => Ok d
                     | _ => Raise (Exn CAttributeError "object has no attribute 'get'")
                     end);
  let changed := changed_fields spec old_spec in
  match changed with
  | [] => mret None
  | _ =>
      let labels := build_labels meta in
      deployment ← e_lift (build_deployment name namespace spec labels);
      kube_patch KDeployment name namespace deployment;;
      (if mem_str "service" changed
       then service ← e_lift (build_service name namespace spec labels);
            kube_patch KService name namespace service
       else mret ());;
      status ← report namespace spec PNone;
      mret (Some status)
  end.

Definition delete_if_present (k : kind) (name namespace : py) : eff W unit :=
  e_try (kube_delete k name namespace)
    (λ e, on_api_error (λ status _, if status =? 404 then mret () else e_lift (Raise e)) e).

Definition gatewayserver_delete (meta spec : pydict) : eff W unit :=
  let name := cr_name meta in
  let namespace := op_namespace spec in
  delete_if_present KDeployment name namespace;;
  delete_if_present KService name namespace.

Definition gatewayserver_resume (spec meta : pydict) (status : py) : eff W pydict :=
  let name := cr_name meta in
  let namespace := op_namespace spec in
  secret_name ← e_lift (vget (get_or spec "tls" (PDict [])) "secretName");
  (if truthy secret_name then ensure_tls_secret namespace secret_name name;; mret () else mret ());;
  report namespace spec status.

Definition gatewayserver_healthcheck (spec meta : pydict) (status : py) : eff W (option pydict) :=
  let namespace := op_namespace spec in
  queried ← e_try (l ← component_statuses namespace COMPONENTS; mret (Some l)) (λ _, mret None);
  match queried with
  | None => mret None
  | Some components =>
      assessed ← assess namespace spec status components;
      mret (Some (health_document spec components assessed))
  end.

(** ** The timer *)

(** How the framework keeps what a handler returned, by the handler's name. *)
Class Kopf := kopf_deliver : string → pydict → pydict → pydict.

(** One run of the health check on a resource with the given status. *)
Definition timer_tick `{Kopf} (spec meta : pydict) (st : pydict * W) : pydict * W :=
  match gatewayserver_healthcheck spec meta (PDict st.1) st.2 with
  | (ORet (Some result), w) => (kopf_deliver "gatewayserver_healthcheck" result st.1, w)
  | (_, w) => (st.1, w)
  end.
End operator.
