(* ===== verification/OperatorFacts.v ===== *)
(** * The Kubernetes operator: correctness

    What the handlers do to the objects of the cluster, however the API server
    answers; the failure counter of the health check against its window
    specification; and what becomes of the counter when the framework stores
    the results of the handlers under the handlers' names. *)
From S2P Require Import Prelude PyFloat PyValue PyEffect Operator.
#[local] Open Scope Z_scope.

(** ** The health check and its window *)

Definition healthy (l : list component) : Prop := Forall (λ c, c_ready c = true) l.

#[export] Instance healthy_dec l : Decision (healthy l).
Proof. unfold healthy. apply _. Defined.

Lemma failed_components_nil l : failed_components l = [] ↔ healthy l.
Proof.
  unfold failed_components, healthy. induction l as [|c l IH]; [done|].
  rewrite filter_cons, Forall_cons, <- IH. destruct (c_ready c) eqn:Hc.
  - rewrite decide_False by done. naive_solver.
  - rewrite decide_True by done. naive_solver.
Qed.

(** The status strings of the three conditions of an assessment. *)
Definition verdict (l : list condition) : list (string * string) :=
  map (λ c, (cond_type c, cond_status c)) l.
Definition truth (b : bool) : string := if b then "True" else "False".

Lemma health_verdict components failures now :
  verdict (health_conditions components failures now)
  = [("Ready", truth (bool_decide (healthy components)));
     ("Progressing", truth (existsb progressing components));
     ("Degraded", truth (op_at_least 3 failures))].
Proof.
  unfold verdict, health_conditions, truth. simpl. f_equal; [|f_equal; [|f_equal]].
  - destruct (failed_components components) eqn:Hf; simpl.
    + by rewrite bool_decide_true by by apply failed_components_nil.
    + rewrite bool_decide_false; [done|]. intros Hh%failed_components_nil. congruence.
  - by destruct (existsb _ _).
  - by destruct (op_at_least _ _).
Qed.

(** The stored status carries the counter of the last assessment. *)
Definition persist (failures : py) (status : pydict) : pydict :=
  dset status "failedHealthChecks" failures.
Definition counts (status : pydict) (n : nat) : Prop :=
  get_or status "failedHealthChecks" (PInt 0) = PInt (Z.of_nat n).

Definition step_count (components : list component) (n : nat) : nat :=
  if decide (healthy components) then 0%nat else S n.

Lemma next_failures_counts components status n :
  counts status n →
  next_failures components (PDict status) = Ok (PInt (Z.of_nat (step_count components n))).
Proof.
  intros Hn. unfold next_failures, step_count.
  assert (vget_or (py_or (PDict status) (PDict [])) "failedHealthChecks" (PInt 0)
          = Ok (PInt (Z.of_nat n))) as ->.
  { unfold py_or. simpl. destruct status; simpl in *; by rewrite <- Hn. }
  simpl. destruct (decide (healthy components)) as [Hh|Hh].
  - by apply failed_components_nil in Hh as ->.
  - destruct (failed_components components) eqn:Hf; [by apply failed_components_nil in Hf|].
    simpl. do 2 f_equal. lia.
Qed.

Lemma counts_persist status n : counts (persist (PInt (Z.of_nat n)) status) n.
Proof. unfold counts, persist, get_or. by rewrite dlookup_dset_eq. Qed.

Lemma at_least_int z n : op_at_least z (PInt n) = (z <=? n).
Proof. unfold op_at_least, num_leb, num_cmp, Z.leb. simpl. by destruct (z ?= n). Qed.

(** The assessments of a sequence of checks, each seeing the counter of the one
    before it. *)
Section window.
Context {W : Type} `{KubeApi W}.

Fixpoint assess_all (checks : list (list component)) (status : pydict)
    : eff W (list (list condition)) :=
  match checks with
  | [] => mret []
  | components :: r =>
      assessed ← assess_health components (PDict status);
      rest ← assess_all r (persist assessed.2 status);
      mret (assessed.1 :: rest)
  end.

(** The counter after each of the checks, from a counter before them. *)
Fixpoint counters (checks : list (list component)) (n : nat) : list nat :=
  match checks with
  | [] => []
  | components :: r => step_count components n :: counters r (step_count components n)
  end.

(** The clock answers. *)
Hypothesis clock : ∀ w, ∃ t w', utc_now w = (ORet t, w').

Lemma assess_all_counters checks status n w :
  counts status n →
  ∃ reports w', assess_all checks status w = (ORet reports, w')
  ∧ map verdict reports
    = zip_with (λ components k,
        [("Ready", truth (bool_decide (healthy components)));
         ("Progressing", truth (existsb progressing components));
         ("Degraded", truth (3 <=? Z.of_nat k))]) checks (counters checks n).
Proof.
  revert status n w. induction checks as [|components checks IH]; intros status n w Hn; [by eexists _, _|].
  destruct (clock w) as (t & w1 & Ht).
  destruct (IH (persist (PInt (Z.of_nat (step_count components n))) status)
              (step_count components n) w1 (counts_persist _ _)) as (reports & w' & Hr & Hv).
  exists (health_conditions components (PInt (Z.of_nat (step_count components n))) t :: reports), w'.
  split.
  - simpl. unfold assess_health. rewrite (next_failures_counts components status n Hn).
    unfold mbind, eff_bind, e_lift, mret, eff_ret. rewrite Ht. simpl. by rewrite Hr.
  - cbn [map zip_with counters]. by rewrite health_verdict, at_least_int, Hv.
Qed.

Lemma counters_length checks n : length (counters checks n) = length checks.
Proof. revert n. induction checks; intros; simpl; auto. Qed.

Lemma counters_step checks n i k :
  counters checks n !! S i = Some k →
  ∃ k' c, counters checks n !! i = Some k' ∧ checks !! S i = Some c ∧ k = step_count c k'.
Proof.
  revert n i. induction checks as [|c checks IH]; intros n i; [done|]. simpl.
  destruct i as [|i]; [|apply IH]. destruct checks as [|c' checks]; [done|].
  intros [= <-]. eauto.
Qed.

(** The counter reaches [m] exactly when the last [m] checks all failed. *)
Lemma counters_window checks n i k m :
  counters checks n !! i = Some k → (m ≤ S i)%nat → (m ≤ k)%nat ↔
  ∀ j c, (i < j + m)%nat → (j ≤ i)%nat → checks !! j = Some c → ¬ healthy c.
Proof.
  revert k m. induction i as [|i IH]; intros k m Hk Hm.
  - destruct checks as [|c checks]; [done|]. injection Hk as <-. unfold step_count. split.
    + intros Hle j c' Hj Hj0 Hc. assert (j = 0%nat) as -> by lia. injection Hc as ->.
      destruct (decide (healthy c')); [lia|done].
    + intros Hall. destruct (decide (healthy c)) as [Hh|]; [|lia].
      destruct m; [lia|]. exfalso. apply (Hall 0%nat c); [lia..|done|done].
  - destruct (counters_step _ _ _ _ Hk) as (k' & c & Hk' & Hc & ->). unfold step_count.
    destruct m as [|m]; [split; intros; lia|].
    pose proof (IH k' m Hk' ltac:(lia)) as Hw. destruct (decide (healthy c)) as [Hh|Hh].
    + split; [lia|]. intros Hall. exfalso. apply (Hall (S i) c); [lia..|done|done].
    + rewrite <- Nat.succ_le_mono, Hw. split; intros Hall j c' Hj Hji Hj'.
      * destruct (decide (j = S i)) as [->|]; [congruence|]. apply (Hall j); [lia..|done].
      * apply (Hall j); [lia..|done].
Qed.
Lemma counters_bound checks n i k : counters checks n !! i = Some k → (k ≤ n + S i)%nat.
Proof.
  revert k. induction i as [|i IH]; intros k Hk.
  - destruct checks as [|c checks]; [done|]. injection Hk as <-. unfold step_count.
    destruct (decide _); lia.
  - destruct (counters_step _ _ _ _ Hk) as (k' & c & Hk' & _ & ->). apply IH in Hk'.
    unfold step_count. destruct (decide _); lia.
Qed.

End window.

(** ** The framework's delivery *)

(** The framework stores what a handler returns in the status field named after
    the handler and leaves the other fields alone. *)
Class KopfLaws (K : Kopf) : Prop := {
  deliver_frame id r status k :
    k ≠ id → dlookup k (kopf_deliver id r status) = dlookup k status }.

Definition HANDLERS : list string :=
  ["gatewayserver_create"; "gatewayserver_update"; "gatewayserver_resume";
   "gatewayserver_healthcheck"].

Section delivery.
Context {W : Type} `{KubeApi W} `{KopfLaws}.

(** The statuses of a resource: one without a counter, and what is left of it
    after any deliveries. *)
Inductive status_reach : pydict → Prop :=
  | sr_new status : dlookup "failedHealthChecks" status = None → status_reach status
  | sr_deliver id r status : id ∈ HANDLERS → status_reach status →
      status_reach (kopf_deliver id r status).

Lemma status_reach_uncounted status :
  status_reach status → dlookup "failedHealthChecks" status = None.
Proof.
  induction 1 as [|id r status Hid _ IH]; [done|]. rewrite deliver_frame; [done|].
  intros <-. unfold HANDLERS in Hid. by rewrite !elem_of_cons, elem_of_nil in Hid; naive_solver.
Qed.

Definition reports_degraded (result : pydict) : Prop :=
  ∃ d, PDict d ∈ as_list (get result "conditions") ∧ get d "type" = PStr "Degraded"
       ∧ get d "status" = PStr "True".

Definition calm_conditions (l : list condition) : Prop :=
  Forall (λ c, cond_type c = "Degraded" → cond_status c = "False") l.

Lemma calm_not_degraded l result :
  calm_conditions l → get result "conditions" = PList (map condition_dict l) →
  ¬ reports_degraded result.
Proof.
  intros Hl Hg (d & Hd & Ht & Hs). rewrite Hg in Hd. simpl in Hd.
  apply list_elem_of_fmap in Hd as (c & Hc & Hin). unfold condition_dict in Hc. injection Hc as ->.
  unfold calm_conditions in Hl. rewrite Forall_forall in Hl. specialize (Hl _ Hin).
  cbn in Ht, Hs. injection Ht as Ht. injection Hs as Hs. rewrite (Hl Ht) in Hs. discriminate Hs.
Qed.

Lemma next_failures_uncounted components status f :
  dlookup "failedHealthChecks" status = None → next_failures components (PDict status) = Ok f →
  f = PInt 0 ∨ f = PInt 1.
Proof.
  intros Hs. assert (counts status 0) as Hc by (unfold counts, get_or; by rewrite Hs).
  rewrite (next_failures_counts _ _ _ Hc). intros [= <-]. unfold step_count.
  destruct (decide _); auto.
Qed.

Lemma wp_check_tls ns spec w :
  wp (check_tls_ready ns spec) (λ c _, cond_type c = "TLSReady") (λ _ _, True) (λ _, True) w.
Proof.
  assert (∀ a b c w, wp (tls_condition a b c) (λ c _, cond_type c = "TLSReady") (λ _ _, True)
    (λ _, True) w) as Ht by (intros; apply wp_bind, wp_any; [intros; by apply wp_ret|done|done]).
  apply wp_bind, wp_lift; [|done]. intros name _. destruct (negb (truthy name)); [apply Ht|].
  apply wp_try. assert (∀ e w, wp (on_api_error (λ status reason,
      if status =? 404
      then tls_condition "False" "SecretNotFound"
             ("TLS secret '" +:+ py_str name +:+ "' not found")
      else tls_condition "Unknown" "CheckError" ("Error checking TLS secret: " +:+ reason)) e)
    (λ c _, cond_type c = "TLSReady") (λ _ _, True) (λ _, True) w) as Hh.
  { intros e w'. unfold on_api_error. destruct (exn_cls e); try done. destruct (_ =? _); apply Ht. }
  apply wp_bind, wp_any; [|exact Hh|done].
  intros. apply wp_bind, wp_any; [intros; by apply wp_ret|exact Hh|done].
Qed.

Lemma wp_assess_uncounted ns spec status components w :
  dlookup "failedHealthChecks" status = None →
  wp (assess ns spec (PDict status) components)
    (λ a _, (a.2 = PInt 0 ∨ a.2 = PInt 1) ∧ calm_conditions a.1) (λ _ _, True) (λ _, True) w.
Proof.
  intros Hs. apply wp_bind. apply wp_bind, wp_lift; [|done]. intros f Hf.
  apply next_failures_uncounted in Hf; [|done].
  apply wp_bind, wp_any; [|done|done]. intros now w'. apply wp_ret, wp_bind.
  eapply wp_mono; [apply wp_check_tls|..]; [|done|done]. intros tls w'' Htls. apply wp_ret.
  split; [done|]. unfold calm_conditions. apply Forall_app. split; [|repeat constructor; congruence].
  unfold health_conditions. repeat constructor; cbn [fst snd].
  - by destruct (failed_components components).
  - by destruct (existsb _ _).
  - by destruct Hf as [-> | ->].
Qed.
(** What a document says that was made from a calm assessment. *)
Definition quiet (result : pydict) : Prop :=
  ¬ reports_degraded result
  ∧ (get result "failedHealthChecks" = PInt 0 ∨ get result "failedHealthChecks" = PInt 1).

Lemma quiet_health spec components a :
  (a.2 = PInt 0 ∨ a.2 = PInt 1) ∧ calm_conditions a.1 → quiet (health_document spec components a).
Proof. intros [Hf Hc]. split; [by eapply calm_not_degraded|done]. Qed.

Lemma quiet_status spec components a :
  (a.2 = PInt 0 ∨ a.2 = PInt 1) ∧ calm_conditions a.1 → quiet (status_document spec components a).
Proof. intros [Hf Hc]. split; [by eapply calm_not_degraded|done]. Qed.

(** C22: the counter of failed health checks does not survive to the next check.
    The framework stores a handler's result under the handler's name, while the
    health check looks for [failedHealthChecks] at the top of the status: in
    every status that deliveries can lead to, whatever the API server answers,
    the health check and the resume handler count at most one failure and never
    report the [Degraded] condition. *)
Theorem degraded_never_reported spec meta status w result w' :
  status_reach status →
  gatewayserver_healthcheck spec meta (PDict status) w = (ORet (Some result), w')
  ∨ gatewayserver_resume spec meta (PDict status) w = (ORet result, w') →
  ¬ reports_degraded result
  ∧ (get result "failedHealthChecks" = PInt 0 ∨ get result "failedHealthChecks" = PInt 1).
Proof.
  intros Hs%status_reach_uncounted Hrun.
  assert (wp (gatewayserver_healthcheck spec meta (PDict status))
    (λ r _, ∀ d, r = Some d → quiet d) (λ _ _, True) (λ _, True) w) as Hh.
  { apply wp_bind, wp_any; [|done|done]. intros [components|] w1; [|by apply wp_ret].
    apply wp_bind. eapply wp_mono; [by apply wp_assess_uncounted|..]; [|done|done].
    intros a w2 Ha. apply wp_ret. intros d [= <-]. by apply quiet_health. }
  assert (wp (gatewayserver_resume spec meta (PDict status)) (λ d _, quiet d) (λ _ _, True)
    (λ _, True) w) as Hr.
  { apply wp_bind, wp_any; [|done|done]. intros name w1.
    apply wp_bind, wp_any; [|done|done]. intros [] w2.
    apply wp_bind, wp_any; [|done|done]. intros components w3.
    apply wp_bind. eapply wp_mono; [by apply wp_assess_uncounted|..]; [|done|done].
    intros a w4 Ha. apply wp_ret. by apply quiet_status. }
  unfold wp in Hh, Hr. destruct Hrun as [Hrun|Hrun]; rewrite Hrun in *; [by apply Hh|done].
Qed.
End delivery.

(** ** The objects of the cluster *)

(** The name of the object that a manifest describes. *)
Definition body_name (body : pydict) : string := py_str (get (as_dict (get body "metadata")) "name").

(** What the API server promises: the objects by kind, namespace and name, where
    the client writes names into a request the way [str] prints them; [applied]
    relates a manifest to an object that has its fields.  A request concerns one
    object only, also when it fails; a conflict (409) and a missing object (404)
    say how that object stands. *)
Class KubeLaws (W : Type) {K : KubeApi W} := {
  obj : W → kind → string → string → option pydict;
  applied : pydict → pydict → Prop;
  others k ns n (w w' : W) : Prop :=
    ∀ k' ns' n', (k', ns', n') ≠ (k, ns, n) → obj w' k' ns' n' = obj w k' ns' n';
  same_objects (w w' : W) : Prop := ∀ k ns n, obj w' k ns n = obj w k ns n;
  in_place k ns n body (w : W) : Prop := ∃ o, obj w k ns n = Some o ∧ applied body o;
  read_deployment_law name ns w :
    wp (kube_read_deployment name ns) (λ _, same_objects w) (λ _, same_objects w)
      (same_objects w) w;
  read_secret_law name ns w :
    wp (kube_read_secret name ns) (λ _, same_objects w) (λ _, same_objects w) (same_objects w) w;
  utc_now_law w : wp utc_now (λ _, same_objects w) (λ _, same_objects w) (same_objects w) w;
  create_law k ns body w :
    wp (kube_create k ns body)
      (λ _ w', others k (py_str ns) (body_name body) w w'
               ∧ in_place k (py_str ns) (body_name body) body w')
      (λ e w', others k (py_str ns) (body_name body) w w'
               ∧ (exn_cls e = CApiException 409 → is_Some (obj w' k (py_str ns) (body_name body))))
      (others k (py_str ns) (body_name body) w) w;
  patch_law k name ns body w :
    wp (kube_patch k name ns body)
      (λ _ w', others k (py_str ns) (py_str name) w w'
               ∧ in_place k (py_str ns) (py_str name) body w')
      (λ _, others k (py_str ns) (py_str name) w) (others k (py_str ns) (py_str name) w) w;
  delete_law k name ns w :
    wp (kube_delete k name ns)
      (λ _ w', others k (py_str ns) (py_str name) w w' ∧ obj w' k (py_str ns) (py_str name) = None)
      (λ e w', others k (py_str ns) (py_str name) w w'
               ∧ (exn_cls e = CApiException 404 → obj w' k (py_str ns) (py_str name) = None))
      (others k (py_str ns) (py_str name) w) w }.

Section objects.
Context {W : Type} `{KubeLaws W}.

(** Only the deployment and the service of a resource may differ. *)
Definition own (ns n : string) (w w' : W) : Prop :=
  ∀ k' ns' n', (k', ns', n') ≠ (KDeployment, ns, n) → (k', ns', n') ≠ (KService, ns, n) →
  obj w' k' ns' n' = obj w k' ns' n'.

Lemma same_objects_refl w : same_objects w w.
Proof. done. Qed.
Lemma same_objects_trans w1 w2 w3 : same_objects w1 w2 → same_objects w2 w3 → same_objects w1 w3.
Proof. intros H1 H2 k ns n. by rewrite H2, H1. Qed.
Lemma own_same ns n w w' : same_objects w w' → own ns n w w'.
Proof. intros Hs ??? _ _. apply Hs. Qed.
Lemma own_others k ns n w w' : k ≠ KSecret → others k ns n w w' → own ns n w w'.
Proof. intros Hk Ho k' ns' n' H1 H2. apply Ho. by destruct k. Qed.
Lemma own_trans ns n w1 w2 w3 : own ns n w1 w2 → own ns n w2 w3 → own ns n w1 w3.
Proof. intros H1 H2 k' ns' n' Ha Hb. by rewrite H2, H1. Qed.
Lemma in_place_same k ns n body w w' :
  same_objects w w' → in_place k ns n body w → in_place k ns n body w'.
Proof. intros Hs (o & Ho & Ha). exists o. by rewrite Hs. Qed.
Lemma in_place_others k k' ns n body w w' :
  k ≠ k' → others k' ns n w w' → in_place k ns n body w → in_place k ns n body w'.
Proof. intros Hk Ho (o & Hl & Ha). exists o. by rewrite Ho by congruence. Qed.

(** A computation that only reads. *)
Definition reads {A} (m : eff W A) : Prop :=
  ∀ w, wp m (λ _, same_objects w) (λ _, same_objects w) (same_objects w) w.

Lemma reads_ret {A} (a : A) : reads (mret a).
Proof. intros w. by apply wp_ret. Qed.
Lemma reads_lift {A} (r : res A) : reads (e_lift r).
Proof. intros w. by apply wp_lift. Qed.
Lemma reads_bind {A B} (m : eff W A) (f : A → eff W B) :
  reads m → (∀ a, reads (f a)) → reads (m ≫= f).
Proof.
  intros Hm Hf w. apply wp_bind. eapply wp_mono; [apply Hm|..]; [|done|done].
  intros a w1 H1. eapply wp_mono; [apply Hf|..]; intros; (eapply same_objects_trans; [exact H1|eassumption]).
Qed.
Lemma reads_try {A} (m : eff W A) h : reads m → (∀ e, reads (h e)) → reads (e_try m h).
Proof.
  intros Hm Hh w. apply wp_try. eapply wp_mono; [apply Hm|..]; [done| |done].
  intros e w1 H1. eapply wp_mono; [apply Hh|..]; intros; (eapply same_objects_trans; [exact H1|eassumption]).
Qed.
Lemma reads_api_error {A} (h : Z → string → eff W A) e :
  (∀ s r, reads (h s r)) → reads (on_api_error h e).
Proof. intros Hh. unfold on_api_error. destruct (exn_cls e); [apply reads_lift..|apply Hh]. Qed.
Lemma reads_now : reads utc_now.
Proof. exact utc_now_law. Qed.
Lemma reads_deployment name ns : reads (kube_read_deployment name ns).
Proof. exact (read_deployment_law name ns). Qed.
Lemma reads_secret name ns : reads (kube_read_secret name ns).
Proof. exact (read_secret_law name ns). Qed.
End objects.

Create HintDb kube.
#[export] Hint Resolve reads_ret reads_lift reads_bind reads_try reads_api_error : kube.
#[export] Hint Resolve reads_now reads_deployment reads_secret : kube.

Section handlers.
Context {W : Type} `{KubeLaws W}.

Lemma reads_tls a b c : reads (tls_condition a b c).
Proof. unfold tls_condition. eauto with kube. Qed.
Hint Resolve reads_tls : kube.

Lemma reads_check_tls ns spec : reads (check_tls_ready ns spec).
Proof.
  apply reads_bind; [apply reads_lift|]. intros name. destruct (negb (truthy name)); [apply reads_tls|].
  apply reads_try; [eauto with kube|]. intros e. apply reads_api_error. intros st reason.
  destruct (st =? 404); apply reads_tls.
Qed.

Lemma reads_component_statuses ns names : reads (component_statuses ns names).
Proof.
  induction names as [|n names IH]; simpl; [apply reads_ret|].
  apply reads_bind; [|eauto with kube]. apply reads_try; [eauto with kube|].
  intros e. apply reads_api_error. eauto with kube.
Qed.

Lemma reads_report ns spec status : reads (report ns spec status).
Proof.
  apply reads_bind; [apply reads_component_statuses|]. intros l.
  apply reads_bind; [|eauto with kube]. apply reads_bind.
  - apply reads_bind; [apply reads_lift|]. eauto with kube.
  - intros a. apply reads_bind; [apply reads_check_tls|eauto with kube].
Qed.

(** The created or patched object is in place; nothing else changes. *)
Lemma wp_create_or_patch k name ns body w :
  body_name body = py_str name →
  wp (create_or_patch k name ns body)
    (λ _ w', others k (py_str ns) (py_str name) w w' ∧ in_place k (py_str ns) (py_str name) body w')
    (λ _, others k (py_str ns) (py_str name) w) (others k (py_str ns) (py_str name) w) w.
Proof.
  intros Hn. apply wp_try. pose proof (create_law k ns body w) as Hc. rewrite Hn in Hc.
  eapply wp_mono; [exact Hc|done| |done]. intros e w1 [Ho _]. unfold on_api_error.
  destruct (exn_cls e); try exact Ho. destruct (_ =? 409); [|exact Ho].
  eapply wp_mono; [apply patch_law|..]; cbn beta.
  - intros _ w2 [Ho2 Hp]. split; [|done]. intros k' ns' n' Hne. by rewrite Ho2, Ho.
  - intros _ w2 Ho2 k' ns' n' Hne. by rewrite Ho2, Ho.
  - intros w2 Ho2 k' ns' n' Hne. by rewrite Ho2, Ho.
Qed.

Lemma wp_delete_if_present k name ns w :
  wp (delete_if_present k name ns)
    (λ _ w', others k (py_str ns) (py_str name) w w' ∧ obj w' k (py_str ns) (py_str name) = None)
    (λ _, others k (py_str ns) (py_str name) w) (others k (py_str ns) (py_str name) w) w.
Proof.
  apply wp_try. eapply wp_mono; [apply delete_law|done| |done]. intros e w1 [Ho Hd].
  unfold on_api_error. destruct (exn_cls e) eqn:He; try exact Ho.
  destruct (Z.eqb_spec status 404) as [->|]; [|exact Ho]. apply wp_ret. auto.
Qed.

Lemma build_deployment_name name ns spec labels body :
  build_deployment name ns spec labels = Ok body → body_name body = py_str name.
Proof. unfold build_deployment. intros Hb. res_inv. done. Qed.
Lemma build_service_name name ns spec labels body :
  build_service name ns spec labels = Ok body → body_name body = py_str name.
Proof. unfold build_service. intros Hb. res_inv. done. Qed.

(** The manifests of a resource are in place. *)
Definition deployed (spec meta : pydict) (w : W) : Prop :=
  ∃ body, build_deployment (cr_name meta) (op_namespace spec) spec (build_labels meta) = Ok body
  ∧ in_place KDeployment (py_str (op_namespace spec)) (py_str (cr_name meta)) body w.
Definition served (spec meta : pydict) (w : W) : Prop :=
  ∃ body, build_service (cr_name meta) (op_namespace spec) spec (build_labels meta) = Ok body
  ∧ in_place KService (py_str (op_namespace spec)) (py_str (cr_name meta)) body w.

Lemma deployed_same spec meta w w' : same_objects w w' → deployed spec meta w → deployed spec meta w'.
Proof. intros Hs (b & Hb & Hp). exists b. split; [done|]. by eapply in_place_same. Qed.
Lemma served_same spec meta w w' : same_objects w w' → served spec meta w → served spec meta w'.
Proof. intros Hs (b & Hb & Hp). exists b. split; [done|]. by eapply in_place_same. Qed.

(** A read at the end of a handler keeps what holds of the objects. *)
Lemma wp_reads {A} (m : eff W A) (P : W → Prop) (O : W → Prop) w :
  reads m → P w → (∀ w', P w' → O w') → (∀ w w', same_objects w w' → P w → P w') →
  wp m (λ _, P) (λ _, O) O w.
Proof.
  intros Hm Hp Ho Hs. eapply wp_mono; [apply Hm|..]; cbn beta; intros; try apply Ho;
    eapply Hs; eauto.
Qed.

(** What one request changes is within a resource's own objects. *)
Ltac own_of := eapply own_others; [|eassumption]; done.

Section resource.
Variables (spec meta : pydict).
Let ns := py_str (op_namespace spec).
Let n := py_str (cr_name meta).

Lemma wp_create w :
  wp (gatewayserver_create spec meta)
    (λ _ w', own ns n w w' ∧ deployed spec meta w' ∧ served spec meta w')
    (λ _, own ns n w) (own ns n w) w.
Proof.
  unfold gatewayserver_create. apply wp_bind, wp_lift; [|intros; by apply own_same].
  intros dep Hd. apply wp_bind.
  eapply wp_mono; [apply wp_create_or_patch; by eapply build_deployment_name|..]; cbn beta;
    [|intros; own_of..].
  intros _ w1 [Ho1 Hp1]. assert (own ns n w w1) as Hw1 by own_of.
  apply wp_bind, wp_lift; [|done]. intros svc Hs. apply wp_bind.
  eapply wp_mono; [apply wp_create_or_patch; by eapply build_service_name|..]; cbn beta;
    [|intros; (eapply own_trans; [exact Hw1|own_of])..].
  intros _ w2 [Ho2 Hp2].
  assert (own ns n w w2) as Hw2 by (eapply own_trans; [exact Hw1|own_of]).
  apply wp_reads; [apply reads_report| |by intros w' [? _]|].
  - split; [done|]. split; eexists; (split; [done|]); [|exact Hp2].
    eapply in_place_others; [|exact Ho2|exact Hp1]. done.
  - intros a b Hab (Ha & Hd' & Hs'). split; [eapply own_trans; [exact Ha|by apply own_same]|].
    split; [by eapply deployed_same|by eapply served_same].
Qed.

Lemma wp_update old w :
  wp (gatewayserver_update spec old meta)
    (λ r w', own ns n w w' ∧
       match r with
       | None => same_objects w w'
                 ∧ changed_fields spec (as_dict (get_or old "spec" (PDict []))) = []
       | Some _ => deployed spec meta w'
                   ∧ (py_eqb (get spec "service")
                        (get (as_dict (get_or old "spec" (PDict []))) "service") = false →
                      served spec meta w')
       end)
    (λ _, own ns n w) (own ns n w) w.
Proof.
  unfold gatewayserver_update. apply wp_bind, wp_lift; [|intros; by apply own_same].
  intros old_spec Ho. assert (as_dict (get_or old "spec" (PDict [])) = old_spec) as ->.
  { destruct (get_or old "spec" (PDict [])); try done. simpl. congruence. }
  destruct (changed_fields spec old_spec) as [|k0 ks] eqn:Hch.
  { apply wp_ret. split; [by apply own_same|done]. }
  apply wp_bind, wp_lift; [|intros; by apply own_same]. intros dep Hd. apply wp_bind.
  eapply wp_mono; [apply patch_law|..]; cbn beta; [|intros; own_of..].
  intros _ w1 [Ho1 Hp1]. assert (own ns n w w1) as Hw1 by own_of.
  assert (deployed spec meta w1) as Hd1 by by (eexists; split).
  rewrite <- Hch. apply wp_bind.
  assert (wp (if mem_str "service" (changed_fields spec old_spec)
       then service ← e_lift (build_service (cr_name meta) (op_namespace spec) spec (build_labels meta));
            kube_patch KService (cr_name meta) (op_namespace spec) service
       else mret ())
    (λ _ w', own ns n w w' ∧ deployed spec meta w'
       ∧ (py_eqb (get spec "service") (get old_spec "service") = false → served spec meta w'))
    (λ _, own ns n w) (own ns n w) w1) as Hsvc.
  { destruct (mem_str "service" (changed_fields spec old_spec)) eqn:Hm.
    - apply wp_bind, wp_lift; [|done]. intros svc Hs.
      eapply wp_mono; [apply patch_law|..]; cbn beta;
        [|intros; (eapply own_trans; [exact Hw1|own_of])..].
      intros _ w2 [Ho2 Hp2]. split; [eapply own_trans; [exact Hw1|own_of]|].
      split; [|intros _; by eexists]. exists dep. split; [done|].
      eapply in_place_others; [|exact Ho2|exact Hp1]. done.
    - apply wp_ret. split; [done|]. split; [done|]. intros He.
      assert ("service" ∈ changed_fields spec old_spec) as Hin%mem_str_spec; [|congruence].
      unfold changed_fields. apply list_elem_of_filter. split; [done|]. set_solver. }
  eapply wp_mono; [exact Hsvc|..]; cbn beta; [|done|done]. intros _ w2 Hall. apply wp_bind.
  eapply wp_mono; [apply (wp_reads _ (λ w', own ns n w w' ∧ deployed spec meta w'
    ∧ (py_eqb (get spec "service") (get old_spec "service") = false → served spec meta w'))
    (own ns n w)); [apply reads_report|exact Hall|by intros w' [? _]|]|..]; [|done..|done].
  intros a b Hab (Ha & Hd' & Hs'). split; [eapply own_trans; [exact Ha|by apply own_same]|].
  split; [by eapply deployed_same|]. intros He. eapply served_same; eauto.
Qed.

Lemma wp_delete w :
  wp (gatewayserver_delete meta spec)
    (λ _ w', own ns n w w' ∧ obj w' KDeployment ns n = None ∧ obj w' KService ns n = None)
    (λ _, own ns n w) (own ns n w) w.
Proof.
  unfold gatewayserver_delete. apply wp_bind.
  eapply wp_mono; [apply wp_delete_if_present|..]; cbn beta; [|intros; own_of..].
  intros _ w1 [Ho1 Hp1]. assert (own ns n w w1) as Hw1 by own_of.
  eapply wp_mono; [apply wp_delete_if_present|..]; cbn beta;
    [|intros; (eapply own_trans; [exact Hw1|own_of])..].
  intros _ w2 [Ho2 Hp2]. split; [eapply own_trans; [exact Hw1|own_of]|].
  split; [|done]. by rewrite Ho2 by congruence.
Qed.
End resource.

End handlers.

(** ** A cluster *)

(** The objects by kind, namespace and name; a deployment that exists runs one
    replica. *)
Definition cluster : Type := gmap (string * string * string) pydict.
Definition kind_name (k : kind) : string :=
  match k with KDeployment => "Deployment" | KService => "Service" | KSecret => "Secret" end.
Definition not_there {A} : eff cluster A := e_raise (CApiException 404) "Not Found".
Definition object_key (k : kind) (ns n : string) : string * string * string := (kind_name k, ns, n).

Definition when_there {A} (k : kind) (name ns : py) (m : eff cluster A) : eff cluster A :=
  there ← e_gets (λ w : cluster, bool_decide (is_Some (w !! object_key k (py_str ns) (py_str name))));
  if (there : bool) then m else not_there.

#[local] Instance sample_api : KubeApi cluster := {|
  kube_read_deployment name ns :=
    when_there KDeployment name ns (mret (DeploymentView (Some 1) (Some 1) (Some 1)));
  kube_read_secret name ns := when_there KSecret name ns (mret ());
  kube_create k ns body :=
    there ← e_gets (λ w : cluster, bool_decide (is_Some (w !! object_key k (py_str ns) (body_name body))));
    if (there : bool) then e_raise (CApiException 409) "Conflict"
    else e_modify (insert (object_key k (py_str ns) (body_name body)) body);
  kube_patch k name ns body :=
    when_there k name ns (e_modify (insert (object_key k (py_str ns) (py_str name)) body));
  kube_delete k name ns :=
    when_there k name ns (e_modify (delete (object_key k (py_str ns) (py_str name))));
  self_signed _ _ := mret ("certificate", "key");
  has_cryptography := true;
  utc_now := mret "2026-08-01T12:00:00+00:00";
  pod_namespace := None |}.

Lemma object_key_ne k ns n k' ns' n' :
  (k', ns', n') ≠ (k, ns, n) → object_key k ns n ≠ object_key k' ns' n'.
Proof. intros Hne Heq. apply Hne. unfold object_key in Heq. by destruct k, k'; naive_solver. Qed.

Lemma wp_when_there {A} k name ns (m : eff cluster A) Q E C w :
  (∀ o, w !! object_key k (py_str ns) (py_str name) = Some o → wp m Q E C w) →
  (w !! object_key k (py_str ns) (py_str name) = None → E (Exn (CApiException 404) "Not Found") w) →
  wp (when_there k name ns m) Q E C w.
Proof.
  intros Hs Hn. apply wp_bind, wp_gets. case_bool_decide as Hd.
  - destruct Hd as [o Ho]. by eapply Hs.
  - apply wp_raise, Hn. by apply eq_None_not_Some.
Qed.

#[local] Instance sample_laws : KubeLaws cluster.
Proof.
  refine {| obj w k ns n := w !! object_key k ns n; applied := eq |}.
  - intros. by apply wp_when_there; [intros; apply wp_ret|].
  - intros. by apply wp_when_there; [intros; apply wp_ret|].
  - intros w. by apply wp_ret.
  - intros k ns body w. apply wp_bind, wp_gets. case_bool_decide as Hd.
    + apply wp_raise. by split.
    + apply wp_modify. split.
      * intros k' ns' n' Hne. by apply lookup_insert_ne, object_key_ne.
      * exists body. split; [apply lookup_insert_eq|done].
  - intros k name ns body w. apply wp_when_there; [|done]. intros o _. apply wp_modify. split.
    + intros k' ns' n' Hne. by apply lookup_insert_ne, object_key_ne.
    + exists body. split; [apply lookup_insert_eq|done].
  - intros k name ns w. apply wp_when_there; [|by split]. intros o _. apply wp_modify. split.
    + intros k' ns' n' Hne. by apply lookup_delete_ne, object_key_ne.
    + apply lookup_delete_eq.
Defined.

Definition sample_spec : pydict :=
  [("replicaCount", PInt 2); ("service", PDict [("port", PInt 9000)])].
Definition sample_meta : pydict := [("name", PStr "gw")].

(** A resource is created twice over an unrelated service and then deleted. *)
Definition sample_cluster : cluster := {[ ("Service", "boost-gateway", "other") := [] ]}.
Definition created : cluster :=
  (gatewayserver_create sample_spec sample_meta sample_cluster).2.


(** Four checks of one component; the last three fail. *)
Definition sample_component (ready : bool) : component := Component "login-backend" ready 1 1 None.
Definition sample_checks : list (list component) :=
  [[sample_component true]; [sample_component false]; [sample_component false];
   [sample_component false; sample_component true]].

Lemma sample_clock : ∀ w : cluster, ∃ t w', utc_now w = (ORet t, w').
Proof. intros w. by eexists _, _. Qed.


(** A framework that keeps its promise, and a resource whose components were
    never there. *)
#[local] Instance sample_kopf : Kopf := λ id r status, dset status id (PDict r).
#[local] Instance sample_kopf_laws : KopfLaws sample_kopf.
Proof. split. intros id r status k Hk. by apply dlookup_dset_ne. Qed.

Definition failing_status : pydict :=
  (timer_tick sample_spec sample_meta (timer_tick sample_spec sample_meta
    (timer_tick sample_spec sample_meta ([], ∅ : cluster)))).1.
Definition fourth_check : option pydict :=
  match gatewayserver_healthcheck sample_spec sample_meta (PDict failing_status) (∅ : cluster) with
  | (ORet r, _) => r
  | _ => None
  end.

Lemma timer_tick_reach st :
  status_reach st.1 → status_reach (timer_tick sample_spec sample_meta st : pydict * cluster).1.
Proof.
  intros Hs. unfold timer_tick. destruct (gatewayserver_healthcheck _ _ _ _) as [[[r|]| |] w]; try done.
  apply sr_deliver; [|done]. unfold HANDLERS. set_solver.
Qed.

Lemma degraded_never_reported_witness :
  ∃ result, fourth_check = Some result ∧ ¬ reports_degraded result
  ∧ (get result "failedHealthChecks" = PInt 0 ∨ get result "failedHealthChecks" = PInt 1).
Proof.
  assert (status_reach failing_status) as Hs by (do 3 apply timer_tick_reach; by apply sr_new).
  assert (∃ r, gatewayserver_healthcheck sample_spec sample_meta (PDict failing_status) (∅ : cluster)
    = (ORet (Some r), ∅)) as [r Hr] by (eexists; vm_compute; reflexivity).
  exists r. split; [unfold fourth_check; by rewrite Hr|].
  exact (degraded_never_reported sample_spec sample_meta failing_status ∅ r ∅ Hs (or_introl Hr)).
Defined.
