(* ===== verification/Deadman.v ===== *)
(** * The external dead-man signal

    Models [src/scripts/lib/external_deadman.py]: the credential, the request to
    the provider, the receipt and its validation, and the create-only
    publication of the receipt through a temporary file and a hard link.

    The state is the receipt directory, the environment and the requests sent;
    every system call that writes is an event that can fail or be the last one
    of the process, and a [write] stores as many bytes as the kernel likes.  The
    transport and what is found at the credential path and at the receipt
    directory are given by the runtime.  Text is ASCII, as in the code's own
    patterns; closing a descriptor that was not written to succeeds, and the
    timeout is a float, as its signature says. *)
From S2P Require Import Prelude PyFloat PyValue PyTime PyPath PyEffect LifecycleCore.
#[local] Open Scope Z_scope.

(** ** Constants *)

Definition PROVIDER_NAME : string := "healthchecks.io".
Definition MAX_TIMEOUT_SECONDS : pfloat := f_of_Z 15.
Definition MAX_CREDENTIAL_BYTES : Z := 64.
Definition MAX_RESPONSE_BYTES : Z := 64.
Definition SAFE_ROOT_CREDENTIAL_MODES : list Z := [256; 288; 384].
Definition SAFE_USER_CREDENTIAL_MODES : list Z := [256; 384].
Definition ACCEPTED_RESPONSE_BODIES : list string := ["OK"; "OK" +:+ newline].
Definition STATUS_SUFFIXES : list (string * string) := [("success", ""); ("failure", "/fail")].
Definition PROXY_ENVIRONMENT_NAMES : list string :=
  ["HTTP_PROXY"; "HTTPS_PROXY"; "ALL_PROXY"; "FTP_PROXY"; "NO_PROXY"].
Definition RECEIPT_KEYS : list string :=
  ["schema_version"; "provider"; "signal_status"; "observed_at"; "check_identity_sha256";
   "provider_http_status"; "delivery_accepted"; "transport_error"; "overall_pass"; "create_only";
   "secret_material_recorded"].
Definition DELIVERY_ERROR_CODES : list string :=
  ["timeout"; "tls"; "network"; "transport"; "invalid_response"; "unexpected_http_status";
   "unexpected_response_body"].

(** ** Patterns *)

Definition is_hex_any (a : ascii) : bool := is_hex (lower_char a).
Definition is_word (a : ascii) : bool := is_alnum a || Ascii.eqb a "_".

(** [n] characters of a class, and what follows them. *)
Fixpoint take_class (p : ascii → bool) (n : nat) (s : string) : option string :=
  match n, s with
  | O, _ => Some s
  | S n, String a r => if p a then take_class p n r else None
  | S _, EmptyString => None
  end.
(** The five groups of a UUID at the start of a text. *)
Fixpoint take_groups (p : ascii → bool) (ns : list nat) (s : string) : option string :=
  match ns with
  | [] => Some s
  | n :: ns =>
      r ← take_class p n s;
      match ns with
      | [] => Some r
      | _ => match r with
             | String a r => if Ascii.eqb a "-" then take_groups p ns r else None
             | EmptyString => None
             end
      end
  end.
Definition uuid_groups : list nat := [8; 4; 4; 4; 12]%nat.

Definition CANONICAL_UUID_RE (s : string) : bool :=
  bool_decide (take_groups is_hex uuid_groups s = Some "").
(** The search of [EMBEDDED_UUID_RE]; [inside] tells that a hexadecimal digit
    comes just before. *)
Fixpoint EMBEDDED_UUID_RE (inside : bool) (s : string) : bool :=
  (negb inside
   && match take_groups is_hex_any uuid_groups s with
      | Some (String a _) => negb (is_hex_any a)
      | Some EmptyString => true
      | None => false
      end)
  || match s with String a r => EMBEDDED_UUID_RE (is_hex_any a) r | EmptyString => false end.
(** The search of [URL_RE]; [inside] tells that a word character comes before. *)
Fixpoint URL_RE (inside : bool) (s : string) : bool :=
  (negb inside
   && existsb (λ p, starts_with p (lower s)) ["http://"; "https://"; "smtp://"])
  || match s with String a r => URL_RE (is_word a) r | EmptyString => false end.
Definition TIMESTAMP_RE (s : string) : bool :=
  match take_groups is_digit [4; 2; 2]%nat s with
  | Some (String a r) =>
      Ascii.eqb a "T"
      && match take_class is_digit 2 r with
         | Some (String b r) =>
             Ascii.eqb b ":"
             && match take_class is_digit 2 r with
                | Some (String c r) =>
                    Ascii.eqb c ":" && bool_decide (take_class is_digit 2 r = Some "Z")
                | _ => false
                end
         | _ => false
         end
  | _ => false
  end.

(** ** State and runtime *)

(** The opened credential: its metadata, whether its path still leads to it, and
    what the reads return. *)
Record credential := Credential {
  cr_regular : bool;
  cr_nlink : Z;
  cr_uid : Z;
  cr_mode : Z;
  cr_size : Z;
  cr_same : bool;
  cr_reads : list string }.

Record directory_meta := DirectoryMeta { dm_is_dir : bool; dm_uid : Z; dm_mode : Z }.

(** What the transport gives back: a [TransportResult], whose body may not be
    bytes, or another object. *)
Inductive answer :=
  | AResult (status_code : py) (body : option string)
  | AOther.

Inductive dfault := DOk | DErr (msg : string) | DDie (before : bool).

Class DeadmanRuntime := {
  d_sha256 : string → string;
  (** The clock, in UTC; [None] when it gives no aware timestamp. *)
  d_now : option (Z * Z * Z * Z * Z * Z);
  d_euid : Z;
  d_credential : option credential;
  d_directory : option directory_meta;
  d_inspect_fails : bool;
  d_transport : string → pfloat → res answer;
  d_token : string;
  d_fault : nat → dfault;
  (** How many bytes the kernel takes of a write. *)
  d_takes : nat → Z }.

Record dstate := DState {
  d_ev : nat;
  d_files : gmap string string;
  d_environ : list (string * string);
  d_sent : list string }.

Definition tick (s : dstate) : dstate := DState (S (d_ev s)) (d_files s) (d_environ s) (d_sent s).
Definition set_files f (s : dstate) : dstate :=
  DState (d_ev s) (f (d_files s)) (d_environ s) (d_sent s).
Definition set_environ f (s : dstate) : dstate :=
  DState (d_ev s) (d_files s) (f (d_environ s)) (d_sent s).
Definition add_sent r (s : dstate) : dstate :=
  DState (d_ev s) (d_files s) (d_environ s) (d_sent s ++ [r]).

Abbreviation DM := (eff dstate).

Definition guard_dm (bad : bool) (msg : string) : res unit := guard_cls CDeadmanError bad msg.
Definition raise_dm {A} (msg : string) : res A := Raise (Exn CDeadmanError msg).
Definition fail_dm {A} (msg : string) : DM A := e_raise CDeadmanError msg.

(** ** Validation *)

Definition require_absolute_file_path (p : path) (label : string) : res path :=
  guard_dm (negb (is_absolute p) || mem_str (p_name p) [""; "."; ".."])
    (label +:+ " must be an absolute file path");;
  Ok p.

Definition validate_timeout_seconds (timeout : pfloat) : res pfloat :=
  guard_dm (negb (f_is_finite timeout) || fleb timeout f_zero || fltb MAX_TIMEOUT_SECONDS timeout)
    "timeout must be greater than zero and at most 15 seconds";;
  Ok timeout.

Definition clear_proxy_environment (environ : list (string * string)) : list (string * string) :=
  filter (λ kv, mem_str (lower kv.1) (map lower PROXY_ENVIRONMENT_NAMES) = false) environ.

Definition classify_transport_error (e : exn) : string :=
  if exn_isa CTimeoutError e then "timeout"
  else if exn_isa CSSLError e then "tls"
  else if exn_isa COSError e then "network"
  else "transport".

Fixpoint assert_nonsecret_values (forbidden : list string) (v : py) : res unit :=
  let secret := raise_dm "receipt values contain forbidden secret material" in
  match v with
  | PDict d =>
      (fix go (d : pydict) : res unit :=
         match d with
         | [] => Ok ()
         | (_, w) :: d => assert_nonsecret_values forbidden w;; go d
         end) d
  | PList l =>
      (fix go (l : list py) : res unit :=
         match l with
         | [] => Ok ()
         | w :: l => assert_nonsecret_values forbidden w;; go l
         end) l
  | PStr s =>
      if existsb (λ x, negb (String.eqb x "") && contains (lower x) (lower s)) forbidden then secret
      else if EMBEDDED_UUID_RE false s || URL_RE false s then secret
      else Ok ()
  | _ => Ok ()
  end.

Definition http_status_ok (v : py) : bool :=
  match v with PInt z => (100 <=? z) && (z <=? 599) | _ => false end.

Definition validate_receipt (forbidden : list string) (receipt : pydict) : res unit :=
  let bad := "receipt schema is invalid" in
  guard_dm (negb (same_set (dkeys receipt) RECEIPT_KEYS)) bad;;
  guard_dm (negb (is_int (get receipt "schema_version")) || ne receipt "schema_version" (PInt 1)
            || ne receipt "provider" (PStr PROVIDER_NAME)) bad;;
  known ← in_str_set (get receipt "signal_status") (map fst STATUS_SUFFIXES);
  guard_dm (negb known) bad;;
  guard_dm (match get receipt "observed_at" with PStr s => negb (TIMESTAMP_RE s) | _ => true end) bad;;
  guard_dm (match get receipt "check_identity_sha256" with PStr s => negb (SHA256_RE s) | _ => true end)
    bad;;
  let status_code := get receipt "provider_http_status" in
  guard_dm (negb (is_none status_code) && negb (http_status_ok status_code)) bad;;
  let accepted := get receipt "delivery_accepted" in
  guard_dm (match accepted, get receipt "overall_pass" with
            | PBool a, PBool p => negb (Bool.eqb a p)
            | _, _ => true
            end) bad;;
  (if is_true accepted
   then guard_dm (negb (py_eqb status_code (PInt 200)) || negb (is_none (get receipt "transport_error")))
          bad
   else code ← in_str_set (get receipt "transport_error") DELIVERY_ERROR_CODES;
        guard_dm (negb code) bad);;
  guard_dm (not_true receipt "create_only" || not_false receipt "secret_material_recorded") bad;;
  assert_nonsecret_values forbidden (PDict receipt).

Definition evaluate_transport_result (a : answer) : py * bool * py :=
  match a with
  | AOther => (PNone, false, PStr "invalid_response")
  | AResult status_code body =>
      if negb (http_status_ok status_code) then (PNone, false, PStr "invalid_response")
      else
        match body with
        | None => (status_code, false, PStr "invalid_response")
        | Some b =>
            if MAX_RESPONSE_BYTES <? Z.of_nat (String.length b)
            then (status_code, false, PStr "invalid_response")
            else if negb (py_eqb status_code (PInt 200))
            then (status_code, false, PStr "unexpected_http_status")
            else if negb (mem_str b ACCEPTED_RESPONSE_BODIES)
            then (status_code, false, PStr "unexpected_response_body")
            else (status_code, true, PNone)
        end
  end.

Section runtime.
Context `{DeadmanRuntime}.

Definition safe_owner_uids (allowed : option (list Z)) : res (list Z) :=
  match allowed with
  | None => Ok [0; d_euid]
  | Some owners =>
      guard_dm (match owners with [] => true | _ => existsb (λ o, o <? 0) owners end)
        "the secure owner policy is invalid";;
      Ok owners
  end.

(** [_read_bounded]: the blocks the reads return, until they add up to more than
    the bound or the file ends. *)
Fixpoint read_bounded (remaining : Z) (blocks : list string) : string :=
  if remaining <=? 0 then ""
  else
    match blocks with
    | [] => ""
    | b :: r =>
        let block := str_take (Z.to_nat remaining) b in
        if String.eqb block "" then ""
        else block +:+ read_bounded (remaining - Z.of_nat (String.length block)) r
    end.

Definition parse_credential (raw : string) : res string :=
  let bad := "the credential format is invalid" in
  guard_dm (MAX_CREDENTIAL_BYTES <? Z.of_nat (String.length raw)) bad;;
  let raw := if ends_with newline raw then str_take (String.length raw - 1) raw else raw in
  guard_dm (String.eqb raw "" || str_in "010" raw || str_in "013" raw) bad;;
  guard_dm (negb (str_all (λ a, (N_of_ascii a <? 128)%N) raw)) bad;;
  guard_dm (negb (CANONICAL_UUID_RE raw)) bad;;
  Ok raw.

Definition load_ping_uuid (p : path) (allowed : option (list Z)) : res string :=
  require_absolute_file_path p "credential";;
  match d_credential with
  | None => raise_dm "the credential cannot be opened safely"
  | Some c =>
      guard_dm (negb (cr_regular c)) "the credential must be a regular file";;
      guard_dm (negb (cr_nlink c =? 1)) "the credential must have exactly one hard link";;
      owners ← safe_owner_uids allowed;
      guard_dm (negb (existsb (Z.eqb (cr_uid c)) owners)) "the credential owner is not trusted";;
      let modes := if cr_uid c =? 0 then SAFE_ROOT_CREDENTIAL_MODES else SAFE_USER_CREDENTIAL_MODES in
      guard_dm (negb (existsb (Z.eqb (cr_mode c)) modes)) "the credential mode is not safe";;
      guard_dm ((cr_size c <? 1) || (MAX_CREDENTIAL_BYTES <? cr_size c))
        "the credential format is invalid";;
      guard_dm (negb (cr_same c)) "the credential path changed while opening";;
      parse_credential (read_bounded (MAX_CREDENTIAL_BYTES + 1) (cr_reads c))
  end.

Definition utc_timestamp : res string :=
  match d_now with
  | Some (y, mo, d, h, mi, s) => Ok (utc_text y mo d h mi s)
  | None => raise_dm "the receipt clock did not return an aware timestamp"
  end.

(** ** The receipt directory *)

Definition open_receipt_directory (p : path) (allowed : option (list Z)) : DM string :=
  e_lift (require_absolute_file_path p "receipt");;
  match d_directory with
  | None => fail_dm "the receipt directory cannot be opened safely"
  | Some m =>
      e_lift (guard_dm (negb (dm_is_dir m)) "the receipt parent must be a directory");;
      owners ← e_lift (safe_owner_uids allowed);
      e_lift (guard_dm (negb (existsb (Z.eqb (dm_uid m)) owners))
        "the receipt directory owner is not trusted");;
      e_lift (guard_dm (negb (Z.land (dm_mode m) 18 =? 0)) "the receipt directory mode is not safe");;
      e_lift (guard_dm d_inspect_fails "the receipt target cannot be inspected safely");;
      present ← e_gets (λ s, bool_decide (is_Some (d_files s !! p_name p)));
      e_lift (guard_dm present "the create-only receipt already exists");;
      mret (p_name p)
  end.

(** A system call with the given effect. *)
Definition d_step (f : dstate → dstate) : DM unit := λ s,
  match d_fault (d_ev s) with
  | DOk => (ORet (), f (tick s))
  | DErr msg => (ORaise (Exn COSError msg), tick s)
  | DDie true => (OCrash, tick s)
  | DDie false => (OCrash, f (tick s))
  end.

Definition append_file (name data : string) (s : dstate) : dstate :=
  set_files (alter (λ old, old +:+ data) name) s.

(** [os.write]: how many of the given bytes were written. *)
Definition os_write (name data : string) : DM Z :=
  n ← e_gets (λ s, Z.min (d_takes (d_ev s)) (Z.of_nat (String.length data)));
  d_step (append_file name (str_take (Z.to_nat n) data));;
  mret n.

(** The loop of [_write_all]; the counter bounds the number of its turns. *)
Fixpoint write_loop (turns : nat) (name payload : string) : DM unit :=
  if String.eqb payload "" then mret ()
  else
    match turns with
    | O => e_raise CAssertionError "out of turns"
    | S turns =>
        written ← os_write name payload;
        if written <=? 0 then e_raise COSError "short write"
        else write_loop turns name (str_skip (Z.to_nat written) payload)
    end.
Definition write_all (name payload : string) : DM unit :=
  write_loop (String.length payload) name payload.

Definition link_file (temporary final : string) : DM unit :=
  taken ← e_gets (λ s, bool_decide (is_Some (d_files s !! final)));
  if (taken : bool) then e_raise CFileExistsError "File exists"
  else d_step (set_files (λ m, match m !! temporary with Some b => <[final := b]> m | None => m end)).

Definition temporary_name : string := ".external-deadman-" +:+ d_token +:+ ".tmp".

Definition open_temporary : DM unit :=
  taken ← e_gets (λ s, bool_decide (is_Some (d_files s !! temporary_name)));
  if (taken : bool) then e_raise CFileExistsError "File exists"
  else d_step (set_files <[temporary_name := ""]>).

(** From the mode of the open temporary file to its removal. *)
Definition publish_receipt (final payload : string) : DM unit :=
  d_step id;;
  write_all temporary_name payload;;
  d_step id;;
  d_step id;;
  e_try (link_file temporary_name final)
    (λ e, if exn_isa CFileExistsError e then fail_dm "the create-only receipt already exists"
          else e_lift (Raise e));;
  d_step id;;
  d_step (set_files (delete temporary_name)).

Definition receipt_payload (receipt : pydict) : string := json_dumps (PDict receipt) +:+ newline.

Definition write_create_only_receipt (final : string) (receipt : pydict) (forbidden : list string)
    : DM unit :=
  e_lift (validate_receipt forbidden receipt);;
  let payload := receipt_payload receipt in
  e_lift (guard_dm (existsb (λ x, negb (String.eqb x "") && contains x payload) forbidden)
    "serialized receipt contains forbidden secret material");;
  e_try
    (open_temporary;;
     e_try (publish_receipt final payload)
       (λ e, e_try (d_step (set_files (delete temporary_name))) (λ _, mret ());; e_lift (Raise e));;
     d_step id)
    (λ e, if exn_isa CDeadmanError e then e_lift (Raise e)
          else if exn_isa COSError e then fail_dm "the create-only receipt could not be persisted"
          else e_lift (Raise e)).

(** ** The report *)

Definition send (request_path : string) (timeout : pfloat) : DM (py * bool * py) := λ s,
  (ORet match d_transport request_path timeout with
        | Ok a => evaluate_transport_result a
        | Raise e => (PNone, false, PStr (classify_transport_error e))
        end, add_sent request_path s).

Definition receipt_of (status observed_at identity_hash : string) (outcome : py * bool * py) : pydict :=
  [("schema_version", PInt 1); ("provider", PStr PROVIDER_NAME); ("signal_status", PStr status);
   ("observed_at", PStr observed_at); ("check_identity_sha256", PStr identity_hash);
   ("provider_http_status", outcome.1.1); ("delivery_accepted", PBool outcome.1.2);
   ("transport_error", outcome.2); ("overall_pass", PBool outcome.1.2);
   ("create_only", PBool true); ("secret_material_recorded", PBool false)].

Definition request_path (ping_uuid suffix : string) : string := "/" +:+ ping_uuid +:+ suffix.

Definition report_deadman_signal (status : string) (credential_path receipt_path : path)
    (timeout_seconds : pfloat) (credential_owners receipt_owners : option (list Z)) : DM pydict :=
  match list_to_map (M := gmap string string) STATUS_SUFFIXES !! status with
  | None => fail_dm "status must be success or failure"
  | Some suffix =>
      timeout ← e_lift (validate_timeout_seconds timeout_seconds);
      observed_at ← e_lift utc_timestamp;
      final ← open_receipt_directory receipt_path receipt_owners;
      ping_uuid ← e_lift (load_ping_uuid credential_path credential_owners);
      e_modify (set_environ clear_proxy_environment);;
      outcome ← send (request_path ping_uuid suffix) timeout;
      let receipt := receipt_of status observed_at (d_sha256 ping_uuid) outcome in
      write_create_only_receipt final receipt [ping_uuid];;
      if outcome.1.2 : bool then mret receipt
      else fail_dm "the provider did not accept the dead-man signal"
  end.
End runtime.
