(* ===== verification/DeadmanFacts.v ===== *)
(** * The external dead-man signal: correctness *)
From S2P Require Import Prelude PyFloat PyValue PyTime PyPath PyJson PyJsonFacts PyEffect LifecycleCore.
From S2P Require Import Deadman.
#[local] Open Scope Z_scope.

(** ** Text *)

Section facts.
Context `{DeadmanRuntime}.

(** ** Writing a file *)

(** The loop ends within its turns: every turn writes at least a byte or raises,
    so as many turns as there are bytes are enough. *)
Lemma write_loop_turns turns turns' name payload s :
  (String.length payload ≤ turns)%nat → (String.length payload ≤ turns')%nat →
  write_loop turns name payload s = write_loop turns' name payload s.
Proof.
  revert turns' payload s. induction turns as [|turns IH]; intros turns' payload s Ht Ht'.
  - destruct payload; [by destruct turns'|simpl in Ht; lia].
  - destruct turns' as [|turns']; [destruct payload; [done|simpl in Ht'; lia]|].
    simpl. destruct (String.eqb payload ""); [done|]. unfold mbind, eff_bind.
    destruct (os_write name payload s) as [[n|e|] s1]; [|done..].
    destruct (Z.leb_spec n 0); [done|].
    assert (String.length (str_skip (Z.to_nat n) payload) ≤ String.length payload - 1)%nat.
    { rewrite str_skip_length. lia. }
    apply IH; lia.
Qed.

Definition wrote (name old payload : string) (k : nat) (s s' : dstate) : Prop :=
  d_files s' = <[name := old +:+ str_take k payload]> (d_files s)
  ∧ d_environ s' = d_environ s ∧ d_sent s' = d_sent s
  ∧ (d_ev s ≤ d_ev s' ≤ d_ev s + String.length payload)%nat.

Lemma wrote_none name old payload s s' :
  d_files s !! name = Some old → d_files s' = d_files s → d_environ s' = d_environ s →
  d_sent s' = d_sent s → (d_ev s ≤ d_ev s' ≤ d_ev s + String.length payload)%nat →
  wrote name old payload 0 s s'.
Proof. intros Hf Hs ???. unfold wrote. simpl. by rewrite app_str_nil_r, insert_id. Qed.

Lemma append_file_at name old data m :
  m !! name = Some old →
  alter (λ o, o +:+ data) name m = (<[name := old +:+ data]> m : gmap string string).
Proof.
  intros Hm. apply map_eq. intros n. destruct (decide (n = name)) as [->|Hne].
  - by rewrite lookup_alter_eq, Hm, lookup_insert_eq.
  - by rewrite lookup_alter_ne, lookup_insert_ne by done.
Qed.

Lemma wp_write_loop turns name payload old s :
  d_files s !! name = Some old → (String.length payload ≤ turns)%nat →
  wp (write_loop turns name payload) (λ _, wrote name old payload (String.length payload) s)
    (λ e s', exn_cls e = COSError ∧ ∃ k, wrote name old payload k s s')
    (λ s', ∃ k, wrote name old payload k s s') s.
Proof.
  revert payload old s. induction turns as [|turns IH]; intros payload old s Hf Hl.
  - destruct payload; [|simpl in Hl; lia]. apply wp_ret. apply wrote_none; simpl; [done..|lia].
  - simpl. destruct (String.eqb_spec payload "") as [->|Hne].
    { apply wp_ret. apply wrote_none; simpl; [done..|lia]. }
    assert (1 ≤ String.length payload)%nat as Hlen by (destruct payload; simpl; [done|lia]).
    apply wp_bind. unfold os_write. apply wp_bind, wp_gets, wp_bind.
    set (n := Z.min _ _). unfold wp, d_step. destruct (d_fault (d_ev s)) as [|msg|[]].
    + (* the bytes are written *)
      assert (n ≤ Z.of_nat (String.length payload)) as Hn by lia.
      set (s1 := append_file _ _ _).
      assert (wrote name old payload (Z.to_nat n) s s1) as Hw1.
      { unfold wrote, s1, append_file, set_files. simpl.
        rewrite (append_file_at _ old) by done. split; [done|]. split; [done|]. split; [done|lia]. }
      change (wp (if n <=? 0 then e_raise COSError "short write"
                  else write_loop turns name (str_skip (Z.to_nat n) payload))
        (λ _, wrote name old payload (String.length payload) s)
        (λ e s', exn_cls e = COSError ∧ ∃ k, wrote name old payload k s s')
        (λ s', ∃ k, wrote name old payload k s s') s1).
      destruct (Z.leb_spec n 0) as [Hz|Hz]; [apply wp_raise; eauto|].
      assert (∀ k s', wrote name (old +:+ str_take (Z.to_nat n) payload)
                (str_skip (Z.to_nat n) payload) k s1 s' →
              wrote name old payload (Z.to_nat n + k) s s') as Hstep.
      { intros k s' (Hf' & He' & Hs' & Hev'). destruct Hw1 as (Hf1 & He1 & Hs1 & _).
        unfold wrote. rewrite Hf', Hf1, insert_insert_eq, He', He1, Hs', Hs1.
        rewrite str_take_add, app_str_assoc. split; [done|]. split; [done|]. split; [done|].
        rewrite str_skip_length in Hev'. simpl in Hev'. lia. }
      eapply wp_mono; [eapply IH|..].
      * destruct Hw1 as (-> & _). apply lookup_insert_eq.
      * rewrite str_skip_length. lia.
      * intros _ s' Hw%Hstep. rewrite str_skip_length in Hw.
        by replace (Z.to_nat n + (String.length payload - Z.to_nat n))%nat
          with (String.length payload) in Hw by lia.
      * intros e s' (He & k & Hw%Hstep). eauto.
      * intros s' (k & Hw%Hstep). eauto.
    + split; [done|]. exists 0%nat. apply wrote_none; simpl; [done..|lia].
    + exists 0%nat. apply wrote_none; simpl; [done..|lia].
    + exists (Z.to_nat n). unfold wrote. simpl. rewrite (append_file_at _ old) by done.
      split; [done|]. split; [done|]. split; [done|lia].
Qed.

(** Writing a file ends.  Whatever the kernel takes of each write, [_write_all]
    performs at most one write per byte of its payload: more turns of the loop
    than that make no difference.  When it returns, the payload is in the file,
    in order and once; when it raises, the exception is an [OSError]; in every
    case what was added to the file is a prefix of the payload, and no other
    file changes. *)
Theorem write_all_ends name payload old s r s' :
  d_files s !! name = Some old → write_all name payload s = (r, s') →
  (∀ turns, (String.length payload ≤ turns)%nat → write_loop turns name payload s = (r, s'))
  ∧ (d_ev s' ≤ d_ev s + String.length payload)%nat
  ∧ ∃ k, d_files s' = <[name := old +:+ str_take k payload]> (d_files s)
    ∧ match r with
      | ORet _ => str_take k payload = payload
      | ORaise e => exn_cls e = COSError
      | OCrash => True
      end.
Proof.
  intros Hf Hrun. split.
  { intros turns Ht. rewrite <- Hrun. by apply write_loop_turns. }
  pose proof (wp_write_loop (String.length payload) name payload old s Hf ltac:(lia)) as Hw.
  change (write_loop _ name payload) with (write_all name payload) in Hw.
  unfold wp in Hw. rewrite Hrun in Hw.
  destruct r as [[]|e|].
  - destruct Hw as (? & _ & _ & ?). split; [lia|]. eexists. split; [done|]. by apply str_take_full.
  - destruct Hw as (He & k & ? & _ & _ & ?). split; [lia|]. eauto.
  - destruct Hw as (k & ? & _ & _ & ?). split; [lia|]. eauto.
Qed.

(** ** Publication *)

(** A state with the given files that differs in nothing else. *)
Definition at_files (m : gmap string string) (s s' : dstate) : Prop :=
  d_files s' = m ∧ d_environ s' = d_environ s ∧ d_sent s' = d_sent s.

(** What a publication can leave of the files [m]: the temporary file, and the
    receipt with its whole content. *)
Definition staged (final payload : string) (s s' : dstate) : Prop :=
  (∀ n, d_files s' !! n = d_files s !! n
        ∨ (n = temporary_name ∧ d_files s !! n = None)
        ∨ (n = final ∧ d_files s !! n = None ∧ d_files s' !! n = Some payload))
  ∧ d_environ s' = d_environ s ∧ d_sent s' = d_sent s.

Lemma wp_d_step f (Q : unit → dstate → Prop) (E : exn → dstate → Prop) (C : dstate → Prop) s :
  Q () (f (tick s)) → (∀ msg, E (Exn COSError msg) (tick s)) → C (tick s) → C (f (tick s)) →
  wp (d_step f) Q E C s.
Proof. intros HQ HE HC HC'. unfold wp, d_step. by destruct (d_fault (d_ev s)) as [|msg|[]]. Qed.

Section publication.
Context (final payload : string) (s : dstate).
Hypothesis final_free : d_files s !! final = None.
Hypothesis temporary_free : d_files s !! temporary_name = None.

Lemma staged_same s' : at_files (d_files s) s s' → staged final payload s s'.
Proof. intros (Hf & He & Hs). split; [|done]. intros n. left. by rewrite Hf. Qed.

Lemma staged_temporary c s' :
  at_files (<[temporary_name := c]> (d_files s)) s s' → staged final payload s s'.
Proof.
  intros (Hf & He & Hs). split; [|done]. intros n. rewrite Hf.
  destruct (decide (n = temporary_name)) as [->|Hne]; [by right; left|].
  left. by rewrite lookup_insert_ne.
Qed.

Lemma staged_linked s' :
  at_files (<[final := payload]> (<[temporary_name := payload]> (d_files s))) s s' →
  staged final payload s s'.
Proof.
  intros (Hf & He & Hs). split; [|done]. intros n. rewrite Hf.
  destruct (decide (n = final)) as [->|Hne].
  { right; right. by rewrite lookup_insert_eq. }
  rewrite lookup_insert_ne by done. destruct (decide (n = temporary_name)) as [->|Hnt]; [by right; left|].
  left. by rewrite lookup_insert_ne.
Qed.

Lemma staged_published s' :
  at_files (<[final := payload]> (d_files s)) s s' → staged final payload s s'.
Proof.
  intros (Hf & He & Hs). split; [|done]. intros n. rewrite Hf.
  destruct (decide (n = final)) as [->|Hne]; [right; right; by rewrite lookup_insert_eq|].
  left. by rewrite lookup_insert_ne.
Qed.

Lemma wp_idle m (Q : unit → dstate → Prop) (E : exn → dstate → Prop) (C : dstate → Prop) s1 :
  at_files m s s1 →
  (∀ s', at_files m s s' → Q () s') → (∀ msg s', at_files m s s' → E (Exn COSError msg) s') →
  (∀ s', at_files m s s' → C s') → wp (d_step id) Q E C s1.
Proof. intros Hm HQ HE HC. apply wp_d_step; intros; [apply HQ|apply HE|apply HC|apply HC]; done. Qed.

(** While the temporary file is there. *)
Definition open_stage (s' : dstate) : Prop :=
  staged final payload s s' ∧ is_Some (d_files s' !! temporary_name).

Lemma open_stage_temporary c s' :
  at_files (<[temporary_name := c]> (d_files s)) s s' → open_stage s'.
Proof.
  intros Hs'. split; [by eapply staged_temporary|]. destruct Hs' as (-> & _).
  by rewrite lookup_insert_eq.
Qed.

(** From the link to the removal of the temporary file. *)
Lemma wp_link_and_remove s5 :
  at_files (<[temporary_name := payload]> (d_files s)) s s5 →
  wp (e_try (link_file temporary_name final)
        (λ e, if exn_isa CFileExistsError e then fail_dm "the create-only receipt already exists"
              else e_lift (Raise e));;
      d_step id;;
      d_step (set_files (delete temporary_name)))
    (λ _, at_files (<[final := payload]> (d_files s)) s) (λ _, open_stage) (staged final payload s) s5.
Proof.
  intros H5. apply wp_bind, wp_try. unfold link_file. apply wp_bind, wp_gets.
  case_bool_decide as Htaken; [apply wp_raise; by eapply open_stage_temporary|].
  assert (final ≠ temporary_name) as Hne.
  { intros ->. apply Htaken. destruct H5 as (-> & _). by rewrite lookup_insert_eq. }
  assert (at_files (<[final := payload]> (<[temporary_name := payload]> (d_files s))) s
    (set_files (λ m, match m !! temporary_name with Some b => <[final := b]> m | None => m end) (tick s5)))
    as H6.
  { destruct H5 as (Hf5 & He5 & Hs5). unfold at_files, set_files. simpl.
    by rewrite Hf5, lookup_insert_eq. }
  assert (∀ s', at_files (<[final := payload]> (<[temporary_name := payload]> (d_files s))) s s' →
    open_stage s') as Hboth.
  { intros s' Hs'. split; [by eapply staged_linked|]. destruct Hs' as (-> & _).
    by rewrite lookup_insert_ne, lookup_insert_eq. }
  apply wp_d_step; [|intros msg; by eapply open_stage_temporary|by eapply open_stage_temporary|
    by eapply Hboth].
  apply wp_bind. eapply wp_idle; [exact H6|..]; [|intros; by eapply Hboth|intros; by eapply Hboth].
  intros s7 H7.
  assert (at_files (<[final := payload]> (d_files s)) s (set_files (delete temporary_name) (tick s7))) as H8.
  { destruct H7 as (Hf & He & Hs). unfold at_files, set_files. simpl. rewrite Hf. split; [|done].
    rewrite delete_insert_ne by done. by rewrite delete_insert_id. }
  apply wp_d_step; [done|intros msg; by eapply Hboth|by eapply Hboth|by eapply staged_published].
Qed.

Lemma wp_publish_receipt s1 :
  at_files (<[temporary_name := ""]> (d_files s)) s s1 →
  wp (publish_receipt final payload)
    (λ _, at_files (<[final := payload]> (d_files s)) s) (λ _, open_stage) (staged final payload s) s1.
Proof.
  intros H1. unfold publish_receipt. apply wp_bind.
  assert (∀ c (msg : string) s', at_files (<[temporary_name := c]> (d_files s)) s s' → open_stage s')
    as Htmp by (intros; by eapply open_stage_temporary).
  assert (∀ c s', at_files (<[temporary_name := c]> (d_files s)) s s' → staged final payload s s')
    as Hdie by (intros; by eapply staged_temporary).
  eapply wp_idle; [exact H1| |apply Htmp|apply Hdie]. intros s2 H2. apply wp_bind.
  assert (∀ k s', wrote temporary_name "" payload k s2 s' →
    at_files (<[temporary_name := str_take k payload]> (d_files s)) s s') as Hwrote.
  { intros k s' (Hf & He & Hs & _). destruct H2 as (Hf2 & He2 & Hs2). unfold at_files.
    rewrite Hf, Hf2, insert_insert_eq, He, He2, Hs, Hs2. done. }
  eapply wp_mono; [eapply (wp_write_loop _ _ _ ""); [|done]|..].
  { destruct H2 as (-> & _). apply lookup_insert_eq. }
  2:{ intros e s' (_ & k & Hw%Hwrote). by eapply open_stage_temporary. }
  2:{ intros s' (k & Hw%Hwrote). by eapply Hdie. }
  intros _ s3 H3%Hwrote. rewrite str_take_full in H3 by done.
  apply wp_bind. eapply wp_idle; [exact H3| |apply Htmp|apply Hdie]. intros s4 H4.
  apply wp_bind. eapply wp_idle; [exact H4| |apply Htmp|apply Hdie]. intros s5 H5.
  by apply wp_link_and_remove.
Qed.

(** The cleanup after a failed publication. *)
Lemma staged_cleanup s1 : open_stage s1 → staged final payload s (set_files (delete temporary_name) s1).
Proof.
  intros [[Hf Ho] _]. split; [|done]. intros n. simpl.
  destruct (decide (n = temporary_name)) as [->|Hne].
  - left. by rewrite lookup_delete_eq.
  - rewrite lookup_delete_ne by done. apply Hf.
Qed.
End publication.

(** ** The receipt *)

(** A receipt that passed the code's own checks: its values and its serialised
    text hold none of the forbidden texts. *)
Definition sound_receipt (forbidden : list string) (receipt : pydict) : Prop :=
  validate_receipt forbidden receipt = Ok ()
  ∧ Forall (λ x, x ≠ "" → contains x (receipt_payload receipt) = false) forbidden.

(** Nothing happened, or a sound receipt is being published. *)
Definition attempted (final : string) (forbidden : list string) (receipt : pydict) (s s' : dstate)
    : Prop :=
  at_files (d_files s) s s'
  ∨ sound_receipt forbidden receipt ∧ staged final (receipt_payload receipt) s s'.

Lemma wp_write_receipt final receipt forbidden s :
  d_files s !! final = None →
  wp (write_create_only_receipt final receipt forbidden)
    (λ _ s', sound_receipt forbidden receipt
             ∧ at_files (<[final := receipt_payload receipt]> (d_files s)) s s')
    (λ _, attempted final forbidden receipt s) (attempted final forbidden receipt s) s.
Proof.
  intros Hfree. unfold write_create_only_receipt. set (payload := receipt_payload receipt).
  apply wp_bind, wp_lift; [|intros; by left]. intros [] Hv.
  apply wp_bind, wp_lift; [|intros; by left]. intros [] Hc%guard_cls_ok.
  assert (sound_receipt forbidden receipt) as Hsound.
  { split; [done|]. apply Forall_forall. intros x Hx Hne.
    destruct (contains x (receipt_payload receipt)) eqn:Hin; [|done]. exfalso.
    assert (existsb (λ x, negb (String.eqb x "") && contains x payload) forbidden = true); [|congruence].
    apply existsb_exists. exists x. split; [by apply list_elem_of_In|].
    fold payload in Hin. rewrite Hin. by destruct (String.eqb_spec x ""). }
  assert (∀ s', staged final payload s s' → attempted final forbidden receipt s s') as Hst
    by (intros; by right).
  apply wp_try. eapply wp_mono with (Q := λ _ s', sound_receipt forbidden receipt
      ∧ at_files (<[final := payload]> (d_files s)) s s')
    (E := λ _, attempted final forbidden receipt s) (C := attempted final forbidden receipt s); [|done| |done].
  2:{ intros e s' Hs'. by repeat case_match; apply wp_raise || apply wp_lift. }
  apply wp_bind. unfold open_temporary. apply wp_bind, wp_gets. case_bool_decide as Ht.
  { apply wp_raise. by left. }
  apply eq_None_not_Some in Ht. apply wp_d_step; [|intros; by left|by left|].
  2:{ apply Hst. by eapply staged_temporary. }
  apply wp_bind, wp_try. eapply wp_mono; [by apply (wp_publish_receipt final payload s Hfree Ht)|..]; cbn beta.
  - intros _ s1 H1. eapply wp_idle; [exact H1|by intros|..]; intros; by apply Hst, staged_published.
  - intros e s1 H1. apply wp_bind, wp_try. apply wp_d_step.
    + apply wp_lift; [done|]. intros _ _. apply Hst. by apply (staged_cleanup final payload s Ht).
    + intros msg. apply wp_ret, wp_lift; [done|]. intros _ _. apply Hst. by destruct H1.
    + apply Hst. by destruct H1.
    + apply Hst. by apply (staged_cleanup final payload s Ht).
  - intros s1 H1. by apply Hst.
Qed.

Lemma wp_open_directory p allowed s :
  wp (open_receipt_directory p allowed)
    (λ final s', s' = s ∧ final = p_name p ∧ d_files s !! p_name p = None)
    (λ _ s', s' = s) (λ _, False) s.
Proof.
  unfold open_receipt_directory. apply wp_bind, wp_lift; [|done]. intros _ _.
  destruct d_directory as [m|]; [|by apply wp_raise].
  apply wp_bind, wp_lift; [|done]. intros _ _. apply wp_bind, wp_lift; [|done]. intros owners _.
  do 3 (apply wp_bind, wp_lift; [|done]; intros _ _).
  apply wp_bind, wp_gets, wp_bind, wp_lift; [|done]. intros _ Hp%guard_cls_ok.
  apply wp_ret. apply bool_decide_eq_false in Hp. by rewrite <- eq_None_not_Some in Hp.
Qed.

Lemma load_ping_uuid_canonical p allowed u :
  load_ping_uuid p allowed = Ok u → u ≠ "" ∧ CANONICAL_UUID_RE u = true.
Proof.
  unfold load_ping_uuid. intros Hl. apply res_bind_ok in Hl as (? & _ & Hl).
  destruct d_credential as [c|]; [|done]. unfold parse_credential, guard_dm in Hl. res_inv. bool_split.
  split; [|done]. by match goal with H : String.eqb _ _ = false |- _ => apply String.eqb_neq in H end.
Qed.

Lemma evaluate_accepted a :
  (evaluate_transport_result a).1.2 = true →
  ∃ b, a = AResult (PInt 200) (Some b) ∧ b ∈ ACCEPTED_RESPONSE_BODIES.
Proof.
  destruct a as [st body|]; [|done]. unfold evaluate_transport_result.
  destruct (http_status_ok st) eqn:Hst; cbn [negb]; [|discriminate].
  destruct body as [b|]; [|discriminate]. destruct (_ <? _); [discriminate|].
  destruct (py_eqb st (PInt 200)) eqn:H200; cbn [negb]; [|discriminate].
  destruct (mem_str b ACCEPTED_RESPONSE_BODIES) eqn:Hb; cbn [negb]; [|discriminate]. intros _.
  destruct st; try done. simpl in H200. exists b. split; [|by apply mem_str_spec].
  do 2 f_equal. unfold py_eqb, num_eqb in H200. by apply Z.eqb_eq.
Qed.

(** What a report leaves behind, by what it did. *)
Inductive reported (status : string) (cp rp : path) (co : option (list Z)) (s : dstate)
    : option pydict → dstate → Prop :=
  | rep_nothing : reported status cp rp co s None s
  | rep_sent uuid suffix at_ outcome s1 s' done_ :
      load_ping_uuid cp co = Ok uuid →
      d_files s1 = d_files s → d_environ s1 = clear_proxy_environment (d_environ s) →
      d_sent s1 = d_sent s ++ [request_path uuid suffix] →
      d_files s !! p_name rp = None →
      let receipt := receipt_of status at_ (d_sha256 uuid) outcome in
      attempted (p_name rp) [uuid] receipt s1 s' →
      (∀ d, done_ = Some d → d = receipt ∧ outcome.1.2 = true
         ∧ d_files s' = <[p_name rp := receipt_payload receipt]> (d_files s)
         ∧ ∃ t body, d_transport (request_path uuid suffix) t = Ok (AResult (PInt 200) (Some body))
                     ∧ body ∈ ACCEPTED_RESPONSE_BODIES) →
      reported status cp rp co s done_ s'.

Lemma wp_report status cp rp t co ro s :
  wp (report_deadman_signal status cp rp t co ro)
    (λ d, reported status cp rp co s (Some d)) (λ _, reported status cp rp co s None)
    (reported status cp rp co s None) s.
Proof.
  unfold report_deadman_signal.
  destruct (list_to_map STATUS_SUFFIXES !! status) as [suffix|]; [|apply wp_raise; constructor].
  apply wp_bind, wp_lift; [|constructor]. intros timeout _.
  apply wp_bind, wp_lift; [|constructor]. intros at_ _.
  apply wp_bind. eapply wp_mono; [apply wp_open_directory|..]; cbn beta;
    [|intros; subst; constructor|done].
  intros final s0 (-> & -> & Hfree). apply wp_bind, wp_lift; [|constructor]. intros uuid Hu.
  apply wp_bind, wp_modify, wp_bind. set (s1 := add_sent (request_path uuid suffix)
    (set_environ clear_proxy_environment s)). unfold send at 1, wp at 1.
  set (outcome := match d_transport _ _ with Ok a => _ | Raise e => _ end).
  change (add_sent _ _) with s1. cbv zeta.
  assert (∀ s', attempted (p_name rp) [uuid] (receipt_of status at_ (d_sha256 uuid) outcome) s1 s' →
    reported status cp rp co s None s') as Hrep.
  { intros s' Hs'. by apply (rep_sent status cp rp co s uuid suffix at_ outcome s1). }
  apply wp_bind. eapply wp_mono; [by apply wp_write_receipt|..]; cbn beta; [|auto|auto].
  intros _ s2 [Hsound H2].
  assert (attempted (p_name rp) [uuid] (receipt_of status at_ (d_sha256 uuid) outcome) s1 s2) as Hatt.
  { right. split; [done|]. by apply staged_published. }
  destruct (outcome.1.2) eqn:Hacc; [|apply wp_raise; auto]. apply wp_ret.
  apply (rep_sent status cp rp co s uuid suffix at_ outcome s1); [done..|exact Hatt|]. intros d [= <-]. split; [done|]. split; [done|].
  split; [by destruct H2 as (-> & _)|]. unfold outcome in Hacc.
  destruct (d_transport (request_path uuid suffix) timeout) as [a|e] eqn:Ht; [|done].
  apply evaluate_accepted in Hacc as (b & -> & Hb). eauto.
Qed.

Lemma attempted_kept final forbidden receipt s s' n c :
  attempted final forbidden receipt s s' → d_files s !! n = Some c → d_files s' !! n = Some c.
Proof.
  intros [(-> & _)|[_ [Hf _]]] Hn; [done|].
  destruct (Hf n) as [->|[[_ Hno]|(_ & Hno & _)]]; [done|congruence..].
Qed.

Lemma attempted_new final forbidden receipt s s' n c :
  attempted final forbidden receipt s s' → d_files s' !! n = Some c →
  d_files s !! n = Some c ∨ n = temporary_name
  ∨ n = final ∧ c = receipt_payload receipt ∧ sound_receipt forbidden receipt.
Proof.
  intros [(-> & _)|[Hsound [Hf _]]] Hn; [by left|].
  destruct (Hf n) as [He|[[-> _]|(-> & _ & He)]]; [left; congruence|by right; left|].
  right; right. split; [done|]. split; [congruence|done].
Qed.

End facts.
