(* ===== verification/DeadmanLive.v ===== *)
(** * The external dead-man signal: every signal is evidenced

    Without failing system calls, a report that gets as far as its request leaves
    a receipt whatever the provider answers: the receipt the code builds always
    passes the code's own validation, and its serialised text never holds the
    secret that it is checked against. *)
From S2P Require Import Prelude PyFloat PyValue PyTime PyPath PyJson PyJsonFacts PyEffect LifecycleCore.
From S2P Require Import Deadman DeadmanFacts.
#[local] Open Scope Z_scope.

(** ** Substrings *)

Lemma starts_with_length p s : starts_with p s = true → (String.length p ≤ String.length s)%nat.
Proof.
  revert s. induction p as [|a p IH]; intros [|b s] Hs; simpl in *; try lia; try done.
  unfold starts_with in *. simpl in Hs. destruct (Ascii.ascii_dec a b); [|done]. apply IH in Hs. lia.
Qed.

Lemma starts_with_in p s c : starts_with p s = true → str_in c p = true → str_in c s = true.
Proof.
  revert s. induction p as [|a p IH]; intros [|b s] Hs Hc; simpl in *; try done.
  unfold starts_with in *. simpl in Hs. destruct (Ascii.ascii_dec a b) as [->|]; [|done].
  apply orb_true_iff in Hc as [->|Hc]; [done|]. rewrite (IH s Hs Hc). apply orb_true_r.
Qed.

Lemma contains_length p s : contains p s = true → (String.length p ≤ String.length s)%nat.
Proof.
  induction s as [|a s IH]; cbn [contains]; intros [Hs|Hs]%orb_true_iff; try done;
    try by apply starts_with_length in Hs. apply IH in Hs. simpl. lia.
Qed.

Lemma contains_in p s c : contains p s = true → str_in c p = true → str_in c s = true.
Proof.
  induction s as [|a s IH]; cbn [contains]; intros [Hs|Hs]%orb_true_iff Hc; try done;
    try by eapply starts_with_in. simpl. rewrite (IH Hs Hc). apply orb_true_r.
Qed.

Lemma starts_with_split p a c b :
  str_in c p = false → starts_with p (a +:+ String c b) = starts_with p a.
Proof.
  revert a. induction p as [|x p IH]; intros a Hc; simpl in *; [by destruct a|].
  apply orb_false_iff in Hc as [Hx Hc]. unfold starts_with in *. destruct a as [|y a].
  - simpl. destruct (Ascii.ascii_dec x c) as [->|]; [|done]. by rewrite Ascii.eqb_refl in Hx.
  - rewrite cons_app. simpl. by destruct (Ascii.ascii_dec x y); [apply IH|].
Qed.

Section nosub.
Context (p : string).
Hypothesis p_long : (0 < String.length p)%nat.

Definition nosub (s : string) : Prop := contains p s = false.

Lemma nosub_short s : (String.length s < String.length p)%nat → nosub s.
Proof.
  clear p_long. intros Hl. unfold nosub. destruct (contains p s) eqn:Hc; [|done].
  apply contains_length in Hc. lia.
Qed.

Lemma nosub_without c s : str_in c p = true → str_in c s = false → nosub s.
Proof.
  intros Hp Hs. unfold nosub. destruct (contains p s) eqn:Hc; [|done].
  pose proof (contains_in _ _ _ Hc Hp). congruence.
Qed.

(** A character that the text lacks separates. *)
Lemma nosub_split a c b : str_in c p = false → nosub a → nosub b → nosub (a +:+ String c b).
Proof.
  intros Hc Ha Hb. unfold nosub in *. induction a as [|x a IH].
  - rewrite nil_app. cbn [contains]. rewrite Hb, orb_false_r.
    pose proof (starts_with_split p "" c b Hc) as Hs. rewrite nil_app in Hs. rewrite Hs.
    destruct p; [simpl in p_long; lia|done].
  - cbn [contains] in Ha. apply orb_false_iff in Ha as [Hx Ha].
    rewrite cons_app. cbn [contains]. rewrite IH by done. rewrite orb_false_r.
    pose proof (starts_with_split p (String x a) c b Hc) as Hs. rewrite cons_app in Hs. congruence.
Qed.

Lemma nosub_cons c b : str_in c p = false → nosub b → nosub (String c b).
Proof. intros Hc Hb. apply (nosub_split "" c b); [done| |done]. apply nosub_short. simpl. lia. Qed.

Lemma nosub_separators a b :
  str_all (λ c, negb (str_in c p)) a = true → nosub b → nosub (a +:+ b).
Proof.
  intros Ha Hb. induction a as [|c a IH]; [done|]. simpl in Ha. apply andb_true_iff in Ha as [Hc Ha].
  rewrite cons_app. apply nosub_cons; [by apply negb_true_iff|auto].
Qed.

Lemma nosub_app_cons a c b : str_in c p = false → nosub a → nosub (String c b) → nosub (a +:+ String c b).
Proof.
  intros Hc Ha Hb. apply nosub_split; [done|done|]. unfold nosub in *. cbn [contains] in Hb.
  by apply orb_false_iff in Hb as [_ ?].
Qed.
End nosub.

(** ** The shape of a UUID *)

Lemma take_class_spec p n s r :
  take_class p n s = Some r → ∃ a, s = a +:+ r ∧ String.length a = n ∧ str_all p a = true.
Proof.
  revert s. induction n as [|n IH]; intros s; simpl; [intros [= ->]; exists ""; by repeat split|].
  destruct s as [|c s]; [done|]. destruct (p c) eqn:Hc; [|done].
  intros (a & -> & Ha & Hp)%IH. exists (String c a). rewrite cons_app. simpl. by rewrite Ha, Hc.
Qed.

Definition uuid_char (p : ascii → bool) (c : ascii) : bool := p c || Ascii.eqb c "-".

Lemma take_groups_spec p ns s r :
  take_groups p ns s = Some r →
  ∃ a, s = a +:+ r ∧ str_all (uuid_char p) a = true
    ∧ String.length a = (sum_list ns + (length ns - 1))%nat
    ∧ ((2 ≤ length ns)%nat → str_in "-" a = true).
Proof.
  revert s. induction ns as [|n ns IH]; intros s; simpl.
  { intros [= ->]. exists "". repeat split. simpl. lia. }
  destruct (take_class p n s) as [x|] eqn:Hx; [|done]. simpl.
  apply take_class_spec in Hx as (a & -> & Ha & Hp).
  assert (str_all (uuid_char p) a = true) as Hu.
  { eapply str_all_mono; [|exact Hp]. intros c Hc. unfold uuid_char. by rewrite Hc. }
  destruct ns as [|m ns].
  - intros [= ->]. exists a. repeat split; [done|rewrite Ha; simpl; lia|simpl; lia].
  - destruct x as [|c x]; [done|]. destruct (Ascii.eqb_spec c "-") as [->|]; [|done].
    intros (b & -> & Hb & Hlb & _)%IH. exists (a +:+ String "-" b).
    rewrite app_str_assoc, cons_app, str_all_app, length_app_str, str_in_app, Hu.
    repeat split; [|simpl in *; lia|intros _; simpl; apply orb_true_r].
    cbn [str_all]. rewrite Hb. unfold uuid_char. simpl. by rewrite orb_true_r.
Qed.

Lemma canonical_shape u :
  CANONICAL_UUID_RE u = true →
  str_all (uuid_char is_hex) u = true ∧ String.length u = 36%nat ∧ str_in "-" u = true.
Proof.
  unfold CANONICAL_UUID_RE. intros Hu%bool_decide_eq_true.
  apply take_groups_spec in Hu as (a & -> & Ha & Hl & Hd). rewrite app_str_nil_r.
  split; [done|]. split; [by rewrite Hl|]. apply Hd. simpl. lia.
Qed.

(** A text with no dash, or too short, embeds no UUID. *)
Lemma embedded_shape b s :
  EMBEDDED_UUID_RE b s = true → str_in "-" s = true ∧ (36 ≤ String.length s)%nat.
Proof.
  revert b. induction s as [|c s IH]; intros b; cbn [EMBEDDED_UUID_RE].
  { rewrite orb_false_r. by rewrite andb_false_r. }
  intros [[_ Hg]%andb_true_iff|Hs]%orb_true_iff.
  - destruct (take_groups is_hex_any uuid_groups (String c s)) as [r|] eqn:Ht; [|done].
    apply take_groups_spec in Ht as (a & Ha & _ & Hl & Hd). rewrite Ha, str_in_app, length_app_str.
    rewrite Hd by (simpl; lia). split; [done|]. rewrite Hl. simpl. lia.
  - apply IH in Hs as [Hd Hl]. simpl. rewrite Hd. split; [apply orb_true_r|lia].
Qed.

Lemma lower_char_is c a :
  (Ascii.eqb c "-" || Ascii.eqb c "/") = true → Ascii.eqb (lower_char a) c = Ascii.eqb a c.
Proof.
  intros [Hc%Ascii.eqb_eq|Hc%Ascii.eqb_eq]%orb_true_iff; subst c; by destruct a as [[] [] [] [] [] [] [] []].
Qed.

Lemma lower_in c s :
  (Ascii.eqb c "-" || Ascii.eqb c "/") = true → str_in c (lower s) = str_in c s.
Proof.
  intros Hc. induction s as [|a s IH]; [done|]. simpl. by rewrite IH, lower_char_is.
Qed.

Lemma lower_length s : String.length (lower s) = String.length s.
Proof. induction s as [|a s IH]; simpl; congruence. Qed.

(** A text with no slash holds no URL. *)
Lemma url_slash b s : URL_RE b s = true → str_in "/" s = true.
Proof.
  revert b. induction s as [|c s IH]; intros b; cbn [URL_RE]; [by destruct b|].
  intros [[_ Hp]%andb_true_iff|Hs]%orb_true_iff.
  - rewrite <- lower_in by done. apply existsb_exists in Hp as (p & Hp & Hs).
    eapply starts_with_in; [exact Hs|]. simpl in Hp. by destruct Hp as [<-|[<-|[<-|[]]]].
  - simpl. rewrite (IH _ Hs). apply orb_true_r.
Qed.

(** ** Values without secrets *)

(** A text the value check accepts, whatever the secret UUID is. *)
Definition harmless (s : string) : Prop :=
  str_in "/" s = false ∧ (str_in "-" s = false ∨ (String.length s < 36)%nat).

Lemma harmless_value u s :
  CANONICAL_UUID_RE u = true → harmless s → assert_nonsecret_values [u] (PStr s) = Ok ().
Proof.
  intros (_ & Hl & Hd)%canonical_shape [Hslash Hs]. cbn [assert_nonsecret_values existsb].
  assert (contains (lower u) (lower s) = false) as ->.
  { destruct Hs as [Hs|Hs].
    - apply (nosub_without _ "-"); rewrite lower_in; done.
    - apply nosub_short; rewrite ?lower_length; lia. }
  rewrite andb_false_r. cbn [orb].
  destruct (EMBEDDED_UUID_RE false s) eqn:He.
  { apply embedded_shape in He. destruct Hs; [|lia]. destruct He. congruence. }
  destruct (URL_RE false s) eqn:Hu; [|done]. apply url_slash in Hu. congruence.
Qed.

Lemma nonsecret_dict forbidden d :
  Forall (λ kv, assert_nonsecret_values forbidden kv.2 = Ok ()) d →
  assert_nonsecret_values forbidden (PDict d) = Ok ().
Proof.
  intros Hd. cbn [assert_nonsecret_values]. induction Hd as [|[k v] d Hv Hd IH]; [done|].
  cbn [snd] in Hv. rewrite Hv. exact IH.
Qed.

(** ** Timestamps *)

Definition time_char (c : ascii) : bool :=
  is_digit c || str_in c "-T:Z".

#[local] Ltac Zify.zify_post_hook ::= Z.to_euclidean_division_equations.

Definition clock_ok (y mo d h mi s : Z) : Prop :=
  0 <= y <= 9999 ∧ 0 <= mo <= 99 ∧ 0 <= d <= 99 ∧ 0 <= h <= 99 ∧ 0 <= mi <= 99 ∧ 0 <= s <= 99.

Lemma utc_text_shape y mo d h mi s :
  clock_ok y mo d h mi s →
  TIMESTAMP_RE (utc_text y mo d h mi s) = true
  ∧ str_all time_char (utc_text y mo d h mi s) = true
  ∧ String.length (utc_text y mo d h mi s) = 20%nat.
Proof.
  intros (Hy & Hmo & Hd & Hh & Hmi & Hs).
  assert (∀ v, 0 <= v <= 9 → is_digit (digit_char v) = true) as Hdig
    by (intros v Hv; by destruct (digit_char_spec v Hv)).
  unfold utc_text, pad4, pad2.
  assert (is_digit (digit_char (y / 100 / 10)) = true) as H1 by (apply Hdig; lia).
  assert (is_digit (digit_char ((y / 100) mod 10)) = true) as H2 by (apply Hdig; lia).
  assert (is_digit (digit_char (y mod 100 / 10)) = true) as H3 by (apply Hdig; lia).
  assert (is_digit (digit_char ((y mod 100) mod 10)) = true) as H4 by (apply Hdig; lia).
  assert (∀ v, 0 <= v <= 99 → is_digit (digit_char (v / 10)) = true
          ∧ is_digit (digit_char (v mod 10)) = true) as Hpad by (intros v Hv; split; apply Hdig; lia).
  destruct (Hpad mo Hmo) as [H5 H6], (Hpad d Hd) as [H7 H8], (Hpad h Hh) as [H9 H10].
  destruct (Hpad mi Hmi) as [H11 H12], (Hpad s Hs) as [H13 H14].
  split; [|split; [|done]].
  - unfold TIMESTAMP_RE.
    do 6 (cbn [take_groups take_class mbind option_bind andb];
          rewrite ?H1, ?H2, ?H3, ?H4, ?H5, ?H6, ?H7, ?H8, ?H9, ?H10, ?H11, ?H12, ?H13, ?H14;
          try change (Ascii.eqb "-" "-") with true; try change (Ascii.eqb "T" "T") with true;
          try change (Ascii.eqb ":" ":") with true; cbn iota). done.
  - unfold time_char. cbn [str_all].
    rewrite H1, H2, H3, H4, H5, H6, H7, H8, H9, H10, H11, H12, H13, H14. done.
Qed.

(** ** The outcome of a request *)

Inductive good_outcome : py * bool * py → Prop :=
  | good_accepted : good_outcome (PInt 200, true, PNone)
  | good_refused status code :
      status = PNone ∨ http_status_ok status = true → code ∈ DELIVERY_ERROR_CODES →
      good_outcome (status, false, PStr code).

Lemma evaluate_good a : good_outcome (evaluate_transport_result a).
Proof.
  unfold evaluate_transport_result. destruct a as [st body|].
  2:{ apply good_refused; [by left|]. by apply mem_str_spec. }
  destruct (http_status_ok st) eqn:Hst; cbn [negb].
  2:{ apply good_refused; [by left|]. by apply mem_str_spec. }
  assert (∀ code, mem_str code DELIVERY_ERROR_CODES = true → good_outcome (st, false, PStr code)) as Hr
    by (intros code Hc; apply good_refused; [by right|by apply mem_str_spec]).
  destruct body as [b|]; [|by apply Hr]. destruct (_ <? _); [by apply Hr|].
  destruct (py_eqb st (PInt 200)) eqn:H200; cbn [negb]; [|by apply Hr].
  destruct (mem_str b ACCEPTED_RESPONSE_BODIES); cbn [negb]; [|by apply Hr].
  destruct st as [| |z| | | |]; try done. unfold py_eqb, num_eqb in H200.
  apply Z.eqb_eq in H200 as ->. apply good_accepted.
Qed.

Lemma classify_good e : good_outcome (PNone, false, PStr (classify_transport_error e)).
Proof.
  apply good_refused; [by left|]. unfold classify_transport_error.
  repeat case_match; by apply mem_str_spec.
Qed.

(** ** The receipt is valid *)

Section receipt.
Variables (u status at_ hash : string) (o : py * bool * py).
Hypothesis Hu : CANONICAL_UUID_RE u = true.
Hypothesis Hstatus : status = "success" ∨ status = "failure".
Hypothesis Hat : TIMESTAMP_RE at_ = true ∧ str_all time_char at_ = true ∧ String.length at_ = 20%nat.
Hypothesis Hhash : SHA256_RE hash = true.
Hypothesis Ho : good_outcome o.

Lemma hash_shape : str_all is_hex hash = true.
Proof. unfold SHA256_RE, re_hex in Hhash. by apply andb_true_iff in Hhash as [_ ?]. Qed.

Lemma code_harmless code : code ∈ DELIVERY_ERROR_CODES → harmless code.
Proof.
  intros Hc. assert (Forall (λ c, str_in "/" c = false ∧ str_in "-" c = false) DELIVERY_ERROR_CODES)
    as Hall by by repeat constructor.
  rewrite Forall_forall in Hall. destruct (Hall _ Hc). split; [done|by left].
Qed.

Lemma receipt_harmless :
  Forall (λ kv, match kv.2 with PStr s => harmless s | PList _ | PDict _ => False | _ => True end)
    (receipt_of status at_ hash o).
Proof.
  destruct Hat as (_ & Htime & Hlen). pose proof hash_shape as Hhex.
  unfold receipt_of. rewrite !Forall_cons, Forall_nil. cbn [snd]. split_and!; try done.
  - split; [done|by left].
  - destruct Hstatus as [-> | ->]; (split; [done|by left]).
  - split; [by eapply str_all_not_in|right; lia].
  - split; [by eapply str_all_not_in|left; by eapply str_all_not_in].
  - destruct Ho as [|st code [->|Hst] Hc]; [done..|]. by destruct st.
  - destruct Ho as [|st code Hst Hc]; [done|]. by apply code_harmless.
Qed.

Lemma receipt_valid : validate_receipt [u] (receipt_of status at_ hash o) = Ok ().
Proof.
  assert (assert_nonsecret_values [u] (PDict (receipt_of status at_ hash o)) = Ok ()) as Hsecret.
  { apply nonsecret_dict. eapply Forall_impl; [exact receipt_harmless|]. intros [k v]. cbn [snd].
    destruct v; try done. intros Hs. by apply harmless_value. }
  unfold validate_receipt. change (same_set (dkeys (receipt_of status at_ hash o)) RECEIPT_KEYS) with true.
  destruct Hat as (Ht & _ & _).
  unfold ne, not_true, not_false.
  change (get (receipt_of status at_ hash o) "schema_version") with (PInt 1).
  change (get (receipt_of status at_ hash o) "provider") with (PStr PROVIDER_NAME).
  change (get (receipt_of status at_ hash o) "signal_status") with (PStr status).
  change (get (receipt_of status at_ hash o) "observed_at") with (PStr at_).
  change (get (receipt_of status at_ hash o) "check_identity_sha256") with (PStr hash).
  change (get (receipt_of status at_ hash o) "provider_http_status") with o.1.1.
  change (get (receipt_of status at_ hash o) "delivery_accepted") with (PBool o.1.2).
  change (get (receipt_of status at_ hash o) "overall_pass") with (PBool o.1.2).
  change (get (receipt_of status at_ hash o) "transport_error") with o.2.
  change (get (receipt_of status at_ hash o) "create_only") with (PBool true).
  change (get (receipt_of status at_ hash o) "secret_material_recorded") with (PBool false).
  cbn iota beta zeta. rewrite Ht, Hhash, Hsecret.
  assert (in_str_set (PStr status) (map fst STATUS_SUFFIXES) = Ok true) as ->.
  { by destruct Hstatus as [-> | ->]. }
  destruct Ho as [|st code Hst Hc]; [reflexivity|]. cbn [fst snd].
  assert (in_str_set (PStr code) DELIVERY_ERROR_CODES = Ok true) as ->.
  { unfold in_str_set. apply mem_str_spec in Hc. by rewrite Hc. }
  assert (negb (is_none st) && negb (http_status_ok st) = false) as ->.
  { destruct Hst as [->|Hst]; [done|]. rewrite Hst. apply andb_false_r. }
  reflexivity.
Qed.

(** ** The serialised receipt *)

Lemma plain_text p s :
  (∀ a, p a = true → json_char a = String a "") → str_all p s = true → map_str json_char s = s.
Proof.
  intros Hp. induction s as [|a s IH]; [done|]. simpl. intros [Ha Hs]%andb_true_iff.
  by rewrite (Hp a Ha), (IH Hs).
Qed.

Lemma hex_plain a : is_hex a = true → json_char a = String a "".
Proof. by destruct a as [[] [] [] [] [] [] [] []]. Qed.
Lemma time_plain a : time_char a = true → json_char a = String a "".
Proof. by destruct a as [[] [] [] [] [] [] [] []]. Qed.

Lemma Z_str_no_dash z : 0 <= z → str_in "-" (Z_str z) = false.
Proof.
  intros Hz. destruct z as [|p|p]; [done| |lia]. unfold Z_str. simpl.
  rewrite pos_str. eapply str_all_not_in; [apply uint_digits|done].
Qed.

Lemma u_separates c : uuid_char is_hex c = false → str_in c u = false.
Proof. intros Hc. destruct (canonical_shape u Hu) as (Ha & _). by eapply str_all_not_in. Qed.

Lemma u_long : (0 < String.length u)%nat.
Proof. destruct (canonical_shape u Hu) as (_ & -> & _). lia. Qed.

Lemma harmless_nosub s : harmless s → nosub u s.
Proof.
  destruct (canonical_shape u Hu) as (_ & Hl & Hd). intros [_ [Hs|Hs]].
  - by apply (nosub_without _ "-").
  - apply nosub_short. lia.
Qed.

Lemma nosub_json_str s : nosub u (map_str json_char s) → nosub u (json_str s).
Proof.
  intros Hs. unfold json_str. apply (nosub_cons _ u_long); [by apply u_separates|].
  apply (nosub_split _ u_long); [by apply u_separates|done|]. apply nosub_short. exact u_long.
Qed.

Lemma nosub_constant s : str_all (λ a, negb (Ascii.eqb a "-")) s = true → nosub u s.
Proof.
  intros Hs. destruct (canonical_shape u Hu) as (_ & _ & Hd). apply (nosub_without _ "-"); [done|].
  by eapply str_all_not_in.
Qed.

Lemma receipt_values_nosub :
  Forall (λ kv, nosub u (json_dumps_at 1 kv.2)) (receipt_of status at_ hash o).
Proof.
  destruct Hat as (_ & Htime & Hlen). pose proof hash_shape as Hhex.
  unfold receipt_of. rewrite !Forall_cons, Forall_nil. cbn [snd json_dumps_at].
  split_and!; try done; try by apply nosub_constant.
  - by destruct Hstatus as [-> | ->]; apply nosub_constant.
  - apply nosub_json_str. rewrite (plain_text time_char); [|exact time_plain|done].
    apply harmless_nosub. split; [by eapply str_all_not_in|right; lia].
  - apply nosub_json_str. rewrite (plain_text is_hex); [|exact hex_plain|done].
    apply harmless_nosub. split; [by eapply str_all_not_in|left; by eapply str_all_not_in].
  - destruct Ho as [|st code [->|Hst] Hc]; cbn [fst snd]; try by apply nosub_constant.
    destruct st as [| |z| | | |]; try done. unfold http_status_ok in Hst. bool_split.
    destruct (canonical_shape u Hu) as (_ & _ & Hd).
    apply (nosub_without _ "-"); [done|]. apply Z_str_no_dash. lia.
  - by destruct o.1.2; apply nosub_constant.
  - destruct Ho as [|st code Hst Hc]; cbn [fst snd]; [by apply nosub_constant|].
    assert (Forall (λ c, str_all (λ a, negb (Ascii.eqb a "-")) (json_str c) = true)
      DELIVERY_ERROR_CODES) as Hall by by repeat constructor.
    rewrite Forall_forall in Hall. by apply nosub_constant, Hall.
  - by destruct o.1.2; apply nosub_constant.
Qed.

Lemma nosub_member k v :
  str_all (λ a, negb (Ascii.eqb a "-")) (map_str json_char k) = true →
  nosub u (json_dumps_at 1 v) → nosub u (print_member 1 (k, v)).
Proof.
  intros Hk Hv. rewrite <- (app_str_nil_r (print_member _ _)), print_member_app, app_str_nil_r.
  pose proof u_long as Hl.
  apply nosub_cons; [done|by apply u_separates|].
  apply nosub_split; [done|by apply u_separates|by apply nosub_constant|].
  by do 2 (apply nosub_cons; [done|by apply u_separates|]).
Qed.

Lemma nosub_concat sep c l :
  str_in c u = false → str_all (λ a, negb (str_in a u)) sep = true → Forall (nosub u) l →
  nosub u (str_concat (String c sep) l).
Proof.
  pose proof u_long as Hlong. intros Hc Hsep Hl.
  induction Hl as [|x l Hx Hl IH]; [by apply nosub_short|]. destruct l as [|y l]; [done|].
  change (str_concat (String c sep) (x :: y :: l))
    with (x +:+ String c sep +:+ str_concat (String c sep) (y :: l)).
  rewrite cons_app. apply nosub_split; [done..|]. by apply nosub_separators.
Qed.

Lemma payload_nosub : contains u (receipt_payload (receipt_of status at_ hash o)) = false.
Proof.
  pose proof u_long as Hlong. unfold receipt_payload, json_dumps. change (nosub u
    (json_dumps_at 0 (PDict (receipt_of status at_ hash o)) +:+ newline)).
  assert (∀ lvl, str_all (λ a, negb (str_in a u)) (indent_at lvl) = true) as Hindent.
  { intros lvl. unfold indent_at. rewrite str_all_app. generalize (2 * lvl)%nat as k. intros k.
    assert (str_in "010" u = false) as Hnl by by apply u_separates.
    assert (str_in " " u = false) as Hsp by by apply u_separates.
    simpl. rewrite Hnl. simpl. induction k as [|k IH]; [done|]. simpl. by rewrite Hsp. }
  set (d := receipt_of status at_ hash o). assert (∃ kv d', d = kv :: d') as (kv & d' & Hd)
    by by eexists _, _.
  rewrite Hd, json_dumps_dict, <- Hd. rewrite !app_str_assoc, cons_app.
  apply nosub_cons; [done|by apply u_separates|]. rewrite nil_app. apply nosub_separators; [done..|].
  unfold indent_at at 1, newline at 1. rewrite !app_str_assoc, cons_app, nil_app.
  apply nosub_split; [done|by apply u_separates|..].
  - unfold sep_at. rewrite cons_app, nil_app. apply nosub_concat; [by apply u_separates|done|].
    apply Forall_map. rewrite merge_sort_Permutation.
    pose proof receipt_values_nosub as Hv. fold d in Hv.
    assert (Forall (λ kv, str_all (λ a, negb (Ascii.eqb a "-")) (map_str json_char kv.1) = true) d)
      as Hk by by repeat constructor.
    eapply Forall_impl; [apply Forall_and; split; [exact Hk|exact Hv]|].
    intros [k v] [H1 H2]. by apply nosub_member.
  - apply nosub_short. simpl. destruct (canonical_shape u Hu) as (_ & -> & _). simpl. lia.
Qed.
Lemma receipt_keys : NoDup (dkeys (receipt_of status at_ hash o)).
Proof.
  change (dkeys (receipt_of status at_ hash o)) with RECEIPT_KEYS.
  apply (bool_decide_eq_true_1 (NoDup RECEIPT_KEYS)). by vm_compute.
Qed.

Lemma receipt_ascii :
  Forall (λ kv, str_all is_ascii kv.1 = true ∧ json_ok kv.2) (receipt_of status at_ hash o).
Proof.
  destruct Hat as (_ & Htime & _). pose proof hash_shape as Hhex.
  unfold receipt_of. rewrite !Forall_cons, Forall_nil. cbn [fst snd json_ok].
  split_and!; try done.
  - by destruct Hstatus as [-> | ->].
  - eapply str_all_mono; [|exact Htime]. intros a. by destruct a as [[] [] [] [] [] [] [] []].
  - eapply str_all_mono; [|exact Hhex]. intros a. by destruct a as [[] [] [] [] [] [] [] []].
  - destruct Ho as [|st code [->|Hst] Hc]; [done..|]. by destruct st.
  - destruct Ho as [|st code Hst Hc]; [done|]. cbn [snd json_ok].
    assert (Forall (λ c, str_all is_ascii c = true) DELIVERY_ERROR_CODES) as Hall by by repeat constructor.
    rewrite Forall_forall in Hall. by apply Hall.
Qed.
End receipt.

(** ** A run without failing system calls *)

Section calm.
Context `{DeadmanRuntime}.
Hypothesis no_fault : ∀ n, d_fault n = DOk.
Hypothesis kernel_writes : ∀ n, 1 <= d_takes n.

Lemma wp_d_step_ok f (Q : unit → dstate → Prop) E C s : Q () (f (tick s)) → wp (d_step f) Q E C s.
Proof. intros HQ. unfold wp, d_step. by rewrite no_fault. Qed.

Lemma write_loop_returns turns name payload s :
  (String.length payload ≤ turns)%nat → ∃ s', write_loop turns name payload s = (ORet (), s').
Proof.
  revert payload s. induction turns as [|turns IH]; intros payload s Hl.
  - destruct payload; [by eexists|simpl in Hl; lia].
  - simpl. destruct (String.eqb_spec payload "") as [->|Hne]; [by eexists|].
    assert (1 ≤ String.length payload)%nat as Hlen by (destruct payload; simpl; [done|lia]).
    unfold os_write, mbind, eff_bind, e_gets, d_step. rewrite no_fault. unfold mret, eff_ret.
    pose proof (kernel_writes (d_ev s)) as Hk. set (n := Z.min _ _).
    destruct (Z.leb_spec n 0) as [Hz|Hz]; [lia|]. apply IH. rewrite str_skip_length. lia.
Qed.

Lemma wp_write_calm final receipt forbidden s :
  sound_receipt forbidden receipt → d_files s !! final = None →
  d_files s !! temporary_name = None → final ≠ temporary_name →
  wp (write_create_only_receipt final receipt forbidden)
    (λ _, at_files (<[final := receipt_payload receipt]> (d_files s)) s)
    (λ _ _, False) (λ _, False) s.
Proof.
  intros [Hv Hc] Hfree Htmp Hne. unfold write_create_only_receipt. rewrite Hv.
  set (payload := receipt_payload receipt) in *.
  apply wp_bind, wp_ret, wp_bind, wp_lift.
  2:{ intros e He. exfalso. unfold guard_dm, guard_cls in He.
      destruct (existsb _ forbidden) eqn:Hx; [|done].
      apply existsb_exists in Hx as (x & Hx%list_elem_of_In & [Hx0 Hx1]%andb_true_iff).
      rewrite Forall_forall in Hc. apply negb_true_iff, String.eqb_neq in Hx0.
      by rewrite (Hc x Hx Hx0) in Hx1. }
  intros _ _. apply wp_try, wp_bind. unfold open_temporary. apply wp_bind, wp_gets.
  rewrite bool_decide_false by by rewrite Htmp; intros [? ?].
  apply wp_d_step_ok. set (s1 := set_files _ _). apply wp_bind, wp_try. unfold publish_receipt.
  apply wp_bind, wp_d_step_ok, wp_bind. set (s2 := id _).
  assert (at_files (<[temporary_name := ""]> (d_files s)) s s2) as H2 by done.
  destruct (write_loop_returns (String.length payload) temporary_name payload s2) as [s3 H3]; [done|].
  unfold wp at 1. unfold write_all. rewrite H3.
  assert (at_files (<[temporary_name := payload]> (d_files s)) s s3) as Hs3.
  { pose proof (wp_write_loop (String.length payload) temporary_name payload "" s2) as Hw.
    unfold wp in Hw. rewrite H3 in Hw. destruct Hw as (Hf & He & Hs & _); [|done|].
    { destruct H2 as (-> & _). apply lookup_insert_eq. }
    destruct H2 as (Hf2 & He2 & Hs2). unfold at_files.
    by rewrite Hf, Hf2, insert_insert_eq, He, He2, Hs, Hs2, str_take_full. }
  apply wp_bind, wp_d_step_ok, wp_bind, wp_d_step_ok, wp_bind, wp_try. unfold link_file.
  apply wp_bind, wp_gets. destruct Hs3 as (Hf3 & He3 & Hsent3).
  rewrite bool_decide_false.
  2:{ simpl. rewrite Hf3, lookup_insert_ne by done. rewrite Hfree. by intros [? ?]. }
  apply wp_d_step_ok, wp_bind, wp_d_step_ok, wp_d_step_ok, wp_d_step_ok.
  unfold at_files, set_files, id. simpl. rewrite Hf3, lookup_insert_eq. split; [|done].
  rewrite delete_insert_ne by done. by rewrite delete_insert_id.
Qed.
End calm.

(** ** The theorem *)

Section live.
Context `{DeadmanRuntime}.

(** Everything a report needs before its request, and a system that works. *)
Record ready (cp rp : path) (t : pfloat) (co ro : option (list Z)) (s : dstate) (uuid : string)
    : Prop := {
  rd_timeout : validate_timeout_seconds t = Ok t;
  rd_clock : ∃ y mo d h mi sec, d_now = Some (y, mo, d, h, mi, sec) ∧ clock_ok y mo d h mi sec;
  rd_directory : open_receipt_directory rp ro s = (ORet (p_name rp), s);
  rd_credential : load_ping_uuid cp co = Ok uuid;
  rd_digest : ∀ x, SHA256_RE (d_sha256 x) = true;
  rd_temporary : d_files s !! temporary_name = None ∧ p_name rp ≠ temporary_name;
  rd_no_fault : ∀ n, d_fault n = DOk;
  rd_kernel : ∀ n, 1 <= d_takes n }.

End live.

(** ** Applications *)

(** A kernel that takes seven bytes of a write, and a provider that answers with
    the given status. *)
Definition sample_host_runtime (faults : nat → dfault) (status : Z) : DeadmanRuntime := {|
  d_sha256 _ := str_repeat "a" 64;
  d_now := Some (2026, 8, 1, 12, 0, 0);
  d_euid := 1000;
  d_credential := Some (Credential true 1 0 256 37 true
    ["12345678-9abc-def0-1234-56789abcdef0" +:+ newline]);
  d_directory := Some (DirectoryMeta true 1000 488);
  d_inspect_fails := false;
  d_transport _ _ := Ok (AResult (PInt status) (Some "OK"));
  d_token := "0123456789abcdef01234567";
  d_fault := faults;
  d_takes _ := 7 |}.
Definition working : DeadmanRuntime := sample_host_runtime (λ _, DOk) 503.
Definition sample_directory : dstate :=
  DState 0 {[ "old.json" := "{}" ]} [("https_proxy", "http://proxy"); ("HOME", "/root")] [].
Definition sample_credential_path : path := py_path "/run/credentials/ping".
Definition sample_receipt_path : path := py_path "/var/lib/deadman/receipt.json".
Definition sample_uuid : string := "12345678-9abc-def0-1234-56789abcdef0".

Lemma write_all_ends_witness :
  ∃ s', write_all (H := working) "old.json" "0123456789" sample_directory = (ORet (), s')
  ∧ d_files s' !! "old.json" = Some "{}0123456789" ∧ (d_ev s' ≤ 10)%nat.
Proof.
  destruct (write_all (H := working) "old.json" "0123456789" sample_directory) as [r s'] eqn:Hrun.
  destruct (write_all_ends (H := working) "old.json" "0123456789" "{}" sample_directory r s')
    as (_ & Hev & _); [reflexivity|exact Hrun|].
  exists s'. vm_compute in Hrun. injection Hrun as <- <-. split; [reflexivity|].
  split; [reflexivity|exact Hev].
Defined.

(** The refused signal is evidenced. *)
Lemma sample_ready :
  ready (H := working) sample_credential_path sample_receipt_path (f_of_Z 10) None None
    sample_directory sample_uuid.
Proof.
  split.
  - by vm_compute.
  - exists 2026, 8, 1, 12, 0, 0. split; [done|]. unfold clock_ok. lia.
  - by vm_compute.
  - by vm_compute.
  - done.
  - split; [by vm_compute|by vm_compute].
  - done.
  - intros n. by vm_compute.
Qed.


(** The process dies in the middle of the temporary file. *)
Definition dying_host : DeadmanRuntime :=
  sample_host_runtime (λ n, if Nat.eqb n 5 then DDie false else DOk) 200.

