(* ===== verification/PyUtf8.v ===== *)
(** * UTF-8

    A Python text is represented by its UTF-8 bytes.  [utf8_head] recognises the
    first character of a byte string by the table of well-formed sequences of the
    Unicode standard; [decode_strict] and [decode_replace] are
    [bytes.decode("utf-8")] with [errors="strict"] and [errors="replace"], which
    differ in what they do with a maximal ill-formed part. *)
From S2P Require Import Prelude PyFloat.
#[local] Open Scope Z_scope.

Definition byte_value (a : ascii) : Z := Z.of_N (N_of_ascii a).
Definition in_range (r : Z * Z) (a : ascii) : bool :=
  (r.1 <=? byte_value a) && (byte_value a <=? r.2).

(** The ranges of the bytes that follow a first byte; [None] when no character
    starts with it. *)
Definition utf8_follow (a : ascii) : option (list (Z * Z)) :=
  let b := byte_value a in
  let cont := (128, 191) in
  if b <? 128 then Some []
  else if b <? 194 then None
  else if b <? 224 then Some [cont]
  else if b =? 224 then Some [(160, 191); cont]
  else if b =? 237 then Some [(128, 159); cont]
  else if b <? 240 then Some [cont; cont]
  else if b =? 240 then Some [(144, 191); cont; cont]
  else if b <? 244 then Some [cont; cont; cont]
  else if b =? 244 then Some [(128, 143); cont; cont]
  else None.

(** How many of the ranges the next bytes match. *)
Fixpoint follow_match (rs : list (Z * Z)) (s : string) : nat :=
  match rs, s with
  | r :: rs, String a s => if in_range r a then S (follow_match rs s) else O
  | _, _ => O
  end.

Inductive utf8_reason := InvalidStart | InvalidContinuation | UnexpectedEnd.

(** The first character: its length, or the length of the ill-formed part and
    why it is one. *)
Definition utf8_head (a : ascii) (s : string) : nat * option utf8_reason :=
  match utf8_follow a with
  | None => (1%nat, Some InvalidStart)
  | Some rs =>
      let n := follow_match rs s in
      if (n =? length rs)%nat then (S n, None)
      else if (n =? String.length s)%nat then (S n, Some UnexpectedEnd)
      else (S n, Some InvalidContinuation)
  end.

(** U+FFFD. *)
Definition replacement : string := String "239" (String "191" (String "189" "")).

Definition reason_text (r : utf8_reason) : string :=
  match r with
  | InvalidStart => "invalid start byte"
  | InvalidContinuation => "invalid continuation byte"
  | UnexpectedEnd => "unexpected end of data"
  end.
(** [f"{b:02x}"] of a byte. *)
Definition hex_char (n : N) : ascii :=
  ascii_of_N (if (n <? 10)%N then 48 + n else 87 + n)%N.
Definition hex_byte (b : Z) : string :=
  String (hex_char (Z.to_N (b / 16))) (String (hex_char (Z.to_N (b mod 16))) "").
Definition utf8_error_text (pos : nat) (a : ascii) (k : nat) (r : utf8_reason) : string :=
  "'utf-8' codec can't decode "
  +:+ (if (k =? 1)%nat then
         "byte 0x" +:+ hex_byte (byte_value a) +:+ " in position " +:+ Z_str (Z.of_nat pos)
       else "bytes in position " +:+ Z_str (Z.of_nat pos) +:+ "-" +:+ Z_str (Z.of_nat (pos + k - 1)))
  +:+ ": " +:+ reason_text r.

(** Both decoders walk over the characters; every round takes a byte off, so the
    length is fuel enough. *)
Fixpoint decode_strict_go (fuel pos : nat) (s : string) : res unit :=
  match fuel, s with
  | S fuel, String a r =>
      let '(k, bad) := utf8_head a r in
      match bad with
      | None => decode_strict_go fuel (pos + k) (str_skip k s)
      | Some why => Raise (Exn CUnicodeDecodeError (utf8_error_text pos a k why))
      end
  | _, _ => Ok ()
  end.
Definition decode_strict (s : string) : res string :=
  decode_strict_go (String.length s) 0 s;; Ok s.

Fixpoint decode_replace_go (fuel : nat) (s : string) : string :=
  match fuel, s with
  | S fuel, String a r =>
      let '(k, bad) := utf8_head a r in
      (match bad with None => str_take k s | Some _ => replacement end)
      +:+ decode_replace_go fuel (str_skip k s)
  | _, _ => ""
  end.
Definition decode_replace (s : string) : string := decode_replace_go (String.length s) s.

(** [s[:n]] of a text: [n] characters, whose bytes after the first are those
    from 128 to 191. *)
Fixpoint text_take (n : nat) (s : string) : string :=
  match s with
  | EmptyString => ""
  | String a r =>
      if in_range (128, 191) a then String a (text_take n r)
      else match n with O => "" | S n => String a (text_take n r) end
  end.

(** ** A text is what decodes to itself *)

Definition is_text (s : string) : Prop := decode_strict s = Ok s.
#[export] Instance is_text_dec s : Decision (is_text s).
Proof.
  unfold is_text. destruct (decode_strict s) as [t|e]; [|by right].
  destruct (decide (t = s)) as [->|Ht]; [by left|right; congruence].
Defined.

(** Well-formed sequences of characters. *)
Inductive chars : string → Prop :=
  | chars_nil : chars ""
  | chars_cons a r k :
      utf8_head a r = (k, None) → chars (str_skip k (String a r)) → chars (String a r).

Lemma utf8_head_pos a r k b : utf8_head a r = (k, b) → (0 < k)%nat.
Proof. unfold utf8_head. destruct (utf8_follow a); repeat case_match; intros; simplify_eq; lia. Qed.

Lemma skip_shorter k a r :
  (0 < k)%nat → (String.length (str_skip k (String a r)) ≤ String.length r)%nat.
Proof. intros Hk. rewrite str_skip_length. simpl. lia. Qed.

Lemma strict_chars fuel pos s :
  (String.length s ≤ fuel)%nat → (decode_strict_go fuel pos s = Ok () ↔ chars s).
Proof.
  revert pos s. induction fuel as [|fuel IH]; intros pos [|a r] Hf.
  1, 3: split; [constructor|done].
  1: simpl in Hf; lia.
  cbn [decode_strict_go]. destruct (utf8_head a r) as [k [why|]] eqn:Hk.
  - split; [done|]. inversion 1; congruence.
  - pose proof (skip_shorter k a r (utf8_head_pos _ _ _ _ Hk)). cbn [String.length] in Hf.
    rewrite IH by lia. split; [by econstructor|]. inversion 1; congruence.
Qed.

Lemma is_text_chars s : is_text s ↔ chars s.
Proof.
  unfold is_text, decode_strict. rewrite <- (strict_chars (String.length s) 0 s) by done.
  destruct (decode_strict_go _ _ _) as [[]|e]; [done|]. split; by intros [=].
Qed.

(** A text decodes to itself whatever the error handler. *)
Lemma replace_chars fuel s :
  chars s → (String.length s ≤ fuel)%nat → decode_replace_go fuel s = s.
Proof.
  intros Hs. revert fuel. induction Hs as [|a r k Hk Hs IH]; intros fuel Hf; [by destruct fuel|].
  destruct fuel as [|fuel]; [simpl in Hf; lia|]. cbn [decode_replace_go]. rewrite Hk, IH.
  - apply str_take_skip.
  - pose proof (skip_shorter k a r (utf8_head_pos _ _ _ _ Hk)). simpl in Hf. lia.
Qed.
Lemma decode_replace_text s : is_text s → decode_replace s = s.
Proof. intros Hs%is_text_chars. by apply replace_chars. Qed.

(** ** What a decoder returns is a text *)

Lemma follow_match_app rs s t :
  follow_match rs s = length rs → follow_match rs (str_take (length rs) s +:+ t) = length rs.
Proof.
  revert s. induction rs as [|r rs IH]; intros [|a s]; simpl; try done.
  destruct (in_range r a) eqn:Hr; [|done].
  intros [= Hm]. by rewrite IH.
Qed.

Lemma utf8_head_app a r k t :
  utf8_head a r = (k, None) →
  ∃ c, str_take k (String a r) = String a c ∧ String.length c = (k - 1)%nat ∧
       utf8_head a (c +:+ t) = (k, None).
Proof.
  unfold utf8_head. destruct (utf8_follow a) as [rs|]; [|done].
  destruct (Nat.eqb_spec (follow_match rs r) (length rs)) as [Hm|Hm].
  - intros [= <-]. rewrite Hm. exists (str_take (length rs) r). split; [done|].
    assert (length rs ≤ String.length r)%nat as Hlen.
    { rewrite <- Hm. clear. revert r. induction rs as [|x rs IH]; intros [|b r]; simpl; try lia.
      destruct (in_range x b); [|lia]. specialize (IH r). lia. }
    rewrite str_take_length. split; [lia|]. rewrite follow_match_app by done.
    by rewrite Nat.eqb_refl.
  - destruct (_ =? _)%nat; done.
Qed.

Lemma chars_char a r k t :
  utf8_head a r = (k, None) → chars t → chars (str_take k (String a r) +:+ t).
Proof.
  intros Hk Ht. pose proof (utf8_head_pos _ _ _ _ Hk).
  destruct (utf8_head_app a r k t Hk) as (c & -> & Hc & Hh). rewrite cons_app.
  econstructor; [exact Hh|]. destruct k as [|k]; [lia|]. simpl.
  replace k with (String.length c) by lia. by rewrite str_skip_app.
Qed.

Lemma chars_replacement t : chars t → chars (replacement +:+ t).
Proof. intros Ht. unfold replacement. rewrite !cons_app. by econstructor. Qed.

Lemma decode_replace_is_text s : is_text (decode_replace s).
Proof.
  apply is_text_chars. unfold decode_replace. generalize (String.length s) as fuel. intros fuel.
  revert s. induction fuel as [|fuel IH]; intros [|a r]; [constructor..|].
  cbn [decode_replace_go]. destruct (utf8_head a r) as [k [why|]] eqn:Hk.
  - by apply chars_replacement.
  - by apply chars_char.
Qed.

Lemma decode_strict_Ok s t : decode_strict s = Ok t → t = s ∧ is_text s.
Proof.
  intros Hd. assert (t = s) as ->; [|done].
  unfold decode_strict in Hd. destruct (decode_strict_go _ _ _); by inversion Hd.
Qed.

Lemma decode_strict_raises s e : decode_strict s = Raise e → exn_cls e = CUnicodeDecodeError.
Proof.
  unfold decode_strict. generalize 0%nat as pos. generalize (String.length s) at 1 as fuel.
  intros fuel pos He. assert (∃ s', decode_strict_go fuel pos s' = Raise e) as [s' H'].
  { exists s. destruct (decode_strict_go fuel pos s); by inversion He. }
  clear He. revert pos s' H'. induction fuel as [|fuel IH]; intros pos [|a r]; try done.
  cbn [decode_strict_go]. destruct (utf8_head a r) as [k [why|]]; [by intros [= <-]|apply IH].
Qed.

Lemma ascii_text s : str_all (λ a, (N_of_ascii a <? 128)%N) s = true → is_text s.
Proof.
  intros Hs. apply is_text_chars. induction s as [|a s IH]; [constructor|].
  simpl in Hs. apply andb_true_iff in Hs as [Ha Hs]. apply (chars_cons a s 1); [|by apply IH].
  unfold utf8_head, utf8_follow, byte_value. apply N.ltb_lt in Ha.
  by rewrite (proj2 (Z.ltb_lt _ _)) by lia.
Qed.
