(* ===== verification/PerfStatistics.v ===== *)
(** * Statistics of the measurements

    Models the functions of [src/scripts/lib/perf_statistics.py] that the
    business scenarios and the external canary use: the nearest-rank and the
    interpolated percentile and the distribution of a metric.  The measured
    values are not NaN. *)
From S2P Require Import Prelude PyFloat.
#[local] Open Scope Z_scope.

(** [sorted(values)]: stable, and the values are not NaN. *)
Fixpoint insert_float (x : pfloat) (l : list pfloat) : list pfloat :=
  match l with
  | [] => [x]
  | y :: r => if fltb x y then x :: y :: r else y :: insert_float x r
  end.
Definition sorted_floats (l : list pfloat) : list pfloat :=
  fold_left (λ acc x, insert_float x acc) l [].

(** [math.ceil(x)] of a finite float. *)
Definition f_ceil (x : pfloat) : Z :=
  match x with
  | SpecFloat.S754_finite s m e =>
      let '(n, d) := f_frac m e in if s then - (n / d) else - ((- n) / d)
  | _ => 0
  end.

Definition py_index {A} (l : list A) (i : Z) : res A :=
  match l !! Z.to_nat i with
  | Some x => Ok x
  | None => Raise (Exn CIndexError "list index out of range")
  end.

Definition latency_percentile (values : list pfloat) (percentile : pfloat) : res (option pfloat) :=
  match values with
  | [] => Ok None
  | _ =>
      let ordered := sorted_floats values in
      let index := Z.max 0 (f_ceil (fmul percentile (f_of_Z (Z.of_nat (length ordered)))) - 1) in
      x ← py_index ordered index;
      Ok (Some (f_round x 3))
  end.

(** [math.floor(x)] of a finite float. *)
Definition f_floor (x : pfloat) : Z :=
  match x with
  | SpecFloat.S754_finite s m e =>
      let '(n, d) := f_frac m e in if s then (- n) / d else n / d
  | _ => 0
  end.

Definition interpolated_percentile (values : list pfloat) (percentile : pfloat)
    : res (option pfloat) :=
  match values with
  | [] => Ok None
  | _ =>
      guard_cls CValueError (negb (fleb f_zero percentile && fleb percentile (f_of_Z 1)))
        "percentile must be between 0 and 1";;
      let ordered := sorted_floats values in
      let position := fmul (f_of_Z (Z.of_nat (length ordered) - 1)) percentile in
      let lower := f_floor position in
      let upper := f_ceil position in
      a ← py_index ordered lower;
      b ← py_index ordered upper;
      let result := fadd a (fmul (fsub b a) (fsub position (f_of_Z lower))) in
      Ok (Some (f_round result 3))
  end.

(** [statistics.median]. *)
Definition median (values : list pfloat) : res pfloat :=
  let data := sorted_floats values in
  let n := Z.of_nat (length data) in
  if n mod 2 =? 1 then py_index data (n / 2)
  else
    a ← py_index data (n / 2 - 1);
    b ← py_index data (n / 2);
    Ok (fdiv (fadd a b) (f_of_Z 2)).

(** [min(values)] and [max(values)] of [x :: values]: the first of equal ones. *)
Definition f_min (x : pfloat) (l : list pfloat) : pfloat :=
  fold_left (λ m y, if fltb y m then y else m) l x.
Definition f_max (x : pfloat) (l : list pfloat) : pfloat :=
  fold_left (λ m y, if fltb m y then y else m) l x.

Record metric := Metric { m_min : option pfloat; m_median : option pfloat; m_max : option pfloat }.
Definition metric_distribution (values : list pfloat) : res metric :=
  match values with
  | [] => Ok (Metric None None None)
  | x :: r =>
      mid ← median values;
      Ok (Metric (Some (f_round (f_min x r) 3)) (Some (f_round mid 3)) (Some (f_round (f_max x r) 3)))
  end.

Definition f_half : pfloat := f_of_dec false 50 (-2).
Definition f_p99 : pfloat := f_of_dec false 99 (-2).
