(* ===== verification/Wire.v ===== *)
(** * The gateway's business protocol: the measuring client

    Models [src/scripts/lib/perf_business_protocol.py] and [recv_exact] of
    [src/scripts/lib/perf_process_runtime.py]: the packets, the request and
    response exchange of [BusinessOperationClient], the leaderboard worker and
    the matchmaking cohort with its polling.

    A connection is what the peer will still deliver, cut into the pieces that
    single [recv] calls return, and what was sent.  The clocks, the failures of
    [sendall] and of connecting, and zlib are given by the runtime; a timeout of
    a blocked [recv] is a delivery that fails with [TimeoutError], which is also
    what happens when nothing more is delivered.  Texts are their UTF-8 bytes
    (no lone surrogates); timeouts fit the platform's time type.  The texts of
    [struct.error] and of the JSON parser are not modelled. *)
From S2P Require Import Prelude PyFloat PyValue PyJson PyEffect PyUtf8.
#[local] Open Scope Z_scope.

(** ** The wire *)

Inductive arrival :=
  | Data (first : ascii) (more : string)
  | Eof
  | Fault (e : exn).

Class WireRuntime := {
  wt_monotonic : nat → pfloat;
  wt_perf_counter : nat → pfloat;
  wt_monotonic_ns : nat → Z;
  wt_connect : nat → res (list arrival);
  (** [sendall] fails after so many bytes. *)
  wt_send : nat → option (nat * exn);
  zlib_decompress : string → string + string;
  wt_json_error : string → string
}.

(** A connected socket with the client object that owns it. *)
Record wire := Wire {
  w_tick : nat;
  w_in : list arrival;
  w_out : string;
  w_closed : bool;
  w_timeout : pfloat;
  timeout_seconds : pfloat;
  next_request_id : Z
}.

Definition WM := eff wire.

Definition with_in (l : list arrival) (w : wire) : wire :=
  Wire (w_tick w) l (w_out w) (w_closed w) (w_timeout w) (timeout_seconds w) (next_request_id w).
Definition with_out (s : string) (w : wire) : wire :=
  Wire (w_tick w) (w_in w) s (w_closed w) (w_timeout w) (timeout_seconds w) (next_request_id w).
Definition with_tick (t : nat) (w : wire) : wire :=
  Wire t (w_in w) (w_out w) (w_closed w) (w_timeout w) (timeout_seconds w) (next_request_id w).
Definition with_timeout (t : pfloat) (w : wire) : wire :=
  Wire (w_tick w) (w_in w) (w_out w) (w_closed w) t (timeout_seconds w) (next_request_id w).
Definition with_next_id (n : Z) (w : wire) : wire :=
  Wire (w_tick w) (w_in w) (w_out w) (w_closed w) (w_timeout w) (timeout_seconds w) n.
Definition with_closed (w : wire) : wire :=
  Wire (w_tick w) (w_in w) (w_out w) true (w_timeout w) (timeout_seconds w) (next_request_id w).

(** ** [struct], network order, standard sizes *)

Definition pack_unsigned (k : nat) (z : Z) : res string :=
  if (0 <=? z) && (z <? 256 ^ Z.of_nat k) then Ok (be_bytes k (Z.to_N z))
  else Raise (Exn CStructError "argument out of range").
Definition pack_signed32 (z : Z) : res string :=
  if (- 2 ^ 31 <=? z) && (z <? 2 ^ 31) then Ok (be_bytes 4 (Z.to_N (z mod 2 ^ 32)))
  else Raise (Exn CStructError "argument out of range").
Definition unpack_unsigned (off k : nat) (s : string) : Z :=
  Z.of_N (be_value 0 (str_take k (str_skip off s))).
Definition unpack_signed32 (off : nat) (s : string) : Z :=
  let u := unpack_unsigned off 4 s in if u <? 2 ^ 31 then u else u - 2 ^ 32.

(** [struct.pack("!BHIIiB", ...)], the header after the length. *)
Definition pack_header (version message_id request_id sequence_number error_code flags : Z)
    : res string :=
  v ← pack_unsigned 1 version;
  m ← pack_unsigned 2 message_id;
  r ← pack_unsigned 4 request_id;
  s ← pack_unsigned 4 sequence_number;
  e ← pack_signed32 error_code;
  f ← pack_unsigned 1 flags;
  Ok (v +:+ m +:+ r +:+ s +:+ e +:+ f).

(** ** Packets *)

Definition MAX_PAYLOAD : Z := 1024 * 1024.

Definition encode_business_packet (message_id request_id : Z) (body : string) (version flags : Z)
    : res string :=
  let encoded_body := body in
  let payload_length := 16 + str_len encoded_body in
  length ← pack_unsigned 4 payload_length;
  header ← pack_header version message_id request_id 0 0 flags;
  Ok (length +:+ header +:+ encoded_body).

Record packet := Packet {
  p_version : Z;
  p_message_id : Z;
  p_request_id : Z;
  p_sequence_number : Z;
  p_error_code : Z;
  p_flags : Z;
  p_body_bytes : string;
  p_body : string
}.

Definition set_body (s : string) (p : packet) : packet :=
  Packet (p_version p) (p_message_id p) (p_request_id p) (p_sequence_number p) (p_error_code p)
    (p_flags p) (p_body_bytes p) s.

(** The fields of a payload of at least 16 bytes. *)
Definition unpack_payload (payload : string) : packet :=
  let flags := unpack_unsigned 15 1 payload in
  let body_bytes := str_skip 16 payload in
  Packet (unpack_unsigned 0 1 payload) (unpack_unsigned 1 2 payload)
    (unpack_unsigned 3 4 payload) (unpack_unsigned 7 4 payload) (unpack_signed32 11 payload)
    flags body_bytes (if flags =? 0 then decode_replace body_bytes else "").

Section wire.
Context `{WireRuntime}.

Definition w_raise {A} (c : exn_class) (msg : string) : WM A := e_raise c msg.
Definition bad_descriptor : exn := Exn COSError "[Errno 9] Bad file descriptor".

(** [time.monotonic()]. *)
Definition read_monotonic : WM pfloat := λ w,
  (ORet (wt_monotonic (w_tick w)), with_tick (S (w_tick w)) w).

(** [sock.settimeout]. *)
Definition timeout_ok (t : pfloat) : res unit :=
  match t with
  | SpecFloat.S754_nan => Raise (Exn CValueError "Invalid value NaN (not a number)")
  | _ => guard_cls CValueError (fltb t f_zero) "Timeout value out of range"
  end.
Definition settimeout (t : pfloat) : WM unit := λ w,
  match timeout_ok t with
  | Raise e => (ORaise e, w)
  | Ok _ => if w_closed w then (ORaise bad_descriptor, w) else (ORet (), with_timeout t w)
  end.

(** [sock.recv]: at most [n] bytes of the next delivery; no bytes when the peer
    has closed. *)
Definition recv (n : Z) : WM string := λ w,
  if w_closed w then (ORaise bad_descriptor, w) else
  match w_in w with
  | [] => (ORaise (Exn CTimeoutError "timed out"), w)
  | Eof :: _ => (ORet "", w)
  | Fault e :: r => (ORaise e, with_in r w)
  | Data a s :: r =>
      let chunk := String a s in
      let rest := match str_skip (Z.to_nat n) chunk with
                  | EmptyString => r
                  | String a s => Data a s :: r
                  end in
      (ORet (str_take (Z.to_nat n) chunk), with_in rest w)
  end.

(** [sock.sendall]. *)
Definition sendall (s : string) : WM unit := λ w,
  let w' := with_tick (S (w_tick w)) w in
  if w_closed w then (ORaise bad_descriptor, w') else
  match wt_send (w_tick w) with
  | None => (ORet (), with_out (w_out w +:+ s) w')
  | Some (k, e) => (ORaise e, with_out (w_out w +:+ str_take k s) w')
  end.

(** ** [recv_exact] *)

Definition check_deadline (deadline : option pfloat) : WM unit :=
  match deadline with
  | None => mret ()
  | Some d =>
      now ← read_monotonic;
      let remaining := fsub d now in
      if fleb remaining f_zero then w_raise CTimeoutError "gateway response deadline exceeded"
      else settimeout remaining
  end.

(** Every round receives a byte or ends the loop, so [size] rounds are enough. *)
Fixpoint recv_loop (fuel : nat) (size : Z) (deadline : option pfloat) (chunks : string)
    (received : Z) : WM string :=
  if received <? size then
    match fuel with
    | O => λ w, (OCrash, w)
    | S fuel =>
        check_deadline deadline;;
        chunk ← recv (size - received);
        if String.eqb chunk "" then w_raise CConnectionError "gateway closed the connection"
        else recv_loop fuel size deadline (chunks +:+ chunk) (received + str_len chunk)
    end
  else mret chunks.

Definition recv_exact (size : Z) (deadline : option pfloat) : WM string :=
  recv_loop (Z.to_nat size) size deadline "" 0.

Definition recv_business_packet (deadline : option pfloat) : WM packet :=
  prefix ← recv_exact 4 deadline;
  let payload_length := unpack_unsigned 0 4 prefix in
  if (payload_length <? 16) || (MAX_PAYLOAD <? payload_length) then
    w_raise CValueError ("invalid gateway frame length: " +:+ Z_str payload_length)
  else
    payload ← recv_exact payload_length deadline;
    mret (unpack_payload payload).

(** ** [BusinessOperationClient] *)

Definition PUSH_MESSAGE_IDS : list Z := [1003; 1004; 3009; 4005; 4006; 6003].

Definition le_value (s : string) : Z := Z.of_N (be_value 0 (String.rev s)).

(** The checks of a response up to its body, which a compressed one gets here. *)
Definition inspect (p : packet) : res packet :=
  guard_cls CValueError (negb (p_version p =? 1))
    ("unsupported protocol version: " +:+ Z_str (p_version p));;
  guard_cls CValueError (negb (Z.land (p_flags p) (Z.lnot 1) =? 0))
    ("unsupported response flags: 0x" +:+ hex_byte (p_flags p));;
  if Z.land (p_flags p) 1 =? 0 then Ok p
  else
    let compressed := p_body_bytes p in
    guard_cls CValueError (str_len compressed <? 4)
      "invalid compressed response: missing original length";;
    let expected_length := le_value (str_take 4 compressed) in
    match zlib_decompress (str_skip 4 compressed) with
    | inl exc => Raise (Exn CValueError ("invalid compressed response: " +:+ exc))
    | inr decoded =>
        guard_cls CValueError (negb (str_len decoded =? expected_length))
          ("invalid compressed response length: expected " +:+ Z_str expected_length
           +:+ ", got " +:+ Z_str (str_len decoded));;
        body ← decode_strict decoded;
        Ok (set_body body p)
    end.

Record response := Response { r_packet : packet; r_ok : bool }.

(** One round of the loop: [None] for a push message, which is skipped. *)
Definition classify (request_id expected_message_id : Z) (p : packet) : res (option response) :=
  p ← inspect p;
  if existsb (Z.eqb (p_message_id p)) PUSH_MESSAGE_IDS then Ok None
  else
    guard_cls CValueError (negb (p_request_id p =? request_id))
      ("unexpected request id " +:+ Z_str (p_request_id p)
       +:+ ", expected " +:+ Z_str request_id);;
    Ok (Some (Response p ((p_message_id p =? expected_message_id) && (p_error_code p =? 0)))).

(** [while True]: every round receives a packet or ends the loop, so the number
    of bytes still to come is fuel enough. *)
Fixpoint request_loop (fuel : nat) (request_id expected_message_id : Z) (deadline : pfloat)
    : WM response :=
  match fuel with
  | O => λ w, (OCrash, w)
  | S fuel =>
      p ← recv_business_packet (Some deadline);
      r ← e_lift (classify request_id expected_message_id p);
      match r with
      | Some r => mret r
      | None => request_loop fuel request_id expected_message_id deadline
      end
  end.

Definition arrival_text (a : arrival) : string :=
  match a with Data a s => String a s | _ => "" end.
Definition arrivals_text (l : list arrival) : string := foldr (λ a s, arrival_text a +:+ s) "" l.

(** [timeout_seconds or self.timeout_seconds]. *)
Definition request_timeout (timeout : option pfloat) (w : wire) : pfloat :=
  match timeout with
  | Some t => if feqb t f_zero then timeout_seconds w else t
  | None => timeout_seconds w
  end.

Definition request (message_id expected_message_id : Z) (body : string) (timeout : option pfloat)
    : WM response :=
  t ← e_gets (request_timeout timeout);
  now ← read_monotonic;
  let deadline := fadd now t in
  settimeout t;;
  request_id ← e_gets next_request_id;
  e_modify (with_next_id (request_id + 1));;
  data ← e_lift (encode_business_packet message_id request_id body 1 0);
  sendall data;;
  fuel ← e_gets (λ w, S (String.length (arrivals_text (w_in w))));
  request_loop fuel request_id expected_message_id deadline.

Definition close : WM unit := e_modify with_closed.

(** ** Operations *)

Definition BUSINESS_OPERATION_SEQUENCES : list (string * list (string * Z * Z)) :=
  [("matchmaking", [("match_join", 6001, 6002); ("match_status", 6006, 6007);
                    ("match_leave", 6004, 6005)]);
   ("leaderboard", [("leaderboard_submit", 7001, 7002); ("leaderboard_top", 7003, 7004);
                    ("leaderboard_rank", 7005, 7006)])].

Definition business_operation_body (scenario operation user_id : string)
    (client_index iteration : Z) : string :=
  if String.eqb scenario "matchmaking" then
    let mmr := 1000 + client_index mod 20 in
    user_id +:+ "|" +:+ Z_str (if String.eqb operation "match_join" then mmr else 0) +:+ "|1v1"
  else if String.eqb operation "leaderboard_submit" then
    let score := 1000000000 + client_index * 100000 + iteration in
    user_id +:+ "|perf-" +:+ Z_str client_index +:+ "|" +:+ Z_str score
  else if String.eqb operation "leaderboard_top" then "20"
  else user_id.

(** ** The sockets of a process *)

Record op_record := OpRecord {
  o_operation : string;
  o_ok : bool;
  o_latency_ms : pfloat;
  o_poll_attempts : option Z;
  o_error : string
}.

(** [n_records] is the list a worker appends to. *)
Record net := Net {
  n_tick : nat;
  n_next : nat;
  n_socks : gmap nat wire;
  n_records : list op_record
}.
Definition NM := eff net.

(** A method of the client that owns socket [fd]. *)
Definition on {A} (fd : nat) (m : WM A) : NM A := λ n,
  match n_socks n !! fd with
  | None => (ORaise bad_descriptor, n)
  | Some w =>
      let '(o, w') := m (with_tick (n_tick n) w) in
      (o, Net (w_tick w') (n_next n) (<[fd := w']> (n_socks n)) (n_records n))
  end.

Definition clock (reading : nat → pfloat) : NM pfloat := λ n,
  (ORet (reading (n_tick n)), Net (S (n_tick n)) (n_next n) (n_socks n) (n_records n)).
Definition perf_counter : NM pfloat := clock wt_perf_counter.
Definition append_record (r : op_record) : NM unit :=
  e_modify (λ n, Net (n_tick n) (n_next n) (n_socks n) (n_records n ++ [r])).

(** [BusinessOperationClient(host, port, timeout)]: the socket that owns it. *)
Definition connect (timeout : pfloat) : NM nat := λ n,
  let fd := n_next n in
  let n' := Net (n_tick n) (S fd) (n_socks n) (n_records n) in
  match timeout_ok timeout with
  | Raise e => (ORaise e, n)
  | Ok _ =>
      match wt_connect fd with
      | Raise e => (ORaise e, n')
      | Ok arrivals =>
          (ORet fd, Net (n_tick n) (S fd)
                      (<[fd := Wire (n_tick n) arrivals "" false timeout timeout 1]> (n_socks n))
                      (n_records n))
      end
  end.

(** [client.close()]: [with suppress(OSError): self.sock.close()]. *)
Definition close_client (fd : nat) : NM unit :=
  e_try (on fd close) (λ e, if exn_isa COSError e then mret () else e_lift (Raise e)).

(** [except (ConnectionError, OSError, TimeoutError, ValueError)]. *)
Definition caught (e : exn) : bool :=
  exn_isa CConnectionError e || exn_isa COSError e || exn_isa CTimeoutError e
  || exn_isa CValueError e.
Definition on_caught {A} (m : NM A) (h : exn → NM A) : NM A :=
  e_try m (λ e, if caught e then h e else e_lift (Raise e)).

(** [(time.perf_counter() - started) * 1000.0]. *)
Definition elapsed_ms (started : pfloat) : NM pfloat :=
  now ← perf_counter; mret (fmul (fsub now started) (f_of_Z 1000)).
Definition response_error (r : response) : string :=
  "error=" +:+ Z_str (p_error_code (r_packet r)) +:+ " body="
  +:+ text_take 200 (p_body (r_packet r)).
Definition login_body (user_id : string) : string :=
  user_id +:+ "|token:" +:+ user_id +:+ "|" +:+ user_id.

(** ** The leaderboard worker *)

Definition measure (fd : nat) (operation : string) (request_id response_id : Z) (body : string)
    : NM unit :=
  started ← perf_counter;
  on_caught
    (r ← on fd (request request_id response_id body None);
     latency_ms ← elapsed_ms started;
     append_record (OpRecord operation (r_ok r) latency_ms None
                      (if r_ok r then "" else response_error r)))
    (λ e, latency_ms ← elapsed_ms started;
          append_record (OpRecord operation false latency_ms None (text_take 200 (exn_msg e)))).

(** [range(n)]. *)
Definition py_range (n : Z) : list Z := map Z.of_nat (seq 0 (Z.to_nat n)).

(** [BUSINESS_OPERATION_SEQUENCES[scenario]]. *)
Definition operation_sequence (scenario : string) : res (list (string * Z * Z)) :=
  match list_find (λ x, x.1 = scenario) BUSINESS_OPERATION_SEQUENCES with
  | Some (_, x) => Ok x.2
  | None => Raise (Exn CKeyError scenario)
  end.

Record worker := Worker {
  wk_client_index : Z;
  wk_setup_error : string;
  wk_records : list op_record
}.

(** The measured requests of a logged-in worker. *)
Definition measure_all (fd : nat) (scenario user_id : string) (client_index iterations : Z)
    : NM unit :=
  e_iter
    (λ iteration,
      operations ← e_lift (operation_sequence scenario);
      e_iter
        (λ '(operation, request_id, response_id),
          measure fd operation request_id response_id
            (business_operation_body scenario operation user_id client_index iteration))
        operations)
    (py_range iterations).

Definition run_business_operation_worker (scenario : string) (client_index iterations : Z)
    (timeout : pfloat) (run_id : string) : NM worker :=
  if negb (String.eqb scenario "leaderboard") then
    e_raise CValueError "generic business operation worker only supports leaderboard"
  else
    let user_id := "perf_" +:+ scenario +:+ "_" +:+ run_id +:+ "_" +:+ Z_str client_index in
    e_modify (λ n, Net (n_tick n) (n_next n) (n_socks n) []);;
    on_caught
      (fd ← connect timeout;
       e_finally
         (login ← on fd (request 2001 2002 (login_body user_id) None);
          if negb (r_ok login) then
            mret (Worker client_index
                    ("login failed: " +:+ text_take 200 (p_body (r_packet login))) [])
          else
            measure_all fd scenario user_id client_index iterations;;
            records ← e_gets n_records;
            mret (Worker client_index "" records))
         (close_client fd))
      (λ e, records ← e_gets n_records;
            mret (Worker client_index (text_take 200 (exn_msg e)) records)).

(** ** The matchmaking cohort *)

Record entry := Entry {
  en_client_index : Z;
  en_user_id : string;
  en_client : option nat;
  en_error : string;
  en_retryable : bool
}.

(** The handlers, after the client is closed. *)
Definition setup_failed (client_index : Z) (user_id : string) (e : exn) : NM entry :=
  if exn_isa CConnectionError e || exn_isa COSError e || exn_isa CTimeoutError e then
    mret (Entry client_index user_id None (text_take 200 (exn_msg e)) true)
  else if exn_isa CValueError e then
    mret (Entry client_index user_id None (text_take 200 (exn_msg e)) false)
  else e_lift (Raise e).

Definition setup_matchmaking_client (client_index : Z) (timeout : pfloat) (run_id : string)
    (iteration : Z) : NM entry :=
  let user_id := "perf_matchmaking_" +:+ run_id +:+ "_" +:+ Z_str iteration +:+ "_"
                 +:+ Z_str client_index in
  e_try
    (fd ← connect timeout;
     e_try
       (login ← on fd (request 2001 2002 (login_body user_id) None);
        if negb (r_ok login) then
          e_raise CValueError ("login failed: " +:+ text_take 200 (p_body (r_packet login)))
        else mret (Entry client_index user_id (Some fd) "" false))
       (λ e, (if caught e then close_client fd else mret ());; e_lift (Raise e)))
    (setup_failed client_index user_id).

(** The calls of a thread pool: all of them run, and the first exception in the
    order of the arguments is raised. *)
Fixpoint run_all {S A B} (f : A → eff S B) (l : list A) : eff S (list B) :=
  match l with
  | [] => mret []
  | x :: r => λ s,
      let '(o, s1) := f x s in
      let '(os, s2) := run_all f r s1 in
      (match o, os with
       | OCrash, _ | _, OCrash => OCrash
       | ORaise e, _ => ORaise e
       | ORet _, ORaise e => ORaise e
       | ORet b, ORet bs => ORet (b :: bs)
       end, s2)
  end.
Definition thread_pool {A B} (max_workers : Z) (f : A → NM B) (l : list A) : NM (list B) :=
  if max_workers <=? 0 then e_raise CValueError "max_workers must be greater than 0"
  else run_all f l.

Definition close_entry (e : entry) : NM unit :=
  match en_client e with Some fd => close_client fd | None => mret () end.

Fixpoint cohort_attempts (attempts : list Z) (clients : Z) (timeout : pfloat) (run_id : string)
    (iteration : Z) : NM (list entry * Z) :=
  match attempts with
  | [] => e_raise CAssertionError "unreachable"
  | attempt :: attempts =>
      entries ← thread_pool clients
        (λ index, setup_matchmaking_client index timeout
                    (run_id +:+ "_setup" +:+ Z_str (attempt + 1)) iteration)
        (py_range clients);
      let failures := filter (λ e, en_error e ≠ "") entries in
      if bool_decide (failures = []) || (attempt =? 1)
         || existsb (λ e, negb (en_retryable e)) failures
      then mret (entries, attempt)
      else e_iter close_entry entries;; cohort_attempts attempts clients timeout run_id iteration
  end.
Definition setup_matchmaking_cohort (clients : Z) (timeout : pfloat) (run_id : string)
    (iteration : Z) : NM (list entry * Z) :=
  cohort_attempts [0; 1] clients timeout run_id iteration.

(** [entry["client"].request(...)]. *)
Definition entry_request (e : entry) (request_id response_id : Z) (body : string)
    (timeout : option pfloat) : NM response :=
  match en_client e with
  | Some fd => on fd (request request_id response_id body timeout)
  | None => e_raise CAttributeError "'NoneType' object has no attribute 'request'"
  end.

Definition execute_match_request (e : entry) (operation : string) (request_id response_id : Z)
    (timeout : pfloat) : NM op_record :=
  started ← perf_counter;
  on_caught
    (let body := business_operation_body "matchmaking" operation (en_user_id e)
                   (en_client_index e) 0 in
     r ← entry_request e request_id response_id body (Some timeout);
     latency_ms ← elapsed_ms started;
     mret (OpRecord operation (r_ok r) latency_ms None
             (if r_ok r then "" else response_error r)))
    (λ exc, latency_ms ← elapsed_ms started;
            mret (OpRecord operation false latency_ms None (text_take 200 (exn_msg exc)))).

(** What a status response says: [true] when the match is made. *)
Definition match_status (r : response) : res bool :=
  guard_cls CValueError (negb (r_ok r)) (response_error r);;
  match json_loads (p_body (r_packet r)) with
  | None => Raise (Exn CJSONDecodeError (wt_json_error (p_body (r_packet r))))
  | Some (PDict status) => Ok (is_true (get status "matched"))
  | Some _ => Raise (Exn CValueError "match status response is not a JSON object")
  end.

Definition poll_record (ok : bool) (match_started : pfloat) (polls : Z) (error : string)
    : NM op_record :=
  latency_ms ← elapsed_ms match_started;
  mret (OpRecord "match_status" ok latency_ms (Some polls) error).

(** One round of the loop, [again] being the next one. *)
Definition poll_round (again : Z → NM op_record) (e : entry) (match_started match_deadline : pfloat)
    (polls : Z) : NM op_record :=
  now ← clock wt_monotonic;
  if fltb now match_deadline then
    now ← clock wt_monotonic;
    let remaining := fsub match_deadline now in
    let body := business_operation_body "matchmaking" "match_status" (en_user_id e)
                  (en_client_index e) 0 in
    answer ← on_caught (r ← entry_request e 6006 6007 body (Some remaining); mret (inr r))
               (λ exc, mret (inl exc));
    match answer with
    | inl exc => poll_record false match_started polls (text_take 200 (exn_msg exc))
    | inr r =>
        let polls := polls + 1 in
        match match_status r with
        | Raise exc => poll_record false match_started polls (text_take 200 (exn_msg exc))
        | Ok true => poll_record true match_started polls ""
        | Ok false =>
            (** [time.sleep]: it takes a reading, and time. *)
            clock wt_monotonic;; again polls
        end
    end
  else poll_record false match_started polls "matchmaking deadline exceeded before matched=true".

(** Every round but the last receives a packet; [fuel] is as in [request]. *)
Fixpoint poll_loop (fuel : nat) (e : entry) (match_started match_deadline : pfloat) (polls : Z)
    : NM op_record :=
  match fuel with
  | O => λ n, (OCrash, n)
  | S fuel =>
      poll_round (poll_loop fuel e match_started match_deadline) e match_started match_deadline polls
  end.

Definition undelivered (e : entry) (n : net) : nat :=
  match en_client e ≫= λ fd, n_socks n !! fd with
  | Some w => String.length (arrivals_text (w_in w))
  | None => O
  end.
Definition poll_until_matched (e : entry) (match_started match_deadline : pfloat) : NM op_record :=
  fuel ← e_gets (λ n, S (undelivered e n));
  poll_loop fuel e match_started match_deadline 0.
End wire.
