(* ===== verification/WireScenario.v ===== *)
(** * The measured business scenarios

    Models [src/scripts/lib/perf_business_operations.py] and the part of
    [src/scripts/lib/perf_statistics.py] it uses: the leaderboard and
    matchmaking scenarios, their summaries, the repeated runs and the
    aggregation over them.  The summaries are records with the fields of the
    code's dictionaries; a field that only one scenario has is optional. *)
From S2P Require Import Prelude PyFloat PyValue PyJson PyEffect PyUtf8 PerfStatistics Wire.
#[local] Open Scope Z_scope.

(** ** The summary of an operation *)

Record op_summary := OpSummary {
  os_operation : string;
  os_attempted : Z;
  os_succeeded : Z;
  os_failed : Z;
  os_throughput_ops_per_sec : pfloat;
  os_latency_p50_ms : option pfloat;
  os_latency_p99_ms : option pfloat;
  os_errors : list (string * Z)
}.

(** [errors[error] = errors.get(error, 0) + 1], in the order of first use. *)
Fixpoint count_error (error : string) (errors : list (string * Z)) : list (string * Z) :=
  match errors with
  | [] => [(error, 1)]
  | (k, c) :: r => if String.eqb k error then (k, c + 1) :: r else (k, c) :: count_error error r
  end.
Definition error_key (r : op_record) : string :=
  if String.eqb (o_error r) "" then "unknown" else o_error r.

Definition f_micro : pfloat := f_of_dec false 1 (-6).

Definition summarize_operation (records : list op_record) (duration_seconds : pfloat)
    (operation : string) : res op_summary :=
  let operation_records := filter (λ r, o_operation r = operation) records in
  let latencies := map o_latency_ms operation_records in
  let attempted := Z.of_nat (length operation_records) in
  let succeeded := Z.of_nat (length (filter (λ r, o_ok r = true) operation_records)) in
  let errors := fold_left (λ errors r, if o_ok r then errors else count_error (error_key r) errors)
                  operation_records [] in
  p50 ← latency_percentile latencies f_half;
  p99 ← latency_percentile latencies f_p99;
  Ok (OpSummary operation attempted succeeded (attempted - succeeded)
        (f_round (fdiv (f_of_Z attempted)
                    (if fltb duration_seconds f_micro then f_micro else duration_seconds)) 3)
        p50 p99 errors).
Definition summarize_business_operations (operation_names : list string)
    (records : list op_record) (duration_seconds : pfloat) : res (list op_summary) :=
  mapM (summarize_operation records duration_seconds) operation_names.

(** ** Scenarios *)

Record failure := Failure {
  fl_iteration : option Z;
  fl_client_index : Z;
  fl_error : string
}.

Record scenario_summary := Scenario {
  sc_scenario : string;
  sc_passed : bool;
  sc_clients : Z;
  sc_iterations_per_client : Z;
  sc_duration_seconds : pfloat;
  sc_expected_per_operation : Z;
  sc_setup_failures : list failure;
  (** Of matchmaking: retries, polls, the samples and their percentiles. *)
  sc_matchmaking : option (Z * Z * list pfloat * option pfloat * option pfloat);
  (** Of the leaderboard: the persistence mode and [redis_comparison]. *)
  sc_leaderboard : option (string * bool);
  sc_operations : list op_summary
}.

(** [passed]. *)
Definition all_measured (setup_failures : list failure) (operations : list op_summary)
    (expected : Z) : bool :=
  match setup_failures with [] => true | _ => false end
  && forallb (λ o, (os_attempted o =? expected) && (os_failed o =? 0)) operations.

Section scenario.
Context `{WireRuntime}.

Definition run_leaderboard_scenario (clients iterations : Z) (timeout : pfloat) (run_id : string)
    (persistence_mode : string) : NM scenario_summary :=
  started ← perf_counter;
  workers ← thread_pool clients
    (λ client_index, run_business_operation_worker "leaderboard" client_index iterations timeout run_id)
    (py_range clients);
  finished ← perf_counter;
  let duration_seconds := f_round (fsub finished started) 6 in
  let records := concat (map wk_records workers) in
  sequence ← e_lift (operation_sequence "leaderboard");
  operations ← e_lift (summarize_business_operations (map (λ x, x.1.1) sequence) records
                         duration_seconds);
  let setup_failures :=
    map (λ w, Failure None (wk_client_index w) (wk_setup_error w))
      (filter (λ w, wk_setup_error w ≠ "") workers) in
  let expected := clients * iterations in
  mret (Scenario "leaderboard" (all_measured setup_failures operations expected) clients iterations
          duration_seconds expected setup_failures None (Some (persistence_mode, false)) operations).

(** The measured part of an iteration; its records are added to those before. *)
Definition measure_cohort (active : list entry) (timeout : pfloat) : NM (list op_record) :=
  match_started ← perf_counter;
  join_records ← thread_pool (Z.max 1 (Z.of_nat (length active)))
    (λ e, execute_match_request e "match_join" 6001 6002 timeout) active;
  now ← clock wt_monotonic;
  let match_deadline := fadd now timeout in
  let joined := map fst (filter (λ x, o_ok x.2 = true) (zip active join_records)) in
  status_records ← thread_pool (Z.max 1 (Z.of_nat (length joined)))
    (λ e, poll_until_matched e match_started match_deadline) joined;
  leave_records ← thread_pool (Z.max 1 (Z.of_nat (length active)))
    (λ e, execute_match_request e "match_leave" 6004 6005 timeout) active;
  mret (join_records ++ status_records ++ leave_records).

Definition has_client (e : entry) : bool := match en_client e with Some _ => true | None => false end.

(** One iteration: its retries, setup failures and records. *)
Definition match_iteration (clients : Z) (timeout : pfloat) (run_id : string) (iteration : Z)
    : NM (Z * list failure * list op_record) :=
  '(entries, setup_retries) ← setup_matchmaking_cohort clients timeout run_id iteration;
  let failures := map (λ e, Failure (Some iteration) (en_client_index e) (en_error e))
                    (filter (λ e, en_error e ≠ "") entries) in
  let active := filter (λ e, has_client e = true) entries in
  records ← e_finally (measure_cohort active timeout) (e_iter close_entry active);
  mret (setup_retries, failures, records).

Fixpoint match_iterations (clients : Z) (timeout : pfloat) (run_id : string) (l : list Z)
    : NM (Z * list failure * list op_record) :=
  match l with
  | [] => mret (0, [], [])
  | iteration :: l =>
      '(retries, failures, records) ← match_iteration clients timeout run_id iteration;
      '(retries', failures', records') ← match_iterations clients timeout run_id l;
      mret (retries + retries', failures ++ failures', records ++ records')
  end.

Definition run_matchmaking_scenario (clients iterations : Z) (timeout : pfloat) (run_id : string)
    : NM scenario_summary :=
  started ← perf_counter;
  '(setup_retry_count, setup_failures, records) ←
    match_iterations clients timeout run_id (py_range iterations);
  finished ← perf_counter;
  let duration_seconds := f_round (fsub finished started) 6 in
  operations ← e_lift (summarize_business_operations ["match_join"; "match_status"; "match_leave"]
                         records duration_seconds);
  let expected := clients * iterations in
  let matched_latencies :=
    map o_latency_ms (filter (λ r, o_operation r = "match_status" ∧ o_ok r = true) records) in
  let poll_attempts := foldr Z.add 0 (map (λ r, default 0 (o_poll_attempts r)) records) in
  p50 ← e_lift (latency_percentile matched_latencies f_half);
  p99 ← e_lift (latency_percentile matched_latencies f_p99);
  mret (Scenario "matchmaking" (all_measured setup_failures operations expected) clients iterations
          duration_seconds expected setup_failures
          (Some (setup_retry_count, poll_attempts, matched_latencies, p50, p99)) None operations).

(** ** Aggregation over the runs *)

Record op_aggregate := OpAggregate {
  oa_operation : string;
  oa_attempted : Z;
  oa_succeeded : Z;
  oa_failed : Z;
  oa_throughput_ops_per_sec : metric;
  oa_latency_p50_ms : metric;
  oa_latency_p99_ms : metric
}.
Record aggregate := Aggregate {
  ag_scenario : string;
  ag_runs : Z;
  ag_passed_runs : Z;
  ag_passed : bool;
  ag_operations : list op_aggregate;
  (** Of matchmaking: retries, the number of samples and their percentiles. *)
  ag_matchmaking : option (Z * Z * option pfloat * option pfloat);
  ag_leaderboard : option (string * bool)
}.
Record run := Run {
  rn_run : Z;
  rn_passed : bool;
  rn_scenarios : list scenario_summary;
  rn_resource_sample : option py
}.

Definition sum_of {A} (f : A → Z) (l : list A) : Z := foldr Z.add 0 (map f l).

Definition aggregate_operation (scenario_runs : list scenario_summary) (name : string)
    : res op_aggregate :=
  let operation_runs := filter (λ o, os_operation o = name) (concat (map sc_operations scenario_runs)) in
  throughput ← metric_distribution (map os_throughput_ops_per_sec operation_runs);
  p50 ← metric_distribution (omap os_latency_p50_ms operation_runs);
  p99 ← metric_distribution (omap os_latency_p99_ms operation_runs);
  Ok (OpAggregate name (sum_of os_attempted operation_runs) (sum_of os_succeeded operation_runs)
        (sum_of os_failed operation_runs) throughput p50 p99).

Definition aggregate_scenario (runs : list run) (name : string) : res aggregate :=
  let scenario_runs := filter (λ s, sc_scenario s = name) (concat (map rn_scenarios runs)) in
  sequence ← operation_sequence name;
  operations ← mapM (aggregate_operation scenario_runs) (map (λ x, x.1.1) sequence);
  matchmaking ←
    (if String.eqb name "matchmaking" then
       let samples := concat (map (λ s, match sc_matchmaking s with
                                        | Some (_, _, l, _, _) => l | None => [] end) scenario_runs) in
       p50 ← latency_percentile samples f_half;
       p99 ← latency_percentile samples f_p99;
       Ok (Some (sum_of (λ s, match sc_matchmaking s with
                              | Some (c, _, _, _, _) => c | None => 0 end) scenario_runs,
                 Z.of_nat (length samples), p50, p99))
     else Ok None);
  leaderboard ←
    (if String.eqb name "leaderboard" then
       let modes := remove_dups (omap (λ s, fst <$> sc_leaderboard s) scenario_runs) in
       Ok (Some (match modes with [mode] => mode | _ => "mixed" end, false))
     else Ok None);
  Ok (Aggregate name (Z.of_nat (length scenario_runs))
        (Z.of_nat (length (filter (λ s, sc_passed s = true) scenario_runs)))
        ((Z.of_nat (length scenario_runs) =? Z.of_nat (length runs)) && forallb sc_passed scenario_runs)
        operations matchmaking leaderboard).
Definition aggregate_business_operation_runs (scenarios : list string) (runs : list run)
    : res (list aggregate) :=
  mapM (aggregate_scenario runs) scenarios.

(** ** The whole measurement *)

Record perf_summary := PerfSummary {
  pf_overall_pass : bool;
  pf_clients : Z;
  pf_iterations_per_client : Z;
  pf_requested_runs : Z;
  pf_completed_runs : Z;
  pf_runs : list run;
  pf_scenario_aggregates : list aggregate;
  pf_leaderboard_persistence : option string
}.

(** [list(dict.fromkeys(scenarios))]: the first of equal ones. *)
Fixpoint from_keys (seen l : list string) : list string :=
  match l with
  | [] => []
  | x :: r => if bool_decide (x ∈ seen) then from_keys seen r else x :: from_keys (x :: seen) r
  end.

Fixpoint run_scenarios (clients iterations : Z) (timeout : pfloat) (repetition : Z) (mode : string)
    (l : list string) : NM (list scenario_summary) :=
  match l with
  | [] => mret []
  | scenario :: l =>
      now ← (λ n, (ORet (wt_monotonic_ns (n_tick n)),
                   Net (S (n_tick n)) (n_next n) (n_socks n) (n_records n)));
      let run_id := Z_str now +:+ "_" +:+ Z_str (repetition + 1) in
      s ← (if String.eqb scenario "matchmaking"
           then run_matchmaking_scenario clients iterations timeout run_id
           else run_leaderboard_scenario clients iterations timeout run_id mode);
      r ← run_scenarios clients iterations timeout repetition mode l;
      mret (s :: r)
  end.

Fixpoint run_repetitions (clients iterations : Z) (timeout : pfloat) (mode : string)
    (callback : option (Z → NM py)) (scenarios : list string) (l : list Z) : NM (list run) :=
  match l with
  | [] => mret []
  | repetition :: l =>
      summaries ← run_scenarios clients iterations timeout repetition mode scenarios;
      sample ← (match callback with
                | Some f => v ← f (repetition + 1); mret (Some v)
                | None => mret None
                end);
      r ← run_repetitions clients iterations timeout mode callback scenarios l;
      mret (Run (repetition + 1) (forallb sc_passed summaries) summaries sample :: r)
  end.

Definition run_business_operation_perf (scenarios : list string) (clients iterations : Z)
    (timeout : pfloat) (repetitions : Z) (mode : string) (callback : option (Z → NM py))
    : NM perf_summary :=
  let selected := from_keys [] scenarios in
  if (clients <=? 0) || (iterations <=? 0) || (repetitions <=? 0) || fleb timeout f_zero then
    e_raise CValueError
      "business operation clients, iterations, repetitions, and timeout must be positive"
  else if bool_decide ("matchmaking" ∈ selected) && negb (clients mod 2 =? 0) then
    e_raise CValueError "1v1 matchmaking requires an even client count"
  else
    runs ← run_repetitions clients iterations timeout mode callback selected (py_range repetitions);
    aggregates ← e_lift (aggregate_business_operation_runs selected runs);
    mret (PerfSummary
            ((Z.of_nat (length runs) =? repetitions) && forallb rn_passed runs)
            clients iterations repetitions (Z.of_nat (length runs)) runs aggregates
            (if bool_decide ("leaderboard" ∈ selected) then Some mode else None)).
End scenario.
