(* ===== verification/WireFacts.v ===== *)
(** * The business protocol: packets and requests

    Packets as they are written are the packets that are read, whatever the
    pieces they arrive in; a request returns exactly when the connection
    delivers push messages and then the response to it. *)
From S2P Require Import Prelude PyFloat PyValue PyJson PyEffect PyUtf8 Wire.
#[local] Open Scope Z_scope.

(** ** What a connection delivers *)

(** The bytes up to the end of the stream or a fault, and what comes then. *)
Fixpoint lead (l : list arrival) : string * list arrival :=
  match l with
  | Data a s :: r => let '(t, tail) := lead r in (String a s +:+ t, tail)
  | _ => ("", l)
  end.

(** The connection delivers these bytes next, in whatever pieces. *)
Definition delivers (bytes : string) (l l' : list arrival) : Prop :=
  ∃ rest tail, lead l = (bytes +:+ rest, tail) ∧ lead l' = (rest, tail).

Lemma delivers_nil l : delivers "" l l.
Proof. destruct (lead l) as [t tail] eqn:E. by exists t, tail. Qed.

Lemma delivers_trans a b l1 l2 l3 :
  delivers a l1 l2 → delivers b l2 l3 → delivers (a +:+ b) l1 l3.
Proof.
  intros (r1 & t1 & H1 & H2) (r2 & t2 & H3 & H4). rewrite H2 in H3. simplify_eq.
  exists r2, t2. by rewrite app_str_assoc.
Qed.

Lemma app_str_cancel (a b c d : string) :
  String.length a = String.length b → a +:+ c = b +:+ d → a = b ∧ c = d.
Proof.
  revert b. induction a as [|x a IH]; intros [|y b]; simpl; try done.
  intros [= Hl]. rewrite !cons_app. intros [= -> Hd]. by destruct (IH b Hl Hd) as [-> ->].
Qed.

(** What is read first is the start of what is delivered. *)
Lemma delivers_cut a b x l l1 l2 :
  delivers (a +:+ x) l l1 → delivers b l l2 → String.length a = String.length b →
  a = b ∧ delivers x l2 l1.
Proof.
  intros (r1 & t1 & H1 & H2) (r2 & t2 & H3 & H4) Hl. rewrite H1 in H3. injection H3 as H3 ->.
  rewrite app_str_assoc in H3. apply app_str_cancel in H3 as [-> <-]; [|done]. split; [done|].
  by exists r1, t2.
Qed.

Lemma lead_text l : (String.length (lead l).1 ≤ String.length (arrivals_text l))%nat.
Proof.
  induction l as [|[a s| |e] l IH]; simpl; try lia.
  destruct (lead l) as [t tail] eqn:E. rewrite ?cons_app. simpl in *.
  rewrite !length_app_str. lia.
Qed.

Lemma delivers_text bytes l l' :
  delivers bytes l l' → (String.length bytes ≤ String.length (arrivals_text l))%nat.
Proof.
  intros (r & t & Hl & _). pose proof (lead_text l) as Hle. rewrite Hl in Hle. simpl in Hle.
  rewrite length_app_str in Hle. lia.
Qed.

Section facts.
Context `{WireRuntime}.

(** ** Receiving *)

(** The connection is the same but for the stream, the clock and the timeout. *)
Definition same_client (w w' : wire) : Prop :=
  w_out w' = w_out w ∧ w_closed w' = w_closed w ∧ timeout_seconds w' = timeout_seconds w ∧
  next_request_id w' = next_request_id w ∧ (w_tick w ≤ w_tick w')%nat.

#[export] Instance same_client_preorder : PreOrder same_client.
Proof.
  split; [by intros w; repeat split|]. intros w1 w2 w3 (?&?&?&?&?) (?&?&?&?&?).
  repeat split; try congruence; lia.
Qed.

(** All readings from now on fall before the deadline. *)
Definition in_time (deadline : option pfloat) (w : wire) : Prop :=
  match deadline with
  | None => True
  | Some d => ∀ t, (w_tick w ≤ t)%nat → fltb f_zero (fsub d (wt_monotonic t)) = true
  end.

Lemma in_time_mono d w w' : (w_tick w ≤ w_tick w')%nat → in_time d w → in_time d w'.
Proof. destruct d; simpl; [|done]. intros Hle Hd t Ht. apply Hd. lia. Qed.

Lemma positive_timeout x : fltb f_zero x = true → fleb x f_zero = false ∧ timeout_ok x = Ok ().
Proof. destruct x as [[]|[]| |[] m e]; vm_compute; done. Qed.

Definition open (w : wire) : Prop := w_closed w = false.

Lemma check_deadline_wp d w (Q : unit → wire → Prop) E C :
  (∀ w', same_client w w' → w_in w' = w_in w → Q () w') →
  (¬ (open w ∧ in_time d w) → ∀ e w', E e w') → wp (check_deadline d) Q E C w.
Proof.
  intros HQ HE. destruct d as [d|]; simpl; [|by apply wp_ret, HQ].
  unfold wp, check_deadline, mbind, eff_bind, read_monotonic; cbn -[fsub fleb settimeout].
  destruct (fleb (fsub d (wt_monotonic (w_tick w))) f_zero) eqn:Hle.
  - simpl. apply HE. intros [_ Hin]. destruct (positive_timeout _ (Hin (w_tick w) ltac:(lia))). congruence.
  - unfold settimeout. destruct (timeout_ok _) as [[]|e] eqn:Hok.
    + destruct (w_closed _) eqn:Hc; simpl in Hc.
      * apply HE. intros [Ho _]. unfold open in Ho. congruence.
      * apply HQ; [|done]. repeat split; simpl; lia.
    + apply HE. intros [_ Hin]. destruct (positive_timeout _ (Hin (w_tick w) ltac:(lia))). congruence.
Qed.

Lemma recv_wp n w (Q : string → wire → Prop) (E : exn → wire → Prop) C :
  0 < n →
  (∀ c w', same_client w w' → c ≠ "" → str_len c <= n → delivers c (w_in w) (w_in w') → Q c w') →
  ((open w → (lead (w_in w)).1 = "") → Q "" w ∧ ∀ e w', E e w') →
  wp (recv n) Q E C w.
Proof.
  intros Hn HQ HE. unfold wp, recv. destruct (w_closed w) eqn:Hc.
  { apply HE. intros Ho. unfold open in Ho. congruence. }
  destruct (w_in w) as [|[a s| |e] r] eqn:Hin; [by apply HE| |by apply HE|by apply HE].
  assert (str_take (Z.to_nat n) (String a s) ≠ "") as Hne.
  { destruct (Z.to_nat n) eqn:E0; [lia|done]. }
  apply HQ; [by repeat split|done| |].
  { unfold str_len. rewrite str_take_length. lia. }
  destruct (lead r) as [t tail] eqn:Hl.
  pose proof (str_take_skip (Z.to_nat n) (String a s)) as Hts.
  destruct (str_skip (Z.to_nat n) (String a s)) as [|a' s'] eqn:Hs.
  - exists t, tail. cbn [lead w_in with_in]. rewrite Hl. split; [|done].
    rewrite app_str_nil_r in Hts. by rewrite Hts.
  - exists (String a' s' +:+ t), tail. cbn [lead w_in with_in]. rewrite Hl. split; [|done].
    by rewrite <- app_str_assoc, Hts.
Qed.

(** The loop neither hangs nor loses a byte, and fails only for a reason. *)
Definition receivable (d : option pfloat) (need : Z) (w : wire) : Prop :=
  open w ∧ in_time d w ∧ need <= str_len (lead (w_in w)).1.

Lemma delivers_left c l l' : delivers c l l' → str_len (lead l).1 = str_len c + str_len (lead l').1.
Proof. intros (r & t & -> & ->). simpl. apply str_len_app. Qed.

Lemma receivable_step d need c w w' :
  same_client w w' → delivers c (w_in w) (w_in w') → receivable d need w →
  receivable d (need - str_len c) w'.
Proof.
  intros (?&Hc&?&?&Ht) Hd%delivers_left (Ho & Hin & Hn). split; [unfold open in *; congruence|].
  split; [by apply (in_time_mono _ w)|lia].
Qed.

Lemma recv_loop_wp fuel size d chunks w (Q : string → wire → Prop) (E : exn → wire → Prop) C :
  str_len chunks <= size → size - str_len chunks <= Z.of_nat fuel →
  (∀ s w', same_client w w' → str_len (chunks +:+ s) = size → delivers s (w_in w) (w_in w') →
           Q (chunks +:+ s) w') →
  (¬ receivable d (size - str_len chunks) w → ∀ e w', E e w') →
  wp (recv_loop fuel size d chunks (str_len chunks)) Q E C w.
Proof.
  revert chunks w. induction fuel as [|fuel IH]; intros chunks w Hle Hf HQ HE; cbn [recv_loop];
    destruct (Z.ltb_spec (str_len chunks) size) as [Hlt|Hge]; try lia.
  1, 3: apply wp_ret; rewrite <- (app_str_nil_r chunks); apply HQ; [done|rewrite app_str_nil_r; lia|];
    apply delivers_nil.
  apply wp_bind. apply check_deadline_wp.
  2: { intros Hn. apply HE. intros (? & ? & _). by apply Hn. }
  intros w1 Hw1 Hin1. apply wp_bind. apply recv_wp; [lia| |].
  - intros c w2 Hw2 Hne Hlc Hd. rewrite Hin1 in Hd.
    destruct (String.eqb_spec c "") as [->|_]; [done|].
    rewrite <- str_len_app. pose proof (str_len_pos c Hne).
    apply IH; rewrite ?str_len_app; [lia|lia| |].
    + intros s w3 Hw3 Hs Hd3. rewrite app_str_assoc. apply HQ.
      * by rewrite Hw1, Hw2.
      * by rewrite <- app_str_assoc.
      * by eapply delivers_trans.
    + intros Hn. apply HE. intros Hr. apply Hn.
      replace (size - (str_len chunks + str_len c)) with (size - str_len chunks - str_len c) by lia.
      by apply (receivable_step d _ c w); [rewrite Hw1|..].
  - intros Hn. assert (∀ e w', E e w') as HE'.
    { apply HE. intros (Ho & _ & Hr). rewrite Hin1 in Hn. rewrite Hn in Hr.
      - unfold str_len in Hr at 2. simpl in Hr. lia.
      - destruct Hw1 as (_ & Hc & _). unfold open in *. congruence. }
    split; [apply wp_raise, HE'|done].
Qed.

Lemma recv_exact_wp size d w (Q : string → wire → Prop) (E : exn → wire → Prop) C :
  0 <= size →
  (∀ s w', same_client w w' → str_len s = size → delivers s (w_in w) (w_in w') → Q s w') →
  (¬ receivable d size w → ∀ e w', E e w') → wp (recv_exact size d) Q E C w.
Proof.
  intros Hs HQ HE. apply (recv_loop_wp _ _ _ ""); [done|change (str_len "") with 0; lia|done|].
  intros Hn. apply HE. change (str_len "") with 0 in Hn. by rewrite Z.sub_0_r in Hn.
Qed.

(** ** Packets *)

(** The bytes of a packet. *)
Definition packet_bytes (p : packet) : res string :=
  length ← pack_unsigned 4 (16 + str_len (p_body_bytes p));
  header ← pack_header (p_version p) (p_message_id p) (p_request_id p) (p_sequence_number p)
             (p_error_code p) (p_flags p);
  Ok (length +:+ header +:+ p_body_bytes p).

(** The text of its body, which a compressed one has none of yet. *)
Definition own_body (p : packet) : Prop :=
  p_body p = if p_flags p =? 0 then decode_replace (p_body_bytes p) else "".

Definition slice (off k : nat) (s : string) : string := str_take k (str_skip off s).

Lemma slice_mid (a s b : string) : slice (String.length a) (String.length s) (a +:+ s +:+ b) = s.
Proof.
  unfold slice. rewrite str_skip_app, take_app_str, Nat.sub_diag, str_take_full by done.
  apply app_str_nil_r.
Qed.

Lemma str_skip_skip a b s : str_skip a (str_skip b s) = str_skip (b + a) s.
Proof. revert s. induction b as [|b IH]; intros s; [done|]. destruct s; [by destruct a|apply IH]. Qed.

Lemma slice_next off k s : slice off k s +:+ str_skip (off + k) s = str_skip off s.
Proof. unfold slice. by rewrite <- str_skip_skip, str_take_skip. Qed.

Lemma slice_length off k s :
  (off + k ≤ String.length s)%nat → String.length (slice off k s) = k.
Proof. intros Hk. unfold slice. rewrite str_take_length, str_skip_length. lia. Qed.

Lemma pack_Ok k z s :
  pack_unsigned k z = Ok s ↔ String.length s = k ∧ z = Z.of_N (be_value 0 s).
Proof.
  unfold pack_unsigned. split.
  - destruct ((0 <=? z) && _) eqn:Hz; [|done]. intros [= <-]. rewrite be_bytes_length. split; [done|].
    apply andb_true_iff in Hz as [H0%Z.leb_le H1%Z.ltb_lt].
    rewrite be_value_bytes; [lia|]. apply N2Z.inj_lt. rewrite N2Z.inj_pow, Z2N.id, nat_N_Z by lia.
    exact H1.
  - intros [<- ->]. pose proof (be_value_bound s) as Hb. apply N2Z.inj_lt in Hb.
    rewrite N2Z.inj_pow, nat_N_Z in Hb. change (Z.of_N 256) with 256 in Hb.
    rewrite (proj2 (Z.leb_le _ _)), (proj2 (Z.ltb_lt _ _)) by lia. simpl.
    by rewrite N2Z.id, be_bytes_value.
Qed.

Lemma signed_range u : 0 <= u < 2 ^ 32 →
  let z := if u <? 2 ^ 31 then u else u - 2 ^ 32 in - 2 ^ 31 <= z < 2 ^ 31 ∧ z mod 2 ^ 32 = u.
Proof.
  intros Hu. simpl. destruct (Z.ltb_spec u (2 ^ 31)).
  - split; [lia|]. apply Z.mod_small. lia.
  - split; [lia|]. symmetry. apply (Z.mod_unique _ _ (-1)); lia.
Qed.

Lemma pack_signed_Ok z s :
  pack_signed32 z = Ok s ↔
  String.length s = 4%nat ∧
  z = let u := Z.of_N (be_value 0 s) in if u <? 2 ^ 31 then u else u - 2 ^ 32.
Proof.
  assert (Hb : String.length s = 4%nat → 0 <= Z.of_N (be_value 0 s) < 2 ^ 32).
  { intros Hs. pose proof (be_value_bound s) as Hb. rewrite Hs in Hb.
    change (256 ^ N.of_nat 4)%N with 4294967296%N in Hb. lia. }
  unfold pack_signed32. split.
  - destruct ((_ <=? z) && _) eqn:Hz; [|done]. intros <-%Ok_inj. rewrite be_bytes_length. split; [done|].
    apply andb_true_iff in Hz as [H0%Z.leb_le H1%Z.ltb_lt].
    pose proof (Z.mod_pos_bound z (2 ^ 32) ltac:(lia)).
    rewrite be_value_bytes by (change (256 ^ N.of_nat 4)%N with 4294967296%N; lia).
    rewrite N.mul_0_l, N.add_0_l, Z2N.id by lia. cbv zeta.
    destruct (Z.ltb_spec (z mod 2 ^ 32) (2 ^ 31)); pose proof (Z.div_mod z (2 ^ 32) ltac:(lia)); nia.
  - intros [Hs ->]. specialize (Hb Hs). destruct (signed_range _ Hb) as [[H0 H1] H2]. cbv zeta in *.
    rewrite (proj2 (Z.leb_le _ _) H0), (proj2 (Z.ltb_lt _ _) H1), H2.
    cbn [andb]. by rewrite N2Z.id, <- Hs, be_bytes_value.
Qed.

(** ** The header *)

Lemma unpack_head k (s b : string) :
  String.length s = k → unpack_unsigned 0 k (s +:+ b) = Z.of_N (be_value 0 s).
Proof. intros <-. unfold unpack_unsigned. f_equal. f_equal. apply (slice_mid "" s b). Qed.

Lemma unpack_tail n off k (a b : string) :
  String.length a = n → unpack_unsigned (n + off) k (a +:+ b) = unpack_unsigned off k b.
Proof. intros <-. unfold unpack_unsigned. by rewrite <- str_skip_skip, str_skip_app. Qed.

Definition header_fields (h : string) : Z * Z * Z * Z * Z * Z :=
  (unpack_unsigned 0 1 h, unpack_unsigned 1 2 h, unpack_unsigned 3 4 h, unpack_unsigned 7 4 h,
   unpack_signed32 11 h, unpack_unsigned 15 1 h).

Lemma pack_header_fields v m r sq e f h b :
  pack_header v m r sq e f = Ok h →
  String.length h = 16%nat ∧ header_fields (h +:+ b) = (v, m, r, sq, e, f).
Proof.
  unfold pack_header. intros Hh. res_inv.
  repeat match goal with
  | H : pack_unsigned _ _ = Ok _ |- _ => apply pack_Ok in H as [? ->]
  | H : pack_signed32 _ = Ok _ |- _ => apply pack_signed_Ok in H as [? ->]
  end.
  split; [rewrite !length_app_str; lia|]. unfold header_fields, unpack_signed32.
  rewrite !app_str_assoc.
  rewrite unpack_head by done.
  rewrite (unpack_tail 1 0 2), unpack_head by done.
  rewrite (unpack_tail 1 2 4), (unpack_tail 2 0 4), unpack_head by done.
  rewrite (unpack_tail 1 6 4), (unpack_tail 2 4 4), (unpack_tail 4 0 4), unpack_head by done.
  rewrite (unpack_tail 1 10 4), (unpack_tail 2 8 4), (unpack_tail 4 4 4), (unpack_tail 4 0 4),
    unpack_head by done.
  rewrite (unpack_tail 1 14 1), (unpack_tail 2 12 1), (unpack_tail 4 8 1), (unpack_tail 4 4 1),
    (unpack_tail 4 0 1), unpack_head by done.
  done.
Qed.

Lemma pack_unpack off k s :
  (off + k ≤ String.length s)%nat → pack_unsigned k (unpack_unsigned off k s) = Ok (slice off k s).
Proof. intros Hs. apply pack_Ok. split; [by apply slice_length|done]. Qed.

Lemma pack_unpack_signed off s :
  (off + 4 ≤ String.length s)%nat → pack_signed32 (unpack_signed32 off s) = Ok (slice off 4 s).
Proof. intros Hs. apply pack_signed_Ok. split; [by apply slice_length|done]. Qed.

Lemma pack_header_unpack s :
  (16 ≤ String.length s)%nat →
  ∃ h, pack_header (unpack_unsigned 0 1 s) (unpack_unsigned 1 2 s) (unpack_unsigned 3 4 s)
         (unpack_unsigned 7 4 s) (unpack_signed32 11 s) (unpack_unsigned 15 1 s) = Ok h ∧
       s = h +:+ str_skip 16 s.
Proof.
  intros Hs. unfold pack_header. rewrite !pack_unpack, pack_unpack_signed by lia.
  eexists; split; [done|]. rewrite !app_str_assoc.
  change s with (str_skip 0 s) at 1.
  by rewrite <- (slice_next 0 1), <- (slice_next 1 2), <- (slice_next 3 4), <- (slice_next 7 4),
    <- (slice_next 11 4), <- (slice_next 15 1).
Qed.

(** ** Packets as a whole *)

Lemma packet_bytes_payload p bs :
  packet_bytes p = Ok bs → own_body p →
  ∃ prefix payload, bs = prefix +:+ payload ∧ String.length prefix = 4%nat ∧
    unpack_unsigned 0 4 prefix = 16 + str_len (p_body_bytes p) ∧
    str_len payload = 16 + str_len (p_body_bytes p) ∧ unpack_payload payload = p.
Proof.
  unfold packet_bytes. intros Hbs Hown. res_inv.
  match goal with H : pack_header _ _ _ _ _ _ = Ok ?h, H' : pack_unsigned 4 _ = Ok ?l |- _ =>
    destruct (pack_header_fields _ _ _ _ _ _ _ (p_body_bytes p) H) as [Hlen Hf];
    apply pack_Ok in H' as [Hl Hv]; exists l, (h +:+ p_body_bytes p);
    assert (str_skip 16 (h +:+ p_body_bytes p) = p_body_bytes p) as Hb
      by (rewrite <- Hlen; apply str_skip_app)
  end.
  split; [done|]. split; [done|]. split.
  { rewrite Hv, <- (unpack_head 4 _ "") by done. by rewrite app_str_nil_r. }
  split; [rewrite str_len_app; unfold str_len at 1; lia|].
  unfold unpack_payload. rewrite Hb. injection Hf as -> -> -> -> -> ->.
  unfold own_body in Hown. destruct p. simpl in *. by rewrite Hown.
Qed.

Lemma payload_packet_bytes prefix payload :
  String.length prefix = 4%nat → str_len payload = unpack_unsigned 0 4 prefix → 16 <= str_len payload →
  packet_bytes (unpack_payload payload) = Ok (prefix +:+ payload) ∧ own_body (unpack_payload payload).
Proof.
  intros Hp Hl H16. split; [|done]. unfold packet_bytes, unpack_payload.
  cbn [p_version p_message_id p_request_id p_sequence_number p_error_code p_flags p_body_bytes].
  destruct (pack_header_unpack payload) as (h & -> & Hh); [unfold str_len in H16; lia|].
  assert (16 + str_len (str_skip 16 payload) = str_len payload) as ->.
  { unfold str_len in *. rewrite str_skip_length. lia. }
  rewrite Hl, pack_unpack by lia.
  assert (slice 0 4 prefix = prefix) as -> by (apply (str_take_full 4 prefix); lia).
  unfold mbind, res_bind. by rewrite <- Hh.
Qed.
(** The bytes of a packet that is within the limit of a frame. *)
Definition frame (p : packet) (bs : string) : Prop :=
  packet_bytes p = Ok bs ∧ own_body p ∧ 16 + str_len (p_body_bytes p) <= MAX_PAYLOAD.

Lemma frame_parts p bs :
  frame p bs →
  ∃ prefix payload, bs = prefix +:+ payload ∧ str_len prefix = 4 ∧
    16 <= unpack_unsigned 0 4 prefix <= MAX_PAYLOAD ∧
    str_len payload = unpack_unsigned 0 4 prefix ∧ unpack_payload payload = p.
Proof.
  intros (Hb & Ho & Hm). destruct (packet_bytes_payload p bs Hb Ho) as (pre & pay & -> & H1 & H2 & H3 & H4).
  exists pre, pay. split; [done|]. split; [unfold str_len; lia|].
  pose proof (str_len_ge (p_body_bytes p)). split; [lia|]. split; [lia|done].
Qed.

Lemma delivers_prefix a b l l2 : delivers (a +:+ b) l l2 → str_len a <= str_len (lead l).1.
Proof.
  intros (r & t & -> & _). simpl. rewrite !str_len_app. pose proof (str_len_ge b).
  pose proof (str_len_ge r). lia.
Qed.

(** A frame is ready, and there is time to read it. *)
Definition frame_ready (d : option pfloat) (w : wire) : Prop :=
  open w ∧ in_time d w ∧ ∃ p bs l', frame p bs ∧ delivers bs (w_in w) l'.

Lemma recv_packet_wp d w (Q : packet → wire → Prop) (E : exn → wire → Prop) C :
  (∀ p bs w', same_client w w' → frame p bs → delivers bs (w_in w) (w_in w') → Q p w') →
  (¬ frame_ready d w → ∀ e w', E e w') → wp (recv_business_packet d) Q E C w.
Proof.
  intros HQ HE. unfold recv_business_packet. apply wp_bind. apply recv_exact_wp; [done| |].
  2: { intros Hn. apply HE. intros (Ho & Ht & p & bs & l' & Hf & Hd). apply Hn.
       apply frame_parts in Hf as (pre & pay & -> & Hp & _). apply delivers_prefix in Hd.
       split; [done|split; [done|lia]]. }
  intros pre w1 Hw1 Hp1 Hd1.
  assert (∀ p bs l', frame p bs → delivers bs (w_in w) l' →
          16 <= unpack_unsigned 0 4 pre <= MAX_PAYLOAD ∧
          unpack_unsigned 0 4 pre <= str_len (lead (w_in w1)).1) as Hpre.
  { intros p bs l' (pre' & pay & -> & Hp & Hr & Hpay & _)%frame_parts Hd.
    destruct (delivers_cut _ _ _ _ _ _ Hd Hd1) as [-> Hd2]; [unfold str_len in *; lia|].
    split; [done|]. rewrite <- Hpay. apply (delivers_prefix pay "" _ l'). by rewrite app_str_nil_r. }
  cbv zeta. destruct ((_ <? 16) || _) eqn:Hrange.
  { apply wp_raise, HE. intros (_ & _ & p & bs & l' & Hf & Hd). destruct (Hpre p bs l' Hf Hd) as [Hr _].
    apply orb_true_iff in Hrange as [?%Z.ltb_lt|?%Z.ltb_lt]; lia. }
  apply orb_false_iff in Hrange as [H16%Z.ltb_ge Hmax%Z.ltb_ge].
  apply wp_bind. apply recv_exact_wp; [lia| |].
  - intros pay w2 Hw2 Hpay Hd2. apply wp_ret. apply (HQ _ (pre +:+ pay)); [by rewrite Hw1| |].
    + destruct (payload_packet_bytes pre pay) as [Hb Ho]; [unfold str_len in *; lia|done|lia|].
      split; [done|]. split; [done|]. cbn [unpack_payload p_body_bytes].
      unfold str_len in *. rewrite str_skip_length. lia.
    + by eapply delivers_trans.
  - intros Hn. apply HE. intros (Ho & Ht & p & bs & l' & Hf & Hd). apply Hn.
    destruct (Hpre p bs l' Hf Hd) as [_ Hr]. destruct Hw1 as (_ & Hc & _ & _ & Hk).
    split; [unfold open in *; congruence|]. split; [by apply (in_time_mono _ w)|done].
Qed.

(** The widths of the fields. *)
Definition well_typed (p : packet) : Prop :=
  0 <= p_version p < 2 ^ 8 ∧ 0 <= p_message_id p < 2 ^ 16 ∧ 0 <= p_request_id p < 2 ^ 32 ∧
  0 <= p_sequence_number p < 2 ^ 32 ∧ - 2 ^ 31 <= p_error_code p < 2 ^ 31 ∧
  0 <= p_flags p < 2 ^ 8 ∧ str_len (p_body_bytes p) <= MAX_PAYLOAD - 16 ∧ is_text (p_body p).

Lemma pack_range k z s : pack_unsigned k z = Ok s → 0 <= z < 256 ^ Z.of_nat k.
Proof.
  unfold pack_unsigned. destruct ((0 <=? z) && _) eqn:Hz; [|done]. intros _.
  apply andb_true_iff in Hz as [H0%Z.leb_le H1%Z.ltb_lt]. lia.
Qed.
Lemma pack_signed_range z s : pack_signed32 z = Ok s → - 2 ^ 31 <= z < 2 ^ 31.
Proof.
  unfold pack_signed32. destruct ((_ <=? z) && _) eqn:Hz; [|done]. intros _.
  apply andb_true_iff in Hz as [H0%Z.leb_le H1%Z.ltb_lt]. lia.
Qed.

Lemma frame_well_typed p bs : frame p bs → well_typed p.
Proof.
  intros (Hb & Ho & Hm). unfold packet_bytes, pack_header in Hb. res_inv.
  repeat match goal with
  | H : pack_unsigned _ _ = Ok _ |- _ => apply pack_range in H; simpl in H
  | H : pack_signed32 _ = Ok _ |- _ => apply pack_signed_range in H
  end.
  do 7 (split; [lia|]). rewrite Ho.
  destruct (_ =? 0); [apply decode_replace_is_text|done].
Qed.

Lemma encode_frame message_id request_id body version flags bs :
  encode_business_packet message_id request_id body version flags = Ok bs → is_text body →
  16 + str_len body <= MAX_PAYLOAD →
  frame (Packet version message_id request_id 0 0 flags body (if flags =? 0 then body else "")) bs.
Proof.
  intros Hb Ht Hm. split; [done|]. split; [|done]. unfold own_body. simpl.
  by rewrite (decode_replace_text body).
Qed.

(** Frames are prefix-free. *)
Lemma frame_unique p q bs cs l l1 l2 :
  frame p bs → frame q cs → delivers bs l l1 → delivers cs l l2 → p = q ∧ bs = cs.
Proof.
  intros (a & x & -> & Ha & _ & Hx & <-)%frame_parts (b & y & -> & Hb & _ & Hy & <-)%frame_parts H1 H2.
  assert (∃ l3, delivers b l l3 ∧ delivers y l3 l2) as (l3 & H3 & H4).
  { destruct H2 as (r & t & H2 & H2'). rewrite app_str_assoc in H2.
    destruct b as [|c b]; [by unfold str_len in Hb|]. destruct y as [|d y].
    - exists l2. split; [|by apply delivers_nil]. exists r, t. done.
    - exists (Data d y :: l2). split.
      + exists (String d y +:+ r), t. split; [done|]. cbn [lead]. by rewrite H2'.
      + exists r, t. split; [|done]. cbn [lead]. by rewrite H2'. }
  destruct (delivers_cut _ _ _ _ _ _ H1 H3) as [-> H5]; [unfold str_len in *; lia|].
  rewrite <- (app_str_nil_r x) in H5.
  destruct (delivers_cut _ _ _ _ _ _ H5 H4) as [-> _]; [unfold str_len in *; lia|]. done.
Qed.

(** C28: A packet that [encode_business_packet] wrote and that is within the limit of a frame is read
    back by [recv_business_packet] with every field, from any pieces it arrives in, before the
    deadline; and whatever is read, on any connection, was delivered as exactly the bytes of the
    packet returned, whose fields have their widths and whose body is a text, and reading ends. *)
Theorem packet_roundtrip d w :
  (∀ message_id request_id body version flags bs l',
     encode_business_packet message_id request_id body version flags = Ok bs →
     is_text body → 16 + str_len body <= MAX_PAYLOAD → open w → in_time d w →
     delivers bs (w_in w) l' →
     ∃ w', recv_business_packet d w =
             (ORet (Packet version message_id request_id 0 0 flags body
                      (if flags =? 0 then body else "")), w') ∧
           delivers bs (w_in w) (w_in w')) ∧
  match recv_business_packet d w with
  | (ORet p, w') =>
      same_client w w' ∧ well_typed p ∧ ∃ bs, packet_bytes p = Ok bs ∧ delivers bs (w_in w) (w_in w')
  | (ORaise _, _) => True
  | (OCrash, _) => False
  end.
Proof.
  split.
  - intros m r body v f bs l' He Ht Hm Ho Hin Hd. pose proof (encode_frame _ _ _ _ _ _ He Ht Hm) as Hf.
    assert (wp (recv_business_packet d) (λ p w', ∃ cs, frame p cs ∧ delivers cs (w_in w) (w_in w'))
              (λ _ _, False) (λ _, False) w) as Hwp.
    { apply recv_packet_wp; [by eauto|]. intros Hn. destruct Hn. split; [done|]. split; [done|]. eauto. }
    unfold wp in Hwp. destruct (recv_business_packet d w) as [[p|e|] w']; try done.
    destruct Hwp as (cs & Hcs & Hd'). destruct (frame_unique _ _ _ _ _ _ _ Hf Hcs Hd Hd') as [<- <-].
    by exists w'.
  - apply (recv_packet_wp d w (λ p w', same_client w w' ∧ well_typed p ∧ ∃ bs, packet_bytes p = Ok bs ∧
             delivers bs (w_in w) (w_in w')) (λ _ _, True) (λ _, False)); [|done].
    intros p bs w' Hw Hf Hd. split; [done|]. split; [by eapply frame_well_typed|].
    exists bs. split; [apply Hf|done].
Qed.
(** ** What reading can raise *)

(** The faults of a connection are [OSError]s, as those of a socket are. *)
Definition faults_ok (l : list arrival) : Prop :=
  ∀ e, Fault e ∈ l → exn_isa COSError e = true.

Definition reading (w0 w : wire) : Prop :=
  same_client w0 w ∧ (faults_ok (w_in w0) → faults_ok (w_in w)).

(** Nothing but the stream, the clock and the timeout changes, and what is
    raised is caught by the callers. *)
Definition receives {A} (m : WM A) : Prop := ∀ w0 w,
  reading w0 w →
  wp m (λ _ w', reading w0 w') (λ e w', reading w0 w' ∧ (faults_ok (w_in w0) → caught e = true))
    (λ _, True) w.

Lemma receives_bind {A B} (m : WM A) (f : A → WM B) :
  receives m → (∀ a, receives (f a)) → receives (m ≫= f).
Proof.
  intros Hm Hf w0 w Hw. apply wp_bind. eapply wp_mono; [by apply (Hm w0)|..]; [|done|done].
  intros a w' Hw'. by apply Hf.
Qed.
Lemma receives_ret {A} (a : A) : receives (mret a).
Proof. by intros w0 w Hw. Qed.
Lemma receives_raise {A} c msg : caught (Exn c msg) = true → receives (A := A) (w_raise c msg).
Proof. by intros Hc w0 w Hw. Qed.
Lemma receives_lift {A} (r : res A) : (∀ e, r = Raise e → caught e = true) → receives (e_lift r).
Proof. intros Hr w0 w Hw. apply wp_lift; [done|]. intros e He. split; [done|]. intros _. by apply Hr. Qed.
Lemma receives_crash {A} : receives (A := A) (λ w, (OCrash, w)).
Proof. done. Qed.

Lemma reading_step w0 w w' :
  reading w0 w → same_client w w' → (∀ e, Fault e ∈ w_in w' → Fault e ∈ w_in w) → reading w0 w'.
Proof. intros [Hs Hf] Hs' Hin. split; [by rewrite Hs|]. intros Hok e He. apply (Hf Hok), Hin, He. Qed.

Lemma caught_os e : exn_isa COSError e = true → caught e = true.
Proof. unfold caught. intros ->. by rewrite orb_true_r. Qed.

Lemma receives_monotonic : receives read_monotonic.
Proof.
  intros w0 w Hw. unfold wp, read_monotonic. simpl. apply (reading_step _ _ _ Hw); [|done].
  repeat split; simpl; lia.
Qed.

Lemma timeout_raises t e : timeout_ok t = Raise e → caught e = true.
Proof.
  unfold timeout_ok, guard_cls. destruct t; try (destruct (fltb _ _); [|done]); by intros [= <-].
Qed.

Lemma receives_settimeout t : receives (settimeout t).
Proof.
  intros w0 w Hw. unfold wp, settimeout. destruct (timeout_ok t) as [[]|e] eqn:Ht.
  - destruct (w_closed w); [done|]. by apply (reading_step _ _ _ Hw).
  - split; [done|]. intros _. by apply timeout_raises in Ht.
Qed.

Lemma receives_recv n : receives (recv n).
Proof.
  intros w0 w Hw. unfold wp, recv. destruct (w_closed w); [done|].
  destruct (w_in w) as [|[a s| |e] r] eqn:Hin; [done| |done|].
  - apply (reading_step _ _ _ Hw); [by repeat split|]. rewrite Hin. simpl. intros e.
    destruct (str_skip _ _); set_solver.
  - split; [apply (reading_step _ _ _ Hw); [by repeat split|]; rewrite Hin; set_solver|].
    intros Hok. apply caught_os. apply Hw; [done|]. rewrite Hin. set_solver.
Qed.

Lemma receives_check_deadline d : receives (check_deadline d).
Proof.
  destruct d as [d|]; [|apply receives_ret]. apply receives_bind; [apply receives_monotonic|]. intros now.
  cbv zeta. destruct (fleb _ _); [by apply receives_raise|apply receives_settimeout].
Qed.

Lemma receives_recv_loop fuel size d chunks received : receives (recv_loop fuel size d chunks received).
Proof.
  revert chunks received. induction fuel as [|fuel IH]; intros chunks received; cbn [recv_loop];
    destruct (_ <? _); try apply receives_ret; [apply receives_crash|].
  apply receives_bind; [apply receives_check_deadline|]. intros _.
  apply receives_bind; [apply receives_recv|]. intros c.
  destruct (String.eqb c ""); [by apply receives_raise|apply IH].
Qed.

Lemma receives_recv_packet d : receives (recv_business_packet d).
Proof.
  apply receives_bind; [apply receives_recv_loop|]. intros pre. cbv zeta.
  destruct (_ || _); [by apply receives_raise|].
  apply receives_bind; [apply receives_recv_loop|]. intros pay. apply receives_ret.
Qed.
End facts.
