(* ===== verification/WireRequest.v ===== *)
(** * The business protocol: requests

    The contract of [BusinessOperationClient.request]: what a connection has to
    deliver for a request to return, and that nothing else makes it return. *)
From S2P Require Import Prelude PyFloat PyValue PyJson PyEffect PyUtf8 Wire WireFacts.
#[local] Open Scope Z_scope.

Section request.
Context `{WireRuntime}.

(** ** The contract *)

(** A packet of the supported version and its body as a text. *)
Definition reads_as (p q : packet) : Prop :=
  p_version p = 1 ∧
  ((p_flags p = 0 ∧ q = p) ∨
   (p_flags p = 1 ∧ 4 <= str_len (p_body_bytes p) ∧
    ∃ decoded, zlib_decompress (str_skip 4 (p_body_bytes p)) = inr decoded ∧
      str_len decoded = le_value (str_take 4 (p_body_bytes p)) ∧ is_text decoded ∧
      q = set_body decoded p)).

(** The packets that a request consumes and what it returns: push messages, and
    then the response with the number of the request. *)
Inductive answered (request_id expected : Z) : list packet → response → Prop :=
  | answered_push p q ps r :
      reads_as p q → p_message_id p ∈ PUSH_MESSAGE_IDS →
      answered request_id expected ps r → answered request_id expected (p :: ps) r
  | answered_reply p q :
      reads_as p q → p_message_id p ∉ PUSH_MESSAGE_IDS → p_request_id p = request_id →
      answered request_id expected [p]
        (Response q (bool_decide (p_message_id p = expected ∧ p_error_code p = 0))).

(** The connection delivers these packets next, in whatever pieces. *)
Fixpoint delivers_packets (ps : list packet) (l l' : list arrival) : Prop :=
  match ps with
  | [] => lead l = lead l'
  | p :: ps => ∃ bs l1, frame p bs ∧ delivers bs l l1 ∧ delivers_packets ps l1 l'
  end.

Lemma delivers_lead bs l m l' : lead l = lead m → delivers bs l l' → delivers bs m l'.
Proof. intros Hl (r & t & H1 & H2). exists r, t. by rewrite <- Hl. Qed.

Lemma delivers_packets_lead ps l m l' :
  lead l = lead m → delivers_packets ps l l' → delivers_packets ps m l'.
Proof.
  destruct ps as [|p ps]; simpl; [congruence|]. intros Hl (bs & l1 & Hf & Hd & Hr).
  exists bs, l1. split; [done|]. split; [|done]. by apply (delivers_lead bs l).
Qed.

Lemma delivers_same bs l l1 l2 : delivers bs l l1 → delivers bs l l2 → lead l1 = lead l2.
Proof.
  intros (r1 & t1 & H1 & H2) (r2 & t2 & H3 & H4). rewrite H1 in H3. injection H3 as H3 ->.
  apply app_str_cancel in H3 as [_ ->]; [|done]. congruence.
Qed.

(** ** Responses *)

Lemma flags_spec f : 0 <= f < 2 ^ 8 →
  (negb (Z.land f (Z.lnot 1) =? 0) = false ↔ f = 0 ∨ f = 1) ∧ (Z.land f 1 = f mod 2).
Proof.
  intros Hf. rewrite <- Z.ldiff_land. change 1 with (Z.ones 1).
  rewrite Z.ldiff_ones_r, Z.land_ones by lia. split; [|done].
  rewrite Z.shiftl_mul_pow2, Z.shiftr_div_pow2 by lia. change (2 ^ 1) with 2.
  rewrite negb_false_iff, Z.eqb_eq. change (Z.ones 1) with 1.
  pose proof (Z.div_mod f 2 ltac:(lia)). pose proof (Z.mod_pos_bound f 2 ltac:(lia)). lia.
Qed.

Lemma inspect_Ok p q : well_typed p → (inspect p = Ok q ↔ reads_as p q).
Proof.
  intros (_ & _ & _ & _ & _ & Hf & _). destruct (flags_spec _ Hf) as [Hland Hbit].
  unfold inspect, reads_as. split.
  - intros Hi. apply res_bind_ok in Hi as ([] & Hv%guard_cls_ok & Hi).
    apply res_bind_ok in Hi as ([] & Hfl%guard_cls_ok & Hi).
    apply negb_false_iff, Z.eqb_eq in Hv. split; [done|]. apply Hland in Hfl.
    rewrite Hbit in Hi. destruct Hfl as [Hfl|Hfl]; rewrite Hfl in Hi; simpl in Hi; res_inv; [by left|].
    right. split; [done|]. rewrite Z.ltb_ge in *. split; [done|].
    destruct (zlib_decompress _) as [exc|decoded]; res_inv. exists decoded. bool_split.
    match goal with H : decode_strict _ = Ok _ |- _ => apply decode_strict_Ok in H as [-> ?] end.
    split; [done|]. by rewrite Z.eqb_eq in *.
  - intros [Hv Hfl]. rewrite Hv. unfold guard_cls. cbn [Z.eqb Pos.eqb negb mbind res_bind].
    assert (negb (Z.land (p_flags p) (Z.lnot 1) =? 0) = false) as ->
      by (apply Hland; destruct Hfl as [[]|[]]; auto).
    rewrite Hbit. destruct Hfl as [[-> ->]|(-> & H4 & d & Hz & Hd & Ht & ->)]; [done|].
    change (1 mod 2 =? 0) with false. cbv zeta. cbn [mbind res_bind].
    rewrite (proj2 (Z.ltb_ge _ _) H4). cbn [mbind res_bind].
    rewrite Hz, Hd, Z.eqb_refl. cbn [negb mbind res_bind]. by rewrite Ht.
Qed.

Lemma push_spec p : existsb (Z.eqb (p_message_id p)) PUSH_MESSAGE_IDS = true
                    ↔ p_message_id p ∈ PUSH_MESSAGE_IDS.
Proof.
  rewrite existsb_exists, list_elem_of_In. split.
  - intros (x & Hx & ->%Z.eqb_eq). done.
  - intros Hp. exists (p_message_id p). by rewrite Z.eqb_refl.
Qed.

Lemma reads_as_fields p q :
  reads_as p q → p_message_id q = p_message_id p ∧ p_request_id q = p_request_id p ∧
                 p_error_code q = p_error_code p.
Proof. by intros [_ [[_ ->]|(_ & _ & d & _ & _ & _ & ->)]]. Qed.

Lemma classify_None rid ex p : well_typed p →
  (classify rid ex p = Ok None ↔ ∃ q, reads_as p q ∧ p_message_id p ∈ PUSH_MESSAGE_IDS).
Proof.
  intros Hp. unfold classify. split.
  - intros Hc. apply res_bind_ok in Hc as (q & Hq & Hc). apply (inspect_Ok p q Hp) in Hq. exists q.
    split; [done|]. destruct (reads_as_fields p q Hq) as [Hm _].
    destruct (existsb _ _) eqn:Hx; [|res_inv; done]. apply push_spec in Hx. congruence.
  - intros (q & Hq & Hm). rewrite (proj2 (inspect_Ok p q Hp) Hq). cbn [mbind res_bind].
    destruct (reads_as_fields p q Hq) as [He _]. rewrite <- He in Hm. apply push_spec in Hm.
    by rewrite Hm.
Qed.

Lemma classify_Some rid ex p r : well_typed p →
  (classify rid ex p = Ok (Some r) ↔
   ∃ q, reads_as p q ∧ p_message_id p ∉ PUSH_MESSAGE_IDS ∧ p_request_id p = rid ∧
        r = Response q (bool_decide (p_message_id p = ex ∧ p_error_code p = 0))).
Proof.
  intros Hp.
  assert (∀ q, (p_message_id q =? ex) && (p_error_code q =? 0)
               = bool_decide (p_message_id q = ex ∧ p_error_code q = 0)) as Hok.
  { intros q. symmetry. destruct (Z.eqb_spec (p_message_id q) ex), (Z.eqb_spec (p_error_code q) 0);
      simpl; case_bool_decide; naive_solver. }
  unfold classify. split.
  - intros Hc. apply res_bind_ok in Hc as (q & Hq & Hc). apply (inspect_Ok p q Hp) in Hq. exists q.
    split; [done|]. destruct (reads_as_fields p q Hq) as (Hm & Hr & He).
    destruct (existsb _ _) eqn:Hx; [done|]. res_inv. bool_split. rewrite Z.eqb_eq in *.
    rewrite <- Hm, <- He, Hok. split; [|split; [congruence|congruence]].
    intros Hin%push_spec. congruence.
  - intros (q & Hq & Hm & Hr & ->). rewrite (proj2 (inspect_Ok p q Hp) Hq). cbn [mbind res_bind].
    destruct (reads_as_fields p q Hq) as (Hm' & Hr' & He').
    destruct (existsb _ _) eqn:Hx.
    { apply push_spec in Hx. congruence. }
    rewrite Hr', Hr, Z.eqb_refl. simpl. by rewrite Hok, Hm', He'.
Qed.

Lemma classify_raises rid ex p e : classify rid ex p = Raise e → caught e = true.
Proof.
  unfold classify, inspect, guard_cls. intros Hc.
  repeat match goal with
  | H : (_ ≫= _) = Raise _ |- _ => apply res_bind_raise in H as [H|(? & ? & H)]
  | H : (if ?b then _ else _) = Raise _ |- _ => destruct b
  | H : match zlib_decompress ?x with _ => _ end = Raise _ |- _ => destruct (zlib_decompress x)
  | H : decode_strict _ = Raise _ |- _ => apply decode_strict_raises in H
  | H : Raise _ = Raise _ |- _ => injection H as <-
  | H : Ok _ = Raise _ |- _ => discriminate H
  end; try done.
  unfold caught, exn_isa. by rewrite Hc.
Qed.
(** ** The loop *)

(** The connection delivers an answer, and there is time to read it. *)
Definition answer_ready (rid ex : Z) (d : pfloat) (w : wire) : Prop :=
  open w ∧ in_time (Some d) w ∧
  ∃ ps r l', delivers_packets ps (w_in w) l' ∧ answered rid ex ps r.

Lemma frame_size p bs : frame p bs → 20 <= str_len bs.
Proof. intros (a & x & -> & Ha & Hr & Hx & _)%frame_parts. rewrite str_len_app. lia. Qed.

(** An answer that is ready starts with the packet that is read. *)
Lemma answer_ready_head rid ex d w :
  answer_ready rid ex d w → frame_ready (Some d) w.
Proof.
  intros (Ho & Ht & ps & r & l' & Hd & Ha). split; [done|]. split; [done|].
  inversion Ha; subst; destruct Hd as (bs & l1 & Hf & Hd & _); eauto.
Qed.

Lemma answer_ready_step rid ex d w w' p bs :
  answer_ready rid ex d w → same_client w w' → frame p bs → delivers bs (w_in w) (w_in w') →
  (∃ r, classify rid ex p = Ok (Some r)) ∨
  (classify rid ex p = Ok None ∧ answer_ready rid ex d w').
Proof.
  intros (Ho & Ht & ps & r & l' & Hd & Ha) (_ & Hc & _ & _ & Hk) Hf Hbs.
  pose proof (frame_well_typed p bs Hf) as Hp.
  inversion Ha as [p0 q ps0 r0 Hq Hm Ha0|p0 q Hq Hm Hr]; subst;
    destruct Hd as (cs & l1 & Hf' & Hd & Hrest);
    destruct (frame_unique _ _ _ _ _ _ _ Hf Hf' Hbs Hd) as [<- <-].
  - right. split; [apply classify_None; eauto|]. split; [unfold open in *; congruence|].
    split; [by apply (in_time_mono _ w)|]. exists ps0, r, l'. split; [|done].
    apply (delivers_packets_lead ps0 l1); [|done]. by apply (delivers_same bs (w_in w)).
  - left. eexists. apply classify_Some; [done|]. eauto.
Qed.

Lemma request_loop_wp fuel rid ex d w (Q : response → wire → Prop) (E : exn → wire → Prop) C :
  str_len (lead (w_in w)).1 < Z.of_nat fuel →
  (∀ ps r w', same_client w w' → delivers_packets ps (w_in w) (w_in w') → answered rid ex ps r →
              Q r w') →
  (¬ answer_ready rid ex d w → ∀ e w', E e w') →
  wp (request_loop fuel rid ex d) Q E C w.
Proof.
  revert w Q E. induction fuel as [|fuel IH]; intros w Q E Hf HQ HE.
  { pose proof (str_len_ge (lead (w_in w)).1). lia. }
  cbn [request_loop]. apply wp_bind. apply recv_packet_wp.
  2: { intros Hn. apply HE. by intros Hr%answer_ready_head. }
  intros p bs w1 Hw1 Hfr Hd. pose proof (frame_well_typed p bs Hfr) as Hp.
  apply wp_bind. apply wp_lift.
  2: { intros e He. apply HE. intros Hr.
       destruct (answer_ready_step _ _ _ _ _ _ _ Hr Hw1 Hfr Hd) as [[r Hc]|[Hc _]]; congruence. }
  intros [r|] Hc.
  - apply wp_ret. apply classify_Some in Hc as (q & Hq & Hm & Hr & ->); [|done].
    apply (HQ [p]); [done| |by apply answered_reply]. exists bs, (w_in w1). done.
  - apply IH.
    + apply delivers_left in Hd. apply frame_size in Hfr. lia.
    + intros ps r w2 Hw2 Hd2 Ha. apply (HQ (p :: ps)); [by rewrite Hw1| |].
      * exists bs, (w_in w1). done.
      * pose proof Hc as (q & Hq & Hm)%classify_None; [|done]. by eapply answered_push.
    + intros Hn. apply HE. intros Hr. apply Hn.
      destruct (answer_ready_step _ _ _ _ _ _ _ Hr Hw1 Hfr Hd) as [[r Hc']|[_ ?]]; [congruence|done].
Qed.

Lemma receives_request_loop fuel rid ex d : receives (request_loop fuel rid ex d).
Proof.
  induction fuel as [|fuel IH]; cbn [request_loop]; [apply receives_crash|].
  apply receives_bind; [apply receives_recv_packet|]. intros p.
  apply receives_bind; [apply receives_lift, classify_raises|].
  intros [r|]; [apply receives_ret|apply IH].
Qed.

(** ** The request *)

(** The connection on which the response to a request is awaited. *)
Definition sent (w w' : wire) (data : string) : Prop :=
  w_out w' = w_out w +:+ data ∧ next_request_id w' = next_request_id w + 1 ∧
  w_closed w' = w_closed w ∧ timeout_seconds w' = timeout_seconds w.

(** What a request does to its connection whatever happens, and what its
    return means. *)
Definition returned (m ex : Z) (body : string) (w : wire) (r : response) (w' : wire) : Prop :=
  ∃ data ps, encode_business_packet m (next_request_id w) body 1 0 = Ok data ∧
    w_out w' = w_out w +:+ data ∧ next_request_id w' = next_request_id w + 1 ∧
    delivers_packets ps (w_in w) (w_in w') ∧ answered (next_request_id w) ex ps r.

(** The connection is as open as it was and its faults are those it had. *)
Definition kept (w w' : wire) : Prop :=
  w_closed w' = w_closed w ∧ (faults_ok (w_in w) → faults_ok (w_in w')).

Lemma kept_reading w w1 w' : kept w w1 → reading w1 w' → kept w w'.
Proof. intros [H1 H2] [(_ & Hc & _) Hf]. split; [congruence|auto]. Qed.

(** [sendall] fails with an [OSError] only. *)
Definition sends_ok : Prop := ∀ t k e, wt_send t = Some (k, e) → exn_isa COSError e = true.

Lemma settimeout_wp t w (Q : unit → wire → Prop) (E : exn → wire → Prop) C :
  Q () (with_timeout t w) → (∀ e, caught e = true → E e w) → wp (settimeout t) Q E C w.
Proof.
  intros HQ HE. unfold wp, settimeout. destruct (timeout_ok t) as [[]|e] eqn:Ht.
  - destruct (w_closed w); [by apply HE|done].
  - by apply HE, timeout_raises with t.
Qed.

Lemma sendall_wp s w (Q : unit → wire → Prop) (E : exn → wire → Prop) C :
  (∀ w', w' = with_out (w_out w +:+ s) (with_tick (S (w_tick w)) w) → Q () w') →
  (∀ e w', w_closed w' = w_closed w → w_in w' = w_in w → (sends_ok → caught e = true) → E e w') →
  wp (sendall s) Q E C w.
Proof.
  intros HQ HE. unfold wp, sendall. destruct (w_closed w) eqn:Hc; [by apply HE|].
  destruct (wt_send (w_tick w)) as [[k e]|] eqn:Hs; [|by apply HQ].
  apply HE; [done|done|]. intros Hok. by apply caught_os, (Hok _ _ _ Hs).
Qed.

Lemma request_wp m ex body timeout w (Q : response → wire → Prop) (E : exn → wire → Prop) C :
  (∀ r w', kept w w' → returned m ex body w r w' → Q r w') →
  (∀ e w', kept w w' →
     (sends_ok → faults_ok (w_in w) → is_ok (encode_business_packet m (next_request_id w) body 1 0) = true →
      caught e = true) → E e w') →
  wp (request m ex body timeout) Q E C w.
Proof.
  intros HQ HE. unfold request. apply wp_bind, wp_gets. apply wp_bind. unfold wp at 1, read_monotonic.
  apply wp_bind. apply settimeout_wp.
  2: { intros e He. by apply HE. }
  apply wp_bind, wp_gets. apply wp_bind, wp_modify. cbn [next_request_id with_timeout with_tick].
  apply wp_bind, wp_lift.
  2: { intros e He. apply HE; [done|]. by rewrite He. }
  intros data Hdata. apply wp_bind. apply sendall_wp.
  2: { intros e w' Hc Hi He. apply HE; [split; [done|by rewrite Hi]|auto]. }
  intros w1 Hw1. apply wp_bind, wp_gets.
  set (d := fadd _ _). set (fuel := S _). set (rid := next_request_id w) in *.
  assert (kept w w1) as Hk by (by rewrite Hw1).
  eapply wp_mono; [apply wp_and; [apply (receives_request_loop fuel rid ex d w1 w1); by split|
    apply (request_loop_wp fuel rid ex d w1
      (λ r w', same_client w1 w' ∧ ∃ ps, delivers_packets ps (w_in w1) (w_in w') ∧ answered rid ex ps r)
      (λ _ _, True) (λ _, False))]|..]; cbn beta.
  - pose proof (lead_text (w_in w1)). unfold fuel, str_len. lia.
  - intros ps r w' Hs Hd Ha. eauto.
  - done.
  - intros r w' [Hr (Hs & ps & Hd & Ha)]. apply HQ; [by eapply kept_reading|].
    destruct Hs as (Ho & _ & _ & Hn & _). rewrite Hw1 in Ho, Hn, Hd. simpl in Ho, Hn, Hd.
    by exists data, ps.
  - intros e w' [[Hr He] _]. apply HE; [by eapply kept_reading|].
    intros _ Hok _. apply He. by apply Hk.
  - by intros w' [_ []].
Qed.

(** C25: A request that can be sent returns, in time, exactly when the connection delivers push
    messages, in any number and pieces, and then a response of the supported version with the number
    of the request; it returns that response, decompressed when it has to be, as successful exactly
    when it is the expected message without an error code.  In every case the request was sent once,
    its number is not used again, and the call ends. *)
Theorem request_answers message_id expected body timeout w data :
  let t := request_timeout timeout w in
  let deadline := fadd (wt_monotonic (w_tick w)) t in
  timeout_ok t = Ok () → open w → wt_send (S (w_tick w)) = None →
  encode_business_packet message_id (next_request_id w) body 1 0 = Ok data →
  in_time (Some deadline) (with_tick (S (S (w_tick w))) w) →
  match request message_id expected body timeout w with
  | (ORet r, w') =>
      sent w w' data ∧
      ∃ ps, delivers_packets ps (w_in w) (w_in w') ∧ answered (next_request_id w) expected ps r
  | (ORaise e, w') =>
      sent w w' data ∧
      ¬ ∃ ps r l', delivers_packets ps (w_in w) l' ∧ answered (next_request_id w) expected ps r
  | (OCrash, _) => False
  end.
Proof.
  intros t deadline Ht Ho Hs He Hin.
  set (w1 := with_out (w_out w +:+ data) (with_tick (S (S (w_tick w)))
               (with_next_id (next_request_id w + 1) (with_timeout t w)))).
  set (fuel := S (String.length (arrivals_text (w_in w)))).
  assert (request message_id expected body timeout w
          = request_loop fuel (next_request_id w) expected deadline w1) as ->.
  { unfold request, mbind, eff_bind, e_gets, read_monotonic, settimeout, e_modify, e_lift. fold t.
    rewrite Ht. cbn [w_closed with_tick]. unfold open in Ho. rewrite Ho.
    cbn [next_request_id with_timeout with_tick with_next_id]. rewrite He.
    unfold sendall. cbn [w_closed w_tick with_timeout with_tick with_next_id]. by rewrite Ho, Hs. }
  assert (∀ w', same_client w1 w' → sent w w' data) as Hsent.
  { intros w' (Ha & Hb & Hc & Hd & _). repeat split; by rewrite ?Ha, ?Hb, ?Hc, ?Hd. }
  assert (wp (request_loop fuel (next_request_id w) expected deadline)
    (λ r w', ∃ ps, delivers_packets ps (w_in w) (w_in w') ∧ answered (next_request_id w) expected ps r)
    (λ e w', ¬ ∃ ps r l', delivers_packets ps (w_in w) l' ∧ answered (next_request_id w) expected ps r)
    (λ _, False) w1) as H1.
  { apply request_loop_wp.
    - pose proof (lead_text (w_in w)). unfold fuel, str_len. cbn [w1 w_in]. simpl. lia.
    - intros ps r w' _ Hd Ha. by exists ps.
    - intros Hn _ _ (ps & r & l' & Hd & Ha). apply Hn. split; [done|]. split; [done|]. by exists ps, r, l'. }
  pose proof (wp_and _ _ _ _ _ _ _ _ (receives_request_loop fuel (next_request_id w) expected deadline w1 w1
    (conj (reflexivity _) (λ x, x))) H1) as H2.
  unfold wp in H2. destruct (request_loop _ _ _ _ w1) as [[r|e|] w'].
  - destruct H2 as [[Hr _] Ha]. split; [by apply Hsent|done].
  - destruct H2 as [[[Hr _] _] Ha]. split; [by apply Hsent|done].
  - by destruct H2.
Qed.
End request.
