(* ===== verification/WireRuns.v ===== *)
(** * The measured business scenarios: correctness

    A scenario ends with every connection closed, however it ends; a leaderboard
    scenario passes only when every client has had the whole dialogue with the
    gateway. *)
From S2P Require Import Prelude PyFloat PyValue PyJson PyEffect PyUtf8 PerfStatistics Wire WireScenario WireFacts.
From S2P Require Import WireRequest.
#[local] Open Scope Z_scope.

(** What the socket layer promises: connecting, sending and receiving fail with
    [OSError]s. *)
Class SocketErrors `{WireRuntime} : Prop := {
  connect_error fd e : wt_connect fd = Raise e → exn_isa COSError e = true;
  connect_faults fd l : wt_connect fd = Ok l → faults_ok l;
  send_error : sends_ok
}.

Section runs.
Context `{WireRuntime}.

(** ** Sockets *)

Definition upd (n : net) (fd : nat) (w : wire) : net :=
  Net (w_tick w) (n_next n) (<[fd := w]> (n_socks n)) (n_records n).

Lemma wp_on {A} fd (m : WM A) n w (Q : A → net → Prop) (E : exn → net → Prop) (C : net → Prop) :
  n_socks n !! fd = Some w →
  wp m (λ a w', Q a (upd n fd w')) (λ e w', E e (upd n fd w')) (λ w', C (upd n fd w'))
    (with_tick (n_tick n) w) →
  wp (on fd m) Q E C n.
Proof.
  intros Hw Hm. unfold wp, on in *. rewrite Hw.
  by destruct (m _) as [[a|e|] w'].
Qed.

Lemma wp_clock f n (Q : pfloat → net → Prop) E C :
  (∀ t, Q t (Net (S (n_tick n)) (n_next n) (n_socks n) (n_records n))) → wp (clock f) Q E C n.
Proof. intros HQ. apply HQ. Qed.

Lemma wp_elapsed started n (Q : pfloat → net → Prop) E C :
  (∀ t, Q t (Net (S (n_tick n)) (n_next n) (n_socks n) (n_records n))) →
  wp (elapsed_ms started) Q E C n.
Proof. intros HQ. apply wp_bind, wp_clock. intros t. apply wp_ret, HQ. Qed.

Lemma wp_on_caught {A} (m : NM A) h (Q : A → net → Prop) (E : exn → net → Prop) C n :
  wp m Q (λ e n', if caught e then wp (h e) Q E C n' else E e n') C n →
  wp (on_caught m h) Q E C n.
Proof.
  intros Hm. apply wp_try. eapply wp_mono; [exact Hm|done| |done]. intros e n' He.
  revert He. cbn beta. by destruct (caught e).
Qed.

(** The sockets that are open are among [F]. *)
Definition open_in (F : list nat) (n : net) : Prop :=
  (∀ fd w, n_socks n !! fd = Some w → (fd < n_next n)%nat) ∧
  (∀ fd w, n_socks n !! fd = Some w → w_closed w = false → fd ∈ F).

Lemma open_in_mono F G n : F ⊆ G → open_in F n → open_in G n.
Proof. intros HFG [H1 H2]. split; [done|]. intros fd w Hw Hc. apply HFG. by eapply H2. Qed.

Lemma open_in_tick F n t r :
  open_in F n → open_in F (Net t (n_next n) (n_socks n) r).
Proof. done. Qed.

Lemma open_in_upd F n fd w w' :
  n_socks n !! fd = Some w → w_closed w' = w_closed w → open_in F n → open_in F (upd n fd w').
Proof.
  intros Hw Hc [H1 H2]. split; simpl; intros fd' v [[<- <-]|[_ Hv]]%lookup_insert_Some; eauto.
Qed.

Lemma open_in_close F fd n w' :
  w_closed w' = true → (fd < n_next n)%nat → open_in F n →
  open_in (filter (λ x, x ≠ fd) F) (upd n fd w').
Proof.
  intros Hc Hlt [H1 H2]. split; simpl; intros fd' v [[<- <-]|[Hne Hv]]%lookup_insert_Some; eauto.
  - congruence.
  - intros Ho. apply list_elem_of_filter. eauto.
Qed.

Lemma wp_close F fd n (Q : unit → net → Prop) E C :
  open_in F n →
  (∀ n', open_in (filter (λ x, x ≠ fd) F) n' →
     (∀ w, n_socks n !! fd = Some w → n' = upd n fd (with_closed (with_tick (n_tick n) w))) → Q () n') →
  wp (close_client fd) Q E C n.
Proof.
  intros Ho HQ. apply wp_try. destruct (n_socks n !! fd) as [w|] eqn:Hw.
  - eapply wp_on; [done|]. apply wp_modify. apply HQ; [|by intros w' [= <-]].
    apply open_in_close; [done| |done]. by eapply Ho.
  - unfold wp, on. rewrite Hw. apply HQ; [|done]. destruct Ho as [H1 H2]. split; [done|].
    intros fd' w' Hw' Hc. apply list_elem_of_filter. split; [congruence|by eapply H2].
Qed.

Lemma wp_connect F timeout n (Q : nat → net → Prop) (E : exn → net → Prop) C :
  open_in F n →
  (∀ l w n', timeout_ok timeout = Ok () → wt_connect (n_next n) = Ok l →
     w = Wire (n_tick n) l "" false timeout timeout 1 →
     n' = Net (n_tick n) (S (n_next n)) (<[n_next n := w]> (n_socks n)) (n_records n) →
     n_socks n !! n_next n = None → open_in (n_next n :: F) n' → Q (n_next n) n') →
  (∀ e n', n_socks n' = n_socks n → n_records n' = n_records n → (n_next n ≤ n_next n' ≤ S (n_next n))%nat →
     open_in F n' → (SocketErrors → caught e = true) → E e n') →
  wp (connect timeout) Q E C n.
Proof.
  intros [Hlt Ho] HQ HE. unfold wp, connect. destruct (timeout_ok timeout) as [[]|e] eqn:Ht.
  - destruct (wt_connect (n_next n)) as [l|e] eqn:Hl.
    + assert (n_socks n !! n_next n = None) as Hfresh.
      { destruct (n_socks n !! n_next n) eqn:E0; [|done]. apply Hlt in E0. lia. }
      eapply HQ; [done|done|done|done|done|].
      split; simpl; intros fd v [[<- <-]|[Hne Hv]]%lookup_insert_Some; [lia| |set_solver|].
      * apply Hlt in Hv. lia.
      * intros Hc. right. by eapply Ho.
    + apply HE; [done|done|simpl; lia| |].
      * split; simpl; [intros fd v Hv; apply Hlt in Hv; lia|done].
      * intros Herr. by eapply caught_os, connect_error.
  - apply HE; [done|done|lia|done|]. intros _. by eapply timeout_raises.
Qed.
(** ** The dialogue of a client *)

(** A request: its message, the expected one and the body. *)
Definition req : Type := Z * Z * string.

(** From a connection that will deliver [l0], the requests were sent with
    consecutive numbers, and each has had its successful answer before the next. *)
Inductive dialogue (l0 : list arrival) : list req → list arrival → string → Prop :=
  | dialogue_nil : dialogue l0 [] l0 ""
  | dialogue_snoc reqs l l' out m ex body data ps q :
      dialogue l0 reqs l out →
      encode_business_packet m (1 + Z.of_nat (length reqs)) body 1 0 = Ok data →
      delivers_packets ps l l' →
      answered (1 + Z.of_nat (length reqs)) ex ps (Response q true) →
      dialogue l0 (reqs ++ [(m, ex, body)]) l' (out +:+ data).

Section client.
Variables (n0 : net) (F : list nat) (l0 : list arrival).
#[local] Abbreviation fd := (n_next n0).

(** The client's socket exists, and the others are as they were. *)
Definition owns (n : net) : Prop :=
  (∃ w, n_socks n !! fd = Some w) ∧ (∀ fd', fd' ≠ fd → n_socks n !! fd' = n_socks n0 !! fd') ∧
  n_next n = S fd ∧ open_in (fd :: F) n.

(** The client has had the dialogue so far. *)
Definition talks (reqs : list req) (n : net) : Prop :=
  ∃ w, n_socks n !! fd = Some w ∧ dialogue l0 reqs (w_in w) (w_out w) ∧
       next_request_id w = 1 + Z.of_nat (length reqs).

Lemma owns_upd n w w' :
  n_socks n !! fd = Some w → w_closed w' = w_closed w → owns n → owns (upd n fd w').
Proof.
  intros Hw Hc (_ & Hfr & Hn & Ho). split; [exists w'; simpl; by rewrite lookup_insert_eq|].
  split; [intros fd' Hne; simpl; rewrite lookup_insert_ne by done; by apply Hfr|].
  split; [done|]. by apply (open_in_upd _ _ _ w).
Qed.

Lemma talks_upd n reqs w w' m ex body r :
  n_socks n !! fd = Some w → returned m ex body (with_tick (n_tick n) w) r w' → talks reqs n →
  r_ok r = true → talks (reqs ++ [(m, ex, body)]) (upd n fd w').
Proof.
  intros Hw (data & ps & He & Hout & Hid & Hd & Ha) (w1 & Hw1 & Hdia & Hnext) Hok.
  rewrite Hw in Hw1. injection Hw1 as <-. simpl in *. rewrite Hnext in *.
  exists w'. split; [simpl; by rewrite lookup_insert_eq|]. split.
  - rewrite Hout. destruct r as [q b]. simpl in Hok. subst b. by eapply dialogue_snoc.
  - rewrite Hid, length_app. simpl. lia.
Qed.

(** A request of the client. *)
Lemma client_request_wp m ex body timeout n (Q : response → net → Prop) (E : exn → net → Prop) C :
  owns n →
  (∀ r n', owns n' → n_records n' = n_records n →
     (∀ reqs, talks reqs n → r_ok r = true → talks (reqs ++ [(m, ex, body)]) n') → Q r n') →
  (∀ e n', owns n' → n_records n' = n_records n → E e n') →
  wp (on fd (request m ex body timeout)) Q E C n.
Proof.
  intros Hown HQ HE. pose proof Hown as ([w Hw] & _). eapply wp_on; [done|].
  apply request_wp.
  - intros r w' [Hc _] Hr. apply HQ; [by apply (owns_upd n w)|done|].
    intros reqs Ht Hok. by eapply talks_upd.
  - intros e w' [Hc _] _. apply HE; [by apply (owns_upd n w)|done].
Qed.

Lemma measure_wp operation m ex body n C :
  owns n →
  wp (measure fd operation m ex body)
    (λ _ n', owns n' ∧ ∃ r, n_records n' = n_records n ++ [r] ∧ o_operation r = operation ∧
       (∀ reqs, talks reqs n → o_ok r = true → talks (reqs ++ [(m, ex, body)]) n'))
    (λ e n', owns n' ∧ caught e = false) C n.
Proof.
  intros Hown. unfold measure. apply wp_bind, wp_clock. intros started.
  apply wp_on_caught. apply wp_bind. apply client_request_wp; [done| |].
  - intros r n1 Hn1 Hrec Ht. apply wp_bind, wp_elapsed. intros t. apply wp_modify. split; [done|].
    eexists. split; [simpl; by rewrite Hrec|]. split; [done|exact Ht].
  - intros e n1 Hn1 Hrec. destruct (caught e) eqn:Hce; [|done].
    apply wp_bind, wp_elapsed. intros t. apply wp_modify. split; [done|].
    eexists. split; [simpl; by rewrite Hrec|]. by split.
Qed.

(** A list of measured operations. *)
Definition step : Type := string * Z * Z * string.
Definition step_req (x : step) : req := (x.1.1.2, x.1.2, x.2).
Definition measure_step (x : step) : NM unit := measure fd x.1.1.1 x.1.1.2 x.1.2 x.2.

Lemma measure_steps_wp steps n reqs C :
  owns n → n_records n = [] → talks reqs n →
  wp (e_iter measure_step steps)
    (λ _ n', owns n' ∧ map o_operation (n_records n') = map (λ x, x.1.1.1) steps ∧
       (Forall (λ r, o_ok r = true) (n_records n') → talks (reqs ++ map step_req steps) n'))
    (λ e n', owns n' ∧ caught e = false) C n.
Proof.
  intros Hown Hrec Ht. eapply wp_mono;
    [apply (wp_iter _ (λ d r n', owns n' ∧ map o_operation (n_records n') = map (λ x, x.1.1.1) d ∧
       (Forall (λ r, o_ok r = true) (n_records n') → talks (reqs ++ map step_req d) n'))
       (λ e n', owns n' ∧ caught e = false) C _ [])|..]; cbn beta.
  - split; [done|]. rewrite Hrec. split; [done|]. intros _. by rewrite app_nil_r.
  - intros d x r n1 (Ho & Hop & Htalk). 
    eapply wp_mono; [exact (measure_wp x.1.1.1 x.1.1.2 x.1.2 x.2 n1 C Ho)|..]; cbn beta; [|done|done].
    intros _ n2 (Ho2 & rec & Hr & Hop2 & Ht2). split; [done|]. rewrite Hr, !map_app, Hop.
    cbn [map]. rewrite Hop2.
    split; [done|]. rewrite Forall_app, Forall_singleton. intros [Hall Hok].
    rewrite app_assoc. by apply Ht2; [apply Htalk|].
  - by intros [] n'.
  - done.
  - done.
Qed.
End client.
(** ** The leaderboard *)

Definition leaderboard_operations : list (string * Z * Z) :=
  [("leaderboard_submit", 7001, 7002); ("leaderboard_top", 7003, 7004);
   ("leaderboard_rank", 7005, 7006)].
Definition leaderboard_user (run_id : string) (i : Z) : string :=
  "perf_leaderboard_" +:+ run_id +:+ "_" +:+ Z_str i.
Definition iteration_steps (user : string) (i iteration : Z) : list step :=
  map (λ x, (x, business_operation_body "leaderboard" x.1.1 user i iteration))
    leaderboard_operations.
Definition leaderboard_steps (user : string) (i iterations : Z) : list step :=
  concat (map (iteration_steps user i) (py_range iterations)).
(** The requests of one client: the login and the measured operations. *)
Definition leaderboard_requests (run_id : string) (i iterations : Z) : list req :=
  let user := leaderboard_user run_id i in
  (2001, 2002, login_body user) :: map step_req (leaderboard_steps user i iterations).

Lemma measure_all_steps n0 user i iterations n :
  measure_all (n_next n0) "leaderboard" user i iterations n
  = e_iter (measure_step n0) (leaderboard_steps user i iterations) n.
Proof. apply e_iter_nested. by intros x s. Qed.

(** The client on socket [fd] has had its whole dialogue and is closed. *)
Definition session_done (fd : nat) (reqs : list req) (n : net) : Prop :=
  ∃ l w, wt_connect fd = Ok l ∧ n_socks n !! fd = Some w ∧ w_closed w = true ∧
         dialogue l reqs (w_in w) (w_out w).

Definition worker_post (F : list nat) (n : net) (run_id : string) (i iterations : Z) (wk : worker)
    (n' : net) : Prop :=
  open_in F n' ∧ (∀ fd, (fd < n_next n)%nat → n_socks n' !! fd = n_socks n !! fd) ∧
  (n_next n ≤ n_next n' ≤ S (n_next n))%nat ∧
  (wk_records wk = [] ∨
   (n_next n' = S (n_next n) ∧
    map o_operation (wk_records wk)
      = map (λ x, x.1.1.1) (leaderboard_steps (leaderboard_user run_id i) i iterations) ∧
    (Forall (λ r, o_ok r = true) (wk_records wk) →
     session_done (n_next n) (leaderboard_requests run_id i iterations) n'))).

(** Closing the client's socket. *)
Lemma wp_close_owned n0 F n (Q : unit → net → Prop) E C :
  owns n0 F n →
  (∀ n', open_in F n' → (∀ fd, fd ≠ n_next n0 → n_socks n' !! fd = n_socks n0 !! fd) →
     n_next n' = S (n_next n0) → n_records n' = n_records n →
     (∀ l reqs, talks n0 l reqs n → wt_connect (n_next n0) = Ok l →
                session_done (n_next n0) reqs n') → Q () n') →
  wp (close_client (n_next n0)) Q E C n.
Proof.
  intros ([w0 Hw0] & Hfr & Hn & Ho) HQ. eapply wp_close; [done|].
  intros n' Hcl Hn'. rewrite (Hn' w0 Hw0) in *. apply HQ.
  - eapply open_in_mono; [|exact Hcl]. intros x. rewrite list_elem_of_filter. set_solver.
  - intros fd Hne. simpl. rewrite lookup_insert_ne by done. by apply Hfr.
  - done.
  - done.
  - intros l reqs (w1 & Hw1 & Hd & _) Hl. rewrite Hw0 in Hw1. injection Hw1 as <-.
    exists l, (with_closed (with_tick (n_tick n) w0)). split; [done|].
    split; [simpl; by rewrite lookup_insert_eq|]. done.
Qed.

Lemma worker_wp F run_id i iterations timeout n C :
  open_in F n →
  wp (run_business_operation_worker "leaderboard" i iterations timeout run_id)
    (worker_post F n run_id i iterations) (λ _ n', open_in F n' ∧
       (∀ fd, (fd < n_next n)%nat → n_socks n' !! fd = n_socks n !! fd)) C n.
Proof.
  intros Ho. unfold run_business_operation_worker.
  change (negb (String.eqb "leaderboard" "leaderboard")) with false. cbn iota.
  change ("perf_" +:+ "leaderboard" +:+ "_" +:+ run_id +:+ "_" +:+ Z_str i)
    with (leaderboard_user run_id i). cbv zeta.
  apply wp_bind, wp_modify. set (n1 := Net _ _ _ []). apply wp_on_caught.
  apply wp_bind. apply (wp_connect F); [done| |].
  2: { intros e n' Hs Hr Hn Ho' _. destruct (caught e).
       - apply wp_bind, wp_gets, wp_ret. split; [done|]. split; [by rewrite Hs|]. split; [done|].
         left. simpl. by rewrite Hr.
       - split; [done|]. by rewrite Hs. }
  intros l w n2 Ht Hl Hw Hn2 Hfresh Ho2.
  assert (owns n1 F n2) as Hown.
  { rewrite Hn2. split; [exists w; simpl; by rewrite lookup_insert_eq|].
    split; [intros fd Hne; simpl; by rewrite lookup_insert_ne|]. split; [done|]. by rewrite Hn2 in Ho2. }
  assert (talks n1 l [] n2) as Ht2.
  { exists w. rewrite Hn2. simpl. split; [by rewrite lookup_insert_eq|]. rewrite Hw.
    split; [constructor|done]. }
  assert (n_records n2 = []) as Hr2 by (by rewrite Hn2).
  clear Hn2 Ho2 Hfresh Hw.
  set (reqs := leaderboard_requests run_id i iterations).
  (* what the handlers and the return see after the socket is closed *)
  assert (∀ n3 (wk : worker), owns n1 F n3 →
    (wk_records wk = [] ∨
     (map o_operation (wk_records wk)
        = map (λ x, x.1.1.1) (leaderboard_steps (leaderboard_user run_id i) i iterations) ∧
      (Forall (λ r, o_ok r = true) (wk_records wk) → talks n1 l reqs n3))) →
    ∀ E, wp (close_client (n_next n1)) (λ _, worker_post F n run_id i iterations wk) E C n3) as Hfin.
  { intros n3 wk H3 Hwk E. eapply wp_close_owned; [done|]. intros n4 Ho4 Hf4 Hn4 Hr4 Hs4.
    split; [done|]. split; [intros fd Hlt; apply Hf4; simpl; lia|]. split; [simpl in Hn4; lia|].
    destruct Hwk as [?|[Hop Hok]]; [by left|right]. split; [by rewrite Hn4|]. split; [done|].
    intros Hall. apply (Hs4 l); [by apply Hok|done]. }
  apply wp_finally, wp_bind. eapply client_request_wp; [exact Hown| |].
  - intros login n3 H3 Hr3 Htk. destruct (r_ok login) eqn:Hok; cbn [negb].
    + apply wp_bind. eapply wp_ext; [apply (measure_all_steps n1)|].
      eapply wp_mono; [eapply (measure_steps_wp n1 F l _ n3 [_]);
        [done|by rewrite Hr3|by apply (Htk [])]|..]; cbn beta; [| |done].
      * intros _ n4 (H4 & Hop & Hd). apply wp_bind, wp_gets, wp_ret. apply Hfin; [done|]. right.
        by split.
      * intros e n4 [H4 Hce]. rewrite Hce. eapply wp_close_owned; [done|].
        intros n5 Ho5 Hf5 _ _ _. split; [done|]. intros fd Hlt. apply Hf5. simpl. lia.
    + apply wp_ret. apply Hfin; [done|by left].
  - intros e n3 H3 Hr3. eapply wp_close_owned; [done|]. intros n4 Ho4 Hf4 Hn4 Hr4 _.
    assert (∀ fd, (fd < n_next n)%nat → n_socks n4 !! fd = n_socks n !! fd) as Hf.
    { intros fd Hlt. apply Hf4. simpl. lia. }
    destruct (caught e); [|done].
    apply wp_bind, wp_gets, wp_ret. split; [done|]. split; [done|]. split; [simpl in Hn4; lia|].
    left. simpl. congruence.
Qed.
(** ** Thread pools *)

(** The calls of a pool, one after the other. *)
Fixpoint chain {A B} (P : A → net → B → net → Prop) (l : list A) (n : net) (bs : list B) (n' : net)
    : Prop :=
  match l, bs with
  | [], [] => n = n'
  | x :: l, b :: bs => ∃ n1, P x n b n1 ∧ chain P l n1 bs n'
  | _, _ => False
  end.

Lemma wp_run_all {A B} (f : A → NM B) (P : A → net → B → net → Prop) (J : net → Prop) :
  (∀ x n, J n → wp (f x) (λ b n', J n' ∧ P x n b n') (λ _, J) (λ _, False) n) →
  ∀ l n, J n → wp (run_all f l) (λ bs n', J n' ∧ chain P l n bs n') (λ _, J) (λ _, False) n.
Proof.
  intros Hf l. induction l as [|x l IH]; intros n Hn; [done|]. specialize (Hf x n Hn).
  unfold wp in *. cbn [run_all]. destruct (f x n) as [[b|e|] n1]; [| |done].
  - destruct Hf as [H1 HP]. specialize (IH n1 H1). destruct (run_all f l n1) as [[bs|e|] n2]; try done.
    destruct IH as [H2 Hc]. split; [done|]. by exists n1.
  - specialize (IH n1 Hf). destruct (run_all f l n1) as [[bs|e'|] n2]; [by destruct IH|done|done].
Qed.

Lemma wp_thread_pool {A B} k (f : A → NM B) (P : A → net → B → net → Prop) (J : net → Prop) l n :
  (∀ x n, J n → wp (f x) (λ b n', J n' ∧ P x n b n') (λ _, J) (λ _, False) n) → J n →
  wp (thread_pool k f l) (λ bs n', J n' ∧ chain P l n bs n') (λ _, J) (λ _, False) n.
Proof. intros Hf Hn. unfold thread_pool. destruct (k <=? 0); [done|by apply wp_run_all]. Qed.

(** ** Counting the records *)

Section counting.
Variables (F : list nat) (run_id : string) (iterations : Z).
#[local] Abbreviation post := (λ i n wk n', worker_post F n run_id i iterations wk n').

Definition submits (rs : list op_record) : nat :=
  length (filter (λ r, o_operation r = "leaderboard_submit") rs).

Lemma submits_ops rs :
  submits rs = length (filter (λ s, s = "leaderboard_submit") (map o_operation rs)).
Proof.
  unfold submits. induction rs as [|r rs IH]; [done|]. cbn [map]. rewrite !filter_cons.
  by destruct (decide (o_operation r = "leaderboard_submit")); simpl; rewrite IH.
Qed.

Lemma steps_submits user i l :
  length (filter (λ s, s = "leaderboard_submit")
            (map (λ x : step, x.1.1.1) (concat (map (iteration_steps user i) l)))) = length l.
Proof.
  induction l as [|x l IH]; [done|]. cbn [map concat]. rewrite map_app, filter_app, length_app, IH.
  done.
Qed.

Lemma worker_submits n i wk n' :
  worker_post F n run_id i iterations wk n' → (submits (wk_records wk) ≤ Z.to_nat iterations)%nat.
Proof.
  intros (_ & _ & _ & [->|(_ & Hop & _)]); [unfold submits; simpl; lia|].
  rewrite submits_ops, Hop. unfold leaderboard_steps. rewrite steps_submits.
  unfold py_range. rewrite length_map, length_seq. lia.
Qed.

Lemma submits_app a b : submits (a ++ b) = (submits a + submits b)%nat.
Proof. unfold submits. by rewrite filter_app, length_app. Qed.

Lemma chain_submits l n ws n' :
  chain post l n ws n' →
  (submits (concat (map wk_records ws)) ≤ length l * Z.to_nat iterations)%nat.
Proof.
  revert n ws. induction l as [|i l IH]; intros n [|wk ws]; cbn [chain]; try done.
  intros (n1 & Hp & Hc). apply IH in Hc. apply worker_submits in Hp. cbn [map concat length].
  rewrite submits_app. lia.
Qed.

Lemma chain_frame l n ws n' fd :
  chain post l n ws n' → (fd < n_next n)%nat →
  n_socks n' !! fd = n_socks n !! fd ∧ (n_next n ≤ n_next n')%nat.
Proof.
  revert n ws. induction l as [|i l IH]; intros n [|wk ws]; cbn [chain]; try done; [by intros ->|].
  intros (n1 & (_ & Hf & Hn & _) & Hc) Hlt. destruct (IH n1 ws Hc ltac:(lia)) as [-> Hle].
  split; [by apply Hf|lia].
Qed.

(** When every client has all its records, every client had its dialogue. *)
Lemma chain_sessions l n ws n' :
  0 < iterations → chain post l n ws n' →
  submits (concat (map wk_records ws)) = (length l * Z.to_nat iterations)%nat →
  Forall (λ r, o_ok r = true) (concat (map wk_records ws)) →
  ∀ k i, l !! k = Some i →
         session_done (n_next n + k) (leaderboard_requests run_id i iterations) n'.
Proof.
  intros Hit. revert n ws. induction l as [|j l IH]; intros n [|wk ws]; cbn [chain]; try done.
  intros (n1 & Hp & Hc) Hcount Hall k i Hk. cbn [map concat length] in Hcount, Hall.
  rewrite submits_app in Hcount. apply Forall_app in Hall as [Hall1 Hall2].
  pose proof (worker_submits _ _ _ _ Hp). pose proof (chain_submits _ _ _ _ Hc).
  destruct Hp as (_ & _ & _ & [Hnil|(Hn & _ & Hs)]); [rewrite Hnil in *; change (submits []) with O in *; lia|].
  destruct k as [|k].
  - injection Hk as ->. rewrite Nat.add_0_r. destruct (Hs Hall1) as (lc & w & Hlc & Hw & Hrest).
    exists lc, w. split; [done|]. split; [|done].
    destruct (chain_frame _ _ _ _ (n_next n) Hc ltac:(lia)) as [-> _]. done.
  - replace (n_next n + S k)%nat with (n_next n1 + k)%nat by lia. apply (IH n1 ws); try done. lia.
Qed.

Lemma chain_names l n ws n' :
  chain post l n ws n' →
  Forall (λ r, o_operation r ∈ map (λ x, x.1.1) leaderboard_operations) (concat (map wk_records ws)).
Proof.
  revert n ws. induction l as [|i l IH]; intros n [|wk ws]; cbn [chain]; try done.
  intros (n1 & (_ & _ & _ & Hr) & Hc). cbn [map concat]. apply Forall_app. split; [|by eapply IH].
  destruct Hr as [->|(_ & Hop & _)]; [done|].
  assert (Forall (λ s, s ∈ map (λ x, x.1.1) leaderboard_operations) (o_operation <$> wk_records wk))
    as Hm; [|by apply Forall_fmap in Hm].
  change (o_operation <$> wk_records wk) with (map o_operation (wk_records wk)). rewrite Hop. unfold leaderboard_steps.
  generalize (py_range iterations) as L. intros L. induction L as [|x L IHL]; [done|].
  cbn [map concat]. rewrite map_app. apply Forall_app. split; [|done].
  repeat constructor; set_solver.
Qed.
End counting.
(** ** Passing *)

Lemma filter_all_length {A} (P : A → Prop) `{!∀ x, Decision (P x)} (l : list A) :
  length (filter P l) = length l → Forall P l.
Proof.
  induction l as [|x l IH]; [done|]. rewrite filter_cons. destruct (decide (P x)); simpl.
  - intros [= Hl]. constructor; auto.
  - intros Hl. pose proof (length_filter P l). lia.
Qed.

(** A summary without failures says that all its records succeeded. *)
Lemma summarize_Ok records d name o expected :
  summarize_operation records d name = Ok o →
  (os_attempted o =? expected) && (os_failed o =? 0) = true →
  Z.of_nat (length (filter (λ r, o_operation r = name) records)) = expected ∧
  ∀ r, r ∈ records → o_operation r = name → o_ok r = true.
Proof.
  unfold summarize_operation. intros Ho. res_inv. simpl.
  intros [Ha%Z.eqb_eq Hf%Z.eqb_eq]%andb_true_iff. split; [done|]. intros r Hr Hn.
  assert (Forall (λ r, o_ok r = true) (filter (λ r, o_operation r = name) records)) as Hall.
  { apply (filter_all_length (λ r, o_ok r = true)). lia. }
  rewrite Forall_forall in Hall. apply Hall. apply list_elem_of_filter. done.
Qed.

Lemma summarize_all names records d os expected :
  summarize_business_operations names records d = Ok os →
  forallb (λ o, (os_attempted o =? expected) && (os_failed o =? 0)) os = true →
  ∀ name, name ∈ names →
  Z.of_nat (length (filter (λ r, o_operation r = name) records)) = expected ∧
  ∀ r, r ∈ records → o_operation r = name → o_ok r = true.
Proof.
  unfold summarize_business_operations. revert os.
  induction names as [|x names IH]; intros os; [set_solver|]. cbn [mapM]. intros Hos Hp name Hn.
  apply res_bind_ok in Hos as (o & Ho & Hos). apply res_bind_ok in Hos as (os' & Hos' & Hos).
  injection Hos as <-. cbn [forallb] in Hp. apply andb_true_iff in Hp as [Hp1 Hp2].
  apply elem_of_cons in Hn as [->|Hn]; [by eapply summarize_Ok|by eapply IH].
Qed.

Lemma py_range_lookup k n i : py_range n !! k = Some i ↔ i = Z.of_nat k ∧ Z.of_nat k < n.
Proof.
  unfold py_range. rewrite list_lookup_fmap_Some. split.
  - intros (x & -> & [-> Hlt]%lookup_seq). lia.
  - intros [-> Hlt]. exists k. split; [done|]. apply lookup_seq. lia.
Qed.

(** C26: A leaderboard scenario always ends with all connections closed, also when it raises, and when
    it reports that it passed, each client on its own connection sent the login and every measured
    operation of every iteration, once, in order and with consecutive numbers, and received to each,
    before sending the next, the expected answer to that very request without an error code. *)
Theorem leaderboard_passed clients iterations timeout run_id mode n :
  0 < iterations → open_in [] n →
  wp (run_leaderboard_scenario clients iterations timeout run_id mode)
    (λ s n', open_in [] n' ∧
       (sc_passed s = true → ∀ i, 0 <= i < clients →
          session_done (n_next n + Z.to_nat i) (leaderboard_requests run_id i iterations) n'))
    (λ _ n', open_in [] n') (λ _, False) n.
Proof.
  intros Hit Ho. unfold run_leaderboard_scenario. apply wp_bind, wp_clock. intros started.
  apply wp_bind. eapply wp_mono; [apply (wp_thread_pool _ _
    (λ i n wk n', worker_post [] n run_id i iterations wk n') (open_in []));
    [|exact Ho]|..]; cbn beta.
  - intros i n1 H1. eapply wp_mono; [exact (worker_wp [] run_id i iterations timeout n1 (λ _, False) H1)|..];
      cbn beta; [|by intros ? ? []|done].
    intros wk n' Hp. split; [apply Hp|done].
  - intros ws n2 [H2 Hc]. apply wp_bind, wp_clock. intros finished. cbv zeta. apply wp_bind.
    apply wp_lift; [|done]. intros sequence Hseq. injection Hseq as <-. apply wp_bind.
    apply wp_lift; [|done]. intros os Hos. apply wp_ret. split; [done|]. cbn [sc_passed].
    unfold all_measured. intros [_ Hp]%andb_true_iff i Hi.
    pose proof (summarize_all _ _ _ _ _ Hos Hp) as Hall. clear Hos Hp.
    apply (chain_sessions [] run_id iterations (py_range clients) _ ws n2 Hit Hc); cycle 2.
    + apply py_range_lookup. lia.
    + destruct (Hall "leaderboard_submit") as [Hcount _]; [set_solver|].
      unfold submits, py_range. rewrite length_map, length_seq. nia.
    + pose proof (chain_names _ _ _ _ _ _ _ Hc) as Hnames. rewrite Forall_forall in Hnames |- *.
      intros r Hr. by apply (Hall (o_operation r) (Hnames r Hr)).
  - done.
  - done.
Qed.
End runs.
