(* ===== verification/WireMatch.v ===== *)
(** * The matchmaking scenario: it ends and closes every connection

    At the end, a runtime whose clocks stand still and whose peers answer in
    pieces, and the theorems of the protocol at it. *)
From S2P Require Import Prelude PyFloat PyValue PyJson PyEffect PyUtf8 PerfStatistics Wire WireScenario WireFacts.
From S2P Require Import WireRequest WireRuns.
#[local] Open Scope Z_scope.

Section match_.
Context `{WireRuntime}.

(** ** Requests that do not depend on what came before *)

(** Whatever happens in it, the computation opens no socket. *)
Definition opens_none {A} (F : list nat) (m : NM A) : Prop := ∀ n,
  open_in F n → wp m (λ _ n', open_in F n') (λ _ n', open_in F n') (λ _, False) n.

Lemma opens_none_bind {A B} F (m : NM A) (f : A → NM B) :
  opens_none F m → (∀ a, opens_none F (f a)) → opens_none F (m ≫= f).
Proof.
  intros Hm Hf n Hn. apply wp_bind. eapply wp_mono; [by apply Hm|..]; cbn beta; [|done|done].
  intros a n' Hn'. by apply Hf.
Qed.
Lemma opens_none_ret {A} F (a : A) : opens_none F (mret a).
Proof. by intros n Hn. Qed.
Lemma opens_none_lift {A} F (r : res A) : opens_none F (e_lift r).
Proof. intros n Hn. by apply wp_lift. Qed.
Lemma opens_none_clock F f : opens_none F (clock f).
Proof. by intros n Hn. Qed.
Lemma opens_none_elapsed F s : opens_none F (elapsed_ms s).
Proof. apply opens_none_bind; [apply opens_none_clock|intros t; apply opens_none_ret]. Qed.
Lemma opens_none_caught {A} F (m : NM A) h :
  opens_none F m → (∀ e, opens_none F (h e)) → opens_none F (on_caught m h).
Proof.
  intros Hm Hh n Hn. apply wp_on_caught. eapply wp_mono; [by apply Hm|..]; cbn beta; [done| |done].
  intros e n' Hn'. destruct (caught e); [by apply Hh|done].
Qed.
Lemma opens_none_pool {A B} F k (f : A → NM B) l :
  (∀ x, opens_none F (f x)) → opens_none F (thread_pool k f l).
Proof.
  intros Hf n Hn. eapply wp_mono; [apply (wp_thread_pool k f (λ _ _ _ _, True) (open_in F))|..];
    cbn beta; [|done|by intros ? ? []|done|done].
  intros x n' Hn'. eapply wp_mono; [by apply Hf|..]; cbn beta; done.
Qed.

(** What a request leaves to be delivered. *)
Definition left_on (fd : nat) (n : net) : Z :=
  match n_socks n !! fd with Some w => str_len (lead (w_in w)).1 | None => 0 end.

Lemma packets_left ps l l' :
  delivers_packets ps l l' → str_len (lead l').1 + 20 * Z.of_nat (length ps) <= str_len (lead l).1.
Proof.
  revert l. induction ps as [|p ps IH]; intros l; [simpl; intros ->; lia|].
  intros (bs & l1 & Hf & Hd & Hr). apply IH in Hr. apply delivers_left in Hd. apply frame_size in Hf.
  cbn [length]. lia.
Qed.

Lemma answered_packets rid ex ps r : answered rid ex ps r → (0 < length ps)%nat.
Proof. destruct 1; simpl; lia. Qed.

Lemma on_request_wp F fd m ex body timeout n :
  open_in F n →
  wp (on fd (request m ex body timeout)) (λ _ n', open_in F n' ∧ left_on fd n' < left_on fd n)
    (λ _ n', open_in F n') (λ _, False) n.
Proof.
  intros Hn. destruct (n_socks n !! fd) as [w|] eqn:Hw.
  - eapply wp_on; [done|]. apply request_wp.
    + intros r w' [Hc _] (data & ps & _ & _ & _ & Hd & Ha). split; [by apply (open_in_upd F n fd w)|].
      unfold left_on. simpl. rewrite lookup_insert_eq, Hw. apply packets_left in Hd.
      apply answered_packets in Ha. simpl in Hd. lia.
    + intros e w' [Hc _] _. by apply (open_in_upd F n fd w).
  - unfold wp, on. by rewrite Hw.
Qed.

Lemma opens_none_entry_request F e m ex body timeout :
  opens_none F (entry_request e m ex body timeout).
Proof.
  unfold entry_request. destruct (en_client e) as [fd|]; [|by intros n Hn].
  intros n Hn. eapply wp_mono; [by apply on_request_wp|..]; cbn beta; [by intros ? ? []|done|done].
Qed.

Lemma opens_none_execute F e operation m ex timeout :
  opens_none F (execute_match_request e operation m ex timeout).
Proof.
  apply opens_none_bind; [apply opens_none_clock|]. intros started. apply opens_none_caught.
  - apply opens_none_bind; [apply opens_none_entry_request|]. intros r.
    apply opens_none_bind; [apply opens_none_elapsed|]. intros t. apply opens_none_ret.
  - intros exc. apply opens_none_bind; [apply opens_none_elapsed|]. intros t. apply opens_none_ret.
Qed.

Lemma opens_none_poll_record F ok s polls error : opens_none F (poll_record ok s polls error).
Proof. apply opens_none_bind; [apply opens_none_elapsed|intros t; apply opens_none_ret]. Qed.

(** ** Polling ends *)

Definition entry_left (e : entry) (n : net) : Z :=
  match en_client e with Some fd => left_on fd n | None => 0 end.

Lemma entry_request_wp F e m ex body timeout n :
  open_in F n →
  wp (entry_request e m ex body timeout) (λ _ n', open_in F n' ∧ entry_left e n' < entry_left e n)
    (λ _ n', open_in F n') (λ _, False) n.
Proof.
  intros Hn. unfold entry_request, entry_left. destruct (en_client e) as [fd|]; [|done].
  by apply on_request_wp.
Qed.

Lemma poll_loop_wp F fuel e s d polls n :
  entry_left e n < Z.of_nat fuel → open_in F n →
  wp (poll_loop fuel e s d polls) (λ _ n', open_in F n') (λ _ n', open_in F n') (λ _, False) n.
Proof.
  revert polls n. induction fuel as [|fuel IH]; intros polls n Hf Hn.
  { exfalso. unfold entry_left, left_on in Hf. repeat case_match; try lia.
    pose proof (str_len_ge (lead (w_in w)).1). lia. }
  cbn [poll_loop]. unfold poll_round. apply wp_bind, wp_clock. intros now.
  destruct (fltb now d); [|by apply opens_none_poll_record].
  apply wp_bind, wp_clock. intros now'. cbv zeta. apply wp_bind, wp_on_caught, wp_bind.
  set (n1 := Net _ _ _ _).
  eapply wp_mono; [by apply (entry_request_wp F)|..]; cbn beta; [| |done].
  - intros r n2 [H2 Hl]. apply wp_ret. change (entry_left e n1) with (entry_left e n) in Hl.
    destruct (match_status r) as [[]|exc]; [by apply opens_none_poll_record| |by apply opens_none_poll_record].
    apply wp_bind, wp_clock. intros _. apply IH; [|done].
    change (entry_left e n2 < Z.of_nat fuel). lia.
  - intros exc n2 H2. destruct (caught exc); [|done]. apply wp_ret. by apply opens_none_poll_record.
Qed.

Lemma opens_none_poll F e s d : opens_none F (poll_until_matched e s d).
Proof.
  intros n Hn. apply wp_bind, wp_gets. apply poll_loop_wp; [|done].
  unfold entry_left, left_on, undelivered. destruct (en_client e) as [fd|]; simpl; [|lia].
  destruct (n_socks n !! fd) as [w|]; [|lia]. pose proof (lead_text (w_in w)). unfold str_len. lia.
Qed.

Lemma opens_none_measure F active timeout : opens_none F (measure_cohort active timeout).
Proof.
  apply opens_none_bind; [apply opens_none_clock|]. intros started.
  apply opens_none_bind; [apply opens_none_pool; intros e; apply opens_none_execute|]. intros joins.
  apply opens_none_bind; [apply opens_none_clock|]. intros now. cbv zeta.
  apply opens_none_bind; [apply opens_none_pool; intros e; apply opens_none_poll|]. intros statuses.
  apply opens_none_bind; [apply opens_none_pool; intros e; apply opens_none_execute|]. intros leaves.
  apply opens_none_ret.
Qed.
(** ** Setting up *)

Definition clients_of (es : list entry) : list nat := omap en_client es.

(** The sockets that are open. *)
Definition open_fds (n : net) : list nat :=
  map fst (filter (λ x, w_closed x.2 = false) (map_to_list (n_socks n))).

Lemma open_fds_spec n fd : fd ∈ open_fds n ↔ ∃ w, n_socks n !! fd = Some w ∧ w_closed w = false.
Proof.
  unfold open_fds. rewrite list_elem_of_fmap. split.
  - intros ([fd' w] & -> & [Hc Hw]%list_elem_of_filter). apply elem_of_map_to_list in Hw. eauto.
  - intros (w & Hw & Hc). exists (fd, w). split; [done|]. apply list_elem_of_filter. split; [done|].
    by apply elem_of_map_to_list.
Qed.

Definition below (n : net) : Prop := ∀ fd w, n_socks n !! fd = Some w → (fd < n_next n)%nat.

Lemma open_in_fds F n : open_in F n ↔ below n ∧ open_fds n ⊆ F.
Proof.
  split.
  - intros [H1 H2]. split; [done|]. intros fd (w & Hw & Hc)%open_fds_spec. eauto.
  - intros [H1 H2]. split; [done|]. intros fd w Hw Hc. apply H2, open_fds_spec. eauto.
Qed.

Definition match_user (run_id : string) (attempt iteration i : Z) : string :=
  "perf_matchmaking_" +:+ (run_id +:+ "_setup" +:+ Z_str (attempt + 1)) +:+ "_" +:+ Z_str iteration
  +:+ "_" +:+ Z_str i.
(** The login of a client fits a packet. *)
Definition login_fits (run_id : string) (iteration i : Z) : Prop :=
  ∀ attempt, attempt ∈ [0; 1] →
  16 + str_len (login_body (match_user run_id attempt iteration i)) < 2 ^ 32.

Lemma login_encodes body :
  16 + str_len body < 2 ^ 32 → is_ok (encode_business_packet 2001 1 body 1 0) = true.
Proof.
  intros Hb. unfold encode_business_packet, pack_unsigned at 1. pose proof (str_len_ge body).
  change (256 ^ Z.of_nat 4) with (2 ^ 32).
  rewrite (proj2 (Z.leb_le _ _)), (proj2 (Z.ltb_lt _ _)) by lia. done.
Qed.

Context `{!SocketErrors}.

Lemma caught_cases e :
  caught e = true →
  exn_isa CConnectionError e || exn_isa COSError e || exn_isa CTimeoutError e = true ∨
  exn_isa CValueError e = true.
Proof. unfold caught. rewrite orb_true_iff. tauto. Qed.

Lemma setup_client_wp i timeout run_id attempt iteration n :
  login_fits run_id iteration i → attempt ∈ [0; 1] → below n →
  wp (setup_matchmaking_client i timeout (run_id +:+ "_setup" +:+ Z_str (attempt + 1)) iteration)
    (λ e n', below n' ∧ open_in (clients_of [e] ++ open_fds n) n') (λ _ _, False) (λ _, False) n.
Proof.
  intros Hfit Hatt Hn. assert (open_in (open_fds n) n) as Ho by (by apply open_in_fds).
  unfold setup_matchmaking_client. cbv zeta.
  change ("perf_matchmaking_" +:+ (run_id +:+ "_setup" +:+ Z_str (attempt + 1)) +:+ "_" +:+ Z_str iteration
          +:+ "_" +:+ Z_str i) with (match_user run_id attempt iteration i).
  set (user := match_user _ _ _ _). set (failed := setup_failed i user).
  assert (∀ e n', caught e = true → open_in (open_fds n) n' →
    wp (failed e) (λ e n', below n' ∧ open_in (clients_of [e] ++ open_fds n) n') (λ _ _, False)
      (λ _, False) n') as Hfailed.
  { intros e n' Hce Hn'. unfold failed, setup_failed. pose proof Hn' as [? _]%open_in_fds.
    destruct (_ || _ || _) eqn:Hos; [by apply wp_ret|].
    destruct (caught_cases e Hce) as [?|Hv]; [congruence|]. rewrite Hv. by apply wp_ret. }
  apply wp_try, wp_bind. apply (wp_connect (open_fds n)); [done| |].
  2: { intros e n' _ _ _ Hn' Hce. by apply Hfailed; [apply Hce|]. }
  intros l w n1 _ Hl Hw Hn1 _ H1. apply wp_try, wp_bind.
  assert (n_socks n1 !! n_next n = Some w) as Hw1 by (rewrite Hn1; simpl; by rewrite lookup_insert_eq).
  assert (∀ e w', w_closed w' = w_closed w → caught e = true →
    wp ((if caught e then close_client (n_next n) else mret ());; e_lift (Raise e))
      (λ e n', below n' ∧ open_in (clients_of [e] ++ open_fds n) n')
      (λ e n', wp (failed e) (λ e n', below n' ∧ open_in (clients_of [e] ++ open_fds n) n')
         (λ _ _, False) (λ _, False) n') (λ _, False) (upd n1 (n_next n) w')) as Hclose.
  { intros e w' Hc Hce. rewrite Hce. apply wp_bind.
    eapply wp_close; [by apply (open_in_upd _ n1 (n_next n) w)|].
    intros n2 H2 _. apply wp_lift; [done|]. intros e' [= <-]. apply Hfailed; [done|].
    eapply open_in_mono; [|exact H2]. intros x. rewrite list_elem_of_filter. set_solver. }
  eapply wp_on; [exact Hw1|]. apply request_wp.
  - intros login w' [Hc _] _. destruct (r_ok login); cbn [negb].
    + apply wp_ret. assert (open_in (n_next n :: open_fds n) (upd n1 (n_next n) w')) as H2
        by (by apply (open_in_upd _ n1 (n_next n) w)).
      split; [exact (proj1 H2)|exact H2].
    + apply wp_raise. by apply Hclose.
  - intros e w' [Hc _] Hce. apply Hclose; [done|]. apply Hce; [apply send_error| |].
    + rewrite Hw. by eapply connect_faults.
    + rewrite Hw. apply login_encodes, Hfit, Hatt.
Qed.
(** All clients of a cohort. *)
Lemma setup_all_wp timeout run_id attempt iteration l n :
  (∀ i, i ∈ l → login_fits run_id iteration i) → attempt ∈ [0; 1] → below n →
  wp (run_all (λ i, setup_matchmaking_client i timeout (run_id +:+ "_setup" +:+ Z_str (attempt + 1))
                      iteration) l)
    (λ es n', open_in (clients_of es ++ open_fds n) n') (λ _ _, False) (λ _, False) n.
Proof.
  intros Hfit Hatt. revert n. induction l as [|i l IH]; intros n Hn.
  { apply wp_ret. by apply open_in_fds. }
  pose proof (setup_client_wp i timeout run_id attempt iteration n
    (Hfit i ltac:(set_solver)) Hatt Hn) as H1.
  unfold wp in *. cbn [run_all]. destruct (setup_matchmaking_client _ _ _ _ n) as [[e|e|] n1]; try done.
  destruct H1 as [Hb1 H1]. specialize (IH (λ i Hi, Hfit i ltac:(set_solver)) n1 Hb1).
  destruct (run_all _ l n1) as [[es|e'|] n2]; try done. eapply open_in_mono; [|exact IH].
  apply open_in_fds in H1 as [_ H1]. intros x. rewrite elem_of_app. intros [Hx|Hx].
  - rewrite elem_of_app. left. unfold clients_of in *. cbn [omap list_omap].
    destruct (en_client e); [by right|done].
  - apply H1 in Hx. rewrite elem_of_app in Hx |- *. destruct Hx as [Hx|Hx]; [left|by right].
    unfold clients_of in *. cbn [omap list_omap] in *. destruct (en_client e); [set_solver|set_solver].
Qed.

Lemma close_all_wp F es n (Q : unit → net → Prop) E C :
  open_in (clients_of es ++ F) n → (∀ n', open_in F n' → Q () n') →
  wp (e_iter close_entry es) Q E C n.
Proof.
  intros Ho HQ. revert n Ho. induction es as [|e es IH]; intros n Ho; [by apply HQ|].
  cbn [e_iter]. apply wp_bind. unfold close_entry. unfold clients_of in Ho. cbn [omap list_omap] in Ho.
  destruct (en_client e) as [fd|]; [|by apply IH].
  eapply wp_close; [done|]. intros n' H2 _. apply IH.
  eapply open_in_mono; [|exact H2]. intros x. rewrite list_elem_of_filter. set_solver.
Qed.

Lemma cohort_wp attempts clients timeout run_id iteration n :
  (∀ i, 0 <= i < clients → login_fits run_id iteration i) → attempts ⊆ [0; 1] → open_in [] n →
  wp (cohort_attempts attempts clients timeout run_id iteration)
    (λ '(es, _) n', open_in (clients_of es) n') (λ _ n', open_in [] n') (λ _, False) n.
Proof.
  intros Hfit. revert n. induction attempts as [|a attempts IH]; intros n Hsub Hn; [done|].
  cbn [cohort_attempts]. apply wp_bind. unfold thread_pool. destruct (clients <=? 0); [done|].
  pose proof Hn as [Hb Hno]%open_in_fds.
  eapply wp_mono; [apply (setup_all_wp timeout run_id a iteration (py_range clients) n);
    [|set_solver|done]|..]; cbn beta; [| |done|done].
  { intros i Hi. apply list_elem_of_lookup in Hi as [k Hk]. apply py_range_lookup in Hk. apply Hfit. lia. }
  intros es n1 H1. assert (open_in (clients_of es ++ []) n1) as H1'
    by (eapply open_in_mono; [|exact H1]; set_solver).
  cbv zeta. destruct (_ || _ || _).
  - apply wp_ret. by rewrite app_nil_r in H1'.
  - apply wp_bind. eapply close_all_wp; [done|]. intros n2 H2. apply IH; [set_solver|done].
Qed.

Lemma clients_active es : clients_of (filter (λ e, has_client e = true) es) = clients_of es.
Proof.
  induction es as [|e es IH]; [done|]. rewrite filter_cons. unfold clients_of in *.
  destruct (decide (has_client e = true)) as [Hc|Hc]; cbn [omap list_omap].
  - destruct (en_client e); [by f_equal|done].
  - unfold has_client in Hc. by destruct (en_client e).
Qed.

Lemma iteration_wp clients timeout run_id iteration n :
  (∀ i, 0 <= i < clients → login_fits run_id iteration i) → open_in [] n →
  wp (match_iteration clients timeout run_id iteration) (λ _ n', open_in [] n')
    (λ _ n', open_in [] n') (λ _, False) n.
Proof.
  intros Hfit Hn. apply wp_bind. eapply wp_mono; [by apply cohort_wp|..]; cbn beta; [|done|done].
  intros [es retries] n1 H1. cbv zeta. apply wp_bind, wp_finally.
  rewrite <- clients_active, <- (app_nil_r (clients_of _)) in H1.
  eapply wp_mono; [apply (opens_none_measure _ _ _ _ H1)|..]; cbn beta; [| |done].
  - intros records n2 H2. eapply close_all_wp; [exact H2|]. intros n3 H3. by apply wp_ret.
  - intros e n2 H2. by eapply close_all_wp.
Qed.

End match_.

(** ** Sample peers *)

Definition sample_frame (message_id request_id : Z) (body : string) : string :=
  match encode_business_packet message_id request_id body 1 0 with Ok s => s | Raise _ => "" end.

(** A text in two pieces. *)
Definition pieces (k : nat) (s : string) : list arrival :=
  match str_take k s, str_skip k s with
  | String a x, String b y => [Data a x; Data b y]
  | String a x, EmptyString | EmptyString, String a x => [Data a x]
  | EmptyString, EmptyString => []
  end.

Definition sample_arrivals : list arrival :=
  pieces 3 (sample_frame 2002 1 "ok" +:+ sample_frame 1003 0 "push") ++
  pieces 7 (sample_frame 7002 2 "" +:+ sample_frame 7004 3 "[]" +:+ sample_frame 7006 4 "1") ++ [Eof].

#[local] Instance sample_runtime : WireRuntime := {
  wt_monotonic := λ _, f_zero;
  wt_perf_counter := λ _, f_zero;
  wt_monotonic_ns := λ _, 0;
  wt_connect := λ _, Ok sample_arrivals;
  wt_send := λ _, None;
  zlib_decompress := inr;
  wt_json_error := λ _, "Expecting value"
}.

#[local] Instance sample_socket_errors : SocketErrors.
Proof.
  split; [done| |done]. intros fd l [= <-] e. unfold sample_arrivals.
  rewrite elem_of_app, elem_of_app. intros Hin. exfalso. revert Hin. unfold pieces.
  vm_compute str_take; vm_compute str_skip. set_solver.
Qed.

Definition five : pfloat := f_of_Z 5.
Definition sample_wire : wire := Wire 0 sample_arrivals "" false five five 1.
Definition empty_net : net := Net 0 0 ∅ [].

Lemma packet_roundtrip_witness :
  ∃ w', recv_business_packet None sample_wire = (ORet (Packet 1 2002 1 0 0 0 "ok" "ok"), w').
Proof.
  destruct (proj1 (packet_roundtrip None sample_wire) 2002 1 "ok" 1 0 (sample_frame 2002 1 "ok")
    (pieces 0 (sample_frame 1003 0 "push") ++
     pieces 7 (sample_frame 7002 2 "" +:+ sample_frame 7004 3 "[]" +:+ sample_frame 7006 4 "1") ++ [Eof]))
    as (w' & Hw & _).
  - reflexivity.
  - reflexivity.
  - vm_compute. discriminate.
  - reflexivity.
  - exact I.
  - eexists _, _. split; reflexivity.
  - exists w'. exact Hw.
Defined.

Lemma request_answers_witness :
  match request 2001 2002 "u" None sample_wire with
  | (ORet r, w') => sent sample_wire w' (sample_frame 2001 1 "u")
  | _ => False
  end.
Proof.
  pose proof (request_answers 2001 2002 "u" None sample_wire (sample_frame 2001 1 "u")
    eq_refl eq_refl eq_refl eq_refl (λ t _, eq_refl)) as H.
  destruct (request 2001 2002 "u" None sample_wire) as [[r|e|] w'] eqn:E.
  - exact (proj1 H).
  - vm_compute in E. discriminate E.
  - exact H.
Defined.

Lemma leaderboard_passed_witness :
  match run_leaderboard_scenario 1 1 five "r" "in_memory_only" empty_net with
  | (ORet s, n') => sc_passed s = true ∧ session_done 0 (leaderboard_requests "r" 0 1) n'
  | _ => False
  end.
Proof.
  assert (open_in [] empty_net) as Ho by (split; intros fd w Hw; discriminate Hw).
  pose proof (leaderboard_passed 1 1 five "r" "in_memory_only" empty_net eq_refl Ho) as H.
  unfold wp in H.
  destruct (run_leaderboard_scenario 1 1 five "r" "in_memory_only" empty_net) as [[s|e|] n'] eqn:E.
  - assert (sc_passed s = true) as Hp.
    { vm_compute in E. injection E as <- _. reflexivity. }
    split; [exact Hp|]. apply (proj2 H Hp 0). lia.
  - vm_compute in E. discriminate E.
  - exact H.
Defined.

