(* ===== verification/Canary.v ===== *)
(** * The external business canary: one sample

    Models [src/scripts/tools/external_business_canary.py] up to [run_once]: the
    configuration, the evidence files and their create-only publication, the
    deployed candidate, the business flow against the SDK, the alert and the
    sample.  The reports and the watchdog are in [CanaryReport].

    An evidence file is the document it holds: what [json.dumps] wrote with
    sorted keys reads back as the document with sorted keys.  A staged file, a
    failing system call and the death of the process are part of the model; the
    answers of the SDK, of the HTTP requests, the clocks and the random tokens
    are given by the runtime, by the number of the event.  Instants are
    microseconds in UTC; texts are ASCII; no directory of the evidence is a
    symbolic link; clock readings differ by less than [2^1000] nanoseconds. *)
From S2P Require Import Prelude PyFloat PyValue PyTime PyDateTime PyNet PyPath PyText PyJson PyEffect PyUtf8 LifecycleCore.
#[local] Open Scope Z_scope.

(** ** Constants *)

Definition ALERT_LIFETIME : Z := 5 * minute_us.
Definition SILENT_ALERT_REFRESH_AFTER : Z := 4 * minute_us.
Definition DEFAULT_TIMEOUT_MS : Z := 5000.
Definition ENVIRONMENT_KEYS : list string :=
  map (λ k, "BOOST_GATEWAY_CANARY_" +:+ k)
    ["HOST"; "PORT"; "USER_A"; "USER_B"; "TOKEN_A"; "TOKEN_B"; "ALERTMANAGER_URL"; "TIMEOUT_MS"].
Definition REQUIRED_STEPS : list string :=
  ["login"; "room"; "battle"; "settlement"; "leaderboard"; "reconnect"].
Definition ERROR_TYPES : list string :=
  ["none"; "connect_error"; "sdk_error"; "protocol_error"; "timeout"; "internal_error";
   "dependency_failure"].
Definition ISSUE_URL : string := "https://github.com/HoneyBury/boost_gateway/issues/27".

(** ** State and runtime *)

(** What is found at a path: a regular file with a JSON document, with text that
    is no JSON, that cannot be read, that is no UTF-8, or something that is not a
    regular file. *)
Inductive cnode :=
  | NDoc (v : py)
  | NInvalid
  | NUnreadable
  | NNotText
  | NNotFile.

(** The calls of the SDK, with the client they are made on and what came of
    them. *)
Inductive sdk_op :=
  | SConnect (host : string) (port timeout_ms : Z)
  | SLogin (user token : string) (timeout_ms : Z)
  | SCreateRoom (room : string) (timeout_ms : Z)
  | SJoinRoom (room : string) (timeout_ms : Z)
  | SSetReady (ready : bool) (timeout_ms : Z)
  | SStartBattle (room : string) (timeout_ms : Z)
  | SBattleInput (input : string) (timeout_ms : Z)
  | SLeaderboardTop (count timeout_ms : Z)
  | SLeaderboardSubmit (user name : string) (score timeout_ms : Z)
  | SLeaderboardRank (user : string) (timeout_ms : Z)
  | SLeaveRoom (room : string) (timeout_ms : Z)
  | SDisconnect.
Inductive call :=
  | CallNew (client : nat)
  | CallOn (client : nat) (op : sdk_op) (answer : outcome py)
  | CallSleep (seconds : pfloat).

(** The answer to a request: a response, an [HTTPError], another [OSError] with
    the name of its class, another exception, or the process dies. *)
Inductive http_answer :=
  | HReply (status : Z)
  | HError (code : Z)
  | HFail (name : string)
  | HRaise (e : exn)
  | HDie.
Record http_request := HttpRequest { hr_method : string; hr_url : string; hr_body : py }.

Inductive cfault := FOk | FErr (msg : string) | FDie (after : bool).

Class CanaryRuntime := {
  ct_sha256 : string → string;
  ct_now : nat → Z;
  ct_token : nat → string;
  ct_clock_ns : nat → Z;
  (** [client_factory()]: the exception that it raises. *)
  ct_new : nat → option exn;
  ct_sdk : nat → outcome py;
  ct_http : nat → http_answer;
  ct_fault : nat → cfault
}.

Record cstate := CState {
  c_tick : nat;
  c_store : list (path * cnode);
  c_calls : list call;
  c_requests : list http_request
}.
Definition CM := eff cstate.

#[export] Instance path_eq_dec : EqDecision path.
Proof. solve_decision. Defined.

Definition find_node (p : path) (l : list (path * cnode)) : option cnode :=
  snd <$> (snd <$> list_find (λ x, x.1 = p) l).
Definition drop_node (p : path) (l : list (path * cnode)) : list (path * cnode) :=
  filter (λ x, x.1 ≠ p) l.

Definition with_store (l : list (path * cnode)) (s : cstate) : cstate :=
  CState (c_tick s) l (c_calls s) (c_requests s).
Definition tick_on (s : cstate) : cstate :=
  CState (S (c_tick s)) (c_store s) (c_calls s) (c_requests s).

(** ** Small operations *)

Definition canary_error {A} (msg : string) : res A := Raise (Exn CCanaryError msg).
Definition guard_ce (bad : bool) (msg : string) : res unit := guard_cls CCanaryError bad msg.

Record CanaryConfig := CanaryConfigOf {
  cc_host : string; cc_port : Z; cc_user_a : string; cc_user_b : string; cc_token_a : string;
  cc_token_b : string; cc_alertmanager_url : string; cc_timeout_ms : Z }.

Definition endpoint (c : CanaryConfig) : string :=
  if str_in ":" (cc_host c) then "tcp://[" +:+ cc_host c +:+ "]:" +:+ Z_str (cc_port c)
  else "tcp://" +:+ cc_host c +:+ ":" +:+ Z_str (cc_port c).

Definition isoformat (t : Z) : string := iso_millis t.

(** An instant that [astimezone] can represent. *)
Definition instant_ok (t : Z) : bool := (day_us <=? t) && (t <? 3652060 * day_us).

Definition parse_time (value : string) : res Z :=
  match fromisoformat (replace_zulu value) with
  | None => canary_error ("invalid UTC timestamp: " +:+ value)
  | Some t =>
      guard_ce (is_naive t) ("timestamp must include a UTC offset: " +:+ value);;
      if instant_ok (instant t) then Ok (instant t)
      else Raise (Exn COverflowError "date value out of range")
  end.

(** [a / b] of integers, correctly rounded ([b > 0]). *)
Definition f_div_Z (a b : Z) : pfloat :=
  match a with
  | Z0 => f_zero
  | Zpos p => fdiv (SpecFloat.S754_finite false p 0) (SpecFloat.S754_finite false (Z.to_pos b) 0)
  | Zneg p => fdiv (SpecFloat.S754_finite true p 0) (SpecFloat.S754_finite false (Z.to_pos b) 0)
  end.

(** ** Files *)

Definition node_json (p : path) (n : option cnode) : res pydict :=
  match n with
  | None | Some NNotFile =>
      canary_error ("required regular JSON file is missing: " +:+ path_str p)
  | Some NInvalid | Some NUnreadable => canary_error ("cannot read JSON file " +:+ path_str p)
  | Some NNotText => Raise (Exn CUnicodeDecodeError "'utf-8' codec can't decode")
  | Some (NDoc (PDict d)) => Ok d
  | Some (NDoc _) => canary_error ("JSON root must be an object: " +:+ path_str p)
  end.
Definition read_json (p : path) : CM pydict := e_read (λ s, node_json p (find_node p (c_store s))).

Section canary.
Context `{CanaryRuntime}.

(** A system call: it fails, the process dies before or after it, or it is done. *)
Definition sys (f : cstate → cstate) : CM unit := λ s,
  let s' := tick_on s in
  match ct_fault (c_tick s) with
  | FOk => (ORet (), f s')
  | FErr msg => (ORaise (Exn COSError msg), s')
  | FDie after => (OCrash, if after then f s' else s')
  end.
Definition utc_now : CM Z := λ s, (ORet (ct_now (c_tick s)), tick_on s).
(** [uuid.uuid4().hex[:12]]. *)
Definition uuid_token : CM string := λ s, (ORet (ct_token (c_tick s)), tick_on s).

Definition put_node (p : path) (n : cnode) (s : cstate) : cstate :=
  with_store (drop_node p (c_store s) ++ [(p, n)]) s.
Definition remove_node (p : path) (s : cstate) : cstate := with_store (drop_node p (c_store s)) s.

Definition is_json_doc (v : py) : cnode := NDoc (jsort v).

(** [tempfile.mkstemp]: a new file, empty so far. *)
Definition mkstemp (parent : path) : CM path :=
  token ← uuid_token;
  let p := p_join parent (".boost-gateway-evidence-" +:+ token +:+ ".tmp") in
  taken ← e_gets (λ s, bool_decide (p ∈ map fst (c_store s)));
  if (taken : bool) then e_raise CFileExistsError "No usable temporary file name found"
  else sys (put_node p NInvalid);; mret p.

(** [os.link] to a name that must be new. *)
Definition link_new (temporary p : path) : CM unit :=
  taken ← e_gets (λ s, bool_decide (p ∈ map fst (c_store s)));
  if (taken : bool) then
    sys id;;
    e_raise CCanaryError ("refusing to replace create-only evidence: " +:+ path_str p)
  else
    sys (λ s, put_node p (default NInvalid (find_node temporary (c_store s))) s).

(** [try: m except BaseException: clean; raise]. *)
Definition on_failure {A} (m : CM A) (clean : CM unit) : CM A :=
  e_try m (λ e, clean;; e_lift (Raise e)).

(** The creation of the directory, of the staging file, its content, the link, the
    first sync and the removal of the staging name; the [finally] clause has work
    to do until that removal. *)
Definition write_create_only (p : path) (value : py) : CM unit :=
  sys id;;
  temporary ← mkstemp (p_parent p);
  on_failure
    (sys (put_node temporary (is_json_doc value));;
     link_new temporary p;;
     sys id;;
     sys (remove_node temporary))
    (sys (remove_node temporary));;
  sys id.

(** ** Configuration *)

(** [f"[{h}]" if ":" in h else h]. *)
Definition bracket_host (h : string) : string := if str_in ":" h then "[" +:+ h +:+ "]" else h.

Definition rstrip_slash (s : string) : string :=
  String.rev (lstrip (Ascii.eqb "/") (String.rev s)).

Definition alertmanager_origin (value : string) : res (string * string) :=
  match urlsplit value with
  | None => canary_error "Alertmanager URL is invalid"
  | Some parsed =>
      let hostname := su_hostname parsed in
      let '(username, password) := su_userinfo parsed in
      guard_ce
        (negb (mem_str (su_scheme parsed) ["http"; "https"])
         || negb (opt_truthy hostname) || opt_truthy username || opt_truthy password
         || negb (String.eqb (su_query parsed) "") || negb (String.eqb (su_fragment parsed) ""))
        "Alertmanager URL must be an HTTP(S) origin without credentials";;
      let path := rstrip_slash (su_path parsed) in
      guard_ce (negb (String.eqb path "") && negb (String.eqb path "/api/v2/alerts"))
        "Alertmanager URL path must be empty or /api/v2/alerts";;
      match su_port parsed with
      | None => canary_error "Alertmanager URL has an invalid port"
      | Some parsed_port =>
          let port := match parsed_port with Some p => ":" +:+ Z_str p | None => "" end in
          Ok (su_scheme parsed, bracket_host (default "" hostname) +:+ port)
      end
  end.
Definition validate_alertmanager_url (value : string) : res string :=
  '(scheme, netloc) ← alertmanager_origin value;
  Ok (scheme +:+ "://" +:+ netloc +:+ "/api/v2/alerts").
(** The normalised URL is split again. *)
Definition alertmanager_readiness_url (value : string) : res string :=
  url ← validate_alertmanager_url value;
  match urlsplit url with
  | None => Raise (Exn CValueError "Invalid IPv6 URL")
  | Some u => Ok (urlunsplit_origin (su_scheme u) (su_netloc u) "/-/ready")
  end.

(** [[A-Za-z0-9](?:[A-Za-z0-9-]*[A-Za-z0-9])?] of at most 63 characters. *)
Definition host_label (s : string) : bool :=
  match s with
  | EmptyString => false
  | String a _ =>
      (String.length s <=? 63)%nat && is_alnum a
      && str_all (λ c, is_alnum c || Ascii.eqb c "-") s
      && match String.rev s with String z _ => is_alnum z | EmptyString => false end
  end.
Definition is_ip_address (s : string) : bool :=
  match parse_ip4 s with
  | Some _ => true
  | None => match parse_ip6 s with Some _ => true | None => false end
  end.
Definition safe_char (c : ascii) : bool :=
  is_alnum c || Ascii.eqb c "_" || Ascii.eqb c "." || Ascii.eqb c "-".
(** [[A-Za-z0-9_.-]{3,48}]. *)
Definition synthetic_identity (s : string) : bool :=
  str_all safe_char s && (3 <=? String.length s)%nat && (String.length s <=? 48)%nat.

Definition validate_config (c : CanaryConfig) : res CanaryConfig :=
  guard_ce (negb (is_ip_address (cc_host c))
            && ((253 <? String.length (cc_host c))%nat
                || existsb (λ l, negb (host_label l)) (split_char "." "" (cc_host c))))
    "canary host must be an IP literal or DNS hostname";;
  guard_ce (negb ((1 <=? cc_port c) && (cc_port c <=? 65535)))
    "canary port must be between 1 and 65535";;
  guard_ce (negb ((250 <=? cc_timeout_ms c) && (cc_timeout_ms c <=? 30000)))
    "timeout must be between 250 and 30000 milliseconds";;
  guard_ce (negb (synthetic_identity (cc_user_a c)))
    "user A must be a fixed 3-48 character synthetic identity";;
  guard_ce (negb (synthetic_identity (cc_user_b c)))
    "user B must be a fixed 3-48 character synthetic identity";;
  guard_ce (String.eqb (cc_user_a c) (cc_user_b c)) "canary users must be distinct";;
  guard_ce (String.eqb (cc_token_a c) "" || String.eqb (cc_token_b c) "")
    "both canary tokens are required";;
  validate_alertmanager_url (cc_alertmanager_url c);;
  Ok c.
End canary.

(** ** The environment *)

(** The digits of [int(s)]; an underscore may stand between two of them. *)
Fixpoint int_digits (acc : Z) (s : string) : option Z :=
  match s with
  | EmptyString => None
  | String a r =>
      if is_digit a then
        let acc := acc * 10 + digit_val a in
        match r with
        | EmptyString => Some acc
        | String b r' => if Ascii.eqb b "_" then int_digits acc r' else int_digits acc r
        end
      else None
  end.
(** [int(s)]; [None] where it raises. *)
Definition int_of_text (s : string) : option Z :=
  match strip s with
  | String a r =>
      if Ascii.eqb a "-" then Z.opp <$> int_digits 0 r
      else if Ascii.eqb a "+" then int_digits 0 r
      else int_digits 0 (String a r)
  | EmptyString => None
  end.

Definition env := list (string * string).
Fixpoint env_get (e : env) (k : string) : option string :=
  match e with
  | [] => None
  | (k', v) :: e => if String.eqb k k' then Some v else env_get e k
  end.
Definition required_environment : list string :=
  map (λ k, "BOOST_GATEWAY_CANARY_" +:+ k)
    ["HOST"; "USER_A"; "USER_B"; "TOKEN_A"; "TOKEN_B"; "ALERTMANAGER_URL"].

Definition config_from_mapping (environment : env) : res CanaryConfig :=
  let value k := default "" (env_get environment ("BOOST_GATEWAY_CANARY_" +:+ k)) in
  let missing := filter (λ k, opt_truthy (env_get environment k) = false) required_environment in
  guard_ce (negb (bool_decide (missing = [])))
    ("missing canary environment variables: " +:+ str_concat ", " missing);;
  match int_of_text (default "9201" (env_get environment "BOOST_GATEWAY_CANARY_PORT")),
        int_of_text (default (Z_str DEFAULT_TIMEOUT_MS)
                       (env_get environment "BOOST_GATEWAY_CANARY_TIMEOUT_MS")) with
  | Some port, Some timeout_ms =>
      validate_config
        (CanaryConfigOf (value "HOST") port (value "USER_A") (value "USER_B") (value "TOKEN_A")
           (value "TOKEN_B") (value "ALERTMANAGER_URL") timeout_ms)
  | _, _ => canary_error "canary port and timeout must be integers"
  end.

(** The environment file when it is a regular file: its owner, mode and size, and
    its bytes unless they cannot be read. *)
Record env_file := EnvFile {
  ef_uid : Z; ef_mode : Z; ef_size : Z; ef_bytes : option string }.

Definition env_line (environment : env) (number : Z) (raw_line : string) : res env :=
  if String.eqb raw_line "" || starts_with "#" (lstrip is_space raw_line) then Ok environment
  else
    match split_once "=" raw_line with
    | None => canary_error ("invalid environment entry on line " +:+ Z_str number)
    | Some (name, value) =>
        guard_ce (negb (mem_str name ENVIRONMENT_KEYS))
          ("unknown environment key on line " +:+ Z_str number);;
        guard_ce (match env_get environment name with Some _ => true | None => false end)
          ("duplicate environment key on line " +:+ Z_str number);;
        guard_ce (str_in "000" value) ("invalid environment value on line " +:+ Z_str number);;
        Ok (environment ++ [(name, value)])
    end.
Fixpoint env_lines (environment : env) (number : Z) (lines : list string) : res env :=
  match lines with
  | [] => Ok environment
  | l :: lines => environment ← env_line environment number l; env_lines environment (number + 1) lines
  end.

Definition load_environment_file (euid : Z) (file : option env_file) : res env :=
  match file with
  | None => canary_error "environment file must be a regular non-symlink"
  | Some f =>
      guard_ce ((negb (ef_uid f =? 0) && negb (ef_uid f =? euid))
                || negb (Z.land (ef_mode f) 63 =? 0))
        "environment file must be owner-controlled and mode 0600";;
      guard_ce (16384 <? ef_size f) "environment file exceeds the 16 KiB limit";;
      match ef_bytes f with
      | None => canary_error "cannot read environment file: OSError"
      | Some bytes =>
          match decode_strict bytes with
          | Raise _ => canary_error "cannot read environment file: UnicodeDecodeError"
          | Ok text => env_lines [] 1 (splitlines text)
          end
      end
  end.

(** ** The deployed candidate and the host *)

Record candidate := Candidate {
  cd_deployment_id : string; cd_tag : string; cd_commit : string; cd_runtime_digest : string }.
Definition candidate_py (c : candidate) : py :=
  PDict [("deployment_id", PStr (cd_deployment_id c)); ("tag", PStr (cd_tag c));
         ("commit", PStr (cd_commit c)); ("runtime_digest", PStr (cd_runtime_digest c))].

(** [(?:sha256:)?[0-9a-f]{64}]. *)
Definition runtime_digest_re (s : string) : bool := re_hex 64 s || IMAGE_ID_RE s.

Definition candidate_of (record : pydict) : res candidate :=
  let image_ids := get_or record "image_ids" (PDict []) in
  let digest := match image_ids with PDict d => get d "GATEWAY_IMAGE_ID" | _ => PNone end in
  let digest := if truthy digest then digest else get record "runtime_asset_sha256" in
  match get record "tag" with
  | PStr tag =>
      guard_ce (negb (TAG_RE tag)) "deployment record has no valid release tag";;
      match get record "commit" with
      | PStr commit =>
          guard_ce (negb (COMMIT_RE commit))
            "deployment record has no full lowercase commit SHA";;
          match get record "deployment_id" with
          | PStr deployment_id =>
              guard_ce (String.eqb deployment_id "") "deployment record has no deployment_id";;
              match digest with
              | PStr digest =>
                  guard_ce (negb (runtime_digest_re digest))
                    "deployment record has no valid gateway runtime digest";;
                  Ok (Candidate deployment_id tag commit
                        (if starts_with "sha256:" digest then digest else "sha256:" +:+ digest))
              | _ => canary_error "deployment record has no valid gateway runtime digest"
              end
          | _ => canary_error "deployment record has no deployment_id"
          end
      | _ => canary_error "deployment record has no full lowercase commit SHA"
      end
  | _ => canary_error "deployment record has no valid release tag"
  end.
Definition candidate_from_record (p : path) : CM candidate :=
  record ← read_json p; e_lift (candidate_of record).

(** [bytes.strip()]. *)
Definition is_byte_space (a : ascii) : bool :=
  let n := N_of_ascii a in ((n =? 32) || ((9 <=? n) && (n <=? 13)))%N.

Section host.
Context `{CanaryRuntime}.

(** [machine_id] is the content of the regular file at the path of the machine
    identity. *)
Definition validate_external_host (deployment_record : path) (machine_id : option string)
    : CM (string * string) :=
  record ← read_json deployment_record;
  let source_id := match get record "host" with PDict d => get d "host_id_sha256" | _ => PNone end in
  match source_id with
  | PStr source_id =>
      e_lift (
        guard_ce (negb (re_hex 64 source_id))
          "deployment record has no valid production host identity";;
        match machine_id with
        | None => canary_error "external canary host has no regular /etc/machine-id"
        | Some machine_id =>
            guard_ce (String.eqb (strip_by is_byte_space machine_id) "")
              "external canary host machine-id is empty";;
            let canary_id := ct_sha256 machine_id in
            guard_ce (String.eqb canary_id source_id)
              "canary must run outside the production service host";;
            Ok (source_id, canary_id)
        end)
  | _ => e_lift (canary_error "deployment record has no valid production host identity")
  end.
Definition host_boundary_py (b : string * string) : py :=
  PDict [("production_host_id_sha256", PStr b.1); ("canary_host_id_sha256", PStr b.2)].
End host.
