(* ===== verification/CanaryFlow.v ===== *)
(** * The external business canary: the business flow

    Models [execute_business_flow] of
    [src/scripts/tools/external_business_canary.py]: the six operations on two
    clients of the SDK, the record of each step, and the clean-up. *)
From S2P Require Import Prelude PyFloat PyValue PyEffect Canary.
#[local] Open Scope Z_scope.

(** The clients made so far, the two of the [state] dictionary, its two flags,
    and the calls. *)
Record flow := Flow {
  fl_tick : nat;
  fl_next : nat;
  fl_calls : list call;
  fl_clients : list nat;
  fl_party : option (nat * nat);
  fl_created : bool;
  fl_joined : bool
}.
Definition FM := eff flow.

Record step_result := StepResult {
  sr_name : string;
  sr_ok : bool;
  sr_latency_ms : option pfloat;
  sr_error_type : string;
  sr_code : option (bool + Z)
}.
Definition code_py (c : option (bool + Z)) : py :=
  match c with None => PNone | Some (inl b) => PBool b | Some (inr z) => PInt z end.
Definition step_py (s : step_result) : py :=
  PDict [("name", PStr (sr_name s)); ("ok", PBool (sr_ok s));
         ("latency_ms", match sr_latency_ms s with Some f => PFloat f | None => PNone end);
         ("error_type", PStr (sr_error_type s)); ("sdk_error_code", code_py (sr_code s))].

Definition step_failure {A} (error_type msg : string) (code : option (bool + Z)) : res A :=
  Raise (Exn (CStepFailure error_type code) msg).

(** [code if isinstance(code, int) else None]. *)
Definition int_code (v : py) : option (bool + Z) :=
  match v with PBool b => Some (inl b) | PInt z => Some (inr z) | _ => None end.

Definition result_ok (result : py) (operation : string) : res pydict :=
  match result with
  | PDict d =>
      if truthy (get d "ok") then Ok d
      else step_failure "sdk_error" (operation +:+ " was rejected") (int_code (get d "error_code"))
  | _ => step_failure "protocol_error" (operation +:+ " returned a non-object result") None
  end.

Section flow.
Context `{CanaryRuntime}.

Definition log_call (c : call) (s : flow) : flow :=
  Flow (S (fl_tick s)) (fl_next s) (fl_calls s ++ [c]) (fl_clients s) (fl_party s) (fl_created s)
    (fl_joined s).

(** A call of a method of a client. *)
Definition sdk (client : nat) (op : sdk_op) : FM py := λ s,
  (ct_sdk (fl_tick s), log_call (CallOn client op (ct_sdk (fl_tick s))) s).
(** [client_factory()]. *)
Definition client_factory : FM nat := λ s,
  let s' := log_call (CallNew (fl_next s)) s in
  match ct_new (fl_tick s) with
  | Some e => (ORaise e, s')
  | None => (ORet (fl_next s),
             Flow (fl_tick s') (S (fl_next s)) (fl_calls s') (fl_clients s) (fl_party s)
               (fl_created s) (fl_joined s))
  end.
Definition flow_sleep (seconds : pfloat) : FM unit := e_modify (log_call (CallSleep seconds)).
Definition clock_ns : FM Z := λ s,
  (ORet (ct_clock_ns (fl_tick s)),
   Flow (S (fl_tick s)) (fl_next s) (fl_calls s) (fl_clients s) (fl_party s) (fl_created s)
     (fl_joined s)).

Definition set_clients (l : list nat) (s : flow) : flow :=
  Flow (fl_tick s) (fl_next s) (fl_calls s) l (fl_party s) (fl_created s) (fl_joined s).
Definition set_party (p : option (nat * nat)) (s : flow) : flow :=
  Flow (fl_tick s) (fl_next s) (fl_calls s) (fl_clients s) p (fl_created s) (fl_joined s).
Definition set_created (b : bool) (s : flow) : flow :=
  Flow (fl_tick s) (fl_next s) (fl_calls s) (fl_clients s) (fl_party s) b (fl_joined s).
Definition set_joined (b : bool) (s : flow) : flow :=
  Flow (fl_tick s) (fl_next s) (fl_calls s) (fl_clients s) (fl_party s) (fl_created s) b.

(** [state["alice"], state["bob"]]. *)
Definition get_party : FM (nat * nat) := e_read (λ s,
  match fl_party s with Some p => Ok p | None => Raise (Exn CKeyError "'alice'") end).

(** [_result_ok(client.method(...), operation)]. *)
Definition checked (client : nat) (op : sdk_op) (operation : string) : FM pydict :=
  r ← sdk client op; e_lift (result_ok r operation).
Definition check_call (client : nat) (op : sdk_op) (operation : string) : FM unit :=
  checked client op operation;; mret ().

Variable config : CanaryConfig.
Variable room_id : string.
#[local] Abbreviation timeout := (cc_timeout_ms config).

Definition connect_client (client : nat) (label : string) : FM unit :=
  connected ← e_try (sdk client (SConnect (cc_host config) (cc_port config) timeout))
    (λ e, e_lift (if exn_isa CTimeoutError e
                  then step_failure "timeout" (label +:+ " connection timed out") None
                  else step_failure "connect_error" (label +:+ " connection raised") None));
  if truthy connected then mret ()
  else e_lift (step_failure "connect_error" (label +:+ " connection was rejected") None).

Definition login : FM unit :=
  alice ← client_factory;
  bob ← client_factory;
  e_modify (λ s, set_clients (fl_clients s ++ [alice; bob]) s);;
  connect_client alice "primary";;
  connect_client bob "secondary";;
  check_call alice (SLogin (cc_user_a config) (cc_token_a config) timeout) "primary login";;
  check_call bob (SLogin (cc_user_b config) (cc_token_b config) timeout) "secondary login";;
  e_modify (set_party (Some (alice, bob))).

(** [created.get("room_id") not in {None, "", room_id}]: a list or a dict is
    unhashable. *)
Definition room_identity (v : py) : res unit :=
  let unexpected :=
    step_failure "protocol_error" "create room returned an unexpected room identity" None in
  match v with
  | PNone => Ok ()
  | PStr s => if String.eqb s "" || String.eqb s room_id then Ok () else unexpected
  | PList _ | PDict _ => Raise (Exn CTypeError "unhashable type")
  | _ => unexpected
  end.

Definition room : FM unit :=
  '(alice, bob) ← get_party;
  created ← checked alice (SCreateRoom room_id timeout) "create room";
  e_modify (set_created true);;
  e_lift (room_identity (get created "room_id"));;
  check_call bob (SJoinRoom room_id timeout) "join room";;
  e_modify (set_joined true);;
  check_call alice (SSetReady true timeout) "primary ready";;
  check_call bob (SSetReady true timeout) "secondary ready".

Definition battle : FM unit :=
  '(alice, bob) ← get_party;
  check_call alice (SStartBattle room_id timeout) "start battle";;
  flow_sleep (f_of_dec false 2 (-1));;
  check_call alice (SBattleInput "move:10,20" timeout) "primary battle input";;
  check_call bob (SBattleInput "move:30,40" timeout) "secondary battle input".

Definition settlement : FM unit :=
  '(alice, _) ← get_party;
  check_call alice (SBattleInput "finish:surrender" timeout) "battle settlement".

(** [if text not in str(d.get("body", ""))]. *)
Definition body_mentions (text : string) (d : pydict) (msg : string) : res unit :=
  if contains text (py_str (get_or d "body" (PStr ""))) then Ok ()
  else step_failure "protocol_error" msg None.

Definition leaderboard : FM unit :=
  '(alice, bob) ← get_party;
  top ← checked alice (SLeaderboardTop 20 timeout) "leaderboard top";
  e_lift (body_mentions "entries" top "leaderboard top omitted the entries collection");;
  check_call alice (SLeaderboardSubmit (cc_user_a config) "Canary A" 8000000001 timeout)
    "leaderboard submit primary";;
  check_call bob (SLeaderboardSubmit (cc_user_b config) "Canary B" 8000000000 timeout)
    "leaderboard submit secondary";;
  rank ← checked alice (SLeaderboardRank (cc_user_a config) timeout) "leaderboard rank";
  e_lift (body_mentions (cc_user_a config) rank
            "leaderboard rank omitted the fixed canary identity").

Definition reconnect : FM unit :=
  '(alice, bob) ← get_party;
  check_call bob (SLeaveRoom room_id timeout) "secondary leave room";;
  e_modify (set_joined false);;
  check_call alice (SLeaveRoom room_id timeout) "primary leave room";;
  e_modify (set_created false);;
  sdk alice SDisconnect;;
  connect_client alice "primary reconnect";;
  check_call alice (SLogin (cc_user_a config) (cc_token_a config) timeout) "primary relogin".

Definition operations : list (string * FM unit) :=
  [("login", login); ("room", room); ("battle", battle); ("settlement", settlement);
   ("leaderboard", leaderboard); ("reconnect", reconnect)].

(** ** The loop over the operations *)

Definition dependency_failed (name : string) : step_result :=
  StepResult name false None "dependency_failure" None.

(** [round(max(0.0, (clock_ns() - started) / 1_000_000), 3)]. *)
Definition latency_of (started now : Z) : pfloat :=
  let elapsed := f_div_Z (now - started) 1000000 in
  f_round (if fltb f_zero elapsed then elapsed else f_zero) 3.

(** The clauses of the [try] statement, in their order. *)
Definition step_of (name : string) (latency : pfloat) (r : res unit) : step_result :=
  match r with
  | Ok _ => StepResult name true (Some latency) "none" None
  | Raise e =>
      match exn_cls e with
      | CStepFailure error_type code => StepResult name false (Some latency) error_type code
      | _ =>
          StepResult name false (Some latency)
            (if exn_isa CTimeoutError e then "timeout" else "internal_error") None
      end
  end.

Definition attempt_step {A} (m : FM A) : FM (res A) := λ s,
  match m s with
  | (ORet a, s') => (ORet (Ok a), s')
  | (ORaise e, s') => (ORet (Raise e), s')
  | (OCrash, s') => (OCrash, s')
  end.

Fixpoint run_steps (failed : bool) (ops : list (string * FM unit)) : FM (list step_result) :=
  match ops with
  | [] => mret []
  | (name, operation) :: ops =>
      if failed then
        rest ← run_steps true ops;
        mret (dependency_failed name :: rest)
      else
        started ← clock_ns;
        r ← attempt_step operation;
        now ← clock_ns;
        rest ← run_steps (negb (is_ok r)) ops;
        mret (step_of name (latency_of started now) r :: rest)
  end.

(** [try: m except Exception: pass]. *)
Definition ignoring {A} (m : FM A) : FM unit := e_try (m;; mret ()) (λ _, mret ()).

Definition leave_rooms : FM unit :=
  s ← e_gets (λ s, (fl_joined s, fl_created s, fl_party s));
  let '(joined, created, party) := s in
  match party with
  | None => mret ()
  | Some (alice, bob) =>
      (if (joined : bool) then ignoring (sdk bob (SLeaveRoom room_id timeout)) else mret ());;
      (if (created : bool) then ignoring (sdk alice (SLeaveRoom room_id timeout)) else mret ())
  end.
Definition disconnect_all : FM unit :=
  clients ← e_gets fl_clients;
  e_iter (λ c, ignoring (sdk c SDisconnect)) clients.
Definition clean_up : FM unit := leave_rooms;; disconnect_all.

Definition flow_body : FM (list step_result) := e_finally (run_steps false operations) clean_up.
End flow.

(** [f"canary_{suffix}"[:63]]. *)
Definition room_of (suffix : string) : string := str_take 63 ("canary_" +:+ suffix).

Section execute.
Context `{CanaryRuntime}.

(** [sample_suffix or uuid.uuid4().hex[:12]]. *)
Definition suffix_or_token (suffix : string) : CM string :=
  if String.eqb suffix "" then uuid_token else mret suffix.

(** A run of the flow on fresh local variables; clients get new numbers. *)
Definition in_flow {A} (m : FM A) : CM A := λ s,
  let '(o, f) := m (Flow (c_tick s) (length (c_calls s)) (c_calls s) [] None false false) in
  (o, CState (fl_tick f) (c_store s) (fl_calls f) (c_requests s)).

Definition execute_business_flow (config : CanaryConfig) (sample_suffix : string)
    : CM (list step_result) :=
  suffix ← suffix_or_token sample_suffix;
  in_flow (flow_body config (room_of suffix)).
End execute.
