(* ===== verification/CanarySample.v ===== *)
(** * The external business canary: alerts and samples

    Models [check_alertmanager_readiness], [deliver_alert], [_sample_path] and
    [run_once] of [src/scripts/tools/external_business_canary.py]. *)
From S2P Require Import Prelude PyFloat PyValue PyTime PyDateTime PyPath PyEffect Canary CanaryFlow.
#[local] Open Scope Z_scope.

(** [re.sub(r"[^A-Za-z0-9_.-]", "_", s)] and [s[-n:]]. *)
Definition sanitize (s : string) : string :=
  map_str (λ a, String (if safe_char a then a else "_"%char) "") s.
Definition str_last (n : nat) (s : string) : string := str_skip (String.length s - n) s.

Definition opt_py (s : option string) : py := match s with Some s => PStr s | None => PNone end.
Definition int_py (z : option Z) : py := match z with Some z => PInt z | None => PNone end.

(** The outcome of a request: whether it was the awaited 200, its status and its
    error type. *)
Record http_outcome := HttpOutcome {
  ho_ok : bool; ho_status : option Z; ho_error : option string }.

Definition delivery_py (d : http_outcome) : py :=
  PDict [("delivered", PBool (ho_ok d)); ("status_code", int_py (ho_status d));
         ("error_type", opt_py (ho_error d))].

(** What is taken from the answer. *)
Definition outcome_of (a : http_answer) : outcome http_outcome :=
  match a with
  | HReply status =>
      let ready := status =? 200 in
      ORet (HttpOutcome ready (Some status)
              (if ready then None else Some "unexpected_http_status"))
  | HError code => ORet (HttpOutcome false (Some code) (Some "HTTPError"))
  | HFail name => ORet (HttpOutcome false None (Some name))
  | HRaise e => ORaise e
  | HDie => OCrash
  end.

Definition alert_body (alertname : string) (c : candidate) (endpoint_ summary : string)
    (observed_at : Z) : py :=
  PList [PDict
    [("labels", PDict [("alertname", PStr alertname); ("severity", PStr "critical");
                       ("component", PStr "external-business-canary");
                       ("deployment_id", PStr (str_last 120 (sanitize (cd_deployment_id c))))]);
     ("annotations", PDict [("summary", PStr (str_take 240 summary)); ("endpoint", PStr endpoint_);
                            ("tag", PStr (cd_tag c)); ("commit", PStr (cd_commit c));
                            ("runtime_digest", PStr (cd_runtime_digest c))]);
     ("startsAt", PStr (isoformat observed_at));
     ("endsAt", PStr (isoformat (observed_at + ALERT_LIFETIME)));
     ("generatorURL", PStr ISSUE_URL)]].

Section sample.
Context `{CanaryRuntime}.

(** [opener(request, ...)] with the handling of its answer. *)
Definition send_request (r : http_request) : CM http_outcome := λ s,
  (outcome_of (ct_http (c_tick s)),
   CState (S (c_tick s)) (c_store s) (c_calls s) (c_requests s ++ [r])).

Record readiness := Readiness { rd_outcome : http_outcome; rd_url : string }.
Definition readiness_py (r : readiness) : py :=
  PDict [("ready", PBool (ho_ok (rd_outcome r))); ("url", PStr (rd_url r));
         ("status_code", int_py (ho_status (rd_outcome r)));
         ("error_type", opt_py (ho_error (rd_outcome r)))].

Definition check_alertmanager_readiness (alertmanager_url : string) : CM readiness :=
  url ← e_lift (alertmanager_readiness_url alertmanager_url);
  o ← send_request (HttpRequest "GET" url PNone);
  mret (Readiness o url).

(** [observed_at + ALERT_LIFETIME] leaves the calendar only in its last minutes. *)
Definition later (t d : Z) : res Z :=
  if instant_ok (t + d) then Ok (t + d)
  else Raise (Exn COverflowError "date value out of range").

Definition deliver_alert (alertmanager_url alertname : string) (c : candidate)
    (endpoint_ summary : string) (observed_at : Z) : CM http_outcome :=
  url ← e_lift (validate_alertmanager_url alertmanager_url);
  e_lift (later observed_at ALERT_LIFETIME);;
  send_request (HttpRequest "POST" url (alert_body alertname c endpoint_ summary observed_at)).

(** [root / a / b / ...]. *)
Definition under (root : path) (names : list string) : path :=
  Path (p_root root) (p_parts root ++ names).

Definition sample_path (root : path) (observed_at : Z) (sample_id : string) : path :=
  let '(y, mo, d) := dt_date observed_at in
  under root ["samples"; pad4 y ""; pad2 mo ""; pad2 d ""; sample_id +:+ ".json"].

Definition incident_path (root : path) (name : string) : path :=
  under root ["incidents"; name +:+ ".json"].

Definition failed_summary (step : step_result) : string :=
  "External business canary failed at " +:+ sr_name step +:+ " (" +:+ sr_error_type step +:+ ")".

(** The alert and the incident of a failed flow. *)
Definition report_failure (config : CanaryConfig) (root : path) (observed : Z) (sample_id : string)
    (c : candidate) (failed_step : step_result) : CM (http_outcome * path) :=
  delivery ← deliver_alert (cc_alertmanager_url config) "BoostGatewayExternalCanaryFailed" c
               (endpoint config) (failed_summary failed_step) observed;
  let path := incident_path root sample_id in
  write_create_only path
    (PDict [("schema_version", PInt 1); ("incident_id", PStr sample_id);
            ("created_at", PStr (isoformat observed)); ("issue_url", PStr ISSUE_URL);
            ("candidate", candidate_py c); ("endpoint", PStr (endpoint config));
            ("failed_step", step_py failed_step);
            ("alertmanager_delivery", delivery_py delivery);
            ("secret_material_recorded", PBool false)]);;
  mret (delivery, path).

Definition sample_document (config : CanaryConfig) (sdk_version : string) (observed completed : Z)
    (sample_id : string) (c : candidate) (steps : list step_result) (overall_pass : bool)
    (incident : option (http_outcome * path)) (host_boundary : option (string * string)) : pydict :=
  [("schema_version", PInt 1); ("sample_id", PStr sample_id);
   ("scheduled_minute", PStr (iso_seconds (floor_minute observed)));
   ("started_at", PStr (isoformat observed)); ("completed_at", PStr (isoformat completed));
   ("candidate", candidate_py c); ("endpoint", PStr (endpoint config));
   ("sdk_version", PStr sdk_version);
   ("synthetic_identity_sha256",
     PList [PStr (ct_sha256 (cc_user_a config)); PStr (ct_sha256 (cc_user_b config))]);
   ("fixed_identity_count", PInt 2); ("steps", PList (map step_py steps));
   ("overall_pass", PBool overall_pass);
   ("alertmanager_delivery",
     match incident with Some (d, _) => delivery_py d | None => PNone end);
   ("incident_record", match incident with Some (_, p) => PStr (path_str p) | None => PNone end);
   ("secret_material_recorded", PBool false)]
  ++ match host_boundary with Some b => [("host_boundary", host_boundary_py b)] | None => [] end.

(** The time is [observed_at] or the clock's, the suffix the given one or a
    random one. *)
Definition run_once (config : CanaryConfig) (deployment_record evidence_root : path)
    (sdk_version : string) (observed_at : option Z) (suffix : string)
    (host_boundary : option (string * string)) : CM pydict :=
  config ← e_lift (validate_config config);
  observed ← (match observed_at with Some t => mret t | None => utc_now end);
  sample_suffix ← suffix_or_token suffix;
  let sample_id := "canary-" +:+ compact_second observed +:+ "-" +:+ sample_suffix in
  c ← candidate_from_record deployment_record;
  steps ← execute_business_flow config sample_suffix;
  let overall_pass := forallb sr_ok steps in
  incident ← (match list_find (λ s, sr_ok s = false) steps with
              | Some (_, failed_step) =>
                  i ← report_failure config evidence_root observed sample_id c failed_step;
                  mret (Some i)
              | None => mret None
              end);
  completed ← utc_now;
  let sample := sample_document config sdk_version observed completed sample_id c steps
                  overall_pass incident host_boundary in
  let path := sample_path evidence_root observed sample_id in
  write_create_only path (PDict sample);;
  mret (dset sample "sample_path" (PStr (path_str path))).
End sample.
