(* ===== verification/CanaryReport.v ===== *)
(** * The external business canary: reports

    Models the maintenance windows, the gaps, [aggregate_samples] and
    [aggregate_window] of [src/scripts/tools/external_business_canary.py]. *)
From S2P Require Import Prelude PyFloat PyValue PyTime PyDateTime PyPath PyJson PyEffect PerfStatistics Canary CanarySample.
From S2P Require Import CanaryFlow.
#[local] Open Scope Z_scope.

(** ** Listing *)

(** [sorted(paths)]: paths compare by their parts. *)
Fixpoint path_parts_leb (a b : list string) : bool :=
  match a, b with
  | [], _ => true
  | _ :: _, [] => false
  | x :: a, y :: b => if String.eqb x y then path_parts_leb a b else bool_decide (String.le x y)
  end.
Fixpoint insert_path (p : path) (l : list path) : list path :=
  match l with
  | [] => [p]
  | q :: r => if path_parts_leb (p_parts q) (p_parts p) then q :: insert_path p r else p :: q :: r
  end.
Definition sorted_paths (l : list path) : list path := fold_left (λ acc p, insert_path p acc) l [].

(** The parts below a directory. *)
Fixpoint parts_below (dir parts : list string) : option (list string) :=
  match dir, parts with
  | [], _ => Some parts
  | d :: dir, p :: parts => if String.eqb d p then parts_below dir parts else None
  | _ :: _, [] => None
  end.
(** [(root / "samples").glob("**/*.json")], in the order of the listing. *)
Definition is_sample_path (root p : path) : bool :=
  String.eqb (p_root root) (p_root p)
  && match parts_below (p_parts root ++ ["samples"]) (p_parts p) with
     | Some (x :: r) => ends_with ".json" (List.last (x :: r) "")
     | _ => false
     end.
Definition sample_paths (root : path) (l : list (path * cnode)) : list path :=
  filter (λ p, is_sample_path root p = true) (map fst l).
(** [(root / "incidents").glob(f"{prefix}*.json")]. *)
Definition is_incident_path (root : path) (prefix : string) (p : path) : bool :=
  String.eqb (p_root root) (p_root p)
  && match parts_below (p_parts root ++ ["incidents"]) (p_parts p) with
     | Some [name] =>
         starts_with prefix name && ends_with ".json" name
         && (String.length prefix + 5 <=? String.length name)%nat
     | _ => false
     end.
Definition incident_paths (root : path) (prefix : string) (l : list (path * cnode)) : list path :=
  filter (λ p, is_incident_path root prefix p = true) (map fst l).

(** ** Maintenance *)

Record maintenance := Maintenance {
  mw_id : string; mw_start : Z; mw_end : Z; mw_approved_by : string }.

Definition maintenance_item (index : Z) (item : py) : res maintenance :=
  match item with
  | PDict d =>
      start ← parse_time (py_str (get d "start"));
      end_ ← parse_time (py_str (get d "end"));
      guard_ce ((end_ <=? start) || negb (truthy (get d "approved_by")) || negb (truthy (get d "id")))
        ("maintenance window " +:+ Z_str index +:+ " is not approved or has invalid bounds");;
      Ok (Maintenance (py_str (get d "id")) start end_ (py_str (get d "approved_by")))
  | _ => canary_error ("maintenance window " +:+ Z_str index +:+ " is not an object")
  end.
Fixpoint maintenance_items (index : Z) (l : list py) : res (list maintenance) :=
  match l with
  | [] => Ok []
  | v :: l =>
      w ← maintenance_item index v;
      r ← maintenance_items (index + 1) l;
      Ok (w :: r)
  end.
Definition load_maintenance_windows (p : option path) : CM (list maintenance) :=
  match p with
  | None => mret []
  | Some p =>
      document ← read_json p;
      e_lift match get document "windows" with
             | PList l => maintenance_items 0 l
             | _ => canary_error "maintenance document must contain a windows array"
             end
  end.

Definition in_maintenance (windows : list maintenance) (moment : Z) : bool :=
  existsb (λ w, (mw_start w <=? moment) && (moment <? mw_end w)) windows.

(** ** Minutes and gaps *)

(** [while moment < end: yield moment; moment += timedelta(minutes=1)]. *)
Fixpoint minutes_from (fuel : nat) (moment end_ : Z) : list Z :=
  match fuel with
  | O => []
  | S fuel => if moment <? end_ then moment :: minutes_from fuel (moment + minute_us) end_ else []
  end.
Definition iter_minutes (start end_ : Z) : list Z :=
  minutes_from (Z.to_nat ((end_ - floor_minute start) / minute_us + 1)) (floor_minute start) end_.

Record gap := Gap { g_start : Z; g_end : Z; g_minutes : Z }.

(** The moments are whole minutes apart, so that the floats of
    [int((previous - start).total_seconds() / 60) + 1] are exact. *)
Definition gap_of (start previous : Z) : gap :=
  Gap start (previous + minute_us) ((previous - start) / minute_us + 1).
Fixpoint gap_loop (start previous : Z) (l : list Z) : list gap :=
  match l with
  | [] => [gap_of start previous]
  | moment :: l =>
      if moment =? previous + minute_us then gap_loop start moment l
      else gap_of start previous :: gap_loop moment moment l
  end.
Definition gap_ranges (missing : list Z) : list gap :=
  match missing with [] => [] | m :: l => gap_loop m m l end.

(** [max((item["minutes"] for item in ranges), default=0)]. *)
Definition max_minutes (l : list gap) : Z :=
  match l with [] => 0 | g :: l => fold_left Z.max (map g_minutes l) (g_minutes g) end.

(** ** Samples *)

(** [for x in v]. *)
Fixpoint chars_of (s : string) : list py :=
  match s with EmptyString => [] | String a r => PStr (String a "") :: chars_of r end.
Definition py_iter (v : py) : res (list py) :=
  match v with
  | PList l => Ok l
  | PDict d => Ok (map (λ kv, PStr kv.1) d)
  | PStr s => Ok (chars_of s)
  | _ => Raise (Exn CTypeError "object is not iterable")
  end.

Definition sample_steps (sample : pydict) : res (list py) :=
  py_iter (get_or sample "steps" (PList [])).
(** [tuple(step.get("name") for step in sample.get("steps", []))]. *)
Definition step_names (sample : pydict) : res (list py) :=
  steps ← sample_steps sample; mapM (λ step, vget step "name") steps.
Definition are_required (names : list py) : bool :=
  py_eqb (PList names) (PList (map PStr REQUIRED_STEPS)).

Definition by_minute := list (Z * pydict).
Definition has_minute (minute : Z) (m : by_minute) : bool :=
  existsb (λ x, x.1 =? minute) m.

(** What the body of the loop does with a file. *)
Inductive sample_verdict :=
  | VSkip
  | VInvalid (reason : string)
  | VAccept (minute : Z) (sample : pydict).

Definition judge_body (start end_ : Z) (m : by_minute) (p : path) (n : option cnode)
    : res sample_verdict :=
  sample ← node_json p n;
  raw ← item sample "scheduled_minute";
  minute ← parse_time (py_str raw);
  if negb ((start <=? minute) && (minute <? end_)) then Ok VSkip
  else if has_minute minute m then Ok (VInvalid "duplicate_scheduled_minute")
  else
    names ← step_names sample;
    Ok (if negb (are_required names) || not_false sample "secret_material_recorded"
        then VInvalid "invalid_sample_contract" else VAccept minute sample).

(** The handler: [except (CanaryError, KeyError, TypeError)]. *)
Definition judge (start end_ : Z) (m : by_minute) (p : path) (n : option cnode) : res sample_verdict :=
  match judge_body start end_ m p n with
  | Raise e =>
      if exn_isa CCanaryError e then Ok (VInvalid "CanaryError")
      else if exn_isa CKeyError e then Ok (VInvalid "KeyError")
      else if exn_isa CTypeError e then Ok (VInvalid "TypeError")
      else Raise e
  | r => r
  end.

Fixpoint collect (start end_ : Z) (store : list (path * cnode)) (l : list path) (m : by_minute)
    (invalid : list (path * string)) : res (by_minute * list (path * string)) :=
  match l with
  | [] => Ok (m, invalid)
  | p :: l =>
      v ← judge start end_ m p (find_node p store);
      match v with
      | VSkip => collect start end_ store l m invalid
      | VInvalid reason => collect start end_ store l m (invalid ++ [(p, reason)])
      | VAccept minute sample => collect start end_ store l (m ++ [(minute, sample)]) invalid
      end
  end.

Definition passed (sample : pydict) : bool := is_true (get sample "overall_pass").

(** The set of the endpoints. *)
Fixpoint endpoint_set (acc : list py) (l : list pydict) : res (list py) :=
  match l with
  | [] => Ok acc
  | sample :: l =>
      match get sample "endpoint" with
      | PList _ | PDict _ => Raise (Exn CTypeError "unhashable type")
      | v => endpoint_set (if py_in v acc then acc else acc ++ [v]) l
      end
  end.
Definition candidate_texts (l : list pydict) : list string :=
  remove_dups (map (λ sample, json_compact (get sample "candidate")) l).

(** [float(v)] of a number. *)
Definition to_float (v : py) : res (option pfloat) :=
  match v with
  | PBool b => Ok (Some (f_of_Z (if b then 1 else 0)))
  | PInt z =>
      if f_is_finite (f_of_Z z) then Ok (Some (f_of_Z z))
      else Raise (Exn COverflowError "int too large to convert to float")
  | PFloat f => Ok (Some f)
  | _ => Ok None
  end.
(** The latency that a step adds to the values of [name]. *)
Definition step_latency (name : string) (step : py) : res (option pfloat) :=
  match step with
  | PDict d =>
      n ← item d "name";
      if negb (py_eqb n (PStr name)) then Ok None
      else
        ok ← item d "ok";
        if truthy ok then to_float (get d "latency_ms") else Ok None
  | _ => Raise (Exn CTypeError "indices must be integers")
  end.
Definition latency_values (name : string) (samples : list pydict) : res (list pfloat) :=
  l ← mapM (λ sample, raw ← item sample "steps"; steps ← py_iter raw;
                      mapM (step_latency name) steps) samples;
  Ok (omap id (concat l)).

Record latency := Latency {
  lt_samples : Z; lt_p50_ms : option pfloat; lt_p99_ms : option pfloat }.
Definition latency_summary (samples : list pydict) (name : string) : res (string * latency) :=
  values ← latency_values name samples;
  p50 ← interpolated_percentile values f_half;
  p99 ← interpolated_percentile values f_p99;
  Ok (name, Latency (Z.of_nat (length values)) p50 p99).

(** ** The report *)

Record canary_report := Report {
  rp_start : Z;
  rp_end : Z;
  rp_candidate : py;
  rp_endpoint : py;
  rp_candidate_consistent : bool;
  rp_expected_samples : Z;
  rp_recorded_samples : Z;
  rp_successful_samples : Z;
  rp_failed_samples : Z;
  rp_coverage_rate : pfloat;
  rp_recorded_success_rate : pfloat;
  rp_availability_including : pfloat;
  rp_availability_excluding : pfloat;
  rp_maintenance_minutes : Z;
  rp_maintenance_windows : list maintenance;
  rp_latency : list (string * latency);
  rp_gaps : list gap;
  rp_nonmaintenance_gaps : list gap;
  rp_max_gap_minutes : Z;
  rp_max_nonmaintenance_gap_minutes : Z;
  rp_invalid_samples : list (path * string);
  rp_overall_pass : bool
}.

(** [a / b if b else 0.0] on counts, which are below [2^53]. *)
Definition rate (a b : Z) : pfloat := if b =? 0 then f_zero else fdiv (f_of_Z a) (f_of_Z b).
Definition f_999 : pfloat := f_of_dec false 999 (-3).
Definition count {A} (l : list A) : Z := Z.of_nat (length l).

Definition make_report (start end_ : Z) (windows : list maintenance) (m : by_minute)
    (invalid : list (path * string)) (endpoints : list py) (latencies : list (string * latency))
    : canary_report :=
  let expected := iter_minutes start end_ in
  let samples := map snd m in
  let missing := filter (λ t, has_minute t m = false) expected in
  let nonmaintenance := filter (λ t, in_maintenance windows t = false) in
  let successful := map fst (filter (λ x, passed x.2 = true) m) in
  let candidates := candidate_texts samples in
  let consistent := (count candidates =? 1) && (count endpoints =? 1) in
  let recorded_success_count := count (filter (λ s, passed s = true) samples) in
  let coverage := rate (count m) (count expected) in
  let availability := rate (count successful) (count expected) in
  let max_gap := max_minutes (gap_ranges (nonmaintenance missing)) in
  Report start end_
    (match candidates, samples with
     | [_], sample :: _ => jsort (get sample "candidate")
     | _, _ => PNone
     end)
    (match endpoints with [v] => v | _ => PNone end)
    consistent (count expected) (count m) recorded_success_count (count m - recorded_success_count)
    coverage
    (rate recorded_success_count (count m))
    availability
    (rate (count (nonmaintenance successful)) (count (nonmaintenance expected)))
    (count expected - count (nonmaintenance expected))
    windows latencies
    (gap_ranges missing) (gap_ranges (nonmaintenance missing))
    (max_minutes (gap_ranges missing)) max_gap invalid
    (consistent && bool_decide (invalid = []) && fleb f_999 coverage && fleb f_999 availability
     && (max_gap <=? 2)).

Definition whole_minute (t : Z) : bool := (dt_second t =? 0) && (dt_micro t =? 0).

Definition aggregate_samples (root : path) (start end_ : Z) (windows : list maintenance)
    : CM canary_report := e_read (λ s,
  guard_ce (negb (whole_minute start) || negb (whole_minute end_) || (end_ <=? start))
    "aggregation bounds must be distinct whole UTC minutes";;
  '(m, invalid) ← collect start end_ (c_store s) (sorted_paths (sample_paths root (c_store s))) [] [];
  endpoints ← endpoint_set [] (map snd m);
  latencies ← mapM (latency_summary (map snd m)) REQUIRED_STEPS;
  Ok (make_report start end_ windows m invalid endpoints latencies)).

Definition gap_py (g : gap) : py :=
  PDict [("start", PStr (isoformat (g_start g))); ("end", PStr (isoformat (g_end g)));
         ("minutes", PInt (g_minutes g))].
Definition maintenance_py (w : maintenance) : py :=
  PDict [("id", PStr (mw_id w)); ("start", PStr (isoformat (mw_start w)));
         ("end", PStr (isoformat (mw_end w))); ("approved_by", PStr (mw_approved_by w))].
Definition float_py (f : option pfloat) : py := match f with Some f => PFloat f | None => PNone end.
Definition latency_py (l : latency) : py :=
  PDict [("successful_samples", PInt (lt_samples l)); ("p50_ms", float_py (lt_p50_ms l));
         ("p99_ms", float_py (lt_p99_ms l))].
Definition report_py (r : canary_report) : pydict :=
  [("schema_version", PInt 1);
   ("period", PDict [("start", PStr (isoformat (rp_start r))); ("end", PStr (isoformat (rp_end r)));
                     ("duration_seconds", PInt ((rp_end r - rp_start r) / second_us))]);
   ("candidate", rp_candidate r); ("endpoint", rp_endpoint r);
   ("candidate_consistent", PBool (rp_candidate_consistent r));
   ("expected_samples", PInt (rp_expected_samples r));
   ("recorded_samples", PInt (rp_recorded_samples r));
   ("successful_samples", PInt (rp_successful_samples r));
   ("failed_samples", PInt (rp_failed_samples r)); ("coverage_rate", PFloat (rp_coverage_rate r));
   ("recorded_success_rate", PFloat (rp_recorded_success_rate r));
   ("availability_including_approved_maintenance", PFloat (rp_availability_including r));
   ("availability_excluding_approved_maintenance", PFloat (rp_availability_excluding r));
   ("maintenance_minutes", PInt (rp_maintenance_minutes r));
   ("maintenance_windows", PList (map maintenance_py (rp_maintenance_windows r)));
   ("latency", PDict (map (λ x, (x.1, latency_py x.2)) (rp_latency r)));
   ("gaps", PList (map gap_py (rp_gaps r)));
   ("nonmaintenance_gaps", PList (map gap_py (rp_nonmaintenance_gaps r)));
   ("max_gap_minutes", PInt (rp_max_gap_minutes r));
   ("max_nonmaintenance_gap_minutes", PInt (rp_max_nonmaintenance_gap_minutes r));
   ("invalid_samples",
     PList (map (λ x, PDict [("path", PStr (path_str x.1)); ("reason", PStr x.2)])
              (rp_invalid_samples r)));
   ("secret_material_recorded", PBool false); ("overall_pass", PBool (rp_overall_pass r))].

Definition window_length (window : string) : option Z :=
  if String.eqb window "72h" then Some (72 * 60 * minute_us)
  else if String.eqb window "30d" then Some (30 * day_us) else None.

Section window.
Context `{CanaryRuntime}.

Definition aggregate_window (root : path) (window : string) (end_ : Z)
    (maintenance_path output : option path) : CM pydict :=
  match window_length window with
  | None => e_raise CCanaryError "window must be 72h or 30d"
  | Some duration =>
      let end_ := floor_minute end_ in
      start ← e_lift (later end_ (- duration));
      windows ← load_maintenance_windows maintenance_path;
      r ← aggregate_samples root start end_ windows;
      generated_at ← utc_now;
      let canary_report := report_py r ++ [("window", PStr window); ("generated_at", PStr (isoformat generated_at))] in
      let destination :=
        match output with
        | Some p => p
        | None => under root ["aggregates"; window +:+ "-" +:+ compact_minute end_ "Z" +:+ ".json"]
        end in
      write_create_only destination (PDict canary_report);;
      mret (dset canary_report "report_path" (PStr (path_str destination)))
  end.
End window.
