(* ===== verification/CanaryWatchdog.v ===== *)
(** * The external business canary: the watchdog

    Models [watchdog] of [src/scripts/tools/external_business_canary.py]. *)
From S2P Require Import Prelude PyFloat PyValue PyTime PyDateTime PyPath PyEffect Canary CanaryFlow.
From S2P Require Import CanarySample CanaryReport.
#[local] Open Scope Z_scope.

(** ** The samples on disk *)

(** A sample with the instant it was started at. *)
Record observation := Observation { ob_at : Z; ob_path : path; ob_sample : pydict }.

(** The document, the raw field and its instant. *)
Definition observe (store : list (path * cnode)) (p : path) : res observation :=
  sample ← node_json p (find_node p store);
  raw ← item sample "started_at";
  t ← parse_time (py_str raw);
  Ok (Observation t p sample).

(** [except (CanaryError, KeyError): continue]. *)
Definition skipped (e : exn) : bool := exn_isa CCanaryError e || exn_isa CKeyError e.

Fixpoint observations (store : list (path * cnode)) (l : list path) : res (list observation) :=
  match l with
  | [] => Ok []
  | p :: l =>
      match observe store p with
      | Ok o => r ← observations store l; Ok (o :: r)
      | Raise e => if skipped e then observations store l else Raise e
      end
  end.

(** [max(samples, default=None, key=lambda item: item[0])]: the first of equal
    ones. *)
Definition latest_of (l : list observation) : option observation :=
  match l with
  | [] => None
  | o :: l => Some (fold_left (λ m o, if ob_at m <? ob_at o then o else m) l o)
  end.

(** The age in microseconds; the code's float of seconds is its quotient. *)
Definition age_of (observed : Z) (latest : option observation) : option Z :=
  (λ o, Z.max 0 (observed - ob_at o)) <$> latest.
Definition age_py (age : option Z) : py :=
  match age with Some a => PFloat (f_div_Z a 1000000) | None => PNone end.

(** [age is not None and age <= max_age_seconds]: the comparison of the rounded
    quotient is that of the exact one, for bounds below [2^33] seconds, where
    neighbouring floats are closer than a microsecond. *)
Definition is_fresh (max_age_seconds : Z) (age : option Z) : bool :=
  match age with Some a => a <=? max_age_seconds * second_us | None => false end.

Definition latest_py (latest : option observation) : py :=
  match latest with Some o => PStr (path_str (ob_path o)) | None => PNone end.

(** ** Deliveries on record *)

(** [isinstance(delivery, dict) and delivery.get("delivered") is True]. *)
Definition was_delivered (delivery : py) : bool :=
  match delivery with PDict d => is_true (get d "delivered") | _ => false end.

Definition deduplicated_py : py :=
  PDict [("delivered", PBool true); ("status_code", PNone); ("error_type", PNone);
         ("deduplicated", PBool true)].

(** The first retry incident that was delivered. *)
Fixpoint delivered_retry (store : list (path * cnode)) (l : list path) : res (option path) :=
  match l with
  | [] => Ok None
  | p :: l =>
      match node_json p (find_node p store) with
      | Ok incident =>
          if was_delivered (get incident "alertmanager_delivery") then Ok (Some p)
          else delivered_retry store l
      | Raise e => if exn_isa CCanaryError e then delivered_retry store l else Raise e
      end
  end.

Definition silent_incident (observed : Z) (p : path) (n : option cnode) : res bool :=
  incident ← node_json p n;
  raw ← item incident "created_at";
  delivered_at ← parse_time (py_str raw);
  let delivery_age := observed - delivered_at in
  Ok (was_delivered (get incident "alertmanager_delivery")
      && (0 <=? delivery_age) && (delivery_age <? SILENT_ALERT_REFRESH_AFTER)).
Fixpoint delivered_for_stale (observed : Z) (store : list (path * cnode)) (l : list path) : res bool :=
  match l with
  | [] => Ok false
  | p :: l =>
      match silent_incident observed p (find_node p store) with
      | Ok true => Ok true
      | Ok false => delivered_for_stale observed store l
      | Raise e => if skipped e then delivered_for_stale observed store l else Raise e
      end
  end.

(** ** The natural-minute sample *)

Definition all_steps_ok (sample : pydict) : res bool :=
  steps ← sample_steps sample;
  l ← mapM (λ step, vget step "ok") steps;
  Ok (forallb is_true l).

Definition sample_valid (config : CanaryConfig) (expected : candidate) (observed : Z)
    (samples : list observation) (latest : observation) : res bool :=
  let sample := ob_sample latest in
  if negb (passed sample) then Ok false
  else
    names ← step_names sample;
    if negb (are_required names) then Ok false
    else
      ok ← all_steps_ok sample;
      Ok (ok
          && py_eqb (get sample "candidate") (candidate_py expected)
          && py_eqb (get sample "endpoint") (PStr (endpoint config))
          && (ob_at latest <=? observed)
          && (floor_minute (ob_at latest) =? floor_minute observed)
          && (count (filter (λ o, floor_minute (ob_at o) = floor_minute observed) samples) =? 1)).

(** ** The watchdog *)

Section watchdog.
Context `{CanaryRuntime}.
Variables (config : CanaryConfig) (deployment_record root : path).

(** The fields that every incident of the watchdog starts with. *)
Definition incident_head (incident_id : string) : pydict :=
  [("schema_version", PInt 1); ("incident_id", PStr incident_id)].
Definition incident_body (observed : Z) (c : candidate) : pydict :=
  [("created_at", PStr (isoformat observed)); ("issue_url", PStr ISSUE_URL);
   ("candidate", candidate_py c); ("endpoint", PStr (endpoint config))].

Definition forward_unready (observed : Z) (readiness_ : readiness) (latest : option observation)
    : CM pydict :=
  let age := age_of observed latest in
  c ← candidate_from_record deployment_record;
  delivery ← deliver_alert (cc_alertmanager_url config)
    "BoostGatewayExternalCanaryAlertmanagerUnavailable" c (endpoint config)
    "External canary cannot reach the Alertmanager readiness endpoint through its governed forward"
    observed;
  token ← uuid_token;
  let name := "alertmanager-forward-" +:+ compact_second observed +:+ "-" +:+ token in
  let path := incident_path root name in
  write_create_only path
    (PDict (incident_head name ++ [("incident_type", PStr "alertmanager_forward_unready")]
            ++ incident_body observed c
            ++ [("latest_sample", latest_py latest); ("age_seconds", age_py age);
                ("alertmanager_readiness", readiness_py readiness_);
                ("alertmanager_delivery", delivery_py delivery); ("overall_pass", PBool false);
                ("secret_material_recorded", PBool false)]));;
  mret [("overall_pass", PBool false); ("failure_type", PStr "alertmanager_forward_unready");
        ("latest_sample", latest_py latest); ("age_seconds", age_py age);
        ("alertmanager_readiness", readiness_py readiness_);
        ("alertmanager_delivery", delivery_py delivery); ("incident_record", PStr (path_str path))].

Record retry := Retry { rt_delivered : bool; rt_delivery : py; rt_incident : path }.
Definition retry_py (r : option retry) : py :=
  match r with
  | Some r => PDict [("alertmanager_delivery", rt_delivery r);
                     ("incident_record", PStr (path_str (rt_incident r)))]
  | None => PNone
  end.

(** A failed sample whose alert was not delivered. *)
Definition needs_retry (sample : pydict) : bool :=
  is_false (get sample "overall_pass") && negb (was_delivered (get sample "alertmanager_delivery")).

Definition retry_failed_sample (observed : Z) (latest : observation) : CM (option retry) :=
  if negb (needs_retry (ob_sample latest)) then mret None
  else
    let source_id :=
      str_take 160 (sanitize (py_str (get_or (ob_sample latest) "sample_id" (PStr "unknown")))) in
    found ← e_read (λ s, delivered_retry (c_store s)
                           (incident_paths root ("retry-" +:+ source_id +:+ "-") (c_store s)));
    match found with
    | Some p => mret (Some (Retry true deduplicated_py p))
    | None =>
        c ← candidate_from_record deployment_record;
        delivery ← deliver_alert (cc_alertmanager_url config) "BoostGatewayExternalCanaryFailed" c
          (endpoint config)
          "Retrying Alertmanager delivery for a failed external business canary sample" observed;
        let name := "retry-" +:+ source_id +:+ "-" +:+ compact_second observed in
        let path := incident_path root name in
        write_create_only path
          (PDict (incident_head name ++ incident_body observed c
                  ++ [("source_sample", PStr (path_str (ob_path latest)));
                      ("alertmanager_delivery", delivery_py delivery);
                      ("secret_material_recorded", PBool false)]));;
        mret (Some (Retry (ho_ok delivery) (delivery_py delivery) path))
    end.

(** The report on a sample that is fresh enough. *)
Definition fresh_report (observed : Z) (require_successful_sample : bool) (readiness_ : readiness)
    (samples : list observation) (latest : observation) (failed_sample_retry : option retry)
    : CM pydict :=
  let age := age_py (age_of observed (Some latest)) in
  valid ← (if require_successful_sample then
             expected ← candidate_from_record deployment_record;
             e_lift (sample_valid config expected observed samples latest)
           else mret true);
  let common := [("latest_sample", PStr (path_str (ob_path latest))); ("age_seconds", age);
                 ("alertmanager_readiness", readiness_py readiness_)] in
  mret
    (if negb valid then
       [("overall_pass", PBool false); ("failure_type", PStr "natural_minute_sample_not_successful")]
       ++ common ++ [("retry", retry_py failed_sample_retry)]
     else
       match failed_sample_retry with
       | Some r => [("overall_pass", PBool (rt_delivered r))] ++ common
                   ++ [("alertmanager_delivery", rt_delivery r);
                       ("incident_record", PStr (path_str (rt_incident r)))]
       | None => [("overall_pass", PBool true)] ++ common ++ [("alertmanager_delivery", PNone)]
       end).

Definition stale_key (latest : option observation) : string :=
  match latest with Some o => compact_second (ob_at o) | None => "no-samples" end.

Definition stale_report (observed : Z) (readiness_ : readiness) (latest : option observation)
    (failed_sample_retry : option retry) : CM pydict :=
  let age := age_py (age_of observed latest) in
  c ← candidate_from_record deployment_record;
  recent ← e_read (λ s, delivered_for_stale observed (c_store s)
                          (incident_paths root ("silent-" +:+ stale_key latest +:+ "-") (c_store s)));
  outcome ← (if (recent : bool) then mret (deduplicated_py, PNone)
             else
               delivery ← deliver_alert (cc_alertmanager_url config)
                 "BoostGatewayExternalCanarySilent" c (endpoint config)
                 "External business canary has stopped producing per-minute evidence" observed;
               let name := "silent-" +:+ stale_key latest +:+ "-" +:+ compact_second observed in
               let path := incident_path root name in
               write_create_only path
                 (PDict (incident_head name ++ incident_body observed c
                         ++ [("latest_sample", latest_py latest); ("age_seconds", age);
                             ("alertmanager_delivery", delivery_py delivery);
                             ("secret_material_recorded", PBool false)]));;
               mret (delivery_py delivery, PStr (path_str path)));
  mret [("overall_pass", PBool false); ("latest_sample", latest_py latest); ("age_seconds", age);
        ("alertmanager_readiness", readiness_py readiness_);
        ("alertmanager_delivery", outcome.1); ("incident_record", outcome.2);
        ("failed_sample_retry", retry_py failed_sample_retry)].

Definition watchdog (observed_at : option Z) (max_age_seconds : Z)
    (require_successful_sample : bool) : CM pydict :=
  config' ← e_lift (validate_config config);
  observed ← (match observed_at with Some t => mret t | None => utc_now end);
  readiness_ ← check_alertmanager_readiness (cc_alertmanager_url config');
  samples ← e_read (λ s, observations (c_store s) (sample_paths root (c_store s)));
  let latest := latest_of samples in
  let age := age_of observed latest in
  if negb (ho_ok (rd_outcome readiness_)) then forward_unready observed readiness_ latest
  else
    failed_sample_retry ← (match latest with
                           | Some o => retry_failed_sample observed o
                           | None => mret None
                           end);
    match latest with
    | Some o =>
        if is_fresh max_age_seconds age
        then fresh_report observed require_successful_sample readiness_ samples o failed_sample_retry
        else stale_report observed readiness_ latest failed_sample_retry
    | None => stale_report observed readiness_ latest failed_sample_retry
    end.
End watchdog.
