(* ===== verification/CanaryFlowFacts.v ===== *)
(** * The business flow: its records, its trace and its clean-up *)
From S2P Require Import Prelude PyFloat PyValue PyEffect Canary CanaryFlow.
#[local] Open Scope Z_scope.

(** ** What is stated of a flow *)

(** The SDK raises no exception of the canary's own class. *)
Definition foreign_exn (e : exn) : Prop :=
  match exn_cls e with CStepFailure _ _ => False | _ => True end.
Definition sdk_foreign `{CanaryRuntime} : Prop :=
  (∀ n e, ct_sdk n = ORaise e → foreign_exn e) ∧ (∀ n e, ct_new n = Some e → foreign_exn e).

(** The fields of a step belong together. *)
Definition step_typed (s : step_result) : Prop :=
  if sr_ok s then sr_error_type s = "none" ∧ sr_code s = None ∧ is_Some (sr_latency_ms s)
  else sr_error_type s ∈ tail ERROR_TYPES
       ∧ (sr_error_type s = "dependency_failure" ↔ sr_latency_ms s = None)
       ∧ (is_Some (sr_code s) → sr_error_type s = "sdk_error").

(** Steps that succeed, then at most one that fails, then those that depend on it. *)
Fixpoint steps_shape (l : list step_result) : Prop :=
  match l with
  | [] => True
  | s :: l =>
      if sr_ok s then steps_shape l
      else sr_error_type s ≠ "dependency_failure"
           ∧ Forall (λ s, s = dependency_failed (sr_name s)) l
  end.

(** The answer of an accepted call. *)
Definition call_accepted (answer : outcome py) : bool :=
  match answer with ORet (PDict d) => truthy (get d "ok") | _ => false end.

(** A client has to leave a room: it was let in and has not asked to leave since. *)
Definition owes_step (c : nat) (b : bool) (k : call) : bool :=
  match k with
  | CallOn c' op answer =>
      if Nat.eqb c' c then
        match op with
        | SCreateRoom _ _ | SJoinRoom _ _ => b || call_accepted answer
        | SLeaveRoom _ _ => false
        | _ => b
        end
      else b
  | _ => b
  end.
Definition owes_room (c : nat) (l : list call) : bool := fold_left (owes_step c) l false.

(** A client may be connected: it tried to connect and was not disconnected since. *)
Definition open_step (c : nat) (b : bool) (k : call) : bool :=
  match k with
  | CallOn c' op _ =>
      if Nat.eqb c' c then
        match op with SConnect _ _ _ => true | SDisconnect => false | _ => b end
      else b
  | _ => b
  end.
Definition may_be_open (c : nat) (l : list call) : bool := fold_left (open_step c) l false.

Lemma owes_snoc c l k : owes_room c (l ++ [k]) = owes_step c (owes_room c l) k.
Proof. unfold owes_room. by rewrite fold_left_app. Qed.
Lemma open_snoc c l k : may_be_open c (l ++ [k]) = open_step c (may_be_open c l) k.
Proof. unfold may_be_open. by rewrite fold_left_app. Qed.

Section facts.
Context `{CanaryRuntime}.
Variable config : CanaryConfig.
Variable room_id : string.

(** ** Typed failures *)

Definition typed_exn (e : exn) : Prop :=
  match exn_cls e with
  | CStepFailure et code =>
      et ∈ ["connect_error"; "sdk_error"; "protocol_error"; "timeout"]
      ∧ (is_Some code → et = "sdk_error")
  | _ => True
  end.

Lemma foreign_typed e : foreign_exn e → typed_exn e.
Proof. unfold foreign_exn, typed_exn. by destruct (exn_cls e). Qed.

(** Computations whose exceptions are typed. *)
Definition typed {A} (m : FM A) : Prop :=
  ∀ s, wp m (λ _ _, True) (λ e _, typed_exn e) (λ _, True) s.

Lemma typed_ret {A} (a : A) : typed (mret a).
Proof. done. Qed.
Lemma typed_bind {A B} (m : FM A) (f : A → FM B) : typed m → (∀ a, typed (f a)) → typed (m ≫= f).
Proof.
  intros Hm Hf s. apply wp_bind. eapply wp_mono; [apply Hm|..]; [|done|done].
  intros a s' _. apply Hf.
Qed.
Lemma typed_modify f : typed (e_modify f).
Proof. done. Qed.
Lemma typed_lift {A} (r : res A) : (∀ e, r = Raise e → typed_exn e) → typed (e_lift r).
Proof. intros Hr s. by apply wp_lift. Qed.

Hypothesis Hsdk : sdk_foreign.

Lemma typed_sdk c op : typed (sdk c op).
Proof.
  intros s. unfold wp, sdk. destruct (ct_sdk (fl_tick s)) as [v|e|] eqn:He; [done| |done].
  by eapply foreign_typed, (proj1 Hsdk).
Qed.
Lemma typed_factory : typed client_factory.
Proof.
  intros s. unfold wp, client_factory. destruct (ct_new (fl_tick s)) as [e|] eqn:He; [|done].
  by eapply foreign_typed, (proj2 Hsdk).
Qed.
Lemma typed_party : typed get_party.
Proof. intros s. apply wp_read; [done|]. intros e. by destruct (fl_party s) as [[]|]; intros [= <-]. Qed.
Lemma result_ok_typed r o e : result_ok r o = Raise e → typed_exn e.
Proof.
  destruct r as [|[]|z|f|t|l|d]; cbn [result_ok]; try (intros [= <-]; split; [set_solver|by intros []]).
  destruct (truthy _); [done|]. intros [= <-]. split; [set_solver|done].
Qed.
Lemma typed_checked c op o : typed (checked c op o).
Proof.
  apply typed_bind; [apply typed_sdk|]. intros r. apply typed_lift. intros e. apply result_ok_typed.
Qed.
Lemma typed_check c op o : typed (check_call c op o).
Proof. apply typed_bind; [apply typed_checked|]. intros d. apply typed_ret. Qed.
Lemma typed_connect c label : typed (connect_client config c label).
Proof.
  apply typed_bind.
  - intros s. apply wp_try. unfold wp, sdk. destruct (ct_sdk (fl_tick s)) as [v|e|]; [done| |done].
    destruct (exn_isa CTimeoutError e); (split; [set_solver|by intros []]).
  - intros v. destruct (truthy v); [apply typed_ret|]. apply typed_lift.
    intros e [= <-]. split; [set_solver|by intros []].
Qed.
Lemma typed_room_identity v : typed (e_lift (room_identity room_id v)).
Proof.
  apply typed_lift. intros e. destruct v as [|b|z|f|s|l|d]; cbn [room_identity]; try done;
    [..|case_match; [done|]| |]; intros [= <-]; try done; (split; [set_solver|by intros []]).
Qed.
Lemma typed_mentions t d msg : typed (e_lift (body_mentions t d msg)).
Proof.
  apply typed_lift. intros e. unfold body_mentions. case_match; [done|]. intros [= <-].
  split; [set_solver|by intros []].
Qed.

#[local] Ltac typed_steps :=
  repeat first
    [ apply typed_ret | apply typed_modify | apply typed_sdk | apply typed_factory
    | apply typed_party | apply typed_checked | apply typed_check | apply typed_connect
    | apply typed_room_identity | apply typed_mentions
    | apply typed_bind; [|intros ?] | case_match ].

Lemma operations_typed : Forall (λ o, typed o.2) (operations config room_id).
Proof.
  unfold operations, login, room, battle, settlement, leaderboard, reconnect, flow_sleep.
  repeat (constructor; [cbn [snd]; typed_steps|]). constructor.
Qed.

Lemma step_of_typed name t r :
  (∀ e, r = Raise e → typed_exn e) →
  sr_name (step_of name t r) = name ∧ sr_ok (step_of name t r) = is_ok r
  ∧ step_typed (step_of name t r) ∧ sr_error_type (step_of name t r) ≠ "dependency_failure".
Proof.
  intros Hr. destruct r as [[]|e]; [done|]. specialize (Hr e eq_refl). unfold typed_exn in Hr.
  unfold step_of, step_typed, is_ok. destruct (exn_cls e) as [] eqn:He.
  all: try (destruct (exn_isa CTimeoutError e); cbn; (repeat split; [set_solver|done|done|by intros []|done])).
  destruct Hr as [Het Hcode]. cbn. repeat split; [set_solver| |done|done|];
    intros ->; set_solver.
Qed.

Lemma wp_clock_ns (Q : Z → flow → Prop) E C s :
  Q (ct_clock_ns (fl_tick s)) (clock_ns s).2 → wp clock_ns Q E C s.
Proof. done. Qed.

(** However the operations end, the loop returns a typed record of each. *)
Lemma run_steps_typed ops failed s :
  Forall (λ o, typed o.2) ops →
  wp (run_steps failed ops)
    (λ steps _, map sr_name steps = map fst ops ∧ Forall step_typed steps
                ∧ (if failed then Forall (λ s, s = dependency_failed (sr_name s)) steps
                   else steps_shape steps))
    (λ _ _, False) (λ _, True) s.
Proof.
  intros Hops. revert failed s. induction Hops as [|[name op] ops Hop Hops IH]; intros failed s.
  { apply wp_ret. by destruct failed. }
  cbn [run_steps]. destruct failed.
  - apply wp_bind. eapply wp_mono; [apply IH|..]; [|done|done].
    intros steps s' (Hn & Ht & Hd). apply wp_ret. cbn [map fst]. rewrite <- Hn.
    split; [done|]. split; [constructor; [|done]|by constructor].
    split; [set_solver|]. split; [done|by intros []].
  - apply wp_bind, wp_clock_ns, wp_bind.
    assert (∀ s, wp (attempt_step op) (λ r _, ∀ e, r = Raise e → typed_exn e) (λ _ _, False)
                   (λ _, True) s) as Hatt.
    { intros s1. specialize (Hop s1). cbn [snd] in Hop. unfold wp, attempt_step in *.
      destruct (op s1) as [[a|e|] s2]; [by intros|by intros e' [= <-]|done]. }
    eapply wp_mono; [apply Hatt|..]; [|done|done]. intros r s1 Hr.
    apply wp_bind, wp_clock_ns, wp_bind.
    eapply wp_mono; [apply IH|..]; [|done|done]. intros steps s2 (Hn & Ht & Hd). apply wp_ret.
    edestruct (step_of_typed name) as (H1 & H2 & H3 & H4); [exact Hr|].
    cbn [map fst]. rewrite H1, Hn. split; [done|]. split; [by constructor|].
    cbn [steps_shape]. rewrite H2. by destruct (is_ok r).
Qed.
End facts.

(** ** Rooms and connections *)

Section account.
Context `{CanaryRuntime}.
Variable config : CanaryConfig.
Variable room_id : string.
Variable old : list call.

(** The flags say who has to leave a room, the list who may be connected. *)
Definition owed_by (s : flow) (c : nat) : Prop :=
  match fl_party s with
  | Some (a, b) => (c = a ∧ fl_created s = true) ∨ (c = b ∧ fl_joined s = true)
  | None => False
  end.
Definition flow_accounted (s : flow) : Prop :=
  ∃ new, fl_calls s = old ++ new
  ∧ (∀ c, may_be_open c new = true → c ∈ fl_clients s)
  ∧ (∀ c, owes_room c new = true → owed_by s c).
Definition party_state (cl : list nat) (pt : option (nat * nat)) (s : flow) : Prop :=
  flow_accounted s ∧ fl_clients s = cl ∧ fl_party s = pt.

Lemma accounted_log s k :
  flow_accounted s →
  (∀ c, open_step c false k = true → c ∈ fl_clients s) →
  (∀ c, owes_step c false k = true → owed_by s c) →
  flow_accounted (log_call k s).
Proof.
  intros (new & Hlog & Hopen & Howes) Ho Hw. exists (new ++ [k]).
  split; [cbn; by rewrite Hlog, app_assoc|]. split; intros c.
  - rewrite open_snoc. intros Hc. destruct (may_be_open c new) eqn:Hn; [by apply Hopen|by apply Ho].
  - rewrite owes_snoc. intros Hc. destruct (owes_room c new) eqn:Hn; [by apply Howes|by apply Hw].
Qed.

(** The calls that neither connect nor enter a room. *)
Definition plain_op (op : sdk_op) : bool :=
  match op with SConnect _ _ _ | SCreateRoom _ _ | SJoinRoom _ _ => false | _ => true end.

Lemma plain_log s c op answer :
  plain_op op = true → flow_accounted s → flow_accounted (log_call (CallOn c op answer) s).
Proof.
  intros Hop Hs. apply accounted_log; [done|..]; intros c'; cbn;
    destruct (Nat.eqb c c'); try done; by destruct op.
Qed.

Lemma wp_sdk_state c op (Q : py → flow → Prop) (E : exn → flow → Prop) s :
  (∀ v, ct_sdk (fl_tick s) = ORet v → Q v (log_call (CallOn c op (ORet v)) s)) →
  (∀ e, ct_sdk (fl_tick s) = ORaise e → E e (log_call (CallOn c op (ORaise e)) s)) →
  wp (sdk c op) Q E (λ _, True) s.
Proof. unfold wp, sdk. destruct (ct_sdk (fl_tick s)) as [v|e|]; naive_solver. Qed.

(** Computations that keep the account, the clients and the party. *)
Definition keeps (cl : list nat) (pt : option (nat * nat)) {A} (m : FM A) : Prop :=
  ∀ s, party_state cl pt s →
  wp m (λ _, party_state cl pt) (λ _, party_state cl pt) (λ _, True) s.

Lemma keeps_accounted cl pt {A} (m : FM A) s :
  keeps cl pt m → party_state cl pt s →
  wp m (λ _, party_state cl pt) (λ _, flow_accounted) (λ _, True) s.
Proof. intros Hm Hs. eapply wp_mono; [by apply Hm|done| |done]. by intros e s' []. Qed.

Lemma keeps_ret cl pt {A} (a : A) : keeps cl pt (mret a).
Proof. by intros s Hs. Qed.
Lemma keeps_bind cl pt {A B} (m : FM A) (f : A → FM B) :
  keeps cl pt m → (∀ a, keeps cl pt (f a)) → keeps cl pt (m ≫= f).
Proof.
  intros Hm Hf s Hs. apply wp_bind. eapply wp_mono; [by apply Hm|..]; [|done|done].
  intros a s' Hs'. by apply Hf.
Qed.
Lemma keeps_lift cl pt {A} (r : res A) : keeps cl pt (e_lift r).
Proof. intros s Hs. by apply wp_lift. Qed.
Lemma keeps_sdk cl pt c op : plain_op op = true → keeps cl pt (sdk c op).
Proof.
  intros Hop s (Ha & Hc & Hp). apply wp_sdk_state; intros v _; (split; [by apply plain_log|done]).
Qed.
Lemma keeps_checked cl pt c op o : plain_op op = true → keeps cl pt (checked c op o).
Proof. intros Hop. apply keeps_bind; [by apply keeps_sdk|]. intros. apply keeps_lift. Qed.
Lemma keeps_check cl pt c op o : plain_op op = true → keeps cl pt (check_call c op o).
Proof. intros Hop. apply keeps_bind; [by apply keeps_checked|]. intros. apply keeps_ret. Qed.
Lemma keeps_sleep cl pt t : keeps cl pt (flow_sleep t).
Proof.
  intros s (Ha & Hc & Hp). apply wp_modify. split; [|done].
  by apply accounted_log.
Qed.
Lemma keeps_connect cl pt c label : c ∈ cl → keeps cl pt (connect_client config c label).
Proof.
  intros Hcl s Hs. apply wp_bind, wp_try.
  assert (∀ answer, party_state cl pt
            (log_call (CallOn c (SConnect (cc_host config) (cc_port config) (cc_timeout_ms config))
                         answer) s)) as Hlog.
  { intros answer. destruct Hs as (Ha & Hc & Hp). split; [|done]. apply accounted_log; [done|..];
      intros c'; cbn; destruct (Nat.eqb_spec c c') as [->|]; try done. by rewrite Hc. }
  apply wp_sdk_state.
  - intros v _. destruct (truthy v); [by apply wp_ret|]. by apply wp_lift.
  - intros e _. by destruct (exn_isa CTimeoutError e); apply wp_lift.
Qed.

Lemma accounted_created s : flow_accounted s → flow_accounted (set_created true s).
Proof.
  intros (new & Hlog & Hopen & Howes). exists new. split; [done|]. split; [done|].
  intros c Hc%Howes. unfold owed_by in *. cbn. destruct (fl_party s) as [[a b]|]; [|done]. tauto.
Qed.
Lemma accounted_joined s : flow_accounted s → flow_accounted (set_joined true s).
Proof.
  intros (new & Hlog & Hopen & Howes). exists new. split; [done|]. split; [done|].
  intros c Hc%Howes. unfold owed_by in *. cbn. destruct (fl_party s) as [[a b]|]; [|done]. tauto.
Qed.

(** An accepted call is exactly one that passes [_result_ok]. *)
Lemma result_ok_accepted v o d : result_ok v o = Ok d → call_accepted (ORet v) = true.
Proof. destruct v as [| | | | | |d']; try done. cbn. by destruct (truthy _). Qed.
Lemma result_ok_refused v o e : result_ok v o = Raise e → call_accepted (ORet v) = false.
Proof. destruct v as [| | | | | |d']; try done. cbn. by destruct (truthy _). Qed.

(** Entering a room, the flag being set by what follows. *)
Lemma enter_room cl a b c op o (f : flow → flow) s :
  party_state cl (Some (a, b)) s →
  (∀ c' answer, owes_step c' false (CallOn c op answer) = true → call_accepted answer = true ∧ c' = c) →
  (∀ c' answer, open_step c' false (CallOn c op answer) = false) →
  (∀ k, f (log_call k s) = log_call k (f s)) →
  flow_accounted (f s) → fl_clients (f s) = cl → fl_party (f s) = Some (a, b) → owed_by (f s) c →
  wp (checked c op o) (λ _ s', party_state cl (Some (a, b)) (f s'))
    (λ _, party_state cl (Some (a, b))) (λ _, True) s.
Proof.
  intros (Ha & Hc & Hp) How Hop Hf Haf Hcf Hpf Howed. apply wp_bind.
  assert (∀ answer, call_accepted answer = false → party_state cl (Some (a, b)) (log_call (CallOn c op answer) s))
    as Hno.
  { intros answer Hacc. split; [|done]. apply accounted_log; [done|..]; intros c'.
    - by rewrite Hop.
    - intros [Hyes _]%How. congruence. }
  apply wp_sdk_state; [|intros e _; by apply Hno]. intros v _. apply wp_lift.
  - intros d Hd%result_ok_accepted. rewrite Hf. split; [|done]. apply accounted_log; [done|..]; intros c'.
    + by rewrite Hop.
    + by intros [_ ->]%How.
  - intros e He%result_ok_refused. by apply Hno.
Qed.

(** Leaving it, after which the flag is cleared. *)
Lemma leave_room cl pt c op o (f : flow → flow) s :
  party_state cl pt s → plain_op op = true →
  (∀ c' b answer, owes_step c' b (CallOn c op answer) = true → c' ≠ c ∧ b = true) →
  (∀ s', fl_calls (f s') = fl_calls s' ∧ fl_clients (f s') = fl_clients s' ∧ fl_party (f s') = fl_party s') →
  (∀ s' c', c' ≠ c → fl_party s' = pt → owed_by s' c' → owed_by (f s') c') →
  wp (check_call c op o) (λ _ s', party_state cl pt (f s')) (λ _, party_state cl pt) (λ _, True) s.
Proof.
  intros Hs Hop How Hf Hkeep. apply wp_bind, wp_bind. destruct Hs as (Ha & Hc & Hp).
  assert (∀ answer, party_state cl pt (log_call (CallOn c op answer) s)) as Hlog.
  { intros answer. split; [by apply plain_log|done]. }
  assert (∀ answer, party_state cl pt (f (log_call (CallOn c op answer) s))) as Hleft.
  { intros answer. destruct (Hlog answer) as ((new & Hl & Ho & Hw) & _ & _).
    destruct (Hf (log_call (CallOn c op answer) s)) as (Hf1 & Hf2 & Hf3).
    split; [|by rewrite Hf2, Hf3]. exists new. rewrite Hf1, Hf2. split; [done|]. split; [done|].
    intros c' Hc'. apply Hkeep; [|done|by apply Hw].
    destruct Ha as (new' & Hl' & _). cbn in Hl. rewrite Hl', <- app_assoc in Hl.
    apply (inj (app old)) in Hl as <-. rewrite owes_snoc in Hc'. by apply How in Hc' as []. }
  apply wp_sdk_state; intros v _; [|done].
  apply wp_lift; [|done]. intros d _. by apply wp_ret.
Qed.

(** *** The operations *)

Definition logged_in (s : flow) : Prop :=
  ∃ a b, party_state (fl_clients s) (Some (a, b)) s ∧ a ∈ fl_clients s ∧ b ∈ fl_clients s.

(** An operation that keeps a state in which both clients are logged in. *)
Definition safe_op (m : FM unit) : Prop :=
  ∀ s, logged_in s → wp m (λ _, logged_in) (λ _, flow_accounted) (λ _, True) s.

Lemma safe_op_of (m : nat * nat → FM unit) :
  (∀ cl a b s, a ∈ cl → b ∈ cl → party_state cl (Some (a, b)) s →
     wp (m (a, b)) (λ _, party_state cl (Some (a, b))) (λ _, flow_accounted) (λ _, True) s) →
  safe_op (p ← get_party; m p).
Proof.
  intros Hm s (a & b & Hs & Ha & Hb). apply wp_bind, wp_read.
  - intros p Hp. pose proof Hs as (_ & _ & Hparty). rewrite Hparty in Hp. injection Hp as <-.
    eapply wp_mono; [by apply (Hm (fl_clients s) a b)|..]; [|done|done].
    intros [] s' (Hs' & Hcl & Hpt). exists a, b. rewrite Hcl. by repeat split.
  - intros e. by destruct Hs as (_ & _ & ->).
Qed.

Lemma wp_weaken cl pt {A} (m : FM A) (Q : A → flow → Prop) s :
  wp m Q (λ _, party_state cl pt) (λ _, True) s → wp m Q (λ _, flow_accounted) (λ _, True) s.
Proof. intros Hm. eapply wp_mono; [exact Hm|done| |done]. by intros e s' []. Qed.

Lemma wp_keeps cl pt {A} (m : FM A) s :
  party_state cl pt s → keeps cl pt m →
  wp m (λ _, party_state cl pt) (λ _, party_state cl pt) (λ _, True) s.
Proof. auto. Qed.
Lemma safe_keeps (m : nat * nat → FM unit) :
  (∀ cl a b, a ∈ cl → b ∈ cl → keeps cl (Some (a, b)) (m (a, b))) →
  safe_op (p ← get_party; m p).
Proof.
  intros Hm. apply safe_op_of. intros cl a b s Ha Hb Hs. eapply wp_weaken, wp_keeps; eauto.
Qed.

#[local] Ltac keeps_steps :=
  repeat first
    [ apply keeps_ret | apply keeps_sleep | apply keeps_lift
    | apply keeps_check; done | apply keeps_checked; done | apply keeps_sdk; done
    | apply keeps_connect; done | apply keeps_bind; [|intros ?] ].

Lemma settlement_safe : safe_op (settlement config).
Proof. apply safe_keeps. intros cl a b Ha Hb. keeps_steps. Qed.
Lemma battle_safe : safe_op (battle config room_id).
Proof. apply safe_keeps. intros cl a b Ha Hb. keeps_steps. Qed.
Lemma leaderboard_safe : safe_op (leaderboard config).
Proof. apply safe_keeps. intros cl a b Ha Hb. keeps_steps. Qed.

#[local] Ltac by_same := first [done | intros ? ? Hsame; exact Hsame].

Lemma room_safe : safe_op (room config room_id).
Proof.
  apply safe_op_of. intros cl a b s Ha Hb Hs. eapply wp_weaken. apply wp_bind.
  eapply wp_mono; [apply (enter_room _ _ _ _ _ _ (set_created true) s Hs)|..]; try by_same;
    try apply Hs.
  - intros c' answer. cbn. destruct (Nat.eqb_spec a c'); [by subst|done].
  - intros c' answer. cbn. by destruct (Nat.eqb a c').
  - by apply accounted_created, Hs.
  - unfold owed_by. cbn. destruct Hs as (_ & _ & ->). auto.
  - intros d s1 Hs1. apply wp_bind, wp_modify, wp_bind. eapply wp_mono; [apply (wp_keeps cl (Some (a, b)) _ _ Hs1), keeps_lift|..]; try by_same.
    intros [] s2 Hs2. apply wp_bind, wp_bind.
    eapply wp_mono; [apply (enter_room _ _ _ _ _ _ (set_joined true) s2 Hs2)|..]; try by_same;
      try apply Hs2.
    + intros c' answer. cbn. destruct (Nat.eqb_spec b c'); [by subst|done].
    + intros c' answer. cbn. by destruct (Nat.eqb b c').
    + by apply accounted_joined, Hs2.
    + unfold owed_by. cbn. destruct Hs2 as (_ & _ & ->). auto.
    + intros d3 s3 Hs3. apply wp_ret, wp_bind, wp_modify.
      apply (wp_keeps cl (Some (a, b))); [done|]. keeps_steps.
Qed.

Lemma reconnect_safe : safe_op (reconnect config room_id).
Proof.
  apply safe_op_of. intros cl a b s Ha Hb Hs. eapply wp_weaken. apply wp_bind.
  eapply wp_mono; [apply (leave_room _ _ _ _ _ (set_joined false) s Hs)|..]; try by_same.
  - intros c' o answer. cbn. destruct (Nat.eqb_spec b c'); [done|by auto].
  - intros s' c' Hne Hp. unfold owed_by. cbn. rewrite Hp. intros [?|[? _]]; [by left|done].
  - intros [] s1 Hs1. apply wp_bind, wp_modify, wp_bind.
    eapply wp_mono; [apply (leave_room _ _ _ _ _ (set_created false) _ Hs1)|..]; try by_same.
    + intros c' o answer. cbn. destruct (Nat.eqb_spec a c'); [done|by auto].
    + intros s' c' Hne Hp. unfold owed_by. cbn. rewrite Hp. intros [[? _]|?]; [done|by right].
    + intros [] s2 Hs2. apply wp_bind, wp_modify.
      apply (wp_keeps cl (Some (a, b))); [done|]. keeps_steps.
Qed.

(** The state a flow starts in. *)
Definition fresh_flow (s : flow) : Prop := flow_accounted s ∧ fl_party s = None.

Lemma wp_factory s (Q : nat → flow → Prop) :
  fresh_flow s → (∀ c s', fresh_flow s' → fl_clients s' = fl_clients s → Q c s') →
  wp client_factory Q (λ _, flow_accounted) (λ _, True) s.
Proof.
  intros [Ha Hp] HQ. unfold wp, client_factory.
  assert (flow_accounted (log_call (CallNew (fl_next s)) s)) as Hlog by by apply accounted_log.
  destruct (ct_new (fl_tick s)); [done|]. apply HQ; [|done]. split; [|done].
  destruct Hlog as (new & Hlog). by exists new.
Qed.

Lemma login_safe s : fresh_flow s → wp (login config) (λ _, logged_in) (λ _, flow_accounted) (λ _, True) s.
Proof.
  intros Hs. apply wp_bind, wp_factory; [done|]. intros a s1 Hs1 Hc1.
  apply wp_bind, wp_factory; [done|]. intros b s2 Hs2 Hc2. apply wp_bind, wp_modify.
  assert (party_state (fl_clients s2 ++ [a; b]) None (set_clients (fl_clients s2 ++ [a; b]) s2)) as Hst.
  { destruct Hs2 as ((new & Hl & Ho & Hw) & Hp). split; [|done]. exists new. split; [done|].
    split; [|intros c Hc%Hw; unfold owed_by in *; by rewrite Hp in Hc].
    intros c Hc%Ho. cbn. set_solver. }
  revert Hst. generalize (set_clients (fl_clients s2 ++ [a; b]) s2) as s3.
  assert (a ∈ fl_clients s2 ++ [a; b]) as Ha by set_solver.
  assert (b ∈ fl_clients s2 ++ [a; b]) as Hb by set_solver.
  revert Ha Hb. generalize (fl_clients s2 ++ [a; b]) as cl. clear. intros cl Ha Hb s Hs.
  do 4 (apply wp_bind; eapply wp_mono; [apply keeps_accounted; [|exact Hs]; keeps_steps|..];
        [|done|done]; clear s Hs; intros [] s Hs).
  apply wp_modify. exists a, b. destruct Hs as ((new & Hl & Ho & Hw) & Hc & Hp). cbn. rewrite Hc.
  split; [|done]. split; [|done]. exists new. split; [done|]. split; [done|].
  intros c Hc'%Hw. unfold owed_by in Hc'. by rewrite Hp in Hc'.
Qed.

(** *** The loop *)

Lemma run_failed ops s :
  wp (run_steps true ops) (λ _ s', s' = s) (λ _ _, False) (λ _, False) s.
Proof.
  induction ops as [|[name op] ops IH]; [done|]. cbn [run_steps]. apply wp_bind.
  eapply wp_mono; [exact IH|..]; [|done|done]. intros r s' ->. by apply wp_ret.
Qed.

Lemma run_step_accounted name op ops s (P : flow → Prop) :
  wp op (λ _, P) (λ _, flow_accounted) (λ _, True) (clock_ns s).2 →
  (∀ s', P s' → wp (run_steps false ops) (λ _, flow_accounted) (λ _ _, False) (λ _, True) (clock_ns s').2) →
  wp (run_steps false ((name, op) :: ops)) (λ _, flow_accounted) (λ _ _, False) (λ _, True) s.
Proof.
  intros Hop Hrest. cbn [run_steps]. apply wp_bind, wp_clock_ns, wp_bind.
  apply (wp_mono _ (λ r s', match r with Ok _ => P s' | Raise _ => flow_accounted s' end) _ (λ _ _, False) _
           (λ _, True)); [|intros r s1 Hr|done|done].
  { unfold wp, attempt_step in *. by destruct (op _) as [[[]|e|] s1]. }
  apply wp_bind, wp_clock_ns, wp_bind. destruct r as [[]|e]; cbn [is_ok negb].
  - eapply wp_mono; [by apply Hrest|..]; done.
  - eapply wp_mono; [apply run_failed|..]; [|done|done]. intros r s2 ->. by apply wp_ret.
Qed.

Lemma run_safe ops s :
  Forall (λ o, safe_op o.2) ops → logged_in s →
  wp (run_steps false ops) (λ _, flow_accounted) (λ _ _, False) (λ _, True) s.
Proof.
  intros Hops. revert s. induction Hops as [|[name op] ops Hop Hops IH]; intros s Hs.
  - apply wp_ret. by destruct Hs as (a & b & (? & _) & _).
  - eapply (run_step_accounted _ _ _ _ logged_in); [by apply Hop|]. intros s' Hs'. by apply IH.
Qed.

Lemma run_operations s :
  fresh_flow s →
  wp (run_steps false (operations config room_id)) (λ _, flow_accounted) (λ _ _, False) (λ _, True) s.
Proof.
  intros Hs. eapply (run_step_accounted _ _ _ _ logged_in); [by apply login_safe|].
  intros s' Hs'. apply run_safe; [|done].
  repeat (constructor; [cbn [snd]; first [apply room_safe | apply battle_safe | apply settlement_safe
    | apply leaderboard_safe | apply reconnect_safe]|]). constructor.
Qed.

(** *** The clean-up *)

Lemma wp_ignoring c op (Q : unit → flow → Prop) E s :
  (∀ answer, Q () (log_call (CallOn c op answer) s)) →
  wp (ignoring (sdk c op)) Q E (λ _, True) s.
Proof.
  intros HQ. apply wp_try, wp_bind. unfold wp, sdk. destruct (ct_sdk (fl_tick s)); [apply HQ..|done].
Qed.

(** What is still to be done: the clients of [open] may be connected, those of
    [owed] have to leave. *)
Definition left_to_do (opened : nat → Prop) (owed : nat → Prop) (s : flow) : Prop :=
  ∃ new, fl_calls s = old ++ new
  ∧ (∀ c, may_be_open c new = true → opened c) ∧ (∀ c, owes_room c new = true → owed c).

Lemma left_leave opened owed c room_ t answer s :
  left_to_do opened owed s →
  left_to_do opened (λ c', owed c' ∧ c' ≠ c) (log_call (CallOn c (SLeaveRoom room_ t) answer) s).
Proof.
  intros (new & Hl & Ho & Hw). eexists (new ++ [_]). split; [cbn; by rewrite Hl, <- app_assoc|].
  split; intros c'; rewrite ?open_snoc, ?owes_snoc; cbn; destruct (Nat.eqb_spec c c'); try done; auto.
Qed.
Lemma left_disconnect opened owed c answer s :
  left_to_do opened owed s →
  left_to_do (λ c', opened c' ∧ c' ≠ c) owed (log_call (CallOn c SDisconnect answer) s).
Proof.
  intros (new & Hl & Ho & Hw). eexists (new ++ [_]). split; [cbn; by rewrite Hl, <- app_assoc|].
  split; intros c'; rewrite ?open_snoc, ?owes_snoc; cbn; destruct (Nat.eqb_spec c c'); try done; auto.
Qed.
Lemma left_mono (opened opened' owed owed' : nat → Prop) s :
  left_to_do opened owed s → (∀ c, opened c → opened' c) → (∀ c, owed c → owed' c) →
  left_to_do opened' owed' s.
Proof. intros (new & Hl & Ho & Hw) H1 H2. exists new. naive_solver. Qed.

Lemma leave_rooms_done s :
  flow_accounted s →
  wp (leave_rooms config room_id)
    (λ _ s', fl_clients s' = fl_clients s ∧ left_to_do (λ c, c ∈ fl_clients s) (λ _, False) s')
    (λ _ _, False) (λ _, True) s.
Proof.
  intros Hs. apply wp_bind, wp_gets.
  assert (left_to_do (λ c, c ∈ fl_clients s) (owed_by s) s) as Hl by exact Hs.
  unfold owed_by in Hl. destruct (fl_party s) as [[a b]|]; [|by apply wp_ret].
  apply wp_bind.
  assert (∀ s', fl_clients s' = fl_clients s →
            left_to_do (λ c, c ∈ fl_clients s) (λ c, c = a ∧ fl_created s = true) s' →
            wp (if fl_created s then ignoring (sdk a (SLeaveRoom room_id (cc_timeout_ms config)))
                else mret ())
              (λ _ s', fl_clients s' = fl_clients s ∧ left_to_do (λ c, c ∈ fl_clients s) (λ _, False) s')
              (λ _ _, False) (λ _, True) s') as Halice.
  { intros s' Hc Hl'. destruct (fl_created s).
    - apply wp_ignoring. intros answer. split; [done|].
      eapply left_mono; [by apply left_leave|done|]. naive_solver.
    - apply wp_ret. split; [done|]. eapply left_mono; [done|done|]. by intros c []. }
  destruct (fl_joined s).
  - apply wp_ignoring. intros answer. apply Halice; [done|].
    eapply left_mono; [by apply left_leave|done|]. naive_solver.
  - apply wp_ret, Halice; [done|]. eapply left_mono; [done|done|]. intros c [?|[]]; done.
Qed.

Lemma clean_up_done s :
  flow_accounted s →
  wp (clean_up config room_id)
    (λ _ s', ∃ new, fl_calls s' = old ++ new
             ∧ ∀ c, owes_room c new = false ∧ may_be_open c new = false)
    (λ _ _, False) (λ _, True) s.
Proof.
  intros Hs. apply wp_bind. eapply wp_mono; [by apply leave_rooms_done|..]; [|done|done].
  intros [] s1 [Hc Hl]. rewrite <- Hc in Hl. apply wp_bind, wp_gets.
  eapply wp_mono;
    [apply (wp_iter _ (λ _ rest s', left_to_do (λ c, c ∈ rest) (λ _, False) s')
              (λ _ _, False) (λ _, True) _ [] _ Hl)| |done|done].
  - intros d c rest s2 Hl2. apply wp_ignoring. intros answer.
    eapply left_mono; [by apply left_disconnect|cbn|done].
    intros c' [[->|]%elem_of_cons Hne]; done.
  - intros [] s2 (new & Hl2 & Ho & Hw). exists new. split; [done|]. intros c.
    split; apply not_true_iff_false; [by intros []%Hw|by intros []%Ho%elem_of_nil].
Qed.
End account.


(** ** The whole flow *)

Section whole.
Context `{CanaryRuntime}.

Lemma wp_in_flow {A} (m : FM A) (Q : A → cstate → Prop) (E : exn → cstate → Prop) C s :
  wp m (λ a f, Q a (CState (fl_tick f) (c_store s) (fl_calls f) (c_requests s)))
    (λ e f, E e (CState (fl_tick f) (c_store s) (fl_calls f) (c_requests s)))
    (λ f, C (CState (fl_tick f) (c_store s) (fl_calls f) (c_requests s)))
    (Flow (c_tick s) (length (c_calls s)) (c_calls s) [] None false false) →
  wp (in_flow m) Q E C s.
Proof. unfold wp, in_flow. by destruct (m _) as [[]]. Qed.

Lemma wp_suffix suffix (Q : string → cstate → Prop) E C s :
  (∀ x s', c_store s' = c_store s → c_calls s' = c_calls s → c_requests s' = c_requests s → Q x s') →
  wp (suffix_or_token suffix) Q E C s.
Proof. intros HQ. unfold suffix_or_token. case_match; by apply HQ. Qed.

Lemma clean_up_returns config room_id s :
  wp (clean_up config room_id) (λ _ _, True) (λ _ _, False) (λ _, True) s.
Proof.
  assert (∀ c op s, wp (ignoring (sdk c op)) (λ _ _, True) (λ _ _, False) (λ _, True) s) as Hi.
  { intros. by apply wp_ignoring. }
  apply wp_bind. apply (wp_mono _ (λ _ _, True) _ (λ _ _, False) _ (λ _, True)); [|intros [] s' _|done..].
  - apply wp_bind, wp_gets. destruct (fl_party s) as [[a b]|]; [|done]. apply wp_bind.
    apply (wp_mono _ (λ _ _, True) _ (λ _ _, False) _ (λ _, True)); [|intros [] s' _|done..];
      (case_match; [apply Hi|done]).
  - apply wp_bind, wp_gets. apply (wp_iter _ (λ _ _ _, True) _ _ _ []); [done|].
    intros d c r s1 _. apply Hi.
Qed.

(** C34: However the SDK behaves, the business flow returns one record for each of
    the six steps, in their order, and never raises: the fields of each record
    belong together (a success has no error and a latency; a failure has an error
    type of the list, a latency unless the step was not tried, and a code only for
    an SDK error), and at most one step failed of itself, after which every step
    is recorded as a dependency failure. *)
Theorem flow_records_typed config suffix s :
  sdk_foreign →
  wp (execute_business_flow config suffix)
    (λ steps _, map sr_name steps = REQUIRED_STEPS ∧ Forall step_typed steps ∧ steps_shape steps)
    (λ _ _, False) (λ _, True) s.
Proof.
  intros Hsdk. apply wp_bind, wp_suffix. intros x s1 _ _ _. apply wp_in_flow, wp_finally.
  eapply wp_mono; [apply run_steps_typed, operations_typed; exact Hsdk|..]; [|by intros e f []|done].
  intros steps f Hsteps. eapply wp_mono; [apply clean_up_returns|..]; [by intros|by intros e f' []|done].
Qed.

(** C33: However the business flow ends, short of the death of the process, every
    client that may be connected was disconnected last, and every client that was
    let into a room asked to leave it afterwards; nothing else was touched. *)
Theorem flow_cleans_up config suffix s :
  wp (execute_business_flow config suffix)
    (λ _ s', c_store s' = c_store s ∧ c_requests s' = c_requests s
             ∧ ∃ new, c_calls s' = c_calls s ++ new
               ∧ ∀ c, owes_room c new = false ∧ may_be_open c new = false)
    (λ _ _, False) (λ s', c_store s' = c_store s ∧ c_requests s' = c_requests s) s.
Proof.
  apply wp_bind, wp_suffix. intros x s1 Hst Hca Hrq. apply wp_in_flow, wp_finally.
  rewrite <- Hca. eapply wp_mono; [apply (run_operations config (room_of x) (c_calls s1))|..];
    [|intros steps f Hf|by intros e f []|by intros f _].
  - split; [|done]. exists []. by rewrite app_nil_r.
  - eapply wp_mono; [apply (clean_up_done config (room_of x) (c_calls s1) f Hf)|..];
      [by intros [] f' Hnew|by intros e f' []|done].
Qed.
End whole.
