(* ===== verification/CanaryTrace.v ===== *)
(** * The business flow: what a passing sample has done *)
From S2P Require Import Prelude PyFloat PyValue PyEffect Canary CanaryFlow CanaryFlowFacts.
#[local] Open Scope Z_scope.

(** The calls on clients. *)
Definition call_target (k : call) : option (nat * sdk_op) :=
  match k with CallOn c op _ => Some (c, op) | _ => None end.
Definition trace_of (l : list call) : list (nat * sdk_op) := omap call_target l.

(** A call that had the effect that the flow goes on with. *)
Definition good_call (k : call) : Prop :=
  match k with
  | CallOn _ (SConnect _ _ _) answer => ∃ v, answer = ORet v ∧ truthy v = true
  | CallOn _ SDisconnect answer => ∃ v, answer = ORet v
  | CallOn _ _ answer => call_accepted answer = true
  | _ => True
  end.

(** The calls of a flow that passes, of the primary client [a] and the secondary
    one [b]. *)
Definition business_script (config : CanaryConfig) (room_id : string) (a b : nat)
    : list (nat * sdk_op) :=
  let t := cc_timeout_ms config in
  [(a, SConnect (cc_host config) (cc_port config) t); (b, SConnect (cc_host config) (cc_port config) t);
   (a, SLogin (cc_user_a config) (cc_token_a config) t);
   (b, SLogin (cc_user_b config) (cc_token_b config) t);
   (a, SCreateRoom room_id t); (b, SJoinRoom room_id t); (a, SSetReady true t); (b, SSetReady true t);
   (a, SStartBattle room_id t); (a, SBattleInput "move:10,20" t); (b, SBattleInput "move:30,40" t);
   (a, SBattleInput "finish:surrender" t);
   (a, SLeaderboardTop 20 t); (a, SLeaderboardSubmit (cc_user_a config) "Canary A" 8000000001 t);
   (b, SLeaderboardSubmit (cc_user_b config) "Canary B" 8000000000 t);
   (a, SLeaderboardRank (cc_user_a config) t);
   (b, SLeaveRoom room_id t); (a, SLeaveRoom room_id t); (a, SDisconnect);
   (a, SConnect (cc_host config) (cc_port config) t);
   (a, SLogin (cc_user_a config) (cc_token_a config) t)].

(** From a log to a later one by good calls with the given trace. *)
Definition extends (l l' : list call) (tr : list (nat * sdk_op)) : Prop :=
  ∃ new, l' = l ++ new ∧ trace_of new = tr ∧ Forall good_call new.

Lemma extends_refl l : extends l l [].
Proof. exists []. by rewrite app_nil_r. Qed.
Lemma extends_trans l1 l2 l3 t1 t2 :
  extends l1 l2 t1 → extends l2 l3 t2 → extends l1 l3 (t1 ++ t2).
Proof.
  intros (n1 & -> & <- & H1) (n2 & -> & <- & H2). exists (n1 ++ n2). rewrite app_assoc.
  unfold trace_of. rewrite omap_app. split; [done|]. split; [done|]. by apply Forall_app.
Qed.

Section trace.
Context `{CanaryRuntime}.
Variable config : CanaryConfig.
Variable room_id : string.

(** [m] extends the log by good calls with the trace [tr] when it returns, and
    keeps the clients. *)
Definition traces {A} (pt : option (nat * nat)) (m : FM A) (tr : list (nat * sdk_op)) : Prop :=
  ∀ s, fl_party s = pt →
  wp m (λ _ s', extends (fl_calls s) (fl_calls s') tr ∧ fl_party s' = pt
                ∧ fl_clients s' = fl_clients s) (λ _ _, True) (λ _, True) s.

Lemma traces_bind {A B} pt (m : FM A) (f : A → FM B) t1 t2 :
  traces pt m t1 → (∀ a, traces pt (f a) t2) → traces pt (m ≫= f) (t1 ++ t2).
Proof.
  intros Hm Hf s Hs. apply wp_bind. eapply wp_mono; [by apply Hm|..]; [|done|done].
  intros a s1 (He & Hp & Hc). eapply wp_mono; [by apply Hf|..]; [|done|done].
  intros b s2 (He' & Hp' & Hc'). split; [by eapply extends_trans|]. by rewrite Hc'.
Qed.
Lemma traces_eq {A} pt (m : FM A) tr tr' : traces pt m tr → tr = tr' → traces pt m tr'.
Proof. by intros Hm <-. Qed.
Lemma traces_ret {A} pt (a : A) : traces pt (mret a) [].
Proof. intros s Hs. apply wp_ret. split; [apply extends_refl|done]. Qed.
Lemma traces_lift {A} pt (r : res A) : traces pt (e_lift r) [].
Proof. intros s Hs. apply wp_lift; [|done]. intros a _. split; [apply extends_refl|done]. Qed.
Lemma traces_sleep pt t : traces pt (flow_sleep t) [].
Proof.
  intros s Hs. apply wp_modify. split; [|done]. exists [CallSleep t]. cbn. by repeat constructor.
Qed.
Lemma traces_flag pt f :
  (∀ s, fl_calls (f s) = fl_calls s ∧ fl_party (f s) = fl_party s ∧ fl_clients (f s) = fl_clients s) →
  traces pt (e_modify f) [].
Proof.
  intros Hf s Hs. apply wp_modify. destruct (Hf s) as (-> & -> & ->). split; [apply extends_refl|done].
Qed.
Lemma traces_party a b {B} (m : nat * nat → FM B) tr :
  traces (Some (a, b)) (m (a, b)) tr → traces (Some (a, b)) (p ← get_party; m p) tr.
Proof.
  intros Hm s Hs. apply wp_bind, wp_read; [|done]. rewrite Hs. intros p [= <-]. by apply Hm.
Qed.
Lemma extends_one s c op v :
  good_call (CallOn c op (ORet v)) →
  extends (fl_calls s) (fl_calls (log_call (CallOn c op (ORet v)) s)) [(c, op)].
Proof. intros Hg. exists [CallOn c op (ORet v)]. by repeat constructor. Qed.

Lemma traces_checked pt c op o :
  (∀ answer, call_accepted answer = true → good_call (CallOn c op answer)) →
  traces pt (checked c op o) [(c, op)].
Proof.
  intros Hop s Hs. apply wp_bind, wp_sdk_state; [|done]. intros v _. apply wp_lift; [|done].
  intros d Hd%result_ok_accepted. split; [by apply extends_one, Hop|done].
Qed.
Lemma traces_check pt c op o :
  (∀ answer, call_accepted answer = true → good_call (CallOn c op answer)) →
  traces pt (check_call c op o) [(c, op)].
Proof.
  intros Hop. apply (traces_bind _ _ _ [_] []); [by apply traces_checked|]. intros. apply traces_ret.
Qed.
Lemma traces_disconnect pt c : traces pt (sdk c SDisconnect) [(c, SDisconnect)].
Proof.
  intros s Hs. apply wp_sdk_state; [|done]. intros v _. split; [|done]. apply extends_one. by exists v.
Qed.
Lemma traces_connect pt c label :
  traces pt (connect_client config c label)
    [(c, SConnect (cc_host config) (cc_port config) (cc_timeout_ms config))].
Proof.
  intros s Hs. apply wp_bind, wp_try, wp_sdk_state.
  - intros v _. destruct (truthy v) eqn:Hv; [|by apply wp_lift]. apply wp_ret.
    split; [|done]. apply extends_one. by exists v.
  - intros e _. by destruct (exn_isa CTimeoutError e); apply wp_lift.
Qed.

#[local] Ltac trace_steps :=
  repeat first
    [ apply traces_ret | apply traces_sleep | apply traces_lift | apply traces_disconnect
    | apply traces_connect | apply traces_check; done | apply traces_checked; done
    | apply traces_flag; done
    | eapply traces_bind; [|intros ?] ].

(** The four operations between the login and the reconnection, and their calls. *)
Definition middle_operations : list (string * FM unit) :=
  [("room", room config room_id); ("battle", battle config room_id);
   ("settlement", settlement config); ("leaderboard", leaderboard config)].
Definition middle_calls (a b : nat) : list (list (nat * sdk_op)) :=
  [take 4 (drop 4 (business_script config room_id a b));
   take 3 (drop 8 (business_script config room_id a b));
   take 1 (drop 11 (business_script config room_id a b));
   take 4 (drop 12 (business_script config room_id a b))].
Lemma operations_split :
  operations config room_id
  = ("login", login config) :: middle_operations ++ [("reconnect", reconnect config room_id)].
Proof. reflexivity. Qed.
Lemma script_split a b :
  business_script config room_id a b
  = (take 4 (business_script config room_id a b) ++ concat (middle_calls a b))
    ++ drop 16 (business_script config room_id a b).
Proof. reflexivity. Qed.

Lemma middle_traces a b :
  Forall2 (λ o tr, traces (Some (a, b)) o.2 tr) middle_operations (middle_calls a b).
Proof.
  unfold middle_operations, middle_calls.
  repeat constructor; cbn [snd]; apply traces_party; (eapply traces_eq; [trace_steps|done]).
Qed.

(** Computations that leave the two flags alone. *)
Definition keeps_flags {A} (m : FM A) : Prop :=
  ∀ s, wp m (λ _ s', fl_joined s' = fl_joined s ∧ fl_created s' = fl_created s) (λ _ _, True)
         (λ _, True) s.
Lemma calm_bind {A B} (m : FM A) (f : A → FM B) : keeps_flags m → (∀ a, keeps_flags (f a)) → keeps_flags (m ≫= f).
Proof.
  intros Hm Hf s. apply wp_bind. eapply wp_mono; [apply Hm|..]; [|done|done].
  intros a s1 [<- <-]. apply Hf.
Qed.
Lemma calm_sdk c op : keeps_flags (sdk c op).
Proof. intros s. by apply wp_sdk_state. Qed.
Lemma calm_lift {A} (r : res A) : keeps_flags (e_lift r).
Proof. intros s. by apply wp_lift. Qed.
Lemma calm_check c op o : keeps_flags (check_call c op o).
Proof.
  apply calm_bind; [|by intros ??]. apply calm_bind; [apply calm_sdk|]. intros. apply calm_lift.
Qed.
Lemma calm_connect c label : keeps_flags (connect_client config c label).
Proof.
  intros s. apply wp_bind, wp_try, wp_sdk_state.
  - intros v _. destruct (truthy v); [by apply wp_ret|by apply wp_lift].
  - intros e _. by destruct (exn_isa CTimeoutError e); apply wp_lift.
Qed.

Lemma reconnect_flags s :
  wp (reconnect config room_id) (λ _ s', fl_joined s' = false ∧ fl_created s' = false)
    (λ _ _, True) (λ _, True) s.
Proof.
  apply wp_bind, wp_read; [|done]. intros [a b] _.
  apply wp_bind. eapply wp_mono; [apply calm_check|..]; [|done|done]. intros [] s1 _.
  apply wp_bind, wp_modify, wp_bind. eapply wp_mono; [apply calm_check|..]; [|done|done].
  intros [] s2 [Hj _]. apply wp_bind, wp_modify.
  eapply wp_mono; [|..|done|done].
  - apply calm_bind; [apply calm_sdk|intros v].
    apply calm_bind; [apply calm_connect|intros []; apply calm_check].
  - intros [] s3 [-> ->]. by split; [exact Hj|].
Qed.

Lemma reconnect_traces a b s :
  fl_party s = Some (a, b) →
  wp (reconnect config room_id)
    (λ _ s', (extends (fl_calls s) (fl_calls s') (drop 16 (business_script config room_id a b))
              ∧ fl_party s' = Some (a, b) ∧ fl_clients s' = fl_clients s)
             ∧ fl_joined s' = false ∧ fl_created s' = false) (λ _ _, True) (λ _, True) s.
Proof.
  intros Hs.
  assert (traces (Some (a, b)) (reconnect config room_id)
            (drop 16 (business_script config room_id a b))) as Ht.
  { apply traces_party.
    eapply traces_eq; [trace_steps|done]. }
  eapply wp_mono; [apply wp_and; [by apply Ht|apply reconnect_flags]|..]; [|done|done].
  by intros [] s' [].
Qed.

Lemma login_traces s :
  fl_clients s = [] → fl_party s = None →
  wp (login config)
    (λ _ s', ∃ a b, a ≠ b ∧ fl_clients s' = [a; b] ∧ fl_party s' = Some (a, b)
       ∧ extends (fl_calls s) (fl_calls s') (take 4 (business_script config room_id a b)))
    (λ _ _, True) (λ _, True) s.
Proof.
  intros Hc Hp. apply wp_bind. unfold wp at 1, client_factory at 1.
  destruct (ct_new (fl_tick s)); [done|]. apply wp_bind. unfold wp at 1, client_factory at 1.
  destruct (ct_new _); [done|]. cbn -[connect_client check_call]. apply wp_bind, wp_modify.
  set (a := fl_next s). set (b := S (fl_next s)). cbn [set_clients fl_clients]. rewrite Hc. cbn [app].
  match goal with |- wp _ _ _ _ ?x => set (s1 := x) end.
  assert (extends (fl_calls s) (fl_calls s1) []) as He.
  { exists [CallNew a; CallNew b]. cbn. rewrite <- app_assoc. by repeat constructor. }
  assert (fl_party s1 = None ∧ fl_clients s1 = [a; b]) as [Hp1 Hc1] by done.
  clearbody s1.
  do 4 (apply wp_bind; eapply wp_mono;
    [first [apply (traces_connect None) | apply (traces_check None); done]; exact Hp1|..];
    [|done|done]; clear Hp1; intros [] s2 (He' & Hp1 & Hc2); rewrite Hc1 in Hc2; clear Hc1;
    rename Hc2 into Hc1; pose proof (extends_trans _ _ _ _ _ He He') as He2; clear He He';
    rename He2 into He; clear dependent s1; rename s2 into s1).
  apply wp_modify. exists a, b. split; [lia|]. by split; [exact Hc1|].
Qed.

(** ** The loop *)

Lemma run_step_ok name op ops s (P R : flow → Prop) :
  wp op (λ _, P) (λ _ _, True) (λ _, True) (clock_ns s).2 →
  (∀ s', P s' → wp (run_steps false ops) (λ steps s'', forallb sr_ok steps = true → R s'')
                  (λ _ _, True) (λ _, True) (clock_ns s').2) →
  wp (run_steps false ((name, op) :: ops)) (λ steps s'', forallb sr_ok steps = true → R s'')
    (λ _ _, True) (λ _, True) s.
Proof.
  intros Hop Hrest. cbn [run_steps]. apply wp_bind, wp_clock_ns, wp_bind.
  apply (wp_mono _ (λ r s', match r with Ok _ => P s' | Raise _ => True end) _ (λ _ _, False) _
           (λ _, True)); [|intros r s1 Hr|done|done].
  { unfold wp, attempt_step in *. by destruct (op _) as [[[]|e|] s1]. }
  apply wp_bind, wp_clock_ns, wp_bind. destruct r as [[]|e].
  - eapply wp_mono; [by apply Hrest|..]; [|done|done]. intros steps s2 HR. by apply wp_ret.
  - eapply wp_mono; [apply run_failed|..]; [|by intros e' s2 []|done]. intros steps s2 _. apply wp_ret.
    cbn [forallb step_of]. by destruct (exn_cls e).
Qed.

Lemma run_middle a b ops trs rest s0 s tr (R : flow → Prop) :
  Forall2 (λ o tr, traces (Some (a, b)) o.2 tr) ops trs →
  extends s0 (fl_calls s) tr → fl_party s = Some (a, b) → fl_clients s = [a; b] →
  (∀ s', extends s0 (fl_calls s') (tr ++ concat trs) → fl_party s' = Some (a, b) →
     fl_clients s' = [a; b] →
     wp (run_steps false rest) (λ steps s'', forallb sr_ok steps = true → R s'')
       (λ _ _, True) (λ _, True) s') →
  wp (run_steps false (ops ++ rest)) (λ steps s'', forallb sr_ok steps = true → R s'')
    (λ _ _, True) (λ _, True) s.
Proof.
  intros Hops. revert s tr. induction Hops as [|[name op] tr1 ops trs Hop Hops IH];
    intros s tr He Hp Hc Hrest.
  - apply Hrest; [by rewrite app_nil_r|done..].
  - eapply run_step_ok; [by apply Hop|]. intros s' (He' & Hp' & Hc'). cbn in He'.
    apply (IH _ (tr ++ tr1)); [by eapply extends_trans|done|by cbn; rewrite Hc'|].
    intros s2. rewrite <- app_assoc. apply Hrest.
Qed.

(** The state after all six operations. *)
Definition finished (old : list call) (s : flow) : Prop :=
  ∃ a b, a ≠ b ∧ fl_clients s = [a; b] ∧ fl_joined s = false ∧ fl_created s = false
  ∧ extends old (fl_calls s) (business_script config room_id a b).

Lemma operations_finish s :
  fl_clients s = [] → fl_party s = None →
  wp (run_steps false (operations config room_id))
    (λ steps s', forallb sr_ok steps = true → finished (fl_calls s) s')
    (λ _ _, True) (λ _, True) s.
Proof.
  intros Hc Hp. rewrite operations_split. eapply run_step_ok; [by apply login_traces|].
  intros s1 (a & b & Hne & Hc1 & Hp1 & He1).
  eapply (run_middle a b middle_operations (middle_calls a b) _ (fl_calls s));
    [apply middle_traces|exact He1|exact Hp1|exact Hc1|].
  intros s2 He2 Hp2 Hc2. eapply run_step_ok; [by apply reconnect_traces|].
  intros s3 ((He3 & Hp3 & Hc3) & Hj & Hcr). apply wp_ret. intros _. exists a, b.
  split; [done|]. split; [cbn; by rewrite Hc3|]. split; [done|]. split; [done|].
  rewrite script_split. exact (extends_trans _ _ _ _ _ He2 He3).
Qed.

Lemma finished_clean_up old s :
  finished old s →
  wp (clean_up config room_id)
    (λ _ s', ∃ a b new last, a ≠ b ∧ fl_calls s' = old ++ new ++ last
             ∧ trace_of new = business_script config room_id a b ∧ Forall good_call new
             ∧ trace_of last = [(a, SDisconnect); (b, SDisconnect)])
    (λ _ _, True) (λ _, True) s.
Proof.
  intros (a & b & Hne & Hc & Hj & Hcr & new & Hl & Htr & Hg).
  apply wp_bind, wp_bind, wp_gets. rewrite Hj, Hcr.
  assert (wp (disconnect_all) (λ _ s', ∃ a b new last, a ≠ b ∧ fl_calls s' = old ++ new ++ last
             ∧ trace_of new = business_script config room_id a b ∧ Forall good_call new
             ∧ trace_of last = [(a, SDisconnect); (b, SDisconnect)]) (λ _ _, True) (λ _, True) s) as Hd.
  { apply wp_bind, wp_gets. rewrite Hc. cbn [e_iter]. apply wp_bind, wp_ignoring. intros answer.
    apply wp_bind, wp_ignoring. intros answer'. apply wp_ret. exists a, b, new.
    eexists [_; _]. cbn. rewrite Hl, <- !app_assoc. cbn. by repeat split. }
  destruct (fl_party s) as [[]|]; exact Hd.
Qed.
End trace.

Section passing.
Context `{CanaryRuntime}.

(** C29: When all six steps of a flow are recorded as successful, the two clients
    made exactly the calls of the business script, in its order: both connected and
    logged in, created, joined and played the room, settled the battle, wrote and
    read the leaderboard, left the room, and the primary one reconnected; every
    one of these calls was answered as accepted, and then both disconnected. *)
Theorem passing_flow_trace config suffix s :
  wp (execute_business_flow config suffix)
    (λ steps s', forallb sr_ok steps = true →
       ∃ x a b new last, a ≠ b ∧ c_calls s' = c_calls s ++ new ++ last
       ∧ trace_of new = business_script config (room_of x) a b ∧ Forall good_call new
       ∧ trace_of last = [(a, SDisconnect); (b, SDisconnect)])
    (λ _ _, True) (λ _, True) s.
Proof.
  apply wp_bind, wp_suffix. intros x s1 _ Hca _. apply wp_in_flow, wp_finally.
  rewrite <- Hca. eapply wp_mono; [by apply (operations_finish config (room_of x))|..];
    [|intros e f _; by apply wp_any|done].
  intros steps f Hf. destruct (forallb sr_ok steps) eqn:Hok; [|by apply wp_any].
  eapply wp_mono; [apply finished_clean_up, (Hf Hok)|..]; [|done|done].
  intros [] f' (a & b & new & last & Hfin) _. by exists x, a, b, new, last.
Qed.
End passing.
