(* ===== verification/CanaryStoreFacts.v ===== *)
(** * Evidence files of the canary are created once and complete *)
From S2P Require Import Prelude PyFloat PyValue PyPath PyJson PyEffect Canary.
#[local] Open Scope Z_scope.

(** ** The store *)

Lemma find_node_cons p q n l :
  find_node p ((q, n) :: l) = if decide (q = p) then Some n else find_node p l.
Proof.
  unfold find_node. cbn [list_find fst]. case_decide; [done|].
  by destruct (list_find _ l) as [[i [r m]]|].
Qed.
Lemma find_node_app p l l' :
  find_node p (l ++ l') = match find_node p l with Some n => Some n | None => find_node p l' end.
Proof.
  induction l as [|[q n] l IH]; [done|]. cbn [app]. rewrite !find_node_cons. by case_decide.
Qed.
Lemma find_node_drop p q l :
  find_node p (drop_node q l) = if decide (p = q) then None else find_node p l.
Proof.
  induction l as [|[r n] l IH]; [by case_decide|]. unfold drop_node in *. rewrite filter_cons. cbn [fst].
  rewrite find_node_cons. destruct (decide (r ≠ q)) as [Hr|Hr].
  - rewrite find_node_cons, IH. repeat case_decide; congruence.
  - apply dec_stable in Hr. rewrite IH. repeat case_decide; congruence.
Qed.
Lemma find_node_None p l : find_node p l = None ↔ p ∉ map fst l.
Proof.
  induction l as [|[q n] l IH]; [by split; [intros _ []%elem_of_nil|]|].
  rewrite find_node_cons. cbn [map fst]. rewrite not_elem_of_cons. case_decide; naive_solver.
Qed.
Lemma find_node_put p q n s :
  find_node p (c_store (put_node q n s)) = if decide (p = q) then Some n else find_node p (c_store s).
Proof.
  unfold put_node, with_store. cbn [c_store]. rewrite find_node_app, find_node_drop, find_node_cons.
  repeat case_decide; subst; try done. by destruct (find_node p (c_store s)).
Qed.
Lemma find_node_remove p q s :
  find_node p (c_store (remove_node q s)) = if decide (p = q) then None else find_node p (c_store s).
Proof. apply find_node_drop. Qed.

(** ** Growing evidence *)

(** The name of a staging file. *)
Definition staging (q : path) : Prop :=
  ∃ parent token, q = p_join parent (".boost-gateway-evidence-" +:+ token +:+ ".tmp").

(** Every file is kept as it was, a new one is the document [v] at [p] or a
    staging file, and no call and no request was made. *)
Definition evidence_kept (s s' : cstate) : Prop :=
  ∀ q n, find_node q (c_store s) = Some n → find_node q (c_store s') = Some n.
Definition grows (p : path) (v : py) (s s' : cstate) : Prop :=
  evidence_kept s s'
  ∧ (∀ q n, find_node q (c_store s') = Some n →
       find_node q (c_store s) = Some n ∨ (q = p ∧ n = NDoc (jsort v)) ∨ staging q)
  ∧ c_calls s' = c_calls s ∧ c_requests s' = c_requests s.

Lemma kept_refl s : evidence_kept s s.
Proof. by intros q n. Qed.
Lemma kept_trans s1 s2 s3 : evidence_kept s1 s2 → evidence_kept s2 s3 → evidence_kept s1 s3.
Proof. intros H1 H2 q n Hq. by apply H2, H1. Qed.
Lemma kept_None s s' q : evidence_kept s s' → find_node q (c_store s') = None → find_node q (c_store s) = None.
Proof. intros Hk Hn. destruct (find_node q (c_store s)) as [n|] eqn:Hq; [|done]. by rewrite (Hk _ _ Hq) in Hn. Qed.

Section store.
Context `{CanaryRuntime}.
Variables (p : path) (v : py) (s0 : cstate).

Lemma grows_refl : grows p v s0 s0.
Proof. split; [apply kept_refl|]. by split; [auto|]. Qed.
Lemma grows_tick s : grows p v s0 s → grows p v s0 (tick_on s).
Proof. by intros. Qed.
Lemma grows_put q n s :
  grows p v s0 s → find_node q (c_store s0) = None → (q = p ∧ n = NDoc (jsort v)) ∨ staging q →
  grows p v s0 (put_node q n s).
Proof.
  intros (Hk & Ho & Hc & Hr) Hq Hn. split; [|split; [|done]].
  - intros r m Hm. rewrite find_node_put. case_decide; [by subst; congruence|by apply Hk].
  - intros r m. rewrite find_node_put. case_decide; [|by auto]. intros [= <-]. subst. naive_solver.
Qed.
Lemma grows_remove q s :
  grows p v s0 s → find_node q (c_store s0) = None → grows p v s0 (remove_node q s).
Proof.
  intros (Hk & Ho & Hc & Hr) Hq. split; [|split; [|done]].
  - intros r m Hm. rewrite find_node_remove. case_decide; [by subst; congruence|by apply Hk].
  - intros r m. rewrite find_node_remove. case_decide; [done|by auto].
Qed.

Lemma wp_sys f (Q : unit → cstate → Prop) (E : exn → cstate → Prop) (C : cstate → Prop) s :
  Q () (f (tick_on s)) → (∀ e, E e (tick_on s)) → C (tick_on s) → C (f (tick_on s)) →
  wp (sys f) Q E C s.
Proof. intros HQ HE HC HC'. unfold wp, sys. destruct (ct_fault (c_tick s)) as [| |[]]; auto. Qed.

(** A system call that keeps the evidence growing. *)
Lemma wp_sys_grows f s (Q : unit → cstate → Prop) :
  grows p v s0 s → (∀ s, grows p v s0 s → grows p v s0 (f s)) →
  (grows p v s0 (f (tick_on s)) → Q () (f (tick_on s))) →
  wp (sys f) Q (λ _, grows p v s0) (grows p v s0) s.
Proof. intros Hs Hf HQ. apply wp_sys; eauto using grows_tick. Qed.

Lemma wp_mkstemp s (Q : path → cstate → Prop) :
  grows p v s0 s →
  (∀ q s', staging q → find_node q (c_store s0) = None → grows p v s0 s' → Q q s') →
  wp (mkstemp (p_parent p)) Q (λ _, grows p v s0) (grows p v s0) s.
Proof.
  intros Hs HQ. apply wp_bind. unfold wp at 1, uuid_token at 1. apply wp_bind, wp_gets.
  set (q := p_join _ _). case_bool_decide as Hin; [by apply wp_raise|].
  assert (staging q) as Hst by (by eexists _, _).
  assert (find_node q (c_store s0) = None) as Hq.
  { eapply kept_None; [apply Hs|]. by apply find_node_None. }
  apply wp_bind, wp_sys_grows; [done|by intros; apply grows_put; auto|].
  intros Hg. by apply wp_ret, HQ.
Qed.

(** Creating the evidence: however it ends, nothing that was there has changed and
    a file at [p] is complete; when it returns the file is new and there. *)
Lemma write_create_only_grows :
  wp (write_create_only p v)
    (λ _ s', grows p v s0 s' ∧ find_node p (c_store s0) = None
             ∧ (staging p ∨ find_node p (c_store s') = Some (NDoc (jsort v))))
    (λ _, grows p v s0) (grows p v s0) s0.
Proof.
  apply wp_bind, wp_sys_grows; [apply grows_refl|done|]. intros Hg1.
  apply wp_bind, wp_mkstemp; [done|]. intros temporary s2 Hst Htmp Hg2.
  assert (∀ s, grows p v s0 s → grows p v s0 (remove_node temporary s)) as Hrm
    by (intros; by apply grows_remove).
  apply wp_bind.
  apply (wp_mono _ (λ _ s', grows p v s0 s' ∧ find_node p (c_store s0) = None
             ∧ (staging p ∨ find_node p (c_store s') = Some (NDoc (jsort v))))
           _ (λ _, grows p v s0) _ (grows p v s0)); [|intros [] s3 (Hg3 & Hnew & Hthere)|done|done].
  - apply wp_try. eapply wp_mono;
      [|intros ? ? Hx; exact Hx|intros e s3 Hg3; apply wp_bind, wp_sys_grows; [exact Hg3|exact Hrm|intros Hg4; by apply wp_lift]
       |intros ? Hx; exact Hx].
    apply wp_bind, wp_sys_grows; [done|intros; apply grows_put; auto|]. intros Hg3.
    match type of Hg3 with grows _ _ _ ?x => set (s3 := x) in * end.
    assert (find_node temporary (c_store s3) = Some (NDoc (jsort v))) as Hdoc
      by (unfold s3; rewrite find_node_put; by case_decide).
    clearbody s3. apply wp_bind, wp_bind, wp_gets. case_bool_decide as Hin.
    + apply wp_bind, wp_sys_grows; [done|done|]. intros Hg4. by apply wp_raise.
    + apply find_node_None in Hin.
      assert (find_node p (c_store s0) = None) as Hp0 by (eapply kept_None; [apply Hg3|done]).
      set (link := λ s, put_node p (default NInvalid (find_node temporary (c_store s))) s).
      assert (grows p v s0 (link (tick_on s3))) as Hg4.
      { unfold link. cbn [tick_on c_store]. rewrite Hdoc. apply grows_put; auto. }
      apply wp_sys; [|done|done|done].
      apply wp_bind, wp_sys_grows; [done|done|]. intros Hg5.
      apply wp_sys_grows; [done|done|]. intros Hg6. split; [done|]. split; [done|].
      rewrite find_node_remove. case_decide as Hpt; [left; by rewrite Hpt|right].
      unfold link. cbn [tick_on c_store]. rewrite Hdoc. cbn.
      change (find_node p (c_store (put_node p (NDoc (jsort v)) s3)) = Some (NDoc (jsort v))).
      rewrite find_node_put. by case_decide.
  - apply wp_sys_grows; [done|done|]. intros Hg4. done.
Qed.
End store.
