(* ===== verification/CanaryGaps.v ===== *)
(** * The gaps of a report are the longest runs of missing minutes *)
From S2P Require Import Prelude PyDateTime PyTime Canary CanaryReport.
#[local] Open Scope Z_scope.

#[local] Ltac Zify.zify_post_hook ::= Z.to_euclidean_division_equations.

(** A list of moments in order, whole minutes apart. *)
Definition on_minutes (base : Z) (l : list Z) : Prop :=
  StronglySorted Z.lt l ∧ Forall (λ t, (t - base) mod minute_us = 0) l.

(** ** The gaps *)

(** The moments of the gap that is open and those still to come. *)
Definition ahead (start previous : Z) (l : list Z) (x : Z) : Prop :=
  (start <= x <= previous ∧ (x - start) mod minute_us = 0) ∨ x ∈ l.

(** A gap of whole minutes that all belong to [P] and that [P] does not go on
    after. *)
Definition is_gap (P : Z → Prop) (g : gap) : Prop :=
  g_end g = g_start g + g_minutes g * minute_us ∧ 1 <= g_minutes g
  ∧ (∀ i, 0 <= i < g_minutes g → P (g_start g + i * minute_us)) ∧ ¬ P (g_end g).

Lemma gap_of_is_gap start previous l :
  start <= previous → (previous - start) mod minute_us = 0 → previous + minute_us ∉ l →
  is_gap (ahead start previous l) (gap_of start previous).
Proof.
  unfold is_gap, gap_of, ahead, minute_us, second_us. cbn [g_end g_start g_minutes].
  intros Hle Hmod Hl. split; [lia|]. split; [lia|]. split; [intros i Hi; left; lia|].
  intros [?|?]; [lia|done].
Qed.

Lemma gap_loop_spec l start previous :
  start <= previous → (previous - start) mod minute_us = 0 →
  StronglySorted Z.lt l → Forall (λ t, previous < t ∧ (t - start) mod minute_us = 0) l →
  Forall (is_gap (ahead start previous l)) (gap_loop start previous l)
  ∧ ∀ x, ahead start previous l x →
      ∃ g, g ∈ gap_loop start previous l ∧ g_start g <= x < g_end g ∧ (x - g_start g) mod minute_us = 0.
Proof.
  revert start previous. induction l as [|moment l IH]; intros start previous Hle Hmod Hs Hl.
  { cbn [gap_loop]. split.
    - constructor; [|done]. apply gap_of_is_gap; [done..|]. apply not_elem_of_nil.
    - intros x [Hx|[]%elem_of_nil]. eexists. split; [by apply list_elem_of_singleton|].
      cbn. unfold minute_us, second_us in *. lia. }
  apply Forall_cons in Hl as [[Hlt Hm] Hl]. apply StronglySorted_inv in Hs as [Hs Hlm].
  assert (Forall (λ t, moment < t ∧ (t - start) mod minute_us = 0) l) as Hl'.
  { apply Forall_and. split; [done|]. eapply Forall_impl; [done|]. by intros x []. }
  cbn [gap_loop]. destruct (Z.eqb_spec moment (previous + minute_us)) as [->|Hne].
  - destruct (IH start (previous + minute_us)) as [IH1 IH2];
      [unfold minute_us, second_us in *; lia..|done|done|].
    assert (∀ x, ahead start (previous + minute_us) l x ↔ ahead start previous (previous + minute_us :: l) x)
      as Heq.
    { intros x. unfold ahead. rewrite elem_of_cons. unfold minute_us, second_us in *. split.
      - intros [[??]|?]; [|auto]. destruct (decide (x = previous + 60 * 1000000)); [auto|left; split; lia].
      - intros [[??]|[->|?]]; [left; split; lia|left; split; lia|auto]. }
    split; [|intros x Hx%Heq; by apply IH2].
    eapply Forall_impl; [exact IH1|]. intros g (Hg1 & Hg2 & Hg3 & Hg4).
    split; [done|]. split; [done|]. split; [intros i Hi; by apply Heq, Hg3|]. by rewrite <- Heq.
  - destruct (IH moment moment) as [IH1 IH2];
      [lia|by rewrite Z.sub_diag|done| |].
    { eapply Forall_impl; [exact Hl'|]. cbn. intros x [Hx1 Hx2]. unfold minute_us, second_us in *. lia. }
    assert (∀ x, ahead moment moment l x ↔ x ∈ moment :: l) as Heq.
    { intros x. unfold ahead. rewrite elem_of_cons. split.
      - intros [[? _]|?]; [left; lia|auto].
      - intros [->|?]; [left; rewrite Z.sub_diag; split; [lia|done]|auto]. }
    split.
    + constructor.
      * apply gap_of_is_gap; [done..|]. apply not_elem_of_cons. split; [done|]. intros Hin.
        rewrite Forall_forall in Hl'. destruct (Hl' _ Hin). unfold minute_us, second_us in *. lia.
      * rewrite Forall_forall in IH1 |- *. intros g Hg. destruct (IH1 g Hg) as (Hg1 & Hg2 & Hg3 & Hg4).
        split; [done|]. split; [done|]. split; [intros i Hi; right; by apply Heq, Hg3|].
        intros [Hbad|Hbad]; [|by apply Hg4, Heq].
        assert (moment <= g_start g); [|unfold minute_us, second_us in *; lia].
        pose proof (Hg3 0 ltac:(lia)) as [?|Hin]; [lia|]. rewrite Forall_forall in Hl'.
        destruct (Hl' _ Hin). lia.
    + intros x [Hx|Hx%Heq].
      * exists (gap_of start previous). split; [apply elem_of_cons; by left|]. cbn.
        unfold minute_us, second_us in *. lia.
      * destruct (IH2 x Hx) as (g & Hg & Hin). exists g. split; [apply elem_of_cons; by right|done].
Qed.

(** The gaps cover the missing moments by maximal runs. *)
Lemma gap_ranges_spec base l :
  on_minutes base l →
  Forall (is_gap (.∈ l)) (gap_ranges l)
  ∧ ∀ x, x ∈ l → ∃ g, g ∈ gap_ranges l ∧ g_start g <= x < g_end g ∧ (x - g_start g) mod minute_us = 0.
Proof.
  intros [Hs Hl]. destruct l as [|m l]; [by split; [constructor|intros x []%elem_of_nil]|].
  apply StronglySorted_inv in Hs as [Hs Hlm]. apply Forall_cons in Hl as [Hm Hl].
  destruct (gap_loop_spec l m m) as [H1 H2]; [lia|by rewrite Z.sub_diag|done| |].
  { apply Forall_and. split; [done|]. eapply Forall_impl; [exact Hl|]. cbn. intros x Hx.
    unfold minute_us, second_us in *. lia. }
  assert (∀ x, ahead m m l x ↔ x ∈ m :: l) as Heq.
  { intros x. unfold ahead. rewrite elem_of_cons. split.
    - intros [[? _]|?]; [left; lia|auto].
    - intros [->|?]; [left; rewrite Z.sub_diag; split; [lia|done]|auto]. }
  cbn [gap_ranges]. split; [|intros x Hx%Heq; by apply H2].
  eapply Forall_impl; [exact H1|]. intros g (Hg1 & Hg2 & Hg3 & Hg4).
  split; [done|]. split; [done|]. split; [intros i Hi; by apply Heq, Hg3|]. by rewrite <- Heq.
Qed.

Lemma fold_max_spec l a :
  (∀ x, x ∈ a :: l → x <= fold_left Z.max l a) ∧ fold_left Z.max l a ∈ a :: l.
Proof.
  revert a. induction l as [|b l IH]; intros a; cbn [fold_left].
  - split; [intros x ->%list_elem_of_singleton; lia|apply elem_of_cons; by left].
  - destruct (IH (Z.max a b)) as [H1 H2]. split.
    + intros x [->|[->|Hx]%elem_of_cons]%elem_of_cons.
      1,2: transitivity (Z.max a b); [lia|apply H1; set_solver].
      apply H1. set_solver.
    + apply elem_of_cons in H2 as [->|]; [|set_solver]. destruct (Z.max_spec a b) as [[_ ->]|[_ ->]]; set_solver.
Qed.
Lemma max_minutes_spec l :
  (∀ g, g ∈ l → g_minutes g <= max_minutes l) ∧ (l ≠ [] → ∃ g, g ∈ l ∧ g_minutes g = max_minutes l).
Proof.
  destruct l as [|g l]; [by split; [intros g []%elem_of_nil|]|]. cbn [max_minutes].
  destruct (fold_max_spec (map g_minutes l) (g_minutes g)) as [H1 H2]. split.
  - intros h Hh. apply H1. change (g_minutes h ∈ map g_minutes (g :: l)).
    apply list_elem_of_fmap. by exists h.
  - intros _. change (fold_left Z.max (map g_minutes l) (g_minutes g) ∈ map g_minutes (g :: l)) in H2.
    apply list_elem_of_fmap in H2 as (h & -> & Hh). by exists h.
Qed.

(** [n] consecutive minutes from [t] on, all in [l]. *)
Definition run_of (P : Z → Prop) (t n : Z) : Prop := ∀ i, 0 <= i < n → P (t + i * minute_us).

(** The reference definition of the longest gap. *)
Lemma max_gap_is_longest base l n :
  on_minutes base l → 0 <= n →
  (∃ t, run_of (.∈ l) t n) ↔ n <= max_minutes (gap_ranges l).
Proof.
  intros Hl Hn. destruct (gap_ranges_spec base l Hl) as [Hg Hcover]. rewrite Forall_forall in Hg.
  destruct (max_minutes_spec (gap_ranges l)) as [Hmax Hex]. split.
  - intros [t Hrun]. destruct (decide (n = 0)) as [->|Hn0].
    { destruct (gap_ranges l) as [|g r] eqn:Hr; [done|].
      pose proof (Hmax g ltac:(set_solver)). destruct (Hg g) as (_ & ? & _); [set_solver|]. lia. }
    destruct (Hcover t) as (g & Hgin & Ht & Hal).
    { replace t with (t + 0 * minute_us) by lia. apply Hrun. lia. }
    destruct (Hg g Hgin) as (Hend & Hone & _ & Hout).
    assert (∀ k, 0 <= k < n → t + k * minute_us < g_end g) as Hin.
    { intros k [Hk0 Hkn]. revert k Hk0 Hkn. apply (natlike_ind (λ k, k < n → t + k * minute_us < g_end g)).
      - intros _. lia.
      - intros k Hk IHk Hlt. specialize (IHk ltac:(lia)).
        assert (t + Z.succ k * minute_us ≠ g_end g) as Hne.
        { intros Heq. apply Hout. rewrite <- Heq. apply Hrun. lia. }
        unfold minute_us, second_us in *. lia. }
    specialize (Hin (n - 1) ltac:(lia)). specialize (Hmax g Hgin).
    unfold minute_us, second_us in *. lia.
  - intros Hle. destruct (decide (n = 0)) as [->|Hn0]; [exists 0; intros i Hi; lia|].
    destruct Hex as (g & Hgin & Hgm).
    { intros Hnil. rewrite Hnil in Hle. cbn in Hle. lia. }
    exists (g_start g). intros i Hi. apply (Hg g Hgin). lia.
Qed.

(** ** The minutes of a period *)

Lemma minutes_from_spec fuel moment end_ :
  (end_ - moment) / minute_us < Z.of_nat fuel →
  on_minutes moment (minutes_from fuel moment end_)
  ∧ ∀ t, t ∈ minutes_from fuel moment end_ ↔ moment <= t < end_ ∧ (t - moment) mod minute_us = 0.
Proof.
  revert moment. induction fuel as [|fuel IH]; intros moment Hf; cbn [minutes_from].
  { split; [by split; constructor|]. intros t. rewrite elem_of_nil. unfold minute_us, second_us in *.
    split; [done|lia]. }
  destruct (Z.ltb_spec moment end_) as [Hlt|Hge].
  2: { split; [by split; constructor|]. intros t. rewrite elem_of_nil. split; [done|lia]. }
  destruct (IH (moment + minute_us)) as [[Hs Hall] Hin]; [unfold minute_us, second_us in *; lia|].
  split.
  - split.
    + constructor; [done|]. apply Forall_forall. intros t Ht%Hin. unfold minute_us, second_us in *. lia.
    + constructor; [by rewrite Z.sub_diag|]. eapply Forall_impl; [exact Hall|]. cbn. intros t.
      unfold minute_us, second_us in *. lia.
  - intros t. rewrite elem_of_cons, Hin. unfold minute_us, second_us in *. split.
    + intros [->|?]; [rewrite Z.sub_diag|]; lia.
    + intros [? ?]. destruct (decide (t = moment)); [auto|right; lia].
Qed.

Lemma Forall_of_filter {A} (Q P : A → Prop) `{∀ t, Decision (P t)} l :
  Forall Q l → Forall Q (filter P l).
Proof. rewrite !Forall_forall. intros Hl x [_ Hx]%list_elem_of_filter. auto. Qed.

Lemma on_minutes_filter base l (P : Z → Prop) `{∀ t, Decision (P t)} :
  on_minutes base l → on_minutes base (filter P l).
Proof.
  intros [Hs Hl]. split.
  - clear Hl. induction Hs as [|t l Hs IH Ht]; [constructor|]. rewrite filter_cons.
    case_decide; [|done]. constructor; [done|]. by apply Forall_of_filter.
  - by apply Forall_of_filter.
Qed.

Lemma whole_minute_floor t : whole_minute t = true → floor_minute t = t ∧ t mod minute_us = 0.
Proof.
  unfold whole_minute, floor_minute, dt_second, dt_micro, minute_us, second_us.
  rewrite andb_true_iff, !Z.eqb_eq. lia.
Qed.

Lemma iter_minutes_spec start end_ :
  whole_minute start = true →
  on_minutes start (iter_minutes start end_)
  ∧ ∀ t, t ∈ iter_minutes start end_ ↔ start <= t < end_ ∧ t mod minute_us = 0.
Proof.
  intros [Hf Hm]%whole_minute_floor. unfold iter_minutes. rewrite Hf.
  destruct (decide (end_ < start)) as [Hlt|Hge].
  - replace (Z.to_nat _) with 0%nat by (unfold minute_us, second_us in *; lia).
    split; [by split; constructor|]. intros t. rewrite elem_of_nil. split; [done|lia].
  - destruct (minutes_from_spec (Z.to_nat ((end_ - start) / minute_us + 1)) start end_) as [Ho Hin];
      [unfold minute_us, second_us in *; lia|].
    split; [done|]. intros t. rewrite Hin. unfold minute_us, second_us in *. split; lia.
Qed.

Lemma minutes_from_count fuel moment end_ :
  (end_ - moment) / minute_us < Z.of_nat fuel → moment <= end_ → (end_ - moment) mod minute_us = 0 →
  count (minutes_from fuel moment end_) = (end_ - moment) / minute_us.
Proof.
  revert moment. induction fuel as [|fuel IH]; intros moment Hf Hle Hm; cbn [minutes_from].
  { unfold count, minute_us, second_us in *. cbn. lia. }
  destruct (Z.ltb_spec moment end_) as [Hlt|Hge].
  - specialize (IH (moment + minute_us)). unfold count in *. cbn [length]. rewrite Nat2Z.inj_succ, IH;
      unfold minute_us, second_us in *; lia.
  - unfold count, minute_us, second_us in *. cbn. lia.
Qed.
Lemma iter_minutes_count start end_ :
  whole_minute start = true → whole_minute end_ = true → start <= end_ →
  count (iter_minutes start end_) = (end_ - start) / minute_us.
Proof.
  intros [Hf Hm]%whole_minute_floor [_ Hm']%whole_minute_floor Hle. unfold iter_minutes. rewrite Hf.
  apply minutes_from_count; unfold minute_us, second_us in *; lia.
Qed.
