(* ===== verification/CanaryReportFacts.v ===== *)
(** * What a report of the canary says about the evidence *)
From S2P Require Import Prelude PyFloat PyValue PyTime PyDateTime PyPath PyJson PyEffect PerfStatistics Canary CanaryFlow.
From S2P Require Import CanarySample CanaryReport CanaryGaps.
#[local] Open Scope Z_scope.

(** ** Samples by what is on disk *)

Definition scheduled (sample : pydict) : res Z :=
  raw ← item sample "scheduled_minute"; parse_time (py_str raw).

(** The six steps in order, and no secret material. *)
Definition contract (sample : pydict) : Prop :=
  ∃ names, step_names sample = Ok names ∧ are_required names = true
  ∧ get sample "secret_material_recorded" = PBool false.

(** A file at [p] holds a valid sample of the minute [t]. *)
Definition valid_at (store : list (path * cnode)) (p : path) (t : Z) (sample : pydict) : Prop :=
  node_json p (find_node p store) = Ok sample ∧ scheduled sample = Ok t ∧ contract sample.
Definition sample_at (root : path) (store : list (path * cnode)) (t : Z) (sample : pydict) : Prop :=
  ∃ p, p ∈ sample_paths root store ∧ valid_at store p t sample.

Lemma insert_path_elem p l x : x ∈ insert_path p l ↔ x = p ∨ x ∈ l.
Proof.
  induction l as [|q l IH]; cbn [insert_path]; [set_solver|].
  case_match; set_solver.
Qed.
Lemma sorted_paths_elem l x : x ∈ sorted_paths l ↔ x ∈ l.
Proof.
  unfold sorted_paths. transitivity (x ∈ l ∨ x ∈ []); [|set_solver]. generalize (@nil path) as acc.
  induction l as [|p l IH]; intros acc; cbn [fold_left]; [set_solver|].
  rewrite IH, insert_path_elem. set_solver.
Qed.

Lemma has_minute_spec t m : has_minute t m = true ↔ ∃ sample, (t, sample) ∈ m.
Proof.
  unfold has_minute. rewrite existsb_exists. split.
  - intros ([u sample] & Hin & Hu%Z.eqb_eq). cbn in Hu. subst. exists sample. by apply list_elem_of_In.
  - intros [sample Hin%list_elem_of_In]. exists (t, sample). split; [done|]. apply Z.eqb_refl.
Qed.

(** *** The body of the loop *)

Section collect.
Variables (start end_ : Z) (store : list (path * cnode)).

Lemma judge_cases m p v :
  judge start end_ m p (find_node p store) = Ok v →
  match v with
  | VSkip => ∃ sample t, node_json p (find_node p store) = Ok sample ∧ scheduled sample = Ok t
               ∧ ¬ (start <= t < end_)
  | VAccept t sample => start <= t < end_ ∧ has_minute t m = false ∧ valid_at store p t sample
  | VInvalid _ => ∀ t sample, valid_at store p t sample → start <= t < end_ ∧ has_minute t m = true
  end.
Proof.
  unfold judge, judge_body, valid_at, scheduled.
  destruct (node_json p _) as [sample|e] eqn:Hn; cbn [mbind res_bind]; [|repeat case_match; naive_solver].
  destruct (item sample _) as [raw|e] eqn:Hraw; cbn [mbind res_bind].
  2: { intros Hv. repeat case_match; simplify_eq. all: intros t smp (? & Hs & _); simplify_eq; rewrite Hraw in Hs; done. }
  destruct (parse_time _) as [t|e] eqn:Ht; cbn [mbind res_bind].
  2: { intros Hv. repeat case_match; simplify_eq. all: intros t smp (? & Hs & _); simplify_eq;
         rewrite Hraw in Hs; cbn [mbind res_bind] in Hs; congruence. }
  destruct ((start <=? t) && (t <? end_)) eqn:Hr; cbn [negb].
  2: { intros [= <-]. exists sample, t. rewrite Hraw. cbn. split; [done|]. split; [done|].
       apply andb_false_iff in Hr as [?|?]; lia. }
  apply andb_true_iff in Hr as [Hr1%Z.leb_le Hr2%Z.ltb_lt].
  destruct (has_minute t m) eqn:Hm.
  { intros [= <-] u smp (Hn' & Hs & _). simplify_eq. rewrite Hraw in Hs. cbn [mbind res_bind] in Hs.
    rewrite Ht in Hs. by injection Hs as <-. }
  destruct (step_names sample) as [names|e] eqn:Hnm; cbn [mbind res_bind].
  2: { intros Hv. repeat case_match; simplify_eq. all: intros u smp (? & _ & nm & Hc & _); simplify_eq; congruence. }
  destruct (are_required names) eqn:Hreq; cbn [negb orb].
  2: { intros [= <-] u smp (? & _ & nm & Hc & Hc2 & _). simplify_eq. congruence. }
  destruct (not_false sample _) eqn:Hsec.
  - intros [= <-] u smp (? & _ & nm & _ & _ & Hc). simplify_eq. unfold not_false in Hsec. by rewrite Hc in Hsec.
  - intros [= <-]. split; [done|]. split; [done|]. split; [done|]. rewrite Hraw. split; [done|].
    exists names. split; [done|]. split; [done|]. apply is_false_spec. unfold not_false in Hsec.
    by apply negb_false_iff in Hsec.
Qed.

(** What the loop has collected. *)
Lemma collect_spec l m invalid m' invalid' :
  collect start end_ store l m invalid = Ok (m', invalid') →
  NoDup (map fst m) →
  NoDup (map fst m')
  ∧ (∀ t sample, (t, sample) ∈ m' →
       (t, sample) ∈ m ∨ start <= t < end_ ∧ ∃ p, p ∈ l ∧ valid_at store p t sample)
  ∧ (∀ x, x ∈ m → x ∈ m')
  ∧ (∀ p t sample, p ∈ l → valid_at store p t sample → start <= t < end_ → has_minute t m' = true)
  ∧ (invalid' = [] → invalid = [] ∧ ∀ p, p ∈ l → ∃ sample t,
       node_json p (find_node p store) = Ok sample ∧ scheduled sample = Ok t
       ∧ (start <= t < end_ → contract sample ∧ (t, sample) ∈ m')).
Proof.
  revert m invalid. induction l as [|p l IH]; intros m invalid Hc Hnd.
  { injection Hc as -> ->. split; [done|]. split; [auto|]. split; [auto|].
    split; [by intros p t smp []%elem_of_nil|]. intros ->. split; [done|]. by intros p []%elem_of_nil. }
  cbn [collect] in Hc. destruct (judge start end_ m p (find_node p store)) as [v|] eqn:Hj; [|done].
  cbn [mbind res_bind] in Hc. pose proof (judge_cases _ _ _ Hj) as Hv.
  destruct v as [|reason|t sample].
  - destruct (IH _ _ Hc Hnd) as (H1 & H2 & H3 & H4 & H5). split; [done|].
    split; [intros t smp Ht; destruct (H2 _ _ Ht) as [?|(? & q & ? & ?)]; [auto|right; set_solver]|].
    split; [done|]. destruct Hv as (sample & t & Hn & Hs & Hout). split.
    + intros q u smp [->|Hq]%elem_of_cons Hval Hu; [|by eapply H4].
      destruct Hval as (Hn' & Hs' & _). rewrite Hn in Hn'. injection Hn' as <-.
      rewrite Hs in Hs'. injection Hs' as <-. by destruct (Hout Hu).
    + intros Hi. destruct (H5 Hi) as [Hinv H6]. split; [done|]. intros q [->|Hq]%elem_of_cons; [|auto].
      exists sample, t. tauto.
  - destruct (IH _ _ Hc Hnd) as (H1 & H2 & H3 & H4 & H5). split; [done|].
    split; [intros t smp Ht; destruct (H2 _ _ Ht) as [?|(? & q & ? & ?)]; [auto|right; set_solver]|].
    split; [done|]. split.
    + intros q u smp [->|Hq]%elem_of_cons Hval Hu; [|by eapply H4].
      destruct (Hv _ _ Hval) as [_ [smp' Hm]%has_minute_spec]. apply has_minute_spec. eauto.
    + intros Hi. destruct (H5 Hi) as [Hinv _]. by destruct invalid.
  - destruct Hv as (Hr & Hm & Hval). assert (NoDup (map fst (m ++ [(t, sample)]))) as Hnd'.
    { rewrite map_app. apply NoDup_app. split; [done|]. split; [|apply NoDup_singleton].
      intros u Hu. cbn. intros ->%list_elem_of_singleton. apply list_elem_of_fmap in Hu as ([? smp] & -> & Hu).
      apply not_true_iff_false in Hm. apply Hm, has_minute_spec. by exists smp. }
    destruct (IH _ _ Hc Hnd') as (H1 & H2 & H3 & H4 & H5). split; [done|].
    assert ((t, sample) ∈ m') as Hin by (apply H3; set_solver).
    split.
    { intros u smp Hu. destruct (H2 _ _ Hu) as [[?|[= -> ->]%list_elem_of_singleton]%elem_of_app|(? & q & ? & ?)];
        [auto|right; set_solver..]. }
    split; [intros x Hx; apply H3; set_solver|]. split.
    + intros q u smp [->|Hq]%elem_of_cons Hval' Hu; [|by eapply H4].
      destruct Hval as (Hn & Hs & _), Hval' as (Hn' & Hs' & _). rewrite Hn in Hn'. injection Hn' as <-.
      rewrite Hs in Hs'. injection Hs' as <-. apply has_minute_spec. eauto.
    + intros Hi. destruct (H5 Hi) as [Hinv H6]. split; [done|]. intros q [->|Hq]%elem_of_cons; [|auto].
      exists sample, t. destruct Hval as (? & ? & ?). auto.
Qed.
End collect.

(** ** Reports *)

Lemma and_iff_compat_l_iff (A B C : Prop) : (A → B ↔ C) → A ∧ B ↔ A ∧ C.
Proof. tauto. Qed.
Lemma NoDup_fst_unique {A B} (m : list (A * B)) t x y :
  NoDup (map fst m) → (t, x) ∈ m → (t, y) ∈ m → x = y.
Proof.
  induction m as [|[u z] m IH]; cbn [map fst]; [by intros _ []%elem_of_nil|].
  intros [Hu Hm]%NoDup_cons [Hx|Hx]%elem_of_cons [Hy|Hy]%elem_of_cons; simplify_eq; [done| | |auto];
    destruct Hu; apply list_elem_of_fmap; eexists (_, _); eauto.
Qed.
Lemma NoDup_fst_filter {A B} (m : list (A * B)) (P : A * B → Prop) `{∀ x, Decision (P x)} :
  NoDup (map fst m) → NoDup (map fst (filter P m)).
Proof.
  induction m as [|x m IH]; [done|]. cbn [map]. intros [Hx Hm]%NoDup_cons. rewrite filter_cons.
  case_decide; [|auto]. cbn [map]. apply NoDup_cons. split; [|auto].
  intros (y & Hxy & [_ Hy]%list_elem_of_filter)%list_elem_of_fmap. destruct Hx.
  apply list_elem_of_fmap. by exists y.
Qed.

Lemma aggregate_inv root start end_ windows s r (Q : Prop) :
  (∀ m invalid endpoints latencies,
     whole_minute start = true → whole_minute end_ = true → start < end_ →
     collect start end_ (c_store s) (sorted_paths (sample_paths root (c_store s))) [] []
     = Ok (m, invalid) →
     endpoint_set [] (map snd m) = Ok endpoints →
     r = make_report start end_ windows m invalid endpoints latencies → Q) →
  (guard_ce (negb (whole_minute start) || negb (whole_minute end_) || (end_ <=? start))
     "aggregation bounds must be distinct whole UTC minutes";;
   '(m, invalid) ← collect start end_ (c_store s) (sorted_paths (sample_paths root (c_store s))) [] [];
   endpoints ← endpoint_set [] (map snd m);
   latencies ← mapM (latency_summary (map snd m)) REQUIRED_STEPS;
   Ok (make_report start end_ windows m invalid endpoints latencies)) = Ok r → Q.
Proof.
  intros HQ Hr. apply res_bind_ok in Hr as ([] & Hg%guard_cls_ok & Hr).
  apply orb_false_iff in Hg as [[H1%negb_false_iff H2%negb_false_iff]%orb_false_iff H3%Z.leb_gt].
  destruct (collect _ _ _ _ _ _) as [[m invalid]|] eqn:Hc; [|done]. cbn [mbind res_bind] in Hr.
  destruct (endpoint_set [] (map snd m)) as [endpoints|] eqn:He; [|done]. cbn [mbind res_bind] in Hr.
  destruct (mapM _ _) as [latencies|]; [|done]. injection Hr as <-. by eapply HQ.
Qed.

Lemma recorded_iff root start end_ store m invalid t :
  collect start end_ store (sorted_paths (sample_paths root store)) [] [] = Ok (m, invalid) →
  start <= t < end_ →
  has_minute t m = true ↔ ∃ sample, sample_at root store t sample.
Proof.
  intros Hc Ht. destruct (collect_spec _ _ _ _ _ _ _ _ Hc NoDup_nil_2) as (_ & H2 & _ & H4 & _).
  split.
  - intros [sample Hin]%has_minute_spec. destruct (H2 _ _ Hin) as [[]%elem_of_nil|(_ & p & Hp & Hv)].
    exists sample, p. by rewrite sorted_paths_elem in Hp.
  - intros (sample & p & Hp & Hv). eapply H4; [|exact Hv|done]. by rewrite sorted_paths_elem.
Qed.

(** A whole minute of the period without a sample. *)
Definition unrecorded (root : path) (start end_ : Z) (store : list (path * cnode)) (t : Z) : Prop :=
  (start <= t < end_ ∧ t mod minute_us = 0) ∧ ¬ ∃ sample, sample_at root store t sample.

Lemma missing_elem root start end_ store m invalid t :
  whole_minute start = true →
  collect start end_ store (sorted_paths (sample_paths root store)) [] [] = Ok (m, invalid) →
  t ∈ filter (λ t, has_minute t m = false) (iter_minutes start end_)
  ↔ unrecorded root start end_ store t.
Proof.
  intros Hs Hc. rewrite list_elem_of_filter, (proj2 (iter_minutes_spec start end_ Hs)).
  unfold unrecorded. rewrite (comm and). apply and_iff_compat_l_iff. intros [Ht _].
  rewrite <- (recorded_iff _ _ _ _ _ _ _ Hc Ht). by rewrite not_true_iff_false.
Qed.

Lemma run_of_iff (P Q : Z → Prop) : (∀ t, P t ↔ Q t) → ∀ n, (∃ t, run_of P t n) ↔ ∃ t, run_of Q t n.
Proof. intros HPQ n. unfold run_of. split; intros [t Ht]; exists t; intros i Hi; by apply HPQ, Ht. Qed.

(** C32: The longest gap of a report is exactly the longest run of consecutive
    whole minutes of the period for which no evidence file holds a valid sample;
    the longest gap outside maintenance is the longest run of such minutes that no
    approved maintenance window contains.  Reporting changes no evidence. *)
Theorem longest_gap_exact root start end_ windows s :
  wp (aggregate_samples root start end_ windows)
    (λ r s', s' = s ∧ ∀ n, 0 <= n →
       ((∃ t, run_of (unrecorded root start end_ (c_store s)) t n) ↔ n <= rp_max_gap_minutes r)
       ∧ ((∃ t, run_of (λ t, in_maintenance windows t = false
                              ∧ unrecorded root start end_ (c_store s) t) t n)
          ↔ n <= rp_max_nonmaintenance_gap_minutes r))
    (λ _ s', s' = s) (λ _, False) s.
Proof.
  apply wp_read; [|done]. intros r Hr. eapply aggregate_inv; [|exact Hr]. clear Hr.
  intros m invalid endpoints latencies Hs He Hlt Hc _ ->. split; [done|]. intros n Hn.
  cbn [rp_max_gap_minutes rp_max_nonmaintenance_gap_minutes make_report].
  destruct (iter_minutes_spec start end_ Hs) as [Hon _]. split.
  - rewrite <- (max_gap_is_longest start); [|by apply on_minutes_filter|done].
    apply run_of_iff. intros t. by rewrite (missing_elem _ _ _ _ _ _ _ Hs Hc).
  - rewrite <- (max_gap_is_longest start); [|by do 2 apply on_minutes_filter|done].
    apply run_of_iff. intros t. by rewrite list_elem_of_filter, (missing_elem _ _ _ _ _ _ _ Hs Hc).
Qed.

(** *** A passing report *)

(** The float quotient of 72 hours passes from 4316 minutes on. *)
Lemma rate_72h_table :
  forallb (λ k, negb (fleb f_999 (rate (Z.of_nat k) 4320))) (seq 0 (Z.to_nat 4316)) = true.
Proof. vm_compute. reflexivity. Qed.
Lemma rate_72h n : 0 <= n → fleb f_999 (rate n 4320) = true → 4316 <= n.
Proof.
  intros Hn Hf. destruct (decide (4316 <= n)) as [|Hlt]; [done|exfalso].
  pose proof rate_72h_table as Ht. rewrite forallb_forall in Ht.
  assert (In (Z.to_nat n) (seq 0 (Z.to_nat 4316))) as Hin by (apply in_seq; lia).
  specialize (Ht _ Hin). cbn beta in Ht. by rewrite Z2Nat.id, Hf in Ht by lia.
Qed.

Lemma endpoint_set_spec l acc v :
  endpoint_set acc l = Ok [v] →
  Forall (λ sample, py_eqb (get sample "endpoint") v = true ∨ get sample "endpoint" = v) l
  ∧ (∀ x, x ∈ acc → x = v).
Proof.
  revert acc. induction l as [|sample l IH]; intros acc; cbn [endpoint_set].
  { intros [= ->]. split; [constructor|]. by intros x ->%list_elem_of_singleton. }
  assert (∀ w, get sample "endpoint" = w →
            endpoint_set (if py_in w acc then acc else acc ++ [w]) l = Ok [v] →
            Forall (λ sample, py_eqb (get sample "endpoint") v = true ∨ get sample "endpoint" = v)
              (sample :: l) ∧ (∀ x, x ∈ acc → x = v)) as Hstep.
  { intros w Hw Hset. destruct (py_in w acc) eqn:Hin.
    - destruct (IH _ Hset) as [H1 H2]. split; [|done]. constructor; [|done]. left. rewrite Hw.
      unfold py_in in Hin. apply existsb_exists in Hin as (x & Hx%list_elem_of_In & Heq).
      by rewrite <- (H2 x Hx).
    - destruct (IH _ Hset) as [H1 H2]. split; [|set_solver]. constructor; [|done]. right. rewrite Hw.
      apply H2. set_solver. }
  destruct (get sample "endpoint") eqn:Hw; try done; by apply Hstep.
Qed.

Lemma one_text {A} (f : A → string) l :
  count (remove_dups (map f l)) = 1 → ∀ x y, x ∈ l → y ∈ l → f x = f y.
Proof.
  unfold count. intros Hc x y Hx Hy.
  assert (f x ∈ remove_dups (map f l) ∧ f y ∈ remove_dups (map f l)) as [Hfx Hfy].
  { rewrite !elem_of_remove_dups. split; apply list_elem_of_fmap; eauto. }
  destruct (remove_dups (map f l)) as [|a [|b r]]; cbn in Hc; [set_solver| |lia].
  apply list_elem_of_singleton in Hfx, Hfy. congruence.
Qed.

