(* ===== verification/CanaryWatchdogFacts.v ===== *)
(** * The watchdog: every verdict has its reason and its alert *)
From S2P Require Import Prelude PyFloat PyValue PyTime PyDateTime PyPath PyJson PyEffect Canary CanaryFlow.
From S2P Require Import CanarySample CanaryReport CanaryWatchdog CanaryStoreFacts.
#[local] Open Scope Z_scope.

(** ** Names of evidence files *)

Fixpoint last_char (s : string) : option ascii :=
  match s with
  | EmptyString => None
  | String a EmptyString => Some a
  | String _ r => last_char r
  end.
Lemma last_char_app a b : b ≠ "" → last_char (a +:+ b) = last_char b.
Proof.
  intros Hb. induction a as [|c a IH]; [done|]. change (String c a +:+ b) with (String c (a +:+ b)).
  rewrite <- IH. cbn [last_char]. destruct (a +:+ b) eqn:Hab; [|done].
  destruct a; [by change ("" +:+ b) with b in Hab|done].
Qed.
Lemma json_not_staging root l name : ¬ staging (under root (l ++ [name +:+ ".json"])).
Proof.
  intros (parent & token & Heq). unfold under, p_join in Heq. injection Heq as _ Heq.
  rewrite app_assoc in Heq. apply app_inj_tail in Heq as [_ Heq].
  apply (f_equal last_char) in Heq. rewrite !last_char_app in Heq by (by destruct token || done).
  done.
Qed.
Lemma incident_not_staging root name : ¬ staging (incident_path root name).
Proof. apply (json_not_staging root ["incidents"]). Qed.

Section evidence.
Context `{CanaryRuntime}.

Lemma wp_evidence_write s0 s p v (Q : unit → cstate → Prop) :
  evidence_kept s0 s → ¬ staging p →
  (∀ s', evidence_kept s0 s' → find_node p (c_store s') = Some (NDoc (jsort v)) →
     find_node p (c_store s) = None → c_requests s' = c_requests s → c_calls s' = c_calls s →
     grows p v s s' → Q () s') →
  wp (write_create_only p v) Q (λ _, evidence_kept s0) (evidence_kept s0) s.
Proof.
  intros Hk Hst HQ. eapply wp_mono; [apply write_create_only_grows|..].
  - intros [] s' (Hg & Hnone & Hfound). pose proof Hg as (Hk' & _ & Hc & Hr).
    apply HQ; try done; [by eapply kept_trans|]. by destruct Hfound.
  - intros e s' (Hk' & _). by eapply kept_trans.
  - intros s' (Hk' & _). by eapply kept_trans.
Qed.

(** An alert that was sent, with what came of it. *)
Definition post_sent (config : CanaryConfig) (alertname : string) (c : candidate) (observed : Z)
    (s : cstate) : Prop :=
  ∃ url summary, validate_alertmanager_url (cc_alertmanager_url config) = Ok url
  ∧ HttpRequest "POST" url (alert_body alertname c (endpoint config) summary observed) ∈ c_requests s.

Lemma wp_deliver config alertname c summary observed s0 s (Q : http_outcome → cstate → Prop) :
  evidence_kept s0 s →
  (∀ o s', evidence_kept s0 s' → post_sent config alertname c observed s' → c_store s' = c_store s →
     (∀ x, x ∈ c_requests s → x ∈ c_requests s') → Q o s') →
  wp (deliver_alert (cc_alertmanager_url config) alertname c (endpoint config) summary observed)
    Q (λ _, evidence_kept s0) (evidence_kept s0) s.
Proof.
  intros Hk HQ. apply wp_bind, wp_lift; [|done]. intros url Hurl.
  apply wp_bind, wp_lift; [|done]. intros t _. unfold wp, send_request.
  destruct (outcome_of (ct_http (c_tick s))) as [o|e|] eqn:Ho; [|done|done].
  apply HQ; [done| |done|cbn; set_solver]. exists url, summary. split; [done|]. cbn. set_solver.
Qed.

Lemma wp_candidate p s0 s (Q : candidate → cstate → Prop) :
  evidence_kept s0 s → (∀ c, Q c s) → wp (candidate_from_record p) Q (λ _, evidence_kept s0) (evidence_kept s0) s.
Proof.
  intros Hk HQ. apply wp_bind, wp_read; [|done]. intros record _. by apply wp_lift; [|done].
Qed.

(** The alert was sent and its incident is on disk. *)
Definition alert_recorded (config : CanaryConfig) (root : path) (alertname : string) (observed : Z)
    (delivered : bool) (s : cstate) : Prop :=
  ∃ c o name doc, post_sent config alertname c observed s ∧ ho_ok o = delivered
  ∧ find_node (incident_path root name) (c_store s) = Some (NDoc (jsort (PDict doc)))
  ∧ get doc "alertmanager_delivery" = delivery_py o.

Lemma wp_alert_incident config root alertname summary observed c name (doc : http_outcome → pydict)
    s0 s {A} (k : http_outcome → CM A) (Q : A → cstate → Prop) :
  evidence_kept s0 s → (∀ o, get (doc o) "alertmanager_delivery" = delivery_py o) →
  (∀ o s', evidence_kept s0 s' → alert_recorded config root alertname observed (ho_ok o) s' →
     (∀ x, x ∈ c_requests s → x ∈ c_requests s') →
     wp (k o) Q (λ _, evidence_kept s0) (evidence_kept s0) s') →
  wp (o ← deliver_alert (cc_alertmanager_url config) alertname c (endpoint config) summary observed;
      write_create_only (incident_path root name) (PDict (doc o));; k o)
    Q (λ _, evidence_kept s0) (evidence_kept s0) s.
Proof.
  intros Hk Hdoc HQ. apply wp_bind, wp_deliver; [done|]. intros o s1 Hk1 Hpost _ Hsub.
  apply wp_bind, wp_evidence_write; [done|apply incident_not_staging|].
  intros s2 Hk2 Hfound _ Hreq _ _. apply HQ; [done| |by rewrite Hreq]. exists c, o, name, (doc o).
  split; [|done]. unfold post_sent in *. by rewrite Hreq.
Qed.
End evidence.

Lemma latest_of_max l o : latest_of l = Some o → o ∈ l ∧ ∀ x, x ∈ l → ob_at x <= ob_at o.
Proof.
  destruct l as [|y l]; [done|]. intros [= <-]. revert y.
  induction l as [|z l IH]; intros y; cbn [fold_left].
  - split; [set_solver|]. by intros x ->%list_elem_of_singleton.
  - destruct (IH (if ob_at y <? ob_at z then z else y)) as [H1 H2].
    destruct (Z.ltb_spec (ob_at y) (ob_at z)).
    + split; [set_solver|]. intros x [->|Hx]%elem_of_cons; [|by apply H2].
      transitivity (ob_at z); [lia|]. apply H2. set_solver.
    + split; [set_solver|]. intros x [->|[->|Hx]%elem_of_cons]%elem_of_cons; [apply H2; set_solver| |].
      * transitivity (ob_at y); [lia|]. apply H2. set_solver.
      * apply H2. set_solver.
Qed.
Lemma latest_of_None l : latest_of l = None → l = [].
Proof. by destruct l. Qed.

Lemma observations_elem store l samples o :
  observations store l = Ok samples → o ∈ samples ↔ ∃ p, p ∈ l ∧ observe store p = Ok o.
Proof.
  revert samples. induction l as [|p l IH]; intros samples; cbn [observations].
  { intros [= <-]. set_solver. }
  destruct (observe store p) as [x|e] eqn:Hp.
  - destruct (observations store l) as [r|] eqn:Hl; [|done]. intros [= <-].
    rewrite elem_of_cons, (IH r eq_refl). split.
    + intros [->|(q & Hq & Ho)]; [|set_solver]. exists p. set_solver.
    + intros (q & [->|Hq]%elem_of_cons & Ho); [left; congruence|eauto].
  - destruct (skipped e); [|done]. intros Hl. rewrite (IH _ Hl). split.
    + intros (q & Hq & Ho). set_solver.
    + intros (q & [->|Hq]%elem_of_cons & Ho); [congruence|eauto].
Qed.

(** ** The verdict *)

Section verdict.
Context `{CanaryRuntime}.
Variables (config : CanaryConfig) (deployment_record root : path) (s0 : cstate).

(** The failure of the latest sample was alerted: by a retry that is on record or
    by one that was made now, with its outcome. *)
Definition retry_prefix (o : observation) : string :=
  "retry-" +:+ str_take 160 (sanitize (py_str (get_or (ob_sample o) "sample_id" (PStr "unknown"))))
  +:+ "-".
Definition retry_on_record (o : observation) (s : cstate) : Prop :=
  ∃ p incident, is_incident_path root (retry_prefix o) p = true
  ∧ node_json p (find_node p (c_store s)) = Ok incident
  ∧ was_delivered (get incident "alertmanager_delivery") = true.
Definition failure_alerted (o : observation) (observed : Z) (delivered : bool) (s : cstate) : Prop :=
  (delivered = true ∧ retry_on_record o s)
  ∨ alert_recorded config root "BoostGatewayExternalCanaryFailed" observed delivered s.

(** The silence was alerted: less than four minutes ago, on record, or now. *)
Definition silence_alerted (latest : option observation) (observed : Z) (s : cstate) : Prop :=
  (∃ p, is_incident_path root ("silent-" +:+ stale_key latest +:+ "-") p = true
        ∧ silent_incident observed p (find_node p (c_store s)) = Ok true)
  ∨ ∃ delivered, alert_recorded config root "BoostGatewayExternalCanarySilent" observed delivered s.

Lemma kept_node s s' p n :
  evidence_kept s s' → node_json p (find_node p (c_store s)) = Ok n →
  node_json p (find_node p (c_store s')) = Ok n.
Proof.
  intros Hk. destruct (find_node p (c_store s)) as [x|] eqn:Hf; [|done]. by rewrite (Hk _ _ Hf).
Qed.
Lemma kept_silent s s' observed p :
  evidence_kept s s' → silent_incident observed p (find_node p (c_store s)) = Ok true →
  silent_incident observed p (find_node p (c_store s')) = Ok true.
Proof.
  intros Hk. destruct (find_node p (c_store s)) as [x|] eqn:Hf; [|done]. by rewrite (Hk _ _ Hf).
Qed.
Lemma requests_recorded alertname observed delivered s s' :
  evidence_kept s s' → (∀ r, r ∈ c_requests s → r ∈ c_requests s') →
  alert_recorded config root alertname observed delivered s →
  alert_recorded config root alertname observed delivered s'.
Proof.
  intros Hk Hr (c & o & name & doc & (url & summary & Hurl & Hin) & Ho & Hf & Hd).
  exists c, o, name, doc. split; [exists url, summary; auto|]. auto.
Qed.

Lemma forward_unready_alerts observed rd latest s (Q : pydict → cstate → Prop) :
  evidence_kept s0 s →
  (∀ r s', evidence_kept s0 s' → get r "overall_pass" = PBool false →
     (∃ delivered, alert_recorded config root "BoostGatewayExternalCanaryAlertmanagerUnavailable"
                     observed delivered s') → Q r s') →
  wp (forward_unready config deployment_record root observed rd latest) Q (λ _, evidence_kept s0) (evidence_kept s0) s.
Proof.
  intros Hk HQ. apply wp_bind, wp_candidate; [done|]. intros c.
  apply wp_bind, wp_deliver; [done|]. intros o s1 Hk1 Hpost _ _.
  apply wp_bind. unfold wp at 1, uuid_token at 1.
  apply wp_bind, wp_evidence_write; [done|apply incident_not_staging|].
  intros s2 Hk2 Hf _ Hreq _ _. apply wp_ret, HQ; [done|done|]. exists (ho_ok o).
  eexists c, o, _, _. split; [|split; [done|split; [exact Hf|done]]].
  destruct Hpost as (url & summary & Hurl & Hin). exists url, summary. split; [done|]. by rewrite Hreq.
Qed.

Lemma delivered_retry_found store l p :
  delivered_retry store l = Ok (Some p) →
  p ∈ l ∧ ∃ incident, node_json p (find_node p store) = Ok incident
          ∧ was_delivered (get incident "alertmanager_delivery") = true.
Proof.
  induction l as [|q l IH]; cbn [delivered_retry]; [done|].
  destruct (node_json q (find_node q store)) as [incident|e] eqn:Hq.
  - destruct (was_delivered _) eqn:Hd; [intros [= <-]; set_solver|]. intros Hr. set_solver.
  - destruct (exn_isa CCanaryError e); [|done]. set_solver.
Qed.
Lemma delivered_stale_found observed store l :
  delivered_for_stale observed store l = Ok true →
  ∃ p, p ∈ l ∧ silent_incident observed p (find_node p store) = Ok true.
Proof.
  induction l as [|q l IH]; cbn [delivered_for_stale]; [done|].
  destruct (silent_incident observed q _) as [[]|e] eqn:Hq; [intros _; set_solver|set_solver|].
  destruct (skipped e); [set_solver|done].
Qed.

Lemma retry_alerts observed o s (Q : option retry → cstate → Prop) :
  evidence_kept s0 s →
  (∀ r s', evidence_kept s0 s' → (∀ x, x ∈ c_requests s → x ∈ c_requests s') →
     match r with
     | None => needs_retry (ob_sample o) = false
     | Some r => needs_retry (ob_sample o) = true ∧ failure_alerted o observed (rt_delivered r) s'
     end → Q r s') →
  wp (retry_failed_sample config deployment_record root observed o) Q (λ _, evidence_kept s0) (evidence_kept s0) s.
Proof.
  intros Hk HQ. unfold retry_failed_sample. destruct (needs_retry (ob_sample o)) eqn:Hn; cbn [negb].
  2: { by apply wp_ret, HQ. }
  apply wp_bind, wp_read; [|done]. intros [p|] Hfound.
  - apply wp_ret, HQ; [done|done|]. split; [done|]. left. split; [done|].
    apply delivered_retry_found in Hfound as [[Hp _]%list_elem_of_filter (incident & Hi & Hd)].
    by exists p, incident.
  - apply wp_bind, wp_candidate; [done|]. intros c.
    apply wp_alert_incident; [done|done|]. intros d s1 Hk1 Hrec Hsub.
    apply wp_ret, HQ; [done|done|]. split; [done|]. by right.
Qed.

Lemma stale_alerts observed rd latest retry_ s (Q : pydict → cstate → Prop) :
  evidence_kept s0 s →
  (∀ r s', evidence_kept s0 s' → get r "overall_pass" = PBool false → silence_alerted latest observed s' →
     Q r s') →
  wp (stale_report config deployment_record root observed rd latest retry_) Q
    (λ _, evidence_kept s0) (evidence_kept s0) s.
Proof.
  intros Hk HQ. apply wp_bind, wp_candidate; [done|]. intros c.
  apply wp_bind, wp_read; [|done]. intros [] Hrecent; apply wp_bind.
  - apply wp_ret, wp_ret, HQ; [done|done|].
    apply delivered_stale_found in Hrecent as (p & [Hp _]%list_elem_of_filter & Hs).
    left. by exists p.
  - apply wp_alert_incident; [done|done|]. intros o s1 Hk1 Hrec Hsub. apply wp_ret, wp_ret, HQ; [done|done|].
    right. by exists (ho_ok o).
Qed.

(** What a verdict rests on.  [samples] are the samples that could be read. *)
Definition verdict_grounds (max_age_seconds : Z) (required : bool) (observed : Z) (ready : bool)
    (samples : list observation) (verdict : bool) (s : cstate) : Prop :=
  if negb ready then
    verdict = false
    ∧ ∃ delivered, alert_recorded config root "BoostGatewayExternalCanaryAlertmanagerUnavailable"
                     observed delivered s
  else
    match latest_of samples with
    | None => verdict = false ∧ silence_alerted None observed s
    | Some o =>
        if is_fresh max_age_seconds (age_of observed (Some o)) then
          ∃ valid delivered, verdict = valid && delivered
          ∧ (if needs_retry (ob_sample o) then failure_alerted o observed delivered s
             else delivered = true)
          ∧ (if required then ∃ c, sample_valid config c observed samples o = Ok valid
             else valid = true)
        else verdict = false ∧ silence_alerted (Some o) observed s
    end.

Lemma fresh_verdict observed required rd samples o retry_ s (Q : pydict → cstate → Prop) :
  evidence_kept s0 s →
  (∀ r valid, get r "overall_pass"
                = PBool (valid && match retry_ with Some r => rt_delivered r | None => true end) →
     (if (required : bool) then ∃ c, sample_valid config c observed samples o = Ok valid
      else valid = true) → Q r s) →
  wp (fresh_report config deployment_record observed required rd samples o retry_) Q
    (λ _, evidence_kept s0) (evidence_kept s0) s.
Proof.
  intros Hk HQ. apply wp_bind.
  apply (wp_mono _ (λ valid s', s' = s ∧ if required then ∃ c, sample_valid config c observed samples o = Ok valid
                                         else valid = true) _ (λ _, evidence_kept s0) _ (evidence_kept s0));
    [|intros valid s' [-> Hv]; apply wp_ret|done|done].
  - destruct required; [|by apply wp_ret]. apply wp_bind, wp_candidate; [done|]. intros c.
    apply wp_lift; [|done]. intros valid Hv. eauto.
  - apply (HQ _ valid); [|done]. destruct valid, retry_; done.
Qed.
End verdict.

Lemma validate_config_id c c' : validate_config c = Ok c' → c' = c.
Proof. intros Hc. do 8 apply res_bind_ok in Hc as (? & _ & Hc). by injection Hc. Qed.

Section watchdog_facts.
Context `{CanaryRuntime}.

End watchdog_facts.
