(* ===== verification/CanarySampleFacts.v ===== *)
(** * A sample that was written is read back by the report and the watchdog *)
From S2P Require Import Prelude PyFloat PyValue PyTime PyDateTime PyPath PyJson PyJsonFacts PyEffect Canary.
From S2P Require Import CanaryFlow CanaryFlowFacts CanarySample CanaryReport CanaryReportFacts CanaryWatchdog CanaryStoreFacts CanaryWatchdogFacts.
#[local] Open Scope Z_scope.

(** ** Instants *)

Lemma instant_ok_valid t : instant_ok t = true ↔ valid_instant t.
Proof. unfold instant_ok, valid_instant. rewrite andb_true_iff, Z.leb_le, Z.ltb_lt. lia. Qed.

Lemma parse_time_at text t :
  fromisoformat (replace_zulu text) = Some (Timestamp t (Some 0)) → valid_instant t →
  parse_time text = Ok t.
Proof.
  intros Hf Ht. unfold parse_time. rewrite Hf. cbn [is_naive ts_offset]. unfold guard_ce, guard_cls.
  cbn [mbind res_bind]. unfold instant. cbn [ts_local ts_offset default]. rewrite Z.sub_0_r.
  by rewrite (proj2 (instant_ok_valid t) Ht).
Qed.

Lemma floor_valid t k : valid_instant t → 0 < k → (day_us mod k = 0) → valid_instant (t - t mod k).
Proof.
  unfold valid_instant. intros Ht Hk Hd.
  assert (day_us <= t - t mod k); [|pose proof (Z.mod_pos_bound t k Hk); lia].
  assert (∃ a, day_us = k * a) as [a Ha] by (exists (day_us / k); pose proof (Z.div_mod day_us k); lia).
  pose proof (Z.div_mod t k ltac:(lia)) as Hdiv. rewrite Ha in *.
  assert (a <= t / k); [|nia]. apply Z.div_le_lower_bound; lia.
Qed.

Lemma scheduled_reads t :
  valid_instant t → parse_time (iso_seconds (floor_minute t)) = Ok (floor_minute t).
Proof.
  intros Ht. assert (valid_instant (floor_minute t)) as Hf by (by apply floor_valid).
  apply parse_time_at; [|done]. rewrite iso_seconds_reads by done. do 2 f_equal.
  assert (dt_micro (floor_minute t) = 0) as ->; [|lia].
  unfold dt_micro, floor_minute, minute_us, second_us. clear. Z.to_euclidean_division_equations. lia.
Qed.
Lemma started_reads t : valid_instant t → parse_time (isoformat t) = Ok (t - t mod 1000).
Proof.
  intros Ht. apply parse_time_at; [by apply iso_millis_reads|by apply floor_valid].
Qed.

(** ** Steps *)

Section steps.
Context `{CanaryRuntime}.

Lemma run_steps_names failed ops s :
  wp (run_steps failed ops) (λ steps _, map sr_name steps = map fst ops) (λ _ _, False) (λ _, True) s.
Proof.
  revert failed s. induction ops as [|[name op] ops IH]; intros failed s; [done|].
  cbn [run_steps]. destruct failed.
  - apply wp_bind. eapply wp_mono; [apply IH|..]; [|done|done]. intros steps s' Hn. apply wp_ret.
    cbn [map fst]. by rewrite <- Hn.
  - apply wp_bind, wp_clock_ns, wp_bind.
    apply (wp_mono _ (λ _ _, True) _ (λ _ _, False) _ (λ _, True)); [|intros r s1 _|done|done].
    { unfold wp, attempt_step. by destruct (op _) as [[]]. }
    apply wp_bind, wp_clock_ns, wp_bind. eapply wp_mono; [apply IH|..]; [|done|done].
    intros steps s2 Hn. apply wp_ret. cbn [map fst]. rewrite <- Hn. f_equal.
    destruct r as [[]|e]; [done|]. unfold step_of. by destruct (exn_cls e).
Qed.

Lemma flow_names config suffix s :
  wp (execute_business_flow config suffix)
    (λ steps s', map sr_name steps = REQUIRED_STEPS ∧ c_store s' = c_store s)
    (λ _ _, False) (λ s', c_store s' = c_store s) s.
Proof.
  apply wp_bind, wp_suffix. intros x s1 Hst _ _. apply wp_in_flow, wp_finally.
  eapply wp_mono; [apply run_steps_names|..]; [|by intros e f []|done].
  intros steps f Hn. eapply wp_mono; [apply clean_up_returns|..]; [done|by intros e f' []|done].
Qed.
End steps.

(** ** The sample *)

Lemma rev_app_app (a b c : string) : String.rev_app (a +:+ b) c = String.rev_app b (String.rev_app a c).
Proof. revert c. induction a as [|x a IH]; intros c; [done|]. apply IH. Qed.
Lemma ends_with_json a : ends_with ".json" (a +:+ ".json") = true.
Proof.
  unfold ends_with, String.rev at 2. rewrite rev_app_app. generalize (String.rev_app a "").
  intros r. cbn. by destruct r.
Qed.
Lemma parts_below_app dir l : parts_below dir (dir ++ l) = Some l.
Proof. induction dir as [|d dir IH]; [done|]. cbn. by rewrite String.eqb_refl. Qed.
Lemma sample_path_listed root t id : is_sample_path root (sample_path root t id) = true.
Proof.
  unfold is_sample_path, sample_path, under. destruct (dt_date t) as [[y mo] d]. cbn [p_root p_parts].
  rewrite String.eqb_refl.
  change (p_parts root ++ ["samples"; pad4 y ""; pad2 mo ""; pad2 d ""; id +:+ ".json"]) with
    (p_parts root ++ ["samples"] ++ [pad4 y ""; pad2 mo ""; pad2 d ""; id +:+ ".json"]).
  rewrite app_assoc, parts_below_app. cbn [List.last andb]. apply ends_with_json.
Qed.
Lemma sample_path_not_staging root t id : ¬ staging (sample_path root t id).
Proof.
  unfold sample_path. destruct (dt_date t) as [[y mo] d].
  apply (json_not_staging root ["samples"; pad4 y ""; pad2 mo ""; pad2 d ""]).
Qed.

(** The document that is read back. *)
Definition reread (d : pydict) : pydict := as_dict (jsort (PDict d)).

Section sample.
Context `{CanaryRuntime}.

Lemma sample_keys config version observed completed id c steps ok incident hb :
  NoDup (dkeys (sample_document config version observed completed id c steps ok incident hb)).
Proof. destruct hb; apply (bool_decide_unpack _); by vm_compute. Qed.

(** A written sample is accepted in its minute, by the report and the watchdog. *)
Lemma sample_accepted config version observed completed id c steps ok incident hb :
  let d := reread (sample_document config version observed completed id c steps ok incident hb) in
  valid_instant observed → map sr_name steps = REQUIRED_STEPS →
  scheduled d = Ok (floor_minute observed) ∧ contract d
  ∧ (raw ← item d "started_at"; parse_time (py_str raw)) = Ok (observed - observed mod 1000).
Proof.
  intros d Ht Hsteps.
  assert (∀ k, dlookup k d = jsort <$> dlookup k (sample_document config version observed completed id c
                                                   steps ok incident hb)) as Hd
    by (intros k; apply dlookup_jsort, sample_keys).
  assert (∀ k v, dlookup k (sample_document config version observed completed id c steps ok incident hb)
                 = Some v → item d k = Ok (jsort v)) as Hitem.
  { intros k v Hk. unfold item. by rewrite Hd, Hk. }
  split; [|split].
  - unfold scheduled. erewrite Hitem by done. by apply scheduled_reads.
  - assert (sample_steps d = Ok (map (λ s, jsort (step_py s)) steps)) as Hs.
    { unfold sample_steps, get_or. rewrite Hd. cbn [dlookup sample_document app fmap option_fmap option_map].
      cbn. by rewrite map_map. }
    exists (map PStr REQUIRED_STEPS). split; [|split; [done|unfold get, get_or; by rewrite Hd]].
    unfold step_names. rewrite Hs. cbn [mbind res_bind]. rewrite <- Hsteps. clear.
    induction steps as [|s steps IH]; [done|]. cbn [map mapM]. rewrite IH.
    destruct s; cbn. done.
  - erewrite Hitem by done. by apply started_reads.
Qed.

(** C35: The sample that [run_once] writes is new and is read back by both its
    readers: it is listed among the samples, the report accepts it for the minute
    the run was observed in, and the watchdog sees it at the instant of the run, to
    the millisecond; it tells whether the run passed.  However the run ends, the
    evidence that was there is unchanged. *)
Theorem run_once_read_back config record root version observed suffix hb s :
  valid_instant observed →
  wp (run_once config record root version (Some observed) suffix hb)
    (λ sample s', evidence_kept s s' ∧ ∃ p d, p ∈ sample_paths root (c_store s')
       ∧ find_node p (c_store s) = None
       ∧ valid_at (c_store s') p (floor_minute observed) d
       ∧ observe (c_store s') p = Ok (Observation (observed - observed mod 1000) p d)
       ∧ get d "overall_pass" = get sample "overall_pass"
       ∧ get sample "sample_path" = PStr (path_str p))
    (λ _, evidence_kept s) (evidence_kept s) s.
Proof.
  intros Ht. apply wp_bind, wp_lift; [|by intros; apply kept_refl]. intros cfg _.
  apply wp_bind, wp_ret, wp_bind, wp_suffix. intros x s1 Hst1 _ _.
  assert (evidence_kept s s1) as Hk1 by (intros q n; by rewrite Hst1).
  apply wp_bind, wp_candidate; [done|]. intros c.
  apply wp_bind. eapply wp_mono; [apply flow_names|..]; [|by intros e s2 []|].
  2: { intros s2 Hs2 q n. by rewrite Hs2, Hst1. }
  intros steps s2 [Hnames Hst2]. assert (evidence_kept s s2) as Hk2 by (intros q n; by rewrite Hst2, Hst1).
  apply wp_bind.
  apply (wp_mono _ (λ _, evidence_kept s) _ (λ _, evidence_kept s) _ (evidence_kept s)); [|intros incident s3 Hk3|done|done].
  { destruct (list_find _ steps) as [[i failed]|]; [|by apply wp_ret].
    apply wp_bind. unfold report_failure. apply wp_alert_incident; [done|done|].
    intros o s4 Hk4 _ _. by apply wp_ret, wp_ret. }
  apply wp_bind. unfold wp at 1, utc_now at 1.
  apply wp_bind, wp_evidence_write; [done|apply sample_path_not_staging|].
  intros s4 Hk4 Hfound Hnew _ _ _. apply wp_ret. split; [done|].
  eexists _, (reread _). split.
  { apply list_elem_of_filter. split; [apply sample_path_listed|].
    apply dec_stable. intros Hin%find_node_None. rewrite Hin in Hfound. done. }
  split; [eapply kept_None; [exact Hk3|exact Hnew]|].
  assert (∀ p d, find_node p (c_store s4) = Some (NDoc (jsort (PDict d))) →
            node_json p (find_node p (c_store s4)) = Ok (reread d)) as Hread.
  { intros p d Hp. rewrite Hp. done. }
  apply Hread in Hfound.
  edestruct sample_accepted as (Hsch & Hcon & Hstart); [exact Ht|exact Hnames|].
  split; [by split; [exact Hfound|]|]. split.
  { unfold observe. rewrite Hfound. cbn [mbind res_bind]. clear -Hstart.
    destruct (item _ "started_at") as [raw|]; [|done]. cbn [mbind res_bind] in *. by rewrite Hstart. }
  split.
  - unfold reread. rewrite get_jsort by apply sample_keys. by rewrite get_dset_ne.
  - apply get_dset_eq.
Qed.
End sample.
