(* ===== verification/CanaryMain.v ===== *)
(** * The external business canary: the command line

    Models [main] of [src/scripts/tools/external_business_canary.py] on parsed
    arguments.  Loading the SDK and reading the process environment are given:
    [sdk] is the version of the released SDK or the [CanaryError] of [load_sdk],
    [environment] the one that was read or the error of [load_environment_file]. *)
From S2P Require Import Prelude PyFloat PyValue PyTime PyDateTime PyPath PyEffect Canary CanaryFlow.
From S2P Require Import CanarySample CanaryReport CanaryWatchdog CanaryStoreFacts CanaryWatchdogFacts.
#[local] Open Scope Z_scope.

Inductive canary_command :=
  | CmdValidate
  | CmdRun
  | CmdWatchdog (max_age_seconds initial_delay_seconds : Z) (require_successful_sample : bool)
  | CmdAggregate (window : string) (end_ : option string) (maintenance_windows output : option path).

Record arguments := Arguments {
  ar_evidence_root : path;
  ar_deployment_record : path;
  ar_machine_id : option string;
  ar_command : canary_command }.

Section main.
Context `{CanaryRuntime}.
Variables (environment : res env) (sdk : res string).

Definition dispatch (args : arguments) : CM pydict :=
  let root := ar_evidence_root args in
  let record := ar_deployment_record args in
  match ar_command args with
  | CmdAggregate window end_ maintenance_windows output =>
      end_ ← (match end_ with Some text => e_lift (parse_time text) | None => utc_now end);
      aggregate_window root window end_ maintenance_windows output
  | other =>
      env ← e_lift environment;
      config ← e_lift (config_from_mapping env);
      match other with
      | CmdWatchdog max_age delay required =>
          e_lift (guard_ce (negb ((60 <=? max_age) && (max_age <=? 600)))
                    "watchdog max age must be between 60 and 600 seconds");;
          e_lift (guard_ce (negb ((0 <=? delay) && (delay <=? 50)))
                    "watchdog initial delay must be between 0 and 50 seconds");;
          watchdog config record root None max_age required
      | CmdRun =>
          sdk_version ← e_lift sdk;
          host_boundary ← validate_external_host record (ar_machine_id args);
          run_once config record root sdk_version None "" (Some host_boundary)
      | _ =>
          sdk_version ← e_lift sdk;
          c ← candidate_from_record record;
          host_boundary ← validate_external_host record (ar_machine_id args);
          mret [("overall_pass", PBool true); ("candidate", candidate_py c);
                ("host_boundary", host_boundary_py host_boundary);
                ("endpoint", PStr (endpoint config)); ("sdk_version", PStr sdk_version);
                ("secret_material_recorded", PBool false)]
      end
  end.

(** The exit status. *)
Definition canary_main (args : arguments) : CM Z :=
  e_try
    (result ← dispatch args;
     mret (if truthy (get result "overall_pass") then 0 else 1))
    (λ e, if exn_isa CCanaryError e then mret 2 else e_lift (Raise e)).

(** ** A sample that is no text *)

Lemma unreadable_observations store l p :
  p ∈ l → find_node p store = Some NNotText → ∃ e, observations store l = Raise e ∧ skipped e = false.
Proof.
  intros Hp Hn. induction l as [|q l IH]; [by apply elem_of_nil in Hp|]. cbn [observations].
  destruct (observe store q) as [o|e] eqn:Hq.
  - apply elem_of_cons in Hp as [->|Hp].
    + unfold observe in Hq. by rewrite Hn in Hq.
    + destruct (IH Hp) as (e & -> & He). by exists e.
  - destruct (skipped e) eqn:He; [|by exists e]. apply elem_of_cons in Hp as [->|Hp]; [|by apply IH].
    unfold observe in Hq. rewrite Hn in Hq. injection Hq as <-. done.
Qed.

Lemma config_validated env config :
  config_from_mapping env = Ok config →
  validate_config config = Ok config ∧ is_ok (validate_alertmanager_url (cc_alertmanager_url config)) = true.
Proof.
  intros Hc. apply res_bind_ok in Hc as ([] & _ & Hc).
  destruct (int_of_text _) as [port|]; [|done]. destruct (int_of_text _) as [timeout|]; [|done].
  pose proof (validate_config_id _ _ Hc) as Hid. rewrite <- Hid in Hc. split; [done|].
  do 7 apply res_bind_ok in Hc as (? & _ & Hc). apply res_bind_ok in Hc as (url & Hurl & _).
  by rewrite Hurl.
Qed.

(** A run that ends in an exception which is none of the canary's, having asked
    for nothing but the readiness. *)
Definition disabled {A} (m : CM A) (s : cstate) : Prop :=
  wp m (λ _ _, False)
    (λ e s', exn_isa CCanaryError e = false ∧ c_store s' = c_store s
             ∧ ∀ r, r ∈ c_requests s' → r ∈ c_requests s ∨ hr_method r = "GET")
    (λ s', ∀ r, r ∈ c_requests s' → r ∈ c_requests s ∨ hr_method r = "GET") s.

Lemma watchdog_disabled config record root max_age required p s :
  (∀ n e, ct_http n = HRaise e → exn_isa CCanaryError e = false) →
  validate_config config = Ok config →
  is_ok (validate_alertmanager_url (cc_alertmanager_url config)) = true →
  p ∈ sample_paths root (c_store s) → find_node p (c_store s) = Some NNotText →
  disabled (watchdog config record root None max_age required) s.
Proof.
  intros Hhttp Hc Hok Hp Hn. apply wp_bind, wp_lift; rewrite Hc; [|done]. intros cfg [= <-].
  apply wp_bind. unfold wp at 1, utc_now at 1. apply wp_bind, wp_bind, wp_lift.
  - intros url _. apply wp_bind. unfold wp at 1, send_request at 1. cbn [c_requests tick_on c_store c_tick].
    destruct (ct_http (S (c_tick s))) as [st|code|name|e|] eqn:Hans; cbn [outcome_of].
    1-3: apply wp_ret, wp_bind, wp_read; cbn [c_store c_requests]; [intros samples Hs|intros e He].
    1,3,5: exfalso; destruct (unreadable_observations _ _ _ Hp Hn) as (? & Hr & _); congruence.
    1-3: destruct (unreadable_observations _ _ _ Hp Hn) as (e' & Hr & Hsk); rewrite Hr in He;
         injection He as <-; unfold skipped in Hsk; apply orb_false_iff in Hsk as [? _].
    1-3: split; [done|]; split; [done|]; cbn; set_solver.
    + split; [by eapply Hhttp|]. split; [done|]. cbn. set_solver.
    + cbn. set_solver.
  - intros e He. split; [|split; [done|cbn; auto]]. unfold alertmanager_readiness_url in He.
    destruct (validate_alertmanager_url _); [|done]. cbn [mbind res_bind] in He.
    destruct (PyText.urlsplit _); [done|]. by injection He as <-.
Qed.

(** C36: One sample file that is not UTF-8 disables the watchdog: as long as it is
    there, the watchdog command with any admitted limits and any valid
    configuration neither returns an exit status nor sends an alert, however old
    the latest sample is; the only request it makes is the readiness check.  The
    code means to skip samples that it cannot read. *)
Theorem undecodable_sample_disables_watchdog args env config max_age delay required p s :
  (∀ n e, ct_http n = HRaise e → exn_isa CCanaryError e = false) →
  environment = Ok env → config_from_mapping env = Ok config →
  ar_command args = CmdWatchdog max_age delay required → 60 <= max_age <= 600 → 0 <= delay <= 50 →
  p ∈ sample_paths (ar_evidence_root args) (c_store s) → find_node p (c_store s) = Some NNotText →
  wp (canary_main args) (λ _ _, False)
    (λ e s', exn_isa CCanaryError e = false ∧ c_store s' = c_store s
             ∧ ∀ r, r ∈ c_requests s' → r ∈ c_requests s ∨ hr_method r = "GET")
    (λ s', ∀ r, r ∈ c_requests s' → r ∈ c_requests s ∨ hr_method r = "GET") s.
Proof.
  intros Hhttp Henv Hcfg Hcmd Hage Hdelay Hp Hn. destruct (config_validated _ _ Hcfg) as [Hval Hurl].
  apply wp_try, wp_bind. unfold dispatch. rewrite Hcmd.
  apply wp_bind, wp_lift; rewrite Henv; [|done]. intros e1 [= <-].
  apply wp_bind, wp_lift; rewrite Hcfg; [|done]. intros c1 [= <-].
  replace (negb ((60 <=? max_age) && (max_age <=? 600))) with false
    by (symmetry; apply negb_false_iff, andb_true_iff; rewrite !Z.leb_le; lia).
  replace (negb ((0 <=? delay) && (delay <=? 50))) with false
    by (symmetry; apply negb_false_iff, andb_true_iff; rewrite !Z.leb_le; lia).
  apply wp_bind, wp_ret, wp_bind, wp_ret.
  eapply wp_mono; [by apply (watchdog_disabled _ _ _ _ _ p)|by intros r s' []|..]; [|done].
  intros e s' (He & Hst & Hreq). rewrite He. by apply wp_lift; [|intros ? [= <-]].
Qed.
End main.
