(* ===== verification/CanaryWitnesses.v ===== *)
(** * The canary on concrete evidence: the theorems' hypotheses can hold *)
From S2P Require Import Prelude PyFloat PyValue PyTime PyDateTime PyPath PyEffect Canary CanaryFlow CanaryFlowFacts.
From S2P Require Import CanarySample CanaryReport CanaryReportFacts CanaryWatchdog CanaryStoreFacts CanarySampleFacts CanaryMain.
#[local] Open Scope Z_scope.

(** An SDK that accepts every call, an Alertmanager that answers 200 and a disk that
    does not fail. *)
Definition good_answer : py :=
  PDict [("ok", PBool true); ("body", PStr "entries: canary-a")].
#[local] Instance good_runtime : CanaryRuntime := {|
  ct_sha256 := λ s, s;
  ct_now := λ _, ymd2ord 2026 3 1 * day_us + 45000000;
  ct_token := λ _, "0123456789ab";
  ct_clock_ns := λ n, Z.of_nat n * 1500000;
  ct_new := λ _, None;
  ct_sdk := λ _, ORet good_answer;
  ct_http := λ _, HReply 200;
  ct_fault := λ _, FOk |}.

Definition witness_env : env :=
  [("BOOST_GATEWAY_CANARY_HOST", "gateway.example.net");
   ("BOOST_GATEWAY_CANARY_USER_A", "canary-a"); ("BOOST_GATEWAY_CANARY_USER_B", "canary-b");
   ("BOOST_GATEWAY_CANARY_TOKEN_A", "ta"); ("BOOST_GATEWAY_CANARY_TOKEN_B", "tb");
   ("BOOST_GATEWAY_CANARY_ALERTMANAGER_URL", "http://127.0.0.1:9093/")].
Definition witness_config : CanaryConfig :=
  CanaryConfigOf "gateway.example.net" 9201 "canary-a" "canary-b" "ta" "tb"
    "http://127.0.0.1:9093/" 5000.

Definition canary_root : path := py_path "/var/lib/canary".
Definition record_path : path := py_path "/etc/canary/deployment-record.json".
Definition hex40 : string := str_repeat "a" 40.
Definition record_document : py :=
  PDict [("tag", PStr "v1.2.3"); ("commit", PStr hex40); ("deployment_id", PStr "d-1");
         ("runtime_asset_sha256", PStr (str_repeat "b" 64))].
Definition clean_state : cstate := CState 0 [(record_path, NDoc record_document)] [] [].
Definition observed_at : Z := ymd2ord 2026 3 1 * day_us + 44500250.

Example env_accepted : config_from_mapping witness_env = Ok witness_config.
Proof. vm_compute. reflexivity. Qed.

(** A run, and then the report on its minute and the watchdog after it. *)
Definition after_run : cstate :=
  (run_once witness_config record_path canary_root "1.0.0" (Some observed_at) "s1" None clean_state).2.
Example sample_run_passes :
  match run_once witness_config record_path canary_root "1.0.0" (Some observed_at) "s1" None clean_state with
  | (ORet d, _) => is_true (get d "overall_pass")
  | _ => false
  end = true.
Proof. vm_compute. reflexivity. Qed.
Example report_of_run_passes :
  match aggregate_samples canary_root (floor_minute observed_at) (floor_minute observed_at + minute_us) []
          after_run with
  | (ORet r, _) => rp_overall_pass r && (rp_recorded_samples r =? 1)
  | _ => false
  end = true.
Proof. vm_compute. reflexivity. Qed.
Example watchdog_after_run_passes :
  match watchdog witness_config record_path canary_root None 130 true after_run with
  | (ORet r, _) => is_true (get r "overall_pass")
  | _ => false
  end = true.
Proof. vm_compute. reflexivity. Qed.
Example watchdog_of_silence :
  match watchdog witness_config record_path canary_root None 130 false clean_state with
  | (ORet r, s) => is_false (get r "overall_pass") && Nat.eqb (length (c_requests s)) 2
  | _ => false
  end = true.
Proof. vm_compute. reflexivity. Qed.

(** ** Witnesses *)

Lemma flow_records_typed_witness :
  sdk_foreign
  ∧ wp (execute_business_flow witness_config "s1")
      (λ steps _, map sr_name steps = REQUIRED_STEPS ∧ Forall step_typed steps ∧ steps_shape steps)
      (λ _ _, False) (λ _, True) clean_state.
Proof.
  assert (sdk_foreign) as Hs by (split; intros n e He; discriminate He).
  split; [exact Hs|]. exact (flow_records_typed witness_config "s1" clean_state Hs).
Defined.

Lemma run_once_read_back_witness :
  wp (run_once witness_config record_path canary_root "1.0.0" (Some observed_at) "s1" None)
    (λ sample s', evidence_kept clean_state s' ∧ ∃ p d, p ∈ sample_paths canary_root (c_store s')
       ∧ find_node p (c_store clean_state) = None
       ∧ valid_at (c_store s') p (floor_minute observed_at) d
       ∧ observe (c_store s') p = Ok (Observation (observed_at - observed_at mod 1000) p d)
       ∧ get d "overall_pass" = get sample "overall_pass"
       ∧ get sample "sample_path" = PStr (path_str p))
    (λ _, evidence_kept clean_state) (evidence_kept clean_state) clean_state.
Proof.
  apply (run_once_read_back witness_config record_path canary_root "1.0.0" observed_at "s1" None clean_state).
  split; [apply Z.leb_le|apply Z.ltb_lt]; reflexivity.
Defined.

Definition broken_sample : path := py_path "/var/lib/canary/samples/2026/03/01/x.json".
Definition broken_state : cstate :=
  CState 0 [(record_path, NDoc record_document); (broken_sample, NNotText)] [] [].
Definition watchdog_arguments : arguments :=
  Arguments canary_root record_path None (CmdWatchdog 130 0 false).

Lemma undecodable_sample_disables_watchdog_witness :
  wp (canary_main (Ok witness_env) (Ok "1.0.0") watchdog_arguments) (λ _ _, False)
    (λ e s', exn_isa CCanaryError e = false ∧ c_store s' = c_store broken_state
             ∧ ∀ r, r ∈ c_requests s' → r ∈ c_requests broken_state ∨ hr_method r = "GET")
    (λ s', ∀ r, r ∈ c_requests s' → r ∈ c_requests broken_state ∨ hr_method r = "GET") broken_state.
Proof.
  apply (undecodable_sample_disables_watchdog (Ok witness_env) (Ok "1.0.0") watchdog_arguments
           witness_env witness_config 130 0 false broken_sample broken_state).
  - intros n e He. discriminate He.
  - reflexivity.
  - exact env_accepted.
  - reflexivity.
  - lia.
  - lia.
  - apply (bool_decide_unpack _). vm_compute. exact I.
  - reflexivity.
Defined.
