(* ===== verification/Window.v ===== *)
(** * The immutable 30-day window and the dead-man evidence

    Models [src/scripts/lib/immutable_window.py] and the validators of
    [src/scripts/lib/deadman_evidence.py]: the declaration of the window, its
    admission reports, the attestation of the heartbeat drill, the manifest of the
    samples, and the checks of the final aggregate and host audit.

    A file is what reading it gives: the document or the error, its digest, size
    and name.  Instants are microseconds in UTC and texts are ASCII; the seconds
    that [total_seconds] gives are compared exactly, as their floats are for
    bounds below [2^33] seconds; a declared window ends within the calendar. *)
From S2P Require Import Prelude PyFloat PyValue PyTime PyDateTime PyJson LifecycleCore Deadman Canary CanaryReport.
#[local] Open Scope Z_scope.

(** ** Shared checks *)

Definition WINDOW_DURATION : Z := 2592000.
Definition WINDOW_SAMPLES : Z := 43200.
Definition ADMISSION_ROLES : list string :=
  ["lifecycle"; "observability"; "backup"; "retention"; "governance"; "deadman"].
Definition FINAL_ROLES : list string := ADMISSION_ROLES ++ ["host_window"; "ledger"; "offhost"].
Definition MAX_JSON : Z := 262144.

Definition require (condition : bool) (msg : string) : res unit :=
  guard_cls CDeadmanError (negb condition) msg.

(** [a and b] where the operands can raise. *)
Definition and_res (a b : res bool) : res bool := x ← a; if (x : bool) then b else Ok false.
Definition require_res (condition : res bool) (msg : string) : res unit :=
  b ← condition; require b msg.

(** [HEX.fullmatch(str(v))], [NAME.fullmatch(str(v))] and [MESSAGE.fullmatch(str(v))]. *)
Definition HEX_RE (v : py) : bool := re_hex 64 (py_str v).
Definition NAME_RE (s : string) : bool :=
  match s with
  | EmptyString => false
  | String a r => is_alnum a && (String.length r <=? 180)%nat && str_all safe_char r
  end.
Definition message_char (a : ascii) : bool :=
  negb (is_space a || Ascii.eqb a "<" || Ascii.eqb a ">" || Ascii.eqb a "@").
Definition MESSAGE_RE (s : string) : bool :=
  match s with
  | String a r =>
      let '(local, rest) := str_span message_char r in
      match rest with
      | String at_ rest =>
          let '(domain, rest) := str_span message_char rest in
          Ascii.eqb a "<" && negb (String.eqb local "") && Ascii.eqb at_ "@"
          && negb (String.eqb domain "") && String.eqb rest ">"
      | EmptyString => false
      end
  | EmptyString => false
  end.
(** [UUID.search(s)]. *)
Fixpoint uuid_search (s : string) : bool :=
  match take_groups is_hex_any uuid_groups s with
  | Some _ => true
  | None => match s with String _ r => uuid_search r | EmptyString => false end
  end.

(** [\d{4}-\d{2}-\d{2}T\d{2}:\d{2}:\d{2}(?:\.\d{1,6})?Z]. *)
Definition fraction_then_z (s : string) : bool :=
  match s with
  | String "." r =>
      let '(digits, rest) := str_span is_digit r in
      (1 <=? String.length digits)%nat && (String.length digits <=? 6)%nat && String.eqb rest "Z"
  | _ => String.eqb s "Z"
  end.
Definition INSTANT_RE (s : string) : bool :=
  match take_groups is_digit [4; 2; 2]%nat s with
  | Some (String "T" r) =>
      match take_class is_digit 2 r with
      | Some (String ":" r) =>
          match take_class is_digit 2 r with
          | Some (String ":" r) =>
              match take_class is_digit 2 r with Some r => fraction_then_z r | None => false end
          | _ => false
          end
      | _ => false
      end
  | _ => false
  end.

Definition read_stamp (v : py) : res Z :=
  match v with
  | PStr s =>
      require (INSTANT_RE s) "invalid UTC timestamp";;
      match fromisoformat (replace_zulu s) with
      | Some t => Ok (instant t)
      | None => Raise (Exn CDeadmanError "invalid UTC timestamp")
      end
  | _ => Raise (Exn CDeadmanError "invalid UTC timestamp")
  end.
Definition stamp (t : Z) : string := iso_seconds t.

(** [set(v) == {...}]: a dict by its keys, a list by its elements. *)
Definition set_equals (v : py) (names : list string) : res bool :=
  l ← py_iter v;
  if existsb (λ x, is_list x || is_dict x) l then Raise (Exn CTypeError "unhashable type")
  else Ok (forallb (λ x, str_among x names) l && forallb (λ n, py_in (PStr n) l) names).

(** ** [nonsecret] *)

Definition SECRET_KEYS : list string :=
  ["uuid"; "ping_url"; "api_key"; "channels"; "recipient"; "authorization"].
Definition FROZEN_ENDPOINT : string := "tcp://100.65.71.117:9201".

Definition nonsecret_text (location : list string) (s : string) : res unit :=
  let admitted := bool_decide (location = ["endpoint"]) && String.eqb s FROZEN_ENDPOINT in
  require (negb (uuid_search s) && (negb (contains "://" s) || admitted))
    "secret-bearing evidence value";;
  if str_in "@" s then
    require ((bool_decide (location = ["deliveries"; "down"; "message_id"])
              || bool_decide (location = ["deliveries"; "up"; "message_id"])) && MESSAGE_RE s)
      "email outside delivery Message-ID"
  else Ok ().

Fixpoint nonsecret (location : list string) (v : py) {struct v} : res unit :=
  match v with
  | PDict d =>
      (fix go (d : pydict) : res unit :=
         match d with
         | [] => Ok ()
         | kv :: d =>
             require (negb (mem_str kv.1 SECRET_KEYS)) "secret-bearing evidence key";;
             nonsecret (location ++ [kv.1]) kv.2;;
             go d
         end) d
  | PList l =>
      (fix go (l : list py) : res unit :=
         match l with
         | [] => Ok ()
         | v :: l => nonsecret location v;; go l
         end) l
  | PStr s => nonsecret_text location s
  | _ => Ok ()
  end.

(** ** Provider snapshots *)

Definition POLICY : pydict :=
  [("schedule", PStr "*-*-* *:*:45"); ("tz", PStr "UTC"); ("grace", PInt 90);
   ("methods", PStr "POST"); ("manual_resume", PBool false); ("filter_http_body", PBool false)].
Definition SNAPSHOT_KEYS : list string :=
  ["schema_version"; "provider"; "provider_unique_key"; "check_identity_sha256"; "observed_at";
   "status"; "source"; "secret_material_recorded"] ++ dkeys POLICY.

(** [type(a) is type(b)]. *)
Definition same_type (a b : py) : bool :=
  match a, b with
  | PNone, PNone | PBool _, PBool _ | PInt _, PInt _ | PFloat _, PFloat _ | PStr _, PStr _
  | PList _, PList _ | PDict _, PDict _ => true
  | _, _ => false
  end.

Fixpoint policy_matches (value expected : pydict) : res unit :=
  match expected with
  | [] => Ok ()
  | (k, v) :: expected =>
      x ← item value k;
      require (same_type x v && py_eqb x v) "provider policy mismatch";;
      policy_matches value expected
  end.

Definition validate_snapshot (value : pydict) (statuses : list string) (now max_age : Z) : res unit :=
  require (same_set (dkeys value) SNAPSHOT_KEYS) "provider snapshot schema mismatch";;
  require (py_eqb (get value "schema_version") (PInt 1)
           && py_eqb (get value "provider") (PStr "healthchecks.io")
           && py_eqb (get value "source") (PStr "readonly-management-api-v3")
           && is_false (get value "secret_material_recorded")) "invalid provider snapshot provenance";;
  policy_matches value POLICY;;
  require (re_hex 40 (py_str (get value "provider_unique_key"))) "invalid provider identity";;
  require (HEX_RE (get value "check_identity_sha256")) "invalid check digest";;
  require_res (in_str_set (get value "status") statuses) "provider status is not admitted";;
  observed ← read_stamp (get value "observed_at");
  let age := now - observed in
  require ((0 <=? age) && (age <=? max_age * second_us)) "provider snapshot is stale or future-dated";;
  nonsecret [] (PDict value).

(** ** The attestation of the drill *)

Definition ATTESTATION_KEYS : list string :=
  ["schema_version"; "attestation_id"; "created_at"; "create_only"; "overall_pass"; "provider";
   "subject"; "drill"; "deliveries"; "artifacts"; "secret_material_recorded"].
Definition SUBJECT_KEYS : list string :=
  ["canary_host_id_sha256"; "check_identity_sha256"; "reporter_sha256"; "service_unit_sha256";
   "watchdog_dropin_sha256"; "provider_contract_sha256"; "candidate_record_sha256";
   "installation_sha256"].
Definition DRILL_KEYS : list string :=
  ["failure_mode"; "armed_at"; "heartbeat_stopped_at"; "provider_down_at"; "rearmed_at";
   "provider_up_at"; "provider_unique_key"; "final_status"].
Definition ARTIFACT_ROLES : list string :=
  ["before"; "down"; "up"; "armed"; "stopped"; "rearmed"; "success"].

Definition subject_checks (subject : py) : res unit :=
  require_res (set_equals subject SUBJECT_KEYS) "attestation subject schema mismatch";;
  match subject with
  | PDict d => require (forallb (λ kv, HEX_RE kv.2) d) "invalid subject digest"
  | _ => Raise (Exn CAttributeError "object has no attribute 'values'")
  end.

(** The five instants of the drill, in the order of the keys. *)
Record drill := Drill {
  dr_armed : Z; dr_stopped : Z; dr_down : Z; dr_rearmed : Z; dr_up : Z }.
Definition drill_times (d : py) : res drill :=
  require_res (set_equals d DRILL_KEYS) "invalid drill schema";;
  require_res (and_res (mode ← vitem d "failure_mode"; Ok (py_eqb mode (PStr "missing-heartbeat")))
                 (status ← vitem d "final_status"; Ok (py_eqb status (PStr "up"))))
    "missing-heartbeat recovery not proven";;
  armed ← vitem d "armed_at" ≫= read_stamp;
  stopped ← vitem d "heartbeat_stopped_at" ≫= read_stamp;
  down ← vitem d "provider_down_at" ≫= read_stamp;
  rearmed ← vitem d "rearmed_at" ≫= read_stamp;
  up ← vitem d "provider_up_at" ≫= read_stamp;
  Ok (Drill armed stopped down rearmed up).

(** [times == sorted(times)] and the strict order of the last four. *)
Definition drill_ordered (d : drill) : bool :=
  ((dr_armed d <=? dr_stopped d) && (dr_stopped d <=? dr_down d) && (dr_down d <=? dr_rearmed d)
   && (dr_rearmed d <=? dr_up d))
  && (dr_stopped d <? dr_down d) && (dr_down d <? dr_rearmed d) && (dr_rearmed d <? dr_up d).

(** One delivery: its message identity. *)
Definition delivery_id (deliveries : py) (state : string) (transition created : Z) : res py :=
  delivery ← vitem deliveries state;
  require_res (set_equals delivery ["message_id"; "observed_at"]) "invalid delivery schema";;
  id ← vitem delivery "message_id";
  require (MESSAGE_RE (py_str id)) "invalid Message-ID";;
  observed ← vitem delivery "observed_at" ≫= read_stamp;
  require ((transition <=? observed) && (observed <=? created)) "invalid delivery time";;
  Ok id.

Definition artifact_ok (entry : py) : res unit :=
  require_res
    (and_res (set_equals entry ["role"; "basename"; "size"; "sha256"])
       (basename ← vitem entry "basename";
        if negb (NAME_RE (py_str basename)) then Ok false
        else
          size ← vitem entry "size";
          match size with
          | PInt z =>
              if (0 <? z) && (z <=? MAX_JSON)
              then sha ← vitem entry "sha256"; Ok (HEX_RE sha) else Ok false
          | _ => Ok false
          end))
    "invalid drill artifact".
Fixpoint artifacts_ok (l : list py) : res unit :=
  match l with [] => Ok () | e :: l => artifact_ok e;; artifacts_ok l end.

(** [entry["role"]] as an element of a set. *)
Definition artifact_role (entry : py) : res py :=
  role ← vitem entry "role";
  if is_list role || is_dict role then Raise (Exn CTypeError "unhashable type") else Ok role.

Definition artifact_checks (artifacts : py) : res unit :=
  match artifacts with
  | PList l =>
      require (Nat.eqb (length l) (length ARTIFACT_ROLES)) "missing drill artifacts";;
      roles ← mapM artifact_role l;
      require_res (set_equals (PList roles) ARTIFACT_ROLES) "invalid drill artifact roles";;
      artifacts_ok l
  | _ => require false "missing drill artifacts"
  end.

Definition validate_attestation (value : pydict) (now : Z) : res unit :=
  require (same_set (dkeys value) ATTESTATION_KEYS) "attestation schema mismatch";;
  nonsecret [] (PDict value);;
  require (py_eqb (get value "schema_version") (PInt 1) && is_true (get value "create_only")
           && is_true (get value "overall_pass") && is_false (get value "secret_material_recorded")
           && py_eqb (get value "provider") (PStr "healthchecks.io")) "attestation is not passing";;
  require (NAME_RE (py_str (get value "attestation_id"))) "invalid drill ID";;
  subject_checks (get value "subject");;
  times ← drill_times (get value "drill");
  require (drill_ordered times) "invalid drill ordering";;
  require (90 * second_us <=? dr_down times - dr_stopped times)
    "missing-heartbeat grace was not exercised";;
  created ← read_stamp (get value "created_at");
  require ((dr_up times <=? created) && (created <=? now)) "invalid attestation time";;
  require_res (set_equals (get value "deliveries") ["down"; "up"])
    "both target mailbox deliveries are required";;
  down ← delivery_id (get value "deliveries") "down" (dr_down times) created;
  up ← delivery_id (get value "deliveries") "up" (dr_up times) created;
  require (negb (py_eqb down up)) "delivery Message-IDs must be distinct";;
  artifact_checks (get value "artifacts").

(** ** The declaration *)

(** [v.get(k)] where [v = d.get(name, {})]. *)
Definition nested_get (d : pydict) (name k : string) : res py := vget (get_or d name (PDict [])) k.

Definition FROZEN_TAG : string := "v3.6.7".
Definition FROZEN_COMMIT : string := "db0f905d0421b2052b9de7f49d9bf71787915e23".
Definition FROZEN_DEPLOYMENT : string := "v3.6.7-fb5f6bfb2626-fa8b69b36dec".

(** [s.removeprefix("sha256:")]. *)
Definition strip_sha256 (s : string) : string := if starts_with "sha256:" s then str_skip 7 s else s.

Definition record_identity (record : pydict) : res pydict :=
  image ← nested_get record "image_ids" "GATEWAY_IMAGE_ID";
  match py_or image (get record "runtime_asset_sha256") with
  | PStr runtime =>
      let digest := if starts_with "sha256:" runtime then runtime else "sha256:" +:+ runtime in
      require (re_hex 64 (strip_sha256 digest)) "invalid runtime identity";;
      require (py_eqb (get record "tag") (PStr FROZEN_TAG)
               && py_eqb (get record "commit") (PStr FROZEN_COMMIT)
               && py_eqb (get record "deployment_id") (PStr FROZEN_DEPLOYMENT))
        "unexpected frozen production candidate";;
      Ok [("tag", get record "tag"); ("commit", get record "commit");
          ("deployment_id", get record "deployment_id"); ("runtime_digest", PStr digest)]
  | _ => require false "missing runtime identity";; Ok []
  end.

(** A report file: what reading it and computing its digest give, and its name. *)
Record report_file := ReportFile { rf_json : res pydict; rf_digest : res string; rf_name : string }.

Definition admit_report (now : Z) (role : string) (f : report_file) : res py :=
  report ← rf_json f;
  require (is_true (get report "overall_pass")) "admission report is not passing";;
  let timestamp := py_or (py_or (get report "created_at") (get report "generated_at"))
                     (get report "checked_at") in
  require (negb (is_none timestamp)) "admission report has no timestamp";;
  t ← read_stamp timestamp;
  let age := now - t in
  require ((0 <=? age) && (age <=? 1800 * second_us)) "admission report is stale or future-dated";;
  digest ← rf_digest f;
  let entry := [("sha256", PStr digest); ("basename", PStr (rf_name f)); ("observed_at", timestamp)] in
  if String.eqb role "deadman" then
    require (is_true (get report "active") && is_dict (get report "subject"))
      "deadman must pass active installation preflight";;
    Ok (PDict (entry ++ [("subject", get report "subject")]))
  else Ok (PDict entry).
Fixpoint admit_reports (now : Z) (paths : list (string * report_file)) : res pydict :=
  match paths with
  | [] => Ok []
  | (role, f) :: paths =>
      entry ← admit_report now role f;
      rest ← admit_reports now paths;
      Ok ((role, entry) :: rest)
  end.
(** [paths] is a dict: its roles are distinct. *)
Definition admission (paths : list (string * report_file)) (now : Z) (final : bool) : res pydict :=
  require (same_set (map fst paths) (if final then FINAL_ROLES else ADMISSION_ROLES))
    "missing admission report roles";;
  result ← admit_reports now paths;
  require (Nat.eqb (length (remove_dups (map (λ x, py_str (get (as_dict x.2) "sha256")) result)))
                   (length result))
    "the same report cannot satisfy multiple admission roles";;
  Ok result.

Definition window_id (start : Z) : string := "todo0017-" +:+ compact_minute start "Z".

Definition declare (start now : Z) (record : pydict) (record_sha host_id endpoint_ : string)
    (admission_reports attestation : pydict) (attestation_sha sdk_version : string) : res pydict :=
  require (whole_minute start) "start must be a natural UTC minute";;
  require ((120 * second_us <=? start - now) && (start - now <=? 3600 * second_us))
    "start must be 2-60 minutes in the future";;
  validate_attestation attestation now;;
  subject ← item attestation "subject";
  admitted ← nested_get admission_reports "deadman" "subject";
  require (py_eqb admitted subject) "current deadman installation differs from the accepted drill";;
  require_res
    (and_res (h ← vitem subject "canary_host_id_sha256"; Ok (py_eqb h (PStr host_id)))
       (c ← vitem subject "candidate_record_sha256"; Ok (py_eqb c (PStr record_sha))))
    "deadman attestation subject mismatch";;
  production_host ← nested_get record "host" "host_id_sha256";
  require (HEX_RE production_host && negb (py_eqb production_host (PStr host_id)))
    "observer is not off-host";;
  require (String.eqb sdk_version "4.2.0") "record the admitted released canary SDK";;
  require (String.eqb endpoint_ FROZEN_ENDPOINT) "unexpected frozen endpoint";;
  candidate ← record_identity record;
  Ok [("schema_version", PInt 1); ("task", PStr "TODO-0017"); ("window_id", PStr (window_id start));
      ("declared_at", PStr (stamp now)); ("start", PStr (stamp start));
      ("end", PStr (stamp (start + WINDOW_DURATION * second_us)));
      ("duration_seconds", PInt WINDOW_DURATION); ("expected_samples", PInt WINDOW_SAMPLES);
      ("maintenance_windows", PList []); ("candidate", PDict candidate);
      ("candidate_record_sha256", PStr record_sha);
      ("host_boundary", PDict [("production_host_id_sha256", production_host);
                               ("canary_host_id_sha256", PStr host_id)]);
      ("endpoint", PStr endpoint_); ("sdk_version", PStr sdk_version);
      ("admission", PDict admission_reports);
      ("deadman_attestation_sha256", PStr attestation_sha); ("create_only", PBool true);
      ("secret_material_recorded", PBool false)].

Definition DECLARATION_KEYS : list string :=
  ["schema_version"; "task"; "window_id"; "declared_at"; "start"; "end"; "duration_seconds";
   "expected_samples"; "maintenance_windows"; "candidate"; "candidate_record_sha256";
   "host_boundary"; "endpoint"; "sdk_version"; "admission"; "deadman_attestation_sha256";
   "create_only"; "secret_material_recorded"].
Definition SUPERSEDED_START : string := "2026-09-05T10:30:00Z".

Definition validate_declaration (value : pydict) : res unit :=
  require (same_set (dkeys value) DECLARATION_KEYS) "window declaration schema mismatch";;
  start ← read_stamp (get value "start");
  end_ ← read_stamp (get value "end");
  require (py_eqb (get value "task") (PStr "TODO-0017") && py_eqb (get value "schema_version") (PInt 1)
           && is_true (get value "create_only") && is_false (get value "secret_material_recorded"))
    "invalid declaration provenance";;
  require_res
    (and_res (Ok ((end_ - start =? WINDOW_DURATION * second_us) && whole_minute start))
       (declared ← read_stamp (get value "declared_at");
        Ok ((declared <? start) && py_eqb (get value "duration_seconds") (PInt WINDOW_DURATION)
            && py_eqb (get value "expected_samples") (PInt WINDOW_SAMPLES)
            && py_eqb (get value "maintenance_windows") (PList []))))
    "invalid fixed window";;
  superseded ← read_stamp (PStr SUPERSEDED_START);
  require (negb (start =? superseded)) "superseded historical window is forbidden";;
  require_res (set_equals (get value "admission") ADMISSION_ROLES) "incomplete admission binding";;
  require (py_eqb (get value "window_id") (PStr (window_id start))) "invalid window ID".

(** ** The final evidence *)

(** A sample file: its path under the root, its size, and what reading it and
    computing its digest give. *)
Record sample_file := SampleFile {
  sf_relative : string; sf_size : Z; sf_json : res pydict; sf_digest : res string }.

(** The files in the order of the paths; the text that is hashed. *)
Fixpoint manifest_lines (start end_ : Z) (declaration : pydict) (files : list sample_file)
    : res (list string) :=
  match files with
  | [] => Ok []
  | f :: files =>
      sample ← sf_json f;
      minute ← read_stamp (get sample "scheduled_minute");
      if negb ((start <=? minute) && (minute <? end_)) then manifest_lines start end_ declaration files
      else
        require_res
          (and_res (c ← item declaration "candidate"; Ok (py_eqb (get sample "candidate") c))
          (and_res (h ← item declaration "host_boundary"; Ok (py_eqb (get sample "host_boundary") h))
          (and_res (e ← item declaration "endpoint"; Ok (py_eqb (get sample "endpoint") e))
                   (v ← item declaration "sdk_version"; Ok (py_eqb (get sample "sdk_version") v)))))
          "sample identity drift";;
        digest ← sf_digest f;
        rest ← manifest_lines start end_ declaration files;
        Ok ((json_compact (PList [PStr (sf_relative f); PInt (sf_size f); PStr digest])
               +:+ newline) :: rest)
  end.
Definition window_manifest (sha256 : string → string) (files : list sample_file) (declaration : pydict)
    : res pydict :=
  start ← item declaration "start" ≫= read_stamp;
  end_ ← item declaration "end" ≫= read_stamp;
  lines ← manifest_lines start end_ declaration files;
  Ok [("sample_count", PInt (count lines));
      ("sample_manifest_sha256", PStr (sha256 (str_concat "" lines)))].

(** [type(v) in {float, int} and math.isfinite(v) and low <= v]. *)
Definition finite_number (v : py) : res (option num) :=
  match v with
  | PFloat f => Ok (if f_is_finite f then Some (NFloat f) else None)
  | PInt z =>
      if f_is_finite (f_of_Z z) then Ok (Some (NInt z))
      else Raise (Exn COverflowError "int too large to convert to float")
  | _ => Ok None
  end.
Definition slo_met (v : py) : res bool :=
  n ← finite_number v;
  Ok match n with
     | Some x => num_leb (NFloat f_999) x && num_leb x (NInt 1)
     | None => false
     end.

Fixpoint slo_checks (report : pydict) (keys : list string) : res unit :=
  match keys with
  | [] => Ok ()
  | k :: keys => require_res (slo_met (get report k)) "aggregate SLO failed";; slo_checks report keys
  end.
Definition SLO_KEYS : list string :=
  ["coverage_rate"; "recorded_success_rate"; "availability_including_approved_maintenance";
   "availability_excluding_approved_maintenance"].

Definition int_within (v : py) (low high : Z) : bool :=
  match v with PInt z => (low <=? z) && (z <=? high) | _ => false end.

Definition validate_aggregate (report declaration : pydict) : res unit :=
  require (is_true (get report "overall_pass") && py_eqb (get report "window") (PStr "30d"))
    "30-day aggregate did not pass";;
  let period := get_or report "period" (PDict []) in
  require_res
    (and_res (set_equals period ["start"; "end"; "duration_seconds"])
    (and_res (a ← vitem period "start" ≫= read_stamp; b ← item declaration "start" ≫= read_stamp;
              Ok (a =? b))
    (and_res (a ← vitem period "end" ≫= read_stamp; b ← item declaration "end" ≫= read_stamp;
              Ok (a =? b))
             (d ← vitem period "duration_seconds"; Ok (py_eqb d (PInt WINDOW_DURATION))))))
    "aggregate fixed interval mismatch";;
  require_res
    (and_res (c ← item declaration "candidate"; Ok (py_eqb (get report "candidate") c))
    (and_res (e ← item declaration "endpoint"; Ok (py_eqb (get report "endpoint") e))
             (Ok (is_true (get report "candidate_consistent")))))
    "aggregate candidate mismatch";;
  require (py_eqb (get report "expected_samples") (PInt WINDOW_SAMPLES)
           && py_eqb (get report "maintenance_windows") (PList [])
           && py_eqb (get report "invalid_samples") (PList []))
    "aggregate has invalid or duplicate samples";;
  slo_checks report SLO_KEYS;;
  require (int_within (get report "max_nonmaintenance_gap_minutes") 0 2) "aggregate gap exceeded".

Definition HOST_ZERO_KEYS : list string :=
  ["unknown_restarts"; "oom_events"; "sustained_thermal_throttles"; "unexplained_growth"].
(** [0 <= v < limit] of a finite number. *)
Definition ratio_below (v : py) (limit : pfloat) : res bool :=
  n ← finite_number v;
  Ok match n with
     | Some x => num_leb (NInt 0) x && num_ltb x (NFloat limit)
     | None => false
     end.

Definition validate_host_window (report declaration : pydict) : res unit :=
  require_res
    (and_res (s ← item declaration "start"; Ok (py_eqb (get report "start") s))
    (and_res (e ← item declaration "end"; Ok (py_eqb (get report "end") e))
             (c ← item declaration "candidate_record_sha256";
              Ok (py_eqb (get report "candidate_record_sha256") c))))
    "host audit binding mismatch";;
  require (forallb (λ k, int_within (get report k) 0 0) HOST_ZERO_KEYS) "host resource gate failed";;
  require_res (ratio_below (get report "host_memory_max_ratio") (f_of_dec false 8 (-1)))
    "host resource limit exceeded";;
  require_res (ratio_below (get report "filesystem_max_used_ratio") (f_of_dec false 75 (-2)))
    "host resource limit exceeded";;
  require match get report "coverage_rate" with
          | (PFloat _ | PInt _) as v =>
              match num_of v with
              | Some x => num_leb (NFloat f_999) x && num_leb x (NInt 1)
              | None => false
              end
          | _ => false
          end "host monitoring coverage failed";;
  require (int_within (get report "max_gap_seconds") 0 120) "host monitoring gap exceeded".
