(* ===== verification/WindowFacts.v ===== *)
(** * The window: declarations, drills and the final aggregate *)
From S2P Require Import Prelude PyFloat PyValue PyTime PyDateTime PyPath PyJson PyJsonFacts PyEffect LifecycleCore Deadman Canary.
From S2P Require Import CanaryReport CanaryGaps CanaryReportFacts CanarySampleFacts Window.
#[local] Open Scope Z_scope.

(** ** Stamps *)

#[local] Ltac Zify.zify_post_hook ::= Z.to_euclidean_division_equations.

Lemma instant_shape y mo d h mi s tail :
  0 <= y <= 9999 → 0 <= mo <= 99 → 0 <= d <= 99 → 0 <= h <= 99 → 0 <= mi <= 99 → 0 <= s <= 99 →
  INSTANT_RE (pad4 y (String "-" (pad2 mo (String "-" (pad2 d (String "T"
    (pad2 h (String ":" (pad2 mi (String ":" (pad2 s tail))))))))))) = fraction_then_z tail.
Proof.
  intros Hy Hmo Hd Hh Hmi Hs.
  assert (∀ v, 0 <= v <= 9 → is_digit (digit_char v) = true) as Hdig
    by (intros v Hv; by destruct (digit_char_spec v Hv)).
  unfold pad4, pad2.
  assert (is_digit (digit_char (y / 100 / 10)) = true) as H1 by (apply Hdig; lia).
  assert (is_digit (digit_char ((y / 100) mod 10)) = true) as H2 by (apply Hdig; lia).
  assert (is_digit (digit_char (y mod 100 / 10)) = true) as H3 by (apply Hdig; lia).
  assert (is_digit (digit_char ((y mod 100) mod 10)) = true) as H4 by (apply Hdig; lia).
  assert (∀ v, 0 <= v <= 99 → is_digit (digit_char (v / 10)) = true
          ∧ is_digit (digit_char (v mod 10)) = true) as Hpad by (intros v Hv; split; apply Hdig; lia).
  destruct (Hpad mo Hmo) as [H5 H6], (Hpad d Hd) as [H7 H8], (Hpad h Hh) as [H9 H10].
  destruct (Hpad mi Hmi) as [H11 H12], (Hpad s Hs) as [H13 H14]. clear Hdig Hpad.
  unfold INSTANT_RE.
  do 6 (cbn [take_groups take_class mbind option_bind andb];
        rewrite ?H1, ?H2, ?H3, ?H4, ?H5, ?H6, ?H7, ?H8, ?H9, ?H10, ?H11, ?H12, ?H13, ?H14;
        try change (Ascii.eqb "-" "-") with true; cbn iota).
  done.
Qed.

Lemma date_small t :
  valid_instant t →
  let '(y, mo, d) := dt_date t in
  0 <= y <= 9999 ∧ 0 <= mo <= 99 ∧ 0 <= d <= 99 ∧ 0 <= dt_hour t <= 99 ∧ 0 <= dt_minute t <= 99
  ∧ 0 <= dt_second t <= 99.
Proof.
  intros Ht. pose proof (dt_fields t Ht) as Hf. destruct (dt_date t) as [[y mo] d].
  destruct Hf as (Hd & Hc & _). unfold valid_date, valid_time in Hd, Hc. bool_split.
  pose proof (days_in_month_le y mo). lia.
Qed.

Lemma read_stamp_seconds t : valid_instant t → read_stamp (PStr (stamp t)) = Ok (t - dt_micro t).
Proof.
  intros Ht. unfold read_stamp, stamp. rewrite iso_seconds_reads by done.
  pose proof (date_small t Ht) as Hs. unfold iso_seconds, utc_text. destruct (dt_date t) as [[y mo] d].
  destruct Hs as (?&?&?&?&?&?). rewrite instant_shape by done. unfold instant. cbn. by rewrite Z.sub_0_r.
Qed.

Lemma fraction_millis v : 0 <= v <= 999 → fraction_then_z (String "." (pad3 v "Z")) = true.
Proof.
  intros Hv. unfold pad3, pad2. cbn [fraction_then_z str_span].
  destruct (digit_char_spec (v / 100)) as [-> _]; [lia|].
  destruct (digit_char_spec (v mod 100 / 10)) as [-> _]; [lia|].
  destruct (digit_char_spec ((v mod 100) mod 10)) as [-> _]; [lia|]. done.
Qed.
Lemma read_stamp_millis t : valid_instant t → read_stamp (PStr (isoformat t)) = Ok (t - t mod 1000).
Proof.
  intros Ht. unfold read_stamp, isoformat. rewrite iso_millis_reads by done.
  pose proof (date_small t Ht) as Hs. unfold iso_millis. destruct (dt_date t) as [[y mo] d].
  destruct Hs as (?&?&?&?&?&?). rewrite instant_shape by done.
  rewrite fraction_millis by (unfold dt_micro, second_us; lia). unfold instant. cbn. by rewrite Z.sub_0_r.
Qed.

(** ** Documents read back *)

Lemma set_equals_dict d names : set_equals (PDict d) names = Ok (same_set (dkeys d) names).
Proof.
  unfold set_equals. cbn [py_iter mbind res_bind].
  replace (existsb _ _) with false.
  2: { symmetry. apply not_true_iff_false. rewrite existsb_exists. intros (x & Hx & Hb).
       apply in_map_iff in Hx as (kv & <- & _). done. }
  f_equal. apply eq_true_iff_eq. rewrite same_set_spec, andb_true_iff, !forallb_forall. split.
  - intros [H1 H2] x. split.
    + intros Hx. apply list_elem_of_fmap in Hx as (kv & -> & Hkv).
      apply mem_str_spec, (H1 (PStr kv.1)), in_map_iff. exists kv. split; [done|]. by apply list_elem_of_In.
    + intros Hx%list_elem_of_In%H2. unfold py_in in Hx. apply existsb_exists in Hx as (y & Hy & Heq).
      apply in_map_iff in Hy as (kv & <- & Hkv). apply py_eqb_str in Heq. injection Heq as ->.
      apply list_elem_of_fmap. exists kv. split; [done|]. by apply list_elem_of_In.
  - intros Hx. split.
    + intros y Hy. apply in_map_iff in Hy as (kv & <- & Hkv). apply mem_str_spec, Hx, list_elem_of_fmap.
      exists kv. split; [done|]. by apply list_elem_of_In.
    + intros n Hn%list_elem_of_In%Hx. apply list_elem_of_fmap in Hn as (kv & -> & Hkv).
      apply existsb_exists. exists (PStr kv.1). split; [|apply String.eqb_refl].
      apply in_map_iff. exists kv. split; [done|]. by apply list_elem_of_In.
Qed.
Lemma same_set_reread d names : same_set (dkeys (reread d)) names = same_set (dkeys d) names.
Proof.
  apply eq_true_iff_eq. rewrite !same_set_spec. unfold reread. by setoid_rewrite dkeys_jsort.
Qed.
Lemma set_equals_reread d names : set_equals (jsort (PDict d)) names = Ok (same_set (dkeys d) names).
Proof.
  change (jsort (PDict d)) with (PDict (reread d)). by rewrite set_equals_dict, same_set_reread.
Qed.

Lemma require_ok b msg : require b msg = Ok () ↔ b = true.
Proof. unfold require. rewrite guard_cls_ok, negb_false_iff. done. Qed.

(** ** Declarations *)

(** Every declaration that [declare] makes, from admission reports of exactly the
    admitted roles and not for the superseded start, is accepted by
    [validate_declaration] after it was written and read back. *)
Theorem declaration_accepted start now record record_sha host_id endpoint_ reports attestation
    attestation_sha sdk_version d :
  declare start now record record_sha host_id endpoint_ reports attestation attestation_sha sdk_version
  = Ok d →
  valid_instant now → valid_instant (start + WINDOW_DURATION * second_us) →
  same_set (dkeys reports) ADMISSION_ROLES = true → read_stamp (PStr SUPERSEDED_START) ≠ Ok start →
  validate_declaration (reread d) = Ok ().
Proof.
  intros Hd Hnow Hend Hroles Hsup. unfold declare in Hd.
  apply res_bind_ok in Hd as ([] & Hw%require_ok & Hd).
  apply res_bind_ok in Hd as ([] & Hb%require_ok & Hd).
  apply andb_true_iff in Hb as [Hb1%Z.leb_le Hb2%Z.leb_le].
  do 10 apply res_bind_ok in Hd as (? & _ & Hd).
  match type of Hd with context [("host_boundary", ?h)] => generalize h as hb, Hd end. clear Hd. intros hb Hd.
  match type of Hd with context [("candidate", ?c)] => generalize c as cand, Hd end. clear Hd. intros cand Hd.
  injection Hd as Hd.
  assert (valid_instant start) as Hstart by (unfold valid_instant, WINDOW_DURATION, second_us in *; lia).
  assert (dt_micro start = 0 ∧ dt_micro (start + WINDOW_DURATION * second_us) = 0) as [Hms Hme].
  { apply whole_minute_floor in Hw as [_ Hw]. unfold dt_micro, minute_us, second_us, WINDOW_DURATION in *. lia. }
  assert (NoDup (dkeys d) ∧ dkeys d = dkeys d) as [Hnd _].
  { split; [|done]. subst d. apply (bool_decide_unpack _). by vm_compute. }
  assert (∀ k, get (reread d) k = jsort (get d k)) as Hget by (intros k; by apply get_jsort).
  unfold validate_declaration. rewrite same_set_reread, !Hget.
  replace (same_set (dkeys d) DECLARATION_KEYS) with true by (subst d; by vm_compute).
  replace (get d "start") with (PStr (stamp start)) by (by subst d).
  replace (get d "end") with (PStr (stamp (start + WINDOW_DURATION * second_us))) by (by subst d).
  replace (get d "declared_at") with (PStr (stamp now)) by (by subst d).
  replace (get d "task") with (PStr "TODO-0017") by (by subst d).
  replace (get d "schema_version") with (PInt 1) by (by subst d).
  replace (get d "create_only") with (PBool true) by (by subst d).
  replace (get d "secret_material_recorded") with (PBool false) by (by subst d).
  replace (get d "duration_seconds") with (PInt WINDOW_DURATION) by (by subst d).
  replace (get d "expected_samples") with (PInt WINDOW_SAMPLES) by (by subst d).
  replace (get d "maintenance_windows") with (PList []) by (by subst d).
  replace (get d "window_id") with (PStr (window_id start)) by (by subst d).
  replace (get d "admission") with (PDict reports) by (by subst d).
  clear Hget Hnd Hd. rewrite set_equals_reread, Hroles. cbn [jsort map].
  rewrite !read_stamp_seconds, Hms, Hme, !Z.sub_0_r by done.
  unfold require_res, and_res. cbn [mbind res_bind require guard_cls negb].
  replace (py_eqb (PStr "TODO-0017") _ && _ && _ && _) with true by done.
  replace (_ - start =? _) with true by (symmetry; apply Z.eqb_eq; lia). rewrite Hw. cbn [andb].
  replace (now - dt_micro now <? start) with true
    by (symmetry; apply Z.ltb_lt; unfold dt_micro, second_us in *; lia).
  replace (true && py_eqb (PInt WINDOW_DURATION) _ && _ && _) with true by done.
  replace (py_eqb (PStr (window_id start)) _) with true by (symmetry; apply String.eqb_refl).
  cbn [mbind res_bind require guard_cls negb].
  destruct (read_stamp (PStr SUPERSEDED_START)) as [c|e] eqn:Hc; [|by vm_compute in Hc].
  cbn [mbind res_bind]. destruct (Z.eqb_spec start c) as [->|]; done.
Qed.

(** ** Secrets *)

(** A text at a place of a document. *)
Inductive occurs : list string → py → list string → string → Prop :=
  | occurs_here location s : occurs location (PStr s) location s
  | occurs_key location d k v place s :
      (k, v) ∈ d → occurs (location ++ [k]) v place s → occurs location (PDict d) place s
  | occurs_item location l v place s :
      v ∈ l → occurs location v place s → occurs location (PList l) place s.

Lemma nonsecret_keys location d :
  nonsecret location (PDict d) = Ok () →
  ∀ k v, (k, v) ∈ d → k ∉ SECRET_KEYS ∧ nonsecret (location ++ [k]) v = Ok ().
Proof.
  intros Hd k v. cbn [nonsecret] in Hd. induction d as [|kv d IH]; [by intros []%elem_of_nil|].
  apply res_bind_ok in Hd as ([] & Hk%require_ok & Hd). apply res_bind_ok in Hd as ([] & Hv & Hd).
  intros [<-|Hin]%elem_of_cons; [|by apply IH]. split; [|done]. cbn [fst] in Hk.
  apply negb_true_iff in Hk. intros Hin%mem_str_spec. congruence.
Qed.
Lemma nonsecret_items location l :
  nonsecret location (PList l) = Ok () → ∀ v, v ∈ l → nonsecret location v = Ok ().
Proof.
  intros Hl v. cbn [nonsecret] in Hl. induction l as [|x l IH]; [by intros []%elem_of_nil|].
  apply res_bind_ok in Hl as ([] & Hv & Hl). intros [<-|Hin]%elem_of_cons; [done|by apply IH].
Qed.
Lemma nonsecret_occurs location v place s :
  occurs location v place s → nonsecret location v = Ok () →
  uuid_search s = false
  ∧ (contains "://" s = true → place = ["endpoint"] ∧ s = FROZEN_ENDPOINT)
  ∧ (str_in "@" s = true → place = ["deliveries"; "down"; "message_id"] ∨ place = ["deliveries"; "up"; "message_id"]).
Proof.
  induction 1 as [location s|location d k v place s Hin Hocc IH|location l v place s Hin Hocc IH]; intros Hn.
  - apply res_bind_ok in Hn as ([] & Ht%require_ok & Hn).
    apply andb_true_iff in Ht as [Hu%negb_true_iff Ht]. split; [done|]. split.
    + intros Hc. rewrite Hc in Ht. apply andb_true_iff in Ht as [H1%bool_decide_eq_true H2%String.eqb_eq]. done.
    + intros Hat. rewrite Hat in Hn. apply require_ok, andb_true_iff in Hn as [Hn _].
      apply orb_true_iff in Hn as [Hn%bool_decide_eq_true|Hn%bool_decide_eq_true]; auto.
  - by apply IH, (nonsecret_keys _ _ Hn k v Hin).
  - by apply IH, (nonsecret_items _ _ Hn v Hin).
Qed.

(** ** The drill *)

(** A delivery of a document: its message and when it was seen. *)
Definition delivered_between (deliveries : py) (state : string) (id : py) (low high : Z) : Prop :=
  ∃ delivery observed, vitem deliveries state = Ok delivery ∧ vitem delivery "message_id" = Ok id
  ∧ (vitem delivery "observed_at" ≫= read_stamp) = Ok observed ∧ low <= observed <= high.

Lemma delivery_id_sound deliveries state low high id :
  delivery_id deliveries state low high = Ok id → delivered_between deliveries state id low high.
Proof.
  unfold delivery_id. intros Hd. apply res_bind_ok in Hd as (delivery & H1 & Hd).
  apply res_bind_ok in Hd as ([] & _ & Hd). apply res_bind_ok in Hd as (i & H2 & Hd).
  apply res_bind_ok in Hd as ([] & _ & Hd). apply res_bind_ok in Hd as (observed & H3 & Hd).
  apply res_bind_ok in Hd as ([] & H4%require_ok & [= <-]).
  apply andb_true_iff in H4 as [H4%Z.leb_le H5%Z.leb_le]. by exists delivery, observed.
Qed.

(** C37: An accepted attestation proves the drill: the heartbeat was stopped after it
    was armed, the provider reported the outage at least 90 seconds later, the
    heartbeat was armed again and the provider reported the recovery, in this
    order and before the attestation, which is not from the future; both mails
    arrived between their transition and the attestation and are different ones;
    and no text of the document is a URL other than the frozen endpoint, contains a
    UUID, or contains an address outside the two message identities. *)
Theorem attestation_sound value now :
  validate_attestation value now = Ok () →
  ∃ t created down up,
    drill_times (get value "drill") = Ok t ∧ read_stamp (get value "created_at") = Ok created
    ∧ dr_armed t <= dr_stopped t ∧ dr_stopped t + 90 * second_us <= dr_down t
    ∧ dr_down t < dr_rearmed t < dr_up t ∧ dr_up t <= created <= now
    ∧ delivered_between (get value "deliveries") "down" down (dr_down t) created
    ∧ delivered_between (get value "deliveries") "up" up (dr_up t) created
    ∧ py_eqb down up = false
    ∧ ∀ place s, occurs [] (PDict value) place s →
        uuid_search s = false
        ∧ (contains "://" s = true → place = ["endpoint"] ∧ s = FROZEN_ENDPOINT)
        ∧ (str_in "@" s = true → place = ["deliveries"; "down"; "message_id"]
                                 ∨ place = ["deliveries"; "up"; "message_id"]).
Proof.
  unfold validate_attestation. intros Hv.
  apply res_bind_ok in Hv as ([] & _ & Hv). apply res_bind_ok in Hv as ([] & Hsec & Hv).
  do 3 apply res_bind_ok in Hv as (? & _ & Hv). apply res_bind_ok in Hv as (t & Ht & Hv).
  apply res_bind_ok in Hv as ([] & Ho%require_ok & Hv). apply res_bind_ok in Hv as ([] & Hg%require_ok & Hv).
  apply res_bind_ok in Hv as (created & Hc & Hv). apply res_bind_ok in Hv as ([] & Hn%require_ok & Hv).
  apply res_bind_ok in Hv as (? & _ & Hv). apply res_bind_ok in Hv as (down & Hd%delivery_id_sound & Hv).
  apply res_bind_ok in Hv as (up & Hu%delivery_id_sound & Hv).
  apply res_bind_ok in Hv as ([] & Hne%require_ok & _).
  exists t, created, down, up. unfold drill_ordered in Ho.
  rewrite !andb_true_iff, !Z.leb_le, !Z.ltb_lt in Ho. apply Z.leb_le in Hg.
  apply andb_true_iff in Hn as [Hn1%Z.leb_le Hn2%Z.leb_le]. apply negb_true_iff in Hne.
  do 6 (split; [done || lia|]). do 3 (split; [done|]).
  intros place s Hocc. by eapply nonsecret_occurs.
Qed.

(** ** The final aggregate *)

Lemma and_res_ok a b : and_res a b = Ok true ↔ a = Ok true ∧ b = Ok true.
Proof. unfold and_res. destruct a as [[]|]; cbn; naive_solver. Qed.
Lemma require_res_ok a msg : require_res a msg = Ok () ↔ a = Ok true.
Proof.
  unfold require_res. destruct a as [b|]; [|done]. cbn [mbind res_bind]. rewrite require_ok. naive_solver.
Qed.
Lemma item_get d k v : item d k = Ok v → get d k = v.
Proof. unfold item, get, get_or. destruct (dlookup k d); [|done]. by intros [= ->]. Qed.

(** The report as the window's validators read it. *)
Definition written_report (r : canary_report) (generated : string) : pydict :=
  report_py r ++ [("window", PStr "30d"); ("generated_at", PStr generated)].
Lemma written_report_keys r generated : NoDup (dkeys (written_report r generated)).
Proof. apply (bool_decide_unpack _). by vm_compute. Qed.

(** The period of an accepted aggregate is the declared one. *)
Lemma period_bound start end_ n declaration :
  valid_instant start → valid_instant end_ → whole_minute start = true → whole_minute end_ = true →
  let period := jsort (PDict [("start", PStr (isoformat start)); ("end", PStr (isoformat end_));
                              ("duration_seconds", PInt n)]) in
  and_res (set_equals period ["start"; "end"; "duration_seconds"])
    (and_res (a ← vitem period "start" ≫= read_stamp; b ← item declaration "start" ≫= read_stamp;
              Ok (a =? b))
    (and_res (a ← vitem period "end" ≫= read_stamp; b ← item declaration "end" ≫= read_stamp;
              Ok (a =? b))
             (d ← vitem period "duration_seconds"; Ok (py_eqb d (PInt WINDOW_DURATION))))) = Ok true →
  read_stamp (get declaration "start") = Ok start ∧ read_stamp (get declaration "end") = Ok end_
  ∧ n = WINDOW_DURATION.
Proof.
  intros Hs He [_ Hws]%whole_minute_floor [_ Hwe]%whole_minute_floor period.
  assert (vitem period "start" = Ok (PStr (isoformat start)) ∧ vitem period "end" = Ok (PStr (isoformat end_))
          ∧ vitem period "duration_seconds" = Ok (PInt n)) as (-> & -> & ->).
  { unfold period. change (jsort (PDict ?d)) with (PDict (reread d)). unfold vitem, item, reread.
    rewrite !dlookup_jsort by (apply (bool_decide_unpack _); by vm_compute). done. }
  cbn [mbind res_bind]. rewrite !read_stamp_millis by done.
  replace (start mod 1000) with 0 by (unfold minute_us, second_us in *; lia).
  replace (end_ mod 1000) with 0 by (unfold minute_us, second_us in *; lia). rewrite !Z.sub_0_r.
  cbn [mbind res_bind]. rewrite !and_res_ok. intros (_ & H1 & H2 & H3).
  destruct (item declaration "start") as [v|] eqn:Hv; [|done]. cbn [mbind res_bind] in H1.
  destruct (read_stamp v) as [b|] eqn:Hb; [|done]. cbn in H1. injection H1 as ->%Z.eqb_eq.
  destruct (item declaration "end") as [w|] eqn:Hw; [|done]. cbn [mbind res_bind] in H2.
  destruct (read_stamp w) as [c|] eqn:Hc; [|done]. cbn in H2. injection H2 as ->%Z.eqb_eq.
  rewrite (item_get _ _ _ Hv), (item_get _ _ _ Hw). split; [done|]. split; [done|].
  injection H3 as H3. by apply Z.eqb_eq in H3.
Qed.

(** What a report that passes without maintenance says of the evidence. *)
Lemma passing_evidence root start end_ store m invalid endpoints latencies :
  whole_minute start = true →
  collect start end_ store (sorted_paths (sample_paths root store)) [] [] = Ok (m, invalid) →
  rp_overall_pass (make_report start end_ [] m invalid endpoints latencies) = true →
  (∀ p, p ∈ sample_paths root store → ∃ sample t,
     node_json p (find_node p store) = Ok sample ∧ scheduled sample = Ok t
     ∧ (start <= t < end_ → contract sample))
  ∧ ∀ t, ¬ run_of (unrecorded root start end_ store) t 3.
Proof.
  intros Hs Hc. cbn [rp_overall_pass make_report]. rewrite !andb_true_iff, bool_decide_eq_true.
  intros ((((_ & ->) & _) & _) & Hgap%Z.leb_le). split.
  - destruct (collect_spec _ _ _ _ _ _ _ _ Hc NoDup_nil_2) as (_ & _ & _ & _ & H5).
    destruct (H5 eq_refl) as [_ Hall]. setoid_rewrite sorted_paths_elem in Hall.
    intros p Hp. destruct (Hall p Hp) as (x & t & Hn & Hsch & Hx). exists x, t. naive_solver.
  - intros t Hrun. assert (3 <= 2); [|lia]. etransitivity; [|exact Hgap].
    destruct (iter_minutes_spec start end_ Hs) as [Hon _].
    apply (max_gap_is_longest start); [by do 2 apply on_minutes_filter|done|]. exists t.
    intros i Hi. apply list_elem_of_filter. split; [done|].
    rewrite (missing_elem _ _ _ _ _ _ _ Hs Hc). by apply Hrun.
Qed.

(** When the window accepts the 30-day aggregate that the canary made, written
    and read back, the aggregate is about exactly the declared window, which is 30
    days long, no maintenance was subtracted, every sample file of the window is a
    valid sample, and among any three consecutive minutes of the window one has a
    valid sample. *)
Theorem aggregate_covers_window root start end_ windows generated declaration s :
  let store := c_store s in
  valid_instant start → valid_instant end_ →
  wp (aggregate_samples root start end_ windows)
    (λ r _, validate_aggregate (reread (written_report r generated)) declaration = Ok () →
       read_stamp (get declaration "start") = Ok start ∧ read_stamp (get declaration "end") = Ok end_
       ∧ end_ - start = WINDOW_DURATION * second_us ∧ windows = []
       ∧ (∀ p, p ∈ sample_paths root store → ∃ sample t,
            node_json p (find_node p store) = Ok sample ∧ scheduled sample = Ok t
            ∧ (start <= t < end_ → contract sample))
       ∧ ∀ t, ¬ run_of (unrecorded root start end_ store) t 3)
    (λ _ _, True) (λ _, True) s.
Proof.
  intros store Hstart Hend. apply wp_read; [|done]. intros r Hr. eapply aggregate_inv; [|exact Hr]. clear Hr.
  intros m invalid endpoints latencies Hs He Hlt Hc _ Hr Hv. fold store in Hc.
  assert (∀ k, get (reread (written_report r generated)) k = jsort (get (written_report r generated) k)) as Hget
    by (intros k; apply get_jsort, written_report_keys).
  assert (get_or (reread (written_report r generated)) "period" (PDict [])
          = jsort (get (written_report r generated) "period")) as Hperiod.
  { unfold get_or, reread. rewrite dlookup_jsort by apply written_report_keys. done. }
  unfold validate_aggregate in Hv. rewrite Hperiod in Hv. rewrite !Hget in Hv.
  apply res_bind_ok in Hv as ([] & H1%require_ok & Hv). apply res_bind_ok in Hv as ([] & H2%require_res_ok & Hv).
  apply res_bind_ok in Hv as ([] & _ & Hv). apply res_bind_ok in Hv as ([] & H4%require_ok & Hv).
  apply period_bound in H2 as (Hds & Hde & Hdur); [|by subst r..].
  apply andb_true_iff in H1 as [H1 _]. apply andb_true_iff in H4 as [H4 _].
  apply andb_true_iff in H4 as [_ H4]. subst r.
  assert (windows = []) as -> by (destruct windows; [done|by vm_compute in H4]).
  apply is_true_spec in H1. change (PBool (rp_overall_pass
    (make_report start end_ [] m invalid endpoints latencies)) = PBool true) in H1. injection H1 as Hpass.
  split; [done|]. split; [done|]. split; [|split; [done|exact (passing_evidence _ _ _ _ _ _ endpoints latencies Hs Hc Hpass)]].
  apply whole_minute_floor in Hs as [_ Hs], He as [_ He]. cbn [rp_start rp_end make_report] in Hdur.
  unfold minute_us, second_us in *. lia.
Qed.
