(* ===== verification/WindowWitnesses.v ===== *)
(** * The window on concrete documents: the theorems' hypotheses can hold *)
From S2P Require Import Prelude PyFloat PyValue PyTime PyDateTime PyPath PyJson PyEffect LifecycleCore Deadman Canary.
From S2P Require Import CanaryReport CanaryGaps CanaryReportFacts CanarySampleFacts Window WindowFacts.
#[local] Open Scope Z_scope.

Definition hex64_of (a : ascii) : string := str_repeat a 64.
Definition drill_subject : py := PDict (map (λ k, (k, PStr (hex64_of "c"))) SUBJECT_KEYS).
Definition drill_document : py :=
  PDict [("failure_mode", PStr "missing-heartbeat"); ("armed_at", PStr "2026-03-01T00:00:00Z");
         ("heartbeat_stopped_at", PStr "2026-03-01T00:10:00Z");
         ("provider_down_at", PStr "2026-03-01T00:12:30.5Z"); ("rearmed_at", PStr "2026-03-01T00:20:00Z");
         ("provider_up_at", PStr "2026-03-01T00:21:00Z");
         ("provider_unique_key", PStr (str_repeat "d"%char 40)); ("final_status", PStr "up")].
Definition delivery_document (id at_ : string) : py :=
  PDict [("message_id", PStr id); ("observed_at", PStr at_)].
Definition artifact_document (role : string) : py :=
  PDict [("role", PStr role); ("basename", PStr (role +:+ ".json")); ("size", PInt 512);
         ("sha256", PStr (hex64_of "e"))].
Definition drill_attestation : pydict :=
  [("schema_version", PInt 1); ("attestation_id", PStr "drill-20260301");
   ("created_at", PStr "2026-03-01T00:30:00Z"); ("create_only", PBool true);
   ("overall_pass", PBool true); ("provider", PStr "healthchecks.io"); ("subject", drill_subject);
   ("drill", drill_document);
   ("deliveries", PDict [("down", delivery_document "<m1@mail.example>" "2026-03-01T00:13:00Z");
                         ("up", delivery_document "<m2@mail.example>" "2026-03-01T00:22:00Z")]);
   ("artifacts", PList (map artifact_document ARTIFACT_ROLES));
   ("secret_material_recorded", PBool false)].

Definition declared_now : Z := ymd2ord 2026 3 1 * day_us + 2400 * second_us + 250000.
Definition declared_start : Z := ymd2ord 2026 3 1 * day_us + 3600 * second_us.
Definition frozen_record : pydict :=
  [("tag", PStr FROZEN_TAG); ("commit", PStr FROZEN_COMMIT); ("deployment_id", PStr FROZEN_DEPLOYMENT);
   ("runtime_asset_sha256", PStr (hex64_of "b")); ("host", PDict [("host_id_sha256", PStr (hex64_of "f"))])].
Definition report_of (role : string) : string * report_file :=
  (role, ReportFile
     (Ok ([("overall_pass", PBool true); ("created_at", PStr "2026-03-01T00:35:00Z")]
          ++ (if String.eqb role "deadman" then [("active", PBool true); ("subject", drill_subject)] else [])))
     (Ok role) (role +:+ ".json")).
Definition admitted_reports : res pydict := admission (map report_of ADMISSION_ROLES) declared_now false.
Definition declared : res pydict :=
  reports ← admitted_reports;
  declare declared_start declared_now frozen_record (hex64_of "c") (hex64_of "c") FROZEN_ENDPOINT reports
    drill_attestation (hex64_of "0") "4.2.0".
Definition the_reports : pydict := match admitted_reports with Ok d => d | Raise _ => [] end.
Definition the_declaration : pydict := match declared with Ok d => d | Raise _ => [] end.

(** An address in an artifact, a UUID and a short outage are each refused. *)
Example secret_refused :
  nonsecret ["artifacts"; "basename"] (PStr "a@b") = Raise (Exn CDeadmanError "email outside delivery Message-ID")
  ∧ nonsecret [] (PStr "x12345678-1234-1234-1234-123456789abc")
    = Raise (Exn CDeadmanError "secret-bearing evidence value").
Proof. vm_compute. done. Qed.
Example reused_report_refused :
  admission (map (λ r, (r, (report_of "backup").2)) ["lifecycle"; "observability"; "backup"; "retention"; "governance"]
             ++ [report_of "deadman"]) declared_now false
  = Raise (Exn CDeadmanError "the same report cannot satisfy multiple admission roles").
Proof. vm_compute. reflexivity. Qed.

(** A 30-day report that the window accepts, and the manifest of one sample. *)
Definition clean_report : canary_report :=
  Report declared_start (declared_start + WINDOW_DURATION * second_us)
    (get the_declaration "candidate") (PStr FROZEN_ENDPOINT) true 43200 43200 43200 0
    (rate 43200 43200) (rate 43200 43200) (rate 43200 43200) (rate 43200 43200) 0 [] [] [] [] 0 0 [] true.
Example clean_aggregate_accepted :
  validate_aggregate (reread (written_report clean_report "2026-03-31T01:00:00Z")) the_declaration = Ok ().
Proof. vm_compute. reflexivity. Qed.
Example manifest_of_one_sample :
  window_manifest (λ s, s)
    [SampleFile "samples/a.json" 7
       (Ok (("scheduled_minute", PStr (stamp declared_start)) ::
            map (λ k, (k, get the_declaration k)) ["candidate"; "host_boundary"; "endpoint"; "sdk_version"])) (Ok "s")]
    the_declaration
  = Ok [("sample_count", PInt 1);
        ("sample_manifest_sha256",
          PStr (json_compact (PList [PStr "samples/a.json"; PInt 7; PStr "s"]) +:+ newline))].
Proof. vm_compute. reflexivity. Qed.

(** ** Witnesses *)

Lemma declaration_accepted_witness :
  declared = Ok the_declaration ∧ validate_declaration (reread the_declaration) = Ok ().
Proof.
  split; [vm_compute; reflexivity|].
  apply (declaration_accepted declared_start declared_now frozen_record (hex64_of "c") (hex64_of "c")
           FROZEN_ENDPOINT the_reports drill_attestation (hex64_of "0") "4.2.0" the_declaration).
  - vm_compute. reflexivity.
  - by vm_compute.
  - by vm_compute.
  - vm_compute. reflexivity.
  - vm_compute. discriminate.
Defined.

Lemma attestation_sound_witness :
  validate_attestation drill_attestation declared_now = Ok ()
  ∧ ∃ t, drill_times (get drill_attestation "drill") = Ok t ∧ dr_stopped t + 90 * second_us <= dr_down t.
Proof.
  assert (validate_attestation drill_attestation declared_now = Ok ()) as H by (vm_compute; reflexivity).
  split; [exact H|].
  destruct (attestation_sound drill_attestation declared_now H) as (t & _ & _ & _ & H1 & _ & _ & H2 & _).
  exists t. split; [exact H1|exact H2].
Defined.

Lemma aggregate_covers_window_witness :
  valid_instant declared_start ∧ valid_instant (declared_start + WINDOW_DURATION * second_us)
  ∧ ∀ s, wp (aggregate_samples (py_path "/srv/canary") declared_start
               (declared_start + WINDOW_DURATION * second_us) [])
      (λ r _, validate_aggregate (reread (written_report r "2026-03-31T01:00:00Z")) the_declaration = Ok () →
         ∀ t, ¬ run_of (unrecorded (py_path "/srv/canary") declared_start
                          (declared_start + WINDOW_DURATION * second_us) (c_store s)) t 3)
      (λ _ _, True) (λ _, True) s.
Proof.
  assert (valid_instant declared_start) as H1 by (by vm_compute).
  assert (valid_instant (declared_start + WINDOW_DURATION * second_us)) as H2 by (by vm_compute).
  split; [exact H1|]. split; [exact H2|]. intros s.
  eapply wp_mono; [exact (aggregate_covers_window (py_path "/srv/canary") declared_start
    (declared_start + WINDOW_DURATION * second_us) [] "2026-03-31T01:00:00Z" the_declaration s H1 H2)|..].
  - intros r s' H Hv. exact (proj2 (proj2 (proj2 (proj2 (proj2 (H Hv)))))).
  - done.
  - done.
Defined.
