(* ===== verification/WindowComplete.v ===== *)
(** * A complete window is accepted

    The counterpart of the soundness of the aggregate: with one passing sample for
    every minute, of one candidate and one endpoint, the canary's report passes and
    the window accepts it. *)
From S2P Require Import Prelude PyFloat PyValue PyTime PyDateTime PyPath PyJson PyJsonFacts PyEffect PerfStatistics LifecycleCore Deadman Canary.
From S2P Require Import CanarySample CanaryReport CanaryGaps CanaryReportFacts CanarySampleFacts.
From S2P Require Import Window WindowFacts.
#[local] Open Scope Z_scope.

(** ** Percentiles *)

Lemma insert_float_length x l : length (insert_float x l) = S (length l).
Proof. induction l as [|y l IH]; [done|]. cbn [insert_float]. destruct (fltb x y); [done|]. cbn. by rewrite IH. Qed.
Lemma sort_floats_length l : length (sorted_floats l) = length l.
Proof.
  unfold sorted_floats. transitivity (length l + length (@nil pfloat))%nat; [|cbn; lia].
  generalize (@nil pfloat) as acc. induction l as [|x l IH]; intros acc; [done|]. cbn [fold_left].
  rewrite IH, insert_float_length. cbn. lia.
Qed.
Lemma py_index_within {A} (l : list A) i : 0 <= i < Z.of_nat (length l) → ∃ x, py_index l i = Ok x.
Proof.
  intros Hi. unfold py_index. destruct (lookup_lt_is_Some_2 l (Z.to_nat i)) as [x ->]; [lia|]. by exists x.
Qed.
Lemma percentile_30d values p :
  Z.of_nat (length values) = WINDOW_SAMPLES → p = f_half ∨ p = f_p99 →
  ∃ x, interpolated_percentile values p = Ok (Some x).
Proof.
  intros Hn Hp. unfold interpolated_percentile. destruct values as [|v values]; [done|].
  assert (fleb f_zero p && fleb p (f_of_Z 1) = true) as -> by (by destruct Hp as [->| ->]; vm_compute).
  cbn [negb guard_cls mbind res_bind]. rewrite sort_floats_length, Hn.
  set (position := fmul _ p).
  assert (0 <= f_floor position < WINDOW_SAMPLES ∧ 0 <= f_ceil position < WINDOW_SAMPLES) as [Hlo Hhi]
    by (unfold position; by destruct Hp as [->| ->]; vm_compute).
  rewrite <- Hn, <- (sort_floats_length (v :: values)) in Hlo, Hhi.
  destruct (py_index_within _ _ Hlo) as [a ->], (py_index_within _ _ Hhi) as [b ->]. eauto.
Qed.

(** ** Lists *)

Lemma sorted_NoDup l : StronglySorted Z.lt l → NoDup l.
Proof.
  induction 1 as [|t l Hl IH Ht]; [constructor|]. constructor; [|done].
  intros Hin. rewrite Forall_forall in Ht. specialize (Ht t Hin). lia.
Qed.
Lemma insert_path_perm p l : insert_path p l ≡ₚ p :: l.
Proof.
  induction l as [|q l IH]; [done|]. cbn [insert_path]. case_match; [|done]. rewrite IH. by constructor.
Qed.
Lemma sorted_paths_perm l : sorted_paths l ≡ₚ l.
Proof.
  unfold sorted_paths. transitivity (l ++ []); [|by rewrite app_nil_r]. generalize (@nil path) as acc.
  induction l as [|p l IH]; intros acc; [done|]. cbn [fold_left]. rewrite IH, insert_path_perm.
  by rewrite <- Permutation_middle.
Qed.

(** ** Complete samples *)

(** The latencies that the steps of a sample add to those of [name]. *)
Definition sample_latencies (name : string) (sample : pydict) : res (list (option pfloat)) :=
  raw ← item sample "steps"; steps ← py_iter raw; mapM (step_latency name) steps.

Record complete_sample (candidate_ : py) (endpoint_ : string) (t : Z) (sample : pydict) : Prop := {
  cs_scheduled : scheduled sample = Ok t;
  cs_contract : contract sample;
  cs_passed : passed sample = true;
  cs_candidate : get sample "candidate" = candidate_;
  cs_endpoint : get sample "endpoint" = PStr endpoint_;
  cs_latencies : ∀ name, name ∈ REQUIRED_STEPS →
    ∃ l x, sample_latencies name sample = Ok l ∧ omap id l = [x] }.

Lemma mapM_ok {A B} (f : A → res B) (P : A → B → Prop) l :
  (∀ x, x ∈ l → ∃ y, f x = Ok y ∧ P x y) → ∃ l', mapM f l = Ok l' ∧ Forall2 P l l'.
Proof.
  induction l as [|x l IH]; intros Hl; [by exists []|].
  destruct (Hl x) as (y & Hy & HP); [set_solver|]. destruct IH as (l' & Hl' & HF); [set_solver|].
  exists (y :: l'). cbn. rewrite Hy. cbn. rewrite Hl'. split; [done|by constructor].
Qed.

Section complete.
Variables (candidate_ : py) (endpoint_ : string) (sample_of : Z → pydict).
Let good (t : Z) : Prop := complete_sample candidate_ endpoint_ t (sample_of t).

Lemma latency_values_complete name ts :
  name ∈ REQUIRED_STEPS → Forall good ts →
  ∃ values, latency_values name (map sample_of ts) = Ok values ∧ length values = length ts.
Proof.
  intros Hname Hts. unfold latency_values.
  destruct (mapM_ok (sample_latencies name) (λ _ l, ∃ x : pfloat, omap id l = [x]) (map sample_of ts)) as (ls & Hls & HF).
  { intros x Hx. apply list_elem_of_fmap in Hx as (t & -> & Ht). rewrite Forall_forall in Hts.
    destruct (cs_latencies _ _ _ _ (Hts t Ht) name Hname) as (l & v & ? & ?). eauto. }
  change (mapM (λ sample, raw ← item sample "steps"; steps ← py_iter raw; mapM (step_latency name) steps)
            (map sample_of ts)) with (mapM (sample_latencies name) (map sample_of ts)).
  rewrite Hls. eexists. split; [done|]. rewrite <- (length_map sample_of ts). clear Hls Hts Hname.
  induction HF as [|x l xs ls [v Hv] HF IH]; [done|]. cbn [concat].
  rewrite omap_app, Hv. cbn. by rewrite IH.
Qed.

Lemma endpoints_complete ts acc :
  Forall good ts → acc = [] ∨ acc = [PStr endpoint_] → ts ≠ [] ∨ acc ≠ [] →
  endpoint_set acc (map sample_of ts) = Ok [PStr endpoint_].
Proof.
  intros Hts. revert acc. induction Hts as [|t ts Ht Hts IH]; intros acc Hacc Hne.
  { destruct Hacc as [->| ->]; [by destruct Hne|done]. }
  cbn [map endpoint_set]. rewrite (cs_endpoint _ _ _ _ Ht).
  destruct Hacc as [->| ->]; cbn [py_in existsb orb app].
  - apply IH; [by right|by right].
  - unfold py_in. cbn [existsb]. rewrite (String.eqb_refl endpoint_ : py_eqb (PStr endpoint_) (PStr endpoint_) = true).
    apply IH; [by right|by right].
Qed.

Lemma candidates_complete ts :
  Forall good ts → ts ≠ [] → candidate_texts (map sample_of ts) = [json_compact candidate_].
Proof.
  intros Hts Hne. unfold candidate_texts. rewrite map_map.
  assert (map (λ t, json_compact (get (sample_of t) "candidate")) ts = replicate (length ts) (json_compact candidate_)) as ->.
  { clear Hne. induction Hts as [|t ts Ht Hts IH]; [done|]. cbn. by rewrite (cs_candidate _ _ _ _ Ht), IH. }
  destruct ts as [|t ts]; [done|]. clear. cbn [length]. induction (length ts) as [|n IH]; [done|].
  change (replicate (S (S n)) ?x) with (x :: replicate (S n) x). cbn [remove_dups].
  case_decide as Hx; [exact IH|]. destruct Hx. cbn. set_solver.
Qed.

(** ** The report *)

Variables (root : path) (store : list (path * cnode)) (path_of : Z → path) (start : Z).
Let end_ : Z := start + WINDOW_DURATION * second_us.
Let minutes : list Z := iter_minutes start end_.
Hypothesis start_whole : whole_minute start = true.
Hypothesis listed : sample_paths root store ≡ₚ map path_of minutes.
Hypothesis readable : ∀ t, t ∈ minutes → node_json (path_of t) (find_node (path_of t) store) = Ok (sample_of t).
Hypothesis all_good : ∀ t, t ∈ minutes → good t.

Lemma end_whole : whole_minute end_ = true.
Proof.
  destruct (whole_minute_floor _ start_whole) as [_ Hm].
  unfold whole_minute, end_, dt_second, dt_micro, minute_us, second_us, WINDOW_DURATION in *.
  apply andb_true_iff. rewrite !Z.eqb_eq. clear - Hm. Z.to_euclidean_division_equations. lia.
Qed.
Lemma minutes_within t : t ∈ minutes → start <= t < end_.
Proof. intros Ht. by apply (iter_minutes_spec start end_ start_whole) in Ht as [? _]. Qed.
Lemma minutes_count : count minutes = WINDOW_SAMPLES.
Proof.
  unfold minutes. rewrite iter_minutes_count; [|exact start_whole|exact end_whole|unfold end_, WINDOW_DURATION, second_us; lia].
  unfold end_. replace (start + WINDOW_DURATION * second_us - start) with (WINDOW_DURATION * second_us) by lia. done.
Qed.

Lemma has_minute_of ts t : has_minute t (map (λ t, (t, sample_of t)) ts) = true ↔ t ∈ ts.
Proof.
  rewrite has_minute_spec. split.
  - intros [x Hx]. apply list_elem_of_fmap in Hx as (u & [= -> _] & Hu). done.
  - intros Ht. exists (sample_of t). apply list_elem_of_fmap. by exists t.
Qed.

Lemma collect_complete ts before :
  NoDup (before ++ ts) → (∀ t, t ∈ ts → t ∈ minutes) →
  collect start end_ store (map path_of ts) (map (λ t, (t, sample_of t)) before) []
  = Ok (map (λ t, (t, sample_of t)) (before ++ ts), []).
Proof.
  revert before. induction ts as [|t ts IH]; intros before Hnd Hin; [by rewrite app_nil_r|].
  cbn [map collect]. assert (t ∈ minutes) as Ht by (apply Hin; set_solver).
  destruct (all_good t Ht) as [Hsch (names & Hnames & Hreq & Hsecret) _ _ _ _].
  assert (judge start end_ (map (λ t, (t, sample_of t)) before) (path_of t) (find_node (path_of t) store)
          = Ok (VAccept t (sample_of t))) as ->.
  { unfold judge, judge_body. rewrite (readable t Ht). cbn [mbind res_bind].
    unfold scheduled in Hsch. destruct (item (sample_of t) "scheduled_minute") as [raw|]; [|done].
    cbn [mbind res_bind] in Hsch |- *. rewrite Hsch. cbn [mbind res_bind].
    destruct (minutes_within t Ht) as [H1%Z.leb_le H2%Z.ltb_lt]. rewrite H1, H2. cbn [andb negb].
    destruct (has_minute t _) eqn:Hm.
    { apply has_minute_of in Hm. apply NoDup_app in Hnd as (_ & Hno & _). destruct (Hno t Hm). set_solver. }
    rewrite Hnames. cbn [mbind res_bind]. rewrite Hreq. unfold not_false. by rewrite Hsecret. }
  cbn [mbind res_bind].
  replace (map (λ t, (t, sample_of t)) before ++ [(t, sample_of t)])
    with (map (λ t, (t, sample_of t)) (before ++ [t])) by (by rewrite map_app).
  rewrite IH; [by rewrite <- app_assoc|by rewrite <- app_assoc|set_solver].
Qed.

Lemma minutes_NoDup : NoDup minutes.
Proof. apply sorted_NoDup. by destruct (iter_minutes_spec start end_ start_whole) as [[Hs _] _]. Qed.

Lemma complete_report :
  ∃ ts latencies, ts ≡ₚ minutes
  ∧ mapM (latency_summary (map sample_of ts)) REQUIRED_STEPS = Ok latencies
  ∧ ∀ s, c_store s = store →
    aggregate_samples root start end_ [] s
    = (ORet (make_report start end_ [] (map (λ t, (t, sample_of t)) ts) [] [PStr endpoint_] latencies), s).
Proof.
  assert (sorted_paths (sample_paths root store) ≡ₚ map path_of minutes) as Hsorted.
  { rewrite <- listed. apply sorted_paths_perm. }
  apply Permutation_map_inv in Hsorted as (ts & Hsorted & Hts). symmetry in Hts.
  assert (∀ t, t ∈ ts → t ∈ minutes) as Hin by (intros t; by rewrite Hts).
  assert (Forall good ts) as Hgood by (apply Forall_forall; auto).
  assert (ts ≠ []) as Hne.
  { intros ->. apply Permutation_nil_l in Hts. pose proof minutes_count as Hc. by rewrite <- Hts in Hc. }
  destruct (mapM_ok (latency_summary (map sample_of ts)) (λ _ _, True) REQUIRED_STEPS) as (latencies & Hlat & _).
  { intros name Hname. unfold latency_summary.
    destruct (latency_values_complete name ts Hname Hgood) as (values & -> & Hlen). cbn [mbind res_bind].
    assert (Z.of_nat (length values) = WINDOW_SAMPLES) as Hn.
    { rewrite Hlen, Hts. exact minutes_count. }
    destruct (percentile_30d values f_half Hn) as [a ->]; [by left|].
    destruct (percentile_30d values f_p99 Hn) as [b ->]; [by right|]. eauto. }
  exists ts, latencies. split; [done|]. split; [done|]. intros s Hs. unfold aggregate_samples, e_read, e_lift. rewrite Hs.
  rewrite start_whole, end_whole. cbn [negb orb].
  assert (end_ <=? start = false) as -> by (apply Z.leb_gt; unfold end_, WINDOW_DURATION, second_us; lia).
  cbn [guard_ce guard_cls mbind res_bind]. rewrite Hsorted.
  pose proof (collect_complete ts []) as Hcollect. cbn [map app] in Hcollect.
  rewrite Hcollect by (done || (rewrite Hts; apply minutes_NoDup)).
  cbn [mbind res_bind app]. rewrite map_map. cbn [snd]. change (map (λ x, sample_of x) ts) with (map sample_of ts).
  rewrite endpoints_complete; [|done|by left|by left]. cbn [mbind res_bind]. by rewrite Hlat.
Qed.

(** *** What it says *)

Section report.
Variables (ts : list Z) (latencies : list (string * latency)).
Hypothesis ts_minutes : ts ≡ₚ minutes.
Let r : canary_report :=
  make_report start end_ [] (map (λ t, (t, sample_of t)) ts) [] [PStr endpoint_] latencies.

Lemma report_count : count ts = WINDOW_SAMPLES.
Proof. unfold count. rewrite ts_minutes. exact minutes_count. Qed.
Lemma report_good : Forall good ts.
Proof. apply Forall_forall. intros t. rewrite ts_minutes. apply all_good. Qed.
Lemma nothing_missing :
  filter (λ t, has_minute t (map (λ t, (t, sample_of t)) ts) = false) minutes = [].
Proof.
  assert (∀ l, (∀ t, t ∈ l → t ∈ ts) →
    filter (λ t, has_minute t (map (λ t, (t, sample_of t)) ts) = false) l = []) as Hgen.
  { induction l as [|t l IH]; intros Hl; [done|]. rewrite filter_cons, decide_False; [apply IH; set_solver|].
    rewrite (proj2 (has_minute_of ts t)); [done|]. apply Hl. set_solver. }
  apply Hgen. intros t. by rewrite ts_minutes.
Qed.
Lemma all_passed : Forall (λ x, passed x.2 = true) (map (λ t, (t, sample_of t)) ts).
Proof. apply Forall_map. eapply Forall_impl; [apply report_good|]. intros t Ht. cbn. apply Ht. Qed.

Definition full_report (latencies : list (string * latency)) : canary_report :=
  let full := rate WINDOW_SAMPLES WINDOW_SAMPLES in
  Report start end_ (jsort candidate_) (PStr endpoint_) true WINDOW_SAMPLES WINDOW_SAMPLES WINDOW_SAMPLES 0
    full full full full 0 [] latencies [] [] 0 0 [] true.

Lemma complete_report_is : r = full_report latencies.
Proof.
  assert (ts ≠ []) as Hne by (intros Hx; pose proof report_count as Hc; by rewrite Hx in Hc).
  unfold r, make_report. unfold by_minute. fold minutes.
  rewrite nothing_missing, (filter_all (λ x, passed x.2 = true)) by apply all_passed.
  rewrite !map_map. cbn [snd fst]. rewrite map_id.
  rewrite candidates_complete by (done || apply report_good).
  rewrite !(filter_all (λ t, in_maintenance [] t = false)) by (by apply Forall_forall).
  rewrite (filter_all (λ s, passed s = true)).
  2: { apply Forall_map. eapply Forall_impl; [apply report_good|]. intros t Ht. apply Ht. }
  assert (∀ {A} (f : Z → A), count (map f ts) = WINDOW_SAMPLES) as Hcount
    by (intros A f; unfold count; rewrite length_map; exact report_count).
  rewrite !Hcount, report_count, minutes_count.
  assert (match map (λ x, sample_of x) ts with sample :: _ => jsort (get sample "candidate") | [] => PNone end
          = jsort candidate_) as Hcand.
  { pose proof report_good as Hg. destruct ts as [|t l]; [done|]. cbn [map].
    apply Forall_cons in Hg as [Ht _]. by rewrite (cs_candidate _ _ _ _ Ht). }
  rewrite Hcand. reflexivity.
Qed.
End report.

Lemma complete_aggregate :
  ∃ ts latencies, ts ≡ₚ minutes
  ∧ mapM (latency_summary (map sample_of ts)) REQUIRED_STEPS = Ok latencies
  ∧ ∀ s, c_store s = store → aggregate_samples root start end_ [] s = (ORet (full_report latencies), s).
Proof.
  destruct complete_report as (ts & latencies & Hts & Hlat & Hrun). exists ts, latencies.
  split; [done|]. split; [done|]. intros s Hs. by rewrite (Hrun s Hs), complete_report_is.
Qed.
End complete.

(** ** Acceptance *)

(** One passing sample of the candidate and endpoint for every minute of the 30
    days, and no other sample file. *)
Definition complete_evidence (root : path) (store : list (path * cnode)) (start : Z) (candidate_ : py)
    (endpoint_ : string) : Prop :=
  let minutes := iter_minutes start (start + WINDOW_DURATION * second_us) in
  ∃ path_of sample_of,
    sample_paths root store ≡ₚ map path_of minutes
    ∧ (∀ t, t ∈ minutes → node_json (path_of t) (find_node (path_of t) store) = Ok (sample_of t))
    ∧ (∀ t, t ∈ minutes → complete_sample candidate_ endpoint_ t (sample_of t)).

Lemma period_accepted start declaration :
  valid_instant start → valid_instant (start + WINDOW_DURATION * second_us) → whole_minute start = true →
  (item declaration "start" ≫= read_stamp) = Ok start →
  (item declaration "end" ≫= read_stamp) = Ok (start + WINDOW_DURATION * second_us) →
  let period := jsort (PDict [("start", PStr (isoformat start));
    ("end", PStr (isoformat (start + WINDOW_DURATION * second_us)));
    ("duration_seconds", PInt ((start + WINDOW_DURATION * second_us - start) / second_us))]) in
  and_res (set_equals period ["start"; "end"; "duration_seconds"])
    (and_res (a ← vitem period "start" ≫= read_stamp; b ← item declaration "start" ≫= read_stamp;
              Ok (a =? b))
    (and_res (a ← vitem period "end" ≫= read_stamp; b ← item declaration "end" ≫= read_stamp;
              Ok (a =? b))
             (d ← vitem period "duration_seconds"; Ok (py_eqb d (PInt WINDOW_DURATION))))) = Ok true.
Proof.
  intros Hs He [_ Hm]%whole_minute_floor Hds Hde period.
  assert (vitem period "start" = Ok (PStr (isoformat start))
    ∧ vitem period "end" = Ok (PStr (isoformat (start + WINDOW_DURATION * second_us)))
    ∧ vitem period "duration_seconds" = Ok (PInt ((start + WINDOW_DURATION * second_us - start) / second_us)))
    as (-> & -> & ->).
  { unfold period. change (jsort (PDict ?d)) with (PDict (reread d)). unfold vitem, item, reread.
    rewrite !dlookup_jsort by (apply (bool_decide_unpack _); by vm_compute). done. }
  unfold period. rewrite set_equals_reread. rewrite Hds, Hde. cbn [mbind res_bind].
  rewrite !read_stamp_millis by done.
  assert (start mod 1000 = 0 ∧ (start + WINDOW_DURATION * second_us) mod 1000 = 0
          ∧ (start + WINDOW_DURATION * second_us - start) / second_us = WINDOW_DURATION) as (-> & -> & ->).
  { unfold minute_us, second_us, WINDOW_DURATION in *. clear - Hm. Z.to_euclidean_division_equations. lia. }
  rewrite !Z.sub_0_r. cbn [mbind res_bind and_res]. by rewrite !Z.eqb_refl.
Qed.

Lemma written_fields r generated :
  get (written_report r generated) "overall_pass" = PBool (rp_overall_pass r)
  ∧ get (written_report r generated) "window" = PStr "30d"
  ∧ get (written_report r generated) "period"
    = PDict [("start", PStr (isoformat (rp_start r))); ("end", PStr (isoformat (rp_end r)));
             ("duration_seconds", PInt ((rp_end r - rp_start r) / second_us))]
  ∧ get (written_report r generated) "candidate" = rp_candidate r
  ∧ get (written_report r generated) "endpoint" = rp_endpoint r
  ∧ get (written_report r generated) "candidate_consistent" = PBool (rp_candidate_consistent r)
  ∧ get (written_report r generated) "expected_samples" = PInt (rp_expected_samples r)
  ∧ get (written_report r generated) "maintenance_windows" = PList (map maintenance_py (rp_maintenance_windows r))
  ∧ get (written_report r generated) "invalid_samples" 
    = PList (map (λ x, PDict [("path", PStr (path_str x.1)); ("reason", PStr x.2)]) (rp_invalid_samples r))
  ∧ get (written_report r generated) "coverage_rate" = PFloat (rp_coverage_rate r)
  ∧ get (written_report r generated) "recorded_success_rate" = PFloat (rp_recorded_success_rate r)
  ∧ get (written_report r generated) "availability_including_approved_maintenance"
    = PFloat (rp_availability_including r)
  ∧ get (written_report r generated) "availability_excluding_approved_maintenance"
    = PFloat (rp_availability_excluding r)
  ∧ get (written_report r generated) "max_nonmaintenance_gap_minutes"
    = PInt (rp_max_nonmaintenance_gap_minutes r).
Proof. split_and!; reflexivity. Qed.

Lemma then_ok {A} (m : res unit) (f : unit → res A) x : m = Ok () → f () = Ok x → (m ≫= f) = Ok x.
Proof. by intros ->. Qed.

(** C40: A complete window is accepted.  With one passing sample of the declared
    candidate and endpoint for every minute of the declared 30 days, and no other
    sample file, the canary's report on these days is made, passes, and, written and
    read back, is accepted by [validate_aggregate]. *)
Theorem complete_window_accepted root s start candidate_ endpoint_ d c :
  valid_instant start → valid_instant (start + WINDOW_DURATION * second_us) → whole_minute start = true →
  complete_evidence root (c_store s) start candidate_ endpoint_ →
  (item d "start" ≫= read_stamp) = Ok start →
  (item d "end" ≫= read_stamp) = Ok (start + WINDOW_DURATION * second_us) →
  item d "candidate" = Ok c → py_eqb (jsort (jsort candidate_)) c = true →
  item d "endpoint" = Ok (PStr endpoint_) →
  wp (aggregate_samples root start (start + WINDOW_DURATION * second_us) [])
    (λ r s', s' = s ∧ rp_overall_pass r = true
       ∧ ∀ generated, validate_aggregate (reread (written_report r generated)) d = Ok ())
    (λ _ _, False) (λ _, False) s.
Proof.
  intros Hs He Hw (path_of & sample_of & Hl & Hread & Hgood) Hds Hde Hdc Hcand Hep.
  destruct (complete_aggregate candidate_ endpoint_ sample_of root (c_store s) path_of start Hw Hl Hread Hgood)
    as (ts & latencies & _ & _ & Hrun).
  unfold wp. rewrite (Hrun s eq_refl). split; [done|].
  set (r := full_report _ _ _ _). split; [done|]. intros generated.
  assert (∀ k, get (reread (written_report r generated)) k = jsort (get (written_report r generated) k)) as Hget
    by (intros k; apply get_jsort, written_report_keys).
  assert (get_or (reread (written_report r generated)) "period" (PDict [])
          = jsort (get (written_report r generated) "period")) as Hperiod.
  { unfold get_or, reread. rewrite dlookup_jsort by apply written_report_keys. done. }
  unfold validate_aggregate. rewrite Hperiod. cbn [slo_checks SLO_KEYS]. rewrite !Hget.
  destruct (written_fields r generated) as (-> & -> & -> & -> & -> & -> & -> & -> & -> & -> & -> & -> & -> & ->).
  change (rp_candidate r) with (jsort candidate_). change (rp_endpoint r) with (PStr endpoint_).
  apply then_ok; [done|]. apply then_ok; [apply require_res_ok; by apply period_accepted|].
  apply then_ok. { apply require_res_ok. rewrite Hdc, Hep. cbn [mbind res_bind]. rewrite Hcand.
    cbn [and_res mbind res_bind jsort]. by rewrite (String.eqb_refl endpoint_ : py_eqb (PStr endpoint_) (PStr endpoint_) = true). }
  apply then_ok; [done|]. apply then_ok; [|done]. by vm_compute.
Qed.
