(* ===== verification/WindowManager.v ===== *)
(** * The controller of the immutable window

    Models [src/scripts/tools/manage_immutable_window.py], but for [install], and
    the files of [src/scripts/lib/deadman_evidence.py]: a window is declared,
    bound to a public comment and to a timer, audited at its start, aggregated by
    the canary after its end, and closed or superseded.

    The state is what the controller writes: the window directories with their
    records and staging files, and the systemd units.  A record is the document it
    holds, with sorted keys, and its number of hard links.  Every system call that
    writes can fail or be the last one of the process.  Everything else (clocks,
    documents elsewhere, their metadata and bytes, the commands) is observed from
    the runtime at a numbered event; one scan of the samples and one admission see
    one moment.  The aggregation by the canary is its own model, run on the
    evidence of that moment.  Only the controller and the canary that it starts
    write to the windows, as root, and a window directory is not [..]. *)
From S2P Require Import Prelude PyFloat PyValue PyTime PyDateTime PyPath PyJson PyEffect LifecycleCore Deadman Canary.
From S2P Require Import CanarySample CanaryReport CanaryMain Window.
#[local] Open Scope Z_scope.

(** ** State and runtime *)

Record file_meta := FileMeta {
  fm_regular : bool; fm_nlink : Z; fm_uid : Z; fm_mode : Z; fm_size : Z }.

Record wrecord := WRecord { wd_value : py; wd_links : Z }.
Definition record_key : Type := string * string.

(** A staging file knows the record that it was linked to. *)
Record wstate := WState {
  w_ev : nat;
  w_windows : gset string;
  w_records : gmap record_key wrecord;
  w_staging : gmap record_key (option string);
  w_units : gmap string string }.

Class WindowRuntime := {
  wr_sha256 : string → string;
  wr_now : nat → Z;
  wr_token : nat → string;
  wr_fault : nat → cfault;
  (** How much of an interrupted write is on disk. *)
  wr_takes : nat → nat;
  wr_linux : bool;
  wr_euid : Z;
  wr_symlink : nat → path → bool;
  wr_lock : nat → res unit;
  wr_machine_id : nat → res string;
  (** The owner and the mode of a window directory. *)
  wr_directory : nat → string → Z * Z;
  (** Documents of the host. *)
  wr_documents : nat → list (path * cnode);
  wr_meta : nat → path → file_meta;
  wr_bytes : nat → path → res string;
  wr_canary_uid : nat → Z;
  wr_run : nat → list string → res Z;
  wr_gh : nat → string → res (Z * string);
  wr_canary : nat → CanaryRuntime;
  wr_canary_links : nat → Z;
  wr_executable : path;
  wr_libraries : path * path }.

Abbreviation WM := (eff wstate).

Definition wtick (s : wstate) : wstate :=
  WState (S (w_ev s)) (w_windows s) (w_records s) (w_staging s) (w_units s).
Definition with_records f (s : wstate) : wstate :=
  WState (w_ev s) (w_windows s) (f (w_records s)) (w_staging s) (w_units s).
Definition with_staging f (s : wstate) : wstate :=
  WState (w_ev s) (w_windows s) (w_records s) (f (w_staging s)) (w_units s).
Definition with_units f (s : wstate) : wstate :=
  WState (w_ev s) (w_windows s) (w_records s) (w_staging s) (f (w_units s)).
Definition add_window (w : string) (s : wstate) : wstate :=
  WState (w_ev s) ({[w]} ∪ w_windows s) (w_records s) (w_staging s) (w_units s).

(** What the outside shows at this event. *)
Definition observed {A} (f : nat → A) : WM A := λ s, (ORet (f (w_ev s)), wtick s).
Definition observed_res {A} (f : nat → res A) : WM A := r ← observed f; e_lift r.

Definition WINDOW_ROOT : path := py_path "/var/lib/boost-gateway-immutable-windows".
Definition CANARY : path := py_path "/var/lib/boost-gateway-canary".
Definition RECORD : path := py_path "/etc/boost-gateway-canary/deployment-record.json".
Definition PYTHON : string := "/opt/boost-gateway-canary/venv/bin/python".
Definition CANARY_CLI : string := "/usr/local/libexec/boost-gateway-canary/external_business_canary.py".
Definition SYSTEMD : path := py_path "/etc/systemd/system".
Definition INSTALLED : path := py_path "/usr/local/libexec/boost-gateway-window".

Definition record_path (w name : string) : path := under WINDOW_ROOT [w; name].
Definition unit_path (name : string) : path := p_join SYSTEMD name.

Section manager.
Context `{WindowRuntime}.

Definition utcnow : WM Z := observed wr_now.
Definition required (condition : bool) (msg : string) : WM unit := e_lift (require condition msg).
Definition required_res (condition : res bool) (msg : string) : WM unit :=
  e_lift (require_res condition msg).

(** ** Reading *)

(** The checks of [secure_read] on the open file; its content is as long as its
    metadata says. *)
Definition secure_checks (maximum : Z) (secret : bool) (owner_uid : option Z) (m : file_meta) : res unit :=
  require (fm_regular m && (fm_nlink m =? 1)) "input must be a regular single-link file";;
  require ((fm_uid m =? 0) || (fm_uid m =? wr_euid)
           || match owner_uid with Some o => fm_uid m =? o | None => false end)
    "input owner is not trusted";;
  require (Z.land (fm_mode m) (if secret then 63 else 18) =? 0) "unsafe input permissions";;
  require (fm_size m <=? maximum) "input exceeds size limit".

Definition loads_object (n : cnode) : res pydict :=
  match n with
  | NDoc (PDict d) => Ok d
  | NDoc _ => Raise (Exn CDeadmanError "evidence must be an object")
  | NUnreadable => Raise (Exn COSError "cannot be opened")
  | NInvalid | NNotText => Raise (Exn CDeadmanError "invalid evidence JSON")
  | NNotFile => Raise (Exn CDeadmanError "input must be a regular single-link file")
  end.
(** The documents that are not under the root of the windows. *)
Definition outside (n : nat) : list (path * cnode) :=
  filter (λ x, parts_below (p_parts WINDOW_ROOT) (p_parts x.1) = None) (wr_documents n).
(** [read_json] of a file that is not a record of a window. *)
Definition document_at (n : nat) (owner_uid : option Z) (p : path) : res pydict :=
  require (is_absolute p) "input must be an absolute path";;
  match find_node p (outside n) with
  | None => Raise (Exn CFileNotFoundError "No such file or directory")
  | Some NUnreadable => Raise (Exn COSError "cannot be opened")
  | Some node => secure_checks MAX_JSON false owner_uid (wr_meta n p);; loads_object node
  end.
Definition outside_json (p : path) : WM pydict := observed_res (λ n, document_at n None p).
Definition digest_at (n : nat) (p : path) : res string := b ← wr_bytes n p; Ok (wr_sha256 b).
Definition outside_digest (p : path) : WM string := observed_res (λ n, digest_at n p).

Definition record_text (v : py) : string := json_dumps v +:+ newline.
Definition record_digest_of (v : py) : string := wr_sha256 (record_text v).
Definition record_meta (r : wrecord) : file_meta :=
  FileMeta true (wd_links r) 0 416 (Z.of_nat (String.length (record_text (wd_value r)))).

Definition read_record (m : gmap record_key wrecord) (w name : string) : res pydict :=
  match m !! (w, name) with
  | None => Raise (Exn CFileNotFoundError "No such file or directory")
  | Some r => secure_checks MAX_JSON false None (record_meta r);; loads_object (NDoc (wd_value r))
  end.
Definition record_json (w name : string) : WM pydict := e_read (λ s, read_record (w_records s) w name).
Definition record_digest (w name : string) : WM string := e_read (λ s,
  match w_records s !! (w, name) with
  | None => Raise (Exn CFileNotFoundError "No such file or directory")
  | Some r => Ok (record_digest_of (wd_value r))
  end).
Definition record_exists (w name : string) : WM bool :=
  e_gets (λ s, bool_decide (is_Some (w_records s !! (w, name)))).
Definition unit_digest (name : string) : WM string := e_read (λ s,
  match w_units s !! name with
  | None => Raise (Exn CFileNotFoundError "No such file or directory")
  | Some text => Ok (wr_sha256 text)
  end).

(** ** Writing *)

(** A system call: it is done, fails without effect, or the process dies. *)
Definition wsys (f : wstate → wstate) : WM unit := λ s,
  match wr_fault (w_ev s) with
  | FOk => (ORet (), f (wtick s))
  | FErr msg => (ORaise (Exn COSError msg), wtick s)
  | FDie after => (OCrash, if after then f (wtick s) else wtick s)
  end.

Definition open_staging (k : record_key) : WM unit :=
  taken ← e_gets (λ s, bool_decide (is_Some (w_staging s !! k)));
  if (taken : bool) then e_raise CFileExistsError "File exists"
  else wsys (with_staging <[k := None]>).
Definition link_record (k : record_key) (name : string) (value : py) : WM unit :=
  taken ← e_gets (λ s, bool_decide (is_Some (w_records s !! (k.1, name))));
  if (taken : bool) then e_raise CFileExistsError "File exists"
  else wsys (λ s, with_records <[(k.1, name) := WRecord value 2]> (with_staging <[k := Some name]> s)).
Definition unlink_staging (k : record_key) (s : wstate) : wstate :=
  let s' := with_staging (delete k) s in
  match w_staging s !! k with
  | Some (Some name) => with_records (alter (λ r, WRecord (wd_value r) (wd_links r - 1)) (k.1, name)) s'
  | _ => s'
  end.

(** The write, the sync, the link and the sync of the directory; then the staging
    name is removed. *)
Definition publish_record (k : record_key) (name : string) (value : py) : WM unit :=
  e_finally
    (wsys id;; wsys id;; link_record k name value;; wsys id)
    (wsys (unlink_staging k);; wsys id).

Definition create (w name : string) (value : pydict) : WM unit :=
  e_lift (nonsecret [] (PDict value));;
  required (NAME_RE name) "invalid evidence destination";;
  there ← e_gets (λ s, bool_decide (w ∈ w_windows s));
  if negb (there : bool) then e_raise CFileNotFoundError "No such file or directory"
  else
    token ← observed wr_token;
    let k := (w, ".record-" +:+ token) in
    owner ← observed (λ n, wr_directory n w);
    required (((owner.1 =? 0) || (owner.1 =? wr_euid)) && (Z.land owner.2 18 =? 0))
      "unsafe evidence directory";;
    open_staging k;;
    publish_record k name (jsort (PDict value)).

(** [path.open("x")], the write and [chmod]. *)
Definition write_unit (name text : string) : WM unit :=
  taken ← e_gets (λ s, bool_decide (is_Some (w_units s !! name)));
  if (taken : bool) then e_raise CFileExistsError "File exists"
  else
    wsys (with_units <[name := ""]>);;
    (λ s, let part := with_units <[name := str_take (wr_takes (w_ev s)) text]> (wtick s) in
          match wr_fault (w_ev s) with
          | FOk => (ORet (), with_units <[name := text]> (wtick s))
          | FErr msg => (ORaise (Exn COSError msg), part)
          | FDie _ => (OCrash, part)
          end);;
    wsys id.

(** ** Commands of the host *)

Definition run (args : list string) : WM unit :=
  code ← observed_res (λ n, wr_run n args);
  required (code =? 0) "governed host command failed".

Definition window_identity : WM string := b ← observed_res wr_machine_id; mret (wr_sha256 b).
Definition tool_digests : WM pydict :=
  finalizer ← outside_digest wr_executable;
  contract_ ← outside_digest wr_libraries.1;
  evidence ← outside_digest wr_libraries.2;
  canary ← outside_digest (py_path CANARY_CLI);
  mret [("finalizer", PStr finalizer); ("contract", PStr contract_); ("evidence", PStr evidence);
        ("canary", PStr canary)].

(** The files that the canary sees: the outside and the records of the window. *)
Definition window_nodes (s : wstate) (w : string) : list (path * cnode) :=
  omap (λ name, (λ r, (record_path w name, NDoc (wd_value r))) <$> w_records s !! (w, name))
    ["maintenance.json"; "aggregate.json"].
Definition aggregate_arguments (w end_ : string) : arguments :=
  Arguments CANARY RECORD None
    (CmdAggregate "30d" (Some end_) (Some (record_path w "maintenance.json"))
       (Some (record_path w "aggregate.json"))).
Definition canary_process (n : nat) (s : wstate) (w end_ : string) : outcome Z * cstate :=
  @canary_main (wr_canary n) (Ok []) (Ok "") (aggregate_arguments w end_)
    (CState 0 (outside n ++ window_nodes s w) [] []).
(** [run(PYTHON, CANARY_CLI, ..., "aggregate", ...)]; a process that an exception
    or a signal ended has not the exit status 0. *)
Definition run_canary (w end_ : string) : WM unit :=
  code ← (λ s,
    let n := w_ev s in
    let '(o, c) := canary_process n s w end_ in
    let s' := wtick s in
    (ORet match o with ORet code => code | ORaise _ => 1 | OCrash => -9 end,
     match w_records s !! (w, "aggregate.json"), find_node (record_path w "aggregate.json") (c_store c) with
     | None, Some (NDoc v) => with_records <[(w, "aggregate.json") := WRecord v (wr_canary_links n)]> s'
     | _, _ => s'
     end));
  required (code =? 0) "governed host command failed".

(** ** The samples of the canary *)

Definition sample_relative (p : path) : string :=
  str_concat "/" (default [] (parts_below (p_parts CANARY) (p_parts p))).
Definition sample_files (n : nat) : list sample_file :=
  map (λ p, SampleFile (sample_relative p) (fm_size (wr_meta n p))
              (document_at n (Some (wr_canary_uid n)) p) (digest_at n p))
    (sorted_paths (sample_paths CANARY (outside n))).
Definition manifest_now (value : pydict) : WM pydict :=
  observed_res (λ n, window_manifest wr_sha256 (sample_files n) value).
(** The samples of the first minute. *)
Definition first_samples (n : nat) (value : pydict) : res (list pydict) :=
  l ← mapM sf_json (sample_files n);
  start ← item value "start";
  Ok (filter (λ sample, py_eqb (get sample "scheduled_minute") start = true) l).

(** ** The commands *)

Definition load_window (w : string) : WM pydict :=
  value ← record_json w "declaration.json";
  e_lift (validate_declaration value);;
  superseded ← record_exists w "superseded.json";
  required (negb superseded) "window is permanently superseded";;
  boundary ← e_lift (item value "host_boundary");
  host ← e_lift (vitem boundary "canary_host_id_sha256");
  here ← window_identity;
  required (py_eqb host (PStr here)) "live identity drift";;
  candidate ← e_lift (item value "candidate_record_sha256");
  sha ← outside_digest RECORD;
  required (py_eqb candidate (PStr sha)) "live identity drift";;
  mret value.

Definition report_paths (p : path) : WM (list (string * path)) :=
  values ← outside_json p;
  required (forallb (λ kv, match kv.2 with PStr s => is_absolute (py_path s) | _ => false end) values)
    "report map must contain absolute local paths";;
  mret (map (λ kv, (kv.1, py_path (py_str kv.2))) values).
(** [contract.admission] of the files at these paths. *)
Definition admit_paths (paths : list (string * path)) (now : Z) (final : bool) : WM pydict :=
  observed_res (λ n,
    admission (map (λ rp, (rp.1, ReportFile (document_at n None rp.2) (digest_at n rp.2) (p_name rp.2)))
                 paths) now final).

(** No declaration but finished or superseded ones. *)
Definition none_unfinished (m : gmap record_key wrecord) : bool :=
  bool_decide (map_Forall (λ k _, k.2 = "declaration.json" →
    is_Some (m !! (k.1, "superseded.json")) ∨ is_Some (m !! (k.1, "final.json"))) m).

Definition declare_window (start_text : string) (reports attestation : path) (endpoint_ : string)
    : WM string :=
  now ← utcnow;
  paths ← report_paths reports;
  admitted ← admit_paths paths now false;
  accepted ← outside_json attestation;
  start ← e_lift (read_stamp (PStr start_text));
  record ← outside_json RECORD;
  record_sha ← outside_digest RECORD;
  host_id ← window_identity;
  attestation_sha ← outside_digest attestation;
  value ← e_lift (declare start now record record_sha host_id endpoint_ admitted accepted
                    attestation_sha "4.2.0");
  finished ← e_gets (λ s, none_unfinished (w_records s));
  required finished "an unfinished declaration already exists";;
  let w := py_str (get value "window_id") in
  there ← e_gets (λ s, bool_decide (w ∈ w_windows s));
  if (there : bool) then e_raise CFileExistsError "File exists"
  else
    wsys (add_window w);;
    create w "declaration.json" value;;
    create w "maintenance.json" [("windows", PList [])];;
    mret w.

(** [comment.get(k, "")]. *)
Definition comment_get (comment : py) (k : string) : res py :=
  match comment with
  | PDict d => Ok (get_or d k (PStr ""))
  | _ => Raise (Exn CAttributeError "object has no attribute 'get'")
  end.
(** [text in body]. *)
Definition text_in (body text : py) : res bool :=
  match body, text with
  | PStr b, PStr t => Ok (contains t b)
  | PList l, _ => Ok (py_in text l)
  | PDict d, PStr t => Ok (mem_str t (dkeys d))
  | PDict _, (PList _ | PDict _) => Raise (Exn CTypeError "unhashable type")
  | PDict _, _ => Ok false
  | _, _ => Raise (Exn CTypeError "argument is not iterable")
  end.
Fixpoint texts_in (body : py) (texts : list py) : res bool :=
  match texts with
  | [] => Ok true
  | t :: texts => and_res (text_in body t) (texts_in body texts)
  end.
Definition comment_matches (value : pydict) (declaration_sha : string) (comment : py) : res bool :=
  and_res
    (url ← comment_get comment "issue_url";
     match url with
     | PStr u => Ok (ends_with "/issues/31" u)
     | _ => Raise (Exn CAttributeError "object has no attribute 'endswith'")
     end)
    (start ← item value "start";
     end_ ← item value "end";
     candidate ← item value "candidate";
     deployment ← vitem candidate "deployment_id";
     body ← comment_get comment "body";
     texts_in body [start; end_; PStr declaration_sha; deployment]).

Definition unsafe_char (a : ascii) : bool :=
  existsb (Ascii.eqb a) ["010"; "013"; "009"; " "; "%"; "034"]%char.
Definition lines (l : list string) : string := str_concat "" (map (λ x, x +:+ newline) l).
Definition service_text (executable directory : string) : string :=
  lines ["[Unit]"; "Description=Fixed-end TODO-0017 aggregate"; "[Service]"; "Type=oneshot";
         "ExecStart=/usr/bin/python3 " +:+ executable +:+ " aggregate --directory " +:+ directory;
         "TimeoutStartSec=900"; "Environment=PYTHONDONTWRITEBYTECODE=1"; "UMask=0027";
         "NoNewPrivileges=yes"; "ProtectHome=yes"; "ProtectSystem=strict";
         "ReadWritePaths=" +:+ path_str WINDOW_ROOT].
(** [value.strftime("%Y-%m-%d %H:%M:%S UTC")]. *)
Definition calendar_timestamp (t : Z) : string :=
  let '(y, mo, d) := dt_date t in
  pad4 y (String "-" (pad2 mo (String "-" (pad2 d (String " " (pad2 (dt_hour t) (String ":"
    (pad2 (dt_minute t) (String ":" (pad2 (dt_second t) " UTC")))))))))).
Definition timer_text (due : Z) (timer_name : string) : string :=
  lines ["[Unit]"; "Description=Immutable 30-day fixed-end timer"; "[Timer]";
         "OnCalendar=" +:+ calendar_timestamp due; "Persistent=true"; "AccuracySec=1s";
         "Unit=" +:+ timer_name +:+ ".service"; "[Install]"; "WantedBy=timers.target"].

(** [json.loads(result.stdout)]. *)
Definition parse_comment (stdout : string) : res py :=
  match json_loads stdout with
  | Some v => Ok v
  | None => Raise (Exn CJSONDecodeError "Expecting value")
  end.

(** [value["window_id"] + "-finalizer"] of a valid declaration. *)
Definition finalizer_name (value : pydict) : string := py_str (get value "window_id") +:+ "-finalizer".

(** The units and what systemd says about them. *)
Definition install_units (timer_name service timer : string) : WM unit :=
  write_unit (timer_name +:+ ".service") service;;
  write_unit (timer_name +:+ ".timer") timer;;
  run ["systemd-analyze"; "verify"; path_str (unit_path (timer_name +:+ ".service"));
       path_str (unit_path (timer_name +:+ ".timer"))];;
  run ["systemctl"; "daemon-reload"];;
  run ["systemctl"; "enable"; "--now"; timer_name +:+ ".timer"];;
  run ["systemctl"; "is-active"; "--quiet"; timer_name +:+ ".timer"].

Definition bind_window (w issue_comment : string) : WM unit :=
  value ← load_window w;
  now ← utcnow;
  start ← e_lift (item value "start" ≫= read_stamp);
  required (now <? start) "cannot bind a window retroactively";;
  required (negb (String.eqb issue_comment "") && str_all is_digit issue_comment)
    "record the Issue 31 declaration comment ID";;
  result ← observed_res (λ n, wr_gh n issue_comment);
  required (result.1 =? 0) "cannot verify public declaration";;
  comment ← e_lift (parse_comment result.2);
  declaration_sha ← record_digest w "declaration.json";
  required_res (comment_matches value declaration_sha comment)
    "public declaration does not match the immutable record";;
  let timer_name := finalizer_name value in
  let directory := path_str (p_join WINDOW_ROOT w) in
  let executable := path_str wr_executable in
  required (bool_decide (p_parent wr_executable = INSTALLED))
    "bind must use the governed installed finalizer";;
  exists_ ← e_gets (λ s, bool_decide (is_Some (w_units s !! (timer_name +:+ ".service")))
                         || bool_decide (is_Some (w_units s !! (timer_name +:+ ".timer"))));
  required (negb exists_) "finalizer units already exist";;
  required (str_all (λ a, negb (unsafe_char a)) (directory +:+ executable)) "unsafe systemd path";;
  end_ ← e_lift (item value "end" ≫= read_stamp);
  due ← e_lift (later end_ minute_us);
  install_units timer_name (service_text executable directory) (timer_text due timer_name);;
  now ← utcnow;
  required (now <? start) "binding missed the declared start; supersede it";;
  created ← utcnow;
  service_sha ← unit_digest (timer_name +:+ ".service");
  timer_sha ← unit_digest (timer_name +:+ ".timer");
  tools ← tool_digests;
  create w "binding.json"
    [("created_at", PStr (stamp created)); ("declaration_sha256", PStr declaration_sha);
     ("issue_comment_id", PStr issue_comment); ("service_sha256", PStr service_sha);
     ("timer_sha256", PStr timer_sha); ("tools", PDict tools); ("overall_pass", PBool true)].

(** The only sample of the first minute: it passed and is of the window. *)
Definition first_sample_proven (value : pydict) (matches : list pydict) : res bool :=
  match matches with
  | [sample] =>
      if negb (is_true (get sample "overall_pass")) then Ok false
      else
        and_res (c ← item value "candidate"; Ok (py_eqb (get sample "candidate") c))
                (b ← item value "host_boundary"; Ok (py_eqb (get sample "host_boundary") b))
  | _ => Ok false
  end.

Definition startup_record (now : Z) (declaration_sha : py) : pydict :=
  [("created_at", PStr (stamp now)); ("overall_pass", PBool true);
   ("declaration_sha256", declaration_sha)].
Definition startup_window (w : string) : WM unit :=
  value ← load_window w;
  binding ← record_json w "binding.json";
  now ← utcnow;
  start ← e_lift (item value "start" ≫= read_stamp);
  required ((start <=? now) && (now <=? start + 2 * minute_us))
    "startup audit must run in the first two minutes";;
  bound ← e_lift (item binding "declaration_sha256");
  sha ← record_digest w "declaration.json";
  required (py_eqb bound (PStr sha)) "declaration binding changed";;
  run ["systemctl"; "is-active"; "--quiet"; finalizer_name value +:+ ".timer"];;
  matches ← observed_res (λ n, first_samples n value);
  required_res (first_sample_proven value matches) "Day 0 first sample not proven";;
  create w "startup.json" (startup_record now bound).

(** What [aggregate] asks of the binding and of the startup record. *)
Definition admitted_at_startup (binding startup : pydict) (sha : string) : res bool :=
  b ← item binding "declaration_sha256";
  if negb (py_eqb b (PStr sha)) then Ok false
  else
    d ← item startup "declaration_sha256";
    if negb (py_eqb (PStr sha) d) then Ok false
    else p ← item startup "overall_pass"; Ok (is_true p).
Definition units_unchanged (binding : pydict) (name : string) : WM bool :=
  service ← e_lift (item binding "service_sha256");
  now_service ← unit_digest (name +:+ ".service");
  if negb (py_eqb service (PStr now_service)) then mret false
  else
    timer ← e_lift (item binding "timer_sha256");
    now_timer ← unit_digest (name +:+ ".timer");
    mret (py_eqb timer (PStr now_timer)).
Definition receipt_matches (w : string) (receipt inputs : pydict) (sha : string) : WM bool :=
  d ← e_lift (item receipt "declaration_sha256");
  if negb (py_eqb d (PStr sha)) then mret false
  else
    a ← e_lift (item receipt "aggregate_sha256");
    now_aggregate ← record_digest w "aggregate.json";
    if negb (py_eqb a (PStr now_aggregate)) then mret false
    else
      m ← e_lift (item receipt "sample_manifest_sha256");
      n ← e_lift (item inputs "sample_manifest_sha256");
      mret (py_eqb m n).

(** The inputs are recorded, or are those of an earlier attempt; then the canary
    aggregates. *)
Definition make_aggregate (w : string) (value inputs : pydict) : WM unit :=
  tried ← record_exists w "aggregate-inputs.json";
  (if (tried : bool) then
     recorded ← record_json w "aggregate-inputs.json";
     required (py_eqb (PDict recorded) (PDict inputs)) "retry input drift"
   else create w "aggregate-inputs.json" inputs);;
  end_ ← e_lift (item value "end");
  run_canary w (py_str end_).

Definition aggregate_declared (w : string) : WM unit :=
  value ← load_window w;
  now ← utcnow;
  end_ ← e_lift (item value "end" ≫= read_stamp);
  required (end_ <=? now) "fixed end has not elapsed";;
  binding ← record_json w "binding.json";
  startup ← record_json w "startup.json";
  sha ← record_digest w "declaration.json";
  required_res (admitted_at_startup binding startup sha) "window was not admitted at startup";;
  tools ← e_lift (item binding "tools");
  tools_now ← tool_digests;
  required (py_eqb tools (PDict tools_now)) "finalizer artifact drift";;
  unchanged ← units_unchanged binding (finalizer_name value);
  required unchanged "fixed-end unit drift";;
  inputs ← manifest_now value;
  made ← record_exists w "aggregate.json";
  (if (made : bool) then mret () else make_aggregate w value inputs);;
  recorded ← record_json w "aggregate-inputs.json";
  required (py_eqb (PDict recorded) (PDict inputs)) "aggregate samples changed";;
  again ← manifest_now value;
  required (py_eqb (PDict again) (PDict inputs)) "samples changed during aggregation";;
  report ← record_json w "aggregate.json";
  e_lift (validate_aggregate report value);;
  closed ← record_exists w "aggregate-receipt.json";
  if (closed : bool) then
    receipt ← record_json w "aggregate-receipt.json";
    same ← receipt_matches w receipt inputs sha;
    required same "existing aggregate receipt no longer matches"
  else
    created ← utcnow;
    aggregate_sha ← record_digest w "aggregate.json";
    create w "aggregate-receipt.json"
      ([("created_at", PStr (stamp created)); ("overall_pass", PBool true);
        ("declaration_sha256", PStr sha); ("aggregate_sha256", PStr aggregate_sha)] ++ inputs).

Definition path_of_role (paths : list (string * path)) (role : string) : res path :=
  match list_find (λ rp, rp.1 = role) paths with
  | Some (_, rp) => Ok rp.2
  | None => Raise (Exn CKeyError role)
  end.
(** The off-host receipt is for this aggregate and this declaration. *)
Definition offhost_proven (w : string) (offhost : pydict) : WM bool :=
  aggregate_sha ← record_digest w "aggregate.json";
  if negb (py_eqb (get offhost "aggregate_sha256") (PStr aggregate_sha)) then mret false
  else
    declaration_sha ← record_digest w "declaration.json";
    mret (py_eqb (get offhost "declaration_sha256") (PStr declaration_sha)
          && negb (py_eqb (get offhost "source_host_id_sha256") (get offhost "destination_host_id_sha256"))
          && is_true (get offhost "readback_verified")).

Definition final_record (created : Z) (declaration_sha aggregate_sha : string) (reports : pydict) : pydict :=
  [("created_at", PStr (stamp created)); ("overall_pass", PBool true); ("task", PStr "TODO-0017");
   ("declaration_sha256", PStr declaration_sha); ("aggregate_sha256", PStr aggregate_sha);
   ("reports", PDict reports); ("secret_material_recorded", PBool false); ("create_only", PBool true)].
Definition finalize_window (w : string) (reports : path) : WM unit :=
  aggregate_declared w;;
  value ← load_window w;
  paths ← report_paths reports;
  now ← utcnow;
  admitted ← admit_paths paths now true;
  host ← e_lift (path_of_role paths "host_window") ≫= outside_json;
  e_lift (validate_host_window host value);;
  offhost ← e_lift (path_of_role paths "offhost") ≫= outside_json;
  proven ← offhost_proven w offhost;
  required proven "off-host final verification not proven";;
  created ← utcnow;
  declaration_sha ← record_digest w "declaration.json";
  aggregate_sha ← record_digest w "aggregate.json";
  create w "final.json" (final_record created declaration_sha aggregate_sha admitted).

Definition supersede_window (w incident_sha256 : string) : WM unit :=
  required (re_hex 64 incident_sha256) "invalid incident digest";;
  created ← utcnow;
  create w "superseded.json"
    [("created_at", PStr (stamp created)); ("overall_pass", PBool false);
     ("incident_sha256", PStr incident_sha256)].

(** ** The command line, on parsed arguments *)

Inductive directory_command :=
  | DBind (issue_comment_id : string)
  | DStartup
  | DAggregate
  | DFinalize (reports : path)
  | DSupersede (incident_sha256 : string).
Inductive window_command :=
  | WDeclare (start : string) (reports attestation : path) (endpoint_ : string)
  | WOn (directory : path) (c : directory_command).

Definition on_window (w : string) (c : directory_command) : WM unit :=
  match c with
  | DBind issue_comment_id => bind_window w issue_comment_id
  | DStartup => startup_window w
  | DAggregate => aggregate_declared w
  | DFinalize reports => finalize_window w reports
  | DSupersede incident_sha256 => supersede_window w incident_sha256
  end.
Definition window_dispatch (c : window_command) : WM unit :=
  required ((wr_euid =? 0) && wr_linux) "requires root on Linux observer";;
  linked ← observed (λ n, wr_symlink n WINDOW_ROOT);
  required (negb linked) "unsafe window root";;
  observed_res wr_lock;;
  match c with
  | WDeclare start reports attestation endpoint_ =>
      declare_window start reports attestation endpoint_;; mret ()
  | WOn directory c =>
      linked ← observed (λ n, wr_symlink n directory);
      required (is_absolute directory && bool_decide (p_parent directory = WINDOW_ROOT) && negb linked)
        "window directory must be a direct governed child";;
      on_window (p_name directory) c
  end.
Definition is_refusal (e : exn) : bool :=
  existsb (λ c, exn_isa c e)
    [CDeadmanError; COSError; CValueError; CKeyError; CTypeError; CSubprocessError].
(** The exit status. *)
Definition manager_main (c : window_command) : WM Z :=
  e_try (window_dispatch c;; mret 0) (λ e, if is_refusal e then mret 1 else e_lift (Raise e)).

(** The states that the commands can lead to, whatever becomes of them. *)
Inductive window_reachable : wstate → Prop :=
  | window_initial n units : window_reachable (WState n ∅ ∅ ∅ units)
  | window_step s c o s' :
      window_reachable s → manager_main c s = (o, s') → window_reachable s'.
End manager.
