(* ===== verification/WindowChain.v ===== *)
(** * The chain of evidence of a window

    How the records of a window are written, by the controller and by the canary,
    the grounds of every record, and the moves that the commands may make. *)
From S2P Require Import Prelude PyFloat PyValue PyTime PyDateTime PyPath PyJson PyEffect LifecycleCore Deadman Canary.
From S2P Require Import CanarySample CanaryReport CanaryMain CanaryStoreFacts CanaryGaps CanaryReportFacts CanarySampleFacts.
From S2P Require Import Window WindowFacts WindowManager.
#[local] Open Scope Z_scope.

(** ** How the state moves *)

(** Nothing of the windows changed. *)
Definition calm (s s' : wstate) : Prop :=
  w_windows s' = w_windows s ∧ w_records s' = w_records s ∧ (w_ev s ≤ w_ev s')%nat.

Lemma calm_refl s : calm s s.
Proof. done. Qed.
Lemma calm_trans s1 s2 s3 : calm s1 s2 → calm s2 s3 → calm s1 s3.
Proof. intros (H1 & H2 & H3) (H4 & H5 & H6). unfold calm. rewrite H4, H5. split; [done|]. split; [done|lia]. Qed.
Lemma calm_tick s s' : calm s s' → calm s (wtick s').
Proof. intros (H1 & H2 & H3). split; [done|]. split; [done|]. cbn. lia. Qed.

Create HintDb calm.
#[export] Hint Resolve calm_refl calm_tick : calm.

Section calm.
Context `{WindowRuntime}.

(** A computation that leaves the windows alone. *)
Definition quiet {A} (m : WM A) : Prop := ∀ s, wp m (λ _, calm s) (λ _, calm s) (calm s) s.

Lemma quiet_lift {A} (r : res A) : quiet (e_lift r).
Proof. intros s. by apply wp_lift. Qed.
Lemma quiet_ret {A} (a : A) : quiet (mret a).
Proof. intros s. by apply wp_ret. Qed.
Lemma quiet_raise {A} c msg : quiet (e_raise (A := A) c msg).
Proof. intros s. by apply wp_raise. Qed.
Lemma quiet_gets {A} (f : wstate → A) : quiet (e_gets f).
Proof. intros s. by apply wp_gets. Qed.
Lemma quiet_read {A} (f : wstate → res A) : quiet (e_read f).
Proof. intros s. by apply wp_read. Qed.
Lemma quiet_observed {A} (f : nat → A) : quiet (observed f).
Proof. intros s. unfold wp, observed. auto with calm. Qed.
Lemma quiet_bind {A B} (m : WM A) (f : A → WM B) : quiet m → (∀ a, quiet (f a)) → quiet (m ≫= f).
Proof.
  intros Hm Hf s. apply wp_bind. eapply wp_mono; [apply Hm| |done|done].
  intros a s1 H1. eapply wp_mono; [apply Hf|..]; intros; by apply (calm_trans _ _ _ H1).
Qed.
Lemma quiet_if {A} (b : bool) (m m' : WM A) : quiet m → quiet m' → quiet (if b then m else m').
Proof. by destruct b. Qed.
Lemma quiet_wsys f : (∀ s, calm s (f s)) → quiet (wsys f).
Proof.
  intros Hf s. assert (calm s (f (wtick s))) by (eapply calm_trans; [|apply Hf]; auto with calm).
  unfold wp, wsys. destruct (wr_fault (w_ev s)) as [| |[]]; auto with calm.
Qed.
End calm.

Ltac quiet_step :=
  match goal with
  | |- quiet (e_lift _) => apply quiet_lift
  | |- quiet (mret _) => apply quiet_ret
  | |- quiet (e_raise _ _) => apply quiet_raise
  | |- quiet (e_gets _) => apply quiet_gets
  | |- quiet (e_read _) => apply quiet_read
  | |- quiet (observed _) => apply quiet_observed
  | |- quiet (_ ≫= _) => apply quiet_bind; [|intros ?]
  | |- quiet (if _ then _ else _) => apply quiet_if
  | |- quiet (wsys _) => apply quiet_wsys; by intros ?; auto with calm
  | H : quiet ?m |- quiet ?m => exact H
  end.
Ltac quiet := repeat quiet_step.

Section quiet.
Context `{WindowRuntime}.

Lemma quiet_observed_res {A} (f : nat → res A) : quiet (observed_res f).
Proof. unfold observed_res. quiet. Qed.
Lemma quiet_required b msg : quiet (required b msg).
Proof. apply quiet_lift. Qed.
Lemma quiet_required_res r msg : quiet (required_res r msg).
Proof. apply quiet_lift. Qed.
Lemma quiet_utcnow : quiet utcnow.
Proof. apply quiet_observed. Qed.
Lemma quiet_run args : quiet (run args).
Proof. unfold run. apply quiet_bind; [apply quiet_observed_res|intros ?; apply quiet_required]. Qed.
Lemma quiet_write_unit name text : quiet (write_unit name text).
Proof.
  unfold write_unit. quiet. intros s. unfold wp.
  destruct (wr_fault (w_ev s)) as [| |[]]; cbn; auto with calm; unfold calm; cbn; auto.
Qed.
Lemma quiet_identity : quiet window_identity.
Proof. unfold window_identity. apply quiet_bind; [apply quiet_observed_res|intros ?; apply quiet_ret]. Qed.
End quiet.

(** ** Publication *)

Section publication.
Context `{WindowRuntime}.

(** What an attempt to create a record can leave. *)
Definition created (w name : string) (v : py) (s s' : wstate) : Prop :=
  calm s s'
  ∨ w_windows s' = w_windows s ∧ (w_ev s ≤ w_ev s')%nat ∧ w ∈ w_windows s
    ∧ w_records s !! (w, name) = None
    ∧ ∃ links, w_records s' = <[(w, name) := WRecord v links]> (w_records s).
(** The record was created, and nothing else links to it. *)
Definition stored (w name : string) (v : py) (s s' : wstate) : Prop :=
  w_windows s' = w_windows s ∧ (w_ev s ≤ w_ev s')%nat ∧ w ∈ w_windows s
  ∧ w_records s !! (w, name) = None ∧ w_records s' = <[(w, name) := WRecord v 1]> (w_records s).
Lemma stored_created w name v s s' : stored w name v s s' → created w name v s s'.
Proof. intros (?&?&?&?&?). right. eauto 10. Qed.
Lemma created_tick w name v s s' : created w name v s s' → created w name v s (wtick s').
Proof.
  intros [Hc|(H1 & H2 & H3)]; [left; by apply calm_tick|right]. split; [done|].
  split; [cbn; lia|done].
Qed.

Lemma wp_wsys f (Q : unit → wstate → Prop) (E : exn → wstate → Prop) (C : wstate → Prop) s :
  Q () (f (wtick s)) → (∀ e, E e (wtick s)) → C (wtick s) → C (f (wtick s)) → wp (wsys f) Q E C s.
Proof. intros HQ HE HC HC'. unfold wp, wsys. destruct (wr_fault (w_ev s)) as [| |[]]; auto. Qed.
Lemma wp_observed {A} (f : nat → A) (Q : A → wstate → Prop) E C s :
  Q (f (w_ev s)) (wtick s) → wp (observed f) Q E C s.
Proof. done. Qed.

Section one.
Variables (w name token : string) (v : py) (s0 : wstate).
Let k : record_key := (w, token).
Hypothesis present : w ∈ w_windows s0.

(** While the staging file is there, linked or not. *)
Definition unlinked (s : wstate) : Prop :=
  calm s0 s ∧ w_staging s !! k = Some None.
Definition linked (s : wstate) : Prop :=
  w_windows s = w_windows s0 ∧ (w_ev s0 ≤ w_ev s)%nat ∧ w_records s0 !! (w, name) = None
  ∧ w_records s = <[(w, name) := WRecord v 2]> (w_records s0) ∧ w_staging s !! k = Some (Some name).
Lemma unlinked_tick s : unlinked s → unlinked (wtick s).
Proof. intros [Hc Hs]. split; [by apply calm_tick|done]. Qed.
Lemma linked_tick s : linked s → linked (wtick s).
Proof. intros (?&?&?&?&?). split; [done|]. split; [cbn; lia|done]. Qed.
Lemma unlinked_created s : unlinked s → created w name v s0 s.
Proof. intros [Hc _]. by left. Qed.
Lemma linked_created s : linked s → created w name v s0 s.
Proof. intros (?&?&?&?&?). right. eauto 10. Qed.
Lemma unlink_unlinked s : unlinked s → created w name v s0 (unlink_staging k s).
Proof. intros [(?&?&?) Hs]. left. unfold unlink_staging. by rewrite Hs. Qed.
Lemma unlink_linked s : linked s → stored w name v s0 (unlink_staging k s).
Proof.
  intros (Hw & He & Hn & Hr & Hs). unfold unlink_staging, stored. rewrite Hs. cbn.
  split; [done|]. split; [done|]. split; [done|]. split; [done|]. rewrite Hr.
  apply map_eq. intros q. destruct (decide (q = (w, name))) as [->|Hne].
  - by rewrite lookup_alter_eq, !lookup_insert_eq.
  - by rewrite lookup_alter_ne, !lookup_insert_ne by done.
Qed.

Lemma wp_publish_record s :
  unlinked s →
  wp (publish_record k name v) (λ _, stored w name v s0) (λ _, created w name v s0) (created w name v s0) s.
Proof.
  intros Hs. unfold publish_record. apply wp_finally.
  set (G := created w name v s0).
  assert (∀ s, unlinked s → wp (wsys (unlink_staging k);; wsys id) (λ _, G) (λ _, G) G s) as Hfree.
  { intros s1 Hu.
    apply unlinked_tick in Hu. pose proof (unlink_unlinked _ Hu) as Hx. pose proof (unlinked_created _ Hu).
    apply wp_bind, wp_wsys; [|done..]. apply wp_wsys; intros; by apply created_tick. }
  assert (∀ s, linked s → wp (wsys (unlink_staging k);; wsys id) (λ _, stored w name v s0) (λ _, G) G s) as Hdone.
  { intros s1 Hl. apply linked_tick in Hl. pose proof (linked_created _ Hl). pose proof (unlink_linked _ Hl) as Hx.
    apply wp_bind, wp_wsys; [|done|done|by apply stored_created].
    apply wp_wsys; intros; [|by apply created_tick, stored_created..].
    destruct Hx as (?&?&?&?&?). split; [done|]. split; [cbn; lia|done]. }
  assert (∀ s, linked s → wp (wsys (unlink_staging k);; wsys id) (λ _, G) (λ _, G) G s) as Hlate.
  { intros s1 Hl. eapply wp_mono; [by apply Hdone|..]; [|done|done]. intros u s2. apply stored_created. }
  apply unlinked_tick in Hs as H1. apply wp_bind, wp_wsys; [|intros; by apply Hfree|by apply unlinked_created..].
  apply unlinked_tick in H1 as H2. apply wp_bind, wp_wsys; [|intros; by apply Hfree|by apply unlinked_created..].
  apply wp_bind, wp_bind, wp_gets. case_bool_decide as Ht; [apply wp_raise; by apply Hfree|].
  apply eq_None_not_Some in Ht. cbn [fst] in Ht.
  apply unlinked_tick in H2 as H3.
  assert (linked (with_records <[(w, name) := WRecord v 2]>
            (with_staging <[k := Some name]> (wtick (wtick (wtick s)))))) as H4.
  { destruct H3 as [(Hw & Hr & He) _]. cbn in *. unfold linked. cbn. rewrite Hr in *.
    split; [done|]. split; [done|]. split; [done|]. split; [done|]. by rewrite lookup_insert_eq. }
  apply wp_wsys; [|intros; by apply Hfree|by apply unlinked_created|by apply linked_created].
  apply linked_tick in H4 as H5. apply wp_wsys; [by apply Hdone|intros; by apply Hlate|by apply linked_created..].
Qed.
End one.

Lemma wp_record w name value s :
  wp (create w name value) (λ _, stored w name (jsort (PDict value)) s)
    (λ _, created w name (jsort (PDict value)) s) (created w name (jsort (PDict value)) s) s.
Proof.
  assert (∀ s', calm s s' → created w name (jsort (PDict value)) s s') as Hcalm by (intros; by left).
  unfold create. apply wp_bind, wp_lift; [|auto with calm]. intros [] _.
  apply wp_bind, wp_lift; [|auto with calm]. intros [] _. apply wp_bind, wp_gets.
  case_bool_decide as Hw; cbn [negb]; [|apply wp_raise; auto with calm].
  apply wp_bind, wp_observed, wp_bind, wp_observed, wp_bind, wp_lift; [|auto 6 with calm]. intros [] _.
  set (k := (w, _)). apply wp_bind, wp_bind, wp_gets. case_bool_decide as Hk; [apply wp_raise; auto 6 with calm|].
  assert (calm s (wtick (wtick (wtick s)))) as H3 by auto with calm.
  assert (unlinked w (".record-" +:+ wr_token (w_ev s)) s
            (with_staging <[k := None]> (wtick (wtick (wtick s))))) as H4.
  { split; [done|]. cbn. by rewrite lookup_insert_eq. }
  apply wp_wsys; [|auto|auto|by eapply unlinked_created].
  by apply wp_publish_record.
Qed.
End publication.

(** ** The aggregate of the canary *)

Section canary.
Context `{WindowRuntime}.

(** The document is a 30-day report of the canary, up to the minute of [end_], on
    the evidence of the event [n]. *)
Definition made_by_canary (n : nat) (end_ : string) (v : py) : Prop :=
  ∃ e windows r generated c c' nodes,
    parse_time end_ = Ok e ∧ instant_ok (floor_minute e - 30 * day_us) = true
    ∧ c_store c = outside n ++ nodes
    ∧ Forall (λ x, parts_below (p_parts WINDOW_ROOT) (p_parts x.1) ≠ None) nodes
    ∧ aggregate_samples CANARY (floor_minute e - 30 * day_us) (floor_minute e) windows c = (ORet r, c')
    ∧ v = jsort (PDict (written_report r generated)).

Lemma window_nodes_inside s w :
  Forall (λ x, parts_below (p_parts WINDOW_ROOT) (p_parts x.1) ≠ None) (window_nodes s w).
Proof.
  unfold window_nodes. apply Forall_forall. intros x Hx. apply list_elem_of_omap in Hx as (name & _ & Hx).
  destruct (w_records s !! (w, name)); [|done]. injection Hx as <-. done.
Qed.
Lemma aggregate_absent n s w :
  w_records s !! (w, "aggregate.json") = None →
  find_node (record_path w "aggregate.json") (outside n ++ window_nodes s w) = None.
Proof.
  intros Hr. apply find_node_None. rewrite map_app, elem_of_app. intros [Hin|Hin].
  - apply list_elem_of_fmap in Hin as ([p x] & Hp & [Hout _]%list_elem_of_filter). cbn in Hp, Hout. subst p.
    done.
  - unfold window_nodes in Hin. cbn [omap list_omap] in Hin. rewrite Hr in Hin. cbn in Hin.
    destruct (w_records s !! (w, "maintenance.json")); cbn in Hin; [|set_solver].
    apply list_elem_of_singleton in Hin. discriminate Hin.
Qed.
Lemma aggregate_not_staging w : ¬ staging (record_path w "aggregate.json").
Proof.
  intros (parent & token & Hp). apply (f_equal (λ p, last (p_parts p))) in Hp.
  unfold p_join in Hp. cbn [p_parts] in Hp. rewrite last_snoc in Hp. discriminate Hp.
Qed.

Lemma canary_report_made n s w end_ o c v :
  w_records s !! (w, "aggregate.json") = None →
  canary_process n s w end_ = (o, c) →
  find_node (record_path w "aggregate.json") (c_store c) = Some (NDoc v) →
  made_by_canary n end_ v.
Proof.
  intros Hr Hrun Hv. set (out := record_path w "aggregate.json") in *.
  pose proof (aggregate_absent n s w Hr) as Habs. fold out in Habs.
  set (s0 := CState 0 (outside n ++ window_nodes s w) [] []) in *.
  set (G := λ c : cstate, ∀ v, find_node out (c_store c) = Some (NDoc v) → made_by_canary n end_ v).
  assert (G s0) as H0 by (intros x Hx; unfold s0 in Hx; cbn [c_store] in Hx; by rewrite Habs in Hx).
  cut (wp (@canary_main (wr_canary n) (Ok []) (Ok "") (aggregate_arguments w end_)) (λ _, G) (λ _, G) G s0).
  { unfold wp. change (@canary_main _ _ _ _ s0) with (canary_process n s w end_). rewrite Hrun.
    intros HG. by destruct o; apply HG. }
  clear Hrun Hv. unfold canary_main. apply wp_try.
  cut (wp (@dispatch (wr_canary n) (Ok []) (Ok "") (aggregate_arguments w end_)) (λ _, G) (λ _, G) G s0).
  { intros Hd. apply wp_bind. eapply wp_mono; [exact Hd|..]; [done| |done].
    intros e c' Hc. destruct (exn_isa CCanaryError e); done. }
  unfold dispatch, aggregate_arguments. cbn [ar_command ar_evidence_root].
  apply wp_bind, wp_lift; [|done]. intros e He. unfold aggregate_window. cbn [window_length String.eqb].
  change (window_length "30d") with (Some (30 * day_us)). cbv zeta iota beta.
  apply wp_bind, wp_lift; [|done]. intros start Hstart. unfold later in Hstart.
  destruct (instant_ok _) eqn:Hok; [|done]. injection Hstart as <-.
  apply wp_bind, wp_bind, wp_read; [|done]. intros document _.
  apply wp_lift; [|done]. intros windows _.
  apply wp_bind, wp_read; [|done]. intros r Haggregate.
  apply wp_bind. unfold wp at 1, utc_now at 1.
  set (generated := isoformat _). set (s1 := tick_on s0). fold (written_report r generated).
  assert (∀ c, grows out (PDict (written_report r generated)) s1 c → G c) as HG.
  { intros c' (_ & Hnew & _) x Hx. destruct (Hnew _ _ Hx) as [Hold|[[_ Heq]|Hst]].
    - unfold s1, s0 in Hold. cbn [tick_on c_store] in Hold. by rewrite Habs in Hold.
    - injection Heq as ->. exists e, windows, r, generated, s0, s0, (window_nodes s w).
      split; [done|]. split; [done|]. split; [done|]. split; [apply window_nodes_inside|]. split; [|done].
      change (floor_minute e - 30 * day_us) with (floor_minute e + - (30 * day_us)).
      unfold aggregate_samples, e_read, e_lift. by rewrite Haggregate.
    - by destruct (aggregate_not_staging w). }
  apply wp_bind. eapply wp_mono; [apply write_create_only_grows|..]; [|by intros; apply HG..].
  intros [] c' (Hg & _). by apply wp_ret, HG.
Qed.
End canary.

(** ** The chain *)

Abbreviation records := (gmap record_key wrecord).

Section chain.
Context `{WindowRuntime}.

(** ** The grounds of a record *)

Definition declared_as (R : records) (w : string) (d : pydict) : Prop :=
  ∃ links, R !! (w, "declaration.json") = Some (WRecord (PDict d) links).
(** A declaration that [load] accepted. *)
Definition accepted_as (R : records) (w : string) (d : pydict) : Prop :=
  declared_as R w d ∧ validate_declaration d = Ok ().

(** The declaration was found in a public comment, and the start was ahead after
    that. *)
Definition public_before_start (R : records) (w : string) : Prop :=
  ∃ d start m n id text comment,
    accepted_as R w d ∧ read_stamp (get d "start") = Ok start
    ∧ wr_gh m id = Ok (0, text) ∧ json_loads text = Some comment
    ∧ comment_matches d (record_digest_of (PDict d)) comment = Ok true
    ∧ (m < n)%nat ∧ wr_now n < start.
(** In the first two minutes the only sample of the first one had passed. *)
Definition audited_at_start (R : records) (w : string) (v : py) : Prop :=
  ∃ d start n m sample bound,
    accepted_as R w d ∧ read_stamp (get d "start") = Ok start
    ∧ is_Some (R !! (w, "binding.json"))
    ∧ start <= wr_now n <= start + 2 * minute_us ∧ (n < m)%nat
    ∧ first_samples m d = Ok [sample] ∧ get sample "overall_pass" = PBool true
    ∧ py_eqb (get sample "candidate") (get d "candidate") = true
    ∧ v = jsort (PDict (startup_record (wr_now n) bound)).
(** The canary made it on evidence that was seen after the end. *)
Definition made_after_end (R : records) (w : string) (v : py) : Prop :=
  ∃ d end_ n m,
    accepted_as R w d ∧ read_stamp (get d "end") = Ok end_ ∧ end_ <= wr_now n ∧ (n < m)%nat
    ∧ made_by_canary m (py_str (get d "end")) v.
Definition aggregate_accepted (R : records) (w : string) : Prop :=
  ∃ d report links,
    accepted_as R w d ∧ is_Some (R !! (w, "binding.json")) ∧ is_Some (R !! (w, "startup.json"))
    ∧ R !! (w, "aggregate.json") = Some (WRecord (PDict report) links)
    ∧ validate_aggregate report d = Ok ().
(** The final review: fresh reports of all roles, the host audit, and the off-host
    receipt for this aggregate and this declaration. *)
Definition reviewed (R : records) (w : string) (v : py) : Prop :=
  ∃ d a paths now n created reports host offhost,
    accepted_as R w d ∧ R !! (w, "aggregate.json") = Some a
    ∧ is_Some (R !! (w, "aggregate-receipt.json"))
    ∧ admission (map (λ rp, (rp.1, ReportFile (document_at n None rp.2) (digest_at n rp.2) (p_name rp.2)))
                   paths) now true = Ok reports
    ∧ validate_host_window host d = Ok ()
    ∧ py_eqb (get offhost "aggregate_sha256") (PStr (record_digest_of (wd_value a))) = true
    ∧ py_eqb (get offhost "declaration_sha256") (PStr (record_digest_of (PDict d))) = true
    ∧ get offhost "readback_verified" = PBool true
    ∧ v = jsort (PDict (final_record created (record_digest_of (PDict d)) (record_digest_of (wd_value a)) reports)).

Definition grounds (R : records) (w name : string) (v : py) : Prop :=
  (name = "binding.json" → public_before_start R w)
  ∧ (name = "startup.json" → audited_at_start R w v)
  ∧ (name = "aggregate.json" → made_after_end R w v)
  ∧ (name = "aggregate-receipt.json" → aggregate_accepted R w)
  ∧ (name = "final.json" → reviewed R w v).

Lemma accepted_mono R R' w d : R ⊆ R' → accepted_as R w d → accepted_as R' w d.
Proof. intros HR [[links Hd] Hv]. split; [|done]. exists links. by eapply lookup_weaken. Qed.
Lemma some_mono (R R' : records) k : R ⊆ R' → is_Some (R !! k) → is_Some (R' !! k).
Proof. intros HR [r Hr]. exists r. by eapply lookup_weaken. Qed.
Lemma grounds_mono R R' w name v : R ⊆ R' → grounds R w name v → grounds R' w name v.
Proof.
  intros HR (H1 & H2 & H3 & H4 & H5). split; [|split; [|split; [|split]]].
  - intros (d&?&?&?&?&?&?&?&?)%H1. do 7 eexists. split; [by eapply accepted_mono|]. eauto.
  - intros (d&?&?&?&?&?&?&?&?&?)%H2. do 6 eexists. split; [by eapply accepted_mono|]. split; [eauto|].
    split; [by eapply some_mono|]. eauto.
  - intros (d&?&?&?&?&?)%H3. do 4 eexists. split; [by eapply accepted_mono|]. eauto.
  - intros (d&?&?&?&?&?&?&?)%H4. do 3 eexists. split; [by eapply accepted_mono|].
    split; [by eapply some_mono|]. split; [by eapply some_mono|]. split; [by eapply lookup_weaken|done].
  - intros (d&?&?&?&?&?&?&?&?&?&?&?&?)%H5. do 9 eexists. split; [by eapply accepted_mono|].
    split; [by eapply lookup_weaken|]. split; [by eapply some_mono|]. eauto.
Qed.

(** ** The invariant *)

Definition unfinished (R : records) (w : string) : Prop :=
  is_Some (R !! (w, "declaration.json")) ∧ R !! (w, "superseded.json") = None
  ∧ R !! (w, "final.json") = None.
Definition sound (s : wstate) : Prop :=
  (∀ w name r, w_records s !! (w, name) = Some r → w ∈ w_windows s)
  ∧ (∀ w name r, w_records s !! (w, name) = Some r → grounds (w_records s) w name (wd_value r))
  ∧ (∀ w w', unfinished (w_records s) w → unfinished (w_records s) w' → w = w').

Inductive advance : wstate → wstate → Prop :=
  | advance_calm s s' : calm s s' → advance s s'
  | advance_window w s s' :
      w ∉ w_windows s → w_windows s' = {[w]} ∪ w_windows s → w_records s' = w_records s →
      (w_ev s ≤ w_ev s')%nat → advance s s'
  | advance_record w name v links s s' :
      w ∈ w_windows s → w_records s !! (w, name) = None →
      w_records s !! (w, "superseded.json") = None → grounds (w_records s) w name v →
      (name = "declaration.json" → ∀ w', ¬ unfinished (w_records s) w') →
      w_windows s' = w_windows s → w_records s' = <[(w, name) := WRecord v links]> (w_records s) →
      (w_ev s ≤ w_ev s')%nat → advance s s'
  | advance_trans s1 s2 s3 : advance s1 s2 → advance s2 s3 → advance s1 s3.

Lemma advance_grows s s' : advance s s' → w_records s ⊆ w_records s' ∧ (w_ev s ≤ w_ev s')%nat.
Proof.
  induction 1 as [s s' (_ & -> & ?)|? s s' _ _ -> ?|w name v links s s' _ Hn _ _ _ _ -> ?|s1 s2 s3 _ [] _ []].
  - done.
  - done.
  - split; [|done]. by apply insert_subseteq.
  - split; [by etrans|lia].
Qed.

Lemma unfinished_insert R w name r w' :
  name ≠ "declaration.json" → unfinished (<[(w, name) := r]> R) w' → R !! (w, name) = None → unfinished R w'.
Proof.
  intros Hname (H1 & H2 & H3) Hn. rewrite lookup_insert_ne in H1 by congruence.
  unfold unfinished. rewrite !lookup_insert_None in *. tauto.
Qed.
Lemma unfinished_declared R w r w' :
  unfinished (<[(w, "declaration.json") := r]> R) w' → w' = w ∨ unfinished R w'.
Proof.
  intros (H1 & H2 & H3). destruct (decide (w' = w)) as [->|Hne]; [by left|right].
  rewrite lookup_insert_ne in H1 by congruence. unfold unfinished. rewrite !lookup_insert_None in *. tauto.
Qed.

Lemma advance_sound s s' : advance s s' → sound s → sound s'.
Proof.
  induction 1 as [s s' (Hw & Hr & _)|w s s' _ Hw Hr _|w name v links s s' Hin Hn Hs Hg Hd Hw Hr _|s1 s2 s3 _ ? _ ?];
    [..|tauto]; unfold sound; intros (H1 & H2 & H3).
  - by rewrite Hw, Hr.
  - rewrite Hw, Hr. split; [|done]. intros w' name r Hx%H1. set_solver.
  - assert (w_records s ⊆ w_records s') as Hsub by (rewrite Hr; by apply insert_subseteq).
    split; [|split].
    + intros w' name' r. rewrite Hr, Hw. destruct (decide ((w', name') = (w, name))) as [[= -> ->]|Hne]; [done|].
      rewrite lookup_insert_ne by congruence. apply H1.
    + intros w' name' r Hx. eapply grounds_mono; [exact Hsub|]. rewrite Hr in Hx.
      destruct (decide ((w', name') = (w, name))) as [[= -> ->]|Hne].
      * rewrite lookup_insert_eq in Hx. by injection Hx as <-.
      * rewrite lookup_insert_ne in Hx by congruence. by apply H2.
    + intros w1 w2. rewrite Hr. destruct (decide (name = "declaration.json")) as [->|Hne].
      * specialize (Hd eq_refl). intros [->|?]%unfinished_declared [->|?]%unfinished_declared; naive_solver.
      * intros ?%unfinished_insert ?%unfinished_insert; auto.
Qed.
End chain.
