(* ===== verification/WindowFinal.v ===== *)
(** * What the records of a window prove

    Every command of the controller moves along the chain, however it ends; what a
    closed window proves, and what supersedes it. *)
From S2P Require Import Prelude PyFloat PyValue PyTime PyDateTime PyPath PyJson PyEffect LifecycleCore Deadman Canary.
From S2P Require Import CanarySample CanaryReport CanaryMain CanaryStoreFacts CanaryGaps CanaryReportFacts CanarySampleFacts.
From S2P Require Import Window WindowFacts WindowManager WindowChain.
#[local] Open Scope Z_scope.

(** ** Runs that return *)

Lemma bind_returned {A B} (m : WM A) (f : A → WM B) s b s' :
  (m ≫= f) s = (ORet b, s') → ∃ a s1, m s = (ORet a, s1) ∧ f a s1 = (ORet b, s').
Proof. unfold mbind, eff_bind. destruct (m s) as [[a|e|] s1]; naive_solver. Qed.
Lemma lift_returned {A} (r : res A) (s s' : wstate) a : e_lift r s = (ORet a, s') → r = Ok a ∧ s' = s.
Proof. unfold e_lift. destruct r; naive_solver. Qed.
Lemma read_returned {A} (f : wstate → res A) s s' a : e_read f s = (ORet a, s') → f s = Ok a ∧ s' = s.
Proof. apply lift_returned. Qed.

Section returns.
Context `{WindowRuntime}.

Lemma required_ret b msg s s' u : required b msg s = (ORet u, s') → b = true ∧ s' = s.
Proof. intros [Hb ->]%lift_returned. destruct u. by apply require_ok in Hb. Qed.
Lemma required_res_ret r msg s s' u : required_res r msg s = (ORet u, s') → r = Ok true ∧ s' = s.
Proof. intros [Hb ->]%lift_returned. destruct u. by apply require_res_ok in Hb. Qed.
Lemma observed_ret {A} (f : nat → A) s s' a : observed f s = (ORet a, s') → a = f (w_ev s) ∧ s' = wtick s.
Proof. by intros [= <- <-]. Qed.
Lemma observed_res_ret {A} (f : nat → res A) s s' a :
  observed_res f s = (ORet a, s') → f (w_ev s) = Ok a ∧ s' = wtick s.
Proof. intros (x & s1 & [-> ->]%observed_ret & [? ->]%lift_returned)%bind_returned. done. Qed.
Lemma record_exists_ret w name s s' b :
  record_exists w name s = (ORet b, s') → b = bool_decide (is_Some (w_records s !! (w, name))) ∧ s' = s.
Proof. by intros [= <- <-]. Qed.
Lemma record_json_ret w name s s' d :
  record_json w name s = (ORet d, s') →
  s' = s ∧ ∃ links, w_records s !! (w, name) = Some (WRecord (PDict d) links).
Proof.
  unfold record_json. intros [Hr ->]%read_returned. split; [done|]. unfold read_record in Hr.
  destruct (w_records s !! (w, name)) as [[v links]|]; [|done]. apply res_bind_ok in Hr as (u & _ & Hr).
  exists links. destruct v; try done. by injection Hr as ->.
Qed.
Lemma record_digest_ret w name s s' h :
  record_digest w name s = (ORet h, s') →
  s' = s ∧ ∃ r, w_records s !! (w, name) = Some r ∧ h = record_digest_of (wd_value r).
Proof.
  unfold record_digest. intros [Hr ->]%read_returned. split; [done|]. destruct (w_records s !! (w, name)) as [r|]; [|done].
  exists r. by injection Hr as <-.
Qed.

(** The digest of the declaration. *)
Lemma declared_digest w d s0 s s' h :
  accepted_as (w_records s0) w d → calm s0 s' → record_digest w "declaration.json" s = (ORet h, s') →
  s' = s ∧ h = record_digest_of (PDict d).
Proof.
  intros [[links Hd] _] (_ & Hc & _) (-> & r & Hr & ->)%record_digest_ret. split; [done|].
  rewrite Hc, Hd in Hr. by injection Hr as <-.
Qed.

Lemma load_window_ret w s s' d :
  load_window w s = (ORet d, s') →
  accepted_as (w_records s) w d ∧ w_records s !! (w, "superseded.json") = None.
Proof.
  intros (x & s1 & (-> & links & Hd)%record_json_ret & Hl)%bind_returned.
  apply bind_returned in Hl as (u & s2 & [Hv ->]%lift_returned & Hl). destruct u.
  apply bind_returned in Hl as (b & s3 & [-> ->]%record_exists_ret & Hl).
  apply bind_returned in Hl as (u & s4 & [Hb ->]%required_ret & Hl).
  do 7 apply bind_returned in Hl as (? & ? & _ & Hl). injection Hl as -> _.
  split; [split; [by exists links|done]|]. apply negb_true_iff, bool_decide_eq_false in Hb.
  by apply eq_None_not_Some.
Qed.

Lemma item_ok d k v : item d k = Ok v → get d k = v.
Proof. apply item_get. Qed.
Lemma item_stamp d k t : (item d k ≫= read_stamp) = Ok t → read_stamp (get d k) = Ok t.
Proof. intros (v & <-%item_get & Ht)%res_bind_ok. done. Qed.

(** ** Quiet parts *)

Lemma quiet_outside_json p : quiet (outside_json p).
Proof. apply quiet_observed_res. Qed.
Lemma quiet_outside_digest p : quiet (outside_digest p).
Proof. apply quiet_observed_res. Qed.
Lemma quiet_tool_digests : quiet tool_digests.
Proof. unfold tool_digests. repeat (apply quiet_bind; [apply quiet_outside_digest|intros ?]). quiet. Qed.
Lemma quiet_load w : quiet (load_window w).
Proof.
  unfold load_window, record_json, record_exists. quiet; auto using quiet_identity, quiet_outside_digest, quiet_required.
Qed.
Lemma quiet_report_paths p : quiet (report_paths p).
Proof. unfold report_paths. quiet; auto using quiet_outside_json, quiet_required. Qed.
Lemma quiet_admit_paths paths now final : quiet (admit_paths paths now final).
Proof. apply quiet_observed_res. Qed.
Lemma quiet_install_units name service timer : quiet (install_units name service timer).
Proof. unfold install_units. quiet; auto using quiet_write_unit, quiet_run. Qed.
Lemma quiet_units_unchanged binding name : quiet (units_unchanged binding name).
Proof. unfold units_unchanged, unit_digest. quiet. Qed.
Lemma quiet_receipt_matches w receipt inputs sha : quiet (receipt_matches w receipt inputs sha).
Proof. unfold receipt_matches, record_digest. quiet. Qed.
Lemma quiet_offhost w offhost : quiet (offhost_proven w offhost).
Proof. unfold offhost_proven, record_digest. quiet. Qed.
Lemma quiet_manifest value : quiet (manifest_now value).
Proof. apply quiet_observed_res. Qed.
Lemma quiet_record_json w name : quiet (record_json w name).
Proof. apply quiet_read. Qed.
Lemma quiet_record_digest w name : quiet (record_digest w name).
Proof. apply quiet_read. Qed.
Lemma quiet_record_exists w name : quiet (record_exists w name).
Proof. apply quiet_gets. Qed.
Lemma quiet_unit_digest name : quiet (unit_digest name).
Proof. apply quiet_read. Qed.
End returns.

Create HintDb quiet.
#[export] Hint Resolve quiet_lift quiet_ret quiet_gets quiet_observed quiet_observed_res quiet_required
  quiet_required_res quiet_utcnow quiet_run quiet_identity quiet_outside_json quiet_outside_digest
  quiet_tool_digests quiet_load quiet_report_paths quiet_admit_paths quiet_install_units
  quiet_units_unchanged quiet_receipt_matches quiet_offhost quiet_manifest quiet_record_json
  quiet_record_digest quiet_record_exists quiet_unit_digest : quiet.

(** ** Steps *)

Section moves.
Context `{WindowRuntime}.

(** A quiet step after moves from [s0] to [s]. *)
Lemma wp_quiet {A B} (m : WM A) (f : A → WM B) (Q : B → wstate → Prop) s0 s :
  quiet m → advance s0 s →
  (∀ a s', m s = (ORet a, s') → calm s s' → advance s0 s' →
     wp (f a) Q (λ _, advance s0) (advance s0) s') →
  wp (m ≫= f) Q (λ _, advance s0) (advance s0) s.
Proof.
  intros Hm Ha Hf. apply wp_bind. specialize (Hm s). unfold wp in Hm. unfold wp at 1.
  destruct (m s) as [[a|e|] s1] eqn:Hrun.
  - apply Hf; [done|done|]. by eapply advance_trans, advance_calm.
  - by eapply advance_trans, advance_calm.
  - by eapply advance_trans, advance_calm.
Qed.

Lemma created_advance w name v s s' :
  created w name v s s' →
  (w_records s !! (w, name) = None → w_records s !! (w, "superseded.json") = None) →
  (w_records s !! (w, name) = None → grounds (w_records s) w name v) →
  (name = "declaration.json" → ∀ w', ¬ unfinished (w_records s) w') → advance s s'.
Proof.
  intros [Hc|(Hw & He & Hin & Hn & links & Hr)] Hs Hg Hd; [by apply advance_calm|].
  exact (advance_record w name v links s s' Hin Hn (Hs Hn) (Hg Hn) Hd Hw Hr He).
Qed.

(** The creation of a record, with its grounds. *)
Lemma wp_create_advance w name value s0 s (Q : unit → wstate → Prop) :
  advance s0 s →
  (w_records s !! (w, name) = None → w_records s !! (w, "superseded.json") = None) →
  (w_records s !! (w, name) = None → grounds (w_records s) w name (jsort (PDict value))) →
  (name = "declaration.json" → ∀ w', ¬ unfinished (w_records s) w') →
  (∀ s', advance s0 s' → stored w name (jsort (PDict value)) s s' → Q () s') →
  wp (create w name value) Q (λ _, advance s0) (advance s0) s.
Proof.
  intros Ha Hs Hg Hd HQ. eapply wp_mono; [apply wp_record|..].
  - intros [] s' Hst. apply HQ; [|done]. eapply advance_trans; [exact Ha|].
    eapply created_advance; eauto using stored_created.
  - intros e s' Hcr. eapply advance_trans; [exact Ha|]. exact (created_advance _ _ _ _ _ Hcr Hs Hg Hd).
  - intros s' Hcr. eapply advance_trans; [exact Ha|]. exact (created_advance _ _ _ _ _ Hcr Hs Hg Hd).
Qed.
End moves.

(** Runs a quiet step from [s] after moves from [s0] and quiet steps from [s1]. *)
Lemma wp_go `{WindowRuntime} {A B} (m : WM A) (f : A → WM B) (Q : B → wstate → Prop) s0 s1 s :
  quiet m → advance s0 s1 → calm s1 s →
  (∀ a s', m s = (ORet a, s') → (w_ev s ≤ w_ev s')%nat → calm s1 s' →
     wp (f a) Q (λ _, advance s0) (advance s0) s') →
  wp (m ≫= f) Q (λ _, advance s0) (advance s0) s.
Proof.
  intros Hm Ha Hc Hf. eapply wp_quiet; [exact Hm|by eapply advance_trans, advance_calm|].
  intros a s' Hrun Hs _. apply Hf; [done|by destruct Hs as (_ & _ & ?)|by eapply calm_trans].
Qed.
(** Names what the step returned. *)
Ltac go x Hx Hc :=
  match type of Hc with
  | calm ?s1 _ =>
      let Hc' := fresh in
      eapply (wp_go _ _ _ _ s1); [by auto with quiet|eassumption|exact Hc|]; cbn beta;
      intros x ? Hx ? Hc'; clear Hc; rename Hc' into Hc
  end.

Lemma calm_sound `{WindowRuntime} s s' : calm s s' → sound s → sound s'.
Proof. intros Hc. by apply advance_sound, advance_calm. Qed.
Lemma calm_records s s' : calm s s' → w_records s' = w_records s.
Proof. by intros (_ & ? & _). Qed.

Section commands.
Context `{WindowRuntime}.

Definition moves {A} (m : WM A) (s : wstate) : Prop :=
  wp m (λ _, advance s) (λ _, advance s) (advance s) s.
Lemma advance_refl s : advance s s.
Proof. by apply advance_calm. Qed.

(** Records without grounds of their own. *)
Lemma plain_grounds R w name v :
  name ∉ ["binding.json"; "startup.json"; "aggregate.json"; "aggregate-receipt.json"; "final.json"] →
  grounds R w name v.
Proof. rewrite !not_elem_of_cons. intros (?&?&?&?&?&_). by split_and!. Qed.

Lemma moves_supersede w incident s : moves (supersede_window w incident) s.
Proof.
  unfold moves, supersede_window. pose proof (advance_refl s) as Ha. pose proof (calm_refl s) as Hc.
  go u Hu Hc. go at_ Hn Hc.
  apply wp_create_advance; [by apply advance_calm|done| |done|by intros].
  intros _. apply plain_grounds. by apply (bool_decide_unpack _).
Qed.

Lemma none_unfinished_spec R : none_unfinished R = true → ∀ w, ¬ unfinished R w.
Proof.
  intros HR%bool_decide_eq_true w ([r Hr] & H1 & H2). specialize (HR _ _ Hr eq_refl). cbn in HR.
  rewrite H1, H2 in HR. by destruct HR as [[]|[]].
Qed.

Lemma moves_declare start_text reports attestation endpoint_ s :
  sound s → moves (declare_window start_text reports attestation endpoint_) s.
Proof.
  intros Hsound. unfold moves, declare_window. pose proof (advance_refl s) as Ha. pose proof (calm_refl s) as Hc.
  go now Hnow Hc. go paths Hpaths Hc. go admitted Hadm Hc. go acc Hacc Hc. go start Hstart Hc.
  go rec Hrec Hc. go sha Hsha Hc. go host Hhost Hc. go att Hatt Hc. go val Hval Hc. go none Hnone Hc.
  injection Hnone as <- <-. go u Hu Hc. apply required_ret in Hu as [Hnone ->].
  set (w := py_str (get val "window_id")). apply wp_bind, wp_gets.
  case_bool_decide as Hw; [by apply wp_raise, advance_calm|].
  assert (∀ s1, calm s s1 → w ∉ w_windows s1 → advance s (add_window w (wtick s1))) as Hadd.
  { intros s1 Hc1 Hw1. eapply advance_trans; [by apply advance_calm|]. eapply (advance_window w); [done..|cbn; lia]. }
  apply wp_bind, wp_wsys; [|intros; apply advance_calm; by apply calm_tick..|by apply Hadd].
  pose proof (Hadd _ Hc Hw) as Ha2. pose proof (calm_records _ _ Hc) as Hr.
  match type of Ha2 with advance _ ?x => set (s2 := x) in * end.
  assert (w_records s2 = w_records s ∧ (∀ name, w_records s2 !! (w, name) = None)) as [Hr2 Habs].
  { split; [done|]. intros name. destruct (w_records s2 !! (w, name)) as [r|] eqn:Hx; [|done].
    unfold s2 in Hx. cbn [add_window wtick w_records] in Hx. destruct Hw. rewrite Hr in Hx.
    destruct Hc as (-> & _). by eapply Hsound. }
  apply wp_bind, wp_create_advance; [done|by rewrite Habs| | |].
  { intros _. apply plain_grounds. by apply (bool_decide_unpack _). }
  { intros _. rewrite Hr2, <- Hr. by apply none_unfinished_spec. }
  intros s3 Ha3 (Hw3 & He3 & _ & _ & Hr3).
  apply wp_bind, wp_create_advance; [done| | |done|by intros].
  { intros _. rewrite Hr3, lookup_insert_ne by done. apply Habs. }
  { intros _. apply plain_grounds. by apply (bool_decide_unpack _). }
Qed.

Lemma accepted_calm s s' w d : calm s s' → accepted_as (w_records s) w d → accepted_as (w_records s') w d.
Proof. by intros (_ & -> & _). Qed.
Lemma parse_comment_ok text c : parse_comment text = Ok c → json_loads text = Some c.
Proof. unfold parse_comment. destruct (json_loads text); naive_solver. Qed.

Lemma moves_bind w comment_id s : moves (bind_window w comment_id) s.
Proof.
  unfold moves, bind_window. pose proof (advance_refl s) as Ha. pose proof (calm_refl s) as Hc.
  go d Hload Hc. apply load_window_ret in Hload as [Hd Hsup].
  go now Hnow Hc. go start Hstart Hc. apply lift_returned in Hstart as [Hstart%item_stamp ->].
  go u Hu Hc. go u1 Hu1 Hc. go reply Hgh Hc. apply observed_res_ret in Hgh as [Hgh ->].
  go u2 Hu2 Hc. apply required_ret in Hu2 as [Hzero%Z.eqb_eq ->].
  go cmt Hcmt Hc. apply lift_returned in Hcmt as [Hcmt%parse_comment_ok ->].
  go sha Hsha Hc. destruct (declared_digest _ _ _ _ _ _ Hd Hc Hsha) as [-> ->].
  go u3 Hu3 Hc. apply required_res_ret in Hu3 as [Hmatch ->]. cbv zeta.
  go u4 Hu4 Hc. go ex_ Hex Hc. go u5 Hu5 Hc. go u6 Hu6 Hc. go end_ Hend Hc. go due Hdue Hc. go u7 Hu7 Hc.
  go now2 Hnow2 Hc. apply observed_ret in Hnow2 as [-> ->]. go u8 Hu8 Hc.
  apply required_ret in Hu8 as [Hlate%Z.ltb_lt ->].
  go at_ Hat Hc. go ssha Hssha Hc. go tsha Htsha Hc. go tools Htools Hc.
  apply wp_create_advance; [by apply advance_calm| | |done|by intros].
  { intros _. by rewrite (calm_records _ _ Hc). }
  intros _. split_and!; try done. intros _. destruct reply as [code text]. cbn in *. subst code.
  do 7 eexists. split; [by eapply accepted_calm|]. split; [exact Hstart|]. split; [exact Hgh|].
  split; [exact Hcmt|]. split; [exact Hmatch|]. split; [|exact Hlate]. lia.
Qed.

Lemma first_sample_ok d matches :
  first_sample_proven d matches = Ok true →
  ∃ sample, matches = [sample] ∧ get sample "overall_pass" = PBool true
    ∧ py_eqb (get sample "candidate") (get d "candidate") = true.
Proof.
  unfold first_sample_proven. destruct matches as [|sample [|]]; [done| |done].
  destruct (is_true _) eqn:Hp; [|done]. cbn [negb]. intros [Hc _]%and_res_ok.
  apply res_bind_ok in Hc as (c & <-%item_get & [= Hc]). exists sample. by rewrite is_true_spec in Hp.
Qed.

Lemma moves_startup w s : moves (startup_window w) s.
Proof.
  unfold moves, startup_window. pose proof (advance_refl s) as Ha. pose proof (calm_refl s) as Hc.
  go d Hload Hc. apply load_window_ret in Hload as [Hd Hsup].
  go bnd Hb Hc. apply record_json_ret in Hb as (-> & links & Hb). rewrite (calm_records _ _ Hc) in Hb.
  go now Hnow Hc. apply observed_ret in Hnow as [-> ->].
  go start Hstart Hc. apply lift_returned in Hstart as [Hstart%item_stamp ->].
  go u Hu Hc. apply required_ret in Hu as [[Hlo%Z.leb_le Hhi%Z.leb_le]%andb_true_iff ->].
  go bd Hbd Hc. go sha Hsha Hc. go u1 Hu1 Hc. go u2 Hu2 Hc.
  go ms Hms Hc. apply observed_res_ret in Hms as [Hms ->].
  go u3 Hu3 Hc. apply required_res_ret in Hu3 as [(sample & -> & Hpass & Hcand)%first_sample_ok ->].
  pose proof (calm_records _ _ Hc) as Hr.
  apply wp_create_advance; [by apply advance_calm| | |done|by intros]; [by intros _; rewrite Hr|].
  intros _. split_and!; try done. intros _. do 6 eexists. split; [by eapply accepted_calm|].
  split; [exact Hstart|]. split; [by rewrite Hr, Hb|]. split; [split; eassumption|].
  split; [|split; [exact Hms|done]]. cbn in *. lia.
Qed.

(** ** The aggregate *)

Lemma wp_run_canary w end_ s0 s (Q : unit → wstate → Prop) :
  advance s0 s → w ∈ w_windows s → w_records s !! (w, "superseded.json") = None →
  (∀ v, made_by_canary (w_ev s) end_ v → grounds (w_records s) w "aggregate.json" v) →
  (∀ s', advance s0 s' → w_records s' !! (w, "superseded.json") = None → Q () s') →
  wp (run_canary w end_) Q (λ _, advance s0) (advance s0) s.
Proof.
  intros Ha Hw Hsup Hg HQ. unfold run_canary. apply wp_bind. unfold wp at 1.
  destruct (canary_process (w_ev s) s w end_) as [o c] eqn:Hrun.
  match goal with |- context [wp _ _ _ _ ?x] => set (s' := x) end.
  assert (advance s0 s' ∧ w_records s' !! (w, "superseded.json") = None) as [Ha' Hs'].
  { assert (advance s0 (wtick s)) by (eapply advance_trans; [exact Ha|]; apply advance_calm; auto with calm).
    unfold s'. destruct (w_records s !! (w, "aggregate.json")) eqn:Hagg; [done|].
    destruct (find_node _ _) as [[v| | | |]|] eqn:Hv; try done.
    pose proof (canary_report_made _ _ _ _ _ _ _ Hagg Hrun Hv) as Hmade. split.
    - eapply advance_trans; [exact Ha|].
      eapply (advance_record w "aggregate.json" v); eauto; [done|cbn; lia].
    - cbn. by rewrite lookup_insert_ne. }
  apply wp_lift; [|done]. intros [] _. by apply HQ.
Qed.

Lemma wp_make_aggregate w d inputs end_ n s0 s (Q : unit → wstate → Prop) :
  sound s0 → advance s0 s → accepted_as (w_records s) w d → w_records s !! (w, "superseded.json") = None →
  read_stamp (get d "end") = Ok end_ → end_ <= wr_now n → (n < w_ev s)%nat →
  (∀ s', advance s0 s' → w_records s' !! (w, "superseded.json") = None → Q () s') →
  wp (make_aggregate w d inputs) Q (λ _, advance s0) (advance s0) s.
Proof.
  intros Hsound Ha Hd Hsup Hend Hnow Hn HQ. unfold make_aggregate. pose proof (calm_refl s) as Hc.
  go tried Htried Hc. apply wp_bind.
  apply (wp_mono _ (λ _ s', advance s0 s' ∧ w_records s ⊆ w_records s' ∧ (w_ev s ≤ w_ev s')%nat
                            ∧ w_records s' !! (w, "superseded.json") = None) _ (λ _, advance s0) _ (advance s0));
    [|intros [] s1 (Ha1 & Hsub & He & Hsup1)|done|done].
  - destruct tried.
    + eapply (wp_go _ _ _ _ s); [by auto with quiet|exact Ha|exact Hc|]. cbn beta. intros rec s1 Hrec ? Hc1.
      apply wp_lift; [intros [] _|intros; by eapply advance_trans, advance_calm].
      split; [by eapply advance_trans, advance_calm|]. destruct Hc1 as (_ & -> & ?). done.
    + destruct Hc as (Hcw & Hcr & Hce).
      apply wp_create_advance; [eapply advance_trans; [exact Ha|]; by apply advance_calm|by rewrite Hcr| |done|].
      { intros _. apply plain_grounds. by apply (bool_decide_unpack _). }
      intros s1 Ha1 (_ & He1 & _ & Hn1 & Hr1). rewrite Hcr in Hr1, Hn1. split; [done|].
      rewrite Hr1. split; [by apply insert_subseteq|]. split; [lia|]. by rewrite lookup_insert_ne.
  - apply wp_bind, wp_lift; [|done]. intros v Hv%item_get. subst v.
    assert (accepted_as (w_records s1) w d) as Hd1 by (by eapply accepted_mono).
    apply wp_run_canary; [done| |done| |done].
    + destruct Hd1 as [[links Hl] _]. destruct (advance_sound _ _ Ha1 Hsound) as [Hin _]. by eapply Hin.
    + intros v Hv. split_and!; try done. intros _. exists d, end_, n, (w_ev s1).
      split; [done|]. split; [done|]. split; [done|]. split; [lia|done].
Qed.

(** After the aggregate was there: the receipt. *)
Definition aggregate_tail (w : string) (d inputs : pydict) (sha : string) : WM unit :=
  recorded ← record_json w "aggregate-inputs.json";
  required (py_eqb (PDict recorded) (PDict inputs)) "aggregate samples changed";;
  again ← manifest_now d;
  required (py_eqb (PDict again) (PDict inputs)) "samples changed during aggregation";;
  report ← record_json w "aggregate.json";
  e_lift (validate_aggregate report d);;
  closed ← record_exists w "aggregate-receipt.json";
  if (closed : bool) then
    receipt ← record_json w "aggregate-receipt.json";
    same ← receipt_matches w receipt inputs sha;
    required same "existing aggregate receipt no longer matches"
  else
    created ← utcnow;
    aggregate_sha ← record_digest w "aggregate.json";
    create w "aggregate-receipt.json"
      ([("created_at", PStr (stamp created)); ("overall_pass", PBool true);
        ("declaration_sha256", PStr sha); ("aggregate_sha256", PStr aggregate_sha)] ++ inputs).

Definition receipted (w : string) (s0 s : wstate) : Prop :=
  advance s0 s ∧ is_Some (w_records s !! (w, "aggregate-receipt.json")).

Lemma wp_aggregate_tail w d inputs sha s0 s :
  advance s0 s → accepted_as (w_records s) w d → w_records s !! (w, "superseded.json") = None →
  is_Some (w_records s !! (w, "binding.json")) → is_Some (w_records s !! (w, "startup.json")) →
  wp (aggregate_tail w d inputs sha) (λ _, receipted w s0) (λ _, advance s0) (advance s0) s.
Proof.
  intros Ha Hd Hsup Hb Hst. unfold aggregate_tail. pose proof (calm_refl s) as Hc.
  go rec Hrec Hc. go u Hu Hc. go again Hagain Hc. go u1 Hu1 Hc.
  go rep Hrep Hc. apply record_json_ret in Hrep as (-> & links & Hrep). rewrite (calm_records _ _ Hc) in Hrep.
  go u2 Hu2 Hc. apply lift_returned in Hu2 as [Hval ->]. destruct u2.
  go clo Hclo Hc. apply record_exists_ret in Hclo as [-> ->]. rewrite (calm_records _ _ Hc).
  case_bool_decide as Hthere.
  - go rcp Hrcp Hc. go same Hsame Hc.
    apply wp_lift; [intros [] _; split|intros e _]; [by eapply advance_trans, advance_calm| |by eapply advance_trans, advance_calm].
    by rewrite (calm_records _ _ Hc).
  - go at_ Hat Hc. go ash Hash Hc. pose proof (calm_records _ _ Hc) as Hr.
    apply wp_create_advance; [by eapply advance_trans, advance_calm| | |done|].
    + intros _. by rewrite Hr.
    + intros _. rewrite Hr. split_and!; try done. intros _. exists d, rep, links. done.
    + intros s1 Ha1 (_ & _ & _ & _ & Hr1). split; [done|]. rewrite Hr1. by rewrite lookup_insert_eq.
Qed.

Lemma wp_aggregate w s :
  sound s → wp (aggregate_declared w) (λ _, receipted w s) (λ _, advance s) (advance s) s.
Proof.
  intros Hsound. unfold aggregate_declared. pose proof (advance_refl s) as Ha. pose proof (calm_refl s) as Hc.
  go d Hload Hc. apply load_window_ret in Hload as [Hd Hsup].
  go now Hnow Hc. apply observed_ret in Hnow as [-> ->].
  go end_ Hend Hc. apply lift_returned in Hend as [Hend%item_stamp ->].
  go u Hu Hc. apply required_ret in Hu as [Hlate%Z.leb_le ->].
  go bnd Hb Hc. apply record_json_ret in Hb as (-> & links & Hb). rewrite (calm_records _ _ Hc) in Hb.
  go sup Hst Hc. apply record_json_ret in Hst as (-> & links' & Hst). rewrite (calm_records _ _ Hc) in Hst.
  go sha Hsha Hc. go u1 Hu1 Hc. go tools Htools Hc. go tnow Htnow Hc. go u2 Hu2 Hc. go unch Hunch Hc.
  go u3 Hu3 Hc. go inputs Hinputs Hc. go made Hmade Hc. pose proof (calm_records _ _ Hc) as Hr.
  apply wp_bind.
  apply (wp_mono _ (λ _ s', advance s s' ∧ w_records s' !! (w, "superseded.json") = None) _ (λ _, advance s) _ (advance s));
    [|intros [] s1 [Ha1 Hsup1]|done|done].
  - assert (advance s s'8) by (by apply advance_calm). destruct made; [by apply wp_ret; rewrite Hr|].
    eapply wp_make_aggregate; [done|done|by eapply accepted_calm|by rewrite Hr|exact Hend|exact Hlate| |by intros].
    cbn in *. lia.
  - change (wp (aggregate_tail w d inputs sha) (λ _, receipted w s) (λ _, advance s) (advance s) s1).
    destruct (advance_grows _ _ Ha1) as [Hsub _].
    apply wp_aggregate_tail; [done|by eapply accepted_mono|done|..]; eapply some_mono; eauto.
Qed.

(** ** The final record *)

Lemma offhost_proven_ret w d s0 s s' offhost :
  accepted_as (w_records s0) w d → calm s0 s' → offhost_proven w offhost s = (ORet true, s') →
  s' = s ∧ ∃ a, w_records s !! (w, "aggregate.json") = Some a
    ∧ py_eqb (get offhost "aggregate_sha256") (PStr (record_digest_of (wd_value a))) = true
    ∧ py_eqb (get offhost "declaration_sha256") (PStr (record_digest_of (PDict d))) = true
    ∧ get offhost "readback_verified" = PBool true.
Proof.
  intros Hd Hc (h & s1 & (-> & a & Ha & ->)%record_digest_ret & Hrun)%bind_returned.
  destruct (py_eqb (get offhost "aggregate_sha256") _) eqn:Hagg; [|by injection Hrun].
  cbn [negb] in Hrun. apply bind_returned in Hrun as (h & s1 & Hh & Hrun). injection Hrun as Hrun ->.
  destruct (declared_digest _ _ _ _ _ _ Hd Hc Hh) as [-> ->]. split; [done|]. exists a.
  apply andb_true_iff in Hrun as [[Hdec _]%andb_true_iff Hback%is_true_spec]. done.
Qed.

Lemma quiet_role paths role : quiet (e_lift (path_of_role paths role) ≫= outside_json).
Proof. apply quiet_bind; auto with quiet. Qed.
#[local] Hint Resolve quiet_role : quiet.

Lemma moves_finalize w reports s : sound s → moves (finalize_window w reports) s.
Proof.
  intros Hsound. unfold moves, finalize_window. apply wp_bind.
  eapply wp_mono; [by apply wp_aggregate| |done|done]. intros [] s1 [Ha Hrec].
  pose proof (calm_refl s1) as Hc. go d Hload Hc. apply load_window_ret in Hload as [Hd Hsup].
  go paths Hpaths Hc. go now Hnow Hc. go adm Hadm Hc. apply observed_res_ret in Hadm as [Hadm ->].
  go host Hhost Hc. go u Hu Hc. apply lift_returned in Hu as [Hval ->]. destruct u.
  go off Hoff Hc. go prv Hprv Hc. destruct prv.
  2: { eapply (wp_go _ _ _ _ s1); [by auto with quiet|exact Ha|exact Hc|]. cbn beta.
       intros u s2 [[=] _]%required_ret. }
  destruct (offhost_proven_ret _ _ _ _ _ _ Hd Hc Hprv) as (-> & a & Hagg & Hsame & Hdec & Hback).
  rewrite (calm_records _ _ Hc) in Hagg.
  go u1 Hu1 Hc. go at_ Hat Hc. go dsha Hdsha Hc. destruct (declared_digest _ _ _ _ _ _ Hd Hc Hdsha) as [-> ->].
  go asha Hasha Hc. apply record_digest_ret in Hasha as (-> & a' & Ha' & ->).
  pose proof (calm_records _ _ Hc) as Hr. rewrite Hr, Hagg in Ha'. injection Ha' as <-.
  apply wp_create_advance; [by eapply advance_trans, advance_calm| | |done|by intros].
  { intros _. by rewrite Hr. }
  intros _. rewrite Hr. split_and!; try done. intros _.
  do 9 eexists. split; [exact Hd|]. split; [exact Hagg|]. split; [done|]. split; [exact Hadm|].
  split; [exact Hval|]. split; [exact Hsame|]. split; [exact Hdec|]. split; [exact Hback|done].
Qed.

(** ** The command line *)

Lemma moves_main c s : sound s → moves (manager_main c) s.
Proof.
  intros Hsound. unfold moves, manager_main. apply wp_try.
  cut (wp (window_dispatch c) (λ _, advance s) (λ _, advance s) (advance s) s).
  { intros Hd. apply wp_bind. eapply wp_mono; [exact Hd|..]; [done| |done].
    intros e s1 Hs1. by destruct (is_refusal e). }
  unfold window_dispatch. pose proof (advance_refl s) as Ha. pose proof (calm_refl s) as Hc.
  go u Hu Hc. go lnk Hlnk Hc. go u1 Hu1 Hc. go u2 Hu2 Hc.
  assert (∀ {A} (m : WM A) s1, calm s s1 → moves m s1 → wp m (λ _, advance s) (λ _, advance s) (advance s) s1) as Hfrom.
  { intros A m s1 Hs1 Hm. eapply wp_mono; [exact Hm|..]; intros;
      (eapply advance_trans; [by apply advance_calm|]; eassumption). }
  destruct c as [start reports attestation endpoint_|directory c].
  - apply wp_bind. eapply wp_mono; [apply Hfrom; [exact Hc|]; by eapply moves_declare, calm_sound|..]; done.
  - go lnk' Hlnk' Hc. go u3 Hu3 Hc. apply Hfrom; [done|]. pose proof (calm_sound _ _ Hc Hsound).
    destruct c; cbn [on_window].
    + apply moves_bind.
    + apply moves_startup.
    + eapply wp_mono; [by apply wp_aggregate|..]; [by intros ? ? []|done|done].
    + by apply moves_finalize.
    + apply moves_supersede.
Qed.

Lemma reachable_sound s : window_reachable s → sound s.
Proof.
  induction 1 as [n units|s c o s' _ IH Hrun].
  - split_and!; cbn; intros; try by rewrite lookup_empty in *. by destruct H0 as ([r Hr] & _).
  - eapply advance_sound; [|exact IH]. pose proof (moves_main c s IH) as Hm. unfold moves, wp in Hm.
    rewrite Hrun in Hm. by destruct o.
Qed.
End commands.

(** ** Closed windows *)

(** ** The evidence of the canary is outside the windows *)

Definition window_file (x : path * cnode) : Prop :=
  parts_below (p_parts WINDOW_ROOT) (p_parts x.1) ≠ None.

Lemma window_file_no_sample x : window_file x → is_sample_path CANARY x.1 = false.
Proof.
  unfold window_file. destruct x as [[root parts] n]. cbn [fst p_parts]. intros Hx. unfold is_sample_path.
  apply andb_false_intro2. cbn [p_parts].
  change (p_parts WINDOW_ROOT) with ["var"; "lib"; "boost-gateway-immutable-windows"] in Hx.
  change (p_parts CANARY ++ ["samples"]) with ["var"; "lib"; "boost-gateway-canary"; "samples"].
  destruct parts as [|a [|b [|c parts]]]; cbn [parts_below] in *; repeat case_match; try done; simplify_eq.
  repeat match goal with H : String.eqb _ _ = true |- _ => apply String.eqb_eq in H end. congruence.
Qed.

Section store.
Variables (l nodes : list (path * cnode)).
Hypothesis window_nodes_only : Forall window_file nodes.

Lemma sample_paths_outside : sample_paths CANARY (l ++ nodes) = sample_paths CANARY l.
Proof.
  unfold sample_paths. rewrite map_app, filter_app.
  replace (filter _ (map fst nodes)) with (@nil path); [by rewrite app_nil_r|]. symmetry.
  induction window_nodes_only as [|x nodes' Hx Hn IH]; [done|]. cbn [map]. rewrite filter_cons.
  rewrite decide_False by (by rewrite window_file_no_sample). by apply IH.
Qed.
Lemma find_sample_outside p :
  p ∈ sample_paths CANARY l → find_node p (l ++ nodes) = find_node p l.
Proof.
  intros [_ Hp]%list_elem_of_filter. rewrite find_node_app.
  destruct (find_node p l) eqn:Hl; [done|]. by apply find_node_None in Hl.
Qed.
Lemma sample_at_outside t x : sample_at CANARY (l ++ nodes) t x ↔ sample_at CANARY l t x.
Proof.
  unfold sample_at, valid_at. rewrite sample_paths_outside.
  split; intros (p & Hp & Hv); exists p; (split; [done|]); by rewrite find_sample_outside in *.
Qed.
End store.

Section final.
Context `{WindowRuntime}.

Lemma declared_unique R w d d' : declared_as R w d → declared_as R w d' → d = d'.
Proof. intros [l1 H1] [l2 H2]. rewrite H1 in H2. by injection H2 as <-. Qed.

Lemma parse_time_valid text t : parse_time text = Ok t → valid_instant t.
Proof.
  unfold parse_time. destruct (fromisoformat _); [|done]. intros Ht. apply res_bind_ok in Ht as (u & _ & Ht).
  destruct (instant_ok _) eqn:Hok; [|done]. injection Ht as <-. unfold instant_ok in Hok.
  by apply andb_true_iff in Hok as [?%Z.leb_le ?%Z.ltb_lt].
Qed.

(** The samples of the event [m] cover the window. *)
Definition covered (start end_ : Z) (m : nat) : Prop :=
  (∀ p, p ∈ sample_paths CANARY (outside m) → ∃ sample t,
     node_json p (find_node p (outside m)) = Ok sample ∧ scheduled sample = Ok t
     ∧ (start <= t < end_ → contract sample))
  ∧ ∀ t, ¬ run_of (unrecorded CANARY start end_ (outside m)) t 3.

Lemma accepted_report_covers m d end_text report :
  made_by_canary m end_text (PDict report) → validate_aggregate report d = Ok () →
  ∃ start end_, read_stamp (get d "start") = Ok start ∧ read_stamp (get d "end") = Ok end_
    ∧ end_ - start = WINDOW_DURATION * second_us ∧ covered start end_ m.
Proof.
  intros (e & windows & r & generated & c & c' & nodes & He & Hok & Hc & Hnodes & Hrun & Hv) Hval.
  change (PDict report = PDict (reread (written_report r generated))) in Hv. injection Hv as ->.
  unfold instant_ok in Hok. apply andb_true_iff in Hok as [Hlo%Z.leb_le Hhi%Z.ltb_lt].
  assert (valid_instant (floor_minute e)) as Hend.
  { apply floor_valid; [by eapply parse_time_valid|done|done]. }
  pose proof (aggregate_covers_window CANARY (floor_minute e - 30 * day_us) (floor_minute e) windows generated d c
    (conj Hlo Hhi) Hend) as Hw.
  unfold wp in Hw. rewrite Hrun in Hw. destruct (Hw Hval) as (Hs & Hd & Hlen & _ & Hall & Hruns). clear Hw.
  rewrite Hc in Hall, Hruns. exists (floor_minute e - 30 * day_us), (floor_minute e).
  split; [done|]. split; [done|]. split; [done|]. split.
  - intros p Hp. destruct (Hall p) as (sample & t & Hn & Hrest); [by rewrite sample_paths_outside|].
    exists sample, t. by rewrite find_sample_outside in Hn.
  - intros t Hrun3. apply (Hruns t). intros i Hi. destruct (Hrun3 i Hi) as [Hin Hno]. split; [done|].
    by setoid_rewrite sample_at_outside.
Qed.


(** C39: At most one declared window is unfinished, neither closed nor superseded, in
    every state that the commands can lead to. *)
Theorem one_unfinished_window s w w' :
  window_reachable s → unfinished (w_records s) w → unfinished (w_records s) w' → w = w'.
Proof. intros (_ & _ & Hone)%reachable_sound. apply Hone. Qed.

Lemma advance_superseded s s' w :
  advance s s' → is_Some (w_records s !! (w, "superseded.json")) →
  ∀ name, w_records s' !! (w, name) = w_records s !! (w, name).
Proof.
  induction 1 as [s s' (_ & -> & _)|? s s' _ _ -> _|w1 name1 v links s s' _ Hn Hsup _ _ _ -> _|s1 s2 s3 _ IH1 _ IH2].
  - done.
  - done.
  - intros [r Hr] name. destruct (decide (w1 = w)) as [->|Hne]; [congruence|].
    by rewrite lookup_insert_ne by congruence.
  - intros Hsome name. rewrite IH2 by (by rewrite IH1). by apply IH1.
Qed.

(** C38: No command, however it ends, changes or removes a record of a window; and a
    superseded window gets no further record: it can never be closed. *)
Theorem records_permanent s c o s' :
  window_reachable s → manager_main c s = (o, s') →
  (∀ w name r, w_records s !! (w, name) = Some r → w_records s' !! (w, name) = Some r)
  ∧ ∀ w, is_Some (w_records s !! (w, "superseded.json")) →
      ∀ name, w_records s' !! (w, name) = w_records s !! (w, name).
Proof.
  intros Hs%reachable_sound Hrun. pose proof (moves_main c s Hs) as Hm. unfold moves, wp in Hm.
  rewrite Hrun in Hm. assert (advance s s') as Ha by (by destruct o).
  split; [|by intros w Hw; apply (advance_superseded s)].
  intros w name r Hr. destruct (advance_grows _ _ Ha) as [Hsub _]. by eapply lookup_weaken.
Qed.
End final.
