(* ===== verification/WindowRun.v ===== *)
(** * A window from its declaration to its final record

    A host on which the whole chain of commands succeeds, with 30 days of samples
    that are never computed: what the canary reports on them is known from
    [complete_aggregate]. *)
From S2P Require Import Prelude PyFloat PyValue PyTime PyDateTime PyPath PyJson PyEffect PerfStatistics LifecycleCore Deadman Canary.
From S2P Require Import CanarySample CanaryReport CanaryMain CanaryStoreFacts CanaryGaps CanaryReportFacts CanarySampleFacts.
From S2P Require Import Window WindowFacts WindowWitnesses WindowComplete WindowManager WindowChain WindowFinal.
#[local] Open Scope Z_scope.

(** ** The samples *)

Definition run_candidate : py := get the_declaration "candidate".
Definition run_step (name : string) : py :=
  PDict [("name", PStr name); ("ok", PBool true); ("latency_ms", PFloat (f_of_Z 12))].
Definition run_sample (t : Z) : pydict :=
  [("scheduled_minute", PStr (iso_seconds t)); ("candidate", run_candidate);
   ("endpoint", PStr FROZEN_ENDPOINT); ("host_boundary", get the_declaration "host_boundary");
   ("sdk_version", PStr "4.2.0"); ("steps", PList (map run_step REQUIRED_STEPS));
   ("overall_pass", PBool true); ("secret_material_recorded", PBool false)].
Definition run_path (t : Z) : path := under CANARY ["samples"; iso_seconds t; "a.json"].
Definition run_node (t : Z) : path * cnode := (run_path t, NDoc (PDict (run_sample t))).
Definition run_end : Z := declared_start + WINDOW_DURATION * second_us.
Definition full_evidence (end_ : Z) : list (path * cnode) := map run_node (iter_minutes declared_start end_).

(** ** The host *)

Definition evidence_file (name : string) : path := py_path ("/evidence/" +:+ name +:+ ".json").
Definition role_file (prefix role : string) : path := evidence_file (prefix +:+ role).
Definition report_map (prefix : string) (roles : list string) : py :=
  PDict (map (λ r, (r, PStr (path_str (role_file prefix r)))) roles).
Definition run_sha (s : string) : string := str_take 64 s.
Definition declaration_sha : string := run_sha (record_text (jsort (PDict the_declaration))).
Definition run_latencies : list (string * latency) :=
  map (λ n, (n, Latency WINDOW_SAMPLES (Some (f_of_Z 12)) (Some (f_of_Z 12)))) REQUIRED_STEPS.
Definition run_report : py :=
  jsort (PDict (written_report (full_report run_candidate FROZEN_ENDPOINT declared_start run_latencies)
                  "2026-03-31T01:10:00.000Z")).
Definition aggregate_sha : string := run_sha (record_text run_report).

Definition admission_report (role : string) : pydict :=
  match rf_json (report_of role).2 with Ok d => d | Raise _ => [] end.
Definition final_report (role : string) : pydict :=
  [("overall_pass", PBool true); ("created_at", PStr "2026-03-31T01:05:00Z")]
  ++ (if String.eqb role "deadman" then [("active", PBool true); ("subject", drill_subject)]
      else if String.eqb role "host_window" then
        [("start", get the_declaration "start"); ("end", get the_declaration "end");
         ("candidate_record_sha256", get the_declaration "candidate_record_sha256");
         ("unknown_restarts", PInt 0); ("oom_events", PInt 0); ("sustained_thermal_throttles", PInt 0);
         ("unexplained_growth", PInt 0); ("host_memory_max_ratio", PFloat f_half);
         ("filesystem_max_used_ratio", PFloat f_half); ("coverage_rate", PInt 1); ("max_gap_seconds", PInt 60)]
      else if String.eqb role "offhost" then
        [("aggregate_sha256", PStr aggregate_sha); ("declaration_sha256", PStr declaration_sha);
         ("source_host_id_sha256", PStr "a"); ("destination_host_id_sha256", PStr "b");
         ("readback_verified", PBool true)]
      else []).
Definition host_documents : list (path * cnode) :=
  [(RECORD, NDoc (PDict frozen_record)); (evidence_file "attestation", NDoc (PDict drill_attestation));
   (evidence_file "map", NDoc (report_map "" ADMISSION_ROLES));
   (evidence_file "final-map", NDoc (report_map "final-" FINAL_ROLES)); run_node declared_start]
  ++ map (λ r, (role_file "" r, NDoc (PDict (admission_report r)))) ADMISSION_ROLES
  ++ map (λ r, (role_file "final-" r, NDoc (PDict (final_report r)))) FINAL_ROLES.
Definition run_bytes (p : path) : string :=
  if bool_decide (p = RECORD) then hex64_of "c"
  else if bool_decide (p = evidence_file "attestation") then hex64_of "0"
  else str_take (String.length (p_name p) - 5) (p_name p).
Definition run_comment : string :=
  json_dumps (PDict [("issue_url", PStr "https://api.github.com/repos/HoneyBury/boost_gateway/issues/31");
    ("body", PStr (str_concat " " [py_str (get the_declaration "start"); py_str (get the_declaration "end");
                                  declaration_sha; FROZEN_DEPLOYMENT]))]).

(** A canary process whose system calls succeed. *)
Definition calm_canary : CanaryRuntime := {|
  ct_sha256 := λ s, s; ct_now := λ _, run_end + 600 * second_us; ct_token := λ _, "0123456789ab";
  ct_clock_ns := λ n, Z.of_nat n; ct_new := λ _, None; ct_sdk := λ _, ORet PNone;
  ct_http := λ _, HReply 200; ct_fault := λ _, FOk |}.

(** The event at which the canary aggregates, and the last ones before the start and
    before the end. *)
Definition canary_event : nat := 98.
Definition before_start : nat := 60.
Definition before_end : nat := 77.

#[local] Instance run_host : WindowRuntime := {|
  wr_sha256 := run_sha;
  wr_now := λ n, if (n <=? before_start)%nat then declared_now
                 else if (n <=? before_end)%nat then declared_start + 60 * second_us
                 else run_end + 600 * second_us;
  wr_token := λ n, Z_str (Z.of_nat n);
  wr_fault := λ _, FOk;
  wr_takes := λ _, 0%nat;
  wr_linux := true;
  wr_euid := 0;
  wr_symlink := λ _ _, false;
  wr_lock := λ _, Ok ();
  wr_machine_id := λ _, Ok (hex64_of "c");
  wr_directory := λ _ _, (0, 488);
  wr_documents := λ n, if (n =? canary_event)%nat then full_evidence run_end else host_documents;
  wr_meta := λ _ _, FileMeta true 1 0 416 100;
  wr_bytes := λ _ p, Ok (run_bytes p);
  wr_canary_uid := λ _, 1000;
  wr_run := λ _ _, Ok 0;
  wr_gh := λ _ _, Ok (0, run_comment);
  wr_canary := λ _, calm_canary;
  wr_canary_links := λ _, 1;
  wr_executable := p_join INSTALLED "manage_immutable_window.py";
  wr_libraries := (p_join INSTALLED "immutable_window.py", p_join INSTALLED "deadman_evidence.py") |}.

Definition run_window : string := window_id declared_start.
Definition run_directory : path := p_join WINDOW_ROOT run_window.
Definition run_declare : window_command :=
  WDeclare (stamp declared_start) (evidence_file "map") (evidence_file "attestation") FROZEN_ENDPOINT.
Definition after (c : window_command) (s : wstate) : wstate := (manager_main c s).2.
Definition s_declared : wstate := after run_declare (WState 0 ∅ ∅ ∅ ∅).
Definition s_bound : wstate := after (WOn run_directory (DBind "123")) s_declared.
Definition s_started : wstate := after (WOn run_directory DStartup) s_bound.

(** ** The report of the canary on these samples *)

#[local] Opaque iter_minutes.

Lemma whole_scheduled t : valid_instant t → t mod minute_us = 0 → parse_time (iso_seconds t) = Ok t.
Proof.
  intros Ht Hm. pose proof (scheduled_reads t Ht) as Hs. unfold floor_minute in Hs. by rewrite Hm, Z.sub_0_r in Hs.
Qed.
Lemma run_minute t :
  t ∈ iter_minutes declared_start run_end → valid_instant t ∧ t mod minute_us = 0.
Proof.
  intros [Ht Hm]%(iter_minutes_spec declared_start run_end (eq_refl : whole_minute declared_start = true)).
  split; [|done]. assert (valid_instant declared_start ∧ valid_instant run_end) as [H1 H2] by (by vm_compute).
  unfold valid_instant in *. lia.
Qed.
Lemma run_path_inj t u :
  t ∈ iter_minutes declared_start run_end → u ∈ iter_minutes declared_start run_end →
  run_path t = run_path u → t = u.
Proof.
  intros [Ht Hmt]%run_minute [Hu Hmu]%run_minute [= Heq].
  pose proof (whole_scheduled t Ht Hmt) as H1. rewrite Heq, (whole_scheduled u Hu Hmu) in H1. by injection H1.
Qed.

Lemma full_find ts t nodes :
  (∀ u, u ∈ ts → u ∈ iter_minutes declared_start run_end) → t ∈ ts →
  find_node (run_path t) (map run_node ts ++ nodes) = Some (NDoc (PDict (run_sample t))).
Proof.
  intros Hts Ht. induction ts as [|u ts IH]; [by apply elem_of_nil in Ht|]. cbn [map app run_node].
  unfold run_node at 1. rewrite find_node_cons. case_decide as Hp.
  - apply run_path_inj in Hp as ->; [reflexivity|apply Hts, elem_of_cons; by left|by apply Hts].
  - apply elem_of_cons in Ht as [->|Ht]; [by destruct Hp|]. apply IH; [|exact Ht].
    intros v Hv. apply Hts, elem_of_cons. by right.
Qed.
Lemma full_paths ts : sample_paths CANARY (map run_node ts) = map run_path ts.
Proof.
  unfold sample_paths. rewrite map_map. change (map (λ x, (run_node x).1) ts) with (map run_path ts).
  apply filter_all, Forall_map, Forall_forall. done.
Qed.
Lemma full_outside : outside canary_event = full_evidence run_end.
Proof.
  unfold outside. change (wr_documents canary_event) with (full_evidence run_end).
  apply filter_all, Forall_map, Forall_forall. done.
Qed.
Lemma full_absent p nodes :
  is_sample_path CANARY p = false → find_node p (full_evidence run_end ++ nodes) = find_node p nodes.
Proof.
  intros Hp. rewrite find_node_app.
  assert (find_node p (full_evidence run_end) = None) as ->; [|done].
  apply find_node_None. intros Hin. apply list_elem_of_fmap in Hin as (x & -> & Hx).
  apply list_elem_of_fmap in Hx as (t & -> & _). discriminate Hp.
Qed.

Lemma run_complete t :
  t ∈ iter_minutes declared_start run_end → complete_sample run_candidate FROZEN_ENDPOINT t (run_sample t).
Proof.
  intros [Ht Hm]%run_minute. split; [by apply whole_scheduled| |done|done|done|].
  - exists (map PStr REQUIRED_STEPS). by split_and!.
  - intros name Hname. unfold REQUIRED_STEPS in Hname. rewrite !elem_of_cons in Hname.
    destruct Hname as [->|[->|[->|[->|[->|[->|[]%elem_of_nil]]]]]]; eexists _, (f_of_Z 12); split; reflexivity.
Qed.

(** *** Its latencies *)

Lemma sorted_replicate x n : fltb x x = false → sorted_floats (replicate n x) = replicate n x.
Proof.
  intros Hx. assert (∀ k, insert_float x (replicate k x) = replicate (S k) x) as Hins.
  { induction k as [|k IH]; [done|]. cbn [replicate insert_float]. rewrite Hx, IH. done. }
  assert (∀ k, fold_left (λ acc x, insert_float x acc) (replicate n x) (replicate k x) = replicate (n + k) x)
    as Hfold; [|specialize (Hfold 0%nat); by rewrite Nat.add_0_r in Hfold].
  induction n as [|n IH]; intros k; [done|]. cbn [replicate fold_left]. rewrite Hins, IH.
  by rewrite Nat.add_succ_r.
Qed.
Lemma run_percentile n p :
  Z.of_nat n = WINDOW_SAMPLES → p = f_half ∨ p = f_p99 →
  interpolated_percentile (replicate n (f_of_Z 12)) p = Ok (Some (f_of_Z 12)).
Proof.
  intros Hn Hp. unfold interpolated_percentile. destruct n as [|n]; [done|].
  change (replicate (S n) (f_of_Z 12)) with (f_of_Z 12 :: replicate n (f_of_Z 12)) at 1. cbn iota.
  rewrite sorted_replicate by (by vm_compute). rewrite length_replicate, Hn.
  assert (∀ i, 0 <= i < WINDOW_SAMPLES → py_index (replicate (S n) (f_of_Z 12)) i = Ok (f_of_Z 12)) as Hindex.
  { intros i Hi. unfold py_index. rewrite lookup_replicate_2 by lia. done. }
  destruct Hp as [->| ->]; (rewrite !Hindex by (by vm_compute)); by vm_compute.
Qed.
Lemma run_latency_values name ts :
  name ∈ REQUIRED_STEPS → latency_values name (map run_sample ts) = Ok (replicate (length ts) (f_of_Z 12)).
Proof.
  intros Hname. unfold latency_values.
  assert (∃ l, (∀ t, sample_latencies name (run_sample t) = Ok l) ∧ omap id l = [f_of_Z 12]) as (l & Hl & Hl12).
  { unfold REQUIRED_STEPS in Hname. rewrite !elem_of_cons in Hname.
    destruct Hname as [->|[->|[->|[->|[->|[->|[]%elem_of_nil]]]]]]; eexists; split; intros; reflexivity. }
  change (mapM (λ sample, raw ← item sample "steps"; steps ← py_iter raw; mapM (step_latency name) steps)
            (map run_sample ts)) with (mapM (sample_latencies name) (map run_sample ts)).
  assert (mapM (sample_latencies name) (map run_sample ts) = Ok (replicate (length ts) l)) as ->.
  { induction ts as [|t ts IH]; [done|]. cbn [map]. change (mapM (sample_latencies name) (?x :: ?r))
      with (y ← sample_latencies name x; k ← mapM (sample_latencies name) r; mret (y :: k)).
    rewrite Hl. cbn [mbind res_bind]. by rewrite IH. }
  cbn [mbind res_bind]. f_equal. induction ts as [|t ts IH]; [done|]. cbn [length replicate concat].
  rewrite omap_app, Hl12, IH. done.
Qed.
Lemma run_latencies_are ts latencies :
  ts ≡ₚ iter_minutes declared_start run_end →
  mapM (latency_summary (map run_sample ts)) REQUIRED_STEPS = Ok latencies → latencies = run_latencies.
Proof.
  intros Hts. assert (Z.of_nat (length ts) = WINDOW_SAMPLES) as Hn.
  { rewrite Hts. exact (minutes_count declared_start eq_refl). }
  assert (∀ name, name ∈ REQUIRED_STEPS → latency_summary (map run_sample ts) name
            = Ok (name, Latency WINDOW_SAMPLES (Some (f_of_Z 12)) (Some (f_of_Z 12)))) as Hsum.
  { intros name Hname. unfold latency_summary. rewrite run_latency_values by done. cbn [mbind res_bind].
    rewrite (run_percentile _ f_half Hn) by (by left). rewrite (run_percentile _ f_p99 Hn) by (by right).
    cbn [mbind res_bind]. by rewrite length_replicate, Hn. }
  assert (∀ l, (∀ x, x ∈ l → x ∈ REQUIRED_STEPS) → mapM (latency_summary (map run_sample ts)) l
    = Ok (map (λ n, (n, Latency WINDOW_SAMPLES (Some (f_of_Z 12)) (Some (f_of_Z 12)))) l)) as Hall.
  { induction l as [|name l IH]; intros Hl; [done|].
    change (mapM (latency_summary (map run_sample ts)) (name :: l))
      with (y ← latency_summary (map run_sample ts) name;
            k ← mapM (latency_summary (map run_sample ts)) l; mret (y :: k)).
    rewrite Hsum by (apply Hl, elem_of_cons; by left). cbn [mbind res_bind].
    rewrite IH; [done|]. intros x Hx. apply Hl, elem_of_cons. by right. }
  rewrite Hall by done. by intros [= <-].
Qed.

(** *** The process *)

Lemma wp_run {S A} (m : eff S A) (Q : A → S → Prop) E C s a s' : m s = (ORet a, s') → Q a s' → wp m Q E C s.
Proof. unfold wp. by intros ->. Qed.
(** Without faults and with free names, evidence is written. *)
Lemma write_returns `{CanaryRuntime} p v s :
  (∀ n, ct_fault n = FOk) → ¬ staging p → find_node p (c_store s) = None →
  find_node (p_join (p_parent p) (".boost-gateway-evidence-" +:+ ct_token (S (c_tick s)) +:+ ".tmp")) (c_store s) = None →
  wp (write_create_only p v) (λ _ s', find_node p (c_store s') = Some (NDoc (jsort v))) (λ _ _, False)
    (λ _, False) s.
Proof.
  intros Hf Hst Hp Htmp.
  assert (∀ f (Q : unit → cstate → Prop) E C s, Q () (f (tick_on s)) → wp (sys f) Q E C s) as Hsys.
  { intros f Q E C s1 HQ. unfold wp, sys. by rewrite Hf. }
  assert (wp (write_create_only p v) (λ _ _, True) (λ _ _, False) (λ _, False) s) as Hret.
  { unfold write_create_only. apply wp_bind, Hsys, wp_bind. unfold mkstemp. apply wp_bind. unfold wp at 1, uuid_token at 1.
    apply wp_bind, wp_gets. cbn [tick_on c_tick c_store id]. set (q := p_join _ _) in *.
    rewrite bool_decide_eq_false_2 by (by apply find_node_None).
    apply wp_bind, Hsys, wp_ret, wp_bind. unfold on_failure. apply wp_try, wp_bind, Hsys, wp_bind.
    unfold link_new. apply wp_bind, wp_gets.
    assert (p ≠ q) as Hpq by (intros Hpq; apply Hst; rewrite Hpq; by eexists _, _).
    rewrite bool_decide_eq_false_2.
    2: { apply find_node_None. rewrite find_node_put, decide_False by done. cbn [tick_on c_store].
         rewrite find_node_put, decide_False by done. done. }
    apply Hsys, wp_bind, Hsys, Hsys, Hsys. done. }
  pose proof (wp_and _ _ _ _ _ _ _ _ (write_create_only_grows p v s) Hret) as Hboth.
  eapply wp_mono; [exact Hboth|..]; [|by intros ? ? []..|by intros ? []].
  intros [] s' [(_ & _ & [?|?]) _]; done.
Qed.

Definition run_output : path := record_path run_window "aggregate.json".

Lemma run_nodes s links :
  w_records s !! (run_window, "maintenance.json") = Some (WRecord (PDict [("windows", PList [])]) links) →
  w_records s !! (run_window, "aggregate.json") = None →
  window_nodes s run_window
  = [(record_path run_window "maintenance.json", NDoc (PDict [("windows", PList [])]))].
Proof. intros H1 H2. unfold window_nodes. cbn [omap list_omap]. by rewrite H1, H2. Qed.

Lemma canary_makes_report s links :
  w_records s !! (run_window, "maintenance.json") = Some (WRecord (PDict [("windows", PList [])]) links) →
  w_records s !! (run_window, "aggregate.json") = None →
  ∃ c, canary_process canary_event s run_window (stamp run_end) = (ORet 0, c)
       ∧ find_node run_output (c_store c) = Some (NDoc run_report).
Proof.
  intros Hmaint Hagg. unfold canary_process. rewrite full_outside, (run_nodes s links Hmaint Hagg).
  set (nodes := [_]). set (s0 := CState 0 (full_evidence run_end ++ nodes) [] []).
  assert (Forall window_file nodes) as Hnodes by (by repeat constructor).
  cut (wp (@canary_main calm_canary (Ok []) (Ok "") (aggregate_arguments run_window (stamp run_end)))
         (λ code c, code = 0 ∧ find_node run_output (c_store c) = Some (NDoc run_report)) (λ _ _, False) (λ _, False) s0).
  { unfold wp. change (wr_canary canary_event) with calm_canary.
    destruct (@canary_main calm_canary (Ok []) (Ok "") _ s0) as [[code|e|] c]; [|done|done].
    intros [-> Hc]. by exists c. }
  unfold canary_main. apply wp_try, wp_bind. unfold dispatch, aggregate_arguments. cbn [ar_command ar_evidence_root].
  apply wp_bind, wp_lift; [intros e He|intros e He; by vm_compute in He].
  assert (e = run_end) as -> by (vm_compute in He; by injection He as <-). clear He.
  unfold aggregate_window. change (window_length "30d") with (Some (30 * day_us)). cbv zeta iota beta.
  change (floor_minute run_end) with run_end.
  apply wp_bind, wp_lift; [intros start He|intros x He; by vm_compute in He].
  assert (start = declared_start) as -> by (vm_compute in He; by injection He as <-). clear He.
  assert (node_json (record_path run_window "maintenance.json")
            (find_node (record_path run_window "maintenance.json") (c_store s0)) = Ok [("windows", PList [])]) as Hnode.
  { unfold s0. cbn [c_store]. rewrite full_absent by reflexivity. reflexivity. }
  apply wp_bind, wp_bind, wp_read; rewrite Hnode; [intros document [= <-]|intros e [=]].
  apply wp_lift; [intros windows [= <-]|intros e [=]].
  destruct (complete_aggregate run_candidate FROZEN_ENDPOINT run_sample CANARY (full_evidence run_end ++ nodes)
    run_path declared_start eq_refl) as (ts & latencies & Hts & Hlat & Hrun).
  { rewrite sample_paths_outside by done. unfold full_evidence. by rewrite full_paths. }
  { intros t Ht. unfold full_evidence. by rewrite full_find. }
  { exact run_complete. }
  apply run_latencies_are in Hlat as ->; [|exact Hts].
  specialize (Hrun s0 eq_refl). fold run_end in Hrun.
  apply wp_bind. eapply wp_run; [exact Hrun|].
  apply wp_bind. unfold wp at 1, utc_now at 1.
  set (report := report_py _ ++ _). assert (jsort (PDict report) = run_report) as Hreport by reflexivity.
  apply wp_bind. eapply wp_mono; [apply write_returns|..].
  - intros n. reflexivity.
  - apply aggregate_not_staging.
  - cbn [tick_on c_store s0]. rewrite full_absent by reflexivity. reflexivity.
  - cbn [tick_on c_store s0]. rewrite full_absent by reflexivity. reflexivity.
  - intros [] s1 Hs1. apply wp_ret, wp_ret. rewrite Hreport in Hs1. split; [reflexivity|exact Hs1].
  - intros e s1 [].
  - intros s1 [].
Qed.

(** ** The run *)

Section running.
Context {S A B : Type}.
Implicit Types (m : eff S A) (s : S).

Lemma run_returns m s o : (m s).1 = o → m s = (o, (m s).2).
Proof. intros <-. by destruct (m s). Qed.
Lemma bind_run m (f : A → eff S B) s a s1 r : m s = (ORet a, s1) → f a s1 = r → (m ≫= f) s = r.
Proof. intros Hm Hf. unfold mbind, eff_bind. by rewrite Hm. Qed.
Lemma bind_returns m (f : A → eff S B) s a r : (m s).1 = ORet a → f a (m s).2 = r → (m ≫= f) s = r.
Proof. intros Hm. by apply bind_run, run_returns. Qed.
Lemma try_run m h s a s1 : m s = (ORet a, s1) → e_try m h s = (ORet a, s1).
Proof. intros Hm. unfold e_try. by rewrite Hm. Qed.
End running.

(** Evaluates the first call of a sequence; the state after it is not printed. *)
Ltac call_step :=
  lazymatch goal with
  | |- (?m ≫= ?f) ?s = ?r =>
      let o := eval vm_compute in (m s).1 in
      lazymatch o with
      | ORet ?a => refine (bind_returns m f s a r _ _); [vm_cast_no_check (eq_refl o)|cbv beta iota]
      end
  end.
Ltac call_rest :=
  lazymatch goal with |- ?m ?s = _ => refine (run_returns m s (ORet ()) _); vm_cast_no_check (eq_refl (ORet () : outcome unit)) end.

Lemma run_canary_returns s links :
  w_ev s = canary_event →
  w_records s !! (run_window, "maintenance.json") = Some (WRecord (PDict [("windows", PList [])]) links) →
  w_records s !! (run_window, "aggregate.json") = None →
  run_canary run_window (stamp run_end) s
  = (ORet (), with_records <[(run_window, "aggregate.json") := WRecord run_report 1]> (wtick s)).
Proof.
  intros Hev Hmaint Hagg. destruct (canary_makes_report s links Hmaint Hagg) as (c & Hc & Hfound).
  unfold run_canary. eapply bind_run.
  - rewrite Hev, Hc, Hagg. unfold run_output in Hfound. rewrite Hfound. reflexivity.
  - reflexivity.
Qed.

Definition final_map : path := evidence_file "final-map".
Lemma finalize_returns :
  ∃ s, manager_main (WOn run_directory (DFinalize final_map)) s_started = (ORet 0, s)
       ∧ bool_decide (is_Some (w_records s !! (run_window, "final.json"))) = true.
Proof.
  eexists. split.
  - unfold manager_main. apply try_run. eapply bind_run; [|reflexivity].
    unfold window_dispatch. do 6 call_step. cbn [on_window]. unfold finalize_window.
    eapply bind_run.
    + unfold aggregate_declared. do 15 call_step. eapply bind_run.
      * unfold make_aggregate. do 3 call_step.
        refine (run_canary_returns _ 1 _ _ _); [vm_cast_no_check (eq_refl canary_event)|..];
          vm_compute; reflexivity.
      * call_rest.
    + call_rest.
  - vm_cast_no_check (eq_refl true).
Qed.

(** ** The theorems on this run *)

Lemma after_reachable c s : window_reachable s → window_reachable (after c s).
Proof. intros Hs. unfold after. destruct (manager_main c s) as [o s'] eqn:Hrun. by eapply window_step. Qed.
Lemma declared_reachable : window_reachable s_declared.
Proof. apply after_reachable, window_initial. Qed.
Lemma started_reachable : window_reachable s_started.
Proof. apply after_reachable, after_reachable, declared_reachable. Qed.


Lemma declared_unfinished : unfinished (w_records s_declared) run_window.
Proof.
  split; [|split; by vm_compute].
  apply (bool_decide_eq_true_1 (is_Some (w_records s_declared !! (run_window, "declaration.json")))).
  by vm_compute.
Qed.
Lemma one_unfinished_window_witness :
  window_reachable s_declared ∧ unfinished (w_records s_declared) run_window ∧ run_window = run_window.
Proof.
  split; [exact declared_reachable|]. split; [exact declared_unfinished|].
  exact (one_unfinished_window s_declared _ _ declared_reachable declared_unfinished declared_unfinished).
Defined.

Lemma records_permanent_witness :
  ∃ r, w_records s_declared !! (run_window, "declaration.json") = Some r
       ∧ w_records s_bound !! (run_window, "declaration.json") = Some r.
Proof.
  destruct declared_unfinished as [[r Hr] _]. exists r. split; [exact Hr|].
  destruct (manager_main (WOn run_directory (DBind "123")) s_declared) as [o s'] eqn:Hrun.
  assert (s_bound = s') as -> by (unfold s_bound, after; by rewrite Hrun).
  exact (proj1 (records_permanent s_declared _ o s' declared_reachable Hrun) _ _ _ Hr).
Defined.

Lemma run_evidence_complete :
  complete_evidence CANARY (full_evidence run_end) declared_start run_candidate FROZEN_ENDPOINT.
Proof.
  exists run_path, run_sample. split; [|split].
  - unfold full_evidence. rewrite full_paths. reflexivity.
  - intros t Ht. unfold full_evidence. rewrite <- (app_nil_r (map run_node _)).
    rewrite full_find; [reflexivity|by intros u Hu|exact Ht].
  - exact run_complete.
Qed.
Lemma complete_window_accepted_witness :
  wp (aggregate_samples CANARY declared_start (declared_start + WINDOW_DURATION * second_us) [])
    (λ r _, rp_overall_pass r = true) (λ _ _, False) (λ _, False) (CState 0 (full_evidence run_end) [] []).
Proof.
  eapply wp_mono; [apply (complete_window_accepted CANARY (CState 0 (full_evidence run_end) [] []) declared_start
    run_candidate FROZEN_ENDPOINT the_declaration run_candidate)|..].
  1, 2: by vm_compute.
  - reflexivity.
  - exact run_evidence_complete.
  - by vm_compute.
  - by vm_compute.
  - by vm_compute.
  - by vm_compute.
  - by vm_compute.
  - by intros r s' (_ & Hpass & _).
  - by intros e s' [].
  - by intros s' [].
Defined.
